(* ===== verification/_CoqProject ===== *)
-Q . S2P
Prelude.v
Task.v
Sched.v
WaitQ.v
Desc.v
Mem.v
Vsprintf.v
Lib.v
Block.v
Console.v
Tty.v
DList.v
Buffer.v
Blk.v
Hd.v
Fork.v
Fs.v
Blocks.v
Super.v
Mini.v
Bitmap.v
Inode.v
Bmap.v
Trunc.v
Namei.v
Dir.v
Walk.v
Files.v
Mount.v
Setup.v
Start.v
Pages.v
Fault.v
Boot.v
Init.v
Leak.v
