(* ===== verification/Prelude.v ===== *)
(** * gpos: a verification library of the kernel

    gpos is a small Unix-like kernel for the i386 in the manner of early Linux:
    a boot loader, start-up code, pages and processes, a console, a disk
    driver with a buffer cache, and the Minix file system up to open(2).  This
    library has the C code of src/, and the assembly that the C code depends
    on, as executable functions, and theorems on what they do.

    ** The program

    The boot loader (bootloader/x86) finds the kernel in the file system of
    its partition and copies it to 8M.  head.S maps the memory at its own
    addresses and main() (arch/x86/main.c) initialises the components: the page
    allocator (mm/), the gates, the scheduler (kernel/schedule.c), the disk
    driver and its request queue (drivers/block/), the console and its terminal
    (drivers/char/tty/), the buffer cache (fs/buffer.c).  Then it enters user
    mode as task 0, forks, and the child runs init(): this reads the partition
    tables, mounts the root device and opens the terminal, and then there are
    three processes that watch the clock.  From then on the kernel
    is entered by system calls (arch/x86/asm/system_call.S), page faults
    (mm/page.s), the timer and the disk.

    The components share the table of tasks and sleep on the wait queues of
    kernel/schedule.c.  The file system calls the buffer cache, this the
    request queue, and this the driver, whose interrupt handler wakes up the
    tasks that wait for a buffer.  A page fault calls the allocator, the file
    system for the inode of the program, and the buffer cache for its blocks.

    ** How the code is modelled

    Every component has a record for its static variables, and one definition
    for each function, macro or handler, of the same name.  A loop or a branch
    of a function that has a meaning of its own is a definition beside it.
    Functions that change state are computations of the monad [M] of this file,
    composed in the order of the code; a component runs on its part of a larger
    state by a [lens].  Integers are [Z], with [u8], [u16], [u32] and [s32]
    where the width shows.  A pointer into a static table is the index of the
    element, NULL is [None]; other addresses are numbers.  A list of bytes or
    words is memory, and the access functions stop out of its range.

    A computation returns or stops, for one of five reasons: [Panic] is
    panic(), [Hang] an endless loop of the code, [Fault] an access through NULL
    or beyond an object, [Blocked] a task that waits for ever in the given
    future of the system, and [NoFuel].  Loops have fuel only where they are
    not bounded by a constant or a list.  The theorems say that the result is
    [Ret], so that the code returns, for every fuel above a bound in the
    statement: NR_TASKS + 1 for find_empty_process(), since at most NR_TASKS
    pids are in use; 2^20 for main(), where mm_init() looks at one page per
    turn; NR_INODE + NR_SUPER for the loops of the file system over its
    tables, which go to the next entry in each turn; the length of a string or
    path for the loops over it; 2 for schedule(), whose second turn finds the
    counters recharged; without a runnable task it runs out of any fuel.

    A task that sleeps is seen in two ways.  WaitQ.v cuts sleep_on() at
    schedule() and runs the pieces of all tasks as a transition system.  For
    the code above it, Block.v gives one task the future of the rest of the
    system, a list of arbitrary state changes, and a theorem says which of
    them it allows.  Interrupt handlers are functions that are called between
    the steps of a theorem; handlers that interrupt a running piece of code are
    not modelled, since the code disables interrupts where they matter.

    ** The files

    This file: record update, the monad, lenses, weakest preconditions,
    machine integers, arrays indexed by C integers, and the tactics and hints
    that all files use.

    Processes.
    - Task.v: [task_struct], [tss_struct], [desc_struct], [INIT_TASK].
    - Sched.v: schedule(), do_timer(), find_empty_process().  schedule() ends
      with a runnable task of maximal counter; a task that is never blocked
      runs within a bounded number of ticks; a new pid is positive and fresh.
    - WaitQ.v: sleep_on(), interruptible_sleep_on(), wake_up().  Module
      [Machine] has the tasks and queues as one state with a step relation: one
      wake_up() reaches all tasks that sleep in a queue which nobody joins
      meanwhile, and a run exists in which a sleeping task is lost.
    - Block.v: the same calls as one task sees them.
    - Desc.v: segment and gate descriptors; the byte moves of the macros decode
      to the fields that they mean.
    - Fork.v: sys_fork(), copy_process(), copy_mem(), schedule_init().  The
      child is what [child_ok] says of each field, and shares the pages, files
      and inodes of its parent, all counted.

    Memory.
    - Mem.v: mm/memory.c up to mm_init().  [mm_wf] is the agreement of the
      bitmap with the counts; allocation, release, copy on write and
      copy_page_tables() keep it and do what they say, on all branches.
    - Pages.v: [translate], the walk of the processor, and put_page(),
      get_empty_page() and try_to_share() seen through it.
    - Fault.v: do_no_page(), do_wp_page(), share_page(), bread_page().  After a
      fault the walk leads to the page of the program, whichever way it came.

    Text.
    - Vsprintf.v: vsprintf() and printk().  The layout of number(), that every
      format terminates, and that skip_atoi() reads back what %d prints.
    - Lib.v: ctype.h, string.h, call numbers and the table of system calls.
    - Console.v: console.c as a state machine on characters.  It never leaves
      the video memory, and scrolling refines a grid of cells.
    - Tty.v: ring buffers, copy_to_cooked(), con_write(), tty_write().  The
      line discipline refines [discipline], an editor on lists of characters; class [Writer]
      is what it uses of the device.

    Blocks.
    - DList.v: doubly linked lists in two pointer fields, by their edges.
    - Buffer.v: fs/buffer.c.  [wf] is the invariant of free list and hash
      queues; getblk() keeps it, under every interleaving that does (class
      [Sleeper]), and buffer_init() establishes it.
    - Blk.v: ll_rw_blk.c and blk.h: the elevator order of the requests.
    - Hd.v: hd.c against class [Disk], the ports of the controller, and
      [DiskOk], the documented behaviour of an ATA drive; module [Sample] is a
      drive that has it.  A read or write request and its two interrupts
      transfer the sectors; errors are retried and end the request.
    - Setup.v: sys_setup() with the CMOS and the partition tables, against
      class [Drives]; module [Beside] adds drives to any file system state.

    Files.
    - Fs.v: the tables of inodes, files and super blocks.  Class [Env] is what
      the file system sees and calls of the rest of the kernel.
    - Blocks.v: [BlockIO], the contract of the buffer cache that the theorems
      about files are proved against, and module [Warm], where the cache of
      Buffer.v meets it.
    - Super.v, Bitmap.v, Inode.v, Bmap.v, Trunc.v: read_super(), the bitmaps,
      the inodes and their table, the blocks of a file, truncate().  The scan
      by double words is the scan of bits; the table of inodes is a cache of
      those of the disk, written back with the last reference; bmap() is the map [file_block], which create_block()
      extends.
    - Namei.v, Dir.v, Walk.v: fs/namei.c.  find_entry() is a search in a list
      of entries; open_namei() is [resolve], the walk in the graph of
      directories, with its errors.
    - Files.v: open, dup, write and their descriptors.
    - Mount.v: mount_root(), which establishes [fs_inv], the invariant of all
      the above.
    - Mini.v: the small file system at which these theorems are applied.

    From power-on to the first process.
    - Boot.v: the second stage of the boot loader, over the bytes of the
      partition; which file it loads and where, and its get_inode() against
      read_inode() of the kernel.
    - Init.v: main().  [system] has the states of all components side by side;
      class [Board] is the interrupt controllers and the timer, module [Pc] an
      instance.  main() ends with every component in its invariant.
    - Leak.v: setup_paging of head.S, main() on the tables that it makes, and
      how the fork() that follows breaks [mm_wf] by counting the free pages.
    - Start.v: init() through the wrappers of lib/ and system_call, over the
      states of Setup.v, and the loops of the processes after it; module [Demo]
      runs it.

    ** What the theorems assume

    Hypotheses are about three things.  The hardware: [DiskOk], [Board], the
    bytes left by the BIOS.  The data on the disk: [mountable], [tree_ok],
    [file_ok], [dir_ok] say that the super block, directories and files are in
    order, as mkfs leaves them.  The rest of the kernel, by the classes above,
    each with an instance made of the code that stands behind it or, for
    hardware, of a concrete device.  Every numbered theorem (C1 to C40)
    with hypotheses is applied at a concrete state by a lemma of its name and
    the suffix _witness.

    The blocks in use fit in the cache in module [Warm]: getblk() drops the
    contents of dirty buffers when no clean one is left (the loop that would
    write them is commented out), so that no more can be said.

    ** What is not modelled

    - bootloader/x86/boot.S, loader.S and hdisk/hboot.S, the entry of
      hdloader.S: real-mode code whose effect is that of the BIOS.
      read_blocks() of hdloader.S is in Boot.v.
    - kb.S: the keyboard tables.  What becomes of its characters in the read
      queue is in Tty.v.
    - The bodies of the system calls at the end of schedule.c are empty, and
      signal.h, and most of termios.h and unistd.h, declare what no code
      reads.
    - Messages that the kernel prints on its way, and apps/bin/hello.c, which no
      call of the kernel could load.
    - sti and cli around code that has no model of an interrupt, the entries of
      the interrupts in system_call.S beyond what hd_interrupt does, and the
      exchange of registers by the task gate, which is the processor's: it is
      the change of [current].
*)

From Stdlib Require Export ZArith Lia.
From stdpp Require Export base option list gmap numbers strings.

#[global] Open Scope Z_scope.

(** ** Record update

    [r <| f := v |>] is the C assignment [r.f = v] as a pure function.  A
    record type opts in by an [Eta] instance, its eta expansion. *)

Class Eta (R : Type) := eta : R -> R.
Class Upd {R T : Type} (f : R -> T) := upd : (T -> T) -> R -> R.
Arguments upd {R T} f {_} g r /.

Ltac derive_upd :=
  lazymatch goal with
  | |- @Upd ?R ?T ?f =>
      let g := fresh "g" in
      let r := fresh "r" in
      intros g r;
      let e := eval hnf in (eta r) in
      lazymatch eval pattern (f r) in e with
      | ?F _ => let z := eval cbv beta in (F (g (f r))) in exact z
      end
  end.
#[export] Hint Extern 1 (Upd _) => derive_upd : typeclass_instances.

Declare Scope gpos_scope.
Delimit Scope gpos_scope with gpos.
#[global] Open Scope gpos_scope.

Notation "r <| f ::= g |>" := (upd f g r)
  (at level 1, f at next level, g at level 200,
   format "r  <| f  ::=  g |>") : gpos_scope.
Notation "r <| f := v |>" := (upd f (fun _ => v) r)
  (at level 1, f at next level, v at level 200,
   format "r  <| f  :=  v |>") : gpos_scope.

(** ** Why a computation stops without returning

    [Panic] is [panic()] (which never returns); [Hang] a [for(;;)] written in
    the code; [Fault] an access through NULL or out of the bounds of the
    object; [Blocked] a task still asleep when the given future of the rest
    of the system ends; [NoFuel] a loop that did not end within the fuel. *)

Inductive stop := Panic (msg : string) | Hang | Fault | Blocked | NoFuel.

Inductive res (S A : Type) :=
| Ret (a : A) (s : S)
| Stop (w : stop) (s : S).
Arguments Ret {S A} a s.
Arguments Stop {S A} w s.

(** ** The state and error monad of every component *)

Definition M (S A : Type) : Type := S -> res S A.

Section monad.
Context {S : Type}.

Definition ret {A} (a : A) : M S A := fun s => Ret a s.
Definition bind {A B} (m : M S A) (k : A -> M S B) : M S B :=
  fun s => match m s with
           | Ret a s' => k a s'
           | Stop w s' => Stop w s'
           end.
Definition halt {A} (w : stop) : M S A := fun s => Stop w s.
Definition get : M S S := fun s => Ret s s.
Definition gets {A} (f : S -> A) : M S A := fun s => Ret (f s) s.
Definition modify (f : S -> S) : M S unit := fun s => Ret tt (f s).

(** The value of an array element or of a pointer target, [Fault] when
    there is none. *)
Definition deref {A} (o : option A) : M S A :=
  match o with Some a => ret a | None => halt Fault end.
End monad.

Notation "'let!' x ':=' m 'in' k" := (bind m (fun x => k))
  (at level 10, x pattern, m at level 100, k at level 200,
   format "'[v' 'let!'  x  ':='  m  'in' '/' k ']'") : gpos_scope.
Notation "m ;; k" := (bind m (fun _ => k))
  (at level 100, k at level 200, right associativity,
   format "'[v' m ;; '/' k ']'") : gpos_scope.

(** [if (c) m] *)
Definition when {S} (c : bool) (m : M S unit) : M S unit :=
  if c then m else ret tt.

(** Running a computation on a part of the state. *)
Record lens (S T : Type) := Lens { lget : S -> T; lset : T -> S -> S }.
Arguments Lens {S T}. Arguments lget {S T}. Arguments lset {S T}.

Class LensOk {S T} (l : lens S T) : Prop := {
  get_set t s : lget l (lset l t s) = t;
  set_get s : lset l (lget l s) s = s;
  set_set t t' s : lset l t (lset l t' s) = lset l t s
}.

(** Two parts of the state that do not overlap. *)
Class Apart {S T U} (l : lens S T) (k : lens S U) : Prop := {
  get_apart u s : lget l (lset k u s) = lget l s;
  apart_get t s : lget k (lset l t s) = lget k s;
  set_apart t u s : lset l t (lset k u s) = lset k u (lset l t s)
}.

Definition zoom {S T A} (l : lens S T) (m : M T A) : M S A :=
  fun s => match m (lget l s) with
           | Ret a t => Ret a (lset l t s)
           | Stop w t => Stop w (lset l t s)
           end.

(** ** Weakest preconditions

    [wp m Q E s]: run in [s], [m] either returns a value and a state in [Q],
    or stops for a reason and in a state allowed by [E]. *)

Definition wp {S A} (m : M S A) (Q : A -> S -> Prop) (E : stop -> S -> Prop)
    (s : S) : Prop :=
  match m s with Ret a s' => Q a s' | Stop w s' => E w s' end.

(** No stop at all is allowed, respectively only waiting for ever. *)
Definition never {S} : stop -> S -> Prop := fun _ _ => False.

Section wp.
Context {S : Type}.
Implicit Types (s : S) (E : stop -> S -> Prop).

Lemma wp_ret {A} (a : A) (Q : A -> S -> Prop) E s :
  Q a s -> wp (ret a) Q E s.
Proof. done. Qed.

Lemma wp_bind {A B} (m : M S A) (k : A -> M S B) Q E s :
  wp m (fun a s' => wp (k a) Q E s') E s -> wp (bind m k) Q E s.
Proof. unfold wp, bind. by destruct (m s). Qed.

Lemma wp_gets {A} (f : S -> A) (Q : A -> S -> Prop) E s :
  Q (f s) s -> wp (gets f) Q E s.
Proof. done. Qed.

Lemma wp_get (Q : S -> S -> Prop) E s : Q s s -> wp get Q E s.
Proof. done. Qed.

Lemma wp_modify f (Q : unit -> S -> Prop) E s :
  Q tt (f s) -> wp (modify f) Q E s.
Proof. done. Qed.

Lemma wp_halt {A} w (Q : A -> S -> Prop) E s : E w s -> wp (halt w) Q E s.
Proof. done. Qed.

Lemma wp_mono {A} (m : M S A) (Q Q' : A -> S -> Prop) E E' s :
  wp m Q E s ->
  (forall a s', Q a s' -> Q' a s') -> (forall w s', E w s' -> E' w s') ->
  wp m Q' E' s.
Proof. unfold wp. destruct (m s); auto. Qed.

Lemma wp_Ret {A} (m : M S A) (Q : A -> S -> Prop) E s a s' :
  wp m Q E s -> m s = Ret a s' -> Q a s'.
Proof. unfold wp. intros H E1. by rewrite E1 in H. Qed.

Lemma wp_when c m (Q : unit -> S -> Prop) E s :
  (c = true -> wp m Q E s) -> (c = false -> Q tt s) -> wp (when c m) Q E s.
Proof. destruct c; cbn; auto. Qed.

Lemma wp_deref {A} (o : option A) (Q : A -> S -> Prop) E s a :
  o = Some a -> Q a s -> wp (deref o) Q E s.
Proof. by intros ->. Qed.

Lemma bind_ret {A B} (m : M S A) (k : A -> M S B) s a s' :
  m s = Ret a s' -> bind m k s = k a s'.
Proof. unfold bind. by intros ->. Qed.

Lemma bind_Ret_inv {A B} (m : M S A) (k : A -> M S B) s b s' :
  bind m k s = Ret b s' -> exists a s1, m s = Ret a s1 /\ k a s1 = Ret b s'.
Proof. unfold bind. destruct (m s) as [a s1|]; [eauto|done]. Qed.

Lemma zoom_Ret_inv {T A} (l : lens S T) (m : M T A) s a s' :
  zoom l m s = Ret a s' ->
  exists t, m (lget l s) = Ret a t /\ s' = lset l t s.
Proof.
  unfold zoom. destruct (m (lget l s)); [|done]. intros [= <- <-]. eauto.
Qed.

(** Reading and changing the part. *)
Lemma bind_zoom {T A B} (l : lens S T) (m : M T A) (k : A -> M S B) s a t :
  m (lget l s) = Ret a t -> bind (zoom l m) k s = k a (lset l t s).
Proof. intros E. unfold bind, zoom. by rewrite E. Qed.
Lemma bind_zoom_read {T A B} (l : lens S T) `{!LensOk l} (m : M T A) (k : A -> M S B) s a :
  m (lget l s) = Ret a (lget l s) -> bind (zoom l m) k s = k a s.
Proof. intros E. by rewrite (bind_zoom _ _ _ _ _ _ E), set_get. Qed.
Lemma wp_zoom {T A} (l : lens S T) (m : M T A) (Q : A -> S -> Prop) E s :
  wp m (fun a t => Q a (lset l t s)) (fun w t => E w (lset l t s)) (lget l s) ->
  wp (zoom l m) Q E s.
Proof. unfold wp, zoom. by destruct (m (lget l s)). Qed.

Lemma bind_get {B} (k : S -> M S B) s : bind get k s = k s s.
Proof. done. Qed.
Lemma bind_gets {A B} (f : S -> A) (k : A -> M S B) s :
  bind (gets f) k s = k (f s) s.
Proof. done. Qed.
Lemma bind_modify {B} f (k : unit -> M S B) s :
  bind (modify f) k s = k tt (f s).
Proof. done. Qed.
Lemma bind_ret_l {A B} (a : A) (k : A -> M S B) s : bind (ret a) k s = k a s.
Proof. done. Qed.
Lemma bind_deref {A B} (o : option A) (k : A -> M S B) s a :
  o = Some a -> bind (deref o) k s = k a s.
Proof. by intros ->. Qed.
Lemma bind_when_true {B} c m (k : unit -> M S B) s :
  c = true -> bind (when c m) k s = bind m k s.
Proof. by intros ->. Qed.
Lemma bind_when_false {B} c m (k : unit -> M S B) s :
  c = false -> bind (when c m) k s = k tt s.
Proof. by intros ->. Qed.

Lemma bind_assoc {A B C} (m : M S A) (k : A -> M S B) (k' : B -> M S C) s :
  bind (bind m k) k' s = bind m (fun a => bind (k a) k') s.
Proof. unfold bind. by destruct (m s). Qed.
End wp.

(** ** Machine integers *)

Definition u8 (x : Z) : Z := x mod 2 ^ 8.
Definition u16 (x : Z) : Z := x mod 2 ^ 16.
Definition u32 (x : Z) : Z := x mod 2 ^ 32.
Definition s8 (x : Z) : Z := (x + 2 ^ 7) mod 2 ^ 8 - 2 ^ 7.
Definition s32 (x : Z) : Z := (x + 2 ^ 31) mod 2 ^ 32 - 2 ^ 31.

Lemma u8_range x : 0 <= u8 x < 2 ^ 8.
Proof. apply Z.mod_pos_bound. lia. Qed.
Lemma u16_range x : 0 <= u16 x < 2 ^ 16.
Proof. apply Z.mod_pos_bound. lia. Qed.
Lemma u32_range x : 0 <= u32 x < 2 ^ 32.
Proof. apply Z.mod_pos_bound. lia. Qed.
Lemma s8_range x : - 2 ^ 7 <= s8 x < 2 ^ 7.
Proof. unfold s8. pose proof (Z.mod_pos_bound (x + 2 ^ 7) (2 ^ 8)). lia. Qed.
Lemma s32_range x : - 2 ^ 31 <= s32 x < 2 ^ 31.
Proof. unfold s32. pose proof (Z.mod_pos_bound (x + 2 ^ 31) (2 ^ 32)). lia. Qed.
Lemma u8_small x : 0 <= x < 2 ^ 8 -> u8 x = x.
Proof. apply Z.mod_small. Qed.
Lemma u16_small x : 0 <= x < 2 ^ 16 -> u16 x = x.
Proof. apply Z.mod_small. Qed.
Lemma u32_small x : 0 <= x < 2 ^ 32 -> u32 x = x.
Proof. apply Z.mod_small. Qed.
Lemma s8_small x : - 2 ^ 7 <= x < 2 ^ 7 -> s8 x = x.
Proof. intros. unfold s8. rewrite Z.mod_small; lia. Qed.
Lemma s32_small x : - 2 ^ 31 <= x < 2 ^ 31 -> s32 x = x.
Proof. intros. unfold s32. rewrite Z.mod_small; lia. Qed.

(** C truth values. *)
Definition truth (x : Z) : bool := negb (x =? 0).
Definition b2z (b : bool) : Z := if b then 1 else 0.

(** ** Arrays indexed by C integers *)

Definition zget {A} (l : list A) (i : Z) : option A :=
  if i <? 0 then None else l !! Z.to_nat i.
Definition zset {A} (i : Z) (v : A) (l : list A) : list A :=
  if i <? 0 then l else <[Z.to_nat i := v]> l.

Section arrays.
Context {A : Type}.
Implicit Types (l : list A) (i j : Z) (v : A).

Lemma zget_Some_range l i v :
  zget l i = Some v -> 0 <= i < Z.of_nat (length l).
Proof.
  unfold zget. case (Z.ltb_spec i 0); [done|].
  intros ? ?%lookup_lt_Some. lia.
Qed.
Lemma zget_is_Some l i :
  0 <= i < Z.of_nat (length l) -> exists v, zget l i = Some v.
Proof.
  intros. unfold zget. case (Z.ltb_spec i 0); [lia|]. intros _.
  apply lookup_lt_is_Some_2. lia.
Qed.
Lemma zget_zset_eq l i v :
  0 <= i < Z.of_nat (length l) -> zget (zset i v l) i = Some v.
Proof.
  intros. unfold zget, zset. case (Z.ltb_spec i 0); [lia|]. intros _.
  apply list_lookup_insert_eq. lia.
Qed.
Lemma zget_zset_ne l i j v : i <> j -> zget (zset i v l) j = zget l j.
Proof.
  intros. unfold zget, zset.
  case (Z.ltb_spec i 0); [done|]. case (Z.ltb_spec j 0); [done|]. intros.
  apply list_lookup_insert_ne. lia.
Qed.
Lemma length_zset l i v : length (zset i v l) = length l.
Proof. unfold zset. case (i <? 0); [done|]. apply length_insert. Qed.
Lemma zset_zset l i v v' : zset i v (zset i v' l) = zset i v l.
Proof. unfold zset. case (i <? 0); [done|]. apply list_insert_insert_eq. Qed.
Lemma zset_id l i v : zget l i = Some v -> zset i v l = l.
Proof.
  unfold zget, zset. case (i <? 0); [done|]. apply list_insert_id.
Qed.
End arrays.

(** [feed H]: ask for the premise of [H], then specialise it. *)
Ltac feed H :=
  match type of H with
  | ?P -> _ => let HP := fresh in assert (HP : P); [|specialize (H HP)]
  end.

(** ** Sums of the values of the first [n] slots of a table *)

Fixpoint zsum (w : nat -> Z) (n : nat) : Z :=
  match n with O => 0 | S n' => zsum w n' + w n' end.

Lemma zsum_ext w w' n :
  (forall j, (j < n)%nat -> w j = w' j) -> zsum w n = zsum w' n.
Proof. induction n as [|n IH]; intros H; cbn; [done|]. rewrite IH, H; auto. Qed.

Lemma zsum_update w w' k n :
  (k < n)%nat -> (forall j, j <> k -> w' j = w j) ->
  zsum w' n = zsum w n - w k + w' k.
Proof.
  intros Hk H. induction n as [|n IH]; [lia|]. cbn.
  destruct (decide (k = n)) as [->|].
  - rewrite (zsum_ext w' w n); [lia|]. intros. apply H. lia.
  - rewrite IH by lia. rewrite (H n) by lia. lia.
Qed.

Lemma zsum_S_l w n : zsum w (S n) = w 0%nat + zsum (fun i => w (S i)) n.
Proof. induction n as [|n IH]; [cbn; lia|]. cbn [zsum] in *. lia. Qed.

Lemma zsum_zero w n : (forall j, (j < n)%nat -> w j = 0) -> zsum w n = 0.
Proof.
  induction n as [|n IH]; intros H; cbn; [done|]. rewrite IH, (H n); auto.
Qed.

Lemma zsum_nonneg w n : (forall j, (j < n)%nat -> 0 <= w j) -> 0 <= zsum w n.
Proof.
  induction n as [|n IH]; intros H; cbn; [lia|].
  pose proof (H n ltac:(lia)). pose proof (IH ltac:(auto)). lia.
Qed.

Lemma zsum_ge w n k :
  (k < n)%nat -> (forall j, (j < n)%nat -> 0 <= w j) -> w k <= zsum w n.
Proof.
  intros Hk H. rewrite (zsum_update (fun j => if decide (j = k) then 0 else w j)
    w k) by (try lia; intros; by rewrite decide_False).
  rewrite decide_True by done.
  pose proof (zsum_nonneg (fun j => if decide (j = k) then 0 else w j) n) as H0.
  feed H0; [|lia]. intros j Hj. case_decide; [lia|auto].
Qed.

(** ** Bits of a word *)

Lemma bit_land_shiftl1 x n :
  0 <= n -> Z.land x (Z.shiftl 1 n) = 0 <-> Z.testbit x n = false.
Proof.
  intros Hn. split; intros H.
  - assert (Hb : Z.testbit (Z.land x (Z.shiftl 1 n)) n = false)
      by (rewrite H; apply Z.bits_0).
    rewrite Z.land_spec, Z.shiftl_spec, Z.sub_diag, andb_true_r in Hb by lia.
    done.
  - apply Z.bits_inj'. intros k Hk.
    rewrite Z.land_spec, Z.bits_0, Z.shiftl_spec by lia.
    destruct (decide (k = n)) as [->|]; [by rewrite H|].
    apply andb_false_iff. right.
    destruct (decide (k < n)); [apply Z.testbit_neg_r; lia|].
    change 1 with (2 ^ 0). apply Z.pow2_bits_false. lia.
Qed.

(** Field [off, off + len) of a word: read it, write it. *)
Definition getbits (w off len : Z) : Z := Z.shiftr w off mod 2 ^ len.
Definition putbits (w off len v : Z) : Z :=
  Z.lor (Z.ldiff w (Z.shiftl (Z.ones len) off)) (Z.shiftl (v mod 2 ^ len) off).

Lemma mod_pow2_testbit x k n :
  0 <= k -> 0 <= n -> Z.testbit (x mod 2 ^ k) n = (n <? k) && Z.testbit x n.
Proof.
  intros. destruct (Z.ltb_spec n k); cbn.
  - by apply Z.mod_pow2_bits_low.
  - by apply Z.mod_pow2_bits_high.
Qed.

Lemma ones_testbit k n : 0 <= k -> 0 <= n -> Z.testbit (Z.ones k) n = (n <? k).
Proof.
  intros. destruct (Z.ltb_spec n k); [apply Z.ones_spec_low|apply Z.ones_spec_high]; lia.
Qed.

Lemma shiftl_testbit x k n :
  0 <= n -> Z.testbit (Z.shiftl x k) n = (k <=? n) && Z.testbit x (n - k).
Proof.
  intros. rewrite Z.shiftl_spec by done. destruct (Z.leb_spec k n); cbn; [done|].
  apply Z.testbit_neg_r. lia.
Qed.

Lemma getbits_testbit w off len n :
  0 <= off -> 0 <= len -> 0 <= n ->
  Z.testbit (getbits w off len) n = (n <? len) && Z.testbit w (n + off).
Proof.
  intros. unfold getbits. rewrite mod_pow2_testbit, Z.shiftr_spec by lia. done.
Qed.

Lemma putbits_testbit w off len v n :
  0 <= off -> 0 <= len -> 0 <= n ->
  Z.testbit (putbits w off len v) n =
    if (off <=? n) && (n <? off + len) then Z.testbit v (n - off)
    else Z.testbit w n.
Proof.
  intros. unfold putbits.
  rewrite Z.lor_spec, Z.ldiff_spec, !shiftl_testbit by lia.
  destruct (Z.leb_spec off n); cbn.
  - rewrite ones_testbit, mod_pow2_testbit by lia.
    destruct (Z.ltb_spec (n - off) len), (Z.ltb_spec n (off + len)); try lia; cbn.
    + by rewrite andb_false_r.
    + by rewrite andb_true_r, orb_false_r.
  - by rewrite andb_true_r, orb_false_r.
Qed.

Lemma getbits_range w off len : 0 <= len -> 0 <= getbits w off len < 2 ^ len.
Proof. intros. apply Z.mod_pos_bound. by apply Z.pow_pos_nonneg. Qed.

Lemma bits_above x k n : 0 <= x < 2 ^ k -> 0 <= k <= n -> Z.testbit x n = false.
Proof.
  intros Hx Hn. rewrite <-(Z.mod_small x (2 ^ k)) by done.
  apply Z.mod_pow2_bits_high. lia.
Qed.

(** Equality of words bit by bit: the bits of every operation, then a case
    on the position. *)
Ltac bit_rewrite :=
  first
    [ rewrite putbits_testbit by lia | rewrite getbits_testbit by lia
    | rewrite mod_pow2_testbit by lia | rewrite ones_testbit by lia
    | rewrite shiftl_testbit by lia | rewrite Z.shiftr_spec by lia
    | rewrite Z.lor_spec | rewrite Z.land_spec | rewrite Z.ldiff_spec
    | rewrite Z.bits_0 ].
Ltac bit_split :=
  match goal with
  | |- context [Z.ltb ?a ?b] => destruct (Z.ltb_spec a b)
  | |- context [Z.leb ?a ?b] => destruct (Z.leb_spec a b)
  end; try lia; cbn [andb orb negb].
Ltac bitwise :=
  apply Z.bits_inj'; let n := fresh "n" in let Hn := fresh "Hn" in
  intros n Hn;
  repeat first [bit_rewrite | bit_split];
  rewrite ?andb_true_r, ?andb_false_r, ?orb_false_r, ?orb_true_r;
  try done; try (f_equal; lia).

Lemma getbits_putbits_in w off len v off' len' :
  0 <= off <= off' -> 0 <= len' -> off' + len' <= off + len ->
  getbits (putbits w off len v) off' len' = getbits v (off' - off) len'.
Proof. intros. bitwise. Qed.

Lemma getbits_putbits_out w off len v off' len' :
  0 <= off -> 0 <= len -> 0 <= off' -> 0 <= len' ->
  off' + len' <= off \/ off + len <= off' ->
  getbits (putbits w off len v) off' len' = getbits w off' len'.
Proof. intros. bitwise. Qed.

Lemma getbits_all w len : 0 <= len -> getbits w 0 len = w mod 2 ^ len.
Proof. done. Qed.

(** Words of [k] bits are closed under the bit operations. *)
Lemma range_by_mod x k : 0 <= k -> x = x mod 2 ^ k -> 0 <= x < 2 ^ k.
Proof. intros Hk ->. apply Z.mod_pos_bound. by apply Z.pow_pos_nonneg. Qed.

Lemma putbits_range w off len v k :
  0 <= w < 2 ^ k -> 0 <= off -> 0 <= len -> off + len <= k ->
  0 <= putbits w off len v < 2 ^ k.
Proof.
  intros Hw Ho Hl Hk.
  apply range_by_mod; [lia|]. symmetry. bitwise. symmetry.
  apply (bits_above w k); lia.
Qed.

Lemma lor_range a b k :
  0 <= a < 2 ^ k -> 0 <= b < 2 ^ k -> 0 <= k -> 0 <= Z.lor a b < 2 ^ k.
Proof.
  intros. apply range_by_mod; [done|]. symmetry. bitwise. symmetry.
  by rewrite (bits_above a k), (bits_above b k) by lia.
Qed.

Lemma ldiff_range a b k : 0 <= a < 2 ^ k -> 0 <= k -> 0 <= Z.ldiff a b < 2 ^ k.
Proof.
  intros. apply range_by_mod; [done|]. symmetry. bitwise. symmetry.
  by rewrite (bits_above a k) by lia.
Qed.

Lemma land_range a b k : 0 <= a < 2 ^ k -> 0 <= k -> 0 <= Z.land a b < 2 ^ k.
Proof.
  intros. apply range_by_mod; [done|]. symmetry. bitwise. symmetry.
  by rewrite (bits_above a k) by lia.
Qed.

Lemma bit1_testbit i n : 0 <= n -> Z.testbit (Z.shiftl 1 i) n = (n =? i).
Proof.
  intros. rewrite shiftl_testbit by done. destruct (Z.leb_spec i n); cbn.
  - destruct (Z.eqb_spec n i) as [->|].
    + by rewrite Z.sub_diag.
    + change 1 with (2 ^ 0). apply Z.pow2_bits_false. lia.
  - symmetry. apply Z.eqb_neq. lia.
Qed.

Lemma bit1_range i k : 0 <= i < k -> 0 <= Z.shiftl 1 i < 2 ^ k.
Proof.
  intros. rewrite Z.shiftl_mul_pow2, Z.mul_1_l by lia.
  split; [apply Z.pow_nonneg; lia|]. apply Z.pow_lt_mono_r; lia.
Qed.

(** ** Words in memory, little-endian, of bytes *)

Definition le16 (l : list Z) (off : nat) : Z :=
  match take 2 (drop off l) with [a; b] => a + 0x100 * b | _ => 0 end.
Definition le32 (l : list Z) (off : nat) : Z :=
  match take 4 (drop off l) with
  | [a; b; c; d] => a + 0x100 * b + 0x10000 * c + 0x1000000 * d
  | _ => 0
  end.
(** The same in a memory that is a function. *)
Definition at16 (r : Z -> Z) (a : Z) : Z := r a + 0x100 * r (a + 1).
Definition at32 (r : Z -> Z) (a : Z) : Z := at16 r a + 0x10000 * at16 r (a + 2).
Definition put16 (off : nat) (v : Z) (l : list Z) : list Z :=
  <[off := u8 v]> (<[S off := u8 (Z.shiftr v 8)]> l).

(** ** Automation shared by the proofs *)

Create HintDb gpos.
#[export] Hint Resolve u8_range u16_range u32_range s8_range s32_range : gpos.
#[export] Hint Rewrite getbits_putbits_in getbits_putbits_out using lia : bits.
#[export] Hint Rewrite @length_zset @length_insert : gpos.
#[export] Hint Rewrite @zget_zset_eq using lia : gpos.
#[export] Hint Rewrite @zget_zset_ne using (lia || congruence) : gpos.

(** One step of symbolic execution of a computation. *)
Ltac step :=
  first
    [ apply wp_bind
    | apply wp_ret | apply wp_gets | apply wp_get | apply wp_modify
    | apply wp_halt
    | apply wp_when; intros
    | eapply wp_deref; [eassumption|] ].
Ltac steps := repeat (step; cbn beta).

(** Running the leading commands of a computation applied to a state. *)
Ltac run :=
  repeat (first
    [ rewrite bind_get | rewrite bind_gets | rewrite bind_modify
    | rewrite bind_ret_l | rewrite bind_assoc
    | erewrite bind_deref by eassumption ]; cbn beta).

(** Taking apart the hypothesis that a computation returned. *)
Ltac inv_ret H :=
  repeat first
    [ rewrite bind_get in H | rewrite bind_gets in H
    | rewrite bind_modify in H | rewrite bind_ret_l in H
    | progress cbn beta in H ].
Ltac inv_bind H :=
  let a := fresh "a" in
  let s1 := fresh "s" in
  let H1 := fresh "Hm" in
  inv_ret H; apply bind_Ret_inv in H as (a & s1 & H1 & H); inv_ret H.

(** Boolean comparisons in the context become arithmetic. *)
Ltac zb :=
  repeat match goal with
  | H : (_ && _)%bool = true |- _ => apply andb_true_iff in H; destruct H
  | H : (_ || _)%bool = false |- _ => apply orb_false_iff in H; destruct H
  | H : (_ =? _) = true |- _ => apply Z.eqb_eq in H
  | H : (_ =? _) = false |- _ => apply Z.eqb_neq in H
  | H : (_ <? _) = true |- _ => apply Z.ltb_lt in H
  | H : (_ <? _) = false |- _ => apply Z.ltb_ge in H
  | H : (_ <=? _) = true |- _ => apply Z.leb_le in H
  | H : (_ <=? _) = false |- _ => apply Z.leb_gt in H
  | H : negb _ = true |- _ => apply negb_true_iff in H
  | H : negb _ = false |- _ => apply negb_false_iff in H
  | H : truth _ = true |- _ => unfold truth in H
  | H : truth _ = false |- _ => unfold truth in H
  end.
