(* ===== verification/Task.v ===== *)
(** * The process control block of include/kernel/schedule.h

    [desc_struct] (include/kernel/head.h), [tss_struct], [task_struct] and
    [INIT_TASK].  Pointers into the kernel's static tables are the index of
    the element: a [struct m_inode *] an index of [inode_table], a
    [struct file *] an index of [file_table]. *)

From S2P Require Import Prelude.

Definition NR_TASKS : nat := 8.
Definition PAGE_SIZE : Z := 4096.
Definition NR_OPEN : nat := 20.
Definition HZ : Z := 100.

Definition TASK_RUNNING : Z := 0.
Definition TASK_INTERRUPTIBLE : Z := 1.
Definition TASK_UNINTERRUPTIBLE : Z := 2.
Definition TASK_ZOMBIE : Z := 3.
Definition TASK_STOPPED : Z := 4.

(** One 8-byte descriptor, as its two little-endian words. *)
Record desc_struct := Desc { d_a : Z; d_b : Z }.

Record tss_struct := Tss {
  back_link : Z; esp0 : Z; ss0 : Z; esp1 : Z; ss1 : Z; esp2 : Z; ss2 : Z;
  cr3 : Z; eip : Z; eflags : Z; eax : Z; ecx : Z; edx : Z; ebx : Z;
  esp : Z; ebp : Z; esi : Z; edi : Z; es : Z; cs : Z; ss : Z; ds : Z;
  fs : Z; gs : Z; tss_ldt : Z; trace_bitmap : Z
}.

Record task_struct := Task {
  state : Z; counter : Z; priority : Z;
  pid : Z; father : Z; pgrp : Z; session : Z; leader : Z;
  tty : Z; umask : Z;
  pwd : option nat; root : option nat; executable : option nat;
  close_on_exec : Z;
  uid : Z; euid : Z; suid : Z; gid : Z; egid : Z; sgid : Z;
  filp : list (option nat);
  exit_code : Z;
  start_code : Z; end_code : Z; end_data : Z; brk : Z; start_stack : Z;
  ldt : list desc_struct;
  tss : tss_struct
}.

#[export] Instance eta_desc : Eta desc_struct :=
  fun d => Desc (d_a d) (d_b d).
#[export] Instance eta_tss : Eta tss_struct := fun t =>
  Tss (back_link t) (esp0 t) (ss0 t) (esp1 t) (ss1 t) (esp2 t) (ss2 t)
    (cr3 t) (eip t) (eflags t) (eax t) (ecx t) (edx t) (ebx t)
    (esp t) (ebp t) (esi t) (edi t) (es t) (cs t) (ss t) (ds t)
    (fs t) (gs t) (tss_ldt t) (trace_bitmap t).
#[export] Instance eta_task : Eta task_struct := fun t =>
  Task (state t) (counter t) (priority t)
    (pid t) (father t) (pgrp t) (session t) (leader t) (tty t) (umask t)
    (pwd t) (root t) (executable t) (close_on_exec t)
    (uid t) (euid t) (suid t) (gid t) (egid t) (sgid t) (filp t)
    (exit_code t) (start_code t) (end_code t) (end_data t) (brk t)
    (start_stack t) (ldt t) (tss t).

(** Selectors of the n-th task in the gdt. *)
Definition FIRST_TSS_ENTRY : Z := 4.
Definition FIRST_LDT_ENTRY : Z := FIRST_TSS_ENTRY + 1.
Definition _TSS (n : Z) : Z := u32 (Z.shiftl n 4 + Z.shiftl FIRST_TSS_ENTRY 3).
Definition _LDT (n : Z) : Z := u32 (Z.shiftl n 4 + Z.shiftl FIRST_LDT_ENTRY 3).

(** [INIT_TASK], given the addresses of [init_task] and of [_pg_dir]. *)
Definition INIT_TASK (init_task _pg_dir : Z) : task_struct :=
  {| state := 0; counter := 15; priority := 15;
     pid := 0; father := -1; pgrp := 0; session := 0; leader := 0;
     tty := -1; umask := 18;
     pwd := None; root := None; executable := None;
     close_on_exec := 0;
     uid := 0; euid := 0; suid := 0; gid := 0; egid := 0; sgid := 0;
     filp := replicate NR_OPEN None;
     exit_code := 0; start_code := 0; end_code := 0; end_data := 0;
     brk := 0; start_stack := 0;
     ldt := [Desc 0 0; Desc 0x3FFF 0xc0fa00; Desc 0x3FFF 0xc0f200];
     tss := {| back_link := 0; esp0 := PAGE_SIZE + init_task; ss0 := 0x10;
               esp1 := 0; ss1 := 0; esp2 := 0; ss2 := 0; cr3 := _pg_dir;
               eip := 0; eflags := 0; eax := 0; ecx := 0; edx := 0; ebx := 0;
               esp := 0; ebp := 0; esi := 0; edi := 0;
               es := 0x17; cs := 0x17; ss := 0x17; ds := 0x17; fs := 0x17;
               gs := 0x1B; tss_ldt := _LDT 0;
               trace_bitmap := s32 0x80000000 |} |}.
