(* ===== verification/Sched.v ===== *)
(** * The scheduler: kernel/schedule.c and the pid allocator of kernel/fork.c

    [schedule] with its two nested loops, [do_timer], and
    [find_empty_process].  [switch_to(n)] is the change of [current].  The
    state is the task table, [current] (the index of the running task) and
    [last_pid]. *)

From S2P Require Import Prelude Task.

Record sched := Sched {
  task : list (option task_struct);
  current : nat;
  last_pid : Z
}.
#[export] Instance eta_sched : Eta sched :=
  fun s => Sched (task s) (current s) (last_pid s).

(** The task of slot [i], when there is one. *)
Definition task_at (s : sched) (i : nat) : option task_struct :=
  mjoin (task s !! i).
Definition set_task (i : nat) (p : task_struct) (s : sched) : sched :=
  s <| task ::= <[i := Some p]> |>.

(** ** schedule() *)

(** [while (--i >= 0)]: the runnable task with the largest counter. *)
Fixpoint schedule_scan (tasks : list (option task_struct))
    (i : nat) (c : Z) (next : nat) : Z * nat :=
  match i with
  | O => (c, next)
  | S i' =>
      match mjoin (tasks !! i') with
      | Some p =>
          if (state p =? TASK_RUNNING) && (c <? counter p)
          then schedule_scan tasks i' (counter p) i'
          else schedule_scan tasks i' c next
      | None => schedule_scan tasks i' c next
      end
  end.

(** [p->counter = (p->counter >> 1) + p->priority], for every task. *)
Definition recharge (p : task_struct) : task_struct :=
  p <| counter := s32 (Z.shiftr (counter p) 1 + priority p) |>.
Definition recharge_all (s : sched) : sched :=
  s <| task ::= fun l => option_map recharge <$> l |>.

(** [switch_to(n)]: nothing when [n] is already running. *)
Definition switch_to (n : nat) : M sched unit :=
  modify (fun s => s <| current := n |>).

(** The [while (1)] of schedule(), one iteration per unit of fuel. *)
Fixpoint schedule_pick (fuel : nat) : M sched nat :=
  match fuel with
  | O => halt NoFuel
  | S fuel' =>
      let! s := get in
      let '(c, next) := schedule_scan (task s) NR_TASKS (-1) 0 in
      if 0 <? c then ret next
      else modify recharge_all ;; schedule_pick fuel'
  end.

Definition schedule (fuel : nat) : M sched unit :=
  let! next := schedule_pick fuel in
  switch_to next.

(** ** do_timer(): the tick of the running task *)
Definition do_timer (fuel : nat) (cpl : Z) : M sched unit :=
  let! s := get in
  let! p := deref (task_at s (current s)) in
  let c := s32 (counter p - 1) in
  modify (set_task (current s) (p <| counter := c |>)) ;;
  if 0 <? c then ret tt
  else
    modify (set_task (current s) (p <| counter := 0 |>)) ;;
    if cpl =? 0 then ret tt
    else schedule fuel.

(** ** find_empty_process() *)

Definition EAGAIN : Z := 11.

Definition pid_in_use (s : sched) (n : Z) : bool :=
  existsb (fun o => match o with Some p => pid p =? n | None => false end)
    (take NR_TASKS (task s)).

(** [for(i=1 ; i<NR_TASKS ; i++) if (!task[i]) return i; return -EAGAIN] *)
Fixpoint find_slot (s : sched) (i : nat) (n : nat) : Z :=
  match n with
  | O => - EAGAIN
  | S n' =>
      match task_at s i with
      | None => Z.of_nat i
      | Some _ => find_slot s (S i) n'
      end
  end.

Fixpoint find_empty_process (fuel : nat) : M sched Z :=
  match fuel with
  | O => halt NoFuel
  | S fuel' =>
      modify (fun s => s <| last_pid := s32 (last_pid s + 1) |>) ;;
      let! s := get in
      when (last_pid s <? 0) (modify (fun s => s <| last_pid := 1 |>)) ;;
      let! s := get in
      if pid_in_use s (last_pid s) then find_empty_process fuel'
      else ret (find_slot s 1 (NR_TASKS - 1))
  end.

(** ** Well-formedness of the task table *)

Definition runnable (s : sched) (i : nat) : Prop :=
  exists p, task_at s i = Some p /\ state p = TASK_RUNNING.

(** Counters and priorities as INIT_TASK starts them and fork() copies them:
    far from the ends of a [long]. *)
Definition task_wf (p : task_struct) : Prop :=
  0 <= counter p < 2 ^ 30 /\ 0 < priority p < 2 ^ 29.

Record sched_wf (s : sched) : Prop := {
  wf_length : length (task s) = NR_TASKS;
  wf_task : forall i p, task_at s i = Some p -> task_wf p
}.

(** [n] is the task schedule() is to run: runnable, with time left, no
    runnable task has more time left, and none later in the table as much. *)
Definition best (s : sched) (n : nat) : Prop :=
  exists p, task_at s n = Some p /\ state p = TASK_RUNNING /\ 0 < counter p /\
  forall j q, task_at s j = Some q -> state q = TASK_RUNNING ->
    counter q <= counter p /\ (counter q = counter p -> (j <= n)%nat).

(** Some runnable task has time left. *)
Definition time_left (s : sched) : Prop :=
  exists j q, task_at s j = Some q /\ state q = TASK_RUNNING /\ 0 < counter q.

Lemma task_at_lt s i p : task_at s i = Some p -> (i < length (task s))%nat.
Proof.
  unfold task_at. destruct (task s !! i) eqn:E; [|done].
  intros _. by eapply lookup_lt_Some.
Qed.

Lemma task_at_set s i j p :
  (i < length (task s))%nat ->
  task_at (set_task i p s) j = if decide (i = j) then Some p else task_at s j.
Proof.
  intros Hi. unfold task_at, set_task. cbn. case_decide as E.
  - subst. by rewrite list_lookup_insert_eq.
  - by rewrite list_lookup_insert_ne.
Qed.

Lemma task_at_recharge s i :
  task_at (recharge_all s) i = recharge <$> task_at s i.
Proof.
  unfold task_at, recharge_all. cbn. rewrite list_lookup_fmap.
  by destruct (task s !! i) as [[]|].
Qed.

Lemma recharge_counter p :
  task_wf p -> counter (recharge p) = counter p / 2 + priority p.
Proof.
  intros [Hc Hp]. cbn. rewrite Z.shiftr_div_pow2 by lia. apply s32_small.
  change (2 ^ 1) with 2. pose proof (Z.div_lt_upper_bound (counter p) 2 (2 ^ 29)).
  pose proof (Z.div_pos (counter p) 2). lia.
Qed.

Lemma recharge_wf p : task_wf p -> task_wf (recharge p).
Proof.
  intros H. split; [|apply H]. rewrite recharge_counter by done.
  destruct H as [Hc Hp].
  pose proof (Z.div_lt_upper_bound (counter p) 2 (2 ^ 29)).
  pose proof (Z.div_pos (counter p) 2). lia.
Qed.

Lemma recharge_all_wf s : sched_wf s -> sched_wf (recharge_all s).
Proof.
  intros [Hl Ht]. split.
  - unfold recharge_all. cbn. by rewrite length_fmap.
  - intros i p. rewrite task_at_recharge.
    destruct (task_at s i) eqn:E; [|done]. intros [= <-].
    eauto using recharge_wf.
Qed.

Lemma set_task_wf s i p :
  sched_wf s -> task_wf p -> sched_wf (set_task i p s).
Proof.
  intros [Hl Ht] Hp. split.
  - unfold set_task. cbn. by rewrite length_insert.
  - intros j q. destruct (decide (i < length (task s))%nat).
    + rewrite task_at_set by done. case_decide; [by intros [= <-]|]. apply Ht.
    + unfold task_at, set_task. cbn.
      rewrite list_insert_ge by lia. apply Ht.
Qed.
#[export] Hint Resolve recharge_wf recharge_all_wf set_task_wf : gpos.

(** ** The scan for the largest counter *)

(** What the scan of the slots below [i] found, started with the best counter
    [c] so far, that of slot [next]. *)
Definition scanned (s : sched) (i : nat) (c : Z) (next : nat)
    (r : Z * nat) : Prop :=
  (r = (c, next) /\
   forall j q, (j < i)%nat -> task_at s j = Some q ->
     state q = TASK_RUNNING -> counter q <= c)
  \/ (exists p, (snd r < i)%nat /\ task_at s (snd r) = Some p /\
      state p = TASK_RUNNING /\ counter p = fst r /\ c < fst r /\
      forall j q, (j < i)%nat -> task_at s j = Some q ->
        state q = TASK_RUNNING ->
        counter q <= fst r /\ (counter q = fst r -> (j <= snd r)%nat)).

Lemma scanned_skip s i c next r :
  scanned s i c next r ->
  (forall p, task_at s i = Some p -> state p = TASK_RUNNING -> counter p <= c) ->
  scanned s (S i) c next r.
Proof.
  intros [[-> IH]|(p & ? & ? & ? & ? & ? & IH)] Hi; [left|right].
  - split; [done|]. intros j q Hj Hq Hr.
    destruct (decide (j = i)) as [->|]; [by apply (Hi q)|].
    apply (IH j q); auto; lia.
  - exists p. split_and!; [lia|done..|]. intros j q Hj Hq Hr.
    destruct (decide (j = i)) as [->|]; [|apply (IH j q); auto; lia].
    specialize (Hi q Hq Hr). split; lia.
Qed.

Lemma scanned_take s i c next p r :
  scanned s i (counter p) i r ->
  task_at s i = Some p -> state p = TASK_RUNNING -> c < counter p ->
  scanned s (S i) c next r.
Proof.
  intros [[-> IH]|(q & ? & ? & ? & ? & ? & IH)] Hp Hs Hc; right.
  - exists p. cbn. split_and!; [lia|done..|]. intros j q Hj Hq Hr.
    destruct (decide (j = i)) as [->|]; [simplify_eq; lia|].
    specialize (IH j q). split; [apply IH; auto; lia|lia].
  - exists q. split_and!; [lia|done|done|done|lia|].
    intros j t Hj Ht Hr. destruct (decide (j = i)) as [->|].
    + simplify_eq. split; lia.
    + apply (IH j t); auto; lia.
Qed.

Lemma schedule_scan_spec s i c next :
  scanned s i c next (schedule_scan (task s) i c next).
Proof.
  revert c next. induction i as [|i IH]; intros c next; cbn [schedule_scan].
  { left. split; [done|lia]. }
  change (mjoin (task s !! i)) with (task_at s i).
  destruct (task_at s i) as [p|] eqn:Hp.
  - destruct ((state p =? TASK_RUNNING) && (c <? counter p)) eqn:Ht.
    + zb. eapply scanned_take; eauto.
    + apply scanned_skip; [done|]. intros q Hq Hr. simplify_eq.
      apply andb_false_iff in Ht as [Ht|Ht]; zb; [done|lia].
  - apply scanned_skip; [done|]. intros q Hq. congruence.
Qed.

(** One pass with a runnable task that has time left settles the choice. *)
Lemma schedule_pick_now fuel s :
  sched_wf s -> time_left s ->
  exists n, schedule_pick (S fuel) s = Ret n s /\ best s n.
Proof.
  intros [Hl Hw] (j & q & Hq & Hr & Hc). cbn [schedule_pick].
  unfold bind, get. pose proof (schedule_scan_spec s NR_TASKS (-1) 0) as H.
  destruct (schedule_scan _ _ _ _) as [c n].
  assert (Hlt : forall k p, task_at s k = Some p -> (k < NR_TASKS)%nat)
    by (intros ?? ?%task_at_lt; lia).
  destruct H as [[[= -> ->] H]|(p & ? & Hp & Hs & ? & ? & H)].
  { specialize (H j q (Hlt _ _ Hq) Hq Hr). lia. }
  cbn in *. assert (counter q <= c) by (apply (H j q); eauto).
  destruct (Z.ltb_spec 0 c); [|lia]. exists n. split; [done|].
  exists p. split_and!; [done|done|lia|]. intros k r Hk Hs'.
  subst c. apply H; eauto.
Qed.

(** A pass over a table where no runnable task has time left recharges. *)
Lemma schedule_pick_later fuel s :
  ~ time_left s -> schedule_pick (S fuel) s = schedule_pick fuel (recharge_all s).
Proof.
  intros Hn. cbn [schedule_pick]. unfold bind, get.
  pose proof (schedule_scan_spec s NR_TASKS (-1) 0) as H.
  destruct (schedule_scan _ _ _ _) as [c n].
  destruct (Z.ltb_spec 0 c); [exfalso|done]. apply Hn.
  destruct H as [[[= -> ->] H]|(p & ? & Hp & Hs & ? & ? & H)]; [lia|].
  cbn in *. exists n, p. split_and!; [done..|lia].
Qed.

Lemma recharge_time_left s :
  sched_wf s -> (exists i, runnable s i) -> time_left (recharge_all s).
Proof.
  intros Hw (i & p & Hp & Hr). exists i, (recharge p).
  rewrite task_at_recharge, Hp. split_and!; [done..|].
  rewrite recharge_counter by eauto using wf_task.
  destruct (wf_task _ Hw _ _ Hp) as [Hc ?].
  pose proof (Z.div_pos (counter p) 2). lia.
Qed.

Lemma time_left_dec s :
  length (task s) = NR_TASKS -> time_left s \/ ~ time_left s.
Proof.
  intros Hl. pose proof (schedule_scan_spec s NR_TASKS (-1) 0) as H.
  destruct (schedule_scan _ _ _ _) as [c n].
  assert (Hlt : forall k p, task_at s k = Some p -> (k < NR_TASKS)%nat)
    by (intros ?? ?%task_at_lt; lia).
  destruct H as [[_ H]|(p & ? & Hp & Hs & ? & ? & H)]; cbn in *.
  - right. intros (j & q & Hq & Hr & ?). specialize (H j q (Hlt _ _ Hq) Hq Hr).
    lia.
  - destruct (decide (0 < c)); [left; exists n, p; split_and!; [done..|lia]|].
    right. intros (j & q & Hq & Hr & ?).
    specialize (H j q (Hlt _ _ Hq) Hq Hr). lia.
Qed.

Lemma schedule_runs_best s fuel :
  sched_wf s -> (exists i, runnable s i) ->
  exists s', schedule (S (S fuel)) s = Ret tt s' /\ best s' (current s') /\
    ((time_left s /\ task s' = task s) \/
     (~ time_left s /\ task s' = task (recharge_all s))) /\
    last_pid s' = last_pid s.
Proof.
  intros Hw Hr. unfold schedule.
  destruct (time_left_dec s (wf_length _ Hw)) as [D|D].
  - destruct (schedule_pick_now (S fuel) s Hw D) as (m & Hm & Hb).
    rewrite (bind_ret _ _ _ _ _ Hm). eexists. split; [done|].
    split; [exact Hb|]. auto.
  - destruct (schedule_pick_now fuel (recharge_all s)) as (m & Hm & Hb);
      [auto with gpos|auto using recharge_time_left|].
    rewrite <-schedule_pick_later in Hm by done.
    rewrite (bind_ret _ _ _ _ _ Hm). eexists. split; [done|].
    split; [exact Hb|]. auto.
Qed.

Lemma schedule_spins s fuel :
  ~ (exists i, runnable s i) -> exists s', schedule fuel s = Stop NoFuel s'.
Proof.
  unfold schedule. revert s. induction fuel as [|fuel IH]; intros s Hn.
  { by eexists. }
  destruct (IH (recharge_all s)) as [s' Hs'].
  - intros (i & p & Hp & Hr). apply Hn. rewrite task_at_recharge in Hp.
    destruct (task_at s i) as [q|] eqn:Hq; [|done]. cbn in Hp. simplify_eq.
    by exists i, q.
  - exists s'. revert Hs'. unfold bind at 1 2.
    rewrite schedule_pick_later; [done|].
    intros (j & q & Hq & Hr & _). apply Hn. by exists j, q.
Qed.

(** C3.  The core of schedule(), on a well-formed task table.  If some task
    is runnable, two passes of its loop are enough, and it switches to a
    runnable task with time left, such that no runnable task has more time
    left, and the last such one in the table; the counters are recharged
    exactly when every runnable task had used its time up.  If no task is
    runnable it does not return, however many passes its loop makes. *)
Theorem schedule_picks_best s fuel :
  sched_wf s ->
  ((exists i, runnable s i) ->
   exists s', schedule (S (S fuel)) s = Ret tt s' /\ best s' (current s') /\
     ((time_left s /\ task s' = task s) \/
      (~ time_left s /\ task s' = task (recharge_all s))) /\
     last_pid s' = last_pid s) /\
  (~ (exists i, runnable s i) -> exists s', schedule fuel s = Stop NoFuel s').
Proof.
  intros Hw. split; [by apply schedule_runs_best|apply schedule_spins].
Qed.

(** What schedule() does when every task sleeps: its test is [c > 0], so
    with no runnable task it recharges the counters for ever, task 0
    included, and never returns. *)
Theorem schedule_needs_runnable s fuel :
  ~ (exists i, runnable s i) -> exists s', schedule fuel s = Stop NoFuel s'.
Proof. apply schedule_spins. Qed.

(** ** The time a runnable task waits for the processor *)

(** [n] timer interrupts taken in user mode. *)
Fixpoint ticks (n : nat) : M sched unit :=
  match n with O => ret tt | S n' => do_timer 2 3 ;; ticks n' end.

(** The time left of the runnable tasks other than [i]. *)
Definition time_of (s : sched) (j : nat) : Z :=
  match task_at s j with
  | Some p => if state p =? TASK_RUNNING then counter p else 0
  | None => 0
  end.
Definition load (s : sched) (i : nat) : Z :=
  zsum (fun j => if decide (j = i) then 0 else time_of s j) NR_TASKS.

(** A running system: the current task is runnable and has time left. *)
Record running (s : sched) : Prop := {
  run_wf : sched_wf s;
  run_current : exists p,
    task_at s (current s) = Some p /\ state p = TASK_RUNNING /\ 0 < counter p
}.

Lemma time_of_nonneg s j : sched_wf s -> 0 <= time_of s j.
Proof.
  intros Hw. unfold time_of. destruct (task_at s j) eqn:E; [|lia].
  destruct (wf_task _ Hw _ _ E). destruct (_ =? _); lia.
Qed.

Lemma load_nonneg s i : sched_wf s -> 0 <= load s i.
Proof.
  intros. apply zsum_nonneg. intros. case_decide; [lia|].
  by apply time_of_nonneg.
Qed.

Lemma load_set s i k p c :
  sched_wf s -> k <> i -> task_at s k = Some p -> state p = TASK_RUNNING ->
  load (set_task k (p <| counter := c |>) s) i = load s i - counter p + c.
Proof.
  intros Hw Hk Hp Hr. pose proof (task_at_lt _ _ _ Hp) as Hlt.
  unfold load. rewrite (zsum_update
    (fun j => if decide (j = i) then 0 else time_of s j) _ k).
  - rewrite !decide_False by done. unfold time_of.
    rewrite task_at_set, decide_True, Hp by done. cbn. rewrite Hr. cbn. lia.
  - by rewrite <-(wf_length _ Hw).
  - intros j Hj. case_decide; [done|]. unfold time_of.
    by rewrite task_at_set, decide_False by done.
Qed.

(** A tick of the current task: either it goes on with one unit less, or
    some task is chosen. *)
Lemma do_timer_spec s p :
  running s -> task_at s (current s) = Some p -> state p = TASK_RUNNING ->
  let s1 := set_task (current s) (p <| counter := counter p - 1 |>) s in
  (1 < counter p /\ do_timer 2 3 s = Ret tt s1) \/
  (counter p = 1 /\ exists s', do_timer 2 3 s = Ret tt s' /\
     best s' (current s') /\
     ((time_left s1 /\ task s' = task s1) \/
      (~ time_left s1 /\ task s' = task (recharge_all s1)))).
Proof.
  intros Hrun Hp Hr s1. destruct (run_current _ Hrun) as (p' & Hp' & _ & Hc).
  simplify_eq. pose proof (run_wf _ Hrun) as Hw.
  destruct (wf_task _ Hw _ _ Hp) as [Hb Hpr].
  pose proof (task_at_lt _ _ _ Hp) as Hlt.
  unfold do_timer. run. rewrite s32_small by lia.
  destruct (Z.ltb_spec 0 (counter p - 1)); [left; split; [lia|done]|].
  right. split; [lia|]. run.
  replace (set_task (current s) (p <| counter := 0 |>) _) with s1.
  2: { subst s1. unfold set_task. cbn. rewrite list_insert_insert_eq.
       by replace (counter p - 1) with 0 by lia. }
  destruct (schedule_runs_best s1 0) as (s' & ? & ? & ? & _).
  - apply set_task_wf; [done|]. split; cbn; [lia|done].
  - exists (current s), (p <| counter := counter p - 1 |>).
    subst s1. by rewrite task_at_set, decide_True.
  - by exists s'.
Qed.

Lemma task_at_task s s' : task s' = task s -> forall j, task_at s' j = task_at s j.
Proof. unfold task_at. by intros ->. Qed.

Lemma sched_wf_task s s' : task s' = task s -> sched_wf s -> sched_wf s'.
Proof.
  intros E [Hl Ht]. split; [by rewrite E|]. intros i p.
  rewrite (task_at_task _ _ E). apply Ht.
Qed.

Lemma load_task s s' i : task s' = task s -> load s' i = load s i.
Proof.
  intros E. apply zsum_ext. intros j _. unfold time_of.
  by rewrite (task_at_task _ _ E).
Qed.

Lemma best_running s : sched_wf s -> best s (current s) -> running s.
Proof. intros Hw (p & Hp & Hr & Hc & _). split; [done|]. by exists p. Qed.

(** The total time left of the runnable tasks. *)
Definition total (s : sched) : Z := zsum (time_of s) NR_TASKS.

Lemma load_out s : load s NR_TASKS = total s.
Proof. apply zsum_ext. intros. by rewrite decide_False by lia. Qed.

Lemma load_le_total s i : sched_wf s -> load s i <= total s.
Proof.
  intros Hw. unfold load, total. generalize NR_TASKS as n.
  induction n as [|n IH]; cbn; [lia|].
  pose proof (time_of_nonneg s n Hw). case_decide; lia.
Qed.

Lemma recharge_used q :
  task_wf q -> counter q = 0 -> recharge q = q <| counter := priority q |>.
Proof.
  intros [_ Hp] H. unfold recharge. cbn. rewrite H.
  change (Z.shiftr 0 1) with 0. by rewrite s32_small by lia.
Qed.

Lemma exhausted s j q :
  sched_wf s -> ~ time_left s -> task_at s j = Some q ->
  state q = TASK_RUNNING -> counter q = 0.
Proof.
  intros Hw Ht Hq Hr. destruct (wf_task _ Hw _ _ Hq) as [? _].
  destruct (decide (counter q = 0)); [done|]. exfalso. apply Ht.
  exists j, q. split_and!; [done..|lia].
Qed.

Lemma exhausted_total s : sched_wf s -> ~ time_left s -> total s = 0.
Proof.
  intros Hw Ht. unfold total. rewrite (zsum_ext _ (fun _ => 0)).
  - by induction NR_TASKS as [|n IH]; cbn; [|rewrite IH].
  - intros j _. unfold time_of. destruct (task_at s j) as [q|] eqn:Hq; [|done].
    destruct (Z.eqb_spec (state q) TASK_RUNNING); eauto using exhausted.
Qed.

(** Everything of a task but its counter. *)
Definition frozen (p : task_struct) : task_struct := p <| counter := 0 |>.
Definition same_tasks (s s' : sched) : Prop :=
  forall j, frozen <$> task_at s' j = frozen <$> task_at s j.

Lemma same_tasks_recharge s : same_tasks s (recharge_all s).
Proof. intros j. rewrite task_at_recharge. by destruct (task_at s j). Qed.

Lemma same_tasks_set s k p c :
  task_at s k = Some p -> same_tasks s (set_task k (p <| counter := c |>) s).
Proof.
  intros Hp j. rewrite task_at_set by eauto using task_at_lt.
  case_decide; [|done]. subst. by rewrite Hp.
Qed.

(** Every runnable task has exactly its full time slice. *)
Definition fresh_epoch (s : sched) : Prop :=
  forall j q, task_at s j = Some q -> state q = TASK_RUNNING ->
    counter q = priority q.

Lemma recharge_fresh s :
  sched_wf s -> ~ time_left s -> fresh_epoch (recharge_all s).
Proof.
  intros Hw Ht j q. rewrite task_at_recharge.
  destruct (task_at s j) as [r|] eqn:Hr; [|done]. cbn [fmap option_fmap option_map].
  intros [= <-] Hs. rewrite recharge_used; eauto using wf_task, exhausted.
Qed.

(** A tick that does not end an epoch takes one unit from the load of the
    tasks other than the current one; a tick that ends it leaves every
    runnable task with its full time slice. *)
Lemma tick_step s :
  running s ->
  exists s', do_timer 2 3 s = Ret tt s' /\ running s' /\ same_tasks s s' /\
   ((forall i, i <> current s -> load s' i = load s i - 1 /\
                                 task_at s' i = task_at s i) \/
    (total s = 1 /\ fresh_epoch s')).
Proof.
  intros Hrun. pose proof (run_wf _ Hrun) as Hw.
  destruct (run_current _ Hrun) as (p & Hp & Hr & Hc).
  pose proof (task_at_lt _ _ _ Hp) as Hlt.
  destruct (wf_task _ Hw _ _ Hp) as [Hb Hpr].
  pose proof (do_timer_spec s p Hrun Hp Hr) as H. cbn zeta in H.
  set (s1 := set_task (current s) (p <| counter := counter p - 1 |>) s) in H.
  assert (Hw1 : sched_wf s1) by (apply set_task_wf; [done|split; cbn; lia]).
  assert (Hsame : same_tasks s s1) by (by apply same_tasks_set).
  assert (Hl1 : forall i, i <> current s -> load s1 i = load s i - 1 /\
                                            task_at s1 i = task_at s i).
  { intros i Hi. unfold s1. rewrite load_set, task_at_set by done.
    rewrite decide_False by done. split; [lia|done]. }
  destruct H as [[Hgt Hd]|(Heq & s' & Hd & Hbest & [[Htl Ht]|[Htl Ht]])].
  - exists s1. split_and!; [done| |done|by left]. split; [done|].
    exists (p <| counter := counter p - 1 |>).
    change (current s1) with (current s). unfold s1. rewrite task_at_set by done.
    rewrite decide_True by done. split_and!; [done..|cbn; lia].
  - pose proof (task_at_task _ _ Ht) as Hta. exists s'. split_and!; [done| | |left].
    + apply best_running; [by apply (sched_wf_task s1)|done].
    + intros j. rewrite Hta. apply Hsame.
    + intros i. rewrite (load_task s1 s' i Ht), Hta. apply Hl1.
  - pose proof (task_at_task _ _ Ht) as Hta. exists s'. split_and!; [done| | |right].
    + apply best_running; [|done].
      apply (sched_wf_task (recharge_all s1)); auto with gpos.
    + intros j. rewrite Hta, same_tasks_recharge. apply Hsame.
    + split.
      * pose proof (exhausted_total s1 Hw1 Htl) as H0. rewrite <-load_out in *.
        destruct (Hl1 NR_TASKS) as [H1 _]; [|lia].
        rewrite <-(wf_length _ Hw). lia.
      * intros j q. rewrite Hta. by apply recharge_fresh.
Qed.

Lemma total_split s i p :
  task_at s i = Some p -> state p = TASK_RUNNING ->
  length (task s) = NR_TASKS -> total s = load s i + counter p.
Proof.
  intros Hp Hr Hl. unfold total, load. rewrite (zsum_update
    (fun j => if decide (j = i) then 0 else time_of s j) _ i).
  - rewrite decide_True by done. unfold time_of. rewrite Hp, Hr. cbn. lia.
  - rewrite <-Hl. by eapply task_at_lt.
  - intros j Hj. by rewrite decide_False.
Qed.

Lemma load_current s i : running s -> current s <> i -> 1 <= load s i.
Proof.
  intros [Hw (p & Hp & Hr & Hc)] Hi. pose proof (task_at_lt _ _ _ Hp) as Hlt.
  rewrite (wf_length _ Hw) in Hlt. unfold load.
  pose proof (zsum_ge (fun j => if decide (j = i) then 0 else time_of s j)
    NR_TASKS (current s) Hlt) as H. feed H.
  { intros j _. case_decide; [lia|by apply time_of_nonneg]. }
  cbn beta in H. rewrite decide_False in H by done.
  assert (time_of s (current s) = counter p) as Ht
    by (unfold time_of; by rewrite Hp, Hr).
  rewrite Ht in H. lia.
Qed.

(** Within the current epoch, a runnable task with time left is chosen before
    the others have used up theirs. *)
Lemma chosen_in_epoch i n s p :
  running s -> task_at s i = Some p -> state p = TASK_RUNNING ->
  0 < counter p -> (Z.to_nat (load s i) <= n)%nat ->
  exists k s', (k <= n)%nat /\ ticks k s = Ret tt s' /\ current s' = i.
Proof.
  revert s. induction n as [|n IH]; intros s Hrun Hp Hr Hc Hn;
    (destruct (decide (current s = i)) as [E|E];
     [exists O, s; split_and!; [lia|done..]|]);
    pose proof (load_current s i Hrun E) as Hl; [lia|].
  destruct (tick_step s Hrun) as (s' & Hd & Hrun' & _ & [H|[Ht _]]).
  - destruct (H i) as [H1 H2]; [done|]. rewrite <-H2 in Hp.
    destruct (IH s') as (k & s2 & ? & Hk & ?); [done..|lia|].
    exists (S k), s2. split_and!; [lia| |done]. cbn [ticks].
    by rewrite (bind_ret _ _ _ _ _ Hd).
  - pose proof (run_wf _ Hrun) as Hw.
    rewrite (total_split s i p Hp Hr (wf_length _ Hw)) in Ht. lia.
Qed.

(** The time left of all the runnable tasks bounds the rest of the epoch. *)
Lemma epoch_ends n s :
  running s -> (Z.to_nat (total s) <= n)%nat ->
  exists k s', (k <= n)%nat /\ ticks k s = Ret tt s' /\ running s' /\
    same_tasks s s' /\ fresh_epoch s'.
Proof.
  revert s. induction n as [|n IH]; intros s Hrun Hn.
  all: destruct (run_current _ Hrun) as (p & Hp & Hr & Hc).
  all: pose proof (total_split s _ p Hp Hr (wf_length _ (run_wf _ Hrun))) as Ht.
  all: pose proof (load_nonneg s (current s) (run_wf _ Hrun)) as H0.
  { exfalso. lia. }
  destruct (tick_step s Hrun) as (s1 & Hd & Hrun1 & Hs1 & [H|[_ Hf]]).
  - destruct (H NR_TASKS) as [H1 _].
    { pose proof (task_at_lt _ _ _ Hp) as Hlt.
      rewrite (wf_length _ (run_wf _ Hrun)) in Hlt. lia. }
    rewrite !load_out in H1.
    destruct (IH s1) as (k & s2 & ? & Hk & ? & Hs2 & ?); [done|lia|].
    exists (S k), s2. split_and!; [lia| |done| |done]; cbn [ticks].
    + by rewrite (bind_ret _ _ _ _ _ Hd).
    + intros j. by rewrite Hs2, Hs1.
  - exists 1%nat, s1. split_and!; [lia| |done..]. cbn [ticks].
    by rewrite (bind_ret _ _ _ _ _ Hd).
Qed.

(** The full time slices of the runnable tasks other than [i]. *)
Definition slices (s : sched) (i : nat) : Z :=
  zsum (fun j => if decide (j = i) then 0 else
    match task_at s j with
    | Some p => if state p =? TASK_RUNNING then priority p else 0
    | None => 0
    end) NR_TASKS.

Lemma same_tasks_inv s s' j p' :
  same_tasks s s' -> task_at s' j = Some p' ->
  exists p, task_at s j = Some p /\ state p = state p' /\
            priority p = priority p'.
Proof.
  intros H Hp. specialize (H j). rewrite Hp in H.
  destruct (task_at s j) as [p|]; [|done]. exists p.
  cbn in H. injection H. intros. done.
Qed.

Lemma load_fresh s s' i :
  same_tasks s s' -> fresh_epoch s' -> load s' i = slices s i.
Proof.
  intros Hs Hf. apply zsum_ext. intros j _. case_decide; [done|].
  unfold time_of. destruct (task_at s' j) as [p'|] eqn:Hp'.
  - destruct (same_tasks_inv _ _ _ _ Hs Hp') as (p & -> & -> & ->).
    destruct (Z.eqb_spec (state p') TASK_RUNNING); [|done]. by eapply Hf.
  - specialize (Hs j). rewrite Hp' in Hs. by destruct (task_at s j).
Qed.

Lemma ticks_app n m s s' :
  ticks n s = Ret tt s' -> ticks (n + m) s = ticks m s'.
Proof.
  revert s. induction n as [|n IH]; intros s; cbn [ticks plus].
  - by intros [= ->].
  - unfold bind. destruct (do_timer 2 3 s) as [[] s1|]; [apply IH|done].
Qed.

(** C23.  No runnable task starves: from any state of a running system, with
    timer interrupts only, every runnable task is running again at the latest
    when the others have used up the rest of this epoch and one full time
    slice each. *)
Theorem no_starvation s i :
  running s -> runnable s i ->
  exists n s', Z.of_nat n <= total s + slices s i /\
    ticks n s = Ret tt s' /\ current s' = i.
Proof.
  intros Hrun (p & Hp & Hr). pose proof (run_wf _ Hrun) as Hw.
  destruct (epoch_ends (Z.to_nat (total s)) s Hrun)
    as (k & s1 & Hk & Hd & Hrun1 & Hs & Hf); [lia|].
  assert (exists p', task_at s1 i = Some p') as [p' Hp'].
  { specialize (Hs i). rewrite Hp in Hs. destruct (task_at s1 i); [eauto|done]. }
  destruct (same_tasks_inv _ _ _ _ Hs Hp') as (q & Hq & Hr' & Hpr).
  simplify_eq. rewrite Hr in Hr'. symmetry in Hr'.
  pose proof (run_wf _ Hrun1) as Hw1. pose proof (wf_task _ Hw1 _ _ Hp') as [_ ?].
  destruct (chosen_in_epoch i (Z.to_nat (load s1 i)) s1 p')
    as (m & s2 & Hm & Hd2 & Hc); [done|done|done| |lia|].
  { rewrite (Hf i p' Hp' Hr'). lia. }
  exists (k + m)%nat, s2. split_and!; [|by rewrite (ticks_app _ _ _ _ Hd)|done].
  rewrite <-(load_fresh s s1 i Hs Hf).
  pose proof (load_nonneg s1 i Hw1).
  pose proof (load_nonneg s NR_TASKS Hw) as Ht. rewrite load_out in Ht. lia.
Qed.

(** ** find_empty_process() *)

(** The next candidate of the pid counter. *)
Definition next_pid (x : Z) : Z := if s32 (x + 1) <? 0 then 1 else s32 (x + 1).

Lemma next_pid_spec x :
  0 <= x < 2 ^ 31 -> next_pid x = x mod (2 ^ 31 - 1) + 1.
Proof.
  intros Hx. unfold next_pid. destruct (decide (x = 2 ^ 31 - 1)) as [->|].
  { by vm_compute. }
  rewrite s32_small by lia. destruct (Z.ltb_spec (x + 1) 0); [lia|].
  by rewrite Z.mod_small by lia.
Qed.

Lemma next_pid_iter x k :
  0 <= x < 2 ^ 31 ->
  Nat.iter (S k) next_pid x = (x + Z.of_nat k) mod (2 ^ 31 - 1) + 1.
Proof.
  intros Hx. induction k as [|k IH].
  { cbn [Nat.iter nat_rect]. rewrite next_pid_spec by done. f_equal. f_equal. lia. }
  change (Nat.iter (S (S k)) next_pid x) with (next_pid (Nat.iter (S k) next_pid x)).
  rewrite IH. set (y := x + Z.of_nat k).
  pose proof (Z.mod_pos_bound y (2 ^ 31 - 1)). rewrite next_pid_spec by lia.
  f_equal. rewrite Zplus_mod_idemp_l. f_equal. lia.
Qed.

Definition pids (s : sched) : list Z :=
  omap (fmap pid) (take NR_TASKS (task s)).

Lemma pid_in_use_spec s n : pid_in_use s n = true <-> In n (pids s).
Proof.
  unfold pid_in_use, pids. induction (take NR_TASKS (task s)) as [|[p|] l IH];
    cbn; [done| |done].
  rewrite orb_true_iff, IH, Z.eqb_eq. done.
Qed.

Lemma pids_length s : (length (pids s) <= NR_TASKS)%nat.
Proof.
  unfold pids. assert (H : (length (take NR_TASKS (task s)) <= NR_TASKS)%nat)
    by (rewrite length_take; lia).
  etransitivity; [|exact H]. generalize (take NR_TASKS (task s)) as l.
  clear H. induction l as [|[p|] l IH]; cbn; lia.
Qed.

(** One round of the search. *)
Lemma find_empty_process_step f s :
  let s' := s <| last_pid := next_pid (last_pid s) |> in
  find_empty_process (S f) s =
    if pid_in_use s' (last_pid s') then find_empty_process f s'
    else Ret (find_slot s' 1 (NR_TASKS - 1)) s'.
Proof.
  cbn [find_empty_process]. run. cbn [last_pid upd].
  unfold next_pid. destruct (s32 (last_pid s + 1) <? 0) eqn:E.
  - rewrite bind_when_true by done. run. cbn. by case_match.
  - rewrite bind_when_false by done. run. cbn. by case_match.
Qed.

(** Some candidate among the first nine is free: eight tasks cannot use nine
    different pids. *)
Lemma some_pid_free s :
  0 <= last_pid s < 2 ^ 31 ->
  exists k, (k < S NR_TASKS)%nat /\
    pid_in_use s (Nat.iter (S k) next_pid (last_pid s)) = false.
Proof.
  intros Hx.
  destruct (decide (Exists
    (fun k => pid_in_use s (Nat.iter (S k) next_pid (last_pid s)) = false)
    (seq 0 (S NR_TASKS)))) as [H|H].
  { apply Exists_exists in H as (k & Hk & H). apply elem_of_seq in Hk.
    exists k. split; [lia|done]. }
  exfalso. apply not_Exists_Forall in H; [|apply _].
  set (c := fun k => Nat.iter (S k) next_pid (last_pid s)) in *.
  assert (Hnd : List.NoDup (c <$> seq 0 (S NR_TASKS))).
  { apply NoDup_ListNoDup, NoDup_fmap_2_strong; [|apply NoDup_seq].
    intros i j Hi Hj. apply elem_of_seq in Hi, Hj. unfold c, NR_TASKS in *.
    rewrite !next_pid_iter by done. intros Hij.
    assert (Hm : (last_pid s + Z.of_nat i) mod (2 ^ 31 - 1) =
                 (last_pid s + Z.of_nat j) mod (2 ^ 31 - 1)) by lia.
    Z.div_mod_to_equations. lia. }
  pose proof (NoDup_incl_length Hnd (l' := pids s)) as Hlen. feed Hlen.
  - intros n Hn. apply list_elem_of_In, list_elem_of_fmap in Hn as (k & -> & Hk).
    rewrite Forall_forall in H. specialize (H k Hk).
    apply pid_in_use_spec. destruct (pid_in_use s (c k)) eqn:E; [done|].
    exfalso. by apply H.
  - pose proof (pids_length s). rewrite length_fmap, length_seq in Hlen. lia.
Qed.

Lemma find_slot_spec s i n :
  (exists j, find_slot s i n = Z.of_nat j /\ (i <= j < i + n)%nat /\
     task_at s j = None /\
     forall k, (i <= k < j)%nat -> task_at s k <> None) \/
  (find_slot s i n = - EAGAIN /\
     forall k, (i <= k < i + n)%nat -> task_at s k <> None).
Proof.
  revert i. induction n as [|n IH]; intros i; cbn.
  { right. split; [done|lia]. }
  destruct (task_at s i) eqn:E.
  - destruct (IH (S i)) as [(j & -> & ? & ? & H)|[-> H]]; [left|right].
    + exists j. split_and!; [done|lia|lia|done|]. intros k Hk.
      destruct (decide (k = i)) as [->|]; [congruence|]. apply H. lia.
    + split; [done|]. intros k Hk.
      destruct (decide (k = i)) as [->|]; [congruence|]. apply H. lia.
  - left. exists i. split_and!; [done|lia|lia|done|]. lia.
Qed.

(** C24.  find_empty_process() ends within nine rounds, and leaves in
    [last_pid] a positive pid no task has; it returns the lowest free slot
    above 0, and -EAGAIN exactly when there is none. *)
Theorem find_empty_process_fresh s :
  0 <= last_pid s < 2 ^ 31 ->
  exists r s', find_empty_process (S NR_TASKS) s = Ret r s' /\
    task s' = task s /\ current s' = current s /\
    0 < last_pid s' < 2 ^ 31 /\ ~ In (last_pid s') (pids s') /\
    ((exists i, r = Z.of_nat i /\ (0 < i < NR_TASKS)%nat /\
        task_at s i = None /\
        forall j, (0 < j < i)%nat -> task_at s j <> None) \/
     (r = - EAGAIN /\ forall j, (0 < j < NR_TASKS)%nat -> task_at s j <> None)).
Proof.
  intros Hx. destruct (some_pid_free s Hx) as (k & Hk & Hf). revert Hk Hf.
  generalize (S NR_TASKS) as f. revert s Hx.
  induction k as [|k IH]; intros s Hx [|f] Hk Hf; try lia;
    rewrite find_empty_process_step; cbn zeta;
    set (s' := s <| last_pid := next_pid (last_pid s) |>);
    assert (Hr : 0 < last_pid s' < 2 ^ 31)
      by (cbn; rewrite next_pid_spec by done;
          pose proof (Z.mod_pos_bound (last_pid s) (2 ^ 31 - 1)); lia).
  2: destruct (pid_in_use s' (last_pid s')) eqn:E.
  2: { destruct (IH s' ltac:(lia) f ltac:(lia)) as (r & s2 & ? & H); [|eauto].
       rewrite Nat.iter_succ_r in Hf. exact Hf. }
  1: assert (E : pid_in_use s' (last_pid s') = false) by exact Hf; rewrite E.
  all: eexists _, s'; split_and!; [done..|apply Hr|apply Hr| |].
  all: try (rewrite <-pid_in_use_spec, E; done).
  all: destruct (find_slot_spec s' 1 (NR_TASKS - 1))
    as [(j & -> & ? & ? & ?)|[-> H]]; [left; exists j|right];
    split_and!; try done; unfold NR_TASKS in *; try lia.
Qed.

(** ** A concrete table: init_task and two children with other counters *)

Definition task_wf_b (p : task_struct) : bool :=
  (0 <=? counter p) && (counter p <? 2 ^ 30) && (0 <? priority p) &&
  (priority p <? 2 ^ 29).
Definition sched_wf_b (s : sched) : bool :=
  (length (task s) =? NR_TASKS)%nat &&
  forallb (fun o => match o with Some p => task_wf_b p | None => true end) (task s).

Lemma sched_wf_decide s : sched_wf_b s = true -> sched_wf s.
Proof.
  unfold sched_wf_b. intros [Hl H]%andb_true_iff. split.
  - by apply Nat.eqb_eq.
  - intros i p Hp. rewrite forallb_forall in H. unfold task_at in Hp.
    destruct (task s !! i) as [o|] eqn:E; [|done]. cbn in Hp. subst o.
    specialize (H (Some p)). feed H.
    { apply list_elem_of_In. by eapply list_elem_of_lookup_2. }
    unfold task_wf_b in H. zb. split; lia.
Qed.

Definition demo_task (n c : Z) : task_struct :=
  (INIT_TASK 0 0) <| counter := c |> <| pid := n |>.
Definition demo : sched := {|
  task := [Some (demo_task 0 5); Some (demo_task 1 10); Some (demo_task 2 15);
           None; None; None; None; None];
  current := 1%nat; last_pid := 2 ^ 31 - 1 |}.

Definition asleep : sched :=
  demo <| task := replicate 8 (Some ((demo_task 1 10) <| state := TASK_UNINTERRUPTIBLE |>)) |>.
Example schedule_picks_best_witness :
  (exists s', schedule 2 demo = Ret tt s' /\ current s' = 2%nat) /\
  exists s', schedule 5 asleep = Stop NoFuel s'.
Proof.
  split.
  - destruct (schedule_picks_best demo 0) as [[s' [H _]] _].
    + by apply sched_wf_decide.
    + exists 0%nat. by eexists.
    + exists s'. split; [exact H|]. vm_compute in H. by injection H as <-.
  - apply (schedule_picks_best asleep 5); [by apply sched_wf_decide|].
    intros (i & p & Hp & Hr). unfold task_at in Hp. cbn [task upd demo asleep] in Hp.
    destruct (replicate 8 _ !! i) eqn:E; [|done].
    apply lookup_replicate in E as [-> _]. cbn in Hp. by simplify_eq.
Defined.

Example schedule_needs_runnable_witness :
  exists s', schedule 5 asleep = Stop NoFuel s'.
Proof.
  apply schedule_needs_runnable. intros (i & p & Hp & Hr). unfold task_at in Hp.
  cbn [task upd demo asleep] in Hp. destruct (replicate 8 _ !! i) eqn:E; [|done].
  apply lookup_replicate in E as [-> _]. cbn in Hp. by simplify_eq.
Defined.

Example no_starvation_witness :
  exists n s', Z.of_nat n <= total demo + slices demo 0 /\
    ticks n demo = Ret tt s' /\ current s' = 0%nat.
Proof.
  apply no_starvation.
  - split; [by apply sched_wf_decide|]. by eexists.
  - by eexists.
Defined.

Example find_empty_process_fresh_witness :
  exists s', find_empty_process (S NR_TASKS) demo = Ret 3 s' /\ last_pid s' = 3.
Proof.
  destruct (find_empty_process_fresh demo) as (r & s' & H & _).
  - cbn. lia.
  - exists s'. rewrite H. vm_compute in H. by injection H as <- <-.
Defined.
