(* ===== verification/WaitQ.v ===== *)
(** * Wait queues: sleep_on(), interruptible_sleep_on() and wake_up() of
    kernel/schedule.c

    A wait queue is one pointer to a task (a [struct task_struct *] somewhere
    in the kernel), given here by a lens; the rest of the queue is threaded
    through the [tmp] local variables of the sleeping tasks, each on the
    kernel stack of its task.  The code is cut where control leaves the task,
    at the call of schedule(): [sleep_enter] is what runs before the switch,
    [sleep_leave] what the task runs when it is switched back to.  Module
    [Machine] puts the pieces of all the tasks together as a transition
    system. *)

From S2P Require Import Prelude Task Sched.

Definition sched_fuel : nat := 2.

Definition set_state (t : nat) (v : Z) : M sched unit :=
  let! s := get in
  let! p := deref (task_at s t) in
  modify (set_task t (p <| state := v |>)).

Section ops.
Context {S : Type} (sl : lens S sched) (q : lens S (option nat)).

(** Both sleeping functions: save the head of the queue in [tmp], become
    the head, change state and give up the processor. *)
Definition enqueue (v : Z) (me : nat) : M S (option nat) :=
  let! tmp := gets (lget q) in
  modify (lset q (Some me)) ;;
  zoom sl (set_state me v) ;;
  zoom sl (schedule sched_fuel) ;;
  ret tmp.

(** sleep_on() up to schedule(): the value of [tmp]. *)
Definition sleep_enter : M S (option nat) :=
  let! me := gets (fun s => current (lget sl s)) in
  if (me =? 0)%nat then halt Hang else enqueue TASK_UNINTERRUPTIBLE me.

(** sleep_on() from the return of schedule() on. *)
Definition sleep_leave (tmp : option nat) : M S unit :=
  modify (lset q tmp) ;;
  match tmp with
  | Some t => zoom sl (set_state t TASK_RUNNING)
  | None => ret tt
  end.

(** interruptible_sleep_on() up to the first schedule(). *)
Definition isleep_enter : M S (option nat) :=
  let! me := gets (fun s => current (lget sl s)) in
  if (me =? 0)%nat then halt (Panic "task[0] trying to sleep")
  else enqueue TASK_INTERRUPTIBLE me.

(** interruptible_sleep_on() after a schedule(): [true] when it went back to
    [repeat] and slept again. *)
Definition isleep_leave (tmp : option nat) : M S bool :=
  let! me := gets (fun s => current (lget sl s)) in
  let! p := gets (lget q) in
  match p with
  | Some t =>
      if (t =? me)%nat then sleep_leave tmp ;; ret false
      else
        zoom sl (set_state t TASK_RUNNING) ;;
        zoom sl (set_state me TASK_INTERRUPTIBLE) ;;
        zoom sl (schedule sched_fuel) ;;
        ret true
  | None => sleep_leave tmp ;; ret false
  end.

Definition wake_up : M S unit :=
  let! p := gets (lget q) in
  match p with
  | Some t => zoom sl (set_state t TASK_RUNNING) ;; modify (lset q None)
  | None => ret tt
  end.
End ops.

(** ** What schedule() leaves alone *)

Lemma schedule_scan_runnable s i c next c' n' :
  schedule_scan (task s) i c next = (c', n') -> c < c' -> runnable s n'.
Proof.
  intros E Hc. pose proof (schedule_scan_spec s i c next) as H.
  rewrite E in H. destruct H as [[[= -> ->] _]|(p & ? & Hp & Hr & _)]; [lia|].
  by exists p.
Qed.

Lemma same_tasks_trans s1 s2 s3 :
  same_tasks s1 s2 -> same_tasks s2 s3 -> same_tasks s1 s3.
Proof. intros H1 H2 j. by rewrite H2, H1. Qed.

Lemma schedule_frame fuel s s' :
  schedule fuel s = Ret tt s' -> same_tasks s s' /\ runnable s' (current s').
Proof.
  unfold schedule. revert s. induction fuel as [|fuel IH]; intros s; [done|].
  cbn [schedule_pick]. run.
  destruct (schedule_scan (task s) NR_TASKS (-1) 0) as [c n] eqn:E.
  destruct (Z.ltb_spec 0 c).
  - run. unfold switch_to, modify. intros [= <-]. split; [done|].
    eapply schedule_scan_runnable in E; [exact E|lia].
  - run. intros [H1 H2]%IH. split; [|done].
    eapply same_tasks_trans; [apply same_tasks_recharge|done].
Qed.

Lemma same_tasks_state s s' j p' :
  same_tasks s s' -> task_at s' j = Some p' ->
  exists p, task_at s j = Some p /\ state p = state p'.
Proof. intros H Hp. destruct (same_tasks_inv _ _ _ _ H Hp) as (p & ? & ? & ?); eauto. Qed.

(** The state word of a task. *)
Definition state_of (s : sched) (t : nat) : option Z := state <$> task_at s t.

Lemma state_of_same s s' t : same_tasks s s' -> state_of s' t = state_of s t.
Proof.
  intros H. specialize (H t). unfold state_of.
  destruct (task_at s t), (task_at s' t); try done. cbn in *.
  injection H. intros. by f_equal.
Qed.

Lemma set_state_spec t v s s' :
  set_state t v s = Ret tt s' ->
  current s' = current s /\ is_Some (task_at s t) /\
  (forall j, state_of s' j = if decide (t = j) then Some v else state_of s j).
Proof.
  unfold set_state. run. destruct (task_at s t) as [p|] eqn:E; [|done].
  erewrite bind_deref by done. intros [= <-]. split_and!; [done|by eexists|].
  intros j. unfold state_of. rewrite task_at_set by eauto using task_at_lt.
  by case_decide.
Qed.

(** ** The transition system *)

Module Machine.

(** Which of the two functions a task sleeps in. *)
Inductive kind := Unint | Int.

(** Queue heads, indexed by the address of the queue pointer, and for each
    task suspended inside sleep_on() or interruptible_sleep_on(), which of
    them, the queue, and the value of its [tmp]. *)
Record sys := Sys {
  sc : sched;
  heads : gmap nat nat;
  pend : gmap nat (kind * nat * option nat)
}.
#[export] Instance eta_sys : Eta sys := fun s => Sys (sc s) (heads s) (pend s).

Definition sl : lens sys sched := Lens sc (fun c s => s <| sc := c |>).
Definition ql (q : nat) : lens sys (option nat) :=
  Lens (fun s => heads s !! q)
       (fun o s => s <| heads ::= fun m =>
          match o with Some t => <[q := t]> m | None => delete q m end |>).

Definition me (s : sys) : nat := current (sc s).

(** [enter]: the running task calls sleep_on(q) or interruptible_sleep_on(q);
    [leave]: a task that was switched to continues after its schedule();
    [wake]: the running task or an interrupt handler calls wake_up(q);
    [tick]: a timer interrupt in user mode. *)
Inductive step : sys -> sys -> Prop :=
| step_enter q s tmp s' :
    pend s !! me s = None -> sleep_enter sl (ql q) s = Ret tmp s' ->
    step s (s' <| pend ::= <[me s := (Unint, q, tmp)]> |>)
| step_ienter q s tmp s' :
    pend s !! me s = None -> isleep_enter sl (ql q) s = Ret tmp s' ->
    step s (s' <| pend ::= <[me s := (Int, q, tmp)]> |>)
| step_leave q s tmp s' :
    pend s !! me s = Some (Unint, q, tmp) ->
    sleep_leave sl (ql q) tmp s = Ret tt s' ->
    step s (s' <| pend ::= delete (me s) |>)
| step_ileave q s tmp s' again :
    pend s !! me s = Some (Int, q, tmp) ->
    isleep_leave sl (ql q) tmp s = Ret again s' ->
    step s (if again : bool then s' else s' <| pend ::= delete (me s) |>)
| step_wake q s s' :
    wake_up sl (ql q) s = Ret tt s' -> step s s'
| step_tick s c' :
    pend s !! me s = None -> do_timer sched_fuel 3 (sc s) = Ret tt c' ->
    step s (s <| sc := c' |>).

Inductive steps : sys -> sys -> Prop :=
| steps_refl s : steps s s
| steps_step s1 s2 s3 : step s1 s2 -> steps s2 s3 -> steps s1 s3.

(** Somebody holds a pointer through which [t] can be woken up. *)
Definition referenced (s : sys) (t : nat) : Prop :=
  (exists q, heads s !! q = Some t) \/
  (exists u k q, pend s !! u = Some (k, q, Some t)).

(** [t] sleeps, and no pointer in the kernel leads to it. *)
Record lost (s : sys) (t : nat) : Prop := {
  lost_asleep : exists v, state_of (sc s) t = Some v /\ v <> TASK_RUNNING;
  lost_unref : ~ referenced s t;
  lost_running : runnable (sc s) (me s)
}.

(** ** The changes of each step, seen from the outside *)

Lemma enqueue_inv v q s tmp s' :
  enqueue sl (ql q) v (me s) s = Ret tmp s' ->
  tmp = heads s !! q /\ heads s' = <[q := me s]> (heads s) /\
  pend s' = pend s /\ runnable (sc s') (me s') /\
  forall t, state_of (sc s') t =
    if decide (me s = t) then Some v else state_of (sc s) t.
Proof.
  unfold enqueue. intros H.
  inv_bind H. apply zoom_Ret_inv in Hm as (c1 & H1 & ->). destruct a.
  inv_bind H. apply zoom_Ret_inv in Hm as (c2 & H2 & ->). destruct a.
  injection H as <- <-. apply set_state_spec in H1 as (_ & _ & H1).
  apply schedule_frame in H2 as [H2 H3]. cbn in *.
  split_and!; [done..|]. intros t. by rewrite (state_of_same _ _ _ H2), H1.
Qed.

Lemma enter_inv q s tmp s' :
  sleep_enter sl (ql q) s = Ret tmp s' \/ isleep_enter sl (ql q) s = Ret tmp s' ->
  me s <> O /\ exists v, v <> TASK_RUNNING /\
    enqueue sl (ql q) v (me s) s = Ret tmp s'.
Proof.
  unfold sleep_enter, isleep_enter. intros [H|H]; inv_ret H;
    change (current (lget sl s)) with (me s) in H;
    destruct (Nat.eqb_spec (me s) 0); try done; (split; [done|]);
    eexists; (split; [|exact H]); done.
Qed.

Lemma sleep_leave_inv q tmp s s' :
  sleep_leave sl (ql q) tmp s = Ret tt s' ->
  heads s' = (match tmp with Some t => <[q := t]> (heads s)
                           | None => delete q (heads s) end) /\
  pend s' = pend s /\ me s' = me s /\
  forall t, state_of (sc s') t =
    if decide (tmp = Some t) then Some TASK_RUNNING else state_of (sc s) t.
Proof.
  unfold sleep_leave. intros H. inv_ret H. destruct tmp as [u|].
  - apply zoom_Ret_inv in H as (c & H & ->).
    apply set_state_spec in H as (Hc & _ & H). cbn in *. split_and!; [done..|].
    intros t. rewrite H. by repeat case_decide; simplify_eq.
  - unfold ret in H. injection H as <-. cbn. split_and!; [done..|].
    intros t. by rewrite decide_False.
Qed.

Lemma wake_up_inv q s s' :
  wake_up sl (ql q) s = Ret tt s' ->
  heads s' = delete q (heads s) /\ pend s' = pend s /\ me s' = me s /\
  forall t, state_of (sc s') t =
    if decide (heads s !! q = Some t) then Some TASK_RUNNING
    else state_of (sc s) t.
Proof.
  unfold wake_up. intros H. inv_ret H. cbn [lget ql] in H.
  destruct (heads s !! q) as [u|] eqn:E.
  - inv_bind H. apply zoom_Ret_inv in Hm as (c & H1 & ->). destruct a.
    injection H as <-. apply set_state_spec in H1 as (Hc & _ & H1). cbn in *.
    split_and!; [done..|]. intros t. rewrite H1.
    by repeat case_decide; simplify_eq.
  - unfold ret in H. injection H as <-. rewrite delete_id by done. split_and!; [done..|].
    intros t. by rewrite decide_False.
Qed.

Lemma isleep_leave_inv q tmp s again s' :
  isleep_leave sl (ql q) tmp s = Ret again s' ->
  (again = false /\ sleep_leave sl (ql q) tmp s = Ret tt s') \/
  (again = true /\ exists u, heads s !! q = Some u /\ u <> me s /\
   heads s' = heads s /\ pend s' = pend s /\ runnable (sc s') (me s') /\
   forall t, state_of (sc s') t =
    if decide (me s = t) then Some TASK_INTERRUPTIBLE
    else if decide (u = t) then Some TASK_RUNNING else state_of (sc s) t).
Proof.
  unfold isleep_leave. intros H. inv_ret H. cbn [lget ql] in H.
  change (current (lget sl s)) with (me s) in H.
  destruct (heads s !! q) as [u|] eqn:E; [destruct (Nat.eqb_spec u (me s))|].
  - inv_bind H. injection H as <- <-. left. by destruct a.
  - inv_bind H. apply zoom_Ret_inv in Hm as (c1 & H1 & ->). destruct a.
    inv_bind H. apply zoom_Ret_inv in Hm as (c2 & H2 & ->). destruct a.
    inv_bind H. apply zoom_Ret_inv in Hm as (c3 & H3 & ->). destruct a.
    injection H as <- <-. right. split; [done|]. exists u.
    apply set_state_spec in H1 as (_ & _ & H1), H2 as (_ & _ & H2).
    apply schedule_frame in H3 as [H3 ?]. cbn in *. split_and!; [done..|].
    intros t. by rewrite (state_of_same _ _ _ H3), H2, H1.
  - inv_bind H. injection H as <- <-. left. by destruct a.
Qed.

Lemma do_timer_frame fuel cpl c c' :
  runnable c (current c) -> do_timer fuel cpl c = Ret tt c' ->
  same_tasks c c' /\ runnable c' (current c').
Proof.
  intros (p & Hp & Hr). unfold do_timer. run.
  destruct (0 <? _).
  - intros [= <-]. split; [by apply same_tasks_set|].
    exists (p <| counter := s32 (counter p - 1) |>). split; [|done].
    change (current (set_task _ _ c)) with (current c).
    by rewrite task_at_set, decide_True by eauto using task_at_lt.
  - run. set (c1 := set_task _ _ (set_task _ _ c)).
    assert (Hs : same_tasks c c1).
    { eapply same_tasks_trans; [by apply same_tasks_set|]. unfold c1.
      intros j. rewrite !task_at_set; cbn; rewrite ?length_insert;
        eauto using task_at_lt. by repeat case_decide. }
    destruct (cpl =? 0).
    + intros [= <-]. split; [done|].
      exists (p <| counter := 0 |>). split; [|done]. unfold c1.
      change (current (set_task _ _ (set_task _ _ c))) with (current c).
      rewrite task_at_set, decide_True; [done..|]. cbn. rewrite length_insert.
      by eapply task_at_lt.
    + intros [H1 H2]%schedule_frame. split; [|done].
      by eapply same_tasks_trans.
Qed.

Lemma runnable_state c t : runnable c t <-> state_of c t = Some TASK_RUNNING.
Proof.
  unfold runnable, state_of. destruct (task_at c t) as [p|]; cbn.
  - split; [by intros (q & [= <-] & ->)|intros [= H]; eauto].
  - split; [by intros (q & ? & ?)|done].
Qed.
Lemma unreferenced s t :
  ~ referenced s t <->
  (forall q, heads s !! q <> Some t) /\
  (forall u k q, pend s !! u <> Some (k, q, Some t)).
Proof.
  split; [|by intros [H1 H2] [(q & H)|(u & k & q & H)]; [eapply H1|eapply H2]].
  intros H. split; intros; intros E; apply H; [left|right]; eauto.
Qed.

Lemma lost_me s t : lost s t -> me s <> t.
Proof.
  intros [(v & Hv & Hn) _ Hr] <-. apply runnable_state in Hr. congruence.
Qed.

(** What a step may do while [t] stays lost: the state of [t] and the absence
    of pointers to it are kept. *)
Lemma lost_keep s s' t :
  lost s t -> runnable (sc s') (me s') ->
  state_of (sc s') t = state_of (sc s) t ->
  (forall q, heads s' !! q = Some t -> heads s !! q = Some t) ->
  (forall u k q, pend s' !! u = Some (k, q, Some t) ->
                 pend s !! u = Some (k, q, Some t)) ->
  lost s' t.
Proof.
  intros [(v & Hv & Hn) Hu Hr] Hr' Hs Hh Hp. split; [| |done].
  - exists v. by rewrite Hs.
  - apply unreferenced in Hu as [H1 H2]. apply unreferenced. split; intros.
    + intros E%Hh. by eapply H1.
    + intros E%Hp. by eapply H2.
Qed.

Lemma lost_enter s s' t q k v tmp :
  lost s t -> enqueue sl (ql q) v (me s) s = Ret tmp s' ->
  lost (s' <| pend ::= <[me s := (k, q, tmp)]> |>) t.
Proof.
  intros HL H. pose proof (lost_me _ _ HL) as Hme.
  destruct (proj1 (unreferenced _ _) (lost_unref _ _ HL)) as [U1 U2].
  apply enqueue_inv in H as (-> & Hh & Hp & Hr & Hs).
  apply (lost_keep s); [done|exact Hr| | |]; cbn.
  - by rewrite Hs, decide_False.
  - intros q'. rewrite Hh. destruct (decide (q = q')) as [->|].
    + rewrite lookup_insert_eq. congruence.
    + by rewrite lookup_insert_ne.
  - intros u k' q'. rewrite Hp. destruct (decide (me s = u)) as [<-|].
    + rewrite lookup_insert_eq. intros [= _ -> E]. by apply U1 in E.
    + by rewrite lookup_insert_ne.
Qed.

Lemma lost_leave s s' t q k tmp :
  lost s t -> pend s !! me s = Some (k, q, tmp) ->
  sleep_leave sl (ql q) tmp s = Ret tt s' ->
  lost (s' <| pend ::= delete (me s) |>) t.
Proof.
  intros HL Hpend H. pose proof (lost_me _ _ HL) as Hme.
  destruct (proj1 (unreferenced _ _) (lost_unref _ _ HL)) as [U1 U2].
  pose proof (lost_running _ _ HL) as Hrun.
  assert (Htmp : tmp <> Some t) by (intros ->; by eapply U2).
  apply sleep_leave_inv in H as (Hh & Hp & Hm & Hs).
  apply (lost_keep s); [done| | | |]; cbn.
  - apply runnable_state. unfold me in *. cbn. rewrite Hs, Hm.
    case_decide; [done|by apply runnable_state].
  - by rewrite Hs, decide_False.
  - intros q'. rewrite Hh. destruct tmp as [u|].
    + destruct (decide (q = q')) as [->|]; [|by rewrite lookup_insert_ne].
      rewrite lookup_insert_eq. congruence.
    + intros [_ E]%lookup_delete_Some. done.
  - intros u k' q'. rewrite Hp. by intros [_ E]%lookup_delete_Some.
Qed.

Lemma lost_step s s' t : lost s t -> step s s' -> lost s' t.
Proof.
  intros HL Hst. pose proof (lost_me _ _ HL) as Hme.
  destruct (proj1 (unreferenced _ _) (lost_unref _ _ HL)) as [U1 U2].
  pose proof (lost_running _ _ HL) as Hrun.
  destruct Hst as [q s tmp s' Hpend H|q s tmp s' Hpend H|q s tmp s' Hpend H
    |q s tmp s' again Hpend H|q s s' H|s c' Hpend H].
  - destruct (enter_inv q s tmp s' (or_introl H)) as (_ & v & _ & H').
    by eapply lost_enter.
  - destruct (enter_inv q s tmp s' (or_intror H)) as (_ & v & _ & H').
    by eapply lost_enter.
  - by eapply lost_leave.
  - apply isleep_leave_inv in H as [[-> H]|(-> & u & Hu & _ & Hh & Hp & Hr & Hs)].
    { by eapply lost_leave. }
    apply (lost_keep s); [done|exact Hr| |by rewrite Hh|by rewrite Hp].
    rewrite Hs, !decide_False; congruence.
  - apply wake_up_inv in H as (Hh & Hp & Hm & Hs).
    apply (lost_keep s); [done| | | |by rewrite Hp].
    + apply runnable_state. unfold me in *. rewrite Hs, Hm.
      case_decide; [done|by apply runnable_state].
    + by rewrite Hs, decide_False.
    + intros q'. rewrite Hh. by intros [_ E]%lookup_delete_Some.
  - apply do_timer_frame in H as [H1 H2]; [|done].
    apply (lost_keep s); [done|exact H2| |done..].
    cbn. by rewrite (state_of_same _ _ _ H1).
Qed.

Lemma lost_steps s s' t : steps s s' -> lost s t -> lost s' t.
Proof. induction 1; eauto using lost_step. Qed.
(** ** A wake-up that nobody disturbs reaches every sleeper *)

(** [t] is switched to, if it is runnable, and finishes its sleeping call. *)
Definition resume (t : nat) : M sys unit :=
  let! s := get in
  if decide (state_of (sc s) t = Some TASK_RUNNING) then
    zoom sl (switch_to t) ;;
    match pend s !! t with
    | Some (Unint, q, tmp) =>
        sleep_leave sl (ql q) tmp ;; modify (fun s => s <| pend ::= delete t |>)
    | Some (Int, q, tmp) =>
        let! again := isleep_leave sl (ql q) tmp in
        when (negb again) (modify (fun s => s <| pend ::= delete t |>))
    | None => ret tt
    end
  else halt Blocked.

Fixpoint resume_all (l : list nat) : M sys unit :=
  match l with [] => ret tt | t :: l' => resume t ;; resume_all l' end.

(** The sleepers of [q] from the pointer [h] on, along the saved [tmp]s. *)
Fixpoint chain (s : sys) (q : nat) (h : option nat) (l : list nat) : Prop :=
  match l with
  | [] => h = None
  | t :: l' => h = Some t /\ is_Some (task_at (sc s) t) /\
      exists k tmp, pend s !! t = Some (k, q, tmp) /\ chain s q tmp l'
  end.

Lemma chain_ext s s' q h l :
  (forall t, t ∈ l -> pend s' !! t = pend s !! t /\
     (is_Some (task_at (sc s) t) -> is_Some (task_at (sc s') t))) ->
  chain s q h l -> chain s' q h l.
Proof.
  revert h. induction l as [|t l IH]; intros h H; [done|]. cbn.
  intros (-> & Ht & k & tmp & Hp & Hc).
  destruct (H t) as [H1 H2]; [set_solver|]. split_and!; [done|auto|].
  exists k, tmp. rewrite H1. split; [done|]. apply IH; [|done].
  intros u Hu. apply H. set_solver.
Qed.

Lemma state_of_is_Some c t : is_Some (state_of c t) <-> is_Some (task_at c t).
Proof. unfold state_of. apply fmap_is_Some. Qed.

Lemma set_state_run t v c :
  is_Some (task_at c t) -> exists c', set_state t v c = Ret tt c'.
Proof.
  intros [p Hp]. unfold set_state. run. by eexists.
Qed.

Lemma zoom_run {A} (m : M sched A) a c s :
  m (sc s) = Ret a c -> zoom sl m s = Ret a (s <| sc := c |>).
Proof. unfold zoom. cbn. by intros ->. Qed.

Lemma sleep_leave_run q tmp s :
  match tmp with Some t => is_Some (task_at (sc s) t) | None => True end ->
  exists s', sleep_leave sl (ql q) tmp s = Ret tt s'.
Proof.
  intros H. unfold sleep_leave. run. destruct tmp as [t|]; [|by eexists].
  destruct (set_state_run t TASK_RUNNING (sc s) H) as [c Hc].
  eexists. by apply zoom_run.
Qed.

(** One sleeper leaves, with the head of the queue still as wake_up() or the
    sleeper before it left it. *)
Lemma resume_run s q t k tmp :
  state_of (sc s) t = Some TASK_RUNNING -> pend s !! t = Some (k, q, tmp) ->
  (heads s !! q = None \/ heads s !! q = Some t) ->
  match tmp with Some t => is_Some (task_at (sc s) t) | None => True end ->
  exists s', resume t s = Ret tt s' /\ heads s' !! q = tmp /\
    (forall q', q' <> q -> heads s' !! q' = heads s !! q') /\
    pend s' = delete t (pend s) /\
    forall u, state_of (sc s') u =
      if decide (tmp = Some u) then Some TASK_RUNNING else state_of (sc s) u.
Proof.
  intros Hr Hp Hh Htmp. unfold resume. run. rewrite decide_True by done.
  set (s1 := s <| sc := (sc s) <| current := t |> |>).
  assert (Hz : zoom sl (switch_to t) s = Ret tt s1) by done.
  rewrite (bind_ret _ _ _ _ _ Hz). rewrite Hp.
  destruct (sleep_leave_run q tmp s1) as [s2 H2]; [by destruct tmp|].
  assert (Hl : match k with
     | Unint => sleep_leave sl (ql q) tmp s1 = Ret tt s2
     | Int => isleep_leave sl (ql q) tmp s1 = Ret false s2
     end).
  { destruct k; [done|]. unfold isleep_leave. run. cbn.
    destruct Hh as [->| ->]; [|rewrite Nat.eqb_refl];
      by rewrite (bind_ret _ _ _ _ _ H2). }
  exists (s2 <| pend ::= delete t |>). split.
  { destruct k; by rewrite (bind_ret _ _ _ _ _ Hl). }
  apply sleep_leave_inv in H2 as (Hh2 & Hp2 & Hm & Hs2). cbn.
  rewrite Hh2, Hp2. split_and!; [| |done|done].
  - destruct tmp; [apply lookup_insert_eq|apply lookup_delete_eq].
  - intros q' Hq'.
    destruct tmp; [by apply lookup_insert_ne|by apply lookup_delete_ne].
Qed.

Lemma resume_all_run l q s t :
  NoDup (t :: l) -> state_of (sc s) t = Some TASK_RUNNING ->
  (heads s !! q = None \/ heads s !! q = Some t) ->
  chain s q (Some t) (t :: l) ->
  exists s', resume_all (t :: l) s = Ret tt s' /\ heads s' !! q = None /\
    (forall q', q' <> q -> heads s' !! q' = heads s !! q') /\
    (forall u, u ∈ t :: l ->
       state_of (sc s') u = Some TASK_RUNNING /\ pend s' !! u = None) /\
    (forall u, u ∉ t :: l ->
       state_of (sc s') u = state_of (sc s) u /\ pend s' !! u = pend s !! u).
Proof.
  revert s t. induction l as [|t' l IH]; intros s t Hnd Hr Hh Hc;
    cbn [chain] in Hc; destruct Hc as (_ & Ht & k & tmp & Hp & Hc).
  - subst tmp. destruct (resume_run s q t k None) as (s' & Hrun & ? & ? & Hp' & Hs);
      [done..|]. exists s'. cbn [resume_all]. rewrite (bind_ret _ _ _ _ _ Hrun).
    split_and!; [done..| |]; intros u Hu; rewrite Hs, Hp', decide_False by done.
    + apply list_elem_of_singleton in Hu as ->. by rewrite lookup_delete_eq.
    + rewrite lookup_delete_ne by set_solver. done.
  - destruct Hc as (-> & Ht' & k' & tmp' & Hp' & Hc).
    destruct (resume_run s q t k (Some t')) as (s1 & Hrun & Hh1 & Ho1 & Hp1 & Hs1);
      [done..|]. apply NoDup_cons in Hnd as [Hnt Hnd].
    destruct (IH s1 t') as (s' & Hrun' & ? & Ho & Hin & Hout); [done| |by right| |].
    { by rewrite Hs1, decide_True. }
    { apply (chain_ext s).
      - intros u Hu. rewrite Hp1, lookup_delete_ne by set_solver. split; [done|].
        rewrite <-!state_of_is_Some, Hs1. by case_decide.
      - cbn [chain]. eauto 6. }
    exists s'. cbn [resume_all]. rewrite (bind_ret _ _ _ _ _ Hrun).
    split_and!; [done..| | |].
    + intros q' Hq'. rewrite Ho, Ho1; done.
    + intros u Hu. destruct (decide (u ∈ t' :: l)) as [Hi|Hi]; [by apply Hin|].
      assert (u = t) as -> by set_solver. destruct (Hout t Hi) as [-> ->].
      rewrite Hs1, Hp1, lookup_delete_eq.
      case_decide as E; [done|]. by rewrite Hr.
    + intros u Hu. destruct (Hout u) as [-> ->]; [set_solver|].
      rewrite Hs1, Hp1, lookup_delete_ne, decide_False; [done|set_solver..].
Qed.

(** C13.  What the wait queues are for: when the head of the queue and the
    saved [tmp]s link the sleepers [l] of [q], one wake_up(q) is enough.  Each
    task of [l] is runnable when its turn comes, makes the next one runnable
    and leaves; at the end all of them run, the queue is empty, and no other
    task or queue was touched. *)
Theorem wake_up_reaches_all s q l :
  chain s q (heads s !! q) l -> NoDup l ->
  exists s', (wake_up sl (ql q) ;; resume_all l) s = Ret tt s' /\
    heads s' !! q = None /\
    (forall q', q' <> q -> heads s' !! q' = heads s !! q') /\
    (forall t, t ∈ l ->
       state_of (sc s') t = Some TASK_RUNNING /\ pend s' !! t = None) /\
    (forall t, t ∉ l ->
       state_of (sc s') t = state_of (sc s) t /\ pend s' !! t = pend s !! t).
Proof.
  intros Hc Hnd. destruct l as [|t l].
  { cbn in Hc. exists s. unfold wake_up. run. cbn. rewrite Hc.
    split_and!; [done..|set_solver|done]. }
  pose proof Hc as (Hh & Ht & _).
  assert (exists s1, wake_up sl (ql q) s = Ret tt s1) as [s1 H1].
  { unfold wake_up. run. cbn [lget ql]. rewrite Hh.
    destruct (set_state_run t TASK_RUNNING (sc s) Ht) as [c Hcc].
    eexists. by rewrite (bind_ret _ _ _ _ _ (zoom_run _ _ _ _ Hcc)). }
  rewrite (bind_ret _ _ _ _ _ H1).
  apply wake_up_inv in H1 as (Hh1 & Hp1 & _ & Hs1).
  destruct (resume_all_run l q s1 t) as (s' & ? & ? & Ho & Hin & Hout);
    [done|by rewrite Hs1, decide_True|left; by rewrite Hh1, lookup_delete_eq| |].
  { rewrite <-Hh. apply (chain_ext s); [|done]. intros u _. rewrite Hp1.
    split; [done|]. rewrite <-!state_of_is_Some, Hs1. by case_decide. }
  exists s'. split_and!; [done..| |done|].
  - intros q' Hq'. rewrite Ho, Hh1 by done. by apply lookup_delete_ne.
  - intros u Hu. destruct (Hout u Hu) as [-> ->]. rewrite Hp1, Hs1.
    rewrite decide_False; [done|]. rewrite Hh. set_solver.
Qed.

(** Being lost is decidable. *)
Definition lost_b (s : sys) (t : nat) : bool :=
  match state_of (sc s) t with Some v => negb (v =? TASK_RUNNING) | None => false end
  && bool_decide (map_Forall (fun _ u => u <> t) (heads s))
  && bool_decide (map_Forall (fun _ p => snd p <> Some t) (pend s))
  && bool_decide (state_of (sc s) (me s) = Some TASK_RUNNING).

Lemma lost_decide s t : lost_b s t = true -> lost s t.
Proof.
  unfold lost_b. intros (((H1 & H2)%andb_true_iff & H3)%andb_true_iff & H4)%andb_true_iff.
  apply bool_decide_eq_true in H2, H3, H4. split.
  - destruct (state_of (sc s) t) as [v|]; [|done]. exists v. zb. done.
  - apply unreferenced. split; [|intros u k]; intros q E.
    + by apply H2 in E.
    + by apply H3 in E.
  - by apply runnable_state.
Qed.

(** ** Three tasks and one queue *)

Definition start : sys := {| sc := demo; heads := ∅; pend := ∅ |}.

(** Two tasks asleep on queue 7, task 2 behind task 1. *)
Definition two_asleep : sys := {|
  sc := {| task := [Some (demo_task 0 5);
                    Some ((demo_task 1 10) <| state := TASK_UNINTERRUPTIBLE |>);
                    Some ((demo_task 2 15) <| state := TASK_INTERRUPTIBLE |>);
                    None; None; None; None; None];
           current := 0%nat; last_pid := 2 |};
  heads := {[7%nat := 1%nat]};
  pend := {[1%nat := (Unint, 7%nat, Some 2%nat); 2%nat := (Int, 7%nat, None)]} |}.

Example wake_up_reaches_all_witness :
  exists s', (wake_up sl (ql 7) ;; resume_all [1; 2]%nat) two_asleep = Ret tt s' /\
    state_of (sc s') 2 = Some TASK_RUNNING.
Proof.
  destruct (wake_up_reaches_all two_asleep 7 [1; 2]%nat) as (s' & H & _ & _ & Hin & _).
  - cbn. split_and!; [done|by eexists|]. exists Unint, (Some 2%nat). split; [done|].
    split_and!; [done|by eexists|]. exists Int, None. by split.
  - repeat constructor; set_solver.
  - exists s'. split; [exact H|]. apply Hin. set_solver.
Defined.

(** C25.  What can go wrong: sleep_leave stores its old [tmp] into the queue
    head unconditionally.  When a second task goes to sleep between the
    wake_up() and the moment the first one runs again, its entry is
    overwritten: from [start], where tasks 1 and 2 are awake, a state is
    reachable from which task 2 never runs again, whatever wake_up() calls,
    timer interrupts and other sleepers follow. *)
Theorem lost_wakeup :
  exists s, steps start s /\
    forall s', steps s s' -> state_of (sc s') 2 <> Some TASK_RUNNING.
Proof.
  eexists. split.
  - eapply steps_step; [eapply (step_enter 7); vm_compute; reflexivity|].
    eapply steps_step; [eapply (step_wake 7); vm_compute; reflexivity|].
    eapply steps_step; [eapply (step_enter 7); vm_compute; reflexivity|].
    eapply steps_step; [eapply (step_leave 7); vm_compute; reflexivity|].
    apply steps_refl.
  - intros s' Hs'.
    destruct (lost_asleep s' 2) as (v & -> & Hv); [|congruence].
    apply (lost_steps _ _ _ Hs'). apply lost_decide. vm_compute. reflexivity.
Qed.
End Machine.
