(* ===== verification/Desc.v ===== *)
(** * Segment and gate descriptors

    The macros of include/kernel/schedule.h and arch/x86/asm/include/system.h
    that store fields of 8-byte descriptors with byte and word moves.  A
    descriptor is its two words: bytes 0-3 in [d_a], 4-7 in [d_b]. *)

From S2P Require Import Prelude Task.

Definition movb (w i v : Z) : Z := putbits w (8 * i) 8 v.
Definition movw (w i v : Z) : Z := putbits w (8 * i) 16 v.

(** [_set_base(addr,base)]: movw to byte 2; movb to bytes 4 and 7. *)
Definition set_base (d : desc_struct) (base : Z) : desc_struct :=
  let dx := u32 base in
  let d := d <| d_a ::= fun a => movw a 2 dx |> in
  let dx := Z.shiftr dx 16 in
  let d := d <| d_b ::= fun b => movb b 0 dx |> in
  d <| d_b ::= fun b => movb b 3 (Z.shiftr dx 8) |>.

(** [_get_base(addr)] *)
Definition get_base (d : desc_struct) : Z :=
  let dh := getbits (d_b d) 24 8 in
  let dl := getbits (d_b d) 0 8 in
  Z.lor (Z.shiftl (Z.lor (Z.shiftl dh 8) dl) 16) (getbits (d_a d) 16 16).

(** [set_limit(ldt,limit)], which stores [(limit-1)>>12] and keeps the flags
    of byte 6. *)
Definition set_limit (d : desc_struct) (limit : Z) : desc_struct :=
  let dx := Z.shiftr (u32 (limit - 1)) 12 in
  let d' := d <| d_a ::= fun a => movw a 0 dx |> in
  let dl := Z.shiftr dx 16 in
  let dh := Z.land (getbits (d_b d) 16 8) 0xf0 in
  d' <| d_b ::= fun b => movb b 2 (Z.lor dl dh) |>.

(** [get_limit(segment)]: the [lsl] instruction on the descriptor the
    selector names (limit scaled by the granularity bit), then [incl]. *)
Definition get_limit (d : desc_struct) : Z :=
  let l := Z.lor (Z.shiftl (getbits (d_b d) 16 4) 16) (getbits (d_a d) 0 16) in
  u32 ((if getbits (d_b d) 23 1 =? 1 then Z.lor (Z.shiftl l 12) 0xfff else l) + 1).

(** [_set_tssldt_desc(n,addr,type)] *)
Definition set_tssldt_desc (d : desc_struct) (addr type : Z) : desc_struct :=
  let ax := u32 addr in
  let d := d <| d_a ::= fun a => movw a 0 104 |> in
  let d := d <| d_a ::= fun a => movw a 2 ax |> in
  let ax := Z.shiftr ax 16 in
  let d := d <| d_b ::= fun b => movb b 0 ax |> in
  let d := d <| d_b ::= fun b => movb b 1 type |> in
  let d := d <| d_b ::= fun b => movb b 2 0 |> in
  d <| d_b ::= fun b => movb b 3 (Z.shiftr ax 8) |>.

Definition set_tss_desc (d : desc_struct) (addr : Z) := set_tssldt_desc d addr 0x89.
Definition set_ldt_desc (d : desc_struct) (addr : Z) := set_tssldt_desc d addr 0x82.

(** [_set_gate(gate_addr,type,dpl,addr)] *)
Definition set_gate (type dpl addr : Z) : desc_struct :=
  let ax := movw 0x00080000 0 (u32 addr) in
  let dx := movw (u32 addr) 0 (0x8000 + Z.shiftl dpl 13 + Z.shiftl type 8) in
  Desc ax dx.
Definition set_intr_gate (addr : Z) := set_gate 14 0 addr.
Definition set_trap_gate (addr : Z) := set_gate 15 0 addr.
Definition set_system_gate (addr : Z) := set_gate 15 3 addr.

(** The two words hold 32 bits. *)
Definition desc_wf (d : desc_struct) : Prop :=
  0 <= d_a d < 2 ^ 32 /\ 0 <= d_b d < 2 ^ 32.

(** Where the processor finds the handler address of a gate. *)
Definition gate_offset (d : desc_struct) : Z :=
  Z.lor (getbits (d_a d) 0 16) (Z.shiftl (getbits (d_b d) 16 16) 16).

(** [get_base] reads back what [set_base] stored, as a 32-bit address,
    whatever the descriptor held; the limit, the access byte and the flags
    are not touched. *)
Theorem get_set_base d base :
  get_base (set_base d base) = u32 base /\
  get_limit (set_base d base) = get_limit d /\
  getbits (d_b (set_base d base)) 8 8 = getbits (d_b d) 8 8 /\
  getbits (d_b (set_base d base)) 20 4 = getbits (d_b d) 20 4.
Proof.
  unfold get_base, get_limit, set_base, movb, movw, u32. cbn [d_a d_b upd].
  split_and!.
  - bitwise.
  - by autorewrite with bits.
  - by autorewrite with bits.
  - by autorewrite with bits.
Qed.

(** The system descriptors and gates the kernel writes say what they are
    meant to: a TSS or LDT descriptor has base [addr], limit 104 (it spans
    105 bytes) and the access byte asked for; the three kinds of gates lead to
    [addr] in segment 8 and are present, with privilege level 0, 0 and 3. *)
Theorem descriptors_decode d addr :
  (get_base (set_tss_desc d addr) = u32 addr /\
   get_limit (set_tss_desc d addr) = 105 /\
   getbits (d_b (set_tss_desc d addr)) 8 8 = 0x89) /\
  (get_base (set_ldt_desc d addr) = u32 addr /\
   get_limit (set_ldt_desc d addr) = 105 /\
   getbits (d_b (set_ldt_desc d addr)) 8 8 = 0x82) /\
  (forall g, g = set_intr_gate addr \/ g = set_trap_gate addr \/
             g = set_system_gate addr ->
   gate_offset g = u32 addr /\ getbits (d_a g) 16 16 = 8) /\
  getbits (d_b (set_intr_gate addr)) 8 8 = 0x8E /\
  getbits (d_b (set_trap_gate addr)) 8 8 = 0x8F /\
  getbits (d_b (set_system_gate addr)) 8 8 = 0xEF.
Proof.
  assert (Hb : forall type, get_base (set_tssldt_desc d addr type) = u32 addr).
  { intros. unfold get_base, set_tssldt_desc, movb, movw, u32.
    cbn [d_a d_b upd]. bitwise. }
  assert (Hl : forall type, get_limit (set_tssldt_desc d addr type) = 105).
  { intros. unfold get_limit, set_tssldt_desc, movb, movw.
    cbn [d_a d_b upd]. autorewrite with bits. by vm_compute. }
  unfold set_tss_desc, set_ldt_desc. split_and!; [done| | |done|done| | |..].
  - apply Hl.
  - unfold set_tssldt_desc, movb, movw. cbn [d_a d_b upd].
    autorewrite with bits. done.
  - unfold set_tssldt_desc, movb, movw. cbn [d_a d_b upd].
    autorewrite with bits. done.
  - intros g Hg. assert (exists t p, g = set_gate t p addr) as (t & p & ->)
      by (destruct Hg as [->|[->| ->]]; eauto).
    unfold gate_offset, set_gate, movw, u32. cbn [d_a d_b]. split.
    + bitwise.
    + autorewrite with bits. done.
  - unfold set_intr_gate, set_gate, movw. cbn [d_a d_b].
    autorewrite with bits. done.
  - unfold set_trap_gate, set_gate, movw. cbn [d_a d_b].
    autorewrite with bits. done.
  - unfold set_system_gate, set_gate, movw. cbn [d_a d_b].
    autorewrite with bits. done.
Qed.
