(* ===== verification/Mem.v ===== *)
(** * Physical pages and page tables: mm/memory.c, include/mm/mm.h

    The state is the bitmap [mem_map], the reference counts of [mm_pages],
    the words of physical memory ([ram], by the byte address of the aligned
    word; the kernel runs on an identity mapping) and the two values fixed by
    mm_init: [HIGH_MEMORY] and the address of the page directory.  Messages
    printed on the way are not part of the state. *)

From S2P Require Import Prelude.

Definition LOW_MEM : Z := 0x100000.
Definition MM_BITMAPS : Z := 512.
Definition MM_PAGES : Z := 16384.
Definition PAGE_SIZE : Z := 4096.
Definition PTE_PRESENT : Z := 0x001.
Definition PTE_WRITE : Z := 0x002.
Definition PTE_USER : Z := 0x004.
Definition PTE_DIRTY : Z := 0x040.
Definition PTE_UWP : Z := Z.lor (Z.lor PTE_USER PTE_WRITE) PTE_PRESENT.
Definition PDE_PRESENT : Z := 0x001.
Definition PDE_UWP : Z := PTE_UWP.

Record mm := Mm {
  mem_map : list Z;
  refcount : list Z;
  ram : Z -> Z;
  HIGH_MEMORY : Z;
  pg_dir : Z
}.
#[export] Instance eta_mm : Eta mm :=
  fun s => Mm (mem_map s) (refcount s) (ram s) (HIGH_MEMORY s) (pg_dir s).

(** ** The helpers of mm.h *)

Definition MAP_NR (addr : Z) : Z := Z.shiftr (u32 (addr - LOW_MEM)) 12.
Definition PAGE_NR (addr : Z) : Z := Z.shiftr (u32 (addr - LOW_MEM)) 12.

(** [None] is the error return. *)
Definition get_bitpos (addr : Z) : option (Z * Z) :=
  let nr := MAP_NR addr in
  let pos := nr / 32 in
  let idx := nr mod 32 in
  if MM_BITMAPS <=? pos then None else Some (pos, idx).

(** The index in [mm_pages]; [None] is NULL. *)
Definition mms_page (addr : Z) : option Z :=
  if PAGE_NR addr <? MM_PAGES then Some (PAGE_NR addr) else None.

Definition pgdir_idx (vaddr : Z) : Z := Z.land (Z.shiftr vaddr 22) 0x3ff.
Definition page_idx (vaddr : Z) : Z := Z.land (Z.shiftr vaddr 12) 0x3ff.

Definition rd (a : Z) : M mm Z := gets (fun s => ram s a).
Definition wr (a v : Z) : M mm unit :=
  modify (fun s => s <| ram ::= fun r a' => if a' =? a then v else r a' |>).

(** Addresses of the directory entry and of the page table entry of [vaddr]. *)
Definition pde (vaddr : Z) : M mm Z :=
  gets (fun s => pg_dir s + 4 * pgdir_idx vaddr).
Definition page_table_from (pg_dir_entry : Z) : M mm Z :=
  let! e := rd pg_dir_entry in ret (Z.land e 0xfffff000).
Definition pte (vaddr : Z) : M mm Z :=
  let! d := pde vaddr in
  let! t := page_table_from d in
  ret (t + 4 * page_idx vaddr).
Definition page_from (pg_table_entry : Z) : M mm Z :=
  let! e := rd pg_table_entry in ret (Z.land e 0xfffff000).

(** [memset(addr,0,PAGE_SIZE)] and [copy_page(from,to)] on whole pages. *)
Definition clear_page (addr : Z) : M mm unit :=
  modify (fun s => s <| ram ::= fun r a =>
    if (addr <=? a) && (a <? addr + PAGE_SIZE) then 0 else r a |>).
Definition copy_page (from to : Z) : M mm unit :=
  modify (fun s => s <| ram ::= fun r a =>
    if (to <=? a) && (a <? to + PAGE_SIZE) then r (a - to + from) else r a |>).

(** [mms_page(addr)->_refcount += d]; NULL faults. *)
Definition add_ref (addr d : Z) : M mm unit :=
  let! n := deref (mms_page addr) in
  let! c := gets (fun s => zget (refcount s) n) in
  let! c := deref c in
  modify (fun s => s <| refcount ::= zset n (c + d) |>).

Definition get_ref (addr : Z) : M mm Z :=
  let! n := deref (mms_page addr) in
  let! c := gets (fun s => zget (refcount s) n) in
  deref c.

Definition map_word (pos : Z) : M mm Z :=
  let! w := gets (fun s => zget (mem_map s) pos) in deref w.

(** ** The page bitmap *)

Definition set_mem_map (addr : Z) : M mm unit :=
  let addr := Z.land addr 0xfffff000 in
  match get_bitpos addr with
  | Some (pos, idx) =>
      let! w := map_word pos in
      modify (fun s => s <| mem_map ::= zset pos (Z.lor w (Z.shiftl 1 idx)) |>) ;;
      add_ref addr 1
  | None => ret tt
  end.

Definition clear_mem_map (addr : Z) : M mm unit :=
  match get_bitpos addr with
  | Some (pos, idx) =>
      add_ref addr (-1) ;;
      let! c := get_ref addr in
      if c =? 0 then
        let! w := map_word pos in
        modify (fun s => s <| mem_map ::= zset pos (Z.ldiff w (Z.shiftl 1 idx)) |>)
      else if c <? 0 then halt (Panic "Try to free free page.")
      else ret tt
  | None => ret tt
  end.

Definition free_page (addr : Z) : M mm unit :=
  if addr <? LOW_MEM then ret tt
  else
    let! high := gets HIGH_MEMORY in
    if high <=? addr then halt (Panic "trying to free nonexistent page")
    else clear_mem_map addr.

(** [std; repe; scasl] from the last word down: the position of the last word
    that is not all ones; when there is none, [eax] keeps 0xFFFFFFFF. *)
Fixpoint scasl (map : list Z) (ecx : nat) : Z :=
  match ecx with
  | O => 0xFFFFFFFF
  | S n => if default 0xFFFFFFFF (map !! n) =? 0xFFFFFFFF then scasl map n
           else Z.of_nat n
  end.

(** [while(--idx >= 0 && (mem_map[pos] & (1<<idx)))]: the last bit that is
    clear, -1 when there is none. *)
Fixpoint top_clear (w : Z) (idx : nat) : Z :=
  match idx with
  | O => -1
  | S n => if truth (Z.land w (Z.shiftl 1 (Z.of_nat n))) then top_clear w n
           else Z.of_nat n
  end.

(** The test [pos < 0] of the code is on an unsigned variable: it is never
    true, and the loop reads [mem_map[pos]] even for 0xFFFFFFFF. *)
Definition get_free_page : M mm Z :=
  let! pos := gets (fun s => scasl (mem_map s) (Z.to_nat MM_BITMAPS)) in
  let! w := map_word pos in
  let idx := top_clear w 32 in
  let addr := u32 ((pos * 4 * 8 + idx) * 4096 + LOW_MEM) in
  clear_page addr ;;
  set_mem_map addr ;;
  ret addr.

(** ** Page tables *)

Definition put_page (page address : Z) : M mm Z :=
  let! _ := get_ref page in
  let! pg_dir_entry := pde address in
  let! e := rd pg_dir_entry in
  if truth (Z.land e PDE_PRESENT) then
    let! page_table := page_table_from pg_dir_entry in
    wr (page_table + 4 * page_idx address) (Z.lor page PTE_UWP) ;;
    ret page
  else
    let! free_page := get_free_page in
    if free_page =? 0 then ret 0
    else
      wr pg_dir_entry (Z.lor free_page PDE_UWP) ;;
      wr (free_page + 4 * page_idx address) (Z.lor page PTE_UWP) ;;
      ret page.

Definition get_empty_page (address : Z) : M mm unit :=
  let! tmp := get_free_page in
  if tmp =? 0 then free_page tmp
  else
    let! r := put_page tmp address in
    if r =? 0 then free_page tmp else ret tt.

(** The copy of one page table entry. *)
Definition copy_pte (from_pte to_pte : Z) : M mm unit :=
  let! this_page := rd from_pte in
  if negb (truth (Z.land 1 this_page)) then ret tt
  else
    let this_page := Z.ldiff this_page PTE_WRITE in
    wr to_pte this_page ;;
    if LOW_MEM <=? this_page then
      wr from_pte this_page ;;
      add_ref this_page 1
    else ret tt.

(** [for ( ; nr-- > 0 ; from_page_table++,to_page_table++)] *)
Fixpoint copy_ptes (nr : nat) (from_page_table to_page_table : Z) : M mm unit :=
  match nr with
  | O => ret tt
  | S nr' =>
      copy_pte from_page_table to_page_table ;;
      copy_ptes nr' (from_page_table + 4) (to_page_table + 4)
  end.

(** [for( ; size-->0 ; from_dir++,to_dir++)] *)
Fixpoint copy_dirs (size : nat) (from_dir to_dir : Z) : M mm Z :=
  match size with
  | O => ret 0
  | S size' =>
      let! e := rd from_dir in
      if negb (truth (Z.land 1 e)) then copy_dirs size' (from_dir + 4) (to_dir + 4)
      else
        let from_page_table := Z.land 0xfffff000 e in
        let! to_page_table := get_free_page in
        if to_page_table =? 0 then ret (-1)
        else
          wr to_dir (Z.lor to_page_table 7) ;;
          copy_ptes 1024 from_page_table to_page_table ;;
          copy_dirs size' (from_dir + 4) (to_dir + 4)
  end.

Definition copy_page_tables (from to size : Z) : M mm Z :=
  let! from_dir := pde from in
  let! to_dir := pde to in
  let size := Z.shiftr (u32 (size + 0x3fffff)) 22 in
  copy_dirs (Z.to_nat size) from_dir to_dir.

(** ** Write protection faults *)

Definition un_wp_page (page_table_entry : Z) : M mm unit :=
  let! old_page := page_from page_table_entry in
  let! single := (if LOW_MEM <=? old_page then
                    let! c := get_ref old_page in ret (c =? 1)
                  else ret false) in
  if single then
    let! e := rd page_table_entry in
    wr page_table_entry (Z.lor e PTE_WRITE)
  else
    let! new_page := get_free_page in
    when (LOW_MEM <=? old_page) (add_ref old_page (-1)) ;;
    wr page_table_entry (Z.lor new_page 7) ;;
    copy_page old_page new_page.

Definition do_wp_page (error_code address : Z) : M mm unit :=
  let! p := pte address in
  un_wp_page p.

(** ** mm_init() *)

Fixpoint release (n : nat) (addr memory_end : Z) : M mm unit :=
  match n with
  | O => halt NoFuel
  | S n' =>
      if addr <? memory_end then
        clear_mem_map addr ;;
        release n' (u32 (addr + PAGE_SIZE)) memory_end
      else ret tt
  end.

(** mm_init() up to buffer_init(), which Buffer.v models.  The memory size in
    KB and the number of page table frames come from the boot loader. *)
Definition mm_init (fuel : nat) (total_mem_size end_of_kernel paging_frames : Z) :
    M mm unit :=
  let memory_end := u32 (Z.shiftl total_mem_size 10) in
  let main_memory_start := u32 (end_of_kernel + paging_frames * 4096) in
  modify (fun s => s <| HIGH_MEMORY := memory_end |>
    <| mem_map := replicate (Z.to_nat MM_BITMAPS) 0xFFFFFFFF |>
    <| ram ::= fun r a =>
         if (LOW_MEM <=? a) && (a <? LOW_MEM + 0x400000) then 0
         else if (0x400000 <=? a) && (a <? 0x800000) then 0 else r a |>
    <| refcount := replicate (Z.to_nat MM_PAGES) 1 |>) ;;
  release fuel main_memory_start memory_end.

(** ** Pages by number *)

Definition page_addr (nr : Z) : Z := LOW_MEM + nr * PAGE_SIZE.
Definition page_bit (s : mm) (nr : Z) : bool :=
  match zget (mem_map s) (nr / 32) with
  | Some w => Z.testbit w (nr mod 32)
  | None => false
  end.
Definition refs (s : mm) (nr : Z) : Z := default 0 (zget (refcount s) nr).

(** The invariant of the allocator: the bitmap and the reference counts agree
    on which pages are in use. *)
Record mm_wf (s : mm) : Prop := {
  wf_map : length (mem_map s) = Z.to_nat MM_BITMAPS;
  wf_words : forall i w, zget (mem_map s) i = Some w -> 0 <= w < 2 ^ 32;
  wf_refs : length (refcount s) = Z.to_nat MM_PAGES;
  wf_count : forall nr, 0 <= refs s nr;
  wf_agree : forall nr, 0 <= nr < MM_PAGES -> page_bit s nr = (0 <? refs s nr)
}.

Lemma MAP_NR_page nr off :
  0 <= nr < 2 ^ 19 -> 0 <= off < PAGE_SIZE -> MAP_NR (page_addr nr + off) = nr.
Proof.
  unfold MAP_NR, page_addr, PAGE_SIZE, LOW_MEM. intros.
  replace (0x100000 + nr * 4096 + off - 0x100000) with (nr * 4096 + off) by lia.
  rewrite u32_small by lia. rewrite Z.shiftr_div_pow2 by lia.
  change (2 ^ 12) with 4096. Z.div_mod_to_equations. lia.
Qed.

Lemma MAP_NR_inv addr :
  0 <= addr < 2 ^ 32 -> LOW_MEM <= addr ->
  0 <= MAP_NR addr /\ page_addr (MAP_NR addr) <= addr < page_addr (MAP_NR addr) + PAGE_SIZE.
Proof.
  unfold MAP_NR, page_addr, PAGE_SIZE, LOW_MEM. intros.
  rewrite u32_small by lia. rewrite Z.shiftr_div_pow2 by lia.
  change (2 ^ 12) with 4096. Z.div_mod_to_equations. lia.
Qed.

Lemma get_bitpos_page nr off :
  0 <= nr < MM_PAGES -> 0 <= off < PAGE_SIZE ->
  get_bitpos (page_addr nr + off) = Some (nr / 32, nr mod 32) /\
  mms_page (page_addr nr + off) = Some nr.
Proof.
  unfold get_bitpos, mms_page, MM_BITMAPS, MM_PAGES. change PAGE_NR with MAP_NR.
  intros Hnr Hoff. rewrite MAP_NR_page by lia.
  assert (nr / 32 < 512) by (Z.div_mod_to_equations; lia).
  destruct (Z.leb_spec 512 (nr / 32)); [lia|].
  destruct (Z.ltb_spec nr 16384); [done|lia].
Qed.

Lemma get_bitpos_out addr :
  0 <= addr < LOW_MEM \/ page_addr MM_PAGES <= addr < 2 ^ 32 ->
  get_bitpos addr = None /\ mms_page addr = None.
Proof.
  unfold get_bitpos, mms_page, MM_BITMAPS, MM_PAGES. change PAGE_NR with MAP_NR.
  intros H. assert (16384 <= MAP_NR addr) as Hm.
  { unfold MAP_NR. rewrite Z.shiftr_div_pow2 by lia.
    unfold u32, page_addr, LOW_MEM, PAGE_SIZE in *.
    change (2 ^ 12) with 4096. Z.div_mod_to_equations. lia. }
  assert (512 <= MAP_NR addr / 32) by (Z.div_mod_to_equations; lia).
  destruct (Z.leb_spec 512 (MAP_NR addr / 32)); [|lia].
  destruct (Z.ltb_spec (MAP_NR addr) 16384); [lia|done].
Qed.

(** get_bitpos() is the position of the page in the bitmap for every
    address of the 64 MB above LOW_MEM, and an error for every other
    address: below LOW_MEM the unsigned difference wraps to a number past the
    bitmap. *)
Theorem get_bitpos_spec :
  (forall nr off, 0 <= nr < MM_PAGES -> 0 <= off < PAGE_SIZE ->
     get_bitpos (page_addr nr + off) = Some (nr / 32, nr mod 32) /\
     mms_page (page_addr nr + off) = Some nr) /\
  (forall addr, 0 <= addr < LOW_MEM \/ page_addr MM_PAGES <= addr < 2 ^ 32 ->
     get_bitpos addr = None /\ mms_page addr = None).
Proof. split; [apply get_bitpos_page|apply get_bitpos_out]. Qed.

Lemma get_bitpos_page0 nr :
  0 <= nr < MM_PAGES ->
  get_bitpos (page_addr nr) = Some (nr / 32, nr mod 32) /\
  mms_page (page_addr nr) = Some nr.
Proof.
  intros. rewrite <-(Z.add_0_r (page_addr nr)).
  apply get_bitpos_page; unfold PAGE_SIZE; lia.
Qed.

Lemma page_addr_range nr :
  0 <= nr < MM_PAGES -> LOW_MEM <= page_addr nr < 2 ^ 27.
Proof. unfold page_addr, MM_PAGES, LOW_MEM, PAGE_SIZE. lia. Qed.

(** The frame of a word: its upper 20 bits. *)
Lemma frame_mask x :
  0 <= x < 2 ^ 32 -> Z.land x 0xfffff000 = x / 4096 * 4096.
Proof.
  intros Hx. change 4096 with (2 ^ 12) at 1 2.
  rewrite <-Z.shiftr_div_pow2, <-Z.shiftl_mul_pow2 by lia.
  change 0xfffff000 with (Z.shiftl (Z.ones 20) 12). bitwise.
  symmetry. apply (bits_above x 32); lia.
Qed.

Lemma page_mask nr off :
  0 <= nr < MM_PAGES -> 0 <= off < PAGE_SIZE ->
  Z.land (page_addr nr + off) 0xfffff000 = page_addr nr.
Proof.
  intros Hnr Hoff. pose proof (page_addr_range nr Hnr) as Hr.
  rewrite frame_mask by (unfold PAGE_SIZE, LOW_MEM in *; lia).
  unfold page_addr, LOW_MEM, PAGE_SIZE in *. Z.div_mod_to_equations. lia.
Qed.

(** ** What the bitmap operations do, page by page *)

Lemma div_mod_inj k nr :
  k / 32 = nr / 32 -> k mod 32 = nr mod 32 -> k = nr.
Proof. intros. Z.div_mod_to_equations. lia. Qed.

(** The tables have their sizes, whatever they say. *)
Record mm_shape (s : mm) : Prop := {
  sh_map : length (mem_map s) = Z.to_nat MM_BITMAPS;
  sh_words : forall i w, zget (mem_map s) i = Some w -> 0 <= w < 2 ^ 32;
  sh_counts : length (refcount s) = Z.to_nat MM_PAGES
}.
Lemma wf_shape s : mm_wf s -> mm_shape s.
Proof. intros [H1 H2 H3 _ _]. by split. Qed.

Lemma mm_word s nr :
  mm_shape s -> 0 <= nr < MM_PAGES ->
  exists w, zget (mem_map s) (nr / 32) = Some w.
Proof.
  intros Hw Hnr. apply zget_is_Some. rewrite (sh_map _ Hw).
  unfold MM_BITMAPS, MM_PAGES in *. Z.div_mod_to_equations. lia.
Qed.

Definition counts_all (s : mm) : Prop :=
  length (refcount s) = Z.to_nat MM_PAGES.

Lemma mm_count s nr :
  counts_all s -> 0 <= nr < MM_PAGES ->
  zget (refcount s) nr = Some (refs s nr).
Proof.
  intros Hw Hnr. unfold refs. destruct (zget_is_Some (refcount s) nr) as [c ->];
    [|done]. rewrite Hw. unfold MM_PAGES in *. lia.
Qed.

Lemma get_ref_page s nr off :
  counts_all s -> 0 <= nr < MM_PAGES -> 0 <= off < PAGE_SIZE ->
  get_ref (page_addr nr + off) s = Ret (refs s nr) s.
Proof.
  intros Hw Hnr Hoff. unfold get_ref.
  rewrite (bind_deref _ _ _ _ (proj2 (get_bitpos_page nr off Hnr Hoff))).
  run. by rewrite mm_count.
Qed.

Lemma add_ref_page s nr off d :
  counts_all s -> 0 <= nr < MM_PAGES -> 0 <= off < PAGE_SIZE ->
  add_ref (page_addr nr + off) d s =
    Ret tt (s <| refcount ::= zset nr (refs s nr + d) |>).
Proof.
  intros Hw Hnr Hoff. unfold add_ref.
  rewrite (bind_deref _ _ _ _ (proj2 (get_bitpos_page nr off Hnr Hoff))).
  run. by rewrite (bind_deref _ _ _ _ (mm_count _ _ Hw Hnr)).
Qed.

Lemma refs_zset s nr c k :
  counts_all s -> 0 <= nr < MM_PAGES ->
  refs (s <| refcount ::= zset nr c |>) k = if decide (k = nr) then c else refs s k.
Proof.
  intros Hl Hnr. unfold refs. cbn. case_decide.
  - subst. rewrite zget_zset_eq; [done|]. rewrite Hl. unfold MM_PAGES in *. lia.
  - by rewrite zget_zset_ne.
Qed.

(** The page [nr] gets the bit [b] and the count [c]. *)
Record page_set (s s' : mm) (nr : Z) (b : bool) (c : Z) : Prop := {
  ps_bit : forall k, page_bit s' k = if decide (k = nr) then b else page_bit s k;
  ps_refs : forall k, refs s' k = if decide (k = nr) then c else refs s k;
  ps_map : length (mem_map s') = length (mem_map s);
  ps_words : forall i w, zget (mem_map s') i = Some w -> 0 <= w < 2 ^ 32;
  ps_len : length (refcount s') = length (refcount s);
  ps_high : HIGH_MEMORY s' = HIGH_MEMORY s;
  ps_dir : pg_dir s' = pg_dir s;
  ps_ram : ram s' = ram s
}.

Lemma page_set_wf s s' nr b c :
  mm_wf s -> page_set s s' nr b c -> 0 <= c -> b = (0 <? c) -> mm_wf s'.
Proof.
  intros Hw Hs Hc Hb. split.
  - rewrite (ps_map _ _ _ _ _ Hs). apply Hw.
  - apply (ps_words _ _ _ _ _ Hs).
  - rewrite (ps_len _ _ _ _ _ Hs). apply Hw.
  - intros k. rewrite (ps_refs _ _ _ _ _ Hs). case_decide; [done|apply Hw].
  - intros k Hk. rewrite (ps_refs _ _ _ _ _ Hs), (ps_bit _ _ _ _ _ Hs).
    case_decide; [done|by apply Hw].
Qed.

(** Storing a word that differs from the old one in the bit of [nr] only. *)
Lemma page_set_intro s nr w w' b c :
  mm_shape s -> 0 <= nr < MM_PAGES -> zget (mem_map s) (nr / 32) = Some w ->
  0 <= w' < 2 ^ 32 ->
  (forall i, 0 <= i -> Z.testbit w' i = if decide (i = nr mod 32) then b else Z.testbit w i) ->
  page_set s (s <| mem_map ::= zset (nr / 32) w' |> <| refcount ::= zset nr c |>) nr b c.
Proof.
  intros Hw Hnr Hword Hr Hb. pose proof (zget_Some_range _ _ _ Hword) as Hrg.
  split; cbn; try done; try apply length_zset.
  - intros k. unfold page_bit. cbn. destruct (decide (k / 32 = nr / 32)) as [E|E].
    + rewrite E, zget_zset_eq by done. rewrite Hb by (apply Z.mod_pos_bound; lia).
      rewrite Hword. repeat case_decide; try done; [|congruence].
      exfalso. eauto using div_mod_inj.
    + rewrite zget_zset_ne by done. rewrite decide_False; [done|congruence].
  - intros k. unfold refs. cbn. case_decide.
    + subst. rewrite zget_zset_eq; [done|]. rewrite (sh_counts _ Hw).
      unfold MM_PAGES in *. lia.
    + by rewrite zget_zset_ne.
  - intros i v. destruct (decide (i = nr / 32)) as [->|].
    + rewrite zget_zset_eq by done. by intros [= <-].
    + rewrite zget_zset_ne by done. apply Hw.
Qed.

Lemma set_mem_map_page s nr off :
  mm_shape s -> 0 <= nr < MM_PAGES -> 0 <= off < PAGE_SIZE ->
  exists s', set_mem_map (page_addr nr + off) s = Ret tt s' /\
    page_set s s' nr true (refs s nr + 1).
Proof.
  intros Hw Hnr Hoff. unfold set_mem_map. rewrite page_mask by done.
  rewrite (proj1 (get_bitpos_page0 nr Hnr)).
  destruct (mm_word s nr Hw Hnr) as [w E]. unfold map_word. run.
  rewrite <-(Z.add_0_r (page_addr nr)), add_ref_page;
    [|apply Hw|done|unfold PAGE_SIZE; lia].
  eexists. split; [done|].
  apply (page_set_intro s nr w _ true _ Hw Hnr E).
  - apply lor_range; [eapply sh_words; eauto| |lia].
    apply bit1_range. apply Z.mod_pos_bound. lia.
  - intros i Hi. rewrite Z.lor_spec, bit1_testbit by done.
    destruct (Z.eqb_spec i (nr mod 32)); case_decide; try done.
    + apply orb_true_r.
    + apply orb_false_r.
Qed.

(** Releasing a page that is in use: one reference less, and the bit is
    cleared with the last one. *)
Lemma clear_mem_map_shape s nr off :
  mm_shape s -> 0 <= nr < MM_PAGES -> 0 <= off < PAGE_SIZE -> 0 < refs s nr ->
  page_bit s nr = true ->
  exists s', clear_mem_map (page_addr nr + off) s = Ret tt s' /\
    page_set s s' nr (0 <? refs s nr - 1) (refs s nr - 1).
Proof.
  intros Hw Hnr Hoff Hc Hbit. unfold clear_mem_map.
  rewrite (proj1 (get_bitpos_page nr off Hnr Hoff)).
  assert (Hl : counts_all s) by apply Hw.
  rewrite (bind_ret _ _ _ _ _ (add_ref_page s nr off (-1) Hl Hnr Hoff)).
  set (s1 := s <| refcount ::= zset nr (refs s nr + -1) |>).
  assert (Hl1 : counts_all s1) by (unfold counts_all; cbn; by rewrite length_zset).
  rewrite (bind_ret _ _ _ _ _ (get_ref_page s1 nr off Hl1 Hnr Hoff)).
  assert (Hr : refs s1 nr = refs s nr - 1)
    by (unfold s1; rewrite refs_zset, decide_True by done; lia).
  rewrite Hr. destruct (mm_word s nr Hw Hnr) as [w E].
  destruct (Z.eqb_spec (refs s nr - 1) 0) as [E0|E0].
  - unfold map_word. run.
    eexists. split; [done|].
    replace (0 <? refs s nr - 1) with false by (symmetry; apply Z.ltb_ge; lia).
    apply (page_set_intro s nr w _ false _ Hw Hnr E).
    + apply ldiff_range; [by eapply sh_words|lia].
    + intros i Hi. rewrite Z.ldiff_spec, bit1_testbit by done.
      destruct (Z.eqb_spec i (nr mod 32)); case_decide; try done.
      * apply andb_false_r.
      * apply andb_true_r.
  - destruct (Z.ltb_spec (refs s nr - 1) 0); [lia|].
    eexists. split; [done|].
    replace (0 <? refs s nr - 1) with true by (symmetry; apply Z.ltb_lt; lia).
    pose proof (page_set_intro s nr w w true (refs s nr - 1) Hw Hnr E) as H1.
    feed H1; [by eapply sh_words|]. feed H1.
    { intros i Hi. case_decide; [|done]. subst i.
      unfold page_bit in Hbit. by rewrite E in Hbit. }
    replace s1 with (s <| mem_map ::= zset (nr / 32) w |>
                       <| refcount ::= zset nr (refs s nr - 1) |>); [done|].
    unfold s1. destruct s; cbn in *. rewrite zset_id by done.
    by replace (_ + -1) with (refs (Mm mem_map0 refcount0 ram0 HIGH_MEMORY0 pg_dir0) nr - 1) by lia.
Qed.

Lemma clear_mem_map_page s nr off :
  mm_wf s -> 0 <= nr < MM_PAGES -> 0 <= off < PAGE_SIZE -> 0 < refs s nr ->
  exists s', clear_mem_map (page_addr nr + off) s = Ret tt s' /\
    page_set s s' nr (0 <? refs s nr - 1) (refs s nr - 1).
Proof.
  intros Hw Hnr Hoff Hc. apply clear_mem_map_shape; try done; [by apply wf_shape|].
  rewrite (wf_agree _ Hw nr Hnr). by apply Z.ltb_lt.
Qed.

(** ** Allocation *)

Lemma scasl_spec map n :
  (n <= length map)%nat ->
  (scasl map n = 0xFFFFFFFF /\ forall j w, (j < n)%nat -> map !! j = Some w -> w = 0xFFFFFFFF) \/
  (exists i w, (i < n)%nat /\ scasl map n = Z.of_nat i /\ map !! i = Some w /\
     w <> 0xFFFFFFFF /\
     forall j w', (i < j < n)%nat -> map !! j = Some w' -> w' = 0xFFFFFFFF).
Proof.
  induction n as [|n IH]; intros Hn; cbn.
  { left. split; [done|]. intros; lia. }
  destruct (lookup_lt_is_Some_2 map n) as [w Hw]; [lia|]. rewrite Hw. cbn.
  destruct (Z.eqb_spec w 0xFFFFFFFF) as [->|Hne].
  - destruct (IH ltac:(lia)) as [[-> H]|(i & w & ? & -> & ? & ? & H)]; [left|right].
    + split; [done|]. intros j w Hj Hl. destruct (decide (j = n)) as [->|].
      * congruence.
      * apply (H j); [lia|done].
    + exists i, w. repeat split; try done; [lia|]. intros j w' Hj Hl.
      destruct (decide (j = n)) as [->|]; [congruence|]. apply (H j); [lia|done].
  - right. exists n, w. repeat split; try done; [lia|]. intros; lia.
Qed.

Lemma top_clear_spec w n :
  let i := top_clear w n in
  -1 <= i < Z.of_nat n \/ n = 0%nat /\ i = -1.
Proof.
  induction n as [|n IH]; cbn; [by right|left].
  destruct (truth _); [|lia]. cbn in IH. lia.
Qed.

Lemma top_clear_bits w n :
  let i := top_clear w n in
  (0 <= i -> Z.testbit w i = false) /\
  (forall k, i < k < Z.of_nat n -> Z.testbit w k = true).
Proof.
  induction n as [|n [IH1 IH2]]; [cbn; split; intros; lia|]. cbn [top_clear].
  unfold truth. destruct (Z.eqb_spec (Z.land w (Z.shiftl 1 (Z.of_nat n))) 0) as [E|E];
    cbn -[Z.of_nat].
  - apply bit_land_shiftl1 in E; [|lia]. split; [done|]. intros; lia.
  - split; [done|]. intros k Hk. destruct (decide (k = Z.of_nat n)) as [->|].
    + apply not_false_is_true. intros H. apply E. apply bit_land_shiftl1; [lia|done].
    + apply IH2. lia.
Qed.

(** A word that is not all ones has a clear bit. *)
Lemma top_clear_found w :
  0 <= w < 2 ^ 32 -> w <> 0xFFFFFFFF -> 0 <= top_clear w 32 < 32.
Proof.
  intros Hr Hw. destruct (top_clear_spec w 32) as [H|[]]; [|done]. cbv zeta in H.
  destruct (decide (top_clear w 32 = -1)) as [E|]; [|lia].
  destruct Hw. pose proof (proj2 (top_clear_bits w 32)) as Hb. rewrite E in Hb.
  change 0xFFFFFFFF with (Z.ones 32). bitwise.
  - apply Hb. lia.
  - apply (bits_above w 32); lia.
Qed.

(** The page with the highest number among the free ones. *)
Definition highest_free (s : mm) (nr : Z) : Prop :=
  0 <= nr < MM_PAGES /\ refs s nr = 0 /\
  forall k, nr < k < MM_PAGES -> 0 < refs s k.

Lemma bit_used s k :
  mm_wf s -> 0 <= k < MM_PAGES -> page_bit s k = true <-> 0 < refs s k.
Proof. intros Hw Hk. rewrite (wf_agree _ Hw k Hk). apply Z.ltb_lt. Qed.

Lemma page_bit_at s i w b :
  zget (mem_map s) i = Some w -> 0 <= b < 32 ->
  page_bit s (i * 32 + b) = Z.testbit w b.
Proof.
  intros Ew Hb. unfold page_bit.
  replace ((i * 32 + b) / 32) with i by (Z.div_mod_to_equations; lia).
  rewrite Ew. f_equal. Z.div_mod_to_equations. lia.
Qed.

(** The two scans of get_free_page(): over the words, then in the word. *)
Definition top_bit_clear (s : mm) (nr : Z) : Prop :=
  0 <= nr < MM_PAGES /\ page_bit s nr = false /\
  forall k, nr < k < MM_PAGES -> page_bit s k = true.

Lemma scans_clear s :
  mm_shape s -> (exists k, 0 <= k < MM_PAGES /\ page_bit s k = false) ->
  exists i w, scasl (mem_map s) (Z.to_nat MM_BITMAPS) = i /\
    zget (mem_map s) i = Some w /\ 0 <= top_clear w 32 < 32 /\
    top_bit_clear s (i * 32 + top_clear w 32).
Proof.
  intros Hw [k0 [Hk0 Hf]].
  destruct (scasl_spec (mem_map s) (Z.to_nat MM_BITMAPS)) as
    [[_ Hall]|(i & w & Hi & -> & Hl & Hne & Habove)].
  { by rewrite (sh_map _ Hw). }
  - exfalso. destruct (mm_word s k0 Hw Hk0) as [w E].
    pose proof (zget_Some_range _ _ _ E) as Hr. rewrite (sh_map _ Hw) in Hr.
    assert (w = 0xFFFFFFFF) as ->.
    { apply (Hall (Z.to_nat (k0 / 32))); [lia|]. unfold zget in E.
      destruct (Z.ltb_spec (k0 / 32) 0); [lia|done]. }
    assert (page_bit s k0 = true) as Hb; [|congruence].
    unfold page_bit. rewrite E. change 0xFFFFFFFF with (Z.ones 32).
    apply Z.ones_spec_low. apply Z.mod_pos_bound. lia.
  - assert (Ew : zget (mem_map s) (Z.of_nat i) = Some w).
    { unfold zget. destruct (Z.ltb_spec (Z.of_nat i) 0); [lia|]. by rewrite Nat2Z.id. }
    pose proof (sh_words _ Hw _ _ Ew) as Hrw.
    pose proof (top_clear_found w Hrw Hne) as Ht.
    destruct (top_clear_bits w 32) as [Hb1 Hb2].
    set (b := top_clear w 32) in *. cbv zeta in Hb1, Hb2.
    assert (Hn : 0 <= Z.of_nat i * 32 + b < MM_PAGES)
      by (unfold MM_PAGES, MM_BITMAPS in *; lia).
    exists (Z.of_nat i), w. split_and!; try done; try apply Ht; unfold top_bit_clear.
    split_and!; try lia.
    + rewrite (page_bit_at _ _ _ _ Ew) by lia. apply Hb1. lia.
    + intros k Hk. destruct (mm_word s k Hw) as [v Ev]; [lia|]. unfold page_bit. rewrite Ev.
      pose proof (zget_Some_range _ _ _ Ev) as Hrk. rewrite (sh_map _ Hw) in Hrk.
      destruct (decide (k / 32 = Z.of_nat i)) as [E|E].
      * rewrite E in Ev. assert (v = w) as -> by congruence. apply Hb2.
        Z.div_mod_to_equations. lia.
      * assert (v = 0xFFFFFFFF) as ->.
        { apply (Habove (Z.to_nat (k / 32))).
          - Z.div_mod_to_equations. lia.
          - unfold zget in Ev. destruct (Z.ltb_spec (k / 32) 0); [lia|done]. }
        change 0xFFFFFFFF with (Z.ones 32). apply Z.ones_spec_low.
        apply Z.mod_pos_bound. lia.
Qed.

Lemma top_highest s nr : mm_wf s -> top_bit_clear s nr -> highest_free s nr.
Proof.
  intros Hw (Hn & H0 & Ha). split_and!; [lia..| |].
  - pose proof (wf_count _ Hw nr). destruct (decide (refs s nr = 0)); [done|].
    rewrite (wf_agree _ Hw nr Hn) in H0. apply Z.ltb_ge in H0. lia.
  - intros k Hk. apply bit_used; [done|lia|]. by apply Ha.
Qed.

(** get_free_page() by the bitmap alone. *)
Lemma get_free_page_bits s :
  mm_shape s -> (exists k, 0 <= k < MM_PAGES /\ page_bit s k = false) ->
  exists nr s', get_free_page s = Ret (page_addr nr) s' /\ top_bit_clear s nr /\
    page_set (s <| ram := fun a =>
      if (page_addr nr <=? a) && (a <? page_addr nr + PAGE_SIZE) then 0 else ram s a |>) s' nr true (refs s nr + 1).
Proof.
  intros Hw Hf. destruct (scans_clear s Hw Hf) as (i & w & Hi & Ew & Ht & Hh).
  set (nr := i * 32 + top_clear w 32) in *. unfold get_free_page, map_word, clear_page.
  run. rewrite Hi. run. cbv zeta.
  replace (u32 _) with (page_addr nr); swap 1 2.
  { destruct Hh as [Hr _]. pose proof (page_addr_range nr Hr).
    replace ((i * 4 * 8 + top_clear w 32) * 4096 + LOW_MEM) with (page_addr nr)
      by (unfold page_addr, PAGE_SIZE; lia).
    rewrite u32_small; [done|]. unfold LOW_MEM in *. lia. }
  run.
  match goal with |- context [bind _ _ ?t] => set (s1 := t) end.
  assert (Hw1 : mm_shape s1) by (destruct Hw; by split).
  destruct (set_mem_map_page s1 nr 0 Hw1 (proj1 Hh)) as (s' & Hs & Hp);
    [unfold PAGE_SIZE; lia|].
  rewrite Z.add_0_r in Hs. rewrite (bind_ret _ _ _ _ _ Hs).
  exists nr, s'. by split_and!.
Qed.

(** What a caller of get_free_page() relies on: the page was free and no page
    above it is, it is marked and counted once, it reads as zeros, and
    nothing else has changed. *)
Record got_page (s s' : mm) (nr : Z) : Prop := {
  gp_free : highest_free s nr;
  gp_wf : mm_wf s';
  gp_refs : forall k, refs s' k = if decide (k = nr) then 1 else refs s k;
  gp_ram : forall a, ram s' a =
    if decide (page_addr nr <= a < page_addr nr + PAGE_SIZE) then 0 else ram s a;
  gp_high : HIGH_MEMORY s' = HIGH_MEMORY s;
  gp_dir : pg_dir s' = pg_dir s
}.

Lemma get_free_page_runs s :
  mm_wf s -> (exists k, 0 <= k < MM_PAGES /\ refs s k = 0) ->
  exists nr s', get_free_page s = Ret (page_addr nr) s' /\ got_page s s' nr.
Proof.
  intros Hw [k [Hk H0]].
  destruct (get_free_page_bits s (wf_shape _ Hw)) as (nr & s' & E & Ht & Hp).
  { exists k. split; [done|]. by rewrite (wf_agree _ Hw k Hk), H0. }
  apply (top_highest _ _ Hw) in Ht. pose proof (proj1 (proj2 Ht)) as Hz. rewrite Hz in Hp.
  assert (Hw1 : mm_wf (s <| ram := fun a =>
    if (page_addr nr <=? a) && (a <? page_addr nr + PAGE_SIZE) then 0 else ram s a |>)) by (destruct Hw; by split).
  exists nr, s'. split; [done|]. split; try done.
  - by eapply page_set_wf.
  - apply Hp.
  - intros a. rewrite (ps_ram _ _ _ _ _ Hp). cbn.
    destruct (Z.leb_spec (page_addr nr) a), (Z.ltb_spec a (page_addr nr + PAGE_SIZE));
      cbn; case_decide; done || lia.
  - apply Hp.
  - apply Hp.
Qed.

(** ** A machine whose pages are all in use, for mm_init() and the examples *)

Definition full_mm (ram : Z -> Z) (high dir : Z) : mm :=
  Mm (replicate (Z.to_nat MM_BITMAPS) 0xFFFFFFFF)
     (replicate (Z.to_nat MM_PAGES) 1) ram high dir.

Lemma zget_replicate {A} n (x : A) i :
  0 <= i < Z.of_nat n -> zget (replicate n x) i = Some x.
Proof.
  intros. unfold zget. destruct (Z.ltb_spec i 0); [lia|].
  apply lookup_replicate. split; [done|lia].
Qed.

Lemma zget_replicate_inv {A} n (x : A) i w : zget (replicate n x) i = Some w -> w = x.
Proof.
  unfold zget. destruct (i <? 0); [done|]. intros H%lookup_replicate. naive_solver.
Qed.

Lemma refs_full ram high dir k :
  0 <= k < MM_PAGES -> refs (full_mm ram high dir) k = 1.
Proof.
  intros. unfold refs. cbn -[replicate Z.to_nat]. rewrite zget_replicate; [done|].
  unfold MM_PAGES in *. lia.
Qed.

Lemma full_wf ram high dir : mm_wf (full_mm ram high dir).
Proof.
  split; cbn -[replicate Z.to_nat].
  - apply length_replicate.
  - intros i w ->%zget_replicate_inv. lia.
  - apply length_replicate.
  - intros k. unfold refs. cbn -[replicate Z.to_nat]. unfold zget.
    destruct (k <? 0); [done|]. destruct (_ !! _) as [c|] eqn:E; [|done]. cbn.
    apply lookup_replicate in E as [-> _]. lia.
  - intros k Hk. rewrite refs_full by done. unfold page_bit.
    cbn -[replicate Z.to_nat]. rewrite zget_replicate.
    + change 0xFFFFFFFF with (Z.ones 32). apply Z.ones_spec_low.
      apply Z.mod_pos_bound. lia.
    + unfold MM_PAGES, MM_BITMAPS in *. Z.div_mod_to_equations. lia.
Qed.

(** Page 96 alone is free. *)
Definition demo_mm : mm :=
  Mm (zset 3 0xFFFFFFFE (replicate (Z.to_nat MM_BITMAPS) 0xFFFFFFFF))
     (zset 96 0 (replicate (Z.to_nat MM_PAGES) 1)) (fun a => a) 0x4000000 0.

Lemma demo_set : page_set (full_mm (fun a => a) 0x4000000 0) demo_mm 96 false 0.
Proof.
  apply (page_set_intro (full_mm (fun a => a) 0x4000000 0) 96 0xFFFFFFFF 0xFFFFFFFE
    false 0 (wf_shape _ (full_wf _ _ _))); [by split| |done|].
  - apply zget_replicate. change (96 / 32) with 3. unfold MM_BITMAPS. lia.
  - intros i Hi. change (96 mod 32) with 0. change 0xFFFFFFFF with (Z.ones 32).
    change 0xFFFFFFFE with (Z.ldiff (Z.ones 32) (Z.shiftl 1 0)).
    rewrite Z.ldiff_spec, bit1_testbit by done.
    destruct (Z.eqb_spec i 0); case_decide; try done; [apply andb_false_r|].
    apply andb_true_r.
Qed.

Lemma demo_wf : mm_wf demo_mm.
Proof. eapply page_set_wf; [apply full_wf|apply demo_set|done..]. Qed.

Lemma demo_refs k :
  0 <= k < MM_PAGES -> refs demo_mm k = if decide (k = 96) then 0 else 1.
Proof. intros. rewrite (ps_refs _ _ _ _ _ demo_set), refs_full by done. done. Qed.

(** C5.  get_free_page(): as long as a page of the 64 MB is free, it
    returns the address of the highest free one, filled with zeros, in use
    with one reference, and changes no other page; the agreement of the
    bitmap and the counts is kept. *)
Theorem get_free_page_spec s :
  mm_wf s -> (exists k, 0 <= k < MM_PAGES /\ refs s k = 0) ->
  exists nr s', get_free_page s = Ret (page_addr nr) s' /\ got_page s s' nr.
Proof. apply get_free_page_runs. Qed.

Example get_free_page_spec_witness :
  exists nr s', get_free_page demo_mm = Ret (page_addr nr) s' /\ got_page demo_mm s' nr.
Proof.
  apply (get_free_page_spec demo_mm demo_wf). exists 96.
  split; [by split|]. rewrite demo_refs by (by split). reflexivity.
Defined.

Lemma get_free_page_full s :
  mm_wf s -> (forall k, 0 <= k < MM_PAGES -> 0 < refs s k) ->
  get_free_page s = Stop Fault s.
Proof.
  intros Hw Hall. unfold get_free_page, map_word. run.
  destruct (scasl_spec (mem_map s) (Z.to_nat MM_BITMAPS)) as
    [[-> _]|(i & w & Hi & -> & Hl & Hne & _)].
  { by rewrite (wf_map _ Hw). }
  - assert (zget (mem_map s) 0xFFFFFFFF = None) as E.
    { unfold zget. cbn -[lookup Z.to_nat]. apply lookup_ge_None.
      rewrite (wf_map _ Hw). unfold MM_BITMAPS. lia. }
    unfold bind. by rewrite E.
  - exfalso.
    assert (Ew : zget (mem_map s) (Z.of_nat i) = Some w).
    { unfold zget. destruct (Z.ltb_spec (Z.of_nat i) 0); [lia|]. by rewrite Nat2Z.id. }
    pose proof (wf_words _ Hw _ _ Ew) as Hrw.
    pose proof (top_clear_found w Hrw Hne) as Ht.
    pose proof (proj1 (top_clear_bits w 32) (proj1 Ht)) as Hb.
    set (b := top_clear w 32) in *.
    assert (Hn : 0 <= Z.of_nat i * 32 + b < MM_PAGES)
      by (unfold MM_PAGES, MM_BITMAPS in *; lia).
    pose proof (proj2 (bit_used s _ Hw Hn) (Hall _ Hn)) as Hu.
    rewrite (page_bit_at _ _ _ _ Ew) in Hu by done. congruence.
Qed.

(** Out of memory: when every page is in use, get_free_page() does not
    return 0 as its comment says.  The scan leaves 0xFFFFFFFF, the test
    [pos < 0] is false for an unsigned variable, and the code reads
    [mem_map[0xFFFFFFFF]]. *)
Theorem get_free_page_exhausted s :
  mm_wf s -> (forall k, 0 <= k < MM_PAGES -> 0 < refs s k) ->
  get_free_page s = Stop Fault s.
Proof. apply get_free_page_full. Qed.

Example get_free_page_exhausted_witness :
  get_free_page (full_mm (fun a => a) 0x4000000 0) =
    Stop Fault (full_mm (fun a => a) 0x4000000 0).
Proof.
  apply (get_free_page_exhausted _ (full_wf _ _ _)).
  intros k Hk. rewrite refs_full by exact Hk. reflexivity.
Defined.

Lemma free_or_full s :
  mm_wf s ->
  (exists k, 0 <= k < MM_PAGES /\ refs s k = 0) \/
  (forall k, 0 <= k < MM_PAGES -> 0 < refs s k).
Proof.
  intros Hw. destruct (decide (Exists (fun c => c = 0) (refcount s))) as [E|E].
  - left. apply Exists_exists in E as (c & Hc & ->). apply list_elem_of_lookup in Hc as [i Hi].
    pose proof (lookup_lt_Some _ _ _ Hi) as Hl. rewrite (wf_refs _ Hw) in Hl.
    exists (Z.of_nat i). split; [unfold MM_PAGES in *; lia|].
    unfold refs, zget. destruct (Z.ltb_spec (Z.of_nat i) 0); [lia|].
    by rewrite Nat2Z.id, Hi.
  - right. intros k Hk. pose proof (wf_count _ Hw k).
    destruct (decide (refs s k = 0)) as [E0|]; [|lia]. destruct E.
    assert (Hl : counts_all s) by apply Hw.
    pose proof (mm_count s k Hl Hk) as Hz. rewrite E0 in Hz. apply Exists_exists.
    exists 0. split; [|done]. apply list_elem_of_lookup. exists (Z.to_nat k).
    unfold zget in Hz. destruct (Z.ltb_spec k 0); [lia|done].
Qed.

Lemma free_page_runs s nr off :
  mm_wf s -> 0 <= nr < MM_PAGES -> 0 <= off < PAGE_SIZE ->
  page_addr nr + off < HIGH_MEMORY s -> 0 < refs s nr ->
  exists s', free_page (page_addr nr + off) s = Ret tt s' /\
    page_set s s' nr (0 <? refs s nr - 1) (refs s nr - 1).
Proof.
  intros Hw Hnr Hoff Hh Hc. unfold free_page.
  pose proof (page_addr_range nr Hnr).
  destruct (Z.ltb_spec (page_addr nr + off) LOW_MEM); [lia|]. run.
  destruct (Z.leb_spec (HIGH_MEMORY s) (page_addr nr + off)); [lia|].
  by apply clear_mem_map_page.
Qed.

(** free_page() drops one reference of the page of its argument, keeps
    the allocator well formed, and frees the page exactly with the last
    reference; freeing a page that has no reference left is caught. *)
Theorem free_page_spec s nr off :
  mm_wf s -> 0 <= nr < MM_PAGES -> 0 <= off < PAGE_SIZE ->
  page_addr nr + off < HIGH_MEMORY s ->
  (0 < refs s nr -> exists s', free_page (page_addr nr + off) s = Ret tt s' /\
     mm_wf s' /\ (forall k, refs s' k = if decide (k = nr) then refs s nr - 1 else refs s k) /\
     ram s' = ram s) /\
  (refs s nr = 0 -> exists s',
     free_page (page_addr nr + off) s = Stop (Panic "Try to free free page.") s').
Proof.
  intros Hw Hnr Hoff Hh. split; intros Hc.
  - destruct (free_page_runs s nr off Hw Hnr Hoff Hh Hc) as (s' & E & Hp).
    exists s'. split_and!; [done| |apply Hp..].
    eapply page_set_wf; [done..| |done]. lia.
  - unfold free_page. pose proof (page_addr_range nr Hnr).
    destruct (Z.ltb_spec (page_addr nr + off) LOW_MEM); [lia|]. run.
    destruct (Z.leb_spec (HIGH_MEMORY s) (page_addr nr + off)); [lia|].
    unfold clear_mem_map. rewrite (proj1 (get_bitpos_page nr off Hnr Hoff)).
    assert (Hl : counts_all s) by apply Hw.
    rewrite (bind_ret _ _ _ _ _ (add_ref_page s nr off (-1) Hl Hnr Hoff)).
    set (s1 := s <| refcount ::= zset nr (refs s nr + -1) |>).
    assert (Hl1 : counts_all s1) by (unfold counts_all; cbn; by rewrite length_zset).
    rewrite (bind_ret _ _ _ _ _ (get_ref_page s1 nr off Hl1 Hnr Hoff)).
    assert (Hr : refs s1 nr = -1)
      by (unfold s1; rewrite refs_zset, decide_True by done; lia).
    rewrite Hr. cbn. by eexists.
Qed.

Example free_page_spec_witness :
  exists s', free_page (page_addr 95 + 17) demo_mm = Ret tt s' /\ mm_wf s' /\
    refs s' 95 = 0.
Proof.
  destruct (free_page_spec demo_mm 95 17 demo_wf) as [H _];
    [by split|by split|reflexivity|].
  destruct H as (s' & E & Hw & Hr & _); [rewrite demo_refs by (by split); reflexivity|].
  exists s'. split; [exact E|]. split; [exact Hw|].
  rewrite (Hr 95), decide_True, demo_refs by (by split). reflexivity.
Defined.

(** Allocation and release are inverse: freeing the page that
    get_free_page() has just returned restores every reference count and
    every bit of the map. *)
Theorem alloc_free_roundtrip s :
  mm_wf s -> (exists k, 0 <= k < MM_PAGES /\ refs s k = 0) ->
  page_addr MM_PAGES <= HIGH_MEMORY s ->
  exists s', (let! p := get_free_page in free_page p) s = Ret tt s' /\ mm_wf s' /\
    (forall k, refs s' k = refs s k) /\
    (forall k, 0 <= k < MM_PAGES -> page_bit s' k = page_bit s k).
Proof.
  intros Hw Hf Hh. destruct (get_free_page_runs s Hw Hf) as (nr & s1 & E & G).
  pose proof (gp_free _ _ _ G) as (Hnr & H0 & _).
  rewrite (bind_ret _ _ _ _ _ E). pose proof (gp_wf _ _ _ G) as Hw1.
  assert (H1 : refs s1 nr = 1) by (rewrite (gp_refs _ _ _ G); by rewrite decide_True).
  destruct (free_page_runs s1 nr 0 Hw1 Hnr) as (s2 & E2 & P).
  { by unfold PAGE_SIZE. }
  { rewrite (gp_high _ _ _ G). unfold page_addr, PAGE_SIZE in *. lia. }
  { lia. }
  rewrite Z.add_0_r in E2. rewrite H1 in P. exists s2.
  assert (Hr : forall k, refs s2 k = refs s k).
  { intros k. rewrite (ps_refs _ _ _ _ _ P), (gp_refs _ _ _ G).
    case_decide; [subst; lia|done]. }
  assert (Hw2 : mm_wf s2) by (eapply page_set_wf; [apply Hw1|apply P|done..]).
  split_and!; try done. intros k Hk.
  by rewrite (wf_agree _ Hw2 k Hk), (wf_agree _ Hw k Hk), Hr.
Qed.

Example alloc_free_roundtrip_witness :
  let s := demo_mm <| HIGH_MEMORY := 0x4100000 |> in
  exists s', (let! p := get_free_page in free_page p) s = Ret tt s' /\
    mm_wf s' /\ refs s' 96 = 0.
Proof.
  intros s. assert (Hw : mm_wf s) by (destruct demo_wf; by split).
  destruct (alloc_free_roundtrip s Hw) as (s' & E & Hw' & Hr & _).
  - exists 96. split; [by split|].
    exact (demo_refs 96 (conj (ltac:(discriminate) : 0 <= 96) (eq_refl : 96 < MM_PAGES))).
  - discriminate.
  - exists s'. split; [exact E|]. split; [exact Hw'|]. rewrite Hr.
    exact (demo_refs 96 (conj (ltac:(discriminate) : 0 <= 96) (eq_refl : 96 < MM_PAGES))).
Defined.

(** ** Copy on write *)

(** A page table entry is present; what the copy holds; whether the frame is
    counted (at or above LOW_MEM), and its page. *)
Definition present (e : Z) : bool := truth (Z.land 1 e).
Definition ro (e : Z) : Z := Z.ldiff e PTE_WRITE.
Definition shared (e : Z) : bool := present e && (LOW_MEM <=? ro e).
Definition frame_nr (e : Z) : Z := PAGE_NR (ro e).
Definition pte_ok (e : Z) : Prop :=
  shared e = true -> 0 <= e < 2 ^ 32 /\ frame_nr e < MM_PAGES.

Definition slot (base : Z) (i : nat) : Z := base + 4 * Z.of_nat i.
Arguments slot : simpl never.

Lemma slot_S base i : slot (base + 4) i = slot base (S i).
Proof. unfold slot. lia. Qed.

Lemma ro_range e : 0 <= e < 2 ^ 32 -> 0 <= ro e < 2 ^ 32.
Proof. intros. by apply ldiff_range. Qed.

Lemma add_ref_frame s e d :
  counts_all s -> pte_ok e -> shared e = true ->
  0 <= frame_nr e < MM_PAGES /\
  add_ref (ro e) d s =
    Ret tt (s <| refcount ::= zset (frame_nr e) (refs s (frame_nr e) + d) |>).
Proof.
  intros Hl Hok Hsh. destruct (Hok Hsh) as [Hr Hn].
  apply andb_prop in Hsh as [_ Hlow%Z.leb_le].
  destruct (MAP_NR_inv (ro e) (ro_range e Hr) Hlow) as [H0 Hb].
  change (MAP_NR (ro e)) with (frame_nr e) in *. split; [lia|].
  replace (ro e) with (page_addr (frame_nr e) + (ro e - page_addr (frame_nr e))) by lia.
  apply add_ref_page; [done|lia|lia].
Qed.

(** The memory after one table entry, as a function. *)
Definition copied_ram (r : Z -> Z) (from to : Z) : Z -> Z := fun a =>
  let e := r from in
  if present e then
    if decide (a = from) then if shared e then ro e else
      if decide (a = to) then ro e else e
    else if decide (a = to) then ro e else r a
  else r a.

Lemma copy_pte_runs s from to :
  counts_all s -> pte_ok (ram s from) -> from <> to ->
  exists s', copy_pte from to s = Ret tt s' /\ counts_all s' /\
    mem_map s' = mem_map s /\ HIGH_MEMORY s' = HIGH_MEMORY s /\ pg_dir s' = pg_dir s /\
    (forall a, ram s' a = copied_ram (ram s) from to a) /\
    (forall k, refs s' k = refs s k +
       b2z (shared (ram s from) && (frame_nr (ram s from) =? k))).
Proof.
  intros Hl Hok Hne. unfold copy_pte, rd, wr, copied_ram. run.
  set (e := ram s from) in *. unfold shared.
  change (truth (Z.land 1 e)) with (present e). change (Z.ldiff e PTE_WRITE) with (ro e).
  destruct (present e) eqn:Hp; cbn [negb andb].
  2:{ exists s. split_and!; try done. intros. cbn. lia. }
  run. destruct (LOW_MEM <=? ro e) eqn:Hlow.
  - run. match goal with |- context [add_ref _ _ ?t] => set (s1 := t) end.
    assert (Hsh : shared e = true) by (unfold shared; by rewrite Hp, Hlow).
    destruct (add_ref_frame s1 e 1 Hl Hok Hsh) as [Hn ->].
    eexists. split; [done|]. split_and!; try done.
    + unfold counts_all. cbn. by rewrite length_zset.
    + intros a. cbn. destruct (Z.eqb_spec a from), (Z.eqb_spec a to); subst;
        repeat case_decide; done.
    + intros k. rewrite refs_zset by done. change (refs s1 k) with (refs s k).
      change (refs s1 (frame_nr e)) with (refs s (frame_nr e)). cbn [andb].
      destruct (Z.eqb_spec (frame_nr e) k); case_decide; subst; cbn; lia || done.
  - eexists. split; [done|]. split_and!; try done.
    + intros a. cbn. destruct (Z.eqb_spec a to); subst; repeat case_decide; subst; done.
    + intros k. cbn. change (refs _ k) with (refs s k). lia.
Qed.

(** What copying [n] entries of a table leaves. *)
Record copied (s s' : mm) (n : nat) (from to : Z) : Prop := {
  cp_counts : counts_all s';
  cp_map : mem_map s' = mem_map s;
  cp_high : HIGH_MEMORY s' = HIGH_MEMORY s;
  cp_dir : pg_dir s' = pg_dir s;
  cp_from : forall i, (i < n)%nat -> ram s' (slot from i) =
    (if shared (ram s (slot from i)) then ro (ram s (slot from i))
     else ram s (slot from i));
  cp_to : forall i, (i < n)%nat -> ram s' (slot to i) =
    (if present (ram s (slot from i)) then ro (ram s (slot from i))
     else ram s (slot to i));
  cp_frame : forall a, (forall i, (i < n)%nat -> a <> slot from i /\ a <> slot to i) ->
    ram s' a = ram s a;
  cp_refs : forall k, refs s' k = refs s k +
    zsum (fun i => b2z (shared (ram s (slot from i)) &&
                        (frame_nr (ram s (slot from i)) =? k))) n
}.

Lemma copy_ptes_runs n : forall s from to,
  counts_all s -> (forall i, (i < n)%nat -> pte_ok (ram s (slot from i))) ->
  slot from n <= to \/ slot to n <= from ->
  exists s', copy_ptes n from to s = Ret tt s' /\ copied s s' n from to.
Proof.
  induction n as [|n IH]; intros s from to Hl Hok Hd; cbn [copy_ptes].
  { exists s. split; [done|]. split; try done; intros; try lia. cbn. lia. }
  assert (E0 : forall b, slot b 0 = b) by (intros; unfold slot; lia).
  destruct (copy_pte_runs s from to) as (s1 & E & Hl1 & Hm & Hh & Hpd & Hram & Href);
    [done|rewrite <-(E0 from); apply Hok; lia|unfold slot in *; lia|].
  rewrite (bind_ret _ _ _ _ _ E).
  assert (Hsame : forall b i, ((i < n)%nat -> b = from \/ b = to -> (i < n)%nat ->
    ram s1 (slot b (S i)) = ram s (slot b (S i)))).
  { intros b i Hi Hb _. rewrite Hram. unfold copied_ram. repeat case_match;
      try done; unfold slot in *; lia. }
  destruct (IH s1 (from + 4) (to + 4)) as (s' & E' & C).
  { done. }
  { intros i Hi. rewrite slot_S, Hsame by auto. apply Hok. lia. }
  { unfold slot in *. lia. }
  exists s'. split; [done|]. destruct C as [C1 C2 C3 C4 C5 C6 C7 C8].
  split; [done|congruence..| | | |].
  - intros [|i] Hi.
    + rewrite C7, Hram by (intros; unfold slot in *; lia).
      unfold copied_ram, shared. rewrite E0.
      repeat case_match; try done; unfold slot in *; try lia.
    + rewrite <-slot_S, C5 by lia. by rewrite slot_S, Hsame by auto with lia.
  - intros [|i] Hi.
    + rewrite C7, Hram by (intros; unfold slot in *; lia).
      unfold copied_ram. rewrite !E0.
      repeat case_match; try done; unfold slot in *; try lia.
    + rewrite <-slot_S, C6 by lia. rewrite !slot_S. by rewrite !Hsame by auto with lia.
  - intros a Ha. rewrite C7, Hram.
    + unfold copied_ram. specialize (Ha 0%nat ltac:(lia)). rewrite !E0 in Ha.
      repeat case_match; try done; naive_solver.
    + intros i Hi. rewrite !slot_S. apply Ha. lia.
  - intros k. rewrite C8, Href, zsum_S_l, E0, (zsum_ext _
      (fun i => b2z (shared (ram s (slot from (S i))) &&
         (frame_nr (ram s (slot from (S i))) =? k)))); [lia|].
    intros i Hi. cbv beta. by rewrite slot_S, Hsame by auto.
Qed.

(** ** copy_page_tables() *)

(** [a] lies in no free page: get_free_page() leaves it alone. *)
Definition safe (s : mm) (a : Z) : Prop :=
  forall k, 0 <= k < MM_PAGES -> refs s k = 0 ->
  a < page_addr k \/ page_addr k + PAGE_SIZE <= a.

Definition dir_present (s : mm) (d : Z) (i : nat) : bool := present (ram s (slot d i)).
Definition table_slot (s : mm) (d : Z) (i j : nat) : Z :=
  slot (Z.land 0xfffff000 (ram s (slot d i))) j.

(** What the caller of copy_page_tables() provides: the tables of the parent
    lie in used memory, apart from each other and from the directory, and the
    pages they count are in use. *)
Record dirs_ok (s : mm) (n : nat) (from to : Z) : Prop := {
  do_wf : mm_wf s;
  do_dirs : forall i i', (i < n)%nat -> (i' < n)%nat -> slot from i <> slot to i';
  do_safe : forall i, (i < n)%nat -> safe s (slot from i) /\ safe s (slot to i);
  do_tables : forall i j, (i < n)%nat -> (j < 1024)%nat -> dir_present s from i = true ->
    safe s (table_slot s from i j) /\ pte_ok (ram s (table_slot s from i j)) /\
    (shared (ram s (table_slot s from i j)) = true ->
       0 < refs s (frame_nr (ram s (table_slot s from i j)))) /\
    (forall i', (i' < n)%nat -> table_slot s from i j <> slot from i' /\
                                table_slot s from i j <> slot to i');
  do_distinct : forall i i' j j', (i < n)%nat -> (i' < n)%nat ->
    (j < 1024)%nat -> (j' < 1024)%nat ->
    dir_present s from i = true -> dir_present s from i' = true ->
    table_slot s from i j = table_slot s from i' j' -> i = i'
}.

Definition new_refs (s : mm) (d k : Z) (i : nat) : Z :=
  if dir_present s d i then
    zsum (fun j => b2z (shared (ram s (table_slot s d i j)) &&
                        (frame_nr (ram s (table_slot s d i j)) =? k))) 1024
  else 0.

(** The child got, for each table of the parent, a fresh table with the same
    frames write-protected; the parent's counted entries are write-protected
    too and their pages have one reference more per mapping; nothing else in
    use has changed. *)
Record forked (s s' : mm) (n : nat) (from to : Z) : Prop := {
  fk_wf : mm_wf s';
  fk_high : HIGH_MEMORY s' = HIGH_MEMORY s;
  fk_dir : pg_dir s' = pg_dir s;
  fk_child : forall i, (i < n)%nat -> dir_present s from i = true ->
    exists nr, 0 <= nr < MM_PAGES /\ refs s nr = 0 /\ refs s' nr = 1 /\
      ram s' (slot to i) = Z.lor (page_addr nr) 7 /\
      forall j, (j < 1024)%nat -> ram s' (slot (page_addr nr) j) =
        (let e := ram s (table_slot s from i j) in if present e then ro e else 0);
  fk_absent : forall i, (i < n)%nat -> dir_present s from i = false ->
    ram s' (slot to i) = ram s (slot to i);
  fk_parent : forall i j, (i < n)%nat -> (j < 1024)%nat -> dir_present s from i = true ->
    ram s' (table_slot s from i j) =
      (let e := ram s (table_slot s from i j) in if shared e then ro e else e);
  fk_frame : forall a, safe s a -> (forall i, (i < n)%nat -> a <> slot to i) ->
    (forall i j, (i < n)%nat -> (j < 1024)%nat -> dir_present s from i = true ->
       a <> table_slot s from i j) ->
    ram s' a = ram s a;
  fk_refs : forall k, 0 < refs s k ->
    refs s' k = refs s k + zsum (new_refs s from k) n
}.

Lemma new_refs_nonneg s d k i : 0 <= new_refs s d k i.
Proof.
  unfold new_refs. destruct (dir_present _ _ _); [|lia]. apply zsum_nonneg.
  intros. unfold b2z. case_match; lia.
Qed.

Lemma forked_mono s s' n from to k :
  forked s s' n from to -> 0 < refs s k -> 0 < refs s' k.
Proof.
  intros F Hk. rewrite (fk_refs _ _ _ _ _ F k Hk).
  pose proof (zsum_nonneg (new_refs s from k) n) as H. feed H; [|lia].
  intros. apply new_refs_nonneg.
Qed.

Lemma mono_safe s s' a :
  mm_wf s -> (forall k, 0 < refs s k -> 0 < refs s' k) -> safe s a -> safe s' a.
Proof.
  intros Hw Hm Hs k Hk H0. apply Hs; [done|]. pose proof (wf_count _ Hw k).
  destruct (decide (refs s k = 0)); [done|]. specialize (Hm k). lia.
Qed.

(** After the first entry the rest of the directory is as before. *)
Lemma forked_rest s s1 n from to :
  dirs_ok s (S n) from to -> forked s s1 1 from to ->
  (forall i, (i < n)%nat -> dir_present s1 (from + 4) i = dir_present s from (S i) /\
     ram s1 (slot (from + 4) i) = ram s (slot from (S i)) /\
     ram s1 (slot (to + 4) i) = ram s (slot to (S i))) /\
  (forall i j, (i < n)%nat -> (j < 1024)%nat -> dir_present s from (S i) = true ->
     table_slot s1 (from + 4) i j = table_slot s from (S i) j /\
     ram s1 (table_slot s from (S i) j) = ram s (table_slot s from (S i) j)).
Proof.
  intros D F.
  assert (Hfrom : forall i, (i < n)%nat ->
    ram s1 (slot (from + 4) i) = ram s (slot from (S i))).
  { intros i Hi. rewrite slot_S. apply (fk_frame _ _ _ _ _ F).
    - by apply (do_safe _ _ _ _ D); lia.
    - intros i' Hi'. apply (do_dirs _ _ _ _ D); lia.
    - intros i' j Hi' Hj Hp. apply not_eq_sym, (do_tables _ _ _ _ D i' j); lia || done. }
  split.
  - intros i Hi. split_and!; [by unfold dir_present; rewrite Hfrom|by apply Hfrom|].
    rewrite slot_S. apply (fk_frame _ _ _ _ _ F).
    + by apply (do_safe _ _ _ _ D); lia.
    + unfold slot. intros; lia.
    + intros i' j Hi' Hj Hp. apply not_eq_sym, (do_tables _ _ _ _ D i' j); lia || done.
  - intros i j Hi Hj Hp. split.
    + unfold table_slot. by rewrite Hfrom.
    + destruct (do_tables _ _ _ _ D (S i) j) as (Hs & _ & _ & Hn); [lia|done..|].
      apply (fk_frame _ _ _ _ _ F); [done| |].
      * intros i' Hi'. apply Hn. lia.
      * intros i' j' Hi' Hj' Hp' He.
        pose proof (do_distinct _ _ _ _ D (S i) i' j j') as Hd. specialize (Hd
          ltac:(lia) ltac:(lia) Hj Hj' Hp Hp' He). lia.
Qed.

Lemma dirs_ok_step s s1 n from to :
  dirs_ok s (S n) from to -> forked s s1 1 from to -> dirs_ok s1 n (from + 4) (to + 4).
Proof.
  intros D F. destruct (forked_rest _ _ _ _ _ D F) as [Hd Ht].
  assert (Hm : forall k, 0 < refs s k -> 0 < refs s1 k)
    by (intros; by eapply forked_mono).
  pose proof (do_wf _ _ _ _ D) as Hw.
  split.
  - apply F.
  - intros i i' ??. rewrite !slot_S. apply (do_dirs _ _ _ _ D); lia.
  - intros i Hi. rewrite !slot_S.
    destruct (do_safe _ _ _ _ D (S i)); [lia|]. eauto using mono_safe.
  - intros i j Hi Hj Hp. rewrite (proj1 (Hd i Hi)) in Hp.
    destruct (Ht i j Hi Hj Hp) as [E1 E2]. rewrite E1, E2.
    destruct (do_tables _ _ _ _ D (S i) j) as (Hs & ? & ? & Hn); [lia|done..|].
    split_and!; eauto using mono_safe. intros i' Hi'. rewrite !slot_S. apply Hn. lia.
  - intros i i' j j' Hi Hi' Hj Hj' Hp Hp'.
    rewrite (proj1 (Hd i Hi)) in Hp. rewrite (proj1 (Hd i' Hi')) in Hp'.
    rewrite (proj1 (Ht i j Hi Hj Hp)), (proj1 (Ht i' j' Hi' Hj' Hp')). intros He.
    apply (do_distinct _ _ _ _ D) in He; lia || done.
Qed.

Lemma in_page_safe s nr j :
  0 <= nr < MM_PAGES -> 0 < refs s nr -> (j < 1024)%nat ->
  safe s (slot (page_addr nr) j).
Proof.
  intros Hnr Hr Hj k Hk H0. unfold slot, page_addr, PAGE_SIZE.
  assert (k <> nr) by (intros ->; lia). lia.
Qed.

Lemma safe_not_in s a nr j :
  safe s a -> 0 <= nr < MM_PAGES -> refs s nr = 0 -> (j < 1024)%nat ->
  slot (page_addr nr) j <> a.
Proof. intros Hs Hn H0 Hj E. destruct (Hs nr Hn H0); unfold slot, PAGE_SIZE in *; lia. Qed.

(** A page that was free is not counted by any entry of the tables. *)
Lemma new_refs_free s n from to k i :
  dirs_ok s n from to -> (i < n)%nat -> refs s k = 0 -> new_refs s from k i = 0.
Proof.
  intros D Hi H0. unfold new_refs. destruct (dir_present s from i) eqn:Hp; [|done].
  apply zsum_zero. intros j Hj.
  destruct (do_tables _ _ _ _ D i j Hi Hj Hp) as (_ & _ & Hs & _).
  destruct (shared _) eqn:Esh; [|done]. specialize (Hs eq_refl). cbn.
  destruct (Z.eqb_spec (frame_nr (ram s (table_slot s from i j))) k); [|done].
  subst. lia.
Qed.

Lemma new_refs_rest s s1 n from to k i :
  dirs_ok s (S n) from to -> forked s s1 1 from to -> (i < n)%nat ->
  new_refs s1 (from + 4) k i = new_refs s from k (S i).
Proof.
  intros D F Hi. destruct (forked_rest _ _ _ _ _ D F) as [Hd Ht]. unfold new_refs.
  rewrite (proj1 (Hd i Hi)). destruct (dir_present s from (S i)) eqn:Hp; [|done].
  apply zsum_ext. intros j Hj. destruct (Ht i j Hi Hj Hp) as [E1 E2].
  by rewrite E1, E2.
Qed.

(** What the rest of the copy does to an address the first entry wrote. *)
Lemma frame_rest s s1 s2 n from to a :
  dirs_ok s (S n) from to -> forked s s1 1 from to ->
  forked s1 s2 n (from + 4) (to + 4) -> safe s1 a ->
  (forall i, (i < n)%nat -> a <> slot to (S i)) ->
  (forall i j, (i < n)%nat -> (j < 1024)%nat -> dir_present s from (S i) = true ->
     a <> table_slot s from (S i) j) ->
  ram s2 a = ram s1 a.
Proof.
  intros D F1 F2 Hs H1 H2. destruct (forked_rest _ _ _ _ _ D F1) as [Hd Ht].
  apply (fk_frame _ _ _ _ _ F2); [done| |].
  - intros i Hi. rewrite slot_S. by apply H1.
  - intros i j Hi Hj Hp. rewrite (proj1 (Hd i Hi)) in Hp.
    rewrite (proj1 (Ht i j Hi Hj Hp)). by apply H2.
Qed.

Lemma forked_child_first s s1 s2 n from to :
  dirs_ok s (S n) from to -> forked s s1 1 from to ->
  forked s1 s2 n (from + 4) (to + 4) -> dir_present s from 0 = true ->
  exists nr, 0 <= nr < MM_PAGES /\ refs s nr = 0 /\ refs s2 nr = 1 /\
    ram s2 (slot to 0) = Z.lor (page_addr nr) 7 /\
    forall j, (j < 1024)%nat -> ram s2 (slot (page_addr nr) j) =
      (let e := ram s (table_slot s from 0 j) in if present e then ro e else 0).
Proof.
  intros D F1 F2 Hp. pose proof (do_wf _ _ _ _ D) as Hw.
  assert (Hm : forall k, 0 < refs s k -> 0 < refs s1 k)
    by (intros; by eapply forked_mono).
  destruct (fk_child _ _ _ _ _ F1 0 ltac:(lia) Hp) as (nr & Hn & H0 & H1 & Hto & Htab).
  exists nr. split; [exact Hn|]. split_and!; try done.
  - rewrite (fk_refs _ _ _ _ _ F2) by lia. rewrite H1.
    rewrite zsum_zero; [lia|].
    intros i Hi. rewrite (new_refs_rest s s1 n from to nr i D F1 Hi).
    apply (new_refs_free s (S n) from to nr (S i) D); [lia|done].
  - rewrite (frame_rest s s1 s2 n from to _ D F1 F2); [done| | |].
    + eapply mono_safe; eauto. by apply (do_safe _ _ _ _ D); lia.
    + unfold slot. intros; lia.
    + intros i j Hi Hj Hp' E. symmetry in E. revert E.
      apply (do_tables _ _ _ _ D (S i) j); lia || done.
  - intros j Hj. rewrite (frame_rest s s1 s2 n from to _ D F1 F2); [by apply Htab| | |].
    + apply in_page_safe; lia || done.
    + intros i Hi. apply (safe_not_in s); try done. apply (do_safe _ _ _ _ D). lia.
    + intros i j' Hi Hj' Hp'. apply (safe_not_in s); try done.
      apply (do_tables _ _ _ _ D (S i) j'); lia || done.
Qed.

Lemma forked_compose s s1 s2 n from to :
  dirs_ok s (S n) from to -> forked s s1 1 from to ->
  forked s1 s2 n (from + 4) (to + 4) -> forked s s2 (S n) from to.
Proof.
  intros D F1 F2. pose proof (do_wf _ _ _ _ D) as Hw.
  assert (Hm : forall k, 0 < refs s k -> 0 < refs s1 k)
    by (intros; by eapply forked_mono).
  destruct (forked_rest _ _ _ _ _ D F1) as [Hd Ht].
  assert (Hfr : forall a, safe s a -> (forall i, (i < n)%nat -> a <> slot to (S i)) ->
    (forall i j, (i < n)%nat -> (j < 1024)%nat -> dir_present s from (S i) = true ->
       a <> table_slot s from (S i) j) -> ram s2 a = ram s1 a).
  { intros. eapply frame_rest; eauto. eapply mono_safe; eauto. }
  split.
  - apply F2.
  - by rewrite (fk_high _ _ _ _ _ F2), (fk_high _ _ _ _ _ F1).
  - by rewrite (fk_dir _ _ _ _ _ F2), (fk_dir _ _ _ _ _ F1).
  - intros [|i] Hi Hp; [by eapply forked_child_first|].
    destruct (Hd i ltac:(lia)) as (E0 & _). rewrite <-E0 in Hp.
    destruct (fk_child _ _ _ _ _ F2 i ltac:(lia) Hp) as (nr & Hn & H0 & H1 & Hto & Htab).
    rewrite E0 in Hp. exists nr. split; [exact Hn|]. split_and!; try done.
    + pose proof (wf_count _ Hw nr). specialize (Hm nr).
      destruct (decide (refs s nr = 0)); [done|]. lia.
    + by rewrite <-slot_S.
    + intros j Hj. rewrite (Htab j Hj). destruct (Ht i j ltac:(lia) Hj Hp) as [E1 E2].
      by rewrite E1, E2.
  - intros [|i] Hi Hp.
    + rewrite Hfr; [by apply (fk_absent _ _ _ _ _ F1); [lia|]| | |].
      * by apply (do_safe _ _ _ _ D); lia.
      * unfold slot. intros; lia.
      * intros i j Hi' Hj Hp' E. symmetry in E. revert E.
        apply (do_tables _ _ _ _ D (S i) j); lia || done.
    + destruct (Hd i ltac:(lia)) as (E0 & _ & E2). rewrite <-E0 in Hp.
      pose proof (fk_absent _ _ _ _ _ F2 i ltac:(lia) Hp) as Ha.
      by rewrite E2, slot_S in Ha.
  - intros [|i] j Hi Hj Hp.
    + destruct (do_tables _ _ _ _ D 0 j) as (Hs & _ & _ & Hn); [lia|done..|].
      rewrite Hfr; [by apply (fk_parent _ _ _ _ _ F1); [lia|..]|done| |].
      * intros i Hi'. apply Hn. lia.
      * intros i j' Hi' Hj' Hp' E. apply (do_distinct _ _ _ _ D) in E; lia || done.
    + destruct (Hd i ltac:(lia)) as (E0 & _). rewrite <-E0 in Hp.
      pose proof (fk_parent _ _ _ _ _ F2 i j ltac:(lia) Hj Hp) as Ha. rewrite E0 in Hp.
      destruct (Ht i j ltac:(lia) Hj Hp) as [E1 E2]. by rewrite E1, E2 in Ha.
  - intros a Hs H1 H2. rewrite Hfr; [|done| |].
    + apply (fk_frame _ _ _ _ _ F1); [done| |].
      * intros i Hi. apply H1. lia.
      * intros i j Hi Hj. apply H2; [lia|done].
    + intros i Hi. apply H1. lia.
    + intros i j Hi Hj. apply H2; [lia|done].
  - intros k Hk. rewrite (fk_refs _ _ _ _ _ F2) by auto.
    rewrite (fk_refs _ _ _ _ _ F1 k Hk), (zsum_S_l _ n). cbn [zsum].
    rewrite (zsum_ext (new_refs s1 (from + 4) k) (fun i => new_refs s from k (S i)));
      [lia|].
    intros i Hi. by eapply new_refs_rest.
Qed.

Lemma forked_refl s from to : mm_wf s -> forked s s 0 from to.
Proof. intros Hw. split; try done; try (intros; lia). intros. cbn. lia. Qed.

Lemma forked_absent s n from to :
  dirs_ok s (S n) from to -> dir_present s from 0 = false -> forked s s 1 from to.
Proof.
  intros D Hp. split; try done; try apply D.
  - intros i Hi. replace i with 0%nat by lia. congruence.
  - intros i j Hi. replace i with 0%nat by lia. congruence.
  - intros k Hk. cbn [zsum]. unfold new_refs. rewrite Hp. lia.
Qed.

(** The allocator stays well formed when counts of used pages grow. *)
Lemma copied_wf s s' n from to :
  mm_wf s -> copied s s' n from to ->
  (forall i, (i < n)%nat -> shared (ram s (slot from i)) = true ->
     0 < refs s (frame_nr (ram s (slot from i)))) -> mm_wf s'.
Proof.
  intros Hw C Hused.
  assert (Hge : forall k, refs s k <= refs s' k).
  { intros k. rewrite (cp_refs _ _ _ _ _ C k). set (w := fun i => _).
    pose proof (zsum_nonneg w n) as H. feed H; [|lia].
    intros. unfold w, b2z. case_match; lia. }
  split.
  - rewrite (cp_map _ _ _ _ _ C). apply Hw.
  - rewrite (cp_map _ _ _ _ _ C). apply Hw.
  - apply C.
  - intros k. specialize (Hge k). pose proof (wf_count _ Hw k). lia.
  - intros k Hk. unfold page_bit. rewrite (cp_map _ _ _ _ _ C).
    change (page_bit s k = (0 <? refs s' k)). rewrite (wf_agree _ Hw k Hk).
    pose proof (wf_count _ Hw k). specialize (Hge k).
    destruct (Z.ltb_spec 0 (refs s k)), (Z.ltb_spec 0 (refs s' k)) as [H'|]; try done;
      [lia|]. rewrite (cp_refs _ _ _ _ _ C k) in H'.
    rewrite zsum_zero in H'; [lia|]. intros i Hi. specialize (Hused i Hi).
    destruct (shared _); [|done]. specialize (Hused eq_refl). cbn.
    destruct (Z.eqb_spec (frame_nr (ram s (slot from i))) k); [|done].
    subst. lia.
Qed.

(** One present entry of the directory. *)
Lemma copy_dir_first s n from to :
  dirs_ok s (S n) from to -> dir_present s from 0 = true ->
  (exists k, 0 <= k < MM_PAGES /\ refs s k = 0) ->
  exists nr s1 s3,
    get_free_page s = Ret (page_addr nr) s1 /\ page_addr nr <> 0 /\
    (wr to (Z.lor (page_addr nr) 7) ;;
     copy_ptes 1024 (Z.land 0xfffff000 (ram s from)) (page_addr nr)) s1 = Ret tt s3 /\
    forked s s3 1 from to.
Proof.
  intros D Hp Hf. pose proof (do_wf _ _ _ _ D) as Hw.
  destruct (get_free_page_runs s Hw Hf) as (nr & s1 & E & G).
  pose proof (gp_free _ _ _ G) as (Hn & H0 & _).
  pose proof (page_addr_range nr Hn) as Hra.
  set (s2 := s1 <| ram ::= fun r a' => if a' =? to then Z.lor (page_addr nr) 7 else r a' |>).
  assert (Esl : forall b, slot b 0 = b) by (intros; unfold slot; lia).
  set (T := Z.land 0xfffff000 (ram s from)).
  assert (ET : forall j, table_slot s from 0 j = slot T j)
    by (intros; unfold table_slot, T; by rewrite Esl).
  assert (Hw2 : mm_wf s2) by (destruct (gp_wf _ _ _ G); by split).
  assert (Hnew : forall a j, safe s a -> (j < 1024)%nat -> a <> slot (page_addr nr) j)
    by (intros; by apply not_eq_sym, (safe_not_in s)).
  destruct (do_safe _ _ _ _ D 0 ltac:(lia)) as [_ Hsto]. rewrite Esl in Hsto.
  assert (Hkeep : forall a, safe s a -> ram s1 a = ram s a).
  { intros a Ha. rewrite (gp_ram _ _ _ G). apply decide_False.
    destruct (Ha nr Hn H0); lia. }
  assert (Htab : forall j, (j < 1024)%nat -> safe s (slot T j) /\
    ram s2 (slot T j) = ram s (slot T j) /\ slot T j <> to).
  { intros j Hj. destruct (do_tables _ _ _ _ D 0 j) as (Hs & _ & _ & Hx); [lia|done..|].
    rewrite ET in Hs, Hx. destruct (Hx 0%nat) as [_ Hx2]; [lia|]. rewrite Esl in Hx2.
    split_and!; try done. unfold s2. cbn. rewrite (proj2 (Z.eqb_neq _ _) Hx2).
    by apply Hkeep. }
  destruct (copy_ptes_runs 1024 s2 T (page_addr nr)) as (s3 & E3 & C).
  { apply Hw2. }
  { intros j Hj. rewrite (proj1 (proj2 (Htab j Hj))), <-ET.
    apply (do_tables _ _ _ _ D 0 j); lia || done. }
  { pose proof (Htab 0%nat ltac:(lia)) as (S0 & _). pose proof (Htab 1023%nat ltac:(lia)) as (S1 & _).
    destruct (S0 nr Hn H0), (S1 nr Hn H0); unfold slot, PAGE_SIZE in *; try lia.
    assert (Hal : T mod 4096 = 0).
    { unfold T. change 0xfffff000 with (Z.shiftl (Z.ones 20) 12).
      change 4096 with (2 ^ 12). bitwise. }
    unfold page_addr, LOW_MEM, PAGE_SIZE in *. Z.div_mod_to_equations. lia. }
  exists nr, s1, s3. split; [done|]. split; [unfold LOW_MEM in *; lia|].
  split; [by unfold wr; run|].
  assert (Hrefs : forall k, refs s3 k = (if decide (k = nr) then 1 else refs s k) +
    new_refs s from k 0).
  { intros k. rewrite (cp_refs _ _ _ _ _ C).
    change (refs s2 k) with (refs s1 k). rewrite (gp_refs _ _ _ G). f_equal.
    unfold new_refs. rewrite Hp. apply zsum_ext. intros j Hj.
    by rewrite ET, (proj1 (proj2 (Htab j Hj))). }
  split.
  - apply (copied_wf s2 s3 1024 T (page_addr nr) Hw2 C).
    intros j Hj Hsh. rewrite (proj1 (proj2 (Htab j Hj))), <-ET in *.
    change (refs s2) with (refs s1). rewrite (gp_refs _ _ _ G).
    pose proof (do_tables _ _ _ _ D 0 j) as (_ & _ & Hu & _); [lia|done..|].
    case_decide; [lia|auto].
  - rewrite (cp_high _ _ _ _ _ C). apply G.
  - rewrite (cp_dir _ _ _ _ _ C). apply G.
  - intros i Hi _. replace i with 0%nat by lia. exists nr. split; [done|].
    split; [done|]. split.
    { rewrite Hrefs, decide_True by done. by rewrite (new_refs_free s (S n) from to) by (done || lia). }
    split.
    { rewrite Esl, (cp_frame _ _ _ _ _ C); [by unfold s2; cbn; rewrite Z.eqb_refl|].
      intros j Hj. split; [apply not_eq_sym, Htab; done|by apply Hnew]. }
    intros j Hj. rewrite (cp_to _ _ _ _ _ C) by done. cbv zeta.
    rewrite ET, (proj1 (proj2 (Htab j Hj))). case_match; [done|].
    unfold s2. cbn. rewrite (proj2 (Z.eqb_neq _ _)) by (apply not_eq_sym; by apply Hnew).
    rewrite (gp_ram _ _ _ G). apply decide_True. unfold slot, PAGE_SIZE. lia.
  - intros i Hi Ha. replace i with 0%nat in Ha by lia. congruence.
  - intros i j Hi Hj _. replace i with 0%nat by lia. cbv zeta. rewrite ET.
    rewrite (cp_from _ _ _ _ _ C) by done. by rewrite (proj1 (proj2 (Htab j Hj))).
  - intros a Ha Hto Hta. rewrite (cp_frame _ _ _ _ _ C).
    + unfold s2. cbn. rewrite (proj2 (Z.eqb_neq _ _)); [by apply Hkeep|].
      intros ->. apply (Hto 0%nat); [lia|]. by rewrite Esl.
    + intros j Hj. split; [|by apply Hnew]. rewrite <-ET. apply Hta; lia || done.
  - intros k Hk. rewrite Hrefs. cbn [zsum]. rewrite decide_False by (intros ->; lia). lia.
Qed.

Lemma copy_dirs_runs n : forall s from to,
  dirs_ok s n from to ->
  wp (copy_dirs n from to) (fun r s' => r = 0 /\ forked s s' n from to)
     (fun w s' => w = Fault /\ forall k, 0 <= k < MM_PAGES -> 0 < refs s' k) s.
Proof.
  induction n as [|n IH]; intros s from to D; cbn [copy_dirs].
  { split; [done|]. apply forked_refl, D. }
  assert (Esl : forall b, slot b 0 = b) by (intros; unfold slot; lia).
  unfold rd, wp. run. change (truth (Z.land 1 (ram s from))) with (present (ram s from)).
  destruct (present (ram s from)) eqn:Hp.
  - assert (Hp0 : dir_present s from 0 = true) by (unfold dir_present; by rewrite Esl).
    cbn [negb]. cbv zeta.
    destruct (free_or_full s (do_wf _ _ _ _ D)) as [Hf|Hf].
    2:{ unfold bind at 1. rewrite get_free_page_full; [done|apply D|done]. }
    destruct (copy_dir_first s n from to D Hp0 Hf) as (nr & s1 & s3 & E & Hnz & E3 & F1).
    rewrite (bind_ret _ _ _ _ _ E), (proj2 (Z.eqb_neq _ _) Hnz), <-bind_assoc.
    rewrite (bind_ret _ _ _ _ _ E3).
    eapply wp_mono; [apply IH; by eapply dirs_ok_step| |done].
    intros r s' [-> F2]. split; [done|]. by eapply forked_compose.
  - assert (Hp0 : dir_present s from 0 = false) by (unfold dir_present; by rewrite Esl).
    pose proof (forked_absent s n from to D Hp0) as F1.
    eapply wp_mono; [apply IH; by eapply dirs_ok_step| |done].
    intros r s' [-> F2]. split; [done|]. by eapply forked_compose.
Qed.

Lemma copy_page_tables_run s from to size :
  let n := Z.to_nat (Z.shiftr (u32 (size + 0x3fffff)) 22) in
  let from_dir := pg_dir s + 4 * pgdir_idx from in
  let to_dir := pg_dir s + 4 * pgdir_idx to in
  dirs_ok s n from_dir to_dir ->
  wp (copy_page_tables from to size)
     (fun r s' => r = 0 /\ forked s s' n from_dir to_dir)
     (fun w s' => w = Fault /\ forall k, 0 <= k < MM_PAGES -> 0 < refs s' k) s.
Proof.
  intros n from_dir to_dir D. unfold copy_page_tables, pde. apply wp_bind, wp_gets.
  apply wp_bind, wp_gets. by apply copy_dirs_runs.
Qed.

(** C6.  copy_page_tables(), the memory half of fork(): it either returns 0
    with every table of the parent copied to a fresh page, all counted frames
    write-protected on both sides and counted once more per mapping, and
    everything else in use unchanged; or the machine has run out of pages, in
    which case it does not return -1 as written but stops in the allocator. *)
Theorem copy_page_tables_forks s from to size :
  let n := Z.to_nat (Z.shiftr (u32 (size + 0x3fffff)) 22) in
  let from_dir := pg_dir s + 4 * pgdir_idx from in
  let to_dir := pg_dir s + 4 * pgdir_idx to in
  dirs_ok s n from_dir to_dir ->
  wp (copy_page_tables from to size)
     (fun r s' => r = 0 /\ forked s s' n from_dir to_dir)
     (fun w s' => w = Fault /\ forall k, 0 <= k < MM_PAGES -> 0 < refs s' k) s.
Proof. apply copy_page_tables_run. Qed.

(** A parent with one table at 0x1000, whose sixth entry maps page 95. *)
Definition demo_parent : mm :=
  demo_mm <| ram := fun a =>
    if a =? 0 then 0x1007 else if a =? 0x1014 then page_addr 95 + 7 else 0 |>.

Lemma demo_parent_refs : refs demo_parent 95 = 1.
Proof.
  change (refs demo_parent 95) with (refs demo_mm 95).
  by rewrite demo_refs, decide_False by done.
Qed.

Lemma demo_parent_ok : dirs_ok demo_parent 1 0 64.
Proof.
  assert (Hlow : forall a, a < LOW_MEM -> safe demo_parent a).
  { intros a Ha k Hk _. left. pose proof (page_addr_range k Hk). lia. }
  assert (Hp : forall d i j, d = 0 -> (i < 1)%nat ->
    table_slot demo_parent d i j = 4096 + 4 * Z.of_nat j).
  { intros d i j -> Hi. by replace i with 0%nat by lia. }
  assert (Hram : forall a, ram demo_parent a =
    if a =? 0 then 0x1007 else if a =? 0x1014 then page_addr 95 + 7 else 0) by done.
  split.
  - destruct demo_wf. by split.
  - unfold slot. intros; lia.
  - intros i Hi. unfold slot. split; apply Hlow; unfold LOW_MEM; lia.
  - intros i j Hi Hj _. rewrite Hp, Hram by done.
    pose proof demo_parent_refs as Hr.
    split; [apply Hlow; unfold LOW_MEM; lia|].
    destruct (Z.eqb_spec (4096 + 4 * Z.of_nat j) 0); [lia|].
    split; [by destruct (_ =? _)|]. split.
    + destruct (_ =? _); [|done]. intros _.
      change (frame_nr (page_addr 95 + 7)) with 95. lia.
    + intros i' Hi'. unfold slot. lia.
  - intros. lia.
Qed.

Example copy_page_tables_forks_witness :
  wp (copy_page_tables 0 0x4000000 0x3fffff)
     (fun r s' => r = 0 /\ forked demo_parent s' 1 0 64)
     (fun w s' => w = Fault /\ forall k, 0 <= k < MM_PAGES -> 0 < refs s' k) demo_parent.
Proof. exact (copy_page_tables_forks demo_parent 0 0x4000000 0x3fffff demo_parent_ok). Defined.

(** The frame of an entry that maps page [nr]. *)
Lemma entry_page s p nr :
  0 <= nr < MM_PAGES -> Z.land (ram s p) 0xfffff000 = page_addr nr ->
  page_from p s = Ret (page_addr nr) s.
Proof. intros Hn E. unfold page_from, rd. run. by rewrite E. Qed.

(** C26.  A write fault on an entry [p] that maps page [nr].  If this is the
    page's only reference the entry just becomes writable.  If it is shared,
    the entry gets a fresh page, writable, that holds a copy of the old page;
    the old page loses the reference, the other mappings keep their contents. *)
Theorem un_wp_page_spec s p nr :
  mm_wf s -> 0 <= nr < MM_PAGES -> Z.land (ram s p) 0xfffff000 = page_addr nr ->
  (refs s nr = 1 ->
     un_wp_page p s = Ret tt (s <| ram ::= fun r a =>
       if a =? p then Z.lor (r p) PTE_WRITE else r a |>)) /\
  (1 < refs s nr -> (exists k, 0 <= k < MM_PAGES /\ refs s k = 0) -> safe s p ->
     p < page_addr nr \/ page_addr nr + PAGE_SIZE <= p ->
     exists n' s', un_wp_page p s = Ret tt s' /\ mm_wf s' /\
       highest_free s n' /\
       (forall k, refs s' k = if decide (k = n') then 1
                              else if decide (k = nr) then refs s nr - 1 else refs s k) /\
       ram s' p = Z.lor (page_addr n') 7 /\
       (forall o, 0 <= o < PAGE_SIZE -> ram s' (page_addr n' + o) = ram s (page_addr nr + o)) /\
       (forall a, safe s a -> a <> p -> ram s' a = ram s a)).
Proof.
  intros Hw Hnr Hp. pose proof (page_addr_range nr Hnr) as Hra.
  assert (Hcond : forall c, refs s nr = c -> (if LOW_MEM <=? page_addr nr then
     let! c := get_ref (page_addr nr) in ret (c =? 1) else ret false) s =
     Ret (c =? 1) s).
  { intros c Hc. destruct (Z.leb_spec LOW_MEM (page_addr nr)); [|lia].
    rewrite <-(Z.add_0_r (page_addr nr)).
    erewrite bind_ret; [|apply get_ref_page; [apply Hw|done|by unfold PAGE_SIZE]].
    by rewrite Hc. }
  split.
  - intros H1. unfold un_wp_page. rewrite (bind_ret _ _ _ _ _ (entry_page s p nr Hnr Hp)).
    rewrite (bind_ret _ _ _ _ _ (Hcond 1 H1)). done.
  - intros H1 Hf Hs Hout. unfold un_wp_page.
    rewrite (bind_ret _ _ _ _ _ (entry_page s p nr Hnr Hp)).
    rewrite (bind_ret _ _ _ _ _ (Hcond _ eq_refl)).
    rewrite (proj2 (Z.eqb_neq _ _)) by lia.
    destruct (get_free_page_runs s Hw Hf) as (n' & s1 & E & G).
    pose proof (gp_free _ _ _ G) as (Hn' & H0 & Ha).
    rewrite (bind_ret _ _ _ _ _ E).
    destruct (Z.leb_spec LOW_MEM (page_addr nr)); [|lia]. cbn [when].
    assert (Hl1 : counts_all s1) by apply (gp_wf _ _ _ G).
    pose proof (add_ref_page s1 nr 0 (-1) Hl1 Hnr) as Hadd.
    feed Hadd; [by unfold PAGE_SIZE|]. rewrite Z.add_0_r in Hadd.
    rewrite (bind_ret _ _ _ _ _ Hadd). unfold wr, copy_page. run.
    assert (Hne : nr <> n') by (intros ->; lia).
    assert (Hr1 : refs s1 nr = refs s nr)
      by (rewrite (gp_refs _ _ _ G); by rewrite decide_False).
    rewrite Hr1. exists n'. eexists. split; [done|].
    set (s2 := s1 <| refcount ::= zset nr (refs s nr + -1) |>).
    assert (Hkeep : forall a, safe s a -> ram s1 a = ram s a).
    { intros a Hsa. rewrite (gp_ram _ _ _ G). apply decide_False.
      destruct (Hsa n' Hn' H0); lia. }
    assert (Hrefs : forall k, refs s2 k = if decide (k = n') then 1
                              else if decide (k = nr) then refs s nr - 1 else refs s k).
    { intros k. unfold s2. rewrite refs_zset, (gp_refs _ _ _ G) by done.
      repeat case_decide; try done; try congruence; lia. }
    assert (Hsep : page_addr nr + PAGE_SIZE <= page_addr n' \/
                   page_addr n' + PAGE_SIZE <= page_addr nr)
      by (unfold page_addr, PAGE_SIZE; lia).
    pose proof (Hs n' Hn' H0) as Hpn.
    split_and!.
    + assert (Hw2 : mm_wf s2); [|destruct Hw2; by split].
      pose proof (gp_wf _ _ _ G) as Hw1. split; try apply Hw1.
      * cbn. rewrite length_zset. apply Hw1.
      * intros k. rewrite Hrefs. pose proof (wf_count _ Hw k). repeat case_decide; lia.
      * intros k Hk. change (page_bit s2 k) with (page_bit s1 k).
        rewrite (wf_agree _ Hw1 k Hk), Hrefs, (gp_refs _ _ _ G).
        repeat case_decide; try done. subst.
        destruct (Z.ltb_spec 0 (refs s nr)), (Z.ltb_spec 0 (refs s nr - 1)); done || lia.
    + apply (gp_free _ _ _ G).
    + exact Hrefs.
    + cbn. destruct (Z.leb_spec (page_addr n') p), (Z.ltb_spec p (page_addr n' + PAGE_SIZE));
        cbn; try lia; by rewrite Z.eqb_refl.
    + intros o Ho. cbn.
      destruct (Z.leb_spec (page_addr n') (page_addr n' + o)),
        (Z.ltb_spec (page_addr n' + o) (page_addr n' + PAGE_SIZE)); cbn; try lia.
      replace (page_addr n' + o - page_addr n' + page_addr nr) with (page_addr nr + o) by lia.
      rewrite (proj2 (Z.eqb_neq _ _)) by lia. rewrite (gp_ram _ _ _ G).
      apply decide_False. lia.
    + intros a Hsa Hne'. cbn. destruct (Hsa n' Hn' H0) as [Hx|Hx].
      * destruct (Z.leb_spec (page_addr n') a); [lia|]. cbn.
        rewrite (proj2 (Z.eqb_neq _ _)) by done. by apply Hkeep.
      * destruct (Z.ltb_spec a (page_addr n' + PAGE_SIZE)); [lia|]. rewrite andb_false_r.
        rewrite (proj2 (Z.eqb_neq _ _)) by done. by apply Hkeep.
Qed.

Example un_wp_page_spec_witness :
  un_wp_page 0x1014 demo_parent = Ret tt (demo_parent <| ram ::= fun r a =>
    if a =? 0x1014 then Z.lor (r 0x1014) PTE_WRITE else r a |>).
Proof.
  apply (un_wp_page_spec demo_parent 0x1014 95).
  - destruct demo_wf. split; assumption.
  - split; [discriminate|reflexivity].
  - reflexivity.
  - exact demo_parent_refs.
Defined.

(** ** mm_init() *)

Lemma clear_beyond s addr :
  0 <= addr < LOW_MEM \/ page_addr MM_PAGES <= addr < 2 ^ 32 ->
  clear_mem_map addr s = Ret tt s.
Proof. intros H. unfold clear_mem_map. by rewrite (proj1 (get_bitpos_out _ H)). Qed.

(** Releasing the pages from [a] on: the loop ends, and the pages of the
    64 MB that begin below the end of memory are free. *)
Lemma release_runs n : forall a off memory_end s,
  mm_wf s -> 0 <= a -> 0 <= off < PAGE_SIZE ->
  memory_end <= 2 ^ 31 -> page_addr a + off <= 2 ^ 31 + PAGE_SIZE ->
  memory_end - (page_addr a + off) < PAGE_SIZE * (Z.of_nat n - 1) ->
  0 < Z.of_nat n ->
  (forall k, a <= k < MM_PAGES -> refs s k = 1) ->
  exists s', release n (page_addr a + off) memory_end s = Ret tt s' /\ mm_wf s' /\
    HIGH_MEMORY s' = HIGH_MEMORY s /\ pg_dir s' = pg_dir s /\ ram s' = ram s /\
    forall k, 0 <= k < MM_PAGES -> refs s' k =
      (if (a <=? k) && (page_addr k + off <? memory_end) then 0 else refs s k).
Proof.
  induction n as [|n IH]; intros a off me s Hw Ha Ho Hme Hra Hfuel Hpos H1; [lia|].
  cbn [release]. destruct (Z.ltb_spec (page_addr a + off) me) as [Hlt|Hge].
  2:{ exists s. split_and!; try done. intros k Hk.
      destruct (Z.leb_spec a k), (Z.ltb_spec (page_addr k + off) me); try done.
      unfold page_addr, PAGE_SIZE in *. lia. }
  assert (Hnext : u32 (page_addr a + off + PAGE_SIZE) = page_addr (a + 1) + off).
  { unfold page_addr, PAGE_SIZE, LOW_MEM in *. rewrite u32_small; lia. }
  assert (Hrest : forall s1, mm_wf s1 -> (forall k, a + 1 <= k < MM_PAGES -> refs s1 k = 1) ->
    exists s', release n (page_addr (a + 1) + off) me s1 = Ret tt s' /\ mm_wf s' /\
    HIGH_MEMORY s' = HIGH_MEMORY s1 /\ pg_dir s' = pg_dir s1 /\ ram s' = ram s1 /\
    forall k, 0 <= k < MM_PAGES -> refs s' k =
      (if (a + 1 <=? k) && (page_addr k + off <? me) then 0 else refs s1 k)).
  { intros s1 Hw1 H1'. unfold page_addr, PAGE_SIZE, LOW_MEM in *. apply IH; try done; lia. }
  rewrite Hnext. destruct (Z.ltb_spec a MM_PAGES) as [Hin|Hout].
  - destruct (clear_mem_map_page s a off Hw) as (s1 & E & P); [lia|done| |].
    { rewrite H1 by lia. lia. }
    rewrite (bind_ret _ _ _ _ _ E). rewrite (H1 a) in P by lia.
    assert (Hw1 : mm_wf s1) by (eapply page_set_wf; [apply Hw|apply P|done..]).
    destruct (Hrest s1 Hw1) as (s' & E' & Hw' & Hh & Hd & Hr & Hk).
    { intros k Hk. rewrite (ps_refs _ _ _ _ _ P), decide_False by lia. apply H1. lia. }
    exists s'. rewrite E'. split; [done|]. split; [done|].
    split; [by rewrite Hh; apply P|]. split; [by rewrite Hd; apply P|].
    split; [by rewrite Hr; apply P|].
    intros k Hkr. rewrite Hk by done. rewrite (ps_refs _ _ _ _ _ P).
    destruct (Z.leb_spec (a + 1) k), (Z.leb_spec a k); cbn; try lia;
      case_decide; subst; try lia; try done.
    destruct (Z.ltb_spec (page_addr a + off) me); [done|lia].
  - rewrite (bind_ret _ _ _ _ _ (clear_beyond s (page_addr a + off) ltac:(unfold page_addr, MM_PAGES, PAGE_SIZE, LOW_MEM in *; lia))).
    destruct (Hrest s Hw) as (s' & E' & Hw' & Hh & Hd & Hr & Hk); [intros; lia|].
    exists s'. rewrite E'. split_and!; try done. intros k Hkr. rewrite Hk by done.
    destruct (Z.leb_spec (a + 1) k), (Z.leb_spec a k); try lia; done.
Qed.

Lemma mm_init_run fuel kb end_of_kernel frames a off s :
  0 <= kb < 2 ^ 21 -> 0 <= a -> 0 <= off < PAGE_SIZE ->
  u32 (end_of_kernel + frames * 4096) = page_addr a + off ->
  page_addr a + off <= 2 ^ 31 -> 2 ^ 20 <= Z.of_nat fuel ->
  exists s', mm_init fuel kb end_of_kernel frames s = Ret tt s' /\ mm_wf s' /\
    HIGH_MEMORY s' = kb * 1024 /\ pg_dir s' = pg_dir s /\
    (forall b, ram s' b = if (LOW_MEM <=? b) && (b <? 0x800000) then 0 else ram s b) /\
    forall k, 0 <= k < MM_PAGES ->
      refs s' k = if (a <=? k) && (page_addr k + off <? kb * 1024) then 0 else 1.
Proof.
  intros Hkb Ha Ho Hstart Hst Hfuel. unfold mm_init.
  assert (Hme : u32 (Z.shiftl kb 10) = kb * 1024).
  { rewrite Z.shiftl_mul_pow2 by lia. change (2 ^ 10) with 1024.
    apply u32_small. lia. }
  rewrite Hme, Hstart. run. cbv zeta.
  match goal with |- context [release _ _ _ ?t] => set (s0 := t) end.
  assert (Hw0 : mm_wf s0) by (destruct (full_wf (ram s0) 0 0); by split).
  assert (H0 : forall k, 0 <= k < MM_PAGES -> refs s0 k = 1)
    by (intros k Hk; apply (refs_full (ram s0) 0 0 k Hk)).
  destruct (release_runs fuel a off (kb * 1024) s0) as (s' & E & Hw & Hh & Hd & Hr & Hk);
    try done; try (unfold page_addr, PAGE_SIZE, LOW_MEM in *; lia).
  { intros k Hkr. apply H0. lia. }
  exists s'. split_and!; try done.
  - intros b. rewrite Hr. cbn. unfold LOW_MEM.
    destruct (Z.leb_spec 0x100000 b), (Z.ltb_spec b (0x100000 + 0x400000)),
      (Z.leb_spec 0x400000 b), (Z.ltb_spec b 0x800000); cbn; done || lia.
  - intros k Hkr. by rewrite Hk, H0.
Qed.

(** C27.  mm_init() on a machine of [kb] kilobytes whose kernel and page
    tables end in page [a]: the loop ends, the allocator is well formed, and
    the free pages are exactly those of the managed 64 MB from [a] to the end
    of memory. *)
Theorem mm_init_spec fuel kb end_of_kernel frames a off s :
  0 <= kb < 2 ^ 21 -> 0 <= a -> 0 <= off < PAGE_SIZE ->
  u32 (end_of_kernel + frames * 4096) = page_addr a + off ->
  page_addr a + off <= 2 ^ 31 -> 2 ^ 20 <= Z.of_nat fuel ->
  exists s', mm_init fuel kb end_of_kernel frames s = Ret tt s' /\ mm_wf s' /\
    HIGH_MEMORY s' = kb * 1024 /\
    forall k, 0 <= k < MM_PAGES ->
      (refs s' k = 0 <-> a <= k /\ page_addr k + off < kb * 1024).
Proof.
  intros Hkb Ha Ho Hstart Hst Hfuel.
  destruct (mm_init_run fuel kb end_of_kernel frames a off s Hkb Ha Ho Hstart Hst Hfuel)
    as (s' & E & Hw & Hh & _ & _ & Hk).
  exists s'. split_and!; try done. intros k Hkr. rewrite Hk by done.
  destruct (Z.leb_spec a k), (Z.ltb_spec (page_addr k + off) (kb * 1024)); cbn; split;
    intros; try lia; done.
Qed.

(** A 32 MB machine whose main memory starts at 9 MB. *)
Example mm_init_spec_witness :
  exists s', mm_init (Pos.to_nat (2 ^ 20)) 32768 0x800000 256
               (Mm [] [] (fun _ => 0) 0 0) = Ret tt s' /\ mm_wf s' /\
    refs s' 2048 = 0 /\ refs s' 2047 <> 0 /\ refs s' 7936 <> 0.
Proof.
  destruct (mm_init_spec (Pos.to_nat (2 ^ 20)) 32768 0x800000 256 2048 0
    (Mm [] [] (fun _ => 0) 0 0)) as (s' & E & Hw & _ & Hk);
    [lia|lia|unfold PAGE_SIZE; lia|reflexivity|unfold page_addr, LOW_MEM, PAGE_SIZE; lia|
     rewrite positive_nat_Z; reflexivity|].
  exists s'. split; [exact E|]. split; [exact Hw|].
  split; [apply Hk; unfold page_addr, MM_PAGES, LOW_MEM, PAGE_SIZE; lia|].
  split; rewrite Hk; unfold page_addr, MM_PAGES, LOW_MEM, PAGE_SIZE; lia.
Defined.
