(* ===== verification/Vsprintf.v ===== *)
(** * Formatted output: kernel/vsprintf.c and kernel/printk.c

    Characters are their codes; a C string is the list of its characters
    before the NUL.  The state is what has been written to the buffer, the
    words of the argument list not yet taken, and the stores of [%n]; the
    strings that arguments point to are given by [mem]. *)

From S2P Require Import Prelude.

Definition chars (s : string) : list Z :=
  (fun a => Z.of_N (Ascii.N_of_ascii a)) <$> String.list_ascii_of_string s.

Definition ZEROPAD : Z := 1.
Definition SIGN : Z := 2.
Definition PLUS : Z := 4.
Definition SPACE : Z := 8.
Definition LEFT : Z := 16.
Definition SPECIAL : Z := 32.
Definition SMALL : Z := 64.

Definition has (flags f : Z) : bool := truth (Z.land flags f).
Definition is_digit (c : Z) : bool := (48 <=? c) && (c <=? 57).

(** The number at the front of a string, and what follows it. *)
Fixpoint skip_atoi (s : list Z) (i : Z) : Z * list Z :=
  match s with
  | c :: s' => if is_digit c then skip_atoi s' (s32 (i * 10 + c - 48)) else (i, s)
  | [] => (i, [])
  end.

(** ** number() *)

Definition digits_upper : list Z := chars "0123456789ABCDEFGHIJKLMNOPQRSTUVWXYZ".
Definition digits_lower : list Z := chars "0123456789abcdefghijklmnopqrstuvwxyz".

(** [while (num!=0) tmp[i++]=digits[do_div(num,base)]]: the used part of
    [tmp[36]]; [None] when an index would be out of bounds. *)
Fixpoint fill_tmp (room : nat) (num base : Z) (digits : list Z) : option (list Z) :=
  if num =? 0 then Some []
  else match room with
       | O => None
       | S room' =>
           match zget digits (num mod base), fill_tmp room' (num / base) base digits with
           | Some d, Some tmp => Some (d :: tmp)
           | _, _ => None
           end
       end.

Definition puts (l : list Z) : M (list Z) unit := modify (fun o => o ++ l).
(** [while(size-->0) *str++ = c], and the value it leaves in [size]. *)
Definition pad (size c : Z) : M (list Z) Z :=
  puts (replicate (Z.to_nat size) c) ;; ret (Z.min size 0 - 1).

(** [false] is the NULL result for a base out of range. *)
Definition number (num base size precision type : Z) : M (list Z) bool :=
  let digits := if has type SMALL then digits_lower else digits_upper in
  let type := if has type LEFT then Z.ldiff type ZEROPAD else type in
  if (base <? 2) || (36 <? base) then ret false
  else
    let c := if has type ZEROPAD then 48 else 32 in
    let neg := has type SIGN && (num <? 0) in
    let sign := if neg then 45 else
      if has type PLUS then 43 else if has type SPACE then 32 else 0 in
    let num := if neg then s32 (- num) else num in
    let size := if truth sign then s32 (size - 1) else size in
    let size := if has type SPECIAL then
        if base =? 16 then s32 (size - 2)
        else if base =? 8 then s32 (size - 1) else size
      else size in
    let! tmp := deref (if num =? 0 then Some [48]
                       else fill_tmp 36 (u32 num) base digits) in
    let i := Z.of_nat (length tmp) in
    let precision := Z.max i precision in
    let size := s32 (size - precision) in
    let! size := (if negb (has type (ZEROPAD + LEFT)) then pad size 32 else ret size) in
    (if truth sign then puts [sign] else ret tt) ;;
    (if has type SPECIAL then
       if base =? 8 then puts [48]
       else if base =? 16 then
         let! x := deref (zget digits 33) in puts [48; x]
       else ret tt
     else ret tt) ;;
    let! size := (if negb (has type LEFT) then pad size c else ret size) in
    puts (replicate (Z.to_nat (precision - i)) 48) ;;
    puts (rev tmp) ;;
    let! _ := pad size 32 in
    ret true.

(** ** vsprintf() *)

Record vs := Vs { out : list Z; args : list Z; stores : list (Z * Z) }.
#[export] Instance eta_vs : Eta vs := fun s => Vs (out s) (args s) (stores s).

Definition out_l : lens vs (list Z) := Lens out (fun o s => s <| out := o |>).

Definition va_arg : M vs Z :=
  let! a := gets args in
  match a with
  | w :: a' => modify (fun s => s <| args := a' |>) ;; ret w
  | [] => halt Fault
  end.

(** The flags, from the character after the percent sign on. *)
Fixpoint get_flags (fmt : list Z) (flags : Z) : Z * list Z :=
  match fmt with
  | c :: r =>
      if c =? 45 then get_flags r (Z.lor flags LEFT)
      else if c =? 43 then get_flags r (Z.lor flags PLUS)
      else if c =? 32 then get_flags r (Z.lor flags SPACE)
      else if c =? 35 then get_flags r (Z.lor flags SPECIAL)
      else if c =? 48 then get_flags r (Z.lor flags ZEROPAD)
      else (flags, fmt)
  | [] => (flags, [])
  end.

Definition get_width (fmt : list Z) (flags : Z) : M vs (Z * Z * list Z) :=
  match fmt with
  | c :: r =>
      if is_digit c then
        let '(w, r) := skip_atoi fmt 0 in ret (w, flags, r)
      else if c =? 42 then
        let! w := va_arg in
        let w := s32 w in
        if w <? 0 then ret (s32 (- w), Z.lor flags LEFT, r) else ret (w, flags, r)
      else ret (-1, flags, fmt)
  | [] => ret (-1, flags, fmt)
  end.

Definition get_precision (fmt : list Z) : M vs (Z * list Z) :=
  match fmt with
  | c :: r =>
      if c =? 46 then
        let! pr := match r with
          | d :: r' =>
              if is_digit d then ret (skip_atoi r 0)
              else if d =? 42 then let! p := va_arg in ret (s32 p, r')
              else ret (-1, r)
          | [] => ret (-1, r)
          end in
        let '(p, r) := pr in ret (if p <? 0 then 0 else p, r)
      else ret (-1, fmt)
  | [] => ret (-1, fmt)
  end.

(** The qualifier is read and not used. *)
Definition get_qualifier (fmt : list Z) : list Z :=
  match fmt with
  | c :: r => if (c =? 104) || (c =? 108) || (c =? 76) then r else fmt
  | [] => fmt
  end.

Definition out_number (base width precision flags : Z) : M vs unit :=
  let! w := va_arg in
  let! ok := zoom out_l (number (s32 w) base width precision flags) in
  if ok then ret tt else halt Fault.

Section with_mem.
Variable mem : Z -> option (list Z).

Definition out_string (width precision flags : Z) : M vs unit :=
  let! p := va_arg in
  let! s := (if p =? 0 then ret (chars "<NULL>") else deref (mem p)) in
  let len := Z.of_nat (length s) in
  let len := if precision <? 0 then len else if precision <? len then precision else len in
  let! w := (if negb (has flags LEFT) then
               zoom out_l (let! _ := pad (width - len) 32 in
                           ret (Z.min width len - 1))
             else ret width) in
  zoom out_l (puts (take (Z.to_nat len) s)) ;;
  let! _ := zoom out_l (pad (w - len) 32) in
  ret tt.

Definition out_char (width flags : Z) : M vs unit :=
  let! w := (if negb (has flags LEFT) then
               zoom out_l (let! _ := pad (width - 1) 32 in ret (Z.min (width - 1) 0))
             else ret width) in
  let! c := va_arg in
  zoom out_l (puts [u8 c]) ;;
  let! _ := zoom out_l (pad (w - 1) 32) in
  ret tt.

(** The conversion at the front of [fmt]; what follows it. *)
Definition convert (width precision flags : Z) (fmt : list Z) : M vs (list Z) :=
  match fmt with
  | [] => zoom out_l (puts [37]) ;; ret []
  | c :: r =>
      (if c =? 99 then out_char width flags
       else if c =? 115 then out_string width precision flags
       else if c =? 111 then out_number 8 width precision flags
       else if c =? 112 then
         if width =? -1 then out_number 16 8 precision (Z.lor flags ZEROPAD)
         else out_number 16 width precision flags
       else if c =? 120 then out_number 16 width precision (Z.lor flags SMALL)
       else if c =? 88 then out_number 16 width precision flags
       else if (c =? 100) || (c =? 105) then
         out_number 10 width precision (Z.lor flags SIGN)
       else if c =? 117 then out_number 10 width precision flags
       else if c =? 110 then
         let! ip := va_arg in
         modify (fun s => s <| stores ::= fun l => l ++ [(ip, Z.of_nat (length (out s)))] |>)
       else
         (if c =? 37 then ret tt else zoom out_l (puts [37])) ;;
         zoom out_l (puts [c])) ;;
      ret r
  end.

Definition directive (fmt : list Z) : M vs (list Z) :=
  let '(flags, fmt) := get_flags fmt 0 in
  let! wf := get_width fmt flags in
  let '(width, flags, fmt) := wf in
  let! pf := get_precision fmt in
  let '(precision, fmt) := pf in
  convert width precision flags (get_qualifier fmt).

Fixpoint vsprintf_loop (fuel : nat) (fmt : list Z) : M vs unit :=
  match fuel with
  | O => halt NoFuel
  | S fuel' =>
      match fmt with
      | [] => ret tt
      | c :: r =>
          if c =? 37 then
            let! r' := directive r in vsprintf_loop fuel' r'
          else zoom out_l (puts [c]) ;; vsprintf_loop fuel' r
      end
  end.

(** The result is [str-buf]; [out] is what precedes the final NUL. *)
Definition vsprintf (fmt : list Z) : M vs Z :=
  vsprintf_loop (S (length fmt)) fmt ;;
  gets (fun s => Z.of_nat (length (out s))).

(** printk(): the text handed to tty_write(0,buf,i), from [buf[1024]]. *)
Definition printk (fmt : list Z) (va : list Z) : option (list Z) :=
  match vsprintf fmt (Vs [] va []) with
  | Ret i s => if Z.of_nat (length (out s)) <? 1024 then Some (out s) else None
  | Stop _ _ => None
  end.
End with_mem.

Example vsprintf_examples :
  printk (fun _ => Some (chars "hd")) (chars "%s%d: %5d|%-5d|%05d|%x|%#X|%+d %%%") 
    [1; 3; 42; 42; 42; 255; 255; 7] =
  Some (chars "hd3:    42|42   |00042|ff|0XFF|+7 %%").
Proof. vm_compute. reflexivity. Qed.

Example vsprintf_min_int :
  printk (fun _ => None) (chars "%d %u %p %.3d") [0x80000000; 0x80000000; 0xff; 5] =
  Some (chars "-2147483648 2147483648 000000FF 005").
Proof. vm_compute. reflexivity. Qed.

(** ** The digits of a number *)

Lemma digits_length type :
  length (if has type SMALL then digits_lower else digits_upper) = 36%nat.
Proof. by destruct (has type SMALL). Qed.

(** Up to [base ^ room] the digits fit into the buffer. *)
Lemma fill_tmp_Some room : forall num base digits,
  length digits = 36%nat -> 2 <= base <= 36 -> 0 <= num < base ^ Z.of_nat room ->
  exists tmp, fill_tmp room num base digits = Some tmp /\ (length tmp <= room)%nat.
Proof.
  induction room as [|room IH]; intros num base digits Hl Hb Hn; cbn [fill_tmp].
  - replace num with 0 by (cbn in Hn; lia). exists []. by split.
  - destruct (Z.eqb_spec num 0); [exists []; split; [done|cbn; lia]|].
    destruct (zget_is_Some digits (num mod base)) as [d ->].
    { rewrite Hl. pose proof (Z.mod_pos_bound num base). lia. }
    destruct (IH (num / base) base digits Hl Hb) as (tmp & -> & Hle).
    { split; [apply Z.div_pos; lia|]. apply Z.div_lt_upper_bound; [lia|].
      rewrite Nat2Z.inj_succ, Z.pow_succ_r in Hn; lia. }
    exists (d :: tmp). split; [done|cbn; lia].
Qed.

Lemma tmp_fits type base num :
  2 <= base <= 36 ->
  exists tmp, (if num =? 0 then Some [48] else
    fill_tmp 36 (u32 num) base (if has type SMALL then digits_lower else digits_upper))
    = Some tmp /\ (length tmp <= 36)%nat.
Proof.
  intros Hb. destruct (num =? 0); [exists [48]; split; [done|cbn; lia]|].
  apply fill_tmp_Some; [apply digits_length|done|].
  pose proof (u32_range num). split; [lia|].
  apply Z.lt_le_trans with (2 ^ 36); [lia|]. apply Z.pow_le_mono_l. lia.
Qed.

(** The value of a digit and of a numeral, most significant digit first. *)
Definition digit_val (c : Z) : Z :=
  if is_digit c then c - 48 else if c <? 97 then c - 55 else c - 87.
Definition horner (base : Z) (l : list Z) : Z :=
  fold_left (fun v c => v * base + digit_val c) l 0.

Lemma digit_val_at type d i :
  zget (if has type SMALL then digits_lower else digits_upper) i = Some d -> digit_val d = i.
Proof.
  intros H. pose proof (zget_Some_range _ _ _ H) as Hr. rewrite digits_length in Hr.
  assert (Hall : forallb (fun k => match zget (if has type SMALL then digits_lower
      else digits_upper) (Z.of_nat k) with
    | Some d => digit_val d =? Z.of_nat k | None => false end) (seq 0 36) = true)
    by (destruct (has type SMALL); vm_compute; done).
  rewrite forallb_forall in Hall. specialize (Hall (Z.to_nat i)).
  rewrite Z2Nat.id, H in Hall by lia. apply Z.eqb_eq, Hall.
  apply in_seq. lia.
Qed.

Lemma horner_fill type room : forall num base tmp,
  2 <= base -> 0 <= num ->
  fill_tmp room num base (if has type SMALL then digits_lower else digits_upper) = Some tmp ->
  horner base (rev tmp) = num.
Proof.
  set (digits := if has type SMALL then _ else _).
  induction room as [|room IH]; intros num base tmp Hb Hn; cbn [fill_tmp];
    destruct (Z.eqb_spec num 0) as [->|]; try (by intros [= <-]).
  destruct (zget digits (num mod base)) as [d|] eqn:Ed; [|done].
  destruct (fill_tmp _ _ _ _) as [tmp'|] eqn:Et; [|done]. intros [= <-].
  unfold horner. cbn [rev]. rewrite fold_left_app. cbn [fold_left].
  apply IH in Et; [|done|apply Z.div_pos; lia]. unfold horner in Et. rewrite Et.
  apply digit_val_at in Ed. rewrite Ed. Z.div_mod_to_equations. nia.
Qed.

Lemma is_digit_at d i : 0 <= i < 10 -> zget digits_upper i = Some d -> d = i + 48.
Proof.
  intros Hi H. assert (Hc : digit_val d = i) by (by apply (digit_val_at 0)).
  assert (Hall : forallb (fun k => match zget digits_upper (Z.of_nat k) with
    | Some d => d =? Z.of_nat k + 48 | None => false end) (seq 0 10) = true) by done.
  rewrite forallb_forall in Hall. specialize (Hall (Z.to_nat i)).
  rewrite Z2Nat.id, H in Hall by lia. apply Z.eqb_eq, Hall. apply in_seq. lia.
Qed.

(** skip_atoi() reads back what number() writes in base 10. *)
Lemma skip_atoi_fill room : forall num tmp i rest,
  fill_tmp room num 10 digits_upper = Some tmp -> 0 <= num -> 0 <= i ->
  i * 10 ^ Z.of_nat (length tmp) + num < 2 ^ 31 ->
  skip_atoi (rev tmp ++ rest) i = skip_atoi rest (i * 10 ^ Z.of_nat (length tmp) + num).
Proof.
  induction room as [|room IH]; intros num tmp i rest; cbn [fill_tmp];
    destruct (Z.eqb_spec num 0) as [->|];
    try (intros [= <-]; intros; cbn -[Z.mul]; f_equal; lia).
  destruct (zget digits_upper (num mod 10)) as [d|] eqn:Ed; [|done].
  destruct (fill_tmp _ _ _ _) as [tmp'|] eqn:Et; [|done]. intros [= <-] Hn Hi Hb.
  cbn [rev length] in *. rewrite Nat2Z.inj_succ, Z.pow_succ_r in * by lia.
  rewrite <-app_assoc. cbn [app].
  assert (Hdm : num = 10 * (num / 10) + num mod 10) by (apply Z.div_mod; lia).
  pose proof (Z.mod_pos_bound num 10 ltac:(lia)).
  pose proof (Z.div_pos num 10 Hn ltac:(lia)).
  apply is_digit_at in Ed; [|done].
  set (p := 10 ^ Z.of_nat (length tmp')) in *.
  assert (0 <= i * p) by (apply Z.mul_nonneg_nonneg; [done|apply Z.pow_nonneg; lia]).
  rewrite (IH (num / 10) tmp' i _ Et) by (fold p; lia). fold p. cbn [skip_atoi].
  replace (is_digit d) with true by (unfold is_digit; subst d; symmetry;
    apply andb_true_iff; split; apply Z.leb_le; lia).
  f_equal. rewrite s32_small; lia.
Qed.

(** Leading zeros do not matter. *)
Lemma skip_atoi_zeros n rest : skip_atoi (replicate n 48 ++ rest) 0 = skip_atoi rest 0.
Proof. induction n as [|n IH]; [done|]. apply IH. Qed.

(** ** The layout of number() *)

Lemma has_bit t k : 0 <= k -> has t (Z.shiftl 1 k) = Z.testbit t k.
Proof.
  intros Hk. unfold has, truth. destruct (Z.testbit t k) eqn:E.
  - apply negb_true_iff, Z.eqb_neq. intros H%bit_land_shiftl1; [congruence|done].
  - apply negb_false_iff, Z.eqb_eq. by apply bit_land_shiftl1.
Qed.

(** Masking ZEROPAD out leaves the other flags. *)
Lemma has_unpad t k :
  0 < k -> has (Z.ldiff t ZEROPAD) (Z.shiftl 1 k) = has t (Z.shiftl 1 k).
Proof.
  intros Hk. rewrite !has_bit, Z.ldiff_spec by lia.
  change ZEROPAD with (Z.shiftl 1 0). rewrite bit1_testbit by lia.
  destruct (Z.eqb_spec k 0); [lia|]. apply andb_true_r.
Qed.

Lemma has_pad_or_left t : has t (ZEROPAD + LEFT) = has t ZEROPAD || has t LEFT.
Proof.
  unfold has, truth. change (ZEROPAD + LEFT) with (Z.lor ZEROPAD LEFT).
  rewrite Z.land_lor_distr_r. rewrite <-negb_andb. f_equal.
  destruct (Z.eqb_spec (Z.lor (Z.land t ZEROPAD) (Z.land t LEFT)) 0) as [E|E].
  - apply Z.lor_eq_0_iff in E as [-> ->]. done.
  - symmetry. apply not_true_is_false. intros [H1%Z.eqb_eq H2%Z.eqb_eq]%andb_prop.
    apply E. by rewrite H1, H2.
Qed.

Definition sign_of (num type : Z) : list Z :=
  if has type SIGN && (num <? 0) then [45]
  else if has type PLUS then [43] else if has type SPACE then [32] else [].
Definition prefix (base type : Z) : list Z :=
  if has type SPECIAL then
    if base =? 16 then [48; if has type SMALL then 120 else 88]
    else if base =? 8 then [48] else []
  else [].
Definition magnitude (num type : Z) : Z :=
  if has type SIGN && (num <? 0) then - num else u32 num.
Definition len (l : list Z) : Z := Z.of_nat (length l).

Lemma pad_runs o size c :
  pad size c o = Ret (Z.min size 0 - 1) (o ++ replicate (Z.to_nat size) c).
Proof. done. Qed.

(** The code after the sign is known, for any flags: [l] leading blanks, [z]
    zeros and [r] trailing blanks around the digits. *)
Lemma number_runs num base size precision type o :
  2 <= base <= 36 ->
  exists tmp w,
    (let num' := if has type SIGN && (num <? 0) then s32 (- num) else num in
     if num' =? 0 then Some [48] else
     fill_tmp 36 (u32 num') base (if has type SMALL then digits_lower else digits_upper))
      = Some tmp /\
    (- 2 ^ 29 < size < 2 ^ 29 -> - 2 ^ 29 < precision < 2 ^ 29 ->
     w = Z.max 0 (size - len (sign_of num type) - len (prefix base type)
                  - Z.max (len tmp) precision)) /\
    number num base size precision type o = Ret true (o ++
      replicate (if has type ZEROPAD || has type LEFT then 0%nat else Z.to_nat w) 32 ++
      sign_of num type ++ prefix base type ++
      replicate (if has type ZEROPAD && negb (has type LEFT) then Z.to_nat w else 0%nat) 48 ++
      replicate (Z.to_nat (precision - len tmp)) 48 ++ rev tmp ++
      replicate (if has type LEFT then Z.to_nat w else 0%nat) 32).
Proof.
  intros Hb. set (neg := has type SIGN && (num <? 0)).
  set (num' := if neg then s32 (- num) else num). cbv zeta.
  destruct (tmp_fits type base num' Hb) as (tmp & Etmp & Hlen). exists tmp.
  set (s0 := if neg then 45 else if has type PLUS then 43 else
             if has type SPACE then 32 else 0).
  set (sz1 := if truth s0 then s32 (size - 1) else size).
  set (sz2 := if has type SPECIAL then if base =? 16 then s32 (sz1 - 2)
              else if base =? 8 then s32 (sz1 - 1) else sz1 else sz1).
  set (sz := s32 (sz2 - Z.max (len tmp) precision)). exists (Z.max 0 sz).
  split; [done|]. split.
  { intros Hs Hp. assert (Hl : 0 <= len tmp <= 36) by (unfold len; lia).
    unfold sz, sz2, sz1, s0, sign_of, prefix. fold neg.
    destruct neg, (has type PLUS), (has type SPACE), (has type SPECIAL),
      (base =? 16), (base =? 8); cbn -[s32 len]; unfold len in *; cbn [length];
      repeat match goal with |- context [s32 ?x] =>
        lazymatch x with context [s32 _] => fail | _ => rewrite (s32_small x) by lia end
      end; lia. }
  assert (Hs0 : (if truth s0 then [s0] else []) = sign_of num type).
  { unfold s0, sign_of. fold neg.
    by destruct neg, (has type PLUS), (has type SPACE). }
  assert (Hx : zget (if has type SMALL then digits_lower else digits_upper) 33 =
               Some (if has type SMALL then 120 else 88)) by by destruct (has type SMALL).
  unfold number. rewrite (proj2 (Z.ltb_ge base 2)), (proj2 (Z.ltb_ge 36 base)) by lia.
  cbn [orb]. set (type' := if has type LEFT then _ else type).
  assert (Hf : forall k, 0 < k -> has type' (Z.shiftl 1 k) = has type (Z.shiftl 1 k)).
  { intros k Hk. unfold type'. destruct (has type LEFT); [by apply has_unpad|done]. }
  change (has type' SIGN) with (has type' (Z.shiftl 1 1)).
  change (has type' PLUS) with (has type' (Z.shiftl 1 2)).
  change (has type' SPACE) with (has type' (Z.shiftl 1 3)).
  change (has type' SPECIAL) with (has type' (Z.shiftl 1 5)).
  change (has type' LEFT) with (has type' (Z.shiftl 1 4)).
  rewrite has_pad_or_left. change (has type' LEFT) with (has type' (Z.shiftl 1 4)).
  rewrite !Hf by lia.
  change (has type (Z.shiftl 1 1)) with (has type SIGN).
  change (has type (Z.shiftl 1 2)) with (has type PLUS).
  change (has type (Z.shiftl 1 3)) with (has type SPACE).
  change (has type (Z.shiftl 1 5)) with (has type SPECIAL).
  change (has type (Z.shiftl 1 4)) with (has type LEFT).
  assert (Hz : has type' ZEROPAD = has type ZEROPAD && negb (has type LEFT)).
  { unfold type'. destruct (has type LEFT); cbn [negb]; [|by rewrite andb_true_r].
    rewrite andb_false_r. change ZEROPAD with (Z.shiftl 1 0) at 2.
    rewrite has_bit, Z.ldiff_spec by done. apply andb_false_r. }
  rewrite Hz. fold neg num' s0 sz1 sz2. cbv zeta.
  rewrite (bind_deref _ _ _ _ Etmp). fold (len tmp). fold sz. rewrite Hx.
  rewrite <-Hs0. unfold prefix.
  replace (Z.to_nat (Z.max 0 sz)) with (Z.to_nat sz) by lia.
  replace (Z.to_nat (Z.max (len tmp) precision - len tmp))
    with (Z.to_nat (precision - len tmp)) by lia.
  destruct (has type ZEROPAD), (has type LEFT), (truth s0), (has type SPECIAL),
    (Z.eqb_spec base 8), (Z.eqb_spec base 16); subst; try done; cbn -[replicate Z.to_nat sz len];
    rewrite ?app_nil_r, <-?app_assoc; cbn [app]; f_equal; f_equal;
    repeat match goal with |- context [replicate (Z.to_nat (Z.min ?a 0 - 1)) ?c] =>
      replace (Z.to_nat (Z.min a 0 - 1)) with 0%nat by lia end;
    cbn [replicate app]; rewrite ?app_nil_r; try done.
Qed.

Lemma fill_tmp_nil room num base digits :
  fill_tmp room num base digits = Some [] -> num = 0.
Proof.
  destruct room; cbn; destruct (Z.eqb_spec num 0); try done.
  by repeat case_match.
Qed.

Lemma magnitude_digits num type base tmp :
  - 2 ^ 31 <= num < 2 ^ 31 -> 2 <= base ->
  (let num' := if has type SIGN && (num <? 0) then s32 (- num) else num in
   if num' =? 0 then Some [48] else
   fill_tmp 36 (u32 num') base (if has type SMALL then digits_lower else digits_upper))
    = Some tmp ->
  horner base (rev tmp) = magnitude num type /\ tmp <> [].
Proof.
  intros Hn Hb. cbv zeta. unfold magnitude.
  assert (Hneg : num < 0 -> u32 (s32 (- num)) = - num).
  { intros. destruct (decide (num = - 2 ^ 31)) as [->|]; [done|].
    rewrite s32_small, u32_small by lia. done. }
  destruct (has type SIGN && (num <? 0)) eqn:En.
  - apply andb_prop in En as [_ En%Z.ltb_lt]. specialize (Hneg En).
    destruct (Z.eqb_spec (s32 (- num)) 0) as [E|E];
      [rewrite E in Hneg; change (u32 0) with 0 in Hneg; lia|].
    rewrite Hneg. intros H. split; [by eapply horner_fill; [|lia|]|].
    intros ->. destruct (Z.eqb_spec (s32 (- num)) 0); [done|].
    apply fill_tmp_nil in H. lia.
  - destruct (Z.eqb_spec num 0) as [->|]; [by intros [= <-]|]. intros H.
    pose proof (u32_range num). split; [by eapply horner_fill; [|lia|]|].
    intros ->. apply fill_tmp_nil in H as E. unfold u32 in E.
    apply Z.mod_divide in E as [k E]; lia.
Qed.

(** C19.  number(): for every base from 2 to 36 and every flag combination
    the output is blanks, the sign, the base prefix, zeros, the digits of the
    magnitude in that base, blanks; the field is at least [size] wide and no
    wider than the number with its precision requires; LEFT pads only on the
    right, and otherwise ZEROPAD only with zeros.  The 36 characters of [tmp]
    are enough. *)
Theorem number_format num base size precision type o :
  2 <= base <= 36 -> - 2 ^ 31 <= num < 2 ^ 31 ->
  - 2 ^ 29 < size < 2 ^ 29 -> - 2 ^ 29 < precision < 2 ^ 29 ->
  exists l z ds r,
    number num base size precision type o = Ret true (o ++ replicate l 32 ++
      sign_of num type ++ prefix base type ++ replicate z 48 ++ ds ++ replicate r 32) /\
    horner base ds = magnitude num type /\ 1 <= len ds <= 36 /\
    Z.of_nat l + len (sign_of num type) + len (prefix base type) + Z.of_nat z
      + len ds + Z.of_nat r =
      Z.max size (len (sign_of num type) + len (prefix base type)
                  + Z.max (len ds) precision) /\
    (if has type LEFT then l = 0%nat /\ z = Z.to_nat (precision - len ds)
     else r = 0%nat /\ (has type ZEROPAD = true -> l = 0%nat)).
Proof.
  intros Hb Hn Hs Hp.
  destruct (number_runs num base size precision type o Hb) as (tmp & w & Et & Hw & E).
  specialize (Hw Hs Hp). destruct (magnitude_digits num type base tmp Hn) as [Hh Hne];
    [lia|done|].
  assert (Hlen : len (rev tmp) = len tmp) by (unfold len; by rewrite length_rev).
  assert (Hl36 : 1 <= len tmp <= 36).
  { destruct (tmp_fits type base
      (if has type SIGN && (num <? 0) then s32 (- num) else num) Hb) as (t & Et' & Hl).
    cbv zeta in Et. rewrite Et' in Et. injection Et as ->. destruct tmp; [done|].
    unfold len. cbn [length] in *. lia. }
  rewrite E. exists (if has type ZEROPAD || has type LEFT then 0%nat else Z.to_nat w),
    ((if has type ZEROPAD && negb (has type LEFT) then Z.to_nat w else 0%nat)
     + Z.to_nat (precision - len tmp))%nat, (rev tmp),
    (if has type LEFT then Z.to_nat w else 0%nat).
  rewrite replicate_add, <-app_assoc, Hlen. split; [done|]. split; [done|].
  split; [done|]. split.
  - destruct (has type ZEROPAD), (has type LEFT); cbn -[len]; lia.
  - destruct (has type ZEROPAD), (has type LEFT); by split.
Qed.

Example number_format_witness :
  exists l z ds r, number (-42) 10 6 3 (Z.lor SIGN LEFT) [] =
    Ret true ([] ++ replicate l 32 ++ [45] ++ [] ++ replicate z 48 ++ ds ++ replicate r 32) /\
    horner 10 ds = 42.
Proof.
  destruct (number_format (-42) 10 6 3 (Z.lor SIGN LEFT) []) as (l & z & ds & r & E & H & _);
    try lia.
  exists l, z, ds, r. split; [exact E|exact H].
Defined.

(** ** vsprintf() as a whole *)

Section total.
Variable mem : Z -> option (list Z).

(** [m] appends to the output, and takes at most [n] arguments. *)
Definition writes {A} (m : M vs A) (n : nat) : Prop :=
  forall s, (n <= length (args s))%nat ->
  exists a text s', m s = Ret a s' /\ out s' = out s ++ text /\
    (length (args s) <= n + length (args s'))%nat.

Lemma writes_ret {A} (a : A) : writes (ret a) 0.
Proof.
  intros s _. exists a, [], s. rewrite app_nil_r. split; [done|]. split; [done|lia].
Qed.

Lemma writes_bind {A B} (m : M vs A) (k : A -> M vs B) n1 n2 :
  writes m n1 -> (forall a, writes (k a) n2) -> writes (bind m k) (n1 + n2).
Proof.
  intros Hm Hk s Hs. destruct (Hm s) as (a & t1 & s1 & E1 & O1 & L1); [lia|].
  destruct (Hk a s1) as (b & t2 & s2 & E2 & O2 & L2); [lia|].
  exists b, (t1 ++ t2), s2. rewrite (bind_ret _ _ _ _ _ E1), E2, O2, O1, app_assoc.
  split; [done|]. split; [done|lia].
Qed.

Lemma writes_le {A} (m : M vs A) n1 n2 : (n1 <= n2)%nat -> writes m n1 -> writes m n2.
Proof.
  intros Hle Hm s Hs. destruct (Hm s) as (a & t & s' & E & O & L); [lia|].
  exists a, t, s'. split; [done|]. split; [done|lia].
Qed.

Lemma writes_puts l : writes (zoom out_l (puts l)) 0.
Proof. intros s _. exists tt, l, (s <| out := out s ++ l |>). split; [done|]. cbn. split; [done|lia]. Qed.

Lemma writes_pad {A} n c (f : Z -> A) :
  writes (zoom out_l (let! x := pad n c in ret (f x))) 0.
Proof.
  intros s _. eexists _, (replicate (Z.to_nat n) c), _. split; [done|]. cbn.
  split; [done|lia].
Qed.

Lemma writes_pad' n c : writes (zoom out_l (pad n c)) 0.
Proof.
  intros s _. eexists _, (replicate (Z.to_nat n) c), _. split; [done|]. cbn.
  split; [done|lia].
Qed.

Lemma writes_arg : writes va_arg 1.
Proof.
  intros s Hs. unfold va_arg. run. destruct (args s) as [|w a] eqn:E; [cbn in Hs; lia|].
  eexists w, [], _. rewrite app_nil_r. split; [done|]. split; [done|]. cbn. lia.
Qed.

Lemma writes_number base width precision flags :
  2 <= base <= 36 -> writes (out_number base width precision flags) 1.
Proof.
  intros Hb. change 1%nat with (1 + 0)%nat. apply writes_bind; [apply writes_arg|].
  intros w s _. destruct (number_runs (s32 w) base width precision flags (out s) Hb)
    as (tmp & ? & _ & _ & E). unfold zoom, bind. cbn [lget out_l]. rewrite E.
  eexists _, _, _. split; [done|]. cbn. split; [done|lia].
Qed.

Hypothesis mem_total : forall p, p <> 0 -> is_Some (mem p).

Lemma writes_string width precision flags : writes (out_string mem width precision flags) 1.
Proof.
  change 1%nat with (1 + 0)%nat. apply writes_bind; [apply writes_arg|]. intros p.
  change 0%nat with (0 + 0)%nat. apply writes_bind.
  { destruct (Z.eqb_spec p 0) as [|Hp]; [apply writes_ret|].
    destruct (mem_total p Hp) as [l ->]. apply writes_ret. }
  intros l. cbv zeta. change 0%nat with (0 + (0 + (0 + 0)))%nat. apply writes_bind.
  { destruct (negb _); [apply writes_pad|apply writes_ret]. }
  intros w. apply writes_bind; [apply writes_puts|]. intros _.
  apply writes_bind; [apply writes_pad'|]. intros _. apply writes_ret.
Qed.

Lemma writes_char width flags : writes (out_char width flags) 1.
Proof.
  unfold out_char. change 1%nat with (0 + (1 + (0 + (0 + 0))))%nat. apply writes_bind.
  { destruct (negb _); [apply writes_pad|apply writes_ret]. }
  intros w. apply writes_bind; [apply writes_arg|]. intros c.
  apply writes_bind; [apply writes_puts|]. intros _.
  apply writes_bind; [apply writes_pad'|]. intros _. apply writes_ret.
Qed.

(** [m] runs on [fmt] and leaves [rest]: an argument is taken only with a
    character of the format. *)
Definition eats {A} (m : M vs A) (fmt : list Z) (rest : A -> list Z) : Prop :=
  forall s, (length fmt <= length (args s))%nat ->
  exists a text s', m s = Ret a s' /\ out s' = out s ++ text /\
    (length (args s) + length (rest a) <= length fmt + length (args s'))%nat /\
    (length (rest a) <= length fmt)%nat.

Lemma eats_ret {A} (a : A) fmt rest :
  (length (rest a) <= length fmt)%nat -> eats (ret a) fmt rest.
Proof. intros Hl s Hs. exists a, [], s. rewrite app_nil_r. split_and!; [done..|lia|lia]. Qed.

Lemma eats_bind {A B} (m : M vs A) (k : A -> M vs B) fmt rest rest' :
  eats m fmt rest -> (forall a, (length (rest a) <= length fmt)%nat -> eats (k a) (rest a) rest') ->
  eats (bind m k) fmt rest'.
Proof.
  intros Hm Hk s Hs. destruct (Hm s Hs) as (a & t1 & s1 & E1 & O1 & L1 & M1).
  destruct (Hk a M1 s1) as (b & t2 & s2 & E2 & O2 & L2 & M2); [lia|].
  exists b, (t1 ++ t2), s2. rewrite (bind_ret _ _ _ _ _ E1), E2, O2, O1, app_assoc.
  split_and!; [done..|lia|lia].
Qed.

Lemma eats_writes {A} (m : M vs A) n fmt rest :
  writes m n -> (n <= length fmt)%nat ->
  (forall a, n + length (rest a) <= length fmt)%nat -> eats m fmt rest.
Proof.
  intros Hw Hn Hr s Hs. destruct (Hw s) as (a & t & s' & E & O & L); [lia|].
  specialize (Hr a). exists a, t, s'. split_and!; [done..|lia|lia].
Qed.

Lemma get_flags_length fmt : forall flags,
  (length (get_flags fmt flags).2 <= length fmt)%nat.
Proof.
  induction fmt as [|c r IH]; intros flags; cbn; [lia|].
  repeat case_match; cbn; try apply le_S, IH. lia.
Qed.

Lemma skip_atoi_length s : forall i, (length (skip_atoi s i).2 <= length s)%nat.
Proof.
  induction s as [|c r IH]; intros i; cbn; [lia|].
  case_match; cbn; [apply le_S, IH|lia].
Qed.

Lemma eats_width fmt flags : eats (get_width fmt flags) fmt snd.
Proof.
  destruct fmt as [|c r]; cbn [get_width]; [by apply eats_ret|].
  destruct (is_digit c).
  { pose proof (skip_atoi_length (c :: r) 0). destruct (skip_atoi _ _). by apply eats_ret. }
  destruct (c =? 42); [|by apply eats_ret].
  apply (eats_bind _ _ _ (fun _ => r)).
  - apply (eats_writes _ 1); [apply writes_arg|cbn; lia..].
  - intros w _. destruct (_ <? 0); by apply eats_ret.
Qed.

Lemma eats_precision fmt : eats (get_precision fmt) fmt snd.
Proof.
  destruct fmt as [|c r]; cbn [get_precision]; [by apply eats_ret|].
  destruct (c =? 46); [|by apply eats_ret].
  apply (eats_bind _ _ _ snd).
  - destruct r as [|d r']; [apply eats_ret; cbn; lia|]. destruct (is_digit d).
    { pose proof (skip_atoi_length (d :: r') 0). apply eats_ret. cbn in *. lia. }
    destruct (d =? 42); [|apply eats_ret; cbn; lia].
    apply (eats_bind _ _ _ (fun _ => r')).
    + apply (eats_writes _ 1); [apply writes_arg|cbn; lia..].
    + intros p _. by apply eats_ret.
  - intros [p q] _. destruct (p <? 0); by apply eats_ret.
Qed.

Lemma eats_convert width precision flags fmt :
  eats (convert mem width precision flags fmt) fmt id.
Proof.
  destruct fmt as [|c r]; cbn [convert].
  { apply (eats_bind _ _ _ (fun _ => [])).
    - apply (eats_writes _ 0); [apply writes_puts|cbn; lia..].
    - intros _ _. by apply eats_ret. }
  apply (eats_bind _ _ _ (fun _ => r)); [|intros _ _; by apply eats_ret].
  assert (H1 : forall m : M vs unit, writes m 1 -> eats m (c :: r) (fun _ => r))
    by (intros m Hm; apply (eats_writes _ 1); [done|cbn; lia..]).
  repeat match goal with |- eats (if ?b then _ else _) _ _ => destruct b end;
    try (apply H1; first [apply writes_char|apply writes_string
                         |apply writes_number; lia]).
  - apply H1. change 1%nat with (1 + 0)%nat. apply writes_bind; [apply writes_arg|].
    intros ip s _. eexists _, [], _. rewrite app_nil_r. split; [done|]. cbn.
    split; [done|lia].
  - apply (eats_writes _ (0 + 0)); [|cbn; lia..]. apply writes_bind.
    { destruct (c =? 37); [apply writes_ret|apply writes_puts]. }
    intros. apply writes_puts.
Qed.

Lemma eats_directive fmt : eats (directive mem fmt) fmt id.
Proof.
  unfold directive. pose proof (get_flags_length fmt 0) as Hf.
  destruct (get_flags fmt 0) as [flags fmt1]. cbn in Hf.
  assert (Hgo : eats (let! wf := get_width fmt1 flags in
     let '(width, flags, fmt) := wf in
     let! pf := get_precision fmt in
     let '(precision, fmt) := pf in
     convert mem width precision flags (get_qualifier fmt)) fmt1 id).
  { apply (eats_bind _ _ _ snd); [apply eats_width|]. intros [[w fl] f2] _.
    apply (eats_bind _ _ _ snd); [apply eats_precision|]. intros [p f3] _.
    assert (Hq : (length (get_qualifier f3) <= length f3)%nat)
      by (destruct f3; cbn; [lia|]; case_match; cbn; lia).
    intros s Hs. cbn in Hs. destruct (eats_convert w p fl (get_qualifier f3) s)
      as (a & t & s' & E & O & L & Hm); [lia|].
    exists a, t, s'. cbn in *. split_and!; [done..|lia|lia]. }
  intros s Hs. destruct (Hgo s) as (a & t & s' & E & O & L & Hm); [lia|].
  exists a, t, s'. split_and!; [done..|lia|lia].
Qed.

Lemma vsprintf_loop_total n : forall fmt s,
  (length fmt < n)%nat -> (length fmt <= length (args s))%nat ->
  exists text s', vsprintf_loop mem n fmt s = Ret tt s' /\ out s' = out s ++ text.
Proof.
  induction n as [|n IH]; intros fmt s Hn Hs; [lia|]. cbn [vsprintf_loop].
  destruct fmt as [|c r]; [exists [], s; by rewrite app_nil_r|]. cbn in Hn, Hs.
  destruct (c =? 37).
  - destruct (eats_directive r s) as (r' & t & s1 & E & O & L & Hm); [lia|].
    rewrite (bind_ret _ _ _ _ _ E). unfold id in *.
    destruct (IH r' s1) as (t2 & s2 & E2 & O2); [lia..|].
    exists (t ++ t2), s2. rewrite E2, O2, O, app_assoc. done.
  - destruct (IH r (s <| out := out s ++ [c] |>)) as (t2 & s2 & E2 & O2); [lia|cbn; lia|].
    exists ([c] ++ t2), s2. unfold zoom, puts, bind at 1, modify. cbn -[vsprintf_loop].
    cbn in O2. rewrite <-app_assoc in O2. split; [exact E2|exact O2].
Qed.
End total.

(** vsprintf() always ends: with an argument for each character of the
    format at most and readable strings it returns the length of its output,
    which extends what was in the buffer. *)
Theorem vsprintf_total mem fmt s :
  (forall p, p <> 0 -> is_Some (mem p)) -> (length fmt <= length (args s))%nat ->
  exists text s', vsprintf mem fmt s = Ret (len (out s ++ text)) s' /\
    out s' = out s ++ text.
Proof.
  intros Hmem Hs. unfold vsprintf.
  destruct (vsprintf_loop_total mem Hmem (S (length fmt)) fmt s) as (t & s' & E & O); [lia|done|].
  exists t, s'. rewrite (bind_ret _ _ _ _ _ E). unfold gets. by rewrite O.
Qed.

Example vsprintf_total_witness :
  exists text s', vsprintf (fun _ => Some (chars "x")) (chars "%-*.*s|%+05ld%n %q") 
      (Vs [] (replicate 20 7) []) = Ret (len ([] ++ text)) s' /\ out s' = [] ++ text.
Proof.
  apply (vsprintf_total (fun _ => Some (chars "x")) (chars "%-*.*s|%+05ld%n %q")
    (Vs [] (replicate 20 7) [])).
  - intros p _. exists (chars "x"). reflexivity.
  - vm_compute. lia.
Defined.

(** ** Printing and reading back *)

Lemma vsprintf_loop_literal mem pre : forall n fmt s,
  Forall (fun c => c <> 37) pre ->
  vsprintf_loop mem (length pre + n) (pre ++ fmt) s =
  vsprintf_loop mem n fmt (s <| out := out s ++ pre |>).
Proof.
  induction pre as [|c pre IH]; intros n fmt s Hp.
  { cbn. rewrite app_nil_r. by destruct s. }
  inversion Hp as [|?? Hc Hp']; subst. cbn [app length Nat.add vsprintf_loop].
  rewrite (proj2 (Z.eqb_neq _ _) Hc). unfold zoom, puts, bind at 1, modify.
  cbn -[vsprintf_loop]. rewrite IH by done. cbn. by rewrite <-app_assoc.
Qed.

(** A text of decimal digits stands for [v]: 48 to 57 are its digits, the most
    significant one first. *)
Inductive decimal : list Z -> Z -> Prop :=
  | decimal_nil : decimal [] 0
  | decimal_snoc ds d v : decimal ds v -> 0 <= d <= 9 -> decimal (ds ++ [48 + d]) (10 * v + d).

Lemma decimal_fill room : forall num tmp, 0 <= num ->
  fill_tmp room num 10 digits_upper = Some tmp -> decimal (rev tmp) num.
Proof.
  assert (H0 : decimal (rev []) 0) by exact decimal_nil.
  induction room as [|room IH]; intros num tmp Hn; cbn [fill_tmp];
    (destruct (Z.eqb_spec num 0) as [->|]; [by intros [= <-]|]); [done|].
  destruct (zget digits_upper (num mod 10)) as [d|] eqn:Ed; [|done].
  destruct (fill_tmp _ _ _ _) as [tmp'|] eqn:Et; [|done]. intros [= <-].
  pose proof (Z.mod_pos_bound num 10 ltac:(lia)).
  apply is_digit_at in Ed; [|done]. cbn [rev].
  replace d with (48 + num mod 10) by lia.
  replace num with (10 * (num / 10) + num mod 10) at 2
    by (symmetry; apply Z.div_mod; lia).
  constructor; [|lia]. apply IH; [|done]. by apply Z.div_pos.
Qed.

(** The digits that number() collects for a %d. *)
Lemma int_digits n tmp : - 2 ^ 31 <= n < 2 ^ 31 ->
  (let num' := if n <? 0 then s32 (- n) else n in
   if num' =? 0 then Some [48] else fill_tmp 36 (u32 num') 10 digits_upper) = Some tmp ->
  decimal (rev tmp) (Z.abs n) /\ tmp <> [] /\
  (n <> - 2 ^ 31 -> skip_atoi (rev tmp) 0 = (Z.abs n, [])).
Proof.
  cbv zeta. intros Hn Et.
  assert (Ha : u32 (if n <? 0 then s32 (- n) else n) = Z.abs n).
  { destruct (Z.ltb_spec n 0); [|rewrite u32_small; lia].
    destruct (decide (n = - 2 ^ 31)) as [->|]; [done|].
    rewrite s32_small, u32_small; lia. }
  destruct (Z.eqb_spec (if n <? 0 then s32 (- n) else n) 0) as [E0|E0].
  - rewrite E0 in Ha. change (u32 0) with 0 in Ha. rewrite <-Ha. injection Et as <-.
    split_and!; [apply (decimal_snoc [] 0 0); [constructor|lia]|done|done].
  - rewrite Ha in Et. split_and!; [eapply decimal_fill; [lia|exact Et]| |].
    + intros ->. apply fill_tmp_nil in Et. rewrite Et in Ha.
      destruct (Z.ltb_spec n 0); lia.
    + intros Hm. rewrite <-(app_nil_r (rev tmp)).
      rewrite (skip_atoi_fill _ _ _ 0 [] Et); [done|lia..].
Qed.

(** C28.  Round trip, for every int: the text that vsprintf() produces for a
    %d between two literal texts is the first text, a minus sign exactly for a
    negative number, at least one digit, and the second text; the digits stand
    for the absolute value.  skip_atoi() reads the digits back as that value
    and stops at their end, unless the number is the least int, whose absolute
    value is not an int. *)
Theorem print_read_roundtrip mem pre post n :
  Forall (fun c => c <> 37) pre -> Forall (fun c => c <> 37) post ->
  - 2 ^ 31 <= n < 2 ^ 31 ->
  exists ds s', vsprintf mem (pre ++ [37; 100] ++ post) (Vs [] [u32 n] []) =
      Ret (len (out s')) s' /\
    out s' = pre ++ (if n <? 0 then [45] else []) ++ ds ++ post /\
    ds <> [] /\ decimal ds (Z.abs n) /\
    (n <> - 2 ^ 31 -> skip_atoi ds 0 = (Z.abs n, [])).
Proof.
  intros Hpre Hpost Hn. unfold vsprintf.
  replace (S (length (pre ++ [37; 100] ++ post)))
    with (length pre + S (length post + 2))%nat by (rewrite length_app; cbn; lia).
  assert (Hs : s32 (u32 n) = n).
  { unfold s32, u32. rewrite Zplus_mod_idemp_l. fold (s32 n). apply s32_small. lia. }
  destruct (number_runs n 10 (-1) (-1) SIGN pre) as (tmp & w & Et & Hw & E); [lia|].
  specialize (Hw ltac:(lia) ltac:(lia)). cbv zeta in Et.
  assert (Hsg : has SIGN SIGN && (n <? 0) = (n <? 0)) by done.
  change (has SIGN SMALL) with false in Et. rewrite Hsg in Et.
  destruct (int_digits n tmp Hn Et) as (Hdec & Hne & Hread).
  assert (Hl0 : 0 < len tmp) by (unfold len; destruct tmp; [done|cbn; lia]).
  assert (Hw0 : w = 0).
  { rewrite Hw. unfold len in *. destruct (sign_of n SIGN); cbn; lia. }
  assert (Hz0 : Z.to_nat (-1 - len tmp) = 0%nat) by lia.
  rewrite Hw0, Hz0 in E. cbn [app] in E.
  assert (Es : sign_of n SIGN = if n <? 0 then [45] else [])
    by (unfold sign_of; by rewrite Hsg).
  set (o := pre ++ sign_of n SIGN ++ rev tmp).
  assert (Hd : directive mem (100 :: post) (Vs pre [u32 n] []) = Ret post (Vs o [] [])).
  { unfold directive. cbn -[number s32 u32]. unfold bind at 1. cbn -[number s32 u32].
    unfold out_number, va_arg. run. unfold bind, zoom. cbn -[number s32 u32].
    change (Z.lor 0 SIGN) with SIGN. rewrite Hs, E. cbn. by rewrite app_nil_r. }
  exists (rev tmp), (Vs (o ++ post) [] []). split_and!; [| | |done|done].
  - rewrite (bind_ret _ _ _ tt (Vs (o ++ post) [] [])); [done|].
    rewrite vsprintf_loop_literal by done. cbn [app vsprintf_loop Z.eqb Pos.eqb].
    rewrite (bind_ret _ _ _ _ _ Hd).
    pose proof (vsprintf_loop_literal mem post 2 [] (Vs o [] []) Hpost) as Hl.
    rewrite app_nil_r in Hl. by rewrite Hl.
  - cbn. unfold o. rewrite Es, <-!app_assoc. done.
  - intros E0. apply Hne. rewrite <-(rev_involutive tmp), E0. done.
Qed.

Example print_read_roundtrip_witness :
  exists ds s', vsprintf (fun _ => None) (chars "errno " ++ [37; 100] ++ chars " at hd")
      (Vs [] [u32 (-1305)] []) = Ret (len (out s')) s' /\
    out s' = chars "errno " ++ [45] ++ ds ++ chars " at hd" /\ skip_atoi ds 0 = (1305, []).
Proof.
  destruct (print_read_roundtrip (fun _ => None) (chars "errno ") (chars " at hd") (-1305))
    as (ds & s' & H & Ho & _ & _ & Hr);
    [repeat constructor; discriminate|repeat constructor; discriminate|lia|].
  exists ds, s'. split; [exact H|]. split; [exact Ho|]. apply Hr. lia.
Defined.

(** A line: the conversion of a string, and a newline. *)
Lemma out_string_run mem p s va o st : p <> 0 -> mem p = Some s ->
  out_string mem (-1) (-1) 0 (Vs o (p :: va) st) = Ret tt (Vs (o ++ s) va st).
Proof.
  intros H0 Hm. unfold out_string, va_arg. rewrite bind_assoc, bind_gets. cbn [args].
  rewrite bind_assoc, bind_modify, bind_ret_l. rewrite (proj2 (Z.eqb_neq _ _) H0), Hm.
  cbn [deref]. rewrite bind_ret_l. change (has 0 LEFT) with false. cbn [Z.ltb Z.compare negb].
  set (len := Z.of_nat (length s)).
  assert (Hp : forall n c l, n <= 0 -> pad n c l = Ret (Z.min n 0 - 1) l).
  { intros n c l Hn. unfold pad, puts. rewrite bind_modify. replace (Z.to_nat n) with 0%nat by lia. by rewrite app_nil_r. }
  rewrite (bind_zoom out_l _ _ _ (Z.min (-1) len - 1) o).
  2:{ erewrite bind_ret by (apply Hp; lia). done. }
  rewrite (bind_zoom out_l _ _ _ tt (o ++ s)).
  2:{ unfold puts, len. rewrite Nat2Z.id, firstn_all. done. }
  rewrite (bind_zoom out_l _ _ _ (Z.min (Z.min (-1) len - 1 - len) 0 - 1) (o ++ s)).
  2:{ rewrite Hp by lia. done. }
  done.
Qed.
Lemma print_line mem p s : p <> 0 -> mem p = Some s ->
  vsprintf mem (chars "%s" ++ [10]) (Vs [] [p] []) = Ret (Z.of_nat (length s) + 1) (Vs (s ++ [10]) [] []).
Proof.
  intros H0 Hm. unfold vsprintf. change (chars "%s" ++ [10]) with [37; 115; 10]. cbn [vsprintf_loop length Z.eqb Pos.eqb].
  assert (E : directive mem [115; 10] (Vs [] [p] []) = Ret [10] (Vs s [] [])).
  { unfold directive. cbn. rewrite (bind_ret _ _ _ _ _ (out_string_run mem p s [] [] [] H0 Hm)). done. }
  rewrite bind_assoc, (bind_ret _ _ _ _ _ E). cbn [vsprintf_loop Z.eqb Pos.eqb]. unfold puts, zoom, bind, gets. cbn. f_equal. rewrite length_app. cbn. lia.
Qed.
