(* ===== verification/Lib.v ===== *)
(** * The library headers: include/ctype.h with lib/ctype.c, include/string.h,
    the system call wrappers of include/unistd.h, and the system call table of
    include/kernel/sys.h. *)

From S2P Require Import Prelude.

(** ** ctype.h *)

Definition _U : Z := 0x01.
Definition _L : Z := 0x02.
Definition _D : Z := 0x04.
Definition _C : Z := 0x08.
Definition _P : Z := 0x10.
Definition _S : Z := 0x20.
Definition _X : Z := 0x40.
Definition _SP : Z := 0x80.

Definition _ctype : list Z :=
  [0; _C; _C; _C; _C; _C; _C; _C; _C; _C;
   Z.lor _C _S; Z.lor _C _S; Z.lor _C _S; Z.lor _C _S; Z.lor _C _S; _C; _C; _C; _C; _C;
   _C; _C; _C; _C; _C; _C; _C; _C; _C; _C;
   _C; _C; _C; Z.lor _S _SP; _P; _P; _P; _P; _P; _P;
   _P; _P; _P; _P; _P; _P; _P; _P; _P; _D;
   _D; _D; _D; _D; _D; _D; _D; _D; _D; _P;
   _P; _P; _P; _P; _P; _P; Z.lor _U _X; Z.lor _U _X; Z.lor _U _X; Z.lor _U _X;
   Z.lor _U _X; Z.lor _U _X; _U; _U; _U; _U; _U; _U; _U; _U;
   _U; _U; _U; _U; _U; _U; _U; _U; _U; _U;
   _U; _U; _P; _P; _P; _P; _P; _P; Z.lor _L _X; Z.lor _L _X;
   Z.lor _L _X; Z.lor _L _X; Z.lor _L _X; Z.lor _L _X; _L; _L; _L; _L; _L; _L;
   _L; _L; _L; _L; _L; _L; _L; _L; _L; _L;
   _L; _L; _L; _L; _P; _P; _P; _P; _C; 0;
   0; 0; 0; 0; 0; 0; 0; 0; 0; 0;
   0; 0; 0; 0; 0; 0; 0; 0; 0; 0;
   0; 0; 0; 0; 0; 0; 0; 0; 0; 0;
   0; 0; 0; 0; 0; 0; 0; 0; 0; 0;
   0; 0; 0; 0; 0; 0; 0; 0; 0; 0;
   0; 0; 0; 0; 0; 0; 0; 0; 0; 0;
   0; 0; 0; 0; 0; 0; 0; 0; 0; 0;
   0; 0; 0; 0; 0; 0; 0; 0; 0; 0;
   0; 0; 0; 0; 0; 0; 0; 0; 0; 0;
   0; 0; 0; 0; 0; 0; 0; 0; 0; 0;
   0; 0; 0; 0; 0; 0; 0; 0; 0; 0;
   0; 0; 0; 0; 0; 0; 0; 0; 0; 0;
   0; 0; 0; 0; 0; 0; 0].

(** [(_ctype+1)[c] & mask]; [None] when the index is outside of the array. *)
Definition ctype_is (mask c : Z) : option bool :=
  (fun v => truth (Z.land v mask)) <$> zget _ctype (c + 1).

Definition isalnum (c : Z) : option bool := ctype_is (Z.lor (Z.lor _U _L) _D) c.
Definition isalpha (c : Z) : option bool := ctype_is (Z.lor _U _L) c.
Definition iscntrl (c : Z) : option bool := ctype_is _C c.
Definition isdigit (c : Z) : option bool := ctype_is _D c.
Definition isgraph (c : Z) : option bool := ctype_is (Z.lor (Z.lor (Z.lor _P _U) _L) _D) c.
Definition islower (c : Z) : option bool := ctype_is _L c.
Definition isprint (c : Z) : option bool :=
  ctype_is (Z.lor (Z.lor (Z.lor (Z.lor _P _U) _L) _D) _SP) c.
Definition ispunct (c : Z) : option bool := ctype_is _P c.
Definition isspace (c : Z) : option bool := ctype_is _S c.
Definition isupper (c : Z) : option bool := ctype_is _U c.
Definition isxdigit (c : Z) : option bool := ctype_is (Z.lor _D _X) c.
Definition isascii (c : Z) : bool := u32 c <=? 0x7f.
Definition toascii (c : Z) : Z := Z.land (u32 c) 0x7f.

(** [_ctmp] is a plain [char]. *)
Definition tolower (c : Z) : option Z :=
  let t := s8 c in
  (fun b : bool => if b then t - (65 - 97) else t) <$> isupper t.
Definition toupper (c : Z) : option Z :=
  let t := s8 c in
  (fun b : bool => if b then t - (97 - 65) else t) <$> islower t.

(** ** string.h; a string is the list of its characters before the NUL *)

(** [repne scasb] with [al=0]: the final value of [ecx]. *)
Fixpoint scasb (s : list Z) (ecx : Z) : Z :=
  if ecx =? 0 then 0
  else match s with
       | [] => u32 (ecx - 1)
       | _ :: s' => scasb s' (u32 (ecx - 1))
       end.

(** [notl; decl] on the 32-bit register. *)
Definition strlen (s : list Z) : Z :=
  let ecx := scasb s 0xffffffff in
  s32 (u32 (Z.lnot ecx) - 1).

Definition strncmp_end (src dest : list Z) (len : Z) : Z :=
  if 0 <? len then
    match src, dest with
    | [], _ :: _ => -1
    | _ :: _, [] => 1
    | c :: _, d :: _ => if d <? c then 1 else if c <? d then -1 else 0
    | [], [] => 0
    end
  else 0.

Fixpoint strncmp (src dest : list Z) (len : Z) : Z :=
  match src, dest with
  | c :: src', d :: dest' =>
      if (c =? d) && (0 <? len) then strncmp src' dest' (len - 1)
      else strncmp_end src dest len
  | _, _ => strncmp_end src dest len
  end.

(** ** unistd.h: what a wrapper makes of the value in [eax] *)

Definition syscall_result (res : Z) : M Z Z :=
  if 0 <=? res then ret res
  else modify (fun _ => - res) ;; ret (-1).

(** The numbers of the calls, by name. *)
Definition __NR : list (string * nat) :=
  [("setup"%string, 0%nat); ("exit"%string, 1%nat); ("fork"%string, 2%nat); ("read"%string, 3%nat);
   ("write"%string, 4%nat); ("open"%string, 5%nat); ("close"%string, 6%nat); ("waitpid"%string, 7%nat);
   ("creat"%string, 8%nat); ("link"%string, 9%nat); ("unlink"%string, 10%nat); ("execve"%string, 11%nat);
   ("chdir"%string, 12%nat); ("time"%string, 13%nat); ("mknod"%string, 14%nat); ("chmod"%string, 15%nat);
   ("chown"%string, 16%nat); ("break"%string, 17%nat); ("stat"%string, 18%nat); ("lseek"%string, 19%nat);
   ("getpid"%string, 20%nat); ("mount"%string, 21%nat); ("umount"%string, 22%nat); ("setuid"%string, 23%nat);
   ("getuid"%string, 24%nat); ("stime"%string, 25%nat); ("ptrace"%string, 26%nat); ("alarm"%string, 27%nat);
   ("fstat"%string, 28%nat); ("pause"%string, 29%nat); ("utime"%string, 30%nat); ("stty"%string, 31%nat);
   ("gtty"%string, 32%nat); ("access"%string, 33%nat); ("nice"%string, 34%nat); ("ftime"%string, 35%nat);
   ("sync"%string, 36%nat); ("kill"%string, 37%nat); ("rename"%string, 38%nat); ("mkdir"%string, 39%nat);
   ("rmdir"%string, 40%nat); ("dup"%string, 41%nat); ("pipe"%string, 42%nat); ("times"%string, 43%nat);
   ("prof"%string, 44%nat); ("brk"%string, 45%nat); ("setgid"%string, 46%nat); ("getgid"%string, 47%nat);
   ("signal"%string, 48%nat); ("geteuid"%string, 49%nat); ("getegid"%string, 50%nat); ("acct"%string, 51%nat);
   ("phys"%string, 52%nat); ("lock"%string, 53%nat); ("ioctl"%string, 54%nat); ("fcntl"%string, 55%nat);
   ("mpx"%string, 56%nat); ("setpgid"%string, 57%nat); ("ulimit"%string, 58%nat); ("uname"%string, 59%nat);
   ("umask"%string, 60%nat); ("chroot"%string, 61%nat); ("ustat"%string, 62%nat); ("dup2"%string, 63%nat);
   ("getppid"%string, 64%nat); ("getpgrp"%string, 65%nat); ("setsid"%string, 66%nat); ("sigaction"%string, 67%nat);
   ("sgetmask"%string, 68%nat); ("ssetmask"%string, 69%nat); ("setreuid"%string, 70%nat); ("setregid"%string, 71%nat)].

(** [sys_call_table], each handler by its name. *)
Definition sys_call_table : list string :=
  ["sys_setup"%string; "sys_exit"%string; "sys_fork"%string; "sys_read"%string; "sys_write"%string;
   "sys_open"%string; "sys_close"%string; "sys_waitpid"%string; "sys_creat"%string; "sys_link"%string;
   "sys_unlink"%string; "sys_execve"%string; "sys_chdir"%string; "sys_time"%string; "sys_mknod"%string;
   "sys_chmod"%string; "sys_chown"%string; "sys_break"%string; "sys_stat"%string; "sys_lseek"%string;
   "sys_getpid"%string; "sys_mount"%string; "sys_umount"%string; "sys_setuid"%string; "sys_getuid"%string;
   "sys_stime"%string; "sys_ptrace"%string; "sys_alarm"%string; "sys_fstat"%string; "sys_pause"%string;
   "sys_utime"%string; "sys_stty"%string; "sys_gtty"%string; "sys_access"%string; "sys_nice"%string;
   "sys_ftime"%string; "sys_sync"%string; "sys_kill"%string; "sys_rename"%string; "sys_mkdir"%string;
   "sys_rmdir"%string; "sys_dup"%string; "sys_pipe"%string; "sys_times"%string; "sys_prof"%string;
   "sys_brk"%string; "sys_setgid"%string; "sys_getgid"%string; "sys_signal"%string; "sys_geteuid"%string;
   "sys_getegid"%string; "sys_acct"%string; "sys_phys"%string; "sys_lock"%string; "sys_ioctl"%string;
   "sys_fcntl"%string; "sys_mpx"%string; "sys_setpgid"%string; "sys_ulimit"%string; "sys_uname"%string;
   "sys_umask"%string; "sys_chroot"%string; "sys_ustat"%string; "sys_dup2"%string; "sys_getppid"%string;
   "sys_getpgrp"%string; "sys_setsid"%string; "sys_sigaction"%string; "sys_sgetmask"%string; "sys_ssetmask"%string;
   "sys_setreuid"%string; "sys_setregid"%string].

(** system_call in system_call.S rejects numbers from [nr_system_calls] on
    and calls through the table. *)
Definition nr_system_calls : nat := 72.
Definition handler (nr : nat) : option string :=
  if (nr <=? nr_system_calls - 1)%nat then sys_call_table !! nr else None.

(** ** What the table of character classes says *)

Definition between (lo hi c : Z) : bool := (lo <=? c) && (c <=? hi).

(** Checking a property of every character by evaluation. *)
Lemma all_chars (lo : Z) (n : nat) (P : Z -> bool) :
  forallb (fun k => P (lo + Z.of_nat k)) (seq 0 n) = true ->
  forall c, lo <= c < lo + Z.of_nat n -> P c = true.
Proof.
  intros H c Hc. rewrite forallb_forall in H. specialize (H (Z.to_nat (c - lo))).
  rewrite Z2Nat.id in H by lia. replace (lo + (c - lo)) with c in H by lia.
  apply H, in_seq. lia.
Qed.

Definition opt_is {A} (eqb : A -> A -> bool) (o : option A) (v : A) : bool :=
  match o with Some a => eqb a v | None => false end.

Lemma opt_is_bool o v : opt_is Bool.eqb o v = true -> o = Some v.
Proof. destruct o; [|done]. intros H%Bool.eqb_prop. by subst. Qed.
Lemma opt_is_Z o v : opt_is Z.eqb o v = true -> o = Some v.
Proof. destruct o; [|done]. intros H%Z.eqb_eq. by subst. Qed.

(** The macros of ctype.h on the ASCII characters are the usual
    classes, and tolower() and toupper() move letters between the cases and
    leave every other character alone.  For the characters above 127, which
    are negative as [char], they read the table out of bounds. *)
Theorem ctype_ascii :
  (forall c, 0 <= c < 128 ->
     let upper := between 65 90 c in
     let lower := between 97 122 c in
     let digit := between 48 57 c in
     let hex := digit || between 65 70 c || between 97 102 c in
     let cntrl := (c <? 32) || (c =? 127) in
     let alnum := upper || lower || digit in
     isupper c = Some upper /\ islower c = Some lower /\
     isalpha c = Some (upper || lower) /\ isdigit c = Some digit /\
     isalnum c = Some alnum /\ isxdigit c = Some hex /\
     isspace c = Some (between 9 13 c || (c =? 32)) /\ iscntrl c = Some cntrl /\
     ispunct c = Some (negb (cntrl || alnum || (c =? 32))) /\
     isgraph c = Some (negb (cntrl || (c =? 32))) /\ isprint c = Some (negb cntrl) /\
     isascii c = true /\ toascii c = c /\
     tolower c = Some (if upper then c + 32 else c) /\
     toupper c = Some (if lower then c - 32 else c)) /\
  (forall c, -128 <= c < -1 -> tolower c = None /\ toupper c = None).
Proof.
  split.
  - intros c Hc. cbv zeta. split_and!;
      try (apply opt_is_bool; revert c Hc; apply (all_chars 0 128); vm_compute; reflexivity);
      try (apply opt_is_Z; revert c Hc; apply (all_chars 0 128); vm_compute; reflexivity).
    + revert c Hc. apply (all_chars 0 128). vm_compute. reflexivity.
    + apply Z.eqb_eq. revert c Hc. apply (all_chars 0 128). vm_compute. reflexivity.
  - intros c Hc.
    assert (forall f : Z -> option Z, f = tolower \/ f = toupper -> f c = None) as H; [|by auto].
    intros f Hf. enough ((match f c with None => true | _ => false end) = true) as E
      by (by destruct (f c)).
    revert c Hc. apply (all_chars (-128) 127). destruct Hf as [-> | ->]; vm_compute; reflexivity.
Qed.

(** ** Strings *)

Lemma scasb_spec s : forall ecx,
  Z.of_nat (length s) < ecx < 2 ^ 32 -> scasb s ecx = ecx - Z.of_nat (length s) - 1.
Proof.
  induction s as [|c s IH]; intros ecx; cbn [length scasb]; intros H;
    (destruct (Z.eqb_spec ecx 0); [lia|]); rewrite u32_small by lia; [lia|].
  rewrite IH by lia. lia.
Qed.

Lemma strncmp_zero a : forall b n,
  0 <= n -> (strncmp a b n = 0 <-> take (Z.to_nat n) a = take (Z.to_nat n) b).
Proof.
  assert (H0 : forall n, 0 <= n -> n <> 0 -> exists k, Z.to_nat n = S k /\ 0 <? n = true).
  { intros n Hn Hz. exists (Z.to_nat (n - 1)). split; [lia|]. apply Z.ltb_lt. lia. }
  induction a as [|c a IH]; intros b n Hn.
  - destruct b as [|d b]; cbn [strncmp]; unfold strncmp_end; [by case_match; rewrite take_nil|].
    destruct (decide (n = 0)) as [->|Hz]; [done|].
    destruct (H0 n Hn Hz) as (k & -> & ->). done.
  - destruct b as [|d b]; cbn [strncmp]; unfold strncmp_end;
      (destruct (decide (n = 0)) as [->|Hz];
       [first [rewrite andb_false_r|idtac]; done|]);
      destruct (H0 n Hn Hz) as (k & Hk & ->); [by rewrite Hk|].
    rewrite andb_true_r. destruct (Z.eqb_spec c d) as [->|Hne].
    + rewrite IH by lia. replace (Z.to_nat (n - 1)) with k by lia. rewrite Hk. cbn.
      split; [by intros ->|]. by intros [= ->].
    + rewrite Hk. cbn. split; [|by intros [= ? _]].
      destruct (Z.ltb_spec d c); [done|]. destruct (Z.ltb_spec c d); [done|]. lia.
Qed.

(** strlen(), with its wrap-around arithmetic in [ecx], is the length
    of every string that fits into the address space; strncmp() is 0 exactly
    when the first [n] characters agree, the shorter string ending earlier
    counting as a difference. *)
Theorem string_functions a b n :
  Z.of_nat (length a) < 2 ^ 31 -> 0 <= n ->
  strlen a = Z.of_nat (length a) /\
  (strncmp a b n = 0 <-> take (Z.to_nat n) a = take (Z.to_nat n) b).
Proof.
  intros Ha Hn. split; [|by apply strncmp_zero]. unfold strlen.
  rewrite scasb_spec by lia.
  replace (Z.lnot (0xffffffff - Z.of_nat (length a) - 1))
    with (Z.of_nat (length a) + 1 + (-1) * 2 ^ 32) by (unfold Z.lnot; lia).
  unfold u32. rewrite Z.mod_add by lia. rewrite Z.mod_small by lia.
  rewrite s32_small; lia.
Qed.

Example string_functions_witness :
  strlen [104; 100] = 2 /\ (strncmp [104; 100; 49] [104; 100; 50] 2 = 0 <->
    take 2 [104; 100; 49] = take 2 [104; 100; 50]).
Proof.
  split.
  - apply (string_functions [104; 100] [] 0); [reflexivity|discriminate].
  - apply (string_functions [104; 100; 49] [104; 100; 50] 2); [reflexivity|discriminate].
Defined.

(** ** System calls *)

(** The library and the kernel agree on the numbers of the system
    calls: the handler that number [__NR_x] reaches is [sys_x], for every
    call, and every number below [nr_system_calls] has a handler. *)
Theorem syscall_numbers_agree :
  (forall x n, In (x, n) __NR -> handler n = Some ("sys_" ++ x)%string) /\
  (forall n, (n < nr_system_calls)%nat <-> is_Some (handler n)).
Proof.
  split.
  - intros x n. repeat (intros [[= <- <-]|H]; [done|revert H]). done.
  - intros n. unfold handler. destruct (Nat.leb_spec n (nr_system_calls - 1)) as [H|H].
    + split; [intros _|by intros _; unfold nr_system_calls in *; lia].
      apply lookup_lt_is_Some_2. unfold nr_system_calls in *. cbn. lia.
    + split; [unfold nr_system_calls in *; lia|by intros []].
Qed.
