(* ===== verification/Block.v ===== *)
(** * Blocking calls, as the calling task sees them

    WaitQ.v cuts sleep_on() and interruptible_sleep_on() at schedule(), to
    reason about all the tasks together.  Here the same pieces are put
    together again for one task: while it is not running, the other tasks and
    the interrupt handlers change the state, in a way that is given by the
    next element of a list of functions, the future of the rest of the
    system.  The code stops with [Blocked] when the list is used up.

    Interrupts that arrive while the task is running are part of no
    function here: the code that shares data with a handler runs with
    interrupts disabled up to the point where it sleeps. *)

From S2P Require Import Prelude Task Sched WaitQ.

Record world (S : Type) := World { now : S; future : list (S -> S) }.
Arguments World {S}. Arguments now {S}. Arguments future {S}.

Section block.
Context {S : Type} (sl : lens S sched).

Definition now_l : lens (world S) S := Lens now (fun s w => World s (future w)).
Definition lift {A} (m : M S A) : M (world S) A := zoom now_l m.

Definition running_task : M (world S) nat := gets (fun w => current (lget sl (now w))).

(** switch_to() came back: at once when it chose the task itself, otherwise
    after the rest of the system has run. *)
Definition resume (me : nat) : M (world S) unit :=
  let! cur := running_task in
  if (cur =? me)%nat then ret tt
  else
    let! w := get in
    match future w with
    | [] => halt Blocked
    | f :: fs =>
        let s := f (now w) in
        modify (fun _ => World (lset sl ((lget sl s) <| current := me |>) s) fs)
    end.

(** A call of schedule(). *)
Definition yield : M (world S) unit :=
  let! me := running_task in
  lift (zoom sl (schedule sched_fuel)) ;;
  resume me.

Definition sleep_on (q : lens S (option nat)) : M (world S) unit :=
  let! me := running_task in
  let! tmp := lift (sleep_enter sl q) in
  resume me ;;
  lift (sleep_leave sl q tmp).

Fixpoint isleep_wait (q : lens S (option nat)) (fuel me : nat) (tmp : option nat) :
    M (world S) unit :=
  match fuel with
  | O => halt NoFuel
  | Datatypes.S fuel' =>
      resume me ;;
      let! again := lift (isleep_leave sl q tmp) in
      if again then isleep_wait q fuel' me tmp else ret tt
  end.
Definition interruptible_sleep_on (q : lens S (option nat)) (fuel : nat) : M (world S) unit :=
  let! me := running_task in
  let! tmp := lift (isleep_enter sl q) in
  isleep_wait q fuel me tmp.

Lemma lift_run {A} (m : M S A) w a s :
  m (now w) = Ret a s -> lift m w = Ret a (World s (future w)).
Proof. unfold lift, zoom. cbn. by intros ->. Qed.

Lemma bind_lift {A B} (m : M S A) (k : A -> M (world S) B) w a s :
  m (now w) = Ret a s -> bind (lift m) k w = k a (World s (future w)).
Proof. intros H. by rewrite (bind_ret _ _ _ _ _ (lift_run _ _ _ _ H)). Qed.

(** Each blocking call uses up at most one function per switch, and never
    runs out of fuel where it has none. *)
Lemma resume_shrinks me w :
  match resume me w with
  | Ret _ w' => (length (future w') <= length (future w))%nat
  | Stop r w' => r = Blocked /\ future w = [] /\ w' = w
  end.
Proof.
  unfold resume, running_task. rewrite bind_gets.
  destruct (_ =? _)%nat; [cbn; lia|].
  rewrite bind_get. destruct (future w) eqn:E; [done|]. cbn. lia.
Qed.
End block.
