(* ===== verification/Console.v ===== *)
(** * The console: drivers/char/tty/console.c

    The screen state is the static variables of console.c; the video memory
    is a list of 16-bit words that starts at [video_mem_start], and an access
    outside of it stops with [Fault].  [crtc] holds the registers of the
    display controller that set_cursor() and set_origin() program.

    con_char is the body of the loop of con_write(), for one character; the
    loop itself, which reads the write queue of the terminal, is in Tty.v.
    The call of respond() is the result [true]. *)

From S2P Require Import Prelude.

Definition NPAR : Z := 16.
Definition VIDEO_TYPE_MDA : Z := 0x10.
Definition VIDEO_TYPE_CGA : Z := 0x11.
Definition VIDEO_TYPE_EGAM : Z := 0x20.
Definition VIDEO_TYPE_EGAC : Z := 0x21.

Record con := Con {
  video_type : Z;
  video_num_columns : Z; video_size_row : Z; video_num_lines : Z;
  video_mem_start : Z; video_mem_end : Z; video_erase_char : Z;
  origin : Z; scr_end : Z; pos : Z; x : Z; y : Z; top : Z; bottom : Z;
  state : Z; npar : Z; par : list Z; ques : Z; attr : Z;
  saved_x : Z; saved_y : Z;
  vram : list Z; crtc : Z -> Z
}.
#[global] Instance eta_con : Eta con := fun s =>
  Con (video_type s) (video_num_columns s) (video_size_row s) (video_num_lines s)
    (video_mem_start s) (video_mem_end s) (video_erase_char s) (origin s) (scr_end s)
    (pos s) (x s) (y s) (top s) (bottom s) (state s) (npar s) (par s) (ques s)
    (attr s) (saved_x s) (saved_y s) (vram s) (crtc s).

(** ** Video memory *)

(** The index of the word at an address; -1, which is no index, for an odd
    distance. *)
Definition widx (s : con) (a : Z) : Z :=
  let d := a - video_mem_start s in if d mod 2 =? 0 then d / 2 else -1.

Definition rdw (a : Z) : M con Z :=
  let! s := get in deref (zget (vram s) (widx s a)).
Definition wrw (a v : Z) : M con unit :=
  let! s := get in
  let! _ := deref (zget (vram s) (widx s a)) in
  modify (fun s => s <| vram ::= zset (widx s a) v |>).

(** [cld; rep; movsl] with [ecx=n]; the result is the final [edi]. *)
Fixpoint movsl_up (n : nat) (si di : Z) : M con Z :=
  match n with
  | O => ret di
  | S n' =>
      let! lo := rdw si in
      let! hi := rdw (si + 2) in
      wrw di lo ;;
      wrw (di + 2) hi ;;
      movsl_up n' (si + 4) (di + 4)
  end.
(** [std; rep; movsl] *)
Fixpoint movsl_down (n : nat) (si di : Z) : M con Z :=
  match n with
  | O => ret di
  | S n' =>
      let! lo := rdw si in
      let! hi := rdw (si + 2) in
      wrw di lo ;;
      wrw (di + 2) hi ;;
      movsl_down n' (si - 4) (di - 4)
  end.
(** [cld; rep; stosw] and [std; rep; stosw] with [ax=v] *)
Fixpoint stosw_up (n : nat) (di v : Z) : M con unit :=
  match n with
  | O => ret tt
  | S n' => wrw di v ;; stosw_up n' (di + 2) v
  end.
Fixpoint stosw_down (n : nat) (di v : Z) : M con unit :=
  match n with
  | O => ret tt
  | S n' => wrw di v ;; stosw_down n' (di - 2) v
  end.

Definition outb_crtc (r v : Z) : M con unit :=
  modify (fun s => s <| crtc ::= fun f r' => if r' =? r then v else f r' |>).

Definition set_cursor : M con unit :=
  let! s := get in
  outb_crtc 14 (Z.land 0xff (Z.shiftr (pos s - video_mem_start s) 9)) ;;
  outb_crtc 15 (Z.land 0xff (Z.shiftr (pos s - video_mem_start s) 1)).

Definition set_origin : M con unit :=
  let! s := get in
  outb_crtc 12 (Z.land 0xff (Z.shiftr (origin s - video_mem_start s) 9)) ;;
  outb_crtc 13 (Z.land 0xff (Z.shiftr (origin s - video_mem_start s) 1)).

(** The parameters are [unsigned int]. *)
Definition gotoxy (new_x new_y : Z) : M con unit :=
  let new_x := u32 new_x in
  let new_y := u32 new_y in
  let! s := get in
  if (video_num_columns s <? new_x) || (video_num_lines s <=? new_y) then ret tt
  else modify (fun s => s <| x := new_x |> <| y := new_y |>
         <| pos := origin s + new_y * video_size_row s + 2 * new_x |>).

(** ** Scrolling *)

(** The region [top, bottom) moved one line up. *)
Definition scroll_up : M con unit :=
  let! s := get in
  let! edi := movsl_up (Z.to_nat (Z.shiftr ((bottom s - top s - 1) * video_num_columns s) 1))
    (origin s + video_size_row s * (top s + 1)) (origin s + video_size_row s * top s) in
  stosw_up (Z.to_nat (video_num_columns s)) edi (video_erase_char s).

Definition ega (s : con) : bool :=
  (video_type s =? VIDEO_TYPE_EGAC) || (video_type s =? VIDEO_TYPE_EGAM).

Definition scrup : M con unit :=
  let! s := get in
  if ega s then
    if (top s =? 0) && (bottom s =? video_num_lines s) then
      modify (fun s => s <| origin ::= Z.add (video_size_row s) |>
        <| pos ::= Z.add (video_size_row s) |> <| scr_end ::= Z.add (video_size_row s) |>) ;;
      let! s := get in
      (if video_mem_end s <? scr_end s then
         let! edi := movsl_up (Z.to_nat (Z.shiftr ((video_num_lines s - 1) * video_num_columns s) 1))
           (origin s) (video_mem_start s) in
         stosw_up (Z.to_nat (video_num_columns s)) edi (video_erase_char s) ;;
         modify (fun s => s <| scr_end ::= fun e => e - (origin s - video_mem_start s) |>
           <| pos ::= fun p => p - (origin s - video_mem_start s) |>
           <| origin := video_mem_start s |>)
       else
         stosw_up (Z.to_nat (video_num_columns s)) (scr_end s - video_size_row s)
           (video_erase_char s)) ;;
      set_origin
    else scroll_up
  else scroll_up.

(** Both branches of the code are the same. *)
Definition scrdown : M con unit :=
  let! s := get in
  let! edi := movsl_down (Z.to_nat (Z.shiftr ((bottom s - top s - 1) * video_num_columns s) 1))
    (origin s + video_size_row s * (bottom s - 1) - 4)
    (origin s + video_size_row s * bottom s - 4) in
  stosw_down (Z.to_nat (video_num_columns s)) (edi + 2) (video_erase_char s).

(** ** Editing *)

(** [while (i++<video_num_columns)]: shift the words from [p] on right. *)
Fixpoint shift_right (n : nat) (p old : Z) : M con unit :=
  match n with
  | O => ret tt
  | S n' =>
      let! tmp := rdw p in
      wrw p old ;;
      shift_right n' (p + 2) tmp
  end.
Definition insert_char : M con unit :=
  let! s := get in
  shift_right (Z.to_nat (video_num_columns s - x s)) (pos s) (video_erase_char s).

Definition with_region (m : M con unit) : M con unit :=
  let! s := get in
  modify (fun s => s <| top := y s |> <| bottom := video_num_lines s |>) ;;
  m ;;
  modify (fun s' => s' <| top := top s |> <| bottom := bottom s |>).
Definition insert_line : M con unit := with_region scrdown.
Definition delete_line : M con unit := with_region scrup.

(** [while (++i < video_num_columns)]: the place of the last word. *)
Fixpoint shift_left (n : nat) (p : Z) : M con Z :=
  match n with
  | O => ret p
  | S n' => let! w := rdw (p + 2) in wrw p w ;; shift_left n' (p + 2)
  end.
Definition delete_char : M con unit :=
  let! s := get in
  if video_num_columns s <=? x s then ret tt
  else
    let! p := shift_left (Z.to_nat (video_num_columns s - x s - 1)) (pos s) in
    wrw p (video_erase_char s).

Definition lf : M con unit :=
  let! s := get in
  if y s + 1 <? bottom s then
    modify (fun s => s <| y ::= Z.add 1 |> <| pos ::= Z.add (video_size_row s) |>)
  else scrup.
Definition ri : M con unit :=
  let! s := get in
  if top s <? y s then
    modify (fun s => s <| y ::= Z.pred |> <| pos ::= fun p => p - video_size_row s |>)
  else scrdown.
Definition cr : M con unit :=
  modify (fun s => s <| pos ::= fun p => p - 2 * x s |> <| x := 0 |>).
Definition del : M con unit :=
  let! s := get in
  if truth (x s) then
    modify (fun s => s <| pos ::= fun p => p - 2 |> <| x ::= Z.pred |>) ;;
    let! s := get in wrw (pos s) (video_erase_char s)
  else ret tt.

Fixpoint times (n : nat) (m : M con unit) : M con unit :=
  match n with O => ret tt | S n' => m ;; times n' m end.
Definition clamp (nr limit : Z) : nat :=
  Z.to_nat (if limit <? nr then limit else if nr =? 0 then 1 else nr).

Definition csi_at (nr : Z) : M con unit :=
  let! s := get in times (clamp nr (video_num_columns s)) insert_char.
Definition csi_L (nr : Z) : M con unit :=
  let! s := get in times (clamp nr (video_num_lines s)) insert_line.
Definition csi_P (nr : Z) : M con unit :=
  let! s := get in times (clamp nr (video_num_columns s)) delete_char.
Definition csi_M (nr : Z) : M con unit :=
  let! s := get in times (clamp nr (video_num_lines s)) delete_line.

(** The count goes into the 32-bit [ecx]. *)
Definition csi_J (p : Z) : M con unit :=
  let! s := get in
  let erase count start :=
    stosw_up (Z.to_nat (u32 count)) start (video_erase_char s) in
  let p := s32 p in
  if p =? 0 then erase (Z.shiftr (scr_end s - pos s) 1) (pos s)
  else if p =? 1 then erase (Z.shiftr (pos s - origin s) 1) (origin s)
  else if p =? 2 then erase (video_num_columns s * video_num_lines s) (origin s)
  else ret tt.

Definition csi_K (p : Z) : M con unit :=
  let! s := get in
  let erase count start :=
    stosw_up (Z.to_nat (u32 count)) start (video_erase_char s) in
  let p := s32 p in
  if p =? 0 then
    if video_num_columns s <=? x s then ret tt
    else erase (video_num_columns s - x s) (pos s)
  else if p =? 1 then
    erase (if x s <? video_num_columns s then x s else video_num_columns s) (pos s - 2 * x s)
  else if p =? 2 then erase (video_num_columns s) (pos s - 2 * x s)
  else ret tt.

Definition set_attr (a p : Z) : Z :=
  if p =? 0 then 0x07 else if p =? 1 then 0x0f else if p =? 4 then 0x0f
  else if p =? 7 then 0x70 else if p =? 27 then 0x07 else a.
Definition csi_m : M con unit :=
  modify (fun s => s <| attr ::= fun a =>
    fold_left set_attr (take (Z.to_nat (npar s + 1)) (par s)) a |>).

Definition save_cur : M con unit :=
  modify (fun s => s <| saved_x := x s |> <| saved_y := y s |>).
Definition restore_cur : M con unit :=
  let! s := get in gotoxy (saved_x s) (saved_y s).

(** ** The escape sequences: [switch(state)] of con_write() *)

Definition printable (c : Z) : bool := (31 <? c) && (c <? 127).

(** [x -= video_num_columns; pos -= video_size_row; lf()] *)
Definition wrap : M con unit :=
  modify (fun s => s <| x ::= fun v => v - video_num_columns s |>
                     <| pos ::= fun p => p - video_size_row s |>) ;;
  lf.

Definition case0 (erase c : Z) : M con unit :=
  let! s := get in
  if printable c then
    when (video_num_columns s <=? x s) wrap ;;
    let! s := get in
    wrw (pos s) (Z.lor (Z.shiftl (attr s) 8) c) ;;
    modify (fun s => s <| pos ::= Z.add 2 |> <| x ::= Z.add 1 |>)
  else if c =? 27 then modify (fun s => s <| state := 1 |>)
  else if (c =? 10) || (c =? 11) || (c =? 12) then lf
  else if c =? 13 then cr
  else if c =? erase then del
  else if c =? 8 then
    when (truth (x s)) (modify (fun s => s <| x ::= Z.pred |> <| pos ::= fun p => p - 2 |>))
  else if c =? 9 then
    let n := 8 - Z.land (x s) 7 in
    modify (fun s => s <| x ::= Z.add n |> <| pos ::= Z.add (2 * n) |>) ;;
    let! s := get in
    when (video_num_columns s <? x s) wrap
  else ret tt.

Definition case1 (c : Z) : M con bool :=
  modify (fun s => s <| state := 0 |>) ;;
  let! s := get in
  if c =? 91 then modify (fun s => s <| state := 2 |>) ;; ret false
  else if c =? 69 then gotoxy 0 (y s + 1) ;; ret false
  else if c =? 77 then ri ;; ret false
  else if c =? 68 then lf ;; ret false
  else if c =? 90 then ret true
  else if x s =? 55 then save_cur ;; ret false
  else if x s =? 56 then restore_cur ;; ret false
  else ret false.

Definition getpar (i : Z) : M con Z :=
  let! s := get in deref (zget (par s) i).
Definition setpar (i v : Z) : M con unit :=
  let! _ := getpar i in modify (fun s => s <| par ::= zset i (u32 v) |>).
(** [if (!par[0]) par[0]++] and [if (par[i]) par[i]--] *)
Definition atleast1 : M con Z :=
  let! p := getpar 0 in when (p =? 0) (setpar 0 (p + 1)) ;; getpar 0.
Definition from1 (i : Z) : M con Z :=
  let! p := getpar i in when (truth p) (setpar i (p - 1)) ;; getpar i.

Definition set_region : M con unit :=
  let! p0 := from1 0 in
  let! p1 := getpar 1 in
  let! s := get in
  when (p1 =? 0) (setpar 1 (video_num_lines s)) ;;
  let! p1 := getpar 1 in
  when ((p0 <? p1) && (p1 <=? video_num_lines s))
    (modify (fun s => s <| top := p0 |> <| bottom := p1 |>)).

Definition case4 (c : Z) : M con unit :=
  modify (fun s => s <| state := 0 |>) ;;
  let! s := get in
  if (c =? 71) || (c =? 96) then let! p := from1 0 in gotoxy p (y s)
  else if c =? 65 then let! p := atleast1 in gotoxy (x s) (y s - p)
  else if (c =? 66) || (c =? 101) then let! p := atleast1 in gotoxy (x s) (y s + p)
  else if (c =? 67) || (c =? 97) then let! p := atleast1 in gotoxy (x s + p) (y s)
  else if c =? 68 then let! p := atleast1 in gotoxy (x s - p) (y s)
  else if c =? 69 then let! p := atleast1 in gotoxy 0 (y s + p)
  else if c =? 70 then let! p := atleast1 in gotoxy 0 (y s - p)
  else if c =? 100 then let! p := from1 0 in gotoxy (x s) p
  else if (c =? 72) || (c =? 102) then
    let! p0 := from1 0 in let! p1 := from1 1 in gotoxy p1 p0
  else if c =? 74 then let! p := getpar 0 in csi_J p
  else if c =? 75 then let! p := getpar 0 in csi_K p
  else if c =? 76 then let! p := getpar 0 in csi_L p
  else if c =? 77 then let! p := getpar 0 in csi_M p
  else if c =? 80 then let! p := getpar 0 in csi_P p
  else if c =? 64 then let! p := getpar 0 in csi_at p
  else if c =? 109 then csi_m
  else if c =? 114 then set_region
  else if c =? 115 then save_cur
  else if c =? 117 then restore_cur
  else ret tt.

Definition case3 (c : Z) : M con unit :=
  let! s := get in
  if (c =? 59) && (npar s <? NPAR - 1) then modify (fun s => s <| npar ::= Z.add 1 |>)
  else if (48 <=? c) && (c <=? 57) then
    let! p := getpar (npar s) in setpar (npar s) (10 * p + c - 48)
  else modify (fun s => s <| state := 4 |>) ;; case4 c.

Definition case2 (c : Z) : M con unit :=
  modify (fun s => s <| par := replicate (Z.to_nat NPAR) 0 |> <| npar := 0 |>
    <| state := 3 |> <| ques := b2z (c =? 63) |>) ;;
  if c =? 63 then ret tt else case3 c.

Definition con_char (erase c : Z) : M con bool :=
  let! s := get in
  if state s =? 0 then case0 erase c ;; ret false
  else if state s =? 1 then case1 c
  else if state s =? 2 then case2 c ;; ret false
  else if state s =? 3 then case3 c ;; ret false
  else if state s =? 4 then case4 c ;; ret false
  else ret false.

(** ** con_init(), from the values the boot code left at 0x90000 *)

Fixpoint put_desc (desc : list Z) (p : Z) : M con unit :=
  match desc with
  | [] => ret tt
  | c :: desc' =>
      let! w := rdw p in
      wrw p (putbits w 0 8 c) ;;
      put_desc desc' (p + 2)
  end.

Definition display_type (mode ega_bx : Z) : Z * Z * list Z :=
  let isega := negb (Z.land ega_bx 0xff =? 0x10) in
  if mode =? 7 then
    if isega then (VIDEO_TYPE_EGAM, 0xb8000, [69; 71; 65; 109])
    else (VIDEO_TYPE_MDA, 0xb2000, [42; 77; 68; 65])
  else
    if isega then (VIDEO_TYPE_EGAC, 0xbc000, [69; 71; 65; 99])
    else (VIDEO_TYPE_CGA, 0xba000, [42; 67; 71; 65]).

Definition con_init (orig_x orig_y mode cols ega_bx : Z) : M con unit :=
  let '(vt, mem_end, desc) := display_type mode ega_bx in
  let mem_start := if mode =? 7 then 0xb0000 else 0xb8000 in
  modify (fun s => s <| video_num_columns := cols |> <| video_size_row := cols * 2 |>
    <| video_num_lines := 25 |> <| video_erase_char := 0x0720 |>
    <| video_mem_start := mem_start |> <| video_type := vt |> <| video_mem_end := mem_end |>) ;;
  put_desc desc (mem_start + cols * 2 - 8) ;;
  modify (fun s => s <| origin := mem_start |> <| scr_end := mem_start + 25 * (cols * 2) |>
    <| top := 0 |> <| bottom := 25 |>) ;;
  gotoxy orig_x orig_y.

(** ** The string instructions on the video memory *)

(** The address of the i-th word. *)
Definition vad (s : con) (i : Z) : Z := video_mem_start s + 2 * i.
Definition vlen (s : con) : Z := Z.of_nat (length (vram s)).
Definition vword (s : con) (i : Z) : option Z := zget (vram s) i.
Definition set_vram (s : con) (l : list Z) : con := s <| vram := l |>.

Lemma widx_vad s i : widx s (vad s i) = i.
Proof.
  unfold widx, vad. replace (video_mem_start s + 2 * i - video_mem_start s) with (i * 2) by lia.
  rewrite Z.mod_mul, Z.div_mul by lia. done.
Qed.

Lemma rdw_run s i w : vword s i = Some w -> rdw (vad s i) s = Ret w s.
Proof. unfold rdw, vword. run. rewrite widx_vad. by intros ->. Qed.

Lemma wrw_run s i v :
  0 <= i < vlen s -> wrw (vad s i) v s = Ret tt (set_vram s (zset i v (vram s))).
Proof.
  intros Hi. unfold wrw. run. rewrite widx_vad.
  destruct (zget_is_Some (vram s) i Hi) as [w E]. rewrite (bind_deref _ _ _ _ E).
  unfold modify. cbn. by rewrite widx_vad.
Qed.

Lemma vword_Some s i : 0 <= i < vlen s -> exists w, vword s i = Some w.
Proof. apply zget_is_Some. Qed.

Lemma vad_set_vram s l i : vad (set_vram s l) i = vad s i.
Proof. done. Qed.
Lemma set_vram_twice s l l' : set_vram (set_vram s l) l' = set_vram s l'.
Proof. done. Qed.

(** [m] changes the video memory only, into the words given by [f]. *)
Definition draws {A} (m : M con A) (s : con) (a : A) (f : Z -> option Z) : Prop :=
  exists l, m s = Ret a (set_vram s l) /\ length l = length (vram s) /\
    forall k, zget l k = f k.

Lemma zget_zset_dec {A} (l : list A) i v k :
  0 <= i < Z.of_nat (length l) ->
  zget (zset i v l) k = if decide (k = i) then Some v else zget l k.
Proof.
  intros Hi. case_decide; [subst; by apply zget_zset_eq|by apply zget_zset_ne].
Qed.

Lemma draws_bind {A B} (m : M con A) (k : A -> M con B) s a b f g :
  draws m s a f ->
  (forall l, length l = length (vram s) -> (forall i, zget l i = f i) ->
     draws (k a) (set_vram s l) b g) ->
  draws (bind m k) s b g.
Proof.
  intros (l & E & Hl & Hf) Hk. destruct (Hk l Hl Hf) as (l' & E' & Hl' & Hg).
  exists l'. rewrite (bind_ret _ _ _ _ _ E), E'. split; [done|].
  cbn in Hl'. split; [congruence|done].
Qed.

Lemma draws_ext {A} (m : M con A) s a f g :
  draws m s a f -> (forall k, f k = g k) -> draws m s a g.
Proof. intros (l & E & Hl & Hf) H. exists l. split_and!; try done. intros. by rewrite Hf. Qed.

Lemma draws_ret {A} (a : A) s : draws (ret a) s a (vword s).
Proof. exists (vram s). split; [by destruct s|done]. Qed.

Lemma stosw_up_draws n : forall s i v,
  0 <= i -> i + Z.of_nat n <= vlen s ->
  draws (stosw_up n (vad s i) v) s tt
    (fun k => if decide (i <= k < i + Z.of_nat n) then Some v else vword s k).
Proof.
  induction n as [|n IH]; intros s i v Hi Hn; cbn [stosw_up].
  - eapply draws_ext; [apply draws_ret|]. intros k. rewrite decide_False; [done|lia].
  - eapply draws_bind.
    { exists (zset i v (vram s)). split; [apply wrw_run; lia|]. split; [apply length_zset|].
      intros k. apply zget_zset_dec. unfold vlen in *. lia. }
    intros l Hl Hg. replace (vad s i + 2) with (vad (set_vram s l) (i + 1)) by (unfold vad; cbn; lia).
    eapply draws_ext; [apply IH; unfold vlen in *; cbn; lia|].
    intros k. unfold vword at 1. cbn. rewrite Hg. unfold vword.
    repeat case_decide; subst; try done; lia.
Qed.

Lemma stosw_down_draws n : forall s i v,
  Z.of_nat n <= i + 1 -> i < vlen s ->
  draws (stosw_down n (vad s i) v) s tt
    (fun k => if decide (i - Z.of_nat n < k <= i) then Some v else vword s k).
Proof.
  induction n as [|n IH]; intros s i v Hn Hi; cbn [stosw_down].
  - eapply draws_ext; [apply draws_ret|]. intros k. rewrite decide_False; [done|lia].
  - eapply draws_bind.
    { exists (zset i v (vram s)). split; [apply wrw_run; lia|]. split; [apply length_zset|].
      intros k. apply zget_zset_dec. unfold vlen in *. lia. }
    intros l Hl Hg. replace (vad s i - 2) with (vad (set_vram s l) (i - 1)) by (unfold vad; cbn; lia).
    eapply draws_ext; [apply IH; unfold vlen in *; cbn; lia|].
    intros k. unfold vword at 1. cbn. rewrite Hg. unfold vword.
    repeat case_decide; subst; try done; lia.
Qed.

(** One double word. *)
Lemma movsl_draws s i j :
  0 <= i -> i + 1 < vlen s -> 0 <= j -> j + 1 < vlen s ->
  exists lo hi l, vword s i = Some lo /\ vword s (i + 1) = Some hi /\
    (forall A (k : M con A), (let! lo := rdw (vad s i) in let! hi := rdw (vad s i + 2) in
       wrw (vad s j) lo ;; wrw (vad s j + 2) hi ;; k) s = k (set_vram s l)) /\
    length l = length (vram s) /\
    forall k, zget l k = if decide (k = j) then Some lo
                         else if decide (k = j + 1) then Some hi else vword s k.
Proof.
  intros Hi Hi' Hj Hj'. destruct (vword_Some s i) as [lo Hlo]; [lia|].
  destruct (vword_Some s (i + 1)) as [hi Hhi]; [lia|].
  exists lo, hi, (zset (j + 1) hi (zset j lo (vram s))). split; [done|]. split; [done|].
  split.
  - intros A k. rewrite (bind_ret _ _ _ _ _ (rdw_run s i lo Hlo)).
    replace (vad s i + 2) with (vad s (i + 1)) by (unfold vad; lia).
    rewrite (bind_ret _ _ _ _ _ (rdw_run s (i + 1) hi Hhi)).
    rewrite (bind_ret _ _ _ _ _ (wrw_run s j lo ltac:(lia))).
    set (s1 := set_vram s _).
    replace (vad s j + 2) with (vad s1 (j + 1)) by (unfold vad, s1; cbn; lia).
    erewrite bind_ret; [|apply wrw_run; unfold s1, vlen in *; cbn; rewrite length_zset; lia].
    done.
  - rewrite !length_zset. split; [done|]. intros k. unfold vlen in *.
    rewrite !zget_zset_dec by (rewrite ?length_zset; lia).
    repeat case_decide; try done; lia.
Qed.

Lemma movsl_up_draws n : forall s i j,
  0 <= j < i -> i + 2 * Z.of_nat n <= vlen s ->
  draws (movsl_up n (vad s i) (vad s j)) s (vad s (j + 2 * Z.of_nat n))
    (fun k => if decide (j <= k < j + 2 * Z.of_nat n) then vword s (k - j + i) else vword s k).
Proof.
  induction n as [|n IH]; intros s i j Hj Hn; cbn [movsl_up].
  - eapply draws_ext; [replace (j + 2 * Z.of_nat 0) with j by lia; apply draws_ret|].
    intros k. rewrite decide_False; [done|lia].
  - destruct (movsl_draws s i j) as (lo & hi & l & Hlo & Hhi & E & Hl & Hg); try lia.
    destruct (IH (set_vram s l) (i + 2) (j + 2)) as (l' & E' & Hl' & Hg'); [lia| |].
    { unfold vlen in *. cbn. lia. }
    exists l'. rewrite E. replace (vad s i + 4) with (vad (set_vram s l) (i + 2)) by (unfold vad; cbn; lia).
    replace (vad s j + 4) with (vad (set_vram s l) (j + 2)) by (unfold vad; cbn; lia).
    rewrite E'. split; [f_equal; unfold vad; cbn; lia|]. cbn in Hl'. split; [congruence|].
    intros k. rewrite Hg'. unfold vword in *. cbn -[vword]. rewrite !Hg.
    repeat case_decide; subst; try lia; try done.
    + by replace (k - (j + 2) + (i + 2)) with (k - j + i) by lia.
    + by replace (j - j + i) with i by lia.
    + by replace (j + 1 - j + i) with (i + 1) by lia.
Qed.

Lemma movsl_down_draws n : forall s i j,
  i < j -> 2 * Z.of_nat n <= i + 2 -> j + 1 < vlen s ->
  draws (movsl_down n (vad s i) (vad s j)) s (vad s (j - 2 * Z.of_nat n))
    (fun k => if decide (j + 1 - 2 * Z.of_nat n < k <= j + 1) then vword s (k - j + i) else vword s k).
Proof.
  induction n as [|n IH]; intros s i j Hij Hn Hj; cbn [movsl_down].
  - eapply draws_ext; [replace (j - 2 * Z.of_nat 0) with j by lia; apply draws_ret|].
    intros k. rewrite decide_False; [done|lia].
  - destruct (movsl_draws s i j) as (lo & hi & l & Hlo & Hhi & E & Hl & Hg); try lia.
    destruct (IH (set_vram s l) (i - 2) (j - 2)) as (l' & E' & Hl' & Hg'); [lia| | |].
    { lia. } { unfold vlen in *. cbn. lia. }
    exists l'. rewrite E. replace (vad s i - 4) with (vad (set_vram s l) (i - 2)) by (unfold vad; cbn; lia).
    replace (vad s j - 4) with (vad (set_vram s l) (j - 2)) by (unfold vad; cbn; lia).
    rewrite E'. split; [f_equal; unfold vad; cbn; lia|]. cbn in Hl'. split; [congruence|].
    intros k. rewrite Hg'. unfold vword in *. cbn -[vword]. rewrite !Hg.
    repeat case_decide; subst; try lia; try done.
    + by replace (k - (j - 2) + (i - 2)) with (k - j + i) by lia.
    + by replace (j - j + i) with i by lia.
    + by replace (j + 1 - j + i) with (i + 1) by lia.
Qed.

(** ** The invariant and the screen *)

(** The first word of the screen. *)
Definition ow (s : con) : Z := (origin s - video_mem_start s) / 2.

Record con_wf (s : con) : Prop := {
  w_cols : 8 <= video_num_columns s < 2 ^ 16 /\ Z.Even (video_num_columns s);
  w_row : video_size_row s = 2 * video_num_columns s;
  w_lines : 0 < video_num_lines s < 2 ^ 16;
  w_end : video_mem_end s = vad s (vlen s);
  w_fits : video_num_lines s * video_num_columns s <= vlen s;
  w_origin : origin s = vad s (ow s) /\ 0 <= ow s;
  w_inside : ow s + video_num_lines s * video_num_columns s <= vlen s;
  w_scr : scr_end s = vad s (ow s + video_num_lines s * video_num_columns s);
  w_pos : pos s = vad s (ow s + y s * video_num_columns s + x s);
  w_x : 0 <= x s <= video_num_columns s;
  w_y : 0 <= y s < video_num_lines s;
  w_region : 0 <= top s < bottom s /\ bottom s <= video_num_lines s;
  w_npar : 0 <= npar s < NPAR;
  w_par : length (par s) = Z.to_nat NPAR;
  w_pars : Forall (fun v => 0 <= v) (par s)
}.

(** The character cell at row [r], column [c]. *)
Definition screen (s : con) (r c : Z) : option Z :=
  vword s (ow s + r * video_num_columns s + c).
Definition cell (s : con) (r c : Z) : Prop :=
  0 <= r < video_num_lines s /\ 0 <= c < video_num_columns s.

(** What con_init() fixes. *)
Definition cfg (s : con) :=
  (video_type s, video_num_columns s, video_size_row s, video_num_lines s,
   (video_mem_start s, video_mem_end s, video_erase_char s)).
(** Cursor, region and escape state. *)
Definition core (s : con) :=
  (x s, y s, top s, bottom s, (state s, npar s, par s, ques s),
   (attr s, saved_x s, saved_y s)).

(** The new state is well formed, on the same display, and shows [f]. *)
Definition shows (s s' : con) (f : Z -> Z -> option Z) : Prop :=
  con_wf s' /\ cfg s' = cfg s /\ forall r c, cell s r c -> screen s' r c = f r c.

Lemma row_le r n k : 0 <= k -> r < n -> r * k + k <= n * k.
Proof. nia. Qed.
Lemma row_le0 r n k : 0 <= k -> r <= n -> r * k <= n * k.
Proof. nia. Qed.
Lemma row_pos r k : 0 <= k -> 0 <= r -> 0 <= r * k.
Proof. nia. Qed.

(** Two cells are the same word only when they are the same cell. *)
Lemma cell_inj k r c r' c' :
  0 <= c < k -> 0 <= c' < k -> r * k + c = r' * k + c' -> r = r' /\ c = c'.
Proof. intros. assert (r = r') by nia. subst. lia. Qed.

Lemma cell_word s r c :
  con_wf s -> cell s r c ->
  ow s <= ow s + r * video_num_columns s + c < ow s + video_num_lines s * video_num_columns s.
Proof.
  intros Hw [Hr Hc]. pose proof (w_cols _ Hw) as [? _].
  pose proof (row_le r (video_num_lines s) (video_num_columns s)).
  pose proof (row_pos r (video_num_columns s)). lia.
Qed.

(** Drawing keeps the invariant. *)
Lemma set_vram_wf s l : con_wf s -> length l = length (vram s) -> con_wf (set_vram s l).
Proof.
  intros Hw Hl. destruct Hw. split; try done; unfold vlen in *; cbn; by rewrite Hl.
Qed.

Lemma draws_shows (m : M con unit) s f g :
  con_wf s -> draws m s tt f ->
  (forall r c, cell s r c -> f (ow s + r * video_num_columns s + c) = g r c) ->
  exists s', m s = Ret tt s' /\ shows s s' g /\ core s' = core s /\
    origin s' = origin s /\ (forall k, vword s' k = f k).
Proof.
  intros Hw (l & E & Hl & Hf) Hg. exists (set_vram s l). split_and!; try done.
  split; [by apply set_vram_wf|]. split; [done|].
  intros r c Hc. unfold screen, vword. cbn. rewrite Hf. by apply Hg.
Qed.

(** ** Scrolling *)

(** Rows [t, b) moved up, the last one blank; and moved down. *)
Definition up (s : con) (t b r c : Z) : option Z :=
  if decide (t <= r < b - 1) then screen s (r + 1) c
  else if decide (r = b - 1) then Some (video_erase_char s) else screen s r c.
Definition down (s : con) (t b r c : Z) : option Z :=
  if decide (t < r < b) then screen s (r - 1) c
  else if decide (r = t) then Some (video_erase_char s) else screen s r c.

Lemma dwords n k : 0 <= n -> Z.Even k -> 0 <= k -> 2 * Z.of_nat (Z.to_nat (Z.shiftr (n * k) 1)) = n * k.
Proof.
  intros Hn [h ->] Hk. rewrite Z.shiftr_div_pow2 by lia. change (2 ^ 1) with 2.
  replace (n * (2 * h)) with (n * h * 2) by lia. rewrite Z.div_mul by lia. nia.
Qed.

(** The word-level effect of the two block moves. *)
Lemma scroll_up_draws s :
  con_wf s ->
  let k := video_num_columns s in
  let a := ow s + top s * k in
  let b := ow s + (bottom s - 1) * k in
  draws scroll_up s tt (fun i =>
    if decide (a <= i < b) then vword s (i + k)
    else if decide (b <= i < b + k) then Some (video_erase_char s) else vword s i).
Proof.
  intros Hw k a b. pose proof (w_cols _ Hw) as [Hk He]. fold k in Hk, He.
  pose proof (w_region _ Hw) as [Ht Hb]. pose proof (w_origin _ Hw) as [Ho Ho0].
  pose proof (w_inside _ Hw) as Hin. fold k in Hin. pose proof (w_row _ Hw) as Hrow. fold k in Hrow.
  pose proof (row_le0 (bottom s) (video_num_lines s) k ltac:(lia) Hb).
  pose proof (row_le (top s) (bottom s) k ltac:(lia) (proj2 Ht)).
  pose proof (row_pos (top s) k ltac:(lia) (proj1 Ht)).
  unfold scroll_up. set (n := Z.to_nat (Z.shiftr ((bottom s - top s - 1) * k) 1)).
  assert (Hn : 2 * Z.of_nat n = b - a).
  { unfold n. rewrite dwords by (done || lia). unfold a, b. lia. }
  unfold draws. run. fold k. fold n.
  replace (origin s + video_size_row s * (top s + 1)) with (vad s (a + k))
    by (rewrite Ho, Hrow; unfold a, vad; lia).
  replace (origin s + video_size_row s * top s) with (vad s a)
    by (rewrite Ho, Hrow; unfold a, vad; lia).
  eapply (draws_bind _ (fun edi => stosw_up (Z.to_nat k) edi (video_erase_char s))).
  { apply movsl_up_draws; [unfold a; lia|]. rewrite Hn. unfold a, b in *. lia. }
  intros l Hl Hg. rewrite Hn. replace (vad s (a + (b - a))) with (vad (set_vram s l) b)
    by (unfold vad; cbn; lia).
  eapply draws_ext.
  { apply stosw_up_draws; [unfold a, b in *; lia|].
    unfold vlen in *. cbn. rewrite Hl. unfold a, b in *. lia. }
  intros i. cbv beta. rewrite Z2Nat.id by lia. unfold vword at 1. cbn. rewrite Hg, Hn.
  replace (i - a + (a + k)) with (i + k) by lia.
  repeat case_decide; done || lia.
Qed.

Lemma scrdown_draws s :
  con_wf s ->
  let k := video_num_columns s in
  let a := ow s + top s * k in
  let b := ow s + bottom s * k in
  draws scrdown s tt (fun i =>
    if decide (a + k <= i < b) then vword s (i - k)
    else if decide (a <= i < a + k) then Some (video_erase_char s) else vword s i).
Proof.
  intros Hw k a b. pose proof (w_cols _ Hw) as [Hk He]. fold k in Hk, He.
  pose proof (w_region _ Hw) as [Ht Hb]. pose proof (w_origin _ Hw) as [Ho Ho0].
  pose proof (w_inside _ Hw) as Hin. fold k in Hin. pose proof (w_row _ Hw) as Hrow. fold k in Hrow.
  pose proof (row_le0 (bottom s) (video_num_lines s) k ltac:(lia) Hb).
  pose proof (row_le (top s) (bottom s) k ltac:(lia) (proj2 Ht)).
  pose proof (row_pos (top s) k ltac:(lia) (proj1 Ht)).
  unfold scrdown. set (n := Z.to_nat (Z.shiftr ((bottom s - top s - 1) * k) 1)).
  assert (Hn : 2 * Z.of_nat n = b - a - k).
  { unfold n. rewrite dwords by (done || lia). unfold a, b. lia. }
  unfold draws. run. fold k. fold n.
  replace (origin s + video_size_row s * (bottom s - 1) - 4) with (vad s (b - k - 2))
    by (rewrite Ho, Hrow; unfold b, vad; lia).
  replace (origin s + video_size_row s * bottom s - 4) with (vad s (b - 2))
    by (rewrite Ho, Hrow; unfold b, vad; lia).
  eapply (draws_bind _ (fun edi => stosw_down (Z.to_nat k) (edi + 2) (video_erase_char s))).
  { apply movsl_down_draws; [lia| |]; rewrite ?Hn; unfold a, b in *; lia. }
  intros l Hl Hg. rewrite Hn.
  replace (vad s (b - 2 - (b - a - k)) + 2) with (vad (set_vram s l) (a + k - 1))
    by (unfold vad; cbn; lia).
  eapply draws_ext.
  { apply stosw_down_draws; [unfold a, b in *; lia|].
    unfold vlen in *. cbn. rewrite Hl. unfold a, b in *. lia. }
  intros i. cbv beta. rewrite Z2Nat.id by lia. unfold vword at 1. cbn. rewrite Hg, Hn.
  replace (i - (b - 2) + (b - k - 2)) with (i - k) by lia.
  repeat case_decide; done || lia.
Qed.

(** Reading a word-level effect on the region as one on rows. *)
Lemma scroll_up_runs s :
  con_wf s ->
  exists s', scroll_up s = Ret tt s' /\ shows s s' (up s (top s) (bottom s)) /\ core s' = core s.
Proof.
  intros Hw. destruct (draws_shows _ s _ (up s (top s) (bottom s)) Hw (scroll_up_draws s Hw))
    as (s' & E & Hs & Hc & _); [|eauto].
  intros r c [Hr Hc]. pose proof (w_cols _ Hw) as [Hk _]. pose proof (w_region _ Hw) as [Ht Hb].
  unfold up, screen. set (k := video_num_columns s) in *.
  repeat case_decide; try (f_equal; lia); try nia; exfalso; nia.
Qed.

Lemma scrdown_runs s :
  con_wf s ->
  exists s', scrdown s = Ret tt s' /\ shows s s' (down s (top s) (bottom s)) /\ core s' = core s.
Proof.
  intros Hw. destruct (draws_shows _ s _ (down s (top s) (bottom s)) Hw (scrdown_draws s Hw))
    as (s' & E & Hs & Hc & _); [|eauto].
  intros r c [Hr Hc]. pose proof (w_cols _ Hw) as [Hk _]. pose proof (w_region _ Hw) as [Ht Hb].
  unfold down, screen. set (k := video_num_columns s) in *.
  repeat case_decide; try (f_equal; lia); try nia; exfalso; nia.
Qed.

(** The start of the display moved by [d] words. *)
Definition moved (s : con) (d : Z) : con :=
  s <| origin ::= Z.add (2 * d) |> <| pos ::= Z.add (2 * d) |> <| scr_end ::= Z.add (2 * d) |>.

Lemma moved_wf s d :
  con_wf s -> 0 <= ow s + d ->
  ow s + d + video_num_lines s * video_num_columns s <= vlen s ->
  con_wf (moved s d) /\ ow (moved s d) = ow s + d.
Proof.
  intros Hw H0 H1. pose proof (w_origin _ Hw) as [Ho _].
  assert (E : ow (moved s d) = ow s + d).
  { unfold ow in *. cbn. replace (2 * d + origin s - video_mem_start s)
      with (origin s - video_mem_start s + d * 2) by lia. by rewrite Z.div_add by lia. }
  split; [|done]. pose proof (w_scr _ Hw) as Hs. pose proof (w_pos _ Hw) as Hp. destruct Hw.
  assert (forall i, vad (moved s d) i = vad s i) as Hv by done.
  assert (vlen (moved s d) = vlen s) as Hl by done.
  split; try done; rewrite ?E, ?Hv, ?Hl; cbn -[ow vad vlen Z.mul];
    rewrite ?Ho, ?Hs, ?Hp; unfold vad; lia.
Qed.

(** set_origin() touches the display controller only. *)
Definition set_crtc (s : con) (f : Z -> Z) : con := s <| crtc := f |>.
Lemma set_crtc_wf s f : con_wf s -> con_wf (set_crtc s f).
Proof. intros []. by split. Qed.
Lemma set_origin_runs s : exists f, set_origin s = Ret tt (set_crtc s f).
Proof. eexists. reflexivity. Qed.
Lemma set_cursor_runs s : exists f, set_cursor s = Ret tt (set_crtc s f).
Proof. eexists. reflexivity. Qed.

Lemma shows_crtc s s' f g : shows s s' f -> shows s (set_crtc s' g) f.
Proof. intros (Hw & Hc & Hs). split; [by apply set_crtc_wf|]. by split. Qed.

(** The hardware scroll while there is room: a new blank last row. *)
Lemma fast_scroll s :
  con_wf s ->
  let k := video_num_columns s in
  ow s + k + video_num_lines s * k <= vlen s ->
  exists l, stosw_up (Z.to_nat k) (scr_end (moved s k) - video_size_row s) (video_erase_char s)
      (moved s k) = Ret tt (set_vram (moved s k) l) /\
    shows s (set_vram (moved s k) l) (up s 0 (video_num_lines s)).
Proof.
  intros Hw k Hroom. pose proof (w_cols _ Hw) as [Hk _]. fold k in Hk.
  pose proof (w_origin _ Hw) as [_ Ho]. pose proof (w_lines _ Hw) as Hn.
  destruct (moved_wf s k Hw) as [Hm Em]; [lia|lia|]. fold k in Em.
  pose proof (row_le 0 (video_num_lines s) k).
  replace (scr_end (moved s k) - video_size_row s)
    with (vad (moved s k) (ow s + video_num_lines s * k)).
  2:{ cbn. rewrite (w_scr _ Hw), (w_row _ Hw). fold k. unfold vad. cbn. lia. }
  destruct (stosw_up_draws (Z.to_nat k) (moved s k) (ow s + video_num_lines s * k)
    (video_erase_char s)) as (l & E & Hl & Hf); [lia|unfold vlen in *; cbn; lia|].
  exists l. split; [exact E|]. split; [by apply set_vram_wf|]. split; [done|].
  intros r c [Hr Hc]. unfold screen, vword. cbn [vram set_vram upd].
  change (ow (set_vram (moved s k) l)) with (ow (moved s k)). rewrite Em.
  change (video_num_columns (set_vram (moved s k) l)) with k. fold k in Hc.
  cbn. rewrite Hf, Z2Nat.id by lia. unfold up, screen. fold k.
  change (vword (moved s k)) with (vword s). set (L := video_num_lines s) in *.
  repeat case_decide; try (f_equal; lia); try done; exfalso; nia.
Qed.

(** The copy back to the start of the video memory. *)
Lemma slow_scroll s :
  con_wf s ->
  let k := video_num_columns s in
  let L := video_num_lines s in
  vlen s < ow s + k + L * k ->
  exists l, (let! edi := movsl_up (Z.to_nat (Z.shiftr ((L - 1) * k) 1))
       (origin (moved s k)) (video_mem_start s) in
     stosw_up (Z.to_nat k) edi (video_erase_char s)) (moved s k) =
       Ret tt (set_vram (moved s k) l) /\
    shows s (set_vram (moved s (- ow s)) l) (up s 0 L).
Proof.
  intros Hw k L Hroom. pose proof (w_cols _ Hw) as [Hk He]. fold k in Hk, He.
  pose proof (w_origin _ Hw) as [Ho Ho0]. pose proof (w_lines _ Hw) as Hn. fold L in Hn.
  pose proof (w_inside _ Hw) as Hin. fold k L in Hin. pose proof (w_fits _ Hw) as Hfit. fold k L in Hfit.
  pose proof (row_le 0 L k).
  set (n := Z.to_nat (Z.shiftr ((L - 1) * k) 1)).
  assert (Hnn : 2 * Z.of_nat n = (L - 1) * k) by (unfold n; apply dwords; done || lia).
  destruct (moved_wf s (- ow s) Hw) as [Hm Em]; [lia|fold k L; lia|].
  assert (Hdr : draws (let! edi := movsl_up n (origin (moved s k)) (video_mem_start s) in
     stosw_up (Z.to_nat k) edi (video_erase_char s)) (moved s k) tt (fun i =>
    if decide (0 <= i < (L - 1) * k) then vword s (i + ow s + k)
    else if decide ((L - 1) * k <= i < L * k) then Some (video_erase_char s) else vword s i)).
  { replace (origin (moved s k)) with (vad (moved s k) (ow s + k))
      by (cbn; rewrite Ho; unfold vad; cbn; lia).
    replace (video_mem_start s) with (vad (moved s k) 0) by (unfold vad; cbn; lia).
    eapply draws_bind.
    { apply movsl_up_draws; [lia|]. unfold vlen in *. cbn. lia. }
    intros l Hl Hg. rewrite Hnn.
    replace (vad (moved s k) (0 + (L - 1) * k))
      with (vad (set_vram (moved s k) l) ((L - 1) * k)) by (unfold vad; cbn; lia).
    eapply draws_ext.
    { apply stosw_up_draws; [lia|]. unfold vlen in *. cbn in *. lia. }
    intros i. cbv beta. rewrite Z2Nat.id by lia. unfold vword at 1. cbn. rewrite Hg, Hnn.
    change (vword (moved s k)) with (vword s).
    replace (i - 0 + (ow s + k)) with (i + ow s + k) by lia.
    repeat case_decide; done || lia. }
  destruct Hdr as (l & E & Hl & Hf). exists l. split; [exact E|].
  split; [by apply set_vram_wf|]. split; [done|].
  intros r c [Hr Hc]. unfold screen, vword.
  change (ow (set_vram (moved s (- ow s)) l)) with (ow (moved s (- ow s))). rewrite Em.
  change (video_num_columns (set_vram (moved s (- ow s)) l)) with k. fold k in Hc. fold L in Hr.
  cbn. rewrite Hf. unfold up, screen. fold k.
  repeat case_decide; try (f_equal; lia); try done; exfalso; nia.
Qed.

Lemma scrup_runs s :
  con_wf s ->
  exists s', scrup s = Ret tt s' /\ shows s s' (up s (top s) (bottom s)) /\ core s' = core s.
Proof.
  intros Hw. unfold scrup. run. destruct (ega s); [|by apply scroll_up_runs].
  destruct ((top s =? 0) && (bottom s =? video_num_lines s)) eqn:Efull;
    [|by apply scroll_up_runs].
  apply andb_prop in Efull as [Et%Z.eqb_eq Eb%Z.eqb_eq]. rewrite Et, Eb.
  pose proof (w_row _ Hw) as Hrow. run.
  match goal with |- context [bind _ _ ?t] => change t with
    (s <| origin ::= Z.add (video_size_row s) |> <| pos ::= Z.add (video_size_row s) |>
       <| scr_end ::= Z.add (video_size_row s) |>) end.
  replace (s <| origin ::= Z.add (video_size_row s) |> <| pos ::= Z.add (video_size_row s) |>
       <| scr_end ::= Z.add (video_size_row s) |>) with (moved s (video_num_columns s))
    by (unfold moved; by rewrite Hrow).
  set (k := video_num_columns s) in *.
  assert (Hcond : (video_mem_end (moved s k) <? scr_end (moved s k)) =
    (vlen s <? ow s + k + video_num_lines s * k)).
  { cbn. rewrite (w_end _ Hw), (w_scr _ Hw). fold k. unfold vad.
    destruct (Z.ltb_spec (video_mem_start s + 2 * vlen s)
      (2 * k + (video_mem_start s + 2 * (ow s + video_num_lines s * k)))),
      (Z.ltb_spec (vlen s) (ow s + k + video_num_lines s * k)); done || lia. }
  rewrite Hcond.
  destruct (Z.ltb_spec (vlen s) (ow s + k + video_num_lines s * k)) as [Hlt|Hge].
  - destruct (slow_scroll s Hw Hlt) as (l & E & Hs). fold k in E, Hs.
    apply bind_Ret_inv in E as (edi & s1 & E1 & E2).
    rewrite bind_assoc, (bind_ret _ _ _ _ _ E1). cbv beta.
    rewrite bind_assoc, (bind_ret _ _ _ _ _ E2). run.
    match goal with |- context [set_origin ?t] =>
      replace t with (set_vram (moved s (- ow s)) l) end.
    + destruct (set_origin_runs (set_vram (moved s (- ow s)) l)) as [f ->].
      eexists. split; [done|]. split; [by apply shows_crtc|done].
    + pose proof (w_origin _ Hw) as [Ho _]. unfold vad in Ho.
      unfold set_vram, moved. cbn -[ow Z.mul]. f_equal; lia.
  - destruct (fast_scroll s Hw) as (l & E & Hs); [fold k; lia|]. fold k in E, Hs.
    rewrite (bind_ret _ _ _ _ _ E).
    destruct (set_origin_runs (set_vram (moved s k) l)) as [f ->].
    eexists. split; [done|]. split; [by apply shows_crtc|done].
Qed.

(** C18.  Scrolling.  scrup() moves the rows of the scroll region up by one
    and blanks the last, scrdown() moves them down and blanks the first; the
    rest of the screen and the cursor stay.  This holds for the copy, for the
    hardware scroll that moves the start of the display, and for the return
    to the start of the video memory when that has reached its end. *)
Theorem scroll_refines s :
  con_wf s ->
  (exists s', scrup s = Ret tt s' /\ shows s s' (up s (top s) (bottom s)) /\ core s' = core s) /\
  (exists s', scrdown s = Ret tt s' /\ shows s s' (down s (top s) (bottom s)) /\ core s' = core s).
Proof. intros Hw. split; [by apply scrup_runs|by apply scrdown_runs]. Qed.

(** ** The cursor *)

(** [m] returns, and leaves a well-formed state of the same display. *)
Definition keeps {A} (m : M con A) (s : con) : Prop :=
  exists a s', m s = Ret a s' /\ con_wf s' /\ cfg s' = cfg s.

Lemma keeps_ret {A} (a : A) s : con_wf s -> keeps (ret a) s.
Proof. intros. by exists a, s. Qed.

Lemma keeps_bind {A B} (m : M con A) (k : A -> M con B) s :
  keeps m s -> (forall a s', con_wf s' -> cfg s' = cfg s -> keeps (k a) s') ->
  keeps (bind m k) s.
Proof.
  intros (a & s1 & E & Hw & Hc) Hk. destruct (Hk a s1 Hw Hc) as (b & s2 & E2 & Hw2 & Hc2).
  exists b, s2. rewrite (bind_ret _ _ _ _ _ E). split_and!; [done..|]. by rewrite Hc2.
Qed.

Lemma keeps_modify f s : con_wf (f s) -> cfg (f s) = cfg s -> keeps (modify f) s.
Proof. intros. by exists tt, (f s). Qed.

Lemma keeps_get {B} (k : con -> M con B) s : keeps (k s) s -> keeps (bind get k) s.
Proof. done. Qed.

Lemma keeps_when c m s : con_wf s -> (c = true -> keeps m s) -> keeps (when c m) s.
Proof. destruct c; intros Hw H; [by apply H|by apply keeps_ret]. Qed.

Lemma keeps_if {A} (c : bool) (m1 m2 : M con A) s :
  keeps m1 s -> keeps m2 s -> keeps (if c then m1 else m2) s.
Proof. by destruct c. Qed.

Lemma keeps_draws {A} (m : M con A) s a f : con_wf s -> draws m s a f -> keeps m s.
Proof.
  intros Hw (l & E & Hl & _). exists a, (set_vram s l).
  split_and!; [done|by apply set_vram_wf|done].
Qed.

Lemma keeps_shows s (m : M con unit) f :
  (exists s', m s = Ret tt s' /\ shows s s' f /\ core s' = core s) -> keeps m s.
Proof. intros (s' & E & (Hw & Hc & _) & _). by exists tt, s'. Qed.

(** The cursor put on column [x'] of row [y']. *)
Lemma at_wf s x' y' p :
  con_wf s -> 0 <= x' <= video_num_columns s -> 0 <= y' < video_num_lines s ->
  p = vad s (ow s + y' * video_num_columns s + x') ->
  con_wf (s <| x := x' |> <| y := y' |> <| pos := p |>).
Proof. intros [] Hx Hy ->. by split. Qed.

(** The word under the cursor, when the cursor is on the screen. *)
Lemma cursor_word s :
  con_wf s -> x s < video_num_columns s ->
  0 <= ow s + y s * video_num_columns s + x s < vlen s.
Proof.
  intros Hw Hx. pose proof (cell_word s (y s) (x s) Hw).
  pose proof (w_origin _ Hw) as [_ ?]. pose proof (w_inside _ Hw).
  pose proof (w_x _ Hw). pose proof (w_y _ Hw). unfold cell in *. lia.
Qed.

Lemma keeps_gotoxy a b s : con_wf s -> keeps (gotoxy a b) s.
Proof.
  intros Hw. unfold gotoxy. apply keeps_get.
  destruct (Z.ltb_spec (video_num_columns s) (u32 a)); [by apply keeps_ret|].
  destruct (Z.leb_spec (video_num_lines s) (u32 b)); [by apply keeps_ret|].
  cbn [orb]. pose proof (u32_range a). pose proof (u32_range b).
  apply keeps_modify; [|done]. apply at_wf; [done|lia|lia|].
  rewrite (proj1 (w_origin _ Hw)), (w_row _ Hw). unfold vad. lia.
Qed.

Lemma keeps_lf s : con_wf s -> keeps lf s.
Proof.
  intros Hw. unfold lf. apply keeps_get. pose proof (w_region _ Hw). pose proof (w_y _ Hw).
  destruct (Z.ltb_spec (y s + 1) (bottom s)); [|eapply keeps_shows; by apply scrup_runs].
  apply keeps_modify; [|done].
  apply (at_wf s (x s) (1 + y s) (video_size_row s + pos s)); [done|apply Hw|lia|].
  rewrite (w_pos _ Hw), (w_row _ Hw). unfold vad. lia.
Qed.

Lemma keeps_ri s : con_wf s -> keeps ri s.
Proof.
  intros Hw. unfold ri. apply keeps_get. pose proof (w_region _ Hw). pose proof (w_y _ Hw).
  destruct (Z.ltb_spec (top s) (y s)); [|eapply keeps_shows; by apply scrdown_runs].
  apply keeps_modify; [|done].
  apply (at_wf s (x s) (Z.pred (y s)) (pos s - video_size_row s)); [done|apply Hw|lia|].
  rewrite (w_pos _ Hw), (w_row _ Hw). unfold vad. lia.
Qed.

Lemma keeps_cr s : con_wf s -> keeps cr s.
Proof.
  intros Hw. apply keeps_modify; [|done]. pose proof (w_cols _ Hw).
  apply (at_wf s 0 (y s) (pos s - 2 * x s)); [done|lia|apply Hw|].
  rewrite (w_pos _ Hw). unfold vad. lia.
Qed.

Lemma left_wf s : con_wf s -> x s <> 0 ->
  con_wf (s <| x ::= Z.pred |> <| pos ::= fun p => p - 2 |>).
Proof.
  intros Hw Hx. pose proof (w_x _ Hw).
  apply (at_wf s (Z.pred (x s)) (y s) (pos s - 2)); [done|lia|apply Hw|].
  rewrite (w_pos _ Hw). unfold vad. lia.
Qed.

(** Storing a word under a cursor that is on the screen. *)
Lemma wrw_pos_draws s v :
  con_wf s -> x s < video_num_columns s ->
  draws (wrw (pos s) v) s tt (fun k =>
    if decide (k = ow s + y s * video_num_columns s + x s) then Some v else vword s k).
Proof.
  intros Hw Hx. rewrite (w_pos _ Hw). pose proof (cursor_word s Hw Hx) as Hi.
  eexists. split; [apply wrw_run; lia|]. split; [apply length_zset|].
  intros k. apply zget_zset_dec. unfold vlen in *. lia.
Qed.

Lemma keeps_modify_then {B} f (k : unit -> M con B) s :
  cfg (f s) = cfg s -> keeps (k tt) (f s) -> keeps (bind (modify f) k) s.
Proof. intros Hc (b & s' & E & Hw & Hc'). exists b, s'. by rewrite Hc', <-Hc. Qed.

Lemma keeps_wrw_pos s v : con_wf s -> x s < video_num_columns s -> keeps (wrw (pos s) v) s.
Proof. intros. by eapply keeps_draws, wrw_pos_draws. Qed.

Lemma keeps_del s : con_wf s -> keeps del s.
Proof.
  intros Hw. unfold del, truth. apply keeps_get.
  destruct (Z.eqb_spec (x s) 0) as [|Hx]; [by apply keeps_ret|]. cbn [negb].
  apply keeps_modify_then; [done|]. apply keeps_get.
  set (s1 := s <| x ::= Z.pred |> <| pos ::= fun p => p - 2 |>).
  change (keeps (wrw (pos s1) (video_erase_char s1)) s1). apply keeps_wrw_pos.
  - by apply left_wf.
  - pose proof (w_x _ Hw). cbn. lia.
Qed.

(** [wrap], from a state whose cursor may be up to a row too far. *)
Definition wrapped (s : con) : con :=
  s <| x ::= fun v => v - video_num_columns s |> <| pos ::= fun p => p - video_size_row s |>.
Lemma keeps_wrap s : con_wf (wrapped s) -> keeps wrap s.
Proof. intros Hw. apply keeps_modify_then; [done|]. by apply keeps_lf. Qed.

(** ** Inserting and deleting characters *)

Lemma shift_right_draws n : forall s i v,
  0 <= i -> i + Z.of_nat n <= vlen s ->
  draws (shift_right n (vad s i) v) s tt (fun k =>
    if decide (i <= k < i + Z.of_nat n) then
      (if decide (k = i) then Some v else vword s (k - 1)) else vword s k).
Proof.
  induction n as [|n IH]; intros s i v Hi Hn; cbn [shift_right].
  - eapply draws_ext; [apply draws_ret|]. intros k. rewrite decide_False; [done|lia].
  - destruct (vword_Some s i) as [w Ew]; [lia|].
    eapply (draws_bind (rdw (vad s i)) _ s w); [|].
    { exists (vram s). split; [rewrite (rdw_run s i w Ew); by destruct s|]. split; [done|].
      intros k. reflexivity. }
    intros l0 Hl0 Hg0. eapply draws_bind.
    { exists (zset i v l0). split; [apply (wrw_run (set_vram s l0)); unfold vlen in *; cbn; lia|].
      split; [apply length_zset|]. intros k. apply zget_zset_dec. unfold vlen in *. lia. }
    intros l Hl Hg. cbn [vram set_vram] in Hl.
    replace (vad s i + 2) with (vad (set_vram (set_vram s l0) l) (i + 1)) by (unfold vad; cbn; lia).
    eapply draws_ext; [apply IH; unfold vlen in *; cbn in *; lia|].
    intros k. unfold vword at 1 2. cbn. rewrite !Hg, !Hg0.
    repeat case_decide; subst; try done; try lia.
    replace (i + 1 - 1) with i in * by lia. done.
Qed.

Lemma shift_left_draws n : forall s i,
  0 <= i -> i + Z.of_nat n < vlen s ->
  draws (shift_left n (vad s i)) s (vad s (i + Z.of_nat n)) (fun k =>
    if decide (i <= k < i + Z.of_nat n) then vword s (k + 1) else vword s k).
Proof.
  induction n as [|n IH]; intros s i Hi Hn; cbn [shift_left].
  - eapply draws_ext; [replace (i + Z.of_nat 0) with i by lia; apply draws_ret|].
    intros k. rewrite decide_False; [done|lia].
  - destruct (vword_Some s (i + 1)) as [w Ew]; [lia|].
    replace (vad s i + 2) with (vad s (i + 1)) by (unfold vad; lia).
    eapply (draws_bind (rdw (vad s (i + 1))) _ s w); [|].
    { exists (vram s). split; [rewrite (rdw_run s (i + 1) w Ew); by destruct s|]. split; [done|].
      intros k. reflexivity. }
    intros l0 Hl0 Hg0. eapply draws_bind.
    { exists (zset i w l0). split; [apply (wrw_run (set_vram s l0)); unfold vlen in *; cbn; lia|].
      split; [apply length_zset|]. intros k. apply zget_zset_dec. unfold vlen in *. lia. }
    intros l Hl Hg. cbn [vram set_vram] in Hl.
    replace (vad s (i + 1)) with (vad (set_vram (set_vram s l0) l) (i + 1)) by done.
    replace (vad s (i + Z.of_nat (S n)))
      with (vad (set_vram (set_vram s l0) l) (i + 1 + Z.of_nat n)) by (unfold vad; cbn; lia).
    eapply draws_ext; [apply IH; unfold vlen in *; cbn in *; lia|].
    intros k. unfold vword at 1 2. cbn. rewrite !Hg, !Hg0. unfold vword in *.
    repeat case_decide; subst; try done; try lia.
Qed.

(** Rows after insert_char() and delete_char() at the cursor. *)
Definition inserted (s : con) (r c : Z) : option Z :=
  if decide (r = y s /\ x s <= c) then
    (if decide (c = x s) then Some (video_erase_char s) else screen s r (c - 1))
  else screen s r c.
Definition deleted (s : con) (r c : Z) : option Z :=
  if decide (r = y s /\ x s <= c) then
    (if decide (c = video_num_columns s - 1) then Some (video_erase_char s)
     else screen s r (c + 1))
  else screen s r c.

Lemma insert_char_runs s :
  con_wf s -> exists s', insert_char s = Ret tt s' /\ shows s s' (inserted s) /\ core s' = core s.
Proof.
  intros Hw. pose proof (w_cols _ Hw) as [Hk _]. pose proof (w_x _ Hw). pose proof (w_y _ Hw).
  pose proof (w_inside _ Hw). pose proof (w_origin _ Hw) as [_ Ho].
  set (k := video_num_columns s) in *. set (L := video_num_lines s) in *.
  assert (y s * k + k <= L * k) by (apply row_le; lia).
  assert (0 <= y s * k) by (apply row_pos; lia).
  edestruct (draws_shows insert_char s) as (s' & E & Hs & Hc & _); [done| |
    |exists s'; split; [exact E|split; [exact Hs|exact Hc]]].
  - unfold draws, insert_char. run. fold k. rewrite (w_pos _ Hw). fold k.
    apply shift_right_draws; [lia|]. rewrite Z2Nat.id by lia. lia.
  - intros r c [Hr Hc]. cbv beta. rewrite Z2Nat.id by lia. unfold inserted, screen. fold k.
    fold k in Hc. fold L in Hr.
    destruct (decide (r = y s)) as [->|Hne].
    + repeat case_decide; try done; try lia; f_equal; lia.
    + rewrite (decide_False (P := r = y s /\ _)) by tauto. rewrite decide_False; [done|].
      intros Hin. apply Hne. nia.
Qed.

Lemma delete_char_runs s :
  con_wf s -> exists s', delete_char s = Ret tt s' /\ shows s s' (deleted s) /\ core s' = core s.
Proof.
  intros Hw. pose proof (w_cols _ Hw) as [Hk _]. pose proof (w_x _ Hw). pose proof (w_y _ Hw).
  pose proof (w_inside _ Hw). pose proof (w_origin _ Hw) as [_ Ho].
  set (k := video_num_columns s) in *. set (L := video_num_lines s) in *.
  assert (y s * k + k <= L * k) by (apply row_le; lia).
  assert (0 <= y s * k) by (apply row_pos; lia).
  unfold delete_char. run. fold k. destruct (Z.leb_spec k (x s)).
  { exists s. split; [done|]. split; [|done]. split; [done|]. split; [done|].
    intros r c [Hr Hc]. unfold deleted. rewrite decide_False; [done|]. fold k in Hc. lia. }
  set (n := Z.to_nat (k - x s - 1)). set (i := ow s + y s * k + x s).
  assert (Hd : draws (let! p := shift_left n (vad s i) in wrw p (video_erase_char s)) s tt
    (fun j => if decide (i <= j < i + Z.of_nat n) then vword s (j + 1)
      else if decide (j = i + Z.of_nat n) then Some (video_erase_char s) else vword s j)).
  { eapply draws_bind; [apply shift_left_draws; unfold i, n in *; lia|].
    intros l Hl Hg. exists (zset (i + Z.of_nat n) (video_erase_char s) l).
    assert (Hr : 0 <= i + Z.of_nat n < Z.of_nat (length l))
      by (unfold vlen, i, n in *; rewrite Hl; lia).
    split; [apply (wrw_run (set_vram s l)); done|]. split; [apply length_zset|].
    intros j. rewrite zget_zset_dec, Hg by done. repeat case_decide; try done; lia. }
  rewrite (w_pos _ Hw). fold k i.
  destruct (draws_shows _ s _ (deleted s) Hw Hd) as (s' & E & Hs & Hc & _); [|eauto].
  intros r c [Hr Hc]. unfold deleted, screen. fold k. fold k in Hc. fold L in Hr.
  unfold i, n. rewrite Z2Nat.id by lia.
  destruct (decide (r = y s)) as [->|Hne].
  - repeat case_decide; try done; try lia; f_equal; lia.
  - rewrite (decide_False (P := r = y s /\ _)) by tauto.
    rewrite decide_False by (intros Hin; apply Hne; nia).
    rewrite decide_False by (intros Hin; apply Hne; nia). done.
Qed.

(** ** Erasing *)

Lemma row_cases r y k c :
  0 <= c < k -> r = y \/ (r < y /\ r * k + c < y * k) \/ (y < r /\ y * k + k <= r * k + c).
Proof.
  intros Hc. destruct (Z.lt_trichotomy r y) as [H|[H|H]]; [right; left|by left|right; right].
  - pose proof (row_le r y k). lia.
  - pose proof (row_le y r k). lia.
Qed.

(** The cells csi_J() and csi_K() blank. *)
Definition in_J (s : con) (p r c : Z) : Prop :=
  (p = 0 /\ (y s < r \/ r = y s /\ x s <= c)) \/
  (p = 1 /\ (r < y s \/ r = y s /\ c < x s)) \/ p = 2.
Definition in_K (s : con) (p r c : Z) : Prop :=
  r = y s /\ ((p = 0 /\ x s <= c) \/ (p = 1 /\ c < x s) \/ p = 2).
#[global] Instance in_J_dec s p r c : Decision (in_J s p r c).
Proof. unfold in_J. apply _. Defined.
#[global] Instance in_K_dec s p r c : Decision (in_K s p r c).
Proof. unfold in_K. apply _. Defined.

(** Blanking the words [i, i + n). *)
Lemma erase_shows s i n (P : Z -> Z -> Prop) `{forall r c, Decision (P r c)} :
  con_wf s -> 0 <= i -> 0 <= n -> i + n <= vlen s ->
  (forall r c, cell s r c ->
     (i <= ow s + r * video_num_columns s + c < i + n <-> P r c)) ->
  exists s', stosw_up (Z.to_nat n) (vad s i) (video_erase_char s) s = Ret tt s' /\
    shows s s' (fun r c => if decide (P r c) then Some (video_erase_char s) else screen s r c) /\
    core s' = core s.
Proof.
  intros Hw Hi Hn Hl HP.
  destruct (draws_shows _ s _ (fun r c => if decide (P r c) then Some (video_erase_char s)
     else screen s r c) Hw (stosw_up_draws (Z.to_nat n) s i (video_erase_char s) Hi
     ltac:(lia))) as (s' & E & Hs & Hc & _); [|eauto].
  intros r c Hcell. rewrite Z2Nat.id by lia. specialize (HP r c Hcell). unfold screen.
  repeat case_decide; tauto.
Qed.

Lemma half a : Z.shiftr (2 * a) 1 = a.
Proof. rewrite Z.shiftr_div_pow2 by lia. change (2 ^ 1) with 2. rewrite Z.mul_comm. apply Z.div_mul. lia. Qed.

Lemma shows_refl s : con_wf s -> shows s s (screen s).
Proof. intros. by split. Qed.

Lemma shows_ext s s' f g :
  shows s s' f -> (forall r c, cell s r c -> f r c = g r c) -> shows s s' g.
Proof. intros (? & ? & H) He. split_and!; try done. intros. rewrite H, He; done. Qed.

Lemma csi_J_runs s p :
  con_wf s -> exists s', csi_J p s = Ret tt s' /\ core s' = core s /\
    shows s s' (fun r c => if decide (in_J s (s32 p) r c) then Some (video_erase_char s)
                           else screen s r c).
Proof.
  intros Hw. pose proof (w_cols _ Hw) as [Hk _]. pose proof (w_x _ Hw). pose proof (w_y _ Hw).
  pose proof (w_inside _ Hw) as Hin. pose proof (w_origin _ Hw) as [Ho Ho0].
  pose proof (w_lines _ Hw).
  set (k := video_num_columns s) in *. set (L := video_num_lines s) in *.
  assert (L * k < 2 ^ 32) by nia.
  assert (y s * k + k <= L * k) by (apply row_le; lia).
  assert (0 <= y s * k) by (apply row_pos; lia).
  unfold csi_J. run. cbv zeta. fold k L.
  assert (Hgo : forall i n q, s32 p = q -> 0 <= i -> 0 <= n <= L * k -> i + n <= vlen s ->
    (forall r c, cell s r c -> (i <= ow s + r * k + c < i + n <-> in_J s q r c)) ->
    exists s', stosw_up (Z.to_nat (u32 n)) (vad s i) (video_erase_char s) s = Ret tt s' /\
      core s' = core s /\ shows s s' (fun r c => if decide (in_J s (s32 p) r c)
        then Some (video_erase_char s) else screen s r c)).
  { intros i n q -> Hi [Hn Hn'] Hl HP. rewrite u32_small by lia.
    destruct (erase_shows s i n (in_J s q) Hw Hi Hn Hl HP) as (s' & E & Hs & Hc). eauto. }
  destruct (Z.eqb_spec (s32 p) 0) as [E0|E0]; [|destruct (Z.eqb_spec (s32 p) 1) as [E1|E1];
    [|destruct (Z.eqb_spec (s32 p) 2) as [E2|E2]]].
  - replace (scr_end s - pos s) with (2 * (L * k - y s * k - x s))
      by (rewrite (w_scr _ Hw), (w_pos _ Hw); unfold vad; fold k L; lia).
    rewrite half, (w_pos _ Hw). fold k. apply (Hgo _ _ 0); try done; try lia.
    intros r c [Hr Hc]. fold k in Hc. fold L in Hr. unfold in_J.
    pose proof (row_le r L k). pose proof (row_pos r k).
    destruct (row_cases r (y s) k c Hc) as [->|[]]; lia.
  - replace (pos s - origin s) with (2 * (y s * k + x s))
      by (rewrite Ho, (w_pos _ Hw); unfold vad; fold k; lia).
    rewrite half, Ho. apply (Hgo _ _ 1); try done; try lia.
    intros r c [Hr Hc]. fold k in Hc. fold L in Hr. unfold in_J.
    pose proof (row_le r L k). pose proof (row_pos r k).
    destruct (row_cases r (y s) k c Hc) as [->|[]]; lia.
  - rewrite Ho. apply (Hgo _ _ 2); try done; try lia.
    intros r c [Hr Hc]. fold k in Hc. fold L in Hr. unfold in_J.
    pose proof (row_le r L k). pose proof (row_pos r k).
    destruct (row_cases r (y s) k c Hc) as [->|[]]; lia.
  - exists s. split_and!; try done. eapply shows_ext; [by apply shows_refl|].
    intros r c _. rewrite decide_False; [done|]. unfold in_J. lia.
Qed.

Lemma csi_K_runs s p :
  con_wf s -> exists s', csi_K p s = Ret tt s' /\ core s' = core s /\
    shows s s' (fun r c => if decide (in_K s (s32 p) r c) then Some (video_erase_char s)
                           else screen s r c).
Proof.
  intros Hw. pose proof (w_cols _ Hw) as [Hk _]. pose proof (w_x _ Hw). pose proof (w_y _ Hw).
  pose proof (w_inside _ Hw) as Hin. pose proof (w_origin _ Hw) as [Ho Ho0].
  pose proof (w_lines _ Hw).
  set (k := video_num_columns s) in *. set (L := video_num_lines s) in *.
  assert (L * k < 2 ^ 32) by nia.
  assert (y s * k + k <= L * k) by (apply row_le; lia).
  assert (0 <= y s * k) by (apply row_pos; lia).
  assert (Hst : pos s - 2 * x s = vad s (ow s + y s * k))
    by (rewrite (w_pos _ Hw); unfold vad; fold k; lia).
  unfold csi_K. run. cbv zeta. fold k.
  assert (Hgo : forall i n q, s32 p = q -> 0 <= i -> 0 <= n <= L * k -> i + n <= vlen s ->
    (forall r c, cell s r c -> (i <= ow s + r * k + c < i + n <-> in_K s q r c)) ->
    exists s', stosw_up (Z.to_nat (u32 n)) (vad s i) (video_erase_char s) s = Ret tt s' /\
      core s' = core s /\ shows s s' (fun r c => if decide (in_K s (s32 p) r c)
        then Some (video_erase_char s) else screen s r c)).
  { intros i n q -> Hi [Hn Hn'] Hl HP. rewrite u32_small by lia.
    destruct (erase_shows s i n (in_K s q) Hw Hi Hn Hl HP) as (s' & E & Hs & Hc). eauto. }
  destruct (Z.eqb_spec (s32 p) 0) as [E0|E0]; [|destruct (Z.eqb_spec (s32 p) 1) as [E1|E1];
    [|destruct (Z.eqb_spec (s32 p) 2) as [E2|E2]]].
  - destruct (Z.leb_spec k (x s)).
    + exists s. split_and!; try done. eapply shows_ext; [by apply shows_refl|].
      intros r c [Hr Hc]. fold k in Hc. rewrite decide_False; [done|]. unfold in_K. lia.
    + rewrite (w_pos _ Hw). fold k. apply (Hgo _ _ 0); try done; try lia.
      intros r c [Hr Hc]. fold k in Hc. fold L in Hr. unfold in_K.
      destruct (row_cases r (y s) k c Hc) as [->|[]]; lia.
  - rewrite Hst. replace (if x s <? k then x s else k) with (x s)
      by (destruct (Z.ltb_spec (x s) k); lia).
    apply (Hgo _ _ 1); try done; try lia.
    intros r c [Hr Hc]. fold k in Hc. fold L in Hr. unfold in_K.
    destruct (row_cases r (y s) k c Hc) as [->|[]]; lia.
  - rewrite Hst. apply (Hgo _ _ 2); try done; try lia.
    intros r c [Hr Hc]. fold k in Hc. fold L in Hr. unfold in_K.
    destruct (row_cases r (y s) k c Hc) as [->|[]]; lia.
  - exists s. split_and!; try done. eapply shows_ext; [by apply shows_refl|].
    intros r c _. rewrite decide_False; [done|]. unfold in_K. lia.
Qed.

(** ** Every character keeps the invariant *)

Lemma cfg_lines s s' : cfg s' = cfg s ->
  video_num_lines s' = video_num_lines s /\ video_num_columns s' = video_num_columns s /\
  video_mem_start s' = video_mem_start s /\ video_erase_char s' = video_erase_char s.
Proof. unfold cfg. by intros [=]. Qed.

Lemma region_wf s t b :
  con_wf s -> 0 <= t < b -> b <= video_num_lines s ->
  con_wf (s <| top := t |> <| bottom := b |>).
Proof. intros [] Ht Hb. by split. Qed.

Lemma keeps_region s m :
  con_wf s -> (forall s', con_wf s' -> keeps m s') -> keeps (with_region m) s.
Proof.
  intros Hw Hm. unfold with_region. apply keeps_get, keeps_modify_then; [done|].
  pose proof (w_y _ Hw) as Hy.
  set (s1 := s <| top := y s |> <| bottom := video_num_lines s |>).
  assert (Hw1 : con_wf s1) by (apply region_wf; [done|lia|lia]).
  apply keeps_bind; [by apply Hm|]. intros _ s2 Hw2 Hc2.
  apply keeps_modify; [|done]. apply region_wf; [done|apply (w_region _ Hw)|].
  rewrite (proj1 (cfg_lines _ _ Hc2)). apply (w_region _ Hw).
Qed.

Lemma keeps_times n m s :
  con_wf s -> (forall s', con_wf s' -> keeps m s') -> keeps (times n m) s.
Proof.
  intros Hw Hm. revert s Hw. induction n as [|n IH]; intros s Hw; cbn [times];
    [by apply keeps_ret|].
  apply keeps_bind; [by apply Hm|]. intros _ s' Hw' _. by apply IH.
Qed.

Lemma keeps_insert_char s : con_wf s -> keeps insert_char s.
Proof. intros. eapply keeps_shows. by apply insert_char_runs. Qed.
Lemma keeps_delete_char s : con_wf s -> keeps delete_char s.
Proof. intros. eapply keeps_shows. by apply delete_char_runs. Qed.
Lemma keeps_scrup s : con_wf s -> keeps scrup s.
Proof. intros. eapply keeps_shows. by apply scrup_runs. Qed.
Lemma keeps_scrdown s : con_wf s -> keeps scrdown s.
Proof. intros. eapply keeps_shows. by apply scrdown_runs. Qed.
Lemma keeps_csi_J p s : con_wf s -> keeps (csi_J p) s.
Proof. intros Hw. destruct (csi_J_runs s p Hw) as (s' & E & _ & ? & ? & _). by exists tt, s'. Qed.
Lemma keeps_csi_K p s : con_wf s -> keeps (csi_K p) s.
Proof. intros Hw. destruct (csi_K_runs s p Hw) as (s' & E & _ & ? & ? & _). by exists tt, s'. Qed.

Lemma par_wf s i v : con_wf s -> 0 <= v -> con_wf (s <| par ::= zset i v |>).
Proof.
  intros [] Hv. split; try done; cbn; [by rewrite length_zset|].
  unfold zset. destruct (i <? 0); [done|]. by apply Forall_insert.
Qed.
Lemma state_wf s v : con_wf s -> con_wf (s <| state := v |>).
Proof. intros []. by split. Qed.

Lemma getpar_run i s :
  con_wf s -> 0 <= i < NPAR -> exists v, getpar i s = Ret v s /\ 0 <= v.
Proof.
  intros Hw Hi. destruct (zget_is_Some (par s) i) as [v E];
    [rewrite (w_par _ Hw); unfold NPAR in *; lia|].
  exists v. unfold getpar. run. rewrite E. split; [done|].
  pose proof (w_pars _ Hw) as Hf. rewrite Forall_lookup in Hf.
  unfold zget in E. destruct (i <? 0); [done|]. eauto.
Qed.

(** [m] returns a parameter of the escape sequence, and keeps the invariant. *)
Definition gives_par (m : M con Z) (s : con) : Prop :=
  exists v s', m s = Ret v s' /\ 0 <= v /\ con_wf s' /\ cfg s' = cfg s.

Lemma gives_getpar i s : con_wf s -> 0 <= i < NPAR -> gives_par (getpar i) s.
Proof. intros Hw Hi. destruct (getpar_run i s Hw Hi) as (v & E & Hv). by exists v, s. Qed.

Lemma gives_keeps m s : gives_par m s -> keeps m s.
Proof. intros (v & s' & E & _ & Hw & Hc). by exists v, s'. Qed.

Lemma keeps_setpar i v s : con_wf s -> 0 <= i < NPAR -> keeps (setpar i v) s.
Proof.
  intros Hw Hi. apply keeps_bind; [by apply gives_keeps, gives_getpar|]. intros _ s' Hw' _.
  apply keeps_modify; [|done]. apply par_wf; [done|apply u32_range].
Qed.

Lemma gives_bind {A} (m : M con A) (k : A -> M con Z) s :
  keeps m s -> (forall a s', con_wf s' -> cfg s' = cfg s -> gives_par (k a) s') ->
  gives_par (bind m k) s.
Proof.
  intros (a & s1 & E & Hw & Hc) Hk. destruct (Hk a s1 Hw Hc) as (b & s2 & E2 & Hb & Hw2 & Hc2).
  exists b, s2. rewrite (bind_ret _ _ _ _ _ E). split_and!; [done..|]. by rewrite Hc2.
Qed.

Lemma keeps_par m k s :
  gives_par m s -> (forall v s', 0 <= v -> con_wf s' -> cfg s' = cfg s -> keeps (k v) s') ->
  keeps (bind m k : M con unit) s.
Proof.
  intros (v & s1 & E & Hv & Hw & Hc) Hk. destruct (Hk v s1 Hv Hw Hc) as (b & s2 & E2 & Hw2 & Hc2).
  exists b, s2. rewrite (bind_ret _ _ _ _ _ E). split_and!; [done..|]. by rewrite Hc2.
Qed.

Lemma gives_update (c : Z -> bool) (f : Z -> Z) i s :
  con_wf s -> 0 <= i < NPAR ->
  gives_par (let! p := getpar i in when (c p) (setpar i (f p)) ;; getpar i) s.
Proof.
  intros Hw Hi. apply gives_bind; [by apply gives_keeps, gives_getpar|]. intros p s1 Hw1 _.
  apply gives_bind; [apply keeps_when; [done|intros _; by apply keeps_setpar]|].
  intros _ s2 Hw2 _. by apply gives_getpar.
Qed.

Lemma gives_atleast1 s : con_wf s -> gives_par atleast1 s.
Proof. intros Hw. apply (gives_update (fun p => p =? 0) (fun p => p + 1) 0); done. Qed.
Lemma gives_from1 i s : con_wf s -> 0 <= i < NPAR -> gives_par (from1 i) s.
Proof. intros Hw. apply (gives_update truth (fun p => p - 1)); done. Qed.

Lemma keeps_set_region s : con_wf s -> keeps set_region s.
Proof.
  intros Hw. unfold set_region. apply keeps_par; [by apply gives_from1|].
  intros p0 s1 H0 Hw1 _. apply keeps_par; [by apply gives_getpar|].
  intros p1 s2 _ Hw2 _. apply keeps_get.
  apply keeps_bind; [apply keeps_when; [done|intros _; by apply keeps_setpar]|].
  intros _ s3 Hw3 Hc3. apply keeps_par; [by apply gives_getpar|].
  intros q s4 Hq Hw4 Hc4. apply keeps_when; [done|]. intros [H1 H2]%andb_prop. zb.
  apply keeps_modify; [|done]. apply region_wf; [done|lia|].
  destruct (cfg_lines _ _ Hc3) as [E3 _]. destruct (cfg_lines _ _ Hc4) as [E4 _]. lia.
Qed.

Lemma keeps_save_cur s : con_wf s -> keeps save_cur s.
Proof. intros []. apply keeps_modify; [by split|done]. Qed.
Lemma keeps_restore_cur s : con_wf s -> keeps restore_cur s.
Proof. intros. apply keeps_get. by apply keeps_gotoxy. Qed.
Lemma keeps_csi_m s : con_wf s -> keeps csi_m s.
Proof. intros []. apply keeps_modify; [by split|done]. Qed.

Lemma keeps_case4 c s : con_wf s -> keeps (case4 c) s.
Proof.
  intros Hw0. unfold case4. apply keeps_modify_then; [done|]. apply keeps_get.
  set (s1 := s <| state := 0 |>). assert (Hw : con_wf s1) by by apply state_wf.
  assert (Hat : forall k, (forall p s', con_wf s' -> keeps (k p) s') ->
    keeps (bind atleast1 k : M con unit) s1)
    by (intros k Hk; apply keeps_par; [by apply gives_atleast1|eauto]).
  assert (Hfr : forall i k, 0 <= i < NPAR -> (forall p s', con_wf s' -> keeps (k p) s') ->
    keeps (bind (from1 i) k : M con unit) s1)
    by (intros i k Hi Hk; apply keeps_par; [by apply gives_from1|eauto]).
  assert (Hgp : forall k, (forall p s', con_wf s' -> keeps (k p) s') ->
    keeps (bind (getpar 0) k : M con unit) s1)
    by (intros k Hk; apply keeps_par; [by apply gives_getpar|eauto]).
  repeat match goal with |- keeps (if _ then _ else _) _ => apply keeps_if end;
    try (apply Hat; intros; by apply keeps_gotoxy);
    try (apply Hfr; [done|]; intros; by apply keeps_gotoxy);
    try (by apply keeps_csi_m); try (by apply keeps_set_region);
    try (by apply keeps_save_cur); try (by apply keeps_restore_cur); try (by apply keeps_ret);
    try (apply Hgp; intros p s' Hw'; first
      [ by apply keeps_csi_J | by apply keeps_csi_K
      | apply keeps_get, keeps_times; [done|]; intros; first
        [ by apply keeps_insert_char | by apply keeps_delete_char
        | apply keeps_region; [done|]; intros; first
          [ by apply keeps_scrup | by apply keeps_scrdown ] ] ]).
  apply Hfr; [done|]. intros p0 s2 Hw2. apply keeps_par; [by apply gives_from1|].
  intros. by apply keeps_gotoxy.
Qed.

Lemma keeps_case3 c s : con_wf s -> keeps (case3 c) s.
Proof.
  intros Hw. unfold case3. apply keeps_get. pose proof (w_npar _ Hw) as Hn.
  destruct ((c =? 59) && (npar s <? NPAR - 1)) eqn:E.
  - apply andb_prop in E as [_ E%Z.ltb_lt]. apply keeps_modify; [|done].
    destruct Hw. split; try done. cbn. lia.
  - apply keeps_if.
    + apply keeps_par; [by apply gives_getpar|]. intros p s' _ Hw' _. by apply keeps_setpar.
    + apply keeps_modify_then; [done|]. by apply keeps_case4, state_wf.
Qed.

Lemma keeps_case2 c s : con_wf s -> keeps (case2 c) s.
Proof.
  intros Hw. unfold case2. apply keeps_modify_then; [done|].
  match goal with |- keeps _ ?t => assert (Hw' : con_wf t) end.
  { destruct Hw. split; try done. cbn. by apply Forall_replicate. }
  apply keeps_if; [by apply keeps_ret|by apply keeps_case3].
Qed.

Lemma keeps_false (m : M con unit) s : keeps m s -> keeps (m ;; ret false) s.
Proof. intros H. apply keeps_bind; [done|]. intros. by apply keeps_ret. Qed.

Lemma keeps_case1 c s : con_wf s -> keeps (case1 c) s.
Proof.
  intros Hw. unfold case1. apply keeps_modify_then; [done|]. apply keeps_get.
  set (s1 := s <| state := 0 |>). assert (Hw1 : con_wf s1) by by apply state_wf.
  repeat match goal with |- keeps (if _ then _ else _) _ => apply keeps_if end;
    try (by apply keeps_ret); apply keeps_false;
    first [ by apply keeps_gotoxy | by apply keeps_ri | by apply keeps_lf
          | by apply keeps_save_cur | by apply keeps_restore_cur
          | apply keeps_modify; [by apply state_wf|done] ].
Qed.

(** The cursor after writing a character or a tab, before the wrap. *)
Lemma moved_right_wf s n :
  con_wf s -> 0 <= n <= 8 ->
  let s1 := s <| x ::= Z.add n |> <| pos ::= Z.add (2 * n) |> in
  (x s1 <= video_num_columns s1 -> con_wf s1) /\
  (video_num_columns s1 < x s1 -> con_wf (wrapped s1)).
Proof.
  intros Hw Hn s1. pose proof (w_x _ Hw). pose proof (w_cols _ Hw) as [Hk _]. split; intros Hx.
  - apply (at_wf s (n + x s) (y s) (2 * n + pos s)); [done|cbn in Hx; lia|apply Hw|].
    rewrite (w_pos _ Hw). unfold vad. lia.
  - apply (at_wf s (n + x s - video_num_columns s) (y s) (2 * n + pos s - video_size_row s));
      [done|cbn in Hx; lia|apply Hw|].
    rewrite (w_pos _ Hw), (w_row _ Hw). unfold vad. lia.
Qed.

(** The wrap at the right margin, before a printable character. *)
Lemma wrapped_wf s :
  con_wf s -> x s = video_num_columns s -> con_wf (wrapped s).
Proof.
  intros Hw Hx. pose proof (w_cols _ Hw) as [Hk _].
  apply (at_wf s (x s - video_num_columns s) (y s) (pos s - video_size_row s));
    [done|lia|apply Hw|].
  rewrite (w_pos _ Hw), (w_row _ Hw). unfold vad. lia.
Qed.

(** The row of the cursor and the screen after a line feed. *)
Definition lf_row (s : con) : Z := if y s + 1 <? bottom s then y s + 1 else y s.
Definition lf_screen (s : con) : Z -> Z -> option Z :=
  if y s + 1 <? bottom s then screen s else up s (top s) (bottom s).
(** [core] without the cursor. *)
Definition settings (s : con) :=
  (top s, bottom s, (state s, npar s, par s, ques s), (attr s, saved_x s, saved_y s)).

Lemma core_split s s' : core s' = core s -> x s' = x s /\ y s' = y s /\ settings s' = settings s.
Proof. unfold core, settings. intros [=]. split_and!; congruence. Qed.

Lemma lf_runs s :
  con_wf s -> exists s', lf s = Ret tt s' /\ shows s s' (lf_screen s) /\
    x s' = x s /\ y s' = lf_row s /\ settings s' = settings s.
Proof.
  intros Hw. destruct (keeps_lf s Hw) as (u & s1 & E & Hw1 & Hc1).
  unfold lf, lf_row, lf_screen in *. rewrite bind_get in E |- *.
  destruct (Z.ltb_spec (y s + 1) (bottom s)) as [Hlt|Hge].
  - rewrite E. unfold modify in E. destruct u. injection E as <-.
    eexists. split; [done|]. split; [by split|]. split_and!; [done|cbn; lia|done].
  - destruct (scrup_runs s Hw) as (s' & E2 & Hs & Hc). apply core_split in Hc as (? & ? & ?).
    eauto 10.
Qed.

(** The word a printable character becomes. *)
Definition glyph (s : con) (c : Z) : Z := Z.lor (Z.shiftl (attr s) 8) c.
Definition put_at (f : Z -> Z -> option Z) (r0 c0 v r c : Z) : option Z :=
  if decide (r = r0 /\ c = c0) then Some v else f r c.

(** Writing at a cursor that is on the screen. *)
Lemma put_glyph s v :
  con_wf s -> x s < video_num_columns s ->
  exists s', (wrw (pos s) v ;; modify (fun s => s <| pos ::= Z.add 2 |> <| x ::= Z.add 1 |>)) s
      = Ret tt s' /\
    shows s s' (put_at (screen s) (y s) (x s) v) /\ x s' = x s + 1 /\ y s' = y s /\
    settings s' = settings s.
Proof.
  intros Hw Hx. destruct (draws_shows _ s _ (put_at (screen s) (y s) (x s) v) Hw
    (wrw_pos_draws s v Hw Hx)) as (s1 & E & (Hw1 & Hc1 & Hs1) & Hcore & _).
  { intros r c [Hr Hc]. unfold put_at, screen. pose proof (w_x _ Hw).
    repeat case_decide; try done; [|exfalso; naive_solver lia].
    exfalso. destruct (cell_inj (video_num_columns s) r c (y s) (x s)); lia || tauto. }
  rewrite (bind_ret _ _ _ _ _ E). apply core_split in Hcore as (Ex & Ey & Est).
  destruct (moved_right_wf s1 1 Hw1 ltac:(lia)) as [Hm _].
  destruct (cfg_lines _ _ Hc1) as (_ & Ecol & _).
  eexists. split; [done|]. split; [|split_and!; [cbn; lia|done|done]].
  split; [apply Hm; cbn; lia|]. split; [done|]. done.
Qed.

Lemma case0_printable erase c s :
  con_wf s -> printable c = true ->
  exists s', case0 erase c s = Ret tt s' /\ settings s' = settings s /\
    (if video_num_columns s <=? x s then
       shows s s' (put_at (lf_screen (wrapped s)) (lf_row s) 0 (glyph s c)) /\
       x s' = 1 /\ y s' = lf_row s
     else shows s s' (put_at (screen s) (y s) (x s) (glyph s c)) /\
       x s' = x s + 1 /\ y s' = y s).
Proof.
  intros Hw Hp. unfold case0. run. rewrite Hp. pose proof (w_x _ Hw). pose proof (w_cols _ Hw) as [Hk _].
  destruct (Z.leb_spec (video_num_columns s) (x s)) as [Hge|Hlt]; cbn [when].
  - assert (Hx : x s = video_num_columns s) by lia.
    destruct (lf_runs (wrapped s) (wrapped_wf s Hw Hx)) as (s1 & E & (Hw1 & Hc1 & Hs1) & Ex & Ey & Est).
    assert (Ewr : wrap s = Ret tt s1) by (unfold wrap; rewrite bind_modify; exact E).
    rewrite (bind_ret _ _ _ _ _ Ewr), bind_get.
    assert (Ea : attr s1 = attr (wrapped s)) by (unfold settings in Est; congruence).
    change (attr (wrapped s)) with (attr s) in Ea.
    assert (Ex1 : x s1 = 0) by (rewrite Ex; cbn; lia).
    destruct (cfg_lines _ _ Hc1) as (EL & Ecol & _). cbn in EL, Ecol.
    destruct (put_glyph s1 (Z.lor (Z.shiftl (attr s1) 8) c) Hw1) as
      (s2 & E2 & (Hw2 & Hc2 & Hs2) & Ex2 & Ey2 & Est2); [lia|].
    rewrite E2. exists s2. split; [done|]. split; [by rewrite Est2, Est|].
    split; [|split; [lia|by rewrite Ey2, Ey]].
    split; [done|]. split; [by rewrite Hc2, Hc1|].
    intros r k0 [Hr Hc]. rewrite Hs2 by (split; rewrite ?EL, ?Ecol; done).
    unfold put_at, glyph. rewrite Ex1, Ey, Ea. change (lf_row (wrapped s)) with (lf_row s).
    case_decide; [done|]. apply Hs1. by split.
  - rewrite bind_ret_l, bind_get.
    destruct (put_glyph s (Z.lor (Z.shiftl (attr s) 8) c) Hw Hlt) as
      (s2 & E2 & Hs2 & Ex2 & Ey2 & Est2). rewrite E2. eauto 10.
Qed.

Lemma keeps_case0 erase c s : con_wf s -> keeps (case0 erase c) s.
Proof.
  intros Hw. destruct (printable c) eqn:Hp.
  { destruct (case0_printable erase c s Hw Hp) as (s' & E & _ & Hs). exists tt, s'.
    split; [done|]. destruct (_ <=? _); destruct Hs as [(? & ? & _) _]; done. }
  unfold case0. rewrite Hp. apply keeps_get.
  repeat match goal with |- keeps (if _ then _ else _) _ => apply keeps_if end;
    try first [ by apply keeps_ret | by apply keeps_lf | by apply keeps_cr | by apply keeps_del
      | apply keeps_modify; [by apply state_wf|done] ].
  - apply keeps_when; [done|]. unfold truth. intros Hx%negb_true_iff%Z.eqb_neq.
    apply keeps_modify; [by apply left_wf|done].
  - assert (Hn : 0 <= 8 - Z.land (x s) 7 <= 8).
    { change 7 with (Z.ones 3). rewrite Z.land_ones by lia.
      pose proof (Z.mod_pos_bound (x s) (2 ^ 3)). lia. }
    set (n := 8 - Z.land (x s) 7) in *. cbv zeta.
    destruct (moved_right_wf s n Hw Hn) as [H1 H2].
    apply keeps_modify_then; [done|]. apply keeps_get. unfold when.
    destruct (Z.ltb_spec (video_num_columns (s <| x ::= Z.add n |> <| pos ::= Z.add (2 * n) |>))
      (x (s <| x ::= Z.add n |> <| pos ::= Z.add (2 * n) |>))) as [Hlt|Hge].
    + apply keeps_wrap. by apply H2.
    + apply keeps_ret. apply H1. lia.
Qed.

(** Outside of escape sequences the escape state stays as it is. *)
Lemma case0_quiet erase c s :
  con_wf s -> c <> 27 ->
  exists s', case0 erase c s = Ret tt s' /\ con_wf s' /\ state s' = state s.
Proof.
  intros Hw Hc. destruct (keeps_case0 erase c s Hw) as ([] & s' & E & Hw' & _).
  exists s'. split; [done|]. split; [done|]. revert E.
  destruct (printable c) eqn:Hp.
  { destruct (case0_printable erase c s Hw Hp) as (s1 & -> & Hst & _). intros [= <-].
    unfold settings in Hst. congruence. }
  assert (Hlf : forall t t', con_wf t -> lf t = Ret tt t' -> state t' = state t).
  { intros t t' Ht. destruct (lf_runs t Ht) as (t1 & -> & _ & _ & _ & Hst). intros [= <-].
    unfold settings in Hst. congruence. }
  unfold case0. rewrite bind_get, Hp, (proj2 (Z.eqb_neq c 27)) by done.
  destruct (_ || _); [by apply Hlf|]. destruct (c =? 13); [by intros [= <-]|].
  destruct (c =? erase).
  { unfold del, truth. rewrite bind_get.
    destruct (Z.eqb_spec (x s) 0) as [|Hx]; [by intros [= <-]|]. cbn [negb].
    rewrite bind_modify, bind_get. set (s1 := s <| pos ::= _ |> <| x ::= _ |>).
    assert (Hw1 : con_wf s1) by (by apply left_wf).
    destruct (wrw_pos_draws s1 (video_erase_char s1) Hw1) as (l & -> & _).
    { pose proof (w_x _ Hw). cbn. lia. }
    by intros [= <-]. }
  destruct (c =? 8); [unfold when; destruct (truth (x s)); by intros [= <-]|].
  destruct (c =? 9); [|by intros [= <-]]. cbv zeta. rewrite bind_modify, bind_get.
  set (n := 8 - Z.land (x s) 7). set (s1 := s <| x ::= _ |> <| pos ::= _ |>).
  assert (Hn : 0 <= n <= 8).
  { unfold n. change 7 with (Z.ones 3). rewrite Z.land_ones by lia.
    pose proof (Z.mod_pos_bound (x s) (2 ^ 3)). lia. }
  destruct (moved_right_wf s n Hw Hn) as [_ H2]. fold s1 in H2. unfold when.
  destruct (Z.ltb_spec (video_num_columns s1) (x s1)); [|by intros [= <-]].
  unfold wrap. rewrite bind_modify. intros E. apply (Hlf (wrapped s1)) in E; [done|by apply H2].
Qed.

Lemma keeps_con_char erase c s : con_wf s -> keeps (con_char erase c) s.
Proof.
  intros Hw. apply keeps_get.
  repeat match goal with |- keeps (if _ then _ else _) _ => apply keeps_if end;
    try (by apply keeps_ret); try (by apply keeps_case1); apply keeps_false;
    [by apply keeps_case0|by apply keeps_case2|by apply keeps_case3|by apply keeps_case4].
Qed.

(** Characters in sequence, without what respond() adds. *)
Fixpoint con_chars (erase : Z) (l : list Z) : M con unit :=
  match l with
  | [] => ret tt
  | c :: l' => let! _ := con_char erase c in con_chars erase l'
  end.

Lemma con_chars_keeps erase l s : con_wf s -> keeps (con_chars erase l) s.
Proof.
  revert s. induction l as [|c l IH]; intros s Hw; [by apply keeps_ret|].
  apply keeps_bind; [by apply keeps_con_char|]. intros. by apply IH.
Qed.

(** C29.  Whatever characters and escape sequences are written, the console
    never reads or writes outside of the video memory, every loop ends, and
    the invariant holds again: the cursor is on the display and [pos] is its
    address, the scroll region is not empty, and the display lies in the
    video memory. *)
Theorem console_safe erase l s :
  con_wf s -> exists s', con_chars erase l s = Ret tt s' /\ con_wf s' /\ cfg s' = cfg s.
Proof. intros Hw. destruct (con_chars_keeps erase l s Hw) as ([] & s' & ?). eauto. Qed.

(** ** A small display for the examples: 8 columns, 3 rows, room for 8 *)

Definition demo_con : con :=
  {| video_type := VIDEO_TYPE_EGAC; video_num_columns := 8; video_size_row := 16;
     video_num_lines := 3; video_mem_start := 0xb8000; video_mem_end := 0xb8080;
     video_erase_char := 0x0720; origin := 0xb8000; scr_end := 0xb8030; pos := 0xb8030;
     x := 8; y := 2; top := 0; bottom := 3; state := 0; npar := 0;
     par := replicate 16 0; ques := 0; attr := 7; saved_x := 0; saved_y := 0;
     vram := replicate 64 0x0720; crtc := fun _ => 0 |}.

Lemma demo_con_wf : con_wf demo_con.
Proof.
  assert (vlen demo_con = 64) as El by done. assert (ow demo_con = 0) as Eo by done.
  split; rewrite ?El, ?Eo; unfold vad; cbn; try done; try lia.
  - split; [lia|]. by exists 4.
  - by repeat constructor.
Qed.

Example scroll_refines_witness :
  exists s', scrup demo_con = Ret tt s' /\ shows demo_con s' (up demo_con 0 3).
Proof.
  destruct (scroll_refines demo_con demo_con_wf) as [(s' & E & Hs & _) _].
  exists s'. split; [exact E|exact Hs].
Defined.

(** "Hi", an unknown sequence, and a parameter that overflows. *)
Example console_safe_witness :
  exists s', con_chars 127 [72; 105; 27; 33; 27; 91; 57; 57; 57; 57; 57; 57; 57; 57; 57; 57; 76; 10]
    demo_con = Ret tt s' /\ con_wf s'.
Proof.
  destruct (console_safe 127
    [72; 105; 27; 33; 27; 91; 57; 57; 57; 57; 57; 57; 57; 57; 57; 57; 76; 10]
    demo_con demo_con_wf) as (s' & E & Hw & _).
  exists s'. split; [exact E|exact Hw].
Defined.

(** A printable character appears at the cursor with the current
    attribute, and the cursor goes one column right; at the right margin a
    line feed is done first, scrolling when the cursor is on the last row of
    the region, and the character starts the row.  Nothing else changes. *)
Theorem printable_appears erase c s :
  con_wf s -> state s = 0 -> printable c = true ->
  exists s', con_char erase c s = Ret false s' /\ settings s' = settings s /\
    (if video_num_columns s <=? x s then
       shows s s' (put_at (lf_screen (wrapped s)) (lf_row s) 0 (glyph s c)) /\
       x s' = 1 /\ y s' = lf_row s
     else shows s s' (put_at (screen s) (y s) (x s) (glyph s c)) /\
       x s' = x s + 1 /\ y s' = y s).
Proof.
  intros Hw Hs Hp. destruct (case0_printable erase c s Hw Hp) as (s' & E & H).
  exists s'. unfold con_char. run. rewrite Hs. cbn [Z.eqb].
  by rewrite (bind_ret _ _ _ _ _ E).
Qed.

Example printable_appears_witness :
  exists s', con_char 127 65 demo_con = Ret false s' /\ x s' = 1 /\ y s' = 2 /\
    screen s' 2 0 = Some 0x0741.
Proof.
  destruct (printable_appears 127 65 demo_con demo_con_wf) as (s' & E & _ & Hs & Hx & Hy);
    [reflexivity|reflexivity|].
  exists s'. split; [exact E|]. split; [exact Hx|]. split; [exact Hy|].
  destruct Hs as (_ & _ & Hs). rewrite Hs; [reflexivity|]. split; split; cbn; lia.
Defined.

(** Editing within the display.  insert_char() opens a blank at the
    cursor and shifts the rest of the row right; delete_char() closes the
    row up and blanks its last column; csi_J() and csi_K() blank the display
    or the row before, from, or around the cursor according to their
    parameter and ignore any other one.  The cursor and the rest of the screen
    stay as they were. *)
Theorem editing_spec s p :
  con_wf s ->
  (exists s', insert_char s = Ret tt s' /\ core s' = core s /\ shows s s' (inserted s)) /\
  (exists s', delete_char s = Ret tt s' /\ core s' = core s /\ shows s s' (deleted s)) /\
  (exists s', csi_J p s = Ret tt s' /\ core s' = core s /\ shows s s' (fun r c =>
     if decide (in_J s (s32 p) r c) then Some (video_erase_char s) else screen s r c)) /\
  (exists s', csi_K p s = Ret tt s' /\ core s' = core s /\ shows s s' (fun r c =>
     if decide (in_K s (s32 p) r c) then Some (video_erase_char s) else screen s r c)).
Proof.
  intros Hw. split_and!.
  - destruct (insert_char_runs s Hw) as (s' & ? & ? & ?). eauto.
  - destruct (delete_char_runs s Hw) as (s' & ? & ? & ?). eauto.
  - by apply csi_J_runs.
  - by apply csi_K_runs.
Qed.

Example editing_spec_witness :
  exists s', csi_J 2 demo_con = Ret tt s' /\ screen s' 1 5 = Some 0x0720.
Proof.
  destruct (editing_spec demo_con 2 demo_con_wf) as (_ & _ & (s' & E & _ & _ & _ & Hs) & _).
  exists s'. split; [exact E|]. rewrite Hs; [reflexivity|]. split; split; cbn; lia.
Defined.

(** ** Escape sequences *)

Lemma con_chars_app erase l1 l2 s :
  con_chars erase (l1 ++ l2) s = (con_chars erase l1 ;; con_chars erase l2) s.
Proof.
  revert s. induction l1 as [|c l1 IH]; intros s; [done|]. cbn [app con_chars].
  rewrite bind_assoc. unfold bind at 1 2. destruct (con_char erase c s); [apply IH|done].
Qed.

Definition digit (c : Z) : Prop := 48 <= c <= 57.
(** The value of decimal digits after [v], in a machine word. *)
Definition decimal (v : Z) (ds : list Z) : Z := fold_left (fun a c => u32 (10 * a + c - 48)) ds v.

(** Digits in state 3 build up the current parameter. *)
Lemma digits_run erase ds : forall s v,
  Forall digit ds -> state s = 3 -> zget (par s) (npar s) = Some v ->
  con_chars erase ds s = Ret tt (s <| par ::= zset (npar s) (decimal v ds) |>).
Proof.
  induction ds as [|d ds IH]; intros s v Hd Hs Hp; cbn [con_chars].
  { unfold decimal. cbn. rewrite zset_id by done. by destruct s. }
  inversion Hd as [|?? Hd1 Hd2]; subst. unfold digit in Hd1.
  assert (E : con_char erase d s = Ret false (s <| par ::= zset (npar s) (u32 (10 * v + d - 48)) |>)).
  { unfold con_char. run. rewrite Hs. cbn [Z.eqb Pos.eqb]. unfold case3. run.
    rewrite (proj2 (Z.eqb_neq d 59)) by lia. cbn [andb].
    rewrite (proj2 (Z.leb_le 48 d)), (proj2 (Z.leb_le d 57)) by lia. cbn [andb].
    unfold setpar, getpar. run. done. }
  rewrite (bind_ret _ _ _ _ _ E). rewrite (IH _ (u32 (10 * v + d - 48)));
    [|done|done|cbn; apply zget_zset_eq; by eapply zget_Some_range].
  unfold decimal. cbn [fold_left]. destruct s. cbn. by rewrite zset_zset.
Qed.

(** The start of a parameter list. *)
Definition fresh_pars (s : con) : con :=
  s <| par := replicate (Z.to_nat NPAR) 0 |> <| npar := 0 |> <| state := 3 |> <| ques := 0 |>.

Lemma csi_start erase c l s :
  state s = 0 -> c <> 63 ->
  con_chars erase (27 :: 91 :: c :: l) s = con_chars erase (c :: l) (fresh_pars s).
Proof.
  intros Hs Hc. cbn [con_chars].
  assert (E1 : con_char erase 27 s = Ret false (s <| state := 1 |>)).
  { unfold con_char. run. rewrite Hs. done. }
  rewrite (bind_ret _ _ _ _ _ E1).
  assert (E2 : con_char erase 91 (s <| state := 1 |>) = Ret false (s <| state := 2 |>)) by done.
  rewrite (bind_ret _ _ _ _ _ E2). unfold bind.
  replace (con_char erase c (s <| state := 2 |>)) with (con_char erase c (fresh_pars s));
    [done|].
  unfold con_char. rewrite !bind_get.
  change (state (fresh_pars s)) with 3. change (state (s <| state := 2 |>)) with 2.
  cbn [Z.eqb Pos.eqb]. unfold case2. rewrite bind_assoc, bind_modify.
  rewrite (proj2 (Z.eqb_neq c 63)) by done. done.
Qed.

Lemma from1_value i s v :
  zget (par s) i = Some v -> 0 <= v < 2 ^ 32 ->
  from1 i s = Ret (Z.max 0 (v - 1)) (s <| par ::= zset i (Z.max 0 (v - 1)) |>).
Proof.
  intros Hp Hv. unfold from1, getpar. run. unfold truth.
  destruct (Z.eqb_spec v 0) as [->|Hne]; cbn [negb when].
  - run. unfold ret. f_equal. cbn. rewrite zset_id by done. rewrite Hp. by destruct s.
  - unfold setpar, getpar. run. rewrite u32_small by lia. cbn [par upd].
    rewrite zget_zset_eq by (by eapply zget_Some_range).
    replace (Z.max 0 (v - 1)) with (v - 1) by lia. done.
Qed.

(** The final H of a sequence with the parameters [v0] and [v1]. *)
Lemma csi_H_run erase s v0 v1 :
  state s = 3 -> zget (par s) 0 = Some v0 -> zget (par s) 1 = Some v1 ->
  0 <= v0 < 2 ^ 32 -> 0 <= v1 < 2 ^ 32 ->
  exists ps, con_char erase 72 s =
    (gotoxy (Z.max 0 (v1 - 1)) (Z.max 0 (v0 - 1)) ;; ret false)
      (s <| state := 0 |> <| par := ps |>).
Proof.
  intros Hs H0 H1 Hv0 Hv1. unfold con_char. rewrite bind_get, Hs. cbn [Z.eqb Pos.eqb].
  set (s1 := s <| state := 0 |>).
  assert (E : case3 72 s = (let! p0 := from1 0 in let! p1 := from1 1 in gotoxy p1 p0) s1) by done.
  unfold bind at 1. rewrite E, (bind_ret _ _ _ _ _ (from1_value 0 s1 v0 H0 Hv0)).
  assert (Hp1 : zget (par (s1 <| par ::= zset 0 (Z.max 0 (v0 - 1)) |>)) 1 = Some v1)
    by (change (zget (zset 0 (Z.max 0 (v0 - 1)) (par s)) 1 = Some v1); by rewrite zget_zset_ne).
  rewrite (bind_ret _ _ _ _ _ (from1_value 1 _ v1 Hp1 Hv1)). eexists. reflexivity.
Qed.

Lemma decimal_range ds : 0 <= decimal 0 ds < 2 ^ 32.
Proof.
  destruct ds as [|d ds] using rev_ind; [done|].
  unfold decimal. rewrite fold_left_app. apply u32_range.
Qed.

(** Cursor addressing: ESC [ r ; c H, with any decimal numerals, moves
    the cursor to row [r-1], column [c-1] (0 counts as 1) when that is on the
    display, the position just right of a row included, and otherwise leaves
    it where it was; the screen is not touched and the next character is
    ordinary text. *)
Theorem cursor_address erase rs cs s :
  con_wf s -> state s = 0 -> Forall digit rs -> Forall digit cs ->
  let r := Z.max 0 (decimal 0 rs - 1) in
  let c := Z.max 0 (decimal 0 cs - 1) in
  exists s', con_chars erase (27 :: 91 :: rs ++ 59 :: cs ++ [72]) s = Ret tt s' /\
    con_wf s' /\ state s' = 0 /\ vram s' = vram s /\ origin s' = origin s /\
    (if decide (r < video_num_lines s /\ c <= video_num_columns s)
     then y s' = r /\ x s' = c else y s' = y s /\ x s' = x s).
Proof.
  intros Hw Hs Hr Hc r c.
  destruct (con_chars_keeps erase (27 :: 91 :: rs ++ 59 :: cs ++ [72]) s Hw) as ([] & s' & E & Hw' & _).
  exists s'. split; [done|]. split; [done|]. revert E.
  pose proof (decimal_range rs) as Hv0. pose proof (decimal_range cs) as Hv1.
  set (s1 := fresh_pars s).
  assert (Estart : con_chars erase (27 :: 91 :: rs ++ 59 :: cs ++ [72]) s =
    con_chars erase (rs ++ 59 :: cs ++ [72]) s1).
  { destruct rs as [|d rs]; cbn [app]; apply csi_start; try done.
    inversion Hr. unfold digit in *. lia. }
  rewrite Estart, con_chars_app.
  rewrite (bind_ret _ _ _ _ _ (digits_run erase rs s1 0 Hr eq_refl eq_refl)).
  set (s2 := s1 <| par ::= _ |>). change (59 :: cs ++ [72]) with ([59] ++ (cs ++ [72])).
  rewrite con_chars_app.
  set (s3 := s2 <| npar := 1 |>).
  assert (E3 : con_chars erase [59] s2 = Ret tt s3) by done.
  rewrite (bind_ret _ _ _ _ _ E3), con_chars_app.
  rewrite (bind_ret _ _ _ _ _ (digits_run erase cs s3 0 Hc eq_refl eq_refl)).
  set (s5 := s3 <| par ::= _ |>). intros E. cbn [con_chars] in E.
  apply bind_Ret_inv in E as (b & s4 & E & [= <-]).
  destruct (csi_H_run erase s5 (decimal 0 rs) (decimal 0 cs)) as [ps Eh]; try done.
  rewrite Eh in E. apply bind_Ret_inv in E as (u & s6 & E & [= _ <-]).
  set (s7 := s5 <| state := 0 |> <| par := ps |>) in E. fold r c in E.
  unfold gotoxy in E. rewrite bind_get in E. rewrite !u32_small in E by (unfold r, c; lia).
  change (video_num_columns s7) with (video_num_columns s) in E.
  change (video_num_lines s7) with (video_num_lines s) in E.
  destruct (Z.ltb_spec (video_num_columns s) c), (Z.leb_spec (video_num_lines s) r);
    cbn [orb] in E; injection E as _ <-; (case_decide; [try lia|try lia]); done.
Qed.

Example cursor_address_witness :
  exists s', con_chars 127 ([27; 91] ++ [50] ++ 59 :: [48; 52] ++ [72]) demo_con = Ret tt s' /\
    y s' = 1 /\ x s' = 3.
Proof.
  destruct (cursor_address 127 [50] [48; 52] demo_con demo_con_wf) as
    (s' & E & _ & _ & _ & _ & H); [reflexivity|repeat constructor; discriminate..|].
  exists s'. split; [exact E|exact H].
Defined.

(** ESC 7 and ESC 8 do not save and restore the cursor: the tests are
    on the column [x], not on the character.  After ESC, every character that
    does not start another sequence saves the cursor exactly in column 55
    and restores it exactly in column 56. *)
Theorem esc_save_needs_column erase c s :
  state s = 0 -> ~ In c [91; 69; 77; 68; 90] ->
  con_chars erase [27; c] s =
    ((if x s =? 55 then save_cur else if x s =? 56 then restore_cur else ret tt) s).
Proof.
  intros Hs Hc. cbn [con_chars].
  assert (E1 : con_char erase 27 s = Ret false (s <| state := 1 |>)).
  { unfold con_char. run. rewrite Hs. done. }
  rewrite (bind_ret _ _ _ _ _ E1). unfold bind at 1.
  change (con_char erase c (s <| state := 1 |>)) with (case1 c (s <| state := 1 |>)).
  unfold case1. rewrite bind_modify, bind_get.
  assert (Hn : forall v, In v [91; 69; 77; 68; 90] -> (c =? v) = false).
  { intros v Hv. apply Z.eqb_neq. intros ->. by apply Hc. }
  rewrite !Hn by (cbn; tauto).
  replace (s <| state := 1 |> <| state := 0 |>) with s by (destruct s; cbn in *; by subst).
  destruct (x s =? 55); [done|]. destruct (x s =? 56); [|done].
  unfold bind. by destruct (restore_cur s) as [[]|].
Qed.

Example esc_save_needs_column_witness :
  con_chars 127 [27; 55] demo_con = Ret tt demo_con.
Proof.
  rewrite (esc_save_needs_column 127 55 demo_con); [reflexivity|reflexivity|].
  intros H. repeat destruct H as [H|H]; discriminate || exact H.
Defined.

(** ** con_init() *)

Lemma put_desc_runs desc : forall s i,
  0 <= i -> i + Z.of_nat (length desc) <= vlen s ->
  exists l, put_desc desc (vad s i) s = Ret tt (set_vram s l) /\ length l = length (vram s).
Proof.
  induction desc as [|c desc IH]; intros s i Hi Hn; cbn [put_desc].
  { exists (vram s). split; [by destruct s|done]. }
  cbn [length] in Hn. destruct (vword_Some s i) as [w E]; [lia|].
  rewrite (bind_ret _ _ _ _ _ (rdw_run s i w E)).
  erewrite bind_ret; [|apply wrw_run; lia].
  set (s1 := set_vram s _).
  assert (Hl : length (vram s1) = length (vram s)) by apply length_zset.
  replace (vad s i + 2) with (vad s1 (i + 1)) by (unfold vad; cbn; lia).
  destruct (IH s1 (i + 1)) as (l & E' & Hl'); [lia|unfold vlen in *; rewrite Hl; lia|].
  exists l. rewrite E'. split; [done|congruence].
Qed.

(** The static variables before con_init(), in front of [n] words of video
    memory. *)
Definition boot_con (mem : list Z) : con :=
  {| video_type := 0; video_num_columns := 0; video_size_row := 0; video_num_lines := 0;
     video_mem_start := 0; video_mem_end := 0; video_erase_char := 0; origin := 0;
     scr_end := 0; pos := 0; x := 0; y := 0; top := 0; bottom := 0; state := 0; npar := 0;
     par := replicate (Z.to_nat NPAR) 0; ques := 0; attr := 7; saved_x := 0; saved_y := 0;
     vram := mem; crtc := fun _ => 0 |}.

(** The size of the video memory con_init() assumes, in words. *)
Definition video_words (mode ega_bx : Z) : Z :=
  let isega := negb (Z.land ega_bx 0xff =? 0x10) in
  if mode =? 7 then (if isega then 0x4000 else 0x1000)
  else (if isega then 0x2000 else 0x1000).

(** con_init() establishes the invariant of the console, with the
    cursor where the boot code left it, for every display type whose 25 rows
    fit into its video memory. *)
Theorem con_init_establishes ox oy mode cols bx mem :
  8 <= cols < 256 -> Z.Even cols -> 0 <= ox <= cols -> 0 <= oy < 25 ->
  Z.of_nat (length mem) = video_words mode bx -> 25 * cols <= video_words mode bx ->
  exists s', con_init ox oy mode cols bx (boot_con mem) = Ret tt s' /\ con_wf s' /\
    x s' = ox /\ y s' = oy /\ state s' = 0.
Proof.
  intros Hk He Hox Hoy Hlen Hfit. unfold con_init.
  destruct (display_type mode bx) as [[vt me] desc] eqn:Et.
  set (ms := if mode =? 7 then 0xb0000 else 0xb8000).
  assert (Hd : length desc = 4%nat /\ me = ms + 2 * Z.of_nat (length mem)).
  { rewrite Hlen. unfold display_type, video_words, ms in *.
    destruct (mode =? 7), (negb _); injection Et as <- <- <-; done. }
  destruct Hd as [Hd Hme]. rewrite <-Hlen in Hfit. clear Hlen Et.
  run. cbv beta. match goal with |- context [put_desc _ _ ;; _] =>
    match goal with |- context [bind _ _ ?t] => set (s1 := t) end end.
  replace (ms + cols * 2 - 8) with (vad s1 (cols - 4)) by (unfold vad, s1; cbn; lia).
  destruct (put_desc_runs desc s1 (cols - 4)) as (l & E & Hl); [lia|unfold vlen, s1; cbn; lia|].
  rewrite (bind_ret _ _ _ _ _ E). run. unfold gotoxy. rewrite bind_get.
  rewrite !u32_small by lia.
  match goal with |- context [if _ then ret tt else modify _] =>
    match goal with |- context [_ ?t = Ret tt _] => set (s2 := t) end end.
  change (video_num_columns s2) with cols. change (video_num_lines s2) with 25.
  destruct (Z.ltb_spec cols ox); [lia|]. destruct (Z.leb_spec 25 oy); [lia|]. cbn [orb].
  eexists. split; [done|]. split; [|done].
  assert (Ho : forall s, origin s = video_mem_start s -> ow s = 0)
    by (intros s Es; unfold ow; by rewrite Es, Z.sub_diag).
  assert (Hv : length l = length mem) by exact Hl.
  split; rewrite ?Ho by done; unfold vad, vlen; cbn -[Z.mul NPAR]; rewrite ?Hv; try done; try lia.
  - split; [lia|done].
  - by apply Forall_replicate.
Qed.

Example con_init_establishes_witness :
  exists s', con_init 0 12 3 80 0 (boot_con (replicate (Pos.to_nat 0x2000) 0)) = Ret tt s' /\
    con_wf s' /\ y s' = 12.
Proof.
  destruct (con_init_establishes 0 12 3 80 0 (replicate (Pos.to_nat 0x2000) 0)) as
    (s' & E & Hw & _ & Hy & _); [lia|by exists 40|lia|lia| |discriminate|].
  - rewrite length_replicate, positive_nat_Z. reflexivity.
  - exists s'. split; [exact E|]. split; [exact Hw|exact Hy].
Defined.
