(* ===== verification/Tty.v ===== *)
(** * Terminals: include/kernel/tty.h and drivers/char/tty/tty_io.c, and the
    loop of con_write() of console.c

    The ring buffer of a terminal queue, the line discipline copy_to_cooked(),
    tty_write(), and con_write() and respond(), which call each other through
    [tty->write] and copy_to_cooked(). *)

From S2P Require Import Prelude Task Sched WaitQ Block Lib.
From S2P Require Console.

(** ** The queues *)

Definition TTY_BUF_SIZE : Z := 1024.

Record tty_queue := Ttyq {
  data : Z; head : Z; tail : Z; proc_list : option nat; buf : list Z
}.
#[export] Instance eta_ttyq : Eta tty_queue :=
  fun q => Ttyq (data q) (head q) (tail q) (proc_list q) (buf q).

Definition INC (a : Z) : Z := Z.land (u32 (a + 1)) (TTY_BUF_SIZE - 1).
Definition DEC (a : Z) : Z := Z.land (u32 (a - 1)) (TTY_BUF_SIZE - 1).
Definition EMPTY (q : tty_queue) : bool := head q =? tail q.
Definition LEFT (q : tty_queue) : Z := Z.land (u32 (tail q - head q - 1)) (TTY_BUF_SIZE - 1).
Definition LAST (q : tty_queue) : option Z :=
  zget (buf q) (Z.land (TTY_BUF_SIZE - 1) (u32 (head q - 1))).
Definition FULL (q : tty_queue) : bool := negb (truth (LEFT q)).
Definition CHARS (q : tty_queue) : Z := Z.land (u32 (head q - tail q)) (TTY_BUF_SIZE - 1).
Definition GETCH : M tty_queue Z :=
  let! q := get in
  let! c := deref (zget (buf q) (tail q)) in
  modify (fun q => q <| tail ::= INC |>) ;;
  ret c.
Definition PUTCH (c : Z) : M tty_queue unit :=
  let! q := get in
  let! _ := deref (zget (buf q) (head q)) in
  modify (fun q => q <| buf ::= zset (head q) (s8 c) |>) ;;
  modify (fun q => q <| head ::= INC |>).

(** ** Terminals *)

Record termios := Termios {
  c_iflag : Z; c_oflag : Z; c_cflag : Z; c_lflag : Z; c_line : Z; c_cc : list Z
}.
Record tty_struct := Tty {
  termios_ : termios; pgrp : Z; stopped : Z;
  read_q : tty_queue; write_q : tty_queue; secondary : tty_queue
}.
#[export] Instance eta_tty : Eta tty_struct := fun t =>
  Tty (termios_ t) (pgrp t) (stopped t) (read_q t) (write_q t) (secondary t).

(** The terminal with its console, the scheduler, and the static [cr_flag] of
    tty_write(). *)
Record tsys := Tsys {
  tty : tty_struct; cons_ : Console.con; sch : sched; cr_flag : Z
}.
#[export] Instance eta_tsys : Eta tsys := fun s => Tsys (tty s) (cons_ s) (sch s) (cr_flag s).

Definition tty_l : lens tsys tty_struct := Lens tty (fun t s => s <| tty := t |>).
Definition con_l : lens tsys Console.con := Lens cons_ (fun c s => s <| cons_ := c |>).
Definition sch_l : lens tsys sched := Lens sch (fun c s => s <| sch := c |>).
Definition read_l : lens tsys tty_queue :=
  Lens (fun s => read_q (tty s)) (fun q s => s <| tty ::= fun t => t <| read_q := q |> |>).
Definition write_l : lens tsys tty_queue :=
  Lens (fun s => write_q (tty s)) (fun q s => s <| tty ::= fun t => t <| write_q := q |> |>).
Definition sec_l : lens tsys tty_queue :=
  Lens (fun s => secondary (tty s)) (fun q s => s <| tty ::= fun t => t <| secondary := q |> |>).
(** [&queue->proc_list] *)
Definition proc_l (l : lens tsys tty_queue) : lens tsys (option nat) :=
  Lens (fun s => proc_list (lget l s))
       (fun p s => lset l ((lget l s) <| proc_list := p |>) s).

Definition INLCR : Z := 0x40.
Definition IGNCR : Z := 0x80.
Definition ICRNL : Z := 0x100.
Definition IUCLC : Z := 0x200.
Definition OPOST : Z := 0x1.
Definition OLCUC : Z := 0x2.
Definition ONLCR : Z := 0x4.
Definition OCRNL : Z := 0x8.
Definition ONLRET : Z := 0x20.
Definition ISIG : Z := 0x1.
Definition ICANON : Z := 0x2.
Definition ECHO : Z := 0x8.
Definition ECHOCTL : Z := 0x200.
Definition ECHOKE : Z := 0x800.

Definition L_FLAG (t : tty_struct) (f : Z) : bool := truth (Z.land (c_lflag (termios_ t)) f).
Definition I_FLAG (t : tty_struct) (f : Z) : bool := truth (Z.land (c_iflag (termios_ t)) f).
Definition O_FLAG (t : tty_struct) (f : Z) : bool := truth (Z.land (c_oflag (termios_ t)) f).

(** INTR_CHAR() ... SUSPEND_CHAR(): the control characters by their index. *)
Definition CC (i : Z) (t : tty_struct) : M tsys Z := deref (zget (c_cc (termios_ t)) i).
Definition VINTR : Z := 0.
Definition VQUIT : Z := 1.
Definition VERASE : Z := 2.
Definition VKILL : Z := 3.
Definition VEOF : Z := 4.
Definition VSTART : Z := 8.
Definition VSTOP : Z := 9.

(** [INIT_C_CC] and the only element of [tty_table]. *)
Definition INIT_C_CC : list Z := [3; 28; 127; 21; 4; 0; 1; 0; 17; 19; 26; 0; 18; 15; 23; 22; 0].
Definition empty_queue : tty_queue := Ttyq 0 0 0 None (replicate (Z.to_nat TTY_BUF_SIZE) 0).
Definition tty_table0 : tty_struct :=
  Tty (Termios ICRNL (Z.lor OPOST ONLCR) 0
         (Z.lor (Z.lor (Z.lor (Z.lor ISIG ICANON) ECHO) ECHOCTL) ECHOKE) 0 INIT_C_CC)
      0 0 empty_queue empty_queue empty_queue.

(** The signal loop of the code is commented out. *)
Definition tty_intr (mask : Z) : M tsys unit := ret tt.

(** ** copy_to_cooked() *)

Section cooked.
(** [tty->write(tty)] *)
Variable write : M tsys unit.

(** The echo of an erased character. *)
Definition echo_erase (c : Z) : M tsys unit :=
  let! s := get in
  when (L_FLAG (tty s) ECHO)
    (when (c <? 32) (zoom write_l (PUTCH 127)) ;;
     zoom write_l (PUTCH 127) ;;
     write).

(** Whether the last character of the line may be erased: [None] when the
    line is empty or ends in a newline or EOF, else the character. *)
Definition erasable : M tsys (option Z) :=
  let! s := get in
  if EMPTY (secondary (tty s)) then ret None
  else
    let! c := deref (LAST (secondary (tty s))) in
    if c =? 10 then ret None
    else
      let! eof := CC VEOF (tty s) in
      if c =? eof then ret None else ret (Some c).

Definition drop_last : M tsys unit :=
  zoom sec_l (modify (fun q => q <| head ::= DEC |>)).

Fixpoint kill_line (fuel : nat) : M tsys unit :=
  match fuel with
  | O => halt NoFuel
  | S fuel' =>
      let! e := erasable in
      match e with
      | None => ret tt
      | Some c => echo_erase c ;; drop_last ;; kill_line fuel'
      end
  end.

(** The translation of an input character; [None] when it is dropped. *)
Definition input_map (t : tty_struct) (c : Z) : option Z :=
  if c =? 13 then
    if I_FLAG t ICRNL then Some 10 else if I_FLAG t IGNCR then None else Some c
  else if (c =? 10) && I_FLAG t INLCR then Some 13 else Some c.

Definition echo_char (c : Z) : M tsys unit :=
  let! s := get in
  when (L_FLAG (tty s) ECHO)
    ((if c =? 10 then zoom write_l (PUTCH 10) ;; zoom write_l (PUTCH 13)
      else if c <? 32 then
        when (L_FLAG (tty s) ECHOCTL)
          (zoom write_l (PUTCH 94) ;; zoom write_l (PUTCH (c + 64)))
      else zoom write_l (PUTCH c)) ;;
     write).

(** The body of the loop after the translation. *)
Definition cook_char (c : Z) : M tsys unit :=
  let! s := get in
  let t := tty s in
  let! kill := CC VKILL t in
  let! erase := CC VERASE t in
  let! stop := CC VSTOP t in
  let! start := CC VSTART t in
  let! intr := CC VINTR t in
  let! quit := CC VQUIT t in
  let! eof := CC VEOF t in
  let canon := L_FLAG t ICANON in
  let isig := L_FLAG t ISIG in
  if canon && (c =? kill) then kill_line (Z.to_nat TTY_BUF_SIZE)
  else if canon && (c =? erase) then
    let! e := erasable in
    match e with None => ret tt | Some c => echo_erase c ;; drop_last end
  else if canon && (c =? stop) then modify (fun s => s <| tty ::= fun t => t <| stopped := 1 |> |>)
  else if canon && (c =? start) then modify (fun s => s <| tty ::= fun t => t <| stopped := 0 |> |>)
  else if isig && (c =? intr) then tty_intr 2
  else if isig && (c =? quit) then tty_intr 4
  else
    when ((c =? 10) || (c =? eof))
      (zoom sec_l (modify (fun q => q <| data ::= fun d => u32 (d + 1) |>))) ;;
    echo_char c ;;
    zoom sec_l (PUTCH c).

Fixpoint cook_loop (fuel : nat) : M tsys unit :=
  match fuel with
  | O => halt NoFuel
  | S fuel' =>
      let! s := get in
      if EMPTY (read_q (tty s)) || FULL (secondary (tty s)) then ret tt
      else
        let! c := zoom read_l GETCH in
        let! s := get in
        match input_map (tty s) c with
        | None => ret tt
        | Some c =>
            let! c := (if I_FLAG (tty s) IUCLC then deref (tolower c) else ret c) in
            cook_char c
        end ;;
        cook_loop fuel'
  end.

Definition copy_to_cooked (fuel : nat) : M tsys unit :=
  cook_loop fuel ;;
  wake_up sch_l (proc_l sec_l).
End cooked.

(** ** con_write() and respond() *)

Definition RESPONSE : list Z := [27; 91; 63; 49; 59; 50; 99].

Fixpoint put_all (l : list Z) : M tty_queue unit :=
  match l with [] => ret tt | c :: l' => PUTCH c ;; put_all l' end.

Section con_write.
(** copy_to_cooked(tty), as respond() calls it. *)
Variable cooked : M tsys unit.

Definition respond : M tsys unit :=
  zoom read_l (put_all RESPONSE) ;;
  cooked.

Fixpoint con_loop (nr : nat) : M tsys unit :=
  match nr with
  | O => ret tt
  | S nr' =>
      let! c := zoom write_l GETCH in
      let! s := get in
      let! erase := CC VERASE (tty s) in
      let! answer := zoom con_l (Console.con_char erase c) in
      when answer respond ;;
      con_loop nr'
  end.

Definition con_write_with : M tsys unit :=
  let! s := get in
  con_loop (Z.to_nat (CHARS (write_q (tty s)))) ;;
  zoom con_l Console.set_cursor.
End con_write.

(** The two functions together; a level of fuel for each nested call. *)
Fixpoint con_write (fuel : nat) : M tsys unit :=
  match fuel with
  | O => halt NoFuel
  | S fuel' => con_write_with (copy_to_cooked (con_write fuel') (Z.to_nat (2 * TTY_BUF_SIZE)))
  end.

(** ** tty_write() *)

Section tty_write.
Variable write : M tsys unit.

Definition wq (s : tsys) : tty_queue := write_q (tty s).

Fixpoint wait_left (fuel : nat) : M (world tsys) unit :=
  match fuel with
  | O => halt NoFuel
  | S fuel' =>
      let! w := get in
      if LEFT (wq (now w)) <? 128 then
        interruptible_sleep_on sch_l (proc_l write_l) fuel' ;;
        wait_left fuel'
      else ret tt
  end.
Definition sleep_if_full (fuel : nat) : M (world tsys) unit :=
  let! w := get in
  if negb (FULL (wq (now w))) then ret tt else wait_left fuel.

(** The output processing of one character, after the carriage return that
    may precede it. *)
Definition opost_map (t : tty_struct) (c : Z) : Z :=
  if O_FLAG t OPOST then
    if (c =? 13) && O_FLAG t OCRNL then 10
    else if (c =? 10) && O_FLAG t ONLRET then 13 else c
  else c.

(** One turn of the inner loop; [false] is the [continue] after the carriage
    return, which leaves the character for the next turn. *)
Definition put_step (byte : Z) : M tsys bool :=
  let! s := get in
  let t := tty s in
  let c := opost_map t (s8 byte) in
  if O_FLAG t OPOST && (c =? 10) && negb (truth (cr_flag s)) && O_FLAG t ONLCR then
    modify (fun s => s <| cr_flag := 1 |>) ;;
    zoom write_l (PUTCH 13) ;;
    ret false
  else
    let! c := (if O_FLAG t OPOST && O_FLAG t OLCUC then deref (toupper c) else ret c) in
    modify (fun s => s <| cr_flag := 0 |>) ;;
    zoom write_l (PUTCH c) ;;
    ret true.

(** [while (nr>0 && !FULL(tty->write_q))]: the characters left. *)
Fixpoint fill_write (fuel : nat) (b : list Z) : M tsys (list Z) :=
  match fuel with
  | O => halt NoFuel
  | S fuel' =>
      match b with
      | [] => ret []
      | byte :: b' =>
          let! s := get in
          if FULL (wq s) then ret b
          else
            let! used := put_step byte in
            fill_write fuel' (if used then b' else b)
      end
  end.

(** The result is [b-buf]; [tty_table] has one element, although the test on
    [channel] admits three. *)
Fixpoint write_loop (fuel : nat) (b : list Z) : M (world tsys) unit :=
  match fuel with
  | O => halt NoFuel
  | S fuel' =>
      match b with
      | [] => ret tt
      | _ :: _ =>
          sleep_if_full fuel' ;;
          let! b' := lift (fill_write (S (2 * length b)) b) in
          lift write ;;
          (match b' with [] => ret tt | _ :: _ => yield sch_l end) ;;
          write_loop fuel' b'
      end
  end.

Definition tty_write (channel : Z) (b : list Z) : M (world tsys) Z :=
  if 2 <? channel then ret (-1)
  else if negb (channel =? 0) then halt Fault
  else
    write_loop (S (length b)) b ;;
    ret (Z.of_nat (length b)).
End tty_write.

(** ** A queue is the list of its characters *)

Record qwf (q : tty_queue) : Prop := {
  q_head : 0 <= head q < TTY_BUF_SIZE;
  q_tail : 0 <= tail q < TTY_BUF_SIZE;
  q_buf : length (buf q) = Z.to_nat TTY_BUF_SIZE
}.

Definition qchar (q : tty_queue) (i : Z) : Z :=
  default 0 (zget (buf q) ((tail q + i) mod TTY_BUF_SIZE)).
Definition qlen (q : tty_queue) : Z := (head q - tail q) mod TTY_BUF_SIZE.
Definition contents (q : tty_queue) : list Z := qchar q <$> seqZ 0 (qlen q).

Lemma land_mod a : Z.land (u32 a) (TTY_BUF_SIZE - 1) = a mod TTY_BUF_SIZE.
Proof.
  change (TTY_BUF_SIZE - 1) with (Z.ones 10). rewrite Z.land_ones by lia.
  unfold u32. apply Z.mod_mod_divide. by exists (2 ^ 22).
Qed.

Lemma qlen_range q : 0 <= qlen q < TTY_BUF_SIZE.
Proof. apply Z.mod_pos_bound. done. Qed.

Lemma length_contents q : Z.of_nat (length (contents q)) = qlen q.
Proof.
  unfold contents. rewrite length_fmap, length_seqZ. pose proof (qlen_range q). lia.
Qed.

Definition len_of (l : list Z) : Z := Z.of_nat (length l).

Lemma CHARS_spec q : CHARS q = qlen q.
Proof. apply land_mod. Qed.

(** The tests on the indices are tests on the length. *)
Lemma LEFT_spec q : qwf q -> LEFT q = TTY_BUF_SIZE - 1 - qlen q.
Proof.
  intros [Hh Ht _]. unfold LEFT, qlen. rewrite land_mod. unfold TTY_BUF_SIZE in *.
  Z.div_mod_to_equations. lia.
Qed.
Lemma FULL_spec q : qwf q -> FULL q = (qlen q =? TTY_BUF_SIZE - 1).
Proof.
  intros Hw. unfold FULL, truth. rewrite LEFT_spec by done. rewrite negb_involutive.
  apply eq_true_iff_eq. rewrite !Z.eqb_eq. lia.
Qed.
Lemma EMPTY_spec q : qwf q -> EMPTY q = (qlen q =? 0).
Proof.
  intros [Hh Ht _]. unfold EMPTY, qlen. apply eq_true_iff_eq. rewrite !Z.eqb_eq.
  unfold TTY_BUF_SIZE in *. Z.div_mod_to_equations. lia.
Qed.

Lemma contents_lookup q i :
  contents q !! i = if decide (Z.of_nat i < qlen q) then Some (qchar q (Z.of_nat i)) else None.
Proof.
  unfold contents. rewrite list_lookup_fmap. case_decide.
  - rewrite (proj2 (lookup_seqZ 0 (qlen q) i (Z.of_nat i))); [done|lia].
  - rewrite lookup_seqZ_ge; [done|lia].
Qed.

Lemma contents_nil q : contents q = [] <-> qlen q = 0.
Proof.
  rewrite <-length_contents. destruct (contents q); cbn; [done|]. split; [done|lia].
Qed.

Lemma PUTCH_runs q c :
  qwf q -> -128 <= c < 128 -> qlen q < TTY_BUF_SIZE - 1 ->
  exists q', PUTCH c q = Ret tt q' /\ qwf q' /\ contents q' = contents q ++ [c] /\
    data q' = data q /\ proc_list q' = proc_list q.
Proof.
  intros Hw Hc Hl. pose proof Hw as [Hh Ht Hb]. unfold PUTCH. run.
  destruct (zget_is_Some (buf q) (head q)) as [w Ew]; [rewrite Hb; unfold TTY_BUF_SIZE in *; lia|].
  rewrite (bind_deref _ _ _ _ Ew). run. rewrite s8_small by lia.
  eexists. split; [done|]. set (q' := _ <| head ::= INC |>).
  assert (Eh : head q' = (head q + 1) mod TTY_BUF_SIZE) by apply land_mod.
  assert (El : qlen q' = qlen q + 1).
  { unfold qlen in *. rewrite Eh. change (tail q') with (tail q).
    unfold TTY_BUF_SIZE in *. Z.div_mod_to_equations. lia. }
  split; [split|].
  - rewrite Eh. apply Z.mod_pos_bound. done.
  - done.
  - cbn. by rewrite length_zset.
  - split; [|done]. apply list_eq. intros i. rewrite contents_lookup, El.
    destruct (decide (Z.of_nat i < qlen q)) as [Hi|Hi].
    + rewrite decide_True by lia. rewrite lookup_app_l.
      2:{ apply Nat2Z.inj_lt. by rewrite length_contents. }
      rewrite contents_lookup, decide_True by done. unfold qchar. cbn. f_equal.
      rewrite zget_zset_ne; [done|]. unfold qlen, TTY_BUF_SIZE in *.
      Z.div_mod_to_equations. lia.
    + rewrite lookup_app_r.
      2:{ apply Nat2Z.inj_le. rewrite length_contents. lia. }
      case_decide as Hd.
      * assert (Hi2 : Z.of_nat i = qlen q) by lia.
        replace (i - length (contents q))%nat with 0%nat
          by (apply Nat2Z.inj; rewrite Nat2Z.inj_sub, length_contents;
              [lia|apply Nat2Z.inj_le; rewrite length_contents; lia]).
        unfold qchar. change (tail q') with (tail q). rewrite Hi2.
        replace ((tail q + qlen q) mod TTY_BUF_SIZE) with (head q)
          by (unfold qlen, TTY_BUF_SIZE in *; Z.div_mod_to_equations; lia).
        cbn. rewrite zget_zset_eq; [done|]. rewrite Hb. unfold TTY_BUF_SIZE in *. lia.
      * symmetry. apply lookup_ge_None. cbn. apply Nat2Z.inj_le.
        pose proof (length_contents q). lia.
Qed.

Lemma GETCH_runs q c l :
  qwf q -> contents q = c :: l ->
  exists q', GETCH q = Ret c q' /\ qwf q' /\ contents q' = l /\
    data q' = data q /\ proc_list q' = proc_list q.
Proof.
  intros Hw Hc. pose proof Hw as [Hh Ht Hb]. unfold GETCH. run.
  pose proof (length_contents q) as Hlen. rewrite Hc in Hlen. cbn [length] in Hlen.
  pose proof (qlen_range q) as Hr.
  destruct (zget_is_Some (buf q) (tail q)) as [w Ew]; [rewrite Hb; unfold TTY_BUF_SIZE in *; lia|].
  assert (w = c) as ->.
  { pose proof (contents_lookup q 0) as H0. rewrite Hc, decide_True in H0 by lia. cbn in H0.
    injection H0 as H0. unfold qchar in H0.
    rewrite Z.add_0_r, Z.mod_small, Ew in H0 by done. done. }
  rewrite (bind_deref _ _ _ _ Ew). run. eexists. split; [done|].
  set (q' := q <| tail ::= INC |>).
  assert (Et : tail q' = (tail q + 1) mod TTY_BUF_SIZE) by apply land_mod.
  assert (El : qlen q' = qlen q - 1).
  { unfold qlen in *. rewrite Et. change (head q') with (head q).
    unfold TTY_BUF_SIZE in *. Z.div_mod_to_equations. lia. }
  split; [split; [done|rewrite Et; apply Z.mod_pos_bound; done|done]|].
  split; [|done]. apply list_eq. intros i. rewrite contents_lookup, El.
  pose proof (contents_lookup q (S i)) as HS. rewrite Hc in HS. cbn [lookup list_lookup] in HS.
  change (l !! i = (if decide (Z.of_nat (S i) < qlen q) then
    Some (qchar q (Z.of_nat (S i))) else None)) in HS. rewrite HS.
  repeat case_decide; try lia; [|done]. f_equal. unfold qchar. rewrite Et.
  change (buf q') with (buf q). f_equal. f_equal.
  unfold TTY_BUF_SIZE in *. Z.div_mod_to_equations. lia.
Qed.

(** [LAST] and [DEC(head)] see the other end. *)
Lemma LAST_runs q l c :
  qwf q -> contents q = l ++ [c] ->
  LAST q = Some c /\
  let q' := q <| head ::= DEC |> in qwf q' /\ contents q' = l.
Proof.
  intros Hw Hc. pose proof Hw as [Hh Ht Hb].
  pose proof (length_contents q) as Hlen. rewrite Hc, length_app in Hlen. cbn [length] in Hlen.
  pose proof (qlen_range q) as Hr. split.
  - unfold LAST. rewrite Z.land_comm, land_mod.
    destruct (zget_is_Some (buf q) ((head q - 1) mod TTY_BUF_SIZE)) as [w Ew].
    { rewrite Hb. pose proof (Z.mod_pos_bound (head q - 1) TTY_BUF_SIZE). unfold TTY_BUF_SIZE in *. lia. }
    rewrite Ew. f_equal.
    pose proof (contents_lookup q (length l)) as H0. rewrite decide_True in H0 by lia.
    rewrite Hc, list_lookup_middle in H0 by done. injection H0 as H0. unfold qchar in H0.
    replace ((tail q + Z.of_nat (length l)) mod TTY_BUF_SIZE)
      with ((head q - 1) mod TTY_BUF_SIZE) in H0.
    { by rewrite Ew in H0. }
    replace (Z.of_nat (length l)) with (qlen q - 1) by lia.
    unfold qlen, TTY_BUF_SIZE in *. Z.div_mod_to_equations. lia.
  - set (q' := q <| head ::= DEC |>).
    assert (Eh : head q' = (head q - 1) mod TTY_BUF_SIZE) by apply land_mod.
    assert (El : qlen q' = qlen q - 1).
    { unfold qlen in *. rewrite Eh. change (tail q') with (tail q).
      unfold TTY_BUF_SIZE in *. Z.div_mod_to_equations. lia. }
    split; [split; [rewrite Eh; apply Z.mod_pos_bound; done|done|done]|].
    apply list_eq. intros i. rewrite contents_lookup, El.
    pose proof (contents_lookup q i) as HS. rewrite Hc in HS.
    destruct (decide (Z.of_nat i < qlen q - 1)) as [Hd|Hd].
    + rewrite decide_True in HS by lia. rewrite lookup_app_l in HS by lia. by rewrite HS.
    + symmetry. apply lookup_ge_None. lia.
Qed.

(** The ring buffer of a terminal queue is a list of at most 1023
    characters: PUTCH appends, GETCH takes from the front, LAST and DEC see
    and drop the last one, CHARS, LEFT, EMPTY and FULL are its length, the
    room left, and the tests for both ends; all keep the indices in range. *)
Theorem ring_buffer q c l :
  qwf q -> -128 <= c < 128 ->
  CHARS q = len_of (contents q) /\ LEFT q = 1023 - len_of (contents q) /\
  (EMPTY q = true <-> contents q = []) /\ (FULL q = true <-> len_of (contents q) = 1023) /\
  (FULL q = false -> exists q', PUTCH c q = Ret tt q' /\ qwf q' /\ contents q' = contents q ++ [c]) /\
  (contents q = c :: l -> exists q', GETCH q = Ret c q' /\ qwf q' /\ contents q' = l) /\
  (contents q = l ++ [c] -> LAST q = Some c /\ qwf (q <| head ::= DEC |>) /\
     contents (q <| head ::= DEC |>) = l).
Proof.
  intros Hw Hc. unfold len_of. rewrite length_contents, CHARS_spec, LEFT_spec by done.
  rewrite EMPTY_spec, FULL_spec, contents_nil, Z.eqb_eq, Z.eqb_eq by done.
  change (TTY_BUF_SIZE - 1) with 1023. split_and!; try done.
  - intros Hf%Z.eqb_neq. pose proof (qlen_range q). unfold TTY_BUF_SIZE in *.
    destruct (PUTCH_runs q c Hw Hc) as (q' & ? & ? & ? & _); [unfold TTY_BUF_SIZE; lia|eauto].
  - intros E. destruct (GETCH_runs q c l Hw E) as (q' & ? & ? & ? & _); eauto.
  - intros E. by apply LAST_runs.
Qed.

Lemma empty_queue_wf : qwf empty_queue.
Proof. split; [done..|]. apply length_replicate. Qed.

Example ring_buffer_witness :
  exists q', PUTCH 65 empty_queue = Ret tt q' /\ qwf q' /\ contents q' = [65].
Proof.
  destruct (ring_buffer empty_queue 65 [] empty_queue_wf) as (_ & _ & _ & _ & H & _); [lia|].
  apply H. reflexivity.
Defined.

(** ** The line discipline, on lists *)



Definition ch (t : tty_struct) (i : Z) : Z := default 0 (zget (c_cc (termios_ t)) i).




(** What the line discipline needs from [tty->write]: it empties the write
    queue, and touches only that queue and the console.  Escape characters
    are excluded: an escape sequence may ask the console for an answer. *)
Definition quiet (c : Z) : Prop := -128 <= c < 128 /\ c <> 27.
Definition set_writeq (q : tty_queue) (s : tsys) : tsys := lset write_l q s.

Class Writer (J : Console.con -> Prop) (write : M tsys unit) : Prop :=
  writer : forall s, J (cons_ s) -> length (c_cc (termios_ (tty s))) = 17%nat ->
    qwf (write_q (tty s)) -> Forall quiet (contents (write_q (tty s))) ->
    exists c' q', write s = Ret tt (set_writeq q' (s <| cons_ := c' |>)) /\
      J c' /\ qwf q' /\ contents q' = [].

Section cooking.
Context (J : Console.con -> Prop) (write : M tsys unit) `{HW : !Writer J write}.

Record tty_ok (s : tsys) : Prop := {
  t_con : J (cons_ s);
  t_cc : length (c_cc (termios_ (tty s))) = 17%nat;
  t_read : qwf (read_q (tty s));
  t_write : qwf (write_q (tty s));
  t_sec : qwf (secondary (tty s));
  t_quiet : Forall quiet (contents (write_q (tty s)))
}.














Lemma CC_run i t s :
  length (c_cc (termios_ t)) = 17%nat -> 0 <= i < 17 -> CC i t s = Ret (ch t i) s.
Proof.
  intros Hl Hi. unfold CC, ch. destruct (zget_is_Some (c_cc (termios_ t)) i) as [v ->]; [lia|done].
Qed.















End cooking.

(** ** con_write() as the writer of the console terminal *)

Definition at_rest (c : Console.con) : Prop := Console.con_wf c /\ Console.state c = 0.

Lemma con_char_quiet erase c k :
  at_rest k -> c <> 27 ->
  exists k', Console.con_char erase c k = Ret false k' /\ at_rest k'.
Proof.
  intros [Hw Hs] Hc. destruct (Console.case0_quiet erase c k Hw Hc) as (k' & E & Hw' & Hs').
  exists k'. unfold Console.con_char. rewrite bind_get, Hs. cbn [Z.eqb].
  rewrite (bind_ret _ _ _ _ _ E). split; [done|]. split; [done|congruence].
Qed.

Lemma con_loop_quiet cooked l : forall s,
  at_rest (cons_ s) -> length (c_cc (termios_ (tty s))) = 17%nat ->
  qwf (write_q (tty s)) -> contents (write_q (tty s)) = l -> Forall quiet l ->
  exists k q, con_loop cooked (length l) s = Ret tt (set_writeq q (s <| cons_ := k |>)) /\
    Console.con_chars (ch (tty s) VERASE) l (cons_ s) = Ret tt k /\
    at_rest k /\ qwf q /\ contents q = [].
Proof.
  induction l as [|c l IH]; intros s HJ Hcc Hq Hl Hqt; cbn [length con_loop].
  { exists (cons_ s), (write_q (tty s)). split; [|done]. destruct s as [[] ? ? ?]. done. }
  inversion Hqt as [|?? [Hr Hc] Hqt']; subst.
  destruct (GETCH_runs (write_q (tty s)) c l Hq) as (q1 & E & Hq1 & Hl1 & _); [done|].
  set (s1 := set_writeq q1 s).
  assert (Ez : zoom write_l GETCH s = Ret c s1)
    by (unfold zoom; change (lget write_l s) with (write_q (tty s)); by rewrite E).
  rewrite (bind_ret _ _ _ _ _ Ez), bind_get.
  erewrite bind_ret; [|apply CC_run; [exact Hcc|done]].
  destruct (con_char_quiet (ch (tty s1) VERASE) c (cons_ s1) HJ Hc) as (k1 & Ek & HJ1).
  set (s2 := s1 <| cons_ := k1 |>).
  assert (Ez2 : zoom con_l (Console.con_char (ch (tty s1) VERASE) c) s1 = Ret false s2)
    by (unfold zoom; change (lget con_l s1) with (cons_ s1); by rewrite Ek).
  rewrite (bind_ret _ _ _ _ _ Ez2). cbn [when]. rewrite bind_ret_l.
  destruct (IH s2) as (k & q & E' & Ec & H1 & H2 & H3); try done.
  exists k, q. rewrite E'. split; [done|]. split; [|done].
  cbn [Console.con_chars]. change (ch (tty s1) VERASE) with (ch (tty s) VERASE) in Ek.
  change (cons_ s1) with (cons_ s) in Ek. by rewrite (bind_ret _ _ _ _ _ Ek).
Qed.

(** con_write() hands the characters of the queue to the console, in order,
    and moves the hardware cursor. *)
Lemma con_write_quiet n s :
  at_rest (cons_ s) -> length (c_cc (termios_ (tty s))) = 17%nat ->
  qwf (write_q (tty s)) -> Forall quiet (contents (write_q (tty s))) ->
  exists k k' q, con_write (S n) s = Ret tt (set_writeq q (s <| cons_ := k' |>)) /\
    Console.con_chars (ch (tty s) VERASE) (contents (write_q (tty s))) (cons_ s) = Ret tt k /\
    Console.set_cursor k = Ret tt k' /\ at_rest k' /\ qwf q /\ contents q = [].
Proof.
  intros HJ Hcc Hq Hqt. cbn [con_write]. unfold con_write_with. rewrite bind_get.
  rewrite CHARS_spec, <-length_contents, Nat2Z.id.
  destruct (con_loop_quiet (copy_to_cooked (con_write n) (Z.to_nat (2 * TTY_BUF_SIZE)))
    _ s HJ Hcc Hq eq_refl Hqt) as (k & q & E & Ec & [H1 H2] & H3 & H4).
  rewrite (bind_ret _ _ _ _ _ E). destruct (Console.set_cursor_runs k) as [f Ef].
  exists k, (Console.set_crtc k f), q. split.
  - unfold zoom. change (lget con_l (set_writeq q (s <| cons_ := k |>))) with k. by rewrite Ef.
  - split; [done|]. split; [done|]. split; [split; [by apply Console.set_crtc_wf|done]|done].
Qed.

#[export] Instance con_writer n : Writer at_rest (con_write (S n)).
Proof.
  intros s HJ Hcc Hq Hqt. destruct (con_write_quiet n s HJ Hcc Hq Hqt) as
    (k & k' & q & E & _ & _ & H). exists k', q. split; [exact E|exact H].
Qed.


(** The console terminal with "ab", erase, "c", return typed. *)
Definition typed : tsys :=
  Tsys (tty_table0 <| read_q := empty_queue <| head := 5 |>
          <| buf := [97; 98; 127; 99; 13] ++ replicate (Z.to_nat 1019) 0 |> |>)
       (Console.demo_con <| Console.x := 0 |> <| Console.y := 0 |> <| Console.pos := 0xb8000 |>) demo 0.

Lemma typed_ok : tty_ok at_rest typed.
Proof.
  assert (Hq : qwf (empty_queue)) by apply empty_queue_wf.
  split; try done.
  - split; [|done]. apply (Console.at_wf Console.demo_con 0 0); [apply Console.demo_con_wf|..]; done.
Qed.


(** con_write() keeps the contract of a terminal's writer at any depth
    of calls: given characters without ESC and a console between sequences,
    it shows exactly these characters, in order, empties the queue, places
    the hardware cursor and changes nothing else. *)
Theorem con_write_shows n s :
  at_rest (cons_ s) -> length (c_cc (termios_ (tty s))) = 17%nat ->
  qwf (write_q (tty s)) -> Forall quiet (contents (write_q (tty s))) ->
  exists k k' q, con_write (S n) s = Ret tt (set_writeq q (s <| cons_ := k' |>)) /\
    Console.con_chars (ch (tty s) VERASE) (contents (write_q (tty s))) (cons_ s) = Ret tt k /\
    Console.set_cursor k = Ret tt k' /\ at_rest k' /\ qwf q /\ contents q = [].
Proof. apply con_write_quiet. Qed.

Example con_write_shows_witness :
  exists k k' q, con_write 1 typed = Ret tt (set_writeq q (typed <| cons_ := k' |>)) /\
    Console.con_chars 127 [] (cons_ typed) = Ret tt k /\ contents q = [].
Proof.
  destruct (con_write_shows 0 typed) as (k & k' & q & E & Ec & _ & _ & _ & H);
    [apply (t_con at_rest), typed_ok|reflexivity|apply (t_write at_rest), typed_ok|constructor|].
  exists k, k', q. split; [exact E|]. split; [exact Ec|exact H].
Defined.

(** ** tty_write() *)

Definition up_char (t : tty_struct) (c : Z) : Z :=
  if O_FLAG t OPOST && O_FLAG t OLCUC then default c (toupper c) else c.
(** What one character of the buffer becomes. *)
Definition opost_out (t : tty_struct) (c : Z) : list Z :=
  let d := opost_map t c in
  (if O_FLAG t OPOST && (d =? 10) && O_FLAG t ONLCR then [13] else []) ++ [up_char t d].

Lemma toupper_ascii c : 0 <= c < 128 -> exists d, toupper c = Some d /\ 0 <= d < 128.
Proof.
  intros Hc. assert (H : (match toupper c with Some d => (0 <=? d) && (d <? 128) | None => false end) = true).
  { revert c Hc. apply (all_chars 0 128). vm_compute. reflexivity. }
  destruct (toupper c) as [d|]; [|done]. zb. exists d. split; [done|lia].
Qed.

Lemma zoom_put c s :
  qwf (write_q (tty s)) -> -128 <= c < 128 -> qlen (write_q (tty s)) < 1023 ->
  exists q, zoom write_l (PUTCH c) s = Ret tt (set_writeq q s) /\ qwf q /\
    contents q = contents (write_q (tty s)) ++ [c].
Proof.
  intros Hq Hc Hl. destruct (PUTCH_runs (write_q (tty s)) c Hq Hc Hl) as (q & E & H1 & H2 & _).
  exists q. split; [|done]. unfold zoom. change (lget write_l s) with (write_q (tty s)).
  by rewrite E.
Qed.

Lemma opost_ascii t c : 0 <= c < 128 -> 0 <= opost_map t c < 128.
Proof. intros Hc. unfold opost_map. repeat case_match; lia. Qed.

Definition newline (t : tty_struct) (c : Z) : bool :=
  O_FLAG t OPOST && (opost_map t c =? 10) && O_FLAG t ONLCR.

Lemma put_step_cr c s :
  0 <= c < 128 -> newline (tty s) c = true -> cr_flag s = 0 ->
  qwf (write_q (tty s)) -> qlen (write_q (tty s)) < 1023 ->
  exists q, put_step c s = Ret false (set_writeq q (s <| cr_flag := 1 |>)) /\ qwf q /\
    contents q = contents (write_q (tty s)) ++ [13].
Proof.
  intros Hc Hn Hcr Hq Hl. unfold put_step, newline in *. rewrite bind_get. cbv zeta.
  rewrite s8_small by lia. zb. rewrite Hcr. rewrite (proj2 (Z.eqb_eq _ _)) by done.
  match goal with H : O_FLAG _ OPOST = true |- _ => rewrite H end.
  match goal with H : O_FLAG _ ONLCR = true |- _ => rewrite H end.
  cbn [truth Z.eqb negb andb]. rewrite bind_modify.
  destruct (zoom_put 13 (s <| cr_flag := 1 |>)) as (q & E & G1 & G2); [done|lia|done|].
  exists q. by rewrite (bind_ret _ _ _ _ _ E).
Qed.

Lemma put_step_char c s :
  0 <= c < 128 -> newline (tty s) c && negb (truth (cr_flag s)) = false ->
  qwf (write_q (tty s)) -> qlen (write_q (tty s)) < 1023 ->
  exists q, put_step c s = Ret true (set_writeq q (s <| cr_flag := 0 |>)) /\ qwf q /\
    contents q = contents (write_q (tty s)) ++ [up_char (tty s) (opost_map (tty s) c)].
Proof.
  intros Hc Hn Hq Hl. unfold put_step. rewrite bind_get. cbv zeta. rewrite s8_small by lia.
  replace (O_FLAG (tty s) OPOST && (opost_map (tty s) c =? 10) && negb (truth (cr_flag s))
    && O_FLAG (tty s) ONLCR) with false.
  2:{ symmetry. rewrite <-Hn. unfold newline. rewrite <-!andb_assoc.
      by rewrite (andb_comm (O_FLAG (tty s) ONLCR)). }
  pose proof (opost_ascii (tty s) c Hc) as Hd.
  destruct (toupper_ascii _ Hd) as (u & Eu & Hu).
  set (e := up_char (tty s) (opost_map (tty s) c)).
  assert (Ec : (if O_FLAG (tty s) OPOST && O_FLAG (tty s) OLCUC
      then deref (toupper (opost_map (tty s) c)) else ret (opost_map (tty s) c)) s = Ret e s)
    by (unfold e, up_char; rewrite Eu; by destruct (O_FLAG _ OPOST && O_FLAG _ OLCUC)).
  assert (He : 0 <= e < 128)
    by (unfold e, up_char; rewrite Eu;
        destruct (O_FLAG _ OPOST && O_FLAG _ OLCUC); [exact Hu|exact Hd]).
  rewrite (bind_ret _ _ _ _ _ Ec), bind_modify.
  destruct (zoom_put e (s <| cr_flag := 0 |>)) as (q & E & H1 & H2); [done|lia|done|].
  exists q. by rewrite (bind_ret _ _ _ _ _ E).
Qed.

Lemma opost_out_newline t c :
  opost_out t c = (if newline t c then [13] else []) ++ [up_char t (opost_map t c)].
Proof. done. Qed.

Lemma not_full q : qwf q -> len_of (contents q) < 1023 -> FULL q = false.
Proof.
  intros Hq Hl. rewrite FULL_spec by done. apply Z.eqb_neq.
  unfold len_of in Hl. rewrite length_contents in Hl. unfold TTY_BUF_SIZE. lia.
Qed.

(** One turn of the copy loop: the carriage return before a newline ... *)
Lemma fill_write_cr f c b s :
  0 <= c < 128 -> newline (tty s) c = true -> cr_flag s = 0 ->
  qwf (write_q (tty s)) -> len_of (contents (write_q (tty s))) < 1023 ->
  exists q, fill_write (S f) (c :: b) s =
      fill_write f (c :: b) (set_writeq q (s <| cr_flag := 1 |>)) /\ qwf q /\
    contents q = contents (write_q (tty s)) ++ [13].
Proof.
  intros Hc Hn Hcr Hq Hl.
  destruct (put_step_cr c s Hc Hn Hcr Hq) as (q & E & Hq' & Hc').
  { unfold len_of in Hl. by rewrite length_contents in Hl. }
  exists q. split; [|done]. cbn [fill_write]. rewrite bind_get. unfold wq.
  rewrite (not_full _ Hq Hl), (bind_ret _ _ _ _ _ E). done.
Qed.

(** ... and the turn that stores the character itself. *)
Lemma fill_write_store f c b s :
  0 <= c < 128 -> newline (tty s) c && negb (truth (cr_flag s)) = false ->
  qwf (write_q (tty s)) -> len_of (contents (write_q (tty s))) < 1023 ->
  exists q, fill_write (S f) (c :: b) s =
      fill_write f b (set_writeq q (s <| cr_flag := 0 |>)) /\ qwf q /\
    contents q = contents (write_q (tty s)) ++ [up_char (tty s) (opost_map (tty s) c)].
Proof.
  intros Hc Hn Hq Hl.
  destruct (put_step_char c s Hc Hn Hq) as (q & E & Hq' & Hc').
  { unfold len_of in Hl. by rewrite length_contents in Hl. }
  exists q. split; [|done]. cbn [fill_write]. rewrite bind_get. unfold wq.
  rewrite (not_full _ Hq Hl), (bind_ret _ _ _ _ _ E). done.
Qed.

Lemma fill_write_runs b : forall fuel s,
  Forall (fun c => 0 <= c < 128) b -> qwf (write_q (tty s)) -> cr_flag s = 0 ->
  len_of (contents (write_q (tty s))) + len_of (flat_map (opost_out (tty s)) b) <= 1023 ->
  (2 * length b < fuel)%nat ->
  exists q, fill_write fuel b s = Ret [] (set_writeq q s) /\ qwf q /\
    contents q = contents (write_q (tty s)) ++ flat_map (opost_out (tty s)) b.
Proof.
  induction b as [|c b IH]; intros fuel s Hasc Hq Hcr Hroom Hfuel;
    (destruct fuel as [|fuel]; [cbn in Hfuel; lia|]).
  { exists (write_q (tty s)). split; [by destruct s as [[] ? ? ?]|].
    cbn. by rewrite app_nil_r. }
  inversion Hasc as [|?? Hc Hasc']; subst. cbn [flat_map length] in *.
  rewrite opost_out_newline in *. unfold len_of in *.
  rewrite <-app_assoc, !length_app in Hroom. cbn [length] in Hroom.
  destruct (newline (tty s) c) eqn:En; cbn [length] in Hroom.
  - destruct fuel as [|fuel]; [lia|].
    destruct (fill_write_cr (S fuel) c b s) as (q1 & E1 & Hq1 & Hc1); [done..|unfold len_of; lia|].
    destruct (fill_write_store fuel c b (set_writeq q1 (s <| cr_flag := 1 |>)))
      as (q2 & E2 & Hq2 & Hc2); [done|by cbn; rewrite andb_false_r|done| |].
    { cbn. rewrite Hc1. unfold len_of. rewrite length_app. cbn. lia. }
    cbn [tty set_writeq lset write_l upd write_q] in Hc2. rewrite Hc1 in Hc2.
    destruct (IH fuel (set_writeq q2 (s <| cr_flag := 0 |>))) as (q & E & Hq' & Hc'); try done.
    { change (Z.of_nat (length (contents q2)) +
        Z.of_nat (length (flat_map (opost_out (tty s)) b)) <= 1023).
      rewrite Hc2, !length_app. cbn [length]. lia. } { lia. }
    exists q. split; [|split; [done|]].
    + rewrite E1, E2. destruct s as [t ? ? ?], t. cbn in Hcr. subst. exact E.
    + rewrite Hc'. cbn. rewrite Hc2. by rewrite <-!app_assoc.
  - destruct (fill_write_store fuel c b s) as (q2 & E2 & Hq2 & Hc2);
      [done|by rewrite En|done|unfold len_of; lia|].
    destruct (IH fuel (set_writeq q2 (s <| cr_flag := 0 |>))) as (q & E & Hq' & Hc'); try done.
    { change (Z.of_nat (length (contents q2)) +
        Z.of_nat (length (flat_map (opost_out (tty s)) b)) <= 1023).
      rewrite Hc2, !length_app. cbn [length]. lia. } { lia. }
    exists q. split; [|split; [done|]].
    + rewrite E2. destruct s as [t ? ? ?], t. cbn in Hcr. subst. exact E.
    + rewrite Hc'. cbn. rewrite Hc2. by rewrite <-!app_assoc.
Qed.

(** tty_write() of a text that fits into the write queue once expanded:
    the console shows exactly the output processing of the text, character by
    character (a carriage return before each newline, case and newline
    mapping as the flags say), and the result is the number of characters. *)
Theorem tty_write_shows n b w :
  let s := now w in
  Forall (fun c => 0 <= c < 128) b -> at_rest (cons_ s) ->
  length (c_cc (termios_ (tty s))) = 17%nat -> qwf (write_q (tty s)) ->
  contents (write_q (tty s)) = [] -> cr_flag s = 0 -> b <> [] ->
  Forall quiet (flat_map (opost_out (tty s)) b) ->
  len_of (flat_map (opost_out (tty s)) b) <= 1023 ->
  exists k k' q, tty_write (con_write (S n)) 0 b w =
      Ret (len_of b) (World (set_writeq q (s <| cons_ := k' |>)) (future w)) /\
    Console.con_chars (ch (tty s) VERASE) (flat_map (opost_out (tty s)) b) (cons_ s) = Ret tt k /\
    Console.set_cursor k = Ret tt k' /\ at_rest k' /\ contents q = [].
Proof.
  intros s Hasc HJ Hcc Hq He Hcr Hb Hqt Hroom.
  destruct (fill_write_runs b (S (2 * length b)) s) as (q & Ef & Hq1 & Hc1); try done.
  { by rewrite He. } { lia. }
  rewrite He in Hc1. cbn [app] in Hc1.
  destruct (con_write_quiet n (set_writeq q s)) as (k & k' & q' & Ew & Ec & Ek & Hr & Hq' & Hc');
    try done; [cbn; by rewrite Hc1|].
  exists k, k', q'. split; [|split; [|done]].
  2:{ cbn [tty set_writeq lset write_l upd write_q] in Ec. rewrite Hc1 in Ec. exact Ec. }
  unfold tty_write. cbn [Z.ltb Z.eqb Z.compare negb]. unfold len_of.
  assert (Hloop : write_loop (con_write (S n)) (S (length b)) b w =
    Ret tt (World (set_writeq q' (s <| cons_ := k' |>)) (future w))).
  { destruct b as [|c b]; [done|]. cbn [write_loop].
    assert (Esl : sleep_if_full (length (c :: b)) w = Ret tt w).
    { unfold sleep_if_full. rewrite bind_get. unfold wq. fold s. rewrite FULL_spec by done.
      rewrite (proj1 (contents_nil _) He). done. }
    rewrite (bind_ret _ _ _ _ _ Esl), (bind_lift _ _ _ _ _ Ef).
    rewrite (bind_lift _ _ (World (set_writeq q s) (future w)) _ _ Ew), bind_ret_l.
    cbn [length write_loop]. done. }
  rewrite (bind_ret _ _ _ _ _ Hloop). done.
Qed.

Example tty_write_shows_witness :
  let s := typed in
  exists k k' q, tty_write (con_write 1) 0 [72; 105; 10] (World s []) =
      Ret 3 (World (set_writeq q (s <| cons_ := k' |>)) []) /\
    Console.con_chars 127 [72; 105; 13; 10] (cons_ s) = Ret tt k /\ contents q = [].
Proof.
  destruct (tty_write_shows 0 [72; 105; 10] (World typed [])) as (k & k' & q & E & Ec & _ & _ & H).
  - repeat constructor; discriminate.
  - apply (t_con at_rest), typed_ok.
  - reflexivity.
  - apply (t_write at_rest), typed_ok.
  - reflexivity.
  - reflexivity.
  - discriminate.
  - vm_compute. repeat constructor; discriminate.
  - vm_compute. discriminate.
  - exists k, k', q. split; [exact E|]. split; [exact Ec|exact H].
Defined.
