(* ===== verification/DList.v ===== *)
(** * Doubly linked lists

    The two pointer fields of the nodes are functions [nx] and [pv]; a list
    is described by its edges, the pairs of neighbours, where [None] is NULL.
    Taking a node out or putting one in replaces one edge by two or two by
    one, which makes both independent of where in the list, and whether the
    list ends in NULL or is circular. *)

From S2P Require Import Prelude.

Definition edge (nx pv : nat -> option nat) (e : option nat * option nat) : Prop :=
  (forall a, e.1 = Some a -> nx a = e.2) /\ (forall b, e.2 = Some b -> pv b = e.1).

Fixpoint edges (l : list (option nat)) : list (option nat * option nat) :=
  match l with
  | x :: (y :: _) as t => (x, y) :: edges t
  | _ => []
  end.

(** NULL-terminated and circular lists. *)
Definition chain (l : list nat) : list (option nat * option nat) := edges (None :: (Some <$> l) ++ [None]).
Definition ring (l : list nat) : list (option nat * option nat) := edges (Some <$> (l ++ take 1 l)).

Lemma edges_app l1 x l2 : edges (l1 ++ x :: l2) = edges (l1 ++ [x]) ++ edges (x :: l2).
Proof.
  induction l1 as [|a l1 IH]; [done|].
  destruct l1 as [|b l1]; [by destruct l2|].
  change ((a :: b :: l1) ++ x :: l2) with (a :: (b :: l1) ++ x :: l2).
  change ((a :: b :: l1) ++ [x]) with (a :: (b :: l1) ++ [x]).
  cbn [app edges] in *. by rewrite IH.
Qed.

Lemma edges_sources l x : (edges (l ++ [x])).*1 = l.
Proof.
  induction l as [|a l IH]; [done|]. destruct l; [done|]. cbn [app edges fmap list_fmap] in *.
  by rewrite IH.
Qed.
Lemma edges_targets x l : (edges (x :: l)).*2 = l.
Proof.
  revert x. induction l as [|a l IH]; intros x; [done|]. cbn [edges fmap list_fmap].
  f_equal. apply IH.
Qed.

(** ** The neighbours of a node *)

Lemma ring_cons a l : ring (a :: l) = edges (Some a :: (Some <$> l) ++ [Some a]).
Proof. unfold ring. cbn [take app]. by rewrite fmap_cons, fmap_app. Qed.

Lemma ring_rot l1 l2 : ring (l1 ++ l2) ≡ₚ ring (l2 ++ l1).
Proof.
  destruct l1 as [|a l1]; [by rewrite app_nil_r|].
  destruct l2 as [|b l2]; [by rewrite app_nil_r|].
  cbn [app]. rewrite !ring_cons, !fmap_app, !fmap_cons, <-!app_assoc. cbn [app].
  pose proof (edges_app (Some a :: (Some <$> l1)) (Some b) ((Some <$> l2) ++ [Some a])) as E1.
  pose proof (edges_app (Some b :: (Some <$> l2)) (Some a) ((Some <$> l1) ++ [Some b])) as E2.
  cbn [app] in E1, E2. rewrite E1, E2. by rewrite Permutation_app_comm.
Qed.

(** The edge a node splits when it enters a ring, and the rest. *)
Lemma ring_insert b y m :
  exists z, last (y :: m) = Some z /\
    ring (y :: m) ≡ₚ (Some z, Some y) :: edges (Some <$> (y :: m)) /\
    ring (b :: y :: m) ≡ₚ (Some z, Some b) :: (Some b, Some y) :: edges (Some <$> (y :: m)).
Proof.
  destruct (last (y :: m)) as [z|] eqn:Hz; [|by apply last_None in Hz].
  exists z. split; [done|]. apply last_Some in Hz as [m' Hm].
  assert (Hs : Some y :: (Some <$> m) = (Some <$> m') ++ [Some z])
    by (rewrite <-fmap_cons, Hm, fmap_app; done).
  assert (Hx : forall x, Some y :: (Some <$> m) ++ [x] = (Some <$> m') ++ [Some z; x]).
  { intros x. change (Some y :: (Some <$> m) ++ [x]) with ((Some y :: (Some <$> m)) ++ [x]).
    by rewrite Hs, <-app_assoc. }
  rewrite !ring_cons, !fmap_cons. cbn [app]. rewrite !Hx, Hs. split.
  - by rewrite edges_app, Permutation_app_comm.
  - pose proof (edges_app (Some b :: (Some <$> m')) (Some z) [Some b]) as E.
    cbn [app] in E. rewrite E, Permutation_app_comm. cbn [edges app].
    destruct (Some <$> m'); cbn in Hs; injection Hs as <- _; done.
Qed.

Lemma chain_insert l1 l2 :
  exists x y E, (x = last l1) /\ (y = head l2) /\
    chain (l1 ++ l2) ≡ₚ (x, y) :: E /\
    forall b, chain (l1 ++ b :: l2) ≡ₚ (x, Some b) :: (Some b, y) :: E.
Proof.
  assert (exists l1', None :: (Some <$> l1) = l1' ++ [last l1]) as [l1' H1].
  { destruct l1 as [|a l1 _] using rev_ind; [by exists []|].
    rewrite last_snoc, fmap_app. by exists (None :: (Some <$> l1)). }
  assert (exists l2', (Some <$> l2) ++ [None] = head l2 :: l2') as [l2' H2].
  { destruct l2; by eexists. }
  exists (last l1), (head l2), (edges (l1' ++ [last l1]) ++ edges (head l2 :: l2')).
  split_and!; [done..| |].
  - unfold chain. rewrite fmap_app, <-app_assoc, app_comm_cons, H1, H2, <-app_assoc. cbn [app].
    rewrite edges_app. cbn [edges]. by rewrite <-Permutation_middle.
  - intros b. unfold chain.
    rewrite fmap_app, fmap_cons, <-app_assoc, app_comm_cons, H1, <-app_assoc. cbn [app].
    rewrite H2, edges_app. cbn [edges]. by rewrite <-!Permutation_middle.
Qed.

Lemma NoDup_Some (l : list nat) : NoDup l -> NoDup (Some <$> l).
Proof. apply NoDup_fmap_2. apply _. Qed.

Lemma ring_sources l : (ring l).*1 = Some <$> l.
Proof.
  destruct l as [|a l]; [done|]. rewrite ring_cons.
  exact (edges_sources (Some a :: (Some <$> l)) (Some a)).
Qed.
Lemma ring_targets l : (ring l).*2 ≡ₚ Some <$> l.
Proof.
  destruct l as [|a l]; [done|]. rewrite ring_cons, edges_targets.
  by rewrite Permutation_app_comm.
Qed.
Lemma chain_sources l : (chain l).*1 = None :: (Some <$> l).
Proof. unfold chain. rewrite app_comm_cons. apply edges_sources. Qed.
Lemma chain_targets l : (chain l).*2 = (Some <$> l) ++ [None].
Proof. unfold chain. apply edges_targets. Qed.
Lemma None_notin (l : list nat) : None ∉ Some <$> l.
Proof. by intros (? & ? & _)%list_elem_of_fmap. Qed.

(** ** Taking a node out and putting one in *)

Record links (nx pv : nat -> option nat) (E : list (option nat * option nat)) : Prop := {
  l_edges : Forall (edge nx pv) E;
  l_src : NoDup E.*1;
  l_dst : NoDup E.*2
}.

Lemma links_ring nx pv l : NoDup l -> Forall (edge nx pv) (ring l) -> links nx pv (ring l).
Proof.
  intros Hl H. split; [done|rewrite ring_sources|rewrite ring_targets]; by apply NoDup_Some.
Qed.
Lemma links_chain nx pv l : NoDup l -> Forall (edge nx pv) (chain l) -> links nx pv (chain l).
Proof.
  intros Hl H. split; [done|rewrite chain_sources|rewrite chain_targets].
  - apply NoDup_cons. split; [apply None_notin|by apply NoDup_Some].
  - apply NoDup_app. split_and!; [by apply NoDup_Some| |apply NoDup_singleton].
    intros x Hx ->%list_elem_of_singleton. by apply None_notin in Hx.
Qed.

(** Assignments to [x->next] and [y->prev]; none through NULL. *)
Definition pset (f : nat -> option nat) (x v : option nat) (j : nat) : option nat :=
  if decide (x = Some j) then v else f j.

Lemma pset_eq f x v j : x = Some j -> pset f x v j = v.
Proof. intros. unfold pset. by rewrite decide_True. Qed.
Lemma pset_ne f x v j : x <> Some j -> pset f x v j = f j.
Proof. intros. unfold pset. by rewrite decide_False. Qed.

Lemma edges_keep nx pv nx' pv' E :
  Forall (edge nx pv) E -> (forall a, Some a ∈ E.*1 -> nx' a = nx a) ->
  (forall b, Some b ∈ E.*2 -> pv' b = pv b) -> Forall (edge nx' pv') E.
Proof.
  rewrite !Forall_forall. intros H Hn Hp [u v] He. specialize (H _ He).
  destruct H as [H1 H2]. cbn in *. split; cbn; intros a ->.
  - rewrite Hn; [auto|]. apply list_elem_of_fmap. by exists (Some a, v).
  - rewrite Hp; [auto|]. apply list_elem_of_fmap. by exists (u, Some a).
Qed.

Lemma unlink nx pv E E' x b y :
  links nx pv E -> E ≡ₚ (x, Some b) :: (Some b, y) :: E' ->
  Forall (edge (pset nx x y) (pset pv y x)) ((x, y) :: E').
Proof.
  intros [He Hs Hd] HE. rewrite HE in He, Hs, Hd. cbn [fmap list_fmap fst snd] in Hs, Hd.
  apply NoDup_cons in Hs as [Hs1 Hs2], Hd as [Hd1 Hd2].
  apply NoDup_cons in Hs2 as [Hs2 _], Hd2 as [Hd2 _]. apply Forall_cons. split.
  - split; cbn; intros ? ->; by apply pset_eq.
  - inversion He as [|?? _ He1]; subst. inversion He1 as [|?? _ He2]; subst.
    eapply edges_keep; [done| |]; intros a Ha; apply pset_ne; intros ->; set_solver.
Qed.

Lemma link nx pv E E' x b y nx' pv' :
  links nx pv E -> E ≡ₚ (x, y) :: E' ->
  Some b ∉ E.*1 -> Some b ∉ E.*2 ->
  (forall a, nx' a = if decide (a = b) then y else pset nx x (Some b) a) ->
  (forall a, pv' a = if decide (a = b) then x else pset pv y (Some b) a) ->
  Forall (edge nx' pv') ((x, Some b) :: (Some b, y) :: E').
Proof.
  intros [He Hs Hd] HE Hb1 Hb2 Hnx Hpv. rewrite HE in He, Hs, Hd, Hb1, Hb2.
  cbn [fmap list_fmap fst snd] in *.
  apply NoDup_cons in Hs as [Hs _], Hd as [Hd _]. inversion He as [|?? _ He']; subst.
  assert (Hx : x <> Some b) by set_solver. assert (Hy : y <> Some b) by set_solver.
  apply Forall_cons; split; [|apply Forall_cons; split].
  - split; cbn; intros a Ha.
    + rewrite Hnx, decide_False by congruence. by apply pset_eq.
    + injection Ha as <-. by rewrite Hpv, decide_True.
  - split; cbn; intros a Ha; [injection Ha as <-; by rewrite Hnx, decide_True|].
    rewrite Hpv, decide_False by congruence. by apply pset_eq.
  - eapply edges_keep; [done| |]; intros a Ha;
      [rewrite Hnx|rewrite Hpv]; rewrite decide_False by set_solver; apply pset_ne;
      intros ->; set_solver.
Qed.
