(* ===== verification/Buffer.v ===== *)
(** * The buffer cache: fs/buffer.c

    The buffer headers are an array ([start_buffer] on), a pointer to a
    header is its index.  [b_bytes] is the block of 1024 bytes [b_data] points
    to; that these blocks do not overlap is part of the theorem about
    buffer_init().  Every header is in one circular list, the free list, and
    those of a device also in the NULL-terminated list of their hash bucket.

    The pointer manipulations are computations on the cache alone.  The
    operations that can sleep run in a larger state: section [ops] takes from
    its environment sleep_on() and ll_rw_block(), and proves its theorems
    against what the class [Sleeper] says of them. *)

From S2P Require Import Prelude Task Sched WaitQ Block Mem DList.

Definition NR_HASH : Z := 307.
Definition BLOCK_SIZE : Z := 1024.
Definition READ : Z := 0.
Definition WRITE : Z := 1.
Definition READA : Z := 2.
Definition WRITEA : Z := 3.

Record buffer_head := Bh {
  b_data : Z; b_bytes : list Z;
  b_blocknr : Z; b_dev : Z;
  b_uptodate : Z; b_dirt : Z; b_count : Z; b_lock : Z;
  b_wait : option nat;
  b_prev : option nat; b_next : option nat;
  b_prev_free : option nat; b_next_free : option nat
}.
#[export] Instance eta_bh : Eta buffer_head := fun b =>
  Bh (b_data b) (b_bytes b) (b_blocknr b) (b_dev b) (b_uptodate b) (b_dirt b)
    (b_count b) (b_lock b) (b_wait b) (b_prev b) (b_next b) (b_prev_free b)
    (b_next_free b).
Definition sizeof_buffer_head : Z := 36.

Record cache := Cache {
  bufs : list buffer_head;
  hash_table : list (option nat);
  free_list : option nat;
  buffer_wait : option nat;
  NR_BUFFERS : Z
}.
#[export] Instance eta_cache : Eta cache := fun c =>
  Cache (bufs c) (hash_table c) (free_list c) (buffer_wait c) (NR_BUFFERS c).

Definition start_buffer : Z := LOW_MEM.

(** [bh->f], and an assignment through [bh]. *)
Definition fld {A} (f : buffer_head -> A) (bh : nat) : M cache A :=
  let! c := get in
  let! b := deref (bufs c !! bh) in
  ret (f b).
Definition setb (bh : nat) (g : buffer_head -> buffer_head) : M cache unit :=
  let! c := get in
  let! _ := deref (bufs c !! bh) in
  modify (fun c => c <| bufs ::= alter g bh |>).

(** ** The queues *)

Definition _hashfn (dev block : Z) : Z := u32 (Z.lxor dev block) mod NR_HASH.
Definition hash (dev block : Z) : M cache (option nat) :=
  let! c := get in deref (zget (hash_table c) (_hashfn dev block)).
Definition set_hash (dev block : Z) (p : option nat) : M cache unit :=
  let! _ := hash dev block in
  modify (fun c => c <| hash_table ::= zset (_hashfn dev block) p |>).

(** remove from hash-queue *)
Definition remove_hash (bh : nat) : M cache unit :=
  let! nx := fld b_next bh in
  match nx with
  | Some n => let! pv := fld b_prev bh in setb n (fun b => b <| b_prev := pv |>)
  | None => ret tt
  end ;;
  let! pv := fld b_prev bh in
  match pv with
  | Some p => let! nx := fld b_next bh in setb p (fun b => b <| b_next := nx |>)
  | None => ret tt
  end ;;
  let! dev := fld b_dev bh in
  let! blk := fld b_blocknr bh in
  let! hd := hash dev blk in
  if bool_decide (hd = Some bh) then let! nx := fld b_next bh in set_hash dev blk nx
  else ret tt.
(** remove from free list *)
Definition remove_free (bh : nat) : M cache unit :=
  let! pf := fld b_prev_free bh in
  let! nf := fld b_next_free bh in
  match pf, nf with
  | Some p, Some _ =>
      let! nf := fld b_next_free bh in
      setb p (fun b => b <| b_next_free := nf |>) ;;
      let! nf := fld b_next_free bh in
      let! n := deref nf in
      let! pf := fld b_prev_free bh in
      setb n (fun b => b <| b_prev_free := pf |>) ;;
      let! c := get in
      if bool_decide (free_list c = Some bh) then
        let! nf := fld b_next_free bh in modify (fun c => c <| free_list := nf |>)
      else ret tt
  | _, _ => halt (Panic "Free block list corrupted")
  end.
Definition remove_from_queues (bh : nat) : M cache unit := remove_hash bh ;; remove_free bh.

(** put at end of free list *)
Definition insert_free (bh : nat) : M cache unit :=
  let! c := get in
  setb bh (fun b => b <| b_next_free := free_list c |>) ;;
  let! fl := deref (free_list c) in
  let! last := fld b_prev_free fl in
  setb bh (fun b => b <| b_prev_free := last |>) ;;
  let! last := fld b_prev_free fl in
  let! l := deref last in
  setb l (fun b => b <| b_next_free := Some bh |>) ;;
  setb fl (fun b => b <| b_prev_free := Some bh |>).
(** put the buffer in new hash-queue if it has a device *)
Definition insert_hash (bh : nat) : M cache unit :=
  setb bh (fun b => b <| b_prev := None |>) ;;
  setb bh (fun b => b <| b_next := None |>) ;;
  let! dev := fld b_dev bh in
  if dev =? 0 then ret tt
  else
    let! blk := fld b_blocknr bh in
    let! hd := hash dev blk in
    match hd with
    | Some h =>
        setb bh (fun b => b <| b_next := Some h |>) ;;
        set_hash dev blk (Some bh) ;;
        let! nx := fld b_next bh in
        let! n := deref nx in
        setb n (fun b => b <| b_prev := Some bh |>)
    | None => set_hash dev blk (Some bh)
    end.
Definition insert_into_queues (bh : nat) : M cache unit := insert_free bh ;; insert_hash bh.

(** ** buffer_init(), on memory whose headers contain [raw] *)

Definition hdr (h : nat) : Z := start_buffer + sizeof_buffer_head * Z.of_nat h.

(** The assignments to the header [h] whose data is at [b]. *)
Definition new_header (raw : nat -> buffer_head) (h : nat) (b : Z) : buffer_head :=
  (raw h) <| b_dev := 0 |> <| b_dirt := 0 |> <| b_count := 0 |> <| b_lock := 0 |>
    <| b_uptodate := 0 |> <| b_wait := None |> <| b_next := None |> <| b_prev := None |>
    <| b_data := b |>
    <| b_prev_free := (if (h =? 0)%nat then None else Some (h - 1)%nat) |>
    <| b_next_free := Some (h + 1)%nat |>.

Fixpoint buffer_init_loop (raw : nat -> buffer_head) (fuel : nat) (b : Z) (h : nat) :
    M cache nat :=
  match fuel with
  | O => halt NoFuel
  | S fuel' =>
      let b := b - BLOCK_SIZE in
      if hdr (h + 1) <=? b then
        modify (fun c => c <| bufs ::= fun l => l ++ [new_header raw h b] |>
                           <| NR_BUFFERS ::= Z.add 1 |>) ;;
        buffer_init_loop raw fuel' (if b =? 0x100000 then 0xA0000 else b) (h + 1)
      else ret h
  end.

Definition buffer_init (raw : nat -> buffer_head) (fuel : nat) (buffer_end : Z) :
    M cache unit :=
  let! h := buffer_init_loop raw fuel buffer_end 0 in
  modify (fun c => c <| free_list := Some 0%nat |>) ;;
  setb 0 (fun b => b <| b_prev_free := Some (h - 1)%nat |>) ;;
  setb (h - 1) (fun b => b <| b_next_free := Some 0%nat |>) ;;
  modify (fun c => c <| hash_table := replicate (Z.to_nat NR_HASH) None |>).

(** ** find_buffer() *)

Fixpoint find_chain (dev block : Z) (fuel : nat) (tmp : option nat) : M cache (option nat) :=
  match tmp with
  | None => ret None
  | Some t =>
      match fuel with
      | O => halt NoFuel
      | S fuel' =>
          let! d := fld b_dev t in
          let! n := fld b_blocknr t in
          if (d =? dev) && (n =? u32 block) then ret (Some t)
          else let! nx := fld b_next t in find_chain dev block fuel' nx
      end
  end.

(** No chain is longer than the number of buffers. *)
Definition find_buffer (dev block : Z) : M cache (option nat) :=
  let! c := get in
  let! h := hash dev block in
  find_chain dev block (length (bufs c)) h.

(** ** The choice of getblk() *)

Definition BADNESS (b : buffer_head) : Z := Z.shiftl (b_dirt b) 1 + b_lock b.

(** The do-while loop from [tmp] on, with the best buffer so far. *)
Fixpoint getblk_scan (fuel : nat) (tmp : nat) (bh : option nat) : M cache (option nat) :=
  match fuel with
  | O => halt NoFuel
  | S fuel' =>
      let! b := fld id tmp in
      let! better :=
        if truth (b_count b) then ret false
        else match bh with
             | None => ret true
             | Some h => let! o := fld id h in ret (BADNESS b <? BADNESS o)
             end in
      let bh := if better : bool then Some tmp else bh in
      if better && (BADNESS b =? 0) then ret bh
      else
        let! c := get in
        let! nx := deref (b_next_free b) in
        if bool_decide (free_list c = Some nx) then ret bh
        else getblk_scan fuel' nx bh
  end.

(** Lines 179 to 185: the buffer becomes the one of another block. *)
Definition rename (bh : nat) (dev block : Z) : M cache unit :=
  setb bh (fun b => b <| b_count := 1 |>) ;;
  setb bh (fun b => b <| b_dirt := 0 |>) ;;
  setb bh (fun b => b <| b_uptodate := 0 |>) ;;
  remove_from_queues bh ;;
  setb bh (fun b => b <| b_dev := u16 dev |>) ;;
  setb bh (fun b => b <| b_blocknr := u32 block |>) ;;
  insert_into_queues bh.

(** ** The operations that can sleep *)

Definition b_wait_l (bh : nat) : lens cache (option nat) :=
  Lens (fun c => (bufs c !! bh) ≫= b_wait)
       (fun q c => c <| bufs ::= alter (fun b => b <| b_wait := q |>) bh |>).
Definition buffer_wait_l : lens cache (option nat) :=
  Lens buffer_wait (fun q c => c <| buffer_wait := q |>).

Section ops.
Context {W : Type} (cl : lens W cache).
Context (sleep_on wake_up : lens cache (option nat) -> M W unit).
Context (ll_rw_block : Z -> nat -> M W unit).

Fixpoint wait_on_buffer (fuel : nat) (bh : nat) : M W unit :=
  let! l := zoom cl (fld b_lock bh) in
  if truth l then
    match fuel with
    | O => halt NoFuel
    | S fuel' => sleep_on (b_wait_l bh) ;; wait_on_buffer fuel' bh
    end
  else ret tt.

Fixpoint get_hash_table (fuel : nat) (dev block : Z) : M W (option nat) :=
  match fuel with
  | O => halt NoFuel
  | S fuel' =>
      let! r := zoom cl (find_buffer dev block) in
      match r with
      | None => ret None
      | Some bh =>
          zoom cl (setb bh (fun b => b <| b_count ::= fun n => u8 (n + 1) |>)) ;;
          wait_on_buffer fuel bh ;;
          let! d := zoom cl (fld b_dev bh) in
          let! n := zoom cl (fld b_blocknr bh) in
          if (d =? dev) && (n =? u32 block) then ret (Some bh)
          else
            zoom cl (setb bh (fun b => b <| b_count ::= fun n => u8 (n - 1) |>)) ;;
            get_hash_table fuel' dev block
      end
  end.

(** [tmp = free_list; do ... while]: every buffer is looked at once. *)
Definition getblk_pick : M cache (option nat) :=
  let! c := get in
  let! fl := deref (free_list c) in
  getblk_scan (length (bufs c)) fl None.

Fixpoint getblk (fuel : nat) (dev block : Z) : M W nat :=
  match fuel with
  | O => halt NoFuel
  | S fuel' =>
      let! r := get_hash_table fuel dev block in
      match r with
      | Some bh => ret bh
      | None =>
          let! r := zoom cl getblk_pick in
          match r with
          | None => sleep_on buffer_wait_l ;; getblk fuel' dev block
          | Some bh =>
              wait_on_buffer fuel bh ;;
              let! n := zoom cl (fld b_count bh) in
              if truth n then getblk fuel' dev block
              else
                let! r := zoom cl (find_buffer dev block) in
                match r with
                | Some _ => getblk fuel' dev block
                | None => zoom cl (rename bh dev block) ;; ret bh
                end
          end
      end
  end.

Definition brelse (fuel : nat) (buf : option nat) : M W unit :=
  match buf with
  | None => ret tt
  | Some bh =>
      wait_on_buffer fuel bh ;;
      let! n := zoom cl (fld b_count bh) in
      zoom cl (setb bh (fun b => b <| b_count ::= fun n => u8 (n - 1) |>)) ;;
      if truth n then wake_up buffer_wait_l
      else halt (Panic "Trying to free free buffer")
  end.

Definition bread (fuel : nat) (dev block : Z) : M W (option nat) :=
  let! bh := getblk fuel dev block in
  let! u := zoom cl (fld b_uptodate bh) in
  if truth u then ret (Some bh)
  else
    ll_rw_block READ bh ;;
    wait_on_buffer fuel bh ;;
    let! u := zoom cl (fld b_uptodate bh) in
    if truth u then ret (Some bh)
    else brelse fuel (Some bh) ;; ret None.
End ops.

(** ** Assignments through pointers *)

Lemma fld_bind {A B} (f : buffer_head -> A) i (k : A -> M cache B) c b :
  bufs c !! i = Some b -> bind (fld f i) k c = k (f b) c.
Proof. intros E. unfold fld, bind, get, deref. by rewrite E. Qed.
Lemma setb_bind {B} i g (k : unit -> M cache B) c b :
  bufs c !! i = Some b -> bind (setb i g) k c = k tt (c <| bufs ::= alter g i |>).
Proof. intros E. unfold setb, bind, get, deref. by rewrite E. Qed.
Lemma setb_run i g c b :
  bufs c !! i = Some b -> setb i g c = Ret tt (c <| bufs ::= alter g i |>).
Proof. intros E. unfold setb, bind, get, deref. by rewrite E. Qed.

Lemma alter_eq (l : list buffer_head) g i b : l !! i = Some b -> alter g i l !! i = Some (g b).
Proof. intros E. by rewrite list_lookup_alter_eq, E. Qed.
Lemma alter_ne (l : list buffer_head) g i j b :
  i <> j -> l !! j = Some b -> alter g i l !! j = Some b.
Proof. intros Hn E. by rewrite list_lookup_alter_ne. Qed.

Lemma alter_alter (f g : buffer_head -> buffer_head) i (l : list buffer_head) :
  alter f i (alter g i l) = alter (fun b => f (g b)) i l.
Proof.
  apply list_eq. intros j. destruct (decide (i = j)) as [->|]; [|by rewrite !list_lookup_alter_ne].
  rewrite !list_lookup_alter_eq. by destruct (l !! j).
Qed.

(** A lookup after assignments to other buffers. *)
Ltac look := cbn [bufs upd]; repeat first [eassumption | apply alter_ne; [congruence|]].

(** A pointer field of the buffers, and what assignments do to it. *)
Definition lk (f : buffer_head -> option nat) (l : list buffer_head) (i : nat) : option nat :=
  (l !! i) ≫= f.

Lemma lk_set f l i v g j :
  is_Some (l !! i) -> (forall b, f (g b) = v) -> lk f (alter g i l) j = pset (lk f l) (Some i) v j.
Proof.
  intros [b E] Hg. unfold lk, pset. case_decide as Hj.
  - simplify_eq. by rewrite (alter_eq _ _ _ _ E); cbn.
  - rewrite list_lookup_alter_ne by congruence. done.
Qed.
Lemma lk_keep f l i g j : (forall b, f (g b) = f b) -> lk f (alter g i l) j = lk f l j.
Proof.
  intros Hg. unfold lk. destruct (decide (i = j)) as [->|]; [|by rewrite list_lookup_alter_ne].
  rewrite list_lookup_alter_eq. by destruct (l !! j); cbn.
Qed.

Lemma alter_proj {T} (p : buffer_head -> T) (l : list buffer_head) i g j :
  (forall b, p (g b) = p b) -> p <$> alter g i l !! j = p <$> l !! j.
Proof.
  intros Hg. destruct (decide (i = j)) as [->|]; [|by rewrite list_lookup_alter_ne].
  rewrite list_lookup_alter_eq. destruct (l !! j); cbn; by rewrite ?Hg.
Qed.

(** Everything but the links of the free list, and but those of the hash
    queues. *)
Definition sfree (b : buffer_head) : buffer_head :=
  b <| b_prev_free := None |> <| b_next_free := None |>.
Definition shash (b : buffer_head) : buffer_head :=
  b <| b_prev := None |> <| b_next := None |>.
Definition same (p : buffer_head -> buffer_head) (l l' : list buffer_head) : Prop :=
  p <$> l' = p <$> l.

Lemma same_alter p l i g : (forall b, p (g b) = p b) -> same p l (alter g i l).
Proof.
  intros Hg. unfold same. apply list_eq. intros j. rewrite !list_lookup_fmap.
  destruct (decide (i = j)) as [->|]; [|by rewrite list_lookup_alter_ne].
  rewrite list_lookup_alter_eq. destruct (l !! j); cbn; by rewrite ?Hg.
Qed.
Lemma same_trans p l1 l2 l3 : same p l1 l2 -> same p l2 l3 -> same p l1 l3.
Proof. unfold same. congruence. Qed.
Lemma same_length p l l' : same p l l' -> length l' = length l.
Proof. intros H%(f_equal length). by rewrite !length_fmap in H. Qed.
Lemma same_lookup p l l' i b :
  same p l l' -> l !! i = Some b -> exists b', l' !! i = Some b' /\ p b' = p b.
Proof.
  intros H E. assert (Hi : (p <$> l') !! i = Some (p b))
    by (rewrite H, list_lookup_fmap, E; done).
  rewrite list_lookup_fmap in Hi. destruct (l' !! i) as [b'|]; [|done].
  exists b'. by injection Hi.
Qed.
Lemma same_sym p l l' : same p l l' -> same p l' l.
Proof. unfold same. congruence. Qed.
Lemma same_lk p f l l' j :
  same p l l' -> (forall b, f (p b) = f b) -> lk f l' j = lk f l j.
Proof.
  intros H Hf. unfold lk. destruct (l !! j) as [b|] eqn:E.
  - destruct (same_lookup _ _ _ _ _ H E) as (b' & -> & Hp). cbn. by rewrite <-Hf, Hp, Hf.
  - rewrite (proj2 (lookup_ge_None _ _)); [done|]. rewrite (same_length _ _ _ H).
    by apply lookup_ge_None.
Qed.

(** ** The free list *)

Record free_inv (c : cache) (fl : list nat) : Prop := {
  f_head : free_list c = head fl;
  f_nodup : NoDup fl;
  f_range : Forall (fun i => (i < length (bufs c))%nat) fl;
  f_ring : Forall (edge (lk b_next_free (bufs c)) (lk b_prev_free (bufs c))) (ring fl)
}.

Lemma in_range (l : list buffer_head) i : (i < length l)%nat -> exists b, l !! i = Some b.
Proof. apply lookup_lt_is_Some_2. Qed.
Lemma lk_lookup f l i b v : l !! i = Some b -> lk f l i = v -> f b = v.
Proof. intros E. unfold lk. by rewrite E. Qed.

Lemma free_remove c l1 b l2 :
  free_inv c (l1 ++ b :: l2) -> l1 ++ l2 <> [] ->
  exists l', remove_free b c =
      Ret tt (c <| bufs := l' |> <| free_list := head (l1 ++ l2) |>) /\
    same sfree (bufs c) l' /\
    free_inv (c <| bufs := l' |> <| free_list := head (l1 ++ l2) |>) (l1 ++ l2).
Proof.
  intros [Hhd Hnd Hr He] Hne.
  assert (exists y m, l2 ++ l1 = y :: m) as (y & m & Hm).
  { destruct l2, l1; cbn; eauto. done. }
  assert (HP : l1 ++ b :: l2 ≡ₚ b :: y :: m) by (rewrite <-Hm, (Permutation_app_comm l2); solve_Permutation).
  destruct (ring_insert b y m) as (z & Hz & R1 & R2).
  assert (HE : ring (l1 ++ b :: l2) ≡ₚ (Some z, Some b) :: (Some b, Some y) :: edges (Some <$> (y :: m)))
    by (rewrite ring_rot; cbn [app]; by rewrite Hm).
  pose proof (unlink _ _ _ _ _ _ _ (links_ring _ _ _ Hnd He) HE) as Hu.
  rewrite HE in He. inversion He as [|?? [E1 E2] He']; subst.
  inversion He' as [|?? [E3 E4] _]; subst. cbn in E1, E2, E3, E4.
  rewrite HP in Hnd, Hr. apply NoDup_cons in Hnd as [Hb Hnd].
  assert (Hzm : z ∈ y :: m) by (by apply last_Some_elem_of).
  rewrite Forall_forall in Hr.
  destruct (in_range (bufs c) b) as [bb Bb]; [apply Hr; set_solver|].
  destruct (in_range (bufs c) y) as [yb By]; [apply Hr; set_solver|].
  destruct (in_range (bufs c) z) as [zb Bz]; [apply Hr; set_solver|].
  assert (Hzb : z <> b) by set_solver. assert (Hyb : y <> b) by set_solver.
  pose proof (lk_lookup _ _ _ _ _ Bb (E3 _ eq_refl)) as Nb.
  pose proof (lk_lookup _ _ _ _ _ Bb (E2 _ eq_refl)) as Pb.
  set (g1 := fun b0 => b0 <| b_next_free := Some y |>).
  set (g2 := fun b0 => b0 <| b_prev_free := Some z |>).
  exists (alter g2 y (alter g1 z (bufs c))).
  assert (Bb1 : alter g1 z (bufs c) !! b = Some bb) by (by apply alter_ne).
  assert (exists yb1, alter g1 z (bufs c) !! y = Some yb1) as [yb1 By1]
    by (apply in_range; rewrite length_alter; by eapply lookup_lt_Some).
  split_and!.
  - unfold remove_free. rewrite (fld_bind _ _ _ _ _ Bb), (fld_bind _ _ _ _ _ Bb), Pb, Nb.
    rewrite (fld_bind _ _ _ _ _ Bb), Nb, (setb_bind _ _ _ _ _ Bz). fold g1.
    rewrite (fld_bind _ _ _ _ bb) by done. rewrite Nb. cbn [deref]. rewrite bind_ret_l.
    rewrite (fld_bind _ _ _ _ bb) by done. rewrite Pb.
    rewrite (setb_bind _ _ _ _ yb1) by done. fold g2. rewrite bind_get. cbn [free_list upd].
    rewrite Hhd. destruct l1 as [|a l1]; cbn [app head].
    + rewrite bool_decide_true by done.
      rewrite (fld_bind _ _ _ _ bb) by (cbn; by apply alter_ne). rewrite Nb.
      unfold modify. f_equal. rewrite app_nil_r in Hm. subst l2. by destruct c.
    + rewrite bool_decide_false; [by destruct c|]. intros [= ->].
      apply Hb. rewrite <-Hm. set_solver.
  - eapply same_trans; apply same_alter; done.
  - assert (HP2 : l1 ++ l2 ≡ₚ y :: m) by (by rewrite <-Hm, Permutation_app_comm).
    split; cbn [bufs free_list upd]; [done|by rewrite HP2| |].
    + rewrite HP2, Forall_forall, !length_alter. intros i Hi. apply Hr. set_solver.
    + rewrite (ring_rot l1 l2), Hm, R1. eapply Forall_impl; [exact Hu|].
      intros e [H1 H2]. split; intros a Ha; [rewrite <-(H1 a Ha)|rewrite <-(H2 a Ha)].
      * rewrite lk_keep by done. rewrite (lk_set _ _ _ (Some y)) by (eauto || done). done.
      * rewrite (lk_set _ _ _ (Some z)) by (eauto || done).
        unfold pset. case_decide; [done|]. by rewrite lk_keep.
Qed.

Lemma free_insert c y m b :
  free_inv c (y :: m) -> b ∉ y :: m -> (b < length (bufs c))%nat ->
  exists l', insert_free b c = Ret tt (c <| bufs := l' |>) /\ same sfree (bufs c) l' /\
    free_inv (c <| bufs := l' |>) (y :: m ++ [b]).
Proof.
  intros [Hhd Hnd Hr He] Hb Hlt.
  destruct (ring_insert b y m) as (z & Hz & R1 & R2).
  pose proof (links_ring _ _ _ Hnd He) as Hl.
  rewrite R1 in He. inversion He as [|?? [E1 E2] _]; subst. cbn in E1, E2.
  assert (Hzm : z ∈ y :: m) by (by apply last_Some_elem_of).
  pose proof (proj1 (Forall_forall _ _) Hr) as Hr'.
  destruct (in_range (bufs c) b) as [bb Bb]; [done|].
  destruct (in_range (bufs c) y) as [yb By]; [apply Hr'; set_solver|].
  assert (Hzb : z <> b) by set_solver. assert (Hyb : y <> b) by set_solver.
  pose proof (lk_lookup _ _ _ _ _ By (E2 _ eq_refl)) as Py.
  set (g1 := fun b0 => b0 <| b_next_free := Some y |>).
  set (g2 := fun b0 => b0 <| b_prev_free := Some z |>).
  set (g3 := fun b0 => b0 <| b_next_free := Some b |>).
  set (g4 := fun b0 => b0 <| b_prev_free := Some b |>).
  assert (Hex : forall (l : list buffer_head) j, length l = length (bufs c) -> j ∈ b :: y :: m -> exists x, l !! j = Some x).
  { intros l j Hlen [->|Hj]%elem_of_cons; apply in_range; rewrite Hlen; auto. }
  exists (alter g4 y (alter g3 z (alter g2 b (alter g1 b (bufs c))))). split_and!.
  - unfold insert_free. rewrite bind_get, Hhd. cbn [head].
    rewrite (setb_bind _ _ _ _ _ Bb). fold g1. cbn [deref]. rewrite bind_ret_l.
    rewrite (fld_bind _ _ _ _ yb) by look. rewrite Py.
    destruct (Hex (alter g1 b (bufs c)) b) as [x1 X1]; [by rewrite length_alter|set_solver|].
    rewrite (setb_bind _ _ _ _ x1) by exact X1. fold g2.
    rewrite (fld_bind _ _ _ _ yb) by look. rewrite Py. cbn [deref].
    rewrite bind_ret_l.
    destruct (Hex (alter g2 b (alter g1 b (bufs c))) z) as [x2 X2]; [by rewrite !length_alter|set_solver|].
    rewrite (setb_bind _ _ _ _ x2) by exact X2. fold g3.
    destruct (Hex (alter g3 z (alter g2 b (alter g1 b (bufs c)))) y) as [x3 X3];
      [by rewrite !length_alter|set_solver|].
    rewrite (setb_run _ _ _ x3) by exact X3. by destruct c.
  - repeat (eapply same_trans; [|by apply same_alter]). done.
  - split; cbn [bufs free_list upd]; [done| | |].
    + rewrite app_comm_cons. apply NoDup_app. split_and!; [done| |apply NoDup_singleton].
      intros i Hi ->%list_elem_of_singleton. done.
    + rewrite app_comm_cons. apply Forall_app. rewrite !length_alter.
      split; [done|]. by repeat constructor.
    + rewrite app_comm_cons, ring_rot. cbn [app]. rewrite R2.
      eapply (link _ _ (ring (y :: m))); [exact Hl|done| | | |].
      * rewrite ring_sources. by intros (? & [= <-] & ?)%list_elem_of_fmap.
      * rewrite ring_targets. by intros (? & [= <-] & ?)%list_elem_of_fmap.
      * intros a. rewrite lk_keep by done.
        rewrite (lk_set _ _ _ (Some b)) by (done || (apply Hex; [by rewrite !length_alter|set_solver])).
        unfold pset. rewrite (lk_keep _ _ b g2) by done.
        rewrite (lk_set _ _ _ (Some y)) by (eauto || done). unfold pset.
        repeat case_decide; simplify_eq; done.
      * intros a.
        rewrite (lk_set _ _ _ (Some b)) by (done || (apply Hex; [by rewrite !length_alter|set_solver])).
        unfold pset. rewrite (lk_keep _ _ z g3) by done.
        rewrite (lk_set _ _ _ (Some z)) by (done || (apply Hex; [by rewrite !length_alter|set_solver])).
        unfold pset. rewrite (lk_keep _ _ b g1) by done.
        repeat case_decide; simplify_eq; done.
Qed.

(** ** The hash queues *)

(** The buffer [out] has just been taken out of its queue. *)
Record hash_inv (c : cache) (ch : Z -> list nat) (out : option nat) : Prop := {
  h_len : length (hash_table c) = Z.to_nat NR_HASH;
  h_heads : forall h, 0 <= h < NR_HASH -> zget (hash_table c) h = Some (head (ch h));
  h_nodup : forall h, 0 <= h < NR_HASH -> NoDup (ch h);
  h_chain : forall h, 0 <= h < NR_HASH ->
    Forall (edge (lk b_next (bufs c)) (lk b_prev (bufs c))) (chain (ch h));
  h_mem : forall h i, 0 <= h < NR_HASH ->
    (i ∈ ch h <-> Some i <> out /\ exists b, bufs c !! i = Some b /\ b_dev b <> 0 /\
       _hashfn (b_dev b) (b_blocknr b) = h);
  h_none : forall i b, bufs c !! i = Some b -> b_dev b = 0 -> Some i <> out ->
    b_next b = None /\ b_prev b = None
}.

Lemma hashfn_range dev blk : 0 <= _hashfn dev blk < NR_HASH.
Proof. apply Z.mod_pos_bound. done. Qed.

Lemma hash_bind {B} dev blk (k : option nat -> M cache B) c ch out :
  hash_inv c ch out -> bind (hash dev blk) k c = k (head (ch (_hashfn dev blk))) c.
Proof.
  intros Hi. unfold hash. rewrite bind_assoc, bind_get.
  by rewrite (h_heads _ _ _ Hi) by apply hashfn_range.
Qed.
Lemma set_hash_run dev blk p c :
  length (hash_table c) = Z.to_nat NR_HASH ->
  set_hash dev blk p c = Ret tt (c <| hash_table ::= zset (_hashfn dev blk) p |>).
Proof.
  intros Hl. unfold set_hash, hash. rewrite bind_assoc, bind_get.
  destruct (zget_is_Some (hash_table c) (_hashfn dev blk)) as [v ->]; [|done].
  rewrite Hl. pose proof (hashfn_range dev blk). unfold NR_HASH in *. lia.
Qed.

(** An assignment through a pointer that may be NULL. *)
Definition palter (p : option nat) (g : buffer_head -> buffer_head) (l : list buffer_head) :=
  match p with Some i => alter g i l | None => l end.

Lemma lk_pset f l p v g j :
  (forall i, p = Some i -> is_Some (l !! i)) -> (forall b, f (g b) = v) ->
  lk f (palter p g l) j = pset (lk f l) p v j.
Proof.
  intros Hp Hg. destruct p as [i|]; [by apply lk_set; auto|]. unfold pset. by rewrite decide_False.
Qed.
Lemma lk_pkeep f l p g j : (forall b, f (g b) = f b) -> lk f (palter p g l) j = lk f l j.
Proof. intros Hg. destruct p; [by apply lk_keep|done]. Qed.
Lemma same_palter q l p g : (forall b, q (g b) = q b) -> same q l (palter p g l).
Proof. destruct p; [apply same_alter|done]. Qed.
Lemma palter_ne l p g i b : p <> Some i -> l !! i = Some b -> palter p g l !! i = Some b.
Proof. destruct p; [|done]. intros Hn. apply alter_ne. congruence. Qed.

Lemma shash_fields b b' : shash b = shash b' ->
  b_dev b = b_dev b' /\ b_blocknr b = b_blocknr b' /\ b_count b = b_count b' /\
  b_lock b = b_lock b' /\ b_dirt b = b_dirt b' /\ b_uptodate b = b_uptodate b'.
Proof. unfold shash. cbn. by intros [=]. Qed.
Lemma sfree_fields b b' : sfree b = sfree b' ->
  b_dev b = b_dev b' /\ b_blocknr b = b_blocknr b' /\ b_count b = b_count b' /\
  b_lock b = b_lock b' /\ b_dirt b = b_dirt b' /\ b_uptodate b = b_uptodate b' /\
  b_next b = b_next b' /\ b_prev b = b_prev b'.
Proof. unfold sfree. cbn. by intros [=]. Qed.

Lemma shash_key b b' : shash b = shash b' -> b_dev b = b_dev b' /\ b_blocknr b = b_blocknr b'.
Proof. by intros (? & ? & _)%shash_fields. Qed.
Lemma sfree_key b b' : sfree b = sfree b' -> b_dev b = b_dev b' /\ b_blocknr b = b_blocknr b'.
Proof. by intros (? & ? & _)%sfree_fields. Qed.

(** Membership depends on the device and the block number alone. *)
Lemma mem_same p l l' i h :
  same p l l' -> (forall b b', p b = p b' -> b_dev b = b_dev b' /\ b_blocknr b = b_blocknr b') ->
  (exists b, l !! i = Some b /\ b_dev b <> 0 /\ _hashfn (b_dev b) (b_blocknr b) = h) <->
  (exists b, l' !! i = Some b /\ b_dev b <> 0 /\ _hashfn (b_dev b) (b_blocknr b) = h).
Proof.
  intros Hs Hp. split; intros (b & E & H1 & H2).
  - destruct (same_lookup _ _ _ _ _ Hs E) as (b' & E' & [Hd Hb]%Hp). exists b'.
    by rewrite Hd, Hb.
  - destruct (same_lookup _ _ _ _ _ (same_sym _ _ _ Hs) E) as (b' & E' & [Hd Hb]%Hp).
    exists b'. by rewrite Hd, Hb.
Qed.

Lemma chain_frame nx pv nx' pv' l :
  Forall (edge nx pv) (chain l) -> (forall i, i ∈ l -> nx' i = nx i /\ pv' i = pv i) ->
  Forall (edge nx' pv') (chain l).
Proof.
  intros H Hk. eapply edges_keep; [exact H| |]; intros a Ha; apply Hk.
  - rewrite chain_sources in Ha. apply elem_of_cons in Ha as [?|Ha]; [done|].
    by apply list_elem_of_fmap in Ha as (? & [= <-] & ?).
  - rewrite chain_targets in Ha. apply elem_of_app in Ha as [Ha|?%list_elem_of_singleton]; [|done].
    by apply list_elem_of_fmap in Ha as (? & [= <-] & ?).
Qed.

Definition rechain (ch : Z -> list nat) (h : Z) (l : list nat) (h' : Z) : list nat :=
  if h' =? h then l else ch h'.

Lemma last_elem (l : list nat) i : last l = Some i -> i ∈ l.
Proof. apply last_Some_elem_of. Qed.
Lemma head_elem (l : list nat) i : head l = Some i -> i ∈ l.
Proof. destruct l; [done|]. intros [= ->]. set_solver. Qed.

(** Lines 21 to 26 for a buffer between [x] and [y]. *)
Lemma remove_hash_run c ch b bb x y hd :
  hash_inv c ch None -> bufs c !! b = Some bb -> b_prev bb = x -> b_next bb = y ->
  x <> Some b -> y <> Some b ->
  (forall i, x = Some i -> is_Some (bufs c !! i)) ->
  (forall i, y = Some i -> is_Some (bufs c !! i)) ->
  head (ch (_hashfn (b_dev bb) (b_blocknr bb))) = hd ->
  remove_hash b c = Ret tt (c <| bufs := palter x (fun n => n <| b_next := y |>)
                                   (palter y (fun n => n <| b_prev := x |>) (bufs c)) |>
    <| hash_table := (if bool_decide (hd = Some b)
         then zset (_hashfn (b_dev bb) (b_blocknr bb)) y (hash_table c) else hash_table c) |>).
Proof.
  intros Hi Bb Px Ny Hxb Hyb Hx Hy Hhd.
  set (g1 := fun n => n <| b_prev := x |>). set (g2 := fun n => n <| b_next := y |>).
  set (l1 := palter y g1 (bufs c)). set (l2 := palter x g2 l1).
  assert (B1 : l1 !! b = Some bb) by (by apply palter_ne).
  assert (B2 : l2 !! b = Some bb) by (by apply palter_ne).
  assert (E1 : forall k : unit -> M cache unit,
    bind (match y with Some n => let! pv := fld b_prev b in setb n (fun b => b <| b_prev := pv |>)
          | None => ret tt end) k c = k tt (c <| bufs := l1 |>)).
  { intros k. unfold l1. destruct y as [n|]; [|by destruct c].
    destruct (Hy n eq_refl) as [nb Bn]. rewrite bind_assoc, (fld_bind _ _ _ _ _ Bb), Px.
    by rewrite (setb_bind _ _ _ _ _ Bn). }
  unfold remove_hash. rewrite (fld_bind _ _ _ _ _ Bb), Ny, E1.
  rewrite (fld_bind _ _ _ _ bb) by exact B1. rewrite Px.
  assert (E2 : forall k : unit -> M cache unit,
    bind (match x with Some p => let! nx := fld b_next b in setb p (fun b => b <| b_next := nx |>)
          | None => ret tt end) k (c <| bufs := l1 |>) = k tt (c <| bufs := l2 |>)).
  { intros k. unfold l2. destruct x as [p|]; [|done].
    assert (exists pb, l1 !! p = Some pb) as [pb Bp].
    { destruct (Hx p eq_refl) as [pb Bp]. unfold l1. destruct y as [n|]; [|eauto].
      apply in_range. cbn. rewrite length_alter. by eapply lookup_lt_Some. }
    rewrite bind_assoc, (fld_bind _ _ _ _ bb) by exact B1. rewrite Ny.
    by rewrite (setb_bind _ _ _ _ pb) by exact Bp. }
  rewrite E2, !(fld_bind _ _ _ _ bb) by exact B2.
  assert (E3 : forall k : option nat -> M cache unit,
    bind (hash (b_dev bb) (b_blocknr bb)) k (c <| bufs := l2 |>) = k hd (c <| bufs := l2 |>)).
  { intros k. unfold hash. rewrite bind_assoc, bind_get. cbn [hash_table upd].
    rewrite (h_heads _ _ _ Hi) by apply hashfn_range. by rewrite Hhd. }
  rewrite E3. case_bool_decide; [|by destruct c].
  rewrite (fld_bind _ _ _ _ bb) by exact B2. rewrite set_hash_run by apply Hi.
  rewrite Ny. by destruct c.
Qed.

(** A buffer without device is in no queue. *)
Lemma hash_remove_free c ch b bb :
  hash_inv c ch None -> bufs c !! b = Some bb -> b_dev bb = 0 ->
  remove_hash b c = Ret tt c /\ hash_inv c ch (Some b).
Proof.
  intros Hi Bb Hd. destruct (h_none _ _ _ Hi _ _ Bb Hd) as [Nn Np]; [done|].
  assert (Hn : forall h, 0 <= h < NR_HASH -> b ∉ ch h).
  { intros h Hh. rewrite (h_mem _ _ _ Hi) by done. intros (_ & b' & E & ? & _). congruence. }
  split.
  - rewrite (remove_hash_run c ch b bb None None _ Hi Bb Np Nn) by done.
    rewrite bool_decide_false; [by destruct c|]. intros Hh%head_elem.
    by eapply Hn; [apply hashfn_range|].
  - destruct Hi. split; try done.
    + intros h i Hh. rewrite h_mem0 by done. split; [|intros [_ Hex]; by split].
      intros [_ Hb]. split; [|done]. intros [= ->]. apply (Hn h Hh). by apply h_mem0.
    + intros i b' E Hz Hib. by apply (h_none0 i b').
Qed.

Lemma neighbours nx pv l1 b l2 :
  Forall (edge nx pv) (chain (l1 ++ b :: l2)) -> NoDup (l1 ++ b :: l2) ->
  pv b = last l1 /\ nx b = head l2 /\ last l1 <> Some b /\ head l2 <> Some b /\
  Forall (edge (pset nx (last l1) (head l2)) (pset pv (head l2) (last l1))) (chain (l1 ++ l2)).
Proof.
  intros He Hnd. destruct (chain_insert l1 l2) as (x & y & E & -> & -> & R1 & R2).
  pose proof (unlink _ _ _ _ _ _ _ (links_chain _ _ _ Hnd He) (R2 b)) as Hu.
  rewrite (R2 b) in He. inversion He as [|?? [_ E1] He']; subst.
  inversion He' as [|?? [E2 _] _]; subst. cbn in *.
  apply NoDup_app in Hnd as (_ & H1 & [H2 _]%NoDup_cons). split_and!.
  - by apply E1. - by apply E2.
  - intros Hx%last_elem. apply (H1 _ Hx). set_solver.
  - by intros Hx%head_elem.
  - by rewrite R1.
Qed.

Lemma elem_neighbour (l1 l2 : list nat) b i :
  last l1 = Some i \/ head l2 = Some i -> i ∈ l1 ++ b :: l2.
Proof. intros [H%last_elem|H%head_elem]; set_solver. Qed.

(** The invariant with the queue [h] replaced, [b] out of it or back in it. *)
Lemma hash_inv_rechain c c' ch h l o o' :
  hash_inv c ch o -> 0 <= h < NR_HASH -> NoDup l ->
  length (hash_table c') = length (hash_table c) -> same shash (bufs c) (bufs c') ->
  zget (hash_table c') h = Some (head l) ->
  (forall h', h' <> h -> zget (hash_table c') h' = zget (hash_table c) h') ->
  Forall (edge (lk b_next (bufs c')) (lk b_prev (bufs c'))) (chain l) ->
  (forall h' i, 0 <= h' < NR_HASH -> h' <> h -> i ∈ ch h' ->
     lk b_next (bufs c') i = lk b_next (bufs c) i /\ lk b_prev (bufs c') i = lk b_prev (bufs c) i) ->
  (forall i, i ∈ l <-> Some i <> o' /\ exists b, bufs c !! i = Some b /\ b_dev b <> 0 /\
     _hashfn (b_dev b) (b_blocknr b) = h) ->
  (forall h' i, 0 <= h' < NR_HASH -> h' <> h -> i ∈ ch h' -> Some i <> o') ->
  (forall i b, Some i <> o' -> Some i = o -> bufs c !! i = Some b -> b_dev b <> 0 /\
     _hashfn (b_dev b) (b_blocknr b) = h) ->
  (forall i b, bufs c !! i = Some b -> b_dev b = 0 -> Some i <> o' ->
     lk b_next (bufs c') i = lk b_next (bufs c) i /\ lk b_prev (bufs c') i = lk b_prev (bufs c) i) ->
  hash_inv c' (rechain ch h l) o'.
Proof.
  intros Hi Hh Hnd Hlen Hs Hz Hz' He Hk Hl Ho Ho' H0. unfold rechain. split.
  - rewrite Hlen. apply Hi.
  - intros h' Hh'. destruct (Z.eqb_spec h' h) as [->|Hne]; [done|]. rewrite Hz' by done. by apply Hi.
  - intros h' Hh'. destruct (Z.eqb_spec h' h); [done|]. by apply Hi.
  - intros h' Hh'. destruct (Z.eqb_spec h' h); [done|].
    eapply chain_frame; [by apply Hi|]. intros. by eapply Hk.
  - intros h' i Hh'. rewrite <-(mem_same shash (bufs c)) by (done || apply shash_key).
    destruct (Z.eqb_spec h' h) as [->|Hne]; [by apply Hl|]. split.
    + intros Hin. split; [by eapply Ho|]. by apply (h_mem _ _ _ Hi).
    + intros [Hio (b & E & Hd & Hf)]. apply (h_mem _ _ _ Hi); [done|]. split; [|by eauto].
      intros Heq. destruct (Ho' i b Hio Heq E). congruence.
  - intros i b E Hd Hio.
    destruct (same_lookup _ _ _ _ _ (same_sym _ _ _ Hs) E) as (b0 & E0 & Hp).
    destruct (shash_fields _ _ Hp) as (Hd0 & _).
    destruct (H0 i b0) as [K1 K2]; [done|congruence|done|].
    destruct (decide (Some i = o)) as [Heq|Hne].
    + destruct (Ho' i b0 Hio Heq E0). congruence.
    + destruct (h_none _ _ _ Hi i b0) as [N1 N2]; [done|congruence|done|].
      unfold lk in K1, K2. rewrite E, E0 in K1, K2. cbn in *. by rewrite K1, K2.
Qed.

Lemma same_key c ch o h i b :
  hash_inv c ch o -> 0 <= h < NR_HASH -> i ∈ ch h -> bufs c !! i = Some b ->
  b_dev b <> 0 /\ _hashfn (b_dev b) (b_blocknr b) = h /\ Some i <> o.
Proof.
  intros Hi Hh (Ho & b' & E & Hd & Hf)%(h_mem _ _ _ Hi) Hb; [|done].
  assert (b' = b) as -> by congruence. done.
Qed.

Lemma hash_remove_dev c ch b bb :
  hash_inv c ch None -> bufs c !! b = Some bb -> b_dev bb <> 0 ->
  exists l' t ch', remove_hash b c = Ret tt (c <| bufs := l' |> <| hash_table := t |>) /\
    same shash (bufs c) l' /\ hash_inv (c <| bufs := l' |> <| hash_table := t |>) ch' (Some b).
Proof.
  intros Hi Bb Hd. set (h := _hashfn (b_dev bb) (b_blocknr bb)).
  assert (Hh : 0 <= h < NR_HASH) by apply hashfn_range.
  assert (Hin : b ∈ ch h) by (apply (h_mem _ _ _ Hi); eauto 6).
  apply list_elem_of_split in Hin as (l1 & l2 & Hch).
  pose proof (h_nodup _ _ _ Hi h Hh) as Hnd. pose proof (h_chain _ _ _ Hi h Hh) as He.
  rewrite Hch in Hnd, He.
  destruct (neighbours _ _ _ _ _ He Hnd) as (Np & Nn & Hxb & Hyb & He').
  unfold lk in Np, Nn. rewrite Bb in Np, Nn. cbn in Np, Nn.
  assert (Hmem : forall i, last l1 = Some i \/ head l2 = Some i -> i ∈ ch h)
    by (intros; rewrite Hch; by apply elem_neighbour).
  assert (Hlk : forall i, last l1 = Some i \/ head l2 = Some i -> is_Some (bufs c !! i)).
  { intros i (_ & b' & E & _)%Hmem%(h_mem _ _ _ Hi); [by eauto|done]. }
  eexists _, _, (rechain ch h (l1 ++ l2)). split_and!.
  - eapply (remove_hash_run c ch); eauto.
  - eapply same_trans; by apply same_palter.
  - set (x := last l1) in *. set (y := head l2) in *.
    assert (Ln : forall i, lk b_next (palter x (fun n => n <| b_next := y |>)
       (palter y (fun n => n <| b_prev := x |>) (bufs c))) i = pset (lk b_next (bufs c)) x y i).
    { intros i. rewrite (lk_pset _ _ _ y) by (done || (intros ? ->; destruct y; cbn;
        rewrite ?lookup_lt_is_Some, ?length_alter, <-?lookup_lt_is_Some; eauto)).
      unfold pset. case_decide; [done|]. by rewrite lk_pkeep. }
    assert (Lp : forall i, lk b_prev (palter x (fun n => n <| b_next := y |>)
       (palter y (fun n => n <| b_prev := x |>) (bufs c))) i = pset (lk b_prev (bufs c)) y x i).
    { intros i. rewrite lk_pkeep by done. by rewrite (lk_pset _ _ _ x) by (done || eauto). }
    assert (Hout : forall i, i ∉ ch h -> pset (lk b_next (bufs c)) x y i = lk b_next (bufs c) i /\
       pset (lk b_prev (bufs c)) y x i = lk b_prev (bufs c) i).
    { intros i Hni. by split; apply pset_ne; intros ?; apply Hni, Hmem; eauto. }
    assert (Hother : forall h' i, 0 <= h' < NR_HASH -> h' <> h -> i ∈ ch h' -> i ∉ ch h).
    { intros h' i Hh' Hne Hi1 (_ & b1 & E1 & _ & F1)%(h_mem _ _ _ Hi); [|done].
      destruct (same_key _ _ _ _ _ _ Hi Hh' Hi1 E1) as (_ & ? & _). congruence. }
    eapply (hash_inv_rechain c); cbn [bufs hash_table upd].
    + done. + done.
    + by apply NoDup_app in Hnd as (? & ? & [? ?]%NoDup_cons); apply NoDup_app; set_solver.
    + case_bool_decide; [by rewrite length_zset|done].
    + eapply same_trans; by apply same_palter.
    + fold h. rewrite Hch. destruct l1 as [|a l1]; cbn [app head].
      * rewrite bool_decide_true by done. rewrite zget_zset_eq; [done|].
        rewrite (h_len _ _ _ Hi). unfold NR_HASH in *. lia.
      * rewrite bool_decide_false; [rewrite (h_heads _ _ _ Hi h Hh), Hch; done|].
        intros [= ->]. apply NoDup_cons in Hnd as [Hn _]. set_solver.
    + intros h' Hne. fold h. case_bool_decide; [by rewrite zget_zset_ne|done].
    + eapply Forall_impl; [exact He'|]. intros e [G1 G2].
      split; intros a Ha; [rewrite Ln|rewrite Lp]; auto.
    + intros h' i Hh' Hne Hi'. rewrite Ln, Lp. apply Hout. eauto.
    + intros i. pose proof (h_mem _ _ _ Hi h i Hh) as Hm. rewrite Hch in Hm.
      apply NoDup_app in Hnd as (_ & D1 & [D2 _]%NoDup_cons).
      rewrite elem_of_app, elem_of_cons in *. split; [|naive_solver].
      intros Hi'. split; [intros [= ->]; set_solver|]. by apply Hm; tauto.
    + intros h' i Hh' Hne Hi' [= ->]. destruct (same_key _ _ _ _ _ _ Hi Hh' Hi' Bb) as (_ & F & _).
      apply Hne. by rewrite <-F.
    + done.
    + intros i b0 E0 Hz _. rewrite Ln, Lp. apply Hout. intros Hi'.
      destruct (same_key _ _ _ _ _ _ Hi Hh Hi' E0). congruence.
Qed.

(** Lines 45 to 58 for a buffer that goes in front of [y]. *)
Lemma insert_hash_run c ch b bb y :
  hash_inv c ch (Some b) -> bufs c !! b = Some bb -> b_dev bb <> 0 -> y <> Some b ->
  head (ch (_hashfn (b_dev bb) (b_blocknr bb))) = y ->
  (forall i, y = Some i -> is_Some (bufs c !! i)) ->
  exists l', insert_hash b c = Ret tt (c <| bufs := l' |> <| hash_table ::=
      zset (_hashfn (b_dev bb) (b_blocknr bb)) (Some b) |>) /\ same shash (bufs c) l' /\
    (forall j, lk b_next l' j = if decide (j = b) then y else lk b_next (bufs c) j) /\
    (forall j, lk b_prev l' j = if decide (j = b) then None else pset (lk b_prev (bufs c)) y (Some b) j).
Proof.
  intros Hi Bb Hd Hyb Hy Hex.
  set (h1 := fun n => n <| b_prev := None |>). set (h2 := fun n => n <| b_next := None |>).
  set (h3 := fun n => n <| b_next := y |>). set (h4 := fun n => n <| b_prev := Some b |>).
  set (l1 := alter h2 b (alter h1 b (bufs c))).
  assert (B1 : alter h1 b (bufs c) !! b = Some (h1 bb)) by (by apply alter_eq).
  assert (B2 : l1 !! b = Some (h2 (h1 bb))) by (by apply alter_eq).
  unfold insert_hash. rewrite (setb_bind _ _ _ _ _ Bb). fold h1.
  rewrite (setb_bind _ _ _ _ (h1 bb)) by exact B1. fold h2.
  rewrite (fld_bind _ _ _ _ (h2 (h1 bb))) by exact B2.
  change (b_dev (h2 (h1 bb))) with (b_dev bb). rewrite (proj2 (Z.eqb_neq _ _)) by done.
  rewrite (fld_bind _ _ _ _ (h2 (h1 bb))) by exact B2.
  change (b_blocknr (h2 (h1 bb))) with (b_blocknr bb).
  unfold hash at 1. rewrite bind_assoc, bind_get. cbn [hash_table upd].
  rewrite (h_heads _ _ _ Hi) by apply hashfn_range. cbn [deref]. rewrite bind_ret_l, Hy.
  destruct y as [n|].
  - exists (alter h4 n (alter h3 b l1)).
    assert (exists nb, l1 !! n = Some nb) as [nb Bn].
    { apply in_range. unfold l1. rewrite !length_alter.
      destruct (Hex n eq_refl) as [? ?%lookup_lt_Some]. done. }
    assert (B3 : alter h3 b l1 !! b = Some (h3 (h2 (h1 bb)))) by (by apply alter_eq).
    rewrite (setb_bind _ _ _ _ (h2 (h1 bb))) by exact B2. fold h3.
    erewrite bind_ret by (apply set_hash_run, Hi).
    rewrite (fld_bind _ _ _ _ (h3 (h2 (h1 bb)))) by exact B3. cbn [deref h3 b_next upd].
    rewrite bind_ret_l, (setb_run _ _ _ nb) by (cbn [bufs upd]; apply alter_ne; [congruence|done]).
    split_and!; [by destruct c| |intros j..].
    + repeat (eapply same_trans; [|by apply same_alter]). done.
    + rewrite lk_keep by done. rewrite (lk_set _ _ _ (Some n)) by (eauto || done).
      unfold pset, l1. rewrite (lk_set _ _ _ None) by (eauto || done). unfold pset.
      rewrite lk_keep by done. repeat case_decide; congruence.
    + rewrite (lk_set _ _ _ (Some b)) by (done || (exists nb; apply alter_ne; [congruence|done])).
      unfold pset. rewrite lk_keep by done. unfold l1. rewrite lk_keep by done.
      rewrite (lk_set _ _ _ None) by (eauto || done). unfold pset.
      repeat case_decide; congruence.
  - exists l1. rewrite set_hash_run by apply Hi. split_and!; [by destruct c| |intros j..].
    + repeat (eapply same_trans; [|by apply same_alter]). done.
    + unfold l1. rewrite (lk_set _ _ _ None) by (eauto || done). unfold pset.
      rewrite lk_keep by done. repeat case_decide; congruence.
    + unfold l1. rewrite lk_keep by done. rewrite (lk_set _ _ _ None) by (eauto || done).
      unfold pset. repeat case_decide; congruence.
Qed.

Lemma hash_insert c ch b bb :
  hash_inv c ch (Some b) -> bufs c !! b = Some bb -> b_dev bb <> 0 ->
  exists l' t ch', insert_hash b c = Ret tt (c <| bufs := l' |> <| hash_table := t |>) /\
    same shash (bufs c) l' /\ hash_inv (c <| bufs := l' |> <| hash_table := t |>) ch' None.
Proof.
  intros Hi Bb Hd. set (h := _hashfn (b_dev bb) (b_blocknr bb)).
  assert (Hh : 0 <= h < NR_HASH) by apply hashfn_range.
  assert (Hbn : forall h, 0 <= h < NR_HASH -> b ∉ ch h)
    by (intros h' Hh' [? _]%(h_mem _ _ _ Hi); done).
  destruct (insert_hash_run c ch b bb (head (ch h)) Hi Bb Hd) as (l' & E & Hs & Hn & Hp); [|done| |].
  { intros Hhd%head_elem. by eapply Hbn. }
  { intros i (_ & b' & E & _)%head_elem%(h_mem _ _ _ Hi); [by eauto|done]. }
  exists l', (zset h (Some b) (hash_table c)), (rechain ch h (b :: ch h)).
  split; [rewrite E; by destruct c|]. split; [done|].
  destruct (chain_insert [] (ch h)) as (x & y & Es & -> & Hy & R1 & R2). cbn [app] in *. subst y.
  pose proof (links_chain _ _ _ (h_nodup _ _ _ Hi h Hh) (h_chain _ _ _ Hi h Hh)) as Hl.
  assert (Hother : forall h' i, 0 <= h' < NR_HASH -> h' <> h -> i ∈ ch h' -> i <> b /\ head (ch h) <> Some i).
  { intros h' i Hh' Hne Hi'. split; [intros ->; by eapply Hbn|]. intros Hhd%head_elem.
    pose proof Hi' as (_ & b1 & E1 & _ & F1)%(h_mem _ _ _ Hi); [|done].
    destruct (same_key _ _ _ _ _ _ Hi Hh Hhd E1) as (_ & ? & _). congruence. }
  eapply (hash_inv_rechain c); cbn [bufs hash_table upd]; try done.
  - apply NoDup_cons. split; [by apply Hbn|by apply Hi].
  - by rewrite length_zset.
  - apply zget_zset_eq. rewrite (h_len _ _ _ Hi). unfold NR_HASH in *. lia.
  - intros h' Hne. by rewrite zget_zset_ne.
  - rewrite (R2 b). eapply (link _ _ _ _ None b); [exact Hl|exact R1| | | |].
    + rewrite chain_sources. intros [?|(? & [= <-] & ?)%list_elem_of_fmap]%elem_of_cons; [done|].
      by eapply Hbn.
    + rewrite chain_targets. intros [(? & [= <-] & ?)%list_elem_of_fmap|?%list_elem_of_singleton]%elem_of_app;
        [by eapply Hbn|done].
    + intros a. rewrite Hn. unfold pset. by rewrite (decide_False (P := None = Some a)).
    + intros a. rewrite Hp. done.
  - intros h' i Hh' Hne Hi'. destruct (Hother h' i Hh' Hne Hi') as [H1 H2].
    rewrite Hn, Hp. rewrite !decide_False by done. by rewrite pset_ne.
  - intros i. rewrite elem_of_cons, (h_mem _ _ _ Hi) by done. split.
    + intros [->|[_ Hex]]; [by eauto 6|done].
    + intros [_ Hex]. destruct (decide (i = b)) as [->|]; [by left|]. right. split; [congruence|done].
  - intros i b' _ [= ->] E'. assert (b' = bb) as -> by congruence. done.
  - intros i b0 E0 Hz _.
    assert (i <> b) by (intros ->; congruence). rewrite Hn, Hp, !decide_False by done.
    split; [done|]. apply pset_ne. intros Hhd%head_elem.
    destruct (same_key _ _ _ _ _ _ Hi Hh Hhd E0). congruence.
Qed.

(** ** The invariant of the cache *)

Definition skey (b : buffer_head) := (b_dev b, b_blocknr b, b_next b, b_prev b).
Definition sring (b : buffer_head) := (b_next_free b, b_prev_free b).

Lemma lk_proj {T} (p : buffer_head -> T) (f : buffer_head -> option nat) (g : T -> option nat) l l' j :
  p <$> l' !! j = p <$> l !! j -> (forall b, f b = g (p b)) -> lk f l' j = lk f l j.
Proof.
  unfold lk. destruct (l !! j), (l' !! j); intros H Hg; try done; cbn in *.
  rewrite !Hg. by injection H as ->.
Qed.

(** It is about device, number and links of the buffers in the queues. *)
Lemma hash_inv_frame c c' ch o :
  hash_inv c ch o -> hash_table c' = hash_table c ->
  (forall j, Some j <> o -> skey <$> bufs c' !! j = skey <$> bufs c !! j) -> hash_inv c' ch o.
Proof.
  intros Hi Ht Hs. split.
  - rewrite Ht. apply Hi.
  - rewrite Ht. apply Hi.
  - apply Hi.
  - intros h Hh. eapply chain_frame; [by apply Hi|].
    intros i [Ho _]%(h_mem _ _ _ Hi); [|done].
    split; [apply (lk_proj skey _ (fun k => k.1.2))|apply (lk_proj skey _ snd)]; auto.
  - intros h i Hh. rewrite (h_mem _ _ _ Hi) by done.
    split; intros [Ho (b & E & Hd & Hf)]; (split; [done|]); specialize (Hs i Ho);
      rewrite E in Hs;
      [destruct (bufs c' !! i) as [b'|]|destruct (bufs c !! i) as [b'|]]; try done;
      injection Hs as Hd' Hb _ _; exists b'; split_and!; congruence.
  - intros i b E Hd Ho. specialize (Hs i Ho). rewrite E in Hs.
    destruct (bufs c !! i) as [b'|] eqn:E'; [|done]. injection Hs as Hd' _ -> ->.
    apply (h_none _ _ _ Hi i b'); congruence.
Qed.

Lemma free_inv_frame c c' fl :
  free_inv c fl -> free_list c' = free_list c -> length (bufs c') = length (bufs c) ->
  (forall j, sring <$> bufs c' !! j = sring <$> bufs c !! j) -> free_inv c' fl.
Proof.
  intros [] Hf Hl Hs. split; [by rewrite Hf|done|by rewrite Hl|].
  eapply Forall_impl; [done|]. intros e [H1 H2].
  split; intros a Ha; [rewrite <-(H1 a Ha)|rewrite <-(H2 a Ha)].
  - by apply (lk_proj sring _ fst).
  - by apply (lk_proj sring _ snd).
Qed.

Lemma same_proj {T} (p : buffer_head -> buffer_head) (q : buffer_head -> T) l l' j :
  same p l l' -> (forall b b', p b = p b' -> q b = q b') -> q <$> l' !! j = q <$> l !! j.
Proof.
  intros Hs Hq. destruct (l !! j) as [b|] eqn:E.
  - destruct (same_lookup _ _ _ _ _ Hs E) as (b' & -> & Hp). cbn. f_equal. by apply Hq.
  - rewrite (proj2 (lookup_ge_None _ _)); [done|]. rewrite (same_length _ _ _ Hs).
    by apply lookup_ge_None.
Qed.

Definition valid (b : buffer_head) : Prop :=
  0 <= b_dev b < 2 ^ 16 /\ 0 <= b_blocknr b < 2 ^ 32 /\ 0 <= b_count b < 2 ^ 8 /\
  (b_lock b = 0 \/ b_lock b = 1) /\ (b_dirt b = 0 \/ b_dirt b = 1).

(** [fl] is the free list from its head, [ch h] the queue of bucket [h]. *)
Record wf (c : cache) (fl : list nat) (ch : Z -> list nat) : Prop := {
  wf_free : free_inv c fl;
  wf_all : fl ≡ₚ seq 0 (length (bufs c));
  wf_hash : hash_inv c ch None;
  wf_two : (2 <= length (bufs c))%nat;
  wf_uniq : forall i j b b', bufs c !! i = Some b -> bufs c !! j = Some b' ->
    b_dev b <> 0 -> b_dev b = b_dev b' -> b_blocknr b = b_blocknr b' -> i = j;
  wf_valid : Forall valid (bufs c)
}.

(** What a buffer holds, without its links. *)
Definition info (b : buffer_head) : buffer_head := sfree (shash b).
Definition renamed (dev block : Z) (b : buffer_head) : buffer_head :=
  info (b <| b_count := 1 |> <| b_dirt := 0 |> <| b_uptodate := 0 |>
          <| b_dev := dev |> <| b_blocknr := block |>).

Lemma wf_frame c c' fl ch :
  wf c fl ch -> hash_table c' = hash_table c -> free_list c' = free_list c ->
  length (bufs c') = length (bufs c) -> Forall valid (bufs c') ->
  (forall j, skey <$> bufs c' !! j = skey <$> bufs c !! j) ->
  (forall j, sring <$> bufs c' !! j = sring <$> bufs c !! j) -> wf c' fl ch.
Proof.
  intros [H1 H2 H3 H4 H5 H6] Eh Ef El Ev Ek Er. split; try done.
  - by eapply free_inv_frame.
  - by rewrite El.
  - by eapply hash_inv_frame.
  - by rewrite El.
  - intros i j b b' Bi Bj Hd Hdd Hbb. pose proof (Ek i) as Ki. pose proof (Ek j) as Kj.
    rewrite Bi in Ki. rewrite Bj in Kj.
    destruct (bufs c !! i) as [bi|] eqn:Ei; [|done]. destruct (bufs c !! j) as [bj|] eqn:Ej; [|done].
    injection Ki as ? ? _ _. injection Kj as ? ? _ _. apply (H5 i j bi bj); congruence.
Qed.

Lemma hash_remove c ch b bb :
  hash_inv c ch None -> bufs c !! b = Some bb ->
  exists l' t ch', remove_hash b c = Ret tt (c <| bufs := l' |> <| hash_table := t |>) /\
    same shash (bufs c) l' /\ hash_inv (c <| bufs := l' |> <| hash_table := t |>) ch' (Some b).
Proof.
  intros Hi Bb. destruct (decide (b_dev bb = 0)) as [Hd|]; [|by eapply hash_remove_dev].
  destruct (hash_remove_free _ _ _ _ Hi Bb Hd) as [E H].
  exists (bufs c), (hash_table c), ch. by destruct c.
Qed.

Lemma info_shash b b' : shash b = shash b' -> info b = info b'.
Proof. unfold info. congruence. Qed.
Lemma info_sfree b b' : sfree b = sfree b' -> info b = info b'.
Proof.
  intros H. change (info b) with (shash (sfree b)). change (info b') with (shash (sfree b')).
  congruence.
Qed.
Lemma sring_shash b b' : shash b = shash b' -> sring b = sring b'.
Proof. unfold shash, sring. cbn. by intros [= _ _ _ _ _ _ _ _ _ -> ->]. Qed.
Lemma skey_sfree b b' : sfree b = sfree b' -> skey b = skey b'.
Proof. intros (? & ? & _ & _ & _ & _ & ? & ?)%sfree_fields. unfold skey. congruence. Qed.

(** Line 182, on the two kinds of queue together. *)
Lemma unqueue c fl ch l1 b l2 :
  wf c fl ch -> fl = l1 ++ b :: l2 ->
  exists l' t ch', let c' := c <| bufs := l' |> <| hash_table := t |> <| free_list := head (l1 ++ l2) |> in
    remove_from_queues b c = Ret tt c' /\ hash_inv c' ch' (Some b) /\ free_inv c' (l1 ++ l2) /\
    length l' = length (bufs c) /\ (forall j, info <$> l' !! j = info <$> bufs c !! j).
Proof.
  intros [Hf Ha Hh H2 _ _] ->.
  assert (exists bb, bufs c !! b = Some bb) as [bb Bb].
  { apply in_range. assert (Hb : b ∈ l1 ++ b :: l2) by set_solver.
    rewrite Ha in Hb. apply elem_of_seq in Hb. lia. }
  destruct (hash_remove c ch b bb Hh Bb) as (la & t & ch' & E1 & S1 & Hh1).
  set (c1 := c <| bufs := la |> <| hash_table := t |>) in *.
  destruct (free_remove c1 l1 b l2) as (lb & E2 & S2 & Hf2).
  { eapply free_inv_frame; [exact Hf|done|by apply (same_length _ _ _ S1)|].
    intros j. by apply (same_proj shash _ _ _ _ S1), sring_shash. }
  { intros Hnil. apply (f_equal length) in Hnil. rewrite length_app in Hnil. cbn in Hnil.
    apply Permutation_length in Ha. rewrite length_app, length_seq in Ha. cbn in Ha. lia. }
  exists lb, t, ch'. split_and!.
  - unfold remove_from_queues. rewrite (bind_ret _ _ _ _ _ E1), E2. by destruct c.
  - eapply hash_inv_frame; [exact Hh1|done|]. intros j _.
    by apply (same_proj sfree _ _ _ _ S2), skey_sfree.
  - by destruct c.
  - by rewrite (same_length _ _ _ S2), <-(same_length _ _ _ S1).
  - intros j. rewrite (same_proj sfree info _ _ _ S2) by apply info_sfree.
    by apply (same_proj shash info _ _ _ S1), info_shash.
Qed.

(** Line 185. *)
Lemma enqueue c fl ch b bb :
  hash_inv c ch (Some b) -> free_inv c fl -> fl <> [] -> b ∉ fl ->
  bufs c !! b = Some bb -> b_dev bb <> 0 ->
  exists l' t ch', let c' := c <| bufs := l' |> <| hash_table := t |> in
    insert_into_queues b c = Ret tt c' /\ hash_inv c' ch' None /\ free_inv c' (fl ++ [b]) /\
    length l' = length (bufs c) /\ (forall j, info <$> l' !! j = info <$> bufs c !! j).
Proof.
  intros Hh Hf Hne Hb Bb Hd. destruct fl as [|y m]; [done|].
  destruct (free_insert c y m b Hf Hb) as (la & E1 & S1 & Hf1); [by eapply lookup_lt_Some|].
  destruct (same_lookup _ _ _ _ _ S1 Bb) as (ba & Ba & Hba).
  set (c1 := c <| bufs := la |>) in *.
  destruct (hash_insert c1 ch b ba) as (lb & t & ch' & E2 & S2 & Hh2); [|done|by apply sfree_key in Hba as [-> _]|].
  { eapply hash_inv_frame; [exact Hh|done|]. intros j _.
    by apply (same_proj sfree _ _ _ _ S1), skey_sfree. }
  exists lb, t, ch'. split_and!.
  - unfold insert_into_queues. by rewrite (bind_ret _ _ _ _ _ E1), E2.
  - done.
  - eapply free_inv_frame; [exact Hf1|done|by apply (same_length _ _ _ S2)|].
    intros j. by apply (same_proj shash _ _ _ _ S2), sring_shash.
  - by rewrite (same_length _ _ _ S2), <-(same_length _ _ _ S1).
  - intros j. rewrite (same_proj shash info _ _ _ S2) by apply info_shash.
    by apply (same_proj sfree info _ _ _ S1), info_sfree.
Qed.

Lemma info_fields b b' : info b = info b' ->
  b_dev b = b_dev b' /\ b_blocknr b = b_blocknr b' /\ b_count b = b_count b' /\
  b_lock b = b_lock b' /\ b_dirt b = b_dirt b' /\ b_uptodate b = b_uptodate b'.
Proof. unfold info, sfree, shash. cbn. by intros [=]. Qed.
Lemma valid_info b b' : info b = info b' -> valid b -> valid b'.
Proof. unfold valid. by intros (-> & -> & -> & -> & -> & _)%info_fields. Qed.

Lemma renamed_cases (l l' : list buffer_head) b bb dev block i (x : buffer_head) :
  (forall j, info <$> l' !! j =
      if decide (j = b) then Some (renamed dev block bb) else info <$> l !! j) ->
  l' !! i = Some x ->
  (i = b /\ b_dev x = dev /\ b_blocknr x = block /\ b_count x = 1 /\ b_lock x = b_lock bb /\
     b_dirt x = 0 /\ b_uptodate x = 0) \/
  (exists y, l !! i = Some y /\ i <> b /\ info x = info y).
Proof.
  intros H E. specialize (H i). rewrite E in H. case_decide as Hi.
  - left. apply (inj Some) in H.
    apply (info_fields x (bb <| b_count := 1 |> <| b_dirt := 0 |> <| b_uptodate := 0 |>
          <| b_dev := dev |> <| b_blocknr := block |>)) in H. tauto.
  - right. destruct (l !! i) as [y|]; [|done]. apply (inj Some) in H. eauto.
Qed.

Lemma rename_run c fl ch l1 b l2 bb dev block :
  wf c fl ch -> fl = l1 ++ b :: l2 -> bufs c !! b = Some bb ->
  0 < dev < 2 ^ 16 -> 0 <= block < 2 ^ 32 ->
  (forall i b', bufs c !! i = Some b' -> b_dev b' = dev -> b_blocknr b' <> block) ->
  exists c' ch', rename b dev block c = Ret tt c' /\ wf c' (l1 ++ l2 ++ [b]) ch' /\
    length (bufs c') = length (bufs c) /\ buffer_wait c' = buffer_wait c /\
    forall j, info <$> bufs c' !! j =
      if decide (j = b) then Some (renamed dev block bb) else info <$> bufs c !! j.
Proof.
  intros Hw Hfl Bb Hdev Hblk Hnew.
  set (g := fun b0 => b0 <| b_count := 1 |> <| b_dirt := 0 |> <| b_uptodate := 0 |>).
  set (c1 := c <| bufs ::= alter g b |>).
  assert (Hw1 : wf c1 fl ch).
  { eapply wf_frame; [exact Hw|done|done|apply length_alter| | |]; cbn [bufs upd c1].
    - apply Forall_alter; [apply Hw|]. intros x _ (? & ? & _ & ? & _).
      unfold valid, g. cbn. split_and!; try done; lia.
    - intros j. apply alter_proj. done.
    - intros j. apply alter_proj. done. }
  destruct (unqueue c1 fl ch l1 b l2 Hw1 Hfl) as (l & t & ch2 & E2 & Hh2 & Hf2 & L2 & I2).
  set (c2 := c1 <| bufs := l |> <| hash_table := t |> <| free_list := head (l1 ++ l2) |>) in *.
  set (h := fun b0 => b0 <| b_dev := dev |> <| b_blocknr := block |>).
  set (c3 := c2 <| bufs ::= alter h b |>).
  assert (Bl : bufs c1 !! b = Some (g bb)) by (by apply alter_eq).
  pose proof (I2 b) as Hi2. rewrite Bl in Hi2. destruct (l !! b) as [b2|] eqn:B2; [|done].
  apply (inj Some) in Hi2.
  assert (Hne : l1 ++ l2 <> [] /\ b ∉ l1 ++ l2).
  { pose proof (wf_all _ _ _ Hw) as Ha. pose proof (f_nodup _ _ (wf_free _ _ _ Hw)) as Hnd.
    pose proof (wf_two _ _ _ Hw). subst fl. split.
    - intros Hnil. apply (f_equal length) in Hnil. apply Permutation_length in Ha.
      rewrite length_app, length_seq in Ha. rewrite length_app in Hnil. cbn in *. lia.
    - apply NoDup_app in Hnd as (_ & D1 & [D2 _]%NoDup_cons). set_solver. }
  destruct Hne as [Hne Hb].
  destruct (enqueue c3 (l1 ++ l2) ch2 b (h b2)) as (l' & t' & ch' & E4 & Hh4 & Hf4 & L4 & I4);
    [| |done|done|by apply alter_eq|cbn; lia|].
  { eapply hash_inv_frame; [exact Hh2|done|]. intros j Hj. cbn.
    rewrite list_lookup_alter_ne by congruence. done. }
  { eapply free_inv_frame; [exact Hf2|done|apply length_alter|]. intros j. by apply alter_proj. }
  set (c4 := c3 <| bufs := l' |> <| hash_table := t' |>) in *.
  assert (Hinfo : forall j, info <$> bufs c4 !! j =
      if decide (j = b) then Some (renamed dev block bb) else info <$> bufs c !! j).
  { intros j. change (bufs c4) with l'. rewrite I4. unfold c3. cbn [bufs upd].
    case_decide as Hj; [subst j|].
    - change (bufs c2) with l. rewrite (alter_eq _ _ _ _ B2). cbn [fmap option_fmap option_map]. f_equal.
      exact (f_equal h Hi2).
    - change (bufs c2) with l. rewrite list_lookup_alter_ne, I2 by done. unfold c1. cbn [bufs upd].
      by rewrite list_lookup_alter_ne. }
  assert (Hlen : length (bufs c4) = length (bufs c)).
  { change (length l' = length (bufs c)). rewrite L4. cbn. rewrite length_alter.
    etrans; [apply L2|]. apply length_alter. }
  exists c4, ch'. split_and!; [|split| | |exact Hinfo]; try done.
  - unfold rename. rewrite (setb_bind _ _ _ _ _ Bb).
    erewrite !setb_bind by (cbn [bufs upd]; rewrite ?alter_alter; by apply alter_eq).
    cbn [bufs upd]. rewrite !alter_alter.
    change (bind (remove_from_queues b) (fun _ => setb b (fun b => b <| b_dev := u16 dev |>) ;;
      setb b (fun b => b <| b_blocknr := u32 block |>) ;; insert_into_queues b) c1 = Ret tt c4).
    rewrite (bind_ret _ _ _ _ _ E2), u16_small, u32_small by lia.
    rewrite (setb_bind _ _ _ _ b2) by exact B2.
    erewrite setb_bind by (cbn [bufs upd]; by apply alter_eq).
    cbn [bufs upd]. rewrite !alter_alter. exact E4.
  - by rewrite app_assoc.
  - rewrite Hlen, <-(wf_all _ _ _ Hw), Hfl. solve_Permutation.
  - rewrite Hlen. apply Hw.
  - intros i j x x' Bi Bj Hd Hdd Hbb.
    destruct (renamed_cases _ _ _ _ _ _ _ _ Hinfo Bi) as [(-> & D1 & D2 & _)|(y & Ei & _ & Yi)],
      (renamed_cases _ _ _ _ _ _ _ _ Hinfo Bj) as [(-> & D3 & D4 & _)|(y' & Ej & _ & Yj)]; try done.
    + apply info_fields in Yj as (? & ? & _). destruct (Hnew j y'); congruence.
    + apply info_fields in Yi as (? & ? & _). destruct (Hnew i y); congruence.
    + apply info_fields in Yi as (? & ? & _), Yj as (? & ? & _).
      apply (wf_uniq _ _ _ Hw i j y y'); congruence.
  - apply Forall_lookup. intros i x Bx. pose proof (wf_valid _ _ _ Hw) as Hv.
    rewrite Forall_lookup in Hv.
    destruct (renamed_cases _ _ _ _ _ _ _ _ Hinfo Bx) as [(-> & D1 & D2 & D3)|(y & E & _ & Yi)].
    + destruct (Hv _ _ Bb) as (_ & _ & _ & Hl & _). unfold valid.
      destruct D3 as (-> & -> & -> & _). rewrite D1, D2. split_and!; try lia; done.
    + eapply valid_info; [by symmetry|eauto].
Qed.

(** ** find_buffer() *)

(** Buffer [i] is the one of the block. *)
Definition holds (c : cache) (i : nat) (dev block : Z) : Prop :=
  exists b, bufs c !! i = Some b /\ b_dev b = dev /\ b_blocknr b = block.

Lemma find_chain_run c h l1 l2 dev block fuel :
  Forall (edge (lk b_next (bufs c)) (lk b_prev (bufs c))) (chain (l1 ++ l2)) ->
  NoDup (l1 ++ l2) -> (forall i, i ∈ l2 -> is_Some (bufs c !! i)) ->
  0 <= block < 2 ^ 32 -> (length l2 <= fuel)%nat -> h = head l2 ->
  exists r, find_chain dev block fuel h c = Ret r c /\
    match r with
    | Some i => i ∈ l2 /\ holds c i dev block
    | None => forall i, i ∈ l2 -> ~ holds c i dev block
    end.
Proof.
  intros He Hnd Hr Hblk. revert l1 fuel h He Hnd.
  induction l2 as [|t l2 IH]; intros l1 fuel h He Hnd Hf ->; cbn [head].
  { exists None. destruct fuel; (split; [done|]); intros i Hi; inversion Hi. }
  destruct fuel as [|fuel]; [cbn in Hf; lia|]. cbn [find_chain].
  destruct (Hr t) as [b B]; [set_solver|]. rewrite !(fld_bind _ _ _ _ _ B).
  rewrite u32_small by done.
  destruct ((b_dev b =? dev) && (b_blocknr b =? block)) eqn:E; zb.
  { exists (Some t). split; [done|]. split; [set_solver|]. by exists b. }
  rewrite (fld_bind _ _ _ _ _ B).
  destruct (neighbours _ _ _ _ _ He Hnd) as (_ & Hn & _). apply (lk_lookup _ _ _ _ _ B) in Hn.
  rewrite Hn.
  destruct (IH ltac:(intros; apply Hr; set_solver) (l1 ++ [t]) fuel (head l2)) as (r & Er & Hrr);
    [by rewrite <-app_assoc|by rewrite <-app_assoc|cbn in Hf; lia|done|].
  exists r. split; [done|]. destruct r as [i|]; [set_solver|].
  intros i [->|Hi]%elem_of_cons; [|by apply Hrr]. intros (b' & B' & H1 & H2).
  simplify_eq. apply andb_false_iff in E as [E|E]; apply Z.eqb_neq in E; done.
Qed.

Lemma find_buffer_run c fl ch dev block :
  wf c fl ch -> 0 < dev -> 0 <= block < 2 ^ 32 ->
  exists r, find_buffer dev block c = Ret r c /\
    match r with
    | Some i => holds c i dev block
    | None => forall i, ~ holds c i dev block
    end.
Proof.
  intros Hw Hdev Hblk. pose proof (wf_hash _ _ _ Hw) as Hi.
  set (h := _hashfn dev block). assert (Hh : 0 <= h < NR_HASH) by apply hashfn_range.
  assert (Hin : forall i, i ∈ ch h -> is_Some (bufs c !! i))
    by (intros i (_ & b & E & _)%(h_mem _ _ _ Hi); eauto).
  assert (Hlen : (length (ch h) <= length (bufs c))%nat).
  { rewrite <-(length_seq (length (bufs c)) 0). apply submseteq_length, NoDup_submseteq; [by apply Hi|].
    intros i [b E%lookup_lt_Some]%Hin. apply elem_of_seq. lia. }
  destruct (find_chain_run c (head (ch h)) [] (ch h) dev block (length (bufs c)))
    as (r & E & Hr); try done; [by apply Hi|by apply Hi|].
  exists r. split; [unfold find_buffer; rewrite bind_get, (hash_bind _ _ _ _ _ _ Hi); done|].
  destruct r as [i|]; [by destruct Hr|]. intros i Hhold. apply (Hr i); [|done].
  destruct Hhold as (b & B & <- & <-). apply (h_mem _ _ _ Hi); [done|].
  split; [done|]. exists b. split; [done|]. split; [lia|done].
Qed.

(** ** The choice of getblk() *)

Definition cnt (c : cache) (i : nat) : Z := default 0 (b_count <$> bufs c !! i).
Definition bad (c : cache) (i : nat) : Z := default 0 (BADNESS <$> bufs c !! i).

(** The first of the least bad free buffers of [l]. *)
Definition best (c : cache) (l : list nat) (r : option nat) : Prop :=
  match r with
  | None => forall j, j ∈ l -> cnt c j <> 0
  | Some b => exists l1 l2, l = l1 ++ b :: l2 /\ cnt c b = 0 /\
      (forall j, j ∈ l1 -> cnt c j = 0 -> bad c b < bad c j) /\
      (forall j, j ∈ l2 -> cnt c j = 0 -> bad c b <= bad c j)
  end.

Lemma best_snoc c l r i :
  best c l r ->
  best c (l ++ [i]) (if (cnt c i =? 0) &&
      (match r with None => true | Some b => bad c i <? bad c b end) then Some i else r).
Proof.
  destruct (Z.eqb_spec (cnt c i) 0) as [E|E]; cbn.
  - destruct r as [b|]; cbn.
    + intros (l1 & l2 & -> & Hb & H1 & H2). destruct (Z.ltb_spec (bad c i) (bad c b)).
      * exists (l1 ++ b :: l2), []. split_and!; [done..| |set_solver].
        intros j [Hj|[->|Hj]%elem_of_cons]%elem_of_app Hz; [|lia|].
        -- specialize (H1 j Hj Hz). lia. -- specialize (H2 j Hj Hz). lia.
      * exists l1, (l2 ++ [i]). split_and!; [by rewrite <-app_assoc|done..|].
        intros j [Hj| ->%list_elem_of_singleton]%elem_of_app; [by apply H2|lia].
    + intros H. exists l, []. split_and!; [done..| |set_solver]. intros j Hj Hz. by destruct (H j Hj).
  - destruct r as [b|]; cbn.
    + intros (l1 & l2 & -> & Hb & H1 & H2). exists l1, (l2 ++ [i]).
      split_and!; [by rewrite <-app_assoc|done..|].
      intros j [Hj| ->%list_elem_of_singleton]%elem_of_app; [by apply H2|done].
    + intros H j [Hj| ->%list_elem_of_singleton]%elem_of_app; [by apply H|done].
Qed.

Lemma best_zero c l l' b : best c l (Some b) -> bad c b = 0 ->
  (forall j, 0 <= bad c j) -> best c (l ++ l') (Some b).
Proof.
  intros (l1 & l2 & -> & Hb & H1 & H2) Hz Hn. exists l1, (l2 ++ l').
  split_and!; [by rewrite <-app_assoc|done..|].
  intros j [Hj|Hj]%elem_of_app; [by apply H2|]. intros _. rewrite Hz. apply Hn.
Qed.

Lemma elem_after (l1 l2 : list nat) b j l :
  l = l1 ++ b :: l2 -> j ∈ l2 -> exists k, (length l1 < k)%nat /\ l !! k = Some j.
Proof.
  intros -> [k Hk]%list_elem_of_lookup. exists (length l1 + S k)%nat. split; [lia|].
  rewrite lookup_app_r by lia. by replace (length l1 + S k - length l1)%nat with (S k) by lia.
Qed.

Lemma best_unique c l b r :
  NoDup l -> best c l (Some b) -> best c l r -> r = Some b.
Proof.
  intros Hnd (l1 & l2 & Hl & Hb & H1 & H2). destruct r as [b'|]; cbn.
  2:{ intros H. destruct (H b); [subst l; set_solver|done]. }
  intros (l1' & l2' & Hl' & Hb' & H1' & H2'). f_equal.
  assert (Hin : b ∈ l1' ++ b' :: l2') by (rewrite <-Hl', Hl; set_solver).
  assert (Hin' : b' ∈ l1 ++ b :: l2) by (rewrite <-Hl, Hl'; set_solver).
  rewrite elem_of_app, elem_of_cons in Hin, Hin'.
  destruct Hin as [Hi|[->|Hi]]; [|done|]; destruct Hin' as [Hi'|[->|Hi']]; try done.
  - specialize (H1 _ Hi' Hb'). specialize (H1' _ Hi Hb). lia.
  - specialize (H2 _ Hi' Hb'). specialize (H1' _ Hi Hb). lia.
  - specialize (H1 _ Hi' Hb'). specialize (H2' _ Hi Hb). lia.
  - destruct (elem_after _ _ _ _ _ Hl Hi') as (k & Hk & E).
    destruct (elem_after _ _ _ _ _ Hl' Hi) as (k' & Hk' & E').
    assert (E1 : l !! length l1 = Some b) by (rewrite Hl; apply list_lookup_middle; done).
    assert (E2 : l !! length l1' = Some b') by (rewrite Hl'; apply list_lookup_middle; done).
    pose proof (NoDup_lookup _ _ _ _ Hnd E E2). pose proof (NoDup_lookup _ _ _ _ Hnd E' E1). lia.
Qed.

Lemma bad_nonneg c fl ch j : wf c fl ch -> 0 <= bad c j.
Proof.
  intros Hw. unfold bad. destruct (bufs c !! j) as [b|] eqn:E; cbn; [|done].
  pose proof (wf_valid _ _ _ Hw) as Hv. rewrite Forall_lookup in Hv.
  destruct (Hv _ _ E) as (_ & _ & _ & Hl & Hd). unfold BADNESS.
  destruct Hl as [-> | ->], Hd as [-> | ->]; done.
Qed.

Lemma next_free c fl l1 i l2 b :
  free_inv c fl -> fl = l1 ++ i :: l2 -> bufs c !! i = Some b ->
  b_next_free b = head (l2 ++ l1 ++ [i]).
Proof.
  intros [_ _ _ He] -> B. rewrite ring_rot in He. cbn [app] in He. rewrite ring_cons in He.
  apply (lk_lookup _ (bufs c) i _ _ B).
  destruct (l2 ++ l1) as [|y m] eqn:Hm.
  - cbn in He. inversion He as [|?? [E1 _] _]; subst. rewrite app_assoc, Hm. by apply E1.
  - cbn in He. inversion He as [|?? [E1 _] _]; subst. rewrite app_assoc, Hm. by apply E1.
Qed.

(** One turn of the loop, at [i] after [l1]. *)
Lemma scan_turn c fl ch l1 i l2 fuel bh :
  wf c fl ch -> fl = l1 ++ i :: l2 -> best c l1 bh ->
  (forall b, bh = Some b -> is_Some (bufs c !! b)) ->
  exists r, (forall b, r = Some b -> is_Some (bufs c !! b)) /\ best c (l1 ++ [i]) r /\
    ((getblk_scan (S fuel) i bh c = Ret r c /\ best c fl r) \/
     exists y l2', l2 = y :: l2' /\ getblk_scan (S fuel) i bh c = getblk_scan fuel y r c).
Proof.
  intros Hw Hfl Hb Hbh.
  assert (exists b, bufs c !! i = Some b) as [b B].
  { apply in_range. pose proof (f_range _ _ (wf_free _ _ _ Hw)) as Hr.
    rewrite Forall_forall in Hr. apply Hr. subst fl. set_solver. }
  set (bt := (cnt c i =? 0) && (match bh with None => true | Some b => bad c i <? bad c b end)).
  assert (Hbt : forall k : bool -> M cache (option nat), bind (if truth (b_count b) then ret false
        else match bh with None => ret true
             | Some h => let! o := fld id h in ret (BADNESS b <? BADNESS o) end) k c = k bt c).
  { intros k. unfold bt, cnt, bad. rewrite B. cbn. unfold truth.
    destruct (b_count b =? 0); cbn; [|done]. destruct bh as [h|]; [|done].
    destruct (Hbh h eq_refl) as [o O]. by rewrite bind_assoc, (fld_bind _ _ _ _ _ O), O. }
  pose proof (best_snoc c l1 bh i Hb) as Hs. fold bt in Hs.
  exists (if bt then Some i else bh). split_and!; [|done|].
  { destruct bt; [intros ? [= <-]; eauto|done]. }
  cbn [getblk_scan]. rewrite (fld_bind _ _ _ _ _ B). cbn [id]. rewrite Hbt. cbv zeta.
  destruct (bt && (BADNESS b =? 0)) eqn:E.
  { left. split; [done|]. apply andb_true_iff in E as [E1 E2%Z.eqb_eq]. rewrite E1 in *.
    rewrite Hfl, (cons_middle i l1), app_assoc. apply best_zero; [done| |].
    - unfold bad. by rewrite B. - intros. by eapply bad_nonneg. }
  rewrite bind_get, (next_free c fl l1 i l2 b) by (done || apply Hw).
  pose proof (f_nodup _ _ (wf_free _ _ _ Hw)) as Hnd.
  destruct l2 as [|y l2]; cbn [app head].
  - left. split; [|by rewrite Hfl].
    assert (head (l1 ++ [i]) = free_list c) as -> by (rewrite (f_head _ _ (wf_free _ _ _ Hw)), Hfl; done).
    destruct (free_list c) eqn:Ef; [|by rewrite (f_head _ _ (wf_free _ _ _ Hw)), Hfl in Ef; destruct l1].
    cbn [deref]. rewrite bind_ret_l. by rewrite bool_decide_true.
  - right. exists y, l2. split; [done|]. cbn [deref]. rewrite bind_ret_l, bool_decide_false; [done|].
    rewrite (f_head _ _ (wf_free _ _ _ Hw)), Hfl. intros Hhd. rewrite Hfl in Hnd.
    assert (Hin : y ∈ l1 ++ [i]) by (destruct l1; injection Hhd as ->; set_solver).
    rewrite (cons_middle i l1), app_assoc in Hnd. apply NoDup_app in Hnd as (_ & D & _).
    apply (D y Hin). set_solver.
Qed.

Lemma getblk_scan_run c fl ch l1 i l2 fuel bh :
  wf c fl ch -> fl = l1 ++ i :: l2 -> best c l1 bh ->
  (forall b, bh = Some b -> is_Some (bufs c !! b)) -> (length l2 < fuel)%nat ->
  exists r, getblk_scan fuel i bh c = Ret r c /\ best c fl r.
Proof.
  intros Hw. revert l1 i fuel bh. induction l2 as [|y l2 IH]; intros l1 i fuel bh Hfl Hb Hbh Hf;
    (destruct fuel as [|fuel]; [cbn in Hf; lia|]);
    destruct (scan_turn c fl ch l1 i _ fuel bh Hw Hfl Hb Hbh)
      as (r & Hr & Hbr & [[E1 E2]|(y' & l2' & [=] & E)]); eauto. subst y' l2'.
  rewrite E. apply (IH (l1 ++ [i])); [by rewrite <-app_assoc|done..|cbn in Hf; lia].
Qed.

Lemma getblk_pick_run c fl ch :
  wf c fl ch -> exists r, getblk_pick c = Ret r c /\ best c fl r.
Proof.
  intros Hw. unfold getblk_pick. rewrite bind_get, (f_head _ _ (wf_free _ _ _ Hw)).
  pose proof (Permutation_length (wf_all _ _ _ Hw)) as Hl. rewrite length_seq in Hl.
  pose proof (wf_two _ _ _ Hw). destruct fl as [|i l2]; [cbn in Hl; lia|]. cbn [head deref].
  rewrite bind_ret_l. apply (getblk_scan_run c (i :: l2) ch [] i l2); [done..|set_solver|done|].
  cbn in Hl. lia.
Qed.

(** ** getblk() *)

Definition ok (c : cache) : Prop := exists fl ch, wf c fl ch.
Definition unlocked (c : cache) (i : nat) : Prop :=
  exists b, bufs c !! i = Some b /\ b_lock b = 0.

(** What the cache needs of sleep_on() on one of its queues: whatever the
    other tasks do meanwhile keeps the invariant and the number of buffers.
    [inv] is about the rest of the system, [stops] says for what reasons a
    call may fail to return. *)
Definition cache_queue (q : lens cache (option nat)) : Prop :=
  (exists i, q = b_wait_l i) \/ q = buffer_wait_l.

Class Sleeper {W} (cl : lens W cache) (stops : stop -> Prop) (inv : W -> Prop)
    (sleep_on : lens cache (option nat) -> M W unit) : Prop := {
  sleep_ok q w : cache_queue q -> inv w -> ok (lget cl w) ->
    wp (sleep_on q) (fun _ w' => inv w' /\ ok (lget cl w') /\
          length (bufs (lget cl w')) = length (bufs (lget cl w))) (fun r _ => stops r) w;
  inv_set c w : inv w -> inv (lset cl c w);
  stops_fuel : stops NoFuel
}.

Lemma alter_count_wf c fl ch i f :
  wf c fl ch -> (forall n, 0 <= f n < 2 ^ 8) ->
  wf (c <| bufs ::= alter (fun b => b <| b_count ::= f |>) i |>) fl ch.
Proof.
  intros Hw Hf. eapply wf_frame; [exact Hw|done|done|apply length_alter| | |]; cbn [bufs upd].
  - apply Forall_alter; [apply Hw|]. intros x _ (? & ? & _ & ? & ?).
    unfold valid. cbn. pose proof (Hf (b_count x)). tauto.
  - intros j. by apply alter_proj.
  - intros j. by apply alter_proj.
Qed.

Section getblk.
Context {W : Type} (cl : lens W cache) `{!LensOk cl}.
Context (sleep_on : lens cache (option nat) -> M W unit).

Lemma fld_zoom {A B} (f : buffer_head -> A) i (k : A -> M W B) w b :
  bufs (lget cl w) !! i = Some b -> bind (zoom cl (fld f i)) k w = k (f b) w.
Proof.
  intros E. apply bind_zoom_read; [done|]. unfold fld, bind, get, deref. by rewrite E.
Qed.
Lemma setb_zoom {B} i g (k : unit -> M W B) w b :
  bufs (lget cl w) !! i = Some b ->
  bind (zoom cl (setb i g)) k w = k tt (lset cl ((lget cl w) <| bufs ::= alter g i |>) w).
Proof. intros E. apply bind_zoom. by eapply setb_run. Qed.

Lemma wait_unlocked fuel i w b :
  bufs (lget cl w) !! i = Some b -> b_lock b = 0 ->
  wait_on_buffer cl sleep_on fuel i w = Ret tt w.
Proof. intros B L. destruct fuel; cbn [wait_on_buffer]; rewrite (fld_zoom _ _ _ _ _ B), L; done. Qed.

Lemma lookup_hit fuel dev block w fl ch i b :
  wf (lget cl w) fl ch -> 0 < dev -> 0 <= block < 2 ^ 32 ->
  bufs (lget cl w) !! i = Some b -> b_dev b = dev -> b_blocknr b = block -> b_lock b = 0 ->
  get_hash_table cl sleep_on (S fuel) dev block w = Ret (Some i) (lset cl ((lget cl w) <| bufs ::=
    alter (fun b => b <| b_count ::= fun n => u8 (n + 1) |>) i |>) w).
Proof.
  intros Hw Hdev Hblk B Hd Hn Hl.
  destruct (find_buffer_run _ _ _ dev block Hw Hdev Hblk) as (r & E & Hr).
  destruct r as [j|]; [|by destruct (Hr i); exists b].
  destruct Hr as (b' & B' & Hd' & Hn').
  assert (j = i) as -> by (apply (wf_uniq _ _ _ Hw j i b' b); congruence || lia).
  assert (b' = b) as -> by congruence. clear B'.
  cbn [get_hash_table].
  set (g := fun b => b <| b_count ::= fun n => u8 (n + 1) |>).
  set (w1 := lset cl ((lget cl w) <| bufs ::= alter g i |>) w).
  assert (B1 : bufs (lget cl w1) !! i = Some (g b)) by (unfold w1; rewrite get_set; by apply alter_eq).
  rewrite (bind_zoom_read cl _ _ _ _ E), (setb_zoom _ _ _ _ _ B). fold w1.
  rewrite (bind_ret _ _ _ _ _ (wait_unlocked _ _ _ _ B1 Hl)).
  rewrite (fld_zoom _ _ _ _ _ B1), (fld_zoom _ _ _ _ _ B1).
  change (b_dev (g b)) with (b_dev b). change (b_blocknr (g b)) with (b_blocknr b).
  rewrite Hd, Hn, u32_small, !Z.eqb_refl by done. done.
Qed.

Lemma lookup_miss fuel dev block w fl ch :
  wf (lget cl w) fl ch -> 0 < dev -> 0 <= block < 2 ^ 32 ->
  (forall i, ~ holds (lget cl w) i dev block) ->
  get_hash_table cl sleep_on (S fuel) dev block w = Ret None w.
Proof.
  intros Hw Hdev Hblk Hno.
  destruct (find_buffer_run _ _ _ dev block Hw Hdev Hblk) as ([j|] & E & Hr); [by destruct (Hno j)|].
  cbn [get_hash_table]. by rewrite (bind_zoom_read cl _ _ _ _ E).
Qed.

Lemma getblk_hit fuel dev block w fl ch i b :
  wf (lget cl w) fl ch -> 0 < dev -> 0 <= block < 2 ^ 32 ->
  bufs (lget cl w) !! i = Some b -> b_dev b = dev -> b_blocknr b = block -> b_lock b = 0 ->
  getblk cl sleep_on (S fuel) dev block w = Ret i (lset cl ((lget cl w) <| bufs ::=
    alter (fun b => b <| b_count ::= fun n => u8 (n + 1) |>) i |>) w).
Proof.
  intros Hw Hdev Hblk B Hd Hn Hl. cbn [getblk].
  by rewrite (bind_ret _ _ _ _ _ (lookup_hit _ _ _ _ _ _ _ _ Hw Hdev Hblk B Hd Hn Hl)).
Qed.

Lemma getblk_miss fuel dev block w fl ch i b l1 l2 :
  wf (lget cl w) fl ch -> 0 < dev < 2 ^ 16 -> 0 <= block < 2 ^ 32 ->
  (forall j, ~ holds (lget cl w) j dev block) ->
  best (lget cl w) fl (Some i) -> fl = l1 ++ i :: l2 ->
  bufs (lget cl w) !! i = Some b -> b_lock b = 0 ->
  exists c' ch', getblk cl sleep_on (S fuel) dev block w = Ret i (lset cl c' w) /\
    wf c' (l1 ++ l2 ++ [i]) ch' /\
    forall j, info <$> bufs c' !! j =
      if decide (j = i) then Some (renamed dev block b) else info <$> bufs (lget cl w) !! j.
Proof.
  intros Hw Hdev Hblk Hno Hbest Hfl B Hl.
  destruct (find_buffer_run _ _ _ dev block Hw ltac:(lia) Hblk) as ([j|] & E & Hr);
    [by destruct (Hno j)|].
  destruct (getblk_pick_run _ _ _ Hw) as (r & Ep & Hp).
  rewrite (best_unique _ _ _ _ (f_nodup _ _ (wf_free _ _ _ Hw)) Hbest Hp) in Ep.
  destruct (rename_run _ _ _ l1 i l2 b dev block Hw Hfl B Hdev Hblk) as (c' & ch' & Er & Hw' & _ & _ & Hi).
  { intros j b' Bj Hd Hn. apply (Hno j). by exists b'. }
  exists c', ch'. split_and!; [|done|done].
  cbn [getblk get_hash_table]. rewrite (bind_assoc (zoom cl (find_buffer dev block))).
  rewrite (bind_zoom_read cl _ _ _ _ E), bind_ret_l.
  rewrite (bind_zoom_read cl _ _ _ _ Ep), (bind_ret _ _ _ _ _ (wait_unlocked _ _ _ _ B Hl)).
  rewrite (fld_zoom _ _ _ _ _ B).
  assert (b_count b = 0) as ->.
  { destruct Hbest as (m1 & m2 & _ & Hc & _). unfold cnt in Hc. by rewrite B in Hc. }
  cbn [truth Z.eqb negb]. rewrite (bind_zoom_read cl _ _ _ _ E).
  by rewrite (bind_zoom cl _ _ _ _ _ Er).
Qed.
End getblk.

Section safe.
Context {W : Type} (cl : lens W cache) `{!LensOk cl} (stops : stop -> Prop) (inv : W -> Prop).
Context (sleep_on : lens cache (option nat) -> M W unit).
Context `{!Sleeper cl stops inv sleep_on}.

(** The cache of a state is good and has [n] buffers. *)
Definition good (n : nat) (w : W) : Prop :=
  inv w /\ ok (lget cl w) /\ length (bufs (lget cl w)) = n.
Notation safe m Q w := (wp m Q (fun r _ => stops r) w).

Lemma good_buf n w i : good n w -> (i < n)%nat -> exists b, bufs (lget cl w) !! i = Some b.
Proof. intros (_ & _ & Hn) Hi. apply in_range. lia. Qed.

Lemma wait_safe fuel n w i :
  good n w -> (i < n)%nat ->
  safe (wait_on_buffer cl sleep_on fuel i)
    (fun _ w' => good n w' /\ unlocked (lget cl w') i) w.
Proof.
  revert w. induction fuel as [|fuel IH]; intros w Hg Hi; cbn [wait_on_buffer];
    destruct (good_buf n w i Hg Hi) as [b B]; unfold wp; rewrite (fld_zoom _ _ _ _ _ _ B);
    unfold truth; (destruct (Z.eqb_spec (b_lock b) 0); [by repeat split; [apply Hg..|exists b]|]).
  - by eapply stops_fuel.
  - cbn [negb]. apply wp_bind. eapply wp_mono; [apply sleep_ok; [left; eauto|apply Hg..]| |done].
    intros _ w' (Hin & Hok & Hl). apply IH; [|done]. split_and!; [done..|]. rewrite Hl. apply Hg.
Qed.

Lemma setb_count_good n w i f b :
  good n w -> bufs (lget cl w) !! i = Some b -> (forall n, 0 <= f n < 2 ^ 8) ->
  good n (lset cl ((lget cl w) <| bufs ::= alter (fun b => b <| b_count ::= f |>) i |>) w).
Proof.
  intros (Hin & (fl & ch & Hw) & Hn) B Hf. split; [by eapply inv_set|]. split; rewrite get_set.
  - exists fl, ch. by apply alter_count_wf.
  - cbn. by rewrite length_alter.
Qed.

Lemma holds_lt n w i dev block : good n w -> holds (lget cl w) i dev block -> (i < n)%nat.
Proof. intros (_ & _ & <-) (b & E & _). by eapply lookup_lt_Some. Qed.

Lemma get_hash_table_safe fuel n w dev block :
  good n w -> 0 < dev -> 0 <= block < 2 ^ 32 ->
  safe (get_hash_table cl sleep_on fuel dev block) (fun r w' => good n w' /\
    match r with
    | Some i => holds (lget cl w') i dev block /\ unlocked (lget cl w') i
    | None => forall i, ~ holds (lget cl w') i dev block
    end) w.
Proof.
  revert w. induction fuel as [|fuel IH]; intros w Hg Hdev Hblk; cbn [get_hash_table];
    [by eapply stops_fuel|].
  pose proof Hg as (_ & (fl & ch & Hw) & _).
  destruct (find_buffer_run _ _ _ dev block Hw Hdev Hblk) as ([i|] & E & Hr);
    unfold wp; rewrite (bind_zoom_read cl _ _ _ _ E); [|done].
  pose proof (holds_lt _ _ _ _ _ Hg Hr) as Hi. destruct Hr as (b & B & _ & _).
  rewrite (setb_zoom _ _ _ _ _ _ B). set (w1 := lset _ _ _).
  assert (Hg1 : good n w1) by (eapply setb_count_good; [done..|]; intros; apply u8_range).
  apply wp_bind. eapply wp_mono; [by apply (wait_safe _ n)| |done]. intros _ w2 [Hg2 Hu].
  destruct (good_buf n w2 i Hg2 Hi) as [b2 B2].
  unfold wp. rewrite !(fld_zoom _ _ _ _ _ _ B2), u32_small by done.
  destruct ((b_dev b2 =? dev) && (b_blocknr b2 =? block)) eqn:Eq; zb.
  - split; [done|]. split; [by exists b2|done].
  - rewrite (setb_zoom _ _ _ _ _ _ B2). apply IH; [|done..].
    eapply setb_count_good; [done..|]. intros; apply u8_range.
Qed.

Lemma in_free_list c fl ch i :
  wf c fl ch -> (i < length (bufs c))%nat -> exists l1 l2, fl = l1 ++ i :: l2.
Proof.
  intros Hw Hi. apply list_elem_of_split. rewrite (wf_all _ _ _ Hw). apply elem_of_seq. lia.
Qed.

(** The rest of getblk() from [find_buffer] on, with an unlocked free buffer. *)
Lemma rename_safe n w i dev block :
  good n w -> 0 < dev < 2 ^ 16 -> 0 <= block < 2 ^ 32 -> (i < n)%nat ->
  unlocked (lget cl w) i -> (forall j, ~ holds (lget cl w) j dev block) ->
  exists w', bind (zoom cl (rename i dev block)) (fun _ => ret i) w = Ret i w' /\ good n w' /\
    holds (lget cl w') i dev block /\ unlocked (lget cl w') i.
Proof.
  intros (Hin & (fl & ch & Hw) & Hn) Hdev Hblk Hi (b & B & L) Hno.
  destruct (in_free_list _ _ _ i Hw) as (l1 & l2 & Hfl); [lia|].
  destruct (rename_run _ _ _ l1 i l2 b dev block Hw Hfl B Hdev Hblk) as (c' & ch' & E & Hw' & Hl & _ & Hinf).
  { intros j b' Bj Hd Hb. apply (Hno j). by exists b'. }
  exists (lset cl c' w). rewrite (bind_zoom cl _ _ _ _ _ E).
  assert (exists x, bufs c' !! i = Some x) as [x X] by (apply in_range; lia).
  destruct (renamed_cases _ _ _ _ _ _ _ _ Hinf X) as [(_ & ? & ? & _ & Hlk & _)|(? & _ & ? & _)]; [|done].
  unfold good, holds, unlocked. rewrite get_set.
  split_and!; [done|by eapply inv_set|by exists (l1 ++ l2 ++ [i]), ch'|lia| |].
  - by exists x. - exists x. split; [done|congruence].
Qed.

Lemma getblk_safe_run fuel n w dev block :
  good n w -> 0 < dev < 2 ^ 16 -> 0 <= block < 2 ^ 32 ->
  safe (getblk cl sleep_on fuel dev block) (fun i w' => good n w' /\
    holds (lget cl w') i dev block /\ unlocked (lget cl w') i) w.
Proof.
  revert w. induction fuel as [|fuel IH]; intros w Hg Hdev Hblk; cbn [getblk];
    [by eapply stops_fuel|].
  apply wp_bind. eapply wp_mono; [apply get_hash_table_safe; [exact Hg|lia|done]| |done].
  intros [i|] w1 [Hg1 H1]; [done|]. pose proof Hg1 as (_ & (fl & ch & Hw1) & Hn1).
  destruct (getblk_pick_run _ _ _ Hw1) as (r & Ep & Hp).
  unfold wp. rewrite (bind_zoom_read cl _ _ _ _ Ep). destruct r as [i|].
  - assert (Hi : (i < n)%nat).
    { destruct Hp as (l1 & l2 & -> & _). pose proof (wf_all _ _ _ Hw1) as Ha.
      assert (Hin : i ∈ l1 ++ i :: l2) by set_solver. rewrite Ha in Hin.
      apply elem_of_seq in Hin. lia. }
    apply wp_bind. eapply wp_mono; [by apply (wait_safe _ n)| |done]. intros _ w2 [Hg2 Hu].
    destruct (good_buf n w2 i Hg2 Hi) as [b2 B2]. unfold wp. rewrite (fld_zoom _ _ _ _ _ _ B2).
    destruct (truth (b_count b2)); [by apply IH|]. pose proof Hg2 as (_ & (fl2 & ch2 & Hw2) & _).
    destruct (find_buffer_run _ _ _ dev block Hw2 ltac:(lia) Hblk) as ([j|] & E & Hr);
      rewrite (bind_zoom_read cl _ _ _ _ E); [by apply IH|].
    destruct (rename_safe n w2 i dev block Hg2 Hdev Hblk Hi Hu Hr) as (w' & -> & ?). done.
  - apply wp_bind. eapply wp_mono; [apply sleep_ok; [by right|apply Hg1..]| |done].
    intros _ w2 (Hin & Hok & Hl). apply IH; [|done..]. split_and!; [done..|lia].
Qed.

Context (wake_up : lens cache (option nat) -> M W unit).
Context (wake_ok : forall w, inv w -> ok (lget cl w) ->
  wp (wake_up buffer_wait_l) (fun _ w' => inv w' /\ ok (lget cl w') /\
        length (bufs (lget cl w')) = length (bufs (lget cl w))) (fun r _ => stops r) w).

Lemma brelse_safe fuel n w i b :
  good n w -> bufs (lget cl w) !! i = Some b -> b_lock b = 0 -> b_count b <> 0 ->
  safe (brelse cl sleep_on wake_up fuel (Some i)) (fun _ w' => good n w') w.
Proof.
  intros Hg B L Hc. cbn [brelse]. unfold wp.
  rewrite (bind_ret _ _ _ _ _ (wait_unlocked cl _ _ _ _ _ B L)), (fld_zoom _ _ _ _ _ _ B).
  rewrite (setb_zoom _ _ _ _ _ _ B). unfold truth. destruct (Z.eqb_spec (b_count b) 0); [done|].
  cbn [negb]. set (w1 := lset _ _ _).
  assert (Hg1 : good n w1) by (eapply setb_count_good; [done..|]; intros; apply u8_range).
  eapply (wp_mono (wake_up buffer_wait_l)); [apply wake_ok; apply Hg1| |done].
  intros _ w2 (Hin & Hok & Hl). split_and!; [done..|]. rewrite Hl. apply Hg1.
Qed.
End safe.

(** ** buffer_init() *)

Lemma edges_Forall (P : option nat * option nat -> Prop) l :
  (forall i x y, l !! i = Some x -> l !! S i = Some y -> P (x, y)) -> Forall P (edges l).
Proof.
  induction l as [|x l IH]; intros H; [constructor|]. destruct l as [|y l]; [constructor|].
  cbn [edges]. constructor; [by apply (H 0%nat)|]. apply IH. intros i. apply (H (S i)).
Qed.

(** The header that the loop makes in its turn [h]. *)
Definition fresh (raw : nat -> buffer_head) (buffer_end : Z) (h : nat) : buffer_head :=
  new_header raw h (buffer_end - BLOCK_SIZE * Z.of_nat (h + 1)).

(** The number of buffers that fit. *)
Definition room (buffer_end : Z) : nat :=
  Z.to_nat ((buffer_end - start_buffer) / (BLOCK_SIZE + sizeof_buffer_head)).

Lemma room_spec buffer_end h :
  start_buffer <= buffer_end ->
  (hdr (h + 1) <= buffer_end - BLOCK_SIZE * Z.of_nat (h + 1) <-> (h < room buffer_end)%nat).
Proof.
  intros Hb. unfold hdr, room, BLOCK_SIZE, sizeof_buffer_head.
  set (d := buffer_end - start_buffer). pose proof (Z.div_mod d (1024 + 36)) as E.
  pose proof (Z.mod_pos_bound d (1024 + 36)). set (q := d / (1024 + 36)) in *.
  assert (0 <= q) by (apply Z.div_pos; lia). unfold d in *. lia.
Qed.

Lemma init_loop raw buffer_end k : forall fuel h c,
  start_buffer <= buffer_end -> room buffer_end = (h + k)%nat -> (k < fuel)%nat ->
  buffer_init_loop raw fuel (buffer_end - BLOCK_SIZE * Z.of_nat h) h c =
    Ret (h + k)%nat (c <| bufs ::= fun l => l ++ (fresh raw buffer_end <$> seq h k) |>
                       <| NR_BUFFERS ::= Z.add (Z.of_nat k) |>).
Proof.
  induction k as [|k IH]; intros fuel h c Hb Hn Hf; (destruct fuel as [|fuel]; [lia|]);
    cbn [buffer_init_loop]; cbv zeta;
    replace (buffer_end - BLOCK_SIZE * Z.of_nat h - BLOCK_SIZE)
      with (buffer_end - BLOCK_SIZE * Z.of_nat (h + 1)) by (unfold BLOCK_SIZE; lia);
    pose proof (room_spec buffer_end h Hb) as Hr.
  - destruct (Z.leb_spec (hdr (h + 1)) (buffer_end - BLOCK_SIZE * Z.of_nat (h + 1))); [lia|].
    rewrite Nat.add_0_r. unfold ret. f_equal. destruct c. cbn [upd bufs hash_table free_list buffer_wait NR_BUFFERS eta eta_cache seq fmap list_fmap].
    by rewrite app_nil_r.
  - destruct (Z.leb_spec (hdr (h + 1)) (buffer_end - BLOCK_SIZE * Z.of_nat (h + 1))) as [Hh|]; [|lia].
    rewrite bind_modify.
    destruct (Z.eqb_spec (buffer_end - BLOCK_SIZE * Z.of_nat (h + 1)) 0x100000) as [He|].
    { unfold hdr, sizeof_buffer_head, start_buffer, LOW_MEM in Hh. lia. }
    rewrite IH by lia. f_equal; [lia|]. destruct c.
    cbn [upd bufs hash_table free_list buffer_wait NR_BUFFERS eta eta_cache seq fmap list_fmap].
    f_equal; [|lia]. rewrite <-app_assoc. cbn [app].
    by replace (seq (h + 1) k) with (seq (S h) k) by (f_equal; lia).
Qed.

Lemma fresh_fields raw e h :
  info (fresh raw e h) = info ((raw h) <| b_dev := 0 |> <| b_dirt := 0 |> <| b_count := 0 |>
    <| b_lock := 0 |> <| b_uptodate := 0 |> <| b_wait := None |>
    <| b_data := e - BLOCK_SIZE * Z.of_nat (h + 1) |>).
Proof. done. Qed.

(** The list that the loop leaves, its two ends tied together. *)
Definition tied (raw : nat -> buffer_head) (e : Z) (n : nat) : list buffer_head :=
  alter (fun b => b <| b_next_free := Some 0%nat |>) (n - 1)%nat
    (alter (fun b => b <| b_prev_free := Some (n - 1)%nat |>) 0%nat (fresh raw e <$> seq 0 n)).

Lemma tied_lookup raw e n i b :
  (2 <= n)%nat -> tied raw e n !! i = Some b ->
  (i < n)%nat /\ info b = info (fresh raw e i) /\ b_next b = None /\ b_prev b = None /\
  b_next_free b = Some (if (i =? n - 1)%nat then 0%nat else (i + 1)%nat) /\
  b_prev_free b = Some (if (i =? 0)%nat then (n - 1)%nat else (i - 1)%nat).
Proof.
  intros Hn E. unfold tied in E.
  assert (Hi : (i < n)%nat).
  { apply lookup_lt_Some in E. rewrite !length_alter, length_fmap, length_seq in E. done. }
  split; [done|].
  assert (E0 : (fresh raw e <$> seq 0 n) !! i = Some (fresh raw e i)).
  { rewrite list_lookup_fmap, lookup_seq_lt by done. done. }
  destruct (Nat.eqb_spec i (n - 1)) as [Hl|Hl], (Nat.eqb_spec i 0) as [H0|H0]; [lia| | |].
  - subst i. rewrite (alter_eq _ _ _ (fresh raw e (n - 1))) in E by (by apply alter_ne; [lia|]).
    injection E as <-. split_and!; try done. cbn.
    destruct (Nat.eqb_spec (n - 1) 0); [lia|done].
  - subst i. rewrite list_lookup_alter_ne, (alter_eq _ _ _ _ E0) in E by lia. injection E as <-. done.
  - rewrite !list_lookup_alter_ne, E0 in E by lia. injection E as <-. split_and!; try done.
    cbn. destruct (Nat.eqb_spec i 0); [lia|done].
Qed.

Lemma tied_some raw e n i : (i < n)%nat -> exists b, tied raw e n !! i = Some b.
Proof.
  intros Hi. apply in_range. unfold tied. by rewrite !length_alter, length_fmap, length_seq.
Qed.

Lemma buffer_init_run raw fuel e c :
  bufs c = [] -> start_buffer <= e -> (2 <= room e < fuel)%nat ->
  buffer_init raw fuel e c = Ret tt (Cache (tied raw e (room e))
    (replicate (Z.to_nat NR_HASH) None) (Some 0%nat) (buffer_wait c)
    (Z.of_nat (room e) + NR_BUFFERS c)).
Proof.
  destruct c as [l0 h0 f0 w0 k0]. cbn [bufs buffer_wait NR_BUFFERS].
  intros -> He [H2 Hf]. unfold buffer_init. replace e with (e - BLOCK_SIZE * Z.of_nat 0) at 1 by lia.
  rewrite (bind_ret _ _ _ _ _ (init_loop raw e (room e) fuel 0 _ He eq_refl Hf)).
  rewrite bind_modify. set (l := fresh raw e <$> seq 0 (room e)).
  assert (Hl : length l = room e) by (unfold l; by rewrite length_fmap, length_seq).
  destruct (in_range l 0) as [b0 B0]; [lia|].
  rewrite (setb_bind _ _ _ _ b0) by exact B0.
  destruct (in_range (alter (fun b => b <| b_prev_free := Some (room e - 1)%nat |>) 0%nat l) (room e - 1))
    as [b1 B1]; [rewrite length_alter; lia|].
  rewrite (setb_bind _ _ _ _ b1) by exact B1. done.
Qed.

Lemma tied_ring raw e n :
  (2 <= n)%nat ->
  Forall (edge (lk b_next_free (tied raw e n)) (lk b_prev_free (tied raw e n))) (ring (seq 0 n)).
Proof.
  intros Hn. destruct n as [|m]; [lia|]. unfold ring.
  change (take 1 (seq 0 (S m))) with [0%nat].
  apply edges_Forall. intros i x y Ex Ey.
  rewrite list_lookup_fmap in Ex, Ey. apply fmap_Some in Ey as (j & Ey & ->).
  assert (Hlk : forall j, (j < S m)%nat -> (seq 0 (S m) ++ [0%nat]) !! j = Some j)
    by (intros; rewrite lookup_app_l by (by rewrite length_seq); by rewrite lookup_seq_lt).
  assert (Hi : (i < S m)%nat).
  { apply lookup_lt_Some in Ey. rewrite length_app, length_seq in Ey. cbn in Ey. lia. }
  rewrite Hlk in Ex by done. injection Ex as <-.
  destruct (tied_some raw e (S m) i Hi) as [b B].
  destruct (tied_lookup _ _ _ _ _ Hn B) as (_ & _ & _ & _ & Nx & _).
  destruct (decide (i = m)) as [->|Him].
  - rewrite lookup_app_r in Ey by (by rewrite length_seq). rewrite length_seq, Nat.sub_diag in Ey.
    injection Ey as <-.
    destruct (tied_some raw e (S m) 0%nat) as [b0 B0]; [lia|].
    destruct (tied_lookup _ _ _ _ _ Hn B0) as (_ & _ & _ & _ & _ & Px).
    split; cbn; intros ? [= <-]; unfold lk; rewrite ?B, ?B0; cbn; rewrite ?Nx, ?Px; cbn.
    + rewrite Nat.sub_0_r. by rewrite Nat.eqb_refl. + by rewrite Nat.sub_0_r.
  - rewrite Hlk in Ey by lia. injection Ey as <-.
    destruct (tied_some raw e (S m) (S i)) as [b1 B1]; [lia|].
    destruct (tied_lookup _ _ _ _ _ Hn B1) as (_ & _ & _ & _ & _ & Px).
    split; cbn; intros ? [= <-]; unfold lk; rewrite ?B, ?B1; cbn; rewrite ?Nx, ?Px; cbn.
    + destruct (Nat.eqb_spec i (m - 0)); [lia|f_equal; lia]. + f_equal. lia.
Qed.

Lemma tied_wf raw e n w k :
  (2 <= n)%nat -> (forall h, 0 <= b_blocknr (raw h) < 2 ^ 32) ->
  wf (Cache (tied raw e n) (replicate (Z.to_nat NR_HASH) None) (Some 0%nat) w k)
    (seq 0 n) (fun _ => []).
Proof.
  intros Hn Hraw.
  assert (Hlen : length (tied raw e n) = n)
    by (unfold tied; by rewrite !length_alter, length_fmap, length_seq).
  assert (Hz : forall i b, tied raw e n !! i = Some b -> b_dev b = 0).
  { intros i b B. by destruct (tied_lookup _ _ _ _ _ Hn B) as (_ & (-> & _)%info_fields & _). }
  split; cbn [bufs hash_table free_list]; rewrite ?Hlen; try done.
  - split; cbn [bufs free_list]; rewrite ?Hlen.
    + destruct n; [lia|done].
    + apply NoDup_seq.
    + apply Forall_forall. intros i Hi%elem_of_seq. lia.
    + by apply tied_ring.
  - split; cbn [bufs hash_table].
    + apply length_replicate.
    + intros h Hh. unfold zget. destruct (Z.ltb_spec h 0); [lia|].
      apply lookup_replicate_2. lia.
    + intros. constructor.
    + intros. repeat constructor; done.
    + intros h i _. split; [set_solver|]. intros [_ (b & B & Hd & _)]. by destruct Hd; eapply Hz.
    + intros i b B _ _. by destruct (tied_lookup _ _ _ _ _ Hn B) as (_ & _ & -> & -> & _).
  - intros i j b b' B _ Hd. by destruct Hd; eapply Hz.
  - apply Forall_lookup. intros i b B.
    destruct (tied_lookup _ _ _ _ _ Hn B) as (_ & (Ed & Eb & Ec & El & Et & _)%info_fields & _).
    specialize (Hraw i). unfold valid. rewrite Ed, Eb, Ec, El, Et. cbn. lia.
Qed.

(** ** sleep_on() of the kernel keeps the cache *)

Definition comp {S T U} (l : lens S T) (k : lens T U) : lens S U :=
  Lens (fun s => lget k (lget l s)) (fun u s => lset l (lset k u (lget l s)) s).
#[export] Instance comp_ok {S T U} (l : lens S T) (k : lens T U) :
  LensOk l -> LensOk k -> LensOk (comp l k).
Proof.
  intros Hl Hk. split; cbn; intros.
  - by rewrite !get_set. - by rewrite !set_get. - by rewrite get_set, !set_set.
Qed.
#[export] Instance now_l_ok S : LensOk (@now_l S).
Proof. split; [done|by intros []|done]. Qed.

Lemma queue_ok q c v :
  cache_queue q -> ok c -> ok (lset q v c) /\ length (bufs (lset q v c)) = length (bufs c).
Proof.
  intros [[i ->]| ->] (fl & ch & Hw).
  - split; [|apply length_alter]. exists fl, ch.
    eapply wf_frame; [exact Hw|done|done|apply length_alter| | |]; cbn [b_wait_l lset bufs upd].
    + apply Forall_alter; [apply Hw|]. by intros x _ Hx.
    + intros j. by apply alter_proj.
    + intros j. by apply alter_proj.
  - split; [|done]. exists fl, ch.
    eapply wf_frame; [exact Hw|done..|apply Hw|done|done].
Qed.

Section kernel.
Context {S : Type} (sl : lens S sched) (cl : lens S cache) `{!LensOk cl}.
Context (indep : forall x s, lget cl (lset sl x s) = lget cl s).

Definition world_cl : lens (world S) cache := comp now_l cl.
Definition kernel_sleep (q : lens cache (option nat)) : M (world S) unit :=
  Block.sleep_on sl (comp cl q).

(** The other tasks and the interrupt handlers keep the invariant. *)
Definition env_keeps (w : world S) : Prop :=
  Forall (fun f => forall s, ok (lget cl s) ->
    ok (lget cl (f s)) /\ length (bufs (lget cl (f s))) = length (bufs (lget cl s))) (future w).

Definition no_panic (r : stop) : Prop := forall m, r <> Panic m.
Definition calm_in (n : nat) (s : S) : Prop := ok (lget cl s) /\ length (bufs (lget cl s)) = n.
Definition calm {A} (m : M S A) : Prop := forall n s, calm_in n s ->
  wp m (fun _ s' => calm_in n s') (fun r _ => no_panic r) s.

Lemma calm_bind {A B} (m : M S A) (k : A -> M S B) :
  calm m -> (forall a, calm (k a)) -> calm (bind m k).
Proof.
  intros Hm Hk n s Hs. apply wp_bind. eapply wp_mono; [by apply Hm| |done].
  intros a s' Hs'. by apply Hk.
Qed.
Lemma calm_gets {A} (f : S -> A) : calm (gets f).
Proof. by intros n s Hs. Qed.
Lemma calm_sched {A} (m : M sched A) :
  (forall x, wp m (fun _ _ => True) (fun r _ => no_panic r) x) -> calm (zoom sl m).
Proof.
  intros Hm n s Hs. apply wp_zoom. eapply wp_mono; [apply Hm| |done].
  intros a x _. unfold calm_in. by rewrite indep.
Qed.
Lemma calm_queue q v : cache_queue q -> calm (modify (lset (comp cl q) v)).
Proof.
  intros Hq n s [Hok Hl]. unfold wp, modify, calm_in, comp. cbn. rewrite get_set.
  destruct (queue_ok q (lget cl s) v Hq Hok). split; [done|congruence].
Qed.

Lemma set_state_calm t v : calm (zoom sl (set_state t v)).
Proof.
  apply calm_sched. intros x. unfold set_state, wp. rewrite bind_get.
  by destruct (task_at x t).
Qed.
Lemma schedule_calm fuel : calm (zoom sl (schedule fuel)).
Proof.
  apply calm_sched. induction fuel as [|fuel IH]; intros x; unfold schedule in *; cbn [schedule_pick];
    [done|].
  unfold wp in *. rewrite bind_assoc, bind_get. destruct (schedule_scan _ _ _ _) as [c n].
  destruct (0 <? c); [done|]. rewrite bind_assoc, bind_modify. apply IH.
Qed.

Lemma lift_calm {A} (m : M S A) n w :
  calm m -> env_keeps w -> calm_in n (now w) ->
  wp (lift m) (fun _ w' => env_keeps w' /\ calm_in n (now w')) (fun r _ => no_panic r) w.
Proof.
  intros Hm He Hw. apply wp_zoom. eapply wp_mono; [by apply Hm| |done]. done.
Qed.

#[export] Instance kernel_sleeper : Sleeper world_cl no_panic env_keeps kernel_sleep.
Proof.
  split; [|done..]. intros q w Hq He Hok. unfold kernel_sleep, Block.sleep_on, running_task.
  unfold wp at 1. rewrite bind_gets. set (me := current (lget sl (now w))).
  apply wp_bind. eapply wp_mono; [apply (lift_calm _ (length (bufs (lget cl (now w)))) w); [|done|]| |done].
  - apply calm_bind; [apply calm_gets|]. intros m. destruct (m =? 0)%nat; [by intros ? ? ?|].
    apply calm_bind; [apply calm_gets|]. intros tmp.
    apply calm_bind; [by apply calm_queue|]. intros _.
    apply calm_bind; [apply set_state_calm|]. intros _.
    apply calm_bind; [apply schedule_calm|]. by intros _ ? ?.
  - by split.
  - intros tmp w1 [He1 [Hok1 Hl1]].
    assert (Hres : wp (resume sl me) (fun _ w' => env_keeps w' /\
        calm_in (length (bufs (lget cl (now w)))) (now w')) (fun r _ => no_panic r) w1).
    { unfold resume, running_task, wp. rewrite bind_gets. destruct (_ =? _)%nat; [by repeat split|].
      rewrite bind_get. unfold env_keeps in He1. destruct (future w1) as [|f fs]; [done|].
      apply Forall_cons in He1 as [Hf He1]. unfold modify. split; [done|].
      destruct (Hf _ Hok1) as [H1 H2]. unfold calm_in. cbn. rewrite indep.
      split; [done|congruence]. }
    apply wp_bind. eapply wp_mono; [exact Hres| |done]. intros _ w2 [He2 Hc2].
    eapply wp_mono; [apply lift_calm; [|done|exact Hc2]| |done].
    + apply calm_bind; [by apply calm_queue|]. intros _.
      destruct tmp; [apply set_state_calm|by intros ? ?].
    + intros _ w3 [He3 [Hok3 Hl3]]. done.
Qed.
End kernel.

(** ** What getblk() and buffer_init() promise *)

(** C8.  getblk() when nothing has to be waited for.  If a buffer of the block
    is in the cache and unlocked, it is the result and gains a reference,
    and nothing else changes.  Otherwise the result is the first of the least
    bad buffers without reference in the order of the free list, provided it
    is unlocked; it becomes the clean, out of date buffer of the block, with
    one reference, goes to the end of the free list and into its hash queue,
    and no other buffer changes.  That the buffer was dirty before makes no
    difference: its contents are dropped. *)
Theorem getblk_cached_or_lru {W} (cl : lens W cache) `{!LensOk cl} sleep_on fuel dev block w fl ch :
  wf (lget cl w) fl ch -> 0 < dev < 2 ^ 16 -> 0 <= block < 2 ^ 32 ->
  (forall i b, bufs (lget cl w) !! i = Some b -> b_dev b = dev -> b_blocknr b = block ->
     b_lock b = 0 ->
     getblk cl sleep_on (S fuel) dev block w = Ret i (lset cl ((lget cl w) <| bufs ::=
       alter (fun b => b <| b_count ::= fun n => u8 (n + 1) |>) i |>) w)) /\
  (forall i b l1 l2, (forall j, ~ holds (lget cl w) j dev block) ->
     best (lget cl w) fl (Some i) -> fl = l1 ++ i :: l2 ->
     bufs (lget cl w) !! i = Some b -> b_lock b = 0 ->
     exists c' ch', getblk cl sleep_on (S fuel) dev block w = Ret i (lset cl c' w) /\
       wf c' (l1 ++ l2 ++ [i]) ch' /\
       forall j, info <$> bufs c' !! j =
         if decide (j = i) then Some (renamed dev block b) else info <$> bufs (lget cl w) !! j).
Proof.
  intros Hw Hdev Hblk. split.
  - intros i b B Hd Hn Hl. eapply getblk_hit; eauto. lia.
  - intros i b l1 l2 Hno Hbest Hfl B Hl. by eapply getblk_miss.
Qed.

Definition id_l {S} : lens S S := Lens id (fun t _ => t).
#[export] Instance id_l_ok S : LensOk (@id_l S).
Proof. by split. Qed.

(** Three buffers, as buffer_init() leaves them. *)
Definition blank (h : nat) : buffer_head := Bh 0 [] 0 0 0 0 0 0 None None None None None.
Definition three_end : Z := start_buffer + 3 * (BLOCK_SIZE + sizeof_buffer_head).
Definition three : cache :=
  Cache (tied blank three_end 3) (replicate (Z.to_nat NR_HASH) None) (Some 0%nat) None 3.
Lemma three_wf : wf three [0; 1; 2]%nat (fun _ => []).
Proof. apply (tied_wf blank three_end 3); [lia|done]. Qed.

Example getblk_cached_or_lru_witness :
  exists c' ch', getblk id_l (fun _ => ret tt) 1 0x301 5 three = Ret 0%nat c' /\
    wf c' [1; 2; 0]%nat ch' /\
    info <$> bufs c' !! 0%nat = Some (renamed 0x301 5 (fresh blank three_end 0)).
Proof.
  destruct (getblk_cached_or_lru id_l (fun _ => ret tt) 0 0x301 5 three _ _ three_wf) as [_ H].
  - split; reflexivity.
  - split; [discriminate|reflexivity].
  - destruct (H 0%nat ((fresh blank three_end 0) <| b_prev_free := Some 2%nat |>) [] [1; 2]%nat)
      as (c' & ch' & E & Hw & Hi).
    + intros j (b & B & Hd & _). destruct j as [|[|[|j]]]; [| | |discriminate B];
        injection B as <-; discriminate Hd.
    + exists [], [1; 2]%nat. split_and!; [done|done| |].
      * intros j Hj. inversion Hj.
      * intros j Hj _. vm_compute in Hj. destruct j as [|[|[|j]]]; vm_compute; discriminate.
    + reflexivity.
    + reflexivity.
    + reflexivity.
    + exists c', ch'. split; [exact E|]. split; [exact Hw|]. exact (Hi 0%nat).
Defined.

(** C31.  getblk() under any interleaving.  Whatever the other tasks do while
    it sleeps, as long as they keep the invariant of the cache, getblk()
    keeps it too, its result is unlocked, is the buffer of the block that was
    asked for, and is the only one; it accesses nothing through a bad pointer
    and does not find the free list corrupted. *)
Theorem getblk_interleaved {W} (cl : lens W cache) `{!LensOk cl} stops inv sleep_on
    `{!Sleeper cl stops inv sleep_on} fuel dev block w :
  inv w -> ok (lget cl w) -> 0 < dev < 2 ^ 16 -> 0 <= block < 2 ^ 32 ->
  wp (getblk cl sleep_on fuel dev block) (fun i w' => ok (lget cl w') /\
      holds (lget cl w') i dev block /\ unlocked (lget cl w') i /\
      forall j, holds (lget cl w') j dev block -> j = i) (fun r _ => stops r) w.
Proof.
  intros Hin Hok Hdev Hblk. eapply wp_mono;
    [apply (getblk_safe_run cl stops inv sleep_on fuel (length (bufs (lget cl w)))); done| |done].
  intros i w' ((_ & Hok' & _) & Hh & Hu). split_and!; try done.
  intros j (b & B & Hd & Hb). destruct Hh as (b' & B' & Hd' & Hb'), Hok' as (fl & ch & Hw).
  apply (wf_uniq _ _ _ Hw j i b b'); congruence || lia.
Qed.

(** All three buffers in use; while the task sleeps, somebody drops the
    references. *)
Definition in_use (c : cache) : cache :=
  c <| bufs ::= alter (fun b => b <| b_count ::= fun _ => 1 |>) 2%nat |>
    <| bufs ::= alter (fun b => b <| b_count ::= fun _ => 1 |>) 1%nat |>
    <| bufs ::= alter (fun b => b <| b_count ::= fun _ => 1 |>) 0%nat |>.
Definition release (c : cache) : cache :=
  c <| bufs ::= alter (fun b => b <| b_count ::= fun _ => 0 |>) 1%nat |>.
Definition fst_l {S T} : lens (S * T) S := Lens fst (fun a p => (a, snd p)).
Definition snd_l {S T} : lens (S * T) T := Lens snd (fun b p => (fst p, b)).
#[export] Instance fst_l_ok S T : LensOk (@fst_l S T).
Proof. split; [done|by intros []|done]. Qed.
Definition two_tasks : sched :=
  Sched [Some (INIT_TASK 0 0); Some (INIT_TASK 0 0)] 1 2.
Definition waiting : world (cache * sched) :=
  World (in_use three, two_tasks) [fun p => (release (fst p), snd p)].

Lemma in_use_ok : ok (in_use three).
Proof.
  exists [0; 1; 2]%nat, (fun _ => []). unfold in_use.
  apply (alter_count_wf _ _ _ 0%nat (fun _ => 1)); [|intros; split; [done|reflexivity]].
  apply (alter_count_wf _ _ _ 1%nat (fun _ => 1)); [|intros; split; [done|reflexivity]].
  apply (alter_count_wf _ _ _ 2%nat (fun _ => 1)); [|intros; split; [done|reflexivity]].
  apply three_wf.
Qed.
Lemma waiting_keeps : env_keeps fst_l waiting.
Proof.
  apply Forall_cons; split; [|constructor]. intros s (fl & ch & Hw). split; [|apply length_alter].
  exists fl, ch. apply (alter_count_wf _ _ _ 1%nat (fun _ => 0)); [done|].
  intros; split; [done|reflexivity].
Qed.

Lemma waiting_gets_1 : exists w', getblk (world_cl fst_l) (kernel_sleep snd_l fst_l) 3 0x301 5 waiting = Ret 1%nat w'.
Proof.
  assert (H : match getblk (world_cl fst_l) (kernel_sleep snd_l fst_l) 3 0x301 5 waiting with
     Ret i _ => i = 1%nat | Stop _ _ => False end) by (vm_compute; reflexivity).
  revert H. generalize (getblk (world_cl fst_l) (kernel_sleep snd_l fst_l) 3 0x301 5 waiting).
  intros [i w'|r w'] H; [subst i; eauto|done].
Qed.

Example getblk_interleaved_witness :
  exists w', getblk (world_cl fst_l) (kernel_sleep snd_l fst_l) 3 0x301 5 waiting = Ret 1%nat w' /\
    ok (fst (now w')) /\ holds (fst (now w')) 1 0x301 5.
Proof.
  pose proof (kernel_sleeper snd_l fst_l (fun _ _ => eq_refl)) as Hs.
  pose proof (getblk_interleaved (world_cl fst_l) no_panic (env_keeps fst_l)
    (kernel_sleep snd_l fst_l) 3 0x301 5 waiting waiting_keeps in_use_ok) as H.
  destruct waiting_gets_1 as [w' E].
  assert (Hr : 0 < 0x301 < 2 ^ 16 /\ 0 <= 5 < 2 ^ 32)
    by (split; split; [reflexivity|reflexivity|discriminate|reflexivity]).
  destruct (wp_Ret _ _ _ _ _ _ (H (proj1 Hr) (proj2 Hr)) E) as (H1 & H2 & _).
  exists w'. split; [exact E|]. split; [exact H1|exact H2].
Defined.

(** C32.  buffer_init() on the memory from LOW_MEM to [e]: it ends, makes as
    many buffers as headers and blocks together fit, establishes the
    invariant with every buffer free and unassigned, and the blocks lie below
    [e], one below the other without overlap, above all the headers. *)
Theorem buffer_init_spec raw fuel e c :
  bufs c = [] -> NR_BUFFERS c = 0 -> start_buffer <= e -> (2 <= room e < fuel)%nat ->
  (forall h, 0 <= b_blocknr (raw h) < 2 ^ 32) ->
  exists c', buffer_init raw fuel e c = Ret tt c' /\
    wf c' (seq 0 (room e)) (fun _ => []) /\ NR_BUFFERS c' = Z.of_nat (room e) /\
    length (bufs c') = room e /\
    forall i b, bufs c' !! i = Some b ->
      b_dev b = 0 /\ b_count b = 0 /\
      b_data b = e - BLOCK_SIZE * Z.of_nat (i + 1) /\ hdr (room e) <= b_data b.
Proof.
  intros Hc Hn He Hf Hraw. pose proof (buffer_init_run raw fuel e c Hc He Hf) as E.
  eexists. split; [exact E|]. split; [apply tied_wf; [apply Hf|done]|]. cbn [bufs NR_BUFFERS].
  split; [lia|]. split; [unfold tied; by rewrite !length_alter, length_fmap, length_seq|].
  intros i b B. destruct (tied_lookup _ _ _ _ _ (proj1 Hf) B) as (Hi & Hinf & _).
  assert (Hd : b_data b = e - BLOCK_SIZE * Z.of_nat (i + 1)).
  { change (b_data b) with (b_data (info b)). by rewrite Hinf. }
  apply info_fields in Hinf as (D & _ & C & _). split_and!; [done..|].
  rewrite Hd. pose proof (proj2 (room_spec e (room e - 1) He)) as Hr. feed Hr; [lia|].
  replace (room e - 1 + 1)%nat with (room e) in Hr by lia. unfold BLOCK_SIZE in *. lia.
Qed.

(** The 3 MB between 1 MB and [buffer_memory_end]. *)
Example buffer_init_spec_witness :
  exists c', buffer_init blank 3000 (4 * 1024 * 1024) (Cache [] [] None None 0) = Ret tt c' /\
    NR_BUFFERS c' = 2967 /\ ok c'.
Proof.
  destruct (buffer_init_spec blank 3000 (4 * 1024 * 1024) (Cache [] [] None None 0))
    as (c' & E & Hw & Hn & _).
  - reflexivity.
  - reflexivity.
  - discriminate.
  - change (room (4 * 1024 * 1024)) with (Z.to_nat 2967). lia.
  - intros h. split; [discriminate|reflexivity].
  - exists c'. split; [exact E|]. split; [exact Hn|]. by eexists _, _.
Defined.
