(* ===== verification/Blk.v ===== *)
(** * The request queue: drivers/block/hardisk/ll_rw_blk.c and
    drivers/block/include/blk.h

    The requests are an array of NR_REQUEST slots, a free one having a
    negative [dev]; a pointer to a request is its index.  [blk_dev] is the
    table of the drivers: whether there is a request function, and the head
    of the queue.  The request function itself is given by the environment
    (do_hd_request() of Hd.v), as are sleep_on() and wake_up().  The messages
    that the code prints are left out. *)

From stdpp Require Import sorting.
From S2P Require Import Prelude Task Sched WaitQ DList Buffer.

Definition NR_BLK_DEV : Z := 7.
Definition NR_REQUEST : Z := 32.

Record request := Req {
  r_dev : Z; cmd : Z; errors : Z; sector : Z; nr_sectors : Z; buffer : Z;
  waiting : option nat; r_bh : option nat; r_next : option nat
}.
#[export] Instance eta_request : Eta request := fun r =>
  Req (r_dev r) (cmd r) (errors r) (sector r) (nr_sectors r) (buffer r)
    (waiting r) (r_bh r) (r_next r).

Record blk_dev_struct := BlkDev { request_fn : bool; current_request : option nat }.
#[export] Instance eta_blk_dev : Eta blk_dev_struct := fun d =>
  BlkDev (request_fn d) (current_request d).

Record blk := Blk {
  requests : list request;
  wait_for_request : option nat;
  blk_dev : list blk_dev_struct
}.
#[export] Instance eta_blk : Eta blk := fun k =>
  Blk (requests k) (wait_for_request k) (blk_dev k).

Definition MAJOR (a : Z) : Z := Z.shiftr (u32 a) 8.
Definition MINOR (a : Z) : Z := Z.land a 0xff.

(** The elevator's order: reads before writes, then by device and sector. *)
Definition IN_ORDER (s1 s2 : request) : bool :=
  (cmd s1 <? cmd s2) || (cmd s1 =? cmd s2) &&
    ((r_dev s1 <? r_dev s2) || (r_dev s1 =? r_dev s2) && (sector s1 <? sector s2)).

Definition reqf (i : nat) : M blk request :=
  let! k := get in deref (requests k !! i).
Definition setr (i : nat) (g : request -> request) : M blk unit :=
  let! _ := reqf i in modify (fun k => k <| requests ::= alter g i |>).
Definition devf (major : Z) : M blk blk_dev_struct :=
  let! k := get in deref (zget (blk_dev k) major).
Definition set_current (major : Z) (r : option nat) : M blk unit :=
  let! d := devf major in
  modify (fun k => k <| blk_dev ::= zset major (d <| current_request := r |>) |>).

(** ** add_request() *)

(** [for ( ; tmp->next ; tmp=tmp->next)]: the request after which to link. *)
Fixpoint place (fuel : nat) (tmp req : nat) : M blk nat :=
  match fuel with
  | O => halt NoFuel
  | S fuel' =>
      let! t := reqf tmp in
      match r_next t with
      | None => ret tmp
      | Some nx =>
          let! r := reqf req in
          let! n := reqf nx in
          if (IN_ORDER t r || negb (IN_ORDER t n)) && IN_ORDER r n then ret tmp
          else place fuel' nx req
      end
  end.

(** The queue part of add_request(): [true] when the driver was idle. *)
Definition link_request (major : Z) (req : nat) : M blk bool :=
  let! d := devf major in
  match current_request d with
  | None => set_current major (Some req) ;; ret true
  | Some tmp =>
      let! k := get in
      let! tmp := place (length (requests k)) tmp req in
      let! t := reqf tmp in
      setr req (fun r => r <| r_next := r_next t |>) ;;
      setr tmp (fun t => t <| r_next := Some req |>) ;;
      ret false
  end.

(** The last free slot below [n]. *)
Fixpoint find_free (n : nat) : M blk (option nat) :=
  match n with
  | O => ret None
  | S i =>
      let! r := reqf i in
      if r_dev r <? 0 then ret (Some i) else find_free i
  end.

Definition wait_for_request_l : lens blk (option nat) :=
  Lens wait_for_request (fun q k => k <| wait_for_request := q |>).
Definition waiting_l (i : nat) : lens blk (option nat) :=
  Lens (fun k => (requests k !! i) ≫= waiting)
       (fun q k => k <| requests ::= alter (fun r => r <| waiting := q |>) i |>).

Section ops.
Context {W : Type} (cl : lens W cache) (kl : lens W blk).
Context (sleep_on wake_up : lens W (option nat) -> M W unit).
Context (call_request_fn : Z -> M W unit).

Fixpoint lock_buffer (fuel : nat) (bh : nat) : M W unit :=
  let! l := zoom cl (fld b_lock bh) in
  if truth l then
    match fuel with
    | O => halt NoFuel
    | S fuel' => sleep_on (comp cl (b_wait_l bh)) ;; lock_buffer fuel' bh
    end
  else zoom cl (setb bh (fun b => b <| b_lock := 1 |>)).

Definition unlock_buffer (bh : nat) : M W unit :=
  zoom cl (setb bh (fun b => b <| b_lock := 0 |>)) ;;
  wake_up (comp cl (b_wait_l bh)).

Definition add_request (major : Z) (req : nat) : M W unit :=
  zoom kl (setr req (fun r => r <| r_next := None |>)) ;;
  let! r := zoom kl (reqf req) in
  match r_bh r with
  | Some bh => zoom cl (setb bh (fun b => b <| b_dirt := 0 |>))
  | None => ret tt
  end ;;
  let! idle := zoom kl (link_request major req) in
  when idle (call_request_fn major).

(** From [repeat] on: find a slot, or sleep until there is one. *)
Fixpoint get_request (fuel : nat) (major rw : Z) (rw_ahead : bool) (bh : nat) : M W unit :=
  match fuel with
  | O => halt NoFuel
  | S fuel' =>
      let n := Z.to_nat (if rw =? READ then NR_REQUEST else NR_REQUEST * 2 / 3) in
      let! slot := zoom kl (find_free n) in
      match slot with
      | None =>
          if rw_ahead then unlock_buffer bh
          else sleep_on (comp kl wait_for_request_l) ;; get_request fuel' major rw rw_ahead bh
      | Some req =>
          let! b := zoom cl (fld id bh) in
          zoom kl (setr req (fun _ =>
            Req (b_dev b) rw 0 (u32 (Z.shiftl (b_blocknr b) 1)) 2 (b_data b) None (Some bh) None)) ;;
          add_request major req
      end
  end.

Definition make_request (fuel : nat) (major rw : Z) (bh : nat) : M W unit :=
  let rw_ahead := (rw =? READA) || (rw =? WRITEA) in
  let! l := zoom cl (fld b_lock bh) in
  if rw_ahead && truth l then ret tt
  else
    let rw := if rw_ahead then (if rw =? READA then READ else WRITE) else rw in
    if negb (rw =? READ) && negb (rw =? WRITE) then halt Hang
    else
      lock_buffer fuel bh ;;
      let! b := zoom cl (fld id bh) in
      if ((rw =? WRITE) && negb (truth (b_dirt b))) || ((rw =? READ) && truth (b_uptodate b))
      then unlock_buffer bh
      else get_request fuel major rw rw_ahead bh.

Definition ll_rw_block (fuel : nat) (rw : Z) (bh : nat) : M W unit :=
  let! dev := zoom cl (fld b_dev bh) in
  let major := MAJOR dev in
  if NR_BLK_DEV <=? major then ret tt
  else
    let! d := zoom kl (devf major) in
    if request_fn d then make_request fuel major rw bh else ret tt.

(** [CURRENT->dev = -1; CURRENT = CURRENT->next] *)
Definition pop_request (major : Z) (cur : nat) : M blk unit :=
  setr cur (fun r => r <| r_dev := -1 |>) ;;
  let! r := reqf cur in
  set_current major (r_next r).

(** end_request() of blk.h, for the driver of [major]. *)
Definition end_request (major : Z) (uptodate : Z) : M W unit :=
  let! d := zoom kl (devf major) in
  let! cur := deref (current_request d) in
  let! r := zoom kl (reqf cur) in
  match r_bh r with
  | Some bh =>
      zoom cl (setb bh (fun b => b <| b_uptodate := uptodate |>)) ;;
      unlock_buffer bh
  | None => ret tt
  end ;;
  (* the message of a failed request reads CURRENT->bh->b_blocknr *)
  when (negb (truth uptodate)) (let! bh := deref (r_bh r) in zoom cl (fld b_blocknr bh) ;; ret tt) ;;
  wake_up (comp kl (waiting_l cur)) ;;
  wake_up (comp kl wait_for_request_l) ;;
  zoom kl (pop_request major cur).
End ops.

Definition blk_dev_init : M blk unit :=
  modify (fun k => k <| requests ::= fmap (fun r => r <| r_dev := -1 |> <| r_next := None |>) |>).

(** ** The elevator on keys

    [elev r l] is where add_request() puts a request of key [r] into a busy
    queue with the keys [l]: never before the head, which is being served. *)

Notation rkey := (Z * Z * Z)%type.
Definition key (r : request) : rkey := (cmd r, r_dev r, sector r).
Definition korder (a b : rkey) : bool :=
  let '(c1, d1, s1) := a in
  let '(c2, d2, s2) := b in
  (c1 <? c2) || (c1 =? c2) && ((d1 <? d2) || (d1 =? d2) && (s1 <? s2)).
Definition before (a b : rkey) : Prop := korder a b = true.

Lemma IN_ORDER_key a b : IN_ORDER a b = korder (key a) (key b).
Proof. done. Qed.

Lemma before_spec c1 d1 s1 c2 d2 s2 :
  before (c1, d1, s1) (c2, d2, s2) <->
  c1 < c2 \/ c1 = c2 /\ (d1 < d2 \/ d1 = d2 /\ s1 < s2).
Proof.
  unfold before, korder.
  rewrite orb_true_iff, andb_true_iff, orb_true_iff, andb_true_iff,
    !Z.ltb_lt, !Z.eqb_eq. done.
Qed.
Lemma before_trans a b c : before a b -> before b c -> before a c.
Proof.
  destruct a as [[c1 d1] s1], b as [[c2 d2] s2], c as [[c3 d3] s3].
  rewrite !before_spec. lia.
Qed.
#[export] Instance before_transitive : Transitive before.
Proof. intros a b c. apply before_trans. Qed.
Lemma before_irrefl a : ~ before a a.
Proof. destruct a as [[c d] s]. rewrite before_spec. lia. Qed.
Lemma before_total a b : a <> b -> before a b \/ before b a.
Proof.
  destruct a as [[c1 d1] s1], b as [[c2 d2] s2]. rewrite !before_spec. intros Hne.
  destruct (decide (c1 = c2)), (decide (d1 = d2)), (decide (s1 = s2)); subst; try lia; done.
Qed.
Lemma before_asym a b : before a b -> korder b a = false.
Proof.
  intros H. destruct (korder b a) eqn:E; [|done]. exfalso. by eapply before_irrefl, before_trans.
Qed.

Fixpoint elev (r : rkey) (l : list rkey) : list rkey :=
  match l with
  | [] => [r]
  | t :: l' =>
      match l' with
      | [] => [t; r]
      | n :: _ => if (korder t r || negb (korder t n)) && korder r n then t :: r :: l'
                  else t :: elev r l'
      end
  end.

Lemma elev_cons r t n l :
  elev r (t :: n :: l) = if (korder t r || negb (korder t n)) && korder r n
                         then t :: r :: n :: l else t :: elev r (n :: l).
Proof. done. Qed.

Notation sorted := (StronglySorted before).

(** The disk arm sweeps over the first run, then over the second. *)
Definition two_runs (l : list rkey) : Prop :=
  exists a b, l = a ++ b /\ sorted a /\ sorted b.

Lemma sorted_cons2 t n l : sorted (n :: l) -> before t n -> sorted (t :: n :: l).
Proof.
  intros Hs Hb. constructor; [done|]. constructor; [done|].
  inversion Hs as [|?? _ Hf]; subst. eapply Forall_impl; [exact Hf|].
  intros x Hx. by eapply before_trans.
Qed.
Lemma sorted_inv t n l : sorted (t :: n :: l) -> before t n /\ sorted (n :: l).
Proof. intros Hs. inversion Hs as [|?? H1 H2]; subst. by inversion H2. Qed.

Lemma elev_asc r l : forall t, sorted (t :: l) -> before t r -> r ∉ l ->
  exists l', elev r (t :: l) = t :: l' /\ sorted (t :: l').
Proof.
  induction l as [|n l IH]; intros t Hs Hb Hr; [|rewrite elev_cons].
  - exists [r]. split; [done|]. apply sorted_cons2; [repeat constructor|done].
  - apply sorted_inv in Hs as [Htn Hs]. rewrite Hb. cbn [orb andb].
    destruct (korder r n) eqn:E.
    + exists (r :: n :: l). split; [done|]. by apply sorted_cons2; [apply sorted_cons2|].
    + destruct (before_total n r) as [Hn|Hn]; [set_solver| |unfold before in Hn; congruence].
      destruct (IH n Hs Hn) as (l' & E' & Hs'); [set_solver|].
      exists (n :: l').
      split; [by rewrite <-E'|]. by apply sorted_cons2.
Qed.

Lemma last_default {A} (t n : A) l : default n (last l) = default t (last (n :: l)).
Proof.
  destruct l as [|x l]; [done|]. change (last (n :: x :: l)) with (last (x :: l)).
  destruct (last (x :: l)) eqn:E; [done|]. by apply last_None in E.
Qed.

(** In a queue of two runs the request goes into the first or the second. *)
Lemma elev_first r a : forall t b, sorted (t :: a) -> before t r -> r ∉ a -> r ∉ b ->
  elev r ((t :: a) ++ b) = elev r (t :: a) ++ b \/
  exists y b', b = y :: b' /\ before y r /\ elev r ((t :: a) ++ b) = (t :: a) ++ elev r b.
Proof.
  induction a as [|n a IH]; intros t b Hs Hb Ha Hrb.
  - destruct b as [|y b]; [by left|]. cbn [app]. rewrite elev_cons, Hb. cbn [orb andb].
    destruct (korder r y) eqn:E; [by left|]. right. exists y, b. split_and!; [done| |done].
    destruct (before_total y r) as [?|H]; [set_solver|done|unfold before in H; congruence].
  - apply sorted_inv in Hs as [_ Hs]. cbn [app]. rewrite !elev_cons, Hb. cbn [orb andb].
    destruct (korder r n) eqn:E; [by left|].
    destruct (before_total n r) as [Hn|H]; [set_solver| |unfold before in H; congruence].
    destruct (IH n b Hs Hn) as [E'|(y & b' & -> & Hy & E')]; [set_solver..| |];
      cbn [app] in E'; rewrite E'; [by left|]. right. by exists y, b'.
Qed.

Lemma elev_second r a : forall t b, sorted (t :: a) -> before r t -> r ∉ b ->
  (forall y b', b = y :: b' -> korder (default t (last a)) y = false) ->
  elev r ((t :: a) ++ b) = (t :: a) ++
    match b with
    | [] => [r]
    | y :: _ => if korder r y then r :: b else elev r b
    end.
Proof.
  induction a as [|n a IH]; intros t b Hs Hb Hrb Hd.
  - destruct b as [|y b]; [done|]. cbn [app]. rewrite elev_cons, (before_asym _ _ Hb).
    pose proof (Hd y b eq_refl) as Hd'. cbn in Hd'. rewrite Hd'. cbn [orb negb andb].
    by destruct (korder r y).
  - apply sorted_inv in Hs as [Htn Hs]. cbn [app].
    rewrite elev_cons, (before_asym _ _ Hb), Htn. cbn [orb negb andb].
    pose proof (IH n b Hs (before_trans _ _ _ Hb Htn) Hrb) as H. cbn [app] in H.
    rewrite H; [done|]. intros y b' ->. by rewrite <-(Hd y b' eq_refl), <-last_default.
Qed.

Lemma two_runs_split l : two_runs l -> l <> [] ->
  exists t a b, l = (t :: a) ++ b /\ sorted (t :: a) /\ sorted b /\
    forall y b', b = y :: b' -> korder (default t (last a)) y = false.
Proof.
  intros (a & b & -> & Ha & Hb) Hne. destruct a as [|t a].
  { destruct b as [|t b]; [done|]. exists t, b, []. rewrite app_nil_r. by split_and!. }
  destruct b as [|y b]; [by exists t, a, []|].
  destruct (korder (default t (last a)) y) eqn:E.
  2:{ exists t, a, (y :: b). split_and!; try done. by intros ? ? [= <- _]. }
  exists t, (a ++ y :: b), []. rewrite app_nil_r. split_and!; [done| |constructor|done].
  change (t :: a ++ y :: b) with ((t :: a) ++ y :: b).
  clear Hne. revert t Ha E. induction a as [|n a IH]; intros t Ha E.
  - by apply sorted_cons2.
  - apply sorted_inv in Ha as [Ht Ha]. apply (sorted_cons2 t n (a ++ y :: b)); [|done].
    apply (IH n Ha). by rewrite last_default with (t := t).
Qed.

Lemma elev_two_runs r l : l <> [] -> r ∉ l -> two_runs l -> two_runs (elev r l).
Proof.
  intros Hne Hr H. destruct (two_runs_split _ H Hne) as (t & a & b & -> & Ha & Hb & Hd).
  assert (Hasc : forall y b', b = y :: b' -> before y r -> sorted (elev r b)).
  { intros y b' -> Hy. destruct (elev_asc r b' y Hb Hy) as (l' & -> & ?); [set_solver|done]. }
  destruct (before_total t r) as [Ht|Ht]; [set_solver| |].
  - destruct (elev_first r a t b Ha Ht) as [->|(y & b' & Eb & Hy & ->)]; [set_solver..| |].
    + exists (elev r (t :: a)), b. split_and!; [done| |done].
      destruct (elev_asc r a t Ha Ht) as (l' & -> & ?); [set_solver|done].
    + exists (t :: a), (elev r b). split_and!; eauto.
  - rewrite (elev_second r a t b Ha Ht) by (done || set_solver).
    eexists (t :: a), _. split_and!; [done..|].
    destruct b as [|y b]; [repeat constructor|]. destruct (korder r y) eqn:E.
    + by apply sorted_cons2.
    + apply (Hasc y b eq_refl).
      destruct (before_total y r) as [?|H']; [set_solver|done|unfold before in H'; congruence].
Qed.

Lemma two_runs_tail l : two_runs l -> two_runs (tail l).
Proof.
  intros (a & b & -> & Ha & Hb). destruct a as [|t a].
  - exists [], (tail b). split_and!; [done|constructor|]. destruct b; [done|by inversion Hb].
  - exists a, b. split_and!; [done|by inversion Ha|done].
Qed.

(** ** The queue in memory *)

Definition linked (rs : list request) (l : list nat) : Prop :=
  forall l1 i l2, l = l1 ++ i :: l2 -> exists r, rs !! i = Some r /\ r_next r = head l2.

(** [l] is the queue of the driver, from the request being served on. *)
Record queue (k : blk) (major : Z) (l : list nat) : Prop := {
  q_head : exists d, zget (blk_dev k) major = Some d /\ current_request d = head l;
  q_links : linked (requests k) l;
  q_nodup : NoDup l
}.

Definition keys (rs : list request) (l : list nat) : list rkey :=
  (fun i => default (0, 0, 0) (key <$> rs !! i)) <$> l.

Lemma linked_inv rs i l : linked rs (i :: l) ->
  (exists r, rs !! i = Some r /\ r_next r = head l) /\ linked rs l.
Proof.
  intros H. split; [by apply (H [])|]. intros l1 j l2 ->. by apply (H (i :: l1)).
Qed.
Lemma linked_cons rs i r l :
  rs !! i = Some r -> r_next r = head l -> linked rs l -> linked rs (i :: l).
Proof.
  intros Hi Hn Hl l1 j l2 E. destruct l1 as [|x l1]; injection E as -> ->; eauto.
Qed.
Lemma linked_frame rs rs' l :
  (forall i, i ∈ l -> rs' !! i = rs !! i) -> linked rs l -> linked rs' l.
Proof. intros H Hl l1 i l2 ->. rewrite H by set_solver. by apply (Hl l1). Qed.

Lemma reqf_bind {B} i (c : request -> M blk B) k r :
  requests k !! i = Some r -> bind (reqf i) c k = c r k.
Proof. intros E. unfold reqf, bind, get, deref. by rewrite E. Qed.
Lemma setr_run i g k r :
  requests k !! i = Some r -> setr i g k = Ret tt (k <| requests ::= alter g i |>).
Proof. intros E. unfold setr. by rewrite (reqf_bind _ _ _ _ E). Qed.
Lemma devf_bind {B} major (c : blk_dev_struct -> M blk B) k d :
  zget (blk_dev k) major = Some d -> bind (devf major) c k = c d k.
Proof. intros E. unfold devf, bind, get, deref. by rewrite E. Qed.

Lemma place_run k req r l : forall tmp fuel,
  linked (requests k) (tmp :: l) -> requests k !! req = Some r -> (length l < fuel)%nat ->
  exists l1 t l2, tmp :: l = l1 ++ t :: l2 /\ place fuel tmp req k = Ret t k /\
    elev (key r) (keys (requests k) (tmp :: l)) =
      keys (requests k) (l1 ++ [t]) ++ key r :: keys (requests k) l2.
Proof.
  induction l as [|n l IH]; intros tmp fuel Hl Hr Hf; (destruct fuel as [|fuel]; [lia|]);
    apply linked_inv in Hl as [(t & Et & Nt) Hl]; cbn [place]; rewrite (reqf_bind _ _ _ _ Et), Nt;
    cbn [head].
  - by exists [], tmp, [].
  - pose proof Hl as [(nr & En & _) _]%linked_inv.
    rewrite (reqf_bind _ _ _ _ Hr), (reqf_bind _ _ _ _ En), !IN_ORDER_key.
    unfold keys at 1. cbn [fmap list_fmap]. rewrite elev_cons, Et, En. cbn [fmap option_fmap option_map default].
    destruct (_ && _) eqn:E.
    + exists [], tmp, (n :: l). split_and!; [done..|]. unfold keys. cbn. by rewrite Et, En.
    + destruct (IH n fuel Hl Hr) as (l1 & t' & l2 & E1 & E2 & E3); [cbn in Hf; lia|].
      exists (tmp :: l1), t', l2. split_and!; [by rewrite E1|done|].
      unfold keys in E3 |- *. cbn [fmap list_fmap app] in E3 |- *.
      rewrite En in E3. cbn [fmap option_fmap option_map default] in E3.
      by rewrite Et, E3.
Qed.

Lemma alter_lookup (rs : list request) g i j :
  alter g i rs !! j = if decide (i = j) then g <$> rs !! j else rs !! j.
Proof.
  case_decide as H; [subst; apply list_lookup_alter_eq|by apply list_lookup_alter_ne].
Qed.

Definition rstrip (r : request) : request := r <| r_next := None |>.

(** Linking [req] behind [t]. *)
Lemma link_after rs req r l1 t l2 :
  linked rs (l1 ++ t :: l2) -> NoDup (l1 ++ t :: l2) -> req ∉ l1 ++ t :: l2 ->
  rs !! req = Some r ->
  linked (alter (fun x => x <| r_next := Some req |>) t
           (alter (fun x => x <| r_next := head l2 |>) req rs)) (l1 ++ t :: req :: l2).
Proof.
  intros Hl Hnd Hreq Hr. induction l1 as [|x l1 IH]; cbn [app] in *;
    apply linked_inv in Hl as [(y & Ey & Ny) Hl]; apply NoDup_cons in Hnd as [D Hnd].
  - assert (Htr : t <> req) by set_solver.
    eapply linked_cons; [rewrite list_lookup_alter_eq, list_lookup_alter_ne, Ey by done; done|done|].
    eapply linked_cons; [rewrite list_lookup_alter_ne, list_lookup_alter_eq, Hr by done; done|done|].
    eapply linked_frame; [|exact Hl]. intros i Hi.
    rewrite !alter_lookup, !decide_False by set_solver. done.
  - eapply linked_cons; [|rewrite Ny; by destruct l1|apply IH; [done..|set_solver]].
    rewrite !alter_lookup, !decide_False by set_solver. done.
Qed.

(** ** add_request() *)

Lemma key_rstrip a b : rstrip a = rstrip b -> key a = key b.
Proof. unfold rstrip, key. cbn. intros [=]. congruence. Qed.

Lemma link_request_busy k major req r l :
  queue k major l -> l <> [] -> req ∉ l -> requests k !! req = Some r ->
  exists k' l', link_request major req k = Ret false k' /\ queue k' major l' /\
    l' ≡ₚ req :: l /\ head l' = head l /\ wait_for_request k' = wait_for_request k /\
    blk_dev k' = blk_dev k /\
    keys (requests k) l' = elev (key r) (keys (requests k) l) /\
    forall j, rstrip <$> requests k' !! j = rstrip <$> requests k !! j.
Proof.
  intros [(d & Ed & Hc) Hl Hnd] Hne Hreq Hr. destruct l as [|tmp l]; [done|].
  destruct (place_run k req r l tmp (length (requests k)) Hl Hr) as (l1 & t & l2 & E & Ep & Ek).
  { assert (Hlen : (length (tmp :: l) <= length (requests k))%nat).
    { rewrite <-(length_seq (length (requests k)) 0). apply submseteq_length, NoDup_submseteq; [done|].
      intros i (m1 & m2 & Em)%list_elem_of_split. destruct (Hl _ _ _ Em) as (x & Ex & _).
      apply elem_of_seq. apply lookup_lt_Some in Ex. lia. }
    cbn in Hlen. lia. }
  rewrite E in Hl, Hnd, Hreq. destruct (Hl l1 t l2 eq_refl) as (tr & Et & Nt).
  assert (Htr : req <> t) by set_solver.
  eexists _, (l1 ++ t :: req :: l2). split_and!.
  - unfold link_request. rewrite (devf_bind _ _ _ _ Ed), Hc. cbn [head].
    rewrite bind_get, (bind_ret _ _ _ _ _ Ep), (reqf_bind _ _ _ _ Et).
    rewrite (bind_ret _ _ _ _ _ (setr_run _ _ _ _ Hr)).
    erewrite bind_ret; [done|]. eapply setr_run. cbn. by rewrite alter_lookup, decide_False.
  - rewrite Nt. split; cbn [blk_dev requests upd].
    + exists d. split; [done|]. rewrite Hc, E. by destruct l1.
    + by eapply link_after.
    + replace (l1 ++ t :: req :: l2) with ((l1 ++ [t]) ++ req :: l2) by (by rewrite <-app_assoc).
      rewrite <-Permutation_middle, <-app_assoc. by apply NoDup_cons.
  - rewrite E. replace (l1 ++ t :: req :: l2) with ((l1 ++ [t]) ++ req :: l2) by (by rewrite <-app_assoc).
    by rewrite <-Permutation_middle, <-app_assoc.
  - rewrite E. by destruct l1.
  - done.
  - done.
  - rewrite Ek. unfold keys. rewrite !fmap_app, !fmap_cons, Hr. cbn. by rewrite <-app_assoc.
  - intros j. cbn [requests upd]. rewrite !alter_lookup.
    repeat case_decide; destruct (requests k !! j); done.
Qed.

Lemma link_request_idle k major req r :
  queue k major [] -> requests k !! req = Some r -> r_next r = None ->
  exists k', link_request major req k = Ret true k' /\ queue k' major [req] /\
    requests k' = requests k /\ wait_for_request k' = wait_for_request k.
Proof.
  intros [(d & Ed & Hc) Hl Hnd] Hr Hn. eexists. split_and!.
  - unfold link_request, set_current. rewrite (devf_bind _ _ _ _ Ed), Hc. cbn [head].
    rewrite bind_assoc, (devf_bind _ _ _ _ Ed), bind_modify. done.
  - split; cbn [blk_dev requests upd].
    + eexists. split; [apply zget_zset_eq; by eapply zget_Some_range|done].
    + eapply linked_cons; [done..|]. by intros [] ? ?.
    + apply NoDup_singleton.
  - done.
  - done.
Qed.

(** ** The invariant of the request array *)

(** Slots that a command may use. *)
Definition limit (rw : Z) : nat := Z.to_nat (if rw =? READ then NR_REQUEST else NR_REQUEST * 2 / 3).

Record blk_inv (k : blk) (major : Z) (l : list nat) : Prop := {
  i_queue : queue k major l;
  i_len : length (requests k) = Z.to_nat NR_REQUEST;
  i_busy : forall i r, requests k !! i = Some r -> (0 <= r_dev r <-> i ∈ l);
  i_cmd : forall i r, requests k !! i = Some r -> i ∈ l ->
    (cmd r = READ \/ cmd r = WRITE) /\ (i < limit (cmd r))%nat;
  i_runs : two_runs (keys (requests k) l)
}.

Lemma limit_le rw : (limit rw <= Z.to_nat NR_REQUEST)%nat.
Proof. unfold limit. case_match; vm_compute; lia. Qed.

Lemma find_free_run k n :
  (n <= length (requests k))%nat ->
  exists o, find_free n k = Ret o k /\
    match o with
    | Some i => (i < n)%nat /\ (exists r, requests k !! i = Some r /\ r_dev r < 0) /\
        forall j r, (i < j < n)%nat -> requests k !! j = Some r -> 0 <= r_dev r
    | None => forall j r, (j < n)%nat -> requests k !! j = Some r -> 0 <= r_dev r
    end.
Proof.
  induction n as [|n IH]; intros Hn; cbn [find_free]; [exists None; split; [done|]; lia|].
  destruct (lookup_lt_is_Some_2 (requests k) n) as [r Er]; [lia|]. rewrite (reqf_bind _ _ _ _ Er).
  destruct (Z.ltb_spec (r_dev r) 0).
  - exists (Some n). split; [done|]. split_and!; [lia|eauto|]. lia.
  - destruct IH as (o & -> & Ho); [lia|]. exists o. split; [done|]. destruct o as [i|].
    + destruct Ho as (? & ? & Ho). split_and!; [lia|done|]. intros j r' Hj Ej.
      destruct (decide (j = n)) as [->|]; [by simplify_eq|]. apply (Ho j); [lia|done].
    + intros j r' Hj Ej. destruct (decide (j = n)) as [->|]; [by simplify_eq|]. apply (Ho j); [lia|done].
Qed.

Lemma keys_ext rs rs' l :
  (forall j, j ∈ l -> key <$> rs' !! j = key <$> rs !! j) -> keys rs' l = keys rs l.
Proof. intros H. apply list_fmap_ext. intros i j E. cbn. rewrite H; [done|]. by eapply list_elem_of_lookup_2. Qed.

Lemma keys_length rs l : length (keys rs l) = length l.
Proof. apply length_fmap. Qed.

(** The new request in its slot, before it is linked. *)
Lemma store_queue k major l i r :
  queue k major l -> i ∉ l -> queue (k <| requests ::= alter (fun _ => r) i |>) major l.
Proof.
  intros [Hd Hl Hn] Hi. split; [done| |done]. eapply linked_frame; [|exact Hl].
  intros j Hj. apply list_lookup_alter_ne. set_solver.
Qed.

Lemma rstrip_fields a b : rstrip a = rstrip b ->
  r_dev a = r_dev b /\ cmd a = cmd b /\ sector a = sector b /\ r_bh a = r_bh b /\
  waiting a = waiting b /\ nr_sectors a = nr_sectors b /\ buffer a = buffer b /\ errors a = errors b.
Proof. unfold rstrip. cbn. by intros [=]. Qed.

Lemma rstrip_lookup (rs rs' : list request) j x :
  (forall j, rstrip <$> rs' !! j = rstrip <$> rs !! j) -> rs' !! j = Some x ->
  exists y, rs !! j = Some y /\ rstrip x = rstrip y.
Proof.
  intros H E. specialize (H j). rewrite E in H. destruct (rs !! j) as [y|]; [|done].
  exists y. split; [done|]. by apply (inj Some).
Qed.

Lemma lookup_length_eq (rs rs' : list request) :
  (forall j, rstrip <$> rs' !! j = rstrip <$> rs !! j) -> length rs' = length rs.
Proof.
  intros H. assert (E : rstrip <$> rs' = rstrip <$> rs)
    by (apply list_eq; intros j; by rewrite !list_lookup_fmap).
  apply (f_equal length) in E. by rewrite !length_fmap in E.
Qed.

(** The same slots, up to links and the word [next]. *)
Lemma blk_inv_entered k k' major l l' i r :
  blk_inv k major l -> i ∉ l -> requests k !! i <> None ->
  queue k' major l' -> l' ≡ₚ i :: l -> 0 <= r_dev r -> (cmd r = READ \/ cmd r = WRITE) ->
  (i < limit (cmd r))%nat ->
  (forall j, rstrip <$> requests k' !! j = rstrip <$> alter (fun _ => r) i (requests k) !! j) ->
  two_runs (keys (requests k') l') -> blk_inv k' major l'.
Proof.
  intros [_ Hlen Hbusy Hcmd _] Hi Hex Hq HP Hd Hc Hlim Hst Hruns.
  split; [done| | | |done].
  - by rewrite (lookup_length_eq _ _ Hst), length_alter.
  - intros j x E. destruct (rstrip_lookup _ _ _ _ Hst E) as (y & Ey & (-> & _)%rstrip_fields).
    rewrite HP, elem_of_cons. rewrite alter_lookup in Ey. case_decide as Hj.
    + subst j. destruct (requests k !! i); [|done]. injection Ey as <-. split; [by left|done].
    + rewrite (Hbusy _ _ Ey). split; [by right|]. intros [->|?]; done.
  - intros j x E Hj. destruct (rstrip_lookup _ _ _ _ Hst E) as (y & Ey & (_ & -> & _)%rstrip_fields).
    rewrite HP, elem_of_cons in Hj. rewrite alter_lookup in Ey. case_decide as Hij.
    + subst j. destruct (requests k !! i); [|done]. by injection Ey as <-.
    + apply (Hcmd _ _ Ey). destruct Hj; [congruence|done].
Qed.

Lemma free_notin k major l i r :
  blk_inv k major l -> requests k !! i = Some r -> r_dev r < 0 -> i ∉ l.
Proof. intros Hi E Hd Hin. apply (i_busy _ _ _ Hi _ _ E) in Hin. lia. Qed.

Lemma key_rstrip_map (rs rs' : list request) j :
  (forall j, rstrip <$> rs' !! j = rstrip <$> rs !! j) -> key <$> rs' !! j = key <$> rs !! j.
Proof.
  intros H. specialize (H j). destruct (rs !! j), (rs' !! j); try done. cbn in *.
  apply (inj Some) in H. by rewrite (key_rstrip _ _ H).
Qed.

(** Lines 129 to 138: a free slot is filled and linked. *)
Lemma enter_request k major l i r0 r :
  blk_inv k major l -> requests k !! i = Some r0 -> r_dev r0 < 0 -> (i < limit (cmd r))%nat ->
  0 <= r_dev r -> (cmd r = READ \/ cmd r = WRITE) -> r_next r = None ->
  key r ∉ keys (requests k) l ->
  exists k' l', link_request major i (k <| requests ::= alter (fun _ => r) i |>) =
      Ret (bool_decide (l = [])) k' /\ blk_inv k' major l' /\ l' ≡ₚ i :: l /\
    (l <> [] -> head l' = head l) /\ wait_for_request k' = wait_for_request k /\
    forall j, rstrip <$> requests k' !! j =
      if decide (j = i) then Some (rstrip r) else rstrip <$> requests k !! j.
Proof.
  intros Hinv E Hd0 Hlim Hd Hc Hn Hkey.
  pose proof (free_notin _ _ _ _ _ Hinv E Hd0) as Hi.
  set (k1 := k <| requests ::= alter (fun _ => r) i |>).
  assert (E1 : requests k1 !! i = Some r) by (cbn; rewrite list_lookup_alter_eq, E; done).
  assert (Hall : forall j, rstrip <$> requests k1 !! j =
    if decide (j = i) then Some (rstrip r) else rstrip <$> requests k !! j).
  { intros j. cbn. case_decide as Hj; [by subst; rewrite list_lookup_alter_eq, E|].
    by rewrite list_lookup_alter_ne. }
  assert (Hq1 : queue k1 major l) by (apply store_queue; [apply Hinv|done]).
  assert (Hk1 : keys (requests k1) l = keys (requests k) l).
  { apply keys_ext. intros j Hj. cbn. rewrite list_lookup_alter_ne by set_solver. done. }
  destruct (decide (l = [])) as [->|Hne].
  - destruct (link_request_idle k1 major i r Hq1 E1 Hn) as (k' & Er & Hq & Hr & Hw).
    exists k', [i]. rewrite bool_decide_true by done. split_and!; try done.
    + eapply blk_inv_entered; eauto; [congruence|by rewrite Hr|].
      rewrite Hr. exists (keys (requests k1) [i]), []. split_and!; [by rewrite app_nil_r|..];
        repeat constructor.
    + by rewrite Hr.
  - destruct (link_request_busy k1 major i r l Hq1 Hne Hi E1)
      as (k' & l' & Er & Hq & HP & Hh & Hw & _ & Hk & Hst).
    exists k', l'. rewrite bool_decide_false by done. split_and!; try done.
    + eapply blk_inv_entered; eauto; [congruence|].
      rewrite (keys_ext (requests k1) (requests k')) by (intros; by apply key_rstrip_map).
      rewrite Hk, Hk1. apply elev_two_runs; [|done|apply Hinv]. by destruct l.
    + intros j. by rewrite Hst.
Qed.

(** ** The requests and their buffers *)

Definition bh_of (k : blk) (i : nat) : option nat := (requests k !! i) ≫= r_bh.

(** A queued request is of a locked buffer of its own, at one of the two
    sectors of its block. *)
Record backed (c : cache) (k : blk) (i : nat) : Prop := Backed {
  bk_ex : exists r bh b, requests k !! i = Some r /\ r_bh r = Some bh /\ bufs c !! bh = Some b /\
    b_lock b <> 0 /\ r_dev r = b_dev b /\ b_dev b <> 0 /\ 0 <= b_blocknr b < 2 ^ 31 /\
    (sector r = 2 * b_blocknr b \/ sector r = 2 * b_blocknr b + 1)
}.
Record queued (c : cache) (k : blk) (l : list nat) : Prop := {
  qd_backed : Forall (backed c k) l;
  qd_own : NoDup (bh_of k <$> l)
}.

(** The whole queue, with the cache that its requests point into. *)
Record io_inv (c : cache) (k : blk) (major : Z) (l : list nat) : Prop := {
  io_cache : ok c;
  io_queue : blk_inv k major l;
  io_queued : queued c k l
}.

Definition touch (g : buffer_head -> buffer_head) (bh : nat) (c : cache) : cache :=
  c <| bufs ::= alter g bh |>.

(** Changes of [b_lock], [b_dirt] and [b_uptodate] leave the cache in order. *)
Lemma touch_ok g bh c :
  ok c -> (forall b, valid b -> valid (g b)) ->
  (forall b, skey (g b) = skey b) -> (forall b, sring (g b) = sring b) -> ok (touch g bh c).
Proof.
  intros (fl & ch & Hw) Hv Hk Hr. exists fl, ch.
  eapply wf_frame; [exact Hw|done|done|apply length_alter| | |]; cbn [touch bufs upd].
  - apply Forall_alter; [apply Hw|]. intros x _ Hx. by apply Hv.
  - intros j. by apply alter_proj.
  - intros j. by apply alter_proj.
Qed.

(** The key of a new request is in the queue of no other one: a block has one
    buffer, which is locked while a request for it is queued. *)
Lemma new_key c k l bh b rw :
  ok c -> queued c k l -> bufs c !! bh = Some b -> b_lock b = 0 -> b_dev b <> 0 ->
  0 <= b_blocknr b < 2 ^ 31 ->
  (rw, b_dev b, 2 * b_blocknr b) ∉ keys (requests k) l.
Proof.
  intros (fl & ch & Hw) [Hq _] B Hl Hd Hn (i & E & Hi)%list_elem_of_fmap.
  rewrite Forall_forall in Hq.
  destruct (Hq i Hi) as [(r & bh' & b' & Er & _ & B' & Hl' & Hd' & _ & Hn' & Hs)].
  rewrite Er in E. cbn in E. injection E as _ E2 E3.
  assert (bh' = bh) as -> by (eapply (wf_uniq _ _ _ Hw); eauto; [congruence..|lia]).
  congruence.
Qed.

Lemma backed_frame c c' k k' i :
  rstrip <$> requests k' !! i = rstrip <$> requests k !! i ->
  (forall bh b, bh_of k i = Some bh -> bufs c !! bh = Some b -> bufs c' !! bh = Some b) ->
  backed c k i -> backed c' k' i.
Proof.
  intros Hr Hc [(r & bh & b & Er & Eb & B & Hrest)]. rewrite Er in Hr.
  destruct (requests k' !! i) as [r'|] eqn:Er'; [|done]. cbn in Hr. apply (inj Some) in Hr.
  apply rstrip_fields in Hr as (Hd & _ & Hs & Hb & _). split. exists r', bh, b.
  rewrite Hd, Hs, Hb. split_and!; try tauto. apply (Hc bh b); [|done]. unfold bh_of. by rewrite Er.
Qed.

Lemma bh_of_rstrip k k' i :
  rstrip <$> requests k' !! i = rstrip <$> requests k !! i -> bh_of k' i = bh_of k i.
Proof.
  unfold bh_of. destruct (requests k' !! i), (requests k !! i); try done. cbn. intros H.
  apply (inj Some) in H. by apply rstrip_fields in H as (_ & _ & _ & ? & _).
Qed.

(** ** make_request() *)

Definition is_lock (v : Z) (b : buffer_head) : buffer_head := b <| b_lock := v |>.
Definition is_dirt (v : Z) (b : buffer_head) : buffer_head := b <| b_dirt := v |>.

(** The buffer once its request is queued. *)
Definition submitted (bh : nat) (c : cache) : cache :=
  touch (is_dirt 0) bh (touch (is_lock 1) bh c).

(** The request that make_request() fills in. *)
Definition new_request (rw : Z) (bh : nat) (b : buffer_head) : request :=
  Req (b_dev b) rw 0 (2 * b_blocknr b) 2 (b_data b) None (Some bh) None.

Lemma touch_lookup g bh c b : bufs c !! bh = Some b -> bufs (touch g bh c) !! bh = Some (g b).
Proof. intros B. cbn. by rewrite list_lookup_alter_eq, B. Qed.
Lemma touch_other g bh c j : j <> bh -> bufs (touch g bh c) !! j = bufs c !! j.
Proof. intros H. cbn. by apply list_lookup_alter_ne. Qed.

Lemma submitted_ok bh c : ok c -> ok (submitted bh c).
Proof.
  intros H. apply touch_ok; [apply touch_ok; [done|..]|..]; try done;
    intros b (? & ? & ? & ? & ?); unfold valid; cbn; tauto.
Qed.

Lemma shiftl_double n : 0 <= n < 2 ^ 31 -> u32 (Z.shiftl n 1) = 2 * n.
Proof. intros H. rewrite Z.shiftl_mul_pow2 by done. rewrite u32_small; lia. Qed.

Lemma lock_twice bh c b v :
  bufs c !! bh = Some b -> b_lock b = 0 -> touch (is_lock 0) bh (touch (is_lock v) bh c) = c.
Proof.
  intros B L. unfold touch. cbn.
  assert (H : alter (is_lock 0) bh (alter (is_lock v) bh (bufs c)) = bufs c).
  { apply list_eq. intros j. destruct (decide (j = bh)) as [->|].
    - rewrite !list_lookup_alter_eq, B. cbn. by destruct b; cbn in *; subst.
    - by rewrite !list_lookup_alter_ne. }
  rewrite H. by destruct c.
Qed.

Section make.
Context {W : Type} (cl : lens W cache) (kl : lens W blk).
Context `{!LensOk cl, !LensOk kl, !Apart cl kl}.
Context (sleep_on wake_up : lens W (option nat) -> M W unit) (rq : Z -> M W unit).

Lemma setb_zoom_run g bh w b :
  bufs (lget cl w) !! bh = Some b ->
  zoom cl (setb bh g) w = Ret tt (lset cl (touch g bh (lget cl w)) w).
Proof. intros B. unfold zoom. by rewrite (setb_run _ _ _ _ B). Qed.

Lemma lock_buffer_run fuel bh w b :
  bufs (lget cl w) !! bh = Some b -> b_lock b = 0 ->
  lock_buffer cl sleep_on fuel bh w = Ret tt (lset cl (touch (is_lock 1) bh (lget cl w)) w).
Proof.
  intros B L. destruct fuel; cbn [lock_buffer]; rewrite (fld_zoom cl _ _ _ _ _ B), L;
    exact (setb_zoom_run _ _ _ _ B).
Qed.

Lemma unlock_buffer_run bh w b :
  bufs (lget cl w) !! bh = Some b ->
  unlock_buffer cl wake_up bh w =
    wake_up (comp cl (b_wait_l bh)) (lset cl (touch (is_lock 0) bh (lget cl w)) w).
Proof. intros B. unfold unlock_buffer. by rewrite (bind_ret _ _ _ _ _ (setb_zoom_run _ _ _ _ B)). Qed.

(** Locked and unlocked at once. *)
Lemma relock_run bh w b :
  bufs (lget cl w) !! bh = Some b -> b_lock b = 0 ->
  unlock_buffer cl wake_up bh (lset cl (touch (is_lock 1) bh (lget cl w)) w) =
    wake_up (comp cl (b_wait_l bh)) w.
Proof.
  intros B L. erewrite unlock_buffer_run; rewrite get_set.
  - by rewrite (lock_twice _ _ _ _ B L), set_set, set_get.
  - by apply touch_lookup.
Qed.

(** add_request() on a slot already filled with [r]. *)
Lemma add_request_run major i w bh b k l r0 r :
  lget kl w = k <| requests ::= alter (fun _ => r) i |> ->
  bufs (lget cl w) !! bh = Some b -> r_bh r = Some bh ->
  blk_inv k major l -> requests k !! i = Some r0 -> r_dev r0 < 0 -> (i < limit (cmd r))%nat ->
  0 <= r_dev r -> (cmd r = READ \/ cmd r = WRITE) -> r_next r = None ->
  key r ∉ keys (requests k) l ->
  exists k' l',
    add_request cl kl rq major i w =
      when (bool_decide (l = [])) (rq major) (lset kl k' (lset cl (touch (is_dirt 0) bh (lget cl w)) w)) /\
    blk_inv k' major l' /\ l' ≡ₚ i :: l /\ (l <> [] -> head l' = head l) /\
    wait_for_request k' = wait_for_request k /\
    (forall j, rstrip <$> requests k' !! j =
      if decide (j = i) then Some (rstrip r) else rstrip <$> requests k !! j).
Proof.
  intros Ek B Hb Hinv E Hd0 Hlim Hd Hc Hn Hkey.
  destruct (enter_request k major l i r0 r Hinv E Hd0 Hlim Hd Hc Hn Hkey)
    as (k' & l' & Er & H1 & H2 & H3 & H4 & H5).
  exists k', l'. split_and!; try done.
  set (k1 := k <| requests ::= alter (fun _ => r) i |>) in *.
  assert (E1 : requests k1 !! i = Some r) by (cbn; by rewrite list_lookup_alter_eq, E).
  assert (E2 : setr i (fun r => r <| r_next := None |>) k1 = Ret tt k1).
  { rewrite (setr_run _ _ _ _ E1). f_equal. unfold k1. cbn. f_equal.
    apply list_eq. intros j. rewrite !alter_lookup. case_decide as Hij; [|done]. rewrite <-Hij, E. cbn.
    by destruct r; cbn in *; subst. }
  unfold add_request. rewrite bind_zoom_read with (a := tt) by (apply _ || by rewrite Ek).
  rewrite bind_zoom_read with (a := r)
    by (apply _ || (unfold reqf, bind, get, deref; rewrite Ek, E1; done)).
  rewrite Hb. rewrite (bind_ret _ _ _ _ _ (setb_zoom_run _ _ _ _ B)).
  unfold bind, zoom. by rewrite apart_get, Ek, Er.
Qed.

(** Lines 129 to 138 together with add_request(). *)
Lemma submit_run fuel major rw ahead bh w b l i r0 :
  io_inv (lget cl w) (lget kl w) major l -> bufs (lget cl w) !! bh = Some b -> b_lock b = 0 ->
  b_dev b <> 0 -> 0 <= b_blocknr b < 2 ^ 31 -> rw = READ \/ rw = WRITE ->
  find_free (limit rw) (lget kl w) = Ret (Some i) (lget kl w) ->
  requests (lget kl w) !! i = Some r0 -> r_dev r0 < 0 -> (i < limit rw)%nat ->
  exists k' l',
    get_request cl kl sleep_on wake_up rq (S fuel) major rw ahead bh
        (lset cl (touch (is_lock 1) bh (lget cl w)) w) =
      when (bool_decide (l = [])) (rq major) (lset kl k' (lset cl (submitted bh (lget cl w)) w)) /\
    io_inv (submitted bh (lget cl w)) k' major l' /\ l' ≡ₚ i :: l /\
    (l <> [] -> head l' = head l) /\ wait_for_request k' = wait_for_request (lget kl w) /\
    (forall j, rstrip <$> requests k' !! j =
      if decide (j = i) then Some (new_request rw bh b)
      else rstrip <$> requests (lget kl w) !! j).
Proof.
  intros [Hok Hinv Hqd] B L Hdev Hnr Hrw Hfind Er Hr Hi.
  set (k := lget kl w) in *. set (c := lget cl w) in *.
  pose proof (shiftl_double _ Hnr) as Hsec. set (r := new_request rw bh b).
  set (c1 := touch (is_lock 1) bh c). set (w1 := lset cl c1 w).
  assert (Hv : 0 <= r_dev r).
  { destruct Hok as (? & ? & Hw). apply (proj1 (Forall_lookup _ _) (wf_valid _ _ _ Hw) _ _ B). }
  assert (B1 : bufs c1 !! bh = Some (is_lock 1 b)) by (by apply touch_lookup).
  pose proof (free_notin _ _ _ _ _ Hinv Er Hr) as Hil.
  destruct (add_request_run major i (lset kl (k <| requests ::= alter (fun _ => r) i |>) w1)
    bh (is_lock 1 b) k l r0 r) as (k' & l' & E & H1 & H2 & H3 & H4 & H5); try done.
  { by rewrite get_set. }
  { unfold w1. by rewrite get_apart, get_set. }
  { by eapply new_key. }
  exists k', l'. split_and!; try done.
  - cbn [get_request].
    rewrite bind_zoom_read with (a := Some i) by (apply _ || (unfold w1; by rewrite apart_get)).
    unfold w1 at 1. rewrite (fld_zoom cl _ _ _ _ (is_lock 1 b)) by (by rewrite get_set).
    assert (E2 : setr i (fun _ => Req (b_dev (is_lock 1 b)) rw 0
        (u32 (Z.shiftl (b_blocknr (is_lock 1 b)) 1)) 2 (b_data (is_lock 1 b)) None (Some bh) None)
        (lget kl w1) = Ret tt (k <| requests ::= alter (fun _ => r) i |>)).
    { unfold w1. rewrite apart_get. fold k. rewrite (setr_run _ _ _ _ Er).
      cbn [b_dev b_blocknr b_data is_lock upd]. by rewrite Hsec. }
    rewrite (bind_zoom _ _ _ _ _ _ E2), E. unfold w1.
    rewrite get_apart, get_set, (set_apart (l := cl) (k := kl)), !set_set. done.
  - split; [by apply submitted_ok|done|]. destruct Hqd as [Hb Hown]. split.
    + rewrite H2. constructor.
      * specialize (H5 i). rewrite decide_True in H5 by done.
        destruct (requests k' !! i) as [r'|] eqn:E'; [|done]. apply (inj Some) in H5.
        apply (rstrip_fields r' r) in H5 as (Gd & _ & Gs & Gb & _).
        split. exists r', bh, (is_dirt 0 (is_lock 1 b)).
        rewrite Gd, Gs, Gb. split_and!; try done;
          [by do 2 apply touch_lookup|cbn; lia..|by left].
      * rewrite Forall_forall in Hb |- *. intros j Hj. eapply backed_frame; [|..|by apply Hb].
        { rewrite H5, decide_False by set_solver. done. }
        intros bh' b' Ebh B'. assert (bh' <> bh); [|by unfold submitted; rewrite !touch_other].
        intros ->. destruct (Hb j Hj) as [(x & y & z & X1 & X2 & X3 & X4 & _)].
        unfold bh_of in Ebh. fold k in X1. rewrite X1 in Ebh. cbn in Ebh.
        rewrite X2 in Ebh. simplify_eq.
    + rewrite H2. cbn [fmap list_fmap]. apply NoDup_cons.
      assert (Hsame : bh_of k' <$> l = bh_of k <$> l).
      { apply list_fmap_ext. intros ? j Hj%list_elem_of_lookup_2. apply bh_of_rstrip.
        rewrite H5, decide_False by set_solver. done. }
      rewrite Hsame. split; [|done]. intros (j & Ej & Hj)%list_elem_of_fmap.
      assert (bh_of k' i = Some bh) as Ebh.
      { specialize (H5 i). rewrite decide_True in H5 by done. unfold bh_of.
        destruct (requests k' !! i) as [r'|]; [|done]. apply (inj Some) in H5.
        by apply (rstrip_fields r' r) in H5 as (_ & _ & _ & ? & _). }
      rewrite Forall_forall in Hb. destruct (Hb j Hj) as [(x & y & z & X1 & X2 & X3 & X4 & _)].
      rewrite Ebh in Ej. unfold bh_of in Ej. rewrite X1 in Ej. cbn in Ej. rewrite X2 in Ej.
      injection Ej as ->. fold c in X3. simplify_eq.
Qed.
End make.

(** ** What ll_rw_block() does *)

(** The transfer that is asked for, and whether it may be forgotten. *)
Definition transfer (rw : Z) : Z := if rw =? READA then READ else if rw =? WRITEA then WRITE else rw.
Definition optional (rw : Z) : bool := (rw =? READA) || (rw =? WRITEA).
(** Nothing to transfer: a clean buffer, or one already read. *)
Definition up_to_date (rw : Z) (b : buffer_head) : bool :=
  (transfer rw =? WRITE) && negb (truth (b_dirt b)) ||
  (transfer rw =? READ) && truth (b_uptodate b).
Definition no_slot (rw : Z) (k : blk) : Prop :=
  forall j r, (j < limit (transfer rw))%nat -> requests k !! j = Some r -> 0 <= r_dev r.

Lemma transfer_cases rw : 0 <= rw <= 3 -> transfer rw = READ \/ transfer rw = WRITE.
Proof.
  intros H. assert (rw = 0 \/ rw = 1 \/ rw = 2 \/ rw = 3) as [->|[->|[->| ->]]] by lia; auto.
Qed.

Section spec.
Context {W : Type} (cl : lens W cache) (kl : lens W blk).
Context `{!LensOk cl, !LensOk kl, !Apart cl kl}.
Context (sleep_on wake_up : lens W (option nat) -> M W unit) (rq : Z -> M W unit).

Lemma make_request_head fuel major rw bh w b :
  bufs (lget cl w) !! bh = Some b -> b_lock b = 0 -> 0 <= rw <= 3 ->
  make_request cl kl sleep_on wake_up rq fuel major rw bh w =
    if up_to_date rw b then wake_up (comp cl (b_wait_l bh)) w
    else get_request cl kl sleep_on wake_up rq fuel major (transfer rw) (optional rw) bh
           (lset cl (touch (is_lock 1) bh (lget cl w)) w).
Proof.
  intros B L Hrw. unfold make_request. rewrite (fld_zoom cl _ _ _ _ _ B), L.
  fold (optional rw). rewrite andb_false_r. cbn [truth].
  assert (E : (if optional rw then (if rw =? READA then READ else WRITE) else rw) = transfer rw).
  { unfold optional, transfer. by destruct (Z.eqb_spec rw READA), (Z.eqb_spec rw WRITEA). }
  rewrite E.
  pose proof (transfer_cases rw Hrw) as Ht.
  assert (H2 : negb (transfer rw =? READ) && negb (transfer rw =? WRITE) = false)
    by (destruct Ht as [->| ->]; done).
  rewrite H2. rewrite (bind_ret _ _ _ _ _ (lock_buffer_run cl sleep_on fuel bh w b B L)).
  rewrite (fld_zoom cl _ _ _ _ (is_lock 1 b)) by (rewrite get_set; by apply touch_lookup).
  unfold id. cbn [b_dirt b_uptodate is_lock upd]. unfold up_to_date.
  destruct (_ || _); [|done]. by eapply relock_run.
Qed.

Lemma no_slot_find rw k major l :
  blk_inv k major l -> no_slot rw k -> find_free (limit (transfer rw)) k = Ret None k.
Proof.
  intros Hi Hno. destruct (find_free_run k (limit (transfer rw))) as (o & -> & Ho).
  { rewrite (i_len _ _ _ Hi). apply limit_le. }
  destruct o as [i|]; [|done]. destruct Ho as (Hlt & (r & E & Hd) & _).
  specialize (Hno i r Hlt E). lia.
Qed.

(** C12.  make_request() on an unlocked buffer.  With nothing to transfer the
    buffer is only unlocked again.  Otherwise it is locked; when no slot is
    free for the command the request is dropped if it is a read or write
    ahead, and the task sleeps and tries again if not; and when a slot is free,
    the request takes it and its place in the queue, never before the one
    being served: the queue keeps its invariant, by which the disk arm sweeps
    at most twice over it, and the driver is started exactly when it was
    idle. *)
Theorem make_request_spec fuel major rw bh w b l :
  io_inv (lget cl w) (lget kl w) major l -> bufs (lget cl w) !! bh = Some b -> b_lock b = 0 ->
  b_dev b <> 0 -> 0 <= b_blocknr b < 2 ^ 31 -> 0 <= rw <= 3 ->
  let call := make_request cl kl sleep_on wake_up rq (S fuel) major rw bh w in
  let locked := lset cl (touch (is_lock 1) bh (lget cl w)) w in
  (up_to_date rw b = true -> call = wake_up (comp cl (b_wait_l bh)) w) /\
  (up_to_date rw b = false -> no_slot rw (lget kl w) ->
     call = if optional rw then wake_up (comp cl (b_wait_l bh)) w
            else (sleep_on (comp kl wait_for_request_l) ;;
                  get_request cl kl sleep_on wake_up rq fuel major (transfer rw) false bh) locked) /\
  (up_to_date rw b = false -> ~ no_slot rw (lget kl w) ->
     exists i k' l',
       call = when (bool_decide (l = [])) (rq major)
                (lset kl k' (lset cl (submitted bh (lget cl w)) w)) /\
       io_inv (submitted bh (lget cl w)) k' major l' /\ l' ≡ₚ i :: l /\
       (l <> [] -> head l' = head l) /\
       (exists r, requests (lget kl w) !! i = Some r /\ r_dev r < 0 /\ (i < limit (transfer rw))%nat) /\
       (forall j r, (i < j < limit (transfer rw))%nat -> requests (lget kl w) !! j = Some r ->
          0 <= r_dev r) /\
       forall j, rstrip <$> requests k' !! j =
         if decide (j = i) then Some (new_request (transfer rw) bh b)
         else rstrip <$> requests (lget kl w) !! j).
Proof.
  intros Hio B L Hdev Hnr Hrw call locked. unfold call.
  rewrite (make_request_head _ _ _ _ _ _ B L Hrw). fold locked.
  pose proof (io_queue _ _ _ _ Hio) as Hinv. split_and!; intros Hu; rewrite Hu; [done|..].
  - intros Hno. pose proof (no_slot_find _ _ _ _ Hinv Hno) as Hf.
    cbn [get_request]. fold (limit (transfer rw)).
    rewrite bind_zoom_read with (a := None)
      by (apply _ || (unfold locked; by rewrite apart_get)).
    destruct (optional rw); [|done]. by eapply relock_run.
  - intros Hslot. destruct (find_free_run (lget kl w) (limit (transfer rw))) as (o & Hf & Ho).
    { rewrite (i_len _ _ _ Hinv). apply limit_le. }
    destruct o as [i|]; [|by destruct Hslot]. destruct Ho as (Hi & (r & Er & Hr) & Hlast).
    destruct (submit_run cl kl sleep_on wake_up rq fuel major (transfer rw) (optional rw) bh w b l i r)
      as (k' & l' & E & H1 & H2 & H3 & _ & H5); try done.
    { by apply transfer_cases. }
    exists i, k', l'. split_and!; eauto.
Qed.
End spec.

(** ** end_request() *)

(** wake_up() on a queue with head [o]. *)
Definition woken (o : option nat) (s : sched) : sched :=
  match o ≫= task_at s with
  | Some p => match o with
              | Some t => set_task t (p <| state := TASK_RUNNING |>) s
              | None => s
              end
  | None => s
  end.
(** The head of a wait queue is a task. *)
Definition sound (o : option nat) (s : sched) : Prop :=
  forall t, o = Some t -> is_Some (task_at s t).

Lemma woken_state o s t :
  sound o s ->
  state_of (woken o s) t = if decide (o = Some t) then Some TASK_RUNNING else state_of s t.
Proof.
  intros Hs. unfold woken. destruct o as [u|]; cbn; [|done].
  destruct (Hs u eq_refl) as [p E]. rewrite E. unfold state_of.
  rewrite task_at_set by eauto using task_at_lt. repeat case_decide; congruence || done.
Qed.
Lemma woken_sound o o' s : sound o s -> sound o' s -> sound o' (woken o s).
Proof.
  intros Ho Ho' t Ht. specialize (Ho' t Ht). unfold woken.
  destruct o as [u|]; cbn; [|done]. destruct (Ho u eq_refl) as [p E]. rewrite E.
  rewrite task_at_set by eauto using task_at_lt. case_decide; [by eexists|done].
Qed.
Lemma wake_up_run {W} (sl : lens W sched) `{!LensOk sl} (q : lens W (option nat)) w :
  lset q (lget q w) w = w -> sound (lget q w) (lget sl w) ->
  wake_up sl q w = Ret tt (lset q None (lset sl (woken (lget q w) (lget sl w)) w)).
Proof.
  intros Hq Hs. unfold wake_up, woken. rewrite bind_gets.
  destruct (lget q w) as [t|] eqn:E; cbn [mbind option_bind].
  - destruct (Hs t eq_refl) as [p Hp]. rewrite Hp.
    erewrite bind_zoom; [done|]. unfold set_state. rewrite bind_get, Hp. done.
  - by rewrite set_get, Hq.
Qed.

(** What the end of a request does to the buffer. *)
Definition finished (u : Z) (b : buffer_head) : buffer_head :=
  b <| b_uptodate := u |> <| b_lock := 0 |> <| b_wait := None |>.
(** The queue without its head, and nobody waiting for a request. *)
Definition popped (major : Z) (cur : nat) (k : blk) : blk :=
  k <| requests ::= alter (fun r => r <| r_dev := -1 |> <| waiting := None |>) cur |>
    <| wait_for_request := None |>
    <| blk_dev := match zget (blk_dev k) major with
                  | Some d => zset major (d <| current_request := (requests k !! cur) ≫= r_next |>) (blk_dev k)
                  | None => blk_dev k
                  end |>.

Lemma pop_run k major cur l :
  queue k major (cur :: l) ->
  pop_request major cur (k <| requests ::= alter (fun r => r <| waiting := None |>) cur |>
             <| wait_for_request := None |>) = Ret tt (popped major cur k).
Proof.
  intros [(d & Ed & Hd) Hl _]. pose proof Hl as [(r & Er & Nr) _]%linked_inv.
  unfold pop_request.
  erewrite bind_ret by (eapply setr_run; cbn; by rewrite list_lookup_alter_eq, Er).
  erewrite reqf_bind by (cbn; by rewrite !list_lookup_alter_eq, Er).
  unfold set_current. rewrite (devf_bind _ _ _ d) by done. unfold modify. f_equal.
  unfold popped. rewrite Ed, Er. destruct k as [rs wf bd]. cbn. f_equal.
  apply list_eq. intros j. rewrite !alter_lookup. case_decide; [|done].
  by destruct (rs !! j).
Qed.

(** What a driver does to the request it serves. *)
Definition serves (g : request -> request) : Prop := forall r,
  r_dev (g r) = r_dev r /\ cmd (g r) = cmd r /\ r_bh (g r) = r_bh r /\ r_next (g r) = r_next r /\
  waiting (g r) = waiting r.
Definition served (g : request -> request) (cur : nat) (k : blk) : blk :=
  k <| requests ::= alter g cur |>.

Lemma served_queue g cur k major l : serves g -> queue k major l -> queue (served g cur k) major l.
Proof.
  intros Hg [Hd Hl Hn]. split; [done| |done]. intros l1 i l2 E. destruct (Hl l1 i l2 E) as (r & Er & Nr).
  cbn. rewrite alter_lookup, Er. case_decide; eexists; split; [done| |done..].
  destruct (Hg r) as (_ & _ & _ & -> & _). done.
Qed.

Lemma popped_inv g k major cur l :
  serves g -> blk_inv k major (cur :: l) -> blk_inv (popped major cur (served g cur k)) major l.
Proof.
  intros Hg [[(d & Ed & Hc) Hl Hnd] Hlen Hbusy Hcmd Hruns].
  pose proof Hl as [(r & Er & Nr) Hl']%linked_inv. apply NoDup_cons in Hnd as [Hcur Hnd].
  assert (Hne : forall j, j <> cur ->
    requests (popped major cur (served g cur k)) !! j = requests k !! j).
  { intros j Hj. cbn. by rewrite !list_lookup_alter_ne. }
  assert (Heq : exists x, requests (popped major cur (served g cur k)) !! cur = Some x /\ r_dev x = -1).
  { cbn. rewrite !list_lookup_alter_eq, Er. by eexists. }
  split; [split| | | |].
  - cbn [popped served blk_dev upd requests]. rewrite Ed. eexists.
    split; [apply zget_zset_eq; by eapply zget_Some_range|]. cbn.
    rewrite list_lookup_alter_eq, Er. cbn. by destruct (Hg r) as (_ & _ & _ & -> & _).
  - eapply linked_frame; [|exact Hl']. intros j Hj. apply Hne. set_solver.
  - done.
  - cbn. by rewrite !length_alter.
  - intros i x E. destruct (decide (i = cur)) as [->|Hi].
    + destruct Heq as (y & Ey & Hy). rewrite Ey in E. injection E as <-. rewrite Hy. by split; [lia|].
    + rewrite Hne in E by done. rewrite (Hbusy _ _ E). set_solver.
  - intros i x E Hil. assert (i <> cur) by set_solver. rewrite Hne in E by done.
    apply (Hcmd _ _ E). set_solver.
  - rewrite (keys_ext (requests k)); [by apply two_runs_tail in Hruns|].
    intros j Hj. rewrite Hne; [done|set_solver].
Qed.

(** A change that is not to the place of the request on the disk. *)
Lemma served_inv g cur k major l :
  serves g -> (forall r, sector (g r) = sector r) -> blk_inv k major l ->
  blk_inv (served g cur k) major l.
Proof.
  intros Hg Hsec [Hq Hlen Hbusy Hcmd Hruns].
  assert (Hex : forall j x, requests (served g cur k) !! j = Some x -> exists y,
    requests k !! j = Some y /\ r_dev x = r_dev y /\ cmd x = cmd y /\ sector x = sector y).
  { intros j x. cbn. rewrite alter_lookup. case_decide; [|by eauto].
    destruct (requests k !! j) as [y|]; [|done]. intros [= <-]. exists y.
    destruct (Hg y) as (-> & -> & _). by rewrite Hsec. }
  split.
  - by apply served_queue.
  - cbn. by rewrite length_alter.
  - intros j x E. destruct (Hex j x E) as (y & Ey & -> & _). eauto.
  - intros j x E. destruct (Hex j x E) as (y & Ey & _ & -> & _). eauto.
  - rewrite (keys_ext (requests k)); [done|]. intros j Hj.
    destruct (requests (served g cur k) !! j) as [x|] eqn:E.
    + destruct (Hex j x E) as (y & Ey & H1 & H2 & H3). rewrite Ey. cbn. unfold key. by rewrite H1, H2, H3.
    + apply lookup_ge_None in E. cbn in E. rewrite length_alter in E.
      by rewrite (proj2 (lookup_ge_None _ _) E).
Qed.

Lemma served_io g c k major cur l :
  serves g -> (forall r, sector (g r) = sector r) -> io_inv c k major l ->
  io_inv c (served g cur k) major l.
Proof.
  intros Hg Hsec [H1 H2 [H3 H4]]. split; [done|by apply served_inv|].
  assert (Hbh : forall j, bh_of (served g cur k) j = bh_of k j).
  { intros j. unfold bh_of. cbn. rewrite alter_lookup. case_decide; [|done].
    destruct (requests k !! j) as [y|]; [|done]. cbn. by destruct (Hg y) as (_ & _ & -> & _). }
  split; [|by rewrite (list_fmap_ext _ (bh_of k))].
  rewrite Forall_forall in H3 |- *. intros i Hi.
  destruct (H3 i Hi) as [(r & bh & b & E1 & E2 & E3 & E4 & E5 & E6 & E7 & E8)].
  split. destruct (Hg r) as (G1 & _ & G3 & _). destruct (decide (cur = i)) as [->|Hne].
  - exists (g r), bh, b. rewrite G1, G3, Hsec. split_and!; try done; try lia.
    cbn. by rewrite alter_lookup, decide_True, E1.
  - exists r, bh, b. split_and!; try done; try lia. cbn. by rewrite alter_lookup, decide_False.
Qed.

(** The whole invariant once the head of the queue is done. *)
Lemma popped_io g u c k major cur l r bh :
  io_inv c k major (cur :: l) -> serves g -> requests k !! cur = Some r -> r_bh r = Some bh ->
  io_inv (touch (finished u) bh c) (popped major cur (served g cur k)) major l.
Proof.
  intros [Hok Hinv [Hb Hown]] Hg Er Eb.
  apply Forall_cons in Hb as [_ Hb]. cbn [fmap list_fmap] in Hown.
  apply NoDup_cons in Hown as [Hcur Hown]. pose proof (i_queue _ _ _ Hinv) as [_ _ Hnd].
  apply NoDup_cons in Hnd as [Hnl _].
  assert (Hne : forall j, j ∈ l -> requests (popped major cur (served g cur k)) !! j = requests k !! j).
  { intros j Hj. cbn. rewrite !list_lookup_alter_ne by set_solver. done. }
  split; [|by apply popped_inv|split].
  - apply touch_ok; try done. intros x (? & ? & ? & _ & ?). unfold valid. cbn. tauto.
  - rewrite Forall_forall in Hb |- *. intros j Hj. eapply backed_frame; [|..|by apply Hb].
    { by rewrite Hne. }
    intros bh' b' Ebh B'. rewrite touch_other; [done|]. intros ->. apply Hcur.
    apply list_elem_of_fmap. exists j. split; [|done]. rewrite Ebh. unfold bh_of. by rewrite Er.
  - erewrite list_fmap_ext; [exact Hown|]. intros ? j Hj%list_elem_of_lookup_2.
    unfold bh_of. by rewrite Hne.
Qed.

Section finish.
Context {W : Type} (sl : lens W sched) (cl : lens W cache) (kl : lens W blk).
Context `{!LensOk sl, !LensOk cl, !LensOk kl, !Apart sl cl, !Apart sl kl, !Apart cl kl}.

(** The state with the three parts replaced. *)
Definition parts (s : sched) (c : cache) (k : blk) (w : W) : W := lset sl s (lset cl c (lset kl k w)).

Lemma parts_self w : w = parts (lget sl w) (lget cl w) (lget kl w) w.
Proof. unfold parts. by rewrite !set_get. Qed.
Lemma parts_sl s c k w : lget sl (parts s c k w) = s.
Proof. apply get_set. Qed.
Lemma parts_cl s c k w : lget cl (parts s c k w) = c.
Proof. unfold parts. by rewrite apart_get, get_set. Qed.
Lemma parts_kl s c k w : lget kl (parts s c k w) = k.
Proof. unfold parts. by rewrite !apart_get, get_set. Qed.
Lemma set_sl s' s c k w : lset sl s' (parts s c k w) = parts s' c k w.
Proof. apply set_set. Qed.
Lemma set_cl c' s c k w : lset cl c' (parts s c k w) = parts s c' k w.
Proof. unfold parts. by rewrite <-(set_apart (l := sl)), set_set. Qed.
Lemma set_kl k' s c k w : lset kl k' (parts s c k w) = parts s c k' w.
Proof. unfold parts. by rewrite <-(set_apart (l := sl)), <-(set_apart (l := cl)), set_set. Qed.

Lemma wake_buffer_run s c k w bh b :
  bufs c !! bh = Some b -> sound (b_wait b) s ->
  wake_up sl (comp cl (b_wait_l bh)) (parts s c k w) =
    Ret tt (parts (woken (b_wait b) s) (touch (fun b => b <| b_wait := None |>) bh c) k w).
Proof.
  intros B Hs.
  assert (Hq : lget (comp cl (b_wait_l bh)) (parts s c k w) = b_wait b)
    by (cbn; by rewrite parts_cl, B).
  rewrite wake_up_run; [|apply _|..]; rewrite Hq, ?parts_sl; [|cbn|done].
  - cbn. by rewrite set_sl, parts_cl, set_cl.
  - rewrite parts_cl, set_cl. do 2 f_equal. destruct c as [bs ht fl bw n]. cbn in *. f_equal.
    apply list_eq. intros j. destruct (decide (j = bh)) as [->|].
    + rewrite list_lookup_alter_eq, B. by destruct b.
    + by rewrite list_lookup_alter_ne.
Qed.

Lemma wake_blk_run s c k w (q : lens blk (option nat)) :
  lset q (lget q k) k = k -> sound (lget q k) s ->
  wake_up sl (comp kl q) (parts s c k w) = Ret tt (parts (woken (lget q k) s) c (lset q None k) w).
Proof.
  intros Hq Hs.
  assert (Hg : lget (comp kl q) (parts s c k w) = lget q k) by (cbn; by rewrite parts_kl).
  rewrite wake_up_run; [|apply _|..]; rewrite Hg, ?parts_sl; [|cbn|done].
  - cbn. by rewrite set_sl, parts_kl, set_kl.
  - by rewrite parts_kl, set_kl, Hq.
Qed.

Lemma waiting_self cur r k :
  requests k !! cur = Some r -> lset (waiting_l cur) (lget (waiting_l cur) k) k = k.
Proof.
  intros E. cbn. rewrite E. destruct k as [rs wf bd]. cbn in *. f_equal. apply list_eq. intros j.
  rewrite alter_lookup. case_decide as H; [|done]. rewrite <-H, E. by destruct r.
Qed.

Lemma end_request_run major u w cur l r bh b :
  queue (lget kl w) major (cur :: l) -> requests (lget kl w) !! cur = Some r ->
  r_bh r = Some bh -> bufs (lget cl w) !! bh = Some b ->
  sound (b_wait b) (lget sl w) -> sound (waiting r) (lget sl w) ->
  sound (wait_for_request (lget kl w)) (lget sl w) ->
  end_request cl kl (fun q => wake_up sl q) major u w =
    Ret tt (parts
      (woken (wait_for_request (lget kl w)) (woken (waiting r) (woken (b_wait b) (lget sl w))))
      (touch (finished u) bh (lget cl w)) (popped major cur (lget kl w)) w).
Proof.
  intros Hq Er Hb B S1 S2 S3. pose proof (pop_run _ _ _ _ Hq) as Hpop.
  destruct Hq as [(d & Ed & Hd) _ _].
  set (s := lget sl w) in *. set (c := lget cl w) in *. set (k := lget kl w) in *.
  unfold end_request.
  rewrite bind_zoom_read with (a := d)
    by (apply _ || (unfold devf, bind, get, deref; fold k; by rewrite Ed)).
  rewrite Hd. cbn [head]. erewrite bind_deref by done.
  rewrite bind_zoom_read with (a := r)
    by (apply _ || (unfold reqf, bind, get, deref; fold k; by rewrite Er)).
  rewrite Hb.
  set (c1 := touch (fun b => b <| b_uptodate := u |>) bh c).
  set (c2 := touch (is_lock 0) bh c1).
  set (c3 := touch (fun b => b <| b_wait := None |>) bh c2).
  assert (B1 : bufs c1 !! bh = Some (b <| b_uptodate := u |>)) by (by apply touch_lookup).
  assert (B2 : bufs c2 !! bh = Some (is_lock 0 (b <| b_uptodate := u |>))) by (by apply touch_lookup).
  assert (B3 : bufs c3 !! bh = Some (finished u b)) by (by eapply (touch_lookup _ _ c2) in B2).
  assert (Hc : c3 = touch (finished u) bh c).
  { unfold c3, c2, c1, touch. cbn. f_equal. apply list_eq. intros j.
    destruct (decide (j = bh)) as [->|]; [by rewrite !list_lookup_alter_eq, B|].
    by rewrite !list_lookup_alter_ne. }
  assert (E1 : (zoom cl (setb bh (fun b => b <| b_uptodate := u |>)) ;;
    unlock_buffer cl (fun q => wake_up sl q) bh) w = Ret tt (parts (woken (b_wait b) s) c3 k w)).
  { erewrite bind_ret by (by apply (setb_zoom_run cl _ _ _ b)). fold c c1.
    rewrite (unlock_buffer_run cl _ _ _ (b <| b_uptodate := u |>)) by (by rewrite get_set).
    rewrite get_set, set_set. fold c2.
    replace (lset cl c2 w) with (parts s c2 k w)
      by (rewrite <-(set_cl c2 s c k w); unfold s, c, k; by rewrite <-parts_self).
    exact (wake_buffer_run s c2 k w bh _ B2 S1). }
  rewrite (bind_ret _ _ _ _ _ E1).
  set (w1 := parts (woken (b_wait b) s) c3 k w).
  assert (E2 : when (negb (truth u))
    (let! bh := deref (Some bh) in zoom cl (fld b_blocknr bh) ;; ret tt) w1 = Ret tt w1).
  { destruct (truth u); [done|]. cbn [when negb]. erewrite bind_deref by done.
    rewrite (fld_zoom cl _ _ _ _ (finished u b)); [done|]. unfold w1. by rewrite parts_cl. }
  rewrite (bind_ret _ _ _ _ _ E2). unfold w1.
  erewrite bind_ret by (apply wake_blk_run; [by eapply waiting_self|];
    cbn; rewrite Er; by apply woken_sound).
  erewrite bind_ret by (apply wake_blk_run; [by destruct k|]; cbn; rewrite Er;
    apply woken_sound; by apply woken_sound).
  unfold zoom. rewrite parts_kl.
  assert (Hpop' : pop_request major cur (lset wait_for_request_l None (lset (waiting_l cur) None k)) =
    Ret tt (popped major cur k)) by exact Hpop.
  rewrite Hpop', set_kl, <-Hc. cbn. by rewrite Er.
Qed.

(** end_request() on the queue of the driver, whatever the driver has
    done to the sector, the count, the address and the errors of the request
    it has served: the buffer is unlocked with the given [b_uptodate], the
    tasks at the head of the three wait queues can run again, the queues are
    empty, and the request leaves the queue, whose invariant holds for the
    rest of it. *)
Theorem end_request_spec major u w g k cur l r bh b :
  io_inv (lget cl w) k major (cur :: l) -> serves g -> lget kl w = served g cur k ->
  requests k !! cur = Some r -> r_bh r = Some bh -> bufs (lget cl w) !! bh = Some b ->
  sound (b_wait b) (lget sl w) -> sound (waiting r) (lget sl w) ->
  sound (wait_for_request k) (lget sl w) ->
  exists s' k', end_request cl kl (fun q => wake_up sl q) major u w =
      Ret tt (parts s' (touch (finished u) bh (lget cl w)) k' w) /\
    io_inv (touch (finished u) bh (lget cl w)) k' major l /\ wait_for_request k' = None /\
    (exists r', requests k' !! cur = Some r' /\ r_dev r' < 0) /\
    (forall j, j <> cur -> requests k' !! j = requests k !! j) /\
    forall t, state_of s' t =
      if decide (b_wait b = Some t \/ waiting r = Some t \/ wait_for_request k = Some t)
      then Some TASK_RUNNING else state_of (lget sl w) t.
Proof.
  intros Hio Hg Ek Er Eb B S1 S2 S3. pose proof (io_queue _ _ _ _ Hio) as Hinv.
  pose proof (Hg r) as (_ & _ & Gb & _ & Gw).
  assert (Er' : requests (lget kl w) !! cur = Some (g r))
    by (rewrite Ek; cbn; by rewrite list_lookup_alter_eq, Er).
  eexists _, _. split_and!.
  - apply (end_request_run major u w cur l (g r) bh b); try done.
    + rewrite Ek. apply served_queue; [done|apply Hinv].
    + by rewrite Gb.
    + by rewrite Gw.
    + by rewrite Ek.
  - rewrite Ek. by apply (popped_io _ _ _ _ _ _ _ r).
  - done.
  - rewrite Ek. cbn. rewrite !list_lookup_alter_eq, Er. cbn. by eexists.
  - intros j Hj. rewrite Ek. cbn. by rewrite !list_lookup_alter_ne.
  - rewrite Ek in *. cbn [wait_for_request served upd]. rewrite Gw. intros t.
    rewrite !woken_state by (try apply woken_sound; try apply woken_sound; done).
    repeat case_decide; tauto.
Qed.
End finish.


#[export] Instance snd_l_ok S T : LensOk (@snd_l S T).
Proof. split; [done|by intros []|done]. Qed.
#[export] Instance comp_apart {S T U V} (l : lens S T) (k : lens T U) (m : lens T V) :
  LensOk l -> Apart k m -> Apart (comp l k) (comp l m).
Proof.
  intros Hl Hk. split; cbn; intros.
  - by rewrite get_set, get_apart. - by rewrite get_set, apart_get.
  - by rewrite !get_set, !set_set, set_apart.
Qed.
#[export] Instance fst_snd_apart S T : Apart (@fst_l S T) (@snd_l S T).
Proof. by split. Qed.

(** A disk with nothing to do. *)
Definition free_request : request := Req (-1) 0 0 0 0 0 None None None.
Definition idle : blk :=
  Blk (replicate (Z.to_nat NR_REQUEST) free_request) None
    (replicate (Z.to_nat NR_BLK_DEV) (BlkDev true None)).

Lemma idle_inv c : ok c -> io_inv c idle 3 [].
Proof.
  intros H. split; [done| |by split; constructor]. split.
  - split; [by eexists|by intros [] ? ?|constructor].
  - done.
  - intros i r E. split; [|by intros ?%elem_of_nil]. apply lookup_replicate in E as [-> _]. done.
  - by intros i r _ ?%elem_of_nil.
  - exists [], []. repeat constructor.
Qed.

(** Three buffers, the first one of block 5 of the first partition. *)
Definition one_block : cache :=
  match getblk id_l (fun _ => ret tt) 1 0x301 5 three with Ret _ c => c | Stop _ c => c end.
Lemma one_block_ok : ok one_block.
Proof.
  destruct (getblk_miss id_l (fun _ => ret tt) 0 0x301 5 three [0; 1; 2]%nat (fun _ => [])
    0%nat ((fresh blank three_end 0) <| b_prev_free := Some 2%nat |>) [] [1; 2]%nat)
    as (c & ch & E & Hw & _).
  - apply three_wf.
  - done.
  - done.
  - intros j (b & B & Hd & _). destruct j as [|[|[|j]]]; [| | |discriminate B];
      injection B as <-; discriminate Hd.
  - exists [], [1; 2]%nat. split_and!; [done|done| |].
    + intros j Hj. inversion Hj.
    + intros j Hj _. vm_compute in Hj. destruct j as [|[|[|j]]]; vm_compute; discriminate.
  - done.
  - done.
  - done.
  - unfold one_block. rewrite E. by eexists _, _.
Qed.

Lemma one_block_buf : exists b, bufs one_block !! 0%nat = Some b /\ b_lock b = 0 /\
  b_dev b = 0x301 /\ b_blocknr b = 5 /\ b_uptodate b = 0 /\ b_wait b = None.
Proof.
  assert (H : (fun b => (b_lock b, b_dev b, b_blocknr b, b_uptodate b, b_wait b)) <$>
    bufs one_block !! 0%nat = Some (0, 0x301, 5, 0, None)) by (vm_compute; reflexivity).
  destruct (bufs one_block !! 0%nat) as [b|]; [|discriminate H].
  injection H as ? ? ? ? ?. eauto 10.
Qed.

Lemma idle_slot : ~ no_slot READA idle.
Proof.
  intros H. specialize (H 0%nat free_request). vm_compute in H. apply H; [lia|done|done].
Qed.

#[local] Opaque one_block.

(** The driver of the example only counts the calls. *)
Example make_request_spec_witness :
  exists k' l',
    make_request (comp fst_l fst_l) (comp fst_l snd_l) (fun _ => ret tt) (fun _ => ret tt)
        (fun _ => modify (fun w => (fst w, Z.succ (snd w)))) 1 3 READA 0 ((one_block, idle), 0) =
      Ret tt ((submitted 0 one_block, k'), 1) /\
    io_inv (submitted 0 one_block) k' 3 l' /\ l' ≡ₚ [31%nat].
Proof.
  destruct one_block_buf as (b & B & L & D & N & U & _).
  pose proof (make_request_spec (comp fst_l fst_l) (comp fst_l snd_l) (fun _ => ret tt)
    (fun _ => ret tt) (fun _ => modify (fun w => (fst w, Z.succ (snd w)))) 0 3 READA 0
    ((one_block, idle), 0) b [] (idle_inv _ one_block_ok) B L) as H.
  feed H; [by rewrite D|]. feed H; [by rewrite N|]. feed H; [done|].
  destruct H as (_ & _ & H). feed H; [unfold up_to_date; by rewrite U|].
  feed H; [apply idle_slot|].
  destruct H as (i & k' & l' & E & Hio & HP & _ & (r & _ & _ & Hi) & Hlast & _).
  exists k', l'. split; [exact E|]. split; [exact Hio|].
  assert (i = 31%nat) as ->; [|exact HP].
  change (i < 32)%nat in Hi. destruct (decide (i < 31)%nat) as [Hlt|]; [|lia].
  specialize (Hlast 31%nat free_request). feed Hlast; [change (i < 31 < 32)%nat; lia|].
  feed Hlast; [reflexivity|]. by destruct Hlast.
Defined.

#[export] Instance snd_comp_apart {S T U} (l : lens S U) : Apart (@snd_l S T) (comp fst_l l).
Proof. by split. Qed.

(** The request of the last example, queued and then ended. *)
Lemma one_queued rw i : rw = READ /\ i = 31%nat \/ rw = WRITE /\ i = 20%nat ->
  exists k r b,
  io_inv (submitted 0 one_block) k 3 [i] /\ requests k !! i = Some r /\
  r_bh r = Some 0%nat /\ waiting r = None /\ wait_for_request k = None /\
  bufs (submitted 0 one_block) !! 0%nat = Some b /\ b_wait b = None /\
  r_dev r = 0x301 /\ cmd r = rw /\ sector r = 10 /\ nr_sectors r = 2 /\ buffer r = b_data b /\
  errors r = 0.
Proof.
  intros Hrw. destruct one_block_buf as (b & B & L & D & N & U & V).
  destruct (submit_run fst_l snd_l (fun _ => ret tt) (fun _ => ret tt) (fun _ => ret tt) 0 3 rw
    false 0 (one_block, idle) b [] i free_request) as (k' & l' & _ & H1 & H2 & _ & H4 & H5).
  - by apply idle_inv, one_block_ok.
  - done.
  - done.
  - by rewrite D.
  - by rewrite N.
  - destruct Hrw as [[-> _]|[-> _]]; auto.
  - by destruct Hrw as [[-> ->]|[-> ->]].
  - by destruct Hrw as [[-> ->]|[-> ->]].
  - done.
  - destruct Hrw as [[-> ->]|[-> ->]]; [change (31 < 32)%nat|change (20 < 21)%nat]; lia.
  - apply Permutation_singleton_r in H2 as ->. specialize (H5 i).
    rewrite decide_True in H5 by done.
    destruct (requests k' !! i) as [r|] eqn:Er; [|done]. apply (inj Some) in H5.
    apply (rstrip_fields r (new_request rw 0 b)) in H5 as (H5 & H6 & H7 & Hb & Hw & H8 & H9 & He).
    exists k', r, (is_dirt 0 (is_lock 1 b)). rewrite H5, H6, H7, H8, H9, He.
    cbn [r_dev cmd sector nr_sectors buffer errors new_request]. rewrite D, N.
    split_and!; try done. by do 2 apply touch_lookup.
Qed.

Example end_request_spec_witness :
  exists k s' k',
    end_request (comp fst_l fst_l) (comp fst_l snd_l) (fun q => wake_up snd_l q) 3 1
        ((submitted 0 one_block, k), two_tasks) =
      Ret tt ((touch (finished 1) 0 (submitted 0 one_block), k'), s') /\
    io_inv (touch (finished 1) 0 (submitted 0 one_block)) k' 3 [].
Proof.
  destruct (one_queued READ 31) as (k & r & b & Hio & Er & Eb & Ew & Hw & B & Bw & _); [by left|].
  destruct (end_request_spec snd_l (comp fst_l fst_l) (comp fst_l snd_l) 3 1
    ((submitted 0 one_block, k), two_tasks) id k 31 [] r 0 b Hio) as (s' & k' & E & H & _).
  - by intros x.
  - destruct k as [rs wf bd]. unfold served. cbn. f_equal. apply list_eq. intros j.
    rewrite alter_lookup. case_decide; [|done]. by destruct (rs !! j).
  - exact Er.
  - exact Eb.
  - exact B.
  - rewrite Bw. by intros t.
  - rewrite Ew. by intros t.
  - rewrite Hw. by intros t.
  - by exists k, s', k'.
Defined.
