(* ===== verification/Hd.v ===== *)
(** * The hard disk driver: drivers/block/hardisk/hd.c

    The controller is not part of the kernel: class [Disk] has what the code
    does with it, the four kinds of port access, and class [DiskOk] what the
    code relies on, the documented behaviour of an ATA drive without errors.
    The memory that a transfer reads or fills is the block of a buffer, found
    by its address.  A request function or an interrupt handler is named by a
    value of [handler].  The messages that the code prints are left out. *)

From S2P Require Import Prelude Task Sched WaitQ Block Buffer Blk.

Definition MAJOR_NR : Z := 3.
Definition MAX_ERRORS : Z := 7.
Definition MAX_HD : Z := 2.

Definition HD_DATA : Z := 0x1f0.
Definition HD_ERROR : Z := 0x1f1.
Definition HD_STATUS : Z := 0x1f7.
Definition HD_CMD : Z := 0x3f6.

Definition ERR_STAT : Z := 0x01.
Definition DRQ_STAT : Z := 0x08.
Definition SEEK_STAT : Z := 0x10.
Definition WRERR_STAT : Z := 0x20.
Definition READY_STAT : Z := 0x40.
Definition BUSY_STAT : Z := 0x80.

Definition WIN_RESTORE : Z := 0x10.
Definition WIN_READ : Z := 0x20.
Definition WIN_WRITE : Z := 0x30.
Definition WIN_SPECIFY : Z := 0x91.

Record hd_struct := HdStruct { start_sect : Z; nr_sects : Z }.
Record hd_i_struct := HdInfo { head : Z; sect : Z; cyl : Z; wpcom : Z; lzone : Z; ctl : Z }.

(** The functions that [do_hd] points to. *)
Inductive handler := Recal_intr | Read_intr | Write_intr.

Record driver := Driver {
  hd : list hd_struct;
  hd_info : list hd_i_struct;
  NR_HD : Z;
  recalibrate : Z;
  reset : Z;
  do_hd : option handler;
  callable : Z
}.
(** The geometry of a drive, from the bytes that the BIOS left at [p]. *)
Definition bios_info (BIOS : Z -> Z) (p : Z) (h : hd_i_struct) : hd_i_struct :=
  HdInfo (BIOS (2 + p)) (BIOS (14 + p)) (at16 BIOS p) (at16 BIOS (5 + p))
    (at16 BIOS (12 + p)) (BIOS (8 + p)).
#[export] Instance eta_driver : Eta driver := fun d =>
  Driver (hd d) (hd_info d) (NR_HD d) (recalibrate d) (reset d) (do_hd d) (callable d).

(** Port accesses of the controller: [inb], [outb], [insw] and [outsw]. *)
Class Disk (D : Type) := {
  d_inb : Z -> D -> Z * D;
  d_outb : Z -> Z -> D -> D;
  d_insw : Z -> nat -> D -> list Z * D;
  d_outsw : Z -> list Z -> D -> D
}.

(** The parts of the system that the driver works on. *)
Record machine (D : Type) := Machine {
  m_sched : sched; m_cache : cache; m_blk : blk; m_driver : driver; m_disk : D
}.
Arguments Machine {D}. Arguments m_sched {D}. Arguments m_cache {D}. Arguments m_blk {D}.
Arguments m_driver {D}. Arguments m_disk {D}.
#[export] Instance eta_machine D : Eta (machine D) := fun m =>
  Machine (m_sched m) (m_cache m) (m_blk m) (m_driver m) (m_disk m).

Definition sched_l {D} : lens (machine D) sched := Lens m_sched (fun s m => m <| m_sched := s |>).
Definition cache_l {D} : lens (machine D) cache := Lens m_cache (fun c m => m <| m_cache := c |>).
Definition blk_l {D} : lens (machine D) blk := Lens m_blk (fun k m => m <| m_blk := k |>).
Definition driver_l {D} : lens (machine D) driver := Lens m_driver (fun d m => m <| m_driver := d |>).
Definition disk_l {D} : lens (machine D) D := Lens m_disk (fun d m => m <| m_disk := d |>).

(** ** The memory of a transfer *)

Definition in_block (a n : Z) (b : buffer_head) : Prop :=
  b_data b <= a /\ a + n <= b_data b + BLOCK_SIZE.
#[export] Instance in_block_dec a n b : Decision (in_block a n b).
Proof. unfold in_block. apply _. Defined.
Definition block_at (a n : Z) : M cache nat :=
  let! c := get in
  let! r := deref (list_find (in_block a n) (bufs c)) in
  ret (fst r).
Definition splice (off : nat) (new l : list Z) : list Z :=
  take off l ++ new ++ drop (off + length new) l.

(** [port_read] and [port_write], the memory side of them. *)
Definition poke (a : Z) (new : list Z) : M cache unit :=
  let! i := block_at a (Z.of_nat (length new)) in
  setb i (fun b => b <| b_bytes ::= splice (Z.to_nat (a - b_data b)) new |>).
Definition peek (a : Z) (n : nat) : M cache (list Z) :=
  let! i := block_at a (Z.of_nat n) in
  let! b := fld id i in
  ret (take n (drop (Z.to_nat (a - b_data b)) (b_bytes b))).

Section driver.
Context {D : Type} `{!Disk D}.
Notation MM := (M (machine D)).

Definition inb (port : Z) : MM Z :=
  zoom disk_l (fun d => let '(v, d') := d_inb port d in Ret (u8 v) d').
Definition outb (value port : Z) : MM unit :=
  zoom disk_l (modify (d_outb port (u8 value))).

Definition port_read (port a : Z) (nr : nat) : MM unit :=
  let! l := zoom disk_l (fun d => let '(l, d') := d_insw port nr d in Ret l d') in
  zoom cache_l (poke a l).
Definition port_write (port a : Z) (nr : nat) : MM unit :=
  let! l := zoom cache_l (peek a (2 * nr)) in
  zoom disk_l (modify (d_outsw port l)).

Definition CURRENT : MM (option nat) :=
  zoom blk_l (let! d := devf MAJOR_NR in ret (current_request d)).
(** [CURRENT->...] *)
Definition current_req : MM request :=
  let! p := CURRENT in
  let! i := deref p in
  zoom blk_l (reqf i).
Definition set_req (g : request -> request) : MM unit :=
  let! p := CURRENT in
  let! i := deref p in
  zoom blk_l (setr i g).

Definition drv {A} (f : driver -> A) : MM A := gets (fun m => f (m_driver m)).
Definition set_drv (f : driver -> driver) : MM unit := zoom driver_l (modify f).
Definition info (drive : Z) : MM hd_i_struct :=
  let! l := drv hd_info in deref (zget l drive).

(** [for (i = 0; i < 10000; i++)] *)
Fixpoint drive_wait (n : nat) : MM unit :=
  match n with
  | O => ret tt
  | S n' =>
      let! v := inb HD_STATUS in
      if READY_STAT =? Z.land v (Z.lor BUSY_STAT READY_STAT) then ret tt else drive_wait n'
  end.
Definition drive_busy : MM Z :=
  drive_wait (Z.to_nat 10000) ;;
  let! i := inb HD_STATUS in
  let i := Z.land i (Z.lor (Z.lor BUSY_STAT READY_STAT) SEEK_STAT) in
  ret (if i =? Z.lor READY_STAT SEEK_STAT then 0 else 1).

Definition reset_controller : MM unit :=
  outb 4 HD_CMD ;;
  let! h := info 0 in
  outb (Z.land (ctl h) 0x0f) HD_CMD ;;
  drive_busy ;;
  inb HD_ERROR ;;
  ret tt.

Definition win_result : MM Z :=
  let! i := inb HD_STATUS in
  if Z.land i (Z.lor (Z.lor (Z.lor (Z.lor BUSY_STAT READY_STAT) WRERR_STAT) SEEK_STAT) ERR_STAT)
      =? Z.lor READY_STAT SEEK_STAT
  then ret 0
  else when (truth (Z.land i 1)) (inb HD_ERROR ;; ret tt) ;; ret 1.

Definition end_request (uptodate : Z) : MM unit :=
  Blk.end_request cache_l blk_l (fun q => wake_up sched_l q) MAJOR_NR uptodate.

Definition bad_rw_intr : MM unit :=
  set_req (fun r => r <| errors ::= fun n => s32 (n + 1) |>) ;;
  let! r := current_req in
  when (MAX_ERRORS <=? errors r) (end_request 0) ;;
  let! r := current_req in
  when (MAX_ERRORS / 2 <? errors r) (set_drv (fun d => d <| reset := 1 |>)).

(** [while (--retries && (inb_p(HD_STATUS)&0x80))] *)
Fixpoint ready_loop (retries : nat) : MM Z :=
  match retries with
  | O | S O => ret 0
  | S n =>
      let! v := inb HD_STATUS in
      if truth (Z.land v 0x80) then ready_loop n else ret (Z.of_nat n)
  end.
Definition controller_ready : MM Z := ready_loop (Z.to_nat 100000).

Definition hd_out (drive nsect sect head cyl cmd : Z) (intr_addr : handler) : MM unit :=
  if (1 <? drive) || (15 <? head) then halt (Panic "Trying to write bad sector")
  else
    let! r := controller_ready in
    if negb (truth r) then halt (Panic "HD controller not ready")
    else
      set_drv (fun d => d <| do_hd := Some intr_addr |>) ;;
      let! h := info drive in
      outb (ctl h) HD_CMD ;;
      outb (Z.shiftr (wpcom h) 2) (HD_DATA + 1) ;;
      outb nsect (HD_DATA + 2) ;;
      outb sect (HD_DATA + 3) ;;
      outb cyl (HD_DATA + 4) ;;
      outb (Z.shiftr cyl 8) (HD_DATA + 5) ;;
      outb (Z.lor (Z.lor 0xA0 (Z.shiftl drive 4)) head) (HD_DATA + 6) ;;
      outb cmd (HD_DATA + 7).

Definition reset_hd (nr : Z) : MM unit :=
  reset_controller ;;
  let! h := info nr in
  hd_out nr (sect h) (sect h) (u32 (head h - 1)) (cyl h) WIN_SPECIFY Recal_intr.

(** [divl]: quotient and remainder, an exception when the divisor is 0. *)
Definition divl (a b : Z) : MM (Z * Z) :=
  if u32 b =? 0 then halt Fault else ret (a / u32 b, a mod u32 b).

(** [for(i=0 ; i<3000 && !(r=inb_p(HD_STATUS)&DRQ_STAT) ; i++)] *)
Fixpoint drq_wait (n : nat) : MM Z :=
  match n with
  | O => ret 0
  | S n' =>
      let! v := inb HD_STATUS in
      let r := Z.land v DRQ_STAT in
      if truth r then ret r else drq_wait n'
  end.

Fixpoint do_hd_request (fuel : nat) : MM unit :=
  let! p := CURRENT in
  match p with
  | None => ret tt
  | Some cur =>
      match fuel with
      | O => halt NoFuel
      | S fuel' =>
          let! r := zoom blk_l (reqf cur) in
          let dev := MINOR (r_dev r) in
          let block := sector r in
          let! n := drv NR_HD in
          let! tbl := drv hd in
          let! bad :=
            if u32 (5 * n) <=? dev then ret true
            else let! part := deref (zget tbl dev) in
                 ret (u32 (nr_sects part) <? u32 (block + 2)) in
          if bad : bool then end_request 0 ;; do_hd_request fuel'
          else
            let! part := deref (zget tbl dev) in
            let block := u32 (block + start_sect part) in
            let dev := dev / 5 in
            let! h := info dev in
            let! (block, sec) := divl block (sect h) in
            let! (cyl, head) := divl block (head h) in
            let sec := u32 (sec + 1) in
            let nsect := nr_sectors r in
            let! rst := drv reset in
            let! rec := drv recalibrate in
            if truth rst then
              set_drv (fun d => d <| reset := 0 |> <| recalibrate := 1 |>) ;;
              reset_hd dev
            else if truth rec then
              set_drv (fun d => d <| recalibrate := 0 |>) ;;
              hd_out dev (sect h) 0 0 0 WIN_RESTORE Recal_intr
            else if cmd r =? WRITE then
              hd_out dev nsect sec head cyl WIN_WRITE Write_intr ;;
              let! drq := drq_wait (Z.to_nat 3000) in
              if negb (truth drq) then bad_rw_intr ;; do_hd_request fuel'
              else
                let! r := current_req in
                port_write HD_DATA (buffer r) 256
            else if cmd r =? READ then
              hd_out dev nsect sec head cyl WIN_READ Read_intr
            else halt (Panic "unknown hd-command")
      end
  end.

Definition recal_intr (fuel : nat) : MM unit :=
  let! bad := win_result in
  when (truth bad) bad_rw_intr ;;
  do_hd_request fuel.

Definition write_intr (fuel : nat) : MM unit :=
  let! bad := win_result in
  if truth bad then bad_rw_intr ;; do_hd_request fuel
  else
    set_req (fun r => r <| nr_sectors ::= fun n => u32 (n - 1) |>) ;;
    let! r := current_req in
    if truth (nr_sectors r) then
      set_req (fun r => r <| sector ::= fun n => u32 (n + 1) |>) ;;
      set_req (fun r => r <| buffer ::= Z.add 512 |>) ;;
      set_drv (fun d => d <| do_hd := Some Write_intr |>) ;;
      let! r := current_req in
      port_write HD_DATA (buffer r) 256
    else end_request 1 ;; do_hd_request fuel.

Definition read_intr (fuel : nat) : MM unit :=
  let! bad := win_result in
  if truth bad then bad_rw_intr ;; do_hd_request fuel
  else
    let! r := current_req in
    port_read HD_DATA (buffer r) 256 ;;
    set_req (fun r => r <| errors := 0 |>) ;;
    set_req (fun r => r <| buffer ::= Z.add 512 |>) ;;
    set_req (fun r => r <| sector ::= fun n => u32 (n + 1) |>) ;;
    set_req (fun r => r <| nr_sectors ::= fun n => u32 (n - 1) |>) ;;
    let! r := current_req in
    if truth (nr_sectors r) then set_drv (fun d => d <| do_hd := Some Read_intr |>)
    else end_request 1 ;; do_hd_request fuel.

(** hd_interrupt of arch/x86/asm/system_call.S: what it calls. *)
Definition hd_interrupt (fuel : nat) : MM unit :=
  let! h := drv do_hd in
  set_drv (fun d => d <| do_hd := None |>) ;;
  match h with
  | Some Recal_intr => recal_intr fuel
  | Some Read_intr => read_intr fuel
  | Some Write_intr => write_intr fuel
  | None => ret tt
  end.

(** The first line of hd_init(), which is in Init.v. *)
Definition hd_register : MM unit :=
  let! d := zoom blk_l (devf MAJOR_NR) in
  zoom blk_l (modify (fun k => k <| blk_dev ::= zset MAJOR_NR (d <| request_fn := true |>) |>)).
End driver.

(** ** The documented behaviour of the drives

    [media d drive lba] is the contents of a sector, [tf d i] register [i] of
    the task file, [delay d] the number of times that the status will still
    read busy, [ph d] the data phase: sectors that are still to be
    transferred, from [lba] on.  [heads] and [spt] is the geometry. *)

Inductive phase :=
| Idle
| Reading (drive lba : Z) (n : nat)
| Writing (drive lba : Z) (n : nat).
#[export] Instance phase_eq_dec : EqDecision phase.
Proof. solve_decision. Defined.

Definition tf_lba (heads spt : Z -> Z) (t : Z -> Z) : Z :=
  let drive := Z.b2z (Z.testbit (t 6) 4) in
  ((t 5 * 256 + t 4) * heads drive + Z.land (t 6) 15) * spt drive + t 3 - 1.
Definition tf_drive (t : Z -> Z) : Z := Z.b2z (Z.testbit (t 6) 4).

Definition next_phase (mk : Z -> Z -> nat -> phase) (drive lba : Z) (n : nat) : phase :=
  match n with O => Idle | S _ => mk drive (lba + 1) n end.

Class DiskOk (D : Type) `{!Disk D} (heads spt : Z -> Z) := {
  media : D -> Z -> Z -> list Z;
  tf : D -> Z -> Z;
  ph : D -> phase;
  delay : D -> nat;
  keeps (d d' : D) : Prop :=
    ph d' = ph d /\ (forall i, tf d' i = tf d i) /\ forall a b, media d' a b = media d a b;
  status_busy d n : delay d = S n -> exists v d', d_inb HD_STATUS d = (v, d') /\ 0 <= v < 256 /\
    Z.testbit v 7 = true /\ Z.testbit v 3 = false /\ delay d' = n /\ keeps d d';
  status_ready d : delay d = O -> exists v d', d_inb HD_STATUS d = (v, d') /\ 0 <= v < 256 /\
    Z.land v 0xf1 = 0x50 /\ Z.testbit v 3 = bool_decide (ph d <> Idle) /\
    delay d' = O /\ keeps d d';
  control d v : Z.testbit v 2 = false -> keeps d (d_outb HD_CMD v d) /\
    delay (d_outb HD_CMD v d) = delay d;
  register d i v : delay d = O -> 1 <= i <= 6 -> 0 <= v < 256 ->
    let d' := d_outb (HD_DATA + i) v d in
    ph d' = ph d /\ delay d' = O /\ (forall a b, media d' a b = media d a b) /\
    forall j, tf d' j = if decide (j = i) then v else tf d j;
  command d rw : delay d = O -> ph d = Idle -> 1 <= tf d 2 -> rw = WIN_READ \/ rw = WIN_WRITE ->
    let d' := d_outb (HD_DATA + 7) rw d in
    ph d' = (if rw =? WIN_READ then Reading else Writing)
              (tf_drive (tf d)) (tf_lba heads spt (tf d)) (Z.to_nat (tf d 2)) /\
    (delay d' < 3000)%nat /\ (forall a b, media d' a b = media d a b);
  data_in d drive lba n : delay d = O -> ph d = Reading drive lba (S n) ->
    exists d', d_insw HD_DATA 256 d = (media d drive lba, d') /\
      length (media d drive lba) = 512%nat /\ ph d' = next_phase Reading drive lba n /\
      (delay d' < 3000)%nat /\ (forall a b, media d' a b = media d a b);
  data_out d drive lba n l : delay d = O -> ph d = Writing drive lba (S n) -> length l = 512%nat ->
    let d' := d_outsw HD_DATA l d in
    ph d' = next_phase Writing drive lba n /\ (delay d' < 3000)%nat /\
    forall a b, media d' a b = if decide (a = drive /\ b = lba) then l else media d a b
}.

(** ** Addresses *)

(** Cylinder, head and sector as do_hd_request() computes them are those of
    the sector number. *)
Lemma chs_lba heads spt block :
  0 < heads -> 0 < spt ->
  (block / spt / heads * heads + (block / spt) mod heads) * spt + (block mod spt + 1) - 1 = block.
Proof.
  intros Hh Hs.
  pose proof (Z.div_mod (block / spt) heads ltac:(lia)).
  pose proof (Z.div_mod block spt ltac:(lia)).
  replace (block / spt / heads * heads + (block / spt) mod heads) with (block / spt) by lia. lia.
Qed.

(** The drive and head register. *)
Lemma drive_head drive head :
  0 <= drive <= 1 -> 0 <= head <= 15 ->
  let v := Z.lor (Z.lor 0xA0 (Z.shiftl drive 4)) head in
  0 <= v < 256 /\ Z.land v 15 = head /\ Z.b2z (Z.testbit v 4) = drive.
Proof.
  intros Hd Hh v.
  assert (Hall : forallb (fun d => forallb (fun h =>
    let v := Z.lor (Z.lor 0xA0 (Z.shiftl d 4)) h in
    (0 <=? v) && (v <? 256) && (Z.land v 15 =? h) && (Z.b2z (Z.testbit v 4) =? d))
    (seqZ 0 16)) (seqZ 0 2) = true) by reflexivity.
  rewrite forallb_forall in Hall. specialize (Hall drive). feed Hall.
  { apply list_elem_of_In, elem_of_seqZ. lia. }
  rewrite forallb_forall in Hall. specialize (Hall head). feed Hall.
  { apply list_elem_of_In, elem_of_seqZ. lia. }
  unfold v. zb. cbn zeta in Hall. apply andb_true_iff in Hall as [Hall H4].
  apply andb_true_iff in Hall as [Hall H3]. apply andb_true_iff in Hall as [H1 H2]. zb. lia.
Qed.

(** ** Blocks in memory *)

(** The blocks do not overlap, as buffer_init() leaves them. *)
Definition apart_blocks (c : cache) : Prop := forall i j b b',
  bufs c !! i = Some b -> bufs c !! j = Some b' -> i <> j ->
  b_data b + BLOCK_SIZE <= b_data b' \/ b_data b' + BLOCK_SIZE <= b_data b.

Lemma block_at_run a n bh b c :
  apart_blocks c -> bufs c !! bh = Some b -> in_block a n b -> 0 < n -> block_at a n c = Ret bh c.
Proof.
  intros Ha B Hin Hn. unfold block_at. rewrite bind_get.
  assert (E : list_find (in_block a n) (bufs c) = Some (bh, b)).
  { apply list_find_Some. split_and!; [done|done|]. intros j y Ey Hj Hin'.
    unfold in_block in *. destruct (Ha j bh y b Ey B); lia. }
  by rewrite E.
Qed.
Lemma poke_run a new bh b c :
  apart_blocks c -> bufs c !! bh = Some b -> in_block a (Z.of_nat (length new)) b -> new <> [] ->
  poke a new c =
    Ret tt (touch (fun b => b <| b_bytes ::= splice (Z.to_nat (a - b_data b)) new |>) bh c).
Proof.
  intros Ha B Hin Hn. unfold poke.
  rewrite (bind_ret _ _ _ _ _ (block_at_run _ _ _ _ _ Ha B Hin ltac:(destruct new; cbn; done || lia))).
  by rewrite (setb_run _ _ _ _ B).
Qed.
Lemma peek_run a n bh b c :
  apart_blocks c -> bufs c !! bh = Some b -> in_block a (Z.of_nat n) b -> (0 < n)%nat ->
  peek a n c = Ret (take n (drop (Z.to_nat (a - b_data b)) (b_bytes b))) c.
Proof.
  intros Ha B Hin Hn. unfold peek.
  rewrite (bind_ret _ _ _ _ _ (block_at_run _ _ _ _ _ Ha B Hin ltac:(lia))).
  by rewrite (fld_bind _ _ _ _ _ B).
Qed.
Lemma touch_apart g bh c :
  (forall b, b_data (g b) = b_data b) -> apart_blocks c -> apart_blocks (touch g bh c).
Proof.
  intros Hg Ha i j b b' Bi Bj Hij.
  assert (Hex : forall i b, bufs (touch g bh c) !! i = Some b ->
    exists b0, bufs c !! i = Some b0 /\ b_data b = b_data b0).
  { intros x y E. destruct (decide (x = bh)) as [->|Hx].
    - cbn in E. rewrite list_lookup_alter_eq in E. destruct (bufs c !! bh) as [b0|]; [|done].
      injection E as <-. exists b0. split; [done|apply Hg].
    - rewrite touch_other in E by done. eauto. }
  destruct (Hex _ _ Bi) as (x & Ex & ->), (Hex _ _ Bj) as (y & Ey & ->). by eapply Ha.
Qed.

(** ** The controller *)

Section controller.
Context {D : Type} `{!Disk D} (heads spt : Z -> Z) `{!DiskOk D heads spt}.
Implicit Types (s : sched) (c : cache) (k : blk) (v : driver) (d : D).

Lemma keeps_trans d1 d2 d3 : keeps d1 d2 -> keeps d2 d3 -> keeps d1 d3.
Proof.
  intros (P1 & T1 & M1) (P2 & T2 & M2). split_and!; intros; [congruence|by rewrite T2|by rewrite M2].
Qed.
Lemma keeps_refl d : keeps d d.
Proof. by split_and!. Qed.

Lemma inb_run port s c k v d x d' :
  d_inb port d = (x, d') -> 0 <= x < 256 ->
  inb port (Machine s c k v d) = Ret x (Machine s c k v d').
Proof. intros E Hx. unfold inb, zoom. cbn. rewrite E. by rewrite u8_small. Qed.

Lemma bit_of_land x n : 0 <= n -> truth (Z.land x (Z.shiftl 1 n)) = Z.testbit x n.
Proof.
  intros Hn. unfold truth. destruct (Z.eqb_spec (Z.land x (Z.shiftl 1 n)) 0) as [E|E].
  - symmetry. by apply bit_land_shiftl1.
  - destruct (Z.testbit x n) eqn:Eb; [done|]. apply bit_land_shiftl1 in Eb; [done|lia].
Qed.
Lemma not_busy x : Z.land x 0xf1 = 0x50 -> Z.testbit x 7 = false.
Proof.
  intros H. assert (E : Z.testbit (Z.land x 0xf1) 7 = false) by (by rewrite H).
  rewrite Z.land_spec in E. by rewrite andb_true_r in E.
Qed.

(** Polling until the controller is ready. *)
Lemma ready_loop_run s c k v n : forall d, (delay d + 1 < n)%nat ->
  exists r d', ready_loop n (Machine s c k v d) = Ret r (Machine s c k v d') /\
    r <> 0 /\ delay d' = O /\ keeps d d'.
Proof.
  induction n as [|[|n] IH]; intros d Hd; [lia..|].
  destruct (delay d) as [|m] eqn:Em; cbn [ready_loop].
  - destruct (status_ready d Em) as (x & d' & E & Hx & Hs & _ & Hdel & Hk).
    rewrite (bind_ret _ _ _ _ _ (inb_run _ _ _ _ _ _ _ _ E Hx)).
    change 0x80 with (Z.shiftl 1 7). rewrite bit_of_land, (not_busy _ Hs) by lia.
    eexists _, d'. by split_and!.
  - destruct (status_busy d m Em) as (x & d' & E & Hx & Hb & _ & Hdel & Hk).
    rewrite (bind_ret _ _ _ _ _ (inb_run _ _ _ _ _ _ _ _ E Hx)).
    change 0x80 with (Z.shiftl 1 7). rewrite bit_of_land, Hb by lia.
    destruct (IH d') as (r & d2 & E2 & Hr & Hd2 & Hk2); [lia|].
    exists r, d2. split_and!; try done. by eapply keeps_trans.
Qed.

Lemma drq_wait_run s c k v n : forall d, (delay d < n)%nat -> ph d <> Idle ->
  exists r d', drq_wait n (Machine s c k v d) = Ret r (Machine s c k v d') /\
    truth r = true /\ delay d' = O /\ keeps d d'.
Proof.
  induction n as [|n IH]; intros d Hd Hp; [lia|].
  destruct (delay d) as [|m] eqn:Em; cbn [drq_wait].
  - destruct (status_ready d Em) as (x & d' & E & Hx & _ & Hq & Hdel & Hk).
    rewrite (bind_ret _ _ _ _ _ (inb_run _ _ _ _ _ _ _ _ E Hx)).
    assert (Ht : truth (Z.land x DRQ_STAT) = true).
    { change DRQ_STAT with (Z.shiftl 1 3). rewrite bit_of_land, Hq by lia. by apply bool_decide_true. }
    rewrite Ht. by exists (Z.land x DRQ_STAT), d'.
  - destruct (status_busy d m Em) as (x & d' & E & Hx & _ & Hq & Hdel & Hk).
    rewrite (bind_ret _ _ _ _ _ (inb_run _ _ _ _ _ _ _ _ E Hx)).
    assert (Ht : truth (Z.land x DRQ_STAT) = false).
    { change DRQ_STAT with (Z.shiftl 1 3). rewrite bit_of_land, Hq by lia. done. }
    rewrite Ht. destruct (IH d') as (r & d2 & E2 & Hr & Hd2 & Hk2); [lia|destruct Hk as [-> _]; done|].
    exists r, d2. split_and!; try done. by eapply keeps_trans.
Qed.

Lemma win_result_run s c k v d :
  delay d = O -> exists d', win_result (Machine s c k v d) = Ret 0 (Machine s c k v d') /\
    delay d' = O /\ keeps d d'.
Proof.
  intros Hd. destruct (status_ready d Hd) as (x & d' & E & Hx & Hs & _ & Hdel & Hk).
  exists d'. split_and!; [|done|apply Hk..]. unfold win_result.
  rewrite (bind_ret _ _ _ _ _ (inb_run _ _ _ _ _ _ _ _ E Hx)).
  change (Z.lor (Z.lor (Z.lor (Z.lor BUSY_STAT READY_STAT) WRERR_STAT) SEEK_STAT) ERR_STAT) with 0xf1.
  by rewrite Hs.
Qed.

Lemma outb_run x port s c k v d :
  outb x port (Machine s c k v d) = Ret tt (Machine s c k v (d_outb port (u8 x) d)).
Proof. done. Qed.

(** [d] is [d0] after some of the registers have been written, register [i]
    with [t i]. *)
Record loaded (d0 : D) (t : Z -> option Z) (d : D) : Prop := {
  ld_ph : ph d = ph d0;
  ld_delay : delay d = O;
  ld_media : forall a b, media d a b = media d0 a b;
  ld_tf : forall i x, t i = Some x -> tf d i = x
}.
Lemma load_reg d0 t d i x :
  loaded d0 t d -> 1 <= i <= 6 -> 0 <= x < 256 ->
  loaded d0 (fun j => if decide (j = i) then Some x else t j) (d_outb (HD_DATA + i) x d).
Proof.
  intros [H1 H2 H3 H4] Hi Hx. destruct (register d i x H2 Hi Hx) as (R1 & R2 & R3 & R4). split.
  - by rewrite R1.
  - done.
  - intros. by rewrite R3.
  - intros j y. rewrite R4. case_decide; [by intros [= ->]|apply H4].
Qed.

(** What hd_out() asks of its arguments and of the drive. *)
Record addressable (v : driver) (drive nsect sec head cyl : Z) (h : hd_i_struct) : Prop := {
  ad_info : zget (hd_info v) drive = Some h;
  ad_ctl : Z.testbit (u8 (ctl h)) 2 = false;
  ad_drive : 0 <= drive <= 1;
  ad_nsect : 1 <= nsect < 256;
  ad_sec : 0 <= sec < 256;
  ad_head : 0 <= head <= 15;
  ad_cyl : 0 <= cyl < 2 ^ 16
}.

Lemma cyl_bytes cyl : 0 <= cyl < 2 ^ 16 -> u8 (Z.shiftr cyl 8) * 256 + u8 cyl = cyl.
Proof.
  intros H. rewrite Z.shiftr_div_pow2 by lia. unfold u8.
  pose proof (Z.div_mod cyl 256 ltac:(lia)).
  rewrite (Z.mod_small (cyl / 2 ^ 8)); [change (2 ^ 8) with 256; lia|].
  split; [apply Z.div_pos; lia|]. apply Z.div_lt_upper_bound; lia.
Qed.

Lemma hd_out_run s c k v d drive nsect sec hd cyl h rw intr :
  addressable v drive nsect sec hd cyl h -> rw = WIN_READ \/ rw = WIN_WRITE ->
  ph d = Idle -> (delay d < 3000)%nat ->
  exists d', hd_out drive nsect sec hd cyl rw intr (Machine s c k v d) =
      Ret tt (Machine s c k (v <| do_hd := Some intr |>) d') /\
    ph d' = (if rw =? WIN_READ then Reading else Writing) drive
              ((cyl * heads drive + hd) * spt drive + sec - 1) (Z.to_nat nsect) /\
    (delay d' < 3000)%nat /\ forall a b, media d' a b = media d a b.
Proof.
  intros [Hi Hctl Hdr Hn Hs Hh Hc] Hrw Hp Hd.
  destruct (ready_loop_run s c k v (Z.to_nat 100000) d) as (r & d1 & Er & Hr & Hd1 & P1 & T1 & M1).
  { apply Nat.lt_trans with 3002%nat; lia. }
  destruct (drive_head drive hd Hdr Hh) as (Hx & Hland & Hbit).
  unfold hd_out. rewrite (proj2 (Z.ltb_ge 1 drive)), (proj2 (Z.ltb_ge 15 hd)) by lia. cbn [orb].
  unfold controller_ready. rewrite (bind_ret _ _ _ _ _ Er).
  assert (Ht : truth r = true) by (unfold truth; by rewrite (proj2 (Z.eqb_neq r 0))).
  rewrite Ht. cbn [negb].
  set (v' := v <| do_hd := Some intr |>).
  rewrite (bind_ret (set_drv _) _ _ tt (Machine s c k v' d1)) by done.
  rewrite (bind_ret (info drive) _ _ h (Machine s c k v' d1))
    by (unfold info, drv; rewrite bind_gets; cbn; by rewrite Hi).
  repeat (rewrite (bind_ret _ _ _ _ _ (outb_run _ _ _ _ _ _ _))). rewrite outb_run.
  destruct (control d1 _ Hctl) as ((P2 & T2 & M2) & Hd2).
  set (d2 := d_outb HD_CMD (u8 (ctl h)) d1) in *.
  assert (L0 : loaded d (fun _ => None) d2).
  { split; [congruence|congruence| |done]. intros. by rewrite M2, M1. }
  apply (load_reg _ _ _ 1 (u8 (Z.shiftr (wpcom h) 2))) in L0; [|lia|apply u8_range].
  apply (load_reg _ _ _ 2 (u8 nsect)) in L0; [|lia|apply u8_range].
  apply (load_reg _ _ _ 3 (u8 sec)) in L0; [|lia|apply u8_range].
  apply (load_reg _ _ _ 4 (u8 cyl)) in L0; [|lia|apply u8_range].
  apply (load_reg _ _ _ 5 (u8 (Z.shiftr cyl 8))) in L0; [|lia|apply u8_range].
  apply (load_reg _ _ _ 6 (u8 (Z.lor (Z.lor 0xA0 (Z.shiftl drive 4)) hd))) in L0; [|lia|apply u8_range].
  match type of L0 with loaded _ _ ?x => set (d3 := x) in * end.
  destruct L0 as [P3 D3 M3 T3].
  assert (F2 : tf d3 2 = nsect) by (rewrite (T3 2 (u8 nsect) eq_refl); apply u8_small; lia).
  assert (F3 : tf d3 3 = sec) by (rewrite (T3 3 (u8 sec) eq_refl); apply u8_small; lia).
  pose proof (T3 4 _ eq_refl) as F4. pose proof (T3 5 _ eq_refl) as F5.
  pose proof (T3 6 _ eq_refl) as F6. rewrite u8_small in F6 by done.
  assert (Hw : u8 rw = rw) by (by destruct Hrw as [->| ->]). rewrite Hw.
  destruct (command d3 rw) as (Hph & Hdl & Hm); [done|congruence|lia|done|].
  eexists. split_and!; [done| |done|intros; by rewrite Hm, M3].
  rewrite Hph. unfold tf_drive, tf_lba. rewrite F2, F3, F4, F5, F6, Hland, Hbit.
  rewrite cyl_bytes by done. done.
Qed.

(** ** Starting a request *)

Lemma reqf_run i k r : requests k !! i = Some r -> reqf i k = Ret r k.
Proof. intros E. unfold reqf. by rewrite bind_get, E. Qed.

Lemma zoom_blk {A} (m : M blk A) s c k v d a k' :
  m k = Ret a k' -> zoom blk_l m (Machine s c k v d) = Ret a (Machine s c k' v d).
Proof. intros E. unfold zoom. cbn [lget blk_l m_blk]. by rewrite E. Qed.
Lemma zoom_cache {A} (m : M cache A) s c k v d a c' :
  m c = Ret a c' -> zoom cache_l m (Machine s c k v d) = Ret a (Machine s c' k v d).
Proof. intros E. unfold zoom. cbn [lget cache_l m_cache]. by rewrite E. Qed.

Lemma CURRENT_run s c k v d cur l :
  queue k MAJOR_NR (cur :: l) ->
  CURRENT (Machine s c k v d) = Ret (Some cur) (Machine s c k v d).
Proof.
  intros [(x & Ex & Hx) _ _]. unfold CURRENT, zoom. cbn. rewrite (devf_bind _ _ _ _ Ex).
  by rewrite Hx.
Qed.
Lemma CURRENT_none s c k v d :
  queue k MAJOR_NR [] -> CURRENT (Machine s c k v d) = Ret None (Machine s c k v d).
Proof.
  intros [(x & Ex & Hx) _ _]. unfold CURRENT, zoom. cbn. rewrite (devf_bind _ _ _ _ Ex).
  by rewrite Hx.
Qed.
Lemma current_req_run s c k v d cur l r :
  queue k MAJOR_NR (cur :: l) -> requests k !! cur = Some r ->
  current_req (Machine s c k v d) = Ret r (Machine s c k v d).
Proof.
  intros Hq Er. unfold current_req. rewrite (bind_ret _ _ _ _ _ (CURRENT_run _ _ _ _ _ _ _ Hq)).
  erewrite bind_deref by done. by apply zoom_blk, reqf_run.
Qed.
Lemma set_req_run g s c k v d cur l r :
  queue k MAJOR_NR (cur :: l) -> requests k !! cur = Some r ->
  set_req g (Machine s c k v d) = Ret tt (Machine s c (served g cur k) v d).
Proof.
  intros Hq Er. unfold set_req. rewrite (bind_ret _ _ _ _ _ (CURRENT_run _ _ _ _ _ _ _ Hq)).
  erewrite bind_deref by done. by eapply zoom_blk, setr_run.
Qed.

(** An empty queue stops the driver. *)
Lemma no_request fuel s c k v d :
  queue k MAJOR_NR [] -> do_hd_request fuel (Machine s c k v d) = Ret tt (Machine s c k v d).
Proof. intros Hq. destruct fuel; cbn [do_hd_request]; by rewrite (bind_ret _ _ _ _ _ (CURRENT_none _ _ _ _ _ Hq)). Qed.

(** The request is of [n] sectors inside the partition [part] of a drive with
    the parameters [h]; [lba] is the first of the sectors. *)
Record in_partition (v : driver) (r : request) (part : hd_struct) (h : hd_i_struct)
    (drive lba : Z) : Prop := {
  ip_drive : drive = MINOR (r_dev r) / 5;
  ip_lba : lba = sector r + start_sect part;
  ip_nr : 0 <= NR_HD v <= MAX_HD;
  ip_dev : MINOR (r_dev r) < 5 * NR_HD v;
  ip_part : zget (hd v) (MINOR (r_dev r)) = Some part;
  ip_info : zget (hd_info v) drive = Some h;
  ip_start : 0 <= start_sect part;
  ip_sector : 0 <= sector r;
  ip_end : sector r + 2 <= nr_sects part;
  ip_size : nr_sects part < 2 ^ 31;
  ip_word : lba < 2 ^ 32;
  ip_count : 1 <= nr_sectors r < 256
}.
(** The geometry that the BIOS has told is the one of the drive. *)
Record geometry (h : hd_i_struct) (drive lba : Z) : Prop := {
  g_heads : heads drive = head h;
  g_spt : spt drive = sect h;
  g_head : 1 <= head h <= 16;
  g_sect : 1 <= sect h < 256;
  g_cyl : lba / sect h / head h < 2 ^ 16;
  g_ctl : Z.testbit (u8 (ctl h)) 2 = false
}.

Lemma minor_range x : 0 <= MINOR x < 256.
Proof.
  unfold MINOR. change 0xff with (Z.ones 8). rewrite Z.land_ones by lia.
  apply Z.mod_pos_bound. lia.
Qed.

(** do_hd_request() up to the port accesses. *)
Lemma request_addressed v r part h drive lba :
  in_partition v r part h drive lba -> geometry h drive lba ->
  addressable v drive (nr_sectors r) (lba mod sect h + 1)
    ((lba / sect h) mod head h) (lba / sect h / head h) h.
Proof.
  intros [] []. pose proof (minor_range (r_dev r)).
  assert (0 <= lba) by lia.
  assert (0 <= lba / sect h) by (apply Z.div_pos; lia).
  assert (0 <= lba / sect h / head h) by (apply Z.div_pos; lia).
  pose proof (Z.mod_pos_bound lba (sect h) ltac:(lia)).
  pose proof (Z.mod_pos_bound (lba / sect h) (head h) ltac:(lia)).
  unfold MAX_HD in *. split; try done; try lia. subst drive. split; [apply Z.div_pos; lia|].
  assert (MINOR (r_dev r) / 5 < 2); [|lia]. apply Z.div_lt_upper_bound; lia.
Qed.

Lemma divl_run a b (m : machine D) :
  0 < b < 2 ^ 32 -> divl a b m = Ret (a / b, a mod b) m.
Proof.
  intros Hb. unfold divl. rewrite u32_small by lia. by rewrite (proj2 (Z.eqb_neq b 0)) by lia.
Qed.

Lemma request_head fuel s c k v d cur l r part h drive lba :
  queue k MAJOR_NR (cur :: l) -> requests k !! cur = Some r ->
  in_partition v r part h drive lba -> geometry h drive lba -> reset v = 0 -> recalibrate v = 0 ->
  do_hd_request (S fuel) (Machine s c k v d) =
    (let sec := lba mod sect h + 1 in
     let hd := (lba / sect h) mod head h in
     let cyl := lba / sect h / head h in
     if cmd r =? WRITE then
       hd_out drive (nr_sectors r) sec hd cyl WIN_WRITE Write_intr ;;
       let! drq := drq_wait (Z.to_nat 3000) in
       if negb (truth drq) then bad_rw_intr ;; do_hd_request fuel
       else let! r := current_req in port_write HD_DATA (buffer r) 256
     else if cmd r =? READ then hd_out drive (nr_sectors r) sec hd cyl WIN_READ Read_intr
     else halt (Panic "unknown hd-command")) (Machine s c k v d).
Proof.
  intros Hq Er Hin Hg Hr0 Hc0. pose proof (minor_range (r_dev r)) as Hm.
  destruct (request_addressed _ _ _ _ _ _ Hin Hg) as [_ _ _ _ Hsec _ _].
  destruct Hin as [Hdr Hlba Hnr Hdev Hpart Hinfo Hst Hs He Hsz Hw Hcnt]. destruct Hg as [_ _ Hgh Hgs _ _].
  unfold MAX_HD in Hnr. cbn [do_hd_request].
  rewrite (bind_ret _ _ _ _ _ (CURRENT_run _ _ _ _ _ _ _ Hq)).
  rewrite (bind_ret (zoom blk_l (reqf cur)) _ _ r (Machine s c k v d))
    by (by apply zoom_blk, reqf_run).
  unfold drv at 1 2. run. cbn [m_driver].
  rewrite (u32_small (5 * NR_HD v)) by lia.
  rewrite (proj2 (Z.leb_gt (5 * NR_HD v) (MINOR (r_dev r)))) by lia.
  rewrite bind_assoc, (bind_deref _ _ _ _ Hpart), bind_ret_l.
  rewrite (u32_small (sector r + 2)), (u32_small (nr_sects part)) by lia.
  rewrite (proj2 (Z.ltb_ge (nr_sects part) (sector r + 2))) by lia.
  run. rewrite <-Hdr.
  rewrite (bind_ret (info drive) _ _ h (Machine s c k v d))
    by (unfold info, drv; rewrite bind_gets; cbn; by rewrite Hinfo).
  rewrite (u32_small (sector r + start_sect part)), <-Hlba by lia.
  rewrite (bind_ret _ _ _ _ _ (divl_run lba (sect h) _ ltac:(lia))). cbn beta iota.
  rewrite (bind_ret _ _ _ _ _ (divl_run (lba / sect h) (head h) _ ltac:(lia))). cbn beta iota.
  unfold drv. run. cbn [m_driver]. rewrite Hr0, Hc0. cbn [truth Z.eqb negb].
  rewrite u32_small by lia. done.
Qed.

(** The sector's address as the drive decodes it. *)
Lemma chs_decoded h drive lba :
  geometry h drive lba ->
  (lba / sect h / head h * heads drive + (lba / sect h) mod head h) * spt drive +
    (lba mod sect h + 1) - 1 = lba.
Proof. intros []. rewrite g_heads0, g_spt0. apply chs_lba; lia. Qed.

Lemma start_read fuel s c k v d cur l r part h drive lba :
  queue k MAJOR_NR (cur :: l) -> requests k !! cur = Some r -> cmd r = READ ->
  in_partition v r part h drive lba -> geometry h drive lba -> reset v = 0 -> recalibrate v = 0 ->
  ph d = Idle -> (delay d < 3000)%nat ->
  exists d', do_hd_request (S fuel) (Machine s c k v d) =
      Ret tt (Machine s c k (v <| do_hd := Some Read_intr |>) d') /\
    ph d' = Reading drive lba (Z.to_nat (nr_sectors r)) /\ (delay d' < 3000)%nat /\
    forall a b, media d' a b = media d a b.
Proof.
  intros Hq Er Ec Hin Hg Hr Hc Hp Hd.
  rewrite (request_head _ _ _ _ _ _ _ _ _ _ _ _ _ Hq Er Hin Hg Hr Hc). cbn zeta. rewrite Ec.
  cbn [READ WRITE Z.eqb].
  destruct (hd_out_run s c k v d _ _ _ _ _ h WIN_READ Read_intr
    (request_addressed _ _ _ _ _ _ Hin Hg) (or_introl eq_refl) Hp Hd) as (d' & E & P & Hdl & Hm).
  exists d'. split; [exact E|]. rewrite P, (chs_decoded _ _ _ Hg). done.
Qed.

Lemma start_write fuel s c k v d cur l r part h drive lba bh b :
  queue k MAJOR_NR (cur :: l) -> requests k !! cur = Some r -> cmd r = WRITE ->
  in_partition v r part h drive lba -> geometry h drive lba -> reset v = 0 -> recalibrate v = 0 ->
  ph d = Idle -> (delay d < 3000)%nat ->
  apart_blocks c -> bufs c !! bh = Some b -> in_block (buffer r) 512 b ->
  length (b_bytes b) = Z.to_nat BLOCK_SIZE ->
  exists d', do_hd_request (S fuel) (Machine s c k v d) =
      Ret tt (Machine s c k (v <| do_hd := Some Write_intr |>) d') /\
    ph d' = next_phase Writing drive lba (Z.to_nat (nr_sectors r - 1)) /\ (delay d' < 3000)%nat /\
    forall a x, media d' a x = if decide (a = drive /\ x = lba)
      then take 512 (drop (Z.to_nat (buffer r - b_data b)) (b_bytes b)) else media d a x.
Proof.
  intros Hq Er Ec Hin Hg Hr Hc Hp Hd Ha B Hib Hlen.
  rewrite (request_head _ _ _ _ _ _ _ _ _ _ _ _ _ Hq Er Hin Hg Hr Hc). cbn zeta. rewrite Ec.
  cbn [WRITE Z.eqb Pos.eqb].
  destruct (hd_out_run s c k v d _ _ _ _ _ h WIN_WRITE Write_intr
    (request_addressed _ _ _ _ _ _ Hin Hg) (or_intror eq_refl) Hp Hd) as (d1 & E & P & Hdl & Hm).
  rewrite (bind_ret _ _ _ _ _ E). rewrite (chs_decoded _ _ _ Hg) in P.
  pose proof (ip_count _ _ _ _ _ _ Hin) as Hcnt.
  destruct (drq_wait_run s c k (v <| do_hd := Some Write_intr |>) (Z.to_nat 3000) d1)
    as (x & d2 & E2 & Hx & Hd2 & P2 & _ & M2); [lia| |].
  { rewrite P. done. }
  rewrite (bind_ret _ _ _ _ _ E2), Hx. cbn [negb].
  rewrite (bind_ret _ _ _ _ _ (current_req_run _ _ _ _ _ _ _ _ Hq Er)).
  set (bytes := take 512 (drop (Z.to_nat (buffer r - b_data b)) (b_bytes b))).
  assert (Hl : length bytes = 512%nat).
  { unfold bytes. rewrite length_take, length_drop, Hlen. unfold in_block in Hib. lia. }
  assert (P3 : ph d2 = Writing drive lba (S (Z.to_nat (nr_sectors r - 1)))).
  { rewrite P2, P. cbn [WIN_WRITE WIN_READ Z.eqb Pos.eqb]. f_equal. lia. }
  destruct (data_out d2 drive lba _ bytes Hd2 P3 Hl) as (P4 & D4 & M4).
  eexists. split_and!; [|exact P4|exact D4|].
  - unfold port_write.
    rewrite (bind_ret (zoom cache_l _) _ _ bytes
      (Machine s c k (v <| do_hd := Some Write_intr |>) d2)); [done|].
    apply zoom_cache. apply (peek_run _ 512 bh); try done. lia.
  - intros a y. rewrite M4. by case_decide; [|rewrite M2, Hm].
Qed.

(** ** The interrupts of a transfer *)

#[local] Instance sched_l_ok : LensOk (@sched_l D).
Proof. split; [done|by intros []|done]. Qed.
#[local] Instance cache_l_ok : LensOk (@cache_l D).
Proof. split; [done|by intros []|done]. Qed.
#[local] Instance blk_l_ok : LensOk (@blk_l D).
Proof. split; [done|by intros []|done]. Qed.
#[local] Instance sc_apart : Apart (@sched_l D) cache_l.
Proof. by split. Qed.
#[local] Instance sb_apart : Apart (@sched_l D) blk_l.
Proof. by split. Qed.
#[local] Instance cb_apart : Apart (@cache_l D) blk_l.
Proof. by split. Qed.

Lemma served_served f g cur k : served f cur (served g cur k) = served (fun r => f (g r)) cur k.
Proof.
  unfold served. destruct k as [rs wf bd]. cbn. f_equal. apply list_eq. intros j.
  rewrite !alter_lookup. case_decide; [|done]. by destruct (rs !! j).
Qed.
Lemma served_lookup g cur k r :
  requests k !! cur = Some r -> requests (served g cur k) !! cur = Some (g r).
Proof. intros E. cbn. by rewrite list_lookup_alter_eq, E. Qed.

Lemma set_req_bind {A} f g (K : unit -> M (machine D) A) s c k v d cur l r :
  queue k MAJOR_NR (cur :: l) -> requests k !! cur = Some r -> serves g ->
  bind (set_req f) K (Machine s c (served g cur k) v d) =
    K tt (Machine s c (served (fun r => f (g r)) cur k) v d).
Proof.
  intros Hq Er Hg.
  rewrite (bind_ret _ _ _ _ _ (set_req_run _ _ _ _ _ _ _ l _ (served_queue _ _ _ _ _ Hg Hq)
    (served_lookup _ _ _ _ Er))). by rewrite served_served.
Qed.

(** One sector has been transferred. *)
Definition advance (r : request) : request :=
  r <| sector ::= fun n => u32 (n + 1) |> <| buffer ::= Z.add 512 |>
    <| nr_sectors ::= fun n => u32 (n - 1) |>.
Definition advance_read (r : request) : request := advance r <| errors := 0 |>.
Lemma advance_serves : serves advance.
Proof. by intros []. Qed.
Lemma advance_read_serves : serves advance_read.
Proof. by intros []. Qed.

(** The sleepers that the end of a request wakes up. *)
Definition all_woken (k : blk) (r : request) (b : buffer_head) (s : sched) : sched :=
  woken (wait_for_request k) (woken (waiting r) (woken (b_wait b) s)).

Lemma end_run u s c k v d cur l r bh b :
  queue k MAJOR_NR (cur :: l) -> requests k !! cur = Some r -> r_bh r = Some bh ->
  bufs c !! bh = Some b ->
  sound (b_wait b) s -> sound (waiting r) s -> sound (wait_for_request k) s ->
  end_request u (Machine s c k v d) =
    Ret tt (Machine (all_woken k r b s) (touch (finished u) bh c) (popped MAJOR_NR cur k) v d).
Proof.
  intros. exact (end_request_run sched_l cache_l blk_l MAJOR_NR u (Machine s c k v d) cur l r bh b
    ltac:(done) ltac:(done) ltac:(done) ltac:(done) ltac:(done) ltac:(done) ltac:(done)).
Qed.

Lemma read_sector fuel s c k v d cur l r bh b drive lba n :
  queue k MAJOR_NR (cur :: l) -> requests k !! cur = Some r -> do_hd v = Some Read_intr ->
  apart_blocks c -> bufs c !! bh = Some b -> in_block (buffer r) 512 b ->
  nr_sectors r = Z.of_nat (S n) -> nr_sectors r < 2 ^ 32 ->
  delay d = O -> ph d = Reading drive lba (S n) ->
  exists d', (delay d' < 3000)%nat /\ ph d' = next_phase Reading drive lba n /\
    (forall a b, media d' a b = media d a b) /\ length (media d drive lba) = 512%nat /\
    let c' := touch (fun b => b <| b_bytes ::=
      splice (Z.to_nat (buffer r - b_data b)) (media d drive lba) |>) bh c in
    let k' := served advance_read cur k in
    hd_interrupt fuel (Machine s c k v d) =
      match n with
      | O => (end_request 1 ;; do_hd_request fuel) (Machine s c' k' (v <| do_hd := None |>) d')
      | S _ => Ret tt (Machine s c' k' (v <| do_hd := Some Read_intr |>) d')
      end.
Proof.
  intros Hq Er Hdo Ha B Hib Hn Hlt Hd Hp.
  destruct (win_result_run s c k (v <| do_hd := None |>) d Hd) as (d1 & E1 & Hd1 & P1 & _ & M1).
  rewrite Hp in P1. destruct (data_in d1 drive lba n Hd1 P1) as (d2 & E2 & L2 & P2 & D2 & M2).
  rewrite M1 in E2, L2.
  exists d2. split_and!; [done|done|intros; by rewrite M2, M1|done|]. cbn zeta.
  unfold hd_interrupt, drv. rewrite bind_gets. cbn [m_driver]. rewrite Hdo.
  rewrite (bind_ret (set_drv _) _ _ tt (Machine s c k (v <| do_hd := None |>) d)) by done.
  unfold read_intr. rewrite (bind_ret _ _ _ _ _ E1). cbn [truth Z.eqb negb].
  rewrite (bind_ret _ _ _ _ _ (current_req_run _ _ _ _ _ _ _ _ Hq Er)).
  set (c' := touch _ bh c).
  rewrite (bind_ret (port_read HD_DATA (buffer r) 256) _ _ tt (Machine s c' k (v <| do_hd := None |>) d2)).
  2:{ unfold port_read.
      rewrite (bind_ret (zoom disk_l _) _ _ (media d drive lba) (Machine s c k (v <| do_hd := None |>) d2))
        by (unfold zoom; cbn [lget disk_l m_disk]; by rewrite E2).
      apply zoom_cache. apply (poke_run _ _ bh b); try done.
      - by rewrite L2.
      - intros E. by rewrite E in L2. }
  rewrite (bind_ret _ _ _ _ _ (set_req_run _ _ _ _ _ _ _ _ _ Hq Er)).
  do 3 (rewrite (set_req_bind _ _ _ _ _ _ _ _ _ l r) by (done || by intros [])).
  change (served _ cur k) with (served advance_read cur k).
  rewrite (bind_ret _ _ _ _ _ (current_req_run _ _ _ _ _ _ l _
    (served_queue _ _ _ _ _ advance_read_serves Hq) (served_lookup _ _ _ _ Er))).
  change (nr_sectors (advance_read r)) with (u32 (nr_sectors r - 1)). rewrite Hn.
  rewrite u32_small by lia. unfold truth.
  destruct n as [|n]; [done|]. rewrite (proj2 (Z.eqb_neq _ 0)) by lia. done.
Qed.

Definition counted (r : request) : request := r <| nr_sectors ::= fun n => u32 (n - 1) |>.

Lemma write_sector fuel s c k v d cur l r bh b drive lba n :
  queue k MAJOR_NR (cur :: l) -> requests k !! cur = Some r -> do_hd v = Some Write_intr ->
  apart_blocks c -> bufs c !! bh = Some b ->
  (n <> O -> in_block (512 + buffer r) 512 b) -> length (b_bytes b) = Z.to_nat BLOCK_SIZE ->
  nr_sectors r = Z.of_nat (S n) -> nr_sectors r < 2 ^ 32 ->
  delay d = O -> ph d = match n with O => Idle | S _ => Writing drive lba n end ->
  exists d', (delay d' < 3000)%nat /\
    match n with
    | O =>
        ph d' = Idle /\ (forall a b, media d' a b = media d a b) /\
        hd_interrupt fuel (Machine s c k v d) = (end_request 1 ;; do_hd_request fuel)
          (Machine s c (served counted cur k) (v <| do_hd := None |>) d')
    | S n' =>
        ph d' = next_phase Writing drive lba n' /\
        (forall a x, media d' a x = if decide (a = drive /\ x = lba)
          then take 512 (drop (Z.to_nat (512 + buffer r - b_data b)) (b_bytes b))
          else media d a x) /\
        hd_interrupt fuel (Machine s c k v d) =
          Ret tt (Machine s c (served advance cur k) (v <| do_hd := Some Write_intr |>) d')
    end.
Proof.
  intros Hq Er Hdo Ha B Hib Hlen Hn Hlt Hd Hp.
  destruct (win_result_run s c k (v <| do_hd := None |>) d Hd) as (d1 & E1 & Hd1 & P1 & _ & M1).
  rewrite Hp in P1.
  assert (Hhead : hd_interrupt fuel (Machine s c k v d) =
    (let! r := current_req in
     if truth (nr_sectors r) then
       set_req (fun r => r <| sector ::= fun n => u32 (n + 1) |>) ;;
       set_req (fun r => r <| buffer ::= Z.add 512 |>) ;;
       set_drv (fun v => v <| do_hd := Some Write_intr |>) ;;
       let! r := current_req in
       port_write HD_DATA (buffer r) 256
     else end_request 1 ;; do_hd_request fuel)
    (Machine s c (served counted cur k) (v <| do_hd := None |>) d1)).
  { unfold hd_interrupt, drv. rewrite bind_gets. cbn [m_driver]. rewrite Hdo.
    rewrite (bind_ret (set_drv _) _ _ tt (Machine s c k (v <| do_hd := None |>) d)) by done.
    unfold write_intr. rewrite (bind_ret _ _ _ _ _ E1). cbn [truth Z.eqb negb].
    by rewrite (bind_ret _ _ _ _ _ (set_req_run _ _ _ _ _ _ _ _ _ Hq Er)). }
  rewrite Hhead.
  rewrite (bind_ret _ _ _ _ _ (current_req_run _ _ _ _ _ _ l _
    (served_queue counted _ _ _ _ ltac:(by intros []) Hq) (served_lookup _ _ _ _ Er))).
  change (nr_sectors (counted r)) with (u32 (nr_sectors r - 1)). rewrite Hn, u32_small by lia.
  destruct n as [|n].
  - exists d1. split_and!; [lia|done|done|done].
  - unfold truth at 1. rewrite (proj2 (Z.eqb_neq _ 0)) by lia. cbn [negb].
    do 2 (rewrite (set_req_bind _ _ _ _ _ _ _ _ _ l r) by (done || by intros [])).
    change (served _ cur k) with (served advance cur k).
    rewrite (bind_ret (set_drv _) _ _ tt
      (Machine s c (served advance cur k) (v <| do_hd := Some Write_intr |>) d1)) by done.
    rewrite (bind_ret _ _ _ _ _ (current_req_run _ _ _ _ _ _ l _
      (served_queue _ _ _ _ _ advance_serves Hq) (served_lookup _ _ _ _ Er))).
    change (buffer (advance r)) with (512 + buffer r).
    set (bytes := take 512 (drop (Z.to_nat (512 + buffer r - b_data b)) (b_bytes b))).
    pose proof (Hib ltac:(done)) as Hib'.
    assert (Hl : length bytes = 512%nat).
    { unfold bytes. rewrite length_take, length_drop, Hlen. unfold in_block in Hib'. lia. }
    destruct (data_out d1 drive lba n bytes Hd1 P1 Hl) as (P4 & D4 & M4).
    eexists. split_and!; [exact D4|exact P4| |].
    + intros a y. rewrite M4. by case_decide; [|rewrite M1].
    + unfold port_write.
      rewrite (bind_ret (zoom cache_l _) _ _ bytes
        (Machine s c (served advance cur k) (v <| do_hd := Some Write_intr |>) d1)); [done|].
      apply zoom_cache. apply (peek_run _ 512 bh); try done. lia.
Qed.

(** ** The transfer of a block *)

(** The request at the head of the queue is for the block of buffer [bh], at
    sectors [lba] and [lba + 1] of the drive; the drive has nothing to do. *)
Record to_serve s c k v d (cur : nat) (l : list nat) (r : request) (bh : nat) (b : buffer_head)
    (part : hd_struct) (h : hd_i_struct) (drive lba : Z) : Prop := {
  ts_io : io_inv c k MAJOR_NR (cur :: l);
  ts_req : requests k !! cur = Some r;
  ts_bh : r_bh r = Some bh;
  ts_buf : bufs c !! bh = Some b;
  ts_apart : apart_blocks c;
  ts_data : buffer r = b_data b;
  ts_len : length (b_bytes b) = Z.to_nat BLOCK_SIZE;
  ts_two : nr_sectors r = 2;
  ts_part : in_partition v r part h drive lba;
  ts_geo : geometry h drive lba;
  ts_reset : reset v = 0;
  ts_recal : recalibrate v = 0;
  ts_idle : ph d = Idle;
  ts_delay : (delay d < 3000)%nat;
  ts_wait : sound (b_wait b) s;
  ts_waiting : sound (waiting r) s;
  ts_free : sound (wait_for_request k) s
}.

(** The drive after it has raised its interrupt. *)
Definition settled (d d' : D) : Prop := keeps d d' /\ delay d' = O.

Lemma splice_two (l x y : list Z) :
  length l = 1024%nat -> length x = 512%nat -> length y = 512%nat ->
  splice 512 y (splice 0 x l) = x ++ y.
Proof.
  intros Hl Hx Hy. unfold splice. rewrite Hx, Hy. change (take 0 l) with (@nil Z). rewrite app_nil_l.
  rewrite (drop_ge _ (512 + 512)) by (rewrite length_app, length_drop; lia).
  rewrite take_app_le, take_ge by lia. by rewrite app_nil_r.
Qed.

Lemma touch_touch f g bh c : touch f bh (touch g bh c) = touch (fun b => f (g b)) bh c.
Proof.
  unfold touch. destruct c as [bs ht fl bw n]. cbn. f_equal. apply list_eq. intros j.
  destruct (decide (j = bh)) as [->|].
  - rewrite !list_lookup_alter_eq. by destruct (bs !! bh).
  - by rewrite !list_lookup_alter_ne.
Qed.

Lemma touch_ext f g bh b c : bufs c !! bh = Some b -> f b = g b -> touch f bh c = touch g bh c.
Proof.
  intros B E. unfold touch. destruct c as [bs ht fl bw n]. cbn in *. f_equal. apply list_eq. intros j.
  destruct (decide (j = bh)) as [->|].
  - by rewrite !list_lookup_alter_eq, B; cbn; rewrite E.
  - by rewrite !list_lookup_alter_ne.
Qed.

Lemma touch_io g c k l bh major :
  io_inv c k major l -> (forall b, valid b -> valid (g b)) ->
  (forall b, skey (g b) = skey b) -> (forall b, sring (g b) = sring b) ->
  (forall b, b_lock (g b) = b_lock b) -> io_inv (touch g bh c) k major l.
Proof.
  intros [H1 H2 [H3 H4]] Hv Hk Hr Hl. split; [by apply touch_ok|done|]. split; [|done].
  rewrite Forall_forall in H3 |- *. intros i Hi.
  destruct (H3 i Hi) as [(r & x & b & E1 & E2 & E3 & E4 & E5 & E6 & E7 & E8)].
  split. destruct (decide (x = bh)) as [->|].
  - exists r, bh, (g b). pose proof (Hk b) as Hkb. injection Hkb as Hkd Hkn _ _.
    rewrite Hl, Hkd, Hkn. split_and!; try done; try lia. by apply touch_lookup.
  - exists r, x, b. split_and!; try done; try lia. by rewrite touch_other.
Qed.

Definition with_disk (d : D) (m : machine D) : machine D := m <| m_disk := d |>.

Lemma read_transfer_run fuel s c k v d cur l r bh b part h drive lba :
  to_serve s c k v d cur l r bh b part h drive lba -> cmd r = READ ->
  exists m1, do_hd_request (S fuel) (Machine s c k v d) = Ret tt m1 /\
  forall d1, settled (m_disk m1) d1 ->
  exists m2, hd_interrupt fuel (with_disk d1 m1) = Ret tt m2 /\
  forall d2, settled (m_disk m2) d2 ->
  exists d3, ph d3 = Idle /\ (forall a x, media d3 a x = media d a x) /\
    let g r := advance_read (advance_read r) in
    let f b := finished 1 (b <| b_bytes := media d drive lba ++ media d drive (lba + 1) |>) in
    hd_interrupt fuel (with_disk d2 m2) =
      do_hd_request fuel (Machine (all_woken k r b s) (touch f bh c)
        (popped MAJOR_NR cur (served g cur k)) (v <| do_hd := None |>) d3).
Proof.
  intros [Hio Er Eb B Ha Hbuf Hlen H2 Hin Hg Hr0 Hc0 Hp Hd S1 S2 S3] Ec.
  pose proof (i_queue _ _ _ (io_queue _ _ _ _ Hio)) as Hq.
  destruct (start_read fuel s c k v d cur l r part h drive lba Hq Er Ec Hin Hg Hr0 Hc0 Hp Hd)
    as (d1 & E1 & P1 & D1 & M1).
  rewrite H2 in P1. eexists. split; [exact E1|]. cbn [m_disk with_disk upd eta_machine].
  intros d1' [(P1' & _ & M1') Z1]. rewrite P1 in P1'.
  set (v1 := v <| do_hd := Some Read_intr |>) in *.
  assert (Hv1 : do_hd v1 = Some Read_intr) by done.
  assert (Hb1 : in_block (buffer r) 512 b) by (unfold in_block, BLOCK_SIZE; lia).
  destruct (read_sector fuel s c k v1 d1' cur l r bh b drive lba 1
    Hq Er Hv1 Ha B Hb1 ltac:(lia) ltac:(lia) Z1 P1') as (d2 & D2 & P2 & M2 & L1 & E2).
  rewrite M1', M1 in *. eexists. split; [exact E2|]. cbn [m_disk with_disk upd eta_machine].
  intros d2' [(P2' & _ & M2') Z2]. rewrite P2 in P2'. cbn [next_phase] in P2'.
  set (g1 := fun b0 => b0 <| b_bytes ::= splice (Z.to_nat (buffer r - b_data b0)) (media d drive lba) |>) in *.
  set (c1 := touch g1 bh c) in *. set (k1 := served advance_read cur k) in *.
  assert (B1 : bufs c1 !! bh = Some (g1 b)) by (by apply touch_lookup).
  assert (Er1 : requests k1 !! cur = Some (advance_read r)) by (by apply served_lookup).
  assert (Hq1 : queue k1 MAJOR_NR (cur :: l)) by (by apply served_queue; [apply advance_read_serves|]).
  assert (Ha1 : apart_blocks c1) by (by apply touch_apart).
  assert (Hb2 : in_block (buffer (advance_read r)) 512 (g1 b)).
  { unfold in_block, BLOCK_SIZE, g1. cbn. lia. }
  assert (Hn2 : nr_sectors (advance_read r) = Z.of_nat 1).
  { change (u32 (nr_sectors r - 1) = 1). by rewrite H2. }
  destruct (read_sector fuel s c1 k1 v1 d2' cur l (advance_read r) bh
    (g1 b) drive (lba + 1) 0 Hq1 Er1 Hv1 Ha1 B1 Hb2 Hn2 ltac:(rewrite Hn2; lia) Z2 P2')
    as (d3 & D3 & P3 & M3 & L2 & E3).
  exists d3. split; [exact P3|].
  assert (Hm : forall a x, media d2' a x = media d a x)
    by (intros; by rewrite M2', M2, M1', M1).
  split; [intros; by rewrite M3, Hm|]. cbn zeta. cbn zeta in E3.
  change (with_disk d2' _) with (Machine s c1 k1 v1 d2').
  rewrite E3. rewrite Hm. rewrite Hm in L2.
  set (g2 := fun b0 => b0 <| b_bytes ::=
    splice (Z.to_nat (buffer (advance_read r) - b_data b0)) (media d drive (lba + 1)) |>).
  set (gg := fun r => advance_read (advance_read r)).
  assert (Hserve : serves gg) by (by intros []).
  assert (B2 : bufs (touch g2 bh c1) !! bh = Some (g2 (g1 b))) by (by apply touch_lookup).
  assert (Hk : served advance_read cur k1 = served gg cur k) by exact (served_served advance_read advance_read cur k). rewrite Hk.
  rewrite (bind_ret _ _ _ _ _ (end_run 1 s (touch g2 bh c1) _ _ d3 cur l _ bh _
    (served_queue _ _ _ _ _ Hserve Hq) (served_lookup _ _ _ _ Er) Eb B2 S1 S2 S3)).
  assert (Hbytes : g2 (g1 b) = b <| b_bytes := media d drive lba ++ media d drive (lba + 1) |>).
  { unfold g2, g1. change (buffer (advance_read r)) with (512 + buffer r). cbn. rewrite Hbuf.
    replace (Z.to_nat (b_data b - b_data b)) with 0%nat by lia.
    replace (Z.to_nat (512 + b_data b - b_data b)) with 512%nat by lia.
    by rewrite splice_two. }
  do 2 f_equal. unfold c1. rewrite !touch_touch. unfold all_woken.
  rewrite (touch_ext _ (fun b => finished 1 (b <| b_bytes :=
    media d drive lba ++ media d drive (lba + 1) |>)) bh b c B); [by destruct b|]. by rewrite Hbytes.
Qed.

Lemma write_transfer_run fuel s c k v d cur l r bh b part h drive lba :
  to_serve s c k v d cur l r bh b part h drive lba -> cmd r = WRITE ->
  exists m1, do_hd_request (S fuel) (Machine s c k v d) = Ret tt m1 /\
  forall d1, settled (m_disk m1) d1 ->
  exists m2, hd_interrupt fuel (with_disk d1 m1) = Ret tt m2 /\
  forall d2, settled (m_disk m2) d2 ->
  exists d3, ph d3 = Idle /\
    (forall a x, media d3 a x =
       if decide (a = drive /\ x = lba + 1) then drop 512 (b_bytes b)
       else if decide (a = drive /\ x = lba) then take 512 (b_bytes b) else media d a x) /\
    let g r := counted (advance r) in
    hd_interrupt fuel (with_disk d2 m2) =
      do_hd_request fuel (Machine (all_woken k r b s) (touch (finished 1) bh c)
        (popped MAJOR_NR cur (served g cur k)) (v <| do_hd := None |>) d3).
Proof.
  intros [Hio Er Eb B Ha Hbuf Hlen H2 Hin Hg Hr0 Hc0 Hp Hd S1 S2 S3] Ec.
  pose proof (i_queue _ _ _ (io_queue _ _ _ _ Hio)) as Hq.
  assert (Hb1 : in_block (buffer r) 512 b) by (unfold in_block, BLOCK_SIZE; lia).
  destruct (start_write fuel s c k v d cur l r part h drive lba bh b Hq Er Ec Hin Hg Hr0 Hc0 Hp Hd
    Ha B Hb1 Hlen) as (d1 & E1 & P1 & D1 & M1).
  rewrite H2 in P1. change (Z.to_nat (2 - 1)) with 1%nat in P1. cbn [next_phase] in P1.
  eexists. split; [exact E1|]. cbn [m_disk with_disk upd eta_machine].
  intros d1' [(P1' & _ & M1') Z1]. rewrite P1 in P1'.
  set (v1 := v <| do_hd := Some Write_intr |>) in *.
  assert (Hv1 : do_hd v1 = Some Write_intr) by done.
  assert (Hb2 : 1%nat <> O -> in_block (512 + buffer r) 512 b) by (unfold in_block, BLOCK_SIZE; lia).
  destruct (write_sector fuel s c k v1 d1' cur l r bh b drive (lba + 1) 1
    Hq Er Hv1 Ha B Hb2 Hlen ltac:(lia) ltac:(lia) Z1 P1') as (d2 & D2 & P2 & M2 & E2).
  eexists. split; [exact E2|]. cbn [m_disk with_disk upd eta_machine].
  intros d2' [(P2' & _ & M2') Z2]. rewrite P2 in P2'.
  change (with_disk d2' _) with (Machine s c (served advance cur k) v1 d2').
  assert (Er1 : requests (served advance cur k) !! cur = Some (advance r)) by (by apply served_lookup).
  assert (Hq1 : queue (served advance cur k) MAJOR_NR (cur :: l))
    by (by apply served_queue; [apply advance_serves|]).
  assert (Hn2 : nr_sectors (advance r) = Z.of_nat 1).
  { change (u32 (nr_sectors r - 1) = 1). by rewrite H2. }
  destruct (write_sector fuel s c (served advance cur k) v1 d2' cur l (advance r) bh b drive lba 0
    Hq1 Er1 Hv1 Ha B ltac:(done) Hlen Hn2 ltac:(rewrite Hn2; lia) Z2 P2') as (d3 & D3 & P3 & M3 & E3).
  exists d3. split; [exact P3|]. split.
  - intros a x. rewrite M3, M2', M2. case_decide.
    { rewrite take_ge; [f_equal; lia|]. rewrite length_drop, Hlen, Hbuf. unfold BLOCK_SIZE. lia. }
    rewrite M1', M1. case_decide; [|done]. f_equal. rewrite Hbuf.
    by replace (Z.to_nat (b_data b - b_data b)) with 0%nat by lia.
  - cbn zeta. rewrite E3.
    set (gg := fun r => counted (advance r)).
    assert (Hserve : serves gg) by (by intros []).
    assert (Hk : served counted cur (served advance cur k) = served gg cur k)
      by exact (served_served counted advance cur k). rewrite Hk.
    rewrite (bind_ret _ _ _ _ _ (end_run 1 s c _ _ d3 cur l _ bh b
      (served_queue _ _ _ _ _ Hserve Hq) (served_lookup _ _ _ _ Er) Eb B S1 S2 S3)).
    done.
Qed.

(** The states of the tasks once the sleepers have been woken. *)
Lemma all_woken_state k r b s t :
  sound (b_wait b) s -> sound (waiting r) s -> sound (wait_for_request k) s ->
  state_of (all_woken k r b s) t =
    if decide (b_wait b = Some t \/ waiting r = Some t \/ wait_for_request k = Some t)
    then Some TASK_RUNNING else state_of s t.
Proof.
  intros S1 S2 S3. unfold all_woken.
  rewrite !woken_state by (try apply woken_sound; try apply woken_sound; done).
  repeat case_decide; tauto.
Qed.

(** C9.  Reading a block.  do_hd_request() and the two interrupts that the
    drive answers with leave the two sectors of the disk, in order, in the
    block of the buffer, which is unlocked and up to date; the request has
    left the queue, whose invariant holds for the rest, the tasks that waited
    can run, nothing else has changed in the cache or on the disk, and the
    driver goes on with the next request. *)
Theorem read_transfer fuel s c k v d cur l r bh b part h drive lba :
  to_serve s c k v d cur l r bh b part h drive lba -> cmd r = READ ->
  exists m1, do_hd_request (S fuel) (Machine s c k v d) = Ret tt m1 /\
  forall d1, settled (m_disk m1) d1 ->
  exists m2, hd_interrupt fuel (with_disk d1 m1) = Ret tt m2 /\
  forall d2, settled (m_disk m2) d2 ->
  exists m3, hd_interrupt fuel (with_disk d2 m2) = do_hd_request fuel m3 /\
    (l = [] -> hd_interrupt fuel (with_disk d2 m2) = Ret tt m3) /\
    io_inv (m_cache m3) (m_blk m3) MAJOR_NR l /\
    bufs (m_cache m3) !! bh =
      Some (finished 1 (b <| b_bytes := media d drive lba ++ media d drive (lba + 1) |>)) /\
    (forall j, j <> bh -> bufs (m_cache m3) !! j = bufs c !! j) /\
    ph (m_disk m3) = Idle /\ (forall a x, media (m_disk m3) a x = media d a x) /\
    forall t, state_of (m_sched m3) t =
      if decide (b_wait b = Some t \/ waiting r = Some t \/ wait_for_request k = Some t)
      then Some TASK_RUNNING else state_of s t.
Proof.
  intros Hts Ec. destruct (read_transfer_run fuel _ _ _ _ _ _ _ _ _ _ _ _ _ _ Hts Ec) as (m1 & E1 & H1).
  exists m1. split; [done|]. intros d1 Hd1. destruct (H1 d1 Hd1) as (m2 & E2 & H2).
  exists m2. split; [done|]. intros d2 Hd2. destruct (H2 d2 Hd2) as (d3 & P3 & M3 & E3).
  clear H1 H2. destruct Hts as [Hio Er Eb B Ha Hbuf Hlen Hn2 Hin Hg Hr0 Hc0 Hp Hd S1 S2 S3].
  set (g := fun b => b <| b_bytes := media d drive lba ++ media d drive (lba + 1) |>).
  assert (Hfin : io_inv (touch (fun b => finished 1 (g b)) bh c)
    (popped MAJOR_NR cur (served (fun r => advance_read (advance_read r)) cur k)) MAJOR_NR l).
  { rewrite <-(touch_touch (finished 1) g). apply (popped_io _ _ _ _ _ _ _ r); try done.
    by apply touch_io. }
  eexists. split; [exact E3|]. split_and!; try done.
  - intros ->. cbn zeta in E3. rewrite E3. apply no_request, Hfin.
  - by apply (touch_lookup (fun b => finished 1 (g b))).
  - intros j Hj. by apply touch_other.
  - intros t. by apply all_woken_state.
Qed.

(** C33.  Writing a block.  The same for a write: after the two interrupts
    the two sectors of the disk are the two halves of the block, every other
    sector is as it was, and so is the contents of every buffer. *)
Theorem write_transfer fuel s c k v d cur l r bh b part h drive lba :
  to_serve s c k v d cur l r bh b part h drive lba -> cmd r = WRITE ->
  exists m1, do_hd_request (S fuel) (Machine s c k v d) = Ret tt m1 /\
  forall d1, settled (m_disk m1) d1 ->
  exists m2, hd_interrupt fuel (with_disk d1 m1) = Ret tt m2 /\
  forall d2, settled (m_disk m2) d2 ->
  exists m3, hd_interrupt fuel (with_disk d2 m2) = do_hd_request fuel m3 /\
    (l = [] -> hd_interrupt fuel (with_disk d2 m2) = Ret tt m3) /\
    io_inv (m_cache m3) (m_blk m3) MAJOR_NR l /\
    media (m_disk m3) drive lba ++ media (m_disk m3) drive (lba + 1) = b_bytes b /\
    (forall a x, a <> drive \/ x <> lba /\ x <> lba + 1 -> media (m_disk m3) a x = media d a x) /\
    bufs (m_cache m3) !! bh = Some (finished 1 b) /\
    (forall j, j <> bh -> bufs (m_cache m3) !! j = bufs c !! j) /\
    ph (m_disk m3) = Idle /\
    forall t, state_of (m_sched m3) t =
      if decide (b_wait b = Some t \/ waiting r = Some t \/ wait_for_request k = Some t)
      then Some TASK_RUNNING else state_of s t.
Proof.
  intros Hts Ec. destruct (write_transfer_run fuel _ _ _ _ _ _ _ _ _ _ _ _ _ _ Hts Ec) as (m1 & E1 & H1).
  exists m1. split; [done|]. intros d1 Hd1. destruct (H1 d1 Hd1) as (m2 & E2 & H2).
  exists m2. split; [done|]. intros d2 Hd2. destruct (H2 d2 Hd2) as (d3 & P3 & M3 & E3).
  clear H1 H2. destruct Hts as [Hio Er Eb B Ha Hbuf Hlen Hn2 Hin Hg Hr0 Hc0 Hp Hd S1 S2 S3].
  assert (Hfin : io_inv (touch (finished 1) bh c)
    (popped MAJOR_NR cur (served (fun r => counted (advance r)) cur k)) MAJOR_NR l).
  { by apply (popped_io _ _ _ _ _ _ _ r). }
  eexists. split; [exact E3|]. split_and!; try done.
  - intros ->. cbn zeta in E3. rewrite E3. apply no_request, Hfin.
  - cbn [m_disk]. rewrite !M3. repeat case_decide; try lia. apply take_drop.
  - intros a x Hax. cbn [m_disk]. rewrite M3. repeat case_decide; try done; lia.
  - by apply touch_lookup.
  - intros j Hj. by apply touch_other.
  - intros t. by apply all_woken_state.
Qed.

(** ** Errors *)

Definition failed (r : request) : request := r <| errors ::= fun n => s32 (n + 1) |>.
Lemma failed_serves : serves failed.
Proof. by intros []. Qed.

(** C34.  An error of the drive.  Up to the sixth time the request stays at
    the head of the queue, with its errors counted, and from the fourth on
    the controller is to be reset.  The seventh time it is ended: its buffer
    is unlocked and not up to date, and it leaves the queue.  The code then
    looks at the errors of the next request, which it takes through a NULL
    pointer when the queue is empty. *)
Theorem bad_rw_intr_spec s c k v d cur l r bh b :
  io_inv c k MAJOR_NR (cur :: l) -> requests k !! cur = Some r -> r_bh r = Some bh ->
  bufs c !! bh = Some b -> 0 <= errors r <= 6 ->
  sound (b_wait b) s -> sound (waiting r) s -> sound (wait_for_request k) s ->
  (errors r < 6 ->
     exists k', bad_rw_intr (Machine s c k v d) =
         Ret tt (Machine s c k' (if 3 <=? errors r then v <| reset := 1 |> else v) d) /\
       io_inv c k' MAJOR_NR (cur :: l) /\
       exists r', requests k' !! cur = Some r' /\ errors r' = errors r + 1) /\
  (errors r = 6 ->
     exists s' k', io_inv (touch (finished 0) bh c) k' MAJOR_NR l /\
       (l = [] -> bad_rw_intr (Machine s c k v d) =
                    Stop Fault (Machine s' (touch (finished 0) bh c) k' v d)) /\
       (forall i l' r', l = i :: l' -> requests k !! i = Some r' ->
          bad_rw_intr (Machine s c k v d) = Ret tt (Machine s' (touch (finished 0) bh c) k'
            (if 3 <? errors r' then v <| reset := 1 |> else v) d))).
Proof.
  intros Hio Er Eb B He S1 S2 S3. pose proof (i_queue _ _ _ (io_queue _ _ _ _ Hio)) as Hq.
  pose proof (served_queue failed cur _ _ _ failed_serves Hq) as Hq1.
  pose proof (served_lookup failed _ _ _ Er) as Er1.
  assert (Herr : errors (failed r) = errors r + 1) by (cbn; apply s32_small; lia).
  assert (Hrun : bad_rw_intr (Machine s c k v d) =
    (when (MAX_ERRORS <=? errors r + 1) (end_request 0) ;;
     let! r := current_req in
     when (MAX_ERRORS / 2 <? errors r) (set_drv (fun v => v <| reset := 1 |>)))
    (Machine s c (served failed cur k) v d)).
  { unfold bad_rw_intr. rewrite (bind_ret _ _ _ _ _ (set_req_run _ _ _ _ _ _ _ _ _ Hq Er)).
    rewrite (bind_ret _ _ _ _ _ (current_req_run _ _ _ _ _ _ _ _ Hq1 Er1)). by rewrite Herr. }
  rewrite Hrun. clear Hrun. unfold MAX_ERRORS. split; intros H6.
  - exists (served failed cur k). rewrite (proj2 (Z.leb_gt 7 (errors r + 1))) by lia. split_and!.
    + rewrite bind_when_false by done.
      rewrite (bind_ret _ _ _ _ _ (current_req_run _ _ _ _ _ _ _ _ Hq1 Er1)). rewrite Herr.
      change (7 / 2) with 3. destruct (Z.ltb_spec 3 (errors r + 1)), (Z.leb_spec 3 (errors r)); done || lia.
    + by apply served_io; [apply failed_serves|intros []|].
    + eauto.
  - set (k' := popped MAJOR_NR cur (served failed cur k)).
    exists (all_woken (served failed cur k) (failed r) b s), k'.
    assert (Hio' : io_inv (touch (finished 0) bh c) k' MAJOR_NR l)
      by (by apply (popped_io _ _ _ _ _ _ _ r); [|apply failed_serves|..]).
    pose proof (i_queue _ _ _ (io_queue _ _ _ _ Hio')) as Hq'.
    rewrite (proj2 (Z.leb_le 7 (errors r + 1))) by lia. rewrite bind_when_true by done.
    rewrite (bind_ret _ _ _ _ _ (end_run 0 s c _ v d cur l _ bh b Hq1 Er1 Eb B S1 S2 S3)).
    fold k'. split_and!; [done| |].
    + intros ->. unfold current_req, bind. by rewrite (CURRENT_none _ _ _ _ _ Hq').
    + intros i l' r' -> Ei. pose proof (q_nodup _ _ _ Hq) as Hnd. apply NoDup_cons in Hnd as [Hcur _].
      assert (Ei' : requests k' !! i = Some r').
      { unfold k'. cbn. by rewrite !list_lookup_alter_ne by set_solver. }
      rewrite (bind_ret _ _ _ _ _ (current_req_run _ _ _ _ _ _ _ _ Hq' Ei')).
      change (7 / 2) with 3. by destruct (3 <? errors r').
Qed.
End controller.

(** ** A drive *)

Module Sample.

(** A drive that is always ready at once. *)
Record sdisk := SDisk { s_media : Z -> Z -> list Z; s_tf : Z -> Z; s_ph : phase }.

Definition s_read (d : sdisk) (drive lba : Z) : list Z :=
  take 512 (s_media d drive lba ++ replicate 512 0).
Definition set_tf (i v : Z) (t : Z -> Z) (j : Z) : Z := if decide (j = i) then v else t j.
Definition set_media (drive lba : Z) (l : list Z) (m : Z -> Z -> list Z) (a x : Z) : list Z :=
  if decide (a = drive /\ x = lba) then l else m a x.

Definition s_status (d : sdisk) : Z := if decide (s_ph d = Idle) then 0x50 else 0x58.

(** 16 heads, 63 sectors a track. *)
Definition heads16 (_ : Z) : Z := 16.
Definition spt63 (_ : Z) : Z := 63.

Definition s_command (v : Z) (d : sdisk) : phase :=
  match s_ph d with
  | Idle =>
      let go := fun mk : Z -> Z -> nat -> phase => mk (tf_drive (s_tf d))
        (tf_lba heads16 spt63 (s_tf d)) (Z.to_nat (s_tf d 2)) in
      if v =? WIN_READ then go Reading else if v =? WIN_WRITE then go Writing else Idle
  | p => p
  end.

#[global] Instance sample_disk : Disk sdisk := {
  d_inb port d := (if port =? HD_STATUS then s_status d else 0, d);
  d_outb port v d :=
    if (HD_DATA <? port) && (port <? HD_DATA + 7) then
      SDisk (s_media d) (set_tf (port - HD_DATA) v (s_tf d)) (s_ph d)
    else if port =? HD_DATA + 7 then SDisk (s_media d) (s_tf d) (s_command v d)
    else d;
  d_insw port n d :=
    match s_ph d with
    | Reading drive lba (S m) =>
        (s_read d drive lba, SDisk (s_media d) (s_tf d) (next_phase Reading drive lba m))
    | _ => ([], d)
    end;
  d_outsw port l d :=
    match s_ph d with
    | Writing drive lba (S m) =>
        SDisk (set_media drive lba l (s_media d)) (s_tf d) (next_phase Writing drive lba m)
    | _ => d
    end
}.

#[global] Program Instance sample_ok : DiskOk sdisk heads16 spt63 := {
  media := s_read; tf := s_tf; ph := s_ph; delay _ := O
}.
Next Obligation. done. Qed.
Next Obligation.
  intros d _. eexists _, _. split; [done|]. unfold s_status. cbn.
  destruct (decide (s_ph d = Idle)) as [E|E].
  - rewrite bool_decide_false by (intros H; by apply H). by split_and!.
  - rewrite bool_decide_true by done. by split_and!.
Qed.
Next Obligation. intros d v _. by split_and!. Qed.
Next Obligation.
  intros d i v _ Hi Hv. cbn. unfold HD_DATA.
  rewrite (proj2 (Z.ltb_lt _ _)), (proj2 (Z.ltb_lt _ _)) by lia. cbn.
  split_and!; [done..|]. intros j. unfold set_tf. by replace (496 + i - 496) with i by lia.
Qed.
Next Obligation.
  intros d rw _ Hp _ Hrw. cbn. unfold s_command. rewrite Hp.
  split_and!; [|lia|done]. by destruct Hrw as [->| ->].
Qed.
Next Obligation.
  intros d drive lba n _ Hp. cbn. rewrite Hp. eexists. split; [done|]. split_and!; [|done|cbn; lia|done].
  unfold s_read. rewrite length_take, length_app, length_replicate. lia.
Qed.
Next Obligation.
  intros d drive lba n l _ Hp Hl. cbn. rewrite Hp. split_and!; [done|cbn; lia|].
  intros a x. unfold s_read, set_media. cbn. case_decide; [|done]. by apply take_app_length'.
Qed.
End Sample.

(** The request of Blk.v for block 5 of the first partition, which starts at
    sector 63 of the first drive. *)
Definition zeros (b : buffer_head) : buffer_head := b <| b_bytes := replicate (Z.to_nat BLOCK_SIZE) 0 |>.
Definition sample_cache : cache := touch zeros 0 (submitted 0 one_block).
Definition sample_info : hd_i_struct := HdInfo 16 63 1000 0 0 0.
Definition sample_driver : driver :=
  Driver [HdStruct 0 1008000; HdStruct 63 1000; HdStruct 0 0; HdStruct 0 0; HdStruct 0 0]
    [sample_info; sample_info] 1 0 0 None 0.
Definition sample_drive : Sample.sdisk := Sample.SDisk (fun _ lba => [lba]) (fun _ => 0) Idle.

Lemma one_block_data : b_data <$> bufs one_block = [1050732; 1049708; 1048684] /\
  length (bufs one_block) = 3%nat.
Proof. vm_compute. done. Qed.
#[local] Opaque one_block.

Lemma sample_apart : apart_blocks sample_cache.
Proof.
  assert (H : apart_blocks one_block).
  { intros i j b b' Bi Bj Hij. destruct one_block_data as [Hd Hl].
    pose proof (f_equal (.!! i) Hd) as Ei. pose proof (f_equal (.!! j) Hd) as Ej. cbn in Ei, Ej.
    rewrite list_lookup_fmap, Bi in Ei. rewrite list_lookup_fmap, Bj in Ej. cbn in Ei, Ej.
    unfold BLOCK_SIZE.
    clear Hd Hl Bi Bj.
    destruct i as [|[|[|i]]], j as [|[|[|j]]]; cbn in Ei, Ej;
      first [discriminate Ei|discriminate Ej|by destruct Hij|injection Ei as Ei; injection Ej as Ej; lia]. }
  unfold sample_cache, submitted. by do 3 (apply touch_apart; [done|]).
Qed.

Lemma sample_request rw i : rw = READ /\ i = 31%nat \/ rw = WRITE /\ i = 20%nat ->
  exists k r b, to_serve Sample.heads16 Sample.spt63 two_tasks sample_cache k sample_driver
    sample_drive i [] r 0 b (HdStruct 63 1000) sample_info 0 73 /\ cmd r = rw /\
    b_bytes b = replicate (Z.to_nat BLOCK_SIZE) 0.
Proof.
  intros Hrw.
  destruct (one_queued rw i Hrw)
    as (k & r & b & Hio & Er & Eb & Ew & Hw & B & Bw & Hd & Hc & Hs & Hn & Hbuf & He).
  exists k, r, (zeros b). split_and!; [|done|done]. split.
  - by apply touch_io.
  - done.
  - done.
  - by apply (touch_lookup zeros).
  - apply sample_apart.
  - done.
  - apply length_replicate.
  - done.
  - split; rewrite ?Hd, ?Hs; try done; cbn; lia.
  - by split; cbn.
  - done.
  - done.
  - done.
  - cbn. lia.
  - change (b_wait (zeros b)) with (b_wait b). rewrite Bw. by intros t.
  - rewrite Ew. by intros t.
  - rewrite Hw. by intros t.
Qed.

Example read_transfer_witness :
  exists k r b m3, to_serve Sample.heads16 Sample.spt63 two_tasks sample_cache k sample_driver
      sample_drive 31 [] r 0 b (HdStruct 63 1000) sample_info 0 73 /\
    (let! _ := do_hd_request 1 in let! _ := hd_interrupt 0 in hd_interrupt 0)
      (Machine two_tasks sample_cache k sample_driver sample_drive) = Ret tt m3 /\
    b_bytes <$> bufs (m_cache m3) !! 0%nat =
      Some (73 :: replicate 511 0 ++ 74 :: replicate 511 0).
Proof.
  destruct (sample_request READ 31) as (k & r & b & Hts & Hc & Hb); [by left|].
  destruct (read_transfer Sample.heads16 Sample.spt63 0 _ _ _ _ _ _ _ _ _ _ _ _ _ _ Hts Hc)
    as (m1 & E1 & H1).
  destruct (H1 (m_disk m1)) as (m2 & E2 & H2); [by split; [apply keeps_refl|]|].
  destruct (H2 (m_disk m2)) as (m3 & _ & E3 & _ & B3 & _); [by split; [apply keeps_refl|]|].
  exists k, r, b, m3. split; [exact Hts|]. split.
  - rewrite (bind_ret _ _ _ _ _ E1). destruct m1 as [s1 c1 k1 v1 d1].
    rewrite (bind_ret _ _ _ _ _ E2). destruct m2 as [s2 c2 k2 v2 d2]. exact (E3 eq_refl).
  - rewrite B3. reflexivity.
Defined.

Example write_transfer_witness :
  exists k r b m3, to_serve Sample.heads16 Sample.spt63 two_tasks sample_cache k sample_driver
      sample_drive 20 [] r 0 b (HdStruct 63 1000) sample_info 0 73 /\
    (let! _ := do_hd_request 1 in let! _ := hd_interrupt 0 in hd_interrupt 0)
      (Machine two_tasks sample_cache k sample_driver sample_drive) = Ret tt m3 /\
    Sample.s_read (m_disk m3) 0 73 ++ Sample.s_read (m_disk m3) 0 74 = replicate 1024 0.
Proof.
  destruct (sample_request WRITE 20) as (k & r & b & Hts & Hc & Hb); [by right|].
  destruct (write_transfer Sample.heads16 Sample.spt63 0 _ _ _ _ _ _ _ _ _ _ _ _ _ _ Hts Hc)
    as (m1 & E1 & H1).
  destruct (H1 (m_disk m1)) as (m2 & E2 & H2); [by split; [apply keeps_refl|]|].
  destruct (H2 (m_disk m2)) as (m3 & _ & E3 & _ & M3 & _); [by split; [apply keeps_refl|]|].
  exists k, r, b, m3. split; [exact Hts|]. split.
  - rewrite (bind_ret _ _ _ _ _ E1). destruct m1 as [s1 c1 k1 v1 d1].
    rewrite (bind_ret _ _ _ _ _ E2). destruct m2 as [s2 c2 k2 v2 d2]. exact (E3 eq_refl).
  - exact (eq_trans M3 Hb).
Defined.

Example bad_rw_intr_spec_witness :
  exists k k', bad_rw_intr (Machine two_tasks sample_cache k sample_driver sample_drive) =
      Ret tt (Machine two_tasks sample_cache k' sample_driver sample_drive) /\
    errors <$> requests k !! 31%nat = Some 0 /\ errors <$> requests k' !! 31%nat = Some 1.
Proof.
  destruct (one_queued READ 31)
    as (k & r & b & Hio & Er & Eb & Ew & Hw & B & Bw & _ & _ & _ & _ & _ & He); [by left|].
  destruct (bad_rw_intr_spec two_tasks sample_cache k sample_driver sample_drive 31 [] r 0 (zeros b))
    as [H _].
  - by apply touch_io.
  - exact Er.
  - exact Eb.
  - by apply (touch_lookup zeros).
  - lia.
  - change (b_wait (zeros b)) with (b_wait b). rewrite Bw. by intros t.
  - rewrite Ew. by intros t.
  - rewrite Hw. by intros t.
  - destruct H as (k' & E & _ & r' & Er' & He'); [lia|]. exists k, k'.
    rewrite Er, Er'. cbn. rewrite He', He. split; [|done]. rewrite E, He. done.
Defined.
