(* ===== verification/Fork.v ===== *)
(** * fork(): kernel/fork.c and schedule_init() of kernel/schedule.c

    The parts of the kernel that a new process touches: the task table, the
    pages and page tables, the descriptors of the gdt, and the reference
    counts of the open files and of the inodes.  [task_page] is the page that
    the struct of a task lies in: the model has the contents of the struct in
    the task table and its address here. *)

From S2P Require Import Prelude Task Sched Desc Mem.

Definition ENOMEM : Z := 12.

Record kern := Kern {
  k_sched : sched;
  k_mm : mm;
  k_gdt : list desc_struct;
  f_count : list Z;
  i_count : list Z;
  task_page : list Z
}.
#[export] Instance eta_kern : Eta kern := fun k =>
  Kern (k_sched k) (k_mm k) (k_gdt k) (f_count k) (i_count k) (task_page k).

Definition ksched_l : lens kern sched := Lens k_sched (fun s k => k <| k_sched := s |>).
Definition kmm_l : lens kern mm := Lens k_mm (fun s k => k <| k_mm := s |>).

(** The stack frame of sys_fork. *)
Record frame := Frame {
  r_ebp : Z; r_edi : Z; r_esi : Z; r_gs : Z; r_ebx : Z; r_ecx : Z; r_edx : Z;
  r_fs : Z; r_es : Z; r_ds : Z; r_eip : Z; r_cs : Z; r_eflags : Z; r_esp : Z; r_ss : Z
}.

(** The offsets of [ldt] and [tss] in task_struct. *)
Definition offset_ldt : Z := 172.
Definition offset_tss : Z := 196.

(** The struct of the child as copy_process() fills it in, up to the call of
    copy_mem(); [p] is its address, [dir] the page directory. *)
Definition child_tss (r : frame) (t : tss_struct) (nr p dir : Z) : tss_struct :=
  {| back_link := 0; esp0 := u32 (Mem.PAGE_SIZE + p); ss0 := 0x10;
     esp1 := esp1 t; ss1 := ss1 t; esp2 := esp2 t; ss2 := ss2 t;
     cr3 := dir; eip := r_eip r; eflags := r_eflags r;
     eax := 0; ecx := r_ecx r; edx := r_edx r; ebx := r_ebx r;
     esp := r_esp r; ebp := r_ebp r; esi := r_esi r; edi := r_edi r;
     es := Z.land (r_es r) 0xffff; cs := Z.land (r_cs r) 0xffff;
     ss := Z.land (r_ss r) 0xffff; ds := Z.land (r_ds r) 0xffff;
     fs := Z.land (r_fs r) 0xffff; gs := Z.land (r_gs r) 0xffff;
     tss_ldt := _LDT nr; trace_bitmap := s32 0x80000000 |}.
Definition child_of (r : frame) (c : task_struct) (nr p dir pid' : Z) : task_struct :=
  {| state := TASK_UNINTERRUPTIBLE; counter := priority c; priority := priority c;
     pid := pid'; father := pid c; pgrp := pgrp c; session := session c; leader := 0;
     tty := tty c; umask := umask c;
     pwd := pwd c; root := root c; executable := executable c;
     close_on_exec := close_on_exec c;
     uid := uid c; euid := euid c; suid := suid c; gid := gid c; egid := egid c; sgid := sgid c;
     filp := filp c; exit_code := exit_code c;
     start_code := start_code c; end_code := end_code c; end_data := end_data c;
     brk := brk c; start_stack := start_stack c;
     ldt := ldt c; tss := child_tss r (tss c) nr p dir |}.

Definition the_task (i : nat) : M kern task_struct :=
  let! k := get in deref (task_at (k_sched k) i).
(** [task[nr] = o], inside of the table. *)
Definition put_task (nr : nat) (o : option task_struct) : M kern unit :=
  let! k := get in
  let! _ := deref (task (k_sched k) !! nr) in
  modify (fun k => k <| k_sched ::= fun s => s <| task ::= <[nr := o]> |> |>).
Definition put_gdt (i : Z) (f : desc_struct -> desc_struct) : M kern unit :=
  let! k := get in
  let! d := deref (zget (k_gdt k) i) in
  modify (fun k => k <| k_gdt ::= zset i (f d) |>).

(** [f->f_count++] and [...->i_count++]; a pointer that is NULL is skipped. *)
Definition bump_file (o : option nat) : M kern unit :=
  match o with
  | None => ret tt
  | Some i =>
      let! k := get in
      let! n := deref (f_count k !! i) in
      modify (fun k => k <| f_count ::= <[i := u16 (n + 1)]> |>)
  end.
Definition bump_inode (o : option nat) : M kern unit :=
  match o with
  | None => ret tt
  | Some i =>
      let! k := get in
      let! n := deref (i_count k !! i) in
      modify (fun k => k <| i_count ::= <[i := u16 (n + 1)]> |>)
  end.
Fixpoint bump_files (l : list (option nat)) : M kern unit :=
  match l with
  | [] => ret tt
  | o :: l' => bump_file o ;; bump_files l'
  end.

Definition copy_mem (nr : nat) : M kern Z :=
  let! k := get in
  let! c := the_task (current (k_sched k)) in
  let! code := deref (ldt c !! 1%nat) in
  let! data := deref (ldt c !! 2%nat) in
  let data_limit := get_limit data in
  let old_data_base := get_base data in
  let new_data_base := u32 (Z.of_nat nr * 0x4000000) in
  let! p := the_task nr in
  let! d1 := deref (ldt p !! 1%nat) in
  put_task nr (Some (p <| ldt ::= <[1%nat := set_base d1 new_data_base]> |>)) ;;
  let! p := the_task nr in
  let! d2 := deref (ldt p !! 2%nat) in
  put_task nr (Some (p <| ldt ::= <[2%nat := set_base d2 new_data_base]> |>)) ;;
  let! r := zoom kmm_l (copy_page_tables old_data_base new_data_base data_limit) in
  ret (if truth r then - ENOMEM else 0).

Definition copy_process (nr : nat) (r : frame) : M kern Z :=
  let! p := zoom kmm_l get_free_page in
  if p =? 0 then ret (- EAGAIN)
  else
    let! k := get in
    let! c := the_task (current (k_sched k)) in
    put_task nr (Some (child_of r c (Z.of_nat nr) p (pg_dir (k_mm k)) (last_pid (k_sched k)))) ;;
    modify (fun k => k <| task_page ::= <[nr := p]> |>) ;;
    let! e := copy_mem nr in
    if truth e then
      put_task nr None ;;
      zoom kmm_l (free_page p) ;;
      ret (- EAGAIN)
    else
      let! q := the_task nr in
      bump_files (take NR_OPEN (filp q)) ;;
      let! k := get in
      let! c := the_task (current (k_sched k)) in
      bump_inode (pwd c) ;;
      bump_inode (root c) ;;
      bump_inode (executable c) ;;
      put_gdt (Z.of_nat nr * 2 + FIRST_TSS_ENTRY) (fun d => set_tss_desc d (p + offset_tss)) ;;
      put_gdt (Z.of_nat nr * 2 + FIRST_LDT_ENTRY) (fun d => set_ldt_desc d (p + offset_ldt)) ;;
      let! q := the_task nr in
      put_task nr (Some (q <| state := TASK_RUNNING |>)) ;;
      let! k := get in
      ret (last_pid (k_sched k)).

(** sys_fork of arch/x86/asm/system_call.S. *)
Definition sys_fork (fuel : nat) (r : frame) : M kern Z :=
  let! nr := zoom ksched_l (find_empty_process fuel) in
  if nr <? 0 then ret nr else copy_process (Z.to_nat nr) r.

(** schedule_init(): the descriptors of the first task, and no other task;
    [init_task] is the address of its struct.  The timer and the gates are
    left out. *)
Fixpoint clear_tasks (n : nat) (i : nat) : M kern unit :=
  match n with
  | O => ret tt
  | S n' =>
      put_task i None ;;
      put_gdt (Z.of_nat i * 2 + FIRST_TSS_ENTRY) (fun _ => Desc 0 0) ;;
      put_gdt (Z.of_nat i * 2 + FIRST_TSS_ENTRY + 1) (fun _ => Desc 0 0) ;;
      clear_tasks n' (S i)
  end.
Definition schedule_init (init_task : Z) : M kern unit :=
  put_gdt FIRST_TSS_ENTRY (fun d => set_tss_desc d (init_task + offset_tss)) ;;
  put_gdt FIRST_LDT_ENTRY (fun d => set_ldt_desc d (init_task + offset_ldt)) ;;
  clear_tasks (NR_TASKS - 1) 1.

(** ** The parts of copy_process() *)

(** Allocating a page leaves the tables of the parent as they are. *)
Lemma got_page_ram s s' nr a : got_page s s' nr -> safe s a -> ram s' a = ram s a.
Proof.
  intros G Hs. rewrite (gp_ram _ _ _ G). rewrite decide_False; [done|].
  destruct (gp_free _ _ _ G) as (Hr & H0 & _). destruct (Hs nr Hr H0); lia.
Qed.
Lemma got_page_mono s s' nr k : got_page s s' nr -> 0 < refs s k -> 0 < refs s' k.
Proof. intros G H. rewrite (gp_refs _ _ _ G). case_decide; lia. Qed.

Lemma got_page_dirs s s' nr n from to :
  got_page s s' nr -> dirs_ok s n from to ->
  dirs_ok s' n from to /\
  (forall i, (i < n)%nat -> dir_present s' from i = dir_present s from i) /\
  (forall i j, (i < n)%nat -> (j < 1024)%nat -> dir_present s from i = true ->
     table_slot s' from i j = table_slot s from i j /\
     ram s' (table_slot s from i j) = ram s (table_slot s from i j)).
Proof.
  intros G D. pose proof (do_wf _ _ _ _ D) as Hw.
  assert (Hm : forall a, safe s a -> safe s' a).
  { intros a. apply mono_safe; [done|]. intros k. by eapply got_page_mono. }
  assert (Hf : forall i, (i < n)%nat -> ram s' (slot from i) = ram s (slot from i)).
  { intros i Hi. apply (got_page_ram _ _ nr); [done|]. by apply (do_safe _ _ _ _ D). }
  assert (Hp : forall i, (i < n)%nat -> dir_present s' from i = dir_present s from i).
  { intros i Hi. unfold dir_present. by rewrite Hf. }
  assert (Ht : forall i j, (i < n)%nat -> table_slot s' from i j = table_slot s from i j).
  { intros i j Hi. unfold table_slot. by rewrite Hf. }
  assert (Hr : forall i j, (i < n)%nat -> (j < 1024)%nat -> dir_present s from i = true ->
    ram s' (table_slot s from i j) = ram s (table_slot s from i j)).
  { intros i j Hi Hj Hpr. apply (got_page_ram _ _ nr); [done|]. by apply (do_tables _ _ _ _ D). }
  split_and!; [|done|by auto].
  split.
  - apply G.
  - apply D.
  - intros i Hi. destruct (do_safe _ _ _ _ D i Hi). auto.
  - intros i j Hi Hj. rewrite Hp, Ht by done. intros Hpr. rewrite Hr by done.
    destruct (do_tables _ _ _ _ D i j Hi Hj Hpr) as (H1 & H2 & H3 & H4).
    split_and!; [by apply Hm|done| |done]. intros Hs. by eapply got_page_mono, H3.
  - intros i i' j j' Hi Hi' Hj Hj'. rewrite !Hp, !Ht by done. by apply (do_distinct _ _ _ _ D).
Qed.

(** How often a pointer occurs, and the counts after that many increments. *)
Definition occ (i : nat) (l : list (option nat)) : Z :=
  Z.of_nat (length (filter (.= Some i) l)).
Definition counted (l : list (option nat)) (c c' : list Z) : Prop :=
  length c' = length c /\ forall i, c' !! i = (fun n => u16 (n + occ i l)) <$> c !! i.
Definition in_table (c : list Z) (l : list (option nat)) : Prop :=
  forall i, Some i ∈ l -> (i < length c)%nat.
Definition half_words (c : list Z) : Prop := Forall (fun n => 0 <= n < 2 ^ 16) c.

Lemma occ_cons i o l : occ i (o :: l) = (if decide (o = Some i) then 1 else 0) + occ i l.
Proof. unfold occ. rewrite filter_cons. case_decide; cbn [length]; lia. Qed.

Lemma counted_nil c : half_words c -> counted [] c c.
Proof.
  intros H. split; [done|]. intros i. destruct (c !! i) as [n|] eqn:E; [|done]. cbn.
  rewrite Z.add_0_r, u16_small; [done|]. by apply (proj1 (Forall_lookup _ _) H i).
Qed.
Lemma counted_cons o l c c' :
  counted l (match o with Some i => alter (fun n => u16 (n + 1)) i c | None => c end) c' ->
  counted (o :: l) c c'.
Proof.
  intros [Hl H]. split; [destruct o; by rewrite ?Hl, ?length_alter in *|].
  intros i. rewrite H, occ_cons. destruct o as [j|]; [|rewrite decide_False by done; done].
  destruct (decide (Some j = Some i)) as [[= ->]|Hne].
  - rewrite list_lookup_alter_eq. destruct (c !! i) as [n|]; [|done]. cbn. f_equal.
    unfold u16. rewrite Zplus_mod_idemp_l. f_equal. lia.
  - rewrite list_lookup_alter_ne by congruence. done.
Qed.
Lemma half_words_alter c i : half_words c -> half_words (alter (fun n => u16 (n + 1)) i c).
Proof. intros H. apply Forall_alter; [done|]. intros. apply u16_range. Qed.

Lemma insert_alter (c : list Z) i n f : c !! i = Some n -> <[i := f n]> c = alter f i c.
Proof.
  intros E. apply list_eq. intros j. destruct (decide (i = j)) as [<-|].
  - rewrite list_lookup_insert_eq, list_lookup_alter_eq, E by (by eapply lookup_lt_Some). done.
  - by rewrite list_lookup_insert_ne, list_lookup_alter_ne.
Qed.

Lemma bump_files_run l : forall k, half_words (f_count k) -> in_table (f_count k) l ->
  exists c', bump_files l k = Ret tt (k <| f_count := c' |>) /\ counted l (f_count k) c' /\
    half_words c'.
Proof.
  induction l as [|o l IH]; intros k Hh Hin; cbn [bump_files].
  - exists (f_count k). split_and!; [by destruct k|by apply counted_nil|done].
  - destruct o as [i|]; cbn [bump_file].
    + destruct (lookup_lt_is_Some_2 (f_count k) i) as [n En]; [apply Hin; by left|].
      rewrite bind_assoc, bind_get, bind_assoc, (bind_deref _ _ _ _ En), bind_modify.
      destruct (IH (k <| f_count ::= alter (fun n => u16 (n + 1)) i |>)) as (c' & E & Hc & Hh').
      { by apply half_words_alter. }
      { intros j Hj. cbn. rewrite length_alter. apply Hin. by right. }
      exists c'. split_and!; [|by apply counted_cons|done].
      cbn [f_count upd]. rewrite (insert_alter _ _ _ (fun n => u16 (n + 1)) En). exact E.
    + rewrite bind_ret_l. destruct (IH k) as (c' & E & Hc & Hh'); [done|intros j Hj; apply Hin; by right|].
      exists c'. split_and!; [done|by apply counted_cons|done].
Qed.

Lemma in_table_sub c c' l o : length c' = length c -> in_table c l -> o ∈ l -> in_table c' [o].
Proof. intros E H Ho i Hi%list_elem_of_singleton. subst o. rewrite E. by apply H. Qed.

Lemma bump_inodes_run a b c0 k :
  half_words (i_count k) -> in_table (i_count k) [a; b; c0] ->
  exists c', (forall B (K : M kern B),
      (bump_inode a ;; bump_inode b ;; bump_inode c0 ;; K) k = K (k <| i_count := c' |>)) /\
    counted [a; b; c0] (i_count k) c'.
Proof.
  intros Hh Hin.
  assert (Hb : forall o k, half_words (i_count k) -> in_table (i_count k) [o] ->
    let c' := match o with Some i => alter (fun n => u16 (n + 1)) i (i_count k) | None => i_count k end in
    bump_inode o k = Ret tt (k <| i_count := c' |>) /\ half_words c' /\ length c' = length (i_count k)).
  { clear. intros o k Hh Hin. destruct o as [i|]; cbn [bump_inode].
    - destruct (lookup_lt_is_Some_2 (i_count k) i) as [n En]; [apply Hin; by left|].
      rewrite bind_get, (bind_deref _ _ _ _ En). split_and!.
      + unfold modify. f_equal. cbn. by rewrite (insert_alter _ _ _ (fun n => u16 (n + 1)) En).
      + by apply half_words_alter.
      + apply length_alter.
    - split_and!; [by destruct k|done..]. }
  destruct (Hb a k) as (E1 & H1 & L1); [done|by eapply in_table_sub; [|exact Hin|set_solver]|].
  set (k1 := k <| i_count := _ |>) in *.
  destruct (Hb b k1) as (E2 & H2 & L2); [done|by eapply in_table_sub; [exact L1|exact Hin|set_solver]|].
  set (k2 := k1 <| i_count := _ |>) in *.
  destruct (Hb c0 k2) as (E3 & H3 & L3);
    [done|by eapply in_table_sub; [etrans; [exact L2|exact L1]|exact Hin|set_solver]|].
  eexists. split.
  { intros B K. rewrite (bind_ret _ _ _ _ _ E1), (bind_ret _ _ _ _ _ E2), (bind_ret _ _ _ _ _ E3).
    reflexivity. }
  do 3 apply counted_cons. by apply counted_nil.
Qed.

Lemma the_task_run {B} i (f : task_struct -> M kern B) k p :
  task_at (k_sched k) i = Some p -> bind (the_task i) f k = f p k.
Proof. intros E. unfold the_task. by rewrite bind_assoc, bind_get, (bind_deref _ _ _ _ E). Qed.

Definition with_task (nr : nat) (o : option task_struct) (k : kern) : kern :=
  k <| k_sched ::= fun s => s <| task ::= <[nr := o]> |> |>.
Lemma put_task_run {B} nr o (f : unit -> M kern B) k :
  (nr < length (task (k_sched k)))%nat -> bind (put_task nr o) f k = f tt (with_task nr o k).
Proof.
  intros [x E]%lookup_lt_is_Some_2. unfold put_task.
  by rewrite bind_assoc, bind_get, bind_assoc, (bind_deref _ _ _ _ E), bind_modify.
Qed.
Lemma put_gdt_run {B} i g (f : unit -> M kern B) k d :
  zget (k_gdt k) i = Some d ->
  bind (put_gdt i g) f k = f tt (k <| k_gdt ::= zset i (g d) |>).
Proof.
  intros E. unfold put_gdt.
  by rewrite bind_assoc, bind_get, bind_assoc, (bind_deref _ _ _ _ E), bind_modify.
Qed.
Lemma with_task_same nr p k :
  (nr < length (task (k_sched k)))%nat -> task_at (k_sched (with_task nr (Some p) k)) nr = Some p.
Proof. intros H. unfold task_at, with_task. cbn. by rewrite list_lookup_insert_eq. Qed.
Lemma with_task_other nr o k j :
  j <> nr -> task_at (k_sched (with_task nr o k)) j = task_at (k_sched k) j.
Proof. intros H. unfold task_at, with_task. cbn. by rewrite list_lookup_insert_ne. Qed.
Lemma with_task_twice nr o o' k : with_task nr o (with_task nr o' k) = with_task nr o k.
Proof. unfold with_task. cbn. by rewrite list_insert_insert_eq. Qed.
Lemma with_task_length nr o k :
  length (task (k_sched (with_task nr o k))) = length (task (k_sched k)).
Proof. unfold with_task. cbn. apply length_insert. Qed.

(** Every process has 64 MB of the linear address space. *)
Definition space (nr : nat) : Z := u32 (Z.of_nat nr * 0x4000000).
Definition based (nr : nat) (l : list desc_struct) : list desc_struct :=
  match l with
  | [d0; d1; d2] => [d0; set_base d1 (space nr); set_base d2 (space nr)]
  | _ => l
  end.
(** The data segment of a task, and the directory entries that it covers. *)
Definition data_seg (c : task_struct) : desc_struct := default (Desc 0 0) (ldt c !! 2%nat).
Definition nr_dirs (c : task_struct) : nat :=
  Z.to_nat (Z.shiftr (u32 (get_limit (data_seg c) + 0x3fffff)) 22).
Definition dir_of (m : mm) (a : Z) : Z := pg_dir m + 4 * pgdir_idx a.

Definition out_of_pages (w : stop) (k : kern) : Prop :=
  w = Fault /\ forall q, 0 <= q < MM_PAGES -> 0 < refs (k_mm k) q.

(** copy_mem(), for what copy_page_tables() promises of the memory it finds. *)
Lemma copy_mem_run nr k c p (P : mm -> Prop) (Q : stop -> mm -> Prop) :
  task_at (k_sched k) (current (k_sched k)) = Some c -> task_at (k_sched k) nr = Some p ->
  ldt p = ldt c -> length (ldt c) = 3%nat ->
  wp (copy_page_tables (get_base (data_seg c)) (space nr) (get_limit (data_seg c)))
    (fun e m => e = 0 /\ P m) Q (k_mm k) ->
  wp (copy_mem nr)
    (fun e k' => e = 0 /\ exists m, k' = with_task nr (Some (p <| ldt := based nr (ldt c) |>)) k
         <| k_mm := m |> /\ P m)
    (fun w k' => Q w (k_mm k')) k.
Proof.
  intros Hc Hp Hl Hlen D. pose proof (task_at_lt _ _ _ Hp) as Hnr. unfold data_seg in *.
  destruct (ldt c) as [|d0 [|d1 [|d2 [|]]]] eqn:El; try discriminate Hlen.
  change (default (Desc 0 0) ([d0; d1; d2] !! 2%nat)) with d2 in *.
  set (p1 := p <| ldt := [d0; set_base d1 (space nr); d2] |>).
  set (p2 := p <| ldt := based nr [d0; d1; d2] |>).
  assert (E : copy_mem nr k =
    (let! r := zoom kmm_l (copy_page_tables (get_base d2) (space nr) (get_limit d2)) in
     ret (if truth r then - ENOMEM else 0)) (with_task nr (Some p2) k)).
  { unfold copy_mem. rewrite bind_get, (the_task_run _ _ _ _ Hc), El.
    rewrite (bind_deref _ _ _ d1), (bind_deref _ _ _ d2), (the_task_run _ _ _ _ Hp), Hl by done.
    rewrite (bind_deref _ _ _ d1) by done. fold (space nr). rewrite put_task_run by done.
    replace (p <| ldt ::= _ |>) with p1 by (unfold p1; cbn; by rewrite Hl).
    rewrite (the_task_run _ _ _ p1) by (by apply with_task_same).
    rewrite (bind_deref _ _ _ d2) by done.
    rewrite put_task_run, with_task_twice by (by rewrite with_task_length). done. }
  unfold wp at 1. rewrite E. clear E. apply wp_bind, wp_zoom.
  change (lget kmm_l (with_task nr (Some p2) k)) with (k_mm k).
  refine (wp_mono _ _ _ _ _ _ D _ _).
  - intros e m [-> F]. split; [done|]. exists m. split; [reflexivity|exact F].
  - intros w m H. exact H.
Qed.

(** ** copy_process() *)

(** What fork() finds in the tables: task [c] is running, slot [nr] is another
    one, and the pointers of [c] are into the tables. *)
Record parent (k : kern) (c : task_struct) (nr : nat) : Prop := {
  fo_cur : task_at (k_sched k) (current (k_sched k)) = Some c;
  fo_other : current (k_sched k) <> nr;
  fo_slot : (nr < length (task (k_sched k)))%nat;
  fo_ldt : length (ldt c) = 3%nat;
  fo_gdt : (2 * nr + 6 <= length (k_gdt k))%nat;
  fo_filp : length (filp c) = NR_OPEN;
  fo_files : half_words (f_count k) /\ in_table (f_count k) (filp c);
  fo_inodes : half_words (i_count k) /\ in_table (i_count k) [pwd c; root c; executable c]
}.
(** And in memory, in general: there is a free page, and the page tables of
    [c] are its own and can be shared. *)
Record forkable (k : kern) (c : task_struct) (nr : nat) : Prop := {
  fo_parent : parent k c nr;
  fo_page : exists q, 0 <= q < MM_PAGES /\ refs (k_mm k) q = 0;
  fo_dirs : dirs_ok (k_mm k) (nr_dirs c) (dir_of (k_mm k) (get_base (data_seg c)))
              (dir_of (k_mm k) (space nr))
}.

(** The child [ch] of [c] in slot [nr], field by field: [p] is the page of its
    struct, [dir] the page directory, [r] the frame of the system call. *)
Record child_ok (r : frame) (c ch : task_struct) (nr : nat) (p dir pid' : Z) : Prop := {
  ch_new : state ch = 0 /\ counter ch = priority c /\ pid ch = pid' /\
    father ch = pid c /\ leader ch = 0;
  ch_kept : priority ch = priority c /\ pgrp ch = pgrp c /\ session ch = session c /\
    tty ch = tty c /\ umask ch = umask c /\ uid ch = uid c /\ euid ch = euid c /\
    suid ch = suid c /\ gid ch = gid c /\ egid ch = egid c /\ sgid ch = sgid c;
  ch_files : pwd ch = pwd c /\ root ch = root c /\ executable ch = executable c /\
    filp ch = filp c /\ close_on_exec ch = close_on_exec c;
  ch_image : exit_code ch = exit_code c /\ start_code ch = start_code c /\
    end_code ch = end_code c /\ end_data ch = end_data c /\ brk ch = brk c /\
    start_stack ch = start_stack c;
  (* it returns from the system call where the parent does, with 0 *)
  ch_regs : eax (tss ch) = 0 /\ ebx (tss ch) = r_ebx r /\ ecx (tss ch) = r_ecx r /\
    edx (tss ch) = r_edx r /\ esi (tss ch) = r_esi r /\ edi (tss ch) = r_edi r /\
    ebp (tss ch) = r_ebp r /\ esp (tss ch) = r_esp r /\ eip (tss ch) = r_eip r /\
    eflags (tss ch) = r_eflags r;
  ch_segments : cs (tss ch) = r_cs r mod 2 ^ 16 /\ ds (tss ch) = r_ds r mod 2 ^ 16 /\
    es (tss ch) = r_es r mod 2 ^ 16 /\ fs (tss ch) = r_fs r mod 2 ^ 16 /\
    gs (tss ch) = r_gs r mod 2 ^ 16 /\ ss (tss ch) = r_ss r mod 2 ^ 16;
  (* its kernel stack is the rest of the page, in the data segment of the kernel *)
  ch_stack : esp0 (tss ch) = (p + 4096) mod 2 ^ 32 /\ ss0 (tss ch) = 16;
  ch_tss : back_link (tss ch) = 0 /\ cr3 (tss ch) = dir /\
    tss_ldt (tss ch) = 8 * (2 * Z.of_nat nr + 5) /\ trace_bitmap (tss ch) = - 2 ^ 31 /\
    esp1 (tss ch) = esp1 (tss c) /\ ss1 (tss ch) = ss1 (tss c) /\
    esp2 (tss ch) = esp2 (tss c) /\ ss2 (tss ch) = ss2 (tss c);
  (* code and data are at [nr] times 64 MB; nothing else of the ldt differs *)
  ch_ldt : length (ldt ch) = 3%nat /\ ldt ch !! 0%nat = ldt c !! 0%nat /\
    forall i d, (i = 1 \/ i = 2)%nat -> ldt c !! i = Some d ->
      exists d', ldt ch !! i = Some d' /\ get_base d' = (Z.of_nat nr * 2 ^ 26) mod 2 ^ 32 /\
        get_limit d' = get_limit d /\ getbits (d_b d') 8 8 = getbits (d_b d) 8 8 /\
        getbits (d_b d') 20 4 = getbits (d_b d) 20 4
}.

(** A system descriptor: of 105 bytes at [addr]. *)
Definition describes (o : option desc_struct) (addr access : Z) : Prop :=
  exists d, o = Some d /\ get_base d = addr mod 2 ^ 32 /\ get_limit d = 105 /\
    getbits (d_b d) 8 8 = access.
(** The gdt [g'], whose slot [nr] is now that of the struct at [p]: the TSS is
    196 bytes from its start and the LDT 172. *)
Definition gdt_slot (nr : nat) (p : Z) (g g' : list desc_struct) : Prop :=
  describes (zget g' (2 * Z.of_nat nr + 4)) (p + 196) 0x89 /\
  describes (zget g' (2 * Z.of_nat nr + 5)) (p + 172) 0x82 /\
  forall i, i <> 2 * Z.of_nat nr + 4 -> i <> 2 * Z.of_nat nr + 5 -> zget g' i = zget g i.

(** The child, once it is complete. *)
Definition newborn (r : frame) (c : task_struct) (nr : nat) (p dir pid' : Z) : task_struct :=
  (child_of r c (Z.of_nat nr) p dir pid') <| ldt := based nr (ldt c) |> <| state := TASK_RUNNING |>.

Lemma newborn_ok r c nr p dir pid' :
  length (ldt c) = 3%nat -> (nr < NR_TASKS)%nat -> child_ok r c (newborn r c nr p dir pid') nr p dir pid'.
Proof.
  intros Hl Hnr. unfold newborn. split; cbn [child_of child_tss upd state counter pid father
    leader priority pgrp session tty umask uid euid suid gid egid sgid pwd root executable filp
    close_on_exec exit_code start_code end_code end_data brk start_stack tss ldt eax ebx ecx edx
    esi edi ebp esp eip eflags cs ds es fs gs ss esp0 ss0 back_link cr3 tss_ldt trace_bitmap
    esp1 ss1 esp2 ss2]; try (split_and!; done).
  - change 0xffff with (Z.ones 16). rewrite !Z.land_ones by done. done.
  - split; [|done]. unfold u32, Mem.PAGE_SIZE. by rewrite Z.add_comm.
  - split_and!; try done. unfold _LDT. rewrite !Z.shiftl_mul_pow2 by done.
    unfold FIRST_LDT_ENTRY, FIRST_TSS_ENTRY. unfold NR_TASKS in Hnr. rewrite u32_small; lia.
  - destruct (ldt c) as [|d0 [|d1 [|d2 [|]]]]; try done. cbn [based length]. split_and!; [done..|].
    intros i d [->| ->] [= <-]; (eexists; split; [reflexivity|]);
      match goal with |- context [set_base ?e (space nr)] =>
        destruct (get_set_base e (space nr)) as (E & H) end;
      (split; [|exact H]); rewrite E; unfold space, u32; apply Z.mod_mod; done.
Qed.

(** The second half of copy_process(), from the reference counts on. *)
Lemma register_child k nr c q p :
  (nr < length (task (k_sched k)))%nat -> task_at (k_sched k) nr = Some q ->
  task_at (k_sched k) (current (k_sched k)) = Some c -> filp q = filp c ->
  (2 * nr + 6 <= length (k_gdt k))%nat -> length (filp c) = NR_OPEN ->
  half_words (f_count k) -> in_table (f_count k) (filp c) ->
  half_words (i_count k) -> in_table (i_count k) [pwd c; root c; executable c] ->
  exists fc ic g,
    (let! q := the_task nr in
     bump_files (take NR_OPEN (filp q)) ;;
     let! k := get in
     let! c := the_task (current (k_sched k)) in
     bump_inode (pwd c) ;;
     bump_inode (root c) ;;
     bump_inode (executable c) ;;
     put_gdt (Z.of_nat nr * 2 + FIRST_TSS_ENTRY) (fun d => set_tss_desc d (p + offset_tss)) ;;
     put_gdt (Z.of_nat nr * 2 + FIRST_LDT_ENTRY) (fun d => set_ldt_desc d (p + offset_ldt)) ;;
     let! q := the_task nr in
     put_task nr (Some (q <| state := TASK_RUNNING |>)) ;;
     let! k := get in
     ret (last_pid (k_sched k))) k =
    Ret (last_pid (k_sched k))
      (with_task nr (Some (q <| state := TASK_RUNNING |>))
         (k <| f_count := fc |> <| i_count := ic |> <| k_gdt := g |>)) /\
    counted (filp c) (f_count k) fc /\ counted [pwd c; root c; executable c] (i_count k) ic /\
    gdt_slot nr p (k_gdt k) g.
Proof.
  intros Hnr Hq Hc Hfilp Hg Hlen Hf Hfi Hi Hii.
  destruct (bump_files_run (filp c) k Hf Hfi) as (fc & Ef & Cf & _).
  set (k1 := k <| f_count := fc |>) in *.
  destruct (bump_inodes_run (pwd c) (root c) (executable c) k1 Hi Hii) as (ic & Ei & Ci).
  destruct (zget_is_Some (k_gdt k) (Z.of_nat nr * 2 + FIRST_TSS_ENTRY)) as [d1 E1];
    [unfold FIRST_TSS_ENTRY; lia|].
  destruct (zget_is_Some (k_gdt k) (Z.of_nat nr * 2 + FIRST_LDT_ENTRY)) as [d2 E2];
    [unfold FIRST_LDT_ENTRY, FIRST_TSS_ENTRY; lia|].
  assert (Hne : Z.of_nat nr * 2 + FIRST_TSS_ENTRY <> Z.of_nat nr * 2 + FIRST_LDT_ENTRY)
    by (unfold FIRST_LDT_ENTRY; lia).
  eexists fc, ic, _. split_and!; [|exact Cf|exact Ci|].
  - rewrite (the_task_run _ _ _ _ Hq), Hfilp, (take_ge (filp c)) by lia.
    rewrite (bind_ret _ _ _ _ _ Ef), bind_get, (the_task_run _ _ _ c) by exact Hc.
    rewrite Ei. rewrite (put_gdt_run _ _ _ _ d1) by exact E1.
    rewrite (put_gdt_run _ _ _ _ d2) by (cbn; by rewrite zget_zset_ne).
    rewrite (the_task_run _ _ _ q), put_task_run by (exact Hq || exact Hnr). reflexivity.
  - assert (A1 : Z.of_nat nr * 2 + FIRST_TSS_ENTRY = 2 * Z.of_nat nr + 4)
      by (unfold FIRST_TSS_ENTRY; lia).
    assert (A2 : Z.of_nat nr * 2 + FIRST_LDT_ENTRY = 2 * Z.of_nat nr + 5)
      by (unfold FIRST_LDT_ENTRY, FIRST_TSS_ENTRY; lia).
    rewrite A1, A2 in *. cbn [k_gdt upd]. unfold gdt_slot, describes.
    destruct (descriptors_decode d1 (p + offset_tss)) as ((T1 & T2 & T3) & _).
    destruct (descriptors_decode d2 (p + offset_ldt)) as (_ & (L1 & L2 & L3) & _).
    split_and!.
    + eexists. split; [|split; [exact T1|by split]].
      rewrite zget_zset_ne, zget_zset_eq; [done|by eapply zget_Some_range|done].
    + eexists. split; [|split; [exact L1|by split]].
      rewrite zget_zset_eq; [done|]. rewrite length_zset. by eapply zget_Some_range.
    + intros i H1 H2. by rewrite !zget_zset_ne.
Qed.

(** copy_process(), for what copy_page_tables() promises of the memory that is
    left when the page of the child is taken. *)
Lemma copy_process_run nr r k c q m1 (P : mm -> Prop) (Q : stop -> mm -> Prop) :
  parent k c nr -> (nr < NR_TASKS)%nat ->
  get_free_page (k_mm k) = Ret (page_addr q) m1 -> got_page (k_mm k) m1 q ->
  wp (copy_page_tables (get_base (data_seg c)) (space nr) (get_limit (data_seg c)))
    (fun e m => e = 0 /\ P m) Q m1 ->
  wp (copy_process nr r)
    (fun e k' => e = last_pid (k_sched k) /\ exists m2 fc ic g ch, P m2 /\
       child_ok r c ch nr (page_addr q) (pg_dir (k_mm k)) (last_pid (k_sched k)) /\
       counted (filp c) (f_count k) fc /\
       counted [pwd c; root c; executable c] (i_count k) ic /\
       gdt_slot nr (page_addr q) (k_gdt k) g /\
       k' = with_task nr (Some ch)
         (Kern (k_sched k) m2 g fc ic (<[nr := page_addr q]> (task_page k))))
    (fun w k' => Q w (k_mm k')) k.
Proof.
  intros [Hc Hne Hnr Hldt Hg Hfl [Hf Hfi] [Hi Hii]] Hbig E1 G D.
  set (ch := child_of r c (Z.of_nat nr) (page_addr q) (pg_dir (k_mm k)) (last_pid (k_sched k))).
  set (k1 := Kern (k_sched k) m1 (k_gdt k) (f_count k) (i_count k) (<[nr := page_addr q]> (task_page k))).
  set (k2 := with_task nr (Some ch) k1).
  assert (Hpos : page_addr q =? 0 = false).
  { apply Z.eqb_neq. pose proof (page_addr_range q (proj1 (gp_free _ _ _ G))). unfold LOW_MEM in *. lia. }
  assert (Hch : task_at (k_sched k2) nr = Some ch) by (by apply with_task_same).
  assert (Hc2 : task_at (k_sched k2) (current (k_sched k2)) = Some c)
    by (unfold k2; by rewrite with_task_other).
  pose proof (copy_mem_run nr k2 c ch P Q Hc2 Hch eq_refl Hldt D) as Hcm.
  unfold wp, copy_process. rewrite (bind_zoom kmm_l _ _ _ _ _ E1), Hpos, bind_get.
  rewrite (the_task_run _ _ _ c) by exact Hc. rewrite put_task_run by exact Hnr.
  rewrite bind_modify.
  match goal with |- context [pg_dir (k_mm ?x)] =>
    replace (pg_dir (k_mm x)) with (pg_dir (k_mm k)) by (symmetry; exact (gp_dir _ _ _ G)) end.
  match goal with |- context [bind (copy_mem nr) _ ?x] => change x with k2 end.
  apply wp_bind. refine (wp_mono _ _ _ _ _ _ Hcm _ _); [|intros w k' H; exact H].
  clear Hcm D. intros e k3 [-> (m2 & -> & F)]. cbn [truth Z.eqb negb].
  set (ch' := ch <| ldt := based nr (ldt c) |>). set (k3 := with_task nr _ _).
  destruct (register_child k3 nr c ch' (page_addr q)) as (fc & ic & g & E & Cf & Ci & Hgdt); try done.
  { unfold k3, k2. cbn. by rewrite !length_insert. }
  { unfold k3. apply with_task_same. unfold k2. cbn. by rewrite length_insert. }
  { unfold k3. rewrite with_task_other by done. exact Hc2. }
  unfold wp. rewrite E. split; [done|].
  exists m2, fc, ic, g, (newborn r c nr (page_addr q) (pg_dir (k_mm k)) (last_pid (k_sched k))).
  split_and!; [done|by apply newborn_ok|exact Cf|exact Ci|exact Hgdt|].
  unfold k3, k2, with_task, newborn. cbn. by rewrite !list_insert_insert_eq.
Qed.

(** C4.  copy_process().  The child has its own page for the struct, which
    agrees with that of the parent but for what [child_ok] lists: its pid, its
    father, a full time slice, the registers of the frame with 0 in eax, its
    own kernel stack, TSS and LDT, and a 64 MB space of its own; it is
    runnable.  Its page tables are a write-protected copy of those of the
    parent; every file and inode that it shares with the parent is counted
    once more for each pointer to it; the two descriptors of its slot lead to
    its TSS and LDT, and nothing else has changed.  The only way to fail is to
    run out of pages, which the code does not survive. *)
Theorem copy_process_spec nr r k c :
  forkable k c nr -> (nr < NR_TASKS)%nat ->
  wp (copy_process nr r)
    (fun e k' => e = last_pid (k_sched k) /\
       exists q m1 m2 fc ic g ch, got_page (k_mm k) m1 q /\
         forked m1 m2 (nr_dirs c) (dir_of (k_mm k) (get_base (data_seg c)))
           (dir_of (k_mm k) (space nr)) /\
         child_ok r c ch nr (page_addr q) (pg_dir (k_mm k)) (last_pid (k_sched k)) /\
         counted (filp c) (f_count k) fc /\
         counted [pwd c; root c; executable c] (i_count k) ic /\
         gdt_slot nr (page_addr q) (k_gdt k) g /\
         k' = with_task nr (Some ch)
           (Kern (k_sched k) m2 g fc ic (<[nr := page_addr q]> (task_page k))))
    out_of_pages k.
Proof.
  intros [Hp Hpg D] Hnr.
  destruct (get_free_page_runs (k_mm k) (do_wf _ _ _ _ D) Hpg) as (q & m1 & E1 & G).
  destruct (got_page_dirs _ _ _ _ _ _ G D) as (D1 & _ & _).
  assert (Hdir : forall a, dir_of m1 a = dir_of (k_mm k) a).
  { intros a. unfold dir_of. by rewrite (gp_dir _ _ _ G). }
  rewrite <-!Hdir in D1.
  eapply wp_mono.
  - apply (copy_process_run nr r k c q m1 _ _ Hp
      Hnr E1 G (copy_page_tables_run _ _ _ _ D1)).
  - intros e k' [-> (m2 & fc & ic & g & ch & F & Hrest)]. split; [done|].
    pose proof (F : forked m1 m2 (nr_dirs c) (dir_of m1 _) (dir_of m1 _)) as F'.
    rewrite !Hdir in F'. exists q, m1, m2, fc, ic, g, ch. exact (conj G (conj F' Hrest)).
  - intros w k' H. exact H.
Qed.

(** A machine with all its pages free: task 0 has one page table at 0x1000,
    whose sixth entry maps the frame at 0xb8000. *)
Definition free_mm : mm :=
  Mm (replicate (Z.to_nat MM_BITMAPS) 0) (replicate (Z.to_nat MM_PAGES) 0)
    (fun a => if a =? 0 then 0x1007 else if a =? 0x1014 then 0xb8007 else 0) 0x4000000 0.

Lemma free_refs k : refs free_mm k = 0.
Proof.
  unfold refs. cbn [refcount free_mm]. destruct (zget _ k) as [v|] eqn:E; [|done].
  by apply zget_replicate_inv in E as ->.
Qed.
Lemma free_wf : mm_wf free_mm.
Proof.
  split.
  - apply length_replicate.
  - intros i w E. cbn in E. apply zget_replicate_inv in E as ->. done.
  - apply length_replicate.
  - intros k. by rewrite free_refs.
  - intros k _. rewrite free_refs. unfold page_bit. cbn [mem_map free_mm].
    destruct (zget _ _) as [v|] eqn:E; [|done]. apply zget_replicate_inv in E as ->.
    apply Z.bits_0.
Qed.

Lemma free_dirs : dirs_ok free_mm 16 0 64.
Proof.
  assert (Hlow : forall a, a < LOW_MEM -> safe free_mm a).
  { intros a Ha k Hk _. left. pose proof (page_addr_range k Hk). lia. }
  assert (Hram : forall a, ram free_mm a =
    if a =? 0 then 0x1007 else if a =? 0x1014 then 0xb8007 else 0) by done.
  assert (Hone : forall i, (i < 16)%nat -> dir_present free_mm 0 i = true -> i = 0%nat).
  { intros [|i] Hi; [done|]. unfold dir_present, slot. rewrite Hram.
    destruct (Z.eqb_spec (0 + 4 * Z.of_nat (S i)) 0); [lia|].
    destruct (Z.eqb_spec (0 + 4 * Z.of_nat (S i)) 0x1014); [lia|]. done. }
  assert (Hp : forall j, table_slot free_mm 0 0 j = 4096 + 4 * Z.of_nat j) by done.
  split.
  - apply free_wf.
  - unfold slot. intros; lia.
  - intros i Hi. unfold slot. split; apply Hlow; unfold LOW_MEM; lia.
  - intros i j Hi Hj ->%Hone; [|done]. rewrite Hp, Hram.
    split; [apply Hlow; unfold LOW_MEM; lia|].
    destruct (Z.eqb_spec (4096 + 4 * Z.of_nat j) 0); [lia|].
    split; [by destruct (_ =? _)|]. split; [by destruct (_ =? _)|].
    intros i' Hi'. unfold slot. lia.
  - intros i i' j j' Hi Hi' _ _ ->%Hone ->%Hone; done.
Qed.

Definition demo_kern : kern :=
  Kern (Sched (Some ((INIT_TASK 0x2000 0) <| pwd := Some 0%nat |> <| root := Some 0%nat |>)
                :: replicate 7 None) 0 1)
    free_mm (replicate 20 (Desc 0 0)) [0] [1] (replicate 8 0).

Lemma demo_forkable : exists c, forkable demo_kern c 1.
Proof.
  eexists. split; [split|..].
  - reflexivity.
  - done.
  - cbn. lia.
  - done.
  - cbn. lia.
  - done.
  - split; [by repeat constructor|]. intros i Hi. cbn in Hi.
    repeat (apply elem_of_cons in Hi as [Hi|Hi]; [done|]). by apply elem_of_nil in Hi.
  - split; [by repeat constructor|]. intros i Hi. cbn in Hi |- *.
    repeat (apply elem_of_cons in Hi as [Hi|Hi]; [simplify_eq; lia || done|]).
    by apply elem_of_nil in Hi.
  - exists 0. split; [done|]. apply free_refs.
  - exact free_dirs.
Qed.

Definition demo_frame : frame := Frame 0 0 0 0x17 0 0 0 0x17 0x17 0x17 0 0x0f 0x200 0x1000 0x17.

Example copy_process_spec_witness :
  exists c, forkable demo_kern c 1 /\
    wp (copy_process 1 demo_frame) (fun e k' => e = 1 /\
      exists ch, task_at (k_sched k') 1 = Some ch /\ pid ch = 1 /\ father ch = 0 /\
        eax (tss ch) = 0 /\ esp (tss ch) = 0x1000 /\ umask ch = 18 /\
        get_base (data_seg ch) = 0x4000000) out_of_pages demo_kern.
Proof.
  destruct demo_forkable as [c Hf]. exists c. split; [exact Hf|].
  assert (Hc : c = (INIT_TASK 0x2000 0) <| pwd := Some 0%nat |> <| root := Some 0%nat |>).
  { pose proof (fo_cur _ _ _ (fo_parent _ _ _ Hf)) as H. cbn in H. by simplify_eq. }
  eapply wp_mono; [apply (copy_process_spec 1 demo_frame demo_kern c Hf); unfold NR_TASKS; lia| |].
  - intros e k' [-> (q & m1 & m2 & fc & ic & g & ch & _ & _ & Hch & _ & _ & _ & ->)].
    split; [reflexivity|]. exists ch. split; [reflexivity|].
    destruct (ch_new _ _ _ _ _ _ _ Hch) as (_ & _ & Hp & Hfa & _).
    destruct (ch_regs _ _ _ _ _ _ _ Hch) as (Ha & _ & _ & _ & _ & _ & _ & Hs & _).
    destruct (ch_kept _ _ _ _ _ _ _ Hch) as (_ & _ & _ & _ & Hu & _).
    destruct (ch_ldt _ _ _ _ _ _ _ Hch) as (_ & _ & Hl).
    subst c. destruct (Hl 2%nat _ ltac:(right; reflexivity) eq_refl) as (d & Hd & Hb & _).
    unfold data_seg. rewrite Hd. split_and!; try assumption.
  - intros w k' H. exact H.
Defined.
