(* ===== verification/Fs.v ===== *)
(** * The tables of the file system: include/fs/fs.h, fs/file_table.c and the
    super blocks of fs/super.c

    An [m_inode], a [file] or a [super_block] is an element of its table, and
    a pointer to it the index.  The operations run in a state [W] of which
    they see, by lenses, the buffer cache, the tables and the tasks: class
    [Env] has these lenses and the operations of the other components that
    the file system calls. *)

From S2P Require Import Prelude Task Sched WaitQ Buffer.

Definition NAME_LEN : Z := 14.
Definition ROOT_INO : Z := 1.
Definition I_MAP_SLOTS : nat := 8.
Definition Z_MAP_SLOTS : nat := 8.
Definition SUPER_MAGIC : Z := 0x137F.
Definition NR_INODE : nat := 32.
Definition NR_FILE : nat := 64.
Definition NR_SUPER : nat := 8.
Definition INODES_PER_BLOCK : Z := BLOCK_SIZE / 32.
Definition DIR_ENTRIES_PER_BLOCK : Z := BLOCK_SIZE / 16.

Definition S_IFMT : Z := 0xF000.
Definition S_ISREG (m : Z) : bool := Z.land m S_IFMT =? 0x8000.
Definition S_ISDIR (m : Z) : bool := Z.land m S_IFMT =? 0x4000.
Definition S_ISCHR (m : Z) : bool := Z.land m S_IFMT =? 0x2000.
Definition S_ISBLK (m : Z) : bool := Z.land m S_IFMT =? 0x6000.

Definition CURRENT_TIME : Z := 0.

Record m_inode := Inode {
  i_mode : Z; i_uid : Z; i_size : Z; i_mtime : Z; i_gid : Z; i_nlinks : Z;
  i_zone : list Z;
  i_wait : option nat;
  i_atime : Z; i_ctime : Z; i_dev : Z; i_num : Z; i_count : Z;
  i_lock : Z; i_dirt : Z; i_pipe : Z; i_mount : Z; i_seek : Z; i_update : Z
}.
#[export] Instance eta_inode : Eta m_inode := fun i =>
  Inode (i_mode i) (i_uid i) (i_size i) (i_mtime i) (i_gid i) (i_nlinks i) (i_zone i)
    (i_wait i) (i_atime i) (i_ctime i) (i_dev i) (i_num i) (i_count i)
    (i_lock i) (i_dirt i) (i_pipe i) (i_mount i) (i_seek i) (i_update i).

(** [memset(inode,0,sizeof inode)] *)
Definition zero_inode : m_inode :=
  Inode 0 0 0 0 0 0 (replicate 9 0) None 0 0 0 0 0 0 0 0 0 0 0.

Record file := File { f_mode : Z; f_flags : Z; f_count : Z; f_inode : option nat; f_pos : Z }.
#[export] Instance eta_file : Eta file := fun f =>
  File (f_mode f) (f_flags f) (f_count f) (f_inode f) (f_pos f).

Record super_block := Super {
  s_ninodes : Z; s_nzones : Z; s_imap_blocks : Z; s_zmap_blocks : Z;
  s_firstdatazone : Z; s_log_zone_size : Z; s_max_size : Z; s_magic : Z;
  s_imap : list (option nat); s_zmap : list (option nat);
  s_dev : Z; s_isup : option nat; s_imount : option nat; s_time : Z;
  s_wait : option nat; s_lock : Z; s_rd_only : Z; s_dirt : Z
}.
#[export] Instance eta_super : Eta super_block := fun s =>
  Super (s_ninodes s) (s_nzones s) (s_imap_blocks s) (s_zmap_blocks s)
    (s_firstdatazone s) (s_log_zone_size s) (s_max_size s) (s_magic s)
    (s_imap s) (s_zmap s) (s_dev s) (s_isup s) (s_imount s) (s_time s)
    (s_wait s) (s_lock s) (s_rd_only s) (s_dirt s).

Record fsys := Fsys {
  inode_table : list m_inode;
  last_inode : nat;
  file_table : list file;
  supers : list super_block;
  ROOT_DEV : Z
}.
#[export] Instance eta_fsys : Eta fsys := fun f =>
  Fsys (inode_table f) (last_inode f) (file_table f) (supers f) (ROOT_DEV f).

(** What the file system sees of the system, and calls. *)
Class Env (W : Type) := {
  cl : lens W cache;
  fl : lens W fsys;
  tl : lens W sched;
  sleep_on : lens W (option nat) -> M W unit;
  wake_up : lens W (option nat) -> M W unit;
  getblk : Z -> Z -> M W nat;
  get_hash_table : Z -> Z -> M W (option nat);
  bread : Z -> Z -> M W (option nat);
  brelse : option nat -> M W unit;
  free_page : Z -> M W unit
}.

Section access.
Context {W : Type} `{!Env W}.

(** [inode->f], and assignments through [inode]; the same for super blocks
    and files. *)
Definition ino {A} (f : m_inode -> A) (i : nat) : M W A :=
  zoom fl (let! s := get in let! x := deref (inode_table s !! i) in ret (f x)).
Definition set_ino (i : nat) (g : m_inode -> m_inode) : M W unit :=
  zoom fl (let! s := get in
           let! _ := deref (inode_table s !! i) in
           modify (fun s => s <| inode_table ::= alter g i |>)).
Definition sup {A} (f : super_block -> A) (i : nat) : M W A :=
  zoom fl (let! s := get in let! x := deref (supers s !! i) in ret (f x)).
Definition set_sup (i : nat) (g : super_block -> super_block) : M W unit :=
  zoom fl (let! s := get in
           let! _ := deref (supers s !! i) in
           modify (fun s => s <| supers ::= alter g i |>)).
Definition fil {A} (f : file -> A) (i : nat) : M W A :=
  zoom fl (let! s := get in let! x := deref (file_table s !! i) in ret (f x)).
Definition set_fil (i : nat) (g : file -> file) : M W unit :=
  zoom fl (let! s := get in
           let! _ := deref (file_table s !! i) in
           modify (fun s => s <| file_table ::= alter g i |>)).

(** [bh->f], and an assignment. *)
Definition buf {A} (f : buffer_head -> A) (bh : nat) : M W A := zoom cl (fld f bh).
Definition set_buf (bh : nat) (g : buffer_head -> buffer_head) : M W unit := zoom cl (setb bh g).

(** [current->f], and an assignment. *)
Definition me {A} (f : task_struct -> A) : M W A :=
  zoom tl (let! s := get in let! p := deref (task_at s (current s)) in ret (f p)).
Definition set_me (g : task_struct -> task_struct) : M W unit :=
  zoom tl (let! s := get in
           let! p := deref (task_at s (current s)) in
           modify (set_task (current s) (g p))).

Definition i_wait_l (i : nat) : lens W (option nat) :=
  comp fl (Lens (fun s => (inode_table s !! i) ≫= i_wait)
                (fun q s => s <| inode_table ::= alter (fun x => x <| i_wait := q |>) i |>)).
Definition s_wait_l (i : nat) : lens W (option nat) :=
  comp fl (Lens (fun s => (supers s !! i) ≫= s_wait)
                (fun q s => s <| supers ::= alter (fun x => x <| s_wait := q |>) i |>)).

(** ** Locks of super blocks *)

Fixpoint wait_on_super (fuel : nat) (sb : nat) : M W unit :=
  let! l := sup s_lock sb in
  if truth l then
    match fuel with
    | O => halt NoFuel
    | S fuel' => sleep_on (s_wait_l sb) ;; wait_on_super fuel' sb
    end
  else ret tt.
Definition lock_super (fuel : nat) (sb : nat) : M W unit :=
  wait_on_super fuel sb ;;
  set_sup sb (fun s => s <| s_lock := 1 |>).
Definition free_super (sb : nat) : M W unit :=
  set_sup sb (fun s => s <| s_lock := 0 |>) ;;
  wake_up (s_wait_l sb).

(** [while (s < NR_SUPER+super_block)], from [s] on. *)
Fixpoint get_super_from (fuel : nat) (dev : Z) (s : nat) : M W (option nat) :=
  if (NR_SUPER <=? s)%nat then ret None
  else
    match fuel with
    | O => halt NoFuel
    | S fuel' =>
        let! d := sup s_dev s in
        if d =? dev then
          wait_on_super fuel' s ;;
          let! d := sup s_dev s in
          if d =? dev then ret (Some s) else get_super_from fuel' dev 0
        else get_super_from fuel' dev (S s)
    end.
Definition get_super (fuel : nat) (dev : Z) : M W (option nat) :=
  if dev =? 0 then ret None else get_super_from fuel dev 0.
End access.
