(* ===== verification/Blocks.v ===== *)
(** * What the file system relies on of the buffer cache

    Class [BlockIO] is the contract of getblk(), bread(), brelse() and
    get_hash_table() as one task sees them: each block of a device has a
    content ([data]), a buffer that the task holds ([ps], with repetitions)
    keeps its block, and what is assigned through a held buffer is what the
    block contains from then on.  Module [Warm] shows that the cache of
    Buffer.v meets the contract as long as the blocks in use are in it; beyond
    that the code loses what has been written (getblk() drops the contents of
    dirty buffers). *)

From S2P Require Import Prelude Task Sched WaitQ Buffer Blk Fs.

(** The block that buffer [i] holds. *)
Definition ident (c : cache) (i : nat) : option (Z * Z) :=
  (fun b => (b_dev b, b_blocknr b)) <$> bufs c !! i.

(** [Absent]: the block is not in the cache; [Stale]: its buffer is not up to
    date. *)
Inductive content := Absent | Stale | Bytes (l : list Z).
#[export] Instance content_eq_dec : EqDecision content.
Proof. solve_decision. Defined.
Definition content_of (x : buffer_head) : content :=
  if truth (b_uptodate x) then Bytes (b_bytes x) else Stale.
Definition bytes (l : list Z) : Prop := Forall (fun x => 0 <= x < 2 ^ 8) l.
Definition shaped (x : buffer_head) : Prop :=
  length (b_bytes x) = Z.to_nat BLOCK_SIZE /\ bytes (b_bytes x) /\
  (b_dirt x = 0 \/ b_dirt x = 1).

(** Assignments that concern the content only. *)
Definition bare (x : buffer_head) : buffer_head :=
  x <| b_bytes := [] |> <| b_uptodate := 0 |> <| b_dirt := 0 |>.
Definition edit (g : buffer_head -> buffer_head) : Prop :=
  forall x, shaped x -> shaped (g x) /\ bare (g x) = bare x.

Class Wired (W : Type) `{!Env W} : Prop := {
  #[global] cl_ok :: LensOk cl;
  #[global] fl_ok :: LensOk fl;
  #[global] tl_ok :: LensOk tl;
  #[global] cl_fl :: Apart cl fl;
  #[global] tl_cl :: Apart tl cl;
  #[global] tl_fl :: Apart tl fl;
  wake_idle q w : lget q w = None -> wake_up q w = Ret tt w
}.

(** The world with [g] assigned to buffer [i]. *)
Definition edited {W} `{!Env W} (g : buffer_head -> buffer_head) (i : nat) (w : W) : W :=
  lset cl (touch g i (lget cl w)) w.

Definition upd2 {A} (dev b : Z) (v : A) (f : Z -> Z -> A) : Z -> Z -> A := fun d x =>
  if decide (d = dev /\ x = b) then v else f d x.

(** Nothing has happened but to the cache, where the held buffers are still
    those of their blocks. *)
Record stable {W} `{!Env W} (ps : list nat) (w w' : W) : Prop := {
  st_fl : lget fl w' = lget fl w;
  st_tl : lget tl w' = lget tl w;
  st_ident : forall j, j ∈ ps -> ident (lget cl w') j = ident (lget cl w) j
}.

Class BlockIO (W : Type) `{!Env W} := {
  data : W -> Z -> Z -> content;
  inv : list nat -> W -> Prop;
  room : nat;
  inv_perm ps ps' w : ps ≡ₚ ps' -> inv ps w -> inv ps' w;
  inv_fl ps w f : inv ps w -> inv ps (lset fl f w);
  inv_tl ps w f : inv ps w -> inv ps (lset tl f w);
  data_fl w f d b : data (lset fl f w) d b = data w d b;
  data_tl w f d b : data (lset tl f w) d b = data w d b;
  held ps w i : inv ps w -> i ∈ ps ->
    exists x, bufs (lget cl w) !! i = Some x /\ shaped x /\ b_dev x <> 0 /\
      b_count x = Z.of_nat (length (filter (.= i) ps)) /\
      data w (b_dev x) (b_blocknr x) = content_of x;
  data_shape ps w d b l : inv ps w -> data w d b = Bytes l ->
    length l = Z.to_nat BLOCK_SIZE /\ bytes l;
  held_one ps w i j k : inv ps w -> i ∈ ps -> j ∈ ps ->
    ident (lget cl w) i = Some k -> ident (lget cl w) j = Some k -> i = j;
  (** the buffer of a block in the cache, by whichever way *)
  pinned ps dev b w i w' : Prop :=
    inv (i :: ps) w' /\ (forall d x, data w' d x = data w d x) /\ stable ps w w' /\
    ident (lget cl w') i = Some (dev, b);
  bread_ok ps w dev b l : inv ps w -> data w dev b = Bytes l -> (length ps < room)%nat ->
    exists i w', bread dev b w = Ret (Some i) w' /\ pinned ps dev b w i w';
  getblk_ok ps w dev b : inv ps w -> data w dev b <> Absent -> (length ps < room)%nat ->
    exists i w', getblk dev b w = Ret i w' /\ pinned ps dev b w i w';
  lookup_ok ps w dev b : inv ps w -> data w dev b <> Absent -> (length ps < room)%nat ->
    exists i w', get_hash_table dev b w = Ret (Some i) w' /\ pinned ps dev b w i w';
  absent_ok ps w dev b : inv ps w -> data w dev b = Absent -> 0 < dev -> 0 <= b < 2 ^ 32 ->
    get_hash_table dev b w = Ret None w;
  brelse_ok ps w i : inv (i :: ps) w ->
    exists w', brelse (Some i) w = Ret tt w' /\ inv ps w' /\
      (forall d x, data w' d x = data w d x) /\ stable ps w w';
  edit_ok ps w i x g : inv ps w -> i ∈ ps -> bufs (lget cl w) !! i = Some x -> edit g ->
    inv ps (edited g i w) /\
    forall d b, data (edited g i w) d b = upd2 (b_dev x) (b_blocknr x) (content_of (g x)) (data w) d b
}.

Lemma bind_tt {S} (m : M S unit) s : bind m (fun _ => ret tt) s = m s.
Proof. unfold bind, ret. by destruct (m s) as [[]|]. Qed.

(** ** Assignments through held buffers *)

Section edits.
Context {W : Type} `{!Env W} `{!Wired W} `{!BlockIO W}.

Lemma buf_bind {A B} (f : buffer_head -> A) i (k : A -> M W B) w x :
  bufs (lget cl w) !! i = Some x -> bind (buf f i) k w = k (f x) w.
Proof. apply (fld_zoom cl). Qed.
Lemma set_buf_bind {B} i g (k : unit -> M W B) w x :
  bufs (lget cl w) !! i = Some x -> bind (set_buf i g) k w = k tt (edited g i w).
Proof. apply (setb_zoom cl). Qed.
Lemma edited_lookup g i w x :
  bufs (lget cl w) !! i = Some x -> bufs (lget cl (edited g i w)) !! i = Some (g x).
Proof. intros B. unfold edited. rewrite get_set. by apply touch_lookup. Qed.
Lemma edited_other g i w j :
  j <> i -> bufs (lget cl (edited g i w)) !! j = bufs (lget cl w) !! j.
Proof. intros B. unfold edited. rewrite get_set. by apply touch_other. Qed.
Lemma edited_fl g i w : lget fl (edited g i w) = lget fl w.
Proof. unfold edited. apply apart_get. Qed.
Lemma edited_tl g i w : lget tl (edited g i w) = lget tl w.
Proof. unfold edited. apply get_apart. Qed.

Lemma edit_ident g x : edit g -> shaped x ->
  b_dev (g x) = b_dev x /\ b_blocknr (g x) = b_blocknr x /\ b_count (g x) = b_count x.
Proof.
  intros Hg Hx. destruct (Hg x Hx) as [_ E]. split_and!.
  - exact (f_equal b_dev E). - exact (f_equal b_blocknr E). - exact (f_equal b_count E).
Qed.

Lemma edited_stable ps w i x g :
  bufs (lget cl w) !! i = Some x -> shaped x -> edit g -> stable ps w (edited g i w).
Proof.
  intros B Hx Hg. split; [apply edited_fl|apply edited_tl|]. intros j _. unfold ident.
  destruct (decide (j = i)) as [->|Hn]; [|by rewrite edited_other].
  rewrite (edited_lookup _ _ _ _ B), B. cbn. destruct (edit_ident g x Hg Hx) as (-> & -> & _). done.
Qed.

Lemma stable_refl ps w : stable ps w w.
Proof. done. Qed.
Lemma stable_trans ps w1 w2 w3 : stable ps w1 w2 -> stable ps w2 w3 -> stable ps w1 w3.
Proof.
  intros [F1 T1 I1] [F2 T2 I2]. split; [congruence..|]. intros j Hj. by rewrite I2, I1.
Qed.
Lemma stable_sub ps ps' w w' : ps ⊆ ps' -> stable ps' w w' -> stable ps w w'.
Proof. intros Hs [F T I]. split; [done..|]. auto. Qed.

Lemma held_at ps w i dev b :
  inv ps w -> i ∈ ps -> ident (lget cl w) i = Some (dev, b) ->
  exists x, bufs (lget cl w) !! i = Some x /\ shaped x /\ b_dev x = dev /\ b_blocknr x = b /\
    dev <> 0 /\ b_count x = Z.of_nat (length (filter (.= i) ps)) /\ data w dev b = content_of x.
Proof.
  intros Hi Hin Hid. destruct (held _ _ _ Hi Hin) as (x & B & Hx & H0 & Hc & Hd).
  unfold ident in Hid. rewrite B in Hid. cbn in Hid. injection Hid as <- <-. eauto 10.
Qed.
Lemma held_bytes ps w i dev b l :
  inv ps w -> i ∈ ps -> ident (lget cl w) i = Some (dev, b) -> data w dev b = Bytes l ->
  exists x, bufs (lget cl w) !! i = Some x /\ shaped x /\ b_bytes x = l /\ truth (b_uptodate x) = true.
Proof.
  intros Hi Hin Hid Hd. destruct (held_at _ _ _ _ _ Hi Hin Hid) as (x & B & Hx & _ & _ & _ & _ & E).
  exists x. rewrite Hd in E. unfold content_of in E. destruct (truth (b_uptodate x)); [|done].
  by injection E as ->.
Qed.

(** A buffer that is held, and the whole effect of an assignment to it. *)
Record holding (ps : list nat) (w : W) (i : nat) (dev b : Z) (x : buffer_head) : Prop := {
  ho_inv : inv ps w;
  ho_in : i ∈ ps;
  ho_ident : ident (lget cl w) i = Some (dev, b);
  ho_at : bufs (lget cl w) !! i = Some x;
  ho_shaped : shaped x;
  ho_count : b_count x = Z.of_nat (length (filter (.= i) ps));
  ho_data : data w dev b = content_of x
}.
Lemma holding_intro ps w i dev b :
  inv ps w -> i ∈ ps -> ident (lget cl w) i = Some (dev, b) -> exists x, holding ps w i dev b x.
Proof.
  intros Hi Hin Hid. destruct (held_at _ _ _ _ _ Hi Hin Hid) as (x & ? & ? & ? & ? & ? & ? & ?).
  by exists x.
Qed.
Lemma holding_bytes ps w i dev b x l :
  holding ps w i dev b x -> data w dev b = Bytes l -> b_bytes x = l /\ truth (b_uptodate x) = true.
Proof.
  intros H E. rewrite (ho_data _ _ _ _ _ _ H) in E. unfold content_of in E.
  destruct (truth _); [|done]. by injection E.
Qed.
Lemma holding_edit ps w i dev b x g :
  holding ps w i dev b x -> edit g ->
  holding ps (edited g i w) i dev b (g x) /\ stable ps w (edited g i w) /\
  forall d y, data (edited g i w) d y = upd2 dev b (content_of (g x)) (data w) d y.
Proof.
  intros [Hi Hin Hid B Hx Hc Hd] Hg.
  destruct (edit_ok _ _ _ _ _ Hi Hin B Hg) as [Hi' Hd'].
  destruct (edit_ident g x Hg Hx) as (E1 & E2 & E3).
  assert (b_dev x = dev /\ b_blocknr x = b) as [<- <-].
  { unfold ident in Hid. rewrite B in Hid. cbn in Hid. by injection Hid. }
  split_and!; [|by eapply edited_stable|done]. split.
  - done. - done.
  - unfold ident. by rewrite (edited_lookup _ _ _ _ B); cbn; rewrite E1, E2.
  - by apply edited_lookup.
  - by apply (Hg x Hx).
  - by rewrite E3.
  - rewrite Hd'. unfold upd2. by rewrite decide_True.
Qed.
Lemma pinned_holding ps dev b w i w' :
  pinned ps dev b w i w' -> exists x, holding (i :: ps) w' i dev b x.
Proof. intros (Hi & _ & _ & Hid). apply holding_intro; [done|by left|done]. Qed.

(** A block that no held buffer is for. *)
Definition unheld (ps : list nat) (w : W) (dev b : Z) : Prop :=
  forall i, i ∈ ps -> ident (lget cl w) i <> Some (dev, b).
Lemma unheld_stable ps w w' dev b : unheld ps w dev b -> stable ps w w' -> unheld ps w' dev b.
Proof. intros H S i Hi. rewrite (st_ident _ _ _ S) by done. auto. Qed.
Lemma pinned_alone ps dev b w i w' x :
  pinned ps dev b w i w' -> unheld ps w dev b -> holding (i :: ps) w' i dev b x -> b_count x = 1.
Proof.
  intros (_ & _ & S & Hid) Hu H. rewrite (ho_count _ _ _ _ _ _ H).
  rewrite filter_cons_True by done. cbn [length].
  replace (length (filter (.= i) ps)) with 0%nat; [done|]. symmetry. apply length_zero_iff_nil.
  destruct (filter (.= i) ps) as [|j l] eqn:E; [done|]. exfalso.
  assert (Hj : j ∈ filter (.= i) ps) by (rewrite E; by left).
  apply list_elem_of_filter in Hj as [-> Hj]. apply (Hu i Hj).
  by rewrite <-(st_ident _ _ _ S).
Qed.
End edits.

Lemma edit_comp f g : edit f -> edit g -> edit (fun x => f (g x)).
Proof. intros Hf Hg x Hx. destruct (Hg x Hx) as [H1 <-]. by apply Hf. Qed.
Lemma edit_dirt v : v = 0 \/ v = 1 -> edit (fun x => x <| b_dirt := v |>).
Proof. intros Hv x (? & ? & ?). by split; [split_and!|]. Qed.
Lemma edit_uptodate v : edit (fun x => x <| b_uptodate := v |>).
Proof. intros x (? & ? & ?). by split; [split_and!|]. Qed.
Lemma edit_bytes f :
  (forall l, length l = Z.to_nat BLOCK_SIZE -> bytes l ->
    length (f l) = Z.to_nat BLOCK_SIZE /\ bytes (f l)) ->
  edit (fun x => x <| b_bytes ::= f |>).
Proof. intros Hf x (H1 & H2 & H3). destruct (Hf _ H1 H2). by split; [split_and!|]. Qed.
#[export] Hint Resolve edit_comp edit_dirt edit_uptodate edit_bytes : gpos.

(** How many of the references [qs], or of the buffers held, are to [i]. *)
Definition uses (i : nat) (qs : list nat) : Z := Z.of_nat (length (filter (.= i) qs)).
Lemma uses_cons i j qs : uses i (j :: qs) = (if decide (j = i) then 1 else 0) + uses i qs.
Proof. unfold uses. rewrite filter_cons. case_decide; cbn [length]; lia. Qed.
Lemma uses_range i qs : 0 <= uses i qs <= Z.of_nat (length qs).
Proof. unfold uses. pose proof (length_filter (.= i) qs). lia. Qed.
Lemma uses_zero i qs : i ∉ qs <-> uses i qs = 0.
Proof.
  unfold uses. split.
  - intros H. destruct (filter (.= i) qs) as [|j l] eqn:F; [done|]. exfalso.
    assert (Hj : j ∈ filter (.= i) qs) by (rewrite F; by left).
    by apply list_elem_of_filter in Hj as [-> Hj].
  - intros H Hi. assert (Hf : i ∈ filter (.= i) qs) by (by apply list_elem_of_filter).
    destruct (filter (.= i) qs); [by inversion Hf|]. cbn [length] in H. lia.
Qed.

(** ** A warm cache *)

Module Warm.

Definition world := ((cache * fsys) * sched)%type.
Definition wcl : lens world cache := comp fst_l fst_l.
Definition asleep (_ : lens cache (option nat)) : M world unit := halt Blocked.
Definition wake (q : lens cache (option nat)) : M world unit := WaitQ.wake_up snd_l (comp wcl q).

#[global] Instance warm_env : Env world := {
  cl := wcl;
  fl := comp fst_l snd_l;
  tl := snd_l;
  sleep_on _ := halt Blocked;
  wake_up q := WaitQ.wake_up snd_l q;
  getblk dev b := Buffer.getblk wcl asleep 1 dev b;
  get_hash_table dev b := Buffer.get_hash_table wcl asleep 1 dev b;
  bread dev b := Buffer.bread wcl asleep wake (fun _ _ => halt Blocked) 1 dev b;
  brelse o := Buffer.brelse wcl asleep wake 1 o;
  free_page _ := ret tt
}.

#[global] Instance warm_wired : Wired world.
Proof.
  split; try apply _; [by split..|]. intros q w E.
  change (wake_up q w) with (WaitQ.wake_up snd_l q w). unfold WaitQ.wake_up. rewrite bind_gets.
  lazymatch goal with |- context [match ?x with _ => _ end] => replace x with (@None nat) by exact (eq_sym E) end.
  done.
Qed.

Definition good_block (x : buffer_head) : Prop := b_lock x = 0 /\ b_dev x <> 0 /\ shaped x.

Record warm (ps : list nat) (w : world) : Prop := {
  wm_ok : ok (lget cl w);
  wm_wait : buffer_wait (lget cl w) = None;
  wm_blocks : Forall good_block (bufs (lget cl w));
  wm_pins : forall i, i ∈ ps -> (i < length (bufs (lget cl w)))%nat;
  wm_counts : forall i x, bufs (lget cl w) !! i = Some x -> b_count x = uses i ps;
  wm_few : (length ps <= 200)%nat
}.

Definition is_block (dev b : Z) (x : buffer_head) : Prop := b_dev x = dev /\ b_blocknr x = b.
#[global] Instance is_block_dec dev b x : Decision (is_block dev b x).
Proof. unfold is_block. apply _. Defined.
Definition warm_data (w : world) (dev b : Z) : content :=
  match list_find (is_block dev b) (bufs (lget cl w)) with
  | Some (_, x) => content_of x
  | None => Absent
  end.

Lemma warm_lookup ps w dev b i x :
  warm ps w -> bufs (lget cl w) !! i = Some x -> is_block dev b x ->
  list_find (is_block dev b) (bufs (lget cl w)) = Some (i, x).
Proof.
  intros [(fl & ch & Hw) _ Hg _ _ _] B Hb. apply list_find_Some. split_and!; [done|done|].
  intros j y Bj Hlt [Hd Hn]. destruct Hb as [Hd' Hn'].
  assert (j = i); [|lia]. apply (wf_uniq _ _ _ Hw j i y x Bj B); try congruence.
  by apply (proj1 (Forall_lookup _ _) Hg _ _ Bj).
Qed.
Lemma warm_data_at ps w i x :
  warm ps w -> bufs (lget cl w) !! i = Some x ->
  warm_data w (b_dev x) (b_blocknr x) = content_of x.
Proof. intros Hw B. unfold warm_data. by rewrite (warm_lookup _ _ _ _ _ _ Hw B). Qed.
Lemma warm_data_inv w dev b :
  warm_data w dev b <> Absent ->
  exists i x, bufs (lget cl w) !! i = Some x /\ b_dev x = dev /\ b_blocknr x = b /\
    warm_data w dev b = content_of x.
Proof.
  unfold warm_data. destruct (list_find _ _) as [[i x]|] eqn:E; [|done]. intros _.
  apply list_find_Some in E as (B & [? ?] & _). eauto 10.
Qed.

(** One of the buffers is assigned to. *)
Lemma warm_edited ps ps' w i x g :
  warm ps w -> bufs (lget cl w) !! i = Some x ->
  skey (g x) = skey x -> sring (g x) = sring x -> shaped (g x) -> b_lock (g x) = b_lock x ->
  (forall j, j ∈ ps' -> (j < length (bufs (lget cl w)))%nat) -> (length ps' <= 200)%nat ->
  b_count (g x) = uses i ps' -> (forall j, j <> i -> uses j ps' = uses j ps) ->
  warm ps' (edited g i w) /\
  forall d b, warm_data (edited g i w) d b =
    upd2 (b_dev x) (b_blocknr x) (content_of (g x)) (warm_data w) d b.
Proof.
  intros Hw B Hk Hr Hs Hl Hpi Hle Hc Hu. pose proof Hw as [(fl & ch & Hok) Hwt Hg Hpi' Hcs _].
  pose proof Hk as Hk'. unfold skey in Hk'. injection Hk' as Hdv Hbn _ _.
  assert (Hgx : good_block x) by (by apply (proj1 (Forall_lookup _ _) Hg i)).
  assert (Hga : good_block (g x)).
  { destruct Hgx as (L & D & _). split_and!; [by rewrite Hl|by rewrite Hdv|done]. }
  assert (Hw' : warm ps' (edited g i w)).
  { split.
    - exists fl, ch. unfold edited. rewrite get_set.
      eapply wf_frame; [exact Hok|done|done|apply length_alter|..]; cbn [touch bufs upd].
      + apply Forall_lookup. intros j y. destruct (decide (j = i)) as [->|Hn].
        * rewrite (alter_eq _ _ _ _ B). intros [= <-].
          destruct (proj1 (Forall_lookup _ _) (wf_valid _ _ _ Hok) _ _ B) as (? & ? & ? & ? & ?).
          destruct Hs as (_ & _ & ?). pose proof (uses_range i ps').
          unfold valid. rewrite Hdv, Hbn, Hl, Hc. split_and!; try tauto; lia.
        * rewrite list_lookup_alter_ne by done. apply Forall_lookup, Hok.
      + intros j. destruct (decide (j = i)) as [->|Hn]; [|by rewrite list_lookup_alter_ne].
        rewrite (alter_eq _ _ _ _ B), B. cbn. by rewrite Hk.
      + intros j. destruct (decide (j = i)) as [->|Hn]; [|by rewrite list_lookup_alter_ne].
        rewrite (alter_eq _ _ _ _ B), B. cbn. by rewrite Hr.
    - unfold edited. by rewrite get_set.
    - unfold edited. rewrite get_set. apply Forall_lookup. intros j y.
      destruct (decide (j = i)) as [->|Hn].
      + rewrite (touch_lookup _ _ _ _ B). by intros [= <-].
      + rewrite touch_other by done. apply Forall_lookup, Hg.
    - intros j Hj. unfold edited. rewrite get_set. cbn [touch bufs upd]. rewrite length_alter. auto.
    - intros j y. destruct (decide (j = i)) as [->|Hn].
      + rewrite (edited_lookup _ _ _ _ B). by intros [= <-].
      + rewrite edited_other, Hu by done. apply Hcs.
    - done. }
  split; [done|]. intros d b. unfold upd2. case_decide as Hdb.
  - destruct Hdb as [-> ->]. rewrite <-Hdv, <-Hbn.
    apply (warm_data_at _ _ i _ Hw'), edited_lookup, B.
  - assert (Hx : ~ is_block d b x) by (unfold is_block; intros [<- <-]; by apply Hdb).
    assert (Hgx' : ~ is_block d b (g x)) by (unfold is_block in *; by rewrite Hdv, Hbn).
    unfold warm_data, edited. rewrite get_set. cbn [touch bufs upd].
    clear - B Hx Hgx'. revert i B. generalize (bufs (lget cl w)) as l.
    induction l as [|y l IH]; intros [|i] B; try done; cbn in *.
    + injection B as ->. rewrite !(decide_False _ _ Hx), !(decide_False _ _ Hgx').
      by destruct (list_find _ l) as [[]|].
    + case_decide; [done|]. specialize (IH _ B).
      destruct (list_find _ l) as [[]|], (list_find _ (alter g i l)) as [[]|]; done.
Qed.

Definition count_up (x : buffer_head) : buffer_head := x <| b_count ::= fun n => u8 (n + 1) |>.
Definition count_down (x : buffer_head) : buffer_head := x <| b_count ::= fun n => u8 (n - 1) |>.

Lemma upd2_same dev b (f : Z -> Z -> content) v d x :
  f dev b = v -> upd2 dev b v f d x = f d x.
Proof. intros E. unfold upd2. case_decide as H; [|done]. destruct H as [-> ->]. done. Qed.

Lemma warm_pin ps w i x :
  warm ps w -> bufs (lget cl w) !! i = Some x -> (length ps < 200)%nat ->
  warm (i :: ps) (edited count_up i w) /\
  (forall d b, warm_data (edited count_up i w) d b = warm_data w d b) /\
  stable ps w (edited count_up i w) /\
  ident (lget cl (edited count_up i w)) i = Some (b_dev x, b_blocknr x).
Proof.
  intros Hw B Hl. pose proof (wm_counts _ _ Hw _ _ B) as Hc. pose proof (uses_range i ps).
  destruct (proj1 (Forall_lookup _ _) (wm_blocks _ _ Hw) _ _ B) as (_ & _ & Hs).
  destruct (warm_edited ps (i :: ps) w i x count_up Hw B) as [H1 H2]; try done.
  - intros j [->|Hj]%elem_of_cons; [by eapply lookup_lt_Some|by apply (wm_pins _ _ Hw)].
  - change (u8 (b_count x + 1) = uses i (i :: ps)). rewrite Hc, uses_cons, decide_True, u8_small by (done || lia). lia.
  - intros j Hj. rewrite uses_cons, decide_False; [lia|congruence].
  - split_and!; [done| | |].
    + intros d b. rewrite H2. apply upd2_same. apply (warm_data_at _ _ _ _ Hw B).
    + split; [apply edited_fl|apply edited_tl|]. intros j _. unfold ident.
      destruct (decide (j = i)) as [->|]; [|by rewrite edited_other].
      by rewrite (edited_lookup _ _ _ _ B), B.
    + unfold ident. by rewrite (edited_lookup _ _ _ _ B).
Qed.

(** What the three ways to a buffer do on a block in the cache. *)
Lemma warm_find ps w dev b :
  warm ps w -> warm_data w dev b <> Absent ->
  exists i x, bufs (lget cl w) !! i = Some x /\ b_dev x = dev /\ b_blocknr x = b /\
    warm_data w dev b = content_of x /\
    Buffer.getblk wcl asleep 1 dev b w = Ret i (edited count_up i w) /\
    Buffer.get_hash_table wcl asleep 1 dev b w = Ret (Some i) (edited count_up i w).
Proof.
  intros Hw (i & x & B & Hd & Hb & E)%warm_data_inv.
  destruct (wm_ok _ _ Hw) as (fl & ch & Hok).
  destruct (proj1 (Forall_lookup _ _) (wm_blocks _ _ Hw) _ _ B) as (Hl & H0 & _).
  destruct (proj1 (Forall_lookup _ _) (wf_valid _ _ _ Hok) _ _ B) as (Hvd & Hvb & _).
  exists i, x. split_and!; try done.
  - apply (getblk_hit wcl asleep 0 dev b w fl ch i x); (done || congruence || lia).
  - apply (lookup_hit wcl asleep 0 dev b w fl ch i x); (done || congruence || lia).
Qed.

Lemma warm_brelse ps w i : warm (i :: ps) w ->
  exists w', brelse (Some i) w = Ret tt w' /\ warm ps w' /\
    (forall d b, warm_data w' d b = warm_data w d b) /\ stable ps w w'.
Proof.
  intros Hw.
  destruct (lookup_lt_is_Some_2 _ _ (wm_pins _ _ Hw i ltac:(by left))) as [x B].
  pose proof (wm_counts _ _ Hw _ _ B) as Hc. rewrite uses_cons, decide_True in Hc by done.
  pose proof (wm_few _ _ Hw) as Hf. cbn [length] in Hf. pose proof (uses_range i ps).
  destruct (proj1 (Forall_lookup _ _) (wm_blocks _ _ Hw) _ _ B) as (Hlk & H0 & Hs).
  destruct (warm_edited (i :: ps) ps w i x count_down Hw B) as [H1 H2]; try done.
  - intros j Hj. apply (wm_pins _ _ Hw). by right.
  - lia.
  - change (u8 (b_count x - 1) = uses i ps). rewrite Hc, u8_small by lia. lia.
  - intros j Hj. rewrite uses_cons, decide_False; [lia|congruence].
  - exists (edited count_down i w). split_and!; [|done| |].
    + change (brelse (Some i) w) with (Buffer.brelse wcl asleep wake 1 (Some i) w).
      unfold Buffer.brelse.
      rewrite (bind_ret _ _ _ _ _ (wait_unlocked wcl asleep _ _ _ _ B Hlk)).
      rewrite (fld_zoom wcl _ _ _ _ _ B), (setb_zoom wcl _ _ _ _ _ B).
      assert (truth (b_count x) = true) as -> by (unfold truth; rewrite Hc; by destruct (Z.eqb_spec (1 + uses i ps) 0); [lia|]).
      change (wake buffer_wait_l (edited count_down i w) = Ret tt (edited count_down i w)).
      assert (lget (comp wcl buffer_wait_l) (edited count_down i w) = None) as E by apply H1.
      unfold wake, WaitQ.wake_up. rewrite bind_gets. 
      lazymatch goal with |- context [match ?x with _ => _ end] => replace x with (@None nat) by exact (eq_sym E) end.
      done.
    + intros d b. rewrite H2. apply upd2_same. apply (warm_data_at _ _ _ _ Hw B).
    + split; [apply edited_fl|apply edited_tl|]. intros j _. unfold ident.
      destruct (decide (j = i)) as [->|]; [|by rewrite edited_other].
      by rewrite (edited_lookup _ _ _ _ B), B.
Qed.

#[global] Instance warm_blocks : BlockIO world.
Proof.
  refine {| data := warm_data; inv := warm; room := 200 |}.
  - intros ps ps' w Hp [H1 H2 H3 H4 H5 H6].
    assert (Hu : forall i, uses i ps' = uses i ps).
    { intros i. unfold uses. f_equal. by rewrite Hp. }
    split; try done.
    + intros i. rewrite <-Hp. apply H4.
    + intros i x B. rewrite Hu. by apply H5.
    + by rewrite <-Hp.
  - intros ps w f [H1 H2 H3 H4 H5 H6]. split; by rewrite ?get_apart.
  - intros ps w f [H1 H2 H3 H4 H5 H6]. split; by rewrite ?apart_get.
  - intros w f d b. unfold warm_data. by rewrite get_apart.
  - intros w f d b. unfold warm_data. by rewrite apart_get.
  - intros ps w i Hw Hi. destruct (lookup_lt_is_Some_2 _ _ (wm_pins _ _ Hw _ Hi)) as [x B].
    destruct (proj1 (Forall_lookup _ _) (wm_blocks _ _ Hw) _ _ B) as (_ & H0 & Hs).
    exists x. split_and!; try done; [by apply (wm_counts _ _ Hw)|by eapply warm_data_at].
  - intros ps w d b l Hw E. destruct (warm_data_inv w d b) as (i & x & B & _ & _ & Ec); [by rewrite E|].
    destruct (proj1 (Forall_lookup _ _) (wm_blocks _ _ Hw) _ _ B) as (_ & _ & Hl & Hb & _).
    rewrite E in Ec. unfold content_of in Ec. destruct (truth _); [|done]. by injection Ec as ->.
  - intros ps w i j k Hw Hi Hj Ei Ej. destruct (wm_ok _ _ Hw) as (fl & ch & Hok).
    destruct (lookup_lt_is_Some_2 _ _ (wm_pins _ _ Hw _ Hi)) as [x Bi].
    destruct (lookup_lt_is_Some_2 _ _ (wm_pins _ _ Hw _ Hj)) as [y Bj].
    unfold ident in Ei, Ej. rewrite Bi in Ei. rewrite Bj in Ej.
    destruct (proj1 (Forall_lookup _ _) (wm_blocks _ _ Hw) _ _ Bi) as (_ & H0 & _).
    apply (wf_uniq _ _ _ Hok i j x y Bi Bj H0); cbn in *; congruence.
  - intros ps w dev b l Hw E Hl.
    destruct (warm_find ps w dev b Hw) as (i & x & B & Hd & Hb & Hc & Eg & _); [by rewrite E|].
    exists i, (edited count_up i w). split.
    + change (bread dev b w) with (Buffer.bread wcl asleep wake (fun _ _ => halt Blocked) 1 dev b w).
      unfold Buffer.bread. rewrite (bind_ret _ _ _ _ _ Eg).
      rewrite (fld_zoom wcl _ _ _ _ (count_up x) (edited_lookup _ _ _ _ B)).
      assert (truth (b_uptodate (count_up x)) = true) as ->; [|done].
      cbn. rewrite E in Hc. unfold content_of in Hc. by destruct (truth (b_uptodate x)).
    + rewrite <-Hd, <-Hb. by apply warm_pin.
  - intros ps w dev b Hw E Hl.
    destruct (warm_find ps w dev b Hw E) as (i & x & B & Hd & Hb & Hc & Eg & _).
    exists i, (edited count_up i w). split; [done|]. rewrite <-Hd, <-Hb. by apply warm_pin.
  - intros ps w dev b Hw E Hl.
    destruct (warm_find ps w dev b Hw E) as (i & x & B & Hd & Hb & Hc & _ & Eg).
    exists i, (edited count_up i w). split; [done|]. rewrite <-Hd, <-Hb. by apply warm_pin.
  - intros ps w dev b Hw E Hdev Hb. destruct (wm_ok _ _ Hw) as (fl & ch & Hok).
    apply (lookup_miss wcl asleep 0 dev b w fl ch); try done.
    intros i (x & B & <- & <-). revert E.
    change (data w (b_dev x) (b_blocknr x)) with (warm_data w (b_dev x) (b_blocknr x)).
    rewrite (warm_data_at _ _ _ _ Hw B). unfold content_of. by destruct (truth _).
  - exact warm_brelse.
  - intros ps w i x g Hw Hi B Hg.
    destruct (proj1 (Forall_lookup _ _) (wm_blocks _ _ Hw) _ _ B) as (Hlk & H0 & Hs).
    destruct (Hg x Hs) as [Hs' Eb].
    apply (warm_edited ps ps w i x g Hw B); try done.
    + exact (f_equal skey Eb). + exact (f_equal sring Eb). + exact (f_equal b_lock Eb).
    + apply (wm_pins _ _ Hw).
    + apply (wm_few _ _ Hw).
    + rewrite <-(wm_counts _ _ Hw _ _ B). exact (f_equal b_count Eb).
Defined.
End Warm.
