(* ===== verification/Super.v ===== *)
(** * Super blocks: fs/super.c

    read_super(), and what a mounted file system is: [mounted] says where its
    super block and its bitmaps are.  mount_root(), which uses iget(), is in
    Mount.v.  The messages are left out. *)

From S2P Require Import Prelude Task Sched WaitQ Buffer Blk Fs Blocks.

(** The assignment of a [d_super_block], the one in the bytes [l]. *)
Definition load_super (l : list Z) (s : super_block) : super_block :=
  s <| s_ninodes := le16 l 0 |> <| s_nzones := le16 l 2 |>
    <| s_imap_blocks := le16 l 4 |> <| s_zmap_blocks := le16 l 6 |>
    <| s_firstdatazone := le16 l 8 |> <| s_log_zone_size := le16 l 10 |>
    <| s_max_size := le32 l 12 |> <| s_magic := le16 l 16 |>.

Section ops.
Context {W : Type} `{!Env W}.

(** [for (s = 0+super_block ;; s++)] *)
Fixpoint free_slot (n : nat) (s : nat) : M W (option nat) :=
  match n with
  | O => ret None
  | S n' =>
      let! d := sup s_dev s in
      if truth d then free_slot n' (S s) else ret (Some s)
  end.

(** [for (i=0 ; i < s->s_imap_blocks ; i++)]: the value of [block] after the
    loop; [f] is the array, [n] the bound. *)
Fixpoint read_maps (set : list (option nat) -> super_block -> super_block)
    (f : super_block -> list (option nat)) (n : nat) (i : Z) (s : nat) (dev block : Z) : M W Z :=
  match n with
  | O => ret block
  | S n' =>
      let! o := bread dev block in
      let! l := sup f s in
      let! _ := deref (zget l i) in
      set_sup s (fun x => set (zset i o (f x)) x) ;;
      match o with
      | Some _ => read_maps set f n' (i + 1) s dev (block + 1)
      | None => ret block
      end
  end.
Definition set_imap (l : list (option nat)) (x : super_block) : super_block := x <| s_imap := l |>.
Definition set_zmap (l : list (option nat)) (x : super_block) : super_block := x <| s_zmap := l |>.

Fixpoint release_all (l : list (option nat)) : M W unit :=
  match l with
  | [] => ret tt
  | o :: l' => brelse o ;; release_all l'
  end.

(** [map[0]->b_data[0] |= 1] *)
Definition reserve_first (l : list (option nat)) : M W unit :=
  let! slot := deref (zget l 0) in
  let! bh := deref slot in
  let! bs := buf b_bytes bh in
  let! x := deref (zget bs 0) in
  set_buf bh (fun b => b <| b_bytes ::= zset 0 (Z.lor x 1) |>).

Definition fail_mount (s : nat) : M W (option nat) :=
  set_sup s (fun x => x <| s_dev := 0 |>) ;; free_super s ;; ret None.

(** [for (i=0;i<I_MAP_SLOTS;i++)] and on: the bitmaps of the super block [s]
    are read. *)
Definition read_bitmaps (s : nat) (dev : Z) : M W (option nat) :=
  set_sup s (fun x => x <| s_imap := replicate I_MAP_SLOTS None |>
                        <| s_zmap := replicate Z_MAP_SLOTS None |>) ;;
  let! x := sup id s in
  let! block := read_maps set_imap s_imap (Z.to_nat (s_imap_blocks x)) 0 s dev 2 in
  let! block := read_maps set_zmap s_zmap (Z.to_nat (s_zmap_blocks x)) 0 s dev block in
  let! x := sup id s in
  if negb (block =? 2 + s_imap_blocks x + s_zmap_blocks x) then
    release_all (s_imap x) ;;
    release_all (s_zmap x) ;;
    fail_mount s
  else
    reserve_first (s_imap x) ;;
    reserve_first (s_zmap x) ;;
    free_super s ;;
    ret (Some s).

Definition read_super (fuel : nat) (dev : Z) : M W (option nat) :=
  if dev =? 0 then ret None
  else
    let! r := get_super fuel dev in
    match r with
    | Some s => ret (Some s)
    | None =>
        let! r := free_slot NR_SUPER 0 in
        match r with
        | None => ret None
        | Some s =>
            set_sup s (fun x => x <| s_dev := u16 dev |> <| s_isup := None |>
              <| s_imount := None |> <| s_time := 0 |> <| s_rd_only := 0 |> <| s_dirt := 0 |>) ;;
            lock_super fuel s ;;
            let! bh := bread dev 1 in
            match bh with
            | None => fail_mount s
            | Some bh =>
                let! l := buf b_bytes bh in
                set_sup s (load_super l) ;;
                brelse (Some bh) ;;
                let! m := sup s_magic s in
                if negb (m =? SUPER_MAGIC) then fail_mount s
                else
                  read_bitmaps s dev
            end
        end
    end.
End ops.

(** ** Assignments to super blocks *)

Section mounted.
Context {W : Type} `{!Env W} `{!Wired W} `{!BlockIO W}.

Lemma sup_bind {A B} (f : super_block -> A) i (k : A -> M W B) w x :
  supers (lget fl w) !! i = Some x -> bind (sup f i) k w = k (f x) w.
Proof.
  intros E. apply (bind_zoom_read fl). by rewrite bind_get, (bind_deref _ _ _ _ E).
Qed.
Lemma set_sup_bind {B} i g (k : unit -> M W B) w x :
  supers (lget fl w) !! i = Some x ->
  bind (set_sup i g) k w = k tt (lset fl ((lget fl w) <| supers ::= alter g i |>) w).
Proof.
  intros E. apply (bind_zoom fl). by rewrite bind_get, (bind_deref _ _ _ _ E).
Qed.

Lemma wait_super_unlocked fuel i w x :
  supers (lget fl w) !! i = Some x -> s_lock x = 0 -> wait_on_super fuel i w = Ret tt w.
Proof. intros E L. destruct fuel; cbn [wait_on_super]; by rewrite (sup_bind _ _ _ _ _ E), L. Qed.

(** The fuel that get_super() needs, kept away from [lia]. *)
Definition enough (fuel : nat) : Prop := (NR_SUPER <= fuel)%nat.

(** Device [dev] has super block [sb], number [s] of the table. *)
Record has_super (f : fsys) (dev : Z) (s : nat) (sb : super_block) : Prop := {
  hs_at : supers f !! s = Some sb;
  hs_range : length (supers f) = NR_SUPER;
  hs_dev : s_dev sb = dev;
  hs_dev_range : 0 < dev < 2 ^ 16;
  hs_first : forall j x, (j < s)%nat -> supers f !! j = Some x -> s_dev x <> dev;
  hs_lock : s_lock sb = 0
}.

Lemma get_super_from_run dev s sb w : has_super (lget fl w) dev s sb ->
  forall n fuel j, (s = j + n)%nat -> (n < fuel)%nat ->
  get_super_from fuel dev j w = Ret (Some s) w.
Proof.
  intros H. pose proof (lookup_lt_Some _ _ _ (hs_at _ _ _ _ H)) as Hs.
  rewrite (hs_range _ _ _ _ H) in Hs.
  induction n as [|n IH]; intros fuel j -> Hf; (destruct fuel as [|fuel]; [lia|]);
    cbn [get_super_from]; destruct (Nat.leb_spec NR_SUPER j); try lia.
  - rewrite Nat.add_0_r in H.
    rewrite (sup_bind _ _ _ _ _ (hs_at _ _ _ _ H)), (hs_dev _ _ _ _ H), Z.eqb_refl.
    rewrite (bind_ret _ _ _ _ _ (wait_super_unlocked _ _ _ _ (hs_at _ _ _ _ H) (hs_lock _ _ _ _ H))).
    rewrite (sup_bind _ _ _ _ _ (hs_at _ _ _ _ H)), (hs_dev _ _ _ _ H), Z.eqb_refl.
    by rewrite Nat.add_0_r.
  - destruct (lookup_lt_is_Some_2 (supers (lget fl w)) j) as [x E];
      [rewrite (hs_range _ _ _ _ H); lia|].
    rewrite (sup_bind _ _ _ _ _ E). destruct (Z.eqb_spec (s_dev x) dev) as [Ed|_].
    + exfalso. apply (hs_first _ _ _ _ H j x); [lia|done|done].
    + apply IH; lia.
Qed.
Lemma get_super_run fuel dev s sb w :
  has_super (lget fl w) dev s sb -> enough fuel ->
  get_super fuel dev w = Ret (Some s) w.
Proof.
  intros H Hf. unfold enough in Hf. unfold get_super. pose proof (hs_dev_range _ _ _ _ H).
  destruct (Z.eqb_spec dev 0); [lia|].
  pose proof (lookup_lt_Some _ _ _ (hs_at _ _ _ _ H)) as Hs. rewrite (hs_range _ _ _ _ H) in Hs.
  apply (get_super_from_run _ _ _ _ H s); lia.
Qed.

(** The bitmap of [n] blocks from [base] on is in the held buffers of [l]. *)
Record map_ok (ps : list nat) (w : W) (dev base n : Z) (l : list (option nat)) : Prop := {
  mp_len : length l = 8%nat;
  mp_n : 0 < n <= 8;
  mp_some : forall k, 0 <= k < n -> exists i bs, zget l k = Some (Some i) /\ i ∈ ps /\
    ident (lget cl w) i = Some (dev, base + k) /\ data w dev (base + k) = Bytes bs;
  mp_none : forall k, n <= k < 8 -> zget l k = Some None
}.

Definition imap_base : Z := 2.
Definition zmap_base (sb : super_block) : Z := 2 + s_imap_blocks sb.

(** A mounted file system. *)
Record mounted (ps : list nat) (w : W) (dev : Z) (s : nat) (sb : super_block) : Prop := {
  mo_super : has_super (lget fl w) dev s sb;
  mo_imap : map_ok ps w dev imap_base (s_imap_blocks sb) (s_imap sb);
  mo_zmap : map_ok ps w dev (zmap_base sb) (s_zmap_blocks sb) (s_zmap sb);
  mo_zones : zmap_base sb + s_zmap_blocks sb <= s_firstdatazone sb;
  mo_nzones : s_nzones sb < 2 ^ 16
}.

Lemma map_ok_stable ps ps' w w' dev base n l :
  map_ok ps w dev base n l -> stable ps w w' -> ps ⊆ ps' ->
  (forall k bs, 0 <= k < n -> data w dev (base + k) = Bytes bs ->
    exists bs', data w' dev (base + k) = Bytes bs') ->
  map_ok ps' w' dev base n l.
Proof.
  intros [H1 H2 H3 H4] S Hps Hd. split; try done. intros k Hk.
  destruct (H3 k Hk) as (i & bs & E & Hi & Hid & Eb). destruct (Hd k bs Hk Eb) as [bs' Eb'].
  exists i, bs'. split_and!; [done|by apply Hps| |done]. by rewrite (st_ident _ _ _ S).
Qed.
Lemma mounted_stable ps ps' w w' dev s sb :
  mounted ps w dev s sb -> stable ps w w' -> ps ⊆ ps' ->
  (forall b bs, 0 <= b < s_firstdatazone sb -> data w dev b = Bytes bs ->
    exists bs', data w' dev b = Bytes bs') ->
  mounted ps' w' dev s sb.
Proof.
  intros [H1 H2 H3 H4 H5] S Hps Hd. pose proof (mp_n _ _ _ _ _ _ H2). pose proof (mp_n _ _ _ _ _ _ H3).
  unfold zmap_base, imap_base in *. split; try done.
  - by rewrite (st_fl _ _ _ S).
  - eapply map_ok_stable; [done..|]. intros k bs Hk. apply Hd. unfold zmap_base, imap_base in *. lia.
  - eapply map_ok_stable; [done..|]. intros k bs Hk. apply Hd. unfold zmap_base, imap_base in *. lia.
Qed.
End mounted.
