(* ===== verification/Mini.v ===== *)
(** * A small file system, for the examples of the theorems

    Device 0x301 has twelve blocks, all of them in the cache: the boot block,
    the super block, one block each of inode bits, zone bits and inodes, and
    the zones 5 to 11.  Inode 1 is the root directory (zone 5), inode 2 the
    file [a], with data in zone 6 and, through the indirect block 7, in
    zone 8. *)

From S2P Require Import Prelude Task Sched WaitQ Buffer Blk Fs Blocks Super.

(** ** Filling a cache *)

Definition stuck (_ : lens cache (option nat)) : M cache unit := halt Blocked.
#[export] Instance stuck_sleeper :
  Sleeper id_l (fun r => r = Blocked \/ r = NoFuel) (fun _ => True) stuck.
Proof. split; [by intros; left|done|by right]. Qed.

Definition loaded (l : list Z) (n : Z) (x : buffer_head) : buffer_head :=
  x <| b_bytes := l |> <| b_uptodate := 1 |> <| b_count := n |>.
(** Read a block, with its contents, and keep it [n] times. *)
Definition load (dev : Z) (p : Z * list Z * Z) : M cache unit :=
  let '(block, l, n) := p in
  let! i := Buffer.getblk id_l stuck 1 dev block in
  setb i (loaded l n).
Fixpoint load_all (dev : Z) (ps : list (Z * list Z * Z)) : M cache unit :=
  match ps with
  | [] => ret tt
  | p :: ps' => load dev p ;; load_all dev ps'
  end.

Lemma load_all_ok dev ps : 0 < dev < 2 ^ 16 ->
  Forall (fun p => 0 <= p.1.1 < 2 ^ 32 /\ 0 <= p.2 < 2 ^ 8) ps ->
  forall c, ok c -> wp (load_all dev ps) (fun _ c' => ok c') (fun _ _ => True) c.
Proof.
  intros Hdev. induction ps as [|[[block l] n] ps IH]; intros Hps c Hok; cbn [load_all]; [done|].
  apply Forall_cons in Hps as [[Hb Hn] Hps]. cbn [fst snd] in Hb, Hn. apply wp_bind, wp_bind.
  eapply wp_mono; [apply (getblk_safe_run id_l _ (fun _ => True) stuck 1 (length (bufs c)) c dev block)| |done];
    [by split_and!|done|exact Hb|].
  intros i c1 ((_ & Hok1 & _) & (b & B & _) & _). unfold wp.
  change (lget id_l c1) with c1 in *. rewrite (setb_run _ _ _ _ B). apply IH; [done|].
  apply (touch_ok (loaded l n) i c1); try done.
  intros x (? & ? & _ & ? & ?). unfold valid. cbn [loaded upd b_dev b_blocknr b_count b_lock b_dirt].
  unfold loaded. cbn. tauto.
Qed.

(** ** The blocks *)

Definition two (v : Z) : list Z := [v mod 0x100; v / 0x100].
Definition four (v : Z) : list Z := two (v mod 0x10000) ++ two (v / 0x10000).
Definition block_of (l : list Z) : list Z :=
  l ++ replicate (Z.to_nat BLOCK_SIZE - length l)%nat 0.
Definition raw_inode (mode size nlinks : Z) (zones : list Z) : list Z :=
  two mode ++ two 0 ++ four size ++ four 0 ++ [0; nlinks] ++ concat (two <$> zones).
Definition entry (nr : Z) (name : list Z) : list Z :=
  two nr ++ name ++ replicate (14 - length name)%nat 0.

Definition dev0 : Z := 0x301.
Definition blocks0 : list (Z * list Z * Z) := [
  (1, block_of (two 32 ++ two 12 ++ two 1 ++ two 1 ++ two 5 ++ two 0 ++ four 0x10081c00 ++ two SUPER_MAGIC), 0);
  (2, block_of [7], 1);
  (3, block_of [31], 1);
  (4, block_of (raw_inode 0x41ed 48 2 [5; 0; 0; 0; 0; 0; 0; 0; 0] ++
                raw_inode 0x81a4 8192 1 [6; 0; 0; 0; 0; 0; 0; 7; 0]), 0);
  (5, block_of (entry 1 [46] ++ entry 1 [46; 46] ++ entry 2 [97]), 0);
  (6, block_of [104; 105], 0);
  (7, block_of [8; 0], 0);
  (8, block_of [111; 107], 0);
  (9, block_of [], 0);
  (10, block_of [], 0);
  (11, block_of [], 0)
].

Definition end0 : Z := start_buffer + 11 * (BLOCK_SIZE + sizeof_buffer_head).
Definition empty0 : cache :=
  Cache (tied blank end0 11)
    (replicate (Z.to_nat NR_HASH) None) (Some 0%nat) None 11.
Definition cache0 : cache := match load_all dev0 blocks0 empty0 with Ret _ c => c | Stop _ c => c end.

Definition super0 : super_block :=
  Super 32 12 1 1 5 0 0x10081c00 SUPER_MAGIC
    (Some 1%nat :: replicate 7 None) (Some 2%nat :: replicate 7 None)
    dev0 (Some 0%nat) (Some 0%nat) 0 None 0 0 0.
Definition no_super : super_block :=
  Super 0 0 0 0 0 0 0 0 (replicate 8 None) (replicate 8 None) 0 None None 0 None 0 0 0.
Definition root0 : m_inode :=
  Inode 0x41ed 0 48 0 0 2 [5; 0; 0; 0; 0; 0; 0; 0; 0] None 0 0 dev0 1 3 0 0 0 0 0 0.
Definition file0 : m_inode :=
  Inode 0x81a4 0 8192 0 0 1 [6; 0; 0; 0; 0; 0; 0; 7; 0] None 0 0 dev0 2 1 0 0 0 0 0 0.
Definition no_file : file := File 0 0 0 None 0.
Definition fsys0 : fsys :=
  Fsys (root0 :: file0 :: replicate 30 zero_inode) 1 (replicate NR_FILE no_file)
    (super0 :: replicate 7 no_super) dev0.
Definition task0 : task_struct :=
  (INIT_TASK 0 0) <| pwd := Some 0%nat |> <| root := Some 0%nat |>.
Definition sched0 : sched := Sched [Some task0; Some task0] 1 2.
Definition world0 : Warm.world := (cache0, fsys0, sched0).
Definition held0 : list nat := [1; 2]%nat.

Lemma loads0 : exists c, load_all dev0 blocks0 empty0 = Ret tt c.
Proof.
  assert (H : match load_all dev0 blocks0 empty0 with Ret _ _ => true | Stop _ _ => false end = true)
    by (vm_compute; reflexivity).
  destruct (load_all dev0 blocks0 empty0) as [[] c|]; [by exists c|done].
Qed.

Lemma empty0_wf : wf empty0 (seq 0 11) (fun _ => []).
Proof. apply (tied_wf blank end0 11); [lia|done]. Qed.

Lemma cache0_ok : ok cache0.
Proof.
  unfold cache0. destruct loads0 as [c E]. rewrite E.
  refine (wp_Ret _ _ _ _ _ _ (load_all_ok dev0 blocks0 _ _ empty0 _) E).
  - by split.
  - by repeat constructor.
  - exists (seq 0 11), (fun _ => []). apply empty0_wf.
Qed.

(** The rest of the invariant is computed. *)
Definition good_blockb (x : buffer_head) : bool :=
  (b_lock x =? 0) && negb (b_dev x =? 0) && (length (b_bytes x) =? Z.to_nat BLOCK_SIZE)%nat &&
  forallb (fun v => (0 <=? v) && (v <? 2 ^ 8)) (b_bytes x) && ((b_dirt x =? 0) || (b_dirt x =? 1)).
Lemma good_blockb_ok x : good_blockb x = true -> Warm.good_block x.
Proof.
  unfold good_blockb, Warm.good_block, shaped, bytes. rewrite !andb_true_iff, orb_true_iff.
  intros ((((H1 & H2) & H3) & H4) & H5). zb. apply Nat.eqb_eq in H3.
  split_and!; [done|done|done| |].
  - apply Forall_forall. intros v Hv%list_elem_of_In. eapply forallb_forall in H4; [|done]. zb. lia.
  - destruct H5 as [H5|H5]; zb; auto.
Qed.
Definition counts_ok (ps : list nat) (l : list buffer_head) : bool :=
  forallb (fun p => b_count p.2 =? uses p.1 ps) (zip (seq 0 (length l)) l).
Lemma counts_ok_spec ps l i x :
  counts_ok ps l = true -> l !! i = Some x -> b_count x = uses i ps.
Proof.
  intros H E. apply Z.eqb_eq. refine (proj1 (forallb_forall _ _) H (i, x) _).
  apply list_elem_of_In, list_elem_of_lookup. exists i. apply lookup_zip_Some. split; [|done].
  apply lookup_seq. split; [done|]. by apply lookup_lt_Some in E.
Qed.

Lemma world0_warm : inv held0 world0.
Proof.
  split.
  - exact cache0_ok.
  - reflexivity.
  - apply Forall_forall. intros x Hx%list_elem_of_In. apply good_blockb_ok.
    revert x Hx. apply forallb_forall. vm_compute. reflexivity.
  - intros i Hi. assert (length (bufs (lget cl world0)) = 11%nat) as -> by (vm_compute; reflexivity).
    unfold held0 in Hi. set_unfold. lia.
  - intros i x. apply counts_ok_spec. vm_compute. reflexivity.
  - unfold held0. cbn [length]. lia.
Qed.

Definition is_bytes (c : content) : bool := match c with Bytes _ => true | _ => false end.
Lemma is_bytes_ok c : is_bytes c = true -> exists l, c = Bytes l.
Proof. destruct c as [| |l]; [done..|by exists l]. Qed.

Lemma map0_ok base i :
  is_bytes (data world0 dev0 base) = true -> i ∈ held0 ->
  ident (lget cl world0) i = Some (dev0, base) ->
  map_ok held0 world0 dev0 base 1 (Some i :: replicate 7 None).
Proof.
  intros (l & El)%is_bytes_ok Hi Hid. split.
  - done.
  - lia.
  - intros k Hk. assert (k = 0) as -> by lia. rewrite Z.add_0_r. exists i, l.
    exact (conj eq_refl (conj Hi (conj Hid El))).
  - intros k Hk. unfold zget. destruct (Z.ltb_spec k 0); [lia|].
    destruct (Z.to_nat k) as [|n] eqn:En; [lia|].
    destruct n as [|[|[|[|[|[|[|n]]]]]]]; try reflexivity. lia.
Qed.
Lemma mounted0 : mounted held0 world0 dev0 0 super0.
Proof.
  split.
  - split; try done. intros j x Hj. lia.
  - apply map0_ok; [vm_compute; reflexivity|by left|vm_compute; reflexivity].
  - apply map0_ok; [vm_compute; reflexivity|by right; left|vm_compute; reflexivity].
  - vm_compute. discriminate.
  - vm_compute. reflexivity.
Qed.

(** The buffers that are not held are 0 and those from 3 on. *)
Lemma unheld0 b : b <> 2 -> b <> 3 -> unheld held0 world0 dev0 b.
Proof.
  intros H2 H3 i Hi E. unfold held0 in Hi.
  assert (E1 : ident (lget cl world0) 1 = Some (dev0, 2)) by (vm_compute; reflexivity).
  assert (E2 : ident (lget cl world0) 2 = Some (dev0, 3)) by (vm_compute; reflexivity).
  apply elem_of_cons in Hi as [->|[->|Hi]%elem_of_cons]; [| |by inversion Hi].
  - rewrite E1 in E. injection E as E. congruence.
  - rewrite E2 in E. injection E as E. congruence.
Qed.
