(* ===== verification/Bitmap.v ===== *)
(** * The bitmaps of zones and inodes: fs/bitmap.c

    The bits of a block are those of its bytes in order, as the [bts], [btr]
    and [bsf] instructions count them.  The messages are left out. *)

From S2P Require Import Prelude Task Sched WaitQ Buffer Blk Fs Blocks Super Mini.

(** ** The instructions *)

Definition bit (l : list Z) (nr : Z) : bool :=
  match zget l (nr / 8) with Some v => Z.testbit v (nr mod 8) | None => false end.
Definition with_bit (v : bool) (nr : Z) (x : Z) : Z :=
  if v then Z.lor x (Z.shiftl 1 (nr mod 8)) else Z.ldiff x (Z.shiftl 1 (nr mod 8)).

(** [bsfl]: the lowest bit set from [i] on, among [n]. *)
Fixpoint bsf (n : nat) (i : Z) (x : Z) : option Z :=
  match n with
  | O => None
  | S n' => if Z.testbit x i then Some i else bsf n' (i + 1) x
  end.

(** The loop of find_first_zero, from bit [ecx] on. *)
Fixpoint ffz (n : nat) (l : list Z) (ecx : Z) : Z :=
  match n with
  | O => ecx
  | S n' =>
      match bsf 32 0 (Z.lnot (le32 l (Z.to_nat (ecx / 8)))) with
      | Some i => ecx + i
      | None => if ecx + 32 <? 8192 then ffz n' l (ecx + 32) else ecx + 32
      end
  end.
Definition find_first_zero (l : list Z) : Z := ffz 256 l 0.

Section ops.
Context {W : Type} `{!Env W}.

(** Write bit [nr] of the block of [bh]; the value it had. *)
Definition write_bit (v : bool) (nr : Z) (bh : nat) : M W bool :=
  let! l := buf b_bytes bh in
  let! x := deref (zget l (nr / 8)) in
  set_buf bh (fun b => b <| b_bytes ::= zset (nr / 8) (with_bit v nr x) |>) ;;
  ret (Z.testbit x (nr mod 8)).
Definition set_bit (nr : Z) (bh : nat) : M W Z :=
  let! old := write_bit true nr bh in ret (b2z old).
Definition clear_bit (nr : Z) (bh : nat) : M W Z :=
  let! old := write_bit false nr bh in ret (b2z (negb old)).

Definition free_inode (fuel : nat) (inode : option nat) : M W unit :=
  match inode with
  | None => ret tt
  | Some i =>
      let! x := ino id i in
      if i_dev x =? 0 then set_ino i (fun _ => zero_inode)
      else if 1 <? i_count x then halt (Panic "free_inode")
      else if truth (i_nlinks x) then halt (Panic "trying to free inode with links")
      else
        let! sb := get_super fuel (i_dev x) in
        match sb with
        | None => halt (Panic "trying to free inode on nonexistent device")
        | Some sb =>
            let! x := ino id i in
            let! n := sup s_ninodes sb in
            if (i_num x <? 1) || (n <? i_num x) then
              halt (Panic "trying to free inode 0 or nonexistant inode")
            else
              let! maps := sup s_imap sb in
              let! slot := deref (zget maps (Z.shiftr (i_num x) 13)) in
              match slot with
              | None => halt (Panic "nonexistent imap in superblock")
              | Some bh =>
                  clear_bit (Z.land (i_num x) 8191) bh ;;
                  set_buf bh (fun b => b <| b_dirt := 1 |>) ;;
                  set_ino i (fun _ => zero_inode)
              end
        end
  end.

(** Lines 85 to 94: the buffer of the block; [true] is the return. *)
Definition forget_zone (bh : option nat) : M W bool :=
  match bh with
  | None => ret false
  | Some bh =>
      let! n := buf b_count bh in
      if negb (n =? 1) then ret true
      else
        set_buf bh (fun b => b <| b_dirt := 0 |>) ;;
        set_buf bh (fun b => b <| b_uptodate := 0 |>) ;;
        brelse (Some bh) ;;
        ret false
  end.
(** Lines 95 to 100: the bit of the block. *)
Definition clear_zone (s : super_block) (block : Z) : M W unit :=
  let block := block - (s_firstdatazone s - 1) in
  let! slot := deref (zget (s_zmap s) (Z.quot block 8192)) in
  let! map := deref slot in
  let! was_clear := clear_bit (Z.land block 8191) map in
  if truth was_clear then halt (Panic "free_block: bit already cleared")
  else set_buf map (fun b => b <| b_dirt := 1 |>).

Definition free_block (fuel : nat) (dev block : Z) : M W unit :=
  let! sb := get_super fuel dev in
  match sb with
  | None => halt (Panic "trying to free block on nonexistent device")
  | Some sb =>
      let! s := sup id sb in
      if (block <? s_firstdatazone s) || (s_nzones s <=? block) then
        halt (Panic "trying to free block not in datazone")
      else
        let! bh := get_hash_table dev block in
        let! busy := forget_zone bh in
        if busy : bool then ret tt
        else let! s := sup id sb in clear_zone s block
  end.

(** [for (i=0 ; i<8 ; i++) if ((bh=maps[i])) if ((j=find_first_zero(...))<8192)
    break;]: the values of [i], [bh] and [j] after the loop. *)
Fixpoint scan_maps (maps : list (option nat)) (i : Z) (bh : option nat) (j : Z) :
    M W (Z * option nat * Z) :=
  match maps with
  | [] => ret (i, bh, j)
  | None :: maps' => scan_maps maps' (i + 1) None j
  | Some b :: maps' =>
      let! l := buf b_bytes b in
      let j := find_first_zero l in
      if j <? 8192 then ret (i, Some b, j) else scan_maps maps' (i + 1) (Some b) j
  end.

(** Zone [j] has just been taken: its buffer is cleared. *)
Definition fresh_block (dev j : Z) : M W Z :=
  let! bh := getblk dev j in
  let! n := buf b_count bh in
  if negb (n =? 1) then halt (Panic "new block: count is != 1")
  else
    set_buf bh (fun b => b <| b_bytes := replicate (Z.to_nat BLOCK_SIZE) 0 |>) ;;
    set_buf bh (fun b => b <| b_uptodate := 1 |>) ;;
    set_buf bh (fun b => b <| b_dirt := 1 |>) ;;
    brelse (Some bh) ;;
    ret j.

Definition new_block (fuel : nat) (dev : Z) : M W Z :=
  let! sb := get_super fuel dev in
  match sb with
  | None => halt (Panic "trying to get new block from nonexistant device")
  | Some sb =>
      let! maps := sup s_zmap sb in
      let! (ij, j) := scan_maps maps 0 None 8192 in
      let '(i, bh) := ij in
      match bh with
      | None => ret 0
      | Some bh =>
          if (8 <=? i) || (8192 <=? j) then ret 0
          else
            let! old := set_bit j bh in
            if truth old then halt (Panic "new_block: bit already set")
            else
              set_buf bh (fun b => b <| b_dirt := 1 |>) ;;
              let! s := sup id sb in
              let j := j + (i * 8192 + s_firstdatazone s - 1) in
              if s_nzones s <=? j then ret 0
              else
                fresh_block dev j
      end
  end.
End ops.

(** ** The instructions on the bits of a block *)

#[local] Ltac Zify.zify_post_hook ::= Z.div_mod_to_equations.

Lemma add_testbit a b n i : 0 <= a < 2 ^ n -> 0 <= n -> 0 <= i ->
  Z.testbit (a + 2 ^ n * b) i = if i <? n then Z.testbit a i else Z.testbit b (i - n).
Proof.
  intros Ha Hn Hi. destruct (Z.ltb_spec i n).
  - rewrite <-(Z.mod_pow2_bits_low (a + 2 ^ n * b) n i), <-(Z.mod_small a (2 ^ n)) by lia.
    rewrite Z.mul_comm, Z.mod_add by lia. by rewrite Z.mod_mod by lia.
  - replace i with (i - n + n) at 1 by lia. rewrite <-Z.div_pow2_bits by lia.
    f_equal. rewrite (Z.mul_comm (2 ^ n)), Z.div_add, Z.div_small by lia. done.
Qed.

Lemma bytes_at l i x : bytes l -> zget l i = Some x -> 0 <= x < 2 ^ 8.
Proof.
  intros Hb. unfold zget. case (i <? 0); [done|]. intros E.
  by apply (proj1 (Forall_lookup _ _) Hb _ _ E).
Qed.

(** A double word of the block has the bits of the block. *)
Lemma le32_testbit l off i :
  bytes l -> (off + 4 <= length l)%nat -> 0 <= i < 32 ->
  Z.testbit (le32 l off) i = bit l (8 * Z.of_nat off + i).
Proof.
  intros Hb Hl Hi. unfold le32.
  assert (Hz : forall k, (k < 4)%nat ->
    zget l ((8 * Z.of_nat off + (8 * Z.of_nat k + i mod 8)) / 8) = take 4 (drop off l) !! k).
  { intros k Hk. rewrite lookup_take_lt, lookup_drop by done. unfold zget.
    pose proof (Z.mod_pos_bound i 8).
    replace ((8 * Z.of_nat off + (8 * Z.of_nat k + i mod 8)) / 8) with (Z.of_nat (off + k)) by lia.
    destruct (Z.ltb_spec (Z.of_nat (off + k)) 0); [lia|]. by rewrite Nat2Z.id. }
  assert (Hlen : length (take 4 (drop off l)) = 4%nat) by (rewrite length_take, length_drop; lia).
  assert (Hbt : bytes (take 4 (drop off l))) by (unfold bytes in *; by apply Forall_take, Forall_drop).
  unfold bit. pose proof (Z.div_mod i 8).
  assert (Hq : i / 8 = 0 \/ i / 8 = 1 \/ i / 8 = 2 \/ i / 8 = 3) by lia.
  replace (8 * Z.of_nat off + i) with (8 * Z.of_nat off + (8 * Z.of_nat (Z.to_nat (i / 8)) + i mod 8)) by lia.
  rewrite Hz by lia.
  replace ((8 * Z.of_nat off + (8 * Z.of_nat (Z.to_nat (i / 8)) + i mod 8)) mod 8) with (i mod 8)
    by lia.
  destruct (take 4 (drop off l)) as [|a [|b [|c [|d [|]]]]]; try done. clear Hz.
  unfold bytes in Hbt. rewrite !Forall_cons in Hbt. destruct Hbt as (Ha & Hb' & Hc & Hd & _).
  replace (a + 0x100 * b + 0x10000 * c + 0x1000000 * d)
    with (a + 2 ^ 8 * (b + 2 ^ 8 * (c + 2 ^ 8 * d))) by lia.
  assert (Hn : forall m v, 0 <= m < 8 -> m = i mod 8 -> Z.testbit v m = Z.testbit v (i mod 8))
    by (by intros ? ? _ ->).
  rewrite add_testbit by lia. destruct (Z.ltb_spec i 8); [|rewrite add_testbit by lia;
    destruct (Z.ltb_spec (i - 8) 8); [|rewrite add_testbit by lia; destruct (Z.ltb_spec (i - 8 - 8) 8)]];
    destruct Hq as [Hq|[Hq|[Hq|Hq]]]; try lia; rewrite Hq; apply Hn; lia.
Qed.

Lemma bsf_spec x n i : 0 <= i ->
  match bsf n i x with
  | Some j => i <= j < i + Z.of_nat n /\ Z.testbit x j = true /\
              forall k, i <= k < j -> Z.testbit x k = false
  | None => forall k, i <= k < i + Z.of_nat n -> Z.testbit x k = false
  end.
Proof.
  revert i. induction n as [|n IH]; intros i Hi; cbn [bsf]; [lia|].
  destruct (Z.testbit x i) eqn:E; [split_and!; try done; lia|].
  assert (Hk : forall k, k = i -> Z.testbit x k = false) by (by intros ? ->).
  specialize (IH (i + 1) ltac:(lia)). destruct (bsf n (i + 1) x) as [j|].
  - destruct IH as (H1 & H2 & H3). split_and!; [lia|lia|done|].
    intros k Hki. destruct (decide (k = i)); [auto|]. apply H3. lia.
  - intros k Hki. destruct (decide (k = i)); [auto|]. apply IH. lia.
Qed.

(** [j] is the first bit of [l] that is 0, or 8192. *)
Definition first_zero (l : list Z) (j : Z) : Prop :=
  0 <= j <= 8192 /\ (forall k, 0 <= k < j -> bit l k = true) /\ (j < 8192 -> bit l j = false).

Lemma ffz_run l : length l = 1024%nat -> bytes l -> forall n m,
  (m + n = 256)%nat -> (0 < n)%nat -> (forall k, 0 <= k < 32 * Z.of_nat m -> bit l k = true) ->
  first_zero l (ffz n l (32 * Z.of_nat m)).
Proof.
  intros Hl Hb. induction n as [|n IH]; intros m Hm Hn Hlow; [lia|]. cbn [ffz].
  replace (Z.to_nat (32 * Z.of_nat m / 8)) with (4 * m)%nat by lia.
  pose proof (bsf_spec (Z.lnot (le32 l (4 * m))) 32 0 ltac:(lia)) as Hs.
  assert (Ht : forall i, 0 <= i < 32 ->
    Z.testbit (Z.lnot (le32 l (4 * m))) i = negb (bit l (32 * Z.of_nat m + i))).
  { intros i Hi. rewrite Z.lnot_spec, le32_testbit by (done || lia). do 2 f_equal. lia. }
  destruct (bsf 32 0 _) as [i|].
  - destruct Hs as (Hi & H1 & H0). rewrite Ht in H1 by lia. apply negb_true_iff in H1.
    split_and!; [lia|lia| |by intros]. intros k Hk.
    destruct (decide (k < 32 * Z.of_nat m)); [apply Hlow; lia|].
    specialize (H0 (k - 32 * Z.of_nat m) ltac:(lia)). rewrite Ht in H0 by lia.
    apply negb_false_iff in H0. by replace (32 * Z.of_nat m + (k - 32 * Z.of_nat m)) with k in H0 by lia.
  - assert (Hlow' : forall k, 0 <= k < 32 * Z.of_nat (S m) -> bit l k = true).
    { intros k Hk. destruct (decide (k < 32 * Z.of_nat m)); [apply Hlow; lia|].
      specialize (Hs (k - 32 * Z.of_nat m) ltac:(lia)). rewrite Ht in Hs by lia.
      apply negb_false_iff in Hs. by replace (32 * Z.of_nat m + (k - 32 * Z.of_nat m)) with k in Hs by lia. }
    replace (32 * Z.of_nat m + 32) with (32 * Z.of_nat (S m)) by lia.
    destruct (Z.ltb_spec (32 * Z.of_nat (S m)) 8192).
    + apply IH; [lia|lia|done].
    + split_and!; [lia|lia| |lia]. intros k Hk. apply Hlow'. lia.
Qed.

Lemma find_first_zero_run l : length l = 1024%nat -> bytes l -> first_zero l (find_first_zero l).
Proof. intros Hl Hb. apply (ffz_run l Hl Hb 256 0); [done|lia|lia]. Qed.

(** Setting and clearing a bit. *)
Definition put_bit (v : bool) (nr : Z) (l : list Z) : list Z :=
  match zget l (nr / 8) with Some x => zset (nr / 8) (with_bit v nr x) l | None => l end.

Lemma with_bit_testbit v nr x i : 0 <= i < 8 ->
  Z.testbit (with_bit v nr x) i = if i =? nr mod 8 then v else Z.testbit x i.
Proof.
  intros Hi. unfold with_bit. destruct v.
  - rewrite Z.lor_spec, bit1_testbit by lia. destruct (i =? nr mod 8); [apply orb_true_r|apply orb_false_r].
  - rewrite Z.ldiff_spec, bit1_testbit by lia. destruct (i =? nr mod 8); [apply andb_false_r|apply andb_true_r].
Qed.
Lemma with_bit_range v nr x : 0 <= x < 2 ^ 8 -> 0 <= with_bit v nr x < 2 ^ 8.
Proof.
  intros Hx. pose proof (Z.mod_pos_bound nr 8). unfold with_bit. destruct v.
  - apply lor_range; [done|apply bit1_range; lia|lia].
  - by apply ldiff_range.
Qed.
Lemma bit_put_bit v nr l k :
  0 <= nr < 8 * Z.of_nat (length l) -> 0 <= k ->
  bit (put_bit v nr l) k = if k =? nr then v else bit l k.
Proof.
  intros Hnr Hk. destruct (zget_is_Some l (nr / 8)) as [x E]; [lia|].
  unfold bit, put_bit. rewrite E. pose proof (Z.div_mod nr 8). pose proof (Z.div_mod k 8).
  destruct (decide (k / 8 = nr / 8)) as [Eq|Ne].
  - rewrite Eq, E, zget_zset_eq by lia. rewrite with_bit_testbit by lia.
    destruct (Z.eqb_spec (k mod 8) (nr mod 8)), (Z.eqb_spec k nr); try done; lia.
  - rewrite zget_zset_ne by done. destruct (Z.eqb_spec k nr); [congruence|done].
Qed.
Lemma put_bit_shape v nr l : bytes l -> length (put_bit v nr l) = length l /\ bytes (put_bit v nr l).
Proof.
  intros Hb. unfold put_bit. destruct (zget l (nr / 8)) as [x|] eqn:E; [|done].
  split; [apply length_zset|]. unfold zset. case (nr / 8 <? 0); [done|].
  apply Forall_insert; [done|]. apply with_bit_range. by eapply bytes_at.
Qed.

(** ** The bitmaps of a mounted file system *)

Section maps.
Context {W : Type} `{!Env W} `{!Wired W} `{!BlockIO W}.

(** Bit [j] of the bitmap in the blocks from [base] on. *)
Definition map_bit (w : W) (dev base j : Z) : bool :=
  match data w dev (base + j / 8192) with Bytes l => bit l (j mod 8192) | _ => true end.
Definition taken (w : W) (dev base n : Z) : Prop :=
  forall j, 0 <= j < n -> map_bit w dev base j = true.

Lemma map_block ps w dev base n l k :
  inv ps w -> map_ok ps w dev base n l -> 0 <= k < n ->
  exists i x, zget l k = Some (Some i) /\ i ∈ ps /\ ident (lget cl w) i = Some (dev, base + k) /\
    bufs (lget cl w) !! i = Some x /\ shaped x /\ b_dev x = dev /\ b_blocknr x = base + k /\
    content_of x = Bytes (b_bytes x) /\ data w dev (base + k) = Bytes (b_bytes x) /\
    forall r, 0 <= r < 8192 -> map_bit w dev base (8192 * k + r) = bit (b_bytes x) r.
Proof.
  intros Hi Hm Hk. destruct (mp_some _ _ _ _ _ _ Hm k Hk) as (i & bs & E & Hin & Hid & Ed).
  destruct (held_at _ _ _ _ _ Hi Hin Hid) as (x & B & Hx & Hdv & Hbn & _ & _ & Ec).
  rewrite Ed in Ec. assert (bs = b_bytes x) as ->.
  { unfold content_of in Ec. destruct (truth _); [by injection Ec|done]. }
  exists i, x. split_and!; try done. intros r Hr. unfold map_bit.
  replace (8192 * k + r) with (k * 8192 + r) by lia.
  rewrite Z.div_add_l, (Z.div_small r), Z.add_0_r by lia. rewrite Ed.
  by rewrite Z.add_comm, Z.mod_add, Z.mod_small by lia.
Qed.

Lemma shaped_length x : shaped x -> length (b_bytes x) = 1024%nat /\ bytes (b_bytes x).
Proof. by intros (? & ? & _). Qed.

Lemma scan_maps_from ps w dev base n l : inv ps w -> map_ok ps w dev base n l ->
  forall m k bh j0, (k + m = 8)%nat -> taken w dev base (8192 * Z.min (Z.of_nat k) n) ->
  (exists i j, Z.of_nat k <= j / 8192 < n /\ map_bit w dev base j = false /\ taken w dev base j /\
     zget l (j / 8192) = Some (Some i) /\
     scan_maps (drop k l) (Z.of_nat k) bh j0 w = Ret (j / 8192, Some i, j mod 8192) w) \/
  (taken w dev base (8192 * n) /\ exists o j', scan_maps (drop k l) (Z.of_nat k) bh j0 w = Ret (8, o, j') w).
Proof.
  intros Hi Hm. pose proof (mp_n _ _ _ _ _ _ Hm) as Hn.
  induction m as [|m IH]; intros k bh j0 Hk Ht.
  { right. assert (k = 8%nat) as -> by lia. split; [by replace n with (Z.min 8 n) by lia|].
    rewrite drop_ge by (rewrite (mp_len _ _ _ _ _ _ Hm); done). by exists bh, j0. }
  assert (Hz : zget l (Z.of_nat k) = l !! k).
  { unfold zget. destruct (Z.ltb_spec (Z.of_nat k) 0); [lia|]. by rewrite Nat2Z.id. }
  destruct (decide (Z.of_nat k < n)) as [Hkn|Hkn].
  - destruct (map_block _ _ _ _ _ _ (Z.of_nat k) Hi Hm ltac:(lia))
      as (i & x & E & _ & _ & B & Hx & _ & _ & _ & _ & Hbit).
    rewrite Hz in E. rewrite (drop_S _ _ _ E). cbn [scan_maps].
    rewrite (buf_bind _ _ _ _ _ B). destruct (shaped_length _ Hx) as [Hlx Hbx].
    destruct (find_first_zero_run _ Hlx Hbx) as (Hr & Hlow & Hzero).
    assert (Ht' : forall r, r <= find_first_zero (b_bytes x) ->
      taken w dev base (8192 * Z.of_nat k + r)).
    { intros r Hrr q Hq. destruct (decide (q < 8192 * Z.of_nat k)); [apply Ht; lia|].
      replace q with (8192 * Z.of_nat k + (q - 8192 * Z.of_nat k)) by lia.
      rewrite Hbit by lia. apply Hlow. lia. }
    destruct (Z.ltb_spec (find_first_zero (b_bytes x)) 8192) as [Hlt|Hge].
    + left. set (r := find_first_zero (b_bytes x)) in *.
      assert (Eq : (8192 * Z.of_nat k + r) / 8192 = Z.of_nat k) by lia.
      exists i, (8192 * Z.of_nat k + r). rewrite Eq, Hz, E. split_and!; [lia|lia| | |done|].
      * rewrite Hbit by lia. by apply Hzero.
      * by apply Ht'.
      * by replace ((8192 * Z.of_nat k + r) mod 8192) with r by lia.
    + destruct (IH (S k) (Some i) (find_first_zero (b_bytes x)) ltac:(lia)) as [Hc|Hc].
      * replace (8192 * Z.min (Z.of_nat (S k)) n) with (8192 * Z.of_nat k + 8192) by lia.
        apply Ht'. lia.
      * left. destruct Hc as (i' & j & ? & ? & ? & ? & Es). exists i', j. split_and!; [lia|lia|done..|].
        replace (Z.of_nat k + 1) with (Z.of_nat (S k)) by lia. done.
      * right. by replace (Z.of_nat k + 1) with (Z.of_nat (S k)) by lia.
  - pose proof (mp_none _ _ _ _ _ _ Hm (Z.of_nat k) ltac:(lia)) as E. rewrite Hz in E.
    rewrite (drop_S _ _ _ E). cbn [scan_maps].
    destruct (IH (S k) None j0 ltac:(lia)) as [Hc|Hc].
    + by replace (Z.min (Z.of_nat (S k)) n) with (Z.min (Z.of_nat k) n) by lia.
    + left. destruct Hc as (i' & j & ? & ? & ? & ? & Es). exists i', j. split_and!; [lia|lia|done..|].
      by replace (Z.of_nat k + 1) with (Z.of_nat (S k)) by lia.
    + right. by replace (Z.of_nat k + 1) with (Z.of_nat (S k)) by lia.
Qed.
Lemma scan_maps_run ps w dev base n l : inv ps w -> map_ok ps w dev base n l ->
  (exists i j, 0 <= j < 8192 * n /\ map_bit w dev base j = false /\ taken w dev base j /\ zget l (j / 8192) = Some (Some i) /\ 
     scan_maps l 0 None 8192 w = Ret (j / 8192, Some i, j mod 8192) w) \/
  (taken w dev base (8192 * n) /\ exists o j', scan_maps l 0 None 8192 w = Ret (8, o, j') w).
Proof.
  intros Hi Hm. pose proof (mp_n _ _ _ _ _ _ Hm).
  destruct (scan_maps_from _ _ _ _ _ _ Hi Hm 8 0 None 8192 eq_refl) as [Hc|Hc].
  - intros q Hq. lia.
  - left. destruct Hc as (i & j & ? & ?). exists i, j. split; [lia|done].
  - by right.
Qed.

(** Writing a bit of a bitmap. *)
Lemma write_bit_run {B} ps w v nr dev b bh x (k : bool -> M W B) :
  inv ps w -> bh ∈ ps -> ident (lget cl w) bh = Some (dev, b) -> bufs (lget cl w) !! bh = Some x ->
  shaped x -> 0 <= nr < 8192 ->
  bind (write_bit v nr bh) k w =
    k (bit (b_bytes x) nr) (edited (fun y => y <| b_bytes ::= put_bit v nr |>) bh w).
Proof.
  intros Hi Hin Hid B0 Hx Hnr. destruct (shaped_length _ Hx) as [Hl Hb].
  destruct (zget_is_Some (b_bytes x) (nr / 8)) as [v0 E]; [lia|].
  unfold write_bit. rewrite bind_assoc, (buf_bind _ _ _ _ _ B0), bind_assoc, (bind_deref _ _ _ _ E).
  rewrite bind_assoc, (set_buf_bind _ _ _ _ _ B0), bind_ret_l. unfold bit at 1. rewrite E. f_equal.
  unfold edited, touch. f_equal. cbn. f_equal. apply list_alter_ext; [|done].
  intros y Ey. assert (y = x) as -> by congruence. unfold put_bit. cbn. by rewrite E.
Qed.
Lemma edit_put_bit v nr : edit (fun y => y <| b_bytes ::= put_bit v nr |>).
Proof.
  apply edit_bytes. intros l Hl Hb. destruct (put_bit_shape v nr l Hb) as [-> ?]. done.
Qed.

(** Bit [j] of the bitmap has been written, and nothing else. *)
Definition bit_written (v : bool) (w w' : W) (dev base j : Z) : Prop :=
  exists l, data w dev (base + j / 8192) = Bytes l /\ length l = 1024%nat /\
    forall d b, data w' d b =
      upd2 dev (base + j / 8192) (Bytes (put_bit v (j mod 8192) l)) (data w) d b.

Lemma bit_written_map v w w' dev base j k :
  bit_written v w w' dev base j -> map_bit w' dev base k = if k =? j then v else map_bit w dev base k.
Proof.
  intros (l & E & Hl & Hd). unfold map_bit. rewrite Hd. unfold upd2.
  case_decide as Hk.
  - assert (Ek : k / 8192 = j / 8192) by lia. rewrite Ek, E, bit_put_bit by lia.
    destruct (Z.eqb_spec (k mod 8192) (j mod 8192)), (Z.eqb_spec k j); try done; lia.
  - destruct (Z.eqb_spec k j) as [->|]; [|done]. by destruct Hk.
Qed.
Lemma bit_written_mounted v ps w w' dev base s sb j :
  mounted ps w dev s sb -> stable ps w w' -> bit_written v w w' dev base j -> mounted ps w' dev s sb.
Proof.
  intros Hm S (l & E & Hl & Hd). eapply mounted_stable; [done..|].
  intros b bs _ Eb. rewrite Hd. unfold upd2. case_decide; eauto.
Qed.

(** The buffer of the bitmap that has bit [j], and the assignment of the bit
    and of [b_dirt] to it. *)
Definition mark (v : bool) (nr : Z) (x : buffer_head) : buffer_head :=
  x <| b_bytes ::= put_bit v nr |> <| b_dirt := 1 |>.
Lemma edit_mark v nr : edit (mark v nr).
Proof. apply (edit_comp (fun x => x <| b_dirt := 1 |>)); [apply edit_dirt; by right|apply edit_put_bit]. Qed.

Lemma edited_twice f g i w : edited f i (edited g i w) = edited (fun x => f (g x)) i w.
Proof. unfold edited. rewrite get_set, set_set. unfold touch. cbn. by rewrite alter_alter. Qed.

Lemma map_buffer ps w dev base n l j :
  inv ps w -> map_ok ps w dev base n l -> 0 <= j < 8192 * n ->
  exists bh x, zget l (j / 8192) = Some (Some bh) /\
    holding ps w bh dev (base + j / 8192) x /\ content_of x = Bytes (b_bytes x) /\
    map_bit w dev base j = bit (b_bytes x) (j mod 8192).
Proof.
  intros Hi Hm Hj.
  destruct (map_block _ _ _ _ _ _ (j / 8192) Hi Hm ltac:(lia))
    as (bh & x & E & Hin & Hid & B & _ & _ & _ & Ec & Ed & Hbit).
  destruct (holding_intro _ _ _ _ _ Hi Hin Hid) as [x' Hx'].
  assert (x' = x) as -> by (pose proof (ho_at _ _ _ _ _ _ Hx'); congruence).
  exists bh, x. split_and!; try done. rewrite <-Hbit by lia. f_equal. lia.
Qed.

Lemma mark_run ps w v dev base j bh x :
  holding ps w bh dev (base + j / 8192) x -> content_of x = Bytes (b_bytes x) ->
  let w1 := edited (mark v (j mod 8192)) bh w in
  inv ps w1 /\ stable ps w w1 /\ bit_written v w w1 dev base j.
Proof.
  intros H Ec. destruct (holding_edit _ _ _ _ _ _ _ H (edit_mark v (j mod 8192))) as (H' & S & Hd).
  split_and!; [apply H'|done|]. exists (b_bytes x).
  destruct (shaped_length _ (ho_shaped _ _ _ _ _ _ H)) as [Hl _].
  split_and!; [by rewrite (ho_data _ _ _ _ _ _ H)|done|]. intros d b. rewrite Hd.
  assert (content_of (mark v (j mod 8192) x) = Bytes (put_bit v (j mod 8192) (b_bytes x))) as ->; [|done].
  unfold content_of in *. cbn. by destruct (truth (b_uptodate x)).
Qed.
Lemma mark_bind {B} ps w v dev base j bh x old (k : bool -> M W B) (k' : M W B) :
  holding ps w bh dev (base + j / 8192) x -> bit (b_bytes x) (j mod 8192) = old ->
  (forall w', k old w' = (set_buf bh (fun y => y <| b_dirt := 1 |>) ;; k') w') ->
  bind (write_bit v (j mod 8192) bh) k w = k' (edited (mark v (j mod 8192)) bh w).
Proof.
  intros H Eo E. rewrite (write_bit_run ps _ _ _ dev (base + j / 8192) bh x); try apply H; [|lia].
  rewrite Eo, E, (set_buf_bind _ _ _ _ (x <| b_bytes ::= put_bit v (j mod 8192) |>))
    by (apply (edited_lookup _ _ _ _ (ho_at _ _ _ _ _ _ H))).
  by rewrite edited_twice.
Qed.
End maps.

(** ** new_block() and free_block() *)

Definition zeros : list Z := replicate (Z.to_nat BLOCK_SIZE) 0.

Section fresh.
Context {W : Type} `{!Env W} `{!Wired W} `{!BlockIO W}.

(** Letting go of a buffer after an assignment to it. *)
Lemma edit_release ps dev b w0 w i x g :
  pinned ps dev b w0 i w -> holding (i :: ps) w i dev b x -> edit g ->
  exists w', brelse (Some i) (edited g i w) = Ret tt w' /\ inv ps w' /\ stable ps w0 w' /\
    forall d y, data w' d y = upd2 dev b (content_of (g x)) (data w0) d y.
Proof.
  intros (_ & Hd0 & S0 & _) Hx Hg.
  destruct (holding_edit _ _ _ _ _ _ _ Hx Hg) as (H' & S & Hd).
  destruct (brelse_ok _ _ _ (ho_inv _ _ _ _ _ _ H')) as (w' & E & Hi & Hd' & S').
  exists w'. split_and!; [done|done| |].
  - eapply stable_trans; [done|]. eapply stable_trans; [|done].
    eapply stable_sub; [|done]. set_solver.
  - intros d y. rewrite Hd', Hd. unfold upd2. by case_decide.
Qed.

Lemma edit_clear : edit (fun x => x <| b_bytes := zeros |> <| b_uptodate := 1 |> <| b_dirt := 1 |>).
Proof.
  apply (edit_comp (fun x => x <| b_dirt := 1 |>)); [apply edit_dirt; by right|].
  apply (edit_comp (fun x => x <| b_uptodate := 1 |>)); [apply edit_uptodate|].
  apply (edit_bytes (fun _ => zeros)). intros _ _ _. split; [apply length_replicate|].
  by apply Forall_replicate.
Qed.

Lemma fresh_block_run ps w dev z :
  inv ps w -> (length ps < room)%nat -> data w dev z <> Absent -> unheld ps w dev z ->
  exists w', fresh_block dev z w = Ret z w' /\ inv ps w' /\ stable ps w w' /\
    forall d b, data w' d b = upd2 dev z (Bytes zeros) (data w) d b.
Proof.
  intros Hi Hr Hd Hu. destruct (getblk_ok _ _ _ _ Hi Hd Hr) as (i & w1 & E & Hp).
  destruct (pinned_holding _ _ _ _ _ _ Hp) as [x Hx].
  destruct (edit_release _ _ _ _ _ _ _ _ Hp Hx edit_clear) as (w' & Er & Hi' & S & Hd').
  exists w'. split_and!; [|done..]. unfold fresh_block. rewrite (bind_ret _ _ _ _ _ E).
  rewrite (buf_bind _ _ _ _ _ (ho_at _ _ _ _ _ _ Hx)), (pinned_alone _ _ _ _ _ _ _ Hp Hu Hx).
  cbn [Z.eqb Pos.eqb negb].
  rewrite (set_buf_bind _ _ _ _ _ (ho_at _ _ _ _ _ _ Hx)).
  erewrite set_buf_bind by (apply edited_lookup, Hx).
  erewrite set_buf_bind by (apply edited_lookup, edited_lookup, Hx).
  rewrite !edited_twice. by rewrite (bind_ret _ _ _ _ _ Er).
Qed.
End fresh.

Section zones.
Context {W : Type} `{!Env W} `{!Wired W} `{!BlockIO W}.
Context (ps : list nat) (w : W) (dev : Z) (s : nat) (sb : super_block) (fuel : nat).
Context (Hinv : inv ps w) (Hmo : mounted ps w dev s sb) (Hfuel : enough fuel).
Context (Hroom : (length ps < room)%nat).

(** The zone of bit [j], and whether it is in use. *)
Definition zone (j : Z) : Z := j + s_firstdatazone sb - 1.
Definition zused (v : W) (j : Z) : bool := map_bit v dev (zmap_base sb) j.
Definition zones_taken (n : Z) : Prop := forall j, 0 <= j < n -> zused w j = true.

Lemma new_block_full :
  zones_taken (8192 * s_zmap_blocks sb) -> new_block fuel dev w = Ret 0 w.
Proof.
  intros Ht. unfold new_block. rewrite (bind_ret _ _ _ _ _ (get_super_run _ _ _ _ _ (mo_super _ _ _ _ _ Hmo) Hfuel)).
  rewrite (sup_bind _ _ _ _ _ (hs_at _ _ _ _ (mo_super _ _ _ _ _ Hmo))).
  destruct (scan_maps_run _ _ _ _ _ _ Hinv (mo_zmap _ _ _ _ _ Hmo)) as [Hc|(_ & o & j' & E)].
  - destruct Hc as (i & j & Hj & Hf & _). unfold zones_taken, zused in Ht. by rewrite Ht in Hf.
  - rewrite (bind_ret _ _ _ _ _ E). by destruct o.
Qed.

(** new_block() up to the clearing of the new zone. *)
Lemma new_block_marks j :
  0 <= j < 8192 * s_zmap_blocks sb -> zused w j = false -> zones_taken j ->
  exists w1, inv ps w1 /\ stable ps w w1 /\ bit_written true w w1 dev (zmap_base sb) j /\
    new_block fuel dev w = (if s_nzones sb <=? zone j then ret 0 else fresh_block dev (zone j)) w1.
Proof.
  intros Hj Hf Ht.
  destruct (scan_maps_run _ _ _ _ _ _ Hinv (mo_zmap _ _ _ _ _ Hmo)) as [Hc|(Ht' & _)];
    [|unfold zused in Hf; by rewrite Ht' in Hf].
  destruct Hc as (i & j' & Hj' & Hf' & Ht' & Ei & Es).
  assert (j' = j) as ->.
  { destruct (Z.lt_trichotomy j j') as [Hlt|[Heq|Hlt]]; [|done|].
    - unfold zused in Hf. by rewrite Ht' in Hf by lia.
    - unfold zones_taken, zused in Ht. by rewrite Ht in Hf' by lia. }
  destruct (map_buffer _ _ _ _ _ _ j Hinv (mo_zmap _ _ _ _ _ Hmo) Hj) as (bh & x & E & Hx & Ec & Eb).
  assert (bh = i) as -> by congruence.
  destruct (mark_run _ _ true _ _ _ _ _ Hx Ec) as (H1 & H2 & H3).
  eexists. split_and!; [done..|].
  unfold new_block.
  rewrite (bind_ret _ _ _ _ _ (get_super_run _ _ _ _ _ (mo_super _ _ _ _ _ Hmo) Hfuel)).
  rewrite (sup_bind _ _ _ _ _ (hs_at _ _ _ _ (mo_super _ _ _ _ _ Hmo))).
  rewrite (bind_ret _ _ _ _ _ Es). pose proof (mp_n _ _ _ _ _ _ (mo_zmap _ _ _ _ _ Hmo)).
  destruct (Z.leb_spec 8 (j / 8192)); [lia|]. destruct (Z.leb_spec 8192 (j mod 8192)); [lia|].
  cbn [orb]. unfold set_bit. rewrite bind_assoc.
  erewrite (mark_bind ps w true dev (zmap_base sb) j i x false);
    [|exact Hx|by rewrite <-Eb|reflexivity].
  rewrite (sup_bind _ _ _ _ sb) by
    (rewrite edited_fl; apply (hs_at _ _ _ _ (mo_super _ _ _ _ _ Hmo))).
  cbn [id]. unfold zone.
  by replace (j mod 8192 + (j / 8192 * 8192 + s_firstdatazone sb - 1))
    with (j + s_firstdatazone sb - 1) by lia.
Qed.

(** Everything new_block() does. *)
Lemma new_block_run :
  (zones_taken (8192 * s_zmap_blocks sb) -> new_block fuel dev w = Ret 0 w) /\
  forall j, 0 <= j < 8192 * s_zmap_blocks sb -> zused w j = false -> zones_taken j ->
    exists w1, inv ps w1 /\ stable ps w w1 /\ bit_written true w w1 dev (zmap_base sb) j /\
      (s_nzones sb <= zone j -> new_block fuel dev w = Ret 0 w1) /\
      (zone j < s_nzones sb -> data w dev (zone j) <> Absent -> unheld ps w dev (zone j) ->
       exists w', new_block fuel dev w = Ret (zone j) w' /\ inv ps w' /\ stable ps w w' /\
         mounted ps w' dev s sb /\
         forall d b, data w' d b = upd2 dev (zone j) (Bytes zeros) (data w1) d b).
Proof.
  split; [apply new_block_full|]. intros j Hj Hf Ht.
  destruct (new_block_marks j Hj Hf Ht) as (w1 & Hi & S & Hb & E).
  exists w1. split_and!; [done..| |].
  - intros Hn. rewrite E. by destruct (Z.leb_spec (s_nzones sb) (zone j)); [|lia].
  - intros Hn Hd Hu. destruct (fresh_block_run ps w1 dev (zone j)) as (w' & Ef & Hi' & S' & Hd'); [done|done| | |].
    + destruct Hb as (l & _ & _ & Hd1). rewrite Hd1. unfold upd2. by case_decide.
    + by eapply unheld_stable.
    + exists w'. split_and!; [|done| | |done].
      * rewrite E. by destruct (Z.leb_spec (s_nzones sb) (zone j)); [lia|].
      * by eapply stable_trans.
      * eapply mounted_stable; [eapply bit_written_mounted; [exact Hmo|exact S|exact Hb]|exact S'|done|].
        intros b bs _ Eb. rewrite Hd'. unfold upd2. case_decide; eauto.
Qed.

(** What is left of a block whose buffer has been marked invalid. *)
Definition forgotten (c : content) : content :=
  match c with Absent => Absent | _ => Stale end.

Lemma edit_forget : edit (fun x => x <| b_dirt := 0 |> <| b_uptodate := 0 |>).
Proof. apply (edit_comp (fun x => x <| b_uptodate := 0 |>)); [apply edit_uptodate|]. apply edit_dirt. by left. Qed.

(** free_block() once the block is known to be in the data zone. *)
Lemma free_block_start z :
  ~ (s_firstdatazone sb <= z < s_nzones sb) ->
  free_block fuel dev z w = Stop (Panic "trying to free block not in datazone") w.
Proof.
  intros Hz. unfold free_block.
  rewrite (bind_ret _ _ _ _ _ (get_super_run _ _ _ _ _ (mo_super _ _ _ _ _ Hmo) Hfuel)).
  rewrite (sup_bind _ _ _ _ _ (hs_at _ _ _ _ (mo_super _ _ _ _ _ Hmo))). cbn [id].
  destruct (Z.ltb_spec z (s_firstdatazone sb)); [done|].
  destruct (Z.leb_spec (s_nzones sb) z); [done|]. lia.
Qed.

Lemma free_block_held z i :
  s_firstdatazone sb <= z < s_nzones sb -> i ∈ ps -> ident (lget cl w) i = Some (dev, z) ->
  exists i' w', free_block fuel dev z w = Ret tt w' /\ inv (i' :: ps) w' /\ stable ps w w' /\
    forall d b, data w' d b = data w d b.
Proof.
  intros Hz Hin Hid. destruct (holding_intro _ _ _ _ _ Hinv Hin Hid) as [x Hx].
  destruct (lookup_ok ps w dev z Hinv) as (i' & w' & E & Hp); [|done|].
  { rewrite (ho_data _ _ _ _ _ _ Hx). unfold content_of. by destruct (truth _). }
  destruct (pinned_holding _ _ _ _ _ _ Hp) as [y Hy].
  exists i', w'. destruct Hp as (Hi' & Hd & S & Hid'). split_and!; try done.
  unfold free_block.
  rewrite (bind_ret _ _ _ _ _ (get_super_run _ _ _ _ _ (mo_super _ _ _ _ _ Hmo) Hfuel)).
  rewrite (sup_bind _ _ _ _ _ (hs_at _ _ _ _ (mo_super _ _ _ _ _ Hmo))). cbn [id].
  destruct (Z.ltb_spec z (s_firstdatazone sb)); [lia|].
  destruct (Z.leb_spec (s_nzones sb) z); [lia|]. cbn [orb].
  rewrite (bind_ret _ _ _ _ _ E). unfold forget_zone. rewrite bind_assoc.
  rewrite (buf_bind _ _ _ _ _ (ho_at _ _ _ _ _ _ Hy)).
  assert (b_count y <> 1) as Hc.
  { assert (ident (lget cl w') i = Some (dev, z)) as Hi by (by rewrite (st_ident _ _ _ S)).
    pose proof (ho_inv _ _ _ _ _ _ Hy) as Hiy.
    rewrite (ho_count _ _ _ _ _ _ Hy). rewrite filter_cons_True by done. cbn [length].
    assert (i' = i) as ->.
    { eapply (held_one (i' :: ps) w'); [done|by left|by right|done|done]. }
    assert (Hf : i ∈ filter (.= i) ps) by (by apply list_elem_of_filter).
    destruct (filter (.= i) ps); [by inversion Hf|]. cbn [length]. lia. }
  destruct (Z.eqb_spec (b_count y) 1); [done|]. done.
Qed.

Lemma free_block_frees z :
  s_firstdatazone sb <= z < s_nzones sb -> unheld ps w dev z ->
  let j := z - (s_firstdatazone sb - 1) in
  j < 8192 * s_zmap_blocks sb ->
  exists w1, inv ps w1 /\ stable ps w w1 /\
    (forall d b, data w1 d b = upd2 dev z (forgotten (data w dev z)) (data w) d b) /\
    exists w', inv ps w' /\ stable ps w w' /\ bit_written false w1 w' dev (zmap_base sb) j /\
      mounted ps w' dev s sb /\
      (zused w j = true -> free_block fuel dev z w = Ret tt w') /\
      (zused w j = false -> exists w2,
         free_block fuel dev z w = Stop (Panic "free_block: bit already cleared") w2).
Proof.
  intros Hz Hu j Hj.
  assert (Hf : exists w1, inv ps w1 /\ stable ps w w1 /\
    (forall d b, data w1 d b = upd2 dev z (forgotten (data w dev z)) (data w) d b) /\
    free_block fuel dev z w = (let! s := sup id s in clear_zone s z) w1).
  { assert (Eg : free_block fuel dev z w = (let! bh := get_hash_table dev z in
      let! busy := forget_zone bh in if busy : bool then ret tt else let! s := sup id s in clear_zone s z) w).
    { unfold free_block.
      rewrite (bind_ret _ _ _ _ _ (get_super_run _ _ _ _ _ (mo_super _ _ _ _ _ Hmo) Hfuel)).
      rewrite (sup_bind _ _ _ _ _ (hs_at _ _ _ _ (mo_super _ _ _ _ _ Hmo))). cbn [id].
      destruct (Z.ltb_spec z (s_firstdatazone sb)); [lia|].
      destruct (Z.leb_spec (s_nzones sb) z); [lia|]. done. }
    destruct (decide (data w dev z = Absent)) as [Ha|Ha].
    - exists w. split_and!; [done|done| |].
      + intros d b. unfold upd2. case_decide as H; [|done]. destruct H as [-> ->]. by rewrite Ha.
      + rewrite Eg. pose proof (hs_dev_range _ _ _ _ (mo_super _ _ _ _ _ Hmo)).
        pose proof (mo_zones _ _ _ _ _ Hmo). pose proof (mo_nzones _ _ _ _ _ Hmo).
        pose proof (mp_n _ _ _ _ _ _ (mo_zmap _ _ _ _ _ Hmo)).
        pose proof (mp_n _ _ _ _ _ _ (mo_imap _ _ _ _ _ Hmo)). unfold zmap_base in *.
        rewrite (bind_ret _ _ _ _ _ (absent_ok ps w dev z Hinv Ha ltac:(lia) ltac:(lia))). done.
    - destruct (lookup_ok ps w dev z Hinv Ha Hroom) as (i & w' & E & Hp).
      destruct (pinned_holding _ _ _ _ _ _ Hp) as [x Hx].
      destruct (edit_release _ _ _ _ _ _ _ _ Hp Hx edit_forget) as (w1 & Er & Hi1 & S1 & Hd1).
      exists w1. split_and!; [done|done| |].
      + intros d b. rewrite Hd1. unfold upd2. case_decide; [|done].
        unfold content_of. cbn. by destruct (data w dev z).
      + rewrite Eg, (bind_ret _ _ _ _ _ E). unfold forget_zone. rewrite bind_assoc.
        rewrite (buf_bind _ _ _ _ _ (ho_at _ _ _ _ _ _ Hx)), (pinned_alone _ _ _ _ _ _ _ Hp Hu Hx).
        cbn [Z.eqb Pos.eqb negb]. rewrite bind_assoc, (set_buf_bind _ _ _ _ _ (ho_at _ _ _ _ _ _ Hx)).
        rewrite bind_assoc. erewrite set_buf_bind by (apply edited_lookup, Hx).
        rewrite edited_twice, bind_assoc. by rewrite (bind_ret _ _ _ _ _ Er). }
  destruct Hf as (w1 & Hi1 & S1 & Hd1 & E). exists w1. split_and!; [done..|].
  assert (Hm1 : mounted ps w1 dev s sb).
  { eapply mounted_stable; [exact Hmo|exact S1|done|]. intros b bs Hb Eb. exists bs.
    rewrite Hd1. unfold upd2. rewrite decide_False; [done|]. lia. }
  pose proof (mo_zones _ _ _ _ _ Hmo) as Hzn. 
  destruct (map_buffer _ _ _ _ _ _ j Hi1 (mo_zmap _ _ _ _ _ Hm1) ltac:(lia)) as (bh & x & Eb & Hx & Ec & Ebit).
  destruct (mark_run _ _ false _ _ _ _ _ Hx Ec) as (H1 & H2 & H3).
  exists (edited (mark false (j mod 8192)) bh w1).
  assert (Hj0 : 0 <= j) by lia.
  assert (Ez : zused w j = bit (b_bytes x) (j mod 8192)).
  { rewrite <-Ebit. unfold zused, map_bit. rewrite Hd1. unfold upd2.
    rewrite decide_False; [done|]. pose proof (mp_n _ _ _ _ _ _ (mo_zmap _ _ _ _ _ Hmo)).
    intros [_ Hzz]. assert (j / 8192 < s_zmap_blocks sb) by lia. lia. }
  assert (Em : forall B (k : bool -> M W B) k' old, bit (b_bytes x) (j mod 8192) = old ->
    (forall w', k old w' = (set_buf bh (fun y => y <| b_dirt := 1 |>) ;; k') w') ->
    bind (write_bit false (j mod 8192) bh) k w1 = k' (edited (mark false (j mod 8192)) bh w1)).
  { intros B k k' old. apply (mark_bind ps w1 false dev (zmap_base sb) j bh x old _ _ Hx). }
  assert (Ef : free_block fuel dev z w =
    (let! c := clear_bit (j mod 8192) bh in
     if truth c then halt (Panic "free_block: bit already cleared")
     else set_buf bh (fun y => y <| b_dirt := 1 |>)) w1).
  { rewrite E, (sup_bind _ _ _ _ _ (hs_at _ _ _ _ (mo_super _ _ _ _ _ Hm1))). cbn [id].
    unfold clear_zone. fold j. rewrite Z.quot_div_nonneg by lia.
    rewrite (bind_deref _ _ _ _ Eb), (bind_deref _ _ _ bh eq_refl).
    change 8191 with (Z.ones 13). rewrite Z.land_ones by lia. done. }
  split_and!; [done|by eapply stable_trans|done|by eapply bit_written_mounted| |].
  - intros Hu1. rewrite Ef. unfold clear_bit. rewrite bind_assoc.
    apply (Em _ _ (ret tt) true); [congruence|]. intros w'. symmetry. apply bind_tt.
  - intros Hu1. rewrite Ef. unfold clear_bit. rewrite bind_assoc.
    rewrite (write_bit_run ps _ _ _ dev (zmap_base sb + j / 8192) bh x); try apply Hx; [|lia].
    rewrite <-Ez, Hu1. eauto.
Qed.
End zones.

(** set_bit() ([v = true]) and clear_bit() ([v = false]). *)
Lemma bit_ops_run {W} `{!Env W, !Wired W, !BlockIO W} ps (w : W) dev b bh x (v : bool) nr :
  holding ps w bh dev b x -> 0 <= nr < 8192 ->
  exists w' x', (if v then set_bit nr bh else clear_bit nr bh) w =
      Ret (if Bool.eqb (bit (b_bytes x) nr) v then 1 else 0) w' /\
    holding ps w' bh dev b x' /\
    (forall k, 0 <= k < 8192 -> bit (b_bytes x') k = if k =? nr then v else bit (b_bytes x) k) /\
    x' = x <| b_bytes := b_bytes x' |> /\ stable ps w w' /\
    (forall i, i <> bh -> bufs (lget cl w') !! i = bufs (lget cl w) !! i) /\
    (forall d y, d <> dev \/ y <> b -> data w' d y = data w d y).
Proof.
  intros H Hnr. pose proof (shaped_length _ (ho_shaped _ _ _ _ _ _ H)) as [Hl Hb].
  destruct (holding_edit _ _ _ _ _ _ _ H (edit_put_bit v nr)) as (H' & S & Hd).
  do 2 eexists. split_and!; [|exact H'| |done|exact S| |].
  - assert (E : forall (k : bool -> M W Z), bind (write_bit v nr bh) k w =
      k (bit (b_bytes x) nr) (edited (fun y => y <| b_bytes ::= put_bit v nr |>) bh w))
      by (intros k; apply (write_bit_run ps _ _ _ dev b bh x); apply H || exact Hnr).
    unfold set_bit, clear_bit. destruct v; rewrite E; by destruct (bit _ _).
  - intros k Hk. apply bit_put_bit; cbn; lia.
  - intros i Hi. by apply edited_other.
  - intros d y Hy. rewrite Hd. unfold upd2. rewrite decide_False; [done|]. intros [-> ->]. by destruct Hy.
Qed.

(** C17.  The bit operations.  find_first_zero() on a block of 1024 bytes: the
    result is the position of the first bit that is 0, and 8192 when there is
    none, exactly as a scan bit by bit would find it.  set_bit() and
    clear_bit() on a buffer that is held: the result of set_bit() is the old
    value of the bit and that of clear_bit() its negation; afterwards the bit
    is 1 and 0, and every other bit of the block, everything else of the
    buffer, every other buffer and every other block are as before. *)
Theorem find_first_zero_spec {W} `{!Env W, !Wired W, !BlockIO W} :
  (forall l, length l = 1024%nat -> bytes l ->
   let j := find_first_zero l in
   0 <= j <= 8192 /\ (forall k, 0 <= k < j -> bit l k = true) /\ (j < 8192 -> bit l j = false) /\
   (j = 8192 <-> forall k, 0 <= k < 8192 -> bit l k = true)) /\
  forall ps (w : W) dev b bh x nr, holding ps w bh dev b x -> 0 <= nr < 8192 ->
    let written v w' :=
      (exists x', holding ps w' bh dev b x' /\
         (forall k, 0 <= k < 8192 -> bit (b_bytes x') k = if k =? nr then v else bit (b_bytes x) k) /\
         x' = x <| b_bytes := b_bytes x' |>) /\
      stable ps w w' /\ (forall i, i <> bh -> bufs (lget cl w') !! i = bufs (lget cl w) !! i) /\
      (forall d y, d <> dev \/ y <> b -> data w' d y = data w d y) in
    (exists w', set_bit nr bh w = Ret (if bit (b_bytes x) nr then 1 else 0) w' /\ written true w') /\
    (exists w', clear_bit nr bh w = Ret (if bit (b_bytes x) nr then 0 else 1) w' /\ written false w').
Proof.
  split.
  - intros l Hl Hb j. destruct (find_first_zero_run l Hl Hb) as (Hr & Hlow & Hz). fold j in Hr, Hlow, Hz.
    split_and!; [lia|lia|done|done|]. split; [by intros ->|]. intros Hall.
    destruct (decide (j = 8192)); [done|]. rewrite Hall in Hz by lia. specialize (Hz ltac:(lia)). done.
  - intros ps w dev b bh x nr H Hnr written. split.
    + destruct (bit_ops_run ps w dev b bh x true nr H Hnr) as (w' & x' & E & H1 & H2 & H3 & H4).
      exists w'. split; [|split; [by exists x'|exact H4]]. rewrite E. by destruct (bit _ _).
    + destruct (bit_ops_run ps w dev b bh x false nr H Hnr) as (w' & x' & E & H1 & H2 & H3 & H4).
      exists w'. split; [|split; [by exists x'|exact H4]]. rewrite E. by destruct (bit _ _).
Qed.

(** C35.  new_block() on a mounted file system, on every branch.  When all
    zones are taken it returns 0 and changes nothing.  Otherwise it marks the
    first zone that is free: if this zone is beyond the end of the device
    the result is 0 (and the bit stays set), and else the number of the zone,
    whose block now contains zeros.  No other block of any device changes,
    no reference is left behind, and the file system stays mounted. *)
Theorem new_block_spec {W} `{!Env W, !Wired W, !BlockIO W} ps w dev s sb fuel :
  inv ps w -> mounted ps w dev s sb -> (NR_SUPER <= fuel)%nat -> (length ps < room)%nat ->
  let used j := zused dev sb w j in
  let z j := zone sb j in
  ((forall j, 0 <= j < 8192 * s_zmap_blocks sb -> used j = true) -> new_block fuel dev w = Ret 0 w) /\
  forall j, 0 <= j < 8192 * s_zmap_blocks sb -> used j = false ->
    (forall k, 0 <= k < j -> used k = true) ->
    exists w1, inv ps w1 /\ stable ps w w1 /\ bit_written true w w1 dev (zmap_base sb) j /\
      (s_nzones sb <= z j -> new_block fuel dev w = Ret 0 w1) /\
      (z j < s_nzones sb -> data w dev (z j) <> Absent -> unheld ps w dev (z j) ->
       exists w', new_block fuel dev w = Ret (z j) w' /\ inv ps w' /\ stable ps w w' /\
         mounted ps w' dev s sb /\
         forall d b, data w' d b = upd2 dev (z j) (Bytes zeros) (data w1) d b).
Proof. intros Hi Hm Hf Hr. by apply new_block_run. Qed.

(** The zone bitmap of the small file system is in buffer 2: its first bits
    are 11111000, so that bit 5 is the first one to be free. *)
Lemma find_first_zero_spec_witness :
  exists x, holding held0 world0 2 dev0 3 x /\ find_first_zero (b_bytes x) = 5 /\
    exists w' x', set_bit 5 2 world0 = Ret 0 w' /\ holding held0 w' 2 dev0 3 x' /\
      bit (b_bytes x') 5 = true /\ bit (b_bytes x') 4 = true /\ bit (b_bytes x') 6 = false.
Proof.
  destruct (holding_intro held0 world0 2 dev0 3 world0_warm ltac:(right; left; reflexivity)
    ltac:(vm_compute; reflexivity)) as [x Hx].
  destruct (find_first_zero_spec (W := Warm.world)) as [H1 H2].
  assert (E : b_bytes x = block_of [31]).
  { apply (holding_bytes _ _ _ _ _ _ _ Hx). vm_compute. reflexivity. }
  exists x. split; [exact Hx|]. rewrite E. split; [vm_compute; reflexivity|].
  destruct (H2 held0 world0 dev0 3 2%nat x 5 Hx ltac:(split; [discriminate|reflexivity]))
    as [(w' & Es & (x' & Hx' & Hb & _) & _) _].
  exists w', x'. split; [rewrite Es, E; vm_compute; reflexivity|]. split; [exact Hx'|].
  rewrite E in Hb. split_and!; (rewrite Hb; [vm_compute; reflexivity|split; [discriminate|reflexivity]]).
Defined.

(** Zone 9 is the first free zone of the small file system. *)
Lemma new_block_spec_witness :
  exists w', new_block 8 dev0 world0 = Ret 9 w' /\ data w' dev0 9 = Bytes zeros /\
    mounted held0 w' dev0 0 super0.
Proof.
  destruct (new_block_spec held0 world0 dev0 0 super0 8 world0_warm mounted0 (le_n _)
    ltac:(apply Nat.ltb_lt; vm_compute; reflexivity)) as [_ H].
  destruct (H 5) as (w1 & _ & _ & _ & _ & H').
  - split; [discriminate|reflexivity].
  - vm_compute. reflexivity.
  - intros k Hk. assert (k = 0 \/ k = 1 \/ k = 2 \/ k = 3 \/ k = 4) as Hk' by lia.
    destruct Hk' as [->|[->|[->|[->| ->]]]]; vm_compute; reflexivity.
  - destruct H' as (w' & E & _ & _ & Hm & Hd).
    + vm_compute. reflexivity.
    + vm_compute. discriminate.
    + apply unheld0; discriminate.
    + exists w'. split; [exact E|]. split; [|exact Hm]. rewrite Hd. reflexivity.
Defined.

(** C36.  free_block() on a mounted file system.  A block outside of the data
    zone is a panic.  The zone of a block that no held buffer is for loses
    its contents and its bit, whether the block is in the cache or not, and
    everything else stays; a zone that was free already is a panic.  If the
    task does hold the block, free_block() returns with the zone still
    marked as taken and with one more reference to the buffer, which
    nobody will drop. *)
Theorem free_block_spec {W} `{!Env W, !Wired W, !BlockIO W} ps w dev s sb fuel z :
  inv ps w -> mounted ps w dev s sb -> (NR_SUPER <= fuel)%nat -> (length ps < room)%nat ->
  let j := z - (s_firstdatazone sb - 1) in
  (~ (s_firstdatazone sb <= z < s_nzones sb) ->
   free_block fuel dev z w = Stop (Panic "trying to free block not in datazone") w) /\
  (s_firstdatazone sb <= z < s_nzones sb ->
   (forall i, i ∈ ps -> ident (lget cl w) i = Some (dev, z) ->
     exists i' w', free_block fuel dev z w = Ret tt w' /\ inv (i' :: ps) w' /\ stable ps w w' /\
       forall d b, data w' d b = data w d b) /\
   (unheld ps w dev z -> j < 8192 * s_zmap_blocks sb ->
     exists w1 w', (forall d b, data w1 d b = upd2 dev z (forgotten (data w dev z)) (data w) d b) /\
       bit_written false w1 w' dev (zmap_base sb) j /\
       inv ps w' /\ stable ps w w' /\ mounted ps w' dev s sb /\
       (zused dev sb w j = true -> free_block fuel dev z w = Ret tt w') /\
       (zused dev sb w j = false -> exists w2,
          free_block fuel dev z w = Stop (Panic "free_block: bit already cleared") w2))).
Proof.
  intros Hi Hm Hf Hr j. split; [by eapply free_block_start|]. intros Hz. split.
  - intros i. by apply (free_block_held _ _ _ _ _ _ Hi Hm Hf Hr).
  - intros Hu Hj. destruct (free_block_frees _ _ _ _ _ _ Hi Hm Hf Hr z Hz Hu Hj)
      as (w1 & _ & _ & Hd & w' & H1 & H2 & H3 & H4 & H5 & H6). exists w1, w'. by split_and!.
Qed.

Lemma free_block_spec_witness :
  exists w', free_block 8 dev0 8 world0 = Ret tt w' /\ map_bit w' dev0 3 4 = false /\
    map_bit w' dev0 3 3 = true /\ mounted held0 w' dev0 0 super0.
Proof.
  destruct (free_block_spec held0 world0 dev0 0 super0 8 8 world0_warm mounted0 (le_n _)
    ltac:(apply Nat.ltb_lt; vm_compute; reflexivity)) as [_ H].
  destruct H as [_ H]; [split; [discriminate|reflexivity]|].
  destruct H as (w1 & w' & Hd & Hb & _ & _ & Hm & Hf & _).
  - apply unheld0; discriminate.
  - reflexivity.
  - exists w'. split; [apply Hf; vm_compute; reflexivity|].
    assert (Hm1 : forall k, 0 <= k < 8192 -> map_bit w1 dev0 3 k = map_bit world0 dev0 3 k).
    { intros k Hk. unfold map_bit. rewrite Z.div_small by done. rewrite Hd. reflexivity. }
    change (zmap_base super0) with 3 in Hb.
    split_and!; [| |exact Hm]; rewrite (bit_written_map _ _ _ _ _ _ _ Hb).
    + reflexivity.
    + change (3 =? 8 - (s_firstdatazone super0 - 1)) with false. cbn iota.
      rewrite Hm1; [vm_compute; reflexivity|split; [discriminate|reflexivity]].
Defined.
