(* ===== verification/Inode.v ===== *)
(** * Inodes: fs/inode.c, and new_inode() of fs/bitmap.c

    A pointer to an inode is its index in [inode_table].  The inode of the
    disk takes 32 bytes, whose fields are the first ones of the inode in
    memory. *)

From S2P Require Import Prelude Task Sched WaitQ Buffer Blk Fs Blocks Super Mini Bitmap.

(** ** The inode of the disk *)

(** The assignment of a [d_inode], the one at byte [off] of the block. *)
Definition load_inode (l : list Z) (off : nat) (x : m_inode) : m_inode :=
  x <| i_mode := le16 l off |> <| i_uid := le16 l (off + 2) |>
    <| i_size := le32 l (off + 4) |> <| i_mtime := le32 l (off + 8) |>
    <| i_gid := default 0 (l !! (off + 12)%nat) |>
    <| i_nlinks := default 0 (l !! (off + 13)%nat) |>
    <| i_zone := (fun k => le16 l (off + 14 + 2 * k)) <$> seq 0 9 |>.

Definition store16 (v : Z) : list Z := [u8 v; u8 (Z.shiftr v 8)].
Definition store32 (v : Z) : list Z :=
  [u8 v; u8 (Z.shiftr v 8); u8 (Z.shiftr v 16); u8 (Z.shiftr v 24)].
Definition store_inode (x : m_inode) : list Z :=
  store16 (i_mode x) ++ store16 (i_uid x) ++ store32 (i_size x) ++ store32 (i_mtime x) ++
  [u8 (i_gid x); u8 (i_nlinks x)] ++ concat (store16 <$> i_zone x).
(** The bytes [v] over those of [l] from [off] on. *)
Definition splice (off : nat) (v l : list Z) : list Z :=
  take off l ++ v ++ drop (off + length v) l.

(** Where inode [nr] is. *)
Definition inode_block (sb : super_block) (nr : Z) : Z :=
  u32 (2 + s_imap_blocks sb + s_zmap_blocks sb + u32 (nr - 1) / INODES_PER_BLOCK).
Definition inode_offset (nr : Z) : nat := Z.to_nat (32 * (u32 (nr - 1) mod INODES_PER_BLOCK)).

Section ops.
Context {W : Type} `{!Env W}.

Fixpoint wait_on_inode (fuel : nat) (i : nat) : M W unit :=
  let! l := ino i_lock i in
  if truth l then
    match fuel with
    | O => halt NoFuel
    | S fuel' => sleep_on (i_wait_l i) ;; wait_on_inode fuel' i
    end
  else ret tt.
Definition lock_inode (fuel : nat) (i : nat) : M W unit :=
  wait_on_inode fuel i ;;
  set_ino i (fun x => x <| i_lock := 1 |>).
Definition unlock_inode (i : nat) : M W unit :=
  set_ino i (fun x => x <| i_lock := 0 |>) ;;
  wake_up (i_wait_l i).

Definition read_inode (fuel : nat) (i : nat) : M W unit :=
  lock_inode fuel i ;;
  let! x := ino id i in
  let! sb := get_super fuel (i_dev x) in
  match sb with
  | None => halt (Panic "trying to read inode without dev")
  | Some sb =>
      let! s := sup id sb in
      let! bh := bread (i_dev x) (inode_block s (i_num x)) in
      match bh with
      | None => halt (Panic "unable to read i-node block")
      | Some bh =>
          let! l := buf b_bytes bh in
          set_ino i (load_inode l (inode_offset (i_num x))) ;;
          brelse (Some bh) ;;
          unlock_inode i
      end
  end.

Definition write_inode (fuel : nat) (i : nat) : M W unit :=
  lock_inode fuel i ;;
  let! x := ino id i in
  if (i_dirt x =? 0) || (i_dev x =? 0) then unlock_inode i
  else
    let! sb := get_super fuel (i_dev x) in
    match sb with
    | None => halt (Panic "trying to write inode without device")
    | Some sb =>
        let! s := sup id sb in
        let! bh := bread (i_dev x) (inode_block s (i_num x)) in
        match bh with
        | None => halt (Panic "unable to read i-node block")
        | Some bh =>
            let! x := ino id i in
            set_buf bh (fun b => b <| b_bytes ::= splice (inode_offset (i_num x)) (store_inode x) |>) ;;
            set_buf bh (fun b => b <| b_dirt := 1 |>) ;;
            set_ino i (fun x => x <| i_dirt := 0 |>) ;;
            brelse (Some bh) ;;
            unlock_inode i
        end
    end.

Definition count_dec (i : nat) : M W unit :=
  set_ino i (fun x => x <| i_count ::= fun n => u16 (n - 1) |>).

(** iput() from [repeat] on. *)
Fixpoint iput_repeat (fuel : nat) (i : nat) : M W unit :=
  match fuel with
  | O => halt NoFuel
  | S fuel' =>
      let! x := ino id i in
      if 1 <? i_count x then count_dec i
      else if i_nlinks x =? 0 then free_inode fuel (Some i)
      else if truth (i_dirt x) then
        write_inode fuel i ;; wait_on_inode fuel i ;; iput_repeat fuel' i
      else count_dec i
  end.
Definition iput (fuel : nat) (inode : option nat) : M W unit :=
  match inode with
  | None => ret tt
  | Some i =>
      wait_on_inode fuel i ;;
      let! x := ino id i in
      if i_count x =? 0 then halt (Panic "iput: trying to free free inode")
      else if truth (i_pipe x) then
        wake_up (i_wait_l i) ;;
        count_dec i ;;
        let! x := ino id i in
        if truth (i_count x) then ret tt
        else
          free_page (i_size x) ;;
          set_ino i (fun x => x <| i_count := 0 |> <| i_dirt := 0 |> <| i_pipe := 0 |>)
      else if i_dev x =? 0 then count_dec i
      else
        (if S_ISBLK (i_mode x) then wait_on_inode fuel i else ret tt) ;;
        iput_repeat fuel i
  end.

(** [for (i = NR_INODE; i ; i--)]: an unused inode, if possible one that is
    clean and unlocked. *)
Fixpoint scan_inodes (n : nat) (inode : option nat) : M W (option nat) :=
  match n with
  | O => ret inode
  | S n' =>
      zoom fl (modify (fun f => f <| last_inode ::= fun k =>
        if (NR_INODE <=? S k)%nat then O else S k |>)) ;;
      let! f := gets (lget fl) in
      let! x := ino id (last_inode f) in
      if i_count x =? 0 then
        if (i_dirt x =? 0) && (i_lock x =? 0) then ret (Some (last_inode f))
        else scan_inodes n' (Some (last_inode f))
      else scan_inodes n' inode
  end.
Fixpoint flush_inode (fuel : nat) (i : nat) : M W unit :=
  let! d := ino i_dirt i in
  if truth d then
    match fuel with
    | O => halt NoFuel
    | S fuel' => write_inode fuel i ;; wait_on_inode fuel i ;; flush_inode fuel' i
    end
  else ret tt.
Fixpoint get_empty_inode (fuel : nat) : M W nat :=
  match fuel with
  | O => halt NoFuel
  | S fuel' =>
      let! o := scan_inodes NR_INODE None in
      match o with
      | None => halt (Panic "No free inodes in mem")
      | Some i =>
          wait_on_inode fuel i ;;
          flush_inode fuel i ;;
          let! n := ino i_count i in
          if truth n then get_empty_inode fuel'
          else
            set_ino i (fun _ => zero_inode) ;;
            set_ino i (fun x => x <| i_count := 1 |>) ;;
            ret i
      end
  end.

(** [for (i = 0 ; i<NR_SUPER ; i++)]: the super block mounted on the inode. *)
Fixpoint mounted_on (n : nat) (s : nat) (i : nat) : M W (option nat) :=
  match n with
  | O => ret None
  | S n' =>
      let! m := sup s_imount s in
      if bool_decide (m = Some i) then ret (Some s) else mounted_on n' (S s) i
  end.

(** The loop of iget(), from [inode] on. *)
Fixpoint iget_from (fuel : nat) (dev nr : Z) (empty inode : nat) : M W (option nat) :=
  if (NR_INODE <=? inode)%nat then
    set_ino empty (fun x => x <| i_dev := u16 dev |>) ;;
    set_ino empty (fun x => x <| i_num := u16 nr |>) ;;
    read_inode fuel empty ;;
    ret (Some empty)
  else
    match fuel with
    | O => halt NoFuel
    | S fuel' =>
        let! x := ino id inode in
        if negb (i_dev x =? dev) || negb (i_num x =? nr) then
          iget_from fuel' dev nr empty (S inode)
        else
          wait_on_inode fuel inode ;;
          let! x := ino id inode in
          if negb (i_dev x =? dev) || negb (i_num x =? nr) then iget_from fuel' dev nr empty 0
          else
            set_ino inode (fun x => x <| i_count ::= fun n => u16 (n + 1) |>) ;;
            let! m := ino i_mount inode in
            if truth m then
              let! s := mounted_on NR_SUPER 0 inode in
              match s with
              | None => iput fuel (Some empty) ;; ret (Some inode)
              | Some s =>
                  iput fuel (Some inode) ;;
                  let! d := sup s_dev s in
                  iget_from fuel' d ROOT_INO empty 0
              end
            else iput fuel (Some empty) ;; ret (Some inode)
    end.
Definition iget (fuel : nat) (dev nr : Z) : M W (option nat) :=
  if dev =? 0 then halt (Panic "iget with dev==0")
  else
    let! empty := get_empty_inode fuel in
    iget_from fuel dev nr empty 0.

(** new_inode() of fs/bitmap.c *)
Definition new_inode (fuel : nat) (dev : Z) : M W (option nat) :=
  let! i := get_empty_inode fuel in
  let! sb := get_super fuel dev in
  match sb with
  | None => halt (Panic "new_inode with unknown device")
  | Some sb =>
      let! maps := sup s_imap sb in
      let! (kb, j) := scan_maps maps 0 None 8192 in
      let '(k, bh) := kb in
      let! n := sup s_ninodes sb in
      match bh with
      | None => iput fuel (Some i) ;; ret None
      | Some bh =>
          if (8192 <=? j) || (n <? j + k * 8192) then iput fuel (Some i) ;; ret None
          else
            let! old := set_bit j bh in
            if truth old then halt (Panic "new_inode: bit already set")
            else
              set_buf bh (fun b => b <| b_dirt := 1 |>) ;;
              let! uid := me euid in
              let! gid := me egid in
              set_ino i (fun x => x <| i_count := 1 |> <| i_nlinks := 1 |> <| i_dev := u16 dev |>
                <| i_uid := u16 uid |> <| i_gid := u8 gid |> <| i_dirt := 1 |>
                <| i_num := u16 (j + k * 8192) |>
                <| i_ctime := CURRENT_TIME |> <| i_atime := CURRENT_TIME |>
                <| i_mtime := CURRENT_TIME |>) ;;
              ret (Some i)
      end
  end.

(** ** The blocks of a file *)

Definition zone_of (k : Z) (i : nat) : M W Z :=
  let! z := ino i_zone i in deref (zget z k).
Definition touch_inode (i : nat) : M W unit :=
  set_ino i (fun x => x <| i_dirt := 1 |> <| i_ctime := CURRENT_TIME |>).
(** [if (create && !inode->i_zone[k]) if ((inode->i_zone[k]=new_block(...)))] *)
Definition grow_zone (fuel : nat) (create : bool) (k : Z) (i : nat) : M W unit :=
  let! z := zone_of k i in
  if create && (z =? 0) then
    let! dev := ino i_dev i in
    let! b := new_block fuel dev in
    set_ino i (fun x => x <| i_zone ::= zset k (u16 b) |>) ;;
    if truth (u16 b) then touch_inode i else ret tt
  else ret tt.
(** Entry [k] of the indirect block [b]; with [create] a new one if there is
    none. *)
Definition indirect (fuel : nat) (create : bool) (dev b k : Z) : M W Z :=
  let! bh := bread dev b in
  match bh with
  | None => ret 0
  | Some bh =>
      let! l := buf b_bytes bh in
      let z := le16 l (Z.to_nat (2 * k)) in
      let! z :=
        if create && (z =? 0) then
          let! n := new_block fuel dev in
          (if truth n then
             set_buf bh (fun x => x <| b_bytes ::= put16 (Z.to_nat (2 * k)) n |>) ;;
             set_buf bh (fun x => x <| b_dirt := 1 |>)
           else ret tt) ;;
          ret n
        else ret z in
      brelse (Some bh) ;;
      ret z
  end.
Definition _bmap (fuel : nat) (inode : nat) (block : Z) (create : bool) : M W Z :=
  if block <? 0 then halt (Panic "_bmap: block<0")
  else if 7 + 512 + 512 * 512 <=? block then halt (Panic "_bmap: block>big")
  else if block <? 7 then
    grow_zone fuel create block inode ;;
    zone_of block inode
  else
    let block := block - 7 in
    if block <? 512 then
      grow_zone fuel create 7 inode ;;
      let! z := zone_of 7 inode in
      if z =? 0 then ret 0
      else
        let! dev := ino i_dev inode in
        indirect fuel create dev z block
    else
      let block := block - 512 in
      grow_zone fuel create 8 inode ;;
      let! z := zone_of 8 inode in
      if z =? 0 then ret 0
      else
        let! dev := ino i_dev inode in
        let! i := indirect fuel create dev z (Z.shiftr block 9) in
        if i =? 0 then ret 0
        else indirect fuel create dev i (Z.land block 511).
Definition bmap (fuel : nat) (inode : nat) (block : Z) : M W Z := _bmap fuel inode block false.
Definition create_block (fuel : nat) (inode : nat) (block : Z) : M W Z := _bmap fuel inode block true.
End ops.

(** ** Inodes as bytes *)

#[local] Ltac Zify.zify_post_hook ::= Z.div_mod_to_equations.

Lemma le16_lookup l off :
  le16 l off = match l !! off, l !! (off + 1)%nat with
               | Some a, Some b => a + 0x100 * b | _, _ => 0 end.
Proof.
  unfold le16. rewrite <-(Nat.add_0_r off) at 2. rewrite <-!lookup_drop.
  by destruct (drop off l) as [|a [|b r]].
Qed.
Lemma le32_lookup l off :
  le32 l off = match l !! off, l !! (off + 1)%nat, l !! (off + 2)%nat, l !! (off + 3)%nat with
    | Some a, Some b, Some c, Some d => a + 0x100 * b + 0x10000 * c + 0x1000000 * d
    | _, _, _, _ => 0 end.
Proof.
  unfold le32. rewrite <-(Nat.add_0_r off) at 2. rewrite <-!lookup_drop.
  by destruct (drop off l) as [|a [|b [|c [|d r]]]].
Qed.

(** Loading looks at 32 bytes. *)
Lemma load_inode_ext l l' off off' x :
  (forall k, (k < 32)%nat -> l !! (off + k)%nat = l' !! (off' + k)%nat) ->
  load_inode l off x = load_inode l' off' x.
Proof.
  intros H.
  assert (H16 : forall k, (k < 31)%nat -> le16 l (off + k) = le16 l' (off' + k)).
  { intros k Hk. rewrite !le16_lookup, <-!Nat.add_assoc, !H by lia. done. }
  assert (H32 : forall k, (k < 29)%nat -> le32 l (off + k) = le32 l' (off' + k)).
  { intros k Hk. rewrite !le32_lookup, <-!Nat.add_assoc, !H by lia. done. }
  unfold load_inode. pose proof (H16 0%nat ltac:(lia)) as H0. rewrite !Nat.add_0_r in H0.
  rewrite H0, (H16 2%nat), (H32 4%nat), (H32 8%nat), (H 12%nat), (H 13%nat) by lia.
  replace ((fun k => le16 l (off + 14 + 2 * k)) <$> seq 0 9)
    with ((fun k => le16 l' (off' + 14 + 2 * k)) <$> seq 0 9); [done|].
  apply list_fmap_ext. intros i k Hk%lookup_seq. rewrite <-!Nat.add_assoc. symmetry. apply H16. lia.
Qed.

Lemma splice_length off v l : (off + length v <= length l)%nat -> length (splice off v l) = length l.
Proof. intros H. unfold splice. rewrite !length_app, length_take, length_drop. lia. Qed.
Lemma splice_in off v l k :
  (off + length v <= length l)%nat -> (k < length v)%nat -> splice off v l !! (off + k)%nat = v !! k.
Proof.
  intros H Hk. unfold splice. rewrite lookup_app_r by (rewrite length_take; lia).
  rewrite length_take, lookup_app_l by lia. f_equal. lia.
Qed.
Lemma splice_out off v l k :
  (off + length v <= length l)%nat -> (k < off \/ off + length v <= k)%nat ->
  splice off v l !! k = l !! k.
Proof.
  intros H Hk. unfold splice. destruct (decide (k < off)%nat).
  - rewrite lookup_app_l by (rewrite length_take; lia). by rewrite lookup_take_lt.
  - rewrite lookup_app_r by (rewrite length_take; lia).
    rewrite length_take, lookup_app_r, lookup_drop by lia. f_equal. lia.
Qed.

(** The fields the disk has, with the others cleared. *)
Definition core (x : m_inode) : m_inode :=
  x <| i_wait := None |> <| i_atime := 0 |> <| i_ctime := 0 |> <| i_dev := 0 |> <| i_num := 0 |>
    <| i_count := 0 |> <| i_lock := 0 |> <| i_dirt := 0 |> <| i_pipe := 0 |> <| i_mount := 0 |>
    <| i_seek := 0 |> <| i_update := 0 |>.
Definition in_width (x : m_inode) : Prop :=
  0 <= i_mode x < 2 ^ 16 /\ 0 <= i_uid x < 2 ^ 16 /\ 0 <= i_size x < 2 ^ 32 /\
  0 <= i_mtime x < 2 ^ 32 /\ 0 <= i_gid x < 2 ^ 8 /\ 0 <= i_nlinks x < 2 ^ 8 /\
  length (i_zone x) = 9%nat /\ Forall (fun z => 0 <= z < 2 ^ 16) (i_zone x).

Lemma halves v : 0 <= v < 2 ^ 16 -> u8 v + 0x100 * u8 (Z.shiftr v 8) = v.
Proof. intros Hv. unfold u8. rewrite Z.shiftr_div_pow2 by lia. lia. Qed.
Lemma quarters v : 0 <= v < 2 ^ 32 ->
  u8 v + 0x100 * u8 (Z.shiftr v 8) + 0x10000 * u8 (Z.shiftr v 16) + 0x1000000 * u8 (Z.shiftr v 24) = v.
Proof. intros Hv. unfold u8. rewrite !Z.shiftr_div_pow2 by lia. lia. Qed.

Lemma store_inode_shape x : length (i_zone x) = 9%nat ->
  length (store_inode x) = 32%nat /\ bytes (store_inode x).
Proof.
  unfold store_inode. destruct (i_zone x) as [|z0 [|z1 [|z2 [|z3 [|z4 [|z5 [|z6 [|z7 [|z8 [|]]]]]]]]]];
    try done. intros _. split; [done|]. repeat (apply Forall_cons; split; [apply u8_range|]). constructor.
Qed.
Lemma load_store x : in_width x -> load_inode (store_inode x) 0 zero_inode = core x.
Proof.
  destruct x as [mode uid size mtime gid nlinks zone wait atime ctime dev num count lock dirt pipe mount seek update].
  unfold in_width. cbn -[Z.pow]. intros (H1 & H2 & H3 & H4 & H5 & H6 & H7 & H8).
  destruct zone as [|z0 [|z1 [|z2 [|z3 [|z4 [|z5 [|z6 [|z7 [|z8 [|]]]]]]]]]]; try done.
  rewrite !Forall_cons in H8.
  unfold load_inode, store_inode, core, zero_inode. cbn -[u8 Z.shiftr Z.mul Z.add].
  unfold le16, le32. cbn -[u8 Z.shiftr Z.mul Z.add].
  rewrite (halves mode), (halves uid), (quarters size), (quarters mtime), (u8_small gid),
    (u8_small nlinks), (halves z0), (halves z1), (halves z2), (halves z3), (halves z4), (halves z5),
    (halves z6), (halves z7), (halves z8) by tauto. done.
Qed.
Lemma load_inode_over l off x y : core (load_inode l off x) = load_inode l off zero_inode /\
  in_width (load_inode l off y) = in_width (load_inode l off zero_inode).
Proof. done. Qed.

Lemma le16_range l off : bytes l -> 0 <= le16 l off < 2 ^ 16.
Proof.
  intros Hb. rewrite le16_lookup. destruct (l !! off) as [a|] eqn:Ea; [|lia].
  destruct (l !! (off + 1)%nat) as [b|] eqn:Eb; [|lia].
  pose proof (proj1 (Forall_lookup _ _) Hb _ _ Ea). pose proof (proj1 (Forall_lookup _ _) Hb _ _ Eb).
  cbn beta in *. lia.
Qed.
Lemma le32_range l off : bytes l -> 0 <= le32 l off < 2 ^ 32.
Proof.
  intros Hb. rewrite le32_lookup.
  destruct (l !! off) as [a|] eqn:Ea; [|lia]. destruct (l !! (off + 1)%nat) as [b|] eqn:Eb; [|lia].
  destruct (l !! (off + 2)%nat) as [c|] eqn:Ec; [|lia]. destruct (l !! (off + 3)%nat) as [d|] eqn:Ed; [|lia].
  pose proof (proj1 (Forall_lookup _ _) Hb _ _ Ea). pose proof (proj1 (Forall_lookup _ _) Hb _ _ Eb).
  pose proof (proj1 (Forall_lookup _ _) Hb _ _ Ec). pose proof (proj1 (Forall_lookup _ _) Hb _ _ Ed).
  cbn beta in *. lia.
Qed.
Lemma load_in_width l off x : bytes l -> in_width (load_inode l off x).
Proof.
  intros Hb.
  assert (Hd : forall k, 0 <= default 0 (l !! k) < 2 ^ 8).
  { intros k. destruct (l !! k) as [v|] eqn:E; cbn; [|lia]. by apply (proj1 (Forall_lookup _ _) Hb _ _ E). }
  unfold in_width, load_inode. cbn [upd i_mode i_uid i_size i_mtime i_gid i_nlinks i_zone].
  split_and!; try apply le16_range; try apply le32_range; try apply Hd; try done.
  apply Forall_fmap, Forall_forall. intros k _. by apply le16_range.
Qed.

(** ** The inodes in memory *)

Section table.
Context {W : Type} `{!Env W} `{!Wired W} `{!BlockIO W}.

Definition itable (w : W) : list m_inode := inode_table (lget fl w).
Definition assigned (g : m_inode -> m_inode) (i : nat) (w : W) : W :=
  lset fl ((lget fl w) <| inode_table ::= alter g i |>) w.

Lemma ino_bind {A B} (f : m_inode -> A) i (k : A -> M W B) w x :
  itable w !! i = Some x -> bind (ino f i) k w = k (f x) w.
Proof. intros E. apply (bind_zoom_read fl). by rewrite bind_get, (bind_deref _ _ _ _ E). Qed.
Lemma set_ino_run i g w x : itable w !! i = Some x -> set_ino i g w = Ret tt (assigned g i w).
Proof. intros E. unfold set_ino, zoom. by rewrite bind_get, (bind_deref _ _ _ _ E). Qed.
Lemma set_ino_bind {B} i g (k : unit -> M W B) w x :
  itable w !! i = Some x -> bind (set_ino i g) k w = k tt (assigned g i w).
Proof. intros E. by rewrite (bind_ret _ _ _ _ _ (set_ino_run _ _ _ _ E)). Qed.

Lemma assigned_itable g i w : itable (assigned g i w) = alter g i (itable w).
Proof. unfold itable, assigned. by rewrite get_set. Qed.
Lemma assigned_lookup g i w x : itable w !! i = Some x -> itable (assigned g i w) !! i = Some (g x).
Proof. intros E. by rewrite assigned_itable, list_lookup_alter_eq, E. Qed.
Lemma assigned_twice f g i w : assigned f i (assigned g i w) = assigned (fun x => f (g x)) i w.
Proof.
  unfold assigned. rewrite get_set, set_set. f_equal. cbn. f_equal.
  apply list_eq. intros j. destruct (decide (i = j)) as [->|]; [|by rewrite !list_lookup_alter_ne].
  rewrite !list_lookup_alter_eq. by destruct (inode_table _ !! j).
Qed.
Lemma assigned_same g i w x : itable w !! i = Some x -> g x = x -> assigned g i w = w.
Proof.
  intros E Hg. unfold assigned. replace ((lget fl w) <| inode_table ::= alter g i |>) with (lget fl w).
  { apply set_get. }
  unfold itable in E. destruct (lget fl w) as [t li ft su rd]. cbn in *. f_equal.
  apply list_eq. intros j. destruct (decide (i = j)) as [->|]; [|by rewrite list_lookup_alter_ne].
  rewrite list_lookup_alter_eq, E. cbn. by rewrite Hg.
Qed.
Lemma assigned_cl g i w : lget cl (assigned g i w) = lget cl w.
Proof. apply get_apart. Qed.
Lemma assigned_tl g i w : lget tl (assigned g i w) = lget tl w.
Proof. apply get_apart. Qed.
Lemma assigned_supers g i w : supers (lget fl (assigned g i w)) = supers (lget fl w).
Proof. unfold assigned. by rewrite get_set. Qed.
Lemma assigned_data g i w d b : data (assigned g i w) d b = data w d b.
Proof. apply data_fl. Qed.
Lemma assigned_inv ps g i w : inv ps w -> inv ps (assigned g i w).
Proof. apply inv_fl. Qed.

Lemma wait_inode_unlocked fuel i w x :
  itable w !! i = Some x -> i_lock x = 0 -> wait_on_inode fuel i w = Ret tt w.
Proof. intros E L. destruct fuel; cbn [wait_on_inode]; by rewrite (ino_bind _ _ _ _ _ E), L. Qed.
Lemma lock_inode_run fuel i w x :
  itable w !! i = Some x -> i_lock x = 0 ->
  lock_inode fuel i w = Ret tt (assigned (fun x => x <| i_lock := 1 |>) i w).
Proof.
  intros E L. unfold lock_inode. rewrite (bind_ret _ _ _ _ _ (wait_inode_unlocked _ _ _ _ E L)).
  by rewrite (set_ino_run _ _ _ _ E).
Qed.
Lemma unlock_inode_run i w x :
  itable w !! i = Some x -> i_wait x = None ->
  unlock_inode i w = Ret tt (assigned (fun x => x <| i_lock := 0 |>) i w).
Proof.
  intros E L. unfold unlock_inode. rewrite (set_ino_bind _ _ _ _ _ E). apply wake_idle.
  pose proof (assigned_lookup (fun x => x <| i_lock := 0 |>) _ _ _ E) as E'.
  unfold itable in E'. unfold i_wait_l, comp. cbn [lget]. by rewrite E'.
Qed.
End table.

(** ** Reading and writing inodes *)

Section disk.
Context {W : Type} `{!Env W} `{!Wired W} `{!BlockIO W}.
Context (dev : Z) (s : nat) (sb : super_block) (fuel : nat) (Hfuel : enough fuel).

(** The blocks of inodes, and the numbers of inodes. *)
Definition inodes_base : Z := 2 + s_imap_blocks sb + s_zmap_blocks sb.
Definition in_fs (nr : Z) : Prop := 1 <= nr <= s_ninodes sb.
Record inodes_ok (w : W) : Prop := {
  io_n : 0 <= s_ninodes sb < 2 ^ 16 - 1;
  io_fdz : s_firstdatazone sb < 2 ^ 16;
  io_fit : inodes_base + (s_ninodes sb - 1) / INODES_PER_BLOCK < s_firstdatazone sb;
  io_bytes : forall b, inodes_base <= b < s_firstdatazone sb -> exists l, data w dev b = Bytes l
}.

Definition disk_inode (w : W) (nr : Z) : m_inode :=
  match data w dev (inode_block sb nr) with
  | Bytes l => load_inode l (inode_offset nr) zero_inode
  | _ => zero_inode
  end.

Lemma inode_place ps w nr :
  mounted ps w dev s sb -> inodes_ok w -> in_fs nr ->
  inode_block sb nr = inodes_base + (nr - 1) / 32 /\
  Z.of_nat (inode_offset nr) = 32 * ((nr - 1) mod 32) /\
  inodes_base <= inode_block sb nr < s_firstdatazone sb.
Proof.
  intros Hm Hi Hn. pose proof (mp_n _ _ _ _ _ _ (mo_imap _ _ _ _ _ Hm)).
  pose proof (mp_n _ _ _ _ _ _ (mo_zmap _ _ _ _ _ Hm)). destruct Hi as [Hni Hfz Hft _].
  unfold in_fs, inode_block, inode_offset, inodes_base, INODES_PER_BLOCK, BLOCK_SIZE in *.
  rewrite (u32_small (nr - 1)) by lia. change (1024 / 32) with 32 in *.
  rewrite u32_small by lia. rewrite Z2Nat.id by lia. lia.
Qed.
Lemma inode_bytes ps w nr :
  inv ps w -> mounted ps w dev s sb -> inodes_ok w -> in_fs nr ->
  exists l, data w dev (inode_block sb nr) = Bytes l /\ length l = 1024%nat /\ bytes l /\
    (inode_offset nr + 32 <= length l)%nat /\ disk_inode w nr = load_inode l (inode_offset nr) zero_inode.
Proof.
  intros Hv Hm Hi Hn. destruct (inode_place _ _ _ Hm Hi Hn) as (Eb & Eo & Hr).
  destruct (io_bytes _ Hi _ Hr) as [l El]. destruct (data_shape _ _ _ _ _ Hv El) as [Hl Hb].
  change (Z.to_nat BLOCK_SIZE) with 1024%nat in Hl.
  exists l. split_and!; [done..|rewrite Hl; lia|]. unfold disk_inode. by rewrite El.
Qed.
Lemma inodes_ok_frame w w' :
  inodes_ok w -> (forall b, inodes_base <= b < s_firstdatazone sb ->
    forall l, data w dev b = Bytes l -> exists l', data w' dev b = Bytes l') -> inodes_ok w'.
Proof.
  intros [H1 H2 H3 H4] H. split; try done. intros b Hb. destruct (H4 b Hb) as [l El]. eauto.
Qed.

(** What is left alone by an operation on the inodes. *)
Record kept (ps : list nat) (w w' : W) : Prop := {
  kp_tl : lget tl w' = lget tl w;
  kp_ident : forall j, j ∈ ps -> ident (lget cl w') j = ident (lget cl w) j;
  kp_supers : supers (lget fl w') = supers (lget fl w);
  kp_files : file_table (lget fl w') = file_table (lget fl w);
  kp_data : forall d b, (d = dev -> b < inodes_base \/ s_firstdatazone sb <= b) ->
    data w' d b = data w d b;
  kp_bytes : forall b, inodes_base <= b < s_firstdatazone sb ->
    forall l, data w dev b = Bytes l -> exists l', data w' dev b = Bytes l'
}.
Lemma kept_refl ps w : kept ps w w.
Proof. split; eauto. Qed.
Lemma kept_trans ps w1 w2 w3 : kept ps w1 w2 -> kept ps w2 w3 -> kept ps w1 w3.
Proof.
  intros [A1 A2 A3 A4 A5 A6] [B1 B2 B3 B4 B5 B6]. split; try congruence.
  - intros j Hj. by rewrite B2, A2.
  - intros d b H. by rewrite B5, A5.
  - intros b Hb l El. destruct (A6 b Hb l El) as [l' El']. eauto.
Qed.
Lemma kept_assigned ps g i w : kept ps w (assigned g i w).
Proof.
  split.
  - apply assigned_tl.
  - intros j _. by rewrite assigned_cl.
  - apply assigned_supers.
  - unfold assigned. by rewrite get_set.
  - intros d b _. apply assigned_data.
  - intros b _ l El. exists l. by rewrite assigned_data.
Qed.
Lemma kept_stable ps w w' : stable ps w w' -> (forall d b, data w' d b = data w d b) -> kept ps w w'.
Proof.
  intros [F T I] Hd. split; try done; try by rewrite F. intros b _ l El. exists l. by rewrite Hd.
Qed.
Lemma kept_mounted ps w w' : mounted ps w dev s sb -> kept ps w w' -> mounted ps w' dev s sb.
Proof.
  intros Hm K. pose proof (kp_ident _ _ _ K) as Hid.
  assert (Hd : forall b bs, 0 <= b < s_firstdatazone sb -> data w dev b = Bytes bs ->
    exists bs', data w' dev b = Bytes bs').
  { intros b bs Hb Eb. destruct (decide (b < inodes_base)).
    - exists bs. by rewrite (kp_data _ _ _ K) by auto.
    - eapply kp_bytes; [done|lia|done]. }
  destruct Hm as [H1 H2 H3 H4 H5].
  pose proof (mp_n _ _ _ _ _ _ H2). pose proof (mp_n _ _ _ _ _ _ H3).
  assert (Hmap : forall base n l, 0 <= base -> base + n <= s_firstdatazone sb ->
    map_ok ps w dev base n l -> map_ok ps w' dev base n l).
  { intros base n l Hb Hbn [M1 M2 M3 M4]. split; try done. intros k Hk.
    destruct (M3 k Hk) as (i & bs & E & Hi & Hid' & Eb).
    destruct (Hd (base + k) bs ltac:(lia) Eb) as [bs' Eb'].
    exists i, bs'. split_and!; try done. by rewrite Hid. }
  unfold zmap_base, imap_base in *. split; try done.
  - destruct H1. split; try done; by rewrite (kp_supers _ _ _ K).
  - apply Hmap; [done|unfold imap_base; lia|done].
  - apply Hmap; [unfold zmap_base; lia|unfold zmap_base; lia|done].
Qed.
Lemma kept_inodes_ok ps w w' : inodes_ok w -> kept ps w w' -> inodes_ok w'.
Proof. intros H K. eapply inodes_ok_frame; [done|]. apply (kp_bytes _ _ _ K). Qed.

Lemma splice_shape off v l : (off + length v <= length l)%nat -> bytes v -> bytes l ->
  length (splice off v l) = length l /\ bytes (splice off v l).
Proof.
  intros H Hv Hl. split; [by apply splice_length|].
  unfold splice, bytes in *. apply Forall_app; split; [by apply Forall_take|].
  apply Forall_app; split; [done|by apply Forall_drop].
Qed.

(** The assignment of an inode to its place in the buffer. *)
Definition put_inode (x : m_inode) (b : buffer_head) : buffer_head :=
  b <| b_bytes ::= splice (inode_offset (i_num x)) (store_inode x) |> <| b_dirt := 1 |>.
Lemma edit_put_inode ps w x : mounted ps w dev s sb -> inodes_ok w -> in_fs (i_num x) ->
  length (i_zone x) = 9%nat -> edit (put_inode x).
Proof.
  intros Hm Hi Hn Hz. destruct (inode_place _ _ _ Hm Hi Hn) as (_ & Eo & _).
  destruct (store_inode_shape x Hz) as [Hsl Hsb].
  apply (edit_comp (fun b => b <| b_dirt := 1 |>)); [apply edit_dirt; by right|].
  apply edit_bytes. intros l Hl Hb. change (Z.to_nat BLOCK_SIZE) with 1024%nat in *.
  destruct (splice_shape (inode_offset (i_num x)) (store_inode x) l) as [E1 E2]; [lia|done|done|].
  by rewrite E1.
Qed.

Lemma write_inode_run ps w i x :
  inv ps w -> (length ps < room)%nat -> mounted ps w dev s sb -> inodes_ok w ->
  itable w !! i = Some x -> i_lock x = 0 -> i_wait x = None -> i_dirt x <> 0 -> i_dev x = dev ->
  in_fs (i_num x) -> in_width x ->
  exists w' l, write_inode fuel i w = Ret tt w' /\ inv ps w' /\
    lget fl w' = lget fl (assigned (fun x => x <| i_dirt := 0 |>) i w) /\ kept ps w w' /\
    data w dev (inode_block sb (i_num x)) = Bytes l /\
    forall d b, data w' d b = upd2 dev (inode_block sb (i_num x))
      (Bytes (splice (inode_offset (i_num x)) (store_inode x) l)) (data w) d b.
Proof.
  intros Hi Hr Hm Hio E Hl Hw Hd Hdev Hn Hwd.
  destruct (inode_bytes _ _ _ Hi Hm Hio Hn) as (l & El & _ & _ & _ & _).
  set (w1 := assigned (fun x => x <| i_lock := 1 |>) i w).
  set (x1 := x <| i_lock := 1 |>).
  assert (E1 : itable w1 !! i = Some x1) by exact (assigned_lookup (fun x => x <| i_lock := 1 |>) _ _ _ E).
  assert (Hs1 : has_super (lget fl w1) dev s sb).
  { destruct (mo_super _ _ _ _ _ Hm). split; try done; unfold w1; by rewrite assigned_supers. }
  destruct (bread_ok ps w1 dev (inode_block sb (i_num x)) l) as (bh & w2 & Eb & Hp);
    [by apply assigned_inv|by rewrite <-El; apply assigned_data|done|].
  destruct (pinned_holding _ _ _ _ _ _ Hp) as [y Hy].
  pose proof Hp as (_ & Hd2 & S2 & _).
  assert (E2 : itable w2 !! i = Some x1) by (unfold itable; by rewrite (st_fl _ _ _ S2)).
  assert (Hg : edit (put_inode x1)) by (apply (edit_put_inode ps w); [done|done|done|apply Hwd]).
  destruct (holding_edit _ _ _ _ _ _ _ Hy Hg) as (Hy3 & S3 & Hd3).
  set (w3 := edited (put_inode x1) bh w2) in *.
  assert (E3 : itable w3 !! i = Some x1) by (unfold itable; by rewrite (st_fl _ _ _ S3)).
  set (w4 := assigned (fun x => x <| i_dirt := 0 |>) i w3).
  destruct (brelse_ok ps w4 bh) as (w5 & E5 & Hi5 & Hd5 & S5);
    [apply assigned_inv, Hy3|].
  assert (E4 : itable w4 !! i = Some (x1 <| i_dirt := 0 |>)) by exact (assigned_lookup (fun x => x <| i_dirt := 0 |>) _ _ _ E3).
  assert (E5' : itable w5 !! i = Some (x1 <| i_dirt := 0 |>)) by (unfold itable; by rewrite (st_fl _ _ _ S5)).
  exists (assigned (fun x => x <| i_lock := 0 |>) i w5), l.
  destruct (holding_bytes _ _ _ _ _ _ _ Hy ltac:(by rewrite Hd2; unfold w1; rewrite assigned_data)) as [Ely Hup].
  split_and!; [| |  | |done|].
  - unfold write_inode. rewrite (bind_ret _ _ _ _ _ (lock_inode_run _ _ _ _ E Hl)). fold w1.
    rewrite (ino_bind _ _ _ _ _ E1). cbn [id x1 upd i_dirt i_dev i_num].
    destruct (Z.eqb_spec (i_dirt x) 0); [done|].
    pose proof (hs_dev_range _ _ _ _ Hs1). rewrite Hdev.
    destruct (Z.eqb_spec dev 0); [lia|]. cbn [orb].
    rewrite (bind_ret _ _ _ _ _ (get_super_run _ _ _ _ _ Hs1 Hfuel)).
    rewrite (sup_bind _ _ _ _ _ (hs_at _ _ _ _ Hs1)). cbn [id].
    rewrite (bind_ret _ _ _ _ _ Eb), (ino_bind _ _ _ _ _ E2). cbn [id].
    rewrite (set_buf_bind _ _ _ _ _ (ho_at _ _ _ _ _ _ Hy)).
    erewrite set_buf_bind by (apply edited_lookup, Hy).
    rewrite edited_twice. change (edited _ bh w2) with w3.
    rewrite (set_ino_bind _ _ _ _ _ E3). fold w4.
    rewrite (bind_ret _ _ _ _ _ E5). by apply (unlock_inode_run _ _ _ E5').
  - by apply assigned_inv.
  - unfold assigned at 1. rewrite get_set, (st_fl _ _ _ S5). unfold w4, assigned at 1.
    rewrite get_set, (st_fl _ _ _ S3), (st_fl _ _ _ S2). unfold w1, assigned. rewrite !get_set.
    cbn. f_equal. apply list_eq. intros j. unfold itable in E.
    destruct (decide (i = j)) as [<-|]; [|by rewrite !list_lookup_alter_ne].
    rewrite !list_lookup_alter_eq, E. cbn. f_equal. destruct x; cbn in *. by subst.
  - eapply kept_trans; [apply (kept_assigned ps (fun x => x <| i_lock := 1 |>) i)|]. fold w1.
    eapply kept_trans; [eapply kept_stable; [exact S2|exact Hd2]|].
    eapply kept_trans with w3.
    { destruct (inode_place _ _ _ Hm Hio Hn) as (_ & _ & Hrg).
      split.
      - apply S3. - intros j Hj. apply S3. by right.
      - by rewrite (st_fl _ _ _ S3). - by rewrite (st_fl _ _ _ S3).
      - intros d b Hb. rewrite Hd3. unfold upd2. rewrite decide_False; [done|].
        intros [-> ->]. specialize (Hb eq_refl). lia.
      - intros b Hb l' El'. rewrite Hd3. unfold upd2. case_decide; [|by exists l'].
        unfold content_of. cbn. rewrite Hup. eauto. }
    eapply kept_trans; [apply kept_assigned|]. fold w4.
    eapply kept_trans; [eapply kept_stable; [exact S5|exact Hd5]|]. apply kept_assigned.
  - intros d b. rewrite assigned_data, Hd5. unfold w4. rewrite assigned_data, Hd3.
    unfold upd2. case_decide as Hdb.
    + unfold content_of. cbn. rewrite Hup, Ely. done.
    + rewrite Hd2. unfold w1. apply assigned_data.
Qed.

Lemma read_inode_run ps w i x :
  inv ps w -> (length ps < room)%nat -> mounted ps w dev s sb -> inodes_ok w ->
  itable w !! i = Some x -> i_lock x = 0 -> i_wait x = None -> i_dev x = dev -> in_fs (i_num x) ->
  exists w' l, read_inode fuel i w = Ret tt w' /\ inv ps w' /\
    lget fl w' = lget fl (assigned (load_inode l (inode_offset (i_num x))) i w) /\ kept ps w w' /\
    data w dev (inode_block sb (i_num x)) = Bytes l /\ bytes l /\
    forall d b, data w' d b = data w d b.
Proof.
  intros Hi Hr Hm Hio E Hl Hw Hdev Hn.
  destruct (inode_bytes _ _ _ Hi Hm Hio Hn) as (l & El & _ & Hbl & _ & _).
  set (w1 := assigned (fun x => x <| i_lock := 1 |>) i w).
  set (x1 := x <| i_lock := 1 |>).
  assert (E1 : itable w1 !! i = Some x1) by exact (assigned_lookup (fun x => x <| i_lock := 1 |>) _ _ _ E).
  assert (Hs1 : has_super (lget fl w1) dev s sb).
  { destruct (mo_super _ _ _ _ _ Hm). split; try done; unfold w1; by rewrite assigned_supers. }
  destruct (bread_ok ps w1 dev (inode_block sb (i_num x)) l) as (bh & w2 & Eb & Hp);
    [by apply assigned_inv|by rewrite <-El; apply assigned_data|done|].
  destruct (pinned_holding _ _ _ _ _ _ Hp) as [y Hy].
  pose proof Hp as (_ & Hd2 & S2 & _).
  assert (E2 : itable w2 !! i = Some x1) by (unfold itable; by rewrite (st_fl _ _ _ S2)).
  destruct (holding_bytes _ _ _ _ _ _ _ Hy ltac:(by rewrite Hd2; unfold w1; rewrite assigned_data)) as [Ely _].
  set (off := inode_offset (i_num x)).
  set (w4 := assigned (load_inode l off) i w2).
  destruct (brelse_ok ps w4 bh) as (w5 & E5 & Hi5 & Hd5 & S5); [apply assigned_inv, Hy|].
  assert (E4 : itable w4 !! i = Some (load_inode l off x1)) by exact (assigned_lookup (load_inode l off) _ _ _ E2).
  assert (E5' : itable w5 !! i = Some (load_inode l off x1)) by (unfold itable; by rewrite (st_fl _ _ _ S5)).
  exists (assigned (fun x => x <| i_lock := 0 |>) i w5), l.
  split_and!; [| |  | |done|done|].
  - unfold read_inode. rewrite (bind_ret _ _ _ _ _ (lock_inode_run _ _ _ _ E Hl)). fold w1.
    rewrite (ino_bind _ _ _ _ _ E1). cbn [id x1 upd i_dirt i_dev i_num]. rewrite Hdev.
    rewrite (bind_ret _ _ _ _ _ (get_super_run _ _ _ _ _ Hs1 Hfuel)).
    rewrite (sup_bind _ _ _ _ _ (hs_at _ _ _ _ Hs1)). cbn [id].
    rewrite (bind_ret _ _ _ _ _ Eb), (buf_bind _ _ _ _ _ (ho_at _ _ _ _ _ _ Hy)), Ely.
    rewrite (set_ino_bind _ _ _ _ _ E2). fold off w4.
    rewrite (bind_ret _ _ _ _ _ E5). by apply (unlock_inode_run _ _ _ E5').
  - by apply assigned_inv.
  - unfold assigned at 1. rewrite get_set, (st_fl _ _ _ S5). unfold w4, assigned at 1.
    rewrite get_set, (st_fl _ _ _ S2). unfold w1, assigned. rewrite !get_set.
    cbn. f_equal. apply list_eq. intros j. unfold itable in E.
    destruct (decide (i = j)) as [<-|]; [|by rewrite !list_lookup_alter_ne].
    rewrite !list_lookup_alter_eq, E. cbn. f_equal. destruct x; cbn in *. by subst.
  - eapply kept_trans; [apply (kept_assigned ps (fun x => x <| i_lock := 1 |>) i)|]. fold w1.
    eapply kept_trans; [eapply kept_stable; [exact S2|exact Hd2]|].
    eapply kept_trans; [apply kept_assigned|]. fold w4.
    eapply kept_trans; [eapply kept_stable; [exact S5|exact Hd5]|]. apply kept_assigned.
  - intros d b. rewrite assigned_data, Hd5. unfold w4. rewrite assigned_data, Hd2. apply assigned_data.
Qed.

(** ** The table as a cache of the inodes of the disk *)

(** An element of the table; [qs] are the references to inodes, with
    repetitions. *)
Record entry_ok (qs : list nat) (w : W) (i : nat) (x : m_inode) : Prop := {
  en_lock : i_lock x = 0;
  en_wait : i_wait x = None;
  en_pipe : i_pipe x = 0;
  en_mount : i_mount x = 0;
  en_width : in_width x;
  en_count : i_count x = uses i qs;
  en_dev : i_dev x = 0 \/ i_dev x = dev /\ in_fs (i_num x);
  en_clean : i_dirt x = 0 -> i_dev x = dev -> core x = disk_inode w (i_num x);
  en_free : i_count x = 0 -> i_dirt x = 0;
  en_nodev : i_dev x = 0 -> i_dirt x = 0
}.
Record table_ok (qs : list nat) (w : W) : Prop := {
  tb_len : length (itable w) = NR_INODE;
  tb_last : (last_inode (lget fl w) < NR_INODE)%nat;
  tb_entry : forall i x, itable w !! i = Some x -> entry_ok qs w i x;
  tb_uniq : forall i j x y, itable w !! i = Some x -> itable w !! j = Some y ->
    i_dev x = dev -> i_dev y = dev -> i_num x = i_num y -> i = j;
  tb_refs : forall i, i ∈ qs -> (i < NR_INODE)%nat;
  tb_few : Z.of_nat (length qs) < 2 ^ 16 - 1
}.

(** Inode [nr] of the device, wherever it is. *)
Definition is_inode (nr : Z) (x : m_inode) : Prop := i_dev x = dev /\ i_num x = nr.
#[global] Instance is_inode_dec nr x : Decision (is_inode nr x).
Proof. unfold is_inode. apply _. Defined.
Definition inode_of (w : W) (nr : Z) : m_inode :=
  match list_find (is_inode nr) (itable w) with
  | Some (_, x) => core x
  | None => disk_inode w nr
  end.

Record fs_inv (ps qs : list nat) (w : W) : Prop := {
  fi_inv : inv ps w;
  fi_room : (length ps < room)%nat;
  fi_mounted : mounted ps w dev s sb;
  fi_inodes : inodes_ok w;
  fi_table : table_ok qs w
}.

Lemma inode_of_at qs w i x :
  table_ok qs w -> itable w !! i = Some x -> i_dev x = dev -> inode_of w (i_num x) = core x.
Proof.
  intros Ht E Hd. unfold inode_of.
  destruct (list_find (is_inode (i_num x)) (itable w)) as [[j y]|] eqn:F.
  - apply list_find_Some in F as (Ej & [Hdy Hny] & _).
    assert (j = i) as -> by (by apply (tb_uniq _ _ Ht j i y x)). congruence.
  - exfalso. apply list_find_None in F. by apply (proj1 (Forall_lookup _ _) F _ _ E).
Qed.
Lemma inode_of_none w nr :
  (forall i x, itable w !! i = Some x -> ~ is_inode nr x) -> inode_of w nr = disk_inode w nr.
Proof.
  intros H. unfold inode_of. destruct (list_find (is_inode nr) (itable w)) as [[j y]|] eqn:F; [|done].
  apply list_find_Some in F as (Ej & Hy & _). by destruct (H j y Ej).
Qed.
Lemma inode_of_cases qs w nr : table_ok qs w ->
  (exists i x, itable w !! i = Some x /\ i_dev x = dev /\ i_num x = nr /\ inode_of w nr = core x) \/
  (forall i x, itable w !! i = Some x -> ~ is_inode nr x) /\ inode_of w nr = disk_inode w nr.
Proof.
  intros Ht. destruct (list_find (is_inode nr) (itable w)) as [[j y]|] eqn:F.
  - apply list_find_Some in F as (Ej & [Hd Hn] & _). left. exists j, y.
    split_and!; [done..|]. rewrite <-Hn. by eapply inode_of_at.
  - right. assert (H : forall i x, itable w !! i = Some x -> ~ is_inode nr x).
    { intros i x E. apply list_find_None in F. apply (proj1 (Forall_lookup _ _) F _ _ E). }
    split; [done|]. by apply inode_of_none.
Qed.

Lemma disk_inode_data w w' nr : data w' dev (inode_block sb nr) = data w dev (inode_block sb nr) ->
  disk_inode w' nr = disk_inode w nr.
Proof. unfold disk_inode. by intros ->. Qed.

(** Reference [j] is to inode [nr]. *)
Definition ref (w : W) (j : nat) (nr : Z) : Prop :=
  exists x, itable w !! j = Some x /\ i_dev x = dev /\ i_num x = nr.

(** What the rest of the file system sees of an operation: no inode has
    changed, and the references [qs] are still to the same ones. *)
Record calm (ps qs : list nat) (w w' : W) : Prop := {
  ca_kept : kept ps w w';
  ca_inode : forall nr, in_fs nr -> inode_of w' nr = inode_of w nr;
  ca_ref : forall j nr, j ∈ qs -> ref w j nr -> ref w' j nr
}.
Lemma calm_refl ps qs w : calm ps qs w w.
Proof. split; [apply kept_refl|done|done]. Qed.
Lemma calm_trans ps qs w1 w2 w3 : calm ps qs w1 w2 -> calm ps qs w2 w3 -> calm ps qs w1 w3.
Proof.
  intros [A1 A2 A3] [B1 B2 B3]. split; [by eapply kept_trans| |by eauto].
  intros nr Hn. by rewrite B2, A2.
Qed.
Lemma calm_sub ps qs qs' w w' : calm ps qs' w w' -> qs ⊆ qs' -> calm ps qs w w'.
Proof. intros [A1 A2 A3] H. split; [done|done|]. auto. Qed.

(** One entry of the table changes, and perhaps its place on the disk. *)
Lemma fs_inv_update ps qs qs' w w' i x x' :
  fs_inv ps qs w -> itable w !! i = Some x -> itable w' = <[i := x']> (itable w) ->
  (last_inode (lget fl w') < NR_INODE)%nat -> inv ps w' -> kept ps w w' ->
  entry_ok qs' w' i x' -> (forall j, j <> i -> uses j qs' = uses j qs) ->
  (forall j, j ∈ qs' -> (j < NR_INODE)%nat) -> Z.of_nat (length qs') < 2 ^ 16 - 1 ->
  (i_dev x' = dev -> forall j y, j <> i -> itable w !! j = Some y -> i_dev y = dev ->
     i_num y <> i_num x') ->
  (forall j y, j <> i -> itable w !! j = Some y -> i_dev y = dev ->
     disk_inode w' (i_num y) = disk_inode w (i_num y)) ->
  fs_inv ps qs' w'.
Proof.
  intros [F1 F2 F3 F4 [T1 T2 T3 T4 T5 T6]] E Et Hlast Hi K He Hu Hr Hf Hun Hd.
  split; [done|done|by eapply kept_mounted|by eapply kept_inodes_ok|].
  split; [by rewrite Et, length_insert|done| | |done|done].
  - intros j y. rewrite Et. destruct (decide (j = i)) as [->|Hn].
    + rewrite list_lookup_insert_eq by (by eapply lookup_lt_Some). by intros [= <-].
    + rewrite list_lookup_insert_ne by done. intros Ey. destruct (T3 j y Ey). split; try done.
      * by rewrite Hu.
      * intros H1 H2. rewrite (Hd j y) by done. auto.
  - intros j k y z. rewrite Et. intros Ej Ek.
    destruct (decide (j = i)) as [->|Hj], (decide (k = i)) as [->|Hk]; [done| | |].
    + rewrite list_lookup_insert_eq in Ej by (by eapply lookup_lt_Some). injection Ej as <-.
      rewrite list_lookup_insert_ne in Ek by done. intros D1 D2 En. exfalso. by eapply (Hun D1 k z).
    + rewrite list_lookup_insert_eq in Ek by (by eapply lookup_lt_Some). injection Ek as <-.
      rewrite list_lookup_insert_ne in Ej by done. intros D1 D2 En. exfalso. by eapply (Hun D2 j y).
    + rewrite list_lookup_insert_ne in Ej, Ek by done. by apply T4.
Qed.

(** An entry whose inode stays the same. *)
Lemma inode_of_update qs qs' w w' i x x' :
  table_ok qs w -> table_ok qs' w' -> itable w !! i = Some x -> itable w' = <[i := x']> (itable w) ->
  i_dev x' = i_dev x -> i_num x' = i_num x -> core x' = core x ->
  (forall nr, in_fs nr -> nr <> i_num x \/ i_dev x <> dev -> disk_inode w' nr = disk_inode w nr) ->
  (forall nr, in_fs nr -> inode_of w' nr = inode_of w nr) /\
  forall j nr, ref w j nr -> ref w' j nr.
Proof.
  intros T T' E Et Hd Hn Hc Hdisk.
  assert (Hi : itable w' !! i = Some x') by (rewrite Et, list_lookup_insert_eq; [done|by eapply lookup_lt_Some]).
  assert (Ho : forall j, j <> i -> itable w' !! j = itable w !! j)
    by (intros j Hj; by rewrite Et, list_lookup_insert_ne).
  split.
  - intros nr Hnr. destruct (inode_of_cases _ w nr T) as [(j & y & Ej & Dj & Nj & ->)|[Hno ->]].
    + destruct (decide (j = i)) as [->|Hj].
      * assert (y = x) as -> by congruence. rewrite <-Hc, <-Nj, <-Hn.
        apply (inode_of_at _ _ _ _ T' Hi). congruence.
      * rewrite <-Nj. apply (inode_of_at _ _ j _ T'); [by rewrite Ho|done].
    + rewrite inode_of_none.
      * apply Hdisk; [done|]. destruct (decide (nr = i_num x)) as [->|]; [|by left]. right.
        intros D. by apply (Hno i x E).
      * intros j y. destruct (decide (j = i)) as [->|Hj].
        -- rewrite Hi. intros [= <-] [D N]. apply (Hno i x E). split; congruence.
        -- rewrite Ho by done. apply Hno.
  - intros j nr (y & Ej & Dj & Nj). destruct (decide (j = i)) as [->|Hj].
    + exists x'. assert (y = x) as -> by congruence. split_and!; congruence.
    + exists y. by rewrite Ho.
Qed.

(** The disk after inode [x] has been stored. *)
Lemma stored_inode ps w w' x l :
  inv ps w -> mounted ps w dev s sb -> inodes_ok w -> in_fs (i_num x) -> in_width x ->
  data w dev (inode_block sb (i_num x)) = Bytes l ->
  (forall d b, data w' d b = upd2 dev (inode_block sb (i_num x))
      (Bytes (splice (inode_offset (i_num x)) (store_inode x) l)) (data w) d b) ->
  disk_inode w' (i_num x) = core x /\
  forall nr, in_fs nr -> nr <> i_num x -> disk_inode w' nr = disk_inode w nr.
Proof.
  intros Hi Hm Hio Hn Hwd El Hd.
  destruct (inode_bytes _ _ _ Hi Hm Hio Hn) as (l0 & El0 & Hl & Hb & Ho & _).
  assert (l0 = l) as -> by congruence.
  destruct (store_inode_shape x) as [Hsl _]; [apply Hwd|].
  destruct (inode_place _ _ _ Hm Hio Hn) as (Pb & Po & _).
  split.
  - unfold disk_inode. rewrite Hd. unfold upd2. rewrite decide_True by done.
    rewrite <-(load_store x Hwd). apply load_inode_ext. intros k Hk.
    rewrite splice_in by lia. by rewrite Nat.add_0_l.
  - intros nr Hnr Hne. destruct (inode_place _ _ _ Hm Hio Hnr) as (Qb & Qo & _).
    unfold disk_inode. rewrite Hd. unfold upd2. case_decide as Hblk; [|done].
    destruct Hblk as [_ Hblk]. rewrite Hblk, El. apply load_inode_ext. intros k Hk.
    apply splice_out; [lia|]. unfold in_fs in *. rewrite Hsl. lia.
Qed.

Lemma lookup_alter_insert (l : list m_inode) g i x : l !! i = Some x -> alter g i l = <[i := g x]> l.
Proof.
  intros E. apply list_eq. intros j. destruct (decide (i = j)) as [<-|].
  - rewrite list_lookup_alter_eq, E, list_lookup_insert_eq by (by eapply lookup_lt_Some). done.
  - by rewrite list_lookup_alter_ne, list_lookup_insert_ne.
Qed.

(** On the disk, at most inode [nr] has changed. *)
Record disk_only (w w' : W) (nr : Z) : Prop := {
  do_block : forall d b, d <> dev \/ b <> inode_block sb nr -> data w' d b = data w d b;
  do_inodes : forall n, in_fs n -> n <> nr -> disk_inode w' n = disk_inode w n
}.
Lemma disk_only_same w w' nr : (forall d b, data w' d b = data w d b) -> disk_only w w' nr.
Proof. intros H. split; [done|]. intros n _ _. by apply disk_inode_data. Qed.
Lemma disk_only_then w1 w2 w3 nr :
  disk_only w1 w2 nr -> (forall d b, data w3 d b = data w2 d b) -> disk_only w1 w3 nr.
Proof.
  intros [B I] H. split.
  - intros d b Hb. rewrite H. by apply B.
  - intros n Hn Hne. rewrite <-(I n Hn Hne). by apply disk_inode_data.
Qed.

Lemma write_inode_ok ps qs w i x :
  fs_inv ps qs w -> itable w !! i = Some x -> i_dirt x <> 0 -> i_dev x = dev ->
  exists w', write_inode fuel i w = Ret tt w' /\ fs_inv ps qs w' /\ calm ps qs w w' /\
    itable w' = <[i := x <| i_dirt := 0 |>]> (itable w) /\ disk_only w w' (i_num x).
Proof.
  intros F E Hd Hdev. pose proof F as [F1 F2 F3 F4 F5].
  pose proof (tb_entry _ _ F5 i x E) as [N1 N2 N3 N4 N5 N6 N7 N8 N9 N10].
  assert (Hn : in_fs (i_num x)).
  { destruct N7 as [N7|[_ N7]]; [|done]. pose proof (hs_dev_range _ _ _ _ (mo_super _ _ _ _ _ F3)). lia. }
  destruct (write_inode_run ps w i x F1 F2 F3 F4 E N1 N2 Hd Hdev Hn N5)
    as (w' & l & Ew & Hi' & Hfl & K & El & Hdat).
  destruct (stored_inode _ _ _ _ _ F1 F3 F4 Hn N5 El Hdat) as [Hs1 Hs2].
  assert (Et : itable w' = <[i := x <| i_dirt := 0 |>]> (itable w)).
  { unfold itable at 1. rewrite Hfl. change (inode_table (lget fl ?v)) with (itable v).
    rewrite assigned_itable. by apply (lookup_alter_insert _ (fun x => x <| i_dirt := 0 |>)). }
  assert (F' : fs_inv ps qs w').
  { eapply (fs_inv_update ps qs qs w w' i x (x <| i_dirt := 0 |>)); try done.
    - rewrite Hfl. unfold assigned. rewrite get_set. apply F5.
    - apply F5.
    - apply F5.
    - intros _ j y Hj Ej Dj En. apply Hj. by apply (tb_uniq _ _ F5 j i y x).
    - intros j y Hj Ej Dj. apply Hs2.
      + destruct (en_dev _ _ _ _ (tb_entry _ _ F5 j y Ej)) as [H|[_ H]]; [|done].
        pose proof (hs_dev_range _ _ _ _ (mo_super _ _ _ _ _ F3)). lia.
      + intros En. apply Hj. by apply (tb_uniq _ _ F5 j i y x). }
  exists w'. split_and!; [done|done| |done|].
  2:{ split; [|exact Hs2]. intros d b Hb. rewrite Hdat. unfold upd2. rewrite decide_False; [done|].
      intros [-> ->]. by destruct Hb. }
  destruct (inode_of_update qs qs w w' i x (x <| i_dirt := 0 |>)) as [H1 H2]; try done.
  - apply F'.
  - intros nr Hnr [Hne|Hne]; [by apply Hs2|done].
  - split; [done|done|]. intros j nr _. apply H2.
Qed.

(** Dropping a reference to an inode that others still have, or that is
    clean. *)
Lemma count_dec_ok ps qs w i x :
  fs_inv ps (i :: qs) w -> itable w !! i = Some x -> 1 < i_count x \/ i_dirt x = 0 ->
  exists w', count_dec i w = Ret tt w' /\ fs_inv ps qs w' /\ calm ps qs w w' /\
    itable w' = <[i := x <| i_count := i_count x - 1 |>]> (itable w) /\
    forall d b, data w' d b = data w d b.
Proof.
  intros F E Hc. pose proof F as [F1 F2 F3 F4 F5].
  pose proof (tb_entry _ _ F5 i x E) as [N1 N2 N3 N4 N5 N6 N7 N8 N9 N10].
  rewrite uses_cons, decide_True in N6 by done. pose proof (uses_range i qs).
  pose proof (tb_few _ _ F5) as Hf. cbn [length] in Hf.
  set (g := fun x => x <| i_count ::= fun n => u16 (n - 1) |>).
  assert (Et : itable (assigned g i w) = <[i := g x]> (itable w))
    by (rewrite assigned_itable; by apply lookup_alter_insert).
  assert (Hcnt : i_count (g x) = uses i qs).
  { change (u16 (i_count x - 1) = uses i qs). rewrite N6, u16_small by lia. lia. }
  exists (assigned g i w). split; [by apply (set_ino_run _ _ _ _ E)|].
  assert (Hdd : forall nr, disk_inode (assigned g i w) nr = disk_inode w nr).
  { intros nr. apply disk_inode_data, assigned_data. }
  assert (F' : fs_inv ps qs (assigned g i w)).
  { eapply (fs_inv_update ps (i :: qs) qs w _ i x (g x)); try done.
    - unfold assigned. rewrite get_set. apply F5.
    - by apply assigned_inv.
    - apply kept_assigned.
    - split; try done.
      + intros H1 H2. rewrite Hdd. auto.
      + intros H0. destruct Hc as [Hc|Hc]; [|done]. exfalso. lia.
    - intros j Hj. rewrite uses_cons, decide_False; [lia|congruence].
    - intros j Hj. apply F5. by right.
    - lia.
    - intros D j y Hj Ej Dj En. apply Hj. by apply (tb_uniq _ _ F5 j i y x). }
  split; [done|].
  destruct (inode_of_update (i :: qs) qs w (assigned g i w) i x (g x)) as [H1 H2]; try done.
  { apply F'. }
  split; [split; [apply kept_assigned|done|]; intros j nr _; apply H2|].
  split; [|apply assigned_data]. rewrite Et. f_equal. unfold g. destruct x. cbn in *.
  f_equal. rewrite u16_small; lia.
Qed.

(** get_empty_inode(): the scan finds a free inode when there is one. *)
Definition set_last (k : nat) (w : W) : W := lset fl ((lget fl w) <| last_inode := k |>) w.
Lemma set_last_itable k w : itable (set_last k w) = itable w.
Proof. unfold itable, set_last. by rewrite get_set. Qed.
Lemma set_last_same w : set_last (last_inode (lget fl w)) w = w.
Proof.
  unfold set_last. replace ((lget fl w) <| last_inode := _ |>) with (lget fl w); [apply set_get|].
  by destruct (lget fl w).
Qed.

Lemma scan_inodes_run qs w : table_ok qs w -> forall n k o, (k < NR_INODE)%nat ->
  (exists d i x, (1 <= d <= n)%nat /\ i = ((k + d) mod 32)%nat /\ itable w !! i = Some x /\ i_count x = 0) ->
  exists i x, scan_inodes n o (set_last k w) = Ret (Some i) (set_last i w) /\
    itable w !! i = Some x /\ i_count x = 0.
Proof.
  intros T. induction n as [|n IH]; intros k o Hk (d & i & x & Hd & Hi & E & Hc); [lia|].
  cbn [scan_inodes]. set (k' := if (NR_INODE <=? S k)%nat then 0%nat else S k).
  assert (Ek' : k' = ((k + 1) mod 32)%nat /\ (k' < NR_INODE)%nat).
  { unfold k', NR_INODE in *. destruct (Nat.leb_spec 32 (S k)).
    - replace (k + 1)%nat with 32%nat by lia. split; [done|lia].
    - rewrite Nat.mod_small by lia. lia. }
  destruct Ek' as [Ek' Hk'].
  rewrite (bind_zoom fl _ _ _ tt ((lget fl (set_last k w)) <| last_inode := k' |>)).
  2:{ unfold modify. f_equal. unfold set_last. rewrite get_set. cbn. by destruct (lget fl w). }
  assert (Ew : lset fl ((lget fl (set_last k w)) <| last_inode := k' |>) (set_last k w) = set_last k' w).
  { unfold set_last. by rewrite get_set, set_set. }
  rewrite Ew, bind_gets.
  replace (last_inode (lget fl (set_last k' w))) with k' by (unfold set_last; by rewrite get_set).
  destruct (lookup_lt_is_Some_2 (itable w) k') as [y Ey]; [by rewrite (tb_len _ _ T)|].
  rewrite (ino_bind _ _ _ _ y) by (by rewrite set_last_itable). cbn [id].
  destruct (tb_entry _ _ T k' y Ey) as [N1 _ _ _ _ _ _ _ N9 _].
  destruct (Z.eqb_spec (i_count y) 0) as [Hy|Hy].
  - rewrite N1, (N9 Hy). cbn. by exists k', y.
  - apply IH; [done|]. exists (d - 1)%nat, i, x. split_and!; [| | |done|done].
    + destruct (decide (d = 1)%nat) as [->|]; [|lia]. exfalso. apply Hy.
      assert (k' = i) as -> by congruence. congruence.
    + lia.
    + rewrite Hi, Ek'. rewrite Nat.Div0.add_mod_idemp_l. f_equal. lia.
Qed.

Lemma free_index qs w : table_ok qs w -> (length qs < NR_INODE)%nat ->
  exists i x, (i < NR_INODE)%nat /\ i ∉ qs /\ itable w !! i = Some x /\ i_count x = 0.
Proof.
  intros T Hl.
  assert (exists i, (i < NR_INODE)%nat /\ i ∉ qs) as (i & Hi & Hq).
  { destruct (decide (Forall (fun i => i ∈ qs) (seq 0 NR_INODE))) as [Hall|Hn].
    - exfalso. assert (seq 0 NR_INODE ⊆+ qs) as Hs%submseteq_length.
      { apply NoDup_submseteq; [apply NoDup_seq|]. intros j Hj. by apply (proj1 (Forall_forall _ _) Hall). }
      rewrite length_seq in Hs. lia.
    - apply not_Forall_Exists in Hn; [|apply _]. apply Exists_exists in Hn as (i & Hi & Hn).
      exists i. split; [|done]. apply elem_of_seq in Hi. lia. }
  destruct (lookup_lt_is_Some_2 (itable w) i) as [x E]; [by rewrite (tb_len _ _ T)|].
  exists i, x. split_and!; try done. rewrite (en_count _ _ _ _ (tb_entry _ _ T i x E)). by apply uses_zero.
Qed.

Lemma kept_last ps k w : kept ps w (set_last k w).
Proof.
  unfold set_last. split.
  - apply get_apart.
  - intros j _. by rewrite get_apart.
  - by rewrite get_set.
  - by rewrite get_set.
  - intros d b _. apply data_fl.
  - intros b _ l El. exists l. by rewrite data_fl.
Qed.

Definition used_inode (n : Z) : m_inode := zero_inode <| i_count := n |>.
Lemma zero_width n : in_width (used_inode n).
Proof. unfold in_width. cbn. split_and!; try lia; try done. by repeat constructor. Qed.

(** An entry that nobody refers to and that is clean is taken. *)
Lemma calm_taken ps qs w w2 i x :
  fs_inv ps qs w -> fs_inv ps (i :: qs) w2 -> kept ps w w2 -> (forall d b, data w2 d b = data w d b) ->
  itable w !! i = Some x -> i ∉ qs -> itable w2 = <[i := used_inode 1]> (itable w) ->
  (i_dev x = dev -> core x = disk_inode w (i_num x)) -> calm ps qs w w2.
Proof.
  intros F F' K Hd E Hq Et N8. pose proof (fi_table _ _ _ F) as F5.
  assert (Ho : forall j, j <> i -> itable w2 !! j = itable w !! j)
    by (intros j Hj; by rewrite Et, list_lookup_insert_ne).
  pose proof (hs_dev_range _ _ _ _ (mo_super _ _ _ _ _ (fi_mounted _ _ _ F))) as Hdr.
  split; [done| |].
  - intros nr Hnr. destruct (inode_of_cases _ w nr F5) as [(j & y & Ej & Dj & Nj & ->)|[Hno ->]].
    + destruct (decide (j = i)) as [->|Hj].
      * assert (y = x) as -> by congruence. rewrite (N8 Dj), Nj.
        rewrite inode_of_none; [by apply disk_inode_data|].
        intros k z. destruct (decide (k = i)) as [->|Hk].
        -- rewrite Et, list_lookup_insert_eq by (by eapply lookup_lt_Some).
           intros [= <-] [D _]. cbn in D. lia.
        -- rewrite Ho by done. intros Ek [Dk Nk]. apply Hk.
           apply (tb_uniq _ _ F5 k i z x); congruence.
      * rewrite <-Nj. apply (inode_of_at _ _ j _ (fi_table _ _ _ F')); [by rewrite Ho|done].
    + rewrite inode_of_none; [by apply disk_inode_data|]. intros k z.
      destruct (decide (k = i)) as [->|Hk].
      * rewrite Et, list_lookup_insert_eq by (by eapply lookup_lt_Some).
        intros [= <-] [D _]. cbn in D. lia.
      * rewrite Ho by done. apply Hno.
  - intros j nr Hj (y & Ej & Dj & Nj). exists y. rewrite Ho; [done|]. by intros ->.
Qed.
Lemma get_empty_ok ps qs w :
  fs_inv ps qs w -> (length qs < NR_INODE)%nat ->
  exists i w', get_empty_inode fuel w = Ret i w' /\ fs_inv ps (i :: qs) w' /\ calm ps qs w w' /\
    i ∉ qs /\ itable w' !! i = Some (used_inode 1) /\
    (forall d b, data w' d b = data w d b) /\
    exists k, lget fl w' = lget fl (assigned (fun _ => used_inode 1) i (set_last k w)).
Proof.
  intros F Hl. pose proof F as [F1 F2 F3 F4 F5].
  destruct (free_index _ _ F5 Hl) as (i0 & x0 & Hi0 & Hq0 & E0 & Hc0).
  destruct (scan_inodes_run _ _ F5 NR_INODE (last_inode (lget fl w)) None (tb_last _ _ F5)) as (i & x & Es & E & Hc).
  { pose proof (tb_last _ _ F5) as Hla. unfold NR_INODE in *.
    exists (if decide (last_inode (lget fl w) < i0)%nat then i0 - last_inode (lget fl w)
            else i0 + 32 - last_inode (lget fl w))%nat, i0, x0.
    split_and!; [case_decide; lia|case_decide; lia| |done|done].
    case_decide.
    - rewrite Nat.mod_small; lia.
    - replace (last_inode (lget fl w) + (i0 + 32 - last_inode (lget fl w)))%nat with (i0 + 1 * 32)%nat by lia.
      rewrite Nat.Div0.mod_add, Nat.mod_small; lia. }
  rewrite set_last_same in Es. set (w1 := set_last i w) in *.
  pose proof (tb_entry _ _ F5 i x E) as [N1 N2 N3 N4 N5 N6 N7 N8 N9 N10].
  assert (E1 : itable w1 !! i = Some x) by (unfold w1; by rewrite set_last_itable).
  set (w2 := assigned (fun x => x <| i_count := 1 |>) i (assigned (fun _ => zero_inode) i w1)).
  assert (Ew2 : w2 = assigned (fun _ => used_inode 1) i w1) by (unfold w2; by rewrite assigned_twice).
  assert (Hq : i ∉ qs) by (apply uses_zero; lia).
  assert (Hi : (i < NR_INODE)%nat) by (rewrite <-(tb_len _ _ F5); by eapply lookup_lt_Some).
  assert (Er : get_empty_inode fuel w = Ret i w2).
  { destruct fuel as [|fuel'] eqn:Ef; [unfold enough, NR_SUPER in Hfuel; lia|]. cbn [get_empty_inode].
    rewrite (bind_ret _ _ _ _ _ Es), (bind_ret _ _ _ _ _ (wait_inode_unlocked _ _ _ _ E1 N1)).
    cbn [flush_inode]. rewrite bind_assoc, (ino_bind _ _ _ _ _ E1), (N9 Hc). cbn [truth Z.eqb negb].
    rewrite bind_ret_l, (ino_bind _ _ _ _ _ E1), Hc. cbn [truth Z.eqb negb].
    rewrite (set_ino_bind _ _ _ _ _ E1).
    rewrite (set_ino_bind _ _ _ _ zero_inode) by apply (assigned_lookup _ _ _ _ E1). done. }
  assert (Et : itable w2 = <[i := used_inode 1]> (itable w)).
  { rewrite Ew2, assigned_itable. unfold w1. rewrite set_last_itable.
    exact (lookup_alter_insert _ (fun _ => used_inode 1) _ _ E). }
  assert (Hd : forall d b, data w2 d b = data w d b).
  { intros d b. rewrite Ew2, assigned_data. unfold w1, set_last. apply data_fl. }
  assert (K : kept ps w w2).
  { eapply kept_trans; [apply kept_last|]. rewrite Ew2. apply kept_assigned. }
  pose proof (hs_dev_range _ _ _ _ (mo_super _ _ _ _ _ F3)) as Hdr.
  assert (F' : fs_inv ps (i :: qs) w2).
  { eapply (fs_inv_update ps qs (i :: qs) w w2 i x (used_inode 1)); try done.
    - rewrite Ew2. unfold assigned, w1, set_last. rewrite !get_set. done.
    - rewrite Ew2. apply assigned_inv. by apply inv_fl.
    - split; try done; [apply zero_width| | |].
      + rewrite uses_cons, decide_True by done. rewrite <-N6, Hc. done.
      + by left.
      + intros _ H. cbn in H. lia.
    - intros j Hj. rewrite uses_cons, decide_False; [lia|congruence].
    - intros j [->|Hj]%elem_of_cons; [done|by apply F5].
    - pose proof (tb_few _ _ F5). unfold NR_INODE in *. cbn [length]. lia.
    - cbn. lia.
    - intros j y Hj Ej Dj. by apply disk_inode_data. }
  exists i, w2. split_and!; [done|done| |done| |done|by exists i; rewrite Ew2].
  2:{ rewrite Et, list_lookup_insert_eq; [done|by eapply lookup_lt_Some]. }
  apply (calm_taken ps qs w w2 i x); auto.
Qed.

Lemma fs_inv_perm ps qs qs' w : qs ≡ₚ qs' -> fs_inv ps qs w -> fs_inv ps qs' w.
Proof.
  intros Hp [F1 F2 F3 F4 [T1 T2 T3 T4 T5 T6]].
  assert (Hu : forall i, uses i qs' = uses i qs) by (intros i; unfold uses; f_equal; by rewrite Hp).
  split; try done. split; try done.
  - intros i x E. destruct (T3 i x E). split; try done. by rewrite Hu.
  - intros i. rewrite <-Hp. apply T5.
  - by rewrite <-Hp.
Qed.

(** iput() of an inode that is linked, or that others use too, or that is
    not one of a device. *)
Definition released (x : m_inode) : m_inode :=
  x <| i_count := i_count x - 1 |> <| i_dirt := if i_count x =? 1 then 0 else i_dirt x |>.
Lemma released_kept x : 1 < i_count x \/ i_dirt x = 0 -> x <| i_count := i_count x - 1 |> = released x.
Proof.
  intros H. destruct x. unfold released. cbn in *. f_equal. destruct (Z.eqb_spec i_count 1); [|done].
  destruct H as [H|H]; [lia|done].
Qed.
Lemma iput_run ps qs w i x :
  fs_inv ps (i :: qs) w -> itable w !! i = Some x ->
  i_nlinks x <> 0 \/ i_dev x = 0 ->
  exists w', iput fuel (Some i) w = Ret tt w' /\ fs_inv ps qs w' /\ calm ps qs w w' /\
    itable w' = <[i := released x]> (itable w) /\ disk_only w w' (i_num x) /\
    (1 < i_count x \/ i_dirt x = 0 -> forall d b, data w' d b = data w d b).
Proof.
  intros F E Hl. pose proof F as [F1 F2 F3 F4 F5].
  pose proof (tb_entry _ _ F5 i x E) as [N1 N2 N3 N4 N5 N6 N7 N8 N9 N10].
  rewrite uses_cons, decide_True in N6 by done. pose proof (uses_range i qs).
  assert (Hdec : 1 < i_count x \/ i_dirt x = 0 ->
    exists w', count_dec i w = Ret tt w' /\ fs_inv ps qs w' /\ calm ps qs w w' /\
      itable w' = <[i := released x]> (itable w) /\ disk_only w w' (i_num x) /\
      (1 < i_count x \/ i_dirt x = 0 -> forall d b, data w' d b = data w d b)).
  { intros Hc. destruct (count_dec_ok ps qs w i x F E Hc) as (w' & E' & F' & C' & Et & Hd).
    rewrite <-(released_kept x Hc). exists w'. split_and!; try done. by apply disk_only_same. }
  unfold iput. rewrite (bind_ret _ _ _ _ _ (wait_inode_unlocked _ _ _ _ E N1)).
  rewrite (ino_bind _ _ _ _ _ E). cbn [id]. rewrite N3. cbn [truth Z.eqb negb].
  destruct (Z.eqb_spec (i_count x) 0); [lia|].
  destruct (Z.eqb_spec (i_dev x) 0) as [H0|H0]; [apply Hdec; auto|].
  destruct Hl as [Hl|Hl]; [|done]. destruct N7 as [N7|[Hdev Hnum]]; [done|].
  rewrite (bind_ret _ _ w tt w);
    [|destruct (S_ISBLK (i_mode x)); [by apply (wait_inode_unlocked _ _ _ _ E)|done]].
  assert (exists n, fuel = S (S n)) as [n' Ef]
    by (unfold enough, NR_SUPER in Hfuel; exists (fuel - 2)%nat; lia).
  replace (iput_repeat fuel i) with (iput_repeat (S (S n')) i) by (by rewrite Ef).
  cbn [iput_repeat]. rewrite (ino_bind _ _ _ _ _ E). cbn [id].
  destruct (Z.ltb_spec 1 (i_count x)); [apply Hdec; auto|].
  destruct (Z.eqb_spec (i_nlinks x) 0); [done|].
  destruct (Z.eqb_spec (i_dirt x) 0) as [Hd|Hd]; [replace (truth (i_dirt x)) with false by (by rewrite Hd); apply Hdec; auto|].
  assert (truth (i_dirt x) = true) as -> by (unfold truth; by destruct (Z.eqb_spec (i_dirt x) 0)).
  rewrite <-Ef. destruct (write_inode_ok ps _ w i x F E Hd Hdev) as (w1 & Ew & F' & C1 & Et & D1).
  assert (E1 : itable w1 !! i = Some (x <| i_dirt := 0 |>))
    by (rewrite Et, list_lookup_insert_eq; [done|by eapply lookup_lt_Some]).
  rewrite (bind_ret _ _ _ _ _ Ew), (bind_ret _ _ _ _ _ (wait_inode_unlocked _ _ _ _ E1 N1)).
  rewrite (ino_bind _ _ _ _ _ E1). cbn [id upd i_count i_nlinks i_dirt].
  destruct (Z.ltb_spec 1 (i_count x)); [lia|]. destruct (Z.eqb_spec (i_nlinks x) 0); [done|].
  cbn [truth Z.eqb negb].
  destruct (count_dec_ok ps qs w1 i _ F' E1) as (w2 & E2 & F2' & C2 & Et2 & D2); [by right|].
  exists w2. split_and!; [done|done| | | |].
  - eapply calm_trans; [|done]. eapply calm_sub; [done|set_solver].
  - rewrite Et2, Et, list_insert_insert_eq. f_equal. unfold released.
    rewrite (proj2 (Z.eqb_eq (i_count x) 1)) by lia. by destruct x.
  - by eapply disk_only_then.
  - intros [Hc|Hc]; [lia|done].
Qed.
Lemma iput_ok ps qs w i x :
  fs_inv ps (i :: qs) w -> itable w !! i = Some x ->
  i_nlinks x <> 0 \/ i_dev x = 0 ->
  exists w', iput fuel (Some i) w = Ret tt w' /\ fs_inv ps qs w' /\ calm ps qs w w'.
Proof.
  intros F E Hl. destruct (iput_run ps qs w i x F E Hl) as (w' & E' & F' & C' & _). by exists w'.
Qed.

Lemma count_inc_ok ps qs w i x :
  fs_inv ps qs w -> itable w !! i = Some x -> i_dev x = dev -> (length qs < 2 * NR_INODE)%nat ->
  let w' := assigned (fun x => x <| i_count ::= fun n => u16 (n + 1) |>) i w in
  fs_inv ps (i :: qs) w' /\ calm ps qs w w' /\ ref w' i (i_num x).
Proof.
  intros F E Hdev Hl w'. pose proof F as [F1 F2 F3 F4 F5].
  pose proof (tb_entry _ _ F5 i x E) as [N1 N2 N3 N4 N5 N6 N7 N8 N9 N10].
  pose proof (uses_range i qs). unfold NR_INODE in Hl.
  set (g := fun x => x <| i_count ::= fun n => u16 (n + 1) |>) in *.
  assert (Et : itable w' = <[i := g x]> (itable w))
    by (unfold w'; rewrite assigned_itable; by apply lookup_alter_insert).
  assert (Hcnt : i_count (g x) = uses i (i :: qs)).
  { change (u16 (i_count x + 1) = uses i (i :: qs)).
    rewrite uses_cons, decide_True, N6, u16_small by (done || lia). lia. }
  assert (Hi : (i < NR_INODE)%nat) by (rewrite <-(tb_len _ _ F5); by eapply lookup_lt_Some).
  assert (Hdd : forall nr, disk_inode w' nr = disk_inode w nr).
  { intros nr. apply disk_inode_data, assigned_data. }
  pose proof (hs_dev_range _ _ _ _ (mo_super _ _ _ _ _ F3)) as Hdr.
  assert (F' : fs_inv ps (i :: qs) w').
  { eapply (fs_inv_update ps qs (i :: qs) w w' i x (g x)); try done.
    - unfold w', assigned. rewrite get_set. apply F5.
    - by apply assigned_inv.
    - apply kept_assigned.
    - split; try done.
      + intros H1 H2. rewrite Hdd. auto.
      + rewrite Hcnt, uses_cons, decide_True by done. lia.
    - intros j Hj. rewrite uses_cons, decide_False; [lia|congruence].
    - intros j [->|Hj]%elem_of_cons; [done|by apply F5].
    - cbn [length]. lia.
    - intros _ j y Hj Ej Dj En. apply Hj. by apply (tb_uniq _ _ F5 j i y x). }
  destruct (inode_of_update qs (i :: qs) w w' i x (g x)) as [H1 H2]; try done.
  { apply F'. }
  split_and!; [done| |by exists (g x); rewrite Et, list_lookup_insert_eq by (by eapply lookup_lt_Some)].
  split; [apply kept_assigned|done|]. intros j nr _. apply H2.
Qed.
End disk.

Section iget.
Context {W : Type} `{!Env W} `{!Wired W} `{!BlockIO W}.
Context (dev : Z) (s : nat) (sb : super_block).
Notation fs_inv := (fs_inv dev s sb).
Notation calm := (calm dev sb).
Notation ref := (ref dev).

(** iget(): the inode is found in the table, or read into the free one. *)
Lemma iget_hit fuel ps qs w e j y :
  (NR_SUPER <= fuel)%nat -> (length qs < NR_INODE)%nat ->
  fs_inv ps (e :: qs) w -> itable w !! e = Some (used_inode 1) -> itable w !! j = Some y ->
  i_dev y = dev ->
  let w1 := assigned (fun x => x <| i_count ::= fun n => u16 (n + 1) |>) j w in
  exists w', iput fuel (Some e) w1 = Ret tt w' /\ fs_inv ps (j :: qs) w' /\ calm ps qs w w' /\
    ref w' j (i_num y).
Proof.
  intros Hf Hl F Ee Ej Hdev w1.
  pose proof (hs_dev_range _ _ _ _ (mo_super _ _ _ _ _ (fi_mounted _ _ _ _ _ _ F))) as Hdr.
  assert (Hje : j <> e) by (intros ->; rewrite Ee in Ej; injection Ej as <-; cbn in Hdev; lia).
  destruct (count_inc_ok dev s sb ps (e :: qs) w j y F Ej Hdev) as (F1 & C1 & R1);
    [unfold NR_INODE in *; cbn [length]; lia|]. fold w1 in F1, C1, R1.
  assert (Ee1 : itable w1 !! e = Some (used_inode 1))
    by (unfold w1; rewrite assigned_itable, list_lookup_alter_ne; done).
  assert (F1' : fs_inv ps (e :: j :: qs) w1) by (eapply fs_inv_perm; [apply Permutation_swap|done]).
  destruct (iput_ok dev s sb fuel Hf ps (j :: qs) w1 e _ F1' Ee1) as (w' & E & F' & C'); [by right|].
  exists w'. split_and!; [done|done| |].
  - eapply calm_trans; [eapply calm_sub; [exact C1|set_solver]|].
    eapply calm_sub; [exact C'|set_solver].
  - apply (ca_ref _ _ _ _ _ _ C'); [by left|done].
Qed.

Lemma iget_miss fuel ps qs w e nr :
  (NR_SUPER <= fuel)%nat -> fs_inv ps (e :: qs) w -> itable w !! e = Some (used_inode 1) ->
  in_fs sb nr -> (forall j y, itable w !! j = Some y -> ~ is_inode dev nr y) -> e ∉ qs ->
  let w1 := assigned (fun x => x <| i_dev := dev |> <| i_num := nr |>) e w in
  exists w', read_inode fuel e w1 = Ret tt w' /\ fs_inv ps (e :: qs) w' /\ calm ps qs w w' /\
    ref w' e nr.
Proof.
  intros Hf F Ee Hnr Hno Heq w1. pose proof F as [F1 F2 F3 F4 F5].
  set (x1 := (used_inode 1) <| i_dev := dev |> <| i_num := nr |>).
  assert (E1 : itable w1 !! e = Some x1)
    by exact (assigned_lookup (fun x => x <| i_dev := dev |> <| i_num := nr |>) _ _ _ Ee).
  assert (K1 : kept dev sb ps w w1) by apply kept_assigned.
  destruct (read_inode_run dev s sb fuel Hf ps w1 e x1) as (w' & l & Er & Hi' & Hfl & K & El & Hbl & Hd);
    [by apply assigned_inv|done|by eapply kept_mounted|by eapply kept_inodes_ok|done..|].
  change (i_num x1) with nr in *.
  set (x' := load_inode l (inode_offset nr) x1) in *.
  assert (Et : itable w' = <[e := x']> (itable w)).
  { unfold itable at 1. rewrite Hfl. change (inode_table (lget fl ?v)) with (itable v).
    rewrite assigned_itable. unfold w1. rewrite assigned_itable.
    rewrite (lookup_alter_insert _ _ _ _ Ee).
    rewrite (lookup_alter_insert _ _ _ x1) by (rewrite list_lookup_insert_eq; [done|by eapply lookup_lt_Some]).
    by rewrite list_insert_insert_eq. }
  assert (Hdd : forall n, disk_inode dev sb w' n = disk_inode dev sb w n).
  { intros n. apply disk_inode_data. rewrite Hd. apply assigned_data. }
  assert (Hcore : core x' = disk_inode dev sb w nr).
  { unfold disk_inode. unfold w1 in El. rewrite assigned_data in El. rewrite El. apply load_inode_over. exact x1. }
  pose proof (hs_dev_range _ _ _ _ (mo_super _ _ _ _ _ F3)) as Hdr.
  assert (K' : kept dev sb ps w w') by (by eapply kept_trans).
  pose proof (tb_entry _ _ _ _ F5 e _ Ee) as Hent.
  assert (F' : fs_inv ps (e :: qs) w').
  { eapply (fs_inv_update dev s sb ps (e :: qs) (e :: qs) w w' e (used_inode 1) x'); try done.
    - rewrite Hfl. unfold w1, assigned. rewrite !get_set. apply F5.
    - split; try done.
      + by apply load_in_width.
      + apply Hent.
      + by right.
      + intros _ _. by rewrite Hdd.
    - apply F5.
    - apply F5.
    - intros _ j y _ Ej Dj Nj. by apply (Hno j y Ej). }
  assert (Ee' : itable w' !! e = Some x') by (rewrite Et, list_lookup_insert_eq; [done|by eapply lookup_lt_Some]).
  assert (Ho : forall j, j <> e -> itable w' !! j = itable w !! j)
    by (intros j Hj; by rewrite Et, list_lookup_insert_ne).
  exists w'. split_and!; [done|done| |by exists x'].
  split; [done| |].
  - intros n Hn. destruct (inode_of_cases _ _ _ w n F5) as [(j & y & Ej & Dj & Nj & ->)|[Hnn ->]].
    + assert (j <> e) by (intros ->; rewrite Ee in Ej; injection Ej as <-; cbn in Dj; lia).
      rewrite <-Nj. apply (inode_of_at _ _ _ _ j _ (fi_table _ _ _ _ _ _ F')); [by rewrite Ho|done].
    + destruct (decide (n = nr)) as [->|Hne].
      * rewrite <-Hcore. by apply (inode_of_at _ _ _ _ e x' (fi_table _ _ _ _ _ _ F')).
      * rewrite inode_of_none; [apply Hdd|]. intros j y. destruct (decide (j = e)) as [->|Hj].
        -- rewrite Ee'. intros [= <-] [_ N]. by apply Hne.
        -- rewrite Ho by done. apply Hnn.
  - intros j n Hj (y & Ej & Dj & Nj). exists y. rewrite Ho; [done|]. by intros ->.
Qed.

Lemma iget_from_run ps qs w e nr :
  fs_inv ps (e :: qs) w -> itable w !! e = Some (used_inode 1) -> e ∉ qs -> in_fs sb nr ->
  (length qs < NR_INODE)%nat ->
  forall n k fuel, (k + n = NR_INODE)%nat -> (n + NR_SUPER <= fuel)%nat ->
  (forall j y, (j < k)%nat -> itable w !! j = Some y -> ~ is_inode dev nr y) ->
  exists i w', iget_from fuel dev nr e k w = Ret (Some i) w' /\ fs_inv ps (i :: qs) w' /\
    calm ps qs w w' /\ ref w' i nr.
Proof.
  intros F Ee Heq Hnr Hl. pose proof (fi_table _ _ _ _ _ _ F) as T.
  pose proof (hs_dev_range _ _ _ _ (mo_super _ _ _ _ _ (fi_mounted _ _ _ _ _ _ F))) as Hdr.
  induction n as [|n IH]; intros k fuel Hk Hf Hno.
  - assert (k = NR_INODE) as -> by lia.
    assert (Hu : u16 dev = dev /\ u16 nr = nr).
    { pose proof (io_n _ _ _ (fi_inodes _ _ _ _ _ _ F)). unfold in_fs in Hnr.
      split; apply u16_small; lia. }
    destruct (iget_miss fuel ps qs w e nr ltac:(unfold enough; lia) F Ee Hnr) as (w' & Er & F' & C' & R'); [|done|].
    { intros j y Ej. apply (Hno j y); [|done]. rewrite <-(tb_len _ _ _ _ T). by eapply lookup_lt_Some. }
    exists e, w'. split_and!; try done.
    assert (Eg : iget_from fuel dev nr e NR_INODE w = (set_ino e (fun x => x <| i_dev := u16 dev |>) ;;
      set_ino e (fun x => x <| i_num := u16 nr |>) ;; read_inode fuel e ;; ret (Some e)) w)
      by (by destruct fuel). 
    rewrite Eg, (set_ino_bind _ _ _ _ _ Ee).
    rewrite (set_ino_bind _ _ _ _ _ (assigned_lookup _ _ _ _ Ee)), assigned_twice.
    rewrite (proj1 Hu), (proj2 Hu). by rewrite (bind_ret _ _ _ _ _ Er).
  - destruct fuel as [|fuel]; [lia|]. cbn [iget_from].
    destruct (Nat.leb_spec NR_INODE k); [lia|].
    destruct (lookup_lt_is_Some_2 (itable w) k) as [y Ey]; [by rewrite (tb_len _ _ _ _ T)|].
    rewrite (ino_bind _ _ _ _ _ Ey). cbn [id].
    destruct (negb (i_dev y =? dev) || negb (i_num y =? nr)) eqn:Eb.
    + apply IH; [lia|lia|]. intros j z Hj Ej. destruct (decide (j = k)) as [->|]; [|apply (Hno j z); [lia|done]].
      assert (z = y) as -> by congruence. unfold is_inode. intros [D N].
      by rewrite D, N, !Z.eqb_refl in Eb.
    + apply orb_false_iff in Eb as [Eb1 Eb2]. zb.
      pose proof (tb_entry _ _ _ _ T k y Ey) as [N1 N2 N3 N4 N5 N6 N7 N8 N9 N10].
      rewrite (bind_ret _ _ _ _ _ (wait_inode_unlocked _ _ _ _ Ey N1)).
      rewrite (ino_bind _ _ _ _ _ Ey). cbn [id]. rewrite Eb1, Eb2, !Z.eqb_refl. cbn [negb orb].
      rewrite (set_ino_bind _ _ _ _ _ Ey).
      rewrite (ino_bind _ _ _ _ _ (assigned_lookup _ _ _ _ Ey)).
      cbn [upd i_mount]. rewrite N4. cbn [truth Z.eqb negb].
      destruct (iget_hit (S fuel) ps qs w e k y ltac:(lia) Hl F Ee Ey Eb1) as (w' & Ep & F' & C' & R').
      exists k, w'. rewrite Eb2 in R'. split_and!; try done. by rewrite (bind_ret _ _ _ _ _ Ep).
Qed.

Lemma iget_ok fuel ps qs w nr :
  (NR_INODE + NR_SUPER <= fuel)%nat -> fs_inv ps qs w -> in_fs sb nr -> (length qs < NR_INODE)%nat ->
  exists i w', iget fuel dev nr w = Ret (Some i) w' /\ fs_inv ps (i :: qs) w' /\
    calm ps qs w w' /\ ref w' i nr.
Proof.
  intros Hf F Hnr Hl. unfold NR_INODE, NR_SUPER in Hf.
  pose proof (hs_dev_range _ _ _ _ (mo_super _ _ _ _ _ (fi_mounted _ _ _ _ _ _ F))) as Hdr.
  destruct (get_empty_ok dev s sb fuel ltac:(unfold enough, NR_SUPER; lia) ps qs w F Hl)
    as (e & w1 & Ee & F1 & C1 & Hq & Et & _).
  destruct (iget_from_run ps qs w1 e nr F1 Et Hq Hnr Hl NR_INODE 0 fuel) as (i & w' & Ei & F' & C' & R');
    [done|unfold NR_INODE, NR_SUPER; lia|intros; lia|].
  exists i, w'. split_and!; [|done|by eapply calm_trans|done].
  unfold iget. destruct (Z.eqb_spec dev 0); [lia|]. by rewrite (bind_ret _ _ _ _ _ Ee).
Qed.
End iget.

(** ** The small file system *)

Definition refs0 : list nat := [0; 0; 0; 1]%nat.

Lemma inodes_ok0 : inodes_ok dev0 super0 world0.
Proof.
  split.
  - split; [vm_compute; discriminate|vm_compute; reflexivity].
  - vm_compute. reflexivity.
  - vm_compute. reflexivity.
  - intros b Hb. change (4 <= b < 5) in Hb. assert (b = 4) as -> by lia.
    apply is_bytes_ok. vm_compute. reflexivity.
Qed.
Lemma table0_lookup i x : itable world0 !! i = Some x ->
  i = 0%nat /\ x = root0 \/ i = 1%nat /\ x = file0 \/ (2 <= i)%nat /\ x = zero_inode.
Proof.
  change (itable world0) with (root0 :: file0 :: replicate 30 zero_inode).
  destruct i as [|[|i]]; [intros [= <-]; auto|intros [= <-]; auto|].
  intros H. right. right. split; [lia|]. change (replicate 30 zero_inode !! i = Some x) in H.
  by apply lookup_replicate in H as [-> _].
Qed.
Lemma entry0 n x :
  i_lock x = 0 -> i_wait x = None -> i_pipe x = 0 -> i_mount x = 0 -> i_dirt x = 0 -> in_width x ->
  i_count x = uses n refs0 -> i_dev x = 0 \/ i_dev x = dev0 /\ in_fs super0 (i_num x) ->
  (i_dev x = dev0 -> core x = disk_inode dev0 super0 world0 (i_num x)) ->
  entry_ok dev0 super0 refs0 world0 n x.
Proof. intros. by split. Qed.
Lemma small_width x : i_zone x = i_zone x -> forallb (fun p => (0 <=? fst p) && (fst p <? snd p))
    ([(i_mode x, 2 ^ 16); (i_uid x, 2 ^ 16); (i_size x, 2 ^ 32); (i_mtime x, 2 ^ 32);
     (i_gid x, 2 ^ 8); (i_nlinks x, 2 ^ 8)] ++ ((fun z => (z, 2 ^ 16)) <$> i_zone x)) = true ->
  length (i_zone x) = 9%nat -> in_width x.
Proof.
  intros _ H Hl. rewrite forallb_app in H. apply andb_true_iff in H as [H1 H2].
  cbn [forallb fst snd] in H1. repeat (apply andb_true_iff in H1 as [? H1]).
  repeat match goal with H : (_ && _)%bool = true |- _ => apply andb_true_iff in H as [? ?] end.
  zb. split_and!; try lia. apply Forall_forall. intros z Hz.
  eapply forallb_forall in H2; [|apply list_elem_of_In, list_elem_of_fmap; by exists z].
  cbn [fst snd] in H2. zb. lia.
Qed.
Lemma table_ok0 : table_ok dev0 super0 refs0 world0.
Proof.
  split.
  - reflexivity.
  - apply Nat.ltb_lt. reflexivity.
  - intros i x [(-> & ->)|[(-> & ->)|(Hi & ->)]]%table0_lookup; apply entry0; try reflexivity.
    + by apply small_width.
    + right. split; [reflexivity|]. split; discriminate.
    + by apply small_width.
    + right. split; [reflexivity|]. split; discriminate.
    + by apply small_width.
    + change (i_count zero_inode) with 0. symmetry. apply uses_zero. unfold refs0. set_unfold. lia.
    + by left.
  - intros i j x y [(-> & ->)|[(-> & ->)|(Hi & ->)]]%table0_lookup
      [(-> & ->)|[(-> & ->)|(Hj & ->)]]%table0_lookup; try discriminate; done.
  - intros i Hi. unfold refs0 in Hi. unfold NR_INODE. set_unfold. lia.
  - reflexivity.
Qed.
Lemma fs_inv0 : fs_inv dev0 0 super0 held0 refs0 world0.
Proof.
  split; [apply world0_warm|apply Nat.ltb_lt; reflexivity|apply mounted0|apply inodes_ok0|apply table_ok0].
Qed.

(** C37.  iget() and iput(): the inodes in memory are a cache of those of the
    disk.  For every inode number of a mounted device, with an entry to spare,
    iget() returns a reference to that inode, whether it was in the table or
    had to be read into a free entry, and the invariant of the table
    (references counted, each inode in memory once, clean entries equal to the
    disk) holds with one more reference; no inode changes and every older
    reference is still to the same one.

    iput() of any reference to an inode of the device that has links, clean or
    dirty, gives the reference back under the same invariant, and again no
    inode changes for those who look through the table.  While there are other
    references only the count of the entry changes, and nothing on the disk.
    The last one leaves the entry clean with the inode, as it was in memory,
    on the disk, and no other inode and no other block of the disk has changed;
    a clean inode is not written. *)
Theorem iget_spec {W} `{!Env W, !Wired W, !BlockIO W} fuel dev s sb ps (w : W) :
  (NR_INODE + NR_SUPER <= fuel)%nat ->
  (forall qs nr, fs_inv dev s sb ps qs w -> in_fs sb nr -> (length qs < NR_INODE)%nat ->
   exists i w', iget fuel dev nr w = Ret (Some i) w' /\ fs_inv dev s sb ps (i :: qs) w' /\
     calm dev sb ps qs w w' /\
     exists x, itable w' !! i = Some x /\ i_dev x = dev /\ i_num x = nr /\
       core x = inode_of dev sb w nr) /\
  (forall qs i x, fs_inv dev s sb ps (i :: qs) w -> itable w !! i = Some x -> i_dev x = dev ->
   i_nlinks x <> 0 ->
   exists w', iput fuel (Some i) w = Ret tt w' /\ fs_inv dev s sb ps qs w' /\
     calm dev sb ps qs w w' /\
     if i_count x =? 1 then
       itable w' = <[i := x <| i_count := 0 |> <| i_dirt := 0 |>]> (itable w) /\
       disk_inode dev sb w' (i_num x) = core x /\
       (forall nr, in_fs sb nr -> nr <> i_num x -> disk_inode dev sb w' nr = disk_inode dev sb w nr) /\
       (forall d b, d <> dev \/ b <> inode_block sb (i_num x) \/ i_dirt x = 0 ->
          data w' d b = data w d b)
     else
       itable w' = <[i := x <| i_count := i_count x - 1 |>]> (itable w) /\
       (forall d b, data w' d b = data w d b)).
Proof.
  intros Hf. split.
  - intros qs nr F Hnr Hl.
    destruct (iget_ok dev s sb fuel ps qs w nr Hf F Hnr Hl) as (i & w' & E & F' & C' & x & Ex & Dx & Nx).
    exists i, w'. split_and!; [done..|]. exists x. split_and!; [done..|].
    rewrite <-(ca_inode _ _ _ _ _ _ C') by done. rewrite <-Nx. symmetry.
    by apply (inode_of_at _ _ _ _ i x (fi_table _ _ _ _ _ _ F')).
  - intros qs i x F Ex Dx Lx.
    destruct (iput_run dev s sb fuel ltac:(unfold enough, NR_INODE, NR_SUPER in *; lia) ps qs w i x F Ex)
      as (w' & E & F' & C' & Et & Hd & Hs); [by left|].
    exists w'. split_and!; [done..|].
    pose proof (en_count _ _ _ _ _ _ (tb_entry _ _ _ _ (fi_table _ _ _ _ _ _ F) i x Ex)) as Hc.
    rewrite uses_cons, decide_True in Hc by done. pose proof (uses_range i qs).
    destruct (Z.eqb_spec (i_count x) 1) as [E1|E1].
    + assert (Er : released x = x <| i_count := 0 |> <| i_dirt := 0 |>)
        by (unfold released; by rewrite E1).
      rewrite Er in Et. split_and!; [done| |apply Hd|].
      * symmetry. apply (en_clean _ _ _ _ _ _ (tb_entry _ _ _ _ (fi_table _ _ _ _ _ _ F') i _
          ltac:(rewrite Et, list_lookup_insert_eq; [reflexivity|by eapply lookup_lt_Some]))); done.
      * intros d b [Hb|[Hb|Hb]]; [apply Hd; auto..|apply Hs; auto].
    + rewrite Et, released_kept by lia. split; [done|]. apply Hs. lia.
Qed.

(** In the sample, the file has grown since it was read: it is in entry 1,
    dirty, with one reference. *)
Definition longer (x : m_inode) : m_inode := x <| i_size := 9000 |> <| i_dirt := 1 |>.
Lemma fs_inv0_dirty : fs_inv dev0 0 super0 held0 [1; 0; 0; 0]%nat (assigned longer 1 world0).
Proof.
  apply (fs_inv_perm dev0 0 super0 held0 refs0).
  { unfold refs0. apply Permutation_sym, (Permutation_middle [0; 0; 0]%nat [] 1%nat). }
  assert (E1 : itable world0 !! 1%nat = Some file0) by reflexivity.
  pose proof (fi_table _ _ _ _ _ _ fs_inv0) as T.
  pose proof (tb_entry _ _ _ _ T 1%nat file0 E1) as [N1 N2 N3 N4 N5 N6 N7 N8 N9 N10].
  eapply (fs_inv_update dev0 0 super0 held0 refs0 refs0 world0 _ 1%nat file0 (longer file0)).
  - exact fs_inv0.
  - exact E1.
  - rewrite assigned_itable. by apply lookup_alter_insert.
  - apply Nat.ltb_lt. reflexivity.
  - apply assigned_inv, world0_warm.
  - apply kept_assigned.
  - split; done.
  - done.
  - apply T.
  - apply T.
  - intros D j y Hj Ej Dj En. apply Hj. by apply (tb_uniq _ _ _ _ T j 1%nat y file0).
  - intros j y _ _ _. apply disk_inode_data, assigned_data.
Qed.

(** The inode 1 is in the table, inode 3 is not; the last reference to the
    file writes its new size to the disk. *)
Lemma iget_spec_witness :
  (exists i w', iget 40 dev0 1 world0 = Ret (Some i) w' /\
     fs_inv dev0 0 super0 held0 (i :: refs0) w') /\
  (exists i w', iget 40 dev0 3 world0 = Ret (Some i) w' /\
     fs_inv dev0 0 super0 held0 (i :: refs0) w') /\
  (exists w', iput 40 (Some 1%nat) (assigned longer 1 world0) = Ret tt w' /\
     i_size (disk_inode dev0 super0 world0 2) = 8192 /\ i_size (disk_inode dev0 super0 w' 2) = 9000).
Proof.
  assert (Hn : (NR_INODE + NR_SUPER <= 40)%nat) by (apply Nat.leb_le; reflexivity).
  assert (Hl : (length refs0 < NR_INODE)%nat) by (apply Nat.leb_le; reflexivity).
  destruct (iget_spec 40 dev0 0 super0 held0 world0 Hn) as [H _].
  split; [|split].
  - destruct (H refs0 1 fs_inv0) as (i & w' & E & F & _); [split; discriminate|exact Hl|].
    exists i, w'. split; [exact E|exact F].
  - destruct (H refs0 3 fs_inv0) as (i & w' & E & F & _); [split; discriminate|exact Hl|].
    exists i, w'. split; [exact E|exact F].
  - destruct (iget_spec 40 dev0 0 super0 held0 (assigned longer 1 world0) Hn) as [_ H'].
    destruct (H' [0; 0; 0]%nat 1%nat (longer file0) fs_inv0_dirty) as (w' & E & _ & _ & _ & Hd & _);
      [reflexivity|reflexivity|discriminate|].
    exists w'. split; [exact E|]. split; [vm_compute; reflexivity|].
    change (i_num (longer file0)) with 2 in Hd. rewrite Hd. reflexivity.
Defined.
