(* ===== verification/Bmap.v ===== *)
(** * The blocks of a file: _bmap() of fs/inode.c

    [file_block] is the map from the blocks of a file to those of the device
    that the zones of an inode and its indirect blocks represent.  bmap()
    reads it, create_block() extends it by new zones.  The definitions are
    those of Inode.v. *)

From S2P Require Import Prelude Task Sched WaitQ Buffer Blk Fs Blocks Super Mini Bitmap Inode.

#[local] Ltac Zify.zify_post_hook ::= Z.div_mod_to_equations.

Section blocks.
Context {W : Type} `{!Env W} `{!Wired W} `{!BlockIO W}.
Context (dev : Z) (s : nat) (sb : super_block) (fuel : nat) (Hfuel : enough fuel).

(** Entry [k] of the indirect block [b]; no block, no entries. *)
Definition ientry (w : W) (b k : Z) : Z :=
  if b =? 0 then 0 else
  match data w dev b with Bytes l => le16 l (Z.to_nat (2 * k)) | _ => 0 end.
Definition zone_at (x : m_inode) (k : Z) : Z := default 0 (zget (i_zone x) k).
Definition file_block (w : W) (x : m_inode) (block : Z) : Z :=
  if block <? 7 then zone_at x block
  else if block - 7 <? 512 then ientry w (zone_at x 7) (block - 7)
  else ientry w (ientry w (zone_at x 8) ((block - 519) / 512)) ((block - 519) mod 512).

(** The index blocks of the file can be read. *)
Definition readable (w : W) (b : Z) : Prop := b <> 0 -> exists l, data w dev b = Bytes l.
Definition index_ok (w : W) (x : m_inode) : Prop :=
  readable w (zone_at x 7) /\ readable w (zone_at x 8) /\
  forall k, 0 <= k < 512 -> readable w (ientry w (zone_at x 8) k).

Definition max_block : Z := 7 + 512 + 512 * 512.

Lemma zone_of_run k i w x :
  itable w !! i = Some x -> in_width x -> 0 <= k < 9 -> zone_of k i w = Ret (zone_at x k) w.
Proof.
  intros E (_ & _ & _ & _ & _ & _ & Hz & _) Hk. unfold zone_of. rewrite (ino_bind _ _ _ _ _ E).
  destruct (zget_is_Some (i_zone x) k) as [z Ez]; [lia|]. unfold zone_at. by rewrite Ez.
Qed.
Lemma grow_zone_no k i w x :
  itable w !! i = Some x -> in_width x -> 0 <= k < 9 -> grow_zone fuel false k i w = Ret tt w.
Proof.
  intros E Hx Hk. unfold grow_zone.
  by rewrite (bind_ret _ _ _ _ _ (zone_of_run _ _ _ _ E Hx Hk)).
Qed.

(** Reading an entry of an indirect block. *)
Lemma indirect_read ps w b k :
  inv ps w -> (length ps < room)%nat -> b <> 0 -> readable w b -> 0 <= k < 512 ->
  exists w', indirect fuel false dev b k w = Ret (ientry w b k) w' /\ inv ps w' /\ stable ps w w' /\
    forall d y, data w' d y = data w d y.
Proof.
  intros Hi Hr Hb Hrd Hk. destruct (Hrd Hb) as [l El].
  destruct (bread_ok _ _ _ _ _ Hi El Hr) as (bh & w1 & E1 & Hp).
  destruct (pinned_holding _ _ _ _ _ _ Hp) as [y Hy]. pose proof Hp as (Hi1 & Hd1 & S1 & _).
  destruct (brelse_ok _ _ _ Hi1) as (w' & E2 & Hi' & Hd' & S').
  destruct (holding_bytes _ _ _ _ _ _ _ Hy ltac:(by rewrite Hd1)) as [Ely _].
  exists w'. split_and!; [|done|by eapply stable_trans|by intros; rewrite Hd', Hd1].
  unfold indirect, ientry. rewrite (bind_ret _ _ _ _ _ E1), (buf_bind _ _ _ _ _ (ho_at _ _ _ _ _ _ Hy)).
  rewrite Ely, El. cbn [andb]. destruct (Z.eqb_spec b 0); [done|].
  by rewrite bind_ret_l, (bind_ret _ _ _ _ _ E2).
Qed.

Lemma stable_itable ps w w' : stable ps w w' -> itable w' = itable w.
Proof. intros [F _ _]. unfold itable. by rewrite F. Qed.

(** bmap() is [file_block]. *)
Lemma bmap_run ps w i x block :
  inv ps w -> (length ps < room)%nat -> itable w !! i = Some x -> in_width x -> i_dev x = dev ->
  index_ok w x -> 0 <= block < max_block ->
  exists w', bmap fuel i block w = Ret (file_block w x block) w' /\ inv ps w' /\ stable ps w w' /\
    forall d y, data w' d y = data w d y.
Proof.
  intros Hi Hr E Hx Hdev (I7 & I8 & I9) Hb. unfold max_block in Hb. unfold bmap, _bmap, file_block.
  destruct (Z.ltb_spec block 0); [lia|]. destruct (Z.leb_spec (7 + 512 + 512 * 512) block); [lia|].
  destruct (Z.ltb_spec block 7).
  { exists w. split_and!; [|done|apply stable_refl|done].
    rewrite (bind_ret _ _ _ _ _ (grow_zone_no block _ _ _ E Hx ltac:(lia))).
    by apply zone_of_run; [| |lia]. }
  destruct (Z.ltb_spec (block - 7) 512).
  { rewrite (bind_ret _ _ _ _ _ (grow_zone_no 7 _ _ _ E Hx ltac:(lia))).
    rewrite (bind_ret _ _ _ _ _ (zone_of_run 7 _ _ _ E Hx ltac:(lia))).
    destruct (Z.eqb_spec (zone_at x 7) 0) as [Hz|Hz].
    { exists w. unfold ientry. rewrite Hz. by split_and!. }
    rewrite (ino_bind _ _ _ _ _ E), Hdev. apply indirect_read; (done || lia). }
  replace (block - 7 - 512) with (block - 519) by lia.
  rewrite (bind_ret _ _ _ _ _ (grow_zone_no 8 _ _ _ E Hx ltac:(lia))).
  rewrite (bind_ret _ _ _ _ _ (zone_of_run 8 _ _ _ E Hx ltac:(lia))).
  change 511 with (Z.ones 9). rewrite Z.land_ones, Z.shiftr_div_pow2 by lia. change (2 ^ 9) with 512.
  assert (Hk : 0 <= (block - 519) / 512 < 512) by lia.
  destruct (Z.eqb_spec (zone_at x 8) 0) as [Hz|Hz].
  { exists w. unfold ientry. rewrite Hz. by split_and!. }
  rewrite (ino_bind _ _ _ _ _ E), Hdev.
  destruct (indirect_read ps w (zone_at x 8) ((block - 519) / 512)) as (w1 & E1 & Hi1 & S1 & Hd1);
    [done..|].
  rewrite (bind_ret _ _ _ _ _ E1).
  set (b := ientry w (zone_at x 8) ((block - 519) / 512)) in *.
  destruct (Z.eqb_spec b 0) as [Hb0|Hb0].
  { exists w1. unfold ientry. rewrite Hb0. by split_and!. }
  destruct (indirect_read ps w1 b ((block - 519) mod 512)) as (w2 & E2 & Hi2 & S2 & Hd2);
    [done|done|done| |lia|].
  { intros _. destruct (I9 _ Hk Hb0) as [l El]. exists l. by rewrite Hd1. }
  exists w2. split_and!; [|done|by eapply stable_trans|by intros; rewrite Hd2, Hd1].
  rewrite E2. unfold ientry. by rewrite Hd1.
Qed.

(** ** Allocation *)

Definition bit_of (z : Z) : Z := z - (s_firstdatazone sb - 1).
Definition in_zone (z : Z) : Prop := s_firstdatazone sb <= z < s_nzones sb.
Definition in_use (w : W) (z : Z) : Prop := in_zone z /\ zused dev sb w (bit_of z) = true.

(** Every zone has a bit, the first bit is reserved, and the free zones are
    in the cache. *)
Record alloc_ok (ps : list nat) (w : W) : Prop := {
  al_bits : s_nzones sb - s_firstdatazone sb < 8192 * s_zmap_blocks sb;
  al_first : zused dev sb w 0 = true;
  al_free : forall z, in_zone z -> zused dev sb w (bit_of z) = false ->
    data w dev z <> Absent /\ unheld ps w dev z
}.
(** Blocks that are not zone bits. *)
Definition no_zbits (d b : Z) : Prop :=
  d = dev -> b < zmap_base sb \/ zmap_base sb + s_zmap_blocks sb <= b.

(** What new_block() does to the rest: [z] is its result. *)
Record allocated (ps : list nat) (w w' : W) (z : Z) : Prop := {
  ad_inv : inv ps w';
  ad_mounted : mounted ps w' dev s sb;
  ad_stable : stable ps w w';
  ad_alloc : alloc_ok ps w';
  ad_none : z = 0 -> (forall y, in_zone y -> zused dev sb w (bit_of y) = true) /\
    forall d b, no_zbits d b -> data w' d b = data w d b;
  ad_some : z <> 0 -> in_zone z /\ zused dev sb w (bit_of z) = false /\
    data w' dev z = Bytes zeros /\
    forall d b, no_zbits d b -> (d = dev -> b <> z) -> data w' d b = data w d b;
  ad_used : forall y, in_use w y -> in_use w' y;
  ad_new : z <> 0 -> in_use w' z
}.

Lemma zone_bounds ps w : mounted ps w dev s sb ->
  2 < s_firstdatazone sb /\ zmap_base sb + s_zmap_blocks sb <= s_firstdatazone sb /\
  0 <= zmap_base sb /\ 0 < s_zmap_blocks sb /\ s_nzones sb < 2 ^ 16.
Proof.
  intros Hm. pose proof (mo_zones _ _ _ _ _ Hm). pose proof (mo_nzones _ _ _ _ _ Hm).
  pose proof (mp_n _ _ _ _ _ _ (mo_imap _ _ _ _ _ Hm)). pose proof (mp_n _ _ _ _ _ _ (mo_zmap _ _ _ _ _ Hm)).
  unfold zmap_base in *. lia.
Qed.

(** The first bit of a bitmap that is 0, if there is one. *)
Lemma first_free (P : Z -> bool) n : 0 <= n ->
  (forall j, 0 <= j < n -> P j = true) \/
  exists j, 0 <= j < n /\ P j = false /\ forall k, 0 <= k < j -> P k = true.
Proof.
  intros Hn. revert n Hn. apply natlike_ind.
  - left. lia.
  - intros n Hn [Hall|(j & Hj & Hf & Hlow)]; [|right; exists j; split_and!; (done || lia)].
    destruct (P n) eqn:E.
    + left. intros j Hj. destruct (decide (j = n)) as [->|]; [done|]. apply Hall. lia.
    + right. exists n. split_and!; [lia|lia|done|]. intros k Hk. apply Hall. lia.
Qed.

Lemma new_block_outcome ps w :
  inv ps w -> (length ps < room)%nat -> mounted ps w dev s sb -> alloc_ok ps w ->
  exists z w', new_block fuel dev w = Ret z w' /\ allocated ps w w' z.
Proof.
  intros Hi Hr Hm Ha. destruct (zone_bounds _ _ Hm) as (B1 & B2 & B3 & B4 & B5).
  destruct (new_block_run ps w dev s sb fuel Hi Hm Hfuel Hr) as [Hfull Hone].
  pose proof (al_bits _ _ Ha) as Hbits.
  destruct (first_free (zused dev sb w) (8192 * s_zmap_blocks sb)) as [Hall|(j & Hj & Hf & Hlow)]; [lia| |].
  - exists 0, w. split; [by apply Hfull|]. split; try done.
    + intros _. split; [|done]. intros y Hy. apply Hall. unfold in_zone, bit_of in *. lia.
  - destruct (Hone j Hj Hf Hlow) as (w1 & Hi1 & S1 & Hb & Hend & Hin).
    assert (Hused1 : forall k, zused dev sb w1 k = if k =? j then true else zused dev sb w k).
    { intros k. unfold zused. apply (bit_written_map _ _ _ _ _ _ _ Hb). }
    assert (Hj0 : 0 < j).
    { destruct (decide (j = 0)) as [->|]; [|lia]. by rewrite (al_first _ _ Ha) in Hf. }
    assert (Hd1 : forall d b, no_zbits d b -> data w1 d b = data w d b).
    { intros d b Hnb. destruct Hb as (l & _ & _ & Hd). rewrite Hd. unfold upd2.
      rewrite decide_False; [done|]. intros [-> ->]. specialize (Hnb eq_refl). lia. }
    assert (Hm1 : mounted ps w1 dev s sb) by (by eapply bit_written_mounted).
    destruct (decide (zone sb j < s_nzones sb)) as [Hz|Hz].
    + assert (Hz' : in_zone (zone sb j)) by (unfold in_zone, zone in *; lia).
      assert (Eb : bit_of (zone sb j) = j) by (unfold bit_of, zone; lia).
      destruct (al_free _ _ Ha (zone sb j) Hz') as [Hab Hun]; [by rewrite Eb|].
      destruct (Hin Hz Hab Hun) as (w' & E & Hi' & S' & Hm' & Hd').
      assert (Hu' : forall k, 0 <= k < 8192 * s_zmap_blocks sb ->
        zused dev sb w' k = if k =? j then true else zused dev sb w k).
      { intros k Hk. rewrite <-Hused1. unfold zused, map_bit. rewrite Hd'. unfold upd2.
        rewrite decide_False; [done|]. unfold in_zone in Hz'. intros [_ Hkk]. lia. }
      exists (zone sb j), w'. split; [done|]. split; try done.
      * split; [done|rewrite Hu' by lia; destruct (Z.eqb_spec 0 j); [done|apply Ha]|].
        intros z Hzz. unfold in_zone, bit_of in Hzz |- *. rewrite Hu' by lia.
        destruct (Z.eqb_spec (z - (s_firstdatazone sb - 1)) j) as [|Hne]; [done|]. intros Hfz.
        destruct (al_free _ _ Ha z Hzz Hfz) as [Hab' Hun']. split; [|by eapply unheld_stable].
        rewrite Hd'. unfold upd2. rewrite decide_False by (unfold zone; lia).
        rewrite Hd1; [done|]. intros _. right. lia.
      * intros Hz0. unfold in_zone in Hz'. lia.
      * intros _. split_and!; [done|by rewrite Eb| |].
        -- rewrite Hd'. unfold upd2. by rewrite decide_True.
        -- intros d b Hnb Hne. rewrite Hd'. unfold upd2. rewrite decide_False; [by apply Hd1|].
           intros [-> ->]. by apply Hne.
      * intros y [Hy Huy]. split; [done|]. unfold in_zone, bit_of in *. rewrite Hu' by lia.
        by destruct (Z.eqb_spec (y - (s_firstdatazone sb - 1)) j).
      * intros _. split; [done|]. rewrite Eb, Hu' by lia. by rewrite Z.eqb_refl.
    + exists 0, w1. split; [apply Hend; lia|]. split; try done.
      * split; [done|rewrite Hused1; destruct (Z.eqb_spec 0 j); [done|apply Ha]|].
        intros z Hzz. rewrite Hused1. unfold in_zone, bit_of, zone in *.
        destruct (Z.eqb_spec (z - (s_firstdatazone sb - 1)) j); [done|]. intros Hfz.
        destruct (al_free _ _ Ha z Hzz Hfz) as [Hab' Hun']. split; [|by eapply unheld_stable].
        rewrite Hd1; [done|]. intros _. right. lia.
      * intros _. split; [|done]. intros y Hy. apply Hlow. unfold in_zone, bit_of, zone in *. lia.
      * intros y [Hy Huy]. split; [done|]. rewrite Hused1.
        by destruct (Z.eqb_spec (bit_of y) j).
Qed.

(** ** create_block() *)

(** The index blocks of a file are zones in use, all different. *)
Definition is_index (w : W) (x : m_inode) (b : Z) : Prop :=
  b <> 0 /\ (b = zone_at x 7 \/ b = zone_at x 8 \/ exists k, 0 <= k < 512 /\ b = ientry w (zone_at x 8) k).
Record file_ok (w : W) (x : m_inode) : Prop := {
  fo_width : in_width x;
  fo_dev : i_dev x = dev;
  fo_index : forall b, is_index w x b -> in_use w b /\ exists l, data w dev b = Bytes l;
  fo_78 : zone_at x 7 <> 0 -> zone_at x 7 <> zone_at x 8;
  fo_sub : forall k, 0 <= k < 512 -> ientry w (zone_at x 8) k <> 0 ->
    ientry w (zone_at x 8) k <> zone_at x 7 /\ ientry w (zone_at x 8) k <> zone_at x 8;
  fo_inj : forall k k', 0 <= k < 512 -> 0 <= k' < 512 -> ientry w (zone_at x 8) k <> 0 ->
    ientry w (zone_at x 8) k = ientry w (zone_at x 8) k' -> k = k'
}.
Lemma file_index_ok w x : file_ok w x -> index_ok w x.
Proof.
  intros F. split_and!; [intros H; apply (fo_index _ _ F); split; auto..|].
  intros k Hk H. apply (fo_index _ _ F). split; eauto 10.
Qed.

Lemma zone_set x k z j :
  in_width x -> 0 <= k < 9 -> zone_at (x <| i_zone ::= zset k z |>) j = if j =? k then z else zone_at x j.
Proof.
  intros (_ & _ & _ & _ & _ & _ & Hz & _) Hk. unfold zone_at. cbn [upd i_zone].
  destruct (Z.eqb_spec j k) as [->|]; [by rewrite zget_zset_eq by lia|by rewrite zget_zset_ne].
Qed.
Lemma zone_range x k : in_width x -> 0 <= zone_at x k < 2 ^ 16.
Proof.
  intros (_ & _ & _ & _ & _ & _ & _ & Hz). unfold zone_at, zget. case (k <? 0); [cbn; lia|].
  destruct (i_zone x !! Z.to_nat k) as [v|] eqn:E; cbn; [|lia].
  by apply (proj1 (Forall_lookup _ _) Hz _ _ E).
Qed.

(** The entries of blocks that stay the same. *)
Lemma ientry_data w w' b k : data w' dev b = data w dev b -> ientry w' b k = ientry w b k.
Proof. unfold ientry. by intros ->. Qed.
Lemma allocated_entry ps w w' z b k :
  allocated ps w w' z -> mounted ps w dev s sb -> in_use w b -> ientry w' b k = ientry w b k.
Proof.
  intros A Hm [Hb Hu]. apply ientry_data. destruct (zone_bounds _ _ Hm) as (B1 & B2 & B3 & _).
  assert (Hn : no_zbits dev b) by (intros _; unfold in_zone in Hb; lia).
  destruct (decide (z = 0)) as [Hz|Hz].
  - by apply (ad_none _ _ _ _ A Hz).
  - destruct (ad_some _ _ _ _ A Hz) as (_ & Hf & _ & Hd). apply Hd; [done|]. intros _ ->. congruence.
Qed.
Lemma fresh_entry ps w w' z k : allocated ps w w' z -> z <> 0 -> ientry w' z k = 0.
Proof.
  intros A Hz. destruct (ad_some _ _ _ _ A Hz) as (_ & _ & Hd & _). unfold ientry.
  rewrite Hd. destruct (z =? 0); [done|]. rewrite le16_lookup. unfold zeros.
  destruct (replicate _ 0 !! Z.to_nat (2 * k)) as [a|] eqn:Ea; [|done].
  destruct (replicate _ 0 !! (Z.to_nat (2 * k) + 1)%nat) as [b|] eqn:Eb; [|done].
  apply lookup_replicate in Ea as [-> _]. apply lookup_replicate in Eb as [-> _]. done.
Qed.

(** A new zone [z] for slot [k] of the inode, where there was none. *)
Lemma zone_grown ps w w1 w' x k z :
  file_ok w x -> mounted ps w dev s sb -> allocated ps w w1 z -> z <> 0 -> 0 <= k < 9 ->
  zone_at x k = 0 -> (forall d b, data w' d b = data w1 d b) ->
  let x' := x <| i_zone ::= zset k z |> <| i_dirt := 1 |> <| i_ctime := CURRENT_TIME |> in
  file_ok w' x' /\ (forall j, zone_at x' j = if j =? k then z else zone_at x j) /\
  forall block, 0 <= block < max_block ->
    file_block w' x' block = if block =? k then if k <? 7 then z else file_block w x block
                             else file_block w x block.
Proof.
  intros F Hm A Hz Hk Hzk Hd x'. pose proof (fo_width _ _ F) as Hw.
  destruct (zone_bounds _ _ Hm) as (B1 & B2 & B3 & B4 & B5).
  destruct (ad_some _ _ _ _ A Hz) as (Hzr & Hfree & Hzd & Hdat).
  assert (Hze : forall j, zone_at x' j = if j =? k then z else zone_at x j).
  { intros j. exact (zone_set x k z j Hw Hk). }
  assert (He : forall b j, b = 0 \/ in_use w b -> ientry w' b j = ientry w b j).
  { intros b j [->|Hb]; [done|]. rewrite <-(allocated_entry _ _ _ _ b j A Hm Hb).
    by apply ientry_data. }
  assert (Hez : forall j, ientry w' z j = 0).
  { intros j. rewrite <-(fresh_entry _ _ _ _ j A Hz). by apply ientry_data. }
  assert (Hidx : forall b, b <> 0 -> is_index w x b -> in_use w b) by (intros b _ H; by apply (fo_index _ _ F)).
  assert (Hnz : forall b, is_index w x b -> b <> z).
  { intros b H ->. destruct (fo_index _ _ F _ H) as [[_ Hu] _]. congruence. }
  assert (H7 : zone_at x 7 = 0 \/ in_use w (zone_at x 7)).
  { destruct (decide (zone_at x 7 = 0)); [by left|right]. apply Hidx; [done|]. split; auto. }
  assert (H8 : zone_at x 8 = 0 \/ in_use w (zone_at x 8)).
  { destruct (decide (zone_at x 8 = 0)); [by left|right]. apply Hidx; [done|]. split; auto. }
  assert (H9 : forall j, 0 <= j < 512 -> ientry w (zone_at x 8) j = 0 \/ in_use w (ientry w (zone_at x 8) j)).
  { intros j Hj. destruct (decide (ientry w (zone_at x 8) j = 0)); [by left|right]. apply Hidx; [done|].
    split; eauto 10. }
  (* the second level is the same, empty if it is new *)
  assert (Hsub : forall j, 0 <= j < 512 -> ientry w' (zone_at x' 8) j = ientry w (zone_at x 8) j).
  { intros j Hj. rewrite Hze. destruct (Z.eqb_spec 8 k) as [<-|]; [|by apply He].
    rewrite Hez, Hzk. done. }
  assert (Hi' : forall b, is_index w' x' b -> is_index w x b \/ b = z).
  { intros b [Hb0 [Hb|[Hb|(j & Hj & Hb)]]].
    - rewrite Hze in Hb. destruct (Z.eqb_spec 7 k); [by right|left]. split; auto.
    - rewrite Hze in Hb. destruct (Z.eqb_spec 8 k); [by right|left]. split; auto.
    - rewrite Hsub in Hb by done. left. split; eauto 10. }
  split_and!; [|done|].
  - split.
    + destruct Hw as (W1 & W2 & W3 & W4 & W5 & W6 & W7 & W8). unfold in_width, x'. cbn [upd i_mode i_uid i_size i_mtime i_gid i_nlinks i_zone].
      split_and!; try apply W1; try apply W2; try apply W3; try apply W4; try apply W5; try apply W6;
        [by rewrite length_zset|]. unfold zset. case (k <? 0); [done|].
      apply Forall_insert; [done|]. unfold in_zone in Hzr. lia.
    + exact (fo_dev _ _ F).
    + intros b Hb. destruct (Hi' b Hb) as [Hb'| ->].
      * destruct (fo_index _ _ F b Hb') as [Hu [l El]]. split.
        -- destruct (ad_used _ _ _ _ A b Hu) as [Hbz Hbu]. split; [done|].
           rewrite <-Hbu. unfold zused, map_bit. by rewrite Hd.
        -- exists l. rewrite Hd, Hdat, El; [done|intros _; destruct Hu as [Hu _]; unfold in_zone in Hu; lia|].
           intros _. by apply Hnz.
      * split; [|exists zeros; by rewrite Hd].
        destruct (ad_new _ _ _ _ A Hz) as [Hbz Hbu]. split; [done|].
        rewrite <-Hbu. unfold zused, map_bit. by rewrite Hd.
    + rewrite !Hze. destruct (Z.eqb_spec 7 k), (Z.eqb_spec 8 k); try lia.
      * intros _ E. apply (Hnz z); [|done]. split; auto.
      * intros H0 E. apply (Hnz z); [|done]. split; auto.
      * apply (fo_78 _ _ F).
    + intros j Hj. rewrite Hsub by done. intros H0. destruct (fo_sub _ _ F j Hj H0) as [N7 N8].
      assert (Hjz : ientry w (zone_at x 8) j <> z) by (apply Hnz; split; eauto 10).
      rewrite !Hze. by destruct (Z.eqb_spec 7 k), (Z.eqb_spec 8 k).
    + intros j j' Hj Hj'. rewrite !Hsub by done. by apply (fo_inj _ _ F).
  - intros block Hb. unfold file_block at 1.
    destruct (Z.ltb_spec block 7).
    { rewrite Hze. unfold file_block. destruct (Z.ltb_spec block 7); [|lia].
      destruct (Z.eqb_spec block k) as [->|]; [|done]. destruct (Z.ltb_spec k 7); [done|lia]. }
    assert (Hrest : (if block - 7 <? 512 then ientry w' (zone_at x' 7) (block - 7)
      else ientry w' (ientry w' (zone_at x' 8) ((block - 519) / 512)) ((block - 519) mod 512)) =
      file_block w x block).
    { unfold file_block. destruct (Z.ltb_spec block 7); [lia|]. unfold max_block in Hb.
      destruct (Z.ltb_spec (block - 7) 512).
      - rewrite Hze. destruct (Z.eqb_spec 7 k) as [<-|]; [|by apply He]. by rewrite Hez, Hzk.
      - rewrite Hsub by lia. apply He, H9. lia. }
    rewrite Hrest. destruct (Z.eqb_spec block k) as [->|]; [|done]. destruct (Z.ltb_spec k 7); [lia|done].
Qed.

(** The file stays the same when its index blocks do. *)
Lemma file_same w w' x :
  file_ok w x -> (forall b, in_use w b -> data w' dev b = data w dev b) ->
  (forall b, in_use w b -> in_use w' b) ->
  file_ok w' x /\ forall block, 0 <= block < max_block -> file_block w' x block = file_block w x block.
Proof.
  intros F Hd Hu.
  assert (He : forall b k, b = 0 \/ in_use w b -> ientry w' b k = ientry w b k).
  { intros b k [->|Hb]; [done|]. by apply ientry_data, Hd. }
  assert (Hx : forall b, b = 0 \/ is_index w x b -> b = 0 \/ in_use w b).
  { intros b [Hb|Hb]; [by left|right]. by apply (fo_index _ _ F). }
  assert (H7 : zone_at x 7 = 0 \/ in_use w (zone_at x 7)).
  { apply Hx. destruct (decide (zone_at x 7 = 0)); [by left|right; split; auto]. }
  assert (H8 : zone_at x 8 = 0 \/ in_use w (zone_at x 8)).
  { apply Hx. destruct (decide (zone_at x 8 = 0)); [by left|right; split; auto]. }
  assert (Hsub : forall k, ientry w' (zone_at x 8) k = ientry w (zone_at x 8) k) by (intros; by apply He).
  assert (H9 : forall j, 0 <= j < 512 -> ientry w (zone_at x 8) j = 0 \/ in_use w (ientry w (zone_at x 8) j)).
  { intros j Hj. apply Hx. destruct (decide (ientry w (zone_at x 8) j = 0)); [by left|right].
    split; eauto 10. }
  split.
  - destruct F as [F1 F2 F3 F4 F5 F6]. split; try done.
    + intros b Hb. assert (Hb' : is_index w x b).
      { destruct Hb as [Hb0 [Hb|[Hb|(k & Hk & Hb)]]]; split; auto.
        right; right. exists k. by rewrite Hsub in Hb. }
      destruct (F3 b Hb') as [Hbu [l El]]. split; [auto|]. exists l. by rewrite Hd.
    + intros k Hk. rewrite Hsub. by apply F5.
    + intros k k' Hk Hk'. rewrite !Hsub. by apply F6.
  - intros block Hb. unfold file_block, max_block in *.
    destruct (Z.ltb_spec block 7); [done|]. destruct (Z.ltb_spec (block - 7) 512); [by apply He|].
    rewrite Hsub. apply He, H9. lia.
Qed.

(** The state of the file system after an operation on the file. *)
Record extended (ps : list nat) (w w' : W) (i : nat) (x' : m_inode) : Prop := {
  ex_inv : inv ps w';
  ex_mounted : mounted ps w' dev s sb;
  ex_alloc : alloc_ok ps w';
  ex_fl : lget fl w' = (lget fl w) <| inode_table ::= alter (fun _ => x') i |>;
  ex_tl : lget tl w' = lget tl w;
  ex_ident : forall j, j ∈ ps -> ident (lget cl w') j = ident (lget cl w) j;
  ex_file : file_ok w' x';
  ex_used : forall y, in_use w y -> in_use w' y
}.
Definition full (w : W) : Prop := forall y, in_zone y -> zused dev sb w (bit_of y) = true.

Lemma extended_lookup ps w w' i x x' :
  extended ps w w' i x' -> itable w !! i = Some x -> itable w' !! i = Some x'.
Proof.
  intros X E. unfold itable in *. rewrite (ex_fl _ _ _ _ _ X). cbn. by rewrite list_lookup_alter_eq, E.
Qed.
Lemma extended_trans ps w1 w2 w3 i x2 x3 :
  extended ps w1 w2 i x2 -> extended ps w2 w3 i x3 -> extended ps w1 w3 i x3.
Proof.
  intros [A1 A2 A3 A4 A5 A6 A7 A8] [B1 B2 B3 B4 B5 B6 B7 B8]. split; try done.
  - rewrite B4, A4. cbn. f_equal. apply list_eq. intros j.
    destruct (decide (i = j)) as [->|]; [|by rewrite !list_lookup_alter_ne].
    rewrite !list_lookup_alter_eq. by destruct (inode_table _ !! j).
  - by rewrite B5.
  - intros j Hj. by rewrite B6, A6.
  - auto.
Qed.
Lemma extended_refl ps w i x :
  inv ps w -> mounted ps w dev s sb -> alloc_ok ps w -> itable w !! i = Some x -> file_ok w x ->
  extended ps w w i x.
Proof.
  intros H1 H2 H3 E H4. split; try done. unfold itable in E. destruct (lget fl w) as [t li ft su rd]. cbn in *.
  f_equal. apply list_eq. intros j. destruct (decide (i = j)) as [<-|]; [|by rewrite list_lookup_alter_ne].
  by rewrite list_lookup_alter_eq, E.
Qed.

Lemma alloc_assigned ps w g i : alloc_ok ps w -> alloc_ok ps (assigned g i w).
Proof.
  intros [A1 A2 A3].
  assert (Hu : forall j, zused dev sb (assigned g i w) j = zused dev sb w j)
    by (intros j; unfold zused, map_bit; by rewrite assigned_data).
  split; [done|by rewrite Hu|]. intros z Hz. rewrite Hu. intros Hf.
  destruct (A3 z Hz Hf) as [H1 H2]. split; [by rewrite assigned_data|].
  intros j Hj. rewrite assigned_cl. auto.
Qed.
Lemma mounted_assigned ps w g i : mounted ps w dev s sb -> mounted ps (assigned g i w) dev s sb.
Proof. intros H. exact (kept_mounted dev s sb ps _ _ H (kept_assigned dev sb ps g i w)). Qed.
Lemma in_use_data w w' y : (forall b, data w' dev b = data w dev b) -> in_use w y -> in_use w' y.
Proof. intros H [H1 H2]. split; [done|]. rewrite <-H2. unfold zused, map_bit. by rewrite H. Qed.

Lemma set_zone_same x k : in_width x -> 0 <= k < 9 -> zone_at x k = 0 ->
  x <| i_zone ::= zset k (u16 0) |> = x.
Proof.
  intros (_ & _ & _ & _ & _ & _ & Hz & _) Hk H0. unfold zone_at in H0.
  destruct (zget_is_Some (i_zone x) k) as [z E]; [lia|]. rewrite E in H0. cbn in H0. subst z.
  destruct x. cbn in *. f_equal. by apply zset_id.
Qed.

Lemma grow_zone_run ps w i x k :
  inv ps w -> (length ps < room)%nat -> mounted ps w dev s sb -> alloc_ok ps w ->
  itable w !! i = Some x -> file_ok w x -> 0 <= k < 9 ->
  exists w' x', grow_zone fuel true k i w = Ret tt w' /\ extended ps w w' i x' /\
    (zone_at x k <> 0 -> w' = w /\ x' = x) /\
    (zone_at x' k = 0 -> full w) /\
    (forall block, 0 <= block < max_block -> block <> k \/ 7 <= k ->
       file_block w' x' block = file_block w x block).
Proof.
  intros Hi Hr Hm Ha E F Hk. pose proof (fo_width _ _ F) as Hw.
  unfold grow_zone. rewrite (bind_ret _ _ _ _ _ (zone_of_run k _ _ _ E Hw Hk)). cbn [andb].
  destruct (Z.eqb_spec (zone_at x k) 0) as [H0|H0].
  2:{ exists w, x. split_and!; [done|by apply extended_refl|done|done|done]. }
  rewrite (ino_bind _ _ _ _ _ E), (fo_dev _ _ F).
  destruct (new_block_outcome ps w Hi Hr Hm Ha) as (z & w1 & En & A).
  rewrite (bind_ret _ _ _ _ _ En).
  assert (E1 : itable w1 !! i = Some x) by (rewrite (stable_itable _ _ _ (ad_stable _ _ _ _ A)); done).
  assert (Hu : u16 z = z).
  { destruct (decide (z = 0)) as [->|Hz]; [done|]. destruct (ad_some _ _ _ _ A Hz) as [Hzr _].
    destruct (zone_bounds _ _ Hm) as (? & ? & ? & ? & ?). unfold in_zone in Hzr. apply u16_small. lia. }
  rewrite (set_ino_bind _ _ _ _ _ E1).
  destruct (decide (z = 0)) as [Hz|Hz].
  - subst z. exists w1, x. destruct (ad_none _ _ _ _ A eq_refl) as [Hfull Hd].
    destruct (zone_bounds _ _ Hm) as (B1 & B2 & B3 & B4 & B5).
    destruct (file_same w w1 x F) as [F1 Hfb].
    { intros b [Hb _]. apply Hd. intros _. unfold in_zone in Hb. lia. }
    { apply (ad_used _ _ _ _ A). }
    rewrite (assigned_same _ _ _ _ E1) by (by apply set_zone_same).
    split_and!; [done| |done|done|by intros; apply Hfb].
    pose proof (ad_stable _ _ _ _ A) as [S1 S2 S3]. split; try apply A; try done.
    rewrite S1. symmetry. pose proof (extended_refl ps w i x Hi Hm Ha E F) as X.
    by rewrite <-(ex_fl _ _ _ _ _ X) at 1.
  - rewrite Hu. assert (truth z = true) as -> by (unfold truth; by destruct (Z.eqb_spec z 0)).
    unfold touch_inode. rewrite (set_ino_run _ _ _ _ (assigned_lookup _ _ _ _ E1)), assigned_twice.
    set (g := fun x : m_inode => (x <| i_zone ::= zset k z |>) <| i_dirt := 1 |> <| i_ctime := CURRENT_TIME |>).
    destruct (zone_grown ps w w1 (assigned g i w1) x k z F Hm A Hz Hk H0) as (F' & Hze & Hfb);
      [intros; apply assigned_data|].
    exists (assigned g i w1), (g x). split_and!; [done| |done| |].
    + pose proof (ad_stable _ _ _ _ A) as [S1 S2 S3]. split.
      * apply assigned_inv, A.
      * apply mounted_assigned, A.
      * apply alloc_assigned, A.
      * unfold assigned. rewrite get_set, S1. cbn. f_equal. apply list_eq. intros j.
        destruct (decide (i = j)) as [<-|]; [|by rewrite !list_lookup_alter_ne].
        unfold itable in E. by rewrite !list_lookup_alter_eq, E.
      * rewrite assigned_tl. done.
      * intros j Hj. rewrite assigned_cl. auto.
      * done.
      * intros y Hy. eapply in_use_data; [intros; apply assigned_data|]. by apply (ad_used _ _ _ _ A).
    + intros Hz0. rewrite Hze, Z.eqb_refl in Hz0. done.
    + intros block Hb Hbk. rewrite Hfb by done. destruct (Z.eqb_spec block k) as [->|]; [|done].
      destruct (Z.ltb_spec k 7); [|done]. destruct Hbk; [done|lia].
Qed.

(** Entry [k] of the zone [b] has become [v], and no other entry of a zone in
    use has changed. *)
Record entry_set (w w' : W) (b k v : Z) : Prop := {
  es_entry : forall b' k', in_use w b' -> 0 <= k' < 512 ->
    ientry w' b' k' = if decide (b' = b /\ k' = k) then v else ientry w b' k';
  es_bytes : forall b' l, in_use w b' -> data w dev b' = Bytes l -> exists l', data w' dev b' = Bytes l';
  es_used : forall y, in_use w y -> in_use w' y;
  es_same : ientry w b k <> 0 -> v = ientry w b k;
  es_new : ientry w b k = 0 -> v <> 0 -> zused dev sb w (bit_of v) = false /\ in_use w' v /\
    (exists l, data w' dev v = Bytes l) /\ forall j, ientry w' v j = 0;
  es_full : v = 0 -> full w
}.

Lemma le16_put16 l off v : 0 <= v < 2 ^ 16 -> (off + 1 < length l)%nat -> le16 (put16 off v l) off = v.
Proof.
  intros Hv Hl. rewrite le16_lookup. unfold put16.
  rewrite list_lookup_insert_eq by (rewrite length_insert; lia).
  rewrite list_lookup_insert_ne by lia. replace (off + 1)%nat with (S off) by lia.
  rewrite list_lookup_insert_eq by lia. by apply halves.
Qed.
Lemma le16_put16_ne l off off' v : (off' + 1 < off \/ off + 1 < off')%nat ->
  le16 (put16 off v l) off' = le16 l off'.
Proof. intros H. rewrite !le16_lookup. unfold put16. rewrite !list_lookup_insert_ne by lia. done. Qed.
Lemma put16_shape off v l : bytes l -> length (put16 off v l) = length l /\ bytes (put16 off v l).
Proof.
  intros Hb. unfold put16. split; [by rewrite !length_insert|].
  apply Forall_insert; [|apply u8_range]. apply Forall_insert; [done|apply u8_range].
Qed.

Lemma alloc_ok_same ps ps' w w' : alloc_ok ps w -> (forall d b, data w' d b = data w d b) ->
  (forall z, in_zone z -> zused dev sb w (bit_of z) = false -> unheld ps w dev z -> unheld ps' w' dev z) ->
  alloc_ok ps' w'.
Proof.
  intros [A1 A2 A3] Hd Hu. assert (Hz : forall j, zused dev sb w' j = zused dev sb w j)
    by (intros j; unfold zused, map_bit; by rewrite Hd).
  split; [done|by rewrite Hz|]. intros z Hzz. rewrite Hz. intros Hf. destruct (A3 z Hzz Hf) as [A4 A5].
  split; [by rewrite Hd|auto].
Qed.
Lemma entry_kept w w' b k : (forall d c, data w' d c = data w d c) -> ientry w b k <> 0 ->
  entry_set w w' b k (ientry w b k).
Proof.
  intros Hd H0. split; try done.
  - intros b' k' _ _. unfold ientry at 1. rewrite Hd. fold (ientry w b' k').
    case_decide as Hbk; [|done]. by destruct Hbk as [-> ->].
  - intros b' l' _ Eb'. exists l'. by rewrite Hd.
  - intros z Hz. eapply in_use_data; [|done]. intros; apply Hd.
Qed.
(** Blocks in use before new_block() are not its result, and stay. *)
Lemma allocated_other ps w w' z y : allocated ps w w' z -> in_use w y -> z <> 0 -> y <> z.
Proof. intros A [_ Hy] Hz ->. destruct (ad_some _ _ _ _ A Hz) as (_ & Hf & _). congruence. Qed.
Lemma allocated_data ps w w' z d c : allocated ps w w' z -> no_zbits d c -> (z <> 0 -> d = dev -> c <> z) ->
  data w' d c = data w d c.
Proof.
  intros A Hn Hc. destruct (decide (z = 0)) as [Hz|Hz].
  - by apply (ad_none _ _ _ _ A Hz).
  - apply (ad_some _ _ _ _ A Hz); auto.
Qed.

(** The new zone is stored in its entry, unless there was none. *)
Lemma put_entry_run ps w bh b y l k z :
  holding ps w bh dev b y -> data w dev b = Bytes l -> length l = 1024%nat -> 0 <= k < 512 -> 0 <= z < 2 ^ 16 ->
  (z = 0 -> le16 l (Z.to_nat (2 * k)) = 0) ->
  exists w' l', bind (if truth z then
       (set_buf bh (fun x => x <| b_bytes ::= put16 (Z.to_nat (2 * k)) z |>) ;;
        set_buf bh (fun x => x <| b_dirt := 1 |>)) else ret tt) (fun _ => ret z) w = Ret z w' /\
    inv ps w' /\ stable ps w w' /\
    (forall d c, data w' d c = upd2 dev b (Bytes l') (data w) d c) /\
    forall k', 0 <= k' < 512 -> le16 l' (Z.to_nat (2 * k')) = if k' =? k then z else le16 l (Z.to_nat (2 * k')).
Proof.
  intros Hy El Hlen Hk Hzr H0. destruct (holding_bytes _ _ _ _ _ _ _ Hy El) as [Ely Hup].
  unfold truth. destruct (Z.eqb_spec z 0) as [Hz|Hz]; cbn [negb].
  - exists w, l. split_and!; [by rewrite bind_ret_l, Hz|apply Hy|apply stable_refl| |].
    + intros d c. unfold upd2. case_decide as Hdc; [|done]. by destruct Hdc as [-> ->].
    + intros k' Hk'. destruct (Z.eqb_spec k' k) as [->|]; [by rewrite H0|done].
  - set (g := fun x => (x <| b_bytes ::= put16 (Z.to_nat (2 * k)) z |>) <| b_dirt := 1 |>).
    assert (Hg : edit g).
    { apply (edit_comp (fun x => x <| b_dirt := 1 |>)); [apply edit_dirt; by right|].
      apply edit_bytes. intros l' Hl' Hb'. destruct (put16_shape (Z.to_nat (2 * k)) z l' Hb') as [-> ?]. done. }
    destruct (holding_edit _ _ _ _ _ _ _ Hy Hg) as (Hy' & S' & Hd').
    exists (edited g bh w), (put16 (Z.to_nat (2 * k)) z l). split_and!; [|apply Hy'|done| |].
    + rewrite bind_assoc, (set_buf_bind _ _ _ _ _ (ho_at _ _ _ _ _ _ Hy)).
      erewrite set_buf_bind by (apply edited_lookup, Hy). by rewrite edited_twice.
    + intros d c. rewrite Hd'. unfold upd2. case_decide; [|done].
      unfold content_of, g. cbn. by rewrite Hup, Ely.
    + intros k' Hk'. destruct (Z.eqb_spec k' k) as [->|Hne].
      * apply le16_put16; [done|lia].
      * apply le16_put16_ne. lia.
Qed.
(** ** A new zone in an entry of an index block

    [w1] is the state with the block [b] in a buffer, [w2] the one after
    new_block(), and in [w'] entry [k] of [b] is the new zone [z]. *)
Section index_set.
Context (ps ps' : list nat) (w w1 w2 w' : W) (b k z : Z) (l l3 : list Z).
Context (Hm : mounted ps w dev s sb) (Ha : alloc_ok ps w).
Context (Hb : in_use w b) (Hb0 : b <> 0) (El : data w dev b = Bytes l) (H0 : ientry w b k = 0).
Context (Hd1 : forall d c, data w1 d c = data w d c) (A : allocated ps' w1 w2 z).
Context (Hdat : forall d c, data w' d c = upd2 dev b (Bytes l3) (data w2) d c).
Context (Hl3 : forall k', 0 <= k' < 512 ->
  le16 l3 (Z.to_nat (2 * k')) = if k' =? k then z else le16 l (Z.to_nat (2 * k'))).

Lemma index_set_zused j : 0 <= j < 8192 * s_zmap_blocks sb -> zused dev sb w' j = zused dev sb w2 j.
Proof.
  intros Hj. destruct (zone_bounds _ _ Hm) as (B1 & B2 & B3 & B4 & B5).
  unfold zused, map_bit. rewrite Hdat. unfold upd2. rewrite decide_False; [done|].
  intros [_ Hjb]. destruct Hb as [Hz _]. unfold in_zone in Hz. lia.
Qed.
Lemma index_set_bit y : in_zone y -> 0 <= bit_of y < 8192 * s_zmap_blocks sb.
Proof.
  intros Hy. destruct (zone_bounds _ _ Hm) as (B1 & B2 & B3 & B4 & B5).
  pose proof (al_bits _ _ Ha). unfold in_zone, bit_of in *. lia.
Qed.
Lemma index_set_in_use y : in_use w1 y -> in_use w' y.
Proof.
  intros Hy. destruct (ad_used _ _ _ _ A y Hy) as [H1 H2]. split; [done|].
  rewrite index_set_zused; [done|by apply index_set_bit].
Qed.
Lemma in_use_read y : in_use w y -> in_use w1 y.
Proof. intros Hy. eapply in_use_data; [|exact Hy]. intros; apply Hd1. Qed.
Lemma zused_read j : zused dev sb w1 j = zused dev sb w j.
Proof. unfold zused, map_bit. by rewrite Hd1. Qed.
Lemma in_use_plain y : in_use w y -> no_zbits dev y.
Proof.
  intros [Hy _] _. destruct (zone_bounds _ _ Hm) as (B1 & B2 & B3 & B4 & B5).
  unfold in_zone in Hy. lia.
Qed.
Lemma index_set_other b' : in_use w b' -> b' <> b -> data w' dev b' = data w dev b'.
Proof.
  intros Hb' Hne. rewrite Hdat. unfold upd2. rewrite decide_False by naive_solver.
  rewrite (allocated_data _ _ _ _ _ _ A), Hd1; [done|by apply in_use_plain|].
  intros Hz _. by apply (allocated_other _ _ _ _ _ A); [apply in_use_read|].
Qed.

Lemma index_set_mounted : inv ps w' -> stable ps w w' -> mounted ps w' dev s sb.
Proof.
  intros Hi' St. destruct (zone_bounds _ _ Hm) as (B1 & B2 & B3 & B4 & B5).
  eapply (mounted_stable ps); [done|done|done|]. intros c bs Hc Ec.
  assert (Hcb : data w' dev c = data w2 dev c).
  { rewrite Hdat. unfold upd2. rewrite decide_False; [done|]. destruct Hb as [Hz _]. unfold in_zone in Hz. lia. }
  destruct (decide (zmap_base sb <= c < zmap_base sb + s_zmap_blocks sb)) as [Hcz|Hcz].
  - destruct (mp_some _ _ _ _ _ _ (mo_zmap _ _ _ _ _ (ad_mounted _ _ _ _ A)) (c - zmap_base sb))
      as (i' & bs' & _ & _ & _ & Eb'); [lia|].
    exists bs'. rewrite Hcb. by replace (zmap_base sb + (c - zmap_base sb)) with c in Eb' by lia.
  - exists bs. rewrite Hcb. assert (no_zbits dev c) by (intros _; lia).
    rewrite (allocated_data _ _ _ _ _ _ A), Hd1; [done|done|].
    intros Hz _ ->. destruct (ad_some _ _ _ _ A Hz) as [Hz' _]. unfold in_zone in Hz'. lia.
Qed.

(** The zone [z] is new, and has no entries of its own. *)
Lemma index_set_new : z <> 0 -> zused dev sb w (bit_of z) = false /\ in_use w' z /\
  (exists l', data w' dev z = Bytes l') /\ forall j, ientry w' z j = 0.
Proof.
  intros Hz. destruct (ad_some _ _ _ _ A Hz) as (Hzz & Hf & Hzd & _).
  assert (Hzb : z <> b) by (intros ->; rewrite zused_read in Hf; destruct Hb; congruence).
  assert (Ez : data w' dev z = Bytes zeros).
  { rewrite Hdat. unfold upd2. rewrite decide_False by naive_solver. done. }
  split_and!; [by rewrite <-zused_read| |by exists zeros|].
  - destruct (ad_new _ _ _ _ A Hz) as [H1 H2]. split; [done|].
    rewrite index_set_zused; [done|by apply index_set_bit].
  - intros j. rewrite <-(fresh_entry _ _ _ _ j A Hz). apply ientry_data.
    rewrite Ez. symmetry. apply (ad_some _ _ _ _ A Hz).
Qed.
Lemma index_set_entries : entry_set w w' b k z.
Proof.
  split; [| |by intros y Hy; apply index_set_in_use, in_use_read|done|by intros _; apply index_set_new|].
  - intros b' k' Hb' Hk'. case_decide as Hbk.
    + destruct Hbk as [-> ->]. unfold ientry. rewrite Hdat. unfold upd2. rewrite decide_True by done.
      destruct (Z.eqb_spec b 0); [done|]. by rewrite Hl3, Z.eqb_refl by done.
    + destruct (decide (b' = b)) as [->|Hne]; [|by apply ientry_data, index_set_other].
      unfold ientry. rewrite Hdat, El. unfold upd2. rewrite decide_True by done.
      destruct (Z.eqb_spec b 0); [done|]. rewrite Hl3 by done.
      destruct (Z.eqb_spec k' k) as [->|]; [by destruct Hbk|done].
  - intros b' l' Hb' El'. destruct (decide (b' = b)) as [->|Hne].
    + exists l3. rewrite Hdat. unfold upd2. by rewrite decide_True.
    + exists l'. by rewrite index_set_other.
  - intros Hz y0 Hy0. rewrite <-zused_read. by apply (ad_none _ _ _ _ A Hz).
Qed.
End index_set.

Lemma indirect_create ps w b k :
  inv ps w -> (S (length ps) < room)%nat -> mounted ps w dev s sb -> alloc_ok ps w ->
  in_use w b -> (exists l, data w dev b = Bytes l) -> 0 <= k < 512 -> b <> 0 ->
  exists v w', indirect fuel true dev b k w = Ret v w' /\ inv ps w' /\ mounted ps w' dev s sb /\
    alloc_ok ps w' /\ stable ps w w' /\ entry_set w w' b k v.
Proof.
  intros Hi Hr Hm Ha Hb [l El] Hk Hb0. destruct (zone_bounds _ _ Hm) as (B1 & B2 & B3 & B4 & B5).
  destruct (bread_ok _ _ _ _ _ Hi El ltac:(lia)) as (bh & w1 & E1 & Hp).
  destruct (pinned_holding _ _ _ _ _ _ Hp) as [y Hy]. pose proof Hp as (Hi1 & Hd1 & S1 & Hid1).
  destruct (holding_bytes _ _ _ _ _ _ _ Hy ltac:(by rewrite Hd1)) as [Ely Hup].
  assert (Hent : le16 l (Z.to_nat (2 * k)) = ientry w b k).
  { unfold ientry. rewrite El. by destruct (Z.eqb_spec b 0). }
  unfold indirect. rewrite (bind_ret _ _ _ _ _ E1), (buf_bind _ _ _ _ _ (ho_at _ _ _ _ _ _ Hy)).
  rewrite Ely, Hent. cbn [andb].
  destruct (Z.eqb_spec (ientry w b k) 0) as [H0|H0].
  2:{ destruct (brelse_ok _ _ _ Hi1) as (w' & E2 & Hi' & Hd' & S').
      assert (Hdd : forall d y, data w' d y = data w d y) by (intros; by rewrite Hd', Hd1).
      assert (St : stable ps w w') by (by eapply stable_trans).
      exists (ientry w b k), w'. split_and!; [|done| | |done|].
      - by rewrite bind_ret_l, (bind_ret _ _ _ _ _ E2).
      - eapply (mounted_stable ps); [done|done|done|]. intros; rewrite Hdd; eauto.
      - eapply alloc_ok_same; [done|done|]. intros z _ _ Hu. by eapply unheld_stable.
      - by apply entry_kept. }
  assert (Hm1 : mounted (bh :: ps) w1 dev s sb).
  { eapply (mounted_stable ps); [done|done|set_solver|]. intros ? bs _ Eb. exists bs. by rewrite Hd1. }
  assert (Ha1 : alloc_ok (bh :: ps) w1).
  { eapply alloc_ok_same; [done|done|]. intros z Hz Hf Hu j [->|Hj]%elem_of_cons; [|by apply (unheld_stable _ _ _ _ _ Hu S1)].
    rewrite Hid1. intros [= ->]. destruct Hb. congruence. }
  destruct (new_block_outcome (bh :: ps) w1 Hi1 ltac:(cbn [length]; lia) Hm1 Ha1) as (z & w2 & E2 & A).
  pose proof (ad_stable _ _ _ _ A) as S2.
  destruct (holding_intro (bh :: ps) w2 bh dev b (ad_inv _ _ _ _ A)) as [y2 Hy2];
    [by left|rewrite (st_ident _ _ _ S2) by (by left); done|].
  assert (Ed2 : data w2 dev b = Bytes l).
  { rewrite (allocated_data _ _ _ _ _ _ A), Hd1; [done|by apply (in_use_plain ps w)|].
    intros Hz _. by apply (allocated_other _ _ _ _ _ A); [apply (in_use_read w)|]. }
  destruct (data_shape _ _ _ _ _ Hi El) as [Hlen Hby]. change (Z.to_nat BLOCK_SIZE) with 1024%nat in Hlen.
  assert (Hzr : 0 <= z < 2 ^ 16).
  { destruct (decide (z = 0)) as [->|Hz]; [lia|]. destruct (ad_some _ _ _ _ A Hz) as [Hz' _]. unfold in_zone in Hz'. lia. }
  destruct (put_entry_run _ _ _ _ _ _ k z Hy2 Ed2 Hlen Hk Hzr (fun _ => eq_trans Hent H0))
    as (w3 & l3 & E3 & Hi3 & S3 & Hd3 & Hl3).
  rewrite bind_assoc, (bind_ret _ _ _ _ _ E2), (bind_ret _ _ _ _ _ E3).
  destruct (brelse_ok _ _ _ Hi3) as (w' & E4 & Hi' & Hd' & S4).
  assert (Hdat : forall d c, data w' d c = upd2 dev b (Bytes l3) (data w2) d c) by (intros; by rewrite Hd', Hd3).
  assert (St : stable ps w w').
  { eapply stable_trans; [done|]. eapply stable_trans; [|done].
    eapply (stable_sub ps (bh :: ps)); [set_solver|]. by eapply stable_trans. }
  assert (Hu : forall j, 0 <= j < 8192 * s_zmap_blocks sb -> zused dev sb w' j = zused dev sb w2 j)
    by (intros j; by apply (index_set_zused ps w w2 w' b l3)).
  exists z, w'. split_and!; [|done| | |done|].
  - by rewrite (bind_ret _ _ _ _ _ E4).
  - by apply (index_set_mounted ps (bh :: ps) w w1 w2 w' b z l3).
  - destruct (ad_alloc _ _ _ _ A) as [A1 A2 A3]. split; [done|rewrite Hu by lia; done|].
    intros z' Hz'. rewrite Hu by (by apply (index_set_bit ps w)). intros Hf.
    destruct (A3 z' Hz' Hf) as [A4 A5]. split.
    + rewrite Hdat. unfold upd2. by case_decide.
    + intros j Hj. rewrite (st_ident _ _ _ St) by done. intros Ej. apply (A5 j); [by right|].
      rewrite (st_ident _ _ _ S2) by (by right). by rewrite (st_ident _ _ _ S1).
  - by apply (index_set_entries ps (bh :: ps) w w1 w2 w' b k z l l3).
Qed.

(** An entry of an index block changes: the block that it is for, when this
    is not the block of index blocks, and none when it is. *)
Definition leaf (w : W) (x : m_inode) (b k block : Z) : Prop :=
  7 <= block /\
  (block - 7 < 512 /\ b = zone_at x 7 /\ k = block - 7 \/
   512 <= block - 7 /\ b = ientry w (zone_at x 8) ((block - 519) / 512) /\ k = (block - 519) mod 512).

Lemma index_used w x b : file_ok w x -> b = 0 \/ is_index w x b -> b = 0 \/ in_use w b.
Proof. intros F [H|H]; [by left|right]. by apply (fo_index _ _ F). Qed.
Lemma zone_index w x k : k = 7 \/ k = 8 -> zone_at x k = 0 \/ is_index w x (zone_at x k).
Proof. intros [-> | ->]; [destruct (decide (zone_at x 7 = 0))|destruct (decide (zone_at x 8 = 0))]; auto; right; split; auto. Qed.
Lemma sub_index w x k : 0 <= k < 512 ->
  ientry w (zone_at x 8) k = 0 \/ is_index w x (ientry w (zone_at x 8) k).
Proof. intros Hk. destruct (decide (ientry w (zone_at x 8) k = 0)); [by left|right]. split; eauto 10. Qed.

Lemma entry_other w w' b k v b' k' :
  entry_set w w' b k v -> b' = 0 \/ in_use w b' -> b <> 0 -> 0 <= k' < 512 -> ~ (b' = b /\ k' = k) ->
  ientry w' b' k' = ientry w b' k'.
Proof.
  intros E [->|Hb] Hb0 Hk Hne; [done|]. rewrite (es_entry _ _ _ _ _ E) by done. by case_decide.
Qed.

Lemma entry_leaf w w' x b k v :
  file_ok w x -> entry_set w w' b k v -> is_index w x b -> 0 <= k < 512 -> b <> zone_at x 8 ->
  file_ok w' x /\ forall block, 0 <= block < max_block ->
    (leaf w x b k block -> file_block w' x block = v) /\
    (~ leaf w x b k block -> file_block w' x block = file_block w x block).
Proof.
  intros F E Hib Hk Hne. pose proof (proj1 Hib) as Hb0.
  assert (Hsub : forall j, 0 <= j < 512 -> ientry w' (zone_at x 8) j = ientry w (zone_at x 8) j).
  { intros j Hj. apply (entry_other _ _ _ _ _ _ _ E); [|done|done|naive_solver].
    apply (index_used w x _ F), zone_index. auto. }
  assert (Hidx : forall c, is_index w' x c -> is_index w x c).
  { intros c [Hc [H|[H|(j & Hj & H)]]]; (split; [done|]); auto.
    right. right. exists j. by rewrite <-Hsub. }
  split.
  - destruct F as [F1 F2 F3 F4 F5 F6]. split; try done.
    + intros c Hc%Hidx. destruct (F3 c Hc) as [Hu [l El]].
      split; [by apply (es_used _ _ _ _ _ E)|by eapply (es_bytes _ _ _ _ _ E)].
    + intros j Hj. rewrite Hsub by done. by apply F5.
    + intros j j' Hj Hj'. rewrite !Hsub by done. by apply F6.
  - intros block Hb. unfold leaf, file_block, max_block in *.
    destruct (Z.ltb_spec block 7); [split; [lia|done]|].
    destruct (Z.ltb_spec (block - 7) 512).
    + destruct (index_used w x (zone_at x 7) F) as [Hz|Hz]; [by apply zone_index; auto| |].
      { split; [intros [_ [(_ & -> & _)|(? & _)]]; [done|lia]|]. intros _. rewrite Hz. done. }
      rewrite (es_entry _ _ _ _ _ E) by (done || lia). split.
      * intros [_ [(_ & -> & ->)|(? & _)]]; [by rewrite decide_True|lia].
      * intros Hn. rewrite decide_False; [done|]. intros [<- Hk']. apply Hn. split; [lia|]. left. done.
    + rewrite Hsub by lia.
      destruct (index_used w x (ientry w (zone_at x 8) ((block - 519) / 512)) F) as [Hz|Hz];
        [apply sub_index; lia| |].
      { split; [intros [_ [(? & _)|(_ & -> & _)]]; [lia|done]|]. intros _. by rewrite Hz. }
      rewrite (es_entry _ _ _ _ _ E) by (done || lia). split.
      * intros [_ [(? & _)|(_ & -> & ->)]]; [lia|by rewrite decide_True].
      * intros Hn. rewrite decide_False; [done|]. intros [<- Hk']. apply Hn. split; [lia|]. right. done.
Qed.

Lemma entry_root w w' x k v :
  file_ok w x -> entry_set w w' (zone_at x 8) k v -> zone_at x 8 <> 0 -> 0 <= k < 512 ->
  file_ok w' x /\ (v = 0 \/ is_index w' x v) /\ ientry w' (zone_at x 8) k = v /\
  forall block, 0 <= block < max_block -> file_block w' x block = file_block w x block.
Proof.
  intros F E H80 Hk.
  assert (H8 : in_use w (zone_at x 8)).
  { apply (fo_index _ _ F). split; auto. }
  assert (Hsub : forall j, 0 <= j < 512 ->
    ientry w' (zone_at x 8) j = if decide (j = k) then v else ientry w (zone_at x 8) j).
  { intros j Hj. rewrite (es_entry _ _ _ _ _ E) by done. by repeat case_decide; naive_solver. }
  assert (Hv : v = ientry w (zone_at x 8) k \/
    ientry w (zone_at x 8) k = 0 /\ v <> 0 /\ zused dev sb w (bit_of v) = false /\ in_use w' v /\
    (exists l, data w' dev v = Bytes l) /\ forall j, ientry w' v j = 0).
  { destruct (decide (ientry w (zone_at x 8) k = 0)) as [H0|H0];
      [|left; by apply (es_same _ _ _ _ _ E)].
    destruct (decide (v = 0)) as [->|Hv0]; [left; congruence|right].
    destruct (es_new _ _ _ _ _ E H0 Hv0) as (? & ? & ? & ?). by split_and!. }
  assert (Hfresh : forall c, v = ientry w (zone_at x 8) k \/ (is_index w x c -> c <> v)).
  { intros c. destruct Hv as [Hv|(_ & _ & Hf & _)]; [by left|right].
    intros Hc ->. destruct (fo_index _ _ F _ Hc) as [[_ Hu] _]. congruence. }
  assert (Hsame : v = ientry w (zone_at x 8) k -> forall j, 0 <= j < 512 ->
    ientry w' (zone_at x 8) j = ientry w (zone_at x 8) j).
  { intros -> j Hj. rewrite Hsub by done. by case_decide; subst. }
  assert (Hidx : forall c, is_index w' x c -> is_index w x c \/ c = v /\ v <> ientry w (zone_at x 8) k).
  { intros c [Hc [H|[H|(j & Hj & H)]]]; [left; split; auto..|]. rewrite Hsub in H by done.
    case_decide as Hjk; [|left; split; eauto 10]. subst j.
    destruct (decide (v = ientry w (zone_at x 8) k)) as [Hvk|Hvk]; [left|by right].
    split; [done|]. right. right. exists k. by rewrite <-Hvk. }
  split_and!.
  - split; [apply F|apply F| | | |].
    + intros c [Hc|[-> Hne]]%Hidx.
      * destruct (fo_index _ _ F c Hc) as [Hu [l El]].
        split; [by apply (es_used _ _ _ _ _ E)|by eapply (es_bytes _ _ _ _ _ E)].
      * destruct Hv as [Hv|(_ & _ & _ & Hu & Hl & _)]; [done|by split].
    + apply (fo_78 _ _ F).
    + intros j Hj. rewrite Hsub by done. case_decide as Hjk; [|by apply (fo_sub _ _ F)]. subst j.
      intros Hv0. destruct Hv as [->|(_ & _ & Hf & _)]; [by apply (fo_sub _ _ F)|].
      assert (Hx : forall c, is_index w x c -> v <> c).
      { intros c Hc ->. destruct (fo_index _ _ F _ Hc) as [[_ Hu] _]. congruence. }
      split; [|apply Hx; split; auto].
      destruct (decide (zone_at x 7 = 0)) as [->|]; [done|]. apply Hx. split; auto.
    + intros j j' Hj Hj'. rewrite !Hsub by done.
      destruct Hv as [Hv|(_ & Hv0 & Hf & _)].
      * intros H0 He. apply (fo_inj _ _ F); [done|done| |]; repeat case_decide; subst; congruence.
      * assert (Hx : forall i, 0 <= i < 512 -> ientry w (zone_at x 8) i <> v).
        { intros i Hi He. destruct (sub_index w x i Hi) as [H0|Hc]; [congruence|].
          destruct (fo_index _ _ F _ Hc) as [[_ Hu] _]. congruence. }
        repeat case_decide; subst; try done.
        -- intros _ He. exfalso. by apply (Hx j').
        -- intros _ He. exfalso. by apply (Hx j).
        -- by apply (fo_inj _ _ F).
  - destruct (decide (v = 0)); [by left|right]. split; [done|]. right. right. exists k.
    split; [done|]. rewrite Hsub by done. by rewrite decide_True.
  - rewrite Hsub by done. by rewrite decide_True.
  - intros block Hb. unfold file_block, max_block in *.
    destruct (Z.ltb_spec block 7); [done|]. destruct (Z.ltb_spec (block - 7) 512).
    + destruct (index_used w x (zone_at x 7) F) as [Hz|Hz]; [by apply zone_index; auto|by rewrite Hz|].
      rewrite (es_entry _ _ _ _ _ E) by (done || lia). rewrite decide_False; [done|].
      intros [E7 _]. apply (fo_78 _ _ F); [|done]. rewrite E7. done.
    + rewrite Hsub by lia. set (q := (block - 519) / 512) in *. assert (Hq : 0 <= q < 512) by lia.
      case_decide as Hqk.
      * rewrite Hqk. destruct Hv as [->|(Hold & _ & _ & _ & _ & Hz)]; [|by rewrite Hz, Hold].
        destruct (sub_index w x k Hk) as [Hs0|Hc]; [by rewrite Hs0|].
        rewrite (es_entry _ _ _ _ _ E) by (apply (fo_index _ _ F _ Hc) || lia).
        rewrite decide_False; [done|]. intros [E8 _]. by apply (fo_sub _ _ F k Hk (proj1 Hc)).
      * destruct (sub_index w x q Hq) as [Hs0|Hc]; [by rewrite Hs0|].
        rewrite (es_entry _ _ _ _ _ E) by (apply (fo_index _ _ F _ Hc) || lia).
        rewrite decide_False; [done|]. intros [E8 _]. by apply (fo_sub _ _ F q Hq (proj1 Hc)).
Qed.

Lemma extended_stable ps w w' i x :
  inv ps w' -> mounted ps w' dev s sb -> alloc_ok ps w' -> stable ps w w' -> itable w !! i = Some x ->
  file_ok w' x -> (forall y, in_use w y -> in_use w' y) -> extended ps w w' i x.
Proof.
  intros H1 H2 H3 S E F U.
  assert (E' : itable w' !! i = Some x) by (by rewrite (stable_itable _ _ _ S)).
  pose proof (extended_refl ps w' i x H1 H2 H3 E' F) as X. destruct S as [S1 S2 S3].
  split; try done. rewrite <-S1. apply X.
Qed.
Lemma full_mono w w' : (forall y, in_use w y -> in_use w' y) -> full w -> full w'.
Proof. intros U Hf y Hy. apply (U y). split; [done|]. by apply Hf. Qed.

(** One block of the file. *)
Record created (ps : list nat) (w w' : W) (i : nat) (x x' : m_inode) (block v : Z) : Prop := {
  cr_state : extended ps w w' i x';
  cr_block : file_block w' x' block = v;
  cr_old : file_block w x block <> 0 -> v = file_block w x block;
  cr_full : v = 0 -> full w';
  cr_others : forall b, 0 <= b < max_block -> b <> block -> file_block w' x' b = file_block w x b
}.

Lemma leaf_entry w x b k block : leaf w x b k block -> file_block w x block = ientry w b k.
Proof.
  unfold leaf, file_block. intros [H7 [(H5 & -> & ->)|(H5 & -> & ->)]];
    (destruct (Z.ltb_spec block 7); [lia|]); destruct (Z.ltb_spec (block - 7) 512); done || lia.
Qed.
(** The last step: an entry of an index block that is not the root. *)
Lemma created_leaf ps w i x b k block :
  inv ps w -> (S (length ps) < room)%nat -> mounted ps w dev s sb -> alloc_ok ps w ->
  itable w !! i = Some x -> file_ok w x -> is_index w x b -> 0 <= k < 512 -> b <> zone_at x 8 ->
  0 <= block < max_block -> leaf w x b k block ->
  exists v w', indirect fuel true dev b k w = Ret v w' /\ created ps w w' i x x block v.
Proof.
  intros Hi Hr Hm Ha E F Hib Hk Hne Hb Hlf. destruct (fo_index _ _ F b Hib) as [Hu Hl].
  destruct (indirect_create ps w b k Hi Hr Hm Ha Hu Hl Hk (proj1 Hib)) as (v & w' & Ei & H1 & H2 & H3 & Hs & En).
  destruct (entry_leaf w w' x b k v F En Hib Hk Hne) as [F' Hfb].
  exists v, w'. split; [done|]. split.
  - apply extended_stable; try done. exact (es_used _ _ _ _ _ En).
  - by apply (Hfb block Hb).
  - rewrite (leaf_entry w x b k block Hlf). apply (es_same _ _ _ _ _ En).
  - intros Hv. eapply full_mono; [exact (es_used _ _ _ _ _ En)|]. by apply (es_full _ _ _ _ _ En).
  - intros c Hc Hcb. apply (Hfb c Hc). intros [H7 Hcc]. unfold max_block in *.
    destruct Hlf as [H7' [(H5 & Eb & Ek)|(H5 & Eb & Ek)]];
      destruct Hcc as [(H5' & Eb' & Ek')|(H5' & Eb' & Ek')]; try lia.
    + destruct (fo_sub _ _ F ((c - 519) / 512)) as [N7 _]; [lia|rewrite <-Eb'; apply Hib|]. congruence.
    + destruct (fo_sub _ _ F ((block - 519) / 512)) as [N7 _]; [lia|rewrite <-Eb; apply Hib|]. congruence.
    + assert ((c - 519) / 512 = (block - 519) / 512); [|lia].
      apply (fo_inj _ _ F); [lia|lia| |congruence]. rewrite <-Eb'. apply Hib.
Qed.

Lemma created_after ps w w1 w' i x x1 block v :
  extended ps w w1 i x1 -> (forall b, 0 <= b < max_block -> file_block w1 x1 b = file_block w x b) ->
  0 <= block < max_block -> created ps w1 w' i x1 x1 block v -> created ps w w' i x x1 block v.
Proof.
  intros X Hfb Hb [C1 C2 C3 C4 C5]. split; try done.
  - by eapply extended_trans.
  - rewrite <-Hfb by done. done.
  - intros b Hbr Hne. rewrite C5, Hfb; done.
Qed.
Lemma created_none ps w w1 i x x1 block :
  extended ps w w1 i x1 -> (forall b, 0 <= b < max_block -> file_block w1 x1 b = file_block w x b) ->
  0 <= block < max_block -> file_block w x block = 0 -> full w1 -> created ps w w1 i x x1 block 0.
Proof. intros X Hfb Hb H0 Hf. split; try done; [by rewrite Hfb|by intros b ? _; apply Hfb]. Qed.

Lemma create_block_run ps w i x block :
  inv ps w -> (S (length ps) < room)%nat -> mounted ps w dev s sb -> alloc_ok ps w ->
  itable w !! i = Some x -> file_ok w x -> 0 <= block < max_block ->
  exists v w' x', create_block fuel i block w = Ret v w' /\ created ps w w' i x x' block v.
Proof.
  intros Hi Hr Hm Ha E F Hb. pose proof Hb as Hb'. unfold max_block in Hb'.
  assert (Hr' : (length ps < room)%nat) by lia.
  unfold create_block, _bmap.
  destruct (Z.ltb_spec block 0); [lia|]. destruct (Z.leb_spec (7 + 512 + 512 * 512) block); [lia|].
  destruct (Z.ltb_spec block 7) as [H7|H7].
  { destruct (grow_zone_run ps w i x block Hi Hr' Hm Ha E F ltac:(lia)) as (w1 & x1 & Eg & X & Hold & Hf & Hfb).
    pose proof (extended_lookup _ _ _ _ _ _ X E) as E1. pose proof (ex_file _ _ _ _ _ X) as F1.
    exists (zone_at x1 block), w1, x1. split.
    { rewrite (bind_ret _ _ _ _ _ Eg). apply zone_of_run; [done|apply F1|lia]. }
    assert (Hz : forall v y, file_block v y block = zone_at y block).
    { intros v y. unfold file_block. destruct (Z.ltb_spec block 7); [done|lia]. }
    split; [done|apply Hz| | |].
    - rewrite Hz. intros Hne0. by destruct (Hold Hne0) as [-> ->].
    - intros Hv0. eapply full_mono; [exact (ex_used _ _ _ _ _ X)|]. auto.
    - intros b Hbr Hne. apply Hfb; auto. }
  destruct (Z.ltb_spec (block - 7) 512) as [H5|H5].
  { destruct (grow_zone_run ps w i x 7 Hi Hr' Hm Ha E F ltac:(lia)) as (w1 & x1 & Eg & X & Hold & Hf & Hfb).
    pose proof (extended_lookup _ _ _ _ _ _ X E) as E1. pose proof (ex_file _ _ _ _ _ X) as F1.
    rewrite (bind_ret _ _ _ _ _ Eg), (bind_ret _ _ _ _ _ (zone_of_run 7 _ _ _ E1 (fo_width _ _ F1) ltac:(lia))).
    assert (Hfb' : forall b, 0 <= b < max_block -> file_block w1 x1 b = file_block w x b)
      by (intros; apply Hfb; [done|by right]).
    destruct (Z.eqb_spec (zone_at x1 7) 0) as [Hz|Hz].
    - exists 0, w1, x1. split; [done|]. apply created_none; try done.
      + rewrite <-Hfb' by done. unfold file_block. destruct (Z.ltb_spec block 7); [lia|].
        destruct (Z.ltb_spec (block - 7) 512); [|lia]. by rewrite Hz.
      + eapply full_mono; [exact (ex_used _ _ _ _ _ X)|]. auto.
    - rewrite (ino_bind _ _ _ _ _ E1), (fo_dev _ _ F1).
      destruct (created_leaf ps w1 i x1 (zone_at x1 7) (block - 7) block) as (v & w' & Ei & C); try apply X; try done.
      + split; auto.
      + lia.
      + split; [lia|]. left. split_and!; (done || lia).
      + exists v, w', x1. split; [done|]. by eapply created_after. }
  destruct (grow_zone_run ps w i x 8 Hi Hr' Hm Ha E F ltac:(lia)) as (w1 & x1 & Eg & X & Hold & Hf & Hfb).
  pose proof (extended_lookup _ _ _ _ _ _ X E) as E1. pose proof (ex_file _ _ _ _ _ X) as F1.
  rewrite (bind_ret _ _ _ _ _ Eg), (bind_ret _ _ _ _ _ (zone_of_run 8 _ _ _ E1 (fo_width _ _ F1) ltac:(lia))).
  assert (Hfb' : forall b, 0 <= b < max_block -> file_block w1 x1 b = file_block w x b)
    by (intros; apply Hfb; [done|right; lia]).
  assert (Hfile : forall v, file_block v x1 block =
    ientry v (ientry v (zone_at x1 8) ((block - 519) / 512)) ((block - 519) mod 512)).
  { intros v. unfold file_block. destruct (Z.ltb_spec block 7); [lia|]. by destruct (Z.ltb_spec (block - 7) 512); [lia|]. }
  destruct (Z.eqb_spec (zone_at x1 8) 0) as [Hz|Hz].
  { exists 0, w1, x1. split; [done|]. apply created_none; try done.
    - rewrite <-Hfb', Hfile, Hz by done. done.
    - eapply full_mono; [exact (ex_used _ _ _ _ _ X)|]. auto. }
  rewrite (ino_bind _ _ _ _ _ E1), (fo_dev _ _ F1).
  replace (block - 7 - 512) with (block - 519) by lia.
  change 511 with (Z.ones 9). rewrite Z.land_ones, Z.shiftr_div_pow2 by lia. change (2 ^ 9) with 512.
  assert (Hq : 0 <= (block - 519) / 512 < 512) by lia. set (q := (block - 519) / 512) in *.
  assert (Hi8 : is_index w1 x1 (zone_at x1 8)) by (split; auto).
  destruct (fo_index _ _ F1 _ Hi8) as [Hu8 Hl8].
  destruct (indirect_create ps w1 (zone_at x1 8) q (ex_inv _ _ _ _ _ X) Hr (ex_mounted _ _ _ _ _ X)
    (ex_alloc _ _ _ _ _ X) Hu8 Hl8 Hq Hz) as (v & w2 & Ei & H1 & H2 & H3 & S2 & En).
  destruct (entry_root w1 w2 x1 q v F1 En Hz Hq) as (F2 & Hv & Hent & Hfb2).
  rewrite (bind_ret _ _ _ _ _ Ei).
  assert (X2 : extended ps w w2 i x1).
  { eapply extended_trans; [exact X|]. apply extended_stable; try done. exact (es_used _ _ _ _ _ En). }
  assert (E2 : itable w2 !! i = Some x1) by (by rewrite (stable_itable _ _ _ S2)).
  assert (Hfb12 : forall b, 0 <= b < max_block -> file_block w2 x1 b = file_block w x b)
    by (intros b ?; rewrite Hfb2, Hfb'; done).
  destruct (Z.eqb_spec v 0) as [Hv0|Hv0].
  - exists 0, w2, x1. split; [done|]. apply created_none; try done.
    + rewrite <-Hfb12, Hfile, Hent, Hv0 by done. done.
    + eapply full_mono; [exact (es_used _ _ _ _ _ En)|]. by apply (es_full _ _ _ _ _ En).
  - destruct Hv as [Hv|Hv]; [done|].
    destruct (created_leaf ps w2 i x1 v ((block - 519) mod 512) block) as (v' & w' & Ei' & C); try done.
    + lia.
    + pose proof (fo_sub _ _ F2 q Hq) as N. rewrite Hent in N. by apply N.
    + split; [lia|]. right. split_and!; [lia|by fold q; rewrite Hent|done].
    + exists v', w', x1. split; [done|]. by eapply created_after.
Qed.
End blocks.

(** ** The small file system *)

Lemma alloc_ok0 : alloc_ok dev0 super0 held0 world0.
Proof.
  split; [vm_compute; reflexivity..|]. intros z Hz _.
  assert (Hz' : 5 <= z < 12) by exact Hz.
  assert (z = 5 \/ z = 6 \/ z = 7 \/ z = 8 \/ z = 9 \/ z = 10 \/ z = 11) as Hc by lia.
  split; [|apply unheld0; lia].
  destruct Hc as [->|[->|[->|[->|[->|[->| ->]]]]]]; vm_compute; discriminate.
Qed.
Lemma file_ok0 : file_ok dev0 super0 world0 file0.
Proof.
  assert (Hs : forall k, ientry dev0 world0 (zone_at file0 8) k = 0) by reflexivity.
  split; [by apply small_width|done| |done| |].
  - intros b [Hb [->|[->|(k & _ & ->)]]]; [|done|by rewrite Hs in Hb].
    split; [|apply is_bytes_ok; vm_compute; reflexivity].
    split; [split; vm_compute; (discriminate || reflexivity)|vm_compute; reflexivity].
  - intros k _ Hk. by rewrite Hs in Hk.
  - intros k k' _ _ Hk. by rewrite Hs in Hk.
Qed.

(** ** The theorems *)

(** C38.  bmap() (_bmap() of fs/inode.c without create) panics for a block
    number below 0 and for one beyond the double-indirect range, and for all
    others it returns [file_block], the block of the device that the nine
    zones of the inode and its index blocks (512 little-endian 16-bit entries
    each) map the file's block to, 0 if there is none: the file stays as it
    is, and so do the contents of the device and the inode table. *)
Theorem bmap_spec {W} `{!Env W, !Wired W, !BlockIO W} fuel i block ps (w : W) :
  (block < 0 -> bmap fuel i block w = Stop (Panic "_bmap: block<0") w) /\
  (7 + 512 + 512 * 512 <= block -> bmap fuel i block w = Stop (Panic "_bmap: block>big") w) /\
  forall x, inv ps w -> (length ps < room)%nat -> itable w !! i = Some x -> in_width x ->
    index_ok (i_dev x) w x -> 0 <= block < 7 + 512 + 512 * 512 ->
    exists w', bmap fuel i block w = Ret (file_block (i_dev x) w x block) w' /\
      inv ps w' /\ itable w' = itable w /\ forall d y, data w' d y = data w d y.
Proof.
  unfold bmap, _bmap. split_and!.
  - intros Hb. by destruct (Z.ltb_spec block 0); [|lia].
  - intros Hb. destruct (Z.ltb_spec block 0); [lia|].
    by destruct (Z.leb_spec (7 + 512 + 512 * 512) block); [|lia].
  - intros x Hi Hr E Hx Hidx Hb.
    destruct (bmap_run (i_dev x) fuel ps w i x block Hi Hr E Hx eq_refl Hidx Hb) as (w' & Eb & Hi' & Hs & Hd).
    exists w'. by split_and!; [|done|eapply stable_itable|].
Qed.

(** Block 7 of the sample is entry 0 of the indirect block: zone 8. *)
Lemma bmap_spec_witness :
  bmap 0 1 (-1) world0 = Stop (Panic "_bmap: block<0") world0 /\
  bmap 0 1 (2 ^ 20) world0 = Stop (Panic "_bmap: block>big") world0 /\
  exists w', bmap 0 1 7 world0 = Ret 8 w' /\ inv held0 w'.
Proof.
  split_and!.
  - by apply (bmap_spec 0 1 (-1) held0 world0).
  - by apply (bmap_spec 0 1 (2 ^ 20) held0 world0).
  - destruct (proj2 (proj2 (bmap_spec 0 1 7 held0 world0)) file0) as (w' & E & Hi & _).
    + exact world0_warm.
    + apply Nat.ltb_lt. vm_compute. reflexivity.
    + reflexivity.
    + by apply small_width.
    + apply (file_index_ok dev0 super0). exact file_ok0.
    + split; [discriminate|reflexivity].
    + exists w'. split; [exact E|exact Hi].
Defined.

(** C39.  create_block() on a consistent file (its index blocks are zones in
    use, pairwise different, and can be read) returns, for every block of the
    range, the block of the device that the file maps to afterwards.  It is
    the one it mapped to before, if there was one; the result is 0 only when
    no zone of the device was left free.  No other block of the file changes,
    no zone in use is freed, the file stays consistent through all the levels
    of index blocks that are created on the way, and only this inode of the
    table changes. *)
Theorem create_block_spec {W} `{!Env W, !Wired W, !BlockIO W} fuel i block ps (w : W) dev s sb x :
  (NR_SUPER <= fuel)%nat -> inv ps w -> (S (length ps) < room)%nat -> mounted ps w dev s sb ->
  alloc_ok dev sb ps w -> itable w !! i = Some x -> file_ok dev sb w x ->
  0 <= block < 7 + 512 + 512 * 512 ->
  exists v w' x', create_block fuel i block w = Ret v w' /\
    v = file_block dev w' x' block /\
    (file_block dev w x block <> 0 -> v = file_block dev w x block) /\
    (v = 0 -> forall z, in_zone sb z -> zused dev sb w' (bit_of sb z) = true) /\
    (forall b, 0 <= b < 7 + 512 + 512 * 512 -> b <> block ->
       file_block dev w' x' b = file_block dev w x b) /\
    (forall z, in_use dev sb w z -> in_use dev sb w' z) /\
    file_ok dev sb w' x' /\ itable w' = alter (fun _ => x') i (itable w) /\
    inv ps w' /\ mounted ps w' dev s sb /\ alloc_ok dev sb ps w'.
Proof.
  intros Hf Hi Hr Hm Ha E F Hb.
  destruct (create_block_run dev s sb fuel Hf ps w i x block Hi Hr Hm Ha E F Hb) as (v & w' & x' & Ec & C).
  destruct C as [X C1 C2 C3 C4]. exists v, w', x'.
  split_and!; try done; try apply X. unfold itable. by rewrite (ex_fl _ _ _ _ _ _ _ _ X).
Qed.

(** Block 519 of the sample needs a root of the second level, an index block
    and the block itself: zones 9, 10 and 11. *)
Lemma create_block_spec_witness :
  exists v w' x', create_block 8 1 519 world0 = Ret v w' /\ v = 11 /\
    file_block dev0 w' x' 519 = v /\ file_block dev0 w' x' 7 = 8 /\ file_ok dev0 super0 w' x'.
Proof.
  destruct (create_block_spec 8 1 519 held0 world0 dev0 0 super0 file0 (le_n _) world0_warm
    ltac:(apply Nat.ltb_lt; vm_compute; reflexivity) mounted0 alloc_ok0 eq_refl file_ok0
    ltac:(split; [discriminate|reflexivity]))
    as (v & w' & x' & E & Hv & _ & _ & Ho & _ & F & _).
  assert (E11 : match create_block 8 1 519 world0 with Ret r _ => r =? 11 | _ => false end = true)
    by (vm_compute; reflexivity).
  exists v, w', x'. split_and!; [exact E| |by symmetry| |exact F].
  - rewrite E in E11. by apply Z.eqb_eq.
  - rewrite Ho; [vm_compute; reflexivity|split; [discriminate|reflexivity]|discriminate].
Defined.
