(* ===== verification/Trunc.v ===== *)
(** * truncate() of fs/truncate.c

    The blocks of a file are given back: the direct ones, those of the
    indirect block and those of the second level. *)

From S2P Require Import Prelude Task Sched WaitQ Buffer Blk Fs Blocks Super Mini Bitmap Inode Bmap.

Section ops.
Context {W : Type} `{!Env W}.

(** [for (i=0;i<512;i++,p++) if ( *p) f(dev,*p)], from [i] on; the entries
    are read from the buffer as the loop comes to them. *)
Fixpoint each_entry (f : Z -> M W unit) (bh : nat) (n : nat) (i : nat) : M W unit :=
  match n with
  | O => ret tt
  | S n' =>
      let! l := buf b_bytes bh in
      let p := le16 l (2 * i) in
      (if truth p then f p else ret tt) ;;
      each_entry f bh n' (S i)
  end.
Definition free_ind (fuel : nat) (dev block : Z) : M W unit :=
  if block =? 0 then ret tt
  else
    let! bh := bread dev block in
    match bh with
    | Some bh => each_entry (free_block fuel dev) bh 512 0 ;; brelse (Some bh)
    | None => ret tt
    end ;;
    free_block fuel dev block.
Definition free_dind (fuel : nat) (dev block : Z) : M W unit :=
  if block =? 0 then ret tt
  else
    let! bh := bread dev block in
    match bh with
    | Some bh => each_entry (free_ind fuel dev) bh 512 0 ;; brelse (Some bh)
    | None => ret tt
    end ;;
    free_block fuel dev block.

(** [for (i=0;i<7;i++)], from [i] on. *)
Fixpoint free_direct (fuel : nat) (inode : nat) (n : nat) (i : Z) : M W unit :=
  match n with
  | O => ret tt
  | S n' =>
      let! z := zone_of i inode in
      (if truth z then
         let! dev := ino i_dev inode in
         free_block fuel dev z ;;
         set_ino inode (fun x => x <| i_zone ::= zset i 0 |>)
       else ret tt) ;;
      free_direct fuel inode n' (i + 1)
  end.
Definition truncate (fuel : nat) (inode : nat) : M W unit :=
  let! mode := ino i_mode inode in
  if negb (S_ISREG mode || S_ISDIR mode) then ret tt
  else
    free_direct fuel inode 7 0 ;;
    let! dev := ino i_dev inode in
    let! z := zone_of 7 inode in
    free_ind fuel dev z ;;
    let! z := zone_of 8 inode in
    free_dind fuel dev z ;;
    set_ino inode (fun x => x <| i_zone ::= fun l => zset 7 0 (zset 8 0 l) |>) ;;
    set_ino inode (fun x => x <| i_size := 0 |> <| i_dirt := 1 |>
      <| i_mtime := CURRENT_TIME |> <| i_ctime := CURRENT_TIME |>).
End ops.
