(* ===== verification/Namei.v ===== *)
(** * Names of files: fs/namei.c

    User memory is a function from addresses to bytes, the one that
    get_fs_byte() reads; the task does not change it while it is in the
    kernel.  A [struct dir_entry *] is the number of the entry in the block
    that the buffer holds.  A pointer to a pointer to an inode is a value
    returned besides the result.  The loops over user strings and over
    directories have fuel. *)

From S2P Require Import Prelude Task Sched WaitQ Buffer Blk Fs Blocks Super Mini Bitmap Inode Bmap Trunc.

Definition EPERM : Z := 1.
Definition ENOENT : Z := 2.
Definition EACCES : Z := 13.
Definition EEXIST : Z := 17.
Definition EISDIR : Z := 21.
Definition ENOSPC : Z := 28.

Definition O_ACCMODE : Z := 0x3.
Definition O_WRONLY : Z := 0x1.
Definition O_RDWR : Z := 0x2.
Definition O_CREAT : Z := 0x40.
Definition O_EXCL : Z := 0x80.
Definition O_TRUNC : Z := 0x200.
Definition I_REGULAR : Z := 0x8000.

Definition MAY_EXEC : Z := 1.
Definition MAY_WRITE : Z := 2.
Definition MAY_READ : Z := 4.
(** [("\004\002\006\377"[(x)&O_ACCMODE])], a [char] *)
Definition ACC_MODE (x : Z) : Z := default 0 ([4; 2; 6; -1] !! Z.to_nat (Z.land x O_ACCMODE)).

Record dir_entry := DirEntry { de_inode : Z; de_name : list Z }.
(** Entry [k] of the block [l]. *)
Definition entry_at (l : list Z) (k : Z) : dir_entry :=
  DirEntry (le16 l (Z.to_nat (16 * k))) (take 14 (drop (Z.to_nat (16 * k + 2)) l)).

Definition slash : Z := 47.
Definition dot : Z := 46.

Section ops.
Context {W : Type} `{!Env W}.
Context (user : Z -> Z).

Definition permission (inode : nat) (mask : Z) : M W bool :=
  let! mode := ino i_mode inode in ret true.

(** match(): the comparison of [len] bytes by [repe cmpsb], [len] not 0. *)
Definition match_name (len name : Z) (de : dir_entry) : bool :=
  if (de_inode de =? 0) || (NAME_LEN <? len) then false
  else if (len <? NAME_LEN) && truth (default 0 (zget (de_name de) len)) then false
  else forallb (fun k => user (name + Z.of_nat k) =? default 0 (de_name de !! k)) (seq 0 (Z.to_nat len)).

(** The loop of find_entry(), [n] an upper bound of the entries that are
    left.  [bh] is NULL after a block that could not be found or read: the
    next round reads [bh->b_data]. *)
Fixpoint find_from (fuel : nat) (dir : nat) (name namelen entries : Z) (n : nat) (i : Z)
    (bh : option nat) (de : Z) : M W (option (nat * Z)) :=
  if entries <=? i then brelse bh ;; ret None
  else
    match n with
    | O => halt NoFuel
    | S n' =>
        let! b := deref bh in
        let! next :=
          if DIR_ENTRIES_PER_BLOCK <=? de then
            brelse (Some b) ;;
            let! block := bmap fuel dir (Z.quot i DIR_ENTRIES_PER_BLOCK) in
            if block =? 0 then ret None
            else
              let! dev := ino i_dev dir in
              let! b := bread dev block in
              ret ((fun b => (b, 0)) <$> b)
          else ret (Some (b, de)) in
        match next with
        | None =>
            find_from fuel dir name namelen entries n' (i + DIR_ENTRIES_PER_BLOCK) None de
        | Some (b, de) =>
            let! l := buf b_bytes b in
            if match_name namelen name (entry_at l de) then ret (Some (b, de))
            else find_from fuel dir name namelen entries n' (i + 1) (Some b) (de + 1)
        end
    end.

(** The magic of '..': the length of the name to search for and the
    directory to search in. *)
Definition dot_dot (fuel : nat) (dir : nat) (name namelen : Z) : M W (nat * Z) :=
  if (namelen =? 2) && (user name =? dot) && (user (name + 1) =? dot) then
    let! r := me root in
    if bool_decide (r = Some dir) then ret (dir, 1)
    else
      let! num := ino i_num dir in
      if num =? ROOT_INO then
        let! dev := ino i_dev dir in
        let! o := get_super fuel dev in
        let! sb := deref o in
        let! m := sup s_imount sb in
        match m with
        | None => ret (dir, namelen)
        | Some d =>
            iput fuel (Some dir) ;;
            set_ino d (fun x => x <| i_count ::= fun n => u16 (n + 1) |>) ;;
            ret (d, namelen)
        end
      else ret (dir, namelen)
  else ret (dir, namelen).

(** [*dir] and the entry. *)
Definition find_entry (fuel : nat) (dir : nat) (name namelen : Z) :
    M W (nat * option (nat * Z)) :=
  let namelen := if NAME_LEN <? namelen then NAME_LEN else namelen in
  let! size := ino i_size dir in
  let entries := s32 (size / 16) in
  if namelen =? 0 then ret (dir, None)
  else
    let! (dir, namelen) := dot_dot fuel dir name namelen in
    let! block := zone_of 0 dir in
    if block =? 0 then ret (dir, None)
    else
      let! dev := ino i_dev dir in
      let! bh := bread dev block in
      match bh with
      | None => ret (dir, None)
      | Some bh =>
          let! r := find_from fuel dir name namelen entries (Z.to_nat entries) 0 (Some bh) 0 in
          ret (dir, r)
      end.

(** [for(n=0;(c=get_fs_byte(p++))&&(c!='/');n++)]: the last byte read and
    the length. *)
Fixpoint scan_part (fuel : nat) (p n : Z) : M W (Z * Z) :=
  let c := user (p + n) in
  if (c =? 0) || (c =? slash) then ret (c, n)
  else match fuel with O => halt NoFuel | S fuel' => scan_part fuel' p (n + 1) end.

(** get_dir() from [while (1)] on. *)
Fixpoint walk (fuel : nat) (n : nat) (pathname : Z) (inode : nat) : M W (option nat) :=
  match n with
  | O => halt NoFuel
  | S n' =>
      let! mode := ino i_mode inode in
      let! ok := if S_ISDIR mode then permission inode MAY_EXEC else ret false in
      if negb ok then iput fuel (Some inode) ;; ret None
      else
        let! (c, namelen) := scan_part fuel pathname 0 in
        if c =? 0 then ret (Some inode)
        else
          let! (inode, r) := find_entry fuel inode pathname namelen in
          match r with
          | None => iput fuel (Some inode) ;; ret None
          | Some (bh, de) =>
              let! l := buf b_bytes bh in
              let inr := de_inode (entry_at l de) in
              let! idev := ino i_dev inode in
              brelse (Some bh) ;;
              iput fuel (Some inode) ;;
              let! o := iget fuel idev inr in
              match o with
              | None => ret None
              | Some inode => walk fuel n' (pathname + namelen + 1) inode
              end
          end
  end.

Definition has_inode (o : option nat) : M W bool :=
  match o with
  | None => ret false
  | Some i => let! n := ino i_count i in ret (truth n)
  end.
Definition get_dir (fuel : nat) (pathname : Z) : M W (option nat) :=
  let! r := me root in
  let! b := has_inode r in
  if negb b then halt (Panic "No root inode")
  else
    let! p := me pwd in
    let! b := has_inode p in
    if negb b then halt (Panic "No cwd inode")
    else
      let c := user pathname in
      if c =? 0 then ret None
      else
        let! inode := deref (if c =? slash then r else p) in
        let pathname := if c =? slash then pathname + 1 else pathname in
        set_ino inode (fun x => x <| i_count ::= fun n => u16 (n + 1) |>) ;;
        walk fuel fuel pathname inode.

(** [while ((c=get_fs_byte(pathname++))) if (c=='/') basename=pathname]: the
    base name and the end of the path. *)
Fixpoint scan_base (fuel : nat) (pathname basename : Z) : M W (Z * Z) :=
  let c := user pathname in
  if c =? 0 then ret (basename, pathname)
  else
    match fuel with
    | O => halt NoFuel
    | S fuel' =>
        scan_base fuel' (pathname + 1) (if c =? slash then pathname + 1 else basename)
    end.
(** The directory, [*namelen] and [*name]. *)
Definition dir_namei (fuel : nat) (pathname : Z) : M W (option (nat * Z * Z)) :=
  let! o := get_dir fuel pathname in
  match o with
  | None => ret None
  | Some dir =>
      let! (basename, stop) := scan_base fuel pathname pathname in
      ret (Some (dir, stop - basename, basename))
  end.

(** [for (i=0; i < NAME_LEN ; i++) de->name[i]=...] *)
Definition padded_name (name namelen : Z) : list Z :=
  (fun i => if Z.of_nat i <? namelen then u8 (user (name + Z.of_nat i)) else 0) <$> seq 0 14.

(** The loop of add_entry(), with fuel [n]. *)
Fixpoint add_from (fuel : nat) (dir : nat) (name namelen : Z) (n : nat) (i : Z)
    (bh : option nat) (de : Z) : M W (option (nat * Z)) :=
  match n with
  | O => halt NoFuel
  | S n' =>
      let! b := deref bh in
      let! next :=
        if DIR_ENTRIES_PER_BLOCK <=? de then
          brelse (Some b) ;;
          let! block := create_block fuel dir (Z.quot i DIR_ENTRIES_PER_BLOCK) in
          if block =? 0 then ret None
          else
            let! dev := ino i_dev dir in
            let! b := bread dev block in
            ret (Some ((fun b => (b, 0)) <$> b))
        else ret (Some (Some (b, de))) in
      match next with
      | None => ret None
      | Some None => add_from fuel dir name namelen n' (i + DIR_ENTRIES_PER_BLOCK) None de
      | Some (Some (b, de)) =>
          let! size := ino i_size dir in
          (if size <=? u32 (i * 16) then
             set_buf b (fun x => x <| b_bytes ::= put16 (Z.to_nat (16 * de)) 0 |>) ;;
             set_ino dir (fun x => x <| i_size := u32 ((i + 1) * 16) |> <| i_dirt := 1 |>
               <| i_ctime := CURRENT_TIME |>)
           else ret tt) ;;
          let! l := buf b_bytes b in
          if de_inode (entry_at l de) =? 0 then
            set_ino dir (fun x => x <| i_mtime := CURRENT_TIME |>) ;;
            set_buf b (fun x => x <| b_bytes ::=
              splice (Z.to_nat (16 * de + 2)) (padded_name name namelen) |>) ;;
            set_buf b (fun x => x <| b_dirt := 1 |>) ;;
            ret (Some (b, de))
          else add_from fuel dir name namelen n' (i + 1) (Some b) (de + 1)
      end
  end.
Definition add_entry (fuel : nat) (dir : nat) (name namelen : Z) : M W (option (nat * Z)) :=
  let namelen := if NAME_LEN <? namelen then NAME_LEN else namelen in
  if namelen =? 0 then ret None
  else
    let! block := zone_of 0 dir in
    if block =? 0 then ret None
    else
      let! dev := ino i_dev dir in
      let! bh := bread dev block in
      match bh with
      | None => ret None
      | Some bh => add_from fuel dir name namelen fuel 0 (Some bh) 0
      end.

(** open_namei() from [if (!bh)] on: a new file [basename] in [dir]. *)
Definition open_new (fuel : nat) (dir : nat) (basename namelen flag mode : Z) :
    M W (Z * option nat) :=
  if Z.land flag O_CREAT =? 0 then iput fuel (Some dir) ;; ret (- ENOENT, None)
  else
    let! ok := permission dir MAY_WRITE in
    if negb ok then iput fuel (Some dir) ;; ret (- EACCES, None)
    else
      let! dev := ino i_dev dir in
      let! o := new_inode fuel dev in
      match o with
      | None => iput fuel (Some dir) ;; ret (- ENOSPC, None)
      | Some inode =>
          let! u := me euid in
          set_ino inode (fun x => x <| i_uid := u16 u |> <| i_mode := u16 mode |> <| i_dirt := 1 |>) ;;
          let! r := add_entry fuel dir basename namelen in
          match r with
          | None =>
              set_ino inode (fun x => x <| i_nlinks ::= fun n => u8 (n - 1) |>) ;;
              iput fuel (Some inode) ;;
              iput fuel (Some dir) ;;
              ret (- ENOSPC, None)
          | Some (bh, de) =>
              let! num := ino i_num inode in
              set_buf bh (fun x => x <| b_bytes ::= put16 (Z.to_nat (16 * de)) num |>) ;;
              set_buf bh (fun x => x <| b_dirt := 1 |>) ;;
              brelse (Some bh) ;;
              iput fuel (Some dir) ;;
              ret (0, Some inode)
          end
      end.
(** open_namei() from [inr = de->inode] on: the file that entry [de] of the
    buffer [bh] names. *)
Definition open_old (fuel : nat) (dir bh : nat) (de flag : Z) : M W (Z * option nat) :=
  let! l := buf b_bytes bh in
  let inr := de_inode (entry_at l de) in
  let! dev := ino i_dev dir in
  brelse (Some bh) ;;
  iput fuel (Some dir) ;;
  if truth (Z.land flag O_EXCL) then ret (- EEXIST, None)
  else
    let! o := iget fuel dev inr in
    match o with
    | None => ret (- EACCES, None)
    | Some inode =>
        let! m := ino i_mode inode in
        let! denied :=
          if S_ISDIR m && truth (Z.land flag O_ACCMODE) then ret true
          else let! ok := permission inode (ACC_MODE flag) in ret (negb ok) in
        if denied : bool then iput fuel (Some inode) ;; ret (- EPERM, None)
        else
          set_ino inode (fun x => x <| i_atime := CURRENT_TIME |>) ;;
          (if truth (Z.land flag O_TRUNC) then truncate fuel inode else ret tt) ;;
          ret (0, Some inode)
    end.
(** The result and [*res_inode], if it has been assigned. *)
Definition open_namei (fuel : nat) (pathname flag mode : Z) : M W (Z * option nat) :=
  let flag := if truth (Z.land flag O_TRUNC) && negb (truth (Z.land flag O_ACCMODE))
              then Z.lor flag O_WRONLY else flag in
  let! um := me umask in
  let mode := Z.lor (Z.land mode (Z.land 0x1FF (Z.lnot um))) I_REGULAR in
  let! o := dir_namei fuel pathname in
  match o with
  | None => ret (- ENOENT, None)
  | Some (dir, namelen, basename) =>
      if namelen =? 0 then
        if negb (truth (Z.land flag (Z.lor O_ACCMODE (Z.lor O_CREAT O_TRUNC)))) then
          ret (0, Some dir)
        else iput fuel (Some dir) ;; ret (- EISDIR, None)
      else
        let! (dir, r) := find_entry fuel dir basename namelen in
        match r with
        | None => open_new fuel dir basename namelen flag mode
        | Some (bh, de) => open_old fuel dir bh de flag
        end
  end.
End ops.
