(* ===== verification/Dir.v ===== *)
(** * Directories: what find_entry() of fs/namei.c finds

    A directory is the list of its entries, in the blocks of the file:
    [dirent].  [dir_find] is the first one with a given name; find_entry()
    finds it, block by block. *)

From S2P Require Import Prelude Task Sched WaitQ Buffer Blk Fs Blocks Super Mini Bitmap Inode Bmap Trunc Namei.

#[local] Ltac Zify.zify_post_hook ::= Z.div_mod_to_equations.

(** An entry has the name when its name starts with that name and, if there
    is room, a zero byte; of names longer than 14 bytes the first 14 count. *)
Definition named (name : list Z) (e : dir_entry) : Prop :=
  de_inode e <> 0 /\ take 14 (name ++ [0]) `prefix_of` de_name e.
#[export] Instance named_dec name e : Decision (named name e).
Proof. unfold named. apply _. Defined.

(** The bytes of [l] are in user memory at [p]. *)
Definition at_user (user : Z -> Z) (p : Z) (l : list Z) : Prop :=
  forall k c, l !! k = Some c -> user (p + Z.of_nat k) = c.

Lemma prefix_lookups (l k : list Z) :
  l `prefix_of` k <-> forall i c, l !! i = Some c -> k !! i = Some c.
Proof.
  split; [intros H i c Hi; by eapply prefix_lookup_Some|].
  revert k. induction l as [|c l IH]; intros k H; [apply prefix_nil|].
  pose proof (H 0%nat c eq_refl) as H0. destruct k as [|d k]; [done|]. injection H0 as ->.
  apply prefix_cons, IH. intros i e. apply (H (S i)).
Qed.

Lemma forallb_seq (P : nat -> bool) n : forallb P (seq 0 n) = true <-> forall k, (k < n)%nat -> P k = true.
Proof.
  rewrite forallb_forall. split; intros H k Hk.
  - apply H, in_seq. lia.
  - apply H. apply in_seq in Hk. lia.
Qed.

Lemma match_name_named user p name e :
  at_user user p name -> length (de_name e) = 14%nat ->
  match_name user (if NAME_LEN <? Z.of_nat (length name) then NAME_LEN else Z.of_nat (length name)) p e
    = bool_decide (named name e).
Proof.
  intros Hu Hl. unfold match_name, NAME_LEN.
  set (n := length name) in *.
  set (m := if 14 <? Z.of_nat n then 14 else Z.of_nat n).
  assert (Hm : m = Z.of_nat (n `min` 14)) by (unfold m; destruct (Z.ltb_spec 14 (Z.of_nat n)); lia).
  symmetry. destruct (Z.eqb_spec (de_inode e) 0) as [E0|E0].
  { cbn [orb]. apply bool_decide_eq_false. intros [H _]. done. }
  destruct (Z.ltb_spec 14 m) as [|_]; [lia|]. cbn [orb].
  assert (Hp : take 14 (name ++ [0]) `prefix_of` de_name e <->
    (forall k c, (k < 14)%nat -> name !! k = Some c -> de_name e !! k = Some c) /\
    ((n < 14)%nat -> de_name e !! n = Some 0)).
  { rewrite prefix_lookups. split.
    - intros H. split.
      + intros k c Hk E. apply H. rewrite lookup_take_lt by done. apply lookup_app_l_Some, E.
      + intros Hn. apply H. rewrite lookup_take_lt by done. unfold n. by rewrite lookup_app_r, Nat.sub_diag by lia.
    - intros [H1 H2] k c. destruct (decide (k < 14)%nat); [|rewrite lookup_take_ge by lia; done].
      rewrite lookup_take_lt by done. rewrite lookup_app. destruct (name !! k) as [c'|] eqn:E.
      + intros [= <-]. auto.
      + apply lookup_ge_None in E. destruct (k - length name)%nat eqn:Ek; [|done]. intros [= <-].
        replace k with n by lia. apply H2. lia. }
  destruct ((m <? 14) && truth (default 0 (zget (de_name e) m))) eqn:Eb.
  { apply bool_decide_eq_false. intros [_ [_ H2]%Hp]. apply andb_true_iff in Eb as [Hlt Ht].
    apply Z.ltb_lt in Hlt. assert (Hn : (n < 14)%nat) by lia. specialize (H2 Hn).
    replace m with (Z.of_nat n) in Ht by lia. unfold zget in Ht.
    destruct (Z.ltb_spec (Z.of_nat n) 0); [lia|]. by rewrite Nat2Z.id, H2 in Ht. }
  apply Bool.eq_iff_eq_true. rewrite bool_decide_eq_true, forallb_seq. unfold named. rewrite Hp. clear Hp.
  rewrite Hm, Nat2Z.id. split.
  - intros [_ [H1 _]] k Hk. destruct (lookup_lt_is_Some_2 name k) as [c E]; [lia|].
    rewrite (H1 k c ltac:(lia) E), (Hu k c E). apply Z.eqb_refl.
  - intros H. split; [done|]. split.
    + intros k c Hk E. pose proof (lookup_lt_Some _ _ _ E). specialize (H k ltac:(lia)).
      rewrite (Hu k c E) in H. apply Z.eqb_eq in H. destruct (lookup_lt_is_Some_2 (de_name e) k) as [d Ed]; [lia|].
      rewrite Ed in H. cbn in H. congruence.
    + intros Hn. destruct (lookup_lt_is_Some_2 (de_name e) n) as [d Ed]; [lia|].
      destruct (Z.ltb_spec m 14); [|lia]. cbn [andb] in Eb. unfold zget in Eb.
      destruct (Z.ltb_spec m 0); [lia|]. replace (Z.to_nat m) with n in Eb by lia.
      rewrite Ed in Eb. cbn in Eb. unfold truth in Eb. destruct (Z.eqb_spec d 0); [by subst|done].
Qed.

Section dir.
Context {W : Type} `{!Env W} `{!Wired W} `{!BlockIO W}.
Context (dev : Z).

(** Entry [i] of the directory with inode [x], and how many there are. *)
Definition dirent (w : W) (x : m_inode) (i : Z) : dir_entry :=
  match data w dev (file_block dev w x (i / 64)) with
  | Bytes l => entry_at l (i mod 64)
  | _ => DirEntry 0 []
  end.
Definition slots (x : m_inode) : Z := i_size x / 16.
Definition dir_find (w : W) (x : m_inode) (name : list Z) : option Z :=
  snd <$> list_find (fun i => named name (dirent w x i)) (seqZ 0 (slots x)).

(** The blocks of the directory are there. *)
Record dir_ok (w : W) (x : m_inode) : Prop := {
  do_width : in_width x;
  do_index : index_ok dev w x;
  do_size : slots x <= 64 * max_block;
  do_block : forall q, 0 <= q -> 64 * q < Z.max 1 (slots x) ->
    file_block dev w x q <> 0 /\ exists l, data w dev (file_block dev w x q) = Bytes l
}.

Section same.
Context (w w' : W) (Hd : forall d b, data w' d b = data w d b).
Lemma ientry_same b k : ientry dev w' b k = ientry dev w b k.
Proof. by apply ientry_data. Qed.
Lemma file_block_same x q : file_block dev w' x q = file_block dev w x q.
Proof. unfold file_block. by rewrite !ientry_same. Qed.
Lemma index_ok_same x : index_ok dev w x -> index_ok dev w' x.
Proof.
  unfold index_ok, readable. setoid_rewrite ientry_same. by setoid_rewrite Hd.
Qed.
Lemma dirent_same x i : dirent w' x i = dirent w x i.
Proof. unfold dirent. by rewrite file_block_same, Hd. Qed.
Lemma dir_find_same x name : dir_find w' x name = dir_find w x name.
Proof.
  unfold dir_find. f_equal. apply list_find_ext. intros i. by rewrite dirent_same.
Qed.
Lemma dir_ok_same x : dir_ok w x -> dir_ok w' x.
Proof.
  intros [D1 D2 D3 D4]. split; [done|by apply index_ok_same|done|].
  intros q Hq Hs. rewrite file_block_same, Hd. by apply D4.
Qed.
End same.

Lemma dir_find_Some w x name i : dir_find w x name = Some i <->
  0 <= i < slots x /\ named name (dirent w x i) /\ forall j, 0 <= j < i -> ~ named name (dirent w x j).
Proof.
  unfold dir_find. split.
  - intros H. apply fmap_Some in H as ([k j] & E & ->). cbn [snd].
    apply list_find_Some in E as (Ek & Hn & Hmin). apply lookup_seqZ in Ek as [-> Hk].
    split_and!; [lia|lia|done|]. intros j Hj. apply (Hmin (Z.to_nat j) j); [|lia].
    apply lookup_seqZ. lia.
  - intros (Hi & Hn & Hmin). apply fmap_Some. exists (Z.to_nat i, i). split; [|done].
    apply list_find_Some. split_and!; [apply lookup_seqZ; lia|done|].
    intros k j Ek Hlt. apply lookup_seqZ in Ek as [-> Hk]. apply Hmin. lia.
Qed.
Lemma dir_find_None w x name :
  (forall j, 0 <= j < slots x -> ~ named name (dirent w x j)) -> dir_find w x name = None.
Proof.
  intros H. destruct (dir_find w x name) as [i|] eqn:E; [|done].
  apply dir_find_Some in E as (Hi & Hn & _). by destruct (H i Hi).
Qed.

Lemma entry_name_length l k : length l = Z.to_nat BLOCK_SIZE -> 0 <= k < 64 ->
  length (de_name (entry_at l k)) = 14%nat.
Proof.
  intros Hl Hk. cbn [entry_at de_name]. rewrite length_take, length_drop, Hl.
  change (Z.to_nat BLOCK_SIZE) with 1024%nat. lia.
Qed.

Lemma slots_range x : in_width x -> 0 <= slots x < 2 ^ 28 /\ s32 (i_size x / 16) = slots x.
Proof.
  intros (_ & _ & Hs & _). unfold slots. assert (H : 0 <= i_size x / 16 < 2 ^ 28) by lia.
  split; [done|]. apply s32_small. lia.
Qed.

(** The loop of find_entry(), from entry [i] on, in a state [w] that comes
    from [w0]: the buffer [b] holds the block of the entry before or, with
    [de < 64], its own. *)
Lemma find_from_run ps w0 d x user p name fuel :
  (length ps < room)%nat -> itable w0 !! d = Some x -> i_dev x = dev -> dir_ok w0 x ->
  at_user user p name ->
  let len := if NAME_LEN <? Z.of_nat (length name) then NAME_LEN else Z.of_nat (length name) in
  forall n w i b q de,
  inv (b :: ps) w -> stable ps w0 w -> (forall d y, data w d y = data w0 d y) ->
  ident (lget cl w) b = Some (dev, file_block dev w0 x q) ->
  i = 64 * q + de -> 0 <= q -> 0 <= de <= 64 -> (Z.to_nat (slots x - i) <= n)%nat ->
  exists r w', find_from user fuel d p len (slots x) n i (Some b) de w = Ret r w' /\
    stable ps w0 w' /\ (forall d y, data w' d y = data w0 d y) /\
    match r with
    | None => inv ps w' /\ forall j, i <= j < slots x -> ~ named name (dirent w0 x j)
    | Some (b', de') => exists j, i <= j < slots x /\ named name (dirent w0 x j) /\
        (forall k, i <= k < j -> ~ named name (dirent w0 x k)) /\ de' = j mod 64 /\
        inv (b' :: ps) w' /\ ident (lget cl w') b' = Some (dev, file_block dev w0 x (j / 64))
    end.
Proof.
  intros Hr E Hdev D Hu len. induction n as [|n IH]; intros w i b q de Hi S Hd Hid Hiq Hq Hde Hn;
    cbn [find_from]; destruct (Z.leb_spec (slots x) i) as [Hge|Hlt].
  1, 3: destruct (brelse_ok _ _ _ Hi) as (w' & Eb & Hi' & Hd' & S');
    exists None, w'; rewrite (bind_ret _ _ _ _ _ Eb); split_and!;
    [done|by eapply stable_trans|by intros; rewrite Hd', Hd|done|intros; lia].
  { lia. }
  cbn [deref]. rewrite bind_ret_l.
  assert (Hround : forall w b q de, inv (b :: ps) w -> stable ps w0 w ->
    (forall d y, data w d y = data w0 d y) -> ident (lget cl w) b = Some (dev, file_block dev w0 x q) ->
    i = 64 * q + de -> 0 <= q -> 0 <= de < 64 ->
    exists r w', (let! l := buf b_bytes b in
      if match_name user len p (entry_at l de) then ret (Some (b, de))
      else find_from user fuel d p len (slots x) n (i + 1) (Some b) (de + 1)) w = Ret r w' /\
      stable ps w0 w' /\ (forall d y, data w' d y = data w0 d y) /\
      match r with
      | None => inv ps w' /\ forall j, i <= j < slots x -> ~ named name (dirent w0 x j)
      | Some (b', de') => exists j, i <= j < slots x /\ named name (dirent w0 x j) /\
          (forall k, i <= k < j -> ~ named name (dirent w0 x k)) /\ de' = j mod 64 /\
          inv (b' :: ps) w' /\ ident (lget cl w') b' = Some (dev, file_block dev w0 x (j / 64))
      end).
  { clear w b q de Hi S Hd Hid Hiq Hq Hde. intros w b q de Hi S Hd Hid Hiq Hq Hde.
    destruct (do_block _ _ D q Hq ltac:(lia)) as [_ [l El]].
    destruct (held_bytes (b :: ps) w b dev (file_block dev w0 x q) l Hi) as (y & By & Hy & Hyl & _);
      [by left|done|by rewrite Hd|].
    rewrite (buf_bind _ _ _ _ _ By), Hyl.
    assert (Eq : i / 64 = q /\ i mod 64 = de) by lia. destruct Eq as [Eq Ede].
    assert (Edir : dirent w0 x i = entry_at l de) by (unfold dirent; by rewrite Eq, El, Ede).
    unfold len. rewrite (match_name_named user p name);
      [|done|].
    2:{ apply entry_name_length; [|done]. destruct Hy as [Hy _]. by rewrite <-Hyl. }
    fold len. rewrite <-Edir. case_bool_decide as Hnm.
    - exists (Some (b, de)), w. split_and!; [done|done|done|].
      exists i. rewrite Eq, Ede. split_and!; try done; lia.
    - destruct (IH w (i + 1) b q (de + 1)) as (r & w' & Er & S' & Hd' & Hres); try done; try lia.
      exists r, w'. split_and!; [done..|]. destruct r as [[b' de']|].
      + destruct Hres as (j & Hj & Hjn & Hmin & Hrest). exists j. split_and!; [lia|lia|done| |apply Hrest..].
        intros k Hk. destruct (decide (k = i)) as [->|]; [done|]. apply Hmin. lia.
      + split; [apply Hres|]. intros j Hj. destruct (decide (j = i)) as [->|]; [done|]. apply Hres. lia. }
  unfold DIR_ENTRIES_PER_BLOCK. change (BLOCK_SIZE / 16) with 64.
  destruct (Z.leb_spec 64 de) as [H64|H64].
  - destruct (brelse_ok _ _ _ Hi) as (w1 & Eb & Hi1 & Hd1 & S1).
    assert (Hd1' : forall d y, data w1 d y = data w0 d y) by (intros; by rewrite Hd1).
    assert (S1' : stable ps w0 w1) by (by eapply stable_trans).
    assert (E1 : itable w1 !! d = Some x) by (by rewrite (stable_itable _ _ _ S1')).
    destruct (do_block _ _ D (q + 1) ltac:(lia) ltac:(lia)) as [Hnz [l El]].
    destruct (bmap_run dev fuel ps w1 d x (q + 1) Hi1 Hr E1) as (w2 & Em & Hi2 & S2 & Hd2);
      [apply D|done|by apply (index_ok_same w0); [|apply D]|pose proof (do_size _ _ D); lia|].
    rewrite (file_block_same w0 w1 Hd1') in Em.
    destruct (bread_ok ps w2 dev (file_block dev w0 x (q + 1)) l) as (b' & w3 & Er & Hp);
      [done|by rewrite Hd2, Hd1'|done|].
    assert (S2' : stable ps w0 w2) by (by eapply stable_trans).
    assert (E2 : itable w2 !! d = Some x) by (by rewrite (stable_itable _ _ _ S2')).
    destruct Hp as (Hi3 & Hd3 & S3 & Hid3).
    destruct (Hround w3 b' (q + 1) 0) as (r & w' & Ef & Hres); try done; try lia.
    { by eapply stable_trans. }
    { intros. by rewrite Hd3, Hd2, Hd1'. }
    exists r, w'. split; [|done].
    rewrite bind_assoc, (bind_ret _ _ _ _ _ Eb), bind_assoc.
    replace (Z.quot i 64) with (q + 1) by (rewrite Z.quot_div_nonneg; lia).
    rewrite (bind_ret _ _ _ _ _ Em). destruct (Z.eqb_spec (file_block dev w0 x (q + 1)) 0); [done|].
    rewrite bind_assoc, (ino_bind _ _ _ _ _ E2), Hdev, bind_assoc, (bind_ret _ _ _ _ _ Er).
    rewrite bind_ret_l. exact Ef.
  - rewrite bind_ret_l. apply (Hround w b q de); try done; lia.
Qed.

(** ** find_entry() *)

Lemma me_bind {A B} (f : task_struct -> A) (k : A -> M W B) w t :
  task_at (lget tl w) (current (lget tl w)) = Some t -> bind (me f) k w = k (f t) w.
Proof. intros E. apply (bind_zoom_read tl). by rewrite bind_get, (bind_deref _ _ _ _ E). Qed.

(** In the root directory '..' is '.', and there is no empty name. *)
Definition find_name (w : W) (x : m_inode) (name : list Z) : option Z :=
  match name with
  | [] => None
  | _ => dir_find w x (if decide (name = [dot; dot] /\ i_num x = ROOT_INO) then [dot] else name)
  end.

(** The directories of the running task: [t] its process, [r] its root. *)
Record rooted (w : W) (t : task_struct) (r : nat) : Prop := {
  ro_task : task_at (lget tl w) (current (lget tl w)) = Some t;
  ro_root : root t = Some r;
  ro_ref : ref dev w r ROOT_INO
}.

Lemma dot_dot_run s sb fuel user ps qs w d x t r p name :
  fs_inv dev s sb ps qs w -> itable w !! d = Some x -> i_dev x = dev -> rooted w t r ->
  at_user user p name ->
  dot_dot user fuel d p (Z.of_nat (length name)) w =
    Ret (d, Z.of_nat (length (if decide (name = [dot; dot] /\ i_num x = ROOT_INO) then [dot] else name))) w.
Proof.
  intros F E Hdev [Rt Rr (y & Ey & Dy & Ny)] Hu. unfold dot_dot.
  destruct ((Z.of_nat (length name) =? 2) && (user p =? dot) && (user (p + 1) =? dot)) eqn:Eb.
  - rewrite !andb_true_iff, !Z.eqb_eq in Eb. destruct Eb as [[Hl H0] H1].
    destruct name as [|a [|b [|? ?]]]; cbn [length] in Hl; try lia.
    pose proof (Hu 0%nat a eq_refl) as Ha. pose proof (Hu 1%nat b eq_refl) as Hb.
    rewrite Z.add_0_r in Ha. change (Z.of_nat 1) with 1 in Hb.
    assert (a = dot /\ b = dot) as [-> ->] by (split; congruence).
    rewrite (me_bind _ _ _ _ Rt), Rr. case_bool_decide as Hrd.
    + injection Hrd as ->. assert (x = y) as -> by congruence. by rewrite decide_True.
    + rewrite (ino_bind _ _ _ _ _ E). destruct (Z.eqb_spec (i_num x) ROOT_INO) as [Hn|Hn].
      * exfalso. apply Hrd. f_equal. apply (tb_uniq _ _ _ _ (fi_table _ _ _ _ _ _ F) r d y x); congruence.
      * rewrite decide_False by tauto. done.
  - rewrite decide_False; [done|]. intros [-> _].
    pose proof (Hu 0%nat dot eq_refl) as Ha. pose proof (Hu 1%nat dot eq_refl) as Hb.
    rewrite Z.add_0_r in Ha. change (Z.of_nat 1) with 1 in Hb. by rewrite Ha, Hb in Eb.
Qed.

Lemma named_short name e : named (take 14 name) e <-> named name e.
Proof.
  unfold named. replace (take 14 (take 14 name ++ [0])) with (take 14 (name ++ [0])); [done|].
  destruct (decide (length name < 14)%nat); [by rewrite (take_ge name) by lia|].
  rewrite !take_app_le by (rewrite ?length_take; lia). by rewrite take_take, Nat.min_id.
Qed.

Lemma at_user_take user p l n : at_user user p l -> at_user user p (take n l).
Proof. intros H k c [E _]%lookup_take_Some. by apply H. Qed.

Lemma find_entry_run s sb fuel user ps qs w d x t r p name :
  fs_inv dev s sb ps qs w -> itable w !! d = Some x -> i_dev x = dev -> dir_ok w x ->
  rooted w t r -> at_user user p name ->
  exists res w', find_entry user fuel d p (Z.of_nat (length name)) w = Ret (d, res) w' /\
    stable ps w w' /\ (forall e y, data w' e y = data w e y) /\
    match find_name w x name with
    | None => res = None /\ inv ps w'
    | Some j => exists b, res = Some (b, j mod 64) /\ inv (b :: ps) w' /\
        ident (lget cl w') b = Some (dev, file_block dev w x (j / 64))
    end.
Proof.
  intros F E Hdev D R Hu. unfold find_entry.
  rewrite (ino_bind _ _ _ _ _ E). rewrite (proj2 (slots_range x (do_width _ _ D))).
  set (len := Z.of_nat (length (take 14 name))).
  assert (Hlen : (if NAME_LEN <? Z.of_nat (length name) then NAME_LEN else Z.of_nat (length name)) = len).
  { unfold len, NAME_LEN. rewrite length_take. destruct (Z.ltb_spec 14 (Z.of_nat (length name))); lia. }
  rewrite Hlen. destruct (decide (name = [])) as [Hname|Hname].
  { exists None, w. unfold len. rewrite Hname. unfold find_name. split_and!; (done || apply stable_refl || apply F). }
  assert (Hpos : (0 < length name)%nat) by (destruct name; [done|cbn; lia]).
  destruct (Z.eqb_spec len 0) as [H0|_]; [unfold len in H0; rewrite length_take in H0; lia|].
  pose proof (dot_dot_run s sb fuel user ps qs w d x t r p (take 14 name) F E Hdev R (at_user_take _ _ _ 14 Hu)) as Ed.
  set (name1 := if decide (take 14 name = [dot; dot] /\ i_num x = ROOT_INO) then [dot] else take 14 name) in *.
  rewrite (bind_ret _ _ _ _ _ Ed).
  assert (Hn1 : forall e, named name1 e <->
    named (if decide (name = [dot; dot] /\ i_num x = ROOT_INO) then [dot] else name) e).
  { intros e. unfold name1.
    assert (Ht : take 14 name = [dot; dot] <-> name = [dot; dot]).
    { split; [|by intros ->]. intros Ht. destruct (decide (length name <= 14)%nat); [by rewrite take_ge in Ht by lia|].
      apply (f_equal length) in Ht. rewrite length_take in Ht. cbn [length] in Ht. lia. }
    repeat case_decide; try tauto. apply named_short. }
  assert (Hu1 : at_user user p name1).
  { unfold name1. destruct (decide (take 14 name = [dot; dot] /\ i_num x = ROOT_INO)) as [Hc|Hc]; [|by apply at_user_take].
    pose proof (at_user_take _ _ _ 14 Hu) as Hu14. rewrite (proj1 Hc) in Hu14.
    intros k v Ek. apply (Hu14 k v). by destruct k. }
  assert (Hl1 : (if NAME_LEN <? Z.of_nat (length name1) then NAME_LEN else Z.of_nat (length name1)) =
    Z.of_nat (length name1)).
  { assert (length name1 <= 14)%nat; [|unfold NAME_LEN; destruct (Z.ltb_spec 14 (Z.of_nat (length name1))); lia].
    unfold name1. destruct (decide (take 14 name = [dot; dot] /\ i_num x = ROOT_INO)); [cbn; lia|]. rewrite length_take. lia. }
  destruct (do_block _ _ D 0 ltac:(lia) ltac:(lia)) as [Hnz [l El]].
  assert (Hfb : file_block dev w x 0 = zone_at x 0) by done. rewrite Hfb in Hnz, El.
  rewrite (bind_ret _ _ _ _ _ (zone_of_run 0 _ _ _ E (do_width _ _ D) ltac:(lia))).
  destruct (Z.eqb_spec (zone_at x 0) 0); [done|].
  rewrite (ino_bind _ _ _ _ _ E), Hdev.
  destruct (bread_ok ps w dev (zone_at x 0) l) as (b & w1 & Eb & Hi1 & Hd1 & S1 & Hid1);
    [apply F|done|apply F|].
  rewrite (bind_ret _ _ _ _ _ Eb).
  pose proof (slots_range x (do_width _ _ D)) as [Hs _].
  destruct (find_from_run ps w d x user p name1 fuel (fi_room _ _ _ _ _ _ F) E Hdev D Hu1
    (Z.to_nat (slots x)) w1 0 b 0 0) as (res & w' & Ef & S' & Hd' & Hres); try done; try lia.

  rewrite Hl1 in Ef. exists res, w'. rewrite (bind_ret _ _ _ _ _ Ef). split_and!; [done..|].
  replace (find_name w x name) with
    (dir_find w x (if decide (name = [dot; dot] /\ i_num x = ROOT_INO) then [dot] else name))
    by (by destruct name).
  destruct res as [[b' de']|].
  - destruct Hres as (j & Hj & Hnm & Hmin & -> & Hi' & Hid').
    replace (dir_find w x _) with (Some j); [by exists b'|]. symmetry. apply dir_find_Some.
    split_and!; [lia|lia|by apply Hn1|]. intros k Hk. rewrite <-Hn1. by apply Hmin.
  - destruct Hres as [Hi' Hno]. rewrite dir_find_None; [done|]. intros j Hj. rewrite <-Hn1. by apply Hno.
Qed.
End dir.

(** ** The small file system *)

(** User memory with the string [l] at 0. *)
Definition memory_of (l : list Z) : Z -> Z := fun a => default 0 (zget l a).
Lemma memory_of_at l : at_user (memory_of l) 0 l.
Proof.
  intros k c E. unfold memory_of, zget. rewrite Z.add_0_l. destruct (Z.ltb_spec (Z.of_nat k) 0); [lia|].
  by rewrite Nat2Z.id, E.
Qed.
Lemma dir_ok0 : dir_ok dev0 world0 root0.
Proof.
  split.
  - by apply small_width.
  - split_and!; [intros H; by destruct H..|]. intros k _ H. exfalso. by apply H.
  - vm_compute. discriminate.
  - intros q Hq Hs. assert (q = 0) as -> by (change (slots root0) with 3 in Hs; lia).
    split; [vm_compute; discriminate|]. apply is_bytes_ok. vm_compute. reflexivity.
Qed.
Lemma rooted0 : rooted dev0 world0 task0 0.
Proof. split; [reflexivity|reflexivity|]. exists root0. by split_and!. Qed.

(** ** The theorem *)

(** C16.  find_entry() on a directory whose blocks can be read searches the
    name (of at most 14 bytes: longer ones are cut) in the entries of the
    directory, in all of its blocks, and finds the first entry that has it,
    if there is one: it returns that entry in a buffer with the entry's
    block, which is the only buffer that the task holds more than before.
    Without an entry it returns NULL and holds no buffer.  '..' in the root
    directory is searched as '.', an empty name is not found.  Neither the
    device nor the tables change. *)
Theorem find_entry_spec {W} `{!Env W, !Wired W, !BlockIO W} dev s sb fuel user ps qs (w : W) d x t r p name :
  fs_inv dev s sb ps qs w -> itable w !! d = Some x -> i_dev x = dev -> dir_ok dev w x ->
  rooted dev w t r -> at_user user p name ->
  exists res w', find_entry user fuel d p (Z.of_nat (length name)) w = Ret (d, res) w' /\
    lget fl w' = lget fl w /\ (forall e y, data w' e y = data w e y) /\
    let sought := if decide (name = [dot; dot] /\ i_num x = ROOT_INO) then [dot] else name in
    match res with
    | Some (b, de) => exists j, name <> [] /\ 0 <= j < slots x /\ named sought (dirent dev w x j) /\
        (forall k, 0 <= k < j -> ~ named sought (dirent dev w x k)) /\
        de = j mod 64 /\ inv (b :: ps) w' /\
        exists l y, bufs (lget cl w') !! b = Some y /\ b_bytes y = l /\ entry_at l de = dirent dev w x j
    | None => inv ps w' /\ (name = [] \/ forall k, 0 <= k < slots x -> ~ named sought (dirent dev w x k))
    end.
Proof.
  intros F E Hdev D R Hu.
  destruct (find_entry_run dev s sb fuel user ps qs w d x t r p name F E Hdev D R Hu)
    as (res & w' & Ef & S & Hd & Hres).
  exists res, w'. split_and!; [done|apply S|done|]. intros sought.
  assert (Hfind : find_name dev w x name = match name with [] => None | _ => dir_find dev w x sought end)
    by (by destruct name).
  destruct (find_name dev w x name) as [j|].
  - destruct Hres as (b & -> & Hi & Hid). exists j. destruct (decide (name = [])) as [->|Hne]; [done|].
    assert (Ej : dir_find dev w x sought = Some j) by (by destruct name).
    apply dir_find_Some in Ej as (Hj & Hn & Hmin).
    destruct (do_block _ _ _ D (j / 64) ltac:(lia) ltac:(lia)) as [_ [l El]].
    destruct (held_bytes (b :: ps) w' b dev _ l Hi ltac:(by left) Hid ltac:(by rewrite Hd)) as (y & By & _ & Hy & _).
    split_and!; try done; try lia. exists l, y. split_and!; [done..|]. unfold dirent. by rewrite El.
  - destruct Hres as [-> Hi]. split; [done|]. destruct (decide (name = [])) as [->|Hne]; [by left|right].
    assert (Ej : dir_find dev w x sought = None) by (by destruct name).
    intros k Hk Hn. unfold dir_find in Ej.
    destruct (list_find_elem_of (fun i => named sought (dirent dev w x i)) (seqZ 0 (slots x)) k) as [z Ez];
      [apply elem_of_seqZ; lia|done|]. by rewrite Ez in Ej.
Qed.

(** The file 'a' is entry 2 of the root directory of the sample; there is
    no 'b'. *)
Lemma find_entry_spec_witness :
  (exists b w', find_entry (memory_of [97; 0]) 8 0 0 1 world0 = Ret (0%nat, Some (b, 2)) w' /\
     inv (b :: held0) w') /\
  (exists w', find_entry (memory_of [98; 0]) 8 0 0 1 world0 = Ret (0%nat, None) w' /\ inv held0 w').
Proof.
  assert (Ha : match find_entry (memory_of [97; 0]) 8 0 0 1 world0 with
               | Ret (_, Some (_, de)) _ => de =? 2 | _ => false end = true) by (vm_compute; reflexivity).
  assert (Hb : match find_entry (memory_of [98; 0]) 8 0 0 1 world0 with
               | Ret (_, None) _ => true | _ => false end = true) by (vm_compute; reflexivity).
  assert (Hu : forall c, at_user (memory_of [c; 0]) 0 [c]).
  { intros c k v Ek. apply (memory_of_at [c; 0]). by destruct k. }
  split.
  - destruct (find_entry_spec dev0 0 super0 8 (memory_of [97; 0]) held0 refs0 world0 0 root0 task0 0 0 [97]
      fs_inv0 eq_refl eq_refl dir_ok0 rooted0 (Hu 97)) as (res & w' & E & _ & _ & Hres).
    change (Z.of_nat (length [97])) with 1 in E. rewrite E in Ha. destruct res as [[b de]|]; [|discriminate Ha].
    apply Z.eqb_eq in Ha. subst de. destruct Hres as (j & _ & _ & _ & _ & _ & Hi & _).
    exists b, w'. split; [exact E|exact Hi].
  - destruct (find_entry_spec dev0 0 super0 8 (memory_of [98; 0]) held0 refs0 world0 0 root0 task0 0 0 [98]
      fs_inv0 eq_refl eq_refl dir_ok0 rooted0 (Hu 98)) as (res & w' & E & _ & _ & Hres).
    change (Z.of_nat (length [98])) with 1 in E. rewrite E in Hb. destruct res as [[b de]|]; [discriminate Hb|].
    exists w'. split; [exact E|apply Hres].
Defined.
