(* ===== verification/Walk.v ===== *)
(** * Paths: the walk of get_dir(), dir_namei() and open_namei() of
    fs/namei.c

    The directories of a device are a graph on the numbers of its inodes
    ([child]); [resolve] follows a list of names in it.  The code does the
    same with references to inodes in memory and buffers that it takes and
    gives back on the way. *)

From S2P Require Import Prelude Task Sched WaitQ Buffer Blk Fs Blocks Super Mini Bitmap Inode Bmap Trunc Namei Dir.

#[local] Ltac Zify.zify_post_hook ::= Z.div_mod_to_equations.

(** ** The parts of a path *)

(** The names that end with a slash, and the last one. *)
Fixpoint split_path (l : list Z) : list (list Z) * list Z :=
  match l with
  | [] => ([], [])
  | c :: l' =>
      let '(cs, b) := split_path l' in
      if c =? slash then ([] :: cs, b)
      else match cs with [] => ([], c :: b) | d :: ds => ((c :: d) :: ds, b) end
  end.
Definition join_path (cs : list (list Z)) : list Z := concat ((fun c => c ++ [slash]) <$> cs).
Definition plain (l : list Z) : Prop := Forall (fun c => c <> 0 /\ c <> slash) l.

Lemma split_path_join l : Forall (fun c => c <> 0) l ->
  let '(cs, b) := split_path l in
  l = join_path cs ++ b /\ Forall plain cs /\ plain b.
Proof.
  unfold plain. induction 1 as [|c l Hc Hl IH]; [by split_and!|]. cbn [split_path].
  destruct (split_path l) as [cs b]. destruct IH as (-> & H1 & H2).
  destruct (Z.eqb_spec c slash) as [->|Hs].
  - split_and!; [done|by constructor|done].
  - destruct cs as [|d ds]; [by split_and!; [| |constructor]|].
    apply Forall_cons in H1 as [H1 H1']. split_and!; [done|by repeat constructor|done].
Qed.

Lemma at_user_app user p l k : at_user user p (l ++ k) <->
  at_user user p l /\ at_user user (p + Z.of_nat (length l)) k.
Proof.
  unfold at_user. split.
  - intros H. split.
    + intros i c E. apply H. by apply lookup_app_l_Some.
    + intros i c E. rewrite <-Z.add_assoc, <-Nat2Z.inj_add. apply H.
      rewrite lookup_app_r by lia. by replace (length l + i - length l)%nat with i by lia.
  - intros [H1 H2] i c [E|[Hl E]]%lookup_app_Some; [by apply H1|].
    replace (p + Z.of_nat i) with (p + Z.of_nat (length l) + Z.of_nat (i - length l)) by lia.
    by apply H2.
Qed.
Lemma at_user_cons user p c l : at_user user p (c :: l) <-> user p = c /\ at_user user (p + 1) l.
Proof.
  change (c :: l) with ([c] ++ l). rewrite at_user_app. cbn [length]. change (Z.of_nat 1) with 1.
  split; intros [H1 H2]; (split; [|done]).
  - by rewrite <-(H1 0%nat c eq_refl), Z.add_0_r.
  - intros [|i] d; [|done]. intros [= <-]. by rewrite Z.add_0_r.
Qed.

Section path.
Context {W : Type} `{!Env W} `{!Wired W} `{!BlockIO W}.
Context (user : Z -> Z).

Lemma scan_part_run c sep w fuel p n : plain c -> sep = 0 \/ sep = slash ->
  at_user user (p + n) (c ++ [sep]) -> (length c <= fuel)%nat ->
  scan_part (W := W) user fuel p n w = Ret (sep, n + Z.of_nat (length c)) w.
Proof.
  intros Hc Hs. revert fuel n. induction c as [|x c IH]; intros fuel n Hu Hf.
  - cbn [app] in Hu. apply at_user_cons in Hu as [Hu _]. rewrite Z.add_0_r.
    destruct fuel; cbn [scan_part]; rewrite Hu; by destruct Hs as [->| ->].
  - cbn [app] in Hu. apply at_user_cons in Hu as [Hu Hu']. apply Forall_cons in Hc as [[H0 Hsl] Hc].
    cbn [length] in Hf. destruct fuel as [|fuel]; [lia|]. cbn [scan_part]. rewrite Hu.
    destruct (Z.eqb_spec x 0); [done|]. destruct (Z.eqb_spec x slash); [done|]. cbn [orb].
    rewrite IH; [|done|by replace (p + (n + 1)) with (p + n + 1) by lia|lia].
    f_equal. f_equal. cbn [length]. lia.
Qed.

Lemma scan_base_plain b w fuel p base : plain b -> at_user user p (b ++ [0]) -> (length b <= fuel)%nat ->
  scan_base (W := W) user fuel p base w = Ret (base, p + Z.of_nat (length b)) w.
Proof.
  intros Hb. revert fuel p. induction b as [|x b IH]; intros fuel p Hu Hf; cbn [app] in Hu;
    apply at_user_cons in Hu as [Hu Hu'].
  - rewrite Z.add_0_r. destruct fuel; cbn [scan_base]; by rewrite Hu.
  - apply Forall_cons in Hb as [[H0 Hs] Hb]. cbn [length] in *. destruct fuel as [|fuel]; [lia|].
    cbn [scan_base]. rewrite Hu. destruct (Z.eqb_spec x 0); [done|]. destruct (Z.eqb_spec x slash); [done|].
    rewrite IH; [|done|done|lia]. f_equal. f_equal. lia.
Qed.
Lemma scan_base_part c l w fuel p base : plain c -> at_user user p (c ++ slash :: l) ->
  (length c < fuel)%nat ->
  scan_base (W := W) user fuel p base w =
    scan_base (W := W) user (fuel - S (length c)) (p + Z.of_nat (length c) + 1) (p + Z.of_nat (length c) + 1) w.
Proof.
  intros Hc. revert fuel p. induction c as [|x c IH]; intros fuel p Hu Hf; cbn [app length] in *;
    apply at_user_cons in Hu as [Hu Hu']; (destruct fuel as [|fuel]; [lia|]); cbn [scan_base]; rewrite Hu.
  - change (slash =? 0) with false. rewrite Z.eqb_refl. cbn iota. rewrite Z.add_0_r. f_equal. lia.
  - apply Forall_cons in Hc as [[H0 Hs] Hc]. destruct (Z.eqb_spec x 0); [done|].
    destruct (Z.eqb_spec x slash); [done|]. rewrite IH; [|done|done|lia].
    change (S fuel - S (S (length c)))%nat with (fuel - S (length c))%nat. f_equal; lia.
Qed.

(** The base name of a path is the part after the last slash. *)
Lemma scan_base_run cs b w fuel p base : Forall plain cs -> plain b ->
  at_user user p (join_path cs ++ b ++ [0]) -> (length (join_path cs ++ b) <= fuel)%nat ->
  scan_base (W := W) user fuel p base w =
    Ret (if cs is [] then base else p + Z.of_nat (length (join_path cs)),
         p + Z.of_nat (length (join_path cs ++ b))) w.
Proof.
  intros Hcs Hb. revert fuel p base. induction Hcs as [|c cs Hc Hcs IH]; intros fuel p base Hu Hf.
  - by apply scan_base_plain.
  - change (join_path (c :: cs)) with ((c ++ [slash]) ++ join_path cs) in *.
    rewrite <-!app_assoc in Hu. rewrite <-app_assoc, !length_app in Hf. cbn [app length] in Hu, Hf.
    rewrite (scan_base_part c _ w fuel p base Hc Hu ltac:(lia)).
    apply at_user_app in Hu as [_ Hu]. apply at_user_cons in Hu as [_ Hu].
    rewrite IH; [|done|rewrite length_app; lia].
    f_equal. rewrite !length_app. cbn [length]. destruct cs; f_equal; cbn [join_path fmap list_fmap concat length]; lia.
Qed.
End path.

(** ** The graph of the directories *)

Section tree.
Context {W : Type} `{!Env W} `{!Wired W} `{!BlockIO W}.
Context (dev : Z) (s : nat) (sb : super_block).
Notation fs_inv := (fs_inv dev s sb).
Notation calm := (calm dev sb).
Notation kept := (kept dev sb).
Notation ref := (ref dev).

(** Inode [nr], with its number. *)
Definition node (w : W) (nr : Z) : m_inode := (inode_of dev sb w nr) <| i_num := nr |>.
Definition is_dir (w : W) (nr : Z) : bool := S_ISDIR (i_mode (node w nr)).
Definition child (w : W) (nr : Z) (name : list Z) : option Z :=
  (fun j => de_inode (dirent dev w (node w nr) j)) <$> find_name dev w (node w nr) name.
Fixpoint resolve (w : W) (nr : Z) (names : list (list Z)) : option Z :=
  if is_dir w nr then
    match names with
    | [] => Some nr
    | c :: cs => match child w nr c with Some nr' => resolve w nr' cs | None => None end
    end
  else None.

(** The blocks of a directory are zones. *)
Record dir_zones (w : W) (x : m_inode) : Prop := {
  dz_index : forall b, is_index dev w x b -> s_firstdatazone sb <= b;
  dz_block : forall q, 0 <= q -> 64 * q < Z.max 1 (slots x) ->
    s_firstdatazone sb <= file_block dev w x q
}.
(** An inode that has links. *)
Definition live (w : W) (nr : Z) : Prop := in_fs sb nr /\ i_nlinks (node w nr) <> 0.
(** Directories can be read, and their entries are for inodes that have
    links. *)
Record tree_ok (w : W) : Prop := {
  tr_dir : forall nr, live w nr -> is_dir w nr = true ->
    dir_ok dev w (node w nr) /\ dir_zones w (node w nr);
  tr_entry : forall nr j, live w nr -> is_dir w nr = true ->
    0 <= j < slots (node w nr) -> de_inode (dirent dev w (node w nr) j) <> 0 ->
    live w (de_inode (dirent dev w (node w nr) j))
}.

(** The zones have the same contents, and the inodes are the same. *)
Definition same_zones (w w' : W) : Prop :=
  forall b, s_firstdatazone sb <= b -> data w' dev b = data w dev b.
Record seen (w w' : W) : Prop := {
  sn_zones : same_zones w w';
  sn_inode : forall nr, in_fs sb nr -> inode_of dev sb w' nr = inode_of dev sb w nr
}.
Lemma kept_zones ps w w' : kept ps w w' -> same_zones w w'.
Proof. intros K b Hb. apply (kp_data _ _ _ _ _ K). by right. Qed.
Lemma calm_seen ps qs w w' : calm ps qs w w' -> seen w w'.
Proof. intros C. split; [eapply kept_zones, C|apply C]. Qed.

Section kept.
Context (w w' : W) (x : m_inode) (K : same_zones w w') (Z0 : dir_zones w x).

Lemma kept_ientry b k : b = 0 \/ is_index dev w x b -> ientry dev w' b k = ientry dev w b k.
Proof. intros [->|Hb]; [done|]. by apply ientry_data, K, (dz_index _ _ Z0). Qed.
Lemma kept_file_block q : 0 <= q < max_block -> file_block dev w' x q = file_block dev w x q.
Proof.
  intros Hq. unfold file_block. unfold max_block in Hq.
  assert (H8 : forall k, ientry dev w' (zone_at x 8) k = ientry dev w (zone_at x 8) k).
  { intros k. apply kept_ientry, zone_index. auto. }
  destruct (q <? 7); [done|]. destruct (Z.ltb_spec (q - 7) 512).
  - apply kept_ientry, zone_index. auto.
  - rewrite H8. apply kept_ientry, sub_index. lia.
Qed.
Lemma kept_dir_ok : dir_ok dev w x -> dir_ok dev w' x.
Proof.
  intros [D1 D2 D3 D4].
  assert (Hr : forall b, b = 0 \/ is_index dev w x b -> readable dev w b -> readable dev w' b).
  { intros b [->|Hb] H H0; [done|]. rewrite K by (by apply (dz_index _ _ Z0)). by apply H. }
  assert (H8 : forall k, ientry dev w' (zone_at x 8) k = ientry dev w (zone_at x 8) k).
  { intros k. apply kept_ientry, zone_index. auto. }
  destruct D2 as (I1 & I2 & I3). split; [done| |done|].
  - split_and!; [apply Hr; [apply zone_index; auto|done]..|].
    intros k Hk. rewrite H8. apply Hr; [by apply sub_index|auto].
  - intros q Hq Hs. rewrite kept_file_block by (unfold max_block in *; lia).
    destruct (D4 q Hq Hs) as [Hnz Hl]. split; [done|]. rewrite K; [done|]. by apply (dz_block _ _ Z0).
Qed.
Lemma kept_dirent j : dir_ok dev w x -> 0 <= j < slots x -> dirent dev w' x j = dirent dev w x j.
Proof.
  intros D Hj. unfold dirent. pose proof (do_size _ _ _ D). rewrite kept_file_block by (unfold max_block in *; lia).
  rewrite K; [done|]. apply (dz_block _ _ Z0); lia.
Qed.
Lemma kept_find_name name : dir_ok dev w x -> find_name dev w' x name = find_name dev w x name.
Proof.
  intros D. assert (H : forall n, dir_find dev w' x n = dir_find dev w x n).
  { intros n. destruct (dir_find dev w x n) as [j|] eqn:E.
    - apply dir_find_Some in E as (Hj & Hn & Hm). apply dir_find_Some.
      rewrite kept_dirent by done. split_and!; [lia|lia|done|].
      intros k Hk. rewrite kept_dirent by (done || lia). by apply Hm.
    - apply dir_find_None. intros j Hj. rewrite kept_dirent by done. intros Hn.
      assert (Hf : exists i, dir_find dev w x n = Some i); [|destruct Hf; congruence].
      unfold dir_find. destruct (list_find_elem_of (fun i => named n (dirent dev w x i)) (seqZ 0 (slots x)) j)
        as [[k z] Hk]; [apply elem_of_seqZ; lia|done|]. rewrite Hk. by exists z. }
  unfold find_name. destruct name; [done|apply H].
Qed.
End kept.

(** The tree is the same. *)
Lemma seen_node w w' nr : seen w w' -> in_fs sb nr -> node w' nr = node w nr.
Proof. intros C H. unfold node. by rewrite (sn_inode _ _ C). Qed.
Lemma seen_live w w' nr : seen w w' -> live w nr -> live w' nr.
Proof. intros C [H1 H2]. split; [done|]. by rewrite (seen_node _ _ _ C). Qed.
Lemma seen_child w w' nr c : seen w w' -> tree_ok w -> live w nr -> is_dir w nr = true ->
  child w' nr c = child w nr c.
Proof.
  intros C T L Hd. destruct (tr_dir _ T nr L Hd) as [D Dz]. pose proof (sn_zones _ _ C) as K.
  unfold child. rewrite (seen_node _ _ _ C) by apply L.
  rewrite (kept_find_name w w' _ K Dz c D).
  destruct (find_name dev w (node w nr) c) as [j|] eqn:E; [|done]. cbn. f_equal. f_equal.
  apply (kept_dirent w w' _ K Dz); [done|]. unfold find_name in E. destruct c; [done|].
  by apply dir_find_Some in E as (Hj & _).
Qed.
Lemma seen_tree w w' : seen w w' -> tree_ok w -> tree_ok w'.
Proof.
  intros C T. pose proof (sn_zones _ _ C) as K.
  assert (Hl : forall nr, live w' nr -> live w nr /\ node w' nr = node w nr).
  { intros nr [H1 H2]. rewrite (seen_node _ _ _ C H1) in H2. split; [done|by apply (seen_node _ _ _ C)]. }
  split.
  - intros nr L Hd. destruct (Hl nr L) as [L' E]. unfold is_dir in Hd. rewrite E in *.
    destruct (tr_dir _ T nr L' Hd) as [D Dz]. split; [by apply (kept_dir_ok w)|].
    split.
    + intros b [Hb [Hz|[Hz|(k & Hk & Hz)]]]; [apply (dz_index _ _ Dz); split; auto..|].
      rewrite (kept_ientry w w' _ K Dz) in Hz by (apply zone_index; auto).
      apply (dz_index _ _ Dz). split; eauto 10.
    + intros q Hq Hs. pose proof (do_size _ _ _ D).
      rewrite (kept_file_block w w' _ K Dz) by (unfold max_block in *; lia). by apply (dz_block _ _ Dz).
  - intros nr j L Hd Hj. destruct (Hl nr L) as [L' E]. unfold is_dir in Hd. rewrite E in *.
    destruct (tr_dir _ T nr L' Hd) as [D Dz]. rewrite (kept_dirent w w' _ K Dz) by done.
    intros Hne. eapply seen_live; [done|]. by apply (tr_entry _ T).
Qed.
Lemma child_live w nr c nr' : tree_ok w -> live w nr -> is_dir w nr = true ->
  child w nr c = Some nr' -> live w nr'.
Proof.
  intros T L Hd E. unfold child in E. apply fmap_Some in E as (j & E & ->).
  assert (H : exists n, dir_find dev w (node w nr) n = Some j) by (unfold find_name in E; destruct c; [done|eauto]).
  destruct H as [n (Hj & [Hn _] & _)%dir_find_Some]. by apply (tr_entry _ T).
Qed.
Lemma seen_is_dir w w' nr : seen w w' -> live w nr -> is_dir w' nr = is_dir w nr.
Proof. intros C L. unfold is_dir. by rewrite (seen_node _ _ _ C) by apply L. Qed.
Lemma seen_resolve w w' cs nr : seen w w' -> tree_ok w -> live w nr ->
  resolve w' nr cs = resolve w nr cs.
Proof.
  intros C T. revert nr. induction cs as [|c cs IH]; intros nr L; cbn [resolve];
    rewrite (seen_is_dir _ _ _ C L); [done|].
  destruct (is_dir w nr) eqn:Hd; [|done]. rewrite (seen_child _ _ _ _ C T L Hd).
  destruct (child w nr c) as [nr'|] eqn:E; [|done]. apply IH. by eapply child_live.
Qed.

(** The same for a state that comes from [w] by operations on inodes. *)
Lemma calm_node ps qs w w' nr : calm ps qs w w' -> in_fs sb nr -> node w' nr = node w nr.
Proof. intros C%calm_seen. by apply seen_node. Qed.
Lemma calm_live ps qs w w' nr : calm ps qs w w' -> live w nr -> live w' nr.
Proof. intros C%calm_seen. by apply seen_live. Qed.
Lemma calm_child ps qs w w' nr c : calm ps qs w w' -> tree_ok w -> live w nr -> is_dir w nr = true ->
  child w' nr c = child w nr c.
Proof. intros C%calm_seen. by apply seen_child. Qed.
Lemma calm_tree ps qs w w' : calm ps qs w w' -> tree_ok w -> tree_ok w'.
Proof. intros C%calm_seen. by apply seen_tree. Qed.

(** A reference to a live inode: its entry of the table is the node. *)
Lemma ref_node ps qs w i nr : fs_inv ps qs w -> ref w i nr ->
  exists x, itable w !! i = Some x /\ i_dev x = dev /\ i_num x = nr /\
    node w nr = (core x) <| i_num := nr |>.
Proof.
  intros F (x & E & Hd & Hn). exists x. split_and!; [done..|]. unfold node.
  rewrite <-Hn. by rewrite (inode_of_at _ _ _ _ i x (fi_table _ _ _ _ _ _ F) E Hd).
Qed.
(** Reading blocks changes nothing. *)
Lemma inode_of_same w w' nr : itable w' = itable w -> (forall d b, data w' d b = data w d b) ->
  inode_of dev sb w' nr = inode_of dev sb w nr.
Proof. intros E Hd. unfold inode_of. rewrite E. by rewrite (disk_inode_data _ _ w w') by apply Hd. Qed.
Lemma calm_stable ps qs w w' : stable ps w w' -> (forall d b, data w' d b = data w d b) -> calm ps qs w w'.
Proof.
  intros S Hd. pose proof (stable_itable _ _ _ S) as E. split; [by apply kept_stable| |].
  - intros nr _. by apply inode_of_same.
  - intros j nr _. unfold ref. by rewrite E.
Qed.
Lemma fs_inv_stable ps qs w w' : fs_inv ps qs w -> inv ps w' -> stable ps w w' ->
  (forall d b, data w' d b = data w d b) -> fs_inv ps qs w'.
Proof.
  intros [F1 F2 F3 F4 [T1 T2 T3 T4 T5 T6]] Hi S Hd.
  pose proof (kept_stable dev sb _ _ _ S Hd) as K. pose proof (stable_itable _ _ _ S) as E.
  split; [done|done|by eapply kept_mounted|by eapply kept_inodes_ok|].
  split; try by rewrite ?E, ?(st_fl _ _ _ S).
  - intros i x Ex. rewrite E in Ex. destruct (T3 i x Ex). split; try done.
    by rewrite (disk_inode_data _ _ w w') by apply Hd.
Qed.

(** ** get_dir() *)

Context (fuel : nat) (Hfuel : (NR_INODE + NR_SUPER <= fuel)%nat).

Lemma rooted_calm ps qs w w' t r : rooted dev w t r -> r ∈ qs -> calm ps qs w w' -> rooted dev w' t r.
Proof.
  intros [R1 R2 R3] Hr C. split; [|done|by apply (ca_ref _ _ _ _ _ _ C)].
  by rewrite (kp_tl _ _ _ _ _ (ca_kept _ _ _ _ _ _ C)).
Qed.

(** Giving back a reference to a live inode. *)
Lemma iput_live ps qs w i nr : fs_inv ps (i :: qs) w -> ref w i nr -> live w nr ->
  exists w', iput fuel (Some i) w = Ret tt w' /\ fs_inv ps qs w' /\ calm ps qs w w'.
Proof.
  intros F R [_ L]. destruct (ref_node _ _ _ _ _ F R) as (x & E & _ & _ & En). rewrite En in L.
  apply (iput_ok dev s sb fuel ltac:(unfold enough, NR_INODE, NR_SUPER in *; lia) ps qs w i x F E). by left.
Qed.

Context (user : Z -> Z).

Lemma find_entry_calm ps qs w t r i x p name :
  fs_inv ps qs w -> itable w !! i = Some x -> i_dev x = dev -> dir_ok dev w x -> rooted dev w t r ->
  at_user user p name ->
  exists res w', find_entry user fuel i p (Z.of_nat (length name)) w = Ret (i, res) w' /\ calm ps qs w w' /\
    itable w' = itable w /\
    match find_name dev w x name with
    | None => res = None /\ fs_inv ps qs w'
    | Some j => exists b l, res = Some (b, j mod 64) /\
        fs_inv ps qs (match brelse (Some b) w' with Ret _ v => v | Stop _ v => v end) /\
        (exists v, brelse (Some b) w' = Ret tt v /\ calm ps qs w v /\ itable v = itable w) /\
        (exists y, bufs (lget cl w') !! b = Some y /\ b_bytes y = l) /\
        entry_at l (j mod 64) = dirent dev w x j
    end.
Proof.
  intros F E Hdev D R Hu.
  destruct (find_entry_run dev s sb fuel user ps qs w i x t r p name F E Hdev D R Hu)
    as (res & w' & Ef & S & Hd & Hres).
  exists res, w'. split_and!; [done|by apply calm_stable|by eapply stable_itable|].
  destruct (find_name dev w x name) as [j|] eqn:Ej.
  - destruct Hres as (b & -> & Hi & Hid).
    assert (Hj : 0 <= j < slots x).
    { unfold find_name in Ej. destruct name; [done|]. by apply dir_find_Some in Ej as (Hj & _). }
    destruct (do_block _ _ _ D (j / 64) ltac:(lia) ltac:(lia)) as [_ [l El]].
    destruct (held_bytes (b :: ps) w' b dev _ l Hi ltac:(by left) Hid ltac:(by rewrite Hd)) as (y & By & _ & Hy & _).
    destruct (brelse_ok _ _ _ Hi) as (v & Ev & Hv & Hdv & Sv).
    assert (S' : stable ps w v) by (by eapply stable_trans).
    assert (Hd' : forall d b, data v d b = data w d b) by (intros; by rewrite Hdv, Hd).
    exists b, l. rewrite Ev. split_and!; [done|by eapply fs_inv_stable| |by exists y|unfold dirent; by rewrite El].
    exists v. split_and!; [done|by apply calm_stable|by eapply stable_itable].
  - destruct Hres as [-> Hi]. split; [done|]. by eapply fs_inv_stable.
Qed.

Lemma walk_run ps qs w0 t r cs b : (length qs < NR_INODE)%nat -> r ∈ qs -> tree_ok w0 ->
  plain b -> Forall plain cs ->
  forall n w p i nr, fs_inv ps (i :: qs) w -> calm ps qs w0 w -> rooted dev w t r ->
  ref w i nr -> live w0 nr -> at_user user p (join_path cs ++ b ++ [0]) ->
  (length (join_path cs ++ b) <= fuel)%nat -> (length cs < n)%nat ->
  exists o w', walk user fuel n p i w = Ret o w' /\ calm ps qs w0 w' /\
    match resolve w0 nr cs with
    | None => o = None /\ fs_inv ps qs w'
    | Some nr' => exists j, o = Some j /\ fs_inv ps (j :: qs) w' /\ ref w' j nr' /\ live w0 nr'
    end.
Proof.
  intros Hl Hr T Hb Hcs. induction Hcs as [|c cs Hc Hcs IH]; intros n w p i nr F C R Ri L Hu Hf Hn;
    (destruct n as [|n]; [lia|]); cbn [walk resolve].
  all: destruct (ref_node _ _ _ _ _ F Ri) as (x & E & Hdev & Hnum & En).
  all: pose proof (calm_node _ _ _ _ nr C (proj1 L)) as En0.
  all: rewrite (ino_bind _ _ _ _ _ E).
  all: assert (Hm : S_ISDIR (i_mode x) = is_dir w0 nr) by (unfold is_dir; by rewrite <-En0, En).
  all: rewrite Hm; destruct (is_dir w0 nr) eqn:Hdir.
  2, 4: rewrite bind_ret_l; cbn [negb];
    destruct (iput_live _ _ _ _ _ F Ri (calm_live _ _ _ _ _ C L)) as (w' & Ei & F' & C');
    exists None, w'; rewrite (bind_ret _ _ _ _ _ Ei); split_and!; [done|by eapply calm_trans|done|done].
  - unfold permission. rewrite bind_assoc, (ino_bind _ _ _ _ _ E). rewrite !bind_ret_l. cbn [negb].
    replace p with (p + 0) in Hu by lia.
    rewrite (bind_ret _ _ _ _ _ (scan_part_run user b 0 w fuel p 0 Hb (or_introl eq_refl) Hu Hf)).
    exists (Some i), w. split_and!; [done|done|]. by exists i.
  - unfold permission. rewrite bind_assoc, (ino_bind _ _ _ _ _ E). rewrite !bind_ret_l. cbn [negb].
    change (join_path (c :: cs)) with ((c ++ [slash]) ++ join_path cs) in *.
    rewrite <-app_assoc, !length_app in Hf. cbn [length] in Hf, Hn.
    rewrite <-app_assoc in Hu. pose proof Hu as Hu0. apply at_user_app in Hu as [Hu1 Hu2].
    rewrite length_app in Hu2. cbn [length] in Hu2.
    assert (Hu1' : at_user user (p + 0) (c ++ [slash])) by (by rewrite Z.add_0_r).
    rewrite (bind_ret _ _ _ _ _ (scan_part_run user c slash w fuel p 0 Hc (or_intror eq_refl) Hu1' ltac:(lia))).
    rewrite Z.add_0_l. change (slash =? 0) with false. cbn iota.
    assert (C' : calm ps (i :: qs) w w) by apply calm_refl.
    destruct (tr_dir _ T nr L Hdir) as [D Dz].
    assert (Dx : dir_ok dev w x).
    { pose proof (kept_dir_ok w0 w _ (sn_zones _ _ (calm_seen _ _ _ _ C)) Dz D) as Dk. rewrite <-En0, En in Dk.
      assert (Hw : in_width x) by apply (en_width _ _ _ _ _ _ (tb_entry _ _ _ _ (fi_table _ _ _ _ _ _ F) i x E)).
      destruct Dk as [_ D2 D3 D4]. by split. }
    assert (Hfn : find_name dev w x c = find_name dev w0 (node w0 nr) c).
    { rewrite <-(kept_find_name w0 w _ (sn_zones _ _ (calm_seen _ _ _ _ C)) Dz c D), <-En0, En.
      unfold find_name. cbn [upd i_num]. by rewrite Hnum. }
    assert (Hu1c : at_user user p c) by (by apply at_user_app in Hu1 as [? _]).
    destruct (find_entry_calm ps (i :: qs) w t r i x p c F E Hdev Dx R Hu1c) as (res & w1 & Ef & C1 & Et1 & Hres).
    rewrite (bind_ret _ _ _ _ _ Ef). unfold child. rewrite <-Hfn.
    destruct (find_name dev w x c) as [j|] eqn:Ej; cbn [fmap option_fmap option_map].
    + destruct Hres as (bh & l & -> & Fv & (v & Ev & Cv & Etv) & (y & By & Hy) & Hent).
      rewrite Ev in Fv. rewrite (buf_bind _ _ _ _ _ By), Hy, Hent.
      rewrite (ino_bind _ _ _ _ x) by (by rewrite Et1). rewrite Hdev.
      rewrite (bind_ret _ _ _ _ _ Ev).
      assert (Hj : 0 <= j < slots x /\ de_inode (dirent dev w x j) <> 0).
      { unfold find_name in Ej. destruct c; [done|]. apply dir_find_Some in Ej as (Hj & [Hne _] & _). done. }
      assert (Hde : dirent dev w x j = dirent dev w0 (node w0 nr) j).
      { rewrite <-(kept_dirent w0 w _ (sn_zones _ _ (calm_seen _ _ _ _ C)) Dz j D);
          rewrite <-En0, En; [done|apply Hj]. }
      assert (Lc : live w0 (de_inode (dirent dev w0 (node w0 nr) j))).
      { apply (tr_entry _ T nr j L Hdir); [|by rewrite <-Hde; apply Hj]. rewrite <-En0, En. apply Hj. }
      assert (Riv : ref v i nr) by (destruct Ri as (y' & H1 & H2); exists y'; by rewrite Etv).
      assert (Cv0 : calm ps qs w0 v) by (eapply calm_trans; [exact C|]; eapply calm_sub; [exact Cv|set_solver]).
      destruct (iput_live _ _ _ _ _ Fv Riv (calm_live _ _ _ _ _ Cv0 L)) as (w2 & Ei & F2 & C2).
      rewrite (bind_ret _ _ _ _ _ Ei). rewrite Hde.
      destruct (iget_ok dev s sb fuel ps qs w2 (de_inode (dirent dev w0 (node w0 nr) j)) Hfuel F2 (proj1 Lc) Hl) as (k & w3 & Eg & F3 & C3 & R3).
      rewrite (bind_ret _ _ _ _ _ Eg).
      assert (C03 : calm ps qs w0 w3) by (eapply calm_trans; [exact Cv0|]; by eapply calm_trans).
      destruct (IH n w3 (p + Z.of_nat (length c) + 1) k (de_inode (dirent dev w0 (node w0 nr) j)) F3 C03) as (o & w' & Ew & Cw & Ho); try done.
      * eapply rooted_calm; [exact R|exact Hr|]. eapply calm_trans; [eapply calm_sub; [exact Cv|set_solver]|].
        by eapply calm_trans.
      * by replace (p + Z.of_nat (length c) + 1) with (p + Z.of_nat (length c + 1)) by lia.
      * rewrite length_app. lia.
      * lia.
      * exists o, w'. done.
    + destruct Hres as [-> F1].
      assert (R1 : ref w1 i nr) by (destruct Ri as (y' & H1 & H2); exists y'; by rewrite Et1).
      assert (C01 : calm ps qs w0 w1) by (eapply calm_trans; [exact C|]; eapply calm_sub; [exact C1|set_solver]).
      destruct (iput_live _ _ _ _ _ F1 R1 (calm_live _ _ _ _ _ C01 L)) as (w' & Ei & F' & C'').
      exists None, w'. rewrite (bind_ret _ _ _ _ _ Ei). split_and!; [done|by eapply calm_trans|done|done].
Qed.

(** Where a path starts ([nc] is the current directory), and the directory
    that it leads to. *)
Definition path_start (nc : Z) (l : list Z) : Z * list Z :=
  match l with
  | c :: l' => if c =? slash then (ROOT_INO, l') else (nc, l)
  | [] => (nc, [])
  end.
Definition path_dir (w : W) (nc : Z) (l : list Z) : option Z :=
  match l with
  | [] => None
  | _ => let '(nr, l') := path_start nc l in resolve w nr (split_path l').1
  end.
Definition base_name (l : list Z) : list Z := (split_path l).2.

Lemma split_path_slash l : split_path (slash :: l) = ([] :: (split_path l).1, (split_path l).2).
Proof. cbn [split_path]. by destruct (split_path l). Qed.
Lemma join_path_length cs : (length cs <= length (join_path cs))%nat.
Proof.
  induction cs as [|c cs IH]; [done|].
  change (join_path (c :: cs)) with ((c ++ [slash]) ++ join_path cs). rewrite !length_app. cbn [length]. lia.
Qed.

(** The running task and its two directories. *)
Record task_dirs (w : W) (qs : list nat) (t : task_struct) (r c : nat) (nc : Z) : Prop := {
  td_rooted : rooted dev w t r;
  td_root_in : r ∈ qs;
  td_root_live : live w ROOT_INO;
  td_pwd : pwd t = Some c;
  td_pwd_in : c ∈ qs;
  td_pwd_ref : ref w c nc;
  td_pwd_live : live w nc
}.

Lemma has_inode_run ps qs w i nr : fs_inv ps qs w -> i ∈ qs -> ref w i nr ->
  has_inode (Some i) w = Ret true w.
Proof.
  intros F Hi (x & E & _ & _). unfold has_inode. rewrite (ino_bind _ _ _ _ _ E).
  rewrite (en_count _ _ _ _ _ _ (tb_entry _ _ _ _ (fi_table _ _ _ _ _ _ F) i x E)).
  unfold truth. destruct (Z.eqb_spec (uses i qs) 0) as [H|]; [by apply uses_zero in H|done].
Qed.

Lemma get_dir_run ps qs w t r c nc p l :
  fs_inv ps qs w -> tree_ok w -> task_dirs w qs t r c nc -> (length qs < NR_INODE)%nat ->
  Forall (fun c => c <> 0) l -> at_user user p (l ++ [0]) -> (length l < fuel)%nat ->
  exists o w', get_dir user fuel p w = Ret o w' /\ calm ps qs w w' /\
    match path_dir w nc l with
    | None => o = None /\ fs_inv ps qs w'
    | Some nr => exists j, o = Some j /\ fs_inv ps (j :: qs) w' /\ ref w' j nr /\ live w nr
    end.
Proof.
  intros F T [R Hr Lr Ep Hc Rc Lc] Hl Hnz Hu Hf. unfold get_dir.
  rewrite (me_bind _ _ _ _ (ro_task _ _ _ _ R)), (ro_root _ _ _ _ R).
  rewrite (bind_ret _ _ _ _ _ (has_inode_run _ _ _ _ _ F Hr (ro_ref _ _ _ _ R))). cbn [negb].
  rewrite (me_bind _ _ _ _ (ro_task _ _ _ _ R)), Ep.
  rewrite (bind_ret _ _ _ _ _ (has_inode_run _ _ _ _ _ F Hc Rc)). cbn [negb].
  destruct l as [|a l'].
  { cbn [app] in Hu. apply at_user_cons in Hu as [-> _].
    exists None, w. split_and!; [done|apply calm_refl|by split]. }
  pose proof Hu as Hu0. cbn [app] in Hu0. apply at_user_cons in Hu0 as [Ha Hu0].
  apply Forall_cons in Hnz as [Ha0 Hnz]. cbn [length] in Hf. rewrite Ha.
  destruct (Z.eqb_spec a 0); [done|]. cbn [path_dir path_start].
  assert (Hgo : forall i nr q k, i ∈ qs -> ref w i nr -> live w nr -> Forall (fun c => c <> 0) k ->
    at_user user q (k ++ [0]) -> (length k < fuel)%nat ->
    exists o w', (set_ino i (fun x => x <| i_count ::= fun n => u16 (n + 1) |>) ;; walk user fuel fuel q i) w = Ret o w' /\
      calm ps qs w w' /\
      match resolve w nr (split_path k).1 with
      | None => o = None /\ fs_inv ps qs w'
      | Some nr => exists j, o = Some j /\ fs_inv ps (j :: qs) w' /\ ref w' j nr /\ live w nr
      end).
  { intros i nr q k Hi Ri Li Hk Huk Hfk. destruct Ri as (x & E & Hd & Hn).
    destruct (count_inc_ok dev s sb ps qs w i x F E Hd ltac:(lia)) as (F1 & C1 & R1).
    rewrite Hn in R1.
    rewrite (set_ino_bind _ _ _ _ _ E). set (w1 := assigned _ i w) in *.
    pose proof (split_path_join k Hk) as Hs. destruct (split_path k) as [cs b] eqn:Es.
    destruct Hs as (Ek & Hcs & Hb). rewrite Ek, <-app_assoc in Huk.
    pose proof (join_path_length cs) as Hj. rewrite Ek, length_app in Hfk.
    apply (walk_run ps qs w t r cs b Hl Hr T Hb Hcs fuel w1 q i nr); try done; rewrite ?length_app; try lia.
    by eapply rooted_calm. }
  destruct (Z.eqb_spec a slash) as [->|Hs].
  - cbn [deref]. rewrite bind_ret_l. apply (Hgo r ROOT_INO); try done; [apply R|lia].
  - cbn [deref]. rewrite bind_ret_l. apply (Hgo c nc p (a :: l')); [done|done|done|by constructor|done|cbn [length]; lia].
Qed.

Lemma base_name_slash l : base_name (slash :: l) = base_name l.
Proof. unfold base_name. by rewrite split_path_slash. Qed.

(** dir_namei(): the same directory, and the base name. *)
Lemma dir_namei_run ps qs w t r c nc p l :
  fs_inv ps qs w -> tree_ok w -> task_dirs w qs t r c nc -> (length qs < NR_INODE)%nat ->
  Forall (fun c => c <> 0) l -> at_user user p (l ++ [0]) -> (length l < fuel)%nat ->
  exists o w', dir_namei user fuel p w = Ret o w' /\ calm ps qs w w' /\
    match path_dir w nc l with
    | None => o = None /\ fs_inv ps qs w'
    | Some nr => exists j q, o = Some (j, Z.of_nat (length (base_name l)), q) /\
        at_user user q (base_name l) /\ fs_inv ps (j :: qs) w' /\ ref w' j nr /\ live w nr
    end.
Proof.
  intros F T Td Hl Hnz Hu Hf.
  destruct (get_dir_run ps qs w t r c nc p l F T Td Hl Hnz Hu Hf) as (o & w' & Eg & C & Ho).
  unfold dir_namei. destruct (path_dir w nc l) as [nr|].
  - destruct Ho as (j & -> & F' & R' & L'). rewrite (bind_ret _ _ _ _ _ Eg).
    pose proof (split_path_join l Hnz) as Hs. unfold base_name. destruct (split_path l) as [cs b]. cbn [snd].
    destruct Hs as (El & Hcs & Hb).
    assert (Hu' : at_user user p (join_path cs ++ b ++ [0])) by (rewrite El in Hu; by rewrite <-app_assoc in Hu).
    rewrite (bind_ret _ _ _ _ _ (scan_base_run user cs b w' fuel p p Hcs Hb Hu' ltac:(rewrite <-El; lia))).
    eexists _, w'. split_and!; [reflexivity|done|].
    apply at_user_app in Hu' as [_ Hu']. apply at_user_app in Hu' as [Hu' _].
    exists j, (if cs is [] then p else p + Z.of_nat (length (join_path cs))).
    split_and!; try done.
    + f_equal. f_equal. f_equal. rewrite length_app. destruct cs; cbn [join_path fmap list_fmap concat length]; lia.
    + destruct cs; [|done]. by rewrite Z.add_0_r in Hu'.
  - destruct Ho as [-> F']. rewrite (bind_ret _ _ _ _ _ Eg). by exists None, w'.
Qed.

(** ** open_namei() of files that exist *)

(** An assignment to the fields that are in memory only. *)
Lemma assigned_atime ps qs w i x v : fs_inv ps qs w -> itable w !! i = Some x -> i_dev x = dev ->
  let w' := assigned (fun x => x <| i_atime := v |>) i w in
  fs_inv ps qs w' /\ calm ps qs w w' /\ forall j nr, ref w j nr -> ref w' j nr.
Proof.
  intros F E Hd w'. pose proof F as [F1 F2 F3 F4 F5].
  pose proof (tb_entry _ _ _ _ F5 i x E) as N. set (g := fun x => x <| i_atime := v |>) in *.
  assert (Et : itable w' = <[i := g x]> (itable w))
    by (unfold w'; rewrite assigned_itable; by apply lookup_alter_insert).
  assert (Hdd : forall nr, disk_inode dev sb w' nr = disk_inode dev sb w nr)
    by (intros nr; apply disk_inode_data, assigned_data).
  assert (F' : fs_inv ps qs w').
  { eapply (fs_inv_update dev s sb ps qs qs w w' i x (g x)); try done.
    - unfold w', assigned. rewrite get_set. apply F5.
    - by apply assigned_inv.
    - apply kept_assigned.
    - destruct N as [N1 N2 N3 N4 N5 N6 N7 N8 N9 N10]. split; try done. intros H1 H2. rewrite Hdd. auto.
    - apply F5.
    - apply F5.
    - intros _ j y Hj Ej Dj En. apply Hj. by apply (tb_uniq _ _ _ _ F5 j i y x). }
  destruct (inode_of_update dev sb qs qs w w' i x (g x) F5 (fi_table _ _ _ _ _ _ F') E Et) as [H1 H2]; try done.
  split_and!; [done| |exact H2]. split; [apply kept_assigned|exact H1|]. intros j nr _. apply H2.
Qed.

(** What open_namei() does without O_CREAT and O_TRUNC: an error number, or
    the inode. *)
Definition open_result (w : W) (nc : Z) (l : list Z) (flag : Z) : Z + Z :=
  match path_dir w nc l with
  | None => inl ENOENT
  | Some d =>
      if decide (base_name l = []) then
        if truth (Z.land flag O_ACCMODE) then inl EISDIR else inr d
      else
        match child w d (base_name l) with
        | None => inl ENOENT
        | Some nr =>
            if truth (Z.land flag O_EXCL) then inl EEXIST
            else if is_dir w nr && truth (Z.land flag O_ACCMODE) then inl EPERM
            else inr nr
        end
  end.

Lemma resolve_live w cs a d : tree_ok w -> live w a -> resolve w a cs = Some d ->
  live w d /\ is_dir w d = true.
Proof.
  intros T. revert a. induction cs as [|c cs IH]; intros a La; cbn [resolve];
    destruct (is_dir w a) eqn:Ea; try done; [by intros [= <-]|].
  destruct (child w a c) as [b|] eqn:Eb; [|done]. apply IH. by eapply child_live.
Qed.
Lemma path_dir_live w qs t r c nc l d : tree_ok w -> task_dirs w qs t r c nc ->
  path_dir w nc l = Some d -> live w d /\ is_dir w d = true.
Proof.
  intros T Td E. unfold path_dir in E. destruct l as [|a l']; [done|]. unfold path_start in E.
  destruct (a =? slash); (eapply resolve_live; [done| |exact E]); apply Td.
Qed.
Lemma seen_open w w' nc l flag : seen w w' -> tree_ok w -> live w nc -> live w ROOT_INO ->
  open_result w' nc l flag = open_result w nc l flag.
Proof.
  intros C T L R. unfold open_result, path_dir. destruct l as [|c l']; [done|].
  destruct (path_start nc (c :: l')) as [nr l1] eqn:E.
  assert (Ln : live w nr) by (unfold path_start in E; repeat case_match; by injection E as <- <-).
  rewrite (seen_resolve _ _ _ _ C T Ln). destruct (resolve w nr _) as [d|] eqn:Ed; [|done].
  apply (resolve_live _ _ _ _ T Ln) in Ed as [Ld Hd]. rewrite (seen_child _ _ _ _ C T Ld Hd).
  destruct (child w d _) as [nr'|] eqn:Ec; [|done].
  by rewrite (seen_is_dir _ _ _ C (child_live _ _ _ _ T Ld Hd Ec)).
Qed.
Lemma open_result_live w qs t r c nc l flag nr : tree_ok w -> task_dirs w qs t r c nc ->
  open_result w nc l flag = inr nr -> live w nr.
Proof.
  intros T Td E. unfold open_result in E. destruct (path_dir w nc l) as [d|] eqn:Ed; [|done].
  destruct (path_dir_live _ _ _ _ _ _ _ _ T Td Ed) as [Ld Hd].
  case_decide; [by destruct (truth _); [done|]; injection E as <-|].
  destruct (child w d (base_name l)) as [b|] eqn:Eb; [|done].
  destruct (truth (Z.land flag O_EXCL)); [done|]. destruct (_ && _); [done|]. injection E as <-.
  by eapply child_live.
Qed.

Lemma calm_is_dir ps qs w w' nr : calm ps qs w w' -> in_fs sb nr -> is_dir w' nr = is_dir w nr.
Proof. intros C H. unfold is_dir. by rewrite (calm_node _ _ _ _ _ C H). Qed.
Lemma ref_mode ps qs w i nr : fs_inv ps qs w -> ref w i nr ->
  exists x, itable w !! i = Some x /\ i_dev x = dev /\ S_ISDIR (i_mode x) = is_dir w nr.
Proof.
  intros F R. destruct (ref_node _ _ _ _ _ F R) as (x & E & Hd & _ & En).
  exists x. split_and!; [done..|]. unfold is_dir. by rewrite En.
Qed.

(** The entry [de] of a buffer, by its bytes. *)
Lemma open_old_run ps qs w w1 i bh l j nr flag mo :
  is_dir w nr = mo -> truth (Z.land flag O_TRUNC) = false -> (length qs < NR_INODE)%nat ->
  (exists y, bufs (lget cl w1) !! bh = Some y /\ b_bytes y = l) ->
  de_inode (entry_at l j) = nr -> live w nr -> itable w1 = itable w ->
  (exists d, ref w i d /\ live w d) ->
  (exists v, brelse (Some bh) w1 = Ret tt v /\ fs_inv ps (i :: qs) v /\ calm ps (i :: qs) w v) ->
  exists w', calm ps qs w w' /\
    if truth (Z.land flag O_EXCL) then
      open_old fuel i bh j flag w1 = Ret (- EEXIST, None) w' /\ fs_inv ps qs w'
    else if mo && truth (Z.land flag O_ACCMODE) then
      open_old fuel i bh j flag w1 = Ret (- EPERM, None) w' /\ fs_inv ps qs w'
    else exists k, open_old fuel i bh j flag w1 = Ret (0, Some k) w' /\ fs_inv ps (k :: qs) w' /\ ref w' k nr.
Proof.
  intros Hmo Htr Hl (y & By & Hy) Hent L Et (d & Rd & Ld) (v & Ev & Fv & Cv). unfold open_old.
  rewrite (buf_bind _ _ _ _ _ By), Hy, Hent.
  destruct Rd as (x & E & Hdev & Hnum).
  rewrite (ino_bind _ _ _ _ x) by (by rewrite Et). rewrite Hdev, (bind_ret _ _ _ _ _ Ev).
  assert (Rv : ref v i d) by (apply (ca_ref _ _ _ _ _ _ Cv); [by left|by exists x]).
  destruct (iput_live _ _ _ _ _ Fv Rv (calm_live _ _ _ _ _ Cv Ld)) as (w2 & Ei & F2 & C2).
  rewrite (bind_ret _ _ _ _ _ Ei).
  assert (C02 : calm ps qs w w2) by (eapply calm_trans; [eapply calm_sub; [exact Cv|set_solver]|done]).
  destruct (truth (Z.land flag O_EXCL)); [by exists w2|].
  destruct (iget_ok dev s sb fuel ps qs w2 nr Hfuel F2 (proj1 L) Hl) as (k & w3 & Eg & F3 & C3 & R3).
  rewrite (bind_ret _ _ _ _ _ Eg).
  assert (C03 : calm ps qs w w3) by (by eapply calm_trans).
  destruct (ref_mode _ _ _ _ _ F3 R3) as (z & Ez & Hzd & Hm).
  rewrite (calm_is_dir _ _ _ _ _ C03 (proj1 L)), Hmo in Hm.
  rewrite (ino_bind _ _ _ _ _ Ez), Hm.
  destruct (mo && truth (Z.land flag O_ACCMODE)) eqn:Ea.
  - rewrite bind_ret_l.
    destruct (iput_live _ _ _ _ _ F3 R3 (calm_live _ _ _ _ _ C03 L)) as (w4 & Ei4 & F4 & C4).
    exists w4. rewrite (bind_ret _ _ _ _ _ Ei4). split_and!; [by eapply calm_trans|done|done].
  - unfold permission. rewrite !bind_assoc, (ino_bind _ _ _ _ _ Ez), !bind_ret_l. cbn [negb].
    rewrite (set_ino_bind _ _ _ _ _ Ez), Htr, bind_ret_l.
    destruct (assigned_atime ps (k :: qs) w3 k z CURRENT_TIME F3 Ez Hzd) as (F4 & C4 & R4).
    eexists. split; [eapply calm_trans; [exact C03|eapply calm_sub; [exact C4|set_solver]]|].
    exists k. split_and!; [reflexivity|done|by apply R4].
Qed.

Lemma open_namei_run ps qs w t r c nc p l flag mode :
  fs_inv ps qs w -> tree_ok w -> task_dirs w qs t r c nc -> (length qs < NR_INODE)%nat ->
  Forall (fun c => c <> 0) l -> at_user user p (l ++ [0]) -> (length l < fuel)%nat ->
  Z.land flag O_CREAT = 0 -> Z.land flag O_TRUNC = 0 ->
  exists w', calm ps qs w w' /\
    match open_result w nc l flag with
    | inl e => open_namei user fuel p flag mode w = Ret (- e, None) w' /\ fs_inv ps qs w'
    | inr nr => exists i, open_namei user fuel p flag mode w = Ret (0, Some i) w' /\
        fs_inv ps (i :: qs) w' /\ ref w' i nr
    end.
Proof.
  intros F T Td Hl Hnz Hu Hf Hcr Htr. unfold open_namei. rewrite Htr. cbn [truth Z.eqb negb andb].
  rewrite (me_bind _ _ _ _ (ro_task _ _ _ _ (td_rooted _ _ _ _ _ _ Td))).
  destruct (dir_namei_run ps qs w t r c nc p l F T Td Hl Hnz Hu Hf) as (o & w1 & Ed & C1 & Ho).
  rewrite (bind_ret _ _ _ _ _ Ed). unfold open_result.
  destruct (path_dir w nc l) as [d|] eqn:Epd.
  2:{ destruct Ho as [-> F1]. by exists w1. }
  destruct Ho as (i & q & -> & Huq & F1 & R1 & L1).
  destruct (decide (base_name l = [])) as [Hb|Hb].
  { rewrite Hb. cbn [length]. change (Z.of_nat 0 =? 0) with true. cbn iota.
    assert (Hfl : truth (Z.land flag (Z.lor O_ACCMODE (Z.lor O_CREAT O_TRUNC))) = truth (Z.land flag O_ACCMODE)).
    { rewrite !Z.land_lor_distr_r, Hcr, Htr. by rewrite !Z.lor_0_r. }
    rewrite Hfl. destruct (truth (Z.land flag O_ACCMODE)); cbn [negb].
    - destruct (iput_live _ _ _ _ _ F1 R1 (calm_live _ _ _ _ _ C1 L1)) as (w2 & Ei & F2 & C2).
      exists w2. rewrite (bind_ret _ _ _ _ _ Ei). split_and!; [by eapply calm_trans|done|done].
    - exists w1. split; [done|]. by exists i. }
  assert (Hlen : Z.of_nat (length (base_name l)) <> 0) by (destruct (base_name l); [done|cbn [length]; lia]).
  destruct (Z.eqb_spec (Z.of_nat (length (base_name l))) 0); [done|].
  destruct (ref_node _ _ _ _ _ F1 R1) as (x & E & Hdev & Hnum & En).
  pose proof (calm_node _ _ _ _ d C1 (proj1 L1)) as En0.
  pose proof (proj2 (path_dir_live _ _ _ _ _ _ _ _ T Td Epd)) as Hdir.
  destruct (tr_dir _ T d L1 Hdir) as [D Dz].
  assert (Dx : dir_ok dev w1 x).
  { pose proof (kept_dir_ok w w1 _ (sn_zones _ _ (calm_seen _ _ _ _ C1)) Dz D) as Dk. rewrite <-En0, En in Dk.
    assert (Hw : in_width x) by apply (en_width _ _ _ _ _ _ (tb_entry _ _ _ _ (fi_table _ _ _ _ _ _ F1) i x E)).
    destruct Dk as [_ D2 D3 D4]. by split. }
  assert (Hfn : find_name dev w1 x (base_name l) = find_name dev w (node w d) (base_name l)).
  { rewrite <-(kept_find_name w w1 _ (sn_zones _ _ (calm_seen _ _ _ _ C1)) Dz _ D), <-En0, En.
    unfold find_name. cbn [upd i_num]. by rewrite Hnum. }
  assert (Rt1 : rooted dev w1 t r) by (eapply rooted_calm; [apply Td|apply Td|done]).
  destruct (find_entry_calm ps (i :: qs) w1 t r i x q (base_name l) F1 E Hdev Dx Rt1 Huq)
    as (res & w2 & Ef & C2 & Et2 & Hres).
  rewrite (bind_ret _ _ _ _ _ Ef). unfold child. rewrite <-Hfn.
  assert (C02 : calm ps qs w w2) by (eapply calm_trans; [exact C1|eapply calm_sub; [exact C2|set_solver]]).
  destruct (find_name dev w1 x (base_name l)) as [j|] eqn:Ej; cbn [fmap option_fmap option_map].
  - destruct Hres as (bh & k & -> & Fv & (v & Ev & Cv & Etv) & Hby & Hent). rewrite Ev in Fv.
    assert (Hj : 0 <= j < slots x /\ de_inode (dirent dev w1 x j) <> 0).
    { unfold find_name in Ej. destruct (base_name l); [done|]. apply dir_find_Some in Ej as (Hj & [Hne _] & _). done. }
    assert (Hde : dirent dev w1 x j = dirent dev w (node w d) j).
    { rewrite <-(kept_dirent w w1 _ (sn_zones _ _ (calm_seen _ _ _ _ C1)) Dz j D);
        rewrite <-En0, En; [done|apply Hj]. }
    assert (Lc : live w (de_inode (dirent dev w (node w d) j))).
    { apply (tr_entry _ T d j L1 Hdir); [|by rewrite <-Hde; apply Hj]. rewrite <-En0, En. apply Hj. }
    destruct (open_old_run ps qs w1 w2 i bh k (j mod 64) (de_inode (dirent dev w (node w d) j)) flag
      (is_dir w (de_inode (dirent dev w (node w d) j)))) as (w' & C' & Hout); try done.
    + by apply (calm_is_dir _ _ _ _ _ C1), Lc.
    + by rewrite Htr.
    + by rewrite Hent, Hde.
    + by eapply calm_live.
    + exists d. split; [done|by eapply calm_live].
    + exists v. by split_and!.
    + exists w'. split; [eapply calm_trans; [exact C1|exact C']|].
      destruct (truth (Z.land flag O_EXCL)); [done|].
      by destruct (is_dir w _ && truth (Z.land flag O_ACCMODE)).
  - destruct Hres as [-> F2].
    assert (R2 : ref w2 i d) by (destruct R1 as (y' & H1 & H2); exists y'; by rewrite Et2).
    destruct (iput_live _ _ _ _ _ F2 R2 (calm_live _ _ _ _ _ C02 L1)) as (w3 & Ei & F3 & C3).
    unfold open_new. rewrite Hcr. cbn [Z.eqb]. exists w3. rewrite (bind_ret _ _ _ _ _ Ei).
    split_and!; [by eapply calm_trans|done|done].
Qed.
End tree.

(** ** The small file system *)

Lemma live0 nr : live dev0 super0 world0 nr -> nr = 1 \/ nr = 2.
Proof.
  intros [H1 H2]. assert (H : forallb (fun k => (k <=? 2) || (i_nlinks (node dev0 super0 world0 k) =? 0)) (seqZ 1 32) = true)
    by (vm_compute; reflexivity).
  rewrite forallb_forall in H. specialize (H nr). unfold in_fs in H1. change (s_ninodes super0) with 32 in H1.
  assert (Hin : In nr (seqZ 1 32)) by (apply list_elem_of_In, elem_of_seqZ; lia).
  specialize (H Hin). apply orb_true_iff in H as [H|H]; [apply Z.leb_le in H; lia|apply Z.eqb_eq in H; done].
Qed.
Lemma live1 : live dev0 super0 world0 1.
Proof. split; [split; [lia|vm_compute; discriminate]|vm_compute; discriminate]. Qed.
Lemma live2 : live dev0 super0 world0 2.
Proof. split; [split; [lia|vm_compute; discriminate]|vm_compute; discriminate]. Qed.
Lemma node0 : node dev0 super0 world0 1 = (core root0) <| i_num := 1 |>.
Proof. vm_compute. reflexivity. Qed.

Lemma tree_ok0 : tree_ok dev0 super0 world0.
Proof.
  split.
  - intros nr [->| ->]%live0 Hd; [|by vm_compute in Hd]. rewrite node0. split.
    + destruct dir_ok0 as [D1 D2 D3 D4]. by split.
    + split.
      * intros b [Hb [Hz|[Hz|(k & _ & Hz)]]]; exfalso; apply Hb; exact Hz.
      * intros q Hq Hs. assert (q = 0) as -> by (change (slots _) with 3 in Hs; lia).
        vm_compute. discriminate.
  - intros nr j [->| ->]%live0 Hd Hj; [|by vm_compute in Hd]. rewrite node0 in *.
    change (slots _) with 3 in Hj. assert (j = 0 \/ j = 1 \/ j = 2) as Hc by lia.
    assert (E : forall k, (k = 0 \/ k = 1 -> de_inode (dirent dev0 world0 ((core root0) <| i_num := 1 |>) k) = 1) /\
      (k = 2 -> de_inode (dirent dev0 world0 ((core root0) <| i_num := 1 |>) k) = 2)).
    { intros k. split; [intros [->| ->]|intros ->]; vm_compute; reflexivity. }
    intros _. destruct Hc as [Hc|[Hc|Hc]].
    + rewrite (proj1 (E j)) by auto. apply live1.
    + rewrite (proj1 (E j)) by auto. apply live1.
    + rewrite (proj2 (E j)) by auto. apply live2.
Qed.
Lemma task_dirs0 : task_dirs dev0 super0 world0 refs0 task0 0 0 1.
Proof.
  split; [apply rooted0|by left|apply live1|reflexivity|by left| |apply live1].
  exists root0. by split_and!.
Qed.

(** ** The theorem *)

(** C10.  open_namei() without O_CREAT and O_TRUNC, on a device whose
    directories can be read and whose entries are for inodes with links,
    follows the graph of the directories: it starts at the root (a path with
    a leading slash) or at the current directory, goes from directory to
    directory by the first entries with the names of the path, and returns a
    reference to the inode that the last name stands for.  The errors are
    ENOENT where there is no entry or no directory, EISDIR for a path with an
    empty last name opened for writing, EEXIST with O_EXCL, and EPERM for a
    directory opened for writing.  All the references and buffers taken on
    the way are given back, and no inode changes. *)
Theorem open_namei_spec {W} `{!Env W, !Wired W, !BlockIO W} dev s sb user fuel ps qs (w : W) t r c nc p l flag mode :
  (NR_INODE + NR_SUPER <= fuel)%nat -> (length l < fuel)%nat ->
  fs_inv dev s sb ps qs w -> tree_ok dev sb w -> task_dirs dev sb w qs t r c nc ->
  (length qs < NR_INODE)%nat -> Forall (fun c => c <> 0) l -> at_user user p (l ++ [0]) ->
  Z.land flag O_CREAT = 0 -> Z.land flag O_TRUNC = 0 ->
  exists w', calm dev sb ps qs w w' /\
    match open_result dev sb w nc l flag with
    | inl e => open_namei user fuel p flag mode w = Ret (- e, None) w' /\ fs_inv dev s sb ps qs w'
    | inr nr => exists i, open_namei user fuel p flag mode w = Ret (0, Some i) w' /\
        fs_inv dev s sb ps (i :: qs) w' /\ ref dev w' i nr
    end.
Proof. intros Hf Hlf F T Td Hl Hnz Hu. by apply (open_namei_run dev s sb fuel Hf user ps qs w t r c nc p l). Qed.

(** '/../a' is inode 2 of the sample, './b' does not exist, '/' is a
    directory that cannot be written. *)
Lemma open_namei_spec_witness :
  (exists i w', open_namei (memory_of [47; 46; 46; 47; 97; 0]) 40 0 O_RDWR 0 world0 = Ret (0, Some i) w' /\
     ref dev0 w' i 2) /\
  (exists w', open_namei (memory_of [46; 47; 98; 0]) 40 0 0 0 world0 = Ret (- ENOENT, None) w') /\
  (exists w', open_namei (memory_of [47; 0]) 40 0 O_WRONLY 0 world0 = Ret (- EISDIR, None) w').
Proof.
  assert (Hn : (NR_INODE + NR_SUPER <= 40)%nat) by (apply Nat.leb_le; reflexivity).
  assert (Hq : (length refs0 < NR_INODE)%nat) by (apply Nat.leb_le; reflexivity).
  split_and!.
  - destruct (open_namei_spec dev0 0 super0 (memory_of [47; 46; 46; 47; 97; 0]) 40 held0 refs0 world0 task0 0 0 1 0
      [47; 46; 46; 47; 97] O_RDWR 0 Hn ltac:(apply Nat.leb_le; reflexivity) fs_inv0 tree_ok0 task_dirs0 Hq
      ltac:(repeat constructor; discriminate) (memory_of_at _) eq_refl eq_refl) as (w' & _ & H).
    assert (E : open_result dev0 super0 world0 1 [47; 46; 46; 47; 97] O_RDWR = inr 2) by (vm_compute; reflexivity).
    rewrite E in H. destruct H as (i & Ho & _ & R). exists i, w'. split; [exact Ho|exact R].
  - destruct (open_namei_spec dev0 0 super0 (memory_of [46; 47; 98; 0]) 40 held0 refs0 world0 task0 0 0 1 0
      [46; 47; 98] 0 0 Hn ltac:(apply Nat.leb_le; reflexivity) fs_inv0 tree_ok0 task_dirs0 Hq
      ltac:(repeat constructor; discriminate) (memory_of_at _) eq_refl eq_refl) as (w' & _ & H).
    assert (E : open_result dev0 super0 world0 1 [46; 47; 98] 0 = inl ENOENT) by (vm_compute; reflexivity).
    rewrite E in H. exists w'. exact (proj1 H).
  - destruct (open_namei_spec dev0 0 super0 (memory_of [47; 0]) 40 held0 refs0 world0 task0 0 0 1 0
      [47] O_WRONLY 0 Hn ltac:(apply Nat.leb_le; reflexivity) fs_inv0 tree_ok0 task_dirs0 Hq
      ltac:(repeat constructor; discriminate) (memory_of_at _) eq_refl eq_refl) as (w' & _ & H).
    assert (E : open_result dev0 super0 world0 1 [47] O_WRONLY = inl EISDIR) by (vm_compute; reflexivity).
    rewrite E in H. exists w'. exact (proj1 H).
Defined.
