(* ===== verification/Files.v ===== *)
(** * Open files: fs/open.c, fs/fcntl.c, fs/read_write.c, fs/char_dev.c

    The descriptors of a process are the elements of [filp], which are
    indices of [file_table].  tty_write() (drivers/char/tty/tty_io.c, Tty.v)
    is an argument of the calls that reach it: it gets the channel and the
    bytes at the address of the buffer. *)

From S2P Require Import Prelude Task Sched WaitQ Buffer Blk Fs Blocks Super Mini Bitmap Inode Bmap Trunc Namei Dir Walk.

Definition EBADF : Z := 9.
Definition ENODEV : Z := 19.
Definition EINVAL : Z := 22.
Definition EMFILE : Z := 24.

Section ops.
Context {W : Type} `{!Env W}.

(** [for(fd=0 ; fd<NR_OPEN ; fd++) if (!current->filp[fd]) break;] *)
Fixpoint find_fd (n : nat) (fd : nat) : M W nat :=
  match n with
  | O => ret fd
  | S n' =>
      let! fs := me filp in
      let! slot := deref (fs !! fd) in
      match slot with Some _ => find_fd n' (S fd) | None => ret fd end
  end.
(** [for (i=0 ; i<NR_FILE ; i++,f++) if (!f->f_count) break;] *)
Fixpoint find_file (n : nat) (i : nat) : M W nat :=
  match n with
  | O => ret i
  | S n' =>
      let! c := fil f_count i in
      if truth c then find_file n' (S i) else ret i
  end.

Definition set_fd (fd : nat) (f : option nat) : M W unit :=
  set_me (fun t => t <| filp ::= <[fd := f]> |>).
Definition clear_cloexec (fd : nat) : M W unit :=
  set_me (fun t => t <| close_on_exec ::= fun c => Z.land c (Z.lnot (Z.shiftl 1 (Z.of_nat fd))) |>).
(** [current->filp[fd]=NULL; f->f_count=0] *)
Definition drop_file (fd f : nat) : M W unit :=
  set_fd fd None ;;
  set_fil f (fun x => x <| f_count := 0 |>).

(** The terminals of sys_open(): the error it returns, if any. *)
Definition open_tty (fuel : nat) (inode fd f : nat) : M W (option Z) :=
  let! mode := ino i_mode inode in
  if S_ISCHR mode then
    let! z := zone_of 0 inode in
    let! t := me id in
    if MAJOR z =? 4 then
      (if truth (leader t) && (tty t <? 0) then set_me (fun t => t <| tty := MINOR z |>) else ret tt) ;;
      ret None
    else if MAJOR z =? 5 then
      if tty t <? 0 then
        iput fuel (Some inode) ;;
        drop_file fd f ;;
        ret (Some (- EPERM))
      else ret None
    else ret None
  else ret None.

Definition sys_open (user : Z -> Z) (fuel : nat) (filename flag mode : Z) : M W Z :=
  let! um := me umask in
  let mode := Z.land mode (Z.land 0x1FF (Z.lnot um)) in
  let! fd := find_fd NR_OPEN 0 in
  if (NR_OPEN <=? fd)%nat then ret (- EINVAL)
  else
    clear_cloexec fd ;;
    let! f := find_file NR_FILE 0 in
    if (NR_FILE <=? f)%nat then ret (- EINVAL)
    else
      set_fd fd (Some f) ;;
      set_fil f (fun x => x <| f_count ::= fun n => u16 (n + 1) |>) ;;
      let! (i, inode) := open_namei user fuel filename flag mode in
      if i <? 0 then
        drop_file fd f ;;
        ret i
      else
        let! inode := deref inode in
        let! e := open_tty fuel inode fd f in
        match e with
        | Some e => ret e
        | None =>
            let! mode := ino i_mode inode in
            set_fil f (fun _ => File mode (u16 flag) 1 (Some inode) 0) ;;
            ret (Z.of_nat fd)
        end.

(** [while (arg < NR_OPEN) if (current->filp[arg]) arg++; else break;] *)
Fixpoint skip_used (n : nat) (arg : nat) : M W nat :=
  match n with
  | O => ret arg
  | S n' =>
      let! fs := me filp in
      let! slot := deref (fs !! arg) in
      match slot with Some _ => skip_used n' (S arg) | None => ret arg end
  end.
(** [fd] and [arg] are unsigned. *)
Definition dupfd (fd arg : Z) : M W Z :=
  let! fs := me filp in
  match (if fd <? Z.of_nat NR_OPEN then mjoin (zget fs fd) else None) with
  | None => ret (- EBADF)
  | Some f =>
      if Z.of_nat NR_OPEN <=? arg then ret (- EINVAL)
      else
        let! arg := skip_used (NR_OPEN - Z.to_nat arg) (Z.to_nat arg) in
        if (NR_OPEN <=? arg)%nat then ret (- EMFILE)
        else
          clear_cloexec arg ;;
          let! fs := me filp in
          let! f := deref (zget fs fd) in
          set_fd arg f ;;
          let! f := deref f in
          set_fil f (fun x => x <| f_count ::= fun n => u16 (n + 1) |>) ;;
          ret (Z.of_nat arg)
  end.
Definition sys_dup (fildes : Z) : M W Z := dupfd fildes 0.

Section write.
Context (tty_write : Z -> list Z -> M W Z) (user : Z -> Z).

Definition user_bytes (buf count : Z) : list Z := (fun k => user (buf + k)) <$> seqZ 0 count.
Definition rw_ttyx (rw minor buf count : Z) : M W Z := tty_write minor (user_bytes buf count).
(** [crw_table] and its [NRDEVS] *)
Definition crw_table : list (option (Z -> Z -> Z -> Z -> M W Z)) :=
  [None; None; None; None; Some rw_ttyx; None; None; None].
Definition NRDEVS : Z := Z.of_nat (length crw_table).
Definition rw_char (rw dev buf count : Z) : M W Z :=
  if NRDEVS <=? MAJOR dev then ret (- ENODEV)
  else
    let! call_addr := deref (zget crw_table (MAJOR dev)) in
    match call_addr with
    | None => ret (- ENODEV)
    | Some f => f rw (MINOR dev) buf count
    end.
(** [fd] is unsigned. *)
Definition sys_write (fd buf count : Z) : M W Z :=
  if (Z.of_nat NR_OPEN <=? fd) || (count <? 0) then ret (- EINVAL)
  else
    let! fs := me filp in
    let! file := deref (zget fs fd) in
    match file with
    | None => ret (- EINVAL)
    | Some file =>
        if count =? 0 then ret 0
        else
          let! i := fil f_inode file in
          let! inode := deref i in
          let! mode := ino i_mode inode in
          if S_ISCHR mode then
            let! z := zone_of 0 inode in
            rw_char WRITE z buf count
          else ret (- EINVAL)
    end.
End write.
End ops.

(** ** Descriptors and files *)

Section tables.
Context {W : Type} `{!Env W} `{!Wired W} `{!BlockIO W}.

Definition mine (w : W) : option task_struct := task_at (lget tl w) (current (lget tl w)).
Definition with_me (t : task_struct) (w : W) : W :=
  lset tl (set_task (current (lget tl w)) t (lget tl w)) w.
Definition ftable (w : W) : list file := file_table (lget fl w).
Definition with_files (l : list file) (w : W) : W := lset fl ((lget fl w) <| file_table := l |>) w.

Lemma set_me_bind {B} g (k : unit -> M W B) w t :
  mine w = Some t -> bind (set_me g) k w = k tt (with_me (g t) w).
Proof. intros E. apply (bind_zoom tl). by rewrite bind_get, (bind_deref _ _ _ _ E). Qed.
Lemma fil_bind {B A} (f : file -> A) i (k : A -> M W B) w x :
  ftable w !! i = Some x -> bind (fil f i) k w = k (f x) w.
Proof. intros E. apply (bind_zoom_read fl). by rewrite bind_get, (bind_deref _ _ _ _ E). Qed.
Lemma set_fil_bind {B} g i (k : unit -> M W B) w x :
  ftable w !! i = Some x -> bind (set_fil i g) k w = k tt (with_files (alter g i (ftable w)) w).
Proof.
  intros E. apply (bind_zoom fl). rewrite bind_get, (bind_deref _ _ _ _ E). unfold modify. f_equal.
Qed.

Lemma mine_lt w t : mine w = Some t -> (current (lget tl w) < length (task (lget tl w)))%nat.
Proof.
  unfold mine, task_at. intros H. apply lookup_lt_is_Some. destruct (task (lget tl w) !! _); [eauto|done].
Qed.
Lemma mine_with t w t0 : mine w = Some t0 -> mine (with_me t w) = Some t.
Proof.
  intros H%mine_lt. unfold mine, with_me. rewrite get_set. unfold task_at, set_task. cbn.
  by rewrite list_lookup_insert_eq.
Qed.
Lemma with_me_twice t t' w : with_me t (with_me t' w) = with_me t w.
Proof.
  unfold with_me. rewrite get_set, set_set. f_equal. unfold set_task. cbn. f_equal.
  apply list_insert_insert_eq.
Qed.
Lemma with_files_twice l l' w : with_files l (with_files l' w) = with_files l w.
Proof. unfold with_files. by rewrite get_set, set_set. Qed.
Lemma with_files_me l t w : with_files l (with_me t w) = with_me t (with_files l w).
Proof.
  unfold with_files, with_me. rewrite apart_get, (get_apart (l := tl) (k := fl)). symmetry. apply set_apart.
Qed.
Lemma mine_files l w : mine (with_files l w) = mine w.
Proof. unfold mine, with_files. by rewrite get_apart. Qed.
Lemma ftable_with l w : ftable (with_files l w) = l.
Proof. unfold ftable, with_files. by rewrite get_set. Qed.
Lemma ftable_me t w : ftable (with_me t w) = ftable w.
Proof. unfold ftable, with_me. by rewrite apart_get. Qed.

(** The first free descriptor from [fd] on. *)
Lemma find_fd_run (run : nat -> nat -> M W nat) w t :
  (forall fd, run O fd = ret fd) ->
  (forall n fd, run (S n) fd = (let! fs := me filp in let! slot := deref (fs !! fd) in
     match slot with Some _ => run n (S fd) | None => ret fd end)) ->
  mine w = Some t -> length (filp t) = NR_OPEN ->
  forall n fd, (fd + n = NR_OPEN)%nat ->
  exists r, run n fd w = Ret r w /\ (fd <= r <= NR_OPEN)%nat /\
    (forall k, (fd <= k < r)%nat -> filp t !! k <> Some None) /\
    ((r < NR_OPEN)%nat -> filp t !! r = Some None).
Proof.
  intros R0 RS E Hl. induction n as [|n IH]; intros fd Hn.
  - exists fd. rewrite R0. split_and!; [done|lia|lia|intros; lia|lia].
  - rewrite RS, (me_bind _ _ _ _ E). destruct (lookup_lt_is_Some_2 (filp t) fd) as [slot Es]; [lia|].
    rewrite (bind_deref _ _ _ _ Es). destruct slot as [f|].
    + destruct (IH (S fd)) as (r & Er & Hr & Hmin & Hfree); [lia|].
      exists r. split_and!; [done|lia|lia| |done].
      intros k Hk. destruct (decide (k = fd)) as [->|]; [by rewrite Es|]. apply Hmin. lia.
    + exists fd. split_and!; [done|lia|lia|intros; lia|done].
Qed.

Lemma find_file_run w : length (ftable w) = NR_FILE -> forall n i, (i + n = NR_FILE)%nat ->
  exists r, find_file n i w = Ret r w /\ (i <= r <= NR_FILE)%nat /\
    (forall k x, (i <= k < r)%nat -> ftable w !! k = Some x -> f_count x <> 0) /\
    ((r < NR_FILE)%nat -> exists x, ftable w !! r = Some x /\ f_count x = 0).
Proof.
  intros Hl. induction n as [|n IH]; intros i Hn; cbn [find_file].
  - exists i. split_and!; [done|lia|lia|intros; lia|lia].
  - destruct (lookup_lt_is_Some_2 (ftable w) i) as [x E]; [lia|]. rewrite (fil_bind _ _ _ _ _ E).
    unfold truth. destruct (Z.eqb_spec (f_count x) 0).
    + exists i. split_and!; [done|lia|lia|intros; lia|eauto].
    + destruct (IH (S i)) as (r & Er & Hr & Hmin & Hf); [lia|]. exists r. split_and!; [done|lia|lia| |done].
      intros k y Hk Ey. destruct (decide (k = i)) as [->|]; [congruence|]. apply (Hmin k y); [lia|done].
Qed.

Definition cloexec_cleared (fd : nat) (t : task_struct) : task_struct :=
  t <| close_on_exec ::= fun c => Z.land c (Z.lnot (Z.shiftl 1 (Z.of_nat fd))) |>.
End tables.

Lemma sys_dup_run {W} `{!Env W, !Wired W, !BlockIO W} (w : W) t fd :
  mine w = Some t -> length (filp t) = NR_OPEN -> 0 <= fd ->
  (mjoin (zget (filp t) fd) = None -> sys_dup fd w = Ret (- EBADF) w) /\
  forall f x, zget (filp t) fd = Some (Some f) -> ftable w !! f = Some x ->
    ((forall k, filp t !! k <> Some None) -> sys_dup fd w = Ret (- EMFILE) w) /\
    forall a, filp t !! a = Some None -> (forall k, (k < a)%nat -> filp t !! k <> Some None) ->
      sys_dup fd w = Ret (Z.of_nat a)
        (with_files (alter (fun x => x <| f_count ::= fun n => u16 (n + 1) |>) f (ftable w))
           (with_me ((cloexec_cleared a t) <| filp := <[a := Some f]> (filp t) |>) w)).
Proof.
  intros E Hl Hfd. unfold sys_dup, dupfd.
  assert (Hlook : (if fd <? Z.of_nat NR_OPEN then mjoin (zget (filp t) fd) else None) = mjoin (zget (filp t) fd)).
  { destruct (Z.ltb_spec fd (Z.of_nat NR_OPEN)); [done|]. unfold zget. destruct (Z.ltb_spec fd 0); [lia|].
    by rewrite lookup_ge_None_2 by lia. }
  split; [intros Hn; by rewrite (me_bind _ _ _ _ E), Hlook, Hn|].
  intros f x Ef Ex.
  assert (Hgo : forall A (k : nat -> A) (u : A), match mjoin (zget (filp t) fd) with Some f => k f | None => u end = k f)
    by (intros; by rewrite Ef).
  rewrite (me_bind _ _ _ _ E), Hlook, Hgo. change (Z.of_nat NR_OPEN <=? 0) with false. cbn iota.
  change (NR_OPEN - Z.to_nat 0)%nat with NR_OPEN. change (Z.to_nat 0) with 0%nat.
  destruct (find_fd_run skip_used w t (fun _ => eq_refl) (fun _ _ => eq_refl) E Hl NR_OPEN 0 eq_refl)
    as (r & Er & Hr & Hmin & Hfree).
  rewrite (bind_ret _ _ _ _ _ Er). split.
  - intros Hall. destruct (Nat.leb_spec NR_OPEN r); [done|]. by destruct (Hall r); apply Hfree.
  - intros a Ea Ha.
    assert (r = a) as ->.
    { destruct (Nat.lt_trichotomy r a) as [Hlt|[Heq|Hgt]]; [|done|].
      - exfalso. pose proof (lookup_lt_Some _ _ _ Ea). apply (Ha r Hlt), Hfree. lia.
      - exfalso. by apply (Hmin a); [lia|]. }
    pose proof (lookup_lt_Some _ _ _ Ea). destruct (Nat.leb_spec NR_OPEN a); [lia|].
    unfold clear_cloexec. rewrite (set_me_bind _ _ _ _ E).
    pose proof (mine_with (cloexec_cleared a t) w t E) as E1.
    rewrite (me_bind _ _ _ _ E1). change (filp (cloexec_cleared a t)) with (filp t).
    rewrite (bind_deref _ _ _ _ Ef). unfold set_fd. rewrite (set_me_bind _ _ _ _ E1), with_me_twice.
    cbn [deref]. rewrite bind_ret_l. rewrite (set_fil_bind _ _ _ _ x) by (by rewrite ftable_me).
    by rewrite ftable_me.
Qed.

(** sys_dup() returns EBADF for a descriptor that is out of range or
    not open, and EMFILE when none is free; otherwise the lowest free
    descriptor becomes another one for the same open file, whose count goes
    up by one; the new descriptor is not closed on exec, and nothing else
    changes. *)
Theorem sys_dup_spec {W} `{!Env W, !Wired W, !BlockIO W} (w : W) t fd :
  mine w = Some t -> length (filp t) = NR_OPEN -> 0 <= fd ->
  (mjoin (zget (filp t) fd) = None -> sys_dup fd w = Ret (- EBADF) w) /\
  forall f x, zget (filp t) fd = Some (Some f) -> ftable w !! f = Some x ->
    ((forall k, filp t !! k <> Some None) -> sys_dup fd w = Ret (- EMFILE) w) /\
    forall a, filp t !! a = Some None -> (forall k, (k < a)%nat -> filp t !! k <> Some None) ->
      sys_dup fd w = Ret (Z.of_nat a)
        (with_files (alter (fun x => x <| f_count ::= fun n => u16 (n + 1) |>) f (ftable w))
           (with_me ((cloexec_cleared a t) <| filp := <[a := Some f]> (filp t) |>) w)).
Proof. exact (sys_dup_run w t fd). Qed.

(** ** The inodes do not see the descriptors *)

Section outside.
Context {W : Type} `{!Env W} `{!Wired W} `{!BlockIO W}.
Context (dev : Z) (s : nat) (sb : super_block).
Notation fs_inv := (fs_inv dev s sb).

(** Two states with the same inodes and the same blocks. *)
Record alike (w w' : W) : Prop := {
  ak_table : itable w' = itable w;
  ak_last : last_inode (lget fl w') = last_inode (lget fl w);
  ak_supers : supers (lget fl w') = supers (lget fl w);
  ak_cl : lget cl w' = lget cl w;
  ak_data : forall d b, data w' d b = data w d b
}.
Lemma alike_trans w1 w2 w3 : alike w1 w2 -> alike w2 w3 -> alike w1 w3.
Proof. intros [A1 A2 A3 A4 A5] [B1 B2 B3 B4 B5]. split; try congruence. Qed.
Lemma alike_me t w : alike w (with_me t w).
Proof.
  unfold with_me. split; unfold itable; rewrite ?apart_get, ?get_apart; try done.
  intros. apply data_tl.
Qed.
Lemma alike_files l w : alike w (with_files l w).
Proof.
  unfold with_files. split; unfold itable; rewrite ?get_set, ?get_apart; try done.
  intros. apply data_fl.
Qed.
Lemma alike_fs_inv ps qs w w' : alike w w' -> inv ps w' -> fs_inv ps qs w -> fs_inv ps qs w'.
Proof.
  intros [A1 A2 A3 A4 A5] Hi [F1 F2 F3 F4 [T1 T2 T3 T4 T5 T6]].
  split; [done|done| |by eapply inodes_ok_frame; [done|]; intros b _ l; rewrite A5; eauto|].
  - destruct F3 as [M1 [I1 I2 I3 I4] [Z1 Z2 Z3 Z4] M4 M5]. split; [|split; try done..|done|done].
    + destruct M1. by split; rewrite ?A3.
    + intros k Hk. rewrite A4, A5. by apply I3.
    + intros k Hk. rewrite A4, A5. by apply Z3.
  - split; rewrite ?A1, ?A2; try done. intros i x Ex. destruct (T3 i x Ex). split; try done.
    by rewrite (disk_inode_data _ _ w w') by apply A5.
Qed.
Lemma alike_node w w' nr : alike w w' -> node dev sb w' nr = node dev sb w nr.
Proof. intros A. unfold node. by rewrite (inode_of_same dev sb w w') by apply A. Qed.
Lemma alike_live w w' nr : alike w w' -> live dev sb w nr <-> live dev sb w' nr.
Proof. intros A. unfold live. by rewrite (alike_node w w') by done. Qed.
Lemma alike_is_dir w w' nr : alike w w' -> is_dir dev sb w' nr = is_dir dev sb w nr.
Proof. intros A. unfold is_dir. by rewrite (alike_node w w') by done. Qed.
Lemma alike_tree w w' : alike w w' -> tree_ok dev sb w -> tree_ok dev sb w'.
Proof.
  intros A [T1 T2]. pose proof (ak_data _ _ A) as Hd. split.
  - intros nr L%(alike_live w w') Hdir; [|done]. rewrite (alike_is_dir w w') in Hdir by done.
    rewrite (alike_node w w') by done. destruct (T1 nr L Hdir) as [D [Z1 Z2]].
    split; [by apply (dir_ok_same dev w)|]. split.
    + intros b [Hb Hz]. apply Z1. split; [done|].
      destruct Hz as [?|[?|(k & Hk & Hz)]]; [by left|by right; left|].
      right; right. exists k. by rewrite (ientry_same dev w w') in Hz.
    + intros q Hq Hs. rewrite (file_block_same dev w w') by done. auto.
  - intros nr j L%(alike_live w w') Hdir Hj; [|done]. rewrite (alike_is_dir w w') in Hdir by done.
    rewrite (alike_node w w'), (dirent_same dev w w') in * by done. intros Hne.
    apply (alike_live w w'); [done|]. by apply T2.
Qed.
Lemma alike_ref w w' i nr : alike w w' -> ref dev w i nr -> ref dev w' i nr.
Proof. intros A. unfold ref. by rewrite (ak_table _ _ A). Qed.
Lemma alike_child w w' nr c : alike w w' -> child dev sb w' nr c = child dev sb w nr c.
Proof.
  intros A. pose proof (ak_data _ _ A) as Hd. unfold child. rewrite (alike_node w w') by done.
  unfold find_name. destruct c as [|a c]; [done|]. rewrite (dir_find_same dev w w') by done.
  destruct (dir_find dev w _ _) as [j|]; [|done]. cbn. by rewrite (dirent_same dev w w').
Qed.
Lemma alike_resolve w w' nr cs : alike w w' -> resolve dev sb w' nr cs = resolve dev sb w nr cs.
Proof.
  intros A. revert nr. induction cs as [|c cs IH]; intros nr; cbn [resolve];
    rewrite (alike_is_dir w w'), ?(alike_child w w') by done; [done|].
  destruct (is_dir dev sb w nr); [|done]. destruct (child dev sb w nr c); [apply IH|done].
Qed.
Lemma alike_open w w' nc l flag : alike w w' ->
  open_result dev sb w' nc l flag = open_result dev sb w nc l flag.
Proof.
  intros A. unfold open_result.
  assert (path_dir dev sb w' nc l = path_dir dev sb w nc l) as ->.
  { unfold path_dir. destruct l as [|c l']; [done|]. destruct (path_start nc (c :: l')).
    by apply alike_resolve. }
  destruct (path_dir dev sb w nc l) as [d|]; [|done]. rewrite (alike_child w w') by done.
  destruct (child dev sb w d (base_name l)) as [nr|]; [|done]. by rewrite (alike_is_dir w w').
Qed.
End outside.

(** ** sys_open() *)

Section open.
Context {W : Type} `{!Env W} `{!Wired W} `{!BlockIO W}.
Context (dev : Z) (s : nat) (sb : super_block) (fuel : nat) (Hfuel : (NR_INODE + NR_SUPER <= fuel)%nat).
Notation fs_inv := (fs_inv dev s sb).

Definition opened (fd f : nat) (t : task_struct) : task_struct := t <| filp := <[fd := Some f]> (filp t) |>.
Lemma inv_me ps t w : inv ps w -> inv ps (with_me t w).
Proof. apply inv_tl. Qed.
Lemma inv_files ps l w : inv ps w -> inv ps (with_files l w).
Proof. apply inv_fl. Qed.
#[local] Hint Resolve inv_me inv_files alike_me alike_files : gpos.

(** The descriptor [fd] and the file [f] are taken, and given back. *)
Definition taken (fd f : nat) (t : task_struct) (w : W) : W :=
  with_files (alter (fun x => x <| f_count ::= fun n => u16 (n + 1) |>) f (ftable w))
    (with_me (opened fd f t) w).
Definition given_back (fd f : nat) (t : task_struct) (x : file) (w : W) : W :=
  with_files (<[f := x <| f_count := 0 |>]> (ftable w))
    (with_me (t <| filp := <[fd := None]> (filp t) |>) w).

Lemma drop_file_gives_back w fd f t x :
  mine w = Some t -> ftable w !! f = Some x -> drop_file fd f w = Ret tt (given_back fd f t x w).
Proof.
  intros E Ef. unfold drop_file, set_fd, given_back. rewrite (set_me_bind _ _ _ _ E).
  rewrite <-(bind_tt (set_fil _ _)). erewrite (set_fil_bind _ f _ _ _) by (by rewrite ftable_me).
  rewrite ftable_me. unfold ret. do 2 f_equal. apply list_eq. intros j. destruct (decide (f = j)) as [<-|].
  - rewrite list_lookup_alter_eq, Ef, list_lookup_insert_eq by (by eapply lookup_lt_Some). done.
  - by rewrite list_lookup_alter_ne, list_lookup_insert_ne.
Qed.

Lemma drop_file_run ps qs w fd f t l x :
  mine w = Some (opened fd f t) -> ftable w = alter (fun x => x <| f_count ::= fun n => u16 (n + 1) |>) f l ->
  filp t !! fd = Some None -> l !! f = Some x -> f_count x = 0 -> fs_inv ps qs w ->
  exists w', drop_file fd f w = Ret tt w' /\ mine w' = Some t /\ ftable w' = l /\ fs_inv ps qs w'.
Proof.
  intros E El Hfd Hf H0 F. eexists. split.
  { apply (drop_file_gives_back _ _ _ _ (x <| f_count ::= fun n => u16 (n + 1) |>) E).
    by rewrite El, list_lookup_alter_eq, Hf. }
  unfold given_back. replace ((opened fd f t) <| filp := <[fd := None]> (filp (opened fd f t)) |>) with t.
  2:{ unfold opened. destruct t. cbn in *. f_equal. by rewrite list_insert_insert_eq, list_insert_id. }
  split_and!.
  - rewrite mine_files. by apply (mine_with _ _ _ E).
  - rewrite ftable_with, El. apply list_eq. intros j. destruct (decide (f = j)) as [<-|].
    + rewrite list_lookup_insert_eq by (rewrite length_alter; by eapply lookup_lt_Some).
      rewrite Hf. f_equal. destruct x. cbn in *. by subst.
    + by rewrite list_lookup_insert_ne, list_lookup_alter_ne.
  - eapply alike_fs_inv; [apply alike_files|auto with gpos|].
    + apply inv_files, inv_me, F.
    + eapply alike_fs_inv; [apply alike_me|apply inv_me, F|done].
Qed.

(** The terminal that the process gets. *)
Definition tty_of (y : m_inode) (t : task_struct) : task_struct :=
  if S_ISCHR (i_mode y) && (MAJOR (zone_at y 0) =? 4) && (truth (leader t) && (tty t <? 0))
  then t <| tty := MINOR (zone_at y 0) |> else t.
Definition no_tty (y : m_inode) (t : task_struct) : bool :=
  S_ISCHR (i_mode y) && (MAJOR (zone_at y 0) =? 5) && (tty t <? 0).

Lemma open_tty_run ps qs w i nr fd f t l x :
  mine w = Some (opened fd f t) -> ftable w = alter (fun x => x <| f_count ::= fun n => u16 (n + 1) |>) f l ->
  filp t !! fd = Some None -> l !! f = Some x -> f_count x = 0 ->
  fs_inv ps (i :: qs) w -> ref dev w i nr -> live dev sb w nr ->
  exists w', let y := node dev sb w nr in
    if no_tty y t then open_tty fuel i fd f w = Ret (Some (- EPERM)) w' /\ mine w' = Some t /\
      ftable w' = l /\ fs_inv ps qs w'
    else open_tty fuel i fd f w = Ret None w' /\ mine w' = Some (opened fd f (tty_of y t)) /\
      ftable w' = ftable w /\ fs_inv ps (i :: qs) w' /\ itable w' = itable w.
Proof.
  intros E El Hfd Hf H0 F R L. destruct (ref_node _ _ _ _ _ _ _ _ F R) as (z & Ez & Hd & Hn & En).
  unfold open_tty. rewrite (ino_bind _ _ _ _ _ Ez). rewrite En.
  unfold no_tty, tty_of. change (i_mode ((core z) <| i_num := nr |>)) with (i_mode z).
  change (zone_at ((core z) <| i_num := nr |>) 0) with (zone_at z 0).
  destruct (S_ISCHR (i_mode z)); cbn [andb]; [|by exists w].
  rewrite (bind_ret _ _ _ _ _ (zone_of_run 0 _ _ _ Ez
    (en_width _ _ _ _ _ _ (tb_entry _ _ _ _ (fi_table _ _ _ _ _ _ F) i z Ez)) ltac:(lia))).
  rewrite (me_bind _ _ _ _ E). cbn [id opened upd leader tty].
  destruct (Z.eqb_spec (MAJOR (zone_at z 0)) 4) as [E4|E4]; [rewrite E4|]; cbn [Z.eqb Pos.eqb andb].
  - destruct (truth (leader t) && (tty t <? 0)).
    + rewrite (set_me_bind _ _ _ _ E). eexists. split_and!; [reflexivity|by rewrite (mine_with _ _ _ E)| | |].
      * apply ftable_me.
      * eapply alike_fs_inv; [apply alike_me|apply inv_me, F|done].
      * apply alike_me.
    + exists w. rewrite bind_ret_l. by split_and!.
  - destruct (Z.eqb_spec (MAJOR (zone_at z 0)) 5) as [E5|E5]; cbn [andb]; [|by exists w].
    destruct (tty t <? 0); [|by exists w].
    destruct (iput_live dev s sb fuel Hfuel ps qs w i nr F R L) as (w1 & Ei & F1 & C1).
    rewrite (bind_ret _ _ _ _ _ Ei).
    destruct (drop_file_run ps qs w1 fd f t l x) as (w' & Ed & Hm & Hl & F'); try done.
    + unfold mine. by rewrite (kp_tl _ _ _ _ _ (ca_kept _ _ _ _ _ _ C1)).
    + unfold ftable. by rewrite (kp_files _ _ _ _ _ (ca_kept _ _ _ _ _ _ C1)).
    + exists w'. by rewrite (bind_ret _ _ _ _ _ Ed).
Qed.

Lemma open_result_error w nc l flag e : open_result dev sb w nc l flag = inl e -> 0 < e.
Proof.
  unfold open_result. repeat case_match; try done; intros [= <-]; done.
Qed.
End open.

(** The task and the files with the descriptor and the entry taken. *)
Lemma taken_ok {W} `{!Env W, !Wired W, !BlockIO W} dev s sb ps qs (w : W) t r c nc fd f :
  fs_inv dev s sb ps qs w -> task_dirs dev sb w qs t r c nc ->
  let t1 := cloexec_cleared fd t in let w1 := taken fd f t1 w in
  alike w w1 /\ fs_inv dev s sb ps qs w1 /\ mine w1 = Some (opened fd f t1) /\
  task_dirs dev sb w1 qs (opened fd f t1) r c nc.
Proof.
  intros F Td t1 w1. pose proof (ro_task _ _ _ _ (td_rooted _ _ _ _ _ _ _ _ Td)) as E. change (mine w = Some t) in E.
  assert (A : alike w w1) by (eapply alike_trans; [apply alike_me|apply alike_files]).
  assert (E2 : mine w1 = Some (opened fd f t1))
    by (unfold w1, taken; rewrite mine_files; by apply (mine_with _ _ _ E)).
  split_and!; [done| |done|].
  - apply (alike_fs_inv dev s sb ps qs w w1 A); [apply inv_files, inv_me, F|done].
  - destruct Td as [[D1 D2 D3] D4 D5 D6 D7 D8 D9]. split; try done.
    + split; [exact E2|exact D2|]. by eapply alike_ref.
    + by apply (alike_live dev sb w w1).
    + by eapply alike_ref.
    + by apply (alike_live dev sb w w1).
Qed.

Lemma sys_open_run {W} `{!Env W, !Wired W, !BlockIO W} dev s sb user fuel ps qs (w : W) t r c nc p l flag mode :
  (NR_INODE + NR_SUPER <= fuel)%nat -> (length l < fuel)%nat ->
  fs_inv dev s sb ps qs w -> tree_ok dev sb w -> task_dirs dev sb w qs t r c nc ->
  (length qs < NR_INODE)%nat -> Forall (fun c => c <> 0) l -> at_user user p (l ++ [0]) ->
  length (filp t) = NR_OPEN -> length (ftable w) = NR_FILE ->
  ((forall k, filp t !! k <> Some None) -> sys_open user fuel p flag mode w = Ret (- EINVAL) w) /\
  forall fd, filp t !! fd = Some None -> (forall k, (k < fd)%nat -> filp t !! k <> Some None) ->
  let t1 := cloexec_cleared fd t in
  ((forall k x, ftable w !! k = Some x -> f_count x <> 0) ->
   sys_open user fuel p flag mode w = Ret (- EINVAL) (with_me t1 w)) /\
  forall f x, ftable w !! f = Some x -> f_count x = 0 ->
  (forall k y, (k < f)%nat -> ftable w !! k = Some y -> f_count y <> 0) ->
  (forall e w2 t2 y, 0 < e -> mine w2 = Some t2 -> ftable w2 !! f = Some y ->
     open_namei user fuel p flag (Z.land mode (Z.land 0x1FF (Z.lnot (umask t)))) (taken fd f t1 w) =
       Ret (- e, None) w2 ->
     sys_open user fuel p flag mode w = Ret (- e) (given_back fd f t2 y w2)) /\
  (Z.land flag O_CREAT = 0 -> Z.land flag O_TRUNC = 0 ->
  exists w',
    let failed e := sys_open user fuel p flag mode w = Ret (- e) w' /\ mine w' = Some t1 /\
      ftable w' = ftable w /\ fs_inv dev s sb ps qs w' in
    match open_result dev sb w nc l flag with
    | inl e => failed e
    | inr nr =>
        let y := node dev sb w nr in
        if no_tty y t then failed EPERM
        else exists i, sys_open user fuel p flag mode w = Ret (Z.of_nat fd) w' /\
          mine w' = Some (opened fd f (tty_of y t1)) /\
          ftable w' = <[f := File (i_mode y) (u16 flag) 1 (Some i) 0]> (ftable w) /\
          fs_inv dev s sb ps (i :: qs) w' /\ ref dev w' i nr /\ node dev sb w' nr = y
    end).
Proof.
  intros Hfuel Hlf F T Td Hq Hnz Hu Hfl Hft. pose proof (ro_task _ _ _ _ (td_rooted _ _ _ _ _ _ _ _ Td)) as E.
  change (mine w = Some t) in E. unfold sys_open. rewrite (me_bind _ _ _ _ E).
  destruct (find_fd_run find_fd w t (fun _ => eq_refl) (fun _ _ => eq_refl) E Hfl NR_OPEN 0 eq_refl)
    as (fd' & Er & Hr & Hmin & Hfree).
  rewrite (bind_ret _ _ _ _ _ Er). split.
  { intros Hall. destruct (Nat.leb_spec NR_OPEN fd'); [done|]. by destruct (Hall fd'); apply Hfree. }
  intros fd Efd Hlow. set (t1 := cloexec_cleared fd t). pose proof (lookup_lt_Some _ _ _ Efd) as Hfdlt.
  assert (fd' = fd) as ->.
  { destruct (Nat.lt_trichotomy fd' fd) as [Hlt|[Heq|Hgt]]; [|done|].
    - exfalso. apply (Hlow fd' Hlt), Hfree. lia.
    - exfalso. by apply (Hmin fd); [lia|]. }
  destruct (Nat.leb_spec NR_OPEN fd); [lia|]. unfold clear_cloexec. rewrite (set_me_bind _ _ _ _ E). fold t1.
  change (t <| close_on_exec ::= _ |>) with t1.
  pose proof (mine_with t1 w t E) as E1.
  destruct (find_file_run (with_me t1 w) ltac:(by rewrite ftable_me) NR_FILE 0 eq_refl) as (f' & Ef & Hf' & Hfmin & Hffree).
  rewrite ftable_me in Hfmin, Hffree. rewrite (bind_ret _ _ _ _ _ Ef). split.
  { intros Hall. destruct (Nat.leb_spec NR_FILE f') as [|Hlt]; [done|]. destruct (Hffree Hlt) as (x & Ex & H0).
    by destruct (Hall _ _ Ex). }
  intros f x Ex H0 Hflow. pose proof (lookup_lt_Some _ _ _ Ex) as Hflt.
  assert (f' = f) as ->.
  { destruct (Nat.lt_trichotomy f' f) as [Hlt|[Heq|Hgt]]; [|done|].
    - exfalso. destruct Hffree as (y & Ey & Hy); [lia|]. by apply (Hflow f' y).
    - exfalso. by apply (Hfmin f x); [lia| |]. }
  destruct (Nat.leb_spec NR_FILE f); [lia|]. unfold set_fd. rewrite (set_me_bind _ _ _ _ E1), with_me_twice.
  change (t1 <| filp ::= _ |>) with (opened fd f t1).
  rewrite (set_fil_bind _ _ _ _ x) by (by rewrite ftable_me). rewrite ftable_me.
  set (l1 := alter _ f (ftable w)). set (w1 := with_files l1 (with_me (opened fd f t1) w)).
  change (taken fd f t1 w) with w1. split.
  { intros e w2 t2 y He E2 Ey Eo. rewrite (bind_ret _ _ _ _ _ Eo).
    destruct (Z.ltb_spec (- e) 0); [|lia].
    by rewrite (bind_ret _ _ _ _ _ (drop_file_gives_back _ _ _ _ _ E2 Ey)). }
  intros Hcr Htr.
  destruct (taken_ok dev s sb ps qs w t r c nc fd f F Td) as (A & F1 & E2 & Td1).
  destruct (open_namei_run dev s sb fuel Hfuel user ps qs w1 (opened fd f t1) r c nc p l flag
    (Z.land mode (Z.land 0x1FF (Z.lnot (umask t)))) F1 (alike_tree dev sb w w1 A T) Td1 Hq Hnz Hu Hlf Hcr Htr)
    as (w2 & C & Hopen).
  rewrite (alike_open dev sb w w1 _ _ _ A) in Hopen. pose proof (ca_kept _ _ _ _ _ _ C) as K.
  assert (E3 : mine w2 = Some (opened fd f t1)) by (unfold mine; by rewrite (kp_tl _ _ _ _ _ K)).
  assert (El : ftable w2 = l1) by (unfold ftable; rewrite (kp_files _ _ _ _ _ K); apply ftable_with).
  destruct (open_result dev sb w nc l flag) as [e|nr] eqn:Eres.
  - destruct Hopen as [Eo F2]. apply open_result_error in Eres.
    destruct (drop_file_run dev s sb ps qs w2 fd f t1 (ftable w) x E3 El Efd Ex H0 F2) as (w' & Ed & Hm & Hl & F').
    exists w'. split_and!; [|done..]. rewrite (bind_ret _ _ _ _ _ Eo).
    destruct (Z.ltb_spec (- e) 0); [|lia]. by rewrite (bind_ret _ _ _ _ _ Ed).
  - destruct Hopen as (i & Eo & F2 & R2).
    assert (L2 : live dev sb w2 nr /\ node dev sb w2 nr = node dev sb w nr).
    { pose proof (open_result_live _ _ _ _ _ _ _ _ _ _ _ T Td Eres) as L.
      pose proof (alike_live dev sb w w1 nr A) as [HL _]. split; [by eapply calm_live, HL|].
      rewrite (calm_node _ _ _ _ _ _ _ C) by apply L. by apply alike_node. }
    destruct L2 as [L2 En].
    destruct (open_tty_run dev s sb fuel Hfuel ps qs w2 i nr fd f t1 (ftable w) x E3 El Efd Ex H0 F2 R2 L2) as (w3 & Ht).
    cbn zeta in Ht. rewrite En in Ht. change (no_tty (node dev sb w nr) t1) with (no_tty (node dev sb w nr) t) in Ht.
    destruct (no_tty (node dev sb w nr) t).
    + destruct Ht as (Et & Hm & Hl & F3). exists w3. split_and!; [|done..].
      rewrite (bind_ret _ _ _ _ _ Eo). cbn [Z.ltb Z.compare deref]. rewrite bind_ret_l.
      by rewrite (bind_ret _ _ _ _ _ Et).
    + destruct Ht as (Et & Hm & Hl & F3 & Hit).
      destruct (ref_node _ _ _ _ _ _ _ _ F2 R2) as (z & Ez & Hzd & Hzn & Ezn). rewrite <-Hit in Ez.
      assert (Hmode : i_mode z = i_mode (node dev sb w nr)) by (by rewrite <-En, Ezn).
      exists (with_files (<[f := File (i_mode (node dev sb w nr)) (u16 flag) 1 (Some i) 0]> (ftable w)) w3), i.
      split_and!.
      * rewrite (bind_ret _ _ _ _ _ Eo). cbn [Z.ltb Z.compare deref]. rewrite bind_ret_l.
        rewrite (bind_ret _ _ _ _ _ Et), (ino_bind _ _ _ _ _ Ez).
        erewrite set_fil_bind by (by rewrite Hl, El; unfold l1; rewrite list_lookup_alter_eq, Ex).
        rewrite Hmode, Hl, El. unfold l1. do 2 f_equal. apply list_eq. intros j.
        destruct (decide (f = j)) as [<-|]; [|by rewrite list_lookup_insert_ne, !list_lookup_alter_ne].
        rewrite list_lookup_insert_eq by done. by rewrite !list_lookup_alter_eq, Ex.
      * by rewrite mine_files.
      * apply ftable_with.
      * eapply alike_fs_inv; [apply alike_files|apply inv_files, F3|done].
      * eapply alike_ref; [apply alike_files|]. by exists z.
      * rewrite (alike_node dev sb w3) by apply alike_files.
        destruct (ref_node _ _ _ _ _ _ _ _ F3 ltac:(by exists z)) as (z' & Ez' & _ & _ & ->).
        rewrite Ez in Ez'. injection Ez' as <-. rewrite <-En. symmetry. exact Ezn.
Qed.

(** C11.  sys_open().  EINVAL with no free descriptor (nothing changes) and
    with no free file.  Otherwise it takes the first free descriptor and the
    first free file.  With any flags, when open_namei() then returns an error,
    the descriptor is closed again, the file is free again, and the error is the
    result.  Without O_CREAT and O_TRUNC: when the path does not lead to a
    file that may be opened ([open_result]), or to a terminal that the process
    does not have, both are free again, nothing else of the tables has changed
    and the error is returned; when it does, the file is the inode, which has
    not changed, with the flags, at position 0 and used once, the process gets
    the terminal that it opens if it leads its session and has none, and the
    result is the descriptor. *)
Theorem sys_open_spec {W} `{!Env W, !Wired W, !BlockIO W} dev s sb user fuel ps qs (w : W) t r c nc p l flag mode :
  (NR_INODE + NR_SUPER <= fuel)%nat -> (length l < fuel)%nat ->
  fs_inv dev s sb ps qs w -> tree_ok dev sb w -> task_dirs dev sb w qs t r c nc ->
  (length qs < NR_INODE)%nat -> Forall (fun c => c <> 0) l -> at_user user p (l ++ [0]) ->
  length (filp t) = NR_OPEN -> length (ftable w) = NR_FILE ->
  ((forall k, filp t !! k <> Some None) -> sys_open user fuel p flag mode w = Ret (- EINVAL) w) /\
  forall fd, filp t !! fd = Some None -> (forall k, (k < fd)%nat -> filp t !! k <> Some None) ->
  let t1 := cloexec_cleared fd t in
  ((forall k x, ftable w !! k = Some x -> f_count x <> 0) ->
   sys_open user fuel p flag mode w = Ret (- EINVAL) (with_me t1 w)) /\
  forall f x, ftable w !! f = Some x -> f_count x = 0 ->
  (forall k y, (k < f)%nat -> ftable w !! k = Some y -> f_count y <> 0) ->
  (forall e w2 t2 y, 0 < e -> mine w2 = Some t2 -> ftable w2 !! f = Some y ->
     open_namei user fuel p flag (Z.land mode (Z.land 0x1FF (Z.lnot (umask t)))) (taken fd f t1 w) =
       Ret (- e, None) w2 ->
     sys_open user fuel p flag mode w = Ret (- e) (given_back fd f t2 y w2)) /\
  (Z.land flag O_CREAT = 0 -> Z.land flag O_TRUNC = 0 ->
  exists w',
    let failed e := sys_open user fuel p flag mode w = Ret (- e) w' /\ mine w' = Some t1 /\
      ftable w' = ftable w /\ fs_inv dev s sb ps qs w' in
    match open_result dev sb w nc l flag with
    | inl e => failed e
    | inr nr =>
        let y := node dev sb w nr in
        if no_tty y t then failed EPERM
        else exists i, sys_open user fuel p flag mode w = Ret (Z.of_nat fd) w' /\
          mine w' = Some (opened fd f (tty_of y t1)) /\
          ftable w' = <[f := File (i_mode y) (u16 flag) 1 (Some i) 0]> (ftable w) /\
          fs_inv dev s sb ps (i :: qs) w' /\ ref dev w' i nr /\ node dev sb w' nr = y
    end).
Proof. exact (sys_open_run dev s sb user fuel ps qs w t r c nc p l flag mode). Qed.

(** '/a' of the sample is opened as descriptor 0 in file 0; '/b' is not, and
    both are free again. *)
Lemma sys_open_spec_witness :
  (exists i w', sys_open (memory_of [47; 97; 0]) 40 0 O_RDWR 0 world0 = Ret 0 w' /\
     ftable w' !! 0%nat = Some (File 0x81a4 O_RDWR 1 (Some i) 0) /\ ref dev0 w' i 2) /\
  (exists w', sys_open (memory_of [47; 98; 0]) 40 0 O_RDWR 0 world0 = Ret (- ENOENT) w' /\
     ftable w' = ftable world0).
Proof.
  assert (Hn : (NR_INODE + NR_SUPER <= 40)%nat) by (apply Nat.leb_le; reflexivity).
  assert (Hq : (length refs0 < NR_INODE)%nat) by (apply Nat.leb_le; reflexivity).
  assert (Hlow : forall P : nat -> Prop, forall k, (k < 0)%nat -> P k) by (intros P k Hk; lia).
  split.
  - destruct (sys_open_spec dev0 0 super0 (memory_of [47; 97; 0]) 40 held0 refs0 world0 task0 0 0 1 0
      [47; 97] O_RDWR 0 Hn ltac:(apply Nat.leb_le; reflexivity) fs_inv0 tree_ok0 task_dirs0 Hq
      ltac:(repeat constructor; discriminate) (memory_of_at _) eq_refl eq_refl) as [_ H].
    destruct (H 0%nat eq_refl (Hlow _)) as [_ H']. destruct (H' 0%nat no_file eq_refl eq_refl) as [_ Ho'].
    { intros k y Hk. lia. }
    destruct (Ho' eq_refl eq_refl) as (w' & Ho). assert (E : open_result dev0 super0 world0 1 [47; 97] O_RDWR = inr 2) by (vm_compute; reflexivity).
    rewrite E in Ho. cbn zeta in Ho.
    assert (E2 : no_tty (node dev0 super0 world0 2) task0 = false) by (vm_compute; reflexivity).
    assert (E3 : i_mode (node dev0 super0 world0 2) = 0x81a4) by (vm_compute; reflexivity).
    rewrite E2, E3 in Ho. destruct Ho as (i & Ho & _ & Hf & _ & R & _). exists i, w'.
    split; [exact Ho|]. split; [|exact R]. rewrite Hf. reflexivity.
  - destruct (sys_open_spec dev0 0 super0 (memory_of [47; 98; 0]) 40 held0 refs0 world0 task0 0 0 1 0
      [47; 98] O_RDWR 0 Hn ltac:(apply Nat.leb_le; reflexivity) fs_inv0 tree_ok0 task_dirs0 Hq
      ltac:(repeat constructor; discriminate) (memory_of_at _) eq_refl eq_refl) as [_ H].
    destruct (H 0%nat eq_refl (Hlow _)) as [_ H']. destruct (H' 0%nat no_file eq_refl eq_refl) as [_ Ho'].
    { intros k y Hk. lia. }
    destruct (Ho' eq_refl eq_refl) as (w' & Ho). assert (E : open_result dev0 super0 world0 1 [47; 98] O_RDWR = inl ENOENT) by (vm_compute; reflexivity).
    rewrite E in Ho. exists w'. destruct Ho as (Ho & _ & Hf & _). split; [exact Ho|exact Hf].
Defined.

(** Descriptor 1 is open in the sample task: its duplicate is 0. *)
Lemma sys_dup_spec_witness :
  let w := with_me (opened 1 3 task0) world0 in
  sys_dup 20 w = Ret (- EBADF) w /\ sys_dup 0 w = Ret (- EBADF) w /\
  exists w', sys_dup 1 w = Ret 0 w' /\ f_count <$> (ftable w' !! 3%nat) = Some 1.
Proof.
  intros w. assert (E : mine w = Some (opened 1 3 task0)) by reflexivity.
  split; [|split].
  - exact (proj1 (sys_dup_spec w _ 20 E eq_refl ltac:(discriminate)) eq_refl).
  - exact (proj1 (sys_dup_spec w _ 0 E eq_refl ltac:(discriminate)) eq_refl).
  - destruct (proj2 (sys_dup_spec w _ 1 E eq_refl ltac:(discriminate)) 3%nat no_file eq_refl eq_refl) as [_ H].
    eexists. split; [apply (H 0%nat)|reflexivity].
    + reflexivity.
    + intros k Hk. lia.
Defined.
