(* ===== verification/Mount.v ===== *)
(** * Mounting the root device: mount_root() of fs/super.c

    mount_root() sets up the tables, reads the super block with its bitmaps
    (read_super(), in Super.v) and takes the references to the root inode
    that the first process keeps. *)

From S2P Require Import Prelude Task Sched WaitQ Buffer Blk Fs Blocks Super Mini Bitmap Inode Bmap Trunc Namei Dir Walk Files.

Section ops.
Context {W : Type} `{!Env W}.

(** [for(i=0;i<NR_FILE;i++)], from [i] on. *)
Fixpoint clear_files (n : nat) (i : nat) : M W unit :=
  match n with
  | O => ret tt
  | S n' => set_fil i (fun x => x <| f_count := 0 |>) ;; clear_files n' (S i)
  end.
Fixpoint clear_supers (n : nat) (p : nat) : M W unit :=
  match n with
  | O => ret tt
  | S n' =>
      set_sup p (fun x => x <| s_dev := 0 |> <| s_lock := 0 |> <| s_wait := None |>) ;;
      clear_supers n' (S p)
  end.
(** [while (-- i >= 0) if (!test_bit(i&8191,p->map[i>>13]->b_data)) free++],
    from [i] = [n] on, and the value of [free]. *)
Fixpoint count_free (map : list (option nat)) (n : nat) (free : Z) : M W Z :=
  match n with
  | O => ret free
  | S i =>
      let i' := Z.of_nat i in
      let! slot := deref (zget map (Z.shiftr i' 13)) in
      let! bh := deref slot in
      let! l := buf b_bytes bh in
      count_free map i (if bit l (Z.land i' 8191) then free else free + 1)
  end.

Definition mount_root (fuel : nat) : M W unit :=
  clear_files NR_FILE 0 ;;
  let! rd := gets (fun w => ROOT_DEV (lget fl w)) in
  if MAJOR rd =? 2 then halt (Panic "floppy doesn't support now!")
  else
    clear_supers NR_SUPER 0 ;;
    let! p := read_super fuel rd in
    match p with
    | None => halt (Panic "Unable to mount root")
    | Some p =>
        let! mi := iget fuel rd ROOT_INO in
        match mi with
        | None => halt (Panic "Unable to read root i-node")
        | Some mi =>
            set_ino mi (fun x => x <| i_count ::= fun n => u16 (n + 3) |>) ;;
            set_sup p (fun x => x <| s_isup := Some mi |> <| s_imount := Some mi |>) ;;
            set_me (fun t => t <| pwd := Some mi |>) ;;
            set_me (fun t => t <| root := Some mi |>) ;;
            let! x := sup id p in
            let! free := count_free (s_zmap x) (Z.to_nat (s_nzones x)) 0 in
            let! free := count_free (s_imap x) (Z.to_nat (s_ninodes x + 1)) 0 in
            ret tt
        end
    end.
End ops.

(** ** read_super() *)

Section read.
Context {W : Type} `{!Env W} `{!Wired W} `{!BlockIO W}.

Definition sup_assigned (g : super_block -> super_block) (i : nat) (w : W) : W :=
  lset fl ((lget fl w) <| supers ::= alter g i |>) w.
Definition super_at (w : W) (i : nat) : option super_block := supers (lget fl w) !! i.

Lemma super_at_eq g i w x : super_at w i = Some x -> super_at (sup_assigned g i w) i = Some (g x).
Proof. unfold super_at, sup_assigned. intros E. rewrite get_set. cbn. by rewrite list_lookup_alter_eq, E. Qed.
Lemma set_sup_step {B} i g (k : unit -> M W B) w x :
  super_at w i = Some x -> bind (set_sup i g) k w = k tt (sup_assigned g i w).
Proof. apply set_sup_bind. Qed.
Lemma sup_assigned_twice f g i w : sup_assigned f i (sup_assigned g i w) = sup_assigned (fun x => f (g x)) i w.
Proof.
  unfold sup_assigned. rewrite get_set, set_set. f_equal. cbn. f_equal.
  apply list_eq. intros j. destruct (decide (i = j)) as [->|]; [|by rewrite !list_lookup_alter_ne].
  rewrite !list_lookup_alter_eq. by destruct (supers _ !! j).
Qed.

(** What read_super() leaves alone while it reads: everything but the super
    block [s], which is [x] now. *)
Record reading (ps ps' : list nat) (w w' : W) (s : nat) (x : super_block) : Prop := {
  rd_inv : inv ps' w';
  rd_data : forall d b, data w' d b = data w d b;
  rd_fl : lget fl w' = (lget fl w) <| supers ::= alter (fun _ => x) s |>;
  rd_tl : lget tl w' = lget tl w;
  rd_ident : forall j, j ∈ ps -> ident (lget cl w') j = ident (lget cl w) j
}.
Lemma reading_at ps ps' w w' s x y : reading ps ps' w w' s x -> super_at w s = Some y -> super_at w' s = Some x.
Proof. unfold super_at. intros [_ _ F _ _] E. rewrite F. cbn. by rewrite list_lookup_alter_eq, E. Qed.
Lemma reading_refl ps w s x : inv ps w -> super_at w s = Some x -> reading ps ps w w s x.
Proof.
  intros Hi E. split; try done. unfold super_at in E. destruct (lget fl w) as [t li ft su rd]. cbn in *. f_equal.
  apply list_eq. intros j. destruct (decide (s = j)) as [<-|]; [|by rewrite list_lookup_alter_ne].
  by rewrite list_lookup_alter_eq, E.
Qed.
Lemma reading_set ps ps' w w' s x g : reading ps ps' w w' s x ->
  reading ps ps' w (sup_assigned g s w') s (g x).
Proof.
  intros [R1 R2 R3 R4 R5]. unfold sup_assigned. split.
  - by apply inv_fl.
  - intros d b. by rewrite data_fl.
  - rewrite get_set, R3. cbn. f_equal. apply list_eq. intros j.
    destruct (decide (s = j)) as [<-|]; [|by rewrite !list_lookup_alter_ne].
    rewrite !list_lookup_alter_eq. by destruct (supers _ !! s).
  - by rewrite get_apart.
  - intros j Hj. rewrite get_apart. auto.
Qed.
Lemma reading_step ps ps1 ps2 w w1 w2 s x : reading ps ps1 w w1 s x -> inv ps2 w2 ->
  (forall d b, data w2 d b = data w1 d b) -> stable ps w1 w2 -> reading ps ps2 w w2 s x.
Proof.
  intros [R1 R2 R3 R4 R5] Hi Hd [S1 S2 S3]. split; [done|by intros; rewrite Hd|congruence..|].
  intros j Hj. by rewrite S3, R5.
Qed.
Lemma reading_trans ps ps1 ps2 ps3 w w1 w2 s x y z : ps ⊆ ps1 -> super_at w s = Some z ->
  reading ps ps2 w w1 s x -> reading ps1 ps3 w1 w2 s y -> reading ps ps3 w w2 s y.
Proof.
  intros Hs E [A1 A2 A3 A4 A5] [B1 B2 B3 B4 B5]. split; [done|by intros; rewrite B2| |congruence|].
  - rewrite B3, A3. cbn. f_equal. apply list_eq. intros j.
    destruct (decide (s = j)) as [<-|]; [|by rewrite !list_lookup_alter_ne].
    rewrite !list_lookup_alter_eq. by destruct (supers _ !! s).
  - intros j Hj. rewrite B5, A5; auto.
Qed.

Section maps.
Context (set : list (option nat) -> super_block -> super_block) (f : super_block -> list (option nat)).
Context (Hfs : forall l x, f (set l x) = l) (Hss : forall l k x, set l (set k x) = set l x)
  (Hsf : forall x, set (f x) x = x).

(** The bitmap of [n] blocks from [block] on goes to the slots from [i] on. *)
Lemma read_maps_run s dev n : forall ps w i block x,
  inv ps w -> super_at w s = Some x -> length (f x) = 8%nat -> 0 <= i -> i + Z.of_nat n <= 8 ->
  (length ps + n < room)%nat ->
  (forall k, 0 <= k < Z.of_nat n -> exists l, data w dev (block + k) = Bytes l) ->
  exists bs l w', read_maps set f n i s dev block w = Ret (block + Z.of_nat n) w' /\
    length bs = n /\ reading ps (bs ++ ps) w w' s (set l x) /\ length l = 8%nat /\
    (forall k, 0 <= k < Z.of_nat n -> exists b, b ∈ bs /\ zget l (i + k) = Some (Some b) /\
       ident (lget cl w') b = Some (dev, block + k)) /\
    (forall j, j < i \/ i + Z.of_nat n <= j -> zget l j = zget (f x) j).
Proof.
  induction n as [|n IH]; intros ps w i block x Hi E Hl H0 Hn Hr Hd; cbn [read_maps].
  - exists [], (f x), w. split_and!; try done; try (intros; lia).
    + by rewrite Z.add_0_r.
    + rewrite Hsf. by apply reading_refl.
  - destruct (Hd 0 ltac:(lia)) as [c Ec]. rewrite Z.add_0_r in Ec.
    destruct (bread_ok ps w dev block c Hi Ec ltac:(lia)) as (b & w1 & Eb & Hi1 & Hd1 & S1 & Hid1).
    assert (E1 : super_at w1 s = Some x) by (unfold super_at; by rewrite (st_fl _ _ _ S1)).
    rewrite (bind_ret _ _ _ _ _ Eb), (sup_bind _ _ _ _ _ E1).
    destruct (zget_is_Some (f x) i) as [o Eo]; [lia|]. rewrite (bind_deref _ _ _ _ Eo).
    rewrite (set_sup_bind _ _ _ _ _ E1). set (g := fun y => set (zset i (Some b) (f y)) y).
    change (lset fl _ w1) with (sup_assigned g s w1). set (w2 := sup_assigned g s w1).
    assert (E2 : super_at w2 s = Some (g x)) by (by apply super_at_eq).
    assert (Hfg : f (g x) = zset i (Some b) (f x)) by apply Hfs.
    destruct (IH (b :: ps) w2 (i + 1) (block + 1) (g x)) as (bs & l & w' & Er & Hbl & Rd & Hll & Hin & Hout).
    + apply inv_fl, Hi1.
    + done.
    + by rewrite Hfg, length_zset.
    + lia.
    + lia.
    + cbn [length]. lia.
    + intros k Hk. destruct (Hd (k + 1) ltac:(lia)) as [c' Ec']. exists c'.
      unfold w2, sup_assigned. rewrite data_fl, Hd1. by replace (block + 1 + k) with (block + (k + 1)) by lia.
    + assert (Hid2 : forall j, ident (lget cl w2) j = ident (lget cl w1) j)
        by (intros j; unfold w2, sup_assigned; by rewrite get_apart).
      exists (bs ++ [b]), l, w'. split_and!.
      * rewrite Er. f_equal. lia.
      * rewrite length_app. cbn. lia.
      * rewrite <-app_assoc. replace (set l x) with (set l (g x)) by (unfold g; by rewrite Hss).
        eapply (reading_trans ps (b :: ps) (b :: ps) _ w w2 w' s (g x) _ x); [set_solver|done| |exact Rd].
        apply reading_set. eapply reading_step; [by apply reading_refl|done|done|done].
      * done.
      * intros k Hk. destruct (decide (k = 0)) as [->|].
        -- exists b. split_and!; [set_solver| |].
           ++ rewrite Hout by lia. rewrite Hfg, Z.add_0_r, zget_zset_eq by lia. done.
           ++ rewrite (rd_ident _ _ _ _ _ _ Rd) by (by left). by rewrite Hid2, Z.add_0_r.
        -- destruct (Hin (k - 1) ltac:(lia)) as (b' & Hb' & Ez & Hb''). exists b'. split_and!; [set_solver| |].
           ++ by replace (i + k) with (i + 1 + (k - 1)) by lia.
           ++ by replace (block + k) with (block + 1 + (k - 1)) by lia.
      * intros j Hj. rewrite Hout by lia. rewrite Hfg, zget_zset_ne by lia. done.
Qed.

(** A whole bitmap. *)
Lemma map_run s dev n ps w base x :
  inv ps w -> super_at w s = Some x -> f x = replicate 8 None -> 0 < n <= 8 ->
  (length ps + 8 < room)%nat ->
  (forall b, base <= b < base + n -> exists l, data w dev b = Bytes l) ->
  exists bs l w', read_maps set f (Z.to_nat n) 0 s dev base w = Ret (base + n) w' /\
    (length bs <= 8)%nat /\ reading ps (bs ++ ps) w w' s (set l x) /\ map_ok (bs ++ ps) w' dev base n l.
Proof.
  intros Hi E Hx Hn Hr Hd.
  destruct (read_maps_run s dev (Z.to_nat n) ps w 0 base x Hi E) as (bs & l & w' & Er & Hb & R & Hl & Hin & Hout);
    rewrite ?Hx, ?Z2Nat.id by lia; try done; try lia.
  { intros k Hk. apply Hd. lia. }
  rewrite Z2Nat.id in Er, Hin, Hout by lia.
  exists bs, l, w'. split_and!; [done|lia|done|]. split; [done|done| |].
  - intros k Hk. destruct (Hin k Hk) as (b & Hbb & Ez & Hid). destruct (Hd (base + k)) as [c Ec]; [lia|].
    exists b, c. split_and!; [done|set_solver|done|]. by rewrite (rd_data _ _ _ _ _ _ R).
  - intros k Hk. rewrite Hout, Hx by lia. unfold zget. destruct (Z.ltb_spec k 0); [lia|].
    apply lookup_replicate. split; [done|lia].
Qed.
End maps.

Lemma map_ok_reading ps ps' w w' s x dev base n l :
  map_ok ps w dev base n l -> reading ps ps' w w' s x -> ps ⊆ ps' -> map_ok ps' w' dev base n l.
Proof.
  intros [H1 H2 H3 H4] R Hs. split; try done. intros k Hk. destruct (H3 k Hk) as (i & bs & E & Hi & Hid & Eb).
  exists i, bs. split_and!; [done|by apply Hs|by rewrite (rd_ident _ _ _ _ _ _ R)|by rewrite (rd_data _ _ _ _ _ _ R)].
Qed.
Lemma map_ok_sup g s ps w dev base n l : map_ok ps w dev base n l -> map_ok ps (sup_assigned g s w) dev base n l.
Proof.
  intros [H1 H2 H3 H4]. split; try done. intros k Hk. destruct (H3 k Hk) as (i & bs & E & Hi & Hid & Eb).
  exists i, bs. unfold sup_assigned. by rewrite get_apart, data_fl.
Qed.

(** ** The super block is found and read *)

Lemma get_super_none fuel dev w : enough fuel -> length (supers (lget fl w)) = NR_SUPER ->
  (forall j x, super_at w j = Some x -> s_dev x <> dev) -> get_super fuel dev w = Ret None w.
Proof.
  unfold enough. intros Hf Hl Hno. unfold get_super. destruct (dev =? 0); [done|].
  assert (H : forall n j fuel, (j + n = NR_SUPER)%nat -> (n <= fuel)%nat ->
    get_super_from fuel dev j w = Ret None w); [|by apply (H NR_SUPER)].
  clear Hf fuel. induction n as [|n IH]; intros j fuel Hj Hf.
  - replace j with NR_SUPER by lia. by destruct fuel.
  - destruct fuel as [|fuel]; [lia|]. cbn [get_super_from]. destruct (Nat.leb_spec NR_SUPER j); [lia|].
    destruct (lookup_lt_is_Some_2 (supers (lget fl w)) j) as [x E]; [lia|].
    rewrite (sup_bind _ _ _ _ _ E). destruct (Z.eqb_spec (s_dev x) dev) as [Ed|]; [by destruct (Hno j x)|].
    apply IH; lia.
Qed.

Definition first_set (l : list Z) : list Z := zset 0 (Z.lor (default 0 (zget l 0)) 1) l.
Lemma edit_first v : 0 <= v < 2 ^ 8 -> edit (fun b => b <| b_bytes ::= zset 0 (Z.lor v 1) |>).
Proof.
  intros Hv. apply edit_bytes. intros l Hl Hb. rewrite length_zset. split; [done|].
  unfold zset, bytes in *. cbn. apply Forall_insert; [done|].
  assert (Z.lor v 1 < 2 ^ 8 /\ 0 <= Z.lor v 1); [|lia].
  split; [|apply Z.lor_nonneg; lia]. apply (Z.log2_lt_cancel). change (Z.log2 (2 ^ 8)) with 8.
  rewrite Z.log2_lor by lia. change (Z.log2 1) with 0. destruct (Z.eq_dec v 0) as [->|]; [done|].
  assert (Z.log2 v < 8) by (apply Z.log2_lt_pow2; lia). lia.
Qed.
Lemma reserve_first_run ps w l b dev block bs :
  inv ps w -> zget l 0 = Some (Some b) -> b ∈ ps -> ident (lget cl w) b = Some (dev, block) ->
  data w dev block = Bytes bs ->
  exists w', reserve_first l w = Ret tt w' /\ inv ps w' /\ stable ps w w' /\
    forall d y, data w' d y = upd2 dev block (Bytes (first_set bs)) (data w) d y.
Proof.
  intros Hi El Hb Hid Ed. destruct (holding_intro _ _ _ _ _ Hi Hb Hid) as [x Hx].
  destruct (holding_bytes _ _ _ _ _ _ _ Hx Ed) as [Ex Hup].
  destruct (data_shape _ _ _ _ _ Hi Ed) as [Hl Hbs]. change (Z.to_nat BLOCK_SIZE) with 1024%nat in Hl.
  destruct (zget_is_Some bs 0) as [v Ev]; [lia|].
  assert (Hv : 0 <= v < 2 ^ 8) by (unfold zget in Ev; cbn in Ev; by apply (proj1 (Forall_lookup _ _) Hbs _ _ Ev)).
  destruct (holding_edit _ _ _ _ _ _ _ Hx (edit_first v Hv)) as (Hx' & S & Hd).
  exists (edited (fun b => b <| b_bytes ::= zset 0 (Z.lor v 1) |>) b w).
  split_and!; [|apply Hx'|done|].
  - unfold reserve_first. rewrite (bind_deref _ _ _ _ El). cbn [deref]. rewrite bind_ret_l.
    rewrite (buf_bind _ _ _ _ _ (ho_at _ _ _ _ _ _ Hx)), Ex, (bind_deref _ _ _ _ Ev).
    rewrite <-(bind_tt (set_buf _ _)). by rewrite (set_buf_bind _ _ _ _ _ (ho_at _ _ _ _ _ _ Hx)).
  - intros d y. rewrite Hd. unfold content_of, first_set. rewrite Ev. cbn [upd b_uptodate b_bytes]. by rewrite Hup, Ex.
Qed.

Lemma map_reserved ps w dev base n l : inv ps w -> map_ok ps w dev base n l ->
  exists k w', data w dev base = Bytes k /\ reserve_first l w = Ret tt w' /\ inv ps w' /\ stable ps w w' /\
    (forall d y, data w' d y = upd2 dev base (Bytes (first_set k)) (data w) d y) /\
    forall base' n' l', map_ok ps w dev base' n' l' -> map_ok ps w' dev base' n' l'.
Proof.
  intros Hi [_ Hn Hs _]. destruct (Hs 0 ltac:(lia)) as (i & k & Ez & Hin & Hid & Ek). rewrite Z.add_0_r in Hid, Ek.
  destruct (reserve_first_run ps w l i dev base k Hi Ez Hin Hid Ek) as (w' & E & Hi' & S & Hd).
  exists k, w'. split_and!; try done. intros base' n' l' H. eapply map_ok_stable; [exact H|done|done|].
  intros j bs _ Eb. rewrite Hd. unfold upd2. case_decide; eauto.
Qed.

(** The bitmaps of the super block in slot 0, which is [x]. *)
Lemma bitmaps_run ps w dev x :
  inv ps w -> super_at w 0 = Some x -> s_wait x = None ->
  0 < s_imap_blocks x <= 8 -> 0 < s_zmap_blocks x <= 8 -> (length ps + 16 < room)%nat ->
  (forall b, 2 <= b < 2 + s_imap_blocks x + s_zmap_blocks x -> exists k, data w dev b = Bytes k) ->
  let z := 2 + s_imap_blocks x in
  exists bs l1 l2 k1 k2 w', read_bitmaps 0 dev w = Ret (Some 0%nat) w' /\
    inv (bs ++ ps) w' /\ (length bs <= 16)%nat /\
    lget fl w' = (lget fl w) <| supers ::= alter (fun _ => x <| s_imap := l1 |> <| s_zmap := l2 |> <| s_lock := 0 |>) 0%nat |> /\
    lget tl w' = lget tl w /\ (forall j, j ∈ ps -> ident (lget cl w') j = ident (lget cl w) j) /\
    data w dev 2 = Bytes k1 /\ data w dev z = Bytes k2 /\
    (forall d b, data w' d b = upd2 dev z (Bytes (first_set k2)) (upd2 dev 2 (Bytes (first_set k1)) (data w)) d b) /\
    map_ok (bs ++ ps) w' dev 2 (s_imap_blocks x) l1 /\ map_ok (bs ++ ps) w' dev z (s_zmap_blocks x) l2.
Proof.
  intros Hi E Hwt H1 H2 Hr Hd z. unfold read_bitmaps. rewrite (set_sup_step _ _ _ _ _ E).
  set (g := fun y : super_block => y <| s_imap := replicate I_MAP_SLOTS None |> <| s_zmap := replicate Z_MAP_SLOTS None |>).
  set (w1 := sup_assigned g 0 w).
  pose proof (reading_set ps ps w w 0 x g (reading_refl ps w 0 x Hi E)) as R1. fold w1 in R1.
  pose proof (reading_at _ _ _ _ _ _ _ R1 E) as E1. rewrite (sup_bind _ _ _ _ _ E1). cbn [id].
  change (s_imap_blocks (g x)) with (s_imap_blocks x). change (s_zmap_blocks (g x)) with (s_zmap_blocks x).
  destruct (map_run set_imap s_imap (fun _ _ => eq_refl) (fun _ _ _ => eq_refl) (fun y => ltac:(by destruct y))
    0 dev (s_imap_blocks x) ps w1 2 (g x) (rd_inv _ _ _ _ _ _ R1) E1 eq_refl H1)
    as (bs1 & l1 & w2 & Em1 & Hb1 & Rm1 & M1); [lia| |].
  { intros b Hb. rewrite (rd_data _ _ _ _ _ _ R1). apply Hd. lia. }
  rewrite (bind_ret _ _ _ _ _ Em1). pose proof (reading_at _ _ _ _ _ _ _ Rm1 E1) as E2. fold z.
  pose proof (reading_trans _ _ _ _ _ _ _ _ _ _ _ (reflexivity ps) E R1 Rm1) as R2.
  destruct (map_run set_zmap s_zmap (fun _ _ => eq_refl) (fun _ _ _ => eq_refl) (fun y => ltac:(by destruct y))
    0 dev (s_zmap_blocks x) (bs1 ++ ps) w2 z (set_imap l1 (g x)) (rd_inv _ _ _ _ _ _ R2) E2 eq_refl H2)
    as (bs2 & l2 & w3 & Em2 & Hb2 & Rm2 & M2); [rewrite length_app; lia| |].
  { intros b Hb. rewrite (rd_data _ _ _ _ _ _ R2). apply Hd. lia. }
  rewrite (bind_ret _ _ _ _ _ Em2). pose proof (reading_at _ _ _ _ _ _ _ Rm2 E2) as E3.
  assert (Hps : ps ⊆ bs1 ++ ps) by set_solver.
  pose proof (reading_trans _ _ _ _ _ _ _ _ _ _ _ Hps E R2 Rm2) as R3.
  apply (map_ok_reading _ (bs2 ++ bs1 ++ ps) _ w3 _ _ _ _ _ _) with (2 := Rm2) in M1; [|set_solver].
  rewrite (sup_bind _ _ _ _ _ E3). cbn [id]. set (y := set_zmap l2 _) in *.
  change (s_imap_blocks y) with (s_imap_blocks x). change (s_zmap_blocks y) with (s_zmap_blocks x).
  change (s_imap y) with l1. change (s_zmap y) with l2. fold z. rewrite Z.eqb_refl. cbn [negb].
  destruct (map_reserved _ _ _ _ _ _ (rd_inv _ _ _ _ _ _ R3) M1) as (k1 & w4 & Ek1 & Ef1 & Hi4 & S4 & Hd4 & K4).
  apply K4 in M1, M2.
  destruct (map_reserved _ _ _ _ _ _ Hi4 M2) as (k2 & w5 & Ek2 & Ef2 & Hi5 & S5 & Hd5 & K5).
  apply K5 in M1, M2. rewrite (bind_ret _ _ _ _ _ Ef1), (bind_ret _ _ _ _ _ Ef2).
  assert (E5 : super_at w5 0 = Some y) by (unfold super_at; by rewrite (st_fl _ _ _ S5), (st_fl _ _ _ S4)).
  unfold free_super. rewrite bind_assoc, (set_sup_step _ _ _ _ _ E5).
  set (g' := fun y : super_block => y <| s_lock := 0 |>). set (w6 := sup_assigned g' 0 w5).
  assert (E6 : super_at w6 0 = Some (g' y)) by (by apply super_at_eq).
  rewrite (bind_ret _ _ w6 tt w6).
  2:{ apply wake_idle. unfold s_wait_l, comp. cbn [lget]. unfold super_at in E6. by rewrite E6. }
  assert (Hd3 : forall d b, data w3 d b = data w d b) by apply (rd_data _ _ _ _ _ _ R3).
  exists (bs2 ++ bs1), l1, l2, k1, k2, w6. rewrite <-app_assoc.
  split_and!; [done|by apply inv_fl|rewrite length_app; lia|..].
  - unfold w6, sup_assigned. rewrite get_set, (st_fl _ _ _ S5), (st_fl _ _ _ S4), (rd_fl _ _ _ _ _ _ R3).
    cbn. f_equal. apply list_eq. intros j. destruct (decide (0%nat = j)) as [<-|]; [|by rewrite !list_lookup_alter_ne].
    rewrite !list_lookup_alter_eq. unfold super_at in E. by rewrite E.
  - unfold w6, sup_assigned. by rewrite get_apart, (st_tl _ _ _ S5), (st_tl _ _ _ S4), (rd_tl _ _ _ _ _ _ R3).
  - intros j Hj. unfold w6, sup_assigned. rewrite get_apart, (st_ident _ _ _ S5), (st_ident _ _ _ S4) by set_solver.
    by apply (rd_ident _ _ _ _ _ _ R3).
  - by rewrite <-Hd3.
  - rewrite <-Hd3. rewrite Hd4 in Ek2. unfold upd2 in Ek2. by rewrite decide_False in Ek2 by lia.
  - intros d b. unfold w6, sup_assigned. rewrite data_fl, Hd5. unfold upd2.
    case_decide; [done|]. rewrite Hd4. unfold upd2. case_decide; [done|]. apply Hd3.
  - by apply map_ok_sup.
  - by apply map_ok_sup.
Qed.

(** A device that can be mounted: its super block is [l]. *)
Record mountable (w : W) (dev : Z) (l : list Z) : Prop := {
  mt_dev : 0 < dev < 2 ^ 16;
  mt_super : data w dev 1 = Bytes l;
  mt_magic : le16 l 16 = SUPER_MAGIC;
  mt_imap : 0 < le16 l 4 <= 8;
  mt_zmap : 0 < le16 l 6 <= 8;
  mt_maps : forall b, 2 <= b < 2 + le16 l 4 + le16 l 6 -> exists k, data w dev b = Bytes k
}.
(** The device after the first bits of the bitmaps have been set. *)
Definition reserved (w w' : W) (dev : Z) (l : list Z) : Prop :=
  exists k1 k2, data w dev 2 = Bytes k1 /\ data w dev (2 + le16 l 4) = Bytes k2 /\
  forall d b, data w' d b = upd2 dev (2 + le16 l 4) (Bytes (first_set k2))
    (upd2 dev 2 (Bytes (first_set k1)) (data w)) d b.

Lemma load_super_id l y :
  s_ninodes y = le16 l 0 -> s_nzones y = le16 l 2 -> s_imap_blocks y = le16 l 4 ->
  s_zmap_blocks y = le16 l 6 -> s_firstdatazone y = le16 l 8 -> s_log_zone_size y = le16 l 10 ->
  s_max_size y = le32 l 12 -> s_magic y = le16 l 16 -> load_super l y = y.
Proof. destruct y. cbn. intros; by subst. Qed.
#[local] Ltac name_sup g :=
  lazymatch goal with |- context [sup_assigned ?G 0%nat _] => set (g := G) end.
Lemma read_super_run ps w dev fuel l x0 : enough fuel ->
  inv ps w -> length (supers (lget fl w)) = NR_SUPER ->
  (forall j x, super_at w j = Some x -> s_dev x = 0 /\ s_lock x = 0 /\ s_wait x = None) ->
  super_at w 0 = Some x0 -> mountable w dev l ->
  (length ps + 16 < room)%nat ->
  exists bs sb w', read_super fuel dev w = Ret (Some 0%nat) w' /\
    inv (bs ++ ps) w' /\ (length bs <= 16)%nat /\
    lget fl w' = (lget fl w) <| supers ::= alter (fun _ => sb) 0%nat |> /\ lget tl w' = lget tl w /\
    (forall j, j ∈ ps -> ident (lget cl w') j = ident (lget cl w) j) /\
    reserved w w' dev l /\
    map_ok (bs ++ ps) w' dev 2 (le16 l 4) (s_imap sb) /\
    map_ok (bs ++ ps) w' dev (2 + le16 l 4) (le16 l 6) (s_zmap sb) /\
    load_super l sb = sb /\ s_dev sb = dev /\ s_lock sb = 0.
Proof.
  intros Hf Hi Hl Hsup E0 [M1 M2 M3 M4 M5 M6] Hr. destruct (Hsup _ _ E0) as (D0 & L0 & W0).
  unfold read_super. destruct (Z.eqb_spec dev 0); [lia|].
  rewrite (bind_ret _ _ _ _ _ (get_super_none fuel dev w Hf Hl
    ltac:(intros j x E; destruct (Hsup j x E) as [-> _]; lia))).
  assert (Hslot : free_slot NR_SUPER 0 w = Ret (Some 0%nat) w)
    by (unfold NR_SUPER; cbn [free_slot]; by rewrite (sup_bind _ _ _ _ _ E0), D0).
  rewrite (bind_ret _ _ _ _ _ Hslot).
  rewrite (set_sup_step _ _ _ _ _ E0). name_sup g1.
  pose proof (reading_set ps ps w w 0 x0 g1 (reading_refl ps w 0 x0 Hi E0)) as R1.
  set (w1 := sup_assigned g1 0 w) in *. pose proof (reading_at _ _ _ _ _ _ _ R1 E0) as E1.
  unfold lock_super. rewrite bind_assoc, (bind_ret _ _ _ _ _ (wait_super_unlocked fuel _ _ _ E1 L0)).
  rewrite (set_sup_step _ _ _ _ _ E1). name_sup g2.
  apply (reading_set _ _ _ _ _ _ g2) in R1. set (w2 := sup_assigned g2 0 w1) in *.
  pose proof (reading_at _ _ _ _ _ _ _ R1 E0) as E2.
  destruct (bread_ok ps w2 dev 1 l (rd_inv _ _ _ _ _ _ R1)) as (bh & w3 & Eb & Hp);
    [by rewrite (rd_data _ _ _ _ _ _ R1)|lia|].
  destruct (pinned_holding _ _ _ _ _ _ Hp) as [y Hy]. destruct Hp as (Hi3 & Hd3 & S3 & _).
  rewrite (bind_ret _ _ _ _ _ Eb), (buf_bind _ _ _ _ _ (ho_at _ _ _ _ _ _ Hy)).
  destruct (holding_bytes _ _ _ _ _ _ _ Hy ltac:(by rewrite Hd3, (rd_data _ _ _ _ _ _ R1))) as [-> _].
  apply (reading_step _ _ (bh :: ps) _ _ w3) in R1; [|done..].
  pose proof (reading_at _ _ _ _ _ _ _ R1 E0) as E3.
  rewrite (set_sup_step _ _ _ _ _ E3).
  apply (reading_set _ _ _ _ _ _ (load_super l)) in R1. set (w4 := sup_assigned _ 0 w3) in *.
  destruct (brelse_ok ps w4 bh (rd_inv _ _ _ _ _ _ R1)) as (w5 & E5 & Hi5 & Hd5 & S5).
  rewrite (bind_ret _ _ _ _ _ E5). apply (reading_step _ _ ps _ _ w5) in R1; [|done..].
  pose proof (reading_at _ _ _ _ _ _ _ R1 E0) as E6. rewrite (sup_bind _ _ _ _ _ E6).
  change (s_magic (load_super l _)) with (le16 l 16). rewrite M3, Z.eqb_refl. cbn [negb].
  set (x := load_super l (g2 (g1 x0))) in *.
  destruct (bitmaps_run ps w5 dev x Hi5 E6 W0 M4 M5 Hr)
    as (bs & l1 & l2 & k1 & k2 & w6 & Em & Hi6 & Hbs & Hfl & Htl & Hid & K1 & K2 & Hd & O1 & O2).
  { intros b Hb. rewrite (rd_data _ _ _ _ _ _ R1). by apply M6. }
  exists bs. eexists _, w6. split_and!; [done|done|done|..].
  - rewrite Hfl, (rd_fl _ _ _ _ _ _ R1). cbn. f_equal. apply list_eq. intros j.
    destruct (decide (0%nat = j)) as [<-|]; [|by rewrite !list_lookup_alter_ne].
    rewrite !list_lookup_alter_eq. unfold super_at in E0. rewrite E0. reflexivity.
  - by rewrite Htl, (rd_tl _ _ _ _ _ _ R1).
  - intros j Hj. rewrite Hid by done. by apply (rd_ident _ _ _ _ _ _ R1).
  - exists k1, k2. rewrite <-!(rd_data _ _ _ _ _ _ R1). split_and!; [done..|]. intros d b. rewrite Hd.
    unfold upd2. repeat case_decide; try done; apply (rd_data _ _ _ _ _ _ R1).
  - exact O1.
  - exact O2.
  - apply load_super_id; reflexivity.
  - change (u16 dev = dev). apply u16_small. lia.
  - done.
Qed.
End read.

(** ** mount_root() *)

Section mount.
Context {W : Type} `{!Env W} `{!Wired W} `{!BlockIO W}.

(** Only the tables of files and super blocks differ. *)
Record cleared (w w' : W) : Prop := {
  cd_table : itable w' = itable w;
  cd_last : last_inode (lget fl w') = last_inode (lget fl w);
  cd_root : ROOT_DEV (lget fl w') = ROOT_DEV (lget fl w);
  cd_tl : lget tl w' = lget tl w;
  cd_cl : lget cl w' = lget cl w;
  cd_data : forall d b, data w' d b = data w d b;
  cd_inv : forall ps, inv ps w -> inv ps w'
}.
Lemma cleared_refl w : cleared w w.
Proof. by split. Qed.
Lemma cleared_trans w1 w2 w3 : cleared w1 w2 -> cleared w2 w3 -> cleared w1 w3.
Proof.
  intros [A1 A2 A3 A4 A5 A6 A7] [B1 B2 B3 B4 B5 B6 B7]. split; try congruence.
  auto.
Qed.
Lemma cleared_fl w f : inode_table f = itable w -> last_inode f = last_inode (lget fl w) ->
  ROOT_DEV f = ROOT_DEV (lget fl w) -> cleared w (lset fl f w).
Proof.
  intros E1 E2 E3. split; unfold itable; rewrite ?get_set, ?get_apart; try done.
  - intros. apply data_fl.
  - intros. by apply inv_fl.
Qed.

Definition unused (x : file) : file := x <| f_count := 0 |>.
Lemma clear_files_run n : forall i w, (i + n <= length (ftable w))%nat ->
  exists w', clear_files n i w = Ret tt w' /\ cleared w w' /\ supers (lget fl w') = supers (lget fl w) /\
    forall j, ftable w' !! j =
      (if decide (i <= j < i + n)%nat then unused <$> ftable w !! j else ftable w !! j).
Proof.
  induction n as [|n IH]; intros i w Hn; cbn [clear_files].
  - exists w. split_and!; try done; try apply cleared_refl. intros j. by rewrite decide_False by lia.
  - destruct (lookup_lt_is_Some_2 (ftable w) i) as [x E]; [lia|].
    rewrite (set_fil_bind _ _ _ _ _ E). set (w1 := with_files _ w).
    assert (Hf1 : ftable w1 = alter unused i (ftable w)) by apply ftable_with.
    destruct (IH (S i) w1) as (w' & Er & C & Hs & Hz); [rewrite Hf1, length_alter; lia|].
    exists w'. split_and!; [done| | |].
    + eapply cleared_trans; [|done]. by apply cleared_fl.
    + rewrite Hs. unfold w1, with_files. by rewrite get_set.
    + intros j. rewrite Hz, Hf1. destruct (decide (j = i)) as [->|].
      * rewrite decide_False by lia. rewrite decide_True by lia. by rewrite list_lookup_alter_eq.
      * rewrite !list_lookup_alter_ne by done. do 2 case_decide; (done || lia).
Qed.

Definition fresh_super (x : super_block) : super_block :=
  x <| s_dev := 0 |> <| s_lock := 0 |> <| s_wait := None |>.
Lemma clear_supers_run n : forall p w, (p + n <= length (supers (lget fl w)))%nat ->
  exists w', clear_supers n p w = Ret tt w' /\ cleared w w' /\ ftable w' = ftable w /\
    forall j, supers (lget fl w') !! j =
      (if decide (p <= j < p + n)%nat then fresh_super <$> supers (lget fl w) !! j else supers (lget fl w) !! j).
Proof.
  induction n as [|n IH]; intros p w Hn; cbn [clear_supers].
  - exists w. split_and!; try done; try apply cleared_refl. intros j. by rewrite decide_False by lia.
  - destruct (lookup_lt_is_Some_2 (supers (lget fl w)) p) as [x E]; [lia|].
    rewrite (set_sup_step _ _ _ _ _ E). set (w1 := sup_assigned _ p w).
    assert (Hs1 : supers (lget fl w1) = alter fresh_super p (supers (lget fl w))).
    { unfold w1, sup_assigned. by rewrite get_set. }
    destruct (IH (S p) w1) as (w' & Er & C & Hf & Hs); [rewrite Hs1, length_alter; lia|].
    exists w'. split_and!; [done| | |].
    + eapply cleared_trans; [|done]. by apply cleared_fl.
    + rewrite Hf. unfold w1, ftable, sup_assigned. by rewrite get_set.
    + intros j. rewrite Hs, Hs1. destruct (decide (j = p)) as [->|].
      * rewrite decide_False by lia. rewrite decide_True by lia. by rewrite list_lookup_alter_eq.
      * rewrite !list_lookup_alter_ne by done. do 2 case_decide; (done || lia).
Qed.

Lemma count_free_run ps w dev base n l : inv ps w -> map_ok ps w dev base n l ->
  forall m acc, Z.of_nat m <= 8192 * n -> exists r, count_free l m acc w = Ret r w.
Proof.
  intros Hi Hm. induction m as [|m IH]; intros acc Hn; cbn [count_free]; [by exists acc|].
  rewrite Z.shiftr_div_pow2 by lia. change (2 ^ 13) with 8192.
  destruct (mp_some _ _ _ _ _ _ Hm (Z.of_nat m / 8192)) as (i & bs & E & Hin & Hid & Eb).
  { split; [apply Z.div_pos; lia|apply Z.div_lt_upper_bound; lia]. }
  rewrite (bind_deref _ _ _ _ E). cbn [deref]. rewrite bind_ret_l.
  destruct (held_bytes _ _ _ _ _ _ Hi Hin Hid Eb) as (x & Bx & _).
  rewrite (buf_bind _ _ _ _ _ Bx). apply IH. lia.
Qed.

(** An inode with three references more. *)
Lemma three_more dev s sb ps w i x :
  fs_inv dev s sb ps [i] w -> itable w !! i = Some x -> i_dev x = dev ->
  let w' := assigned (fun x => x <| i_count ::= fun n => u16 (n + 3) |>) i w in
  fs_inv dev s sb ps [i; i; i; i] w' /\ ref dev w' i (i_num x) /\
  forall nr, in_fs sb nr -> inode_of dev sb w' nr = inode_of dev sb w nr.
Proof.
  intros F E Hdev w'. pose proof F as [F1 F2 F3 F4 F5].
  pose proof (tb_entry _ _ _ _ F5 i x E) as [N1 N2 N3 N4 N5 N6 N7 N8 N9 N10].
  set (g := fun x => x <| i_count ::= fun n => u16 (n + 3) |>) in *.
  assert (Hu1 : uses i [i] = 1) by (rewrite uses_cons, decide_True by done; done).
  assert (Hu4 : uses i [i; i; i; i] = 4) by (rewrite !uses_cons, !decide_True by done; done).
  assert (Et : itable w' = <[i := g x]> (itable w)) by (unfold w'; rewrite assigned_itable; by apply lookup_alter_insert).
  assert (Hdd : forall nr, disk_inode dev sb w' nr = disk_inode dev sb w nr)
    by (intros nr; apply disk_inode_data, assigned_data).
  assert (Hcnt : i_count (g x) = 4) by (change (u16 (i_count x + 3) = 4); by rewrite N6, Hu1).
  assert (Hi : (i < NR_INODE)%nat) by (rewrite <-(tb_len _ _ _ _ F5); by eapply lookup_lt_Some).
  assert (F' : fs_inv dev s sb ps [i; i; i; i] w').
  { eapply (fs_inv_update dev s sb ps [i] [i; i; i; i] w w' i x (g x)); try done.
    - unfold w', assigned. rewrite get_set. apply F5.
    - by apply assigned_inv.
    - apply kept_assigned.
    - split; try done; try (by rewrite Hcnt, Hu4); try (by rewrite Hcnt). intros H1 H2. rewrite Hdd. auto.
    - intros j Hj. rewrite !uses_cons, !decide_False by congruence. done.
    - intros j Hj. set_unfold in Hj. destruct_or!; (by subst) || done.
    - intros _ j y Hj Ej Dj En. apply Hj. by apply (tb_uniq _ _ _ _ F5 j i y x). }
  destruct (inode_of_update dev sb [i] [i; i; i; i] w w' i x (g x) F5 (fi_table _ _ _ _ _ _ F') E Et) as [H1 H2]; try done.
  split_and!; [done| |exact H1]. apply H2. by exists x.
Qed.

(** The geometry that the super block [l] states fits. *)
Record fits (w : W) (dev : Z) (l : list Z) : Prop := {
  ft_inodes : 1 <= le16 l 0 < 2 ^ 16 - 1;
  ft_area : 2 + le16 l 4 + le16 l 6 + (le16 l 0 - 1) / INODES_PER_BLOCK < le16 l 8;
  ft_blocks : forall b, 2 + le16 l 4 + le16 l 6 <= b < le16 l 8 -> exists k, data w dev b = Bytes k;
  ft_zbits : le16 l 2 <= 8192 * le16 l 6;
  ft_ibits : le16 l 0 + 1 <= 8192 * le16 l 4
}.

Lemma le16_range_of_super w dev l ps : inv ps w -> data w dev 1 = Bytes l -> forall k, 0 <= le16 l k < 2 ^ 16.
Proof. intros Hi E k. apply le16_range. by apply (data_shape _ _ _ _ _ Hi E). Qed.

(** The tables of files and super blocks have been cleared. *)
Lemma tables_cleared w : length (ftable w) = NR_FILE -> length (supers (lget fl w)) = NR_SUPER ->
  exists w1 w2, clear_files NR_FILE 0 w = Ret tt w1 /\ clear_supers NR_SUPER 0 w1 = Ret tt w2 /\
    cleared w w1 /\ cleared w w2 /\ ftable w2 = unused <$> ftable w /\
    supers (lget fl w2) = fresh_super <$> supers (lget fl w).
Proof.
  intros Hft Hsp. destruct (clear_files_run NR_FILE 0 w ltac:(lia)) as (w1 & E1 & C1 & Hs1 & Hz1).
  destruct (clear_supers_run NR_SUPER 0 w1 ltac:(rewrite Hs1; lia)) as (w2 & E2 & C2 & Hf2 & Hs2).
  exists w1, w2. split_and!; try done; [by eapply cleared_trans| |].
  - rewrite Hf2. apply list_eq. intros j. rewrite Hz1, list_lookup_fmap. case_decide; [done|].
    by rewrite lookup_ge_None_2 by lia.
  - apply list_eq. intros j. rewrite Hs2, Hs1, list_lookup_fmap. case_decide; [done|].
    by rewrite lookup_ge_None_2 by lia.
Qed.

Lemma loaded_geometry l sb : load_super l sb = sb -> s_ninodes sb = le16 l 0 /\ s_nzones sb = le16 l 2 /\
  s_imap_blocks sb = le16 l 4 /\ s_zmap_blocks sb = le16 l 6 /\ s_firstdatazone sb = le16 l 8.
Proof. by intros <-. Qed.

(** The invariant with an empty table of inodes. *)
Lemma first_inv ps bs w w' dev l sb :
  inv ps w -> mountable w dev l -> fits w dev l -> inv (bs ++ ps) w' -> (length (bs ++ ps) < room)%nat ->
  itable w' = replicate NR_INODE zero_inode -> (last_inode (lget fl w') < NR_INODE)%nat ->
  length (supers (lget fl w')) = NR_SUPER -> supers (lget fl w') !! 0%nat = Some sb ->
  map_ok (bs ++ ps) w' dev 2 (le16 l 4) (s_imap sb) -> map_ok (bs ++ ps) w' dev (2 + le16 l 4) (le16 l 6) (s_zmap sb) ->
  load_super l sb = sb -> s_dev sb = dev -> s_lock sb = 0 ->
  (forall b, 2 + le16 l 4 + le16 l 6 <= b -> data w' dev b = data w dev b) ->
  fs_inv dev 0 sb (bs ++ ps) [] w'.
Proof.
  intros Hi [M1 M2 M3 M4 M5 M6] [G1 G2 G3 G4 G5] Hi' Hr Et Hla Hsp E0 Hm1 Hm2 Fload Fd Fl Hlow.
  destruct (loaded_geometry l sb Fload) as (Fni & Fnz & Fim & Fzm & Ffd).
  pose proof (le16_range_of_super w dev l ps Hi M2) as Hle.
  assert (0 <= (le16 l 0 - 1) / INODES_PER_BLOCK) by (apply Z.div_pos; [lia|done]).
  split; [done|done| | |].
  - split; unfold zmap_base, imap_base; rewrite ?Fim, ?Fzm, ?Fnz, ?Ffd; try done; [|lia|apply Hle].
    split; try done. intros j x Hj. lia.
  - split; unfold inodes_base; rewrite ?Fim, ?Fzm, ?Fni, ?Ffd; try done; try lia; [apply Hle|].
    intros b Hb. rewrite Hlow by lia. by apply G3.
  - split; rewrite ?Et; try done.
    + intros i x [-> _]%lookup_replicate. split; try done; try (by left); try apply (zero_width 0). intros _ Hd0. cbn in Hd0. lia.
    + intros i j x y [-> _]%lookup_replicate. cbn. lia.
    + intros i Hin. by inversion Hin.
Qed.

(** The references to the root do not concern the rest. *)
Lemma fs_inv_root dev sb ps qs w i :
  fs_inv dev 0 sb ps qs w ->
  let g x := x <| s_isup := Some i |> <| s_imount := Some i |> in
  fs_inv dev 0 (g sb) ps qs (sup_assigned g 0 w) /\
  forall nr, inode_of dev (g sb) (sup_assigned g 0 w) nr = inode_of dev sb w nr.
Proof.
  intros [F1 F2 F3 F4 [T1 T2 T3 T4 T5 T6]] g.
  assert (Hd : forall d b, data (sup_assigned g 0 w) d b = data w d b) by (intros; apply data_fl).
  assert (Ei : itable (sup_assigned g 0 w) = itable w) by (unfold itable, sup_assigned; by rewrite get_set).
  assert (Ec : lget cl (sup_assigned g 0 w) = lget cl w) by (unfold sup_assigned; apply get_apart).
  assert (Es : supers (lget fl (sup_assigned g 0 w)) = alter g 0%nat (supers (lget fl w)))
    by (unfold sup_assigned; by rewrite get_set).
  assert (Hdi : forall nr, disk_inode dev (g sb) (sup_assigned g 0 w) nr = disk_inode dev sb w nr).
  { intros nr. unfold disk_inode. by rewrite Hd. }
  split.
  - split; [by apply inv_fl|done| | |].
    + destruct F3 as [[H1 H2 H3 H4 H5 H6] [I1 I2 I3 I4] [Z1 Z2 Z3 Z4] M4 M5]. split; [|split; try done..|done|done].
      * split; try done.
        -- by rewrite Es, list_lookup_alter_eq, H1.
        -- by rewrite Es, length_alter.
        -- intros j x Hj. lia.
      * intros k Hk. rewrite Ec, Hd. by apply I3.
      * intros k Hk. rewrite Ec, Hd. by apply Z3.
    + destruct F4 as [I1 I2 I3 I4]. split; try done. intros b Hb. rewrite Hd. by apply I4.
    + split; rewrite ?Ei; try done.
      * unfold sup_assigned. by rewrite get_set.
      * intros j x Ex. destruct (T3 j x Ex). split; try done. by rewrite Hdi.
  - intros nr. unfold inode_of. rewrite Ei. by rewrite Hdi.
Qed.

(** mount_root() up to the super block: the tables are clear but for its slot,
    and the bitmaps are in the buffers [bs]. *)
Record super_in (ps : list nat) (w w' : W) (t : task_struct) (dev : Z) (l : list Z)
    (bs : list nat) (sb : super_block) : Prop := {
  si_inv : fs_inv dev 0 sb (bs ++ ps) [] w';
  si_mine : mine w' = Some t;
  si_table : itable w' = replicate NR_INODE zero_inode;
  si_load : load_super l sb = sb;
  si_files : ftable w' = unused <$> ftable w;
  si_supers : forall j, j <> 0%nat -> supers (lget fl w') !! j = fresh_super <$> supers (lget fl w) !! j;
  si_maps : reserved w w' dev l;
  si_data : forall b, 2 + le16 l 4 + le16 l 6 <= b -> data w' dev b = data w dev b
}.
Lemma super_read fuel ps w t dev l :
  enough fuel -> inv ps w -> (length ps + 16 < room)%nat -> mine w = Some t -> ROOT_DEV (lget fl w) = dev ->
  itable w = replicate NR_INODE zero_inode -> (last_inode (lget fl w) < NR_INODE)%nat ->
  length (ftable w) = NR_FILE -> length (supers (lget fl w)) = NR_SUPER ->
  mountable w dev l -> fits w dev l ->
  exists w1 w2 bs sb w3, clear_files NR_FILE 0 w = Ret tt w1 /\ ROOT_DEV (lget fl w1) = dev /\
    clear_supers NR_SUPER 0 w1 = Ret tt w2 /\ read_super fuel dev w2 = Ret (Some 0%nat) w3 /\
    super_in ps w w3 t dev l bs sb.
Proof.
  intros Hf8 Hi Hr Et Hrd Hit Hla Hft Hsp Hmt Hfits.
  destruct (tables_cleared w Hft Hsp) as (w1 & w2 & E1 & E2 & C1 & C & Hf2 & Hs2).
  assert (Hlen2 : length (supers (lget fl w2)) = NR_SUPER) by (by rewrite Hs2, length_fmap).
  assert (Hsup2 : forall j x, super_at w2 j = Some x -> s_dev x = 0 /\ s_lock x = 0 /\ s_wait x = None).
  { intros j x Ej. unfold super_at in Ej. rewrite Hs2, list_lookup_fmap in Ej.
    by apply fmap_Some in Ej as (y & _ & ->). }
  destruct (lookup_lt_is_Some_2 (supers (lget fl w2)) 0) as [x0 Ex0]; [rewrite Hlen2; unfold NR_SUPER; lia|].
  assert (Hmt2 : mountable w2 dev l).
  { destruct Hmt as [M1 M2 M3 M4 M5 M6]. split; try done; [by rewrite (cd_data _ _ C)|].
    intros b Hb. rewrite (cd_data _ _ C). by apply M6. }
  destruct (read_super_run ps w2 dev fuel l x0 Hf8 (cd_inv _ _ C ps Hi) Hlen2 Hsup2 Ex0 Hmt2 Hr)
    as (bs & sb & w3 & E3 & Hi3 & Hbs & Hfl3 & Htl3 & _ & (k1 & k2 & K1 & K2 & Hd3) & Hm1 & Hm2 & Fload & Fd & Fl).
  assert (Hlow : forall b, 2 + le16 l 4 + le16 l 6 <= b -> data w3 dev b = data w dev b).
  { intros b Hb. rewrite Hd3. unfold upd2. rewrite !decide_False by (pose proof (mt_zmap _ _ _ Hmt); pose proof (mt_imap _ _ _ Hmt); lia).
    apply (cd_data _ _ C). }
  assert (Et3 : itable w3 = replicate NR_INODE zero_inode).
  { unfold itable. rewrite Hfl3. cbn. change (itable w2 = replicate NR_INODE zero_inode). by rewrite (cd_table _ _ C). }
  exists w1, w2, bs, sb, w3. rewrite (cd_root _ _ C1). split_and!; [done..|]. split; try done.
  - apply (first_inv ps bs w w3 dev l sb); try done; rewrite ?Hfl3; cbn.
    + rewrite length_app. lia.
    + by rewrite (cd_last _ _ C).
    + by rewrite length_alter.
    + rewrite list_lookup_alter_eq. unfold super_at in Ex0. by rewrite Ex0.
  - unfold mine. rewrite Htl3, (cd_tl _ _ C). exact Et.
  - unfold ftable. rewrite Hfl3. exact Hf2.
  - intros j Hj. rewrite Hfl3. cbn. rewrite list_lookup_alter_ne by done. by rewrite Hs2, list_lookup_fmap.
  - exists k1, k2. rewrite <-!(cd_data _ _ C). split_and!; [done|done|]. intros d b. rewrite Hd3.
    unfold upd2. repeat case_decide; try done. apply (cd_data _ _ C).
Qed.

(** The inodes on the disk, seen through the table that is still empty. *)
Lemma super_in_inodes ps w w' t dev l bs sb nr :
  super_in ps w w' t dev l bs sb -> 0 < dev -> in_fs sb nr ->
  inode_of dev sb w' nr = disk_inode dev sb w nr.
Proof.
  intros [F Et E Hload _ _ _ Hlow] Hdev Hnr. destruct (loaded_geometry l sb Hload) as (_ & _ & Fim & Fzm & _).
  rewrite inode_of_none.
  - apply disk_inode_data. apply Hlow.
    destruct (inode_place _ _ _ _ _ _ (fi_mounted _ _ _ _ _ _ F) (fi_inodes _ _ _ _ _ _ F) Hnr) as (_ & _ & Hpl).
    unfold inodes_base in Hpl. rewrite Fim, Fzm in Hpl. lia.
  - intros j y Ej [Hyd _]. rewrite E in Ej. apply lookup_replicate in Ej as [-> _]. cbn in Hyd. lia.
Qed.

Lemma mount_root_run fuel ps w t dev l :
  (NR_INODE + NR_SUPER <= fuel)%nat ->
  inv ps w -> (length ps + 16 < room)%nat -> mine w = Some t ->
  ROOT_DEV (lget fl w) = dev -> MAJOR dev <> 2 ->
  itable w = replicate NR_INODE zero_inode -> (last_inode (lget fl w) < NR_INODE)%nat ->
  length (ftable w) = NR_FILE -> length (supers (lget fl w)) = NR_SUPER ->
  mountable w dev l -> fits w dev l ->
  exists i sb bs w', mount_root fuel w = Ret tt w' /\
    fs_inv dev 0 sb (bs ++ ps) [i; i; i; i] w' /\ ref dev w' i ROOT_INO /\
    mine w' = Some (t <| pwd := Some i |> <| root := Some i |>) /\
    load_super l sb = sb /\ s_isup sb = Some i /\ s_imount sb = Some i /\
    (forall nr, in_fs sb nr -> inode_of dev sb w' nr = disk_inode dev sb w nr) /\
    same_zones dev sb w w' /\ ftable w' = unused <$> ftable w /\
    (forall j, j <> 0%nat -> supers (lget fl w') !! j = fresh_super <$> supers (lget fl w) !! j) /\
    exists w3, reserved w w3 dev l /\
      forall d b, (d = dev -> b < inodes_base sb \/ s_firstdatazone sb <= b) -> data w' d b = data w3 d b.
Proof.
  intros Hf Hi Hr Et Hrd Hmaj Hit Hla Hft Hsp Hmt Hfits. unfold mount_root.
  assert (Hf8 : enough fuel) by (unfold enough, NR_INODE, NR_SUPER in *; lia).
  destruct (super_read fuel ps w t dev l Hf8 Hi Hr Et Hrd Hit Hla Hft Hsp Hmt Hfits)
    as (w1 & w2 & bs & sb & w3 & E1 & Hrd1 & E2 & E3 & SI). pose proof SI as [F3 Em3 Et3 Fload Hft3 Hsp3 Hm3 Hlow].
  rewrite (bind_ret _ _ _ _ _ E1), bind_gets, Hrd1.
  destruct (Z.eqb_spec (MAJOR dev) 2); [done|]. rewrite (bind_ret _ _ _ _ _ E2), (bind_ret _ _ _ _ _ E3).
  pose proof Hfits as [G1 G2 G3 G4 G5].
  pose proof (le16_range_of_super w dev l ps Hi (mt_super _ _ _ Hmt)) as Hle.
  pose proof Hmt as [M1 M2 M3 M4 M5 M6]. destruct (loaded_geometry l sb Fload) as (Fni & Fnz & Fim & Fzm & Ffd).
  assert (Hroot : in_fs sb ROOT_INO) by (unfold in_fs, ROOT_INO; lia).
  destruct (iget_ok dev 0 sb fuel (bs ++ ps) [] w3 ROOT_INO Hf F3 Hroot) as (i & w4 & E4 & F4 & C4 & R4);
    [unfold NR_INODE; cbn; lia|].
  rewrite (bind_ret _ _ _ _ _ E4). destruct R4 as (x & Ex & Hxd & Hxn).
  destruct (three_more dev 0 sb (bs ++ ps) w4 i x F4 Ex Hxd) as (F5 & R5 & Hino5).
  rewrite (set_ino_bind _ _ _ _ _ Ex). set (w5 := assigned _ i w4) in *.
  pose proof (hs_at _ _ _ _ (mo_super _ _ _ _ _ (fi_mounted _ _ _ _ _ _ F5))) as Es5.
  rewrite (set_sup_step _ _ _ _ _ Es5).
  destruct (fs_inv_root dev sb (bs ++ ps) _ w5 i F5) as [F6 Hino6]. cbn zeta in F6, Hino6.
  set (g := fun x => x <| s_isup := Some i |> <| s_imount := Some i |>) in *. set (w6 := sup_assigned g 0 w5) in *.
  assert (Em6 : mine w6 = Some t).
  { unfold mine, w6, sup_assigned, w5. rewrite get_apart, assigned_tl.
    rewrite (kp_tl _ _ _ _ _ (ca_kept _ _ _ _ _ _ C4)). exact Em3. }
  rewrite (set_me_bind _ _ _ _ Em6). pose proof (mine_with (t <| pwd := Some i |>) w6 t Em6) as Em7.
  rewrite (set_me_bind _ _ _ _ Em7), with_me_twice. set (w7 := with_me _ w6).
  assert (A : alike w6 w7) by apply alike_me.
  assert (F7 : fs_inv dev 0 (g sb) (bs ++ ps) [i; i; i; i] w7)
    by (apply (alike_fs_inv dev 0 (g sb) (bs ++ ps) _ w6 w7 A); [apply inv_me, F6|done]).
  pose proof (hs_at _ _ _ _ (mo_super _ _ _ _ _ (fi_mounted _ _ _ _ _ _ F7))) as Es7.
  rewrite (sup_bind _ _ _ _ _ Es7). cbn [id].
  destruct (count_free_run _ _ _ _ _ _ (fi_inv _ _ _ _ _ _ F7) (mo_zmap _ _ _ _ _ (fi_mounted _ _ _ _ _ _ F7))
    (Z.to_nat (s_nzones (g sb))) 0) as [r1 Er1].
  { change (s_nzones (g sb)) with (s_nzones sb). change (s_zmap_blocks (g sb)) with (s_zmap_blocks sb).
    rewrite Fnz, Fzm. pose proof (Hle 2%nat). lia. }
  rewrite (bind_ret _ _ _ _ _ Er1).
  destruct (count_free_run _ _ _ _ _ _ (fi_inv _ _ _ _ _ _ F7) (mo_imap _ _ _ _ _ (fi_mounted _ _ _ _ _ _ F7))
    (Z.to_nat (s_ninodes (g sb) + 1)) 0) as [r2 Er2].
  { change (s_ninodes (g sb)) with (s_ninodes sb). change (s_imap_blocks (g sb)) with (s_imap_blocks sb).
    rewrite Fni, Fim. lia. }
  rewrite (bind_ret _ _ _ _ _ Er2).
  assert (Eft : ftable w7 = unused <$> ftable w).
  { unfold w7. rewrite ftable_me. unfold ftable, w6, sup_assigned. rewrite get_set. cbn.
    unfold w5, assigned. rewrite get_set. cbn. rewrite (kp_files _ _ _ _ _ (ca_kept _ _ _ _ _ _ C4)).
    exact Hft3. }
  exists i, (g sb), bs, w7. split_and!; try done.
  - eapply alike_ref; [exact A|]. destruct R5 as (y & Ey & Hyd & Hyn). exists y.
    unfold w6, itable, sup_assigned. rewrite get_set. by rewrite Hyn.
  - by apply (mine_with _ _ _ Em6).
  - rewrite <-Fload at 2. by destruct sb.
  - intros nr Hnr. change (disk_inode dev (g sb) w nr) with (disk_inode dev sb w nr).
    rewrite (inode_of_same dev (g sb) w6 w7) by apply A. rewrite Hino6, Hino5 by done.
    rewrite (ca_inode _ _ _ _ _ _ C4) by done. apply (super_in_inodes ps w w3 t dev l bs sb nr); [done|lia|done].
  - intros b Hb. change (s_firstdatazone (g sb)) with (s_firstdatazone sb) in Hb.
    rewrite (ak_data _ _ A). unfold w6, sup_assigned. rewrite data_fl. unfold w5, assigned. rewrite data_fl.
    rewrite (kp_data _ _ _ _ _ (ca_kept _ _ _ _ _ _ C4)) by (by right). apply Hlow.
    rewrite Ffd in Hb. assert (0 <= (le16 l 0 - 1) / INODES_PER_BLOCK) by (apply Z.div_pos; [lia|done]). lia.
  - intros j Hj. unfold w7, with_me. rewrite apart_get. unfold w6, sup_assigned. rewrite get_set. cbn.
    rewrite list_lookup_alter_ne by done. unfold w5, assigned. rewrite get_set. cbn.
    rewrite (kp_supers _ _ _ _ _ (ca_kept _ _ _ _ _ _ C4)). by apply Hsp3.
  - exists w3. split; [done|]. intros d b Hb. rewrite (ak_data _ _ A). unfold w6, sup_assigned.
    rewrite data_fl. unfold w5, assigned. rewrite data_fl. by apply (kp_data _ _ _ _ _ (ca_kept _ _ _ _ _ _ C4)).
Qed.
End mount.

(** ** The small file system, not mounted yet *)

Definition blocks1 : list (Z * list Z * Z) := (fun p => (p.1, 0)) <$> blocks0.
Definition cache1 : cache := match load_all dev0 blocks1 empty0 with Ret _ c => c | Stop _ c => c end.
Definition fsys1 : fsys :=
  Fsys (replicate NR_INODE zero_inode) 0 (replicate NR_FILE no_file) (replicate NR_SUPER no_super) dev0.
Definition task1 : task_struct := INIT_TASK 0 0.
Definition world1 : Warm.world := (cache1, fsys1, Sched [Some task1; Some task1] 1 2).

Lemma cache1_ok : ok cache1.
Proof.
  assert (H : match load_all dev0 blocks1 empty0 with Ret _ _ => true | Stop _ _ => false end = true)
    by (vm_compute; reflexivity).
  unfold cache1. destruct (load_all dev0 blocks1 empty0) as [[] c|] eqn:E; [|done].
  refine (wp_Ret _ _ _ _ _ _ (load_all_ok dev0 blocks1 _ _ empty0 _) E).
  - by split.
  - by repeat constructor.
  - exists (seq 0 11), (fun _ => []). apply empty0_wf.
Qed.
Lemma world1_warm : inv [] world1.
Proof.
  split.
  - exact cache1_ok.
  - reflexivity.
  - apply Forall_forall. intros x Hx%list_elem_of_In. apply good_blockb_ok.
    revert x Hx. apply forallb_forall. vm_compute. reflexivity.
  - intros i Hi. by inversion Hi.
  - intros i x. apply counts_ok_spec. vm_compute. reflexivity.
  - cbn [length]. lia.
Qed.

(** Bit 0 of the bitmap block [b] has been set, and no other bit. *)
Definition first_marked {W} `{!Env W, !BlockIO W} (w w' : W) (dev b : Z) : Prop :=
  exists k k', data w dev b = Bytes k /\ data w' dev b = Bytes k' /\
    forall j, 0 <= j < 8192 -> bit k' j = (j =? 0) || bit k j.

Lemma bit_first_set k j : length k = 1024%nat -> 0 <= j < 8192 ->
  bit (first_set k) j = (j =? 0) || bit k j.
Proof.
  intros Hk Hj. unfold bit, first_set. destruct (zget_is_Some k 0) as [v Ev]; [lia|].
  destruct (decide (j / 8 = 0)) as [E|E].
  - rewrite E, zget_zset_eq, Ev by lia. cbn [default]. rewrite Z.lor_spec.
    assert (j mod 8 = j) as -> by (pose proof (Z.div_mod j 8 ltac:(done)); lia). rewrite orb_comm. f_equal.
  - rewrite zget_zset_ne by done. destruct (Z.eqb_spec j 0) as [->|]; done.
Qed.

(** What reserving the first bits makes of the device. *)
Lemma reserved_marks {W} `{!Env W, !Wired W, !BlockIO W} ps (w w' : W) dev l :
  inv ps w -> 0 < le16 l 4 -> reserved w w' dev l ->
  first_marked w w' dev 2 /\ first_marked w w' dev (2 + le16 l 4) /\
  forall d b, d <> dev \/ (b <> 2 /\ b <> 2 + le16 l 4) -> data w' d b = data w d b.
Proof.
  intros Hi Hl (k1 & k2 & E1 & E2 & Hd).
  assert (Hlen : forall b k, data w dev b = Bytes k -> length k = 1024%nat)
    by (intros b k E; apply (data_shape _ _ _ _ _ Hi E)).
  unfold first_marked, upd2 in *. split_and!.
  - exists k1, (first_set k1). split_and!; [done| |intros; apply bit_first_set; eauto].
    rewrite Hd, decide_False, decide_True by (done || lia). done.
  - exists k2, (first_set k2). split_and!; [done| |intros; apply bit_first_set; eauto].
    by rewrite Hd, decide_True by done.
  - intros d b Hn. rewrite Hd, !decide_False by lia. done.
Qed.

(** C22.  mount_root(), on a root device whose super block is good, whose
    bitmaps and inode blocks can be read and whose numbers of zones and inodes fit
    the bitmaps, with the tables as they are at start-up, succeeds and
    establishes the invariant of the file system: the bitmaps are in buffers
    that the super block holds, there are four references to the root inode,
    all inodes are those of the disk, and the process has the root as its root
    and its current directory.  Everything else is empty: no file of the table
    is in use, no other entry of the inode table has a reference, and the other
    slots for super blocks are free and unlocked with nobody waiting, with
    nothing else of them changed.  The first bit of both bitmaps is set, and no
    block outside of the inode blocks of the device has changed otherwise. *)
Theorem mount_root_spec {W} `{!Env W, !Wired W, !BlockIO W} fuel ps (w : W) t dev l :
  (NR_INODE + NR_SUPER <= fuel)%nat ->
  inv ps w -> (length ps + 16 < room)%nat -> mine w = Some t ->
  ROOT_DEV (lget fl w) = dev -> MAJOR dev <> 2 ->
  itable w = replicate NR_INODE zero_inode -> (last_inode (lget fl w) < NR_INODE)%nat ->
  length (ftable w) = NR_FILE -> length (supers (lget fl w)) = NR_SUPER ->
  mountable w dev l -> fits w dev l ->
  exists i sb bs w', mount_root fuel w = Ret tt w' /\
    fs_inv dev 0 sb (bs ++ ps) [i; i; i; i] w' /\ ref dev w' i ROOT_INO /\
    mine w' = Some (t <| pwd := Some i |> <| root := Some i |>) /\
    load_super l sb = sb /\ s_isup sb = Some i /\ s_imount sb = Some i /\
    (forall nr, in_fs sb nr -> inode_of dev sb w' nr = disk_inode dev sb w nr) /\
    ftable w' = (fun x => x <| f_count := 0 |>) <$> ftable w /\
    (forall j x, j <> i -> itable w' !! j = Some x -> i_count x = 0) /\
    (forall j, j <> 0%nat -> supers (lget fl w') !! j =
       (fun x => x <| s_dev := 0 |> <| s_lock := 0 |> <| s_wait := None |>) <$> supers (lget fl w) !! j) /\
    first_marked w w' dev 2 /\ first_marked w w' dev (2 + le16 l 4) /\
    (forall d b, (d = dev -> b <> 2 /\ b <> 2 + le16 l 4 /\
                    (b < 2 + le16 l 4 + le16 l 6 \/ le16 l 8 <= b)) -> data w' d b = data w d b).
Proof.
  intros Hf Hi Hr Et Hrd Hmaj Hit Hla Hft Hsp Hmt Hfit.
  destruct (mount_root_run fuel ps w t dev l) as (i & sb & bs & w' & H1 & F & H3 & H4 & Hl & H6 & H7 & H8 &
    _ & Hfl & Hsl & w3 & Hres & Hdat); try done.
  destruct (loaded_geometry l sb Hl) as (_ & _ & Fim & Fzm & Ffd).
  pose proof (mt_imap _ _ _ Hmt). pose proof (mt_zmap _ _ _ Hmt).
  pose proof (ft_area _ _ _ Hfit). pose proof (ft_inodes _ _ _ Hfit).
  assert (0 <= (le16 l 0 - 1) / INODES_PER_BLOCK) by (apply Z.div_pos; [lia|done]).
  unfold inodes_base in Hdat. rewrite Fim, Fzm, Ffd in Hdat.
  destruct (reserved_marks ps w w3 dev l Hi ltac:(lia) Hres) as ((k1 & k1' & A1 & A2 & A3) & (k2 & k2' & B1 & B2 & B3) & Ho).
  exists i, sb, bs, w'. split_and!; try done.
  - intros j x Hj Ex. rewrite (en_count _ _ _ _ _ _ (tb_entry _ _ _ _ (fi_table _ _ _ _ _ _ F) j x Ex)).
    by rewrite !uses_cons, !decide_False by congruence.
  - exists k1, k1'. split_and!; [done|rewrite Hdat by lia; done|done].
  - exists k2, k2'. split_and!; [done|rewrite Hdat by lia; done|done].
  - intros d b Hb. rewrite Hdat by (intros; destruct Hb as (_ & _ & Hb); [done|lia]).
    apply Ho. destruct (decide (d = dev)) as [Ed|]; [|by left]. right. by destruct (Hb Ed) as (? & ? & _).
Qed.

Lemma mount_root_spec_witness :
  exists i sb bs w', mount_root 40 world1 = Ret tt w' /\ fs_inv dev0 0 sb (bs ++ []) [i; i; i; i] w' /\
    ref dev0 w' i ROOT_INO /\ s_nzones sb = 12.
Proof.
  assert (Hl : is_bytes (data world1 dev0 1) = true) by (vm_compute; reflexivity).
  destruct (is_bytes_ok _ Hl) as [l El].
  assert (Hle : (fun k => match data world1 dev0 1 with Bytes l => le16 l k | _ => 0 end) <$> [0; 2; 4; 6; 8; 16]%nat =
    [32; 12; 1; 1; 5; SUPER_MAGIC]) by (vm_compute; reflexivity).
  rewrite El in Hle. cbn [fmap list_fmap] in Hle. injection Hle as E0 E2 E4 E6 E8 E16.
  assert (Hfb : forallb (fun b => is_bytes (data world1 dev0 b)) [2; 3; 4] = true) by (vm_compute; reflexivity).
  assert (Hall : forall b, In b [2; 3; 4] -> exists k, data world1 dev0 b = Bytes k).
  { intros b Hb. apply is_bytes_ok. exact (proj1 (forallb_forall _ _) Hfb b Hb). }
  destruct (mount_root_spec 40 [] world1 task1 dev0 l) as (i & sb & bs & w' & E & F & R & _ & Hsb & _).
  - apply Nat.leb_le. reflexivity.
  - exact world1_warm.
  - apply Nat.ltb_lt. vm_compute. reflexivity.
  - reflexivity.
  - reflexivity.
  - vm_compute. discriminate.
  - reflexivity.
  - apply Nat.ltb_lt. reflexivity.
  - reflexivity.
  - reflexivity.
  - apply Build_mountable; [split; reflexivity|exact El|exact E16| | |].
    + rewrite E4. split; [reflexivity|discriminate].
    + rewrite E6. split; [reflexivity|discriminate].
    + rewrite E4, E6. intros b Hb. apply Hall. cbn. lia.
  - apply Build_fits.
    + rewrite E0. split; [discriminate|reflexivity].
    + rewrite E0, E4, E6, E8. reflexivity.
    + rewrite E4, E6, E8. intros b Hb. apply Hall. cbn. lia.
    + rewrite E2, E6. discriminate.
    + rewrite E0, E4. discriminate.
  - exists i, sb, bs, w'. split_and!; [exact E|exact F|exact R|]. rewrite <-Hsb. exact E2.
Defined.
