(* ===== verification/Setup.v ===== *)
(** * The drives and their partitions: sys_setup() of
    drivers/block/hardisk/hd.c

    The first process calls sys_setup() once.  It takes the geometry of the
    drives from the bytes that the BIOS left at [BIOS], their number from the
    CMOS, the partitions from the first block of each drive, and mounts the
    root device.  Class [Drives] adds the driver and the ports to the parts
    of the system that class [Env] names; [DrivesOk] is what the proofs use
    of them: changing the tables of the driver disturbs neither the buffers
    that are held nor the contents of a device whose own entry of [hd] stays. *)

From S2P Require Import Prelude Task Sched WaitQ Buffer Blk Hd Fs Blocks.

Class Drives (W : Type) `{!Env W} := {
  ports : Type;
  #[global] ports_disk :: Disk ports;
  dl : lens W driver;
  kl : lens W ports
}.

Section ops.
Context {W : Type} `{!Env W, !Drives W}.

(** The static variables of the driver. *)
Definition var {A} (f : driver -> A) : M W A := zoom dl (gets f).
Definition set_var (g : driver -> driver) : M W unit := zoom dl (modify g).

Definition CMOS_READ (addr : Z) : M W Z :=
  zoom kl (fun d => let '(v, d') := d_inb 0x71 (d_outb 0x70 (u8 (Z.lor 0x80 addr)) d) in Ret (u8 v) d').

Definition set_hd (i : Z) (v : hd_struct) : M W unit :=
  let! l := var hd in
  let! _ := deref (zget l i) in
  set_var (fun d => d <| hd ::= zset i v |>).

(** The size of every drive that is there. *)
Fixpoint size_drives (n : nat) : M W unit :=
  match n with
  | O => ret tt
  | S i =>
      size_drives i ;;
      let! l := var hd_info in
      let! h := deref (zget l (Z.of_nat i)) in
      set_hd (Z.of_nat i * 5) (HdStruct 0 (s32 (head h * cyl h * sect h)))
  end.
Fixpoint clear_drives (n : nat) (i : Z) : M W unit :=
  match n with
  | O => ret tt
  | S n' => set_hd (i * 5) (HdStruct 0 0) ;; clear_drives n' (i + 1)
  end.

(** [struct partition] number [i] of the first block, 1 to 4. *)
Definition partition (l : list Z) (i : Z) : hd_struct :=
  let p := (0x1BE + 16 * Z.to_nat (i - 1))%nat in
  HdStruct (s32 (le32 l (p + 8))) (s32 (le32 l (p + 12))).
(** The entries of the partition table, from [i] on. *)
Fixpoint partitions (n : nat) (drive i : Z) (l : list Z) : M W unit :=
  match n with
  | O => ret tt
  | S n' => set_hd (i + 5 * drive) (partition l i) ;; partitions n' drive (i + 1) l
  end.
(** [for (drive=0 ; drive<NR_HD ; drive++)], from [drive] on. *)
Fixpoint read_tables (n : nat) (drive : Z) : M W unit :=
  match n with
  | O => ret tt
  | S n' =>
      let! bh := bread (0x300 + drive * 5) 0 in
      match bh with
      | None => halt (Panic "Unable to read partition table")
      | Some bh =>
          let! l := buf b_bytes bh in
          let! x := deref (l !! 510%nat) in
          let! y := deref (l !! 511%nat) in
          if negb (x =? 0x55) || negb (y =? 0xAA) then halt (Panic "Bad partition table")
          else
            partitions 4 drive 1 l ;;
            brelse (Some bh) ;;
            read_tables n' (drive + 1)
      end
  end.

Definition sys_setup (mount_root : M W unit) (BIOS : Z -> Z) : M W Z :=
  let! c := var callable in
  if negb (truth c) then ret (-1)
  else
    set_var (fun d => d <| callable := 0 |>) ;;
    set_var (fun d => d <| hd_info ::= fun l => imap (fun i => bios_info BIOS (16 * Z.of_nat i)) l |>) ;;
    let! l := var hd_info in
    let! h := deref (zget l 1) in
    set_var (fun d => d <| NR_HD := if truth (cyl h) then 2 else 1 |>) ;;
    let! n := var NR_HD in
    size_drives (Z.to_nat n) ;;
    let! cmos_disks := CMOS_READ 0x12 in
    set_var (fun d => d <| NR_HD :=
      if truth (Z.land cmos_disks 0xf0) then (if truth (Z.land cmos_disks 0x0f) then 2 else 1)
      else 0 |>) ;;
    let! n := var NR_HD in
    clear_drives (Z.to_nat (2 - n)) n ;;
    read_tables (Z.to_nat n) 0 ;;
    mount_root ;;
    ret 0.
End ops.

(** ** What the proofs use of the drives *)

(** What an operation on blocks leaves alone of the driver. *)
Definition tables (v : driver) : list hd_struct * list hd_i_struct * Z * Z :=
  (hd v, hd_info v, NR_HD v, callable v).

Class DrivesOk (W : Type) `{!Env W, !Drives W, !BlockIO W} : Prop := {
  #[global] dl_ok :: LensOk dl;
  #[global] kl_ok :: LensOk kl;
  #[global] dl_kl :: Apart dl kl;
  #[global] dl_fl :: Apart dl fl;
  #[global] dl_tl :: Apart dl tl;
  #[global] dl_cl :: Apart dl cl;
  #[global] kl_fl :: Apart kl fl;
  #[global] kl_tl :: Apart kl tl;
  inv_dl ps w h : inv ps w -> inv ps (lset dl ((lget dl w) <| hd := h |>) w);
  data_dl w h d b : zget h (MINOR d) = zget (hd (lget dl w)) (MINOR d) ->
    data (lset dl ((lget dl w) <| hd := h |>) w) d b = data w d b;
  bread_dl dev b i w w' : bread dev b w = Ret (Some i) w' -> tables (lget dl w') = tables (lget dl w);
  brelse_dl i w w' : brelse (Some i) w = Ret tt w' -> tables (lget dl w') = tables (lget dl w)
}.

(** ** The tables that sys_setup() makes *)

(** The number of drives, by the CMOS. *)
Definition cmos_drives (c : Z) : nat :=
  if truth (Z.land c 0xf0) then (if truth (Z.land c 0x0f) then 2 else 1) else 0.
Definition geometry_of (BIOS : Z -> Z) (i : nat) : hd_i_struct :=
  let p := 16 * Z.of_nat i in
  {| cyl := at16 BIOS p; head := BIOS (p + 2); wpcom := at16 BIOS (p + 5); ctl := BIOS (p + 8);
     lzone := at16 BIOS (p + 12); sect := BIOS (p + 14) |}.
Definition drive_size (h : hd_i_struct) : Z := s32 (head h * cyl h * sect h).
(** The entry of a whole drive: [n] drives by the CMOS; the second one gets
    its size only if the BIOS knows its geometry. *)
Definition whole_entry (BIOS : Z -> Z) (n i : nat) (old : hd_struct) : hd_struct :=
  if (n <=? i)%nat then HdStruct 0 0
  else if (i =? 0)%nat || truth (cyl (geometry_of BIOS 1)) then HdStruct 0 (drive_size (geometry_of BIOS i))
  else old.
Definition found (BIOS : Z -> Z) (n : nat) (v : driver) : driver :=
  v <| callable := 0 |> <| NR_HD := Z.of_nat n |>
    <| hd_info := [geometry_of BIOS 0; geometry_of BIOS 1] |>
    <| hd ::= imap (fun j e => if (j =? 0)%nat then whole_entry BIOS n 0 e
                               else if (j =? 5)%nat then whole_entry BIOS n 1 e else e) |>.
(** The first block of a drive that has a partition table. *)
Definition signed (l : list Z) : bool :=
  match l !! 510%nat, l !! 511%nat with Some x, Some y => (x =? 0x55) && (y =? 0xAA) | _, _ => false end.
Definition with_table (drive : Z) (l : list Z) (h : list hd_struct) : list hd_struct :=
  zset (4 + 5 * drive) (partition l 4) (zset (3 + 5 * drive) (partition l 3)
    (zset (2 + 5 * drive) (partition l 2) (zset (1 + 5 * drive) (partition l 1) h))).
Fixpoint with_tables (n : nat) (drive : Z) (l : Z -> list Z) (h : list hd_struct) : list hd_struct :=
  match n with O => h | S n' => with_tables n' (drive + 1) l (with_table drive (l drive) h) end.

Section setup.
Context {W : Type} `{!Env W, !Drives W, !Wired W, !BlockIO W, !DrivesOk W}.

Lemma var_bind {A B} (f : driver -> A) (k : A -> M W B) w : bind (var f) k w = k (f (lget dl w)) w.
Proof. by apply (bind_zoom_read dl). Qed.
Lemma set_var_bind {B} g (k : unit -> M W B) w :
  bind (set_var g) k w = k tt (lset dl (g (lget dl w)) w).
Proof. by apply (bind_zoom dl). Qed.
Lemma set_var_run g (w : W) : set_var g w = Ret tt (lset dl (g (lget dl w)) w).
Proof. done. Qed.
Lemma set_hd_run i e w : 0 <= i < Z.of_nat (length (hd (lget dl w))) ->
  set_hd i e w = Ret tt (lset dl ((lget dl w) <| hd ::= zset i e |>) w).
Proof.
  intros Hi. unfold set_hd. rewrite var_bind. destruct (zget_is_Some _ _ Hi) as [x E].
  by rewrite (bind_deref _ _ _ _ E).
Qed.

Lemma partitions_run drive l w : 0 <= drive <= 1 -> length (hd (lget dl w)) = 10%nat ->
  partitions 4 drive 1 l w = Ret tt (lset dl ((lget dl w) <| hd ::= with_table drive l |>) w).
Proof.
  intros Hd Hl. cbn [partitions]. erewrite bind_ret by (apply set_hd_run; lia).
  do 3 (erewrite bind_ret by (apply set_hd_run; rewrite get_set; cbn [upd hd eta_driver]; rewrite ?length_zset; lia);
        rewrite ?get_set, ?set_set; cbn [upd hd]).
  done.
Qed.

(** *** The first blocks of the drives *)

Lemma length_with_table drive l h : length (with_table drive l h) = length h.
Proof. unfold with_table. by rewrite !length_zset. Qed.
Lemma with_table_whole drive l h d : 0 <= drive -> zget (with_table drive l h) (5 * d) = zget h (5 * d).
Proof. intros Hd. unfold with_table. by rewrite !zget_zset_ne by lia. Qed.

(** What reading the tables leaves alone. *)
Record table_read (w w' : W) (h : list hd_struct) : Prop := {
  tr_fl : lget fl w' = lget fl w;
  tr_tl : lget tl w' = lget tl w;
  tr_tables : tables (lget dl w') =
    (h, hd_info (lget dl w), NR_HD (lget dl w), callable (lget dl w));
  tr_data : forall d b, MINOR d mod 5 = 0 -> data w' d b = data w d b
}.
Lemma table_read_refl w : table_read w w (hd (lget dl w)).
Proof. by split. Qed.
Lemma table_read_trans w1 w2 w3 h1 h2 : table_read w1 w2 h1 -> table_read w2 w3 h2 -> table_read w1 w3 h2.
Proof.
  intros [A1 A2 A3 A4] [B1 B2 B3 B4]. injection A3 as _ Ei En Ec.
  split; [congruence|congruence|by rewrite B3, Ei, En, Ec|intros d b Hd; by rewrite B4, A4].
Qed.

Definition whole (drive : Z) : Z := 0x300 + drive * 5.

(** One turn of the loop, up to the test. *)
Lemma first_block_run ps drive l w :
  inv ps w -> (length ps < room)%nat -> data w (whole drive) 0 = Bytes l ->
  exists i w1, bread (whole drive) 0 w = Ret (Some i) w1 /\ inv (i :: ps) w1 /\
    table_read w w1 (hd (lget dl w)) /\ (forall d b, data w1 d b = data w d b) /\
    forall B (k : list Z -> M W B), bind (buf b_bytes i) k w1 = k l w1.
Proof.
  intros Hi Hr E. destruct (bread_ok ps w _ _ l Hi E Hr) as (i & w1 & Eb & P).
  destruct (pinned_holding _ _ _ _ _ _ P) as [x Hx]. destruct P as (Hi1 & Hd & S & _).
  exists i, w1. split_and!; [done|done| |done|].
  - split; [apply S|apply S| |by intros; apply Hd]. by rewrite (bread_dl _ _ _ _ _ Eb).
  - intros B k. rewrite (buf_bind _ _ _ _ _ (ho_at _ _ _ _ _ _ Hx)).
    rewrite <-Hd in E. by rewrite (proj1 (holding_bytes _ _ _ _ _ _ _ Hx E)).
Qed.

Lemma read_table_good ps n drive l w :
  inv ps w -> (length ps < room)%nat -> 0 <= drive <= 1 -> length (hd (lget dl w)) = 10%nat ->
  data w (whole drive) 0 = Bytes l -> signed l = true ->
  exists w', read_tables (S n) drive w = read_tables n (drive + 1) w' /\ inv ps w' /\
    table_read w w' (with_table drive l (hd (lget dl w))).
Proof.
  intros Hi Hr Hdr Hl E Hs.
  destruct (first_block_run ps drive l w Hi Hr E) as (i & w1 & Eb & Hi1 & T1 & _ & Hbuf).
  pose proof (tr_tables _ _ _ T1) as Et. injection Et as Eh Ei En Ec.
  cbn [read_tables]. fold (whole drive). rewrite (bind_ret _ _ _ _ _ Eb), Hbuf.
  unfold signed in Hs. destruct (l !! 510%nat) as [x|]; [|done]. destruct (l !! 511%nat) as [y|]; [|done].
  cbn [deref]. rewrite !bind_ret_l. apply andb_prop in Hs as [-> ->]. cbn [negb orb].
  erewrite bind_ret by (apply partitions_run; [done|by rewrite Eh]).
  pose proof (inv_dl _ _ (with_table drive l (hd (lget dl w1))) Hi1) as Hi2.
  change ((lget dl w1) <| hd ::= with_table drive l |>) with ((lget dl w1) <| hd := with_table drive l (hd (lget dl w1)) |>).
  set (w2 := lset dl _ w1) in *.
  destruct (brelse_ok ps w2 i Hi2) as (w3 & Er & Hi3 & Hd3 & S3).
  rewrite (bind_ret _ _ _ _ _ Er). exists w3. split_and!; [done|done|].
  eapply table_read_trans; [exact T1|]. rewrite <-Eh. split.
  - rewrite (st_fl _ _ _ S3). unfold w2. apply apart_get.
  - rewrite (st_tl _ _ _ S3). unfold w2. apply apart_get.
  - rewrite (brelse_dl _ _ _ Er). unfold w2. by rewrite get_set.
  - intros d b Hd. rewrite Hd3. apply data_dl.
    replace (MINOR d) with (5 * (MINOR d / 5)) by (pose proof (Z.div_mod (MINOR d) 5); lia).
    apply with_table_whole. lia.
Qed.

Lemma minor_whole drive : 0 <= drive <= 1 -> MINOR (whole drive) mod 5 = 0.
Proof. intros Hd. assert (drive = 0 \/ drive = 1) as [->| ->] by lia; done. Qed.

Lemma read_tables_good n l : forall ps drive w,
  inv ps w -> (length ps < room)%nat -> 0 <= drive -> drive + Z.of_nat n <= 2 ->
  length (hd (lget dl w)) = 10%nat ->
  (forall d, drive <= d < drive + Z.of_nat n -> data w (whole d) 0 = Bytes (l d) /\ signed (l d) = true) ->
  exists w', read_tables n drive w = Ret tt w' /\ inv ps w' /\
    table_read w w' (with_tables n drive l (hd (lget dl w))).
Proof.
  induction n as [|n IH]; intros ps drive w Hi Hr H0 Hn Hl Hs.
  - exists w. split_and!; [done|done|apply table_read_refl].
  - destruct (Hs drive ltac:(lia)) as [E Eg].
    destruct (read_table_good ps n drive (l drive) w Hi Hr ltac:(lia) Hl E Eg) as (w1 & E1 & Hi1 & T1).
    pose proof (tr_tables _ _ _ T1) as Et. injection Et as Eh _ _ _.
    destruct (IH ps (drive + 1) w1) as (w' & E' & Hi' & T'); try done; try lia.
    + by rewrite Eh, length_with_table.
    + intros d Hd. rewrite (tr_data _ _ _ T1) by (apply minor_whole; lia). apply Hs. lia.
    + exists w'. rewrite E1. split_and!; [done|done|]. cbn [with_tables]. rewrite <-Eh.
      by eapply table_read_trans.
Qed.
Lemma read_tables_bad n l k : forall ps drive w,
  inv ps w -> (length ps < room)%nat -> 0 <= drive -> drive + Z.of_nat n <= 2 ->
  length (hd (lget dl w)) = 10%nat -> drive <= k < drive + Z.of_nat n ->
  (forall d, drive <= d <= k -> data w (whole d) 0 = Bytes (l d)) ->
  (forall d, drive <= d < k -> signed (l d) = true) -> signed (l k) = false ->
  exists w', read_tables n drive w = Stop (Panic "Bad partition table") w'.
Proof.
  induction n as [|n IH]; intros ps drive w Hi Hr H0 Hn Hl Hk Hd Hg Hb; [lia|].
  destruct (decide (drive = k)) as [->|].
  - destruct (first_block_run ps k (l k) w Hi Hr (Hd k ltac:(lia))) as (i & w1 & Eb & Hi1 & _ & Hsame & Hbuf).
    pose proof (Hd k ltac:(lia)) as E. destruct (data_shape _ _ _ _ _ Hi E) as [Hlen _].
    change (Z.to_nat BLOCK_SIZE) with 1024%nat in Hlen.
    cbn [read_tables]. fold (whole k). rewrite (bind_ret _ _ _ _ _ Eb), Hbuf. exists w1.
    unfold signed in Hb.
    destruct (lookup_lt_is_Some_2 (l k) 510) as [x Ex]; [lia|]. destruct (lookup_lt_is_Some_2 (l k) 511) as [y Ey]; [lia|].
    rewrite Ex, Ey in *. cbn [deref]. rewrite !bind_ret_l. rewrite <-negb_andb, Hb. done.
  - destruct (read_table_good ps n drive (l drive) w Hi Hr ltac:(lia) Hl (Hd drive ltac:(lia)) (Hg drive ltac:(lia)))
      as (w1 & E1 & Hi1 & T1).
    pose proof (tr_tables _ _ _ T1) as Et. injection Et as Eh _ _ _. rewrite E1.
    apply (IH ps (drive + 1) w1); try done; try lia.
    + by rewrite Eh, length_with_table.
    + intros d Hdd. rewrite (tr_data _ _ _ T1) by (apply minor_whole; lia). apply Hd. lia.
Qed.

(** *** The tables of the drives *)

Definition sized (n : nat) (i0 i1 : hd_i_struct) (h : list hd_struct) : list hd_struct :=
  match n with
  | O => h
  | S O => zset 0 (HdStruct 0 (drive_size i0)) h
  | _ => zset 5 (HdStruct 0 (drive_size i1)) (zset 0 (HdStruct 0 (drive_size i0)) h)
  end.
Definition cleared_from (n : nat) (h : list hd_struct) : list hd_struct :=
  match n with
  | O => zset 5 (HdStruct 0 0) (zset 0 (HdStruct 0 0) h)
  | S O => zset 5 (HdStruct 0 0) h
  | _ => h
  end.
Lemma same_driver (w : W) : lset dl (lget dl w) w = w.
Proof. apply set_get. Qed.
Lemma size_drives_S w w1 n h : size_drives n w = Ret tt w1 -> zget (hd_info (lget dl w1)) (Z.of_nat n) = Some h ->
  Z.of_nat n * 5 < Z.of_nat (length (hd (lget dl w1))) ->
  size_drives (S n) w =
    Ret tt (lset dl ((lget dl w1) <| hd ::= zset (Z.of_nat n * 5) (HdStruct 0 (drive_size h)) |>) w1).
Proof.
  intros E Eh Hn. cbn [size_drives]. rewrite (bind_ret _ _ _ _ _ E), var_bind, (bind_deref _ _ _ _ Eh).
  apply set_hd_run. lia.
Qed.
Lemma size_drives_run w n i0 i1 : (n <= 2)%nat -> hd_info (lget dl w) = [i0; i1] ->
  length (hd (lget dl w)) = 10%nat ->
  size_drives n w = Ret tt (lset dl ((lget dl w) <| hd ::= sized n i0 i1 |>) w).
Proof.
  intros Hn Hi Hl.
  assert (E1 : size_drives 1 w = Ret tt (lset dl ((lget dl w) <| hd ::= sized 1 i0 i1 |>) w))
    by (apply (size_drives_S w w 0 i0); [done|by rewrite Hi|lia]).
  destruct n as [|[|[|n]]]; [|done| |lia].
  - unfold sized. cbn [upd]. rewrite <-(same_driver w) at 1. cbn. unfold ret. do 2 f_equal. by destruct (lget dl w).
  - rewrite (size_drives_S _ _ 1 i1 E1); rewrite ?get_set; cbn [upd hd hd_info]; [by rewrite set_set|by rewrite Hi|].
    cbn [sized]. rewrite length_zset. lia.
Qed.
Lemma clear_drives_run w n : (n <= 2)%nat -> length (hd (lget dl w)) = 10%nat ->
  clear_drives (2 - n) (Z.of_nat n) w = Ret tt (lset dl ((lget dl w) <| hd ::= cleared_from n |>) w).
Proof.
  intros Hn Hl. destruct n as [|[|[|n]]]; [|..|lia]; cbn [clear_drives Nat.sub].
  - erewrite bind_ret by (apply set_hd_run; cbn; lia).
    erewrite bind_ret by (apply set_hd_run; rewrite get_set; cbn; rewrite length_zset; lia).
    by rewrite get_set, set_set.
  - by erewrite bind_ret by (apply set_hd_run; cbn; lia).
  - unfold cleared_from. cbn [upd]. rewrite <-(same_driver w) at 1. unfold ret. do 2 f_equal. by destruct (lget dl w).
Qed.

(** The ports after CMOS_READ(0x12), and the value. *)
Definition cmos_after (d : ports) : Z * ports :=
  let '(v, d') := d_inb 0x71 (d_outb 0x70 0x92 d) in (u8 v, d').
(** The state before the first blocks are read. *)
Definition drives_found (BIOS : Z -> Z) (w : W) : W :=
  let '(c, d) := cmos_after (lget kl w) in
  lset dl (found BIOS (cmos_drives c) (lget dl w)) (lset kl d w).
Definition drives_of (w : W) : nat := cmos_drives (fst (cmos_after (lget kl w))).

Lemma cmos_drives_value c :
  (if truth (Z.land c 0xf0) then (if truth (Z.land c 0x0f) then 2 else 1) else 0) = Z.of_nat (cmos_drives c).
Proof. unfold cmos_drives. by destruct (truth (Z.land c 0xf0)), (truth (Z.land c 0x0f)). Qed.
Lemma cmos_drives_le c : (cmos_drives c <= 2)%nat.
Proof. unfold cmos_drives. destruct (truth (Z.land c 0xf0)), (truth (Z.land c 0x0f)); lia. Qed.

(** Sizes and zeros together. *)
Lemma found_entries BIOS n h : (n <= 2)%nat -> length h = 10%nat ->
  cleared_from n (sized (if truth (cyl (geometry_of BIOS 1)) then 2 else 1) (geometry_of BIOS 0) (geometry_of BIOS 1) h) =
  imap (fun j e => if (j =? 0)%nat then whole_entry BIOS n 0 e
                   else if (j =? 5)%nat then whole_entry BIOS n 1 e else e) h.
Proof.
  intros Hn Hl. do 10 (destruct h as [|? h]; [done|]). destruct h; [|done].
  unfold whole_entry. destruct n as [|[|[|n]]]; [| | |lia]; by destruct (truth (cyl (geometry_of BIOS 1))).
Qed.

Lemma setup_run mount BIOS w : callable (lget dl w) <> 0 ->
  length (hd (lget dl w)) = 10%nat -> length (hd_info (lget dl w)) = 2%nat ->
  sys_setup mount BIOS w =
    bind (read_tables (drives_of w) 0) (fun _ => mount ;; ret 0) (drives_found BIOS w).
Proof.
  intros Hc Hl Hi. unfold sys_setup. rewrite var_bind. unfold truth at 1.
  rewrite (proj2 (Z.eqb_neq _ _) Hc). cbn [negb]. rewrite !set_var_bind, get_set, set_set.
  assert (Ei : forall v, length (hd_info v) = 2%nat ->
    imap (fun i => bios_info BIOS (16 * Z.of_nat i)) (hd_info v) = [geometry_of BIOS 0; geometry_of BIOS 1]).
  { intros v Hv. destruct (hd_info v) as [|? [|? [|? ?]]]; done. }
  rewrite var_bind, get_set. cbn [upd hd_info]. rewrite Ei by done. erewrite bind_deref by reflexivity.
  rewrite set_var_bind, get_set, set_set, var_bind, get_set. cbn [upd NR_HD].
  set (n1 := if truth (cyl (geometry_of BIOS 1)) then 2 else 1).
  assert (En : Z.to_nat n1 = if truth (cyl (geometry_of BIOS 1)) then 2%nat else 1%nat) by (unfold n1; by destruct (truth (cyl (geometry_of BIOS 1)))).
  rewrite En. erewrite bind_ret.
  2:{ apply size_drives_run; rewrite ?get_set; [destruct (truth (cyl (geometry_of BIOS 1))); lia|reflexivity|done]. }
  rewrite get_set, set_set. unfold drives_of, drives_found.
  destruct (cmos_after (lget kl w)) as [c d] eqn:Ec. cbn [fst].
  unfold CMOS_READ. rewrite (bind_zoom kl _ _ _ c d).
  2:{ rewrite (apart_get (l := dl) (k := kl)). unfold cmos_after in Ec. change (u8 (Z.lor 0x80 0x12)) with 0x92.
      destruct (d_inb 0x71 (d_outb 0x70 0x92 (lget kl w))). by injection Ec as -> ->. }
  rewrite set_var_bind, get_apart, get_set, cmos_drives_value, <-(set_apart (l := dl) (k := kl)), set_set.
  rewrite var_bind, get_set. cbn [upd NR_HD]. rewrite Nat2Z.id.
  replace (Z.to_nat (2 - Z.of_nat (cmos_drives c))) with (2 - cmos_drives c)%nat by lia.
  erewrite bind_ret.
  2:{ apply clear_drives_run; [apply cmos_drives_le|]. rewrite get_set. cbn [upd hd].
      destruct (truth (cyl (geometry_of BIOS 1))); cbn [sized]; by rewrite ?length_zset. }
  rewrite get_set, set_set. do 2 f_equal. unfold found. cbn [upd hd hd_info NR_HD recalibrate reset do_hd callable].
  rewrite <-found_entries by (done || apply cmos_drives_le). done.
Qed.

Lemma drives_found_dl BIOS w : lget dl (drives_found BIOS w) = found BIOS (drives_of w) (lget dl w).
Proof. unfold drives_found, drives_of. destruct (cmos_after _). apply get_set. Qed.
Lemma drives_found_fl BIOS w : lget fl (drives_found BIOS w) = lget fl w.
Proof. unfold drives_found. destruct (cmos_after _). by rewrite !apart_get. Qed.
Lemma drives_found_tl BIOS w : lget tl (drives_found BIOS w) = lget tl w.
Proof. unfold drives_found. destruct (cmos_after _). by rewrite !apart_get. Qed.

Lemma setup_again mount BIOS w : callable (lget dl w) = 0 -> sys_setup mount BIOS w = Ret (-1) w.
Proof. intros E. unfold sys_setup. by rewrite var_bind, E. Qed.
End setup.

(** Partition [k] of a drive: its 16 bytes, from byte 446 of the first block
    on, have the start at 8 and the length at 12. *)
Definition table_entry (l : list Z) (k : Z) : hd_struct :=
  let at32 o := s32 (le32 l (Z.to_nat (446 + 16 * (k - 1) + o))) in
  {| start_sect := at32 8; nr_sects := at32 12 |}.
(** Entry [j] of [hd] after sys_setup(), if it was [e]: a whole drive or a
    partition of the [n] drives, whose first blocks are [l]. *)
Definition setup_entry (BIOS : Z -> Z) (n : nat) (l : Z -> list Z) (j : Z) (e : hd_struct) : hd_struct :=
  if j mod 5 =? 0 then whole_entry BIOS n (Z.to_nat (j / 5)) e
  else if j / 5 <? Z.of_nat n then table_entry (l (j / 5)) (j mod 5) else e.
Lemma with_tables_entry BIOS n l v j e : (n <= 2)%nat -> length (hd v) = 10%nat ->
  zget (hd v) j = Some e ->
  zget (with_tables n 0 l (hd (found BIOS n v))) j = Some (setup_entry BIOS n l j e).
Proof.
  intros Hn Hl E. pose proof (zget_Some_range _ _ _ E) as Hj. rewrite Hl in Hj. cbn [found upd hd].
  destruct v as [h]. cbn [hd] in *. do 10 (destruct h as [|? h]; [done|]). destruct h; [|done].
  assert (Hc : j = 0 \/ j = 1 \/ j = 2 \/ j = 3 \/ j = 4 \/ j = 5 \/ j = 6 \/ j = 7 \/ j = 8 \/ j = 9) by lia.
  destruct n as [|[|[|n]]]; [| | |lia];
    repeat (destruct Hc as [->|Hc]; [injection E as <-; reflexivity|]); subst j; injection E as <-; reflexivity.
Qed.

(** C21.  sys_setup() runs once: called again it returns -1 and does nothing.
    The first call takes the geometry of two drives from the BIOS and their
    number from the CMOS.  When the first block of a drive does not end with
    the signature of a partition table, it panics.  Otherwise it goes on to
    mount the root device with the tables of the driver complete - a size
    for every drive, zero for one that is not there, four partitions of each
    drive, at the place of minor number [5 * drive + partition] - and nothing
    else changed. *)
Theorem setup_spec {W} `{!Env W, !Drives W, !Wired W, !BlockIO W, !DrivesOk W} ps (w : W) mount BIOS l :
  let v := lget dl w in
  let n := drives_of w in
  length (hd v) = 10%nat -> length (hd_info v) = 2%nat ->
  (callable v = 0 -> sys_setup mount BIOS w = Ret (-1) w) /\
  (callable v <> 0 -> inv ps (drives_found BIOS w) -> (length ps < room)%nat ->
   (forall d, 0 <= d < Z.of_nat n -> data (drives_found BIOS w) (whole d) 0 = Bytes (l d)) ->
   (forall k, 0 <= k < Z.of_nat n -> (forall d, 0 <= d < k -> signed (l d) = true) -> signed (l k) = false ->
      exists w', sys_setup mount BIOS w = Stop (Panic "Bad partition table") w') /\
   ((forall d, 0 <= d < Z.of_nat n -> signed (l d) = true) ->
    exists w', sys_setup mount BIOS w = bind mount (fun _ => ret 0) w' /\
      inv ps w' /\ lget fl w' = lget fl w /\ lget tl w' = lget tl w /\
      callable (lget dl w') = 0 /\ NR_HD (lget dl w') = Z.of_nat n /\
      hd_info (lget dl w') = [geometry_of BIOS 0; geometry_of BIOS 1] /\
      forall j e, zget (hd v) j = Some e -> zget (hd (lget dl w')) j = Some (setup_entry BIOS n l j e))).
Proof.
  intros v n Hl Hi. split; [apply setup_again|]. intros Hc Hinv Hr Hd.
  rewrite (setup_run mount BIOS w Hc Hl Hi). fold n. set (w1 := drives_found BIOS w) in *.
  assert (E1 : lget dl w1 = found BIOS n v) by apply drives_found_dl.
  assert (Hn : (n <= 2)%nat) by apply cmos_drives_le.
  assert (Hl1 : length (hd (lget dl w1)) = 10%nat) by (rewrite E1; cbn; by rewrite length_imap).
  split.
  - intros k Hk Hg Hb.
    destruct (read_tables_bad n l k ps 0 w1 Hinv Hr ltac:(lia) ltac:(lia) Hl1 ltac:(lia)) as [w' E];
      [by intros; apply Hd; lia|by intros; apply Hg; lia|done|].
    exists w'. unfold bind. by rewrite E.
  - intros Hg. destruct (read_tables_good n l ps 0 w1 Hinv Hr ltac:(lia) ltac:(lia) Hl1) as (w' & E & Hi' & [T1 T2 T3 _]).
    { intros d Hdd. split; [apply Hd; lia|apply Hg; lia]. }
    injection T3 as Th Ti Tn Tc. exists w'. rewrite (bind_ret _ _ _ _ _ E).
    rewrite Th, Ti, Tn, Tc, E1, T1, T2. split_and!; try done.
    + apply drives_found_fl. + apply drives_found_tl.
    + intros j e Ej. by apply with_tables_entry.
Qed.

(** ** Drives beside a file system

    Any implementation of the blocks, with a driver, ports and further
    components beside it. *)

Module Beside.
Section beside.
Context {V : Type} `{!Env V} (D : Type) `{!Disk D} (X : Type).

Definition world : Type := V * ((driver * D) * X).

#[global] Instance beside_env : Env world := {
  cl := comp fst_l cl;
  fl := comp fst_l fl;
  tl := comp fst_l tl;
  sleep_on _ := halt Blocked;
  wake_up q := WaitQ.wake_up (comp fst_l tl) q;
  getblk dev b := zoom fst_l (getblk dev b);
  get_hash_table dev b := zoom fst_l (get_hash_table dev b);
  bread dev b := zoom fst_l (bread dev b);
  brelse o := zoom fst_l (brelse o);
  free_page a := zoom fst_l (free_page a)
}.
#[global] Instance beside_drives : Drives world := {
  ports := D;
  dl := comp snd_l (comp fst_l fst_l);
  kl := comp snd_l (comp fst_l snd_l)
}.

Context `{!Wired V, !BlockIO V}.

#[global] Instance beside_wired : Wired world.
Proof.
  split; try apply _. intros q w E. change (wake_up q w) with (WaitQ.wake_up (comp fst_l tl) q w).
  unfold WaitQ.wake_up. rewrite bind_gets.
  lazymatch goal with |- context [match ?x with _ => _ end] => replace x with (@None nat) by exact (eq_sym E) end.
  done.
Qed.

Lemma zoom_fst {T A} (m : M V A) (x : T) v a v' : m v = Ret a v' -> zoom (@fst_l V T) m (v, x) = Ret a (v', x).
Proof. unfold zoom. cbn. by intros ->. Qed.
Lemma beside_pinned ps dev b (v v' : V) (x : (driver * D) * X) i :
  pinned ps dev b v i v' ->
  inv (i :: ps) v' /\ (forall d y, data v' d y = data v d y) /\
  stable (W := world) ps (v, x) (v', x) /\ ident (lget cl v') i = Some (dev, b).
Proof. intros (Hi & Hd & [S1 S2 S3] & Hid). by split_and!. Qed.

#[global] Instance beside_blocks : BlockIO world.
Proof.
  refine {| data := fun w => data (fst w); inv := fun ps w => inv ps (fst w); room := room |}.
  - intros ps ps' w. apply inv_perm.
  - intros ps w f. exact (inv_fl (W := V) ps (fst w) f).
  - intros ps w f. exact (inv_tl (W := V) ps (fst w) f).
  - intros w f. exact (data_fl (W := V) (fst w) f).
  - intros w f. exact (data_tl (W := V) (fst w) f).
  - intros ps w. exact (held (W := V) ps (fst w)).
  - intros ps w. exact (data_shape (W := V) ps (fst w)).
  - intros ps w. exact (held_one (W := V) ps (fst w)).
  - intros ps [v x] dev b l Hi E Hr. destruct (bread_ok ps v dev b l Hi E Hr) as (i & v' & Eb & P).
    exists i, (v', x). split; [by apply zoom_fst|]. by apply beside_pinned.
  - intros ps [v x] dev b Hi E Hr. destruct (getblk_ok ps v dev b Hi E Hr) as (i & v' & Eb & P).
    exists i, (v', x). split; [by apply zoom_fst|]. by apply beside_pinned.
  - intros ps [v x] dev b Hi E Hr. destruct (lookup_ok ps v dev b Hi E Hr) as (i & v' & Eb & P).
    exists i, (v', x). split; [by apply zoom_fst|]. by apply beside_pinned.
  - intros ps [v x] dev b Hi E Hd Hb. by apply zoom_fst, (absent_ok ps).
  - intros ps [v x] i Hi. destruct (brelse_ok ps v i Hi) as (v' & Er & Hi' & Hd & [S1 S2 S3]).
    exists (v', x). split_and!; [by apply zoom_fst|done|done|by split].
  - intros ps w i y g. exact (edit_ok (W := V) ps (fst w) i y g).
Defined.

#[global] Instance beside_ok : DrivesOk world.
Proof.
  split; try apply _; try done.
  - intros dev b i [v x] w' E. apply zoom_Ret_inv in E as (v' & _ & ->). done.
  - intros i [v x] w' E. apply zoom_Ret_inv in E as (v' & _ & ->). done.
Qed.
End beside.
End Beside.
