(* ===== verification/Start.v ===== *)
(** * The first user processes: init() and process0() of arch/x86/main.c

    init() runs in user mode.  It calls the wrappers of lib/ (open.c, dup.c,
    write.c, print.c and the macros of unistd.h), which enter the kernel
    through system_call of system_call.S, and this calls the handlers of the
    other files.  The process is the kernel with [errno] and its memory
    around it; a call does not change the memory.  process0(), process1() and
    process2() call fork() and end in loops that watch the counter of ticks. *)

From S2P Require Import Prelude Task Sched.
From S2P Require Lib Vsprintf.
From S2P Require Import WaitQ Buffer Blk Hd Fs Blocks Super Mini Bitmap Inode Bmap Trunc Namei Dir Walk Files Mount Setup.

Record process (W : Type) := Process { p_world : W; errno : Z; p_mem : Z -> Z }.
Arguments Process {W}. Arguments p_world {W}. Arguments errno {W}. Arguments p_mem {W}.
#[export] Instance eta_process W : Eta (process W) := fun p => Process (p_world p) (errno p) (p_mem p).
Definition world_l {W} : lens (process W) W := Lens p_world (fun w p => p <| p_world := w |>).
Definition errno_l {W} : lens (process W) Z := Lens errno (fun e p => p <| errno := e |>).

(** The addresses of the data of the program. *)
Record image := Image { drive_info : Z; tty0_name : Z; message : Z; printbuf : Z }.

(** The characters from [p] to the NUL. *)
Fixpoint string_at (n : nat) (m : Z -> Z) (p : Z) : list Z :=
  match n with
  | O => []
  | S n' => if m p =? 0 then [] else m p :: string_at n' m (p + 1)
  end.
Definition store (p : Z) (l : list Z) (m : Z -> Z) : Z -> Z := fun a =>
  default (m a) (if a <? p then None else l !! Z.to_nat (a - p)).

Section ops.
Context {W : Type} `{!Env W, !Drives W} (fuel : nat).
(** tty_write() of Tty.v, schedule() as the running task sees it, and the
    handlers that init() does not use. *)
Context (tty_write : Z -> list Z -> M W Z) (schedule : M W unit).
Context (others : string -> Z -> Z -> Z -> M W Z).

(** The call through [sys_call_table], with the types of the parameters. *)
Definition call_handler (name : string) (m : Z -> Z) (ebx ecx edx : Z) : M W Z :=
  if String.eqb name "sys_setup" then sys_setup (mount_root fuel) (fun k => m (ebx + k))
  else if String.eqb name "sys_open" then sys_open m fuel ebx (s32 ecx) (s32 edx)
  else if String.eqb name "sys_dup" then sys_dup (u32 ebx)
  else if String.eqb name "sys_write" then sys_write tty_write m (u32 ebx) ecx (s32 edx)
  else others name ebx ecx edx.

(** system_call: the number is compared without sign. *)
Definition system_call (m : Z -> Z) (eax ebx ecx edx : Z) : M W Z :=
  match Lib.handler (Z.to_nat (u32 eax)) with
  | None => ret (-1)
  | Some name =>
      let! eax := call_handler name m ebx ecx edx in
      let! t := me id in
      (if truth (state t) || (counter t =? 0) then schedule else ret tt) ;;
      ret eax
  end.

Notation P := (M (process W)).
(** [int $0x80] in a wrapper, and what it makes of [__res]. *)
Definition _syscall (nr ebx ecx edx : Z) : P Z :=
  let! m := gets p_mem in
  let! __res := zoom world_l (system_call m nr ebx ecx edx) in
  zoom errno_l (Lib.syscall_result __res).

Definition setup (BIOS : Z) : P Z := _syscall 0 BIOS 0 0.
Definition open (filename flag mode : Z) : P Z := _syscall 5 filename flag mode.
Definition dup (fd : Z) : P Z := _syscall 41 fd 0 0.
Definition write (fd buf count : Z) : P Z := _syscall 4 fd buf count.

(** printf() formats into [printbuf[1024]] without a bound. *)
Definition printf (im : image) (fmt va : list Z) : P Z :=
  let! m := gets p_mem in
  match Vsprintf.vsprintf (fun p => Some (string_at fuel m p)) fmt (Vsprintf.Vs [] va []) with
  | Stop r _ => halt r
  | Ret i s =>
      if 1024 <=? Z.of_nat (length (Vsprintf.out s)) then halt Fault
      else
        modify (fun p => p <| p_mem ::= store (printbuf im) (Vsprintf.out s ++ [0]) |>) ;;
        let! _ := write 1 (printbuf im) i in
        ret i
  end.

Definition init (im : image) : P unit :=
  let! _ := setup (drive_info im) in
  let! _ := open (tty0_name im) O_RDWR 0 in
  let! _ := dup 0 in
  let! _ := dup 0 in
  let! _ := printf im (Vsprintf.chars "%s" ++ [10]) [message im] in
  ret tt.

(** The loops that the processes end in.  [jiffies] is what the process reads
    from the counter of ticks, one value each time; when the values are used
    up it waits for the processor. *)
Fixpoint turns (limit : Z) (report : P unit) (start : Z) (jiffies : list Z) : P unit :=
  match jiffies with
  | [] => halt Blocked
  | now :: js =>
      if limit <? u32 (now - start) then report ;; turns limit report now js
      else turns limit report start js
  end.
Definition say (im : image) (text : Z) : P unit :=
  let! _ := printf im (Vsprintf.chars "%s" ++ [10]) [text] in ret tt.
Definition fork : P Z := _syscall 2 0 0 0.

Definition process2 (im : image) (text2 : Z) (jiffies : list Z) : P unit :=
  match jiffies with
  | start1 :: _ :: js => turns 600 (say im text2) start1 js
  | _ => halt Blocked
  end.
Definition process1 (im : image) (text1 text2 : Z) (jiffies : list Z) : P unit :=
  match jiffies with
  | start1 :: _ :: js =>
      let! pid := fork in
      if pid =? 0 then process2 im text2 js else turns 600 (say im text1) start1 js
  | _ => halt Blocked
  end.
Definition process0 (im : image) (text1 text2 : Z) (jiffies : list Z) : P unit :=
  match jiffies with
  | start0 :: js =>
      let! pid := fork in
      if pid =? 0 then init im ;; process1 im text1 text2 js else turns 300 (ret tt) start0 js
  | _ => halt Blocked
  end.
End ops.

(** ** The clock of the loops

    The ticks since power-on, of which the code sees the last 32 bits: the
    times at which a loop reports. *)
Fixpoint reports (limit start : Z) (ts : list Z) : list Z :=
  match ts with
  | [] => []
  | t :: ts => if limit <? t - start then t :: reports limit t ts else reports limit start ts
  end.
(** Time goes on, and two readings are less than 2^32 - [limit] ticks apart. *)
Fixpoint steady (limit t0 : Z) (ts : list Z) : Prop :=
  match ts with
  | [] => True
  | t :: ts => t0 <= t < t0 + 2 ^ 32 - limit /\ steady limit t ts
  end.
Fixpoint again {S} (n : nat) (m : M S unit) : M S unit :=
  match n with O => ret tt | Datatypes.S n' => m ;; again n' m end.

Lemma u32_sub a b : u32 (u32 a - u32 b) = u32 (a - b).
Proof. unfold u32. by rewrite <-Zminus_mod. Qed.

(** A loop reports each time that more than [limit] ticks have gone by since
    its last report, also across the overflow of the counter. *)
Lemma turns_run {W} (limit t0 : Z) (report : M (process W) unit) ts :
  0 <= limit -> forall last, last <= t0 <= last + limit -> steady limit t0 ts ->
  forall p, turns limit report (u32 last) (u32 <$> ts) p =
    (again (length (reports limit last ts)) report ;; halt Blocked) p.
Proof.
  intros Hlim. revert t0. induction ts as [|t ts IH]; intros t0 last H0 Hs p; [done|].
  destruct Hs as [Ht Hs]. cbn [fmap list_fmap turns reports].
  rewrite u32_sub, u32_small by lia. destruct (Z.ltb_spec limit (t - last)) as [Hr|Hr].
  - cbn [length again]. rewrite bind_assoc. destruct (report p) as [[] p'|r p'] eqn:E.
    2: { unfold bind. by rewrite E. }
    rewrite !(bind_ret _ _ _ _ _ E).
    apply (IH t); [lia|done].
  - apply (IH t); [lia|done].
Qed.

(** ** The memory of the process *)

Lemma string_at_run l : forall n m p, Forall (fun c => c <> 0) l -> at_user m p (l ++ [0]) ->
  (length l < n)%nat -> string_at n m p = l.
Proof.
  induction l as [|c l IH]; intros n m p Hl Hu Hn; (destruct n as [|n]; [cbn in Hn; lia|]);
    cbn [app] in Hu; apply at_user_cons in Hu as [Hc Hu]; cbn [string_at]; rewrite Hc.
  - done.
  - apply Forall_cons in Hl as [H0 Hl]. rewrite (proj2 (Z.eqb_neq _ _) H0). f_equal.
    apply IH; [done|done|]. cbn in Hn. lia.
Qed.
Lemma store_at p l m : at_user (store p l m) p l.
Proof.
  intros i c E. unfold store. destruct (Z.ltb_spec (p + Z.of_nat i) p); [lia|].
  replace (Z.to_nat (p + Z.of_nat i - p)) with i by lia. by rewrite E.
Qed.
Lemma store_apart p l q k m : p + Z.of_nat (length l) <= q \/ q + Z.of_nat (length k) <= p ->
  at_user m p l -> at_user (store q k m) p l.
Proof.
  intros Hd Hu i c E. pose proof (lookup_lt_Some _ _ _ E). rewrite <-(Hu i c E). unfold store.
  destruct (Z.ltb_spec (p + Z.of_nat i) q); [done|]. by rewrite lookup_ge_None_2 by lia.
Qed.
Lemma user_bytes_store p l m n : (n <= length l)%nat ->
  user_bytes (store p l m) p (Z.of_nat n) = take n l.
Proof.
  intros Hn. unfold user_bytes. apply list_eq. intros i. rewrite list_lookup_fmap.
  destruct (decide (i < n)%nat) as [Hi|Hi].
  - rewrite lookup_seqZ_lt by lia. cbn. rewrite lookup_take, decide_True by done. unfold store.
    destruct (Z.ltb_spec (p + (0 + Z.of_nat i)) p); [lia|].
    replace (Z.to_nat (p + (0 + Z.of_nat i) - p)) with i by lia.
    by destruct (lookup_lt_is_Some_2 l i) as [c ->]; [lia|].
  - rewrite lookup_seqZ_ge by lia. cbn. by rewrite lookup_take, decide_False.
Qed.

(** ** Single calls *)

Section calls.
Context {W : Type} `{!Env W, !Drives W, !Wired W, !BlockIO W, !DrivesOk W} (fuel : nat).
Context (tty_write : Z -> list Z -> M W Z) (schedule : M W unit).
Context (others : string -> Z -> Z -> Z -> M W Z).
Notation handle := (call_handler fuel tty_write others).
Notation invoke := (_syscall fuel tty_write schedule others).

(** A call after which the task still runs and has time left. *)
Lemma syscall_run nr name ebx ecx edx r w w' e m t :
  Lib.handler (Z.to_nat (u32 nr)) = Some name -> handle name m ebx ecx edx w = Ret r w' ->
  mine w' = Some t -> state t = 0 -> counter t <> 0 -> 0 <= r ->
  invoke nr ebx ecx edx (Process w e m) = Ret r (Process w' e m).
Proof.
  intros Eh Ec Et Hs Hc Hr. unfold _syscall. rewrite bind_gets. cbn [p_mem].
  rewrite (bind_zoom world_l _ _ _ r w').
  - unfold zoom, Lib.syscall_result. rewrite (proj2 (Z.leb_le _ _) Hr). done.
  - unfold system_call. rewrite Eh. cbn [lget world_l p_world].
    rewrite (bind_ret _ _ _ _ _ Ec), (me_bind _ _ _ _ Et). cbn [id]. rewrite Hs. unfold truth at 1. cbn [negb Z.eqb orb].
    by rewrite (proj2 (Z.eqb_neq _ _) Hc).
Qed.

(** Writing to a terminal. *)
Lemma sys_write_tty_run user fd buf count w t f x i y :
  mine w = Some t -> 0 <= fd < Z.of_nat NR_OPEN -> zget (filp t) fd = Some (Some f) -> ftable w !! f = Some x ->
  f_inode x = Some i -> itable w !! i = Some y -> in_width y ->
  S_ISCHR (i_mode y) = true -> MAJOR (zone_at y 0) = 4 -> 0 < count ->
  sys_write tty_write user fd buf count w = tty_write (MINOR (zone_at y 0)) (user_bytes user buf count) w.
Proof.
  intros Et Hfd Ef Ex Ei Ey Hw Hm Hz Hc. unfold sys_write.
  rewrite (proj2 (Z.leb_gt _ _)), (proj2 (Z.ltb_ge _ _)) by lia. cbn [orb].
  rewrite (me_bind _ _ _ _ Et), (bind_deref _ _ _ _ Ef). cbn iota.
  rewrite (proj2 (Z.eqb_neq _ _)) by lia. rewrite (fil_bind _ _ _ _ _ Ex), Ei. cbn [deref]. rewrite bind_ret_l.
  rewrite (ino_bind _ _ _ _ _ Ey), Hm.
  rewrite (bind_ret _ _ _ _ _ (zone_of_run 0 _ _ _ Ey Hw ltac:(lia))).
  unfold rw_char. rewrite Hz. change (NRDEVS _ _ <=? 4) with false. cbn iota.
  by erewrite bind_deref by reflexivity.
Qed.
End calls.

(** Duplicating descriptor 0 with the first [a] descriptors in use. *)
Lemma dup_run {W} `{!Env W, !Wired W, !BlockIO W} (w : W) t a x :
  mine w = Some t -> (0 < a < NR_OPEN)%nat -> 
  filp t = replicate a (Some 0%nat) ++ replicate (NR_OPEN - a) None -> ftable w !! 0%nat = Some x ->
  exists w', sys_dup 0 w = Ret (Z.of_nat a) w' /\
    mine w' = Some ((cloexec_cleared a t) <| filp := replicate (S a) (Some 0%nat) ++ replicate (NR_OPEN - S a) None |>) /\
    ftable w' = alter (fun x => x <| f_count ::= fun n => u16 (n + 1) |>) 0%nat (ftable w) /\ alike w w' /\
    forall ps, inv ps w -> inv ps w'.
Proof.
  intros Et Ha Hf Ex.
  assert (Hl : length (filp t) = NR_OPEN) by (rewrite Hf, length_app, !length_replicate; lia).
  assert (H0 : zget (filp t) 0 = Some (Some 0%nat)).
  { unfold zget. cbn [Z.ltb Z.compare]. change (Z.to_nat 0) with 0%nat.
    rewrite Hf, lookup_app_l by (rewrite length_replicate; lia). apply lookup_replicate. split; [done|lia]. }
  destruct (proj2 (sys_dup_run w t 0 Et Hl ltac:(lia)) 0%nat x H0 Ex) as [_ H].
  eexists. split; [apply H|].
  - rewrite Hf, lookup_app_r by (rewrite length_replicate; lia). rewrite length_replicate.
    apply lookup_replicate. split; [done|lia].
  - intros k Hk. rewrite Hf, lookup_app_l by (rewrite length_replicate; lia).
    assert (replicate a (Some 0%nat) !! k = Some (Some 0%nat)) as -> by (by apply lookup_replicate). done.
  - split_and!.
    + rewrite mine_files, (mine_with _ _ _ Et). do 2 f_equal. rewrite Hf.
      rewrite insert_app_r_alt by (rewrite length_replicate; lia). rewrite length_replicate, Nat.sub_diag.
      rewrite replicate_S_end, <-app_assoc. f_equal.
      by replace (NR_OPEN - a)%nat with (S (NR_OPEN - S a)) by lia.
    + apply ftable_with.
    + eapply alike_trans; [apply alike_me|apply alike_files].
    + intros ps Hi. by apply inv_files, inv_me.
Qed.

(** ** init() *)

Definition hello : list Z := Vsprintf.chars "user space can use printf now!".
Definition tty0_path : list Z := Vsprintf.chars "/dev/tty0".

(** '/dev/tty0' leads to inode [nr], a character device with number [z] of the
    driver of the terminals, in a sound tree of directories. *)
Record terminal {W} `{!Env W, !BlockIO W} (dev : Z) (sb : super_block) (w : W) (nr z : Z) : Prop := {
  te_tree : tree_ok dev sb w;
  te_root : live dev sb w ROOT_INO;
  te_open : open_result dev sb w ROOT_INO tty0_path O_RDWR = inr nr;
  te_char : S_ISCHR (i_mode (node dev sb w nr)) = true;
  te_dev : zone_at (node dev sb w nr) 0 = z;
  te_tty : MAJOR z = 4
}.

(** The task that has opened terminal [z] as its descriptors 0, 1 and 2. *)
Record settled (t t' : task_struct) (z : Z) : Prop := {
  se_filp : filp t' = replicate 3 (Some 0%nat) ++ replicate (NR_OPEN - 3) None;
  se_tty : tty t' = if truth (leader t) && (tty t <? 0) then MINOR z else tty t;
  se_state : state t' = state t;
  se_counter : counter t' = counter t
}.

Section init.
Context {W : Type} `{!Env W, !Wired W, !BlockIO W}.

Lemma seen_terminal dev sb w w' nr z : seen dev sb w w' -> terminal dev sb w nr z -> terminal dev sb w' nr z.
Proof.
  intros S [T1 T2 T3 T4 T5 T6].
  assert (L : live dev sb w nr).
  { unfold open_result in T3. destruct (path_dir _ _ _ _ _) as [d|] eqn:Ed; [|done].
    assert (Hd : live dev sb w d /\ is_dir dev sb w d = true)
      by (unfold path_dir in Ed; eapply resolve_live; [exact T1|exact T2|exact Ed]).
    destruct Hd as [Ld Hd]. rewrite decide_False in T3 by (vm_compute; discriminate).
    destruct (child dev sb w d _) as [k|] eqn:Ec; [|done]. pose proof (child_live _ _ _ _ _ _ T1 Ld Hd Ec) as Lk.
    repeat case_match; try done. by injection T3 as <-. }
  split; [by eapply seen_tree|by eapply seen_live| | | |done].
  - by rewrite (seen_open _ _ _ _ _ _ _ S T1 T2 T2).
  - by rewrite (seen_node _ _ _ _ _ S) by apply L.
  - by rewrite (seen_node _ _ _ _ _ S) by apply L.
Qed.

(** open(): descriptor 0 and file 0. *)
Lemma open_run dev sb ps w t i fuel m p nr z : (NR_INODE + NR_SUPER <= fuel)%nat ->
  fs_inv dev 0 sb ps [i; i; i; i] w -> ref dev w i ROOT_INO -> mine w = Some t ->
  root t = Some i -> pwd t = Some i -> terminal dev sb w nr z -> at_user m p (tty0_path ++ [0]) ->
  filp t = replicate NR_OPEN None -> length (ftable w) = NR_FILE ->
  (forall k x, ftable w !! k = Some x -> f_count x = 0) ->
  exists w' j t', sys_open m fuel p O_RDWR 0 w = Ret 0 w' /\ mine w' = Some t' /\
    filp t' = replicate 1 (Some 0%nat) ++ replicate (NR_OPEN - 1) None /\
    tty t' = (if truth (leader t) && (tty t <? 0) then MINOR z else tty t) /\
    state t' = state t /\ counter t' = counter t /\
    ftable w' !! 0%nat = Some (File (i_mode (node dev sb w nr)) O_RDWR 1 (Some j) 0) /\
    fs_inv dev 0 sb ps [j; i; i; i; i] w' /\ ref dev w' j nr /\ node dev sb w' nr = node dev sb w nr.
Proof.
  intros Hfuel F R Et Hrt Hpw [T1 T2 T3 T4 T5 T6] Hu Hfp Hft Hz.
  assert (Td : task_dirs dev sb w [i; i; i; i] t i i ROOT_INO)
    by (split; try done; try (by left); by split).
  destruct (sys_open_run dev 0 sb m fuel ps [i; i; i; i] w t i i ROOT_INO p tty0_path O_RDWR 0) as [_ H];
    try done.
  { unfold NR_INODE, NR_SUPER in Hfuel. cbn. lia. }
  { unfold NR_INODE. cbn. lia. }
  { by repeat constructor. }
  { by rewrite Hfp. }
  destruct (H 0%nat) as [_ H']; [by rewrite Hfp|lia|].
  destruct (ftable w !! 0%nat) as [x|] eqn:Ex; [|apply lookup_ge_None in Ex; unfold NR_FILE in Hft; lia].
  destruct (H' 0%nat x Ex (Hz _ _ Ex)) as [_ Ho']; [lia|]. destruct (Ho' eq_refl eq_refl) as (w' & Ho).
  rewrite T3 in Ho. cbn zeta in Ho. unfold no_tty, tty_of in Ho. rewrite T4, T5, T6 in Ho. cbn [andb Z.eqb Pos.eqb] in Ho.
  destruct Ho as (j & Eo & Em & Ef & F' & R' & En). exists w', j. eexists. split_and!; try done; rewrite ?Ef.
  - change (truth (leader (cloexec_cleared 0 t))) with (truth (leader t)).
    change (tty (cloexec_cleared 0 t)) with (tty t).
    destruct (truth (leader t) && (tty t <? 0)); cbn; by rewrite Hfp.
  - change (truth (leader (cloexec_cleared 0 t))) with (truth (leader t)).
    change (tty (cloexec_cleared 0 t)) with (tty t). by destruct (truth (leader t) && (tty t <? 0)).
  - by destruct (_ && _).
  - by destruct (_ && _).
  - apply list_lookup_insert_eq. apply lookup_lt_Some in Ex. lia.
Qed.

(** The state from which setup() mounts the root device. *)
Record unmounted (w : W) (t : task_struct) (dev : Z) (l : list Z) : Prop := {
  um_inv : inv [] w;
  um_task : mine w = Some t;
  um_root : ROOT_DEV (lget fl w) = dev;
  um_major : MAJOR dev <> 2;
  um_table : itable w = replicate NR_INODE zero_inode;
  um_last : (last_inode (lget fl w) < NR_INODE)%nat;
  um_files : length (ftable w) = NR_FILE;
  um_supers : length (supers (lget fl w)) = NR_SUPER;
  um_device : mountable w dev l;
  um_fits : fits w dev l
}.

Lemma mount_terminal fuel w t dev l nr z : (NR_INODE + NR_SUPER <= fuel)%nat -> (16 < room)%nat ->
  unmounted w t dev l -> (forall sb, load_super l sb = sb -> terminal dev sb w nr z) ->
  exists i sb ps w', mount_root fuel w = Ret tt w' /\ fs_inv dev 0 sb ps [i; i; i; i] w' /\
    ref dev w' i ROOT_INO /\ mine w' = Some (t <| pwd := Some i |> <| root := Some i |>) /\
    terminal dev sb w' nr z /\ length (ftable w') = NR_FILE /\
    (forall k x, ftable w' !! k = Some x -> f_count x = 0).
Proof.
  intros Hfuel Hr [U1 U2 U3 U4 U5 U6 U7 U8 U9 U10] Ht.
  destruct (mount_root_run fuel [] w t dev l) as (i & sb & bs & w' & E & F & R & Em & El & _ & _ & Hn & Hz & Hl & _);
    try done.
  exists i, sb, (bs ++ []), w'. rewrite Hl. split_and!; try done.
  2:{ by rewrite length_fmap. }
  2:{ intros k x Ek. rewrite list_lookup_fmap in Ek. by apply fmap_Some in Ek as (y & _ & ->). }
  apply (seen_terminal dev sb w); [|by apply Ht]. split; [done|]. intros k Hk. rewrite Hn by done.
  symmetry. apply inode_of_none. intros j y Ej [Hy _]. rewrite U5 in Ej. apply lookup_replicate in Ej as [-> _].
  pose proof (mt_dev _ _ _ U9). cbn in Hy. lia.
Qed.
End init.

(** C2.  init(), from the first call of setup() on, on a machine whose
    partition tables are good and whose root device can be mounted and has
    the terminal '/dev/tty0': the root device is mounted, descriptors 0, 1
    and 2 are open on one file, the terminal, which has become that of the
    process if it leads its session and had none, the other descriptors are
    free; then tty_write() gets the channel of this terminal and exactly the
    text of printf() and, when it succeeds, init() returns with the text and
    its NUL in [printbuf], [errno] and the rest of the memory as before. *)
Theorem init_spec {W} `{!Env W, !Drives W, !Wired W, !BlockIO W, !DrivesOk W} fuel tty_write schedule others
    (w w1 : W) e m im t dev l nr z :
  (NR_INODE + NR_SUPER <= fuel)%nat -> (16 < room)%nat ->
  callable (lget dl w) <> 0 -> length (hd (lget dl w)) = 10%nat -> length (hd_info (lget dl w)) = 2%nat ->
  read_tables (drives_of w) 0 (drives_found (fun k => m (drive_info im + k)) w) = Ret tt w1 ->
  unmounted w1 t dev l -> (forall sb, load_super l sb = sb -> terminal dev sb w1 nr z) ->
  filp t = replicate NR_OPEN None -> state t = 0 -> counter t <> 0 ->
  at_user m (tty0_name im) (tty0_path ++ [0]) -> at_user m (message im) (hello ++ [0]) -> message im <> 0 ->
  exists sb ps i r w2 t2,
    mine w2 = Some t2 /\ settled t t2 z /\ fs_inv dev 0 sb ps [i; r; r; r; r] w2 /\ ref dev w2 i nr /\
    (exists mode, ftable w2 !! 0%nat = Some (File mode O_RDWR 3 (Some i) 0)) /\
    forall n w3, tty_write (MINOR z) (hello ++ [10]) w2 = Ret n w3 -> mine w3 = Some t2 -> 0 <= n ->
      init fuel tty_write schedule others im (Process w e m) =
        Ret tt (Process w3 e (store (printbuf im) (hello ++ [10; 0]) m)).
Proof.
  intros Hfuel Hroom Hc Hhd Hhi Hrt U Ht Hfp Hs Hcn Hun Hum Hmn.
  destruct (mount_terminal fuel w1 t dev l nr z Hfuel Hroom U Ht)
    as (r & sb & ps & w2 & E1 & F1 & R1 & M1 & T1 & L1 & Z1).
  destruct (open_run dev sb ps w2 _ r fuel m (tty0_name im) nr z Hfuel F1 R1 M1 eq_refl eq_refl T1 Hun Hfp L1 Z1)
    as (w3 & i & t3 & E2 & M2 & P2 & Y2 & S2 & C2 & X2 & F2 & R2 & N2).
  destruct (dup_run w3 t3 1 _ M2 ltac:(unfold NR_OPEN; lia) P2 X2) as (w4 & E3 & M3 & X3 & A3 & I3).
  set (t4 := (cloexec_cleared 1 t3) <| filp := _ |>) in M3.
  assert (X3' : ftable w4 !! 0%nat = Some (File (i_mode (node dev sb w2 nr)) O_RDWR 2 (Some i) 0))
    by (rewrite X3, list_lookup_alter_eq, X2; done).
  destruct (dup_run w4 t4 2 _ M3 ltac:(unfold NR_OPEN; lia) eq_refl X3') as (w5 & E4 & M4 & X4 & A4 & I4).
  set (t5 := (cloexec_cleared 2 t4) <| filp := _ |>) in M4.
  assert (X4' : ftable w5 !! 0%nat = Some (File (i_mode (node dev sb w2 nr)) O_RDWR 3 (Some i) 0))
    by (rewrite X4, list_lookup_alter_eq, X3'; done).
  pose proof (alike_trans _ _ _ A3 A4) as A.
  assert (F5 : fs_inv dev 0 sb ps [i; r; r; r; r] w5)
    by (apply (alike_fs_inv dev 0 sb ps _ w3 w5 A); [apply I4, I3, F2|done]).
  assert (R5 : ref dev w5 i nr) by (by eapply alike_ref).
  assert (St : state t3 = 0 /\ counter t3 <> 0) by (by rewrite S2, C2).
  exists sb, ps, i, r, w5, t5. split_and!; [done| |done|done|by eexists|].
  { split; [done| | |]; [change (tty t5) with (tty t3)|change (state t5) with (state t3)|change (counter t5) with (counter t3)];
      by rewrite ?Y2, ?S2, ?C2. }
  intros n w6 Hw M6 Hn. unfold init, setup, open, dup.
  erewrite bind_ret.
  2:{ eapply syscall_run; [reflexivity| |exact M1|exact Hs|exact Hcn|reflexivity].
      unfold call_handler. cbn [String.eqb Ascii.eqb Bool.eqb].
      rewrite setup_run by done. rewrite (bind_ret _ _ _ _ _ Hrt), (bind_ret _ _ _ _ _ E1). reflexivity. }
  erewrite bind_ret by (eapply syscall_run; [reflexivity|exact E2|exact M2|apply St|apply St|done]).
  erewrite bind_ret by (eapply syscall_run; [reflexivity|exact E3|exact M3|apply St|apply St|done]).
  erewrite bind_ret by (eapply syscall_run; [reflexivity|exact E4|exact M4|apply St|apply St|done]).
  unfold printf. rewrite bind_assoc, bind_gets. cbn [p_mem].
  assert (Hst : string_at fuel m (message im) = hello).
  { apply string_at_run; [by repeat constructor|done|]. unfold NR_INODE, NR_SUPER in Hfuel. cbn. lia. }
  rewrite (Vsprintf.print_line _ _ hello Hmn) by (by rewrite Hst).
  cbn [Vsprintf.out]. rewrite <-app_assoc. change ([10] ++ [0]) with [10; 0].
  change (1024 <=? Z.of_nat (length (hello ++ [10]))) with false. cbn iota.
  rewrite bind_assoc, bind_modify, bind_assoc. unfold write.
  set (m' := store (printbuf im) (hello ++ [10; 0]) m). change (upd p_mem _ _) with (Process w5 e m').
  destruct (ref_node _ _ _ _ _ _ _ _ F5 R5) as (y & Ey & _ & _ & En).
  assert (N5 : node dev sb w5 nr = node dev sb w2 nr) by (by rewrite (alike_node dev sb w3)).
  pose proof (te_char _ _ _ _ _ T1) as Hch. pose proof (te_dev _ _ _ _ _ T1) as Hdv.
  rewrite <-N5, En in Hch, Hdv.
  change (i_mode ((core y) <| i_num := nr |>)) with (i_mode y) in Hch.
  change (zone_at ((core y) <| i_num := nr |>) 0) with (zone_at y 0) in Hdv.
  erewrite bind_ret; [done|].
  eapply syscall_run; [reflexivity| |exact M6|apply St|apply St|done].
  change (sys_write tty_write m' 1 (printbuf im) 31 w5 = Ret n w6).
  rewrite (sys_write_tty_run tty_write m' 1 (printbuf im) 31 w5 t5 0%nat _ i y M4 ltac:(unfold NR_OPEN; lia) eq_refl X4'
    eq_refl Ey); try done; [|by eapply en_width, (tb_entry _ _ _ _ (fi_table _ _ _ _ _ _ F5))|by rewrite Hdv; apply (te_tty _ _ _ _ _ T1)].
  rewrite Hdv. change 31 with (Z.of_nat 31). unfold m'. rewrite user_bytes_store by (cbn; lia). exact Hw.
Qed.

Lemma terminal_geometry {W} `{!Env W, !BlockIO W} dev sb sb' (w : W) nr z :
  s_ninodes sb = s_ninodes sb' -> s_imap_blocks sb = s_imap_blocks sb' ->
  s_zmap_blocks sb = s_zmap_blocks sb' -> s_firstdatazone sb = s_firstdatazone sb' ->
  terminal dev sb' w nr z -> terminal dev sb w nr z.
Proof.
  destruct sb, sb'. cbn. intros -> -> -> -> [[A B] T2 T3 T4 T5 T6].
  split; [split; [|exact B]|exact T2|exact T3|exact T4|exact T5|exact T6].
  intros k L Hd. destruct (A k L Hd) as [D [Z1 Z2]]. split; [exact D|by split].
Qed.

(** ** A machine

    One drive with one partition, whose file system has the terminal, beside
    a log of what is written; the CMOS is the byte that it answers. *)

Module Demo.

#[global] Instance cmos_disk : Disk Z := {
  d_inb port d := (if port =? 0x71 then d else 0, d);
  d_outb port v d := d;
  d_insw port n d := ([], d);
  d_outsw port l d := d
}.

Definition super_bytes : list Z :=
  block_of (two 32 ++ two 12 ++ two 1 ++ two 1 ++ two 5 ++ two 0 ++ four 0x10081c00 ++ two SUPER_MAGIC).
Definition blocks2 : list (Z * list Z * Z) := [
  (1, super_bytes, 0);
  (2, block_of [15], 0);
  (3, block_of [7], 0);
  (4, block_of (raw_inode 0x41ed 48 3 [5; 0; 0; 0; 0; 0; 0; 0; 0] ++
                raw_inode 0x41ed 48 2 [6; 0; 0; 0; 0; 0; 0; 0; 0] ++
                raw_inode 0x21b6 0 1 [0x400; 0; 0; 0; 0; 0; 0; 0; 0]), 0);
  (5, block_of (entry 1 [46] ++ entry 1 [46; 46] ++ entry 2 [100; 101; 118]), 0);
  (6, block_of (entry 2 [46] ++ entry 1 [46; 46] ++ entry 3 [116; 116; 121; 48]), 0);
  (7, block_of [], 0);
  (8, block_of [], 0);
  (9, block_of [], 0);
  (10, block_of [], 0)
].
(** One partition of twelve blocks from sector 1 on. *)
Definition table2 : list Z :=
  block_of (replicate 446 0 ++ [0; 0; 0; 0; 0; 0; 0; 0] ++ four 1 ++ four 24 ++ replicate 48 0 ++ [0x55; 0xAA]).
Definition load_two (d1 d2 : Z) (b1 b2 : list (Z * list Z * Z)) (c0 : cache) : bool * cache :=
  match (load_all d1 b1 ;; load_all d2 b2) c0 with Ret _ c => (true, c) | Stop _ c => (false, c) end.
Definition cache2 : cache := snd (load_two dev0 0x300 blocks2 [(0, table2, 0)] empty0).

Definition driver2 : driver := Driver (replicate 10 (HdStruct 0 0)) (replicate 2 (HdInfo 0 0 0 0 0 0)) 0 0 0 None 1.
Notation machine2 := (Beside.world (V := Warm.world) Z (list (Z * list Z))).
Definition state2 : machine2 :=
  ((cache2, fsys1, Sched [Some task1; Some task1] 1 2), ((driver2, 0xf0), [])).
Definition write2 (c : Z) (l : list Z) : M machine2 Z :=
  zoom (comp snd_l snd_l) (fun log => Ret (Z.of_nat (length l)) (log ++ [(c, l)])).

(** The memory of the program: the geometry is 16 heads, 63 sectors a track,
    100 cylinders. *)
Definition image2 : image := Image 0x1000 0x2000 0x3000 0x4000.
Definition memory2 : Z -> Z :=
  store 0x1000 [100; 0; 16; 0; 0; 0; 0; 0; 0; 0; 0; 0; 0; 0; 63; 0]
    (store 0x2000 (tty0_path ++ [0]) (store 0x3000 (hello ++ [0]) (fun _ => 0))).
Definition bios2 : Z -> Z := fun k => memory2 (drive_info image2 + k).
Definition found2 := drives_found bios2 state2.
Definition ready2 := match read_tables 1 0 found2 with Ret _ w => w | Stop _ w => w end.

Lemma load_two_ok d1 d2 b1 b2 c0 : 0 < d1 < 2 ^ 16 -> 0 < d2 < 2 ^ 16 ->
  Forall (fun p : Z * list Z * Z => 0 <= p.1.1 < 2 ^ 32 /\ 0 <= p.2 < 2 ^ 8) (b1 ++ b2) -> ok c0 ->
  fst (load_two d1 d2 b1 b2 c0) = true -> ok (snd (load_two d1 d2 b1 b2 c0)).
Proof.
  intros H1 H2 [F1 F2]%Forall_app H0. unfold load_two.
  destruct ((load_all d1 b1 ;; load_all d2 b2) c0) as [[] c|] eqn:E; [|done]. intros _.
  apply bind_Ret_inv in E as ([] & c1 & E1 & E2).
  pose proof (wp_Ret _ _ _ _ _ _ (load_all_ok d1 b1 H1 F1 c0 H0) E1) as O1.
  exact (wp_Ret _ _ _ _ _ _ (load_all_ok d2 b2 H2 F2 c1 O1) E2).
Qed.
Lemma blocks2_ok : Forall (fun p : Z * list Z * Z => 0 <= p.1.1 < 2 ^ 32 /\ 0 <= p.2 < 2 ^ 8)
  (blocks2 ++ [(0, table2, 0)]).
Proof. unfold blocks2. cbn [app]. by repeat constructor. Qed.
Lemma cache2_ok : ok cache2.
Proof.
  unfold cache2. apply load_two_ok; [done|done|exact blocks2_ok| |vm_compute; reflexivity].
  exists (seq 0 11), (fun _ => []). apply empty0_wf.
Qed.
Lemma state2_warm : inv [] state2.
Proof.
  split.
  - exact cache2_ok.
  - vm_compute. reflexivity.
  - apply Forall_forall. intros x Hx%list_elem_of_In. apply good_blockb_ok.
    revert x Hx. apply forallb_forall. vm_compute. reflexivity.
  - intros i Hi. by inversion Hi.
  - intros i x. apply counts_ok_spec. vm_compute. reflexivity.
  - cbn [length]. lia.
Qed.

Lemma found2_fst : fst found2 = fst state2.
Proof. unfold found2, drives_found. by destruct (cmos_after _). Qed.
Lemma found2_warm : inv [] found2.
Proof. change (inv [] (fst found2)). rewrite found2_fst. exact state2_warm. Qed.
Lemma found2_table : data found2 (whole 0) 0 = Bytes table2.
Proof. change (data (fst found2) (whole 0) 0 = Bytes table2). rewrite found2_fst. vm_compute. reflexivity. Qed.
Lemma drives2 : drives_of state2 = 1%nat.
Proof. reflexivity. Qed.

Lemma setup_spec_witness :
  exists w', sys_setup (ret tt) bios2 state2 = Ret 0 w' /\ NR_HD (lget dl w') = 1 /\
    zget (hd (lget dl w')) 0 = Some (HdStruct 0 100800) /\
    zget (hd (lget dl w')) 1 = Some (HdStruct 1 24) /\ sys_setup (ret tt) bios2 w' = Ret (-1) w'.
Proof.
  assert (H10 : length (hd (lget dl state2)) = 10%nat) by reflexivity.
  assert (H2 : length (hd_info (lget dl state2)) = 2%nat) by reflexivity.
  destruct (setup_spec [] state2 (ret tt) bios2 (fun _ => table2) H10 H2) as [_ H].
  destruct H as [_ H].
  - discriminate.
  - exact found2_warm.
  - apply Nat.ltb_lt. reflexivity.
  - intros d Hd. rewrite drives2 in Hd. assert (d = 0) as -> by lia. exact found2_table.
  - destruct H as (w' & E & _ & _ & _ & Hc & Hn & _ & He).
    + intros d Hd. vm_compute. reflexivity.
    + exists w'. split; [exact E|]. split; [exact Hn|].
      split; [|split].
      * rewrite (He 0 (HdStruct 0 0) eq_refl). vm_compute. reflexivity.
      * rewrite (He 1 (HdStruct 0 0) eq_refl). vm_compute. reflexivity.
      * exact (setup_again (ret tt) bios2 w' Hc).
Defined.

Lemma ready2_run : read_tables 1 0 found2 = Ret tt ready2 /\ inv [] ready2 /\
  lget fl ready2 = lget fl state2 /\ lget tl ready2 = lget tl state2.
Proof.
  assert (Hl : length (hd (lget dl found2)) = 10%nat) by (vm_compute; reflexivity).
  destruct (read_tables_good 1 (fun _ => table2) [] 0 found2 found2_warm) as (w' & E & Hi & T); [|lia|lia|exact Hl| |].
  - apply Nat.ltb_lt. reflexivity.
  - intros d Hd. assert (d = 0) as -> by lia. split; [exact found2_table|vm_compute; reflexivity].
  - unfold ready2. rewrite E. split_and!; [done|exact Hi| |].
    + rewrite (tr_fl _ _ _ T). apply drives_found_fl.
    + rewrite (tr_tl _ _ _ T). apply drives_found_tl.
Qed.

#[local] Opaque ready2 state2.

(** The three inodes of the device. *)
Definition geo2 : super_block := load_super super_bytes no_super.
Lemma live_cases nr : live dev0 geo2 ready2 nr -> nr = 1 \/ nr = 2 \/ nr = 3.
Proof.
  intros [H1 H2].
  assert (H : forallb (fun k => (k <=? 3) || (i_nlinks (node dev0 geo2 ready2 k) =? 0)) (seqZ 1 32) = true)
    by (vm_compute; reflexivity).
  rewrite forallb_forall in H. specialize (H nr). unfold in_fs in H1. change (s_ninodes geo2) with 32 in H1.
  assert (Hin : In nr (seqZ 1 32)) by (apply list_elem_of_In, elem_of_seqZ; lia).
  specialize (H Hin). apply orb_true_iff in H as [H|H]; [apply Z.leb_le in H; lia|apply Z.eqb_eq in H; by destruct (H2 H)].
Qed.
Lemma live_three nr : nr = 1 \/ nr = 2 \/ nr = 3 -> live dev0 geo2 ready2 nr.
Proof.
  intros H. split; [change (1 <= nr <= 32); lia|].
  assert (E : forallb (fun k => negb (i_nlinks (node dev0 geo2 ready2 k) =? 0)) [1; 2; 3] = true) by (vm_compute; reflexivity).
  rewrite forallb_forall in E. specialize (E nr). feed E; [cbn; destruct H as [->|[->| ->]]; auto|].
  apply negb_true_iff, Z.eqb_neq in E. exact E.
Qed.
Definition dir2 (nr : Z) : m_inode :=
  zero_inode <| i_mode := 0x41ed |> <| i_size := 48 |> <| i_nlinks := 4 - nr |>
    <| i_zone := [4 + nr; 0; 0; 0; 0; 0; 0; 0; 0] |> <| i_num := nr |>.
Lemma node_dir nr : nr = 1 \/ nr = 2 -> node dev0 geo2 ready2 nr = dir2 nr.
Proof. intros [->| ->]; vm_compute; reflexivity. Qed.
Lemma dir_tree nr : nr = 1 \/ nr = 2 -> dir_ok dev0 ready2 (dir2 nr) /\ dir_zones dev0 geo2 ready2 (dir2 nr).
Proof.
  intros Hn. assert (Hs : slots (dir2 nr) = 3) by done. assert (Hz : zone_at (dir2 nr) 0 = 4 + nr) by done.
  assert (Hq : forall q, 0 <= q -> 64 * q < Z.max 1 (slots (dir2 nr)) -> q = 0) by (intros q; rewrite Hs; lia).
  assert (Hb : file_block dev0 ready2 (dir2 nr) 0 = 4 + nr) by done.
  split; split.
  - apply small_width; [reflexivity| |reflexivity]. by destruct Hn as [->| ->].
  - split_and!; [intros H; by destruct H..|]. intros k _ H. exfalso. by apply H.
  - rewrite Hs. vm_compute. discriminate.
  - intros q H0 H1. rewrite (Hq q H0 H1), Hb. split; [lia|]. apply is_bytes_ok.
    destruct Hn as [->| ->]; vm_compute; reflexivity.
  - intros b [H0 [H1|[H1|(k & _ & H1)]]]; exfalso; apply H0; exact H1.
  - intros q H0 H1. rewrite (Hq q H0 H1), Hb. change (s_firstdatazone geo2) with 5. lia.
Qed.
Lemma entries2 nr j : nr = 1 \/ nr = 2 -> 0 <= j < 3 ->
  let e := de_inode (dirent dev0 ready2 (dir2 nr) j) in e = 1 \/ e = 2 \/ e = 3.
Proof.
  intros Hn Hj e.
  assert (H : forallb (fun k => forallb (fun i => let e := de_inode (dirent dev0 ready2 (dir2 k) i) in (1 <=? e) && (e <=? 3))
    [0; 1; 2]) [1; 2] = true) by (vm_compute; reflexivity).
  rewrite forallb_forall in H. specialize (H nr). rewrite forallb_forall in H. specialize (fun A => H A j).
  feed H; [cbn; destruct Hn as [->| ->]; auto|]. feed H; [cbn; lia|]. cbn zeta in H. zb. unfold e. lia.
Qed.
Lemma terminal2 : terminal dev0 geo2 ready2 3 0x400.
Proof.
  split; [| |vm_compute; reflexivity|vm_compute; reflexivity|vm_compute; reflexivity|reflexivity].
  - assert (Hd : forall nr, live dev0 geo2 ready2 nr -> is_dir dev0 geo2 ready2 nr = true -> nr = 1 \/ nr = 2).
    { intros nr L Hd. destruct (live_cases nr L) as [->|[->| ->]]; auto.
      exfalso. vm_compute in Hd. done. }
    split; intros nr; [|intros j]; intros L H; pose proof (Hd nr L H) as Hn; rewrite (node_dir nr Hn).
    + by apply dir_tree.
    + intros Hj _. apply live_three, entries2; [done|exact Hj].
  - apply live_three. auto.
Qed.

Lemma unmounted2 : unmounted ready2 task1 dev0 super_bytes.
Proof.
  destruct ready2_run as (_ & Hi & Hf & Ht). pose proof Hf as Hf'. split; unfold mine, itable, ftable; rewrite ?Hf, ?Ht.
  - exact Hi.
  - reflexivity.
  - reflexivity.
  - vm_compute. discriminate.
  - reflexivity.
  - apply Nat.ltb_lt. reflexivity.
  - reflexivity.
  - reflexivity.
  - assert (Hb : forallb (fun b => is_bytes (data ready2 dev0 b)) [2; 3] = true) by (vm_compute; reflexivity).
    split; [split; reflexivity|vm_compute; reflexivity|reflexivity|split; [reflexivity|discriminate]..|].
    intros b H. change (2 <= b < 4) in H. apply is_bytes_ok. rewrite forallb_forall in Hb. apply Hb. cbn. lia.
  - split; [split; [discriminate|reflexivity]|reflexivity| |discriminate|discriminate].
    intros b H. change (4 <= b < 5) in H. assert (b = 4) as -> by lia. apply is_bytes_ok. vm_compute. reflexivity.
Qed.

Lemma init_spec_witness :
  exists w3 m, init 40 write2 (ret tt) (fun _ _ _ _ => ret 0) image2 (Process state2 0 memory2) =
    Ret tt (Process w3 0 m) /\ last (snd (snd w3)) = Some (0, hello ++ [10]).
Proof.
  destruct ready2_run as (E & _).
  destruct (init_spec 40 write2 (ret tt) (fun _ _ _ _ => ret 0) state2 ready2 0 memory2 image2 task1 dev0
    super_bytes 3 0x400) as (sb & ps & i & r & w2 & t2 & Hm & _ & _ & _ & _ & H).
  - apply Nat.leb_le. reflexivity.
  - apply Nat.ltb_lt. reflexivity.
  - vm_compute. discriminate.
  - vm_compute. reflexivity.
  - vm_compute. reflexivity.
  - rewrite drives2. exact E.
  - exact unmounted2.
  - intros sb Hsb. apply (terminal_geometry dev0 sb geo2); [..|exact terminal2]; by rewrite <-Hsb.
  - reflexivity.
  - reflexivity.
  - discriminate.
  - apply store_apart; [right; discriminate|]. apply store_at.
  - apply store_apart; [right; discriminate|]. apply store_apart; [right; discriminate|]. apply store_at.
  - discriminate.
  - destruct w2 as [v [dk log]].
    eexists _, _. split; [apply (H 31 (v, (dk, log ++ [(0, hello ++ [10])]))); [reflexivity|exact Hm|discriminate]|].
    apply last_snoc.
Defined.
End Demo.
