(* ===== verification/Pages.v ===== *)
(** * Mapping and sharing pages: put_page(), get_empty_page() and
    try_to_share() of mm/memory.c

    [translate] is the walk of the processor through the page tables: what the
    entries written by the code mean. *)

From S2P Require Import Prelude Task Mem.

(** The assignment of a byte, through a pointer [p], in the memory of words. *)
Definition wr_byte (p v : Z) : M mm unit :=
  modify (fun s => s <| ram ::= fun r a =>
    if a =? p - p mod 4 then putbits (r a) (8 * (p mod 4)) 8 v else r a |>).

(** try_to_share(): [p_start] and [start] are the [start_code] of the task [p]
    and of the current one. *)
Definition try_to_share (address p_start start : Z) : M mm bool :=
  let code_pos := u32 (p_start + address) in
  let! from_pg_dir_entry := pde code_pos in
  let! e := rd from_pg_dir_entry in
  if negb (truth (Z.land e PDE_PRESENT)) then ret false
  else
    let! from_page := pte code_pos in
    let! e := rd from_page in
    if negb (Z.land e (Z.lor PTE_DIRTY PTE_PRESENT) =? PTE_PRESENT) then ret false
    else
      let! phys_addr := page_from from_page in
      let! high := gets HIGH_MEMORY in
      if (high <=? phys_addr) || (phys_addr <? LOW_MEM) then ret false
      else
        let code_pos := u32 (start + address) in
        let! to_pg_dir_entry := pde code_pos in
        let! e := rd to_pg_dir_entry in
        (if negb (truth (Z.land e PDE_PRESENT)) then
           let! to := get_free_page in
           if truth to then wr to_pg_dir_entry (Z.lor to PDE_UWP) else ret tt
         else ret tt) ;;
        let! to_page := pte code_pos in
        let! e := rd to_page in
        if truth (Z.land PTE_PRESENT e) then halt (Panic "try_to_share: to_page already exists")
        else
          let! e := rd from_page in
          wr from_page (Z.ldiff e PTE_WRITE) ;;
          let! e := rd from_page in
          wr to_page e ;;
          set_mem_map phys_addr ;;
          ret true.

(** ** The walk through the page tables *)

Definition dslot (s : mm) (v : Z) : Z := pg_dir s + 4 * pgdir_idx v.
Definition tslot (s : mm) (v : Z) : Z := Z.land (ram s (dslot s v)) 0xfffff000 + 4 * page_idx v.
Definition has_table (s : mm) (v : Z) : bool := present (ram s (dslot s v)).
Definition translate (s : mm) (v : Z) : option Z :=
  if has_table s v && present (ram s (tslot s v))
  then Some (Z.land (ram s (tslot s v)) 0xfffff000 + Z.land v 0xfff) else None.

Lemma pde_run v s : pde v s = Ret (dslot s v) s.
Proof. done. Qed.
Lemma pte_run v s : pte v s = Ret (tslot s v) s.
Proof. done. Qed.
Lemma rd_bind {A} a (k : Z -> M mm A) s : bind (rd a) k s = k (ram s a) s.
Proof. done. Qed.
Lemma wr_bind {A} a v (k : unit -> M mm A) s :
  bind (wr a v) k s = k tt (s <| ram ::= fun r b => if b =? a then v else r b |>).
Proof. done. Qed.
Lemma pde_bind {A} v (k : Z -> M mm A) s : bind (pde v) k s = k (dslot s v) s.
Proof. done. Qed.
Lemma pte_bind {A} v (k : Z -> M mm A) s : bind (pte v) k s = k (tslot s v) s.
Proof. done. Qed.

(** The page of an address, and the addresses of a page. *)
Lemma idx_page v k : 0 <= v < 2 ^ 32 -> v mod PAGE_SIZE = 0 -> 0 <= k < PAGE_SIZE ->
  pgdir_idx (v + k) = pgdir_idx v /\ page_idx (v + k) = page_idx v /\ Z.land (v + k) 0xfff = k.
Proof.
  unfold pgdir_idx, page_idx, PAGE_SIZE. intros Hv Hm Hk.
  change 0x3ff with (Z.ones 10). change 0xfff with (Z.ones 12).
  rewrite !Z.land_ones, !Z.shiftr_div_pow2 by lia.
  change (2 ^ 22) with 4194304. change (2 ^ 12) with 4096.
  assert ((v + k) / 4096 = v / 4096) by (Z.div_mod_to_equations; lia).
  assert ((v + k) / 4194304 = v / 4194304) by (Z.div_mod_to_equations; lia).
  split_and!; [by f_equal..|]. Z.div_mod_to_equations. lia.
Qed.

(** The entries the kernel makes. *)
Lemma entry_bits nr x : 0 <= nr < MM_PAGES -> 0 <= x < 8 -> Z.testbit x 0 = true ->
  present (Z.lor (page_addr nr) x) = true /\
  Z.land (Z.lor (page_addr nr) x) 0xfffff000 = page_addr nr.
Proof.
  intros Hnr Hx H0. assert (Hlow : forall n, 0 <= n < 12 -> Z.testbit (page_addr nr) n = false).
  { intros n Hn. unfold page_addr, LOW_MEM, PAGE_SIZE.
    replace (0x100000 + nr * 4096) with (Z.shiftl (256 + nr) 12) by (rewrite Z.shiftl_mul_pow2; lia).
    rewrite shiftl_testbit by lia. destruct (Z.leb_spec 12 n); [lia|done]. }
  pose proof (page_addr_range nr Hnr). split.
  - unfold present, truth. apply negb_true_iff, Z.eqb_neq. intros E.
    assert (Hb : Z.testbit (Z.land 1 (Z.lor (page_addr nr) x)) 0 = false) by (by rewrite E).
    by rewrite Z.land_spec, Z.lor_spec, H0, orb_true_r in Hb.
  - change 0xfffff000 with (Z.shiftl (Z.ones 20) 12). apply Z.bits_inj'. intros n Hn.
    rewrite Z.land_spec, Z.lor_spec, shiftl_testbit by lia.
    destruct (Z.leb_spec 12 n); cbn.
    + rewrite ones_testbit by lia. rewrite (bits_above x 3 n) by lia. rewrite orb_false_r.
      destruct (Z.ltb_spec (n - 12) 20); [by rewrite andb_true_r|].
      rewrite andb_false_r. symmetry. apply (bits_above _ 32); unfold LOW_MEM in *; lia.
    + rewrite andb_false_r. symmetry. apply Hlow. lia.
Qed.
Lemma entry_uwp nr : 0 <= nr < MM_PAGES ->
  present (Z.lor (page_addr nr) PTE_UWP) = true /\
  Z.land (Z.lor (page_addr nr) PTE_UWP) 0xfffff000 = page_addr nr.
Proof. intros H. by apply entry_bits. Qed.
Lemma land_present e : Z.land e PDE_PRESENT = Z.land 1 e.
Proof. apply Z.land_comm. Qed.

(** ** put_page() and get_empty_page() *)

Definition some_free (s : mm) : Prop := exists k, 0 <= k < MM_PAGES /\ refs s k = 0.

(** The entries for [v] lie in used memory, and there is a page for a new
    table if one is needed. *)
Record mappable (s : mm) (v : Z) : Prop := {
  mb_wf : mm_wf s;
  mb_range : 0 <= v < 2 ^ 32;
  mb_page : v mod PAGE_SIZE = 0;
  mb_dslot : safe s (dslot s v);
  mb_tslot : has_table s v = true -> safe s (tslot s v) /\ tslot s v <> dslot s v;
  mb_free : has_table s v = false -> some_free s
}.

(** The page at [v] is now page [nr]: what the processor sees, and what stays
    as it was. *)
Record mapped (s s' : mm) (nr v : Z) : Prop := {
  ma_wf : mm_wf s';
  ma_high : HIGH_MEMORY s' = HIGH_MEMORY s;
  ma_dir : pg_dir s' = pg_dir s;
  ma_walk : forall k, 0 <= k < PAGE_SIZE -> translate s' (v + k) = Some (page_addr nr + k);
  ma_frame : forall a, safe s a -> a <> dslot s v -> (has_table s v = true -> a <> tslot s v) ->
    ram s' a = ram s a;
  ma_dslot : has_table s v = true -> ram s' (dslot s v) = ram s (dslot s v);
  ma_refs : forall k, 0 < refs s k -> refs s' k = refs s k
}.

Lemma walk_to s nr v d : 0 <= nr < MM_PAGES -> 0 <= v < 2 ^ 32 -> v mod PAGE_SIZE = 0 ->
  ram s (dslot s v) = d -> present d = true ->
  ram s (Z.land d 0xfffff000 + 4 * page_idx v) = Z.lor (page_addr nr) PTE_UWP ->
  forall k, 0 <= k < PAGE_SIZE -> translate s (v + k) = Some (page_addr nr + k).
Proof.
  intros Hnr Hv Hm Hd Hp Ht k Hk. destruct (idx_page v k Hv Hm Hk) as (E1 & E2 & E3).
  destruct (entry_uwp nr Hnr) as [H1 H2].
  unfold translate, has_table, tslot, dslot in *. by rewrite E1, E2, E3, Hd, Hp, Ht, H1, H2.
Qed.

Lemma got_safe s s1 nr a : got_page s s1 nr -> safe s a -> ram s1 a = ram s a.
Proof.
  intros G Ha. destruct (gp_free _ _ _ G) as (Hn & H0 & _). rewrite (gp_ram _ _ _ G).
  apply decide_False. destruct (Ha nr Hn H0); lia.
Qed.
Lemma got_refs s s1 nr k : got_page s s1 nr -> 0 < refs s k -> refs s1 k = refs s k.
Proof.
  intros G Hk. destruct (gp_free _ _ _ G) as (_ & H0 & _). rewrite (gp_refs _ _ _ G).
  apply decide_False. intros ->. lia.
Qed.

Lemma get_ref_page0 s nr : counts_all s -> 0 <= nr < MM_PAGES ->
  get_ref (page_addr nr) s = Ret (refs s nr) s.
Proof.
  intros Hl Hn. rewrite <-(Z.add_0_r (page_addr nr)) at 1. by apply get_ref_page.
Qed.

Lemma put_page_run s nr v : 0 <= nr < MM_PAGES -> mappable s v ->
  exists s', put_page (page_addr nr) v s = Ret (page_addr nr) s' /\ mapped s s' nr v.
Proof.
  intros Hnr [Hw Hv Hm Hd Ht Hf]. pose proof (page_addr_range nr Hnr) as Hr. unfold put_page.
  rewrite (bind_ret _ _ _ _ _ (get_ref_page0 s nr (wf_refs _ Hw) Hnr)).
  rewrite pde_bind, rd_bind, land_present. change (truth (Z.land 1 ?e)) with (present e).
  change (present (ram s (dslot s v))) with (has_table s v). destruct (has_table s v) eqn:Eh.
  - destruct (Ht eq_refl) as [Hts Hne]. unfold page_table_from. run. rewrite rd_bind. run.
    rewrite wr_bind. change (Z.land _ _ + 4 * page_idx v) with (tslot s v).
    eexists. split; [reflexivity|]. split; try done.
    + destruct Hw. by split.
    + apply (walk_to _ nr v (ram s (dslot s v))); try done; cbn.
      * change (dslot _ v) with (dslot s v). by rewrite (proj2 (Z.eqb_neq (dslot s v) _)) by congruence.
      * change (Z.land _ _ + 4 * page_idx v) with (tslot s v). by rewrite Z.eqb_refl.
    + intros a _ _ Ha. cbn. by rewrite (proj2 (Z.eqb_neq _ _)) by auto.
    + intros _. cbn. by rewrite (proj2 (Z.eqb_neq _ _)) by congruence.
  - destruct (get_free_page_runs s Hw (Hf eq_refl)) as (k & s1 & E & G).
    pose proof (gp_free _ _ _ G) as (Hk & H0 & _). pose proof (page_addr_range k Hk) as Hrk.
    rewrite (bind_ret _ _ _ _ _ E). rewrite (proj2 (Z.eqb_neq _ _)) by (unfold LOW_MEM in *; lia).
    rewrite !wr_bind. change (dslot s v) with (pg_dir s + 4 * pgdir_idx v).
    rewrite <-(gp_dir _ _ _ G). change (pg_dir s1 + _) with (dslot s1 v).
    assert (Ed : dslot s1 v = dslot s v) by (unfold dslot; by rewrite (gp_dir _ _ _ G)).
    assert (Hin : 0 <= 4 * page_idx v < PAGE_SIZE).
    { unfold page_idx. change 0x3ff with (Z.ones 10). rewrite Z.land_ones by lia.
      pose proof (Z.mod_pos_bound (Z.shiftr v 12) (2 ^ 10)). unfold PAGE_SIZE. lia. }
    assert (Hne : dslot s1 v <> page_addr k + 4 * page_idx v)
      by (rewrite Ed; destruct (Hd k Hk H0); lia).
    eexists. split; [reflexivity|]. split; cbn.
    + destruct (gp_wf _ _ _ G). by split.
    + apply G.
    + apply G.
    + destruct (entry_uwp k Hk) as [H1 H2]. change PDE_UWP with PTE_UWP.
      apply (walk_to _ nr v (Z.lor (page_addr k) PTE_UWP)); try done; cbn.
      * by rewrite (proj2 (Z.eqb_neq _ _)), Z.eqb_refl by done.
      * by rewrite H2, Z.eqb_refl.
    + intros a Ha Hn _. rewrite Ed. rewrite (proj2 (Z.eqb_neq _ (dslot s v))) by done.
      rewrite (proj2 (Z.eqb_neq _ _)) by (destruct (Ha k Hk H0); lia). by apply (got_safe _ _ _ _ G).
    + by rewrite Eh.
    + intros j Hj. by apply (got_refs _ _ _ _ G).
Qed.

(** Page [nr] was free and has one reference now; its contents are new. *)
Record taken (s s' : mm) (nr : Z) : Prop := {
  tk_page : 0 <= nr < MM_PAGES;
  tk_free : refs s nr = 0;
  tk_wf : mm_wf s';
  tk_refs : forall k, refs s' k = if decide (k = nr) then 1 else refs s k;
  tk_ram : forall a, a < page_addr nr \/ page_addr nr + PAGE_SIZE <= a -> ram s' a = ram s a;
  tk_high : HIGH_MEMORY s' = HIGH_MEMORY s;
  tk_dir : pg_dir s' = pg_dir s
}.
Lemma got_taken s s' nr : got_page s s' nr -> taken s s' nr.
Proof.
  intros [(Hn & H0 & _) Hw Hr Hm Hh Hd]. split; try done.
  intros a Ha. rewrite Hm. apply decide_False. lia.
Qed.
(** What is assigned to the new page. *)
Lemma taken_fill s s1 nr r : taken s s1 nr ->
  (forall a, a < page_addr nr \/ page_addr nr + PAGE_SIZE <= a -> r a = ram s1 a) ->
  taken s (s1 <| ram := r |>) nr.
Proof.
  intros [Hn H0 Hw Hr Hm Hh Hd] Hf. split; try done; [by destruct Hw|].
  intros a Ha. cbn. by rewrite Hf, Hm.
Qed.

Definition two_free (s : mm) : Prop :=
  exists k k', k <> k' /\ 0 <= k < MM_PAGES /\ 0 <= k' < MM_PAGES /\ refs s k = 0 /\ refs s k' = 0.
(** A page can be taken and put at [v]. *)
Record demand (s : mm) (v : Z) : Prop := {
  de_wf : mm_wf s;
  de_range : 0 <= v < 2 ^ 32;
  de_page : v mod PAGE_SIZE = 0;
  de_dslot : safe s (dslot s v);
  de_tslot : has_table s v = true -> safe s (tslot s v) /\ tslot s v <> dslot s v;
  de_free : if has_table s v then some_free s else two_free s
}.
Lemma demand_free s v : demand s v -> some_free s.
Proof.
  intros [_ _ _ _ _ Hf]. destruct (has_table s v); [done|].
  destruct Hf as (k & _ & _ & ? & _ & ? & _). by exists k.
Qed.

Section taken.
Context (s s1 : mm) (nr v : Z) (T : taken s s1 nr) (D : demand s v).

Lemma taken_safe a : safe s a -> ram s1 a = ram s a /\ safe s1 a.
Proof.
  intros Ha. split; [apply (tk_ram _ _ _ T), Ha; apply T|].
  intros k Hk H0. apply Ha; [done|]. rewrite (tk_refs _ _ _ T) in H0. by case_decide.
Qed.
Lemma taken_dslot : dslot s1 v = dslot s v.
Proof. unfold dslot. by rewrite (tk_dir _ _ _ T). Qed.
Lemma taken_table : has_table s1 v = has_table s v.
Proof. unfold has_table. rewrite taken_dslot. by rewrite (proj1 (taken_safe _ (de_dslot _ _ D))). Qed.
Lemma taken_tslot : tslot s1 v = tslot s v.
Proof. unfold tslot. rewrite taken_dslot. by rewrite (proj1 (taken_safe _ (de_dslot _ _ D))). Qed.

Lemma taken_mappable : mappable s1 v.
Proof.
  split; rewrite ?taken_table, ?taken_tslot, ?taken_dslot; try apply T; try apply D.
  - apply taken_safe, D.
  - intros Ht. destruct (de_tslot _ _ D Ht). by split; [apply taken_safe|].
  - intros Ht. pose proof (de_free _ _ D) as Hf. rewrite Ht in Hf.
    destruct Hf as (k & k' & Hne & Hk & Hk' & H0 & H0').
    destruct (decide (k = nr)) as [->|Hn]; [exists k'|exists k]; split; try done;
      rewrite (tk_refs _ _ _ T); by apply decide_False || (rewrite decide_False; congruence).
Qed.
End taken.

(** A page that was free, with the contents [f] by offset, is at [v] now. *)
Record new_page (s s' : mm) (nr v : Z) (f : Z -> Z) : Prop := {
  np_page : 0 <= nr < MM_PAGES;
  np_free : refs s nr = 0;
  np_wf : mm_wf s';
  np_walk : forall k, 0 <= k < PAGE_SIZE -> translate s' (v + k) = Some (page_addr nr + k);
  np_words : forall k, 0 <= k < PAGE_SIZE -> ram s' (page_addr nr + k) = f k;
  np_one : refs s' nr = 1;
  np_refs : forall k, 0 < refs s k -> refs s' k = refs s k;
  np_frame : forall a, safe s a -> a <> dslot s v -> (has_table s v = true -> a <> tslot s v) ->
    ram s' a = ram s a;
  np_dslot : has_table s v = true -> ram s' (dslot s v) = ram s (dslot s v)
}.

Lemma new_page_intro s s1 s' nr v : taken s s1 nr -> demand s v -> mapped s1 s' nr v ->
  new_page s s' nr v (fun k => ram s1 (page_addr nr + k)).
Proof.
  intros T D [Hw Hh Hd Hwalk Hfr Hds Hr].
  rewrite (taken_dslot _ _ _ _ T), (taken_table _ _ _ _ T D), (taken_tslot _ _ _ _ T D) in *.
  pose proof (tk_page _ _ _ T) as Hn. pose proof (tk_free _ _ _ T) as H0.
  assert (Hin : forall a, safe s a -> a < page_addr nr \/ page_addr nr + PAGE_SIZE <= a)
    by (intros a Ha; by apply Ha).
  pose proof (Hin _ (de_dslot _ _ D)) as Hd1.
  split; try done.
  - intros k Hk. apply Hfr.
    + intros j Hj Hf. rewrite (tk_refs _ _ _ T) in Hf. case_decide; [done|].
      unfold page_addr, PAGE_SIZE in *. lia.
    + lia.
    + intros Ht. pose proof (Hin _ (proj1 (de_tslot _ _ D Ht))). lia.
  - rewrite Hr; rewrite (tk_refs _ _ _ T), decide_True by done; lia.
  - intros k Hk. assert (k <> nr) by (intros ->; lia).
    rewrite Hr; rewrite (tk_refs _ _ _ T), decide_False by done; done.
  - intros a Ha Hn1 Hn2. rewrite Hfr by (try done; by apply (taken_safe _ _ _ T)).
    by apply (taken_safe _ _ _ T).
  - intros Ht. rewrite Hds by done. by apply (taken_safe _ _ _ T), D.
Qed.

Lemma put_new_page s s1 nr v : taken s s1 nr -> demand s v ->
  exists s', put_page (page_addr nr) v s1 = Ret (page_addr nr) s' /\
    new_page s s' nr v (fun k => ram s1 (page_addr nr + k)).
Proof.
  intros T D. destruct (put_page_run s1 nr v (tk_page _ _ _ T) (taken_mappable _ _ _ _ T D)) as (s' & E & M).
  exists s'. split; [done|]. by apply new_page_intro.
Qed.

Lemma get_empty_page_run s v : demand s v ->
  exists nr s', get_empty_page v s = Ret tt s' /\ new_page s s' nr v (fun _ => 0).
Proof.
  intros D. destruct (get_free_page_runs s (de_wf _ _ D) (demand_free _ _ D)) as (nr & s1 & E & G).
  pose proof (got_taken _ _ _ G) as T. pose proof (page_addr_range nr (tk_page _ _ _ T)) as Hr.
  destruct (put_new_page s s1 nr v T D) as (s' & E' & N). exists nr, s'. split.
  - unfold get_empty_page. rewrite (bind_ret _ _ _ _ _ E).
    rewrite (proj2 (Z.eqb_neq _ _)) by (unfold LOW_MEM in *; lia).
    rewrite (bind_ret _ _ _ _ _ E'). by rewrite (proj2 (Z.eqb_neq _ _)) by (unfold LOW_MEM in *; lia).
  - destruct N. split; try done. intros k Hk. rewrite np_words0 by done.
    rewrite (gp_ram _ _ _ G). apply decide_True. lia.
Qed.

(** ** try_to_share() *)

Definition frame (s : mm) (v : Z) : Z := Z.land (ram s (tslot s v)) 0xfffff000.
(** The page at [v] is present, clean and one of the pages that are counted. *)
Definition sharable (s : mm) (v : Z) : bool :=
  has_table s v && (Z.land (ram s (tslot s v)) (Z.lor PTE_DIRTY PTE_PRESENT) =? PTE_PRESENT) &&
  negb ((HIGH_MEMORY s <=? frame s v) || (frame s v <? LOW_MEM)).

Lemma try_to_share_no s address p_start start :
  sharable s (u32 (p_start + address)) = false ->
  try_to_share address p_start start s = Ret false s.
Proof.
  unfold sharable, try_to_share. intros H. rewrite pde_bind, rd_bind, land_present.
  change (truth (Z.land 1 (ram s (dslot s ?v)))) with (has_table s v).
  destruct (has_table s _); cbn [negb andb] in *; [|done].
  rewrite pte_bind, rd_bind. destruct (_ =? PTE_PRESENT); cbn [negb andb] in *; [|done].
  unfold page_from. run. rewrite rd_bind. run. apply negb_false_iff in H.
  change (Z.land (ram s (tslot s ?v)) 0xfffff000) with (frame s v). by rewrite H.
Qed.

(** The table for [v] is there, or a new and empty one is. *)
Record tabled (s s' : mm) (v : Z) : Prop := {
  tb_wf : mm_wf s';
  tb_high : HIGH_MEMORY s' = HIGH_MEMORY s;
  tb_dir : pg_dir s' = pg_dir s;
  tb_has : has_table s' v = true;
  tb_old : has_table s v = true -> s' = s;
  tb_new : has_table s v = false ->
    ram s' (tslot s' v) = 0 /\ forall a, safe s a -> a <> tslot s' v;
  tb_frame : forall a, safe s a -> (has_table s v = false -> a <> dslot s v) -> ram s' a = ram s a;
  tb_refs : forall k, 0 < refs s k -> refs s' k = refs s k
}.

Lemma tabled_run s v : mappable s v ->
  exists s', (if negb (has_table s v) then
      let! to := get_free_page in
      if truth to then wr (dslot s v) (Z.lor to PDE_UWP) else ret tt
    else ret tt) s = Ret tt s' /\ tabled s s' v.
Proof.
  intros [Hw Hv _ Hd _ Hf]. destruct (has_table s v) eqn:Eh; cbn [negb].
  { exists s. split; [done|]. split; try done. by rewrite Eh. }
  destruct (get_free_page_runs s Hw (Hf eq_refl)) as (k & s1 & E & G).
  pose proof (gp_free _ _ _ G) as (Hk & H0 & _). pose proof (page_addr_range k Hk) as Hrk.
  rewrite (bind_ret _ _ _ _ _ E). unfold truth.
  rewrite (proj2 (Z.eqb_neq _ _)) by (unfold LOW_MEM in *; lia). cbn [negb]. change PDE_UWP with PTE_UWP.
  eexists. split; [reflexivity|]. destruct (entry_uwp k Hk) as [H1 H2].
  match goal with |- tabled _ ?t _ => set (s2 := t) end.
  assert (Ed : dslot s2 v = dslot s v) by (unfold dslot; cbn; by rewrite (gp_dir _ _ _ G)).
  assert (Em : ram s2 (dslot s v) = Z.lor (page_addr k) PTE_UWP) by (cbn; by rewrite Z.eqb_refl).
  assert (Et : tslot s2 v = page_addr k + 4 * page_idx v) by (unfold tslot; by rewrite Ed, Em, H2).
  assert (Hin : 0 <= 4 * page_idx v < PAGE_SIZE).
  { unfold page_idx. change 0x3ff with (Z.ones 10). rewrite Z.land_ones by lia.
    pose proof (Z.mod_pos_bound (Z.shiftr v 12) (2 ^ 10)). unfold PAGE_SIZE. lia. }
  split; try apply G.
  - destruct (gp_wf _ _ _ G). by split.
  - unfold has_table. by rewrite Ed, Em.
  - by rewrite Eh.
  - intros _. rewrite Et. split.
    + cbn. rewrite (proj2 (Z.eqb_neq _ _)) by (destruct (Hd k Hk H0); lia).
      rewrite (gp_ram _ _ _ G). apply decide_True. lia.
    + intros a Ha. destruct (Ha k Hk H0); lia.
  - intros a Ha Hn. cbn. rewrite (proj2 (Z.eqb_neq _ _)) by (by apply Hn).
    by apply (got_safe _ _ _ _ G).
  - intros j Hj. by apply (got_refs _ _ _ _ G).
Qed.

(** The page [nr] at [v1] can be shared: its entry and the tables are in used
    memory, at different places. *)
Record donor_ok (s : mm) (v1 v2 nr : Z) : Prop := {
  dn_map : mappable s v2;
  dn_frame : frame s v1 = page_addr nr;
  dn_page : 0 <= nr < MM_PAGES;
  dn_used : 0 < refs s nr;
  dn_dslot : safe s (dslot s v1);
  dn_tslot : safe s (tslot s v1);
  dn_apart : tslot s v1 <> dslot s v1 /\ tslot s v1 <> dslot s v2;
  dn_other : has_table s v2 = true -> tslot s v2 <> tslot s v1 /\ tslot s v2 <> dslot s v1
}.

(** Both addresses lead to page [nr] now, through the same read-only entry;
    the page has one reference more, and nothing else that was in use has
    changed. *)
Record shares (s s' : mm) (v1 v2 nr : Z) : Prop := {
  sh_wf : mm_wf s';
  sh_to : translate s' v2 = Some (page_addr nr + Z.land v2 0xfff);
  sh_from : translate s' v1 = Some (page_addr nr + Z.land v1 0xfff);
  sh_entry : ram s' (tslot s' v1) = ro (ram s (tslot s v1)) /\
    ram s' (tslot s' v2) = ro (ram s (tslot s v1));
  sh_refs : forall k, 0 < refs s k -> refs s' k = if decide (k = nr) then refs s k + 1 else refs s k;
  sh_frame : forall a, safe s a -> a <> dslot s v2 -> a <> tslot s v1 ->
    (has_table s v2 = true -> a <> tslot s v2) -> ram s' a = ram s a
}.

Lemma write_testbit n : 0 <= n -> Z.testbit PTE_WRITE n = (n =? 1).
Proof. apply (bit1_testbit 1). Qed.
Lemma ro_entry e : present (ro e) = present e /\ Z.land (ro e) 0xfffff000 = Z.land e 0xfffff000.
Proof.
  unfold present, ro. split.
  - f_equal. apply Z.bits_inj'. intros n Hn. rewrite !Z.land_spec, Z.ldiff_spec, write_testbit by done.
    change (Z.testbit 1 n) with (Z.testbit (Z.shiftl 1 0) n). rewrite bit1_testbit by done.
    destruct (Z.eqb_spec n 0) as [->|]; [by rewrite andb_true_r|done].
  - apply Z.bits_inj'. intros n Hn. rewrite !Z.land_spec, Z.ldiff_spec, write_testbit by done.
    change 0xfffff000 with (Z.shiftl (Z.ones 20) 12). rewrite shiftl_testbit by lia.
    destruct (Z.leb_spec 12 n); cbn [andb]; [|by rewrite !andb_false_r].
    rewrite (proj2 (Z.eqb_neq n 1)) by lia. by rewrite andb_true_r.
Qed.

Lemma clean_present e : Z.land e (Z.lor PTE_DIRTY PTE_PRESENT) = PTE_PRESENT -> present e = true.
Proof.
  intros H. unfold present, truth. apply negb_true_iff, Z.eqb_neq. intros E.
  assert (Hb : Z.testbit (Z.land e (Z.lor PTE_DIRTY PTE_PRESENT)) 0 = true) by (by rewrite H).
  rewrite Z.land_spec in Hb. apply andb_prop in Hb as [Hb _].
  assert (Hc : Z.testbit (Z.land 1 e) 0 = false) by (by rewrite E).
  by rewrite Z.land_spec, Hb in Hc.
Qed.

Section share.
Context (s : mm) (address p_start start nr : Z).
Let v1 := u32 (p_start + address).
Let v2 := u32 (start + address).
Context (Hsh : sharable s v1 = true) (D : donor_ok s v1 v2 nr).

Lemma sharable_inv : has_table s v1 = true /\ present (ram s (tslot s v1)) = true /\
  Z.land (ram s (tslot s v1)) (Z.lor PTE_DIRTY PTE_PRESENT) = PTE_PRESENT /\
  (HIGH_MEMORY s <=? frame s v1) || (frame s v1 <? LOW_MEM) = false.
Proof using Hsh.
  clear D. unfold sharable in Hsh. apply andb_prop in Hsh as [H H2]. apply andb_prop in H as [H H1].
  apply Z.eqb_eq in H1. split_and!; try done; [by apply clean_present|]. by apply negb_true_iff.
Qed.

Lemma tabled_donor s1 : tabled s s1 v2 -> dslot s1 v1 = dslot s v1 /\
  ram s1 (dslot s v1) = ram s (dslot s v1) /\ tslot s1 v1 = tslot s v1 /\
  ram s1 (tslot s v1) = ram s (tslot s v1) /\ tslot s1 v2 <> tslot s v1 /\ tslot s1 v2 <> dslot s v1.
Proof using Hsh D.
  intros Tb. destruct sharable_inv as (H1 & _).
  assert (Hds : ram s1 (dslot s v1) = ram s (dslot s v1)).
  { apply (tb_frame _ _ _ Tb); [apply D|]. intros Hn E. unfold has_table in H1, Hn. congruence. }
  assert (Ed : dslot s1 v1 = dslot s v1) by (unfold dslot; by rewrite (tb_dir _ _ _ Tb)).
  assert (Ets : tslot s1 v1 = tslot s v1) by (unfold tslot; by rewrite Ed, Hds).
  split_and!; try done.
  - apply (tb_frame _ _ _ Tb); [apply D|]. intros _. apply D.
  - destruct (has_table s v2) eqn:Eh.
    + rewrite (tb_old _ _ _ Tb) by done. by apply D.
    + intros E. by apply (proj2 (tb_new _ _ _ Tb Eh) (tslot s v1)); [apply D|].
  - destruct (has_table s v2) eqn:Eh.
    + rewrite (tb_old _ _ _ Tb) by done. by apply D.
    + intros E. by apply (proj2 (tb_new _ _ _ Tb Eh) (dslot s v1)); [apply D|].
Qed.

(** The assignments to the two entries, and the count. *)
Definition both (s1 : mm) : mm :=
  s1 <| ram ::= fun r a => if a =? tslot s v1 then ro (ram s (tslot s v1)) else r a |>
     <| ram ::= fun r a => if a =? tslot s1 v2 then ro (ram s (tslot s v1)) else r a |>.

Lemma both_run s1 : tabled s s1 v2 ->
  exists s', set_mem_map (page_addr nr) (both s1) = Ret tt s' /\
    page_set (both s1) s' nr true (refs s1 nr + 1).
Proof using D.
  clear Hsh. intros Tb. rewrite <-(Z.add_0_r (page_addr nr)).
  apply (set_mem_map_page (both s1) nr 0); [|apply D|by unfold PAGE_SIZE].
  destruct (tb_wf _ _ _ Tb). by split.
Qed.

Lemma shares_intro s1 s' : tabled s s1 v2 -> tslot s1 v2 <> dslot s1 v2 ->
  page_set (both s1) s' nr true (refs s1 nr + 1) -> shares s s' v1 v2 nr.
Proof using Hsh D.
  intros Tb Hne P. destruct (tabled_donor s1 Tb) as (E1 & E2 & E3 & E4 & N1 & N2).
  destruct sharable_inv as (H1 & H2 & _ & _). destruct (ro_entry (ram s (tslot s v1))) as [R1 R2].
  pose proof (dn_apart _ _ _ _ D) as [A1 A2].
  assert (Ed2 : dslot s1 v2 = dslot s v2) by (unfold dslot; by rewrite (tb_dir _ _ _ Tb)).
  assert (Em : forall a, ram s' a = if a =? tslot s1 v2 then ro (ram s (tslot s v1))
    else if a =? tslot s v1 then ro (ram s (tslot s v1)) else ram s1 a)
    by (intros a; by rewrite (ps_ram _ _ _ _ _ P)).
  assert (Ed : forall v, dslot s' v = dslot s1 v)
    by (intros v; unfold dslot; by rewrite (ps_dir _ _ _ _ _ P)).
  assert (Hd1 : ram s' (dslot s v1) = ram s (dslot s v1)).
  { rewrite Em, !(proj2 (Z.eqb_neq _ _)) by congruence. done. }
  assert (Hd2 : ram s' (dslot s v2) = ram s1 (dslot s v2)).
  { rewrite Em, !(proj2 (Z.eqb_neq _ _)) by congruence. done. }
  assert (Et1 : tslot s' v1 = tslot s v1) by (unfold tslot; by rewrite Ed, E1, Hd1).
  assert (Et2 : tslot s' v2 = tslot s1 v2) by (unfold tslot; by rewrite Ed, Ed2, Hd2).
  assert (Ho : ram s' (tslot s v1) = ro (ram s (tslot s v1)))
    by (by rewrite Em, (proj2 (Z.eqb_neq _ _)), Z.eqb_refl by congruence).
  assert (Hn : ram s' (tslot s1 v2) = ro (ram s (tslot s v1))) by (by rewrite Em, Z.eqb_refl).
  assert (Ht1 : has_table s' v1 = true) by (unfold has_table in *; by rewrite Ed, E1, Hd1).
  assert (Ht2 : has_table s' v2 = true).
  { unfold has_table. rewrite Ed, Ed2, Hd2, <-Ed2. apply (tb_has _ _ _ Tb). }
  split.
  - pose proof (tb_wf _ _ _ Tb) as Hw. eapply page_set_wf; [|exact P| |].
    + destruct Hw. by split.
    + pose proof (wf_count _ Hw nr). lia.
    + symmetry. apply Z.ltb_lt. pose proof (wf_count _ Hw nr). lia.
  - unfold translate. rewrite Ht2, Et2, Hn, R1, R2, H2. cbn [andb]. f_equal. f_equal. apply D.
  - unfold translate. rewrite Ht1, Et1, Ho, R1, R2, H2. cbn [andb]. f_equal. f_equal. apply D.
  - by rewrite Et1, Et2.
  - intros k Hk. rewrite (ps_refs _ _ _ _ _ P). change (refs (both s1) k) with (refs s1 k).
    case_decide; [subst k|]; by rewrite (tb_refs _ _ _ Tb).
  - intros a Ha Hb Hc Hd. rewrite Em. rewrite (proj2 (Z.eqb_neq _ (tslot s v1))) by done.
    rewrite (proj2 (Z.eqb_neq _ _)); [by apply (tb_frame _ _ _ Tb)|].
    destruct (has_table s v2) eqn:Eh.
    + rewrite (tb_old _ _ _ Tb) by done. auto.
    + by apply (tb_new _ _ _ Tb).
Qed.
End share.

Lemma try_to_share_yes s address p_start start nr :
  let v1 := u32 (p_start + address) in
  let v2 := u32 (start + address) in
  sharable s v1 = true -> donor_ok s v1 v2 nr ->
  (has_table s v2 && present (ram s (tslot s v2)) = true ->
     try_to_share address p_start start s = Stop (Panic "try_to_share: to_page already exists") s) /\
  (has_table s v2 && present (ram s (tslot s v2)) = false ->
     exists s', try_to_share address p_start start s = Ret true s' /\ shares s s' v1 v2 nr).
Proof.
  intros v1 v2 Hsh D. destruct (sharable_inv _ _ _ Hsh) as (H1 & H2 & H3 & H4).
  fold v1 in H1, H2, H3, H4. destruct (tabled_run s v2 (dn_map _ _ _ _ D)) as (s1 & E & Tb).
  destruct (tabled_donor s address p_start start nr Hsh D s1 Tb) as (_ & _ & _ & E4 & _ & _). fold v1 in E4.
  assert (Hrun : try_to_share address p_start start s =
    if present (ram s1 (tslot s1 v2)) then Stop (Panic "try_to_share: to_page already exists") s1
    else bind (set_mem_map (page_addr nr)) (fun _ => ret true) (both s address p_start start s1)).
  { unfold try_to_share. fold v1 v2. rewrite pde_bind, rd_bind, land_present.
    change (truth (Z.land 1 (ram s (dslot s v1)))) with (has_table s v1). rewrite H1. cbn [negb].
    rewrite pte_bind, rd_bind, H3. cbn [Z.eqb PTE_PRESENT Pos.eqb negb].
    unfold page_from. run. rewrite rd_bind. run.
    change (Z.land (ram s (tslot s v1)) 0xfffff000) with (frame s v1). rewrite H4.
    rewrite pde_bind, rd_bind, land_present.
    change (truth (Z.land 1 (ram s (dslot s v2)))) with (has_table s v2).
    rewrite (bind_ret _ _ _ _ _ E), pte_bind, rd_bind.
    change (truth (Z.land PTE_PRESENT ?e)) with (present e).
    destruct (present (ram s1 (tslot s1 v2))); [done|].
    rewrite !rd_bind, !wr_bind, rd_bind, wr_bind. cbn [upd ram eta_mm]. rewrite Z.eqb_refl, E4.
    fold (ro (ram s (tslot s v1))). by rewrite (dn_frame _ _ _ _ D). }
  rewrite Hrun. split; intros Hp.
  - apply andb_prop in Hp as [Ht Hp]. rewrite (tb_old _ _ _ Tb Ht), Hp. done.
  - assert (present (ram s1 (tslot s1 v2)) = false) as ->.
    { destruct (has_table s v2) eqn:Eh; [by rewrite (tb_old _ _ _ Tb)|].
      by rewrite (proj1 (tb_new _ _ _ Tb Eh)). }
    destruct (both_run s address p_start start nr D s1 Tb) as (s' & Es & P).
    exists s'. rewrite (bind_ret _ _ _ _ _ Es). split; [done|].
    apply (shares_intro s address p_start start nr Hsh D s1); [done| |done].
    destruct (has_table s v2) eqn:Eh.
    + rewrite (tb_old _ _ _ Tb) by done. by apply (mb_tslot _ _ (dn_map _ _ _ _ D)).
    + unfold dslot at 1. rewrite (tb_dir _ _ _ Tb). intros E'.
      by apply (proj2 (tb_new _ _ _ Tb Eh) (dslot s v2)); [apply D|].
Qed.

(** ** The theorem *)

(** C20.  try_to_share() refuses a page that is absent, dirty, or not one of
    the counted pages, and changes nothing then.  Otherwise it panics when the
    current task has a page at the address already, and else makes both
    addresses lead to the page of the other task (through a new page table if
    one is needed), write-protects both entries, gives the page one reference
    more, and leaves all other memory and counts in use as they were. *)
Theorem try_to_share_spec s address p_start start :
  let v1 := u32 (p_start + address) in
  let v2 := u32 (start + address) in
  (sharable s v1 = false -> try_to_share address p_start start s = Ret false s) /\
  forall nr, sharable s v1 = true -> donor_ok s v1 v2 nr ->
    if has_table s v2 && present (ram s (tslot s v2))
    then try_to_share address p_start start s = Stop (Panic "try_to_share: to_page already exists") s
    else exists s', try_to_share address p_start start s = Ret true s' /\ shares s s' v1 v2 nr.
Proof.
  intros v1 v2. split; [apply try_to_share_no|]. intros nr Hs D.
  destruct (try_to_share_yes s address p_start start nr Hs D) as [H1 H2]. fold v2 in H1, H2.
  destruct (_ && _); auto.
Qed.

Lemma low_safe s a : a < LOW_MEM -> safe s a.
Proof. intros H k Hk _. left. pose proof (page_addr_range k Hk). lia. Qed.
Lemma demo_parent_wf : mm_wf demo_parent.
Proof. destruct demo_wf. by split. Qed.
Lemma demo_parent_free : some_free demo_parent.
Proof.
  exists 96. split; [by split|]. change (refs demo_parent 96) with (refs demo_mm 96).
  rewrite demo_refs by (by split). by apply decide_True.
Qed.

(** The page of the sample at 0x5000, for a task whose space starts at 64 MB
    and has no table yet. *)
Lemma try_to_share_spec_witness :
  exists s', try_to_share 0x5000 0 0x4000000 demo_parent = Ret true s' /\
    translate s' 0x4005000 = Some (page_addr 95) /\ refs s' 95 = 2.
Proof.
  destruct (proj2 (try_to_share_spec demo_parent 0x5000 0 0x4000000) 95) as (s' & E & Sh).
  - reflexivity.
  - split; try reflexivity.
    + split; try (apply low_safe; reflexivity).
      * exact demo_parent_wf.
      * split; [discriminate|reflexivity].
      * reflexivity.
      * discriminate.
      * intros _. exact demo_parent_free.
    + split; [discriminate|reflexivity].
    + apply low_safe. reflexivity.
    + apply low_safe. reflexivity.
    + split; discriminate.
    + discriminate.
  - exists s'. split; [exact E|]. split; [exact (sh_to _ _ _ _ _ Sh)|].
    rewrite (sh_refs _ _ _ _ _ Sh 95), demo_parent_refs; [reflexivity|].
    rewrite demo_parent_refs. reflexivity.
Defined.
