(* ===== verification/Fault.v ===== *)
(** * Page faults: bread_page() of fs/buffer.c, share_page(), do_no_page() and
    do_wp_page() of mm/memory.c, page_fault of mm/page.s

    The memory is beside the state [W] of the file system, which has no access
    to it: [in_fs] runs an operation of the one, [in_mm] of the other.  Class
    [Paging] has the two operations that bread_page() uses beside those of
    class [Env]. *)

From S2P Require Import Prelude Task Sched WaitQ Mem Buffer Blk Fs Blocks Super Mini Bitmap Inode Bmap Dir Files Pages.

Class Paging (W : Type) := {
  ll_rw_block : Z -> nat -> M W unit;
  wait_on_buffer : nat -> M W unit
}.

Section ops.
Context {W : Type} `{!Env W, !Paging W}.

Definition in_fs {A} (m : M W A) : M (W * mm) A := zoom fst_l m.
Definition in_mm {A} (m : M mm A) : M (W * mm) A := zoom snd_l m.

(** ** bread_page() *)

(** [COPYBLK(from,to)]: 256 words. *)
Definition COPYBLK (from : list Z) (to : Z) : M mm unit :=
  modify (fun s => s <| ram ::= fun r a =>
    if (to <=? a) && (a <? to + BLOCK_SIZE) then le32 from (Z.to_nat (a - to)) else r a |>).

(** The first loop: the buffers of the blocks [b], on their way. *)
Fixpoint read_ahead (dev : Z) (b : list Z) : M (W * mm) (list (option nat)) :=
  match b with
  | [] => ret []
  | n :: b' =>
      let! o := (if truth n then
                   let! bh := in_fs (getblk dev n) in
                   let! u := in_fs (buf b_uptodate bh) in
                   (if truth u then ret tt else in_fs (ll_rw_block READ bh)) ;;
                   ret (Some bh)
                 else ret None) in
      let! bh := read_ahead dev b' in
      ret (o :: bh)
  end.
(** The second loop. *)
Fixpoint copy_blocks (bh : list (option nat)) (address : Z) : M (W * mm) unit :=
  match bh with
  | [] => ret tt
  | o :: bh' =>
      match o with
      | None => ret tt
      | Some h =>
          in_fs (wait_on_buffer h) ;;
          let! u := in_fs (buf b_uptodate h) in
          (if truth u then let! l := in_fs (buf b_bytes h) in in_mm (COPYBLK l address) else ret tt) ;;
          in_fs (brelse (Some h))
      end ;;
      copy_blocks bh' (address + BLOCK_SIZE)
  end.
Definition bread_page (address dev : Z) (b : list Z) : M (W * mm) unit :=
  let! bh := read_ahead dev b in
  copy_blocks bh address.

(** ** share_page() *)

(** [for (p = &LAST_TASK ; p > &FIRST_TASK ; --p)], from [task\[n\]] on. *)
Fixpoint share_from (address : Z) (n : nat) : M (W * mm) bool :=
  match n with
  | O => ret false
  | S n' =>
      let! s := in_fs (gets (lget tl)) in
      match task_at s n with
      | None => share_from address n'
      | Some p =>
          if (current s =? n)%nat then share_from address n'
          else
            let! exec := in_fs (me executable) in
            if bool_decide (executable p <> exec) then share_from address n'
            else
              let! start := in_fs (me start_code) in
              let! r := in_mm (try_to_share address (start_code p) start) in
              if r : bool then ret true else share_from address n'
      end
  end.
Definition share_page (address : Z) : M (W * mm) bool :=
  let! exec := in_fs (me executable) in
  match exec with
  | None => ret false
  | Some i =>
      let! c := in_fs (ino i_count i) in
      if c <? 2 then ret false else share_from address (NR_TASKS - 1)
  end.

(** ** do_no_page() *)

(** [for (i=0 ; i<4 ; block++,i++) nr\[i\] = bmap(current->executable,block)] *)
Fixpoint image_blocks (fuel : nat) (n : nat) (block : Z) : M (W * mm) (list Z) :=
  match n with
  | O => ret []
  | S n' =>
      let! exec := in_fs (me executable) in
      let! x := deref exec in
      let! b := in_fs (bmap fuel x block) in
      let! nr := image_blocks fuel n' (block + 1) in
      ret (b :: nr)
  end.
(** [while (i-- > 0)], with [i] = [n] and [image_offset] = [p]. *)
Fixpoint clear_down (n : nat) (p : Z) : M mm unit :=
  match n with
  | O => ret tt
  | S n' => wr_byte (p - 1) 0 ;; clear_down n' (p - 1)
  end.

(** A page of the image, from the file. *)
Definition read_image (fuel : nat) (address image_offset : Z) : M (W * mm) unit :=
  let! page := in_mm get_free_page in
  if page =? 0 then halt (Panic "do_no_page: out of memory!")
  else
    let block := 1 + image_offset / BLOCK_SIZE in
    let! nr := image_blocks fuel 4 block in
    let! exec := in_fs (me executable) in
    let! x := deref exec in
    let! dev := in_fs (ino i_dev x) in
    bread_page page dev nr ;;
    let! end_data := in_fs (me end_data) in
    let i := s32 (image_offset + 4096 - end_data) in
    in_mm (clear_down (Z.to_nat i) (page + 4096)) ;;
    let! r := in_mm (put_page page address) in
    if truth r then ret tt else in_mm (Mem.free_page page).

Definition do_no_page (fuel : nat) (error_code address : Z) : M (W * mm) unit :=
  let address := Z.land address 0xfffff000 in
  let! start := in_fs (me start_code) in
  let image_offset := u32 (address - start) in
  let! exec := in_fs (me executable) in
  let! end_data := in_fs (me end_data) in
  if bool_decide (exec = None) || (end_data <=? image_offset) then in_mm (get_empty_page address)
  else
    let! shared := share_page image_offset in
    if shared : bool then ret tt else read_image fuel address image_offset.

(** page_fault: the error code that the processor pushed, and [%cr2]. *)
Definition page_fault (fuel : nat) (error_code cr2 : Z) : M (W * mm) unit :=
  if truth (Z.land error_code 1) then in_mm (do_wp_page error_code cr2)
  else do_no_page fuel error_code cr2.
End ops.

(** What bread_page() relies on beside class [BlockIO]: a buffer that is held
    and whose contents are there is not locked. *)
Class PagingOk (W : Type) `{!Env W, !BlockIO W, !Paging W} : Prop := {
  wait_held ps w i x : inv ps w -> i ∈ ps -> bufs (lget cl w) !! i = Some x ->
    truth (b_uptodate x) = true -> wait_on_buffer i w = Ret tt w
}.

(** ** Bytes of the memory *)

Definition byte_at (r : Z -> Z) (a : Z) : Z := getbits (r (a - a mod 4)) (8 * (a mod 4)) 8.

#[local] Ltac Zify.zify_post_hook ::= Z.div_mod_to_equations.

Lemma wr_byte_run p v s : exists r, wr_byte p v s = Ret tt (s <| ram := r |>) /\
  (forall a, byte_at r a = if a =? p then v mod 2 ^ 8 else byte_at (ram s) a) /\
  forall a, a <> p - p mod 4 -> r a = ram s a.
Proof.
  eexists. split; [reflexivity|]. split; cbn.
  - intros a. unfold byte_at. destruct (Z.eqb_spec a p) as [->|Hn].
    + rewrite Z.eqb_refl, getbits_putbits_in by lia. by rewrite Z.sub_diag, getbits_all.
    + destruct (Z.eqb_spec (a - a mod 4) (p - p mod 4)); [|done].
      rewrite getbits_putbits_out by lia. done.
  - intros a Ha. by rewrite (proj2 (Z.eqb_neq _ _)).
Qed.

Lemma clear_down_run page n : forall p s, page mod 4 = 0 -> page + Z.of_nat n <= p <= page + PAGE_SIZE ->
  exists r, clear_down n p s = Ret tt (s <| ram := r |>) /\
    (forall a, byte_at r a = if (p - Z.of_nat n <=? a) && (a <? p) then 0 else byte_at (ram s) a) /\
    forall a, a < page \/ page + PAGE_SIZE <= a -> r a = ram s a.
Proof.
  induction n as [|n IH]; intros p s Hp Hr; cbn [clear_down].
  { exists (ram s). destruct s. split; [done|]. split; [|done]. intros a.
    destruct (Z.leb_spec (p - Z.of_nat 0) a), (Z.ltb_spec a p); cbn; done || lia. }
  destruct (wr_byte_run (p - 1) 0 s) as (r1 & E1 & B1 & F1). rewrite (bind_ret _ _ _ _ _ E1).
  destruct (IH (p - 1) (s <| ram := r1 |>) Hp ltac:(lia)) as (r & E & B & F).
  exists r. split; [rewrite E; done|]. split.
  - intros a. rewrite B. cbn. rewrite B1.
    destruct (Z.leb_spec (p - 1 - Z.of_nat n) a), (Z.ltb_spec a (p - 1)),
      (Z.leb_spec (p - Z.of_nat (S n)) a), (Z.ltb_spec a p), (Z.eqb_spec a (p - 1)); cbn; try lia; done.
  - intros a Ha. rewrite F by done. apply F1. unfold PAGE_SIZE in *. lia.
Qed.

Lemma le32_byte l q k : bytes l -> (q + 4 <= length l)%nat -> 0 <= k < 4 ->
  getbits (le32 l q) (8 * k) 8 = default 0 (l !! (q + Z.to_nat k)%nat).
Proof.
  intros Hl Hq Hk. rewrite le32_lookup.
  destruct (l !! q) as [a|] eqn:Ea; [|apply lookup_ge_None in Ea; lia].
  destruct (l !! (q + 1)%nat) as [b|] eqn:Eb; [|apply lookup_ge_None in Eb; lia].
  destruct (l !! (q + 2)%nat) as [c|] eqn:Ec; [|apply lookup_ge_None in Ec; lia].
  destruct (l !! (q + 3)%nat) as [d|] eqn:Ed; [|apply lookup_ge_None in Ed; lia].
  pose proof (proj1 (Forall_lookup _ _) Hl _ _ Ea). pose proof (proj1 (Forall_lookup _ _) Hl _ _ Eb).
  pose proof (proj1 (Forall_lookup _ _) Hl _ _ Ec). pose proof (proj1 (Forall_lookup _ _) Hl _ _ Ed).
  cbn beta in *. unfold getbits. rewrite Z.shiftr_div_pow2 by lia. change (2 ^ 8) with 256 in *.
  assert (k = 0 \/ k = 1 \/ k = 2 \/ k = 3) as [->|[->|[->| ->]]] by lia.
  - change (Z.to_nat 0) with 0%nat. rewrite Nat.add_0_r, Ea. change (2 ^ (8 * 0)) with 1. cbn [default]. unfold id. lia.
  - change (Z.to_nat 1) with 1%nat. rewrite Eb. change (2 ^ (8 * 1)) with 256. cbn [default]. unfold id. lia.
  - change (Z.to_nat 2) with 2%nat. rewrite Ec. change (2 ^ (8 * 2)) with 65536. cbn [default]. unfold id. lia.
  - change (Z.to_nat 3) with 3%nat. rewrite Ed. change (2 ^ (8 * 3)) with 16777216. cbn [default]. unfold id. lia.
Qed.

(** ** The blocks of a page *)

Section pages.
Context {W : Type} `{!Env W, !Wired W, !BlockIO W, !Paging W, !PagingOk W}.

Lemma in_fs_bind {A B} (m : M W A) (k : A -> M (W * mm) B) w s a w' :
  m w = Ret a w' -> bind (in_fs m) k (w, s) = k a (w', s).
Proof. intros E. unfold bind, in_fs, zoom. cbn. by rewrite E. Qed.
Lemma in_mm_bind {A B} (m : M mm A) (k : A -> M (W * mm) B) w s a s' :
  m s = Ret a s' -> bind (in_mm m) k (w, s) = k a (w, s').
Proof. intros E. unfold bind, in_mm, zoom. cbn. by rewrite E. Qed.
(** From the equation of the operation inside a computation. *)
Lemma in_fs_run {A B} (m : M W A) (k : A -> M (W * mm) B) w s a w' :
  bind m ret w = Ret a w' -> bind (in_fs m) k (w, s) = k a (w', s).
Proof. intros E. apply in_fs_bind. unfold bind, ret in E. by destruct (m w). Qed.

(** A buffer for each block that is there, held. *)
Definition ahead (dev : Z) (w : W) (n : Z) (o : option nat) : Prop :=
  match o with None => n = 0 | Some i => n <> 0 /\ ident (lget cl w) i = Some (dev, n) end.
Definition present_block (dev : Z) (w : W) (n : Z) : Prop := n <> 0 -> exists l, data w dev n = Bytes l.

Lemma ahead_stable ps dev w w' b bh : Forall2 (ahead dev w) b bh -> omap id bh ⊆ ps ->
  stable ps w w' -> Forall2 (ahead dev w') b bh.
Proof.
  intros F Hin S. induction F as [|n o b bh Ho F IH]; constructor.
  - destruct o as [i|]; [|done]. destruct Ho as [Hn Hi]. split; [done|].
    rewrite (st_ident _ _ _ S); [done|]. apply Hin. by left.
  - apply IH. intros i Hi. apply Hin. destruct o; [by right|done].
Qed.

Lemma read_ahead_run dev b : forall ps w s,
  inv ps w -> (length ps + length b <= room)%nat -> Forall (present_block dev w) b ->
  exists bh w', read_ahead dev b (w, s) = Ret bh (w', s) /\ inv (omap id bh ++ ps) w' /\
    (forall d y, data w' d y = data w d y) /\ stable ps w w' /\ Forall2 (ahead dev w') b bh.
Proof.
  induction b as [|n b IH]; intros ps w s Hi Hl Hb; cbn [read_ahead].
  { exists [], w. by split_and!. }
  apply Forall_cons in Hb as [Hn Hb]. cbn [length] in Hl.
  assert (Hsame : forall w1, (forall d y, data w1 d y = data w d y) -> Forall (present_block dev w1) b).
  { intros w1 Hd. eapply Forall_impl; [exact Hb|]. intros z Hz H0. rewrite Hd. by apply Hz. }
  unfold truth at 1. destruct (Z.eqb_spec n 0) as [->|H0]; cbn [negb].
  - rewrite bind_ret_l. destruct (IH ps w s Hi ltac:(lia) Hb) as (bh & w' & E & Hi' & Hd & S & F).
    exists (None :: bh), w'. rewrite (bind_ret _ _ _ _ _ E). split_and!; try done. by constructor.
  - destruct (Hn H0) as [l El].
    destruct (getblk_ok ps w dev n Hi ltac:(by rewrite El) ltac:(lia)) as (i & w1 & E1 & Hp).
    destruct (pinned_holding _ _ _ _ _ _ Hp) as [x Hx]. pose proof Hp as (Hi1 & Hd1 & S1 & Hid).
    destruct (holding_bytes _ _ _ _ _ _ l Hx ltac:(by rewrite Hd1)) as [_ Hu].
    destruct (IH (i :: ps) w1 s Hi1 ltac:(cbn [length]; lia) (Hsame w1 Hd1)) as (bh & w' & E & Hi' & Hd & S & F).
    exists (Some i :: bh), w'. rewrite bind_assoc, (in_fs_bind _ _ _ _ _ _ E1), bind_assoc.
    rewrite (in_fs_run _ _ _ _ _ _ (buf_bind _ _ _ _ _ (ho_at _ _ _ _ _ _ Hx))), Hu.
    rewrite bind_assoc, !bind_ret_l, (bind_ret _ _ _ _ _ E). split_and!; [done| | | |].
    + eapply inv_perm; [|exact Hi']. cbn. symmetry. apply Permutation_middle.
    + intros. by rewrite Hd, Hd1.
    + eapply stable_trans; [exact S1|]. eapply stable_sub; [|exact S]. by intros j ?; right.
    + constructor; [|done]. split; [done|]. rewrite (st_ident _ _ _ S); [done|by left].
Qed.

(** The words of the blocks [b], from [to] on. *)
Definition filled (dev : Z) (w : W) (b : list Z) (to : Z) (r : Z -> Z) (a : Z) : Z :=
  match (if a <? to then None else b !! Z.to_nat ((a - to) / BLOCK_SIZE)) with
  | Some n =>
      if n =? 0 then r a else
      match data w dev n with Bytes l => le32 l (Z.to_nat ((a - to) mod BLOCK_SIZE)) | _ => r a end
  | None => r a
  end.

Lemma filled_same dev w w' b to r a : (forall d y, data w' d y = data w d y) ->
  filled dev w' b to r a = filled dev w b to r a.
Proof.
  intros Hd. unfold filled. destruct (if a <? to then _ else _) as [n|]; [|done]. by rewrite Hd.
Qed.
Lemma filled_cons dev w n b to r r1 a :
  (forall a, r1 a = filled dev w [n] to r a) ->
  filled dev w b (to + BLOCK_SIZE) r1 a = filled dev w (n :: b) to r a.
Proof.
  intros Hr. unfold filled in *. unfold BLOCK_SIZE in *.
  destruct (Z.ltb_spec a (to + 1024)).
  - rewrite Hr. destruct (Z.ltb_spec a to); [done|].
    by replace ((a - to) / 1024) with 0 by lia.
  - destruct (Z.ltb_spec a to); [lia|].
    replace (Z.to_nat ((a - to) / 1024)) with (S (Z.to_nat ((a - (to + 1024)) / 1024))) by lia.
    replace ((a - to) mod 1024) with ((a - (to + 1024)) mod 1024) by lia. cbn [lookup list_lookup].
    assert (E : r1 a = r a).
    { rewrite Hr. destruct (Z.ltb_spec a to); [done|].
      by replace (Z.to_nat ((a - to) / 1024)) with (S (Z.to_nat ((a - (to + 1024)) / 1024))) by lia. }
    by rewrite E.
Qed.

Lemma copy_blocks_run dev bh : forall b ps w s to,
  inv (omap id bh ++ ps) w -> Forall2 (ahead dev w) b bh -> Forall (present_block dev w) b ->
  exists w' r, copy_blocks bh to (w, s) = Ret tt (w', s <| ram := r |>) /\ inv ps w' /\
    (forall d y, data w' d y = data w d y) /\ stable ps w w' /\
    forall a, r a = filled dev w b to (ram s) a.
Proof.
  induction bh as [|o bh IH]; intros b ps w s to Hi F Hb; cbn [copy_blocks].
  { apply Forall2_nil_inv_r in F as ->. exists w, (ram s). destruct s. split_and!; try done.
    intros a. unfold filled. by destruct (a <? to). }
  apply Forall2_cons_inv_r in F as (n & b' & Hn & F & ->). apply Forall_cons in Hb as [Hp Hb].
  assert (Hone : exists w1 r1, match o with
      | None => ret tt
      | Some h => in_fs (wait_on_buffer h) ;; let! u := in_fs (buf b_uptodate h) in
          (if truth u then let! l := in_fs (buf b_bytes h) in in_mm (COPYBLK l to) else ret tt) ;;
          in_fs (brelse (Some h))
      end (w, s) = Ret tt (w1, s <| ram := r1 |>) /\ inv (omap id bh ++ ps) w1 /\
      (forall d y, data w1 d y = data w d y) /\ stable (omap id bh ++ ps) w w1 /\
      forall a, r1 a = filled dev w [n] to (ram s) a).
  { destruct o as [h|].
    - destruct Hn as [H0 Hid]. destruct (Hp H0) as [l El].
      change (inv (h :: omap id bh ++ ps) w) in Hi.
      destruct (holding_intro (h :: omap id bh ++ ps) w h dev n Hi ltac:(by left) Hid) as [x Hx].
      destruct (holding_bytes _ _ _ _ _ _ l Hx El) as [<- Hu]. pose proof (ho_at _ _ _ _ _ _ Hx) as B.
      destruct (brelse_ok _ _ _ Hi) as (w1 & E1 & Hi1 & Hd1 & S1).
      exists w1. eexists. split_and!; [|done..|].
      + rewrite (in_fs_bind _ _ _ _ _ _ (wait_held _ _ _ _ Hi ltac:(by left) B Hu)).
        rewrite (in_fs_run _ _ _ _ _ _ (buf_bind _ _ _ _ _ B)), Hu, bind_assoc.
        rewrite (in_fs_run _ _ _ _ _ _ (buf_bind _ _ _ _ _ B)).
        rewrite (in_mm_bind (COPYBLK (b_bytes x) to) _ _ _ tt _ eq_refl).
        unfold in_fs, zoom. cbn [lget lset fst_l fst]. rewrite E1. reflexivity.
      + intros a. unfold filled, BLOCK_SIZE. cbn.
        destruct (Z.ltb_spec a to), (Z.leb_spec to a); try lia; cbn [andb]; [done|].
        destruct (Z.ltb_spec a (to + 1024)).
        * replace (Z.to_nat ((a - to) / 1024)) with 0%nat by lia. cbn.
          rewrite (proj2 (Z.eqb_neq n 0)), El by done. by rewrite Z.mod_small by lia.
        * by replace (Z.to_nat ((a - to) / 1024)) with (S (Z.to_nat ((a - to) / 1024 - 1))) by lia.
    - exists w, (ram s). cbn in Hn. subst n. destruct s. split_and!; try done.
      intros a. unfold filled. destruct (a <? to); [done|]. by destruct (Z.to_nat _). }
  destruct Hone as (w1 & r1 & E1 & Hi1 & Hd1 & S1 & Hr1). rewrite (bind_ret _ _ _ _ _ E1).
  destruct (IH b' ps w1 (s <| ram := r1 |>) (to + BLOCK_SIZE)) as (w' & r & E & Hi' & Hd & S & Hr).
  - done.
  - eapply ahead_stable; [exact F| |exact S1]. by intros j ?; apply elem_of_app; left.
  - eapply Forall_impl; [exact Hb|]. intros z Hz H0. rewrite Hd1. by apply Hz.
  - exists w', r. rewrite E. split_and!; [done|done|by intros; rewrite Hd, Hd1| |].
    + eapply stable_trans; [|exact S]. eapply stable_sub; [|exact S1]. by intros j ?; apply elem_of_app; right.
    + intros a. rewrite Hr. rewrite <-(filled_cons dev w n b' to (ram s) r1 a Hr1). by apply filled_same.
Qed.

(** ** share_page() *)

(** The task that share_page() finds: not the current one, with the same
    program, and with the page at [off] to share. *)
Definition donates (t p : task_struct) (s : mm) (off : Z) : bool :=
  bool_decide (executable p = executable t) && sharable s (u32 (start_code p + off)).
Fixpoint donor (sc : sched) (t : task_struct) (s : mm) (off : Z) (n : nat) : option task_struct :=
  match n with
  | O => None
  | S n' =>
      match task_at sc n with
      | Some p => if negb (current sc =? n)%nat && donates t p s off then Some p else donor sc t s off n'
      | None => donor sc t s off n'
      end
  end.

Lemma share_step n off w s t : mine w = Some t ->
  share_from off (S n) (w, s) =
    match task_at (lget tl w) (S n) with
    | None => share_from off n (w, s)
    | Some p =>
        if (current (lget tl w) =? S n)%nat then share_from off n (w, s)
        else if bool_decide (executable p <> executable t) then share_from off n (w, s)
        else bind (in_mm (try_to_share off (start_code p) (start_code t)))
          (fun r : bool => if r then ret true else share_from off n) (w, s)
    end.
Proof.
  intros E. cbn [share_from].
  rewrite (in_fs_bind (gets (lget tl)) _ w s (lget tl w) w eq_refl).
  destruct (task_at _ (S n)) as [p|]; [|done]. destruct (_ =? S n)%nat; [done|].
  rewrite (in_fs_run _ _ _ _ _ _ (me_bind executable ret _ _ E)).
  destruct (bool_decide _); [done|]. by rewrite (in_fs_run _ _ _ _ _ _ (me_bind start_code ret _ _ E)).
Qed.

Lemma share_from_run n off w s t : mine w = Some t ->
  match donor (lget tl w) t s off n with
  | None => share_from off n (w, s) = Ret false (w, s)
  | Some p => forall s', try_to_share off (start_code p) (start_code t) s = Ret true s' ->
      share_from off n (w, s) = Ret true (w, s')
  end.
Proof.
  intros E. induction n as [|n IH]; [done|]. cbn [donor]. rewrite (share_step _ _ _ _ _ E).
  destruct (task_at _ (S n)) as [p|]; [|done].
  destruct (current (lget tl w) =? S n)%nat; cbn [negb andb]; [done|].
  unfold donates. case_bool_decide as Hx; cbn [andb].
  2:{ by rewrite (bool_decide_eq_true_2 _ Hx). }
  rewrite bool_decide_eq_false_2 by (intros H; by apply H).
  destruct (sharable s (u32 (start_code p + off))) eqn:Es.
  - intros s' Hr. by rewrite (in_mm_bind _ _ _ _ _ _ Hr).
  - by rewrite (in_mm_bind _ _ _ _ _ _ (try_to_share_no s off (start_code p) (start_code t) Es)).
Qed.
Lemma donor_sharable sc t s off n p :
  donor sc t s off n = Some p -> sharable s (u32 (start_code p + off)) = true.
Proof.
  induction n as [|n IH]; cbn [donor]; [done|]. destruct (task_at sc (S n)) as [q|]; [|done].
  destruct (_ && _) eqn:Ed; [|done]. intros [= ->].
  apply andb_prop in Ed as [_ Ed]. by apply andb_prop in Ed as [_ Ed].
Qed.

(** share_page() asks only when the inode of the program has two users. *)
Definition source (w : W) (t : task_struct) (s : mm) (off : Z) : option task_struct :=
  match executable t ≫= fun i => itable w !! i with
  | Some x => if i_count x <? 2 then None else donor (lget tl w) t s off (NR_TASKS - 1)
  | None => None
  end.
Lemma share_page_run off w s t i x : mine w = Some t -> executable t = Some i -> itable w !! i = Some x ->
  match source w t s off with
  | None => share_page off (w, s) = Ret false (w, s)
  | Some p => sharable s (u32 (start_code p + off)) = true /\
      forall s', try_to_share off (start_code p) (start_code t) s = Ret true s' ->
        share_page off (w, s) = Ret true (w, s')
  end.
Proof.
  intros E Ei Ex. unfold source, share_page. rewrite Ei. cbn [mbind option_bind]. rewrite Ex.
  rewrite (in_fs_run _ _ _ _ _ _ (me_bind executable ret _ _ E)), Ei.
  rewrite (in_fs_run _ _ _ _ _ _ (ino_bind i_count i ret _ _ Ex)).
  destruct (i_count x <? 2); [done|].
  pose proof (share_from_run (NR_TASKS - 1) off w s t E) as H.
  destruct (donor _ _ _ _ _) as [p|] eqn:Ed; [|done]. split; [|done]. by eapply donor_sharable.
Qed.
(** ** A page of the image *)

Lemma same_blocks dev w w' x : (forall d y, data w' d y = data w d y) ->
  (forall b, file_block dev w' x b = file_block dev w x b) /\
  (index_ok dev w x -> index_ok dev w' x).
Proof.
  intros Hd. assert (He : forall b k, ientry dev w' b k = ientry dev w b k).
  { intros b k. unfold ientry. by rewrite Hd. }
  split.
  - intros b. unfold file_block. by rewrite !He.
  - intros (H7 & H8 & H9). split_and!; try (intros H0; rewrite Hd; auto).
    intros k Hk. rewrite He. intros H0. rewrite Hd. by apply H9.
Qed.
Lemma mine_stable ps w w' t : stable ps w w' -> mine w = Some t -> mine w' = Some t.
Proof. intros [_ T _] E. unfold mine in *. by rewrite T. Qed.

(** The program of the current task [t] is inode [i], which is [x], with [n]
    blocks from [block] on that can be read. *)
Record program (ps : list nat) (w : W) (t : task_struct) (i : nat) (x : m_inode) : Prop := {
  pr_inv : inv ps w;
  pr_room : (length ps + 4 <= room)%nat;
  pr_mine : mine w = Some t;
  pr_exec : executable t = Some i;
  pr_inode : itable w !! i = Some x;
  pr_width : in_width x;
  pr_index : index_ok (i_dev x) w x
}.
Lemma program_stable ps w w' t i x : program ps w t i x -> inv ps w' -> stable ps w w' ->
  (forall d y, data w' d y = data w d y) -> program ps w' t i x.
Proof.
  intros [H1 H2 H3 H4 H5 H6 H7] Hi S Hd. split; try done; [by eapply mine_stable| |].
  - by rewrite (stable_itable _ _ _ S).
  - by apply (same_blocks (i_dev x) w).
Qed.

Lemma image_blocks_run fuel n : forall ps w s t i x block,
  program ps w t i x -> 0 <= block -> block + Z.of_nat n <= max_block ->
  exists w', image_blocks fuel n block (w, s) =
      Ret ((fun k => file_block (i_dev x) w x (block + k)) <$> seqZ 0 (Z.of_nat n)) (w', s) /\
    program ps w' t i x /\ stable ps w w' /\ forall d y, data w' d y = data w d y.
Proof.
  induction n as [|n IH]; intros ps w s t i x block P Hb Hm; cbn [image_blocks].
  { exists w. by split_and!. }
  rewrite (in_fs_run _ _ _ _ _ _ (me_bind executable ret _ _ (pr_mine _ _ _ _ _ P))).
  rewrite (bind_deref _ _ _ _ (pr_exec _ _ _ _ _ P)).
  destruct (bmap_run (i_dev x) fuel ps w i x block (pr_inv _ _ _ _ _ P)) as (w1 & E1 & Hi1 & S1 & Hd1);
    try apply P; try done; [pose proof (pr_room _ _ _ _ _ P); lia|lia|].
  rewrite (in_fs_bind _ _ _ _ _ _ E1). pose proof (program_stable _ _ _ _ _ _ P Hi1 S1 Hd1) as P1.
  destruct (IH ps w1 s t i x (block + 1) P1) as (w' & E & P' & S' & Hd'); [lia..|].
  exists w'. rewrite (bind_ret _ _ _ _ _ E). split_and!; [|done|by eapply stable_trans|by intros; rewrite Hd', Hd1].
  unfold ret. do 2 f_equal. rewrite Nat2Z.inj_succ, (seqZ_cons 0 (Z.succ (Z.of_nat n))) by lia. cbn [fmap list_fmap].
  f_equal; [f_equal; lia|]. replace (Z.pred (Z.succ (Z.of_nat n))) with (Z.of_nat n) by lia.
  change (Z.succ 0) with 1. rewrite <-(fmap_add_seqZ 1 0), <-list_fmap_compose.
  apply list_fmap_ext. intros _ k _. cbn. rewrite (proj1 (same_blocks _ _ _ x Hd1)). f_equal. lia.
Qed.

(** Byte [k] of the file; holes are zeros. *)
Definition image_byte (w : W) (x : m_inode) (k : Z) : Z :=
  let b := file_block (i_dev x) w x (k / BLOCK_SIZE) in
  if b =? 0 then 0 else
  match data w (i_dev x) b with Bytes l => default 0 (l !! Z.to_nat (k mod BLOCK_SIZE)) | _ => 0 end.

Lemma bread_page_run dev b ps w s page :
  inv ps w -> (length ps + length b <= room)%nat -> Forall (present_block dev w) b ->
  exists w' r, bread_page page dev b (w, s) = Ret tt (w', s <| ram := r |>) /\ inv ps w' /\
    (forall d y, data w' d y = data w d y) /\ stable ps w w' /\
    forall a, r a = filled dev w b page (ram s) a.
Proof.
  intros Hi Hl Hb. destruct (read_ahead_run dev b ps w s Hi Hl Hb) as (bh & w1 & E1 & Hi1 & Hd1 & S1 & F).
  destruct (copy_blocks_run dev bh b ps w1 s page Hi1 F) as (w' & r & E & Hi' & Hd' & S' & Hr).
  { eapply Forall_impl; [exact Hb|]. intros n Hn H0. rewrite Hd1. by apply Hn. }
  exists w', r. unfold bread_page. rewrite (bind_ret _ _ _ _ _ E1). split_and!; try done.
  - intros. by rewrite Hd', Hd1.
  - by eapply stable_trans.
  - intros a. rewrite Hr. by apply filled_same.
Qed.

(** The bytes that the blocks leave in a page of zeros. *)
Lemma filled_bytes ps w x block page r j : inv ps w -> page mod 4 = 0 ->
  (forall k, 0 <= k < 4 -> present_block (i_dev x) w (file_block (i_dev x) w x (block + k))) ->
  (forall a, page <= a < page + PAGE_SIZE -> r a = 0) -> 0 <= block -> 0 <= j < PAGE_SIZE ->
  byte_at (filled (i_dev x) w ((fun k => file_block (i_dev x) w x (block + k)) <$> seqZ 0 4) page r) (page + j) =
    image_byte w x (block * BLOCK_SIZE + j).
Proof.
  intros Hi Hp Hb Hz Hbl Hj. unfold byte_at, filled, image_byte, BLOCK_SIZE, PAGE_SIZE in *.
  replace ((page + j) mod 4) with (j mod 4) by lia.
  replace (page + j - j mod 4) with (page + (j - j mod 4)) by lia.
  destruct (Z.ltb_spec (page + (j - j mod 4)) page); [lia|].
  replace (page + (j - j mod 4) - page) with (j - j mod 4) by lia.
  assert (Hq : (j - j mod 4) / 1024 = j / 1024) by lia. rewrite Hq.
  assert (Hq4 : 0 <= j / 1024 < 4) by lia.
  rewrite list_lookup_fmap, lookup_seqZ_lt by lia. cbn [fmap option_fmap option_map].
  replace (0 + Z.of_nat (Z.to_nat (j / 1024))) with (j / 1024) by lia.
  replace ((block * 1024 + j) / 1024) with (block + j / 1024) by lia.
  replace ((block * 1024 + j) mod 1024) with (j mod 1024) by lia.
  set (n := file_block _ _ _ _). destruct (Z.eqb_spec n 0) as [H0|H0].
  - rewrite Hz by lia. unfold getbits. by rewrite Z.shiftr_0_l.
  - destruct (Hb (j / 1024) ltac:(lia) H0) as [l El]. fold n in El. rewrite El.
    destruct (data_shape _ _ _ _ _ Hi El) as [Hl Hby]. change (Z.to_nat Buffer.BLOCK_SIZE) with 1024%nat in Hl.
    rewrite le32_byte by (try done; lia). do 2 f_equal. lia.
Qed.
(** ** do_no_page() *)

(** The contents of the page at offset [off] of the program [x]: after the
    block of the header, the file up to [end_data], then zeros. *)
Definition image_page (w : W) (x : m_inode) (t : task_struct) (off j : Z) : Z :=
  if off + j <? end_data t then image_byte w x (BLOCK_SIZE + off + j) else 0.

(** The four blocks of the page can be read. *)
Record readable_page (w : W) (x : m_inode) (t : task_struct) (off : Z) : Prop := {
  rp_off : 0 <= off < end_data t;
  rp_end : end_data t < 2 ^ 31;
  rp_page : off mod PAGE_SIZE = 0;
  rp_max : 5 + off / BLOCK_SIZE <= max_block;
  rp_blocks : forall k, 0 <= k < 4 ->
    present_block (i_dev x) w (file_block (i_dev x) w x (1 + off / BLOCK_SIZE + k))
}.

Lemma read_image_run fuel ps w s t i x v off :
  program ps w t i x -> demand s v -> readable_page w x t off ->
  exists nr w' s' f, read_image fuel v off (w, s) = Ret tt (w', s') /\ new_page s s' nr v f /\
    (forall j, 0 <= j < PAGE_SIZE -> byte_at (ram s') (page_addr nr + j) = image_page w x t off j) /\
    inv ps w' /\ stable ps w w' /\ forall d y, data w' d y = data w d y.
Proof.
  intros P D [Ho He Hpg Hm Hb].
  destruct (get_free_page_runs s (de_wf _ _ D) (demand_free _ _ D)) as (nr & s1 & E1 & G).
  pose proof (got_taken _ _ _ G) as T1. pose proof (tk_page _ _ _ T1) as Hnr.
  pose proof (page_addr_range nr Hnr) as Hr.
  assert (Hp4 : page_addr nr mod 4 = 0) by (unfold page_addr, LOW_MEM, PAGE_SIZE; lia).
  destruct (image_blocks_run fuel 4 ps w s1 t i x (1 + off / BLOCK_SIZE) P) as (w1 & E2 & P1 & S1 & Hd1);
    [unfold BLOCK_SIZE; lia|lia|].
  set (b := (fun k => file_block (i_dev x) w x (1 + off / BLOCK_SIZE + k)) <$> seqZ 0 4) in *.
  assert (Hb1 : Forall (present_block (i_dev x) w1) b).
  { apply Forall_fmap, Forall_forall. intros k Hk%elem_of_seqZ H0. rewrite Hd1. apply Hb; [lia|done]. }
  destruct (bread_page_run (i_dev x) b ps w1 s1 (page_addr nr) (pr_inv _ _ _ _ _ P1)) as
    (w2 & r1 & E3 & Hi2 & Hd2 & S2 & Hr1); [apply P1|done|].
  pose proof (program_stable _ _ _ _ _ _ P1 Hi2 S2 Hd2) as P2.
  assert (Hi : s32 (off + 4096 - end_data t) = off + 4096 - end_data t) by (apply s32_small; lia).
  destruct (clear_down_run (page_addr nr) (Z.to_nat (off + 4096 - end_data t)) (page_addr nr + 4096)
    (s1 <| ram := r1 |>) Hp4) as (r2 & E4 & B2 & F2); [unfold PAGE_SIZE; lia|].
  assert (T : taken s (s1 <| ram := r2 |>) nr).
  { apply taken_fill; [done|]. intros a Ha. rewrite F2 by done. cbn. rewrite Hr1. unfold filled.
    destruct (Z.ltb_spec a (page_addr nr)); [done|]. unfold b. rewrite list_lookup_fmap.
    rewrite lookup_seqZ_ge; [done|]. unfold BLOCK_SIZE, PAGE_SIZE in *. lia. }
  destruct (put_new_page s _ nr v T D) as (s' & E5 & N).
  exists nr, w2, s'. eexists. split; [|split; [exact N|split; [|split_and!]]].
  - unfold read_image. rewrite (in_mm_bind _ _ _ _ _ _ E1).
    rewrite (proj2 (Z.eqb_neq _ _)) by (unfold LOW_MEM in *; lia).
    rewrite (bind_ret _ _ _ _ _ E2). rewrite (in_fs_run _ _ _ _ _ _ (me_bind executable ret _ _ (pr_mine _ _ _ _ _ P1))).
    rewrite (bind_deref _ _ _ _ (pr_exec _ _ _ _ _ P1)).
    rewrite (in_fs_run _ _ _ _ _ _ (ino_bind i_dev i ret _ _ (pr_inode _ _ _ _ _ P1))).
    rewrite (bind_ret _ _ _ _ _ E3), (in_fs_run _ _ _ _ _ _ (me_bind end_data ret _ _ (pr_mine _ _ _ _ _ P2))), Hi.
    rewrite (in_mm_bind _ _ _ _ _ _ E4). rewrite (in_mm_bind _ _ _ _ _ _ E5). unfold truth.
    by rewrite (proj2 (Z.eqb_neq _ _)) by (unfold LOW_MEM in *; lia).
  - intros j Hj.
    assert (Hw : byte_at (ram s') (page_addr nr + j) = byte_at r2 (page_addr nr + j)).
    { unfold byte_at. replace (page_addr nr + j - (page_addr nr + j) mod 4) with (page_addr nr + (j - j mod 4)) by lia.
      by rewrite (np_words _ _ _ _ _ N) by (unfold PAGE_SIZE in *; lia). }
    rewrite Hw, B2. unfold image_page. unfold PAGE_SIZE in *.
    assert (Hc : (page_addr nr + 4096 - Z.of_nat (Z.to_nat (off + 4096 - end_data t)) <=? page_addr nr + j)
      && (page_addr nr + j <? page_addr nr + 4096) = negb (off + j <? end_data t)).
    { destruct (Z.ltb_spec (off + j) (end_data t)), (Z.leb_spec (page_addr nr + 4096 -
        Z.of_nat (Z.to_nat (off + 4096 - end_data t))) (page_addr nr + j)),
        (Z.ltb_spec (page_addr nr + j) (page_addr nr + 4096)); cbn; lia. }
    rewrite Hc. destruct (off + j <? end_data t); cbn [negb]; [|done]. cbn [upd ram eta_mm].
    assert (Hf : byte_at r1 (page_addr nr + j) =
      byte_at (filled (i_dev x) w b (page_addr nr) (ram s1)) (page_addr nr + j)).
    { unfold byte_at. by rewrite Hr1, (filled_same _ _ _ _ _ _ _ Hd1). }
    rewrite Hf. unfold b. rewrite (filled_bytes ps w x (1 + off / BLOCK_SIZE)); try done.
    + f_equal. unfold BLOCK_SIZE. lia.
    + apply P.
    + intros a Ha. rewrite (gp_ram _ _ _ G). apply decide_True. done.
    + unfold BLOCK_SIZE. lia.
  - done.
  - by eapply stable_trans.
  - intros. by rewrite Hd2, Hd1.
Qed.
Lemma page_of_range address : 0 <= address < 2 ^ 32 -> 0 <= Z.land address 0xfffff000 < 2 ^ 32.
Proof. intros H. by apply land_range. Qed.

Lemma do_no_page_head fuel e address w s t : mine w = Some t ->
  let v := Z.land address 0xfffff000 in
  let off := u32 (v - start_code t) in
  do_no_page fuel e address (w, s) =
    if bool_decide (executable t = None) || (end_data t <=? off) then in_mm (get_empty_page v) (w, s)
    else bind (share_page off) (fun shared : bool => if shared then ret tt else read_image fuel v off) (w, s).
Proof.
  intros E v off. unfold do_no_page. cbv zeta. fold v.
  rewrite (in_fs_run _ _ _ _ _ _ (me_bind start_code ret _ _ E)).
  rewrite (in_fs_run _ _ _ _ _ _ (me_bind executable ret _ _ E)).
  rewrite (in_fs_run _ _ _ _ _ _ (me_bind end_data ret _ _ E)). fold off.
  by destruct (_ || _).
Qed.

Lemma do_no_page_empty fuel e address w s t : mine w = Some t ->
  let v := Z.land address 0xfffff000 in
  (executable t = None \/ end_data t <= u32 (v - start_code t)) -> demand s v ->
  exists nr s', do_no_page fuel e address (w, s) = Ret tt (w, s') /\ new_page s s' nr v (fun _ => 0).
Proof.
  intros E v Hn D. destruct (get_empty_page_run s v D) as (nr & s' & Eg & N). exists nr, s'. split; [|done].
  rewrite (do_no_page_head _ _ _ _ _ _ E). fold v.
  assert (bool_decide (executable t = None) || (end_data t <=? u32 (v - start_code t)) = true) as ->.
  { destruct Hn as [Hn|Hn]; [by rewrite bool_decide_eq_true_2|].
    by rewrite (proj2 (Z.leb_le _ _)), orb_true_r. }
  unfold in_mm, zoom. cbn. by rewrite Eg.
Qed.

Lemma do_no_page_image fuel e address w s t i x : mine w = Some t ->
  let v := Z.land address 0xfffff000 in
  let off := u32 (v - start_code t) in
  executable t = Some i -> itable w !! i = Some x -> off < end_data t -> 0 <= address < 2 ^ 32 ->
  match source w t s off with
  | Some p => forall nr, donor_ok s (u32 (start_code p + off)) v nr ->
      has_table s v && present (ram s (tslot s v)) = false ->
      exists s', do_no_page fuel e address (w, s) = Ret tt (w, s') /\
        shares s s' (u32 (start_code p + off)) v nr
  | None => do_no_page fuel e address (w, s) = read_image fuel v off (w, s)
  end.
Proof.
  intros E v off Ei Ex Ho Ha. pose proof (share_page_run off w s t i x E Ei Ex) as Hs.
  assert (Hh : do_no_page fuel e address (w, s) =
    bind (share_page off) (fun shared : bool => if shared then ret tt else read_image fuel v off) (w, s)).
  { rewrite (do_no_page_head _ _ _ _ _ _ E). fold v off. rewrite Ei. cbn [bool_decide]. 
    rewrite bool_decide_eq_false_2 by done. by rewrite (proj2 (Z.leb_gt _ _)). }
  assert (Ev : u32 (start_code t + off) = v).
  { unfold off, u32. rewrite Zplus_mod_idemp_r. replace (start_code t + (v - start_code t)) with v by lia.
    apply Z.mod_small, page_of_range, Ha. }
  destruct (source w t s off) as [p|]; [|by rewrite Hh, (bind_ret _ _ _ _ _ Hs)].
  destruct Hs as [Hsh Hs]. intros nr D Hno. rewrite <-Ev in D, Hno |- *.
  destruct (proj2 (try_to_share_yes s off (start_code p) (start_code t) nr Hsh D) Hno) as (s' & Et & Sh).
  exists s'. split; [|done]. by rewrite Hh, (bind_ret _ _ _ _ _ (Hs s' Et)).
Qed.
End pages.

(** ** The warm cache *)

#[export] Instance warm_paging : Paging Warm.world := {
  ll_rw_block _ _ := halt Blocked;
  wait_on_buffer bh := Buffer.wait_on_buffer Warm.wcl Warm.asleep 1 bh
}.
#[export] Instance warm_paging_ok : PagingOk Warm.world.
Proof.
  split. intros ps w i x Hw _ B _.
  destruct (proj1 (Forall_lookup _ _) (Warm.wm_blocks _ _ Hw) _ _ B) as (Hl & _).
  change (Buffer.wait_on_buffer Warm.wcl Warm.asleep 1 i w = Ret tt w). cbn [Buffer.wait_on_buffer].
  rewrite (fld_zoom Warm.wcl b_lock i _ w x B), Hl. done.
Qed.

(** ** The theorem *)

(** C7.  do_no_page(), for the page [v] of the faulting address.  Without a
    program, or beyond its end, a page of zeros is put at [v].  When another
    task runs the same program and has the page clean, that page is shared,
    write-protected in both tasks.  Otherwise a free page is filled from the
    file (its block after the header, and the three next ones, found by
    bmap() and copied from the buffer cache), zeros follow after [end_data],
    and it is put at [v].  In all cases the walk of the processor finds the
    page at [v] afterwards, no memory or count in use has changed but the
    entries for [v], and the files are as they were. *)
Theorem do_no_page_spec {W} `{!Env W, !Wired W, !BlockIO W, !Paging W, !PagingOk W}
    fuel ps (w : W) s t e address :
  mine w = Some t -> 0 <= address < 2 ^ 32 ->
  let v := Z.land address 0xfffff000 in
  let off := u32 (v - start_code t) in
  (executable t = None \/ end_data t <= off -> demand s v ->
     exists nr s', do_no_page fuel e address (w, s) = Ret tt (w, s') /\ new_page s s' nr v (fun _ => 0)) /\
  forall i x, executable t = Some i -> itable w !! i = Some x -> off < end_data t ->
    (forall p nr, source w t s off = Some p -> donor_ok s (u32 (start_code p + off)) v nr ->
       has_table s v && present (ram s (tslot s v)) = false ->
       exists s', do_no_page fuel e address (w, s) = Ret tt (w, s') /\
         shares s s' (u32 (start_code p + off)) v nr) /\
    (source w t s off = None -> program ps w t i x -> demand s v -> readable_page w x t off ->
       exists nr w' s' f, do_no_page fuel e address (w, s) = Ret tt (w', s') /\ new_page s s' nr v f /\
         (forall j, 0 <= j < PAGE_SIZE -> byte_at (ram s') (page_addr nr + j) = image_page w x t off j) /\
         inv ps w' /\ stable ps w w' /\ forall d y, data w' d y = data w d y).
Proof.
  intros E Ha v off. split; [by apply do_no_page_empty|]. intros i x Ei Ex Ho.
  pose proof (do_no_page_image fuel e address w s t i x E Ei Ex Ho Ha) as H. fold v off in H.
  split; [intros p nr Hs; rewrite Hs in H; apply H|]. intros Hs P D R. rewrite Hs in H.
  rewrite H. by apply (read_image_run fuel ps w s t i x v off).
Qed.

(** A process that runs the file of the sample: page 1 of the image is in the
    blocks 5 to 8, of which block 7 is zone 8 and the others are holes. *)
Definition task2 : task_struct := task0 <| executable := Some 1%nat |> <| end_data := 7000 |>.
Definition world2 : Warm.world := lset tl (Sched [Some task2; Some task2] 1 2) world0.
Lemma program2 : program held0 world2 task2 1 file0.
Proof.
  split; try reflexivity.
  - apply inv_tl. exact world0_warm.
  - apply Nat.leb_le. vm_compute. reflexivity.
  - by apply small_width.
  - apply (same_blocks (i_dev file0) world0); [intros; apply data_tl|].
    apply (file_index_ok dev0 super0). exact file_ok0.
Qed.

Lemma source2 : source world2 task2 demo_parent 0x1000 = None.
Proof. vm_compute. reflexivity. Qed.
Lemma demand2 : demand demo_parent 0x1000.
Proof.
  split; try reflexivity.
  - exact demo_parent_wf.
  - split; [discriminate|reflexivity].
  - apply low_safe. reflexivity.
  - intros _. split; [apply low_safe; reflexivity|discriminate].
  - exact demo_parent_free.
Qed.
Lemma readable2 : readable_page world2 file0 task2 0x1000.
Proof.
  split; try reflexivity.
  - split; [discriminate|reflexivity].
  - discriminate.
  - intros k Hk. assert (k = 0 \/ k = 1 \/ k = 2 \/ k = 3) as Hc by lia.
    destruct Hc as [->|[->|[->| ->]]]; intros H0; try (exfalso; apply H0; reflexivity).
    eexists. vm_compute. reflexivity.
Qed.

Lemma do_no_page_spec_witness :
  exists nr w' s', do_no_page 0 4 0x1234 (world2, demo_parent) = Ret tt (w', s') /\
    translate s' 0x1800 = Some (page_addr nr + 0x800) /\
    byte_at (ram s') (page_addr nr + 0x800) = 111.
Proof.
  pose proof (do_no_page_spec 0 held0 world2 demo_parent task2 4 0x1234 eq_refl) as H.
  specialize (H ltac:(split; [discriminate|reflexivity])). apply proj2 in H.
  specialize (H 1%nat file0 eq_refl eq_refl eq_refl). apply proj2 in H.
  specialize (H source2 program2 demand2 readable2).
  destruct H as (nr & w' & s' & f & E & N & Hb & _).
  exists nr, w', s'. split; [exact E|]. split.
  - exact (np_walk _ _ _ _ _ N 0x800 ltac:(unfold PAGE_SIZE; lia)).
  - rewrite Hb by (unfold PAGE_SIZE; lia). vm_compute. reflexivity.
Defined.
