(* ===== verification/Boot.v ===== *)
(** * The boot loader: bootloader/x86/hdisk/main.c and bootloader/x86/fs/

    The second stage runs without the kernel: it reads the super block, looks
    up "/kernel.bin" in the file system of its partition and copies the file
    to 8M.  The state is the memory, by bytes, and the pointer [super]; the
    contents of the partition, by bytes, are the parameter [disk].  A [char *]
    into the path is the rest of the string. *)

From S2P Require Import Prelude Task Sched WaitQ Lib Buffer Blk Hd Fs Blocks Super Mini Bitmap Inode Bmap Trunc Namei.

Record loader := Loader { mem : Z -> Z; super : Z }.
#[export] Instance eta_loader : Eta loader := fun s => Loader (mem s) (super s).

Definition KERNEL_START_ADDRESS : Z := 0x800000.
Definition ZONES_PER_BLOCK : nat := 512.

Definition ld16 (a : Z) : M loader Z := gets (fun s => at16 (mem s) a).
Definition ld32 (a : Z) : M loader Z := gets (fun s => at32 (mem s) a).

Section loader.
Context (disk : Z -> Z).

(** read_blocks() of hdloader.S reads [256 << counts] words, which is the
    number of words of the sectors it asked for when [counts] is 1 or 2; what
    the drive delivers beyond them is not defined. *)
Definition read_blocks (block_idx counts buffer : Z) : M loader unit :=
  let words := Z.shiftl 256 (Z.land counts 31) in
  if words =? 512 * counts then
    modify (fun s => s <| mem ::= fun r a =>
      if (buffer <=? a) && (a <? buffer + 2 * words) then disk (block_idx * BLOCK_SIZE + (a - buffer))
      else r a |>)
  else halt Fault.

Definition get_super (dev : Z) : M loader Z :=
  read_blocks 1 1 0x100000 ;; ret 0x100000.

Definition get_inode (ino : Z) : M loader Z :=
  let block_idx := ino / INODES_PER_BLOCK in
  let ino := ino mod INODES_PER_BLOCK in
  let! p := gets super in
  let! imap := ld16 (p + 4) in
  let! zmap := ld16 (p + 6) in
  let block := 2 + imap + zmap + block_idx in
  read_blocks block 1 0x200000 ;;
  ret (u32 (0x200000 + 32 * u32 (ino - 1))).

(** [inode->i_zone\[i\]] *)
Definition d_zone (inode i : Z) : M loader Z := ld16 (inode + 14 + 2 * i).

(** ** path_lookup() *)

(** [while ( *path == '/') path++] *)
Fixpoint skip (path : list Z) : list Z :=
  match path with
  | c :: path' => if c =? slash then skip path' else path
  | [] => []
  end.
(** [while ( *path != '/' && *path != 0) { path++; len++; }] *)
Fixpoint next_part (path : list Z) (len : Z) : list Z * Z :=
  match path with
  | c :: path' => if c =? slash then (path, len) else next_part path' (len + 1)
  | [] => ([], len)
  end.
(** The string at [a], at most [n] characters. *)
Fixpoint c_string (r : Z -> Z) (n : nat) (a : Z) : list Z :=
  match n with
  | O => []
  | S n' => if r a =? 0 then [] else r a :: c_string r n' (a + 1)
  end.

(** [for (item = 0; ...; ++item, entry++)]: the entry and [is_found]. *)
Fixpoint scan_items (n : nat) (part : list Z) (len entry : Z) : M loader (Z * bool) :=
  match n with
  | O => ret (entry, false)
  | S n' =>
      let! ino := ld16 entry in
      if ino =? 0 then ret (entry, false)
      else
        let! name := gets (fun s => c_string (mem s) (S (Z.to_nat len)) (entry + 2)) in
        if strncmp part name len =? 0 then ret (entry, true)
        else scan_items n' part len (entry + 16)
  end.
(** [for (i = 0; i <= 6; ++i)], from [i] on. *)
Fixpoint scan_zones (n : nat) (i inode : Z) (part : list Z) (len entry : Z) : M loader (Z * bool) :=
  match n with
  | O => ret (entry, false)
  | S n' =>
      let! z := d_zone inode i in
      if z =? 0 then ret (entry, false)
      else
        read_blocks z 1 entry ;;
        let! (entry, is_found) := scan_items (Z.to_nat DIR_ENTRIES_PER_BLOCK) part len entry in
        if is_found : bool then ret (entry, true) else scan_zones n' (i + 1) inode part len entry
  end.
(** [while ( *path != 0)] *)
Fixpoint lookup_parts (fuel : nat) (path : list Z) (ino entry : Z) : M loader Z :=
  match path, fuel with
  | [], _ => ret entry
  | _, O => halt NoFuel
  | _, S fuel' =>
      let part := path in
      let (path, len) := next_part path 0 in
      let! inode := get_inode ino in
      let! (entry, is_found) := scan_zones 7 0 inode part len 0x300000 in
      if is_found : bool then
        let! ino := ld16 entry in
        lookup_parts fuel' (skip path) ino entry
      else ret 0
  end.
Definition path_lookup (path : list Z) : M loader Z :=
  match path with
  | c :: _ => if c =? slash then lookup_parts (length path) (skip path) 1 0x300000 else ret 0
  | [] => ret 0
  end.

(** ** load_bin() *)

(** Read the blocks of the zones at [zones], up to the first 0; the result is
    [kernel_addr]. *)
Fixpoint copy_zones (n : nat) (zones kernel_addr : Z) : M loader Z :=
  match n with
  | O => ret kernel_addr
  | S n' =>
      let! z := ld16 zones in
      if z =? 0 then ret kernel_addr
      else
        read_blocks z 1 kernel_addr ;;
        copy_zones n' (zones + 2) (kernel_addr + BLOCK_SIZE)
  end.
Fixpoint copy_tables (n : nat) (zones kernel_addr : Z) : M loader Z :=
  match n with
  | O => ret kernel_addr
  | S n' =>
      let! z := ld16 zones in
      if z =? 0 then ret kernel_addr
      else
        read_blocks z 1 0x400400 ;;
        let! kernel_addr := copy_zones ZONES_PER_BLOCK 0x400400 kernel_addr in
        copy_tables n' (zones + 2) kernel_addr
  end.
Definition load_bin (ino : Z) : M loader unit :=
  let! inode := get_inode ino in
  let! size := ld32 (inode + 4) in
  if size =? 0 then ret tt
  else
    let! kernel_addr := copy_zones 7 (inode + 14) KERNEL_START_ADDRESS in
    let! z := d_zone inode 7 in
    let! kernel_addr := (if z =? 0 then ret kernel_addr
      else read_blocks z 1 0x400000 ;; copy_zones ZONES_PER_BLOCK 0x400000 kernel_addr) in
    let! z := d_zone inode 8 in
    if z =? 0 then ret tt
    else read_blocks z 1 0x400000 ;; copy_tables ZONES_PER_BLOCK 0x400000 kernel_addr ;; ret tt.

(** "/kernel.bin" *)
Definition kernel_bin : list Z := [47; 107; 101; 114; 110; 101; 108; 46; 98; 105; 110].
(** main() *)
Definition boot_main : M loader unit :=
  let! p := get_super 0 in
  modify (fun s => s <| super := p |>) ;;
  let! entry := path_lookup kernel_bin in
  if entry =? 0 then ret tt
  else let! ino := ld16 entry in load_bin ino.
End loader.

(** ** Parts that main() does not use *)

(** memcpy() *)
Fixpoint memcpy (size : nat) (dest src : Z) : M loader unit :=
  match size with
  | O => ret tt
  | S size' =>
      modify (fun s => s <| mem ::= fun r a => if a =? dest then r src else r a |>) ;;
      memcpy size' (dest + 1) (src + 1)
  end.
(** buffer_init() of bootloader/x86/fs/buffer.c, the text of the kernel's. *)
Definition loader_buffer_init (raw : nat -> buffer_head) (fuel : nat) (buffer_end : Z) : M cache unit :=
  Buffer.buffer_init raw fuel buffer_end.
(** boot_setup() of bootloader/x86/hdisk/hd.c; the second [return] is missing:
    [None] is no value. *)
Fixpoint boot_drives (n : nat) : M driver unit :=
  match n with
  | O => ret tt
  | S i =>
      boot_drives i ;;
      let! d := get in
      let! h := deref (zget (hd_info d) (Z.of_nat i)) in
      let! _ := deref (zget (hd d) (Z.of_nat i * 5)) in
      modify (fun d => d <| hd ::= zset (Z.of_nat i * 5) (HdStruct 0 (s32 (head h * cyl h * sect h))) |>)
  end.
Definition boot_setup (BIOS : Z -> Z) : M driver (option Z) :=
  let! c := gets callable in
  if negb (truth c) then ret (Some (-1))
  else
    modify (fun d => d <| callable := 0 |>) ;;
    modify (fun d => d <| hd_info ::= fun l => imap (fun i => bios_info BIOS (16 * Z.of_nat i)) l |>) ;;
    let! d := get in
    let! h := deref (zget (hd_info d) 1) in
    modify (fun d => d <| NR_HD := if truth (cyl h) then 2 else 1 |>) ;;
    let! n := gets NR_HD in
    boot_drives (Z.to_nat n) ;;
    ret None.

(** ** What the disk holds *)

#[local] Ltac Zify.zify_post_hook ::= Z.div_mod_to_equations.

(** The 16-bit words from [a] on, and those before the first 0. *)
Fixpoint table (r : Z -> Z) (a : Z) (n : nat) : list Z :=
  match n with
  | O => []
  | S n' => at16 r a :: table r (a + 2) n'
  end.
Fixpoint before0 (l : list Z) : list Z :=
  match l with
  | [] => []
  | z :: l' => if z =? 0 then [] else z :: before0 l'
  end.

Lemma at16_ext r r' a : (forall x, a <= x < a + 2 -> r x = r' x) -> at16 r a = at16 r' a.
Proof. intros H. unfold at16. by rewrite !H by lia. Qed.
Lemma at16_shift r a b : at16 (fun x => r (x - b)) (a + b) = at16 r a.
Proof. unfold at16. f_equal; [f_equal; lia|]. do 2 f_equal. lia. Qed.
Lemma table_ext r r' n : forall a, (forall x, a <= x < a + 2 * Z.of_nat n -> r x = r' x) ->
  table r a n = table r' a n.
Proof.
  induction n as [|n IH]; intros a H; cbn [table]; [done|]. f_equal.
  - apply at16_ext. intros. apply H. lia.
  - apply IH. intros. apply H. lia.
Qed.
Lemma length_table r n : forall a, length (table r a n) = n.
Proof. induction n as [|n IH]; intros a; cbn; [done|]. by rewrite IH. Qed.
Lemma table_lookup r n : forall a k, (k < n)%nat -> table r a n !! k = Some (at16 r (a + 2 * Z.of_nat k)).
Proof.
  induction n as [|n IH]; intros a k Hk; [lia|]. destruct k as [|k]; cbn [table lookup list_lookup].
  - do 2 f_equal. lia.
  - rewrite IH by lia. do 2 f_equal. lia.
Qed.

(** Lists of zones without holes: [n] zones, then zeros. *)
Definition dense (l : list Z) : Prop :=
  exists l1 l2, l = l1 ++ l2 /\ Forall (fun z => z <> 0) l1 /\ Forall (.= 0) l2.
Lemma before0_app l1 l2 : Forall (fun z => z <> 0) l1 -> before0 (l1 ++ l2) = l1 ++ before0 l2.
Proof.
  induction 1 as [|z l1 Hz _ IH]; cbn; [done|]. by rewrite (proj2 (Z.eqb_neq _ _)), IH.
Qed.
Lemma before0_zeros l : Forall (.= 0) l -> before0 l = [].
Proof. by destruct 1 as [|z l ->]. Qed.
Lemma before0_dense l1 l2 : Forall (fun z => z <> 0) l1 -> Forall (.= 0) l2 -> before0 (l1 ++ l2) = l1.
Proof. intros H1 H2. by rewrite before0_app, before0_zeros, app_nil_r. Qed.

Lemma dense_cons z l : dense (z :: l) -> z <> 0 /\ dense l \/ z = 0 /\ Forall (.= 0) l.
Proof.
  intros (l1 & l2 & E & H1 & H2). destruct l1 as [|y l1]; cbn in E.
  - subst l2. inversion H2; subst. by right.
  - injection E as -> ->. inversion H1; subst. left. split; [done|]. by exists l1, l2.
Qed.
(** The parts of a list without holes can be read up to their first 0. *)
Lemma before0_split l1 l2 : dense (l1 ++ l2) -> before0 (l1 ++ l2) = before0 l1 ++ before0 l2 /\ dense l2.
Proof.
  induction l1 as [|z l1 IH]; cbn [app before0]; intros H; [by split|].
  destruct (dense_cons _ _ H) as [[Hz Hd]|[-> Hl]].
  - rewrite (proj2 (Z.eqb_neq z 0)) by done. destruct (IH Hd) as [-> H']. by split.
  - apply Forall_app in Hl as [_ Hl]. rewrite Z.eqb_refl, before0_zeros by done.
    split; [done|]. exists [], l2. by split_and!.
Qed.
(** Tables that are found through a list of zones; no zone, no entries. *)
Lemma before0_tables (f : Z -> list Z) zs :
  (forall z, z = 0 -> Forall (.= 0) (f z) /\ f z <> []) -> dense (concat (f <$> zs)) ->
  before0 (concat (f <$> zs)) = concat ((fun z => before0 (f z)) <$> before0 zs).
Proof.
  intros Hf. induction zs as [|z zs IH]; cbn [fmap list_fmap concat before0]; intros H; [done|].
  destruct (before0_split _ _ H) as [-> Hd]. destruct (Z.eqb_spec z 0) as [Hz|Hz].
  - destruct (Hf z Hz) as [H0 Hne]. rewrite (before0_zeros (f z)) by done. apply before0_zeros.
    destruct (f z) as [|y l]; [done|]. cbn in H.
    destruct (dense_cons _ _ H) as [[Hy _]|[_ Ha]]; [by inversion H0|].
    by apply Forall_app in Ha as [_ Ha].
  - cbn [fmap list_fmap concat]. by rewrite IH.
Qed.

Section disk.
Context (disk : Z -> Z).

(** The memory with block [z] at [a]; with the blocks [zs] from [a] on. *)
Definition patch (z a : Z) (r : Z -> Z) : Z -> Z := fun x =>
  if (a <=? x) && (x <? a + BLOCK_SIZE) then disk (z * BLOCK_SIZE + (x - a)) else r x.
Definition image (zs : list Z) (a : Z) (r : Z -> Z) : Z -> Z := fun x =>
  match (if x <? a then None else zs !! Z.to_nat ((x - a) / BLOCK_SIZE)) with
  | Some z => disk (z * BLOCK_SIZE + (x - a) mod BLOCK_SIZE)
  | None => r x
  end.
Notation "r ≡ᵣ r'" := (forall x, r x = r' x) (at level 70).

Lemma read_run z a s : read_blocks disk z 1 a s = Ret tt (s <| mem := patch z a (mem s) |>).
Proof. done. Qed.
Lemma patch_in z a r x : a <= x < a + BLOCK_SIZE -> patch z a r x = disk (z * BLOCK_SIZE + (x - a)).
Proof.
  intros H. unfold patch.
  by rewrite (proj2 (Z.leb_le _ _)), (proj2 (Z.ltb_lt _ _)) by lia.
Qed.
Lemma patch_out z a r x : x < a \/ a + BLOCK_SIZE <= x -> patch z a r x = r x.
Proof.
  intros H. unfold patch. destruct (Z.leb_spec a x), (Z.ltb_spec x (a + BLOCK_SIZE)); done || lia.
Qed.
Lemma image_out zs a r x : x < a -> image zs a r x = r x.
Proof. intros H. unfold image. by rewrite (proj2 (Z.ltb_lt _ _)). Qed.
Lemma image_ext zs a r r' x : r x = r' x -> image zs a r x = image zs a r' x.
Proof. intros H. unfold image. by destruct (if x <? a then _ else _). Qed.
Lemma image_nil a r x : image [] a r x = r x.
Proof. unfold image. by destruct (x <? a). Qed.

Lemma image_app zs zs' a r x :
  image zs' (a + BLOCK_SIZE * Z.of_nat (length zs)) (image zs a r) x = image (zs ++ zs') a r x.
Proof.
  unfold image, BLOCK_SIZE. set (n := length zs).
  destruct (Z.ltb_spec x a).
  { by destruct (Z.ltb_spec x (a + 1024 * Z.of_nat n)); [|lia]. }
  destruct (Z.ltb_spec x (a + 1024 * Z.of_nat n)).
  - rewrite lookup_app_l; [done|]. fold n. lia.
  - rewrite lookup_app_r by (fold n; lia). fold n.
    replace (Z.to_nat ((x - (a + 1024 * Z.of_nat n)) / 1024)) with (Z.to_nat ((x - a) / 1024) - n)%nat by lia.
    replace ((x - (a + 1024 * Z.of_nat n)) mod 1024) with ((x - a) mod 1024) by lia.
    destruct (zs' !! _); [done|]. rewrite lookup_ge_None_2; [done|]. fold n. lia.
Qed.
Lemma image_one z a r x : image [z] a r x = patch z a r x.
Proof.
  unfold image, patch, BLOCK_SIZE. destruct (Z.ltb_spec x a), (Z.leb_spec a x); try lia; [done|]. cbn [andb].
  destruct (Z.ltb_spec x (a + 1024)).
  - replace (Z.to_nat ((x - a) / 1024)) with 0%nat by lia. cbn. do 2 f_equal. lia.
  - by replace (Z.to_nat ((x - a) / 1024)) with (S (Z.to_nat ((x - a) / 1024 - 1))) by lia.
Qed.

(** ** Copying *)

Lemma copy_zones_run n : forall zones addr s, zones + 2 * Z.of_nat n <= addr ->
  let zs := before0 (table (mem s) zones n) in
  exists r, copy_zones disk n zones addr s =
      Ret (addr + BLOCK_SIZE * Z.of_nat (length zs)) (s <| mem := r |>) /\
    r ≡ᵣ image zs addr (mem s).
Proof.
  induction n as [|n IH]; intros zones addr s Hd; cbn [copy_zones table before0]; cbv zeta.
  { exists (mem s). rewrite Z.mul_0_r, Z.add_0_r. destruct s. split; [done|]. intros x. by rewrite image_nil. }
  unfold ld16 at 1. rewrite bind_gets. set (z := at16 (mem s) zones). destruct (z =? 0) eqn:Ez.
  { exists (mem s). cbn [length]. rewrite Z.mul_0_r, Z.add_0_r. destruct s. split; [done|]. intros x. by rewrite image_nil. }
  rewrite (bind_ret _ _ _ _ _ (read_run z addr s)).
  destruct (IH (zones + 2) (addr + BLOCK_SIZE) (s <| mem := patch z addr (mem s) |>)) as (r & E & Hr);
    [unfold BLOCK_SIZE; lia|].
  change (mem (s <| mem := patch z addr (mem s) |>)) with (patch z addr (mem s)) in E, Hr.
  rewrite (table_ext _ (mem s)) in E, Hr by (intros x Hx; apply patch_out; lia).
  exists r. rewrite E. cbn [length]. split; [f_equal; lia|]. intros x.
  rewrite Hr. change (z :: ?l) with ([z] ++ l). rewrite <-image_app. cbn [length].
  rewrite Z.mul_1_r. apply image_ext. by rewrite image_one.
Qed.
(** The zones in block [z]. *)
Definition dtable (z : Z) : list Z := table disk (z * BLOCK_SIZE) ZONES_PER_BLOCK.

Lemma table_patch z a r n : (n <= ZONES_PER_BLOCK)%nat ->
  table (patch z a r) a n = table disk (z * BLOCK_SIZE) n.
Proof.
  intros Hn. change ZONES_PER_BLOCK with 512%nat in Hn. apply list_eq. intros k.
  destruct (decide (k < n)%nat) as [Hk|Hk].
  - rewrite !table_lookup by done. f_equal. unfold at16.
    rewrite !patch_in by (unfold BLOCK_SIZE; lia). f_equal; [|f_equal]; f_equal; lia.
  - by rewrite !lookup_ge_None_2 by (rewrite length_table; lia).
Qed.

(** The scratch block of the double-indirect zones. *)
Definition scratch2 (x : Z) : Prop := 0x400400 <= x < 0x400800.
Definition all_of (zs : list Z) : list Z := concat ((fun z => before0 (dtable z)) <$> zs).

Lemma copy_tables_run n : forall zones addr s, zones + 2 * Z.of_nat n <= 0x400400 -> 0x800000 <= addr ->
  let zs := all_of (before0 (table (mem s) zones n)) in
  exists r, copy_tables disk n zones addr s =
      Ret (addr + BLOCK_SIZE * Z.of_nat (length zs)) (s <| mem := r |>) /\
    forall x, ~ scratch2 x -> r x = image zs addr (mem s) x.
Proof.
  induction n as [|n IH]; intros zones addr s Hz Ha; cbn [copy_tables table before0]; cbv zeta.
  { exists (mem s). unfold all_of. cbn. rewrite Z.add_0_r. destruct s. split; [done|]. intros x _. by rewrite image_nil. }
  unfold ld16 at 1. rewrite bind_gets. set (z := at16 (mem s) zones). destruct (z =? 0) eqn:Ez.
  { exists (mem s). unfold all_of. cbn. rewrite Z.add_0_r. destruct s. split; [done|]. intros x _. by rewrite image_nil. }
  rewrite (bind_ret _ _ _ _ _ (read_run z 0x400400 s)). set (r0 := patch z 0x400400 (mem s)).
  destruct (copy_zones_run ZONES_PER_BLOCK 0x400400 addr (s <| mem := r0 |>)) as (r1 & E1 & H1);
    [unfold ZONES_PER_BLOCK; lia|].
  change (mem (s <| mem := r0 |>)) with r0 in E1, H1.
  assert (Et : table r0 0x400400 ZONES_PER_BLOCK = dtable z) by (by apply table_patch). rewrite Et in E1, H1.
  rewrite (bind_ret _ _ _ _ _ E1). set (addr1 := addr + BLOCK_SIZE * Z.of_nat (length (before0 (dtable z)))) in *.
  destruct (IH (zones + 2) addr1 (s <| mem := r1 |>)) as (r & E & Hr);
    [lia|unfold addr1, BLOCK_SIZE; lia|].
  change (mem (s <| mem := r1 |>)) with r1 in E, Hr.
  assert (Ht : table r1 (zones + 2) n = table (mem s) (zones + 2) n).
  { apply table_ext. intros x Hx. rewrite H1, image_out by lia. unfold r0. apply patch_out. lia. }
  rewrite Ht in E, Hr. set (zs := all_of _) in E, Hr.
  change (all_of (z :: ?l)) with (before0 (dtable z) ++ all_of l). fold zs.
  exists r. change (s <| mem := r0 |> <| mem := r1 |>) with (s <| mem := r1 |>). rewrite E. split.
  - f_equal. unfold addr1. rewrite length_app. lia.
  - intros x Hx. rewrite (Hr x Hx). unfold addr1. rewrite <-image_app.
    apply image_ext. rewrite H1. apply image_ext. apply patch_out. unfold scratch2, BLOCK_SIZE in *. lia.
Qed.

(** ** The inodes of the disk *)

Definition imap_blocks : Z := at16 disk (BLOCK_SIZE + 4).
Definition zmap_blocks : Z := at16 disk (BLOCK_SIZE + 6).
Definition inode_at (ino : Z) : Z :=
  (2 + imap_blocks + zmap_blocks + ino / INODES_PER_BLOCK) * BLOCK_SIZE + 32 * (ino mod INODES_PER_BLOCK - 1).
Definition inode_size (ino : Z) : Z := at32 disk (inode_at ino + 4).
Definition inode_zone (ino k : Z) : Z := at16 disk (inode_at ino + 14 + 2 * k).

(** The super block is in memory. *)
Definition started (s : loader) : Prop :=
  super s = 0x100000 /\ forall k, 0 <= k < BLOCK_SIZE -> mem s (0x100000 + k) = disk (BLOCK_SIZE + k).
Lemma started_mem s r : started s -> (forall x, x < 0x200000 -> r x = mem s x) -> started (s <| mem := r |>).
Proof. intros [H1 H2] H. split; [done|]. intros k Hk. cbn. rewrite H by (unfold BLOCK_SIZE in *; lia). auto. Qed.

Definition ptr (ino : Z) : Z := 0x200000 + 32 * (ino mod INODES_PER_BLOCK - 1).
(** The inode is in memory. *)
Definition loaded_inode (ino : Z) (r : Z -> Z) : Prop :=
  forall o, 0 <= o < 32 -> r (ptr ino + o) = disk (inode_at ino + o).

Lemma get_inode_any ino s : started s -> 0 <= ino < 2 ^ 16 ->
  get_inode disk ino s = Ret (ptr ino)
    (s <| mem := patch (2 + imap_blocks + zmap_blocks + ino / INODES_PER_BLOCK) 0x200000 (mem s) |>).
Proof.
  intros [Hp Hs] Hi. unfold get_inode, ld16. rewrite bind_gets, Hp, !bind_gets.
  assert (E : forall k, 0 <= k < 1022 -> at16 (mem s) (0x100000 + k) = at16 disk (BLOCK_SIZE + k)).
  { intros k Hk. unfold at16. rewrite <-!Z.add_assoc, !Hs by (unfold BLOCK_SIZE; lia). done. }
  rewrite !E by lia. fold imap_blocks zmap_blocks. rewrite (bind_ret _ _ _ _ _ (read_run _ _ _)).
  unfold ret. f_equal. unfold ptr, u32. change INODES_PER_BLOCK with 32.
  destruct (decide (ino mod 32 = 0)) as [->|Hm]; [done|].
  rewrite (Z.mod_small (ino mod 32 - 1)) by lia. apply Z.mod_small. lia.
Qed.
Lemma get_inode_run ino s : started s -> 0 <= ino < 2 ^ 16 -> ino mod INODES_PER_BLOCK <> 0 ->
  exists r, get_inode disk ino s = Ret (ptr ino) (s <| mem := r |>) /\ loaded_inode ino r /\
    forall x, x < 0x200000 \/ 0x200400 <= x -> r x = mem s x.
Proof.
  intros Hs Hi Hm. rewrite (get_inode_any ino s Hs Hi). eexists. split; [done|]. split.
  - intros o Ho. unfold ptr. change INODES_PER_BLOCK with 32 in *. rewrite patch_in by (unfold BLOCK_SIZE; lia).
    f_equal. unfold inode_at. change INODES_PER_BLOCK with 32. lia.
  - intros x Hx. apply patch_out. unfold BLOCK_SIZE. lia.
Qed.
Lemma loaded_zones ino r n : (n <= 9)%nat -> loaded_inode ino r ->
  table r (ptr ino + 14) n = (fun k => inode_zone ino k) <$> seqZ 0 (Z.of_nat n).
Proof.
  intros Hn H. apply list_eq. intros k. rewrite list_lookup_fmap. destruct (decide (k < n)%nat) as [Hk|Hk].
  - rewrite table_lookup, lookup_seqZ_lt by lia. cbn [fmap option_fmap option_map]. f_equal.
    unfold inode_zone, at16. rewrite <-!Z.add_assoc, !H by lia. rewrite Z.add_0_l. done.
  - rewrite lookup_ge_None_2, lookup_seqZ_ge by (rewrite ?length_table; lia). done.
Qed.
Lemma loaded_zone ino r k : 0 <= k < 9 -> loaded_inode ino r ->
  at16 r (ptr ino + 14 + 2 * k) = inode_zone ino k.
Proof.
  intros Hk H. unfold inode_zone, at16. by rewrite <-!Z.add_assoc, !H by lia.
Qed.
Lemma loaded_size ino r : loaded_inode ino r -> at32 r (ptr ino + 4) = inode_size ino.
Proof. intros H. unfold inode_size, at32, at16. by rewrite <-!Z.add_assoc, !H by lia. Qed.
(** ** load_bin() *)

(** The zones that load_bin() copies, in order. *)
Definition all_zones (ino : Z) : list Z :=
  let z7 := inode_zone ino 7 in
  let z8 := inode_zone ino 8 in
  before0 ((fun k => inode_zone ino k) <$> seqZ 0 7) ++
  (if z7 =? 0 then [] else before0 (dtable z7)) ++
  (if z8 =? 0 then [] else all_of (before0 (dtable z8))).

(** The scratch memory below the kernel. *)
Definition scratch (x : Z) : Prop := 0x200000 <= x < 0x200400 \/ 0x400000 <= x < 0x400800.

Lemma indirect_copy_run z a s : KERNEL_START_ADDRESS <= a ->
  let zs := if z =? 0 then [] else before0 (dtable z) in
  exists r, (if z =? 0 then ret a
      else read_blocks disk z 1 0x400000 ;; copy_zones disk ZONES_PER_BLOCK 0x400000 a) s =
      Ret (a + BLOCK_SIZE * Z.of_nat (length zs)) (s <| mem := r |>) /\
    forall x, ~ (0x400000 <= x < 0x400400) -> r x = image zs a (mem s) x.
Proof.
  intros Ha. cbv zeta. destruct (z =? 0).
  - exists (mem s). cbn [length]. rewrite Z.mul_0_r, Z.add_0_r. destruct s. split; [done|].
    intros x _. by rewrite image_nil.
  - rewrite (bind_ret _ _ _ _ _ (read_run z 0x400000 s)). set (r0 := patch z 0x400000 (mem s)).
    destruct (copy_zones_run ZONES_PER_BLOCK 0x400000 a (s <| mem := r0 |>)) as (r & E & H);
      [unfold ZONES_PER_BLOCK, KERNEL_START_ADDRESS in *; lia|].
    change (mem (s <| mem := r0 |>)) with r0 in E, H.
    assert (Et : table r0 0x400000 ZONES_PER_BLOCK = dtable z) by (by apply table_patch). rewrite Et in E, H.
    exists r. split; [exact E|]. intros x Hx. rewrite H. apply image_ext, patch_out. unfold BLOCK_SIZE. lia.
Qed.
Lemma tables_copy_run z a s : KERNEL_START_ADDRESS <= a ->
  let zs := if z =? 0 then [] else all_of (before0 (dtable z)) in
  exists r, (if z =? 0 then ret tt
      else read_blocks disk z 1 0x400000 ;; copy_tables disk ZONES_PER_BLOCK 0x400000 a ;; ret tt) s =
      Ret tt (s <| mem := r |>) /\
    forall x, ~ (0x400000 <= x < 0x400800) -> r x = image zs a (mem s) x.
Proof.
  intros Ha. cbv zeta. destruct (z =? 0).
  - exists (mem s). destruct s. split; [done|]. intros x _. by rewrite image_nil.
  - rewrite (bind_ret _ _ _ _ _ (read_run z 0x400000 s)). set (r0 := patch z 0x400000 (mem s)).
    destruct (copy_tables_run ZONES_PER_BLOCK 0x400000 a (s <| mem := r0 |>)) as (r & E & H);
      [unfold ZONES_PER_BLOCK; lia|unfold KERNEL_START_ADDRESS in *; lia|].
    change (mem (s <| mem := r0 |>)) with r0 in E, H.
    assert (Et : table r0 0x400000 ZONES_PER_BLOCK = dtable z) by (by apply table_patch). rewrite Et in E, H.
    exists r. split; [by rewrite (bind_ret _ _ _ _ _ E)|].
    intros x Hx. rewrite H by (unfold scratch2; lia). apply image_ext, patch_out. unfold BLOCK_SIZE. lia.
Qed.

Lemma load_bin_run ino s : started s -> 0 <= ino < 2 ^ 16 -> ino mod INODES_PER_BLOCK <> 0 ->
  inode_size ino <> 0 ->
  exists r, load_bin disk ino s = Ret tt (s <| mem := r |>) /\
    forall x, ~ scratch x -> r x = image (all_zones ino) KERNEL_START_ADDRESS (mem s) x.
Proof.
  intros Hs Hi Hm Hsz. destruct (get_inode_run ino s Hs Hi Hm) as (r0 & E0 & L0 & F0).
  assert (Hp : 0x200000 <= ptr ino < 0x200400 - 31)
    by (unfold ptr; change INODES_PER_BLOCK with 32 in *; lia).
  unfold load_bin. rewrite (bind_ret _ _ _ _ _ E0). unfold ld32. rewrite bind_gets.
  change (mem (s <| mem := r0 |>)) with r0. rewrite (loaded_size _ _ L0), (proj2 (Z.eqb_neq _ _)) by done.
  destruct (copy_zones_run 7 (ptr ino + 14) KERNEL_START_ADDRESS (s <| mem := r0 |>)) as (r1 & E1 & H1);
    [unfold KERNEL_START_ADDRESS; lia|].
  change (mem (s <| mem := r0 |>)) with r0 in E1, H1. rewrite (loaded_zones ino r0 7) in E1, H1 by (done || lia).
  rewrite (bind_ret _ _ _ _ _ E1). change (Z.of_nat 7) with 7 in *.
  change (s <| mem := r0 |> <| mem := r1 |>) with (s <| mem := r1 |>).
  set (zs1 := before0 _) in *. set (a1 := KERNEL_START_ADDRESS + BLOCK_SIZE * Z.of_nat (length zs1)) in *.
  assert (Ha1 : KERNEL_START_ADDRESS <= a1) by (unfold a1, BLOCK_SIZE; lia).
  assert (L1 : loaded_inode ino r1).
  { intros o Ho. rewrite H1, image_out by (unfold KERNEL_START_ADDRESS; lia). auto. }
  unfold d_zone, ld16. rewrite bind_gets.
  change (mem (s <| mem := r1 |>)) with r1. rewrite (loaded_zone ino r1 7) by (done || lia).
  destruct (indirect_copy_run (inode_zone ino 7) a1 (s <| mem := r1 |>) Ha1) as (r2 & E2 & H2).
  rewrite (bind_ret _ _ _ _ _ E2). change (mem (s <| mem := r1 |>)) with r1 in H2.
  set (zs2 := if inode_zone ino 7 =? 0 then [] else before0 (dtable (inode_zone ino 7))) in *. set (a2 := a1 + BLOCK_SIZE * Z.of_nat (length zs2)) in *.
  assert (Ha2 : KERNEL_START_ADDRESS <= a2) by (unfold a2, BLOCK_SIZE; lia).
  assert (L2 : loaded_inode ino r2).
  { intros o Ho. rewrite H2, image_out by (unfold KERNEL_START_ADDRESS in *; lia). auto. }
  rewrite bind_gets. change (mem (s <| mem := r1 |> <| mem := r2 |>)) with r2.
  rewrite (loaded_zone ino r2 8) by (done || lia).
  destruct (tables_copy_run (inode_zone ino 8) a2 (s <| mem := r1 |> <| mem := r2 |>) Ha2) as (r3 & E3 & H3).
  change (mem (s <| mem := r1 |> <| mem := r2 |>)) with r2 in H3.
  exists r3. split; [exact E3|]. intros x Hx. unfold scratch in Hx. rewrite H3 by lia.
  unfold all_zones. fold zs1 zs2. rewrite app_assoc, <-image_app, length_app.
  replace (KERNEL_START_ADDRESS + BLOCK_SIZE * Z.of_nat (length zs1 + length zs2)) with a2 by (unfold a2, a1; lia).
  apply image_ext. rewrite H2, <-image_app by lia. apply image_ext. rewrite H1. apply image_ext, F0. lia.
Qed.

(** ** The file as the kernel will see it *)

(** Entry [i] of the index block [z]; block [k] of the file, as [file_block] of
    Bmap.v. *)
Definition dentry (z i : Z) : Z := if z =? 0 then 0 else at16 disk (z * BLOCK_SIZE + 2 * i).
Definition file_zone (ino k : Z) : Z :=
  if k <? 7 then inode_zone ino k
  else if k - 7 <? 512 then dentry (inode_zone ino 7) (k - 7)
  else dentry (dentry (inode_zone ino 8) ((k - 519) / 512)) ((k - 519) mod 512).
Definition tab (z : Z) : list Z := dentry z <$> seqZ 0 512.

Lemma tab_zero z : z = 0 -> Forall (.= 0) (tab z) /\ tab z <> [].
Proof.
  intros ->. split; [|done]. unfold tab. apply Forall_fmap, Forall_forall. done.
Qed.
Lemma tab_table z : z <> 0 -> tab z = dtable z.
Proof.
  intros Hz. unfold tab, dtable. change ZONES_PER_BLOCK with 512%nat. apply list_eq. intros k.
  rewrite list_lookup_fmap. destruct (decide (k < 512)%nat) as [Hk|Hk].
  - rewrite table_lookup, lookup_seqZ_lt by lia. cbn [fmap option_fmap option_map].
    unfold dentry. by rewrite (proj2 (Z.eqb_neq _ _)), Z.add_0_l.
  - rewrite lookup_seqZ_ge, lookup_ge_None_2 by (rewrite ?length_table; lia). done.
Qed.
Lemma before0_tab z : before0 (tab z) = if z =? 0 then [] else before0 (dtable z).
Proof.
  destruct (Z.eqb_spec z 0) as [Hz|Hz]; [by apply before0_zeros, tab_zero|by rewrite tab_table].
Qed.
Lemma before0_nonzero l : Forall (fun z => z <> 0) (before0 l).
Proof. induction l as [|z l IH]; cbn; [done|]. destruct (Z.eqb_spec z 0); by constructor. Qed.

Lemma rows n (f : Z -> Z -> Z) :
  (fun k => f ((k - 519) / 512) ((k - 519) mod 512)) <$> seqZ 519 (512 * Z.of_nat n) =
  concat ((fun j => f j <$> seqZ 0 512) <$> seqZ 0 (Z.of_nat n)).
Proof.
  induction n as [|n IH]; [done|].
  replace (512 * Z.of_nat (S n)) with (512 * Z.of_nat n + 512) by lia.
  replace (Z.of_nat (S n)) with (Z.of_nat n + 1) by lia.
  rewrite !seqZ_app, !fmap_app, concat_app, IH by lia. f_equal.
  rewrite Z.add_0_l, (seqZ_cons (Z.of_nat n) 1), (seqZ_nil (Z.succ (Z.of_nat n)) (Z.pred 1)) by lia.
  cbn [fmap list_fmap concat]. rewrite app_nil_r.
  rewrite <-(Z.add_0_r (519 + 512 * Z.of_nat n)), <-fmap_add_seqZ, <-list_fmap_compose.
  apply list_fmap_ext. intros _ k Hk%list_elem_of_lookup_2%elem_of_seqZ. cbn. f_equal; lia.
Qed.

Definition file_zones (ino : Z) : list Z := file_zone ino <$> seqZ 0 max_block.
Lemma file_zones_parts ino : file_zones ino =
  ((fun k => inode_zone ino k) <$> seqZ 0 7) ++ tab (inode_zone ino 7) ++ concat (tab <$> tab (inode_zone ino 8)).
Proof.
  unfold file_zones. change max_block with (7 + (512 + 512 * Z.of_nat 512)).
  rewrite (seqZ_app 0 7), (seqZ_app (0 + 7) 512), !fmap_app by lia.
  apply (f_equal2 app); [|apply (f_equal2 app)].
  - apply list_fmap_ext. intros _ k Hk%list_elem_of_lookup_2%elem_of_seqZ. unfold file_zone.
    by destruct (Z.ltb_spec k 7); [|lia].
  - unfold tab. rewrite <-(fmap_add_seqZ (0 + 7) 0), <-list_fmap_compose.
    apply list_fmap_ext. intros _ k Hk%list_elem_of_lookup_2%elem_of_seqZ. cbn. unfold file_zone.
    destruct (Z.ltb_spec (0 + 7 + k) 7); [lia|]. destruct (Z.ltb_spec (0 + 7 + k - 7) 512); [|lia].
    f_equal. lia.
  - change (0 + 7 + 512) with 519.
    pose proof (rows 512 (fun j k => dentry (dentry (inode_zone ino 8) j) k)) as R.
    etransitivity; [|etransitivity; [exact R|]].
    + apply list_fmap_ext. intros _ k Hk%list_elem_of_lookup_2%elem_of_seqZ. unfold file_zone.
      destruct (Z.ltb_spec k 7); [lia|]. by destruct (Z.ltb_spec (k - 7) 512); [lia|].
    + change (Z.of_nat 512) with 512. unfold tab at 2. rewrite <-list_fmap_compose.
      apply (f_equal (@concat Z)), list_fmap_ext. intros _ j _. reflexivity.
Qed.

Lemma all_zones_dense ino : dense (file_zones ino) -> all_zones ino = before0 (file_zones ino).
Proof.
  rewrite file_zones_parts. intros H. destruct (before0_split _ _ H) as [-> H1].
  destruct (before0_split _ _ H1) as [-> H2]. rewrite (before0_tables tab) by (done || apply tab_zero).
  unfold all_zones. cbv zeta. f_equal. rewrite !before0_tab. f_equal. unfold all_of.
  destruct (inode_zone ino 8 =? 0); [done|]. f_equal.
  apply list_fmap_ext. intros _ z Hz%list_elem_of_lookup_2.
  pose proof (proj1 (Forall_forall _ _) (before0_nonzero (dtable (inode_zone ino 8))) z Hz) as H0.
  cbv beta in H0. by rewrite tab_table.
Qed.

(** A file of [n] blocks without holes. *)
Definition solid (ino n : Z) : Prop :=
  0 <= n <= max_block /\ (forall k, 0 <= k < n -> file_zone ino k <> 0) /\
  forall k, n <= k < max_block -> file_zone ino k = 0.
Lemma solid_zones ino n : solid ino n -> all_zones ino = file_zone ino <$> seqZ 0 n.
Proof.
  intros (Hn & H1 & H2).
  assert (E : file_zones ino = (file_zone ino <$> seqZ 0 n) ++ (file_zone ino <$> seqZ n (max_block - n))).
  { unfold file_zones. rewrite <-fmap_app. rewrite <-(Z.add_0_l n) at 2. rewrite <-seqZ_app by lia.
    do 2 f_equal. lia. }
  assert (F1 : Forall (fun z => z <> 0) (file_zone ino <$> seqZ 0 n)).
  { apply Forall_fmap, Forall_forall. intros k Hk%elem_of_seqZ. apply H1. lia. }
  assert (F2 : Forall (.= 0) (file_zone ino <$> seqZ n (max_block - n))).
  { apply Forall_fmap, Forall_forall. intros k Hk%elem_of_seqZ. apply H2. lia. }
  rewrite all_zones_dense; rewrite E; [by apply before0_dense|]. by eexists _, _.
Qed.
End disk.

(** ** Looking up a path *)

Lemma length_c_string r n : forall a, (length (c_string r n a) <= n)%nat.
Proof. induction n as [|n IH]; intros a; cbn; [lia|]. destruct (r a =? 0); cbn; [lia|]. specialize (IH (a + 1)). lia. Qed.
Lemma take_c_string r n : forall m a, (n <= m)%nat -> take n (c_string r m a) = c_string r n a.
Proof.
  induction n as [|n IH]; intros m a H; [done|]. destruct m as [|m]; [lia|]. cbn [c_string].
  destruct (r a =? 0); [done|]. cbn. by rewrite IH by lia.
Qed.
Lemma c_string_ext r r' n : forall a, (forall x, a <= x < a + Z.of_nat n -> r x = r' x) ->
  c_string r n a = c_string r' n a.
Proof.
  induction n as [|n IH]; intros a H; cbn [c_string]; [done|].
  rewrite H by lia. destruct (r' a =? 0); [done|]. by rewrite IH by (intros; apply H; lia).
Qed.

(** strncmp() of a part of the path with a name: the name starts with it. *)
Lemma part_matches r comp rest e : Z.of_nat (length comp) <= NAME_LEN ->
  strncmp (comp ++ rest) (c_string r (S (length comp)) e) (Z.of_nat (length comp)) =? 0 =
  bool_decide (comp `prefix_of` c_string r (Z.to_nat NAME_LEN) e).
Proof.
  intros Hl. apply Bool.eq_iff_eq_true. rewrite Z.eqb_eq, bool_decide_eq_true.
  rewrite strncmp_zero, Nat2Z.id, take_app_length, take_c_string by lia.
  rewrite <-(take_c_string r (length comp) (Z.to_nat NAME_LEN)) by (unfold NAME_LEN in *; lia).
  split.
  - intros ->. apply prefix_take.
  - intros [k ->]. by rewrite take_app_length.
Qed.

(** The first entry whose name starts with [comp]. *)
Fixpoint first_match (comp : list Z) (l : list (Z * list Z)) : option Z :=
  match l with
  | [] => None
  | (nr, name) :: l' => if bool_decide (comp `prefix_of` name) then Some nr else first_match comp l'
  end.
Lemma first_match_app comp l l' : first_match comp (l ++ l') =
  match first_match comp l with Some nr => Some nr | None => first_match comp l' end.
Proof. induction l as [|[nr name] l IH]; cbn; [done|]. by destruct (bool_decide _). Qed.

Section lookup.
Context (disk : Z -> Z).

(** The entries of block [z] from byte [a] of the disk on, up to the first
    unused one, and those of a directory. *)
Fixpoint items_from (n : nat) (a : Z) : list (Z * list Z) :=
  match n with
  | O => []
  | S n' =>
      let ino := at16 disk a in
      if ino =? 0 then [] else (ino, c_string disk (Z.to_nat NAME_LEN) (a + 2)) :: items_from n' (a + 16)
  end.
Definition items (z : Z) : list (Z * list Z) := items_from (Z.to_nat DIR_ENTRIES_PER_BLOCK) (z * BLOCK_SIZE).
Definition dir_items (ino : Z) : list (Z * list Z) :=
  concat (items <$> before0 ((fun k => inode_zone disk ino k) <$> seqZ 0 7)).

Lemma scan_items_run comp rest n : forall s e a,
  Z.of_nat (length comp) <= NAME_LEN ->
  (forall k, 0 <= k < 16 * Z.of_nat n -> mem s (e + k) = disk (a + k)) ->
  exists e', scan_items n (comp ++ rest) (Z.of_nat (length comp)) e s =
      Ret (e', match first_match comp (items_from n a) with Some _ => true | None => false end) s /\
    e <= e' <= e + 16 * Z.of_nat n /\
    forall nr, first_match comp (items_from n a) = Some nr -> at16 (mem s) e' = nr.
Proof.
  induction n as [|n IH]; intros s e a Hl Hm; cbn [scan_items items_from].
  { exists e. split_and!; [done|lia|lia|done]. }
  assert (E16 : at16 (mem s) e = at16 disk a).
  { unfold at16. pose proof (Hm 0 ltac:(lia)) as H0. pose proof (Hm 1 ltac:(lia)) as H1.
    rewrite !Z.add_0_r in H0. congruence. }
  unfold ld16 at 1. rewrite bind_gets, E16. destruct (at16 disk a =? 0) eqn:E0.
  { exists e. split_and!; [done|lia|lia|done]. }
  rewrite bind_gets, Nat2Z.id, part_matches by done.
  assert (Es : c_string (mem s) (Z.to_nat NAME_LEN) (e + 2) = c_string disk (Z.to_nat NAME_LEN) (a + 2)).
  { clear - Hm. change (Z.to_nat NAME_LEN) with 14%nat.
    assert (G : forall n x y, (forall k, 0 <= k < Z.of_nat n -> mem s (x + k) = disk (y + k)) ->
      c_string (mem s) n x = c_string disk n y).
    { clear. induction n as [|n IH]; intros x y H; cbn [c_string]; [done|].
      pose proof (H 0 ltac:(lia)) as H0. rewrite !Z.add_0_r in H0. rewrite H0.
      destruct (disk y =? 0); [done|]. f_equal. apply IH. intros k Hk.
      rewrite <-!Z.add_assoc. apply H. lia. }
    apply G. intros k Hk. rewrite <-!Z.add_assoc. apply Hm. lia. }
  rewrite Es. cbn [first_match]. destruct (bool_decide _).
  { exists e. split_and!; [done|lia|lia|]. by intros nr [= <-]. }
  destruct (IH s (e + 16) (a + 16) Hl) as (e' & E & Hr & Hf).
  { intros k Hk. rewrite <-!Z.add_assoc. apply Hm. lia. }
  exists e'. split_and!; [done|lia|lia|done].
Qed.

(** The buffer of the directory blocks. *)
Definition dirbuf (x : Z) : Prop := 0x300000 <= x < 0x301c00.

Lemma scan_zones_run ino comp rest n : forall i s e,
  Z.of_nat (length comp) <= NAME_LEN -> 0 <= i -> i + Z.of_nat n = 7 ->
  0x300000 <= e <= 0x300000 + BLOCK_SIZE * i -> 0x200000 <= ptr ino < 0x2003e1 ->
  loaded_inode disk ino (mem s) ->
  let l := concat (items <$> before0 ((fun k => inode_zone disk ino k) <$> seqZ i (Z.of_nat n))) in
  exists e' r, scan_zones disk n i (ptr ino) (comp ++ rest) (Z.of_nat (length comp)) e s =
      Ret (e', match first_match comp l with Some _ => true | None => false end) (s <| mem := r |>) /\
    0x300000 <= e' /\ (forall x, ~ dirbuf x -> r x = mem s x) /\
    forall nr, first_match comp l = Some nr -> at16 r e' = nr.
Proof.
  unfold BLOCK_SIZE. induction n as [|n IH]; intros i s e Hl Hi Hn He Hp L; cbn [scan_zones]; cbv zeta.
  { exists e, (mem s). destruct s. split_and!; [done|lia|done|done]. }
  rewrite (seqZ_cons i) by lia. cbn [fmap list_fmap before0].
  unfold d_zone, ld16 at 1. rewrite bind_gets, (loaded_zone disk ino _ i) by (done || lia).
  set (z := inode_zone disk ino i). destruct (z =? 0) eqn:Ez.
  { exists e, (mem s). destruct s. split_and!; [done|lia|done|done]. }
  rewrite (bind_ret _ _ _ _ _ (read_run disk z e s)). set (r0 := patch disk z e (mem s)).
  destruct (scan_items_run comp rest (Z.to_nat DIR_ENTRIES_PER_BLOCK) (s <| mem := r0 |>) e (z * BLOCK_SIZE) Hl) as (e1 & E1 & Hr1 & Hf1).
  { intros k Hk. change (Z.of_nat (Z.to_nat DIR_ENTRIES_PER_BLOCK)) with 64 in Hk.
    change (mem (s <| mem := r0 |>)) with r0. unfold r0. rewrite patch_in by (unfold BLOCK_SIZE; lia). f_equal. lia. }
  change (Z.of_nat (Z.to_nat DIR_ENTRIES_PER_BLOCK)) with 64 in Hr1.
  change (mem (s <| mem := r0 |>)) with r0 in Hf1.
  fold (items z) in E1, Hf1. rewrite (bind_ret _ _ _ _ _ E1). cbn [fmap list_fmap concat].
  rewrite first_match_app. destruct (first_match comp (items z)) as [nr|] eqn:Ef.
  { exists e1, r0. split_and!; [done|lia| |].
    - intros x Hx. apply patch_out. unfold dirbuf, BLOCK_SIZE in *. lia.
    - intros nr' [= <-]. by apply Hf1. }
  destruct (IH (i + 1) (s <| mem := r0 |>) e1 Hl ltac:(lia) ltac:(lia) ltac:(lia) Hp) as (e' & r & E & He' & Hx & Hf).
  { intros o Ho. change (mem (s <| mem := r0 |>)) with r0. unfold r0. rewrite patch_out by (unfold BLOCK_SIZE; lia). by apply L. }
  change (mem (s <| mem := r0 |>)) with r0 in Hx.
  replace (Z.pred (Z.of_nat (S n))) with (Z.of_nat n) by lia. change (Z.succ i) with (i + 1).
  exists e', r. split_and!; [done|done| |done].
  intros x Hd. rewrite Hx by done. apply patch_out. unfold dirbuf, BLOCK_SIZE in *. lia.
Qed.

(** A path of components, and the inode that the loader finds for it. *)
Fixpoint path_of (comps : list (list Z)) : list Z :=
  match comps with
  | [] => []
  | [c] => c
  | c :: comps' => c ++ slash :: path_of comps'
  end.
Fixpoint find_path (ino : Z) (comps : list (list Z)) : option Z :=
  match comps with
  | [] => Some ino
  | c :: comps' => first_match c (dir_items ino) ≫= fun nr => find_path nr comps'
  end.
Definition component (c : list Z) : Prop :=
  c <> [] /\ Forall (fun x => x <> slash) c /\ Z.of_nat (length c) <= NAME_LEN.
(** get_inode() finds the inode: its number is not a multiple of 32. *)
Definition reachable (ino : Z) : Prop := 0 <= ino < 2 ^ 16 /\ ino mod INODES_PER_BLOCK <> 0.
Fixpoint reaches (ino : Z) (comps : list (list Z)) : Prop :=
  match comps with
  | [] => True
  | c :: comps' => reachable ino /\
      forall nr, first_match c (dir_items ino) = Some nr -> reaches nr comps'
  end.

Lemma next_part_run c rest len : Forall (fun x => x <> slash) c ->
  rest = [] \/ (exists r, rest = slash :: r) ->
  next_part (c ++ rest) len = (rest, len + Z.of_nat (length c)).
Proof.
  intros Hc Hr. revert len. induction Hc as [|x c Hx Hc IH]; intros len; cbn [app next_part length].
  - rewrite Z.add_0_r. by destruct Hr as [->|[r ->]].
  - rewrite (proj2 (Z.eqb_neq _ _)), IH by done. f_equal. lia.
Qed.
Lemma skip_path comps : Forall component comps -> skip (path_of comps) = path_of comps.
Proof.
  destruct 1 as [|c comps (Hne & Hc & _) _]; [done|]. destruct c as [|x c]; [done|]. inversion Hc; subst.
  destruct comps; cbn; by rewrite (proj2 (Z.eqb_neq _ _)).
Qed.
Lemma path_cons c comps : exists rest, path_of (c :: comps) = c ++ rest /\
  (rest = [] \/ exists r, rest = slash :: r) /\ (Forall component comps -> skip rest = path_of comps).
Proof.
  destruct comps as [|c' comps].
  - exists []. rewrite app_nil_r. split_and!; [done|by left|done].
  - exists (slash :: path_of (c' :: comps)). split_and!; [done|by right; eexists|].
    intros H. cbn [skip]. rewrite Z.eqb_refl. by apply skip_path.
Qed.

(** What path_lookup() overwrites. *)
Definition lookup_scratch (x : Z) : Prop := 0x200000 <= x < 0x200400 \/ dirbuf x.

Lemma lookup_parts_run comps : forall fuel ino e s,
  Forall component comps -> (length comps <= fuel)%nat -> started disk s -> reaches ino comps ->
  exists e' r, lookup_parts disk fuel (path_of comps) ino e s = Ret e' (s <| mem := r |>) /\
    (forall x, ~ lookup_scratch x -> r x = mem s x) /\
    match find_path ino comps with
    | Some nr => comps <> [] -> 0x300000 <= e' /\ at16 r e' = nr
    | None => e' = 0
    end.
Proof.
  induction comps as [|c comps IH]; intros fuel ino e s Hc Hf Hs Hr.
  { exists e, (mem s). destruct s, fuel; by split_and!. }
  apply Forall_cons in Hc as [(Hne & Hns & Hl) Hc]. destruct Hr as [[Hi Hm] Hr].
  destruct (path_cons c comps) as (rest & Ep & Hrest & Hskip). rewrite Ep.
  destruct fuel as [|fuel]; [cbn in Hf; lia|].
  destruct c as [|x c]; [done|]. cbn [app lookup_parts]. change (x :: c ++ rest) with ((x :: c) ++ rest).
  set (comp := x :: c) in *. rewrite next_part_run by done.
  destruct (get_inode_run disk ino s Hs Hi Hm) as (r0 & E0 & L0 & F0).
  rewrite (bind_ret _ _ _ _ _ E0), Z.add_0_l.
  assert (Hp : 0x200000 <= ptr ino < 0x2003e1) by (unfold ptr; change INODES_PER_BLOCK with 32 in *; lia).
  destruct (scan_zones_run ino comp rest 7 0 (s <| mem := r0 |>) 0x300000 Hl) as (e1 & r1 & E1 & He1 & H1 & Hf1);
    [lia|done|unfold BLOCK_SIZE; lia|done|done|].
  change (Z.of_nat 7) with 7 in *. fold (dir_items ino) in E1, Hf1. rewrite (bind_ret _ _ _ _ _ E1).
  assert (Hk : forall y, ~ lookup_scratch y -> r1 y = mem s y).
  { intros y Hy. unfold lookup_scratch in Hy. rewrite H1 by tauto. change (mem (s <| mem := r0 |>)) with r0.
    apply F0. destruct (decide (y < 0x200000)); [by left|]. right. lia. }
  cbn [find_path mbind option_bind]. destruct (first_match comp (dir_items ino)) as [nr|] eqn:Ef; cbn [mbind option_bind].
  2:{ exists 0, r1. by split_and!. }
  unfold ld16 at 1. rewrite bind_gets. change (mem (s <| mem := r0 |> <| mem := r1 |>)) with r1.
  rewrite (Hf1 nr eq_refl), Hskip by done.
  assert (Hs1 : started disk (s <| mem := r0 |> <| mem := r1 |>)).
  { change (started disk (s <| mem := r1 |>)). apply started_mem; [done|].
    intros y Hy. apply Hk. unfold lookup_scratch, dirbuf. lia. }
  destruct (IH fuel nr e1 (s <| mem := r0 |> <| mem := r1 |>) Hc ltac:(cbn in Hf; lia) Hs1 (Hr nr eq_refl)) as (e' & r & E & Hx & He).
  exists e', r. split_and!; [done| |].
  - intros y Hy. rewrite Hx by done. by apply Hk.
  - destruct (find_path nr comps) as [k|] eqn:Ek; [|done]. intros _.
    destruct comps as [|c' comps]; [|by apply He]. injection Ek as <-.
    cbn [path_of lookup_parts] in E. assert (e' = e1 /\ r = r1) as [-> ->].
    { destruct fuel; injection E as <- E'; (split; [done|]); symmetry; exact E'. }
    split; [done|]. by apply Hf1.
Qed.
End lookup.

(** ** The theorems *)

(** get_super() makes the super block available to get_inode(). *)
Lemma boot_super_run disk s : exists r,
  (let! p := get_super disk 0 in modify (fun s => s <| super := p |>)) s =
    Ret tt (Loader r 0x100000) /\
  started disk (Loader r 0x100000) /\ forall x, 0x200000 <= x -> r x = mem s x.
Proof.
  unfold get_super. rewrite bind_assoc, (bind_ret _ _ _ _ _ (read_run disk 1 0x100000 s)), bind_ret_l.
  eexists. split; [reflexivity|]. split.
  - split; [done|]. intros k Hk. cbn [mem]. change (mem (s <| mem := ?r |>)) with r.
    rewrite patch_in by lia. f_equal. unfold BLOCK_SIZE. lia.
  - intros x Hx. change (mem (s <| mem := ?r |>)) with r. apply patch_out. unfold BLOCK_SIZE. lia.
Qed.

Definition the_name : list Z := [107; 101; 114; 110; 101; 108; 46; 98; 105; 110].
Lemma kernel_path : kernel_bin = slash :: path_of [the_name] /\ Forall component [the_name].
Proof.
  split; [done|]. constructor; [|done]. split_and!; [done| |done].
  by repeat constructor.
Qed.

(** main() up to the call of load_bin(). *)
Lemma boot_main_head disk s : exists e r,
  started disk (Loader r 0x100000) /\ (forall x, ~ lookup_scratch x -> 0x200000 <= x -> r x = mem s x) /\
  boot_main disk s = (if e =? 0 then ret tt else let! ino := ld16 e in load_bin disk ino) (Loader r 0x100000) /\
  match find_path disk 1 [the_name] with
  | Some nr => e <> 0 /\ at16 r e = nr
  | None => e = 0
  end.
Proof.
  destruct (boot_super_run disk s) as (r0 & E0 & S0 & H0). destruct kernel_path as [Ek Hc].
  destruct (lookup_parts_run disk [the_name] (length kernel_bin) 1 0x300000 (Loader r0 0x100000) Hc) as (e & r & E & Hx & He);
    [cbn; lia|done|cbn [reaches]; split; [done|by intros]|].
  change ((Loader r0 0x100000) <| mem := r |>) with (Loader r 0x100000) in E.
  exists e, r. split_and!.
  - apply (started_mem disk (Loader r0 0x100000) r); [done|]. intros x Hl. apply Hx.
    unfold lookup_scratch, dirbuf. lia.
  - intros x Hn Hl. rewrite Hx by done. by apply H0.
  - unfold boot_main. rewrite <-bind_assoc, (bind_ret _ _ _ _ _ E0).
    assert (El : path_lookup disk kernel_bin (Loader r0 0x100000) = Ret e (Loader r 0x100000)).
    { change (path_lookup disk kernel_bin) with
        (lookup_parts disk (length kernel_bin) (skip (path_of [the_name])) 1 0x300000).
      by rewrite skip_path. }
    by rewrite (bind_ret _ _ _ _ _ El).
  - destruct (find_path disk 1 [the_name]) as [nr|]; [|done]. destruct He as [He Hn]; [done|]. split; [lia|done].
Qed.

(** C15.  The boot loader: main() looks up "/kernel.bin" in the root directory
    of its partition.  When no entry of the directory starts with this name
    it loads nothing; otherwise, for a file of [n] blocks without holes
    whose inode number is not a multiple of 32, the memory from 8M on holds
    the [n] blocks of the file in order, through the direct, the indirect and
    the double-indirect zones, and nothing above them has changed. *)
Theorem boot_main_spec disk s :
  (find_path disk 1 [the_name] = None ->
     exists s', boot_main disk s = Ret tt s' /\ forall x, KERNEL_START_ADDRESS <= x -> mem s' x = mem s x) /\
  (forall ino n, find_path disk 1 [the_name] = Some ino -> reachable ino ->
     inode_size disk ino <> 0 -> solid disk ino n ->
     exists s', boot_main disk s = Ret tt s' /\ forall k, 0 <= k ->
       mem s' (KERNEL_START_ADDRESS + k) =
         if k <? n * BLOCK_SIZE then disk (file_zone disk ino (k / BLOCK_SIZE) * BLOCK_SIZE + k mod BLOCK_SIZE)
         else mem s (KERNEL_START_ADDRESS + k)).
Proof.
  destruct (boot_main_head disk s) as (e & r & S & Hm & -> & He).
  assert (Hhigh : forall x, KERNEL_START_ADDRESS <= x -> r x = mem s x).
  { intros x Hx. apply Hm; unfold lookup_scratch, dirbuf, KERNEL_START_ADDRESS in *; lia. }
  split.
  - intros E. rewrite E in He. subst e. cbn. by exists (Loader r 0x100000).
  - intros ino n E [Hi Hm32] Hsz Hsol. rewrite E in He. destruct He as [He Hino].
    rewrite (proj2 (Z.eqb_neq _ _)) by done. unfold ld16. rewrite bind_gets. cbn [mem]. rewrite Hino.
    destruct (load_bin_run disk ino (Loader r 0x100000) S Hi Hm32 Hsz) as (r' & El & Hr').
    exists ((Loader r 0x100000) <| mem := r' |>). split; [done|]. intros k Hk. cbn [mem upd eta_loader].
    rewrite Hr' by (unfold scratch, KERNEL_START_ADDRESS; lia). rewrite (solid_zones disk ino n Hsol). unfold image.
    rewrite (proj2 (Z.ltb_ge _ _)) by lia. cbn [mem].
    replace (KERNEL_START_ADDRESS + k - KERNEL_START_ADDRESS) with k by lia. rewrite list_lookup_fmap.
    destruct Hsol as (Hn & _). unfold BLOCK_SIZE. destruct (Z.ltb_spec k (n * 1024)).
    + rewrite lookup_seqZ_lt by lia. cbn [fmap option_fmap option_map].
      by replace (0 + Z.of_nat (Z.to_nat (k / 1024))) with (k / 1024) by lia.
    + rewrite lookup_seqZ_ge by lia. cbn [fmap option_fmap option_map]. apply Hhigh. lia.
Qed.

(** C40.  get_inode() of the loader divides the number of the inode, where the
    kernel (read_inode() of fs/inode.c) divides the number less one: for the
    numbers that are not multiples of 32 both find the same 32 bytes of the
    disk; for the others the loader returns a pointer below the buffer that
    the block was read into, where nothing has been read. *)
Theorem get_inode_spec disk ino s sb : started disk s -> 0 < ino < 2 ^ 16 ->
  (forall x, 0 <= disk x < 2 ^ 8) ->
  s_imap_blocks sb = imap_blocks disk -> s_zmap_blocks sb = zmap_blocks disk ->
  exists p r, get_inode disk ino s = Ret p (s <| mem := r |>) /\
    forall o, 0 <= o < 32 ->
      r (p + o) = if ino mod INODES_PER_BLOCK =? 0 then mem s (0x200000 - 32 + o)
                  else disk (inode_block sb ino * BLOCK_SIZE + Z.of_nat (inode_offset ino) + o).
Proof.
  intros Hs Hi Hb H1 H2.
  assert (Hr : forall a, 0 <= at16 disk a < 2 ^ 16).
  { intros a. unfold at16. pose proof (Hb a). pose proof (Hb (a + 1)). lia. }
  pose proof (Hr (BLOCK_SIZE + 4)) as Hi1. pose proof (Hr (BLOCK_SIZE + 6)) as Hz1.
  fold (imap_blocks disk) in Hi1. fold (zmap_blocks disk) in Hz1.
  exists (ptr ino). destruct (Z.eqb_spec (ino mod INODES_PER_BLOCK) 0) as [H0|H0].
  - rewrite (get_inode_any disk ino s Hs ltac:(lia)). eexists. split; [done|]. intros o Ho.
    unfold ptr. rewrite H0, patch_out by lia. f_equal.
  - destruct (get_inode_run disk ino s Hs ltac:(lia) H0) as (r & E & L & _). exists r. split; [done|].
    intros o Ho. rewrite L by done. f_equal. unfold inode_at, inode_block, inode_offset. rewrite H1, H2.
    change INODES_PER_BLOCK with 32 in *. rewrite (u32_small (ino - 1)) by lia.
    rewrite u32_small by lia. unfold BLOCK_SIZE. lia.
Qed.

(** A partition with the directory entry "kernel.bin" for inode 2, of two
    blocks. *)
Definition boot_blocks : list (list Z) := [
  []; block_of (two 32 ++ two 12 ++ two 1 ++ two 1 ++ two 5); []; [];
  block_of (raw_inode 0x41ed 48 2 [5; 0; 0; 0; 0; 0; 0; 0; 0] ++
            raw_inode 0x81a4 1500 1 [6; 7; 0; 0; 0; 0; 0; 0; 0]);
  block_of (entry 1 [46] ++ entry 1 [46; 46] ++ entry 2 the_name);
  block_of [104; 105]; block_of [111; 107]
].
Definition boot_disk (a : Z) : Z :=
  if a <? 0 then 0 else default 0 (boot_blocks !! Z.to_nat (a / 1024) ≫= fun l => l !! Z.to_nat (a mod 1024)).
Definition power_on : loader := Loader (fun _ => 0) 0.

Lemma boot_solid : solid boot_disk 2 2.
Proof.
  split; [split; [done|discriminate]|]. split.
  - intros k Hk. assert (k = 0 \/ k = 1) as [->| ->] by lia; vm_compute; discriminate.
  - intros k [Hk _]. unfold file_zone.
    assert (E7 : inode_zone boot_disk 2 7 = 0) by (vm_compute; reflexivity).
    assert (E8 : inode_zone boot_disk 2 8 = 0) by (vm_compute; reflexivity).
    rewrite E7, E8. destruct (Z.ltb_spec k 7); [|by destruct (k - 7 <? 512)].
    assert (k = 2 \/ k = 3 \/ k = 4 \/ k = 5 \/ k = 6) as Hc by lia.
    destruct Hc as [->|[->|[->|[->| ->]]]]; vm_compute; reflexivity.
Qed.

Lemma boot_main_spec_witness :
  exists s', boot_main boot_disk power_on = Ret tt s' /\ mem s' 0x800000 = 104 /\ mem s' 0x800401 = 107.
Proof.
  destruct (proj2 (boot_main_spec boot_disk power_on) 2 2) as (s' & E & H).
  - vm_compute. reflexivity.
  - split; [split; [discriminate|reflexivity]|discriminate].
  - vm_compute. discriminate.
  - exact boot_solid.
  - exists s'. split; [exact E|]. split.
    + change 0x800000 with (KERNEL_START_ADDRESS + 0). rewrite (H 0 ltac:(discriminate)). vm_compute. reflexivity.
    + change 0x800401 with (KERNEL_START_ADDRESS + 0x401). rewrite (H 0x401 ltac:(discriminate)). vm_compute. reflexivity.
Defined.

(** Inode 32 of the sample would be at the end of block 4. *)
Definition booted : loader := Loader (patch boot_disk 1 0x100000 (fun _ => 1)) 0x100000.
Lemma get_inode_spec_witness :
  exists p r, get_inode boot_disk 32 booted = Ret p (booted <| mem := r |>) /\ r (p + 0) = 1.
Proof.
  destruct (get_inode_spec boot_disk 32 booted super0) as (p & r & E & H).
  - split; [reflexivity|]. intros k Hk. cbn [mem booted]. rewrite patch_in by lia.
    f_equal. unfold BLOCK_SIZE. lia.
  - split; reflexivity.
  - intros x. unfold boot_disk. destruct (x <? 0); [split; [discriminate|reflexivity]|].
    destruct (boot_blocks !! Z.to_nat (x / 1024)) as [l|] eqn:El; [|split; [discriminate|reflexivity]].
    cbn [mbind option_bind]. destruct (l !! Z.to_nat (x mod 1024)) as [v|] eqn:Ev; [|split; [discriminate|reflexivity]].
    assert (Hb : forallb (forallb (fun v => (0 <=? v) && (v <? 2 ^ 8))) boot_blocks = true) by (vm_compute; reflexivity).
    apply list_elem_of_lookup_2, list_elem_of_In in El. apply list_elem_of_lookup_2, list_elem_of_In in Ev.
    pose proof (proj1 (forallb_forall _ _) Hb l El) as Hl. pose proof (proj1 (forallb_forall _ _) Hl v Ev) as Hv.
    cbv beta in Hv. apply andb_prop in Hv as [Hv1 Hv2]. apply Z.leb_le in Hv1. apply Z.ltb_lt in Hv2.
    split; assumption.
  - vm_compute. reflexivity.
  - vm_compute. reflexivity.
  - exists p, r. split; [exact E|]. rewrite (H 0 ltac:(split; [discriminate|reflexivity])). reflexivity.
Defined.
