(* ===== verification/Init.v ===== *)
(** * Starting the kernel: main() of arch/x86/main.c and the initialisation of
    every component

    [system] has the state of all components side by side, each component
    runs on its part by a lens.  The addresses that the linker fixes are in
    [symbols]; [boot] is the memory at 0x90000, bytes that the boot loader
    left.  The ports are those of class [Disk] of Hd.v; class [Board] adds the
    documented behaviour of the interrupt controllers and of the timer. *)

From S2P Require Import Prelude Task Sched Desc Mem Fork WaitQ Block Buffer Blk Hd.
From S2P Require Console.

Record symbols := Symbols {
  init_task : Z; _end_kernel : Z;
  page_fault : Z; timer_interrupt : Z; system_call : Z; hd_interrupt : Z;
  keyboard_interrupt : Z; ignore_int : Z
}.
(** [_pg_dir = _end_kernel] in kernel_x86.ld. *)
Definition _pg_dir (im : symbols) : Z := _end_kernel im.

Record system (D : Type) := System {
  y_kern : kern; y_idt : list desc_struct;
  y_cache : cache; y_blk : blk; y_driver : driver; y_disk : D; y_con : Console.con;
  ROOT_DEV : Z; total_mem_size : Z; drive_info : list Z; heap : Z
}.
Arguments System {D}. Arguments y_kern {D}. Arguments y_idt {D}. Arguments y_cache {D}.
Arguments y_blk {D}. Arguments y_driver {D}. Arguments y_disk {D}. Arguments y_con {D}.
Arguments ROOT_DEV {D}. Arguments total_mem_size {D}. Arguments drive_info {D}. Arguments heap {D}.
#[export] Instance eta_system D : Eta (system D) := fun s =>
  System (y_kern s) (y_idt s) (y_cache s) (y_blk s) (y_driver s) (y_disk s) (y_con s)
    (ROOT_DEV s) (total_mem_size s) (drive_info s) (heap s).

Definition kern_l {D} : lens (system D) kern := Lens y_kern (fun k s => s <| y_kern := k |>).
Definition mm_l {D} : lens (system D) mm := comp kern_l kmm_l.
Definition bufs_l {D} : lens (system D) cache := Lens y_cache (fun c s => s <| y_cache := c |>).
Definition reqs_l {D} : lens (system D) blk := Lens y_blk (fun k s => s <| y_blk := k |>).
Definition con_l {D} : lens (system D) Console.con := Lens y_con (fun c s => s <| y_con := c |>).
(** The parts that the hard disk driver works on. *)
Definition mach_l {D} : lens (system D) (machine D) := Lens
  (fun s => Machine (k_sched (y_kern s)) (y_cache s) (y_blk s) (y_driver s) (y_disk s))
  (fun m s => s <| y_kern ::= (fun k => k <| k_sched := m_sched m |>) |> <| y_cache := m_cache m |>
                <| y_blk := m_blk m |> <| y_driver := m_driver m |> <| y_disk := m_disk m |>).

(** ** What the boot loader left *)

Definition MACH_DATA_PHY : Z := 0x9000 * 0x10.
Definition __get_mem_size (boot : Z -> Z) : Z := at32 boot (MACH_DATA_PHY + 0x200).
Definition __get_paging_frames (boot : Z -> Z) : Z := at32 boot (MACH_DATA_PHY + 0x204).
Definition DRIVE_INFO (boot : Z -> Z) : list Z := (fun k => boot (0x90080 + k)) <$> seqZ 0 32.
Definition ORIG_X (boot : Z -> Z) : Z := boot 0x90000.
Definition ORIG_Y (boot : Z -> Z) : Z := boot 0x90001.
Definition ORIG_VIDEO_MODE (boot : Z -> Z) : Z := Z.land (at16 boot 0x90006) 0xff.
Definition ORIG_VIDEO_COLS (boot : Z -> Z) : Z := Z.shiftr (Z.land (at16 boot 0x90006) 0xff00) 8.
Definition ORIG_VIDEO_EGA_BX (boot : Z -> Z) : Z := at16 boot 0x9000a.

(** The macro [Descriptor] of pm.inc; gdt and setup_idt of head.S. *)
Definition Descriptor (Base Limit Attr : Z) : desc_struct :=
  Desc (Z.lor (Z.land Limit 0xFFFF) (Z.shiftl (Z.land Base 0xFFFF) 16))
       (Z.lor (Z.land (Z.shiftr Base 16) 0xFF)
         (Z.lor (Z.shiftl (Z.lor (Z.land (Z.shiftr Limit 8) 0xF00) (Z.land Attr 0xF0FF)) 8)
                (Z.shiftl (Z.land (Z.shiftr Base 24) 0xFF) 24))).
Definition head_gdt : list desc_struct :=
  [Descriptor 0 0 0; Descriptor 0 0x0fffff 0xC09A; Descriptor 0 0x0fffff 0xC092;
   Descriptor 0x0B8000 0x0ffff 0x00F2] ++ replicate 252 (Desc 0 0).
Definition setup_idt (im : symbols) : list desc_struct :=
  replicate 256 (set_intr_gate (ignore_int im)).

(** The static data of the kernel, which init_bss_section() leaves as it is:
    the variables of the bss section have the value 0. *)
Definition start_kern (im : symbols) (ram : Z -> Z) : kern :=
  Kern (Sched (Some (INIT_TASK (init_task im) (_pg_dir im)) :: replicate (NR_TASKS - 1) None) 0 0)
    (Mm (replicate (Z.to_nat MM_BITMAPS) 0) [] ram 0 (_pg_dir im)) head_gdt
    (replicate 64 0) (replicate 32 0) (init_task im :: replicate (NR_TASKS - 1) 0).
Definition start_blk : blk :=
  Blk (replicate (Z.to_nat NR_REQUEST) (Req 0 0 0 0 0 0 None None None)) None
    (replicate (Z.to_nat NR_BLK_DEV) (BlkDev false None)).
Definition start_driver : driver :=
  Driver (replicate 10 (HdStruct 0 0)) (replicate 2 (HdInfo 0 0 0 0 0 0)) 0 0 0 None 1.
Definition start {D} (im : symbols) (ram : Z -> Z) (video : list Z) (d : D) : system D :=
  System (start_kern im ram) (setup_idt im) (Cache [] (replicate (Z.to_nat NR_HASH) None) None None 0)
    start_blk start_driver d (Console.boot_con video) 0 0 (replicate 32 0) 0.

(** ** The operations *)

Section ops.
Context {D : Type} `{!Disk D} (im : symbols) (boot : Z -> Z).
Notation MS := (M (system D)).

Definition inb (port : Z) : MS Z := zoom mach_l (Hd.inb port).
Definition outb (value port : Z) : MS unit := zoom mach_l (Hd.outb value port).
(** [set_*_gate(n,addr)], with the descriptor made by Desc.v. *)
Definition put_gate (n : Z) (g : desc_struct) : MS unit :=
  let! s := get in
  let! _ := deref (zget (y_idt s) n) in
  modify (fun s => s <| y_idt ::= zset n g |>).

Definition init_machine_data : MS unit :=
  modify (fun s => s <| total_mem_size := __get_mem_size boot |>).

Definition buffer_memory_end : Z := 4 * 1024 * 1024.
(** The memory of the buffers, which mm_init() has just cleared. *)
Definition cleared (h : nat) : buffer_head :=
  Bh 0 (replicate (Z.to_nat BLOCK_SIZE) 0) 0 0 0 0 0 0 None None None None None.
Definition mm_init (fuel : nat) : MS unit :=
  let! kb := gets total_mem_size in
  zoom mm_l (Mem.mm_init fuel kb (_end_kernel im) (__get_paging_frames boot)) ;;
  zoom bufs_l (buffer_init cleared fuel buffer_memory_end).

Definition trap_init : MS unit := put_gate 14 (set_trap_gate (page_fault im)).

Definition HEAP_PHY_START : Z := 0x100000.
Definition init_heap : MS unit := modify (fun s => s <| heap := HEAP_PHY_START |>).
Definition __get_heap (s a n : Z) : MS Z :=
  modify (fun y => y <| heap ::= fun h => Z.land (u32 (h + (a - 1))) (Z.lnot (a - 1)) |>) ;;
  let! tmp := gets heap in
  modify (fun y => y <| heap ::= fun h => u32 (h + s * n) |>) ;;
  ret tmp.

Definition LATCH : Z := 1193182 / HZ.
Definition schedule_init : MS unit :=
  zoom kern_l (Fork.schedule_init (init_task im)) ;;
  outb 0x36 0x43 ;;
  outb (Z.land LATCH 0xff) 0x40 ;;
  outb (Z.shiftr LATCH 8) 0x40 ;;
  put_gate 0x20 (set_intr_gate (timer_interrupt im)) ;;
  let! v := inb 0x21 in
  outb (Z.lor v 0xFF) 0x21 ;;
  let! v := inb 0x21 in
  outb (Z.land v (Z.lnot 0x01)) 0x21 ;;
  put_gate 0x80 (set_system_gate (system_call im)).

Definition hd_init : MS unit :=
  zoom mach_l (hd_register ;; reset_controller) ;;
  put_gate 0x2E (set_intr_gate (hd_interrupt im)) ;;
  let! v := inb 0x21 in
  outb (Z.land v 0xfb) 0x21 ;;
  let! v := inb 0xA1 in
  outb (Z.land v 0xbf) 0xA1.

(** con_init() is Console.con_init and its last lines. *)
Definition con_init : MS unit :=
  zoom con_l (Console.con_init (ORIG_X boot) (ORIG_Y boot) (ORIG_VIDEO_MODE boot)
    (ORIG_VIDEO_COLS boot) (ORIG_VIDEO_EGA_BX boot)) ;;
  put_gate 0x21 (set_trap_gate (keyboard_interrupt im)) ;;
  let! v := inb 0x21 in
  outb (Z.land v 0xfd) 0x21 ;;
  let! a := inb 0x61 in
  outb (Z.lor a 0x80) 0x61 ;;
  outb a 0x61.
Definition tty_init : MS unit := con_init.

(** main(), up to move_to_user_mode(): the result is [stack_top].  The call of
    init_bss_section() has no effect on [start]. *)
Definition main (fuel : nat) : MS Z :=
  modify (fun s => s <| ROOT_DEV := 0x301 |>) ;;
  init_machine_data ;;
  modify (fun s => s <| drive_info := DRIVE_INFO boot |>) ;;
  mm_init fuel ;;
  trap_init ;;
  init_heap ;;
  schedule_init ;;
  zoom reqs_l blk_dev_init ;;
  hd_init ;;
  tty_init ;;
  let! page := zoom mm_l get_free_page in
  ret (u32 (page + 4096)).
End ops.

(** move_to_user_mode(): the registers after [iret] and the moves, [label] is
    the address of the label 1. *)
Definition move_to_user_mode (stack_top label : Z) (r : frame) : frame :=
  Frame (r_ebp r) (r_edi r) (r_esi r) 0x1B (r_ebx r) (r_ecx r) (r_edx r)
    0x17 0x17 0x17 label 0x0f (r_eflags r) stack_top 0x17.

(** The loops of process1() and process2(): of the values of [jiffies] that
    they read, those at which they print. *)
Fixpoint announce (start : Z) (jiffies : list Z) : list Z :=
  match jiffies with
  | [] => []
  | end1 :: l => if 600 <? u32 (end1 - start) then end1 :: announce end1 l else announce start l
  end.

(** ** The documented behaviour of the board

    [imr d p] is the mask register of the 8259A that is read and written at
    the port [p] (0x21 or 0xA1), [pit d] the reload value of channel 0 of the
    8253. *)

Class Board (D : Type) `{!Disk D} := {
  imr : D -> Z -> Z;
  pit : D -> option Z;
  imr_in p d : p = 0x21 \/ p = 0xA1 -> fst (d_inb p d) = imr d p;
  imr_range d p : 0 <= imr d p < 2 ^ 8;
  in_keeps p d : imr (snd (d_inb p d)) = imr d /\ pit (snd (d_inb p d)) = pit d;
  imr_out p v d : p = 0x21 \/ p = 0xA1 -> 0 <= v < 2 ^ 8 ->
    forall q, q = 0x21 \/ q = 0xA1 -> imr (d_outb p v d) q = if decide (q = p) then v else imr d q;
  imr_other p v d : p <> 0x20 -> p <> 0x21 -> p <> 0xA0 -> p <> 0xA1 -> imr (d_outb p v d) = imr d;
  pit_program lo hi d : 0 <= lo < 2 ^ 8 -> 0 <= hi < 2 ^ 8 ->
    pit (d_outb 0x40 hi (d_outb 0x40 lo (d_outb 0x43 0x36 d))) = Some (lo + 0x100 * hi);
  pit_other p v d : p < 0x40 \/ 0x43 < p -> pit (d_outb p v d) = pit d
}.

(** ** What each step does *)

Section runs.
Context {D : Type} `{!Disk D, !Board D} (im : symbols) (boot : Z -> Z).

(** Masks and timer. *)
Definition board (d : D) (m1 m2 : Z) (t : option Z) : Prop :=
  imr d 0x21 = m1 /\ imr d 0xA1 = m2 /\ pit d = t.
Lemma board_in p d m1 m2 t : board d m1 m2 t -> board (snd (d_inb p d)) m1 m2 t.
Proof. intros (H1 & H2 & H3). unfold board. by rewrite !(proj1 (in_keeps p d)), (proj2 (in_keeps p d)). Qed.
Lemma board_out p v d m1 m2 t : 0xA1 < p \/ 0x43 < p < 0xA0 -> board d m1 m2 t -> board (d_outb p v d) m1 m2 t.
Proof. intros Hp (H1 & H2 & H3). unfold board. rewrite imr_other, pit_other by lia. done. Qed.
Lemma board_mask1 v d m1 m2 t : 0 <= v < 2 ^ 8 -> board d m1 m2 t -> board (d_outb 0x21 v d) v m2 t.
Proof.
  intros Hv (H1 & H2 & H3). unfold board. rewrite !(imr_out 0x21) by auto. rewrite pit_other by lia.
  by rewrite decide_True, decide_False.
Qed.
Lemma board_mask2 v d m1 m2 t : 0 <= v < 2 ^ 8 -> board d m1 m2 t -> board (d_outb 0xA1 v d) m1 v t.
Proof.
  intros Hv (H1 & H2 & H3). unfold board. rewrite !(imr_out 0xA1) by auto. rewrite pit_other by lia.
  by rewrite decide_False, decide_True.
Qed.
Lemma board_read p d m1 m2 t : board d m1 m2 t ->
  (p = 0x21 -> u8 (fst (d_inb p d)) = m1) /\ (p = 0xA1 -> u8 (fst (d_inb p d)) = m2).
Proof.
  intros (<- & <- & _). split; intros ->; rewrite imr_in by auto; apply u8_small, imr_range.
Qed.

Lemma inb_bind {B} p (k : Z -> M (system D) B) s :
  bind (inb p) k s = k (u8 (fst (d_inb p (y_disk s)))) (s <| y_disk := snd (d_inb p (y_disk s)) |>).
Proof.
  unfold bind, inb, Hd.inb, zoom. cbn. destruct (d_inb p (y_disk s)). cbn.
  by destruct s as [[] ? ? ? ? ? ? ? ? ? ?].
Qed.
Lemma port_out_run v p (s : system D) : outb v p s = Ret tt (s <| y_disk ::= d_outb p (u8 v) |>).
Proof. unfold outb, Hd.outb, zoom. cbn. by destruct s as [[] ? ? ? ? ? ? ? ? ? ?]. Qed.
Lemma outb_bind {B} v p (k : unit -> M (system D) B) s :
  bind (outb v p) k s = k tt (s <| y_disk ::= d_outb p (u8 v) |>).
Proof. exact (bind_ret _ _ _ _ _ (port_out_run v p s)). Qed.
Lemma put_gate_run n g (s : system D) : 0 <= n < Z.of_nat (length (y_idt s)) ->
  put_gate n g s = Ret tt (s <| y_idt ::= zset n g |>).
Proof.
  intros H. destruct (zget_is_Some (y_idt s) n H) as [x E]. unfold put_gate.
  by rewrite bind_get, (bind_deref _ _ _ _ E).
Qed.

(** [let! v := inb port in outb (f v) port] on a mask register. *)
Lemma mask1_bind {B} f (k : unit -> M (system D) B) s m1 m2 t : board (y_disk s) m1 m2 t ->
  exists d, bind (inb 0x21) (fun v => outb (f v) 0x21 ;; k tt) s = k tt (s <| y_disk := d |>) /\
    board d (u8 (f m1)) m2 t.
Proof.
  intros Hb. rewrite inb_bind, outb_bind. eexists. split; [reflexivity|].
  cbn [y_disk upd eta_system]. rewrite (proj1 (board_read 0x21 _ _ _ _ Hb)) by done.
  eapply board_mask1; [apply u8_range|]. apply board_in, Hb.
Qed.
Lemma mask2_bind {B} f (k : unit -> M (system D) B) s m1 m2 t : board (y_disk s) m1 m2 t ->
  exists d, bind (inb 0xA1) (fun v => outb (f v) 0xA1 ;; k tt) s = k tt (s <| y_disk := d |>) /\
    board d m1 (u8 (f m2)) t.
Proof.
  intros Hb. rewrite inb_bind, outb_bind. eexists. split; [reflexivity|].
  cbn [y_disk upd eta_system]. rewrite (proj2 (board_read 0xA1 _ _ _ _ Hb)) by done.
  eapply board_mask2; [apply u8_range|]. apply board_in, Hb.
Qed.

(** *** mm_init() *)

Lemma mm_start_run fuel a off (s : system D) :
  _end_kernel im + __get_paging_frames boot * 4096 = page_addr a + off ->
  0 <= total_mem_size s < 2 ^ 21 -> 0 <= a -> 0 <= off < Mem.PAGE_SIZE ->
  page_addr a + off <= 2 ^ 31 -> 2 ^ 20 <= Z.of_nat fuel ->
  bufs (y_cache s) = [] -> NR_BUFFERS (y_cache s) = 0 ->
  exists m c, mm_init im boot fuel s =
      Ret tt (s <| y_kern ::= (fun k => k <| k_mm := m |>) |> <| y_cache := c |>) /\
    mm_wf m /\ HIGH_MEMORY m = total_mem_size s * 1024 /\ pg_dir m = pg_dir (k_mm (y_kern s)) /\
    (forall b, 0x800000 <= b -> Mem.ram m b = Mem.ram (k_mm (y_kern s)) b) /\
    (forall k, 0 <= k < MM_PAGES ->
      refs m k = if (a <=? k) && (page_addr k + off <? total_mem_size s * 1024) then 0 else 1) /\
    wf c (seq 0 (room buffer_memory_end)) (fun _ => []) /\
    NR_BUFFERS c = Z.of_nat (room buffer_memory_end).
Proof.
  intros Hstart Hkb Ha Ho Hst Hfuel Hc Hn.
  destruct (Mem.mm_init_run fuel (total_mem_size s) (_end_kernel im) (__get_paging_frames boot) a off
    (k_mm (y_kern s))) as (m & E & Hw & Hh & Hd & Hram & Hk); try done.
  { rewrite Hstart. apply u32_small. unfold page_addr, Mem.PAGE_SIZE, LOW_MEM in *. lia. }
  assert (Hroom : room buffer_memory_end = Z.to_nat 2967) by reflexivity.
  assert (Hf : (2 <= room buffer_memory_end < fuel)%nat) by (rewrite Hroom; lia).
  assert (Hb : exists c, buffer_init cleared fuel buffer_memory_end (y_cache s) = Ret tt c /\
    wf c (seq 0 (room buffer_memory_end)) (fun _ => []) /\ NR_BUFFERS c = Z.of_nat (room buffer_memory_end)).
  { eexists. split; [by apply buffer_init_run|]. split; [|cbn [NR_BUFFERS]; lia].
    apply tied_wf; [apply Hf|]. intros h. by split. }
  destruct Hb as (c & Ec & Hwc & Hnc). exists m, c. split_and!; try done.
  2:{ intros b Hb. rewrite Hram, (proj2 (Z.ltb_ge _ _)) by done. by rewrite andb_false_r. }
  unfold mm_init. rewrite bind_gets.
  rewrite (bind_zoom mm_l _ _ _ tt m) by exact E. unfold zoom. cbn [lget bufs_l].
  change (y_cache (lset mm_l m s)) with (y_cache s). rewrite Ec. done.
Qed.

(** *** schedule_init() *)

Definition started_gdt : list desc_struct :=
  take 4 head_gdt ++ [set_tss_desc (Desc 0 0) (init_task im + offset_tss);
    set_ldt_desc (Desc 0 0) (init_task im + offset_ldt)] ++ replicate 250 (Desc 0 0).

(** Slots that are empty already. *)
Lemma clear_tasks_same n : forall i k,
  (forall j, (i <= j < i + n)%nat -> task (k_sched k) !! j = Some None /\
     zget (k_gdt k) (Z.of_nat j * 2 + FIRST_TSS_ENTRY) = Some (Desc 0 0) /\
     zget (k_gdt k) (Z.of_nat j * 2 + FIRST_TSS_ENTRY + 1) = Some (Desc 0 0)) ->
  clear_tasks n i k = Ret tt k.
Proof.
  induction n as [|n IH]; intros i k H; cbn [clear_tasks]; [done|].
  destruct (H i ltac:(lia)) as (Ht & G1 & G2).
  assert (Hi : (i < length (task (k_sched k)))%nat) by (by eapply lookup_lt_Some).
  rewrite put_task_run by done.
  assert (Ek : with_task i None k = k).
  { unfold with_task. destruct k as [[l c p] ? ? ? ? ?]. cbn in *. by rewrite list_insert_id. }
  rewrite Ek, (put_gdt_run _ _ _ _ _ G1).
  assert (Eg : forall j, zget (k_gdt k) j = Some (Desc 0 0) -> k <| k_gdt ::= zset j (Desc 0 0) |> = k).
  { intros j Hj. destruct k as [? ? g ? ? ?]. cbn in *. by rewrite zset_id. }
  rewrite Eg, (put_gdt_run _ _ _ _ _ G2), Eg by done. apply IH. intros j Hj. apply H. lia.
Qed.

Lemma first_task_run ram m :
  Fork.schedule_init (init_task im) ((start_kern im ram) <| k_mm := m |>) =
    Ret tt ((start_kern im ram) <| k_mm := m |> <| k_gdt := started_gdt |>).
Proof.
  unfold Fork.schedule_init. erewrite put_gdt_run by reflexivity. erewrite put_gdt_run by reflexivity.
  match goal with |- clear_tasks _ _ ?k = _ => assert (E : k = (start_kern im ram) <| k_mm := m |> <| k_gdt := started_gdt |>) end.
  { reflexivity. }
  rewrite E. apply clear_tasks_same. intros j Hj.
  assert (j = 1 \/ j = 2 \/ j = 3 \/ j = 4 \/ j = 5 \/ j = 6 \/ j = 7)%nat as Hc by (unfold NR_TASKS in *; lia).
  destruct Hc as [->|[->|[->|[->|[->|[->| ->]]]]]]; by split_and!.
Qed.

Lemma mask_all m : 0 <= m < 2 ^ 8 -> u8 (Z.lor m 0xFF) = 0xFF.
Proof.
  intros Hm. change 0xFF with (Z.ones 8). rewrite Z.lor_ones_low; [done|lia|].
  destruct (Z.eqb_spec m 0) as [->|]; [done|]. apply Z.log2_lt_pow2; lia.
Qed.

Lemma schedule_init_run ram m (s : system D) m2 :
  y_kern s = (start_kern im ram) <| k_mm := m |> -> length (y_idt s) = 256%nat -> imr (y_disk s) 0xA1 = m2 ->
  exists d, schedule_init im s = Ret tt (s <| y_kern ::= (fun k => k <| k_gdt := started_gdt |>) |>
      <| y_idt ::= zset 0x80 (set_system_gate (system_call im)) ∘ zset 0x20 (set_intr_gate (timer_interrupt im)) |>
      <| y_disk := d |>) /\
    board d 0xFE m2 (Some LATCH).
Proof.
  intros Hk Hl Hm. unfold schedule_init.
  rewrite (bind_zoom kern_l _ _ s tt ((start_kern im ram) <| k_mm := m |> <| k_gdt := started_gdt |>))
    by (cbn [lget kern_l]; rewrite Hk; apply first_task_run).
  rewrite !outb_bind. erewrite bind_ret by (apply put_gate_run; cbn; rewrite Hl; done).
  match goal with |- context [bind (inb 0x21) _ ?t] => set (s1 := t) end.
  assert (B1 : board (y_disk s1) (imr (y_disk s) 0x21) m2 (Some LATCH)).
  { cbn [s1 y_disk upd eta_system lset kern_l]. unfold board.
    change (Some LATCH) with (Some (Z.land LATCH 0xff + 0x100 * Z.shiftr LATCH 8)).
    change (u8 (Z.land LATCH 0xff)) with (Z.land LATCH 0xff).
    change (u8 (Z.shiftr LATCH 8)) with (Z.shiftr LATCH 8). change (u8 0x36) with 0x36.
    rewrite !imr_other, pit_program by done. by rewrite Hm. }
  destruct (mask1_bind (fun v => Z.lor v 0xFF) (fun _ =>
    let! v := inb 0x21 in outb (Z.land v (Z.lnot 0x01)) 0x21 ;; put_gate 0x80 (set_system_gate (system_call im)))
    s1 _ _ _ B1) as (d1 & E1 & B2).
  rewrite E1. rewrite mask_all in B2 by apply imr_range. set (s2 := s1 <| y_disk := d1 |>).
  change d1 with (y_disk s2) in B2.
  destruct (mask1_bind (fun v => Z.land v (Z.lnot 0x01)) (fun _ => put_gate 0x80 (set_system_gate (system_call im)))
    s2 _ _ _ B2) as (d2 & E2 & B3).
  rewrite E2. exists d2. split; [|exact B3].
  rewrite put_gate_run by (unfold s2, s1; cbn; by rewrite length_insert, Hl).
  unfold s2, s1. cbn. rewrite Hk. done.
Qed.

(** *** hd_init() and tty_init() *)

Definition keeps_board (d d' : D) : Prop := forall m1 m2 t, board d m1 m2 t -> board d' m1 m2 t.
(** Operations of the driver that change nothing but the state of the ports. *)
Definition ports_only {A} (m : M (machine D) A) : Prop :=
  forall s, exists a d, m s = Ret a (s <| m_disk := d |>) /\ keeps_board (m_disk s) d.
Lemma ports_ret {A} (a : A) : ports_only (ret a).
Proof. intros s. exists a, (m_disk s). split; [by destruct s|by intros m1 m2 t]. Qed.
Lemma ports_bind {A B} (m : M (machine D) A) (k : A -> M (machine D) B) :
  ports_only m -> (forall a, ports_only (k a)) -> ports_only (bind m k).
Proof.
  intros Hm Hk s. destruct (Hm s) as (a & d & E & K). destruct (Hk a (s <| m_disk := d |>)) as (b & d' & E' & K').
  exists b, d'. rewrite (bind_ret _ _ _ _ _ E), E'. split; [done|]. intros m1 m2 t Hb. by apply K', K.
Qed.
Lemma ports_in p : ports_only (Hd.inb p).
Proof.
  intros s. exists (u8 (fst (d_inb p (m_disk s)))), (snd (d_inb p (m_disk s))).
  split; [|intros m1 m2 t; apply board_in].
  unfold Hd.inb, zoom. cbn. by destruct (d_inb p (m_disk s)).
Qed.
Lemma ports_out v p : 0xA1 < p \/ 0x43 < p < 0xA0 -> ports_only (Hd.outb v p).
Proof.
  intros Hp s. exists tt, (d_outb p (u8 v) (m_disk s)). split; [reflexivity|]. intros m1 m2 t. by apply board_out.
Qed.
Lemma ports_wait n : ports_only (drive_wait n).
Proof.
  induction n as [|n IH]; cbn [drive_wait]; [apply ports_ret|].
  apply ports_bind; [apply ports_in|]. intros v. case_match; [apply ports_ret|exact IH].
Qed.
Lemma ports_busy : ports_only drive_busy.
Proof.
  unfold drive_busy. apply ports_bind; [apply ports_wait|]. intros _.
  apply ports_bind; [apply ports_in|]. intros v. apply ports_ret.
Qed.
Lemma reset_controller_run s h : zget (hd_info (m_driver s)) 0 = Some h ->
  exists d, reset_controller s = Ret tt (s <| m_disk := d |>) /\ keeps_board (m_disk s) d.
Proof.
  intros E. unfold reset_controller.
  destruct (ports_out 4 HD_CMD ltac:(left; done) s) as ([] & d1 & E1 & K1). rewrite (bind_ret _ _ _ _ _ E1).
  unfold info, drv. rewrite bind_assoc, bind_gets. cbn [upd eta_machine m_driver]. rewrite (bind_deref _ _ _ _ E).
  assert (Hp : ports_only (Hd.outb (Z.land (ctl h) 0x0f) HD_CMD ;; drive_busy ;; Hd.inb HD_ERROR ;; ret tt)).
  { apply ports_bind; intros; [|].
    - apply ports_out. by left.
    - apply ports_bind; intros; [apply ports_busy|]. apply ports_bind; intros; [apply ports_in|apply ports_ret]. }
  destruct (Hp (s <| m_disk := d1 |>)) as ([] & d & E2 & K2). exists d. split; [exact E2|].
  intros m1 m2 t Hb. by apply K2, K1.
Qed.

Lemma hd_init_run (s : system D) dev h m1 m2 t :
  zget (blk_dev (y_blk s)) MAJOR_NR = Some dev -> zget (hd_info (y_driver s)) 0 = Some h ->
  length (y_idt s) = 256%nat -> board (y_disk s) m1 m2 t ->
  exists d, hd_init im s = Ret tt (s
      <| y_blk ::= (fun k => k <| blk_dev ::= zset MAJOR_NR (dev <| request_fn := true |>) |>) |>
      <| y_idt ::= zset 0x2E (set_intr_gate (hd_interrupt im)) |> <| y_disk := d |>) /\
    board d (u8 (Z.land m1 0xfb)) (u8 (Z.land m2 0xbf)) t.
Proof.
  intros Hd Hh Hl Hb. unfold hd_init.
  set (k1 := (y_blk s) <| blk_dev ::= zset MAJOR_NR (dev <| request_fn := true |>) |>).
  destruct (reset_controller_run (Machine (k_sched (y_kern s)) (y_cache s) k1 (y_driver s) (y_disk s)) h Hh)
    as (d0 & E0 & K0).
  rewrite (bind_zoom mach_l _ _ s tt (Machine (k_sched (y_kern s)) (y_cache s) k1 (y_driver s) d0)).
  2:{ unfold hd_register. rewrite bind_assoc. rewrite (bind_zoom blk_l _ _ _ dev (y_blk s)).
      2:{ unfold devf. rewrite bind_get.
          change (deref (zget (blk_dev (y_blk s)) MAJOR_NR) (y_blk s) = Ret dev (y_blk s)). by rewrite Hd. }
      rewrite (bind_zoom blk_l _ _ _ tt k1) by done. exact E0. }
  set (s1 := lset mach_l _ s).
  erewrite bind_ret by (apply put_gate_run; cbn; by rewrite Hl).
  match goal with |- context [bind (inb 0x21) _ ?t] => set (s2 := t) end.
  assert (B2 : board (y_disk s2) m1 m2 t) by (apply K0; exact Hb).
  destruct (mask1_bind (fun v => Z.land v 0xfb) (fun _ => let! v := inb 0xA1 in outb (Z.land v 0xbf) 0xA1)
    s2 _ _ _ B2) as (d1 & E1 & B3).
  rewrite E1. set (s3 := s2 <| y_disk := d1 |>). change d1 with (y_disk s3) in B3.
  rewrite inb_bind, port_out_run.
  exists (d_outb 0xA1 (u8 (Z.land (u8 (fst (d_inb 0xA1 (y_disk s3)))) 0xbf)) (snd (d_inb 0xA1 (y_disk s3)))).
  split.
  - unfold s3, s2, s1. by destruct s as [[] ? ? ? ? ? ? ? ? ? ?].
  - rewrite (proj2 (board_read 0xA1 _ _ _ _ B3)) by done.
    eapply board_mask2; [apply u8_range|]. apply board_in, B3.
Qed.

Lemma con_init_run (s : system D) mem m1 m2 t :
  y_con s = Console.boot_con mem -> length (y_idt s) = 256%nat -> board (y_disk s) m1 m2 t ->
  8 <= ORIG_VIDEO_COLS boot < 256 -> Z.Even (ORIG_VIDEO_COLS boot) ->
  0 <= ORIG_X boot <= ORIG_VIDEO_COLS boot -> 0 <= ORIG_Y boot < 25 ->
  Z.of_nat (length mem) = Console.video_words (ORIG_VIDEO_MODE boot) (ORIG_VIDEO_EGA_BX boot) ->
  25 * ORIG_VIDEO_COLS boot <= Console.video_words (ORIG_VIDEO_MODE boot) (ORIG_VIDEO_EGA_BX boot) ->
  exists c d, con_init im boot s = Ret tt (s <| y_con := c |>
      <| y_idt ::= zset 0x21 (set_trap_gate (keyboard_interrupt im)) |> <| y_disk := d |>) /\
    Console.con_wf c /\ Console.x c = ORIG_X boot /\ Console.y c = ORIG_Y boot /\
    board d (u8 (Z.land m1 0xfd)) m2 t.
Proof.
  intros Hc Hl Hb H1 H2 H3 H4 H5 H6.
  destruct (Console.con_init_establishes _ _ _ _ _ mem H1 H2 H3 H4 H5 H6) as (c & Ec & Hw & Hx & Hy & _).
  unfold con_init. rewrite (bind_zoom con_l _ _ s tt c) by (cbn [lget con_l]; by rewrite Hc).
  erewrite bind_ret by (apply put_gate_run; cbn; by rewrite Hl).
  match goal with |- context [bind (inb 0x21) _ ?t] => set (s2 := t) end.
  change (y_disk s) with (y_disk s2) in Hb.
  destruct (mask1_bind (fun v => Z.land v 0xfd) (fun _ => let! a := inb 0x61 in outb (Z.lor a 0x80) 0x61 ;; outb a 0x61)
    s2 _ _ _ Hb) as (d1 & E1 & B3).
  rewrite E1. set (s3 := s2 <| y_disk := d1 |>). change d1 with (y_disk s3) in B3.
  rewrite inb_bind, outb_bind, port_out_run. eexists c, _. split_and!; [reflexivity|done..|].
  cbn [y_disk upd eta_system]. apply board_out; [by right|]. apply board_out; [by right|]. by apply board_in.
Qed.
End runs.

(** ** The started system *)

Section started.
Context {D : Type} `{!Disk D, !Board D} (im : symbols) (boot : Z -> Z).

(** What main() relies on of the machine and of the boot loader: the kernel
    and its page tables end with page [a], there is memory after them, and
    the screen fits into the video memory [video]. *)
Record bootable (video : list Z) (a : Z) : Prop := {
  bo_kb : 0 <= __get_mem_size boot < 2 ^ 21;
  bo_end : _end_kernel im + __get_paging_frames boot * 4096 = page_addr a;
  bo_first : 0 <= a < MM_PAGES;
  bo_memory : page_addr a < __get_mem_size boot * 1024;
  bo_cols : 8 <= ORIG_VIDEO_COLS boot < 256 /\ Z.Even (ORIG_VIDEO_COLS boot);
  bo_cursor : 0 <= ORIG_X boot <= ORIG_VIDEO_COLS boot /\ 0 <= ORIG_Y boot < 25;
  bo_video : Z.of_nat (length video) = Console.video_words (ORIG_VIDEO_MODE boot) (ORIG_VIDEO_EGA_BX boot);
  bo_screen : 25 * ORIG_VIDEO_COLS boot <= Console.video_words (ORIG_VIDEO_MODE boot) (ORIG_VIDEO_EGA_BX boot)
}.

(** The handler and the access byte of a vector. *)
Definition vector (n : Z) : Z * Z :=
  if n =? 14 then (page_fault im, 0x8F)
  else if n =? 0x20 then (timer_interrupt im, 0x8E)
  else if n =? 0x21 then (keyboard_interrupt im, 0x8F)
  else if n =? 0x2E then (hd_interrupt im, 0x8E)
  else if n =? 0x80 then (system_call im, 0xEF)
  else (ignore_int im, 0x8E).
Definition leads_to (g : desc_struct) (v : Z * Z) : Prop :=
  gate_offset g = u32 (fst v) /\ getbits (d_a g) 16 16 = 8 /\ getbits (d_b g) 8 8 = snd v.

(** Every component is in its invariant.  [nr] is the page of the stack. *)
Record started (a nr : Z) (s : system D) : Prop := {
  sd_sched : k_sched (y_kern s) =
    Sched (Some (INIT_TASK (init_task im) (_pg_dir im)) :: replicate (NR_TASKS - 1) None) 0 0;
  sd_running : running (k_sched (y_kern s));
  sd_mm : mm_wf (k_mm (y_kern s));
  sd_high : HIGH_MEMORY (k_mm (y_kern s)) = __get_mem_size boot * 1024;
  sd_stack : a <= nr < MM_PAGES /\ refs (k_mm (y_kern s)) nr = 1;
  sd_free : forall k, 0 <= k < MM_PAGES -> k <> nr ->
    (refs (k_mm (y_kern s)) k = 0 <-> a <= k < nr);
  sd_tss : exists d, zget (k_gdt (y_kern s)) FIRST_TSS_ENTRY = Some d /\
    get_base d = u32 (init_task im + offset_tss) /\ getbits (d_b d) 8 8 = 0x89;
  sd_ldt : exists d, zget (k_gdt (y_kern s)) FIRST_LDT_ENTRY = Some d /\
    get_base d = u32 (init_task im + offset_ldt) /\ getbits (d_b d) 8 8 = 0x82;
  sd_idt : forall n, 0 <= n < 256 -> exists g, zget (y_idt s) n = Some g /\ leads_to g (vector n);
  sd_io : io_inv (y_cache s) (y_blk s) MAJOR_NR [];
  sd_driver : exists d, zget (blk_dev (y_blk s)) MAJOR_NR = Some d /\ request_fn d = true;
  sd_con : Console.con_wf (y_con s) /\ Console.x (y_con s) = ORIG_X boot /\ Console.y (y_con s) = ORIG_Y boot;
  sd_irq : imr (y_disk s) 0x21 = 0xF8 /\ Z.testbit (imr (y_disk s) 0xA1) 6 = false;
  sd_timer : pit (y_disk s) = Some LATCH;
  sd_root : ROOT_DEV s = 0x301 /\ drive_info s = DRIVE_INFO boot
}.

Definition started_idt : list desc_struct :=
  zset 0x21 (set_trap_gate (keyboard_interrupt im)) (zset 0x2E (set_intr_gate (hd_interrupt im))
    (zset 0x80 (set_system_gate (system_call im)) (zset 0x20 (set_intr_gate (timer_interrupt im))
      (zset 14 (set_trap_gate (page_fault im)) (setup_idt im))))).
Lemma length_started : Z.of_nat (length (setup_idt im)) = 256.
Proof. done. Qed.
Lemma started_idt_leads n : 0 <= n < 256 ->
  exists g, zget started_idt n = Some g /\ leads_to g (vector n).
Proof.
  intros Hn. unfold started_idt, vector.
  assert (Hg : forall addr, leads_to (set_intr_gate addr) (addr, 0x8E) /\
    leads_to (set_trap_gate addr) (addr, 0x8F) /\ leads_to (set_system_gate addr) (addr, 0xEF)).
  { intros addr. destruct (descriptors_decode (Desc 0 0) addr) as (_ & _ & Hg & H1 & H2 & H3).
    split_and!; (split; [apply Hg; auto|split; [apply Hg; auto|done]]). }
  assert (Hz : forall i (g : desc_struct) l, zget (zset i g l) n = if (n =? i) && (n <? Z.of_nat (length l)) then Some g else zget l n).
  { intros i g l. destruct (Z.eqb_spec n i) as [<-|]; [|by apply zget_zset_ne].
    destruct (Z.ltb_spec n (Z.of_nat (length l))); [apply zget_zset_eq; lia|].
    unfold zget, zset. destruct (Z.ltb_spec n 0); [done|]. by rewrite list_insert_ge by lia. }
  rewrite !Hz, !length_zset, length_started, (proj2 (Z.ltb_lt n 256)), !andb_true_r by lia.
  repeat case_match; zb; subst; try done; try (eexists; split; [done|apply Hg]).
  eexists. split; [|apply Hg]. unfold zget, setup_idt. rewrite (proj2 (Z.ltb_ge n 0)) by lia.
  apply lookup_replicate. split; [done|lia].
Qed.

Lemma first_task_at i p :
  task_at (k_sched (start_kern im (fun _ => 0))) i = Some p -> p = INIT_TASK (init_task im) (_pg_dir im).
Proof. do 8 (destruct i as [|i]; [by intros [= <-]|]). done. Qed.
Lemma first_running ram : running (k_sched (start_kern im ram)).
Proof.
  split; [split; [done|]|].
  - intros i p ->%first_task_at. split; by split.
  - eexists. by split_and!.
Qed.

Lemma first_queue c : ok c ->
  io_inv c (start_blk <| requests ::= fmap (fun r => r <| r_dev := -1 |> <| r_next := None |>) |>
    <| blk_dev ::= zset MAJOR_NR (BlkDev true None) |>) MAJOR_NR [].
Proof.
  intros Hc. split; [done| |by split; constructor]. split.
  - split; [by eexists|by intros [|? ?] i l2|constructor].
  - done.
  - intros i r Hr. cbn in Hr. apply list_lookup_fmap_Some in Hr as (x & -> & _). cbn.
    split; [lia|by intros ?%elem_of_nil].
  - by intros i r _ ?%elem_of_nil.
  - exists [], []. by repeat constructor.
Qed.

(** The pages that mm_init() freed, less the highest one. *)
Lemma stack_page m m' a kb nr :
  (forall k, 0 <= k < MM_PAGES -> refs m k = if (a <=? k) && (page_addr k + 0 <? kb) then 0 else 1) ->
  0 <= a -> got_page m m' nr ->
  (a <= nr < MM_PAGES /\ refs m' nr = 1) /\
  forall k, 0 <= k < MM_PAGES -> k <> nr -> (refs m' k = 0 <-> a <= k < nr).
Proof.
  intros Hm Ha G. destruct (gp_free _ _ _ G) as (Hn & H0 & Hh).
  assert (Hnr : a <= nr /\ page_addr nr + 0 < kb).
  { rewrite Hm in H0 by done. destruct (Z.leb_spec a nr), (Z.ltb_spec (page_addr nr + 0) kb); done. }
  split; [split; [lia|by rewrite (gp_refs _ _ _ G), decide_True]|].
  intros k Hk Hne. rewrite (gp_refs _ _ _ G), decide_False, Hm by done.
  destruct (Z.leb_spec a k), (Z.ltb_spec (page_addr k + 0) kb); cbn; split; intros; try lia.
  - split; [done|]. destruct (Z.lt_ge_cases k nr); [done|].
    assert (Hk2 : 0 < refs m k) by (apply Hh; lia). rewrite Hm in Hk2 by done.
    rewrite (proj2 (Z.leb_le _ _)), (proj2 (Z.ltb_lt _ _)) in Hk2 by lia. done.
  - unfold page_addr, Mem.PAGE_SIZE in *. lia.
Qed.

Lemma last_page m m' a kb nr :
  (forall k, 0 <= k < MM_PAGES -> refs m k = if (a <=? k) && (page_addr k + 0 <? kb) then 0 else 1) ->
  0 <= a -> got_page m m' nr -> page_addr nr < kb /\ (nr + 1 < MM_PAGES -> kb <= page_addr (nr + 1)).
Proof.
  intros Hm Ha G. destruct (gp_free _ _ _ G) as (Hn & H0 & Hh). rewrite Hm in H0 by done.
  destruct (Z.leb_spec a nr), (Z.ltb_spec (page_addr nr + 0) kb); try done. split; [lia|]. intros Hl.
  specialize (Hh (nr + 1) ltac:(lia)). rewrite Hm, (proj2 (Z.leb_le _ _)) in Hh by lia.
  destruct (Z.ltb_spec (page_addr (nr + 1) + 0) kb); [done|lia].
Qed.

(** What main() has made of the kernel's tables and of memory: only the gdt and
    the allocator differ, and memory from 8 MB on is as it was but for the page
    [nr], the last one of memory. *)
Record left_alone (ram : Z -> Z) (nr : Z) (k : kern) : Prop := {
  la_kern : k = (start_kern im ram) <| k_mm := k_mm k |> <| k_gdt := started_gdt im |>;
  la_dir : pg_dir (k_mm k) = _pg_dir im;
  la_ram : forall b, 0x800000 <= b -> ~ (page_addr nr <= b < page_addr nr + Mem.PAGE_SIZE) ->
    Mem.ram (k_mm k) b = ram b;
  la_last : page_addr nr < __get_mem_size boot * 1024 /\
    (nr + 1 < MM_PAGES -> __get_mem_size boot * 1024 <= page_addr (nr + 1))
}.

Lemma main_run fuel ram video d a :
  bootable video a -> 2 ^ 20 <= Z.of_nat fuel ->
  exists nr s, main im boot fuel (start im ram video d) = Ret (u32 (page_addr nr + Mem.PAGE_SIZE)) s /\
    started a nr s /\ left_alone ram nr (y_kern s).
Proof.
  intros [Hkb Hend Ha Hmem [Hc1 Hc2] [Hx Hy] Hv Hsc] Hfuel. unfold main.
  rewrite bind_modify. unfold init_machine_data. rewrite !bind_modify.
  match goal with |- context [bind (mm_init _ _ _) _ ?t] => set (s0 := t) end.
  pose proof (page_addr_range a Ha) as Hra.
  destruct (mm_start_run im boot fuel a 0 s0) as (m & c & E1 & Hw & Hh & Hpd & Hram & Hr & Hwc & _); try done;
    [lia|unfold Mem.PAGE_SIZE; lia|unfold LOW_MEM in *; lia|].
  rewrite (bind_ret _ _ _ _ _ E1).
  unfold trap_init. erewrite bind_ret by (by apply put_gate_run). unfold init_heap. rewrite bind_modify.
  match goal with |- context [bind (schedule_init _) _ ?t] => set (s1 := t) end.
  destruct (schedule_init_run im ram m s1 (imr d 0xA1)) as (d1 & E2 & B1);
    [done|cbn; by rewrite length_insert|done|].
  rewrite (bind_ret _ _ _ _ _ E2).
  set (k1 := start_blk <| requests ::= fmap (fun r => r <| r_dev := -1 |> <| r_next := None |>) |>).
  rewrite (bind_zoom reqs_l _ _ _ tt k1) by done.
  match goal with |- context [bind (hd_init _) _ ?t] => set (s2 := t) end.
  change d1 with (y_disk s2) in B1.
  destruct (hd_init_run im s2 (BlkDev false None) (HdInfo 0 0 0 0 0 0) 0xFE (imr d 0xA1) (Some LATCH))
    as (d2 & E3 & B2); try done.
  rewrite (bind_ret _ _ _ _ _ E3).
  match goal with |- context [bind (tty_init _ _) _ ?t] => set (s3 := t) end.
  change d2 with (y_disk s3) in B2.
  destruct (con_init_run im boot s3 video 0xFA (u8 (Z.land (imr d 0xA1) 0xbf)) (Some LATCH)) as (co & d3 & E4 & Hwo & Hox & Hoy & B3); try done.
  unfold tty_init. rewrite (bind_ret _ _ _ _ _ E4).
  destruct (get_free_page_runs m Hw) as (nr & m' & E5 & G).
  { exists a. split; [done|]. rewrite Hr by done.
    by rewrite (proj2 (Z.leb_le _ _)), (proj2 (Z.ltb_lt _ _)) by (unfold s0; cbn; lia). }
  rewrite (bind_zoom mm_l _ _ _ (page_addr nr) m') by exact E5.
  destruct (stack_page m m' a _ nr Hr ltac:(lia) G) as [Hst Hfr].
  exists nr. eexists. split; [reflexivity|]. split.
  2:{ split.
      - reflexivity.
      - cbn. rewrite (gp_dir _ _ _ G). exact Hpd.
      - intros b Hb Hn. cbn. rewrite (gp_ram _ _ _ G), decide_False by done. by rewrite Hram.
      - exact (last_page m m' a _ nr Hr ltac:(lia) G). }
  split; try done.
  - apply (first_running ram).
  - apply G.
  - cbn. rewrite (gp_high _ _ _ G). exact Hh.
  - exists (set_tss_desc (Desc 0 0) (init_task im + offset_tss)). split; [done|].
    destruct (descriptors_decode (Desc 0 0) (init_task im + offset_tss)) as ((H1 & _ & H2) & _). done.
  - exists (set_ldt_desc (Desc 0 0) (init_task im + offset_ldt)). split; [done|].
    destruct (descriptors_decode (Desc 0 0) (init_task im + offset_ldt)) as (_ & (H1 & _ & H2) & _). done.
  - intros n Hn. apply started_idt_leads, Hn.
  - apply first_queue. by eexists _, _.
  - by eexists.
  - split; [apply B3|]. change (Z.testbit (imr d3 0xA1) 6 = false). rewrite (proj1 (proj2 B3)). unfold u8.
    rewrite mod_pow2_testbit, Z.land_spec by lia. cbn. apply andb_false_r.
  - apply B3.
Qed.

(** C1.  main() runs to the point where it enters user mode, on every machine
    with memory for one page after the kernel: the memory allocator, the
    buffer cache, the request queue, the console and the scheduler are in
    their invariants, the initial task is alone and running, its descriptors
    and the five gates of the idt lead to where they should, the interrupts
    of timer, keyboard and cascade are enabled and no other of the first
    controller, that of the disk is too, the timer ticks 100 times a second, and the stack of the
    initial task is the highest page, which no one else has. *)
Theorem main_spec fuel ram video d a :
  bootable video a -> 2 ^ 20 <= Z.of_nat fuel ->
  exists nr s, main im boot fuel (start im ram video d) = Ret (u32 (page_addr nr + Mem.PAGE_SIZE)) s /\
    started a nr s.
Proof.
  intros Hb Hf. destruct (main_run fuel ram video d a Hb Hf) as (nr & s & E & S & _). by exists nr, s.
Qed.
End started.

(** A process prints at most every 600 ticks, also when the counter wraps. *)
Lemma announce_apart l : forall start l1 x y l2,
  start :: announce start l = l1 ++ x :: y :: l2 -> 600 < u32 (y - x).
Proof.
  induction l as [|z l IH]; intros start l1 x y l2; cbn [announce].
  { intros E. apply (f_equal length) in E. rewrite length_app in E. cbn in E. lia. }
  destruct (Z.ltb_spec 600 (u32 (z - start))); [|apply IH].
  destruct l1 as [|w l1]; cbn.
  - by intros [= <- <- _].
  - intros [= _ E]. by eapply IH.
Qed.

(** After init_heap() the first allocation is the memory of the first buffer
    header. *)
Lemma heap_on_buffers {D} s n (y : system D) : heap y = HEAP_PHY_START ->
  exists y', __get_heap s 4 n y = Ret (hdr 0) y'.
Proof. intros E. unfold __get_heap. rewrite bind_modify. cbn. rewrite E. by eexists. Qed.

(** ** A board *)

Module Pc.
Inductive pit_state := Other | Low | High (lo : Z) | Loaded (v : Z).
Record pc := Pc { disk : Sample.sdisk; mask1 : Z; mask2 : Z; timer : pit_state }.

Definition write40 (v : Z) (t : pit_state) : pit_state :=
  match t with Low => High v | High lo => Loaded (lo + 0x100 * v) | _ => Other end.
#[global] Instance pc_disk : Disk pc := {
  d_inb port d :=
    if port =? 0x21 then (u8 (mask1 d), d) else if port =? 0xA1 then (u8 (mask2 d), d)
    else let '(v, k) := d_inb port (disk d) in (v, Pc k (mask1 d) (mask2 d) (timer d));
  d_outb port v d :=
    if port =? 0x21 then Pc (disk d) v (mask2 d) (timer d)
    else if port =? 0xA1 then Pc (disk d) (mask1 d) v (timer d)
    else if port =? 0x43 then Pc (disk d) (mask1 d) (mask2 d) (if v =? 0x36 then Low else Other)
    else if port =? 0x40 then Pc (disk d) (mask1 d) (mask2 d) (write40 v (timer d))
    else Pc (d_outb port v (disk d)) (mask1 d) (mask2 d) (timer d);
  d_insw port n d := let '(l, k) := d_insw port n (disk d) in (l, Pc k (mask1 d) (mask2 d) (timer d));
  d_outsw port l d := Pc (d_outsw port l (disk d)) (mask1 d) (mask2 d) (timer d)
}.
#[global] Instance pc_board : Board pc.
Proof.
  unshelve refine {|
    imr := fun d p => u8 (if p =? 0x21 then mask1 d else mask2 d);
    pit := fun d => match timer d with Loaded v => Some v | _ => None end
  |}.
  - intros p d Hp. by destruct Hp as [->| ->].
  - intros d p. apply u8_range.
  - intros p d. cbn -[Z.eqb]. destruct (p =? 0x21), (p =? 0xA1); done.
  - intros p v d Hp Hv q Hq. destruct Hp as [->| ->], Hq as [->| ->]; cbn; try done; by apply u8_small.
  - intros p v d H1 H2 H3 H4. cbn. rewrite (proj2 (Z.eqb_neq p 0x21)), (proj2 (Z.eqb_neq p 0xA1)) by done.
    by repeat case_match.
  - intros lo hi d _ _. done.
  - intros p v d Hp. cbn -[Z.eqb]. rewrite (proj2 (Z.eqb_neq p 0x43)), (proj2 (Z.eqb_neq p 0x40)) by lia.
    by destruct (p =? 0x21), (p =? 0xA1).
Defined.
End Pc.

(** 32 MB, a colour screen of 80 columns, a kernel from 8 MB on. *)
Definition demo_boot (a : Z) : Z :=
  if a =? 0x90001 then 12 else if a =? 0x90006 then 3 else if a =? 0x90007 then 80
  else if a =? 0x90201 then 0x80 else if a =? 0x90204 then 9 else 0.
Definition demo_image : symbols := Symbols 0x84f000 0x850000 0x801000 0x802000 0x803000 0x804000 0x805000 0x806000.
Definition demo_video : list Z := replicate (Pos.to_nat 0x2000) 0.
Definition demo_pc : Pc.pc := Pc.Pc (Sample.SDisk (fun _ _ => []) (fun _ => 0) Idle) 0xff 0xff Pc.Other.

Lemma demo_bootable : bootable demo_image demo_boot demo_video 1881.
Proof.
  split; try (split; [discriminate|reflexivity]); try reflexivity.
  - split; [split; [discriminate|reflexivity]|by exists 40].
  - split; split; (discriminate || reflexivity).
  - discriminate.
Qed.
Lemma main_spec_witness :
  exists nr s, main demo_image demo_boot (Pos.to_nat (2 ^ 20)) (start demo_image (fun _ => 0) demo_video demo_pc) =
      Ret (u32 (page_addr nr + Mem.PAGE_SIZE)) s /\
    pit (y_disk s) = Some LATCH /\ imr (y_disk s) 0x21 = 0xF8 /\ mm_wf (k_mm (y_kern s)).
Proof.
  destruct (main_spec demo_image demo_boot (Pos.to_nat (2 ^ 20)) (fun _ => 0) demo_video demo_pc 1881 demo_bootable)
    as (nr & s & E & S).
  - rewrite positive_nat_Z. discriminate.
  - exists nr, s. split; [exact E|]. split; [exact (sd_timer _ _ _ _ _ S)|].
    split; [exact (proj1 (sd_irq _ _ _ _ _ S))|exact (sd_mm _ _ _ _ _ S)].
Defined.
