(* ===== verification/Leak.v ===== *)
(** * The page tables of the boot and the first fork()

    setup_paging of arch/x86/asm/head.S maps every page of the machine at its
    own address, those that get_free_page() hands out later included.  The
    first fork(), which is what process 0 does first when main() has entered
    user mode, copies these tables and counts the free pages as shared. *)

From S2P Require Import Prelude Task Sched Desc Mem Fork Pages.
From S2P Require Hd Init.

(** ** setup_paging *)

(** [n] words from [edi] on: [eax], [eax + step], ... *)
Fixpoint fill (n : nat) (edi eax step : Z) (r : Z -> Z) : Z -> Z :=
  match n with
  | O => r
  | S n' => fill n' (edi + 4) (eax + step) step (fun a => if a =? edi then eax else r a)
  end.

(** [paging_frames]: the tables for the memory, in units of 4 MB, and one page
    for the directory.  The loops of setup_paging test their count after the
    first round, the machine has 4 MB at least. *)
Definition paging_frames (memory_size : Z) : Z :=
  let eax := memory_size / 1024 in
  let eax := if memory_size mod 1024 =? 0 then eax else eax + 1 in
  eax / 4 + 1.
Definition setup_paging (_end_kernel memory_size : Z) (r : Z -> Z) : Z -> Z :=
  let frames := paging_frames memory_size in
  let r := fill (Z.to_nat (frames * 1024)) _end_kernel 0 0 r in
  let r := fill (Z.to_nat (frames - 1)) _end_kernel (_end_kernel + 7 + 4096) 4096 r in
  fill (Z.to_nat ((frames - 1) * 1024)) (_end_kernel + 4096) 7 4096 r.

#[local] Ltac Zify.zify_post_hook ::= Z.div_mod_to_equations.

Lemma fill_out n : forall edi eax step r a, a < edi \/ edi + 4 * Z.of_nat n <= a ->
  fill n edi eax step r a = r a.
Proof.
  induction n as [|n IH]; intros edi eax step r a Ha; cbn [fill]; [done|].
  rewrite IH by lia. by rewrite (proj2 (Z.eqb_neq _ _)) by lia.
Qed.
Lemma fill_in n : forall edi eax step r k, (k < n)%nat ->
  fill n edi eax step r (edi + 4 * Z.of_nat k) = eax + step * Z.of_nat k.
Proof.
  induction n as [|n IH]; intros edi eax step r k Hk; [lia|]. cbn [fill]. destruct k as [|k].
  - rewrite fill_out by lia. rewrite (proj2 (Z.eqb_eq _ _)) by lia. lia.
  - replace (edi + 4 * Z.of_nat (S k)) with (edi + 4 + 4 * Z.of_nat k) by lia.
    rewrite IH by lia. lia.
Qed.

(** The tables map the pages below [4 MB * tables] at their own addresses. *)
Record identity (s : mm) (tables : Z) : Prop := {
  id_dir : forall i, 0 <= i < tables -> ram s (pg_dir s + 4 * i) = pg_dir s + 4096 * (i + 1) + 7;
  id_table : forall k, 0 <= k < tables * 1024 -> ram s (pg_dir s + 4096 + 4 * k) = 4096 * k + 7;
  id_end : forall i, tables <= i < 1024 -> ram s (pg_dir s + 4 * i) = 0
}.
(** The frames of [s] are those that setup_paging made for [kb] KB. *)
Definition boot_tables (s : mm) (kb : Z) (r : Z -> Z) : Prop :=
  forall a, pg_dir s <= a < pg_dir s + 4096 * paging_frames kb ->
    ram s a = setup_paging (pg_dir s) kb r a.
Lemma paging_frames_range kb : 4096 <= kb < 2 ^ 21 -> 2 <= paging_frames kb <= 513.
Proof. intros Hkb. unfold paging_frames. destruct (_ =? 0); lia. Qed.
Lemma setup_paging_run kb r s : 4096 <= kb < 2 ^ 21 -> boot_tables s kb r ->
  identity s (paging_frames kb - 1).
Proof.
  intros Hkb Hr. unfold boot_tables in Hr. pose proof (paging_frames_range kb Hkb) as Hf.
  set (t := paging_frames kb - 1) in *.
  assert (Ef : paging_frames kb = t + 1) by (unfold t; lia).
  split; intros i Hi; rewrite Hr by lia; unfold setup_paging; cbv zeta; rewrite Ef.
  - rewrite fill_out by lia. replace (4 * i) with (4 * Z.of_nat (Z.to_nat i)) by lia.
    rewrite fill_in by lia. lia.
  - replace (4 * i) with (4 * Z.of_nat (Z.to_nat i)) by lia. rewrite fill_in by lia. lia.
  - rewrite fill_out by lia. rewrite fill_out by lia.
    replace (4 * i) with (4 * Z.of_nat (Z.to_nat i)) by lia. rewrite fill_in by lia. lia.
Qed.

(** ** The walk through these tables *)

Lemma aligned_entry x : 0 <= x < 2 ^ 32 - 7 -> x mod 4096 = 0 ->
  present (x + 7) = true /\ Z.land (x + 7) 0xfffff000 = x.
Proof.
  intros Hx Hm. split.
  - unfold present, truth. rewrite Z.land_comm. change 1 with (Z.ones 1). rewrite Z.land_ones by lia.
    change (2 ^ 1) with 2. replace ((x + 7) mod 2) with 1 by lia. done.
  - rewrite frame_mask by lia. lia.
Qed.

Lemma entry_lor k c : 0 <= c < 8 -> 4096 * k + c = Z.lor (Z.shiftl k 12) c.
Proof.
  intros Hc. rewrite <-Z.add_nocarry_lor; [rewrite Z.shiftl_mul_pow2 by lia; lia|].
  apply Z.bits_inj'. intros n Hn. rewrite Z.land_spec, Z.bits_0, shiftl_testbit by lia.
  destruct (Z.leb_spec 12 n); [|done]. rewrite (bits_above c 3 n) by lia. apply andb_false_r.
Qed.

Lemma ro_identity k : ro (4096 * k + 7) = 4096 * k + 5.
Proof.
  unfold ro, PTE_WRITE. rewrite !entry_lor by lia.
  apply Z.bits_inj'. intros n Hn. rewrite Z.ldiff_spec, !Z.lor_spec, shiftl_testbit by lia.
  destruct (Z.leb_spec 12 n); cbn [andb orb].
  - rewrite (bits_above 7 3 n), (bits_above 2 3 n), (bits_above 5 3 n) by lia. by rewrite andb_true_r.
  - assert (n = 0 \/ n = 1 \/ n = 2 \/ 3 <= n) as Hc by lia. destruct Hc as [->|[->|[->|Hc]]]; try done.
    by rewrite (bits_above 7 3 n), (bits_above 5 3 n) by lia.
Qed.

Section tables.
Context (s : mm) (tables : Z).
Context (I : identity s tables) (Ht : 0 <= tables <= 1024).
Context (Hd : 0 <= pg_dir s < 2 ^ 31) (Ha : pg_dir s mod 4096 = 0).

Lemma identity_slot v : 0 <= v < tables * 2 ^ 22 ->
  has_table s v = true /\ tslot s v = pg_dir s + 4096 + 4 * (v / 4096).
Proof.
  intros Hv. unfold has_table, tslot, dslot, pgdir_idx, page_idx.
  change 0x3ff with (Z.ones 10). rewrite !Z.land_ones, !Z.shiftr_div_pow2 by lia.
  change (2 ^ 22) with 4194304 in *. change (2 ^ 12) with 4096. change (2 ^ 10) with 1024.
  rewrite (Z.mod_small (v / 4194304)) by lia. rewrite (id_dir _ _ I) by lia.
  destruct (aligned_entry (pg_dir s + 4096 * (v / 4194304 + 1))) as [-> ->]; [lia|lia|].
  split; [done|]. lia.
Qed.
Lemma identity_walk v : 0 <= v < tables * 2 ^ 22 -> translate s v = Some v.
Proof.
  intros Hv. destruct (identity_slot v Hv) as [E1 E2]. unfold translate. rewrite E1, E2.
  change (2 ^ 22) with 4194304 in *. rewrite (id_table _ _ I) by lia.
  destruct (aligned_entry (4096 * (v / 4096))) as [-> ->]; [lia|lia|]. cbn [andb].
  change 0xfff with (Z.ones 12). rewrite Z.land_ones by lia. change (2 ^ 12) with 4096. f_equal. lia.
Qed.
(** Memory above a multiple of 4 MB is not mapped. *)
Lemma identity_none v : tables * 2 ^ 22 <= v < 2 ^ 32 -> translate s v = None.
Proof.
  intros Hv. unfold translate, has_table, dslot, pgdir_idx.
  change 0x3ff with (Z.ones 10). rewrite Z.land_ones, Z.shiftr_div_pow2 by lia.
  change (2 ^ 22) with 4194304 in *. change (2 ^ 10) with 1024. rewrite (Z.mod_small (v / 4194304)) by lia.
  by rewrite (id_end _ _ I) by lia.
Qed.

End tables.

(** The entry of frame [k], read as copy_page_tables() does. *)
Lemma identity_entry k : 256 <= k < 16640 ->
  let e := 4096 * k + 7 in
  pte_ok e /\ shared e = true /\ frame_nr e = k - 256.
Proof.
  intros Hk e.
  assert (Hro : ro e = page_addr (k - 256) + 5).
  { unfold e. rewrite ro_identity. unfold page_addr, LOW_MEM, Mem.PAGE_SIZE. lia. }
  assert (Hn : frame_nr e = k - 256).
  { unfold frame_nr. rewrite Hro. change PAGE_NR with MAP_NR. apply MAP_NR_page; unfold Mem.PAGE_SIZE; lia. }
  split_and!; [|unfold shared|done].
  - intros _. rewrite Hn. unfold e, MM_PAGES. lia.
  - rewrite Hro. apply andb_true_intro. split.
    + apply (aligned_entry (4096 * k)); lia.
    + apply Z.leb_le. unfold page_addr, LOW_MEM, Mem.PAGE_SIZE. lia.
Qed.
Lemma identity_low k : 0 <= k < 256 -> pte_ok (4096 * k + 7).
Proof.
  intros Hk. intros Hs. unfold shared in Hs. apply andb_prop in Hs as [_ Hs]. apply Z.leb_le in Hs.
  rewrite ro_identity in Hs.
  unfold LOW_MEM in *. lia.
Qed.

(** ** Copying the table that maps a free page *)

Lemma zsum_one (w : nat -> Z) i n : (i < n)%nat -> w i = 1 ->
  (forall j, (j < n)%nat -> j <> i -> w j = 0) -> zsum w n = 1.
Proof.
  intros Hi H1 H0. rewrite (zsum_update (fun j => if decide (j = i) then 0 else w j) w i n); [|done|].
  - rewrite decide_True, H1, zsum_zero by done || (intros j Hj; case_decide; auto). lia.
  - intros j Hj. by rewrite decide_False.
Qed.

(** The counts of a page whose bit is clear although it is counted. *)
Lemma leak_run s nr : mm_shape s -> top_bit_clear s nr -> 0 < refs s nr -> page_addr nr < HIGH_MEMORY s ->
  exists s2 s3, get_free_page s = Ret (page_addr nr) s2 /\ refs s2 nr = refs s nr + 1 /\
    free_page (page_addr nr) s2 = Ret tt s3 /\ page_bit s3 nr = true /\ refs s3 nr = refs s nr.
Proof.
  intros Hs Ht Hr Hh. destruct (get_free_page_bits s Hs) as (n & s2 & E & Ht2 & P).
  { exists nr. split; apply Ht. }
  assert (n = nr) as ->.
  { destruct Ht as (Hn & H0 & Ha), Ht2 as (Hn2 & H02 & Ha2).
    destruct (Z.lt_trichotomy n nr) as [Hlt|[->|Hlt]]; [|done|].
    - rewrite Ha2 in H0 by lia. done.
    - rewrite Ha in H02 by lia. done. }
  pose proof (proj1 Ht) as Hn. pose proof (page_addr_range nr Hn).
  assert (R2 : refs s2 nr = refs s nr + 1) by (rewrite (ps_refs _ _ _ _ _ P); by rewrite decide_True).
  destruct (clear_mem_map_shape s2 nr 0) as (s3 & E3 & P3); [|done|done|lia| |].
  - split; [rewrite (ps_map _ _ _ _ _ P); apply Hs|apply P|rewrite (ps_len _ _ _ _ _ P); apply Hs].
  - rewrite (ps_bit _ _ _ _ _ P). by rewrite decide_True.
  - exists s2, s3. rewrite Z.add_0_r in E3. split_and!; [done|done| | |].
    + unfold free_page. rewrite (proj2 (Z.ltb_ge _ _)) by lia. run. rewrite (ps_high _ _ _ _ _ P).
      change (HIGH_MEMORY (s <| ram := _ |>)) with (HIGH_MEMORY s). by rewrite (proj2 (Z.leb_gt _ _)).
    + rewrite (ps_bit _ _ _ _ _ P3), decide_True, R2 by done. apply Z.ltb_lt. lia.
    + rewrite (ps_refs _ _ _ _ _ P3), decide_True, R2 by done. lia.
Qed.

(** ** copy_page_tables() on the tables of the boot *)

(** The counts that copying table [i] adds to page [p]. *)
Lemma table_counts i p e : 0 <= i < 16 -> 0 <= p ->
  (forall j, (j < 1024)%nat -> e j = 4096 * (1024 * i + Z.of_nat j) + 7) ->
  zsum (fun j => b2z (shared (e j) && (frame_nr (e j) =? p))) 1024 =
    if (1024 * i <=? p + 256) && (p + 256 <? 1024 * (i + 1)) then 1 else 0.
Proof.
  intros Hi Hp He.
  assert (Hentry : forall j, (j < 1024)%nat -> b2z (shared (e j) && (frame_nr (e j) =? p)) =
    if 1024 * i + Z.of_nat j =? p + 256 then 1 else 0).
  { intros j Hj. rewrite He by done. destruct (Z.lt_ge_cases (1024 * i + Z.of_nat j) 256) as [Hl|Hl].
    - rewrite (proj2 (Z.eqb_neq (1024 * i + Z.of_nat j) (p + 256))) by lia.
      destruct (shared _) eqn:Hs; [|done]. exfalso. unfold shared in Hs.
      apply andb_prop in Hs as [_ Hs]. apply Z.leb_le in Hs. rewrite ro_identity in Hs.
      unfold LOW_MEM in Hs. lia.
    - destruct (identity_entry (1024 * i + Z.of_nat j)) as (_ & -> & ->); [lia|]. cbn [andb].
      by destruct (Z.eqb_spec (1024 * i + Z.of_nat j - 256) p), (Z.eqb_spec (1024 * i + Z.of_nat j) (p + 256));
        try lia. }
  destruct (Z.leb_spec (1024 * i) (p + 256)), (Z.ltb_spec (p + 256) (1024 * (i + 1))); cbn [andb].
  2-4: apply zsum_zero; intros j Hj; rewrite Hentry by done; by rewrite (proj2 (Z.eqb_neq _ _)) by lia.
  apply (zsum_one _ (Z.to_nat (p + 256 - 1024 * i))); [lia| |].
  - rewrite Hentry by lia. by rewrite (proj2 (Z.eqb_eq _ _)) by lia.
  - intros j Hj Hne. rewrite Hentry by done. by rewrite (proj2 (Z.eqb_neq _ _)) by lia.
Qed.

Section boot_copy.
(** The directory is at [D], followed by [t] tables and page [a], the first of
    main memory; the pages from [a] to [n] are free when the copy begins, and
    memory ends at [H]. *)
Context (D a t n H : Z).
Context (HDa : D mod 4096 = 0) (Ht : 0 < t <= 16) (Ha : 0 <= a).
Context (Hend : D + 4096 * (t + 1) = page_addr a) (Hn : n <= 1024 * t - 256) (Hlt : a < n - t).

(** When [i] entries of the directory have been copied: the tables from the
    [i]-th on are those of the boot; of the pages that stay free, those that
    the first [i] tables map have a count. *)
Record during (i : Z) (s : mm) : Prop := {
  du_shape : mm_shape s;
  du_dir : pg_dir s = D;
  du_high : HIGH_MEMORY s = H;
  du_bits : forall p, 0 <= p < MM_PAGES -> page_bit s p = false <-> a <= p < n - Z.min i t;
  du_refs : forall p, a <= p < n - t -> refs s p = if p + 256 <? 1024 * i then 1 else 0;
  du_dirs : forall j, i <= j < t -> ram s (D + 4 * j) = D + 4096 * (j + 1) + 7;
  du_none : forall j, t <= j < 16 -> ram s (D + 4 * j) = 0;
  du_tables : forall k, 1024 * i <= k < 1024 * t -> ram s (D + 4096 + 4 * k) = 4096 * k + 7
}.

(** A page for the next table. *)
Lemma during_page i s : 0 <= i < t -> during i s ->
  exists s1, get_free_page s = Ret (page_addr (n - i - 1)) s1 /\
    page_set (s <| ram := fun b => if (page_addr (n - i - 1) <=? b) && (b <? page_addr (n - i - 1) + Mem.PAGE_SIZE)
                                   then 0 else ram s b |>) s1 (n - i - 1) true (refs s (n - i - 1) + 1).
Proof.
  intros Hi [D1 _ _ D4 _ _ _ _].
  assert (Hr : forall p, a <= p < n -> 0 <= p < MM_PAGES) by (unfold MM_PAGES; lia).
  assert (Hb : page_bit s (n - i - 1) = false) by (apply D4; [apply Hr; lia|lia]).
  destruct (get_free_page_bits s D1) as (p & s1 & E & (Hp & H0 & Hup) & P).
  { exists (n - i - 1). split; [apply Hr; lia|done]. }
  assert (p = n - i - 1) as ->.
  { apply D4 in H0; [|done]. destruct (Z.lt_ge_cases p (n - i - 1)); [|lia].
    rewrite Hup in Hb; [done|]. pose proof (Hr (n - i - 1)). lia. }
  by exists s1.
Qed.

Lemma during_step i s : 0 <= i < t -> during i s ->
  exists p s1 s3, get_free_page s = Ret (page_addr p) s1 /\ page_addr p <> 0 /\
    (wr (D + 64 + 4 * i) (Z.lor (page_addr p) 7) ;; copy_ptes 1024 (D + 4096 * (i + 1)) (page_addr p)) s1 =
      Ret tt s3 /\ during (i + 1) s3.
Proof.
  intros Hi Hdu. destruct (during_page i s Hi Hdu) as (s1 & E & P). destruct Hdu as [D1 D2 D3 D4 D5 D6 D7 D8].
  set (p := n - i - 1) in *. set (from := D + 4096 * (i + 1)). set (v := Z.lor (page_addr p) 7).
  set (s2 := s1 <| ram ::= fun r b => if b =? D + 64 + 4 * i then v else r b |>).
  assert (Hpa : page_addr a <= page_addr p) by (unfold page_addr, Mem.PAGE_SIZE; unfold p; lia).
  assert (Hpb : forall b, D <= b < page_addr a -> b <> D + 64 + 4 * i -> ram s2 b = ram s b).
  { intros b Hb Hne. unfold s2. cbn. rewrite (proj2 (Z.eqb_neq _ _) Hne), (ps_ram _ _ _ _ _ P). cbn.
    by rewrite (proj2 (Z.leb_gt _ _)) by lia. }
  assert (Hent : forall j, (j < 1024)%nat -> ram s2 (slot from j) = 4096 * (1024 * i + Z.of_nat j) + 7).
  { intros j Hj. unfold slot, from. rewrite Hpb by lia. rewrite <-D8 by lia. f_equal. lia. }
  destruct (copy_ptes_runs 1024 s2 from (page_addr p)) as (s3 & E3 & C).
  { unfold counts_all. change (refcount s2) with (refcount s1). rewrite (ps_len _ _ _ _ _ P). apply D1. }
  { intros j Hj. rewrite Hent by done. destruct (Z.lt_ge_cases (1024 * i + Z.of_nat j) 256).
    - apply identity_low. lia.
    - apply identity_entry. lia. }
  { left. unfold slot, from. lia. }
  assert (Hkeep : forall b, D <= b < page_addr a -> b <> D + 64 + 4 * i -> (b < from \/ from + 4096 <= b) ->
    ram s3 b = ram s b).
  { intros b Hb Hne Hf. rewrite (cp_frame _ _ _ _ _ C); [by apply Hpb|]. intros j Hj. unfold slot. lia. }
  exists p, s1, s3. split; [done|]. split; [unfold page_addr, LOW_MEM, Mem.PAGE_SIZE, p; lia|].
  split; [unfold wr; by run|].
  assert (Hbit : forall k, page_bit s3 k = if decide (k = p) then true else page_bit s k).
  { intros k. unfold page_bit at 1. rewrite (cp_map _ _ _ _ _ C). change (mem_map s2) with (mem_map s1).
    apply (ps_bit _ _ _ _ _ P). }
  split.
  - split; rewrite ?(cp_map _ _ _ _ _ C); [| |apply C].
    + change (mem_map s2) with (mem_map s1). rewrite (ps_map _ _ _ _ _ P). apply D1.
    + apply (ps_words _ _ _ _ _ P).
  - rewrite (cp_dir _ _ _ _ _ C). change (pg_dir s2) with (pg_dir s1). by rewrite (ps_dir _ _ _ _ _ P).
  - rewrite (cp_high _ _ _ _ _ C). change (HIGH_MEMORY s2) with (HIGH_MEMORY s1). by rewrite (ps_high _ _ _ _ _ P).
  - intros k Hk. rewrite Hbit. case_decide; [split; [done|lia]|]. rewrite D4 by done. lia.
  - intros k Hk. rewrite (cp_refs _ _ _ _ _ C), (table_counts i k) by (done || lia).
    change (refs s2 k) with (refs s1 k). rewrite (ps_refs _ _ _ _ _ P), decide_False by lia.
    change (refs _ k) with (refs s k). rewrite D5 by done.
    destruct (Z.ltb_spec (k + 256) (1024 * i)), (Z.leb_spec (1024 * i) (k + 256)),
      (Z.ltb_spec (k + 256) (1024 * (i + 1))); cbn [andb]; lia.
  - intros j Hj. rewrite Hkeep by (unfold from; lia). apply D6. lia.
  - intros j Hj. rewrite Hkeep by (unfold from; lia). by apply D7.
  - intros k Hk. rewrite Hkeep by (unfold from; lia). apply D8. lia.
Qed.

Lemma copy_boot_dirs m : forall i s, 0 <= i -> i + Z.of_nat m = 16 -> during i s ->
  exists s', copy_dirs m (D + 4 * i) (D + 64 + 4 * i) s = Ret 0 s' /\ during 16 s'.
Proof.
  induction m as [|m IH]; intros i s H0 Him Hdu; cbn [copy_dirs].
  { replace i with 16 in Hdu by lia. by exists s. }
  assert (Hgo : forall s', during (i + 1) s' -> exists s'',
    copy_dirs m (D + 4 * i + 4) (D + 64 + 4 * i + 4) s' = Ret 0 s'' /\ during 16 s'').
  { intros s' Hdu'. replace (D + 4 * i + 4) with (D + 4 * (i + 1)) by lia.
    replace (D + 64 + 4 * i + 4) with (D + 64 + 4 * (i + 1)) by lia. apply IH; [lia|lia|done]. }
  unfold rd. rewrite bind_gets. destruct (Z.lt_ge_cases i t) as [Hit|Hit].
  - rewrite (du_dirs _ _ Hdu) by lia.
    destruct (aligned_entry (D + 4096 * (i + 1))) as [Ep Em].
    { unfold page_addr, LOW_MEM, Mem.PAGE_SIZE in Hend. lia. } { lia. }
    unfold present in Ep. rewrite Ep. cbn [negb]. cbv zeta. rewrite Z.land_comm, Em.
    destruct (during_step i s ltac:(lia) Hdu) as (p & s1 & s3 & E & Hnz & E3 & Hdu').
    rewrite (bind_ret _ _ _ _ _ E), (proj2 (Z.eqb_neq _ _) Hnz), <-bind_assoc, (bind_ret _ _ _ _ _ E3).
    by apply Hgo.
  - rewrite (du_none _ _ Hdu) by lia. cbn [Z.land truth Z.eqb negb].
    apply Hgo. destruct Hdu as [D1 D2 D3 D4 D5 D6 D7 D8]. split; try done.
    + intros k Hk. rewrite D4 by done. lia.
    + intros k Hk. rewrite D5 by done. by rewrite !(proj2 (Z.ltb_lt _ _)) by lia.
    + intros j Hj. lia.
    + intros k Hk. lia.
Qed.

(** The pages that are left are counted and not in the bitmap. *)
Lemma leaked_page s : during 16 s -> page_addr n <= H ->
  let h := n - t in
  (forall p, 0 <= p < MM_PAGES -> page_bit s p = false <-> a <= p < h) /\
  (forall p, a <= p < h -> refs s p = 1) /\ ~ mm_wf s /\
  exists s2 s3, get_free_page s = Ret (page_addr (h - 1)) s2 /\ refs s2 (h - 1) = 2 /\
    free_page (page_addr (h - 1)) s2 = Ret tt s3 /\ page_bit s3 (h - 1) = true /\ refs s3 (h - 1) = 1.
Proof.
  intros [D1 _ D3 D4 D5 _ _ _] Hh h.
  assert (Hbits : forall p, 0 <= p < MM_PAGES -> page_bit s p = false <-> a <= p < h).
  { intros p Hp. rewrite D4 by done. unfold h. lia. }
  assert (Hrefs : forall p, a <= p < h -> refs s p = 1).
  { intros p Hp. rewrite D5 by (unfold h in Hp; lia). by rewrite (proj2 (Z.ltb_lt _ _)) by (unfold h in Hp; lia). }
  assert (Hm : 0 <= h - 1 < MM_PAGES) by (unfold h, MM_PAGES; lia).
  assert (Hb : page_bit s (h - 1) = false) by (apply Hbits; [done|unfold h; lia]).
  assert (Hr : refs s (h - 1) = 1) by (apply Hrefs; unfold h; lia).
  split; [done|]. split; [done|]. split.
  { intros Hw. rewrite (wf_agree _ Hw _ Hm), Hr in Hb. done. }
  destruct (leak_run s (h - 1) D1) as (s2 & s3 & E2 & R2 & E3 & B3 & R3).
  - split; [done|]. split; [done|]. intros p Hp. destruct (page_bit s p) eqn:Ep; [done|].
    apply Hbits in Ep; lia.
  - lia.
  - rewrite D3. unfold page_addr, Mem.PAGE_SIZE in *. unfold h. lia.
  - rewrite Hr in *. exists s2, s3. by split_and!.
Qed.
End boot_copy.

(** ** The first fork() *)

Section first_fork.
Context {D : Type} `{HDk : !Hd.Disk D} `{HBd : !Init.Board D} (im : Init.symbols) (boot : Z -> Z).
Notation kb := (Init.__get_mem_size boot).
Notation dir := (Init._end_kernel im).

(** The machines of the theorem: whole units of 4 MB, at most 64 MB; the kernel
    ends above 8 MB, as the linker script places it, followed by the tables of
    setup_paging; and there is memory for the stack of process 0, for the
    child, for its tables and for one page more. *)
Record fully_mapped (a : Z) : Prop := {
  fm_size : kb mod 4096 = 0 /\ kb <= 65536;
  fm_kernel : 0x800000 <= dir;
  fm_frames : Init.__get_paging_frames boot = paging_frames kb;
  fm_room : page_addr a + 4096 * (kb / 4096 + 3) <= kb * 1024
}.

Lemma frames_whole k : k mod 4096 = 0 -> paging_frames k = k / 4096 + 1.
Proof. intros E. unfold paging_frames. destruct (Z.eqb_spec (k mod 1024) 0); lia. Qed.

(** What main() leaves of memory. *)
Lemma after_main video a nr r (s : Init.system D) :
  Init.bootable im boot video a -> fully_mapped a ->
  Init.started im boot a nr s -> Init.left_alone im boot (setup_paging dir kb r) nr (Init.y_kern s) ->
  let m := k_mm (Init.y_kern s) in let t := kb / 4096 in
  pg_dir m = dir /\ 2 < t <= 16 /\ 0 <= a /\ dir + 4096 * (t + 1) = page_addr a /\ dir mod 4096 = 0 /\
  identity m t /\ nr = 1024 * t - 257 /\ a < nr - 1 - t /\
  mm_wf m /\ HIGH_MEMORY m = kb * 1024 /\
  (forall p, 0 <= p < MM_PAGES -> refs m p = 0 <-> a <= p < nr).
Proof.
  intros Hb [[Hmod Hkb] Hker Hfr Hroom] S [_ Hpd Hram [Hl1 Hl2]] m t.
  pose proof (frames_whole kb Hmod) as Hpf. fold t in Hpf, Hroom.
  pose proof (Init.bo_end _ _ _ _ Hb) as Hend. rewrite Hfr, Hpf in Hend.
  pose proof (Init.bo_first _ _ _ _ Hb) as Ha.
  assert (Hkt : kb = 4096 * t) by (unfold t; lia).
  unfold page_addr, LOW_MEM, Mem.PAGE_SIZE, MM_PAGES in *.
  assert (Hnr : nr = 1024 * t - 257) by lia.
  assert (Ht : 2 < t <= 16) by lia.
  split_and!; [exact Hpd|lia..| | |lia|lia|apply S|apply S|].
  - lia.
  - replace t with (paging_frames kb - 1) by lia. apply (setup_paging_run kb r); [lia|].
    intros b Hbb. change (pg_dir m) with (pg_dir (k_mm (Init.y_kern s))) in *. rewrite Hpd in *.
    apply Hram; [unfold Init._pg_dir in *; lia|]. unfold Init._pg_dir in *. lia.
  - intros p Hp. destruct (Init.sd_stack _ _ _ _ _ S) as [Hs1 Hs2].
    destruct (decide (p = nr)) as [->|Hne]; [unfold m; rewrite Hs2; lia|]. by apply (Init.sd_free _ _ _ _ _ S).
Qed.

(** The page of the child, and then the copy of the tables. *)
Lemma child_page a nr t (m : mm) :
  pg_dir m = dir -> 2 < t <= 16 -> 0 <= a -> dir + 4096 * (t + 1) = page_addr a -> dir mod 4096 = 0 ->
  identity m t -> nr = 1024 * t - 257 -> a < nr - 1 - t -> mm_wf m ->
  (forall p, 0 <= p < MM_PAGES -> refs m p = 0 <-> a <= p < nr) ->
  exists m1, get_free_page m = Ret (page_addr (nr - 1)) m1 /\ got_page m m1 (nr - 1) /\
    during dir a t (nr - 1) (HIGH_MEMORY m) 0 m1.
Proof.
  intros Hd Ht Ha Hend Hal Hid Hnr Hlt Hw Hfree.
  assert (Hr : forall p, a <= p < nr -> 0 <= p < MM_PAGES) by (unfold MM_PAGES; lia).
  destruct (get_free_page_runs m Hw) as (q & m1 & E & G).
  { exists a. split; [apply Hr; lia|]. apply Hfree; [apply Hr|]; lia. }
  destruct (gp_free _ _ _ G) as (Hq & H0 & Hhi).
  assert (q = nr - 1) as ->.
  { apply Hfree in H0; [|done]. destruct (Z.lt_ge_cases q (nr - 1)); [|lia].
    specialize (Hhi (nr - 1) ltac:(split; [lia|apply Hr; lia])).
    rewrite (proj2 (Hfree (nr - 1) (Hr (nr - 1) ltac:(lia)))) in Hhi by lia. lia. }
  exists m1. split; [done|]. split; [done|].
  assert (Hram : forall b, b < page_addr a -> ram m1 b = ram m b).
  { intros b Hb. rewrite (gp_ram _ _ _ G), decide_False; [done|].
    unfold page_addr, Mem.PAGE_SIZE in *. lia. }
  split.
  - apply wf_shape, G.
  - by rewrite (gp_dir _ _ _ G).
  - apply G.
  - intros p Hp. rewrite (wf_agree _ (gp_wf _ _ _ G)), (gp_refs _ _ _ G), Z.ltb_ge by done.
    pose proof (wf_count _ Hw p). pose proof (Hfree p Hp). case_decide; [lia|].
    rewrite Z.min_l by lia. lia.
  - intros p Hp. rewrite (gp_refs _ _ _ G), decide_False by lia.
    rewrite (proj2 (Z.ltb_ge _ _)) by lia. apply Hfree; [apply Hr|]; lia.
  - intros j Hj. rewrite Hram by lia. rewrite <-Hd. by apply (id_dir _ _ Hid).
  - intros j Hj. rewrite Hram by lia. rewrite <-Hd. apply (id_end _ _ Hid). lia.
  - intros k Hk. rewrite Hram by lia. rewrite <-Hd. apply (id_table _ _ Hid). lia.
Qed.

(** The tables of process 0 are the first 16 of the directory, those of the
    child the next 16. *)
Lemma copy_first_tables a t n h (m1 : mm) it :
  2 < t <= 16 -> 0 <= a -> dir + 4096 * (t + 1) = page_addr a -> dir mod 4096 = 0 ->
  n <= 1024 * t - 256 -> a < n - t -> during dir a t n h 0 m1 ->
  let c := INIT_TASK it dir in
  exists m2, copy_page_tables (get_base (data_seg c)) (space 1) (get_limit (data_seg c)) m1 = Ret 0 m2 /\
    during dir a t n h 16 m2.
Proof.
  intros Ht Ha Hend Hal Hn Hlt Hdu c.
  change (get_base (data_seg c)) with 0. change (space 1) with 0x4000000.
  change (get_limit (data_seg c)) with 0x4000000.
  unfold copy_page_tables, pde. rewrite !bind_gets. rewrite (du_dir _ _ _ _ _ _ _ Hdu).
  change (Z.to_nat (Z.shiftr (u32 (0x4000000 + 0x3fffff)) 22)) with 16%nat.
  change (pgdir_idx 0) with 0. change (pgdir_idx 0x4000000) with 16.
  destruct (copy_boot_dirs dir a t n h Hal ltac:(lia) Ha Hend Hn Hlt 16 0 m1) as (m2 & E & Hdu2);
    [lia|done|done|].
  exists m2. split; [|exact Hdu2]. replace (dir + 4 * 16) with (dir + 64 + 4 * 0) by lia. exact E.
Qed.

Definition first_sched : sched := k_sched (Init.start_kern im (fun _ => 0)).
Lemma first_pid : find_empty_process (S NR_TASKS) first_sched = Ret 1 (first_sched <| last_pid := 1 |>).
Proof. reflexivity. Qed.

Lemma first_parent ram m :
  let k := (Init.start_kern im ram) <| k_mm := m |> <| k_gdt := Init.started_gdt im |>
             <| k_sched := first_sched <| last_pid := 1 |> |> in
  parent k (INIT_TASK (Init.init_task im) (Init._pg_dir im)) 1.
Proof.
  intros k.
  assert (Hin : forall c l, (forall o, o ∈ l -> o = None) -> in_table c l)
    by (intros c l Hl i Hi; by apply Hl in Hi).
  split; try done.
  - unfold NR_TASKS. cbn. lia.
  - cbn. lia.
  - split; [by apply Forall_replicate|]. apply Hin. intros o Ho. by apply elem_of_replicate in Ho as [-> _].
  - split; [by apply Forall_replicate|]. apply Hin. intros o Ho. cbn in Ho. set_unfold. by destruct_or!.
Qed.

(** C14.  The first fork() loses the free memory.  On a machine of whole units
    of 4 MB, at most 64 MB, main() runs up to user mode and leaves every
    address of memory mapped at itself, the pages that are free included.  The
    fork() of process 0 that follows succeeds with pid 1; it takes pages for
    the child and for its tables, [kb / 4096 + 1] in all, and counts every
    page that the tables map without looking whether it is in use.  All the
    pages that are still free, from [a] to [h], then have the count 1 with
    their bit clear: the invariant of the allocator is broken.
    get_free_page() still hands out the highest one of them, with the count 2,
    and free_page() leaves it marked as used, with the count 1, for ever. *)
Theorem first_fork_leaks fuel video d r a f :
  Init.bootable im boot video a -> 2 ^ 20 <= Z.of_nat fuel -> fully_mapped a ->
  exists nr s, Init.main im boot fuel (Init.start im (setup_paging dir kb r) video d) =
      Ret (u32 (page_addr nr + Mem.PAGE_SIZE)) s /\ page_addr nr + 4096 = kb * 1024 /\
    let m := k_mm (Init.y_kern s) in
    mm_wf m /\ (forall v, 0 <= v < kb * 1024 -> translate m v = Some v) /\
    (forall p, 0 <= p < MM_PAGES -> refs m p = 0 <-> a <= p < nr) /\
    exists k', sys_fork (S NR_TASKS) f (Init.y_kern s) = Ret 1 k' /\
      let h := nr - (kb / 4096 + 1) in a < h /\
      (forall p, 0 <= p < MM_PAGES -> page_bit (k_mm k') p = false <-> a <= p < h) /\
      (forall p, a <= p < h -> refs (k_mm k') p = 1) /\ ~ mm_wf (k_mm k') /\
      exists m1 m2, get_free_page (k_mm k') = Ret (page_addr (h - 1)) m1 /\ refs m1 (h - 1) = 2 /\
        free_page (page_addr (h - 1)) m1 = Ret tt m2 /\ page_bit m2 (h - 1) = true /\ refs m2 (h - 1) = 1.
Proof.
  intros Hb Hfuel Hf.
  destruct (Init.main_run im boot fuel (setup_paging dir kb r) video d a Hb Hfuel) as (nr & s & E & S & L).
  exists nr, s. split; [exact E|]. cbv zeta. set (m := k_mm (Init.y_kern s)).
  destruct (after_main video a nr r s Hb Hf S L)
    as (Hpd & Ht & Ha & Hend & Hal & Hid & Hnr & Hlt & Hw & Hh & Hfree). fold m in Hpd, Hid, Hw, Hh, Hfree.
  set (t := kb / 4096) in *. assert (Hkt : kb = 4096 * t) by (pose proof (fm_size _ Hf); unfold t; lia).
  assert (Hd0 : 0 <= dir) by (pose proof (fm_kernel _ Hf); lia).
  split; [unfold page_addr, LOW_MEM, Mem.PAGE_SIZE; lia|]. split; [done|]. split.
  { intros v Hv. apply (identity_walk m t Hid); rewrite ?Hpd; try done; [lia|..|lia].
    split; [done|]. unfold page_addr, LOW_MEM, Mem.PAGE_SIZE in Hend. lia. }
  split; [done|].
  destruct (child_page a nr t m Hpd Ht Ha Hend Hal Hid Hnr Hlt Hw Hfree) as (m1 & E1 & G & Hdu).
  destruct (copy_first_tables a t (nr - 1) (HIGH_MEMORY m) m1 (Init.init_task im)) as (m2 & E2 & Hdu2);
    try done; [lia|].
  pose proof (first_parent (setup_paging dir kb r) m) as Hp. cbv zeta in Hp.
  change (Init._pg_dir im) with dir in Hp.
  set (k := _ <| k_sched := _ |>) in Hp.
  assert (Ek : (Init.y_kern s) <| k_sched := first_sched <| last_pid := 1 |> |> = k)
    by (unfold k, m; by rewrite (Init.la_kern _ _ _ _ _ L)).
  pose proof (copy_process_run 1 f k _ (nr - 1) m1 (during dir a t (nr - 1) (HIGH_MEMORY m) 16)
    (fun _ _ => False) Hp ltac:(unfold NR_TASKS; lia) E1 G) as Hrun.
  assert (Hcp : exists k', copy_process 1 f k = Ret 1 k' /\ during dir a t (nr - 1) (HIGH_MEMORY m) 16 (k_mm k')).
  { destruct (copy_process 1 f k) as [e k'|w k'] eqn:Ec; unfold wp in Hrun; rewrite Ec in Hrun.
    - destruct Hrun as (He & mm2 & fc & ic & g & ch & Hdd & _ & _ & _ & _ & Hk'); [by rewrite E2|].
      exists k'. rewrite He. split; [done|]. by rewrite Hk'.
    - exfalso. apply Hrun. by rewrite E2. }
  destruct Hcp as (k' & Ec & Hd'). exists k'. split.
  { unfold sys_fork. rewrite (bind_zoom ksched_l _ _ _ 1 (first_sched <| last_pid := 1 |>)).
    2:{ change (lget ksched_l (Init.y_kern s)) with (k_sched (Init.y_kern s)).
        rewrite (Init.sd_sched _ _ _ _ _ S). apply first_pid. }
    change (lset ksched_l ?x (Init.y_kern s)) with ((Init.y_kern s) <| k_sched := x |>).
    rewrite Ek. exact Ec. }
  replace (nr - (t + 1)) with (nr - 1 - t) by lia. split; [lia|].
  apply (leaked_page dir a t (nr - 1) (HIGH_MEMORY m)); try done; try lia.
  rewrite Hh. unfold page_addr, LOW_MEM, Mem.PAGE_SIZE. lia.
Qed.
End first_fork.

(** The machine of Init.v: 32 MB, the kernel ends at 0x850000 and main memory
    starts with page 1881. *)
Lemma first_fork_leaks_witness :
  exists s k' m1 m2,
    Init.main Init.demo_image Init.demo_boot (Pos.to_nat (2 ^ 20))
        (Init.start Init.demo_image (setup_paging 0x850000 32768 (fun _ => 0)) Init.demo_video Init.demo_pc) =
      Ret 0x2000000 s /\
    sys_fork 9 Fork.demo_frame (Init.y_kern s) = Ret 1 k' /\
    refs (k_mm (Init.y_kern s)) 2000 = 0 /\ refs (k_mm k') 2000 = 1 /\ page_bit (k_mm k') 2000 = false /\
    get_free_page (k_mm k') = Ret (page_addr 7925) m1 /\ free_page (page_addr 7925) m1 = Ret tt m2 /\
    page_bit m2 7925 = true.
Proof.
  destruct (first_fork_leaks Init.demo_image Init.demo_boot (Pos.to_nat (2 ^ 20)) Init.demo_video Init.demo_pc
    (fun _ => 0) 1881 Fork.demo_frame Init.demo_bootable)
    as (nr & s & E & Hnr & _ & _ & Hfree & k' & Ek & _ & Hb & Hr & _ & m1 & m2 & E1 & _ & E2 & B2 & _).
  - rewrite positive_nat_Z. discriminate.
  - split; [by split|discriminate|reflexivity|discriminate].
  - assert (nr = 7935) as ->.
    { change (Init.__get_mem_size Init.demo_boot * 1024) with 0x2000000 in Hnr.
      unfold page_addr, LOW_MEM, Mem.PAGE_SIZE in Hnr. clear - Hnr. lia. }
    assert (Hp : 0 <= 2000 < MM_PAGES) by (split; [discriminate|reflexivity]).
    assert (Hn : 1881 <= 2000 < 7935) by (split; [discriminate|reflexivity]).
    assert (Hh : 1881 <= 2000 < 7935 - (Init.__get_mem_size Init.demo_boot / 4096 + 1))
      by (split; [discriminate|reflexivity]).
    exists s, k', m1, m2. split; [exact E|]. split; [exact Ek|].
    split; [exact (proj2 (Hfree 2000 Hp) Hn)|]. split; [exact (Hr 2000 Hh)|].
    split; [exact (proj2 (Hb 2000 Hp) Hh)|]. split; [exact E1|]. split; [exact E2|exact B2].
Defined.
